(* ===== verification/_CoqProject ===== *)
-Q . S2P
Prelude.v
Codec.v
Json.v
Sha256.v
Datetime.v
Float64.v
ReleaseLineage.v
Budget.v
Scope.v
Evidence.v
Ranking.v
AuthorizedRanking.v
Materialized.v
Trusted.v
Signing.v
UuidText.v
TicketIdentity.v
ContextTickets.v
ActionTickets.v
Leases.v
Protocols.v
ArticlePolicy.v
BulkPolicy.v
Release.v
ReleaseFacts.v
Promotion.v
PromotionFacts.v
Egress.v
Inference.v
InferenceFacts.v
Canonical.v
FileChanges.v
FileProvider.v
FileFacts.v
FilePages.v
FileReads.v
ControlContracts.v
Control.v
ControlFacts.v
FileScan.v
ScanFacts.v
ScanPins.v
ScanReplay.v
SupplyPages.v
SupplyFacts.v
SupplyBridge.v
BridgeFacts.v
SupplyRun.v
Pyrepr.v
Kernel.v
KernelFacts.v
KernelRun.v
Windows.v
DeliveryEvidence.v
Package.v
Citation.v
ContextRun.v
Runtime.v
RuntimeFacts.v
RuntimeRefusals.v
CitationRefusals.v
RuntimeRun.v
Ingress.v
IngressFacts.v
IngressRun.v
