(* ===== verification/Prelude.v ===== *)
(** * A verification library of the Context Engine

    The Context Engine (src/engine) answers a caller's request for context with
    excerpts of an Organization's Articles that this caller may read now, inside a
    finite budget, and seals what it delivers.  Around that core stand the signed
    read and action tickets, the leases of Supply workers, the visibility policy of
    Articles, the release gate that decides which profile is active, the grants and
    accounting of model calls, and the Control plane that scans File sources.

    ** The parts and their files

    Request path, in the order of one resolve:
    - [Trusted]: the proofs of a request ([runtime/policy_epoch.py], [actor.py],
      [organization.py], [scope_authority.py], [invocation.py], [delivery.py],
      [trusted_inputs.py]); every proof holds a lifetime token, a cell of one store.
    - [Scope]: the effective-scope oracle ([runtime/scope.py], the narrowing of
      [runtime/contracts.py]): seven trusted operands and the caller's narrowing.
    - [Ranking]: candidate submissions and pre-kernel fusion
      ([runtime/candidate_ranking.py], [prekernel_fusion.py]).
    - [Materialized]: the seam to the retained database transaction
      ([runtime/materialized.py]), a class whose operations may raise.
    - [Evidence]: authorized projections, Evidence and package content
      ([runtime/evidence.py]).
    - [AuthorizedRanking]: ranks rejoined after authorization and packing
      ([runtime/authorized_ranking.py]).
    - [Budget]: budgets, the shared meter and its reservations
      ([runtime/budget.py]).
    - [Pyrepr], [Kernel], [KernelFacts], [KernelRun]: the authorization kernel, the
      sealed selector, one-hop expansion and the final veto
      ([runtime/construction.py]), its theorems, and one evaluated request.
    - [ReleaseLineage] ([runtime/release_lineage.py], [engine/tokenizer_accounting.py],
      the profiles of [supply/embeddings.py]): the active Runtime release.
    - [Package] ([runtime/contracts.py], [package_digest.py], [egress_payload.py], the
      digest functions of [context_engine_contracts]): the package, its public
      document and its digests.
    - [Citation] ([runtime/citation.py]) and [ContextRun] ([runtime/context_run.py]):
      opaque locators and durable run records.
    - [Runtime] ([runtime/capabilities.py], [construction.py]): the capability
      preflight, the egress gate and the whole of [Runtime.resolve], over the kernel,
      the store of meters and a log of calls to the durable ports.  [MeteredIndex] is
      the interface of the candidate index, [MeterDiscipline] its law.
      [RuntimeFacts], [RuntimeRefusals] and [CitationRefusals] have the theorems;
      [RuntimeRun] evaluates an Acquire and an opened citation.
    - [Windows] ([runtime/fragment_window.py], the kernel's window expansion): the
      bounded window around an authorized Fragment, read through a composed reader.
    - [DeliveryEvidence] ([runtime/delivery_evidence.py]): single-use evidence that
      binds a private destination to a Membership.
    - [Ingress] ([adapters/http/app.py] [resolve_context], [authentication.py],
      [scope_authority.py], [route_policy.py]): the public route from authenticated
      facts to [Runtime.resolve] and back; [IngressFacts] has its theorems and
      [IngressRun] evaluates a private delivery.

    Signed capabilities:
    - [Signing]: canonical signed documents and keyrings
      ([runtime/_ticket_signing.py]); [TicketIdentity] ([ticket_identity.py]);
      [ContextTickets] ([context_access_ticket.py]); [ActionTickets]
      ([action_ticket.py]); [Leases] ([supply/jobs.py]); [Protocols] puts the three
      protocols side by side.

    Supply:
    - [SupplyPages] ([supply/execution.py]): the pages of an untrusted connector and
      their staged bytes; [SupplyFacts] proves that they are read back.
    - [SupplyBridge] ([persistence/supply_execution.py]): a leased connector execution
      over any connector and staging transaction; [BridgeFacts] has its theorem and
      [SupplyRun] evaluates one run.

    Policy and release:
    - [ArticlePolicy] ([engine/article_access_policy.py]) and [BulkPolicy]
      ([control/bulk_article_policy.py]).
    - [Release], [ReleaseFacts] ([learning/contracts.py], [evaluation.py]) and
      [Promotion], [PromotionFacts] ([learning/promotion.py], [module.py]).

    Model calls:
    - [Egress] ([runtime/egress.py], [egress_payload.py]): single-use egress grants.
    - [Inference], [InferenceFacts] ([runtime/model_inference.py]): the port that
      reserves budget, obtains and redeems a grant, calls the provider and accounts.

    File sources and Control:
    - [FileChanges] ([control/contracts.py], [file_change_pages.py]):
      capabilities, source versions, manifests, pages and their signed documents;
      [Canonical] holds what they need of RFC 8785 and Ed25519.
    - [FileProvider] ([adapters/file_source.py]): the scan reference, the changes
      against a baseline, cursors and one page; [FileFacts], [FilePages] and
      [FileReads] hold its lemmas.
    - [ControlContracts], [Control] ([control/authority.py], [module.py],
      [minimal_ui.py] and the command records): single-use control calls and every
      operation of Context Control; [ControlFacts] has its theorems.
    - [FileScan] ([applications/file_scan.py]): the loop that reads pages, has them
      accepted and schedules imports; [ScanFacts], [ScanPins] and [ScanReplay] have
      its theorems.

    Shared: [Prelude] (exceptions, Python values, stable sort, dictionaries,
    automation), [Codec] (UTF-8, framing, hexadecimal, base64url of [_opaque.py]),
    [Json] ([json.loads] and [json.dumps]), [UuidText] ([UUID(text)]), [Sha256] (SHA-256 and HMAC), [Datetime],
    [Float64].

    ** How the code is represented

    - A function that may raise returns [result]; an exception keeps its class and
      loses its message.  [try]/[except] is [try_except] with the caught classes.
    - A [str] is the list of its code points, a [bytes] the list of its bytes, an
      [int] is [Z], a [float] is IEEE binary64, a dict is an association list in
      insertion order, a [frozenset] is a [gset].
    - A parameter annotated [object] has type [obj]; a parameter annotated with a
      class has that class's type, which discharges its nominal [type(x) is] test.
    - A mutable shared object (lifetime token, meter, reservation, promotion scope)
      is a cell of a store, and an operation returns the store it leaves; where the
      code compares with [is], the model compares cell numbers.  Operations under a
      lock are one step.
    - Clocks, nonces, durable epochs, directories, authenticators and database
      transactions are arguments: functions or classes that may answer anything,
      or raise.  What a theorem needs of them is a named hypothesis or class law,
      and its witness instantiates them.
    - Effects on a Provider, channel or store are returned as the list of calls.
    - SHA-256 and HMAC are computed.  No theorem assumes them injective: it
      concludes equality, or that the two byte strings which the code hashed there
      collide.
    - [json.loads] raises [RecursionError] when containers nest deeper than the room left
      on the interpreter's stack.  How much there is depends on the platform and the
      caller: it is the class [NestingLimit], with room for the shallow documents that
      the engine itself writes as its law; witnesses take CPython's 10000.
    - RFC 8785 canonicalization (third-party) is the argument [canon] with the laws
      of [Canonicalizer]; [datetime.fromisoformat] is an argument with the laws of
      [IsoParser]; the Unicode word splitter of the lexical ranker and the
      set of printable characters are arguments as well.

    ** What the theorems show

    - Authorization ([Scope], [Kernel]): a target is in scope exactly when every
      trusted operand admits it; the kernel projects exactly the authorized
      candidates; everything delivered was authorized in this request and is bound
      to it; the final veto asks the Policy Epoch again; one-hop neighbours stay
      authorized; an honest selection is delivered; unauthorized candidates do not
      influence the ranking of the others.
    - Content ([Evidence], [Materialized]): packages hold exactly one linked Evidence
      per projection, seals determine what they cover, rendered bodies are
      unambiguous, and closing a lifetime revokes.
    - Resolve ([RuntimeFacts], [RuntimeRefusals], [CitationRefusals]): a delivered
      package holds exactly authorized projections, and an opened citation exactly its
      redeemed target; locators, grant and run record are those of the package handed
      out, in order; a run is recorded exactly when an outcome is returned; the
      reasons for not opening a citation cannot be told apart; an unsupported request
      does no work and is answered exactly when the content-free gates pass; no path
      corrupts a ledger.
    - Route ([IngressFacts]): a resolved package belongs to the authenticated caller,
      and a private binding is delivered to only with evidence redeemed in the same
      request; a caller who is not proven learns nothing and changes nothing.
    - Windows: an expansion inherits exactly what the retained transaction reads, in
      the anchor's Revision, whatever the composed reader answers.
    - Budget: charged plus reserved usage stays within the budget over every
      interleaving; packing is greedy and bounded.
    - Tickets and leases: verification accepts exactly what minting produces;
      accepted claims are bound to the caller's own facts; issued tickets are
      accepted during their lifetime; refusals are uniform, but for the
      [RecursionError] of a deep lease document, which the lease codec does not catch
      ([deep_lease_header_escapes]); the protocols are disjoint; decoding terminates, and
      what it raises is among the errors that the ticket protocols expect.
    - Supply: a connector execution ends within its page, byte and no-progress bounds and
      accepts only chained pages of the leased job; staged pages are read back exactly;
      the reader lets [AttributeError] and [RecursionError] through
      ([reader_lets_errors_through]).
    - Policy: the cascade has no broad fallback, the source floor is the meet, bulk
      commits bind and reach exactly the selection.
    - Release: a constructed candidate is evaluated and verifies, an evaluation
      admits one release, a receipt requires every veto, a call promotes at most
      once over every history, an authorized passing release is promoted, errors
      are closed.
    - Model calls: bytes reach a provider only after the redemption of a grant for
      their digest, results stay among the authorized projections, every run is
      accounted.
    - Control: over every history each use of the store was authorized for that
      operation, in time and once; refusals are uniform.
    - File scan: an honest run delivers every change once and ends; pages of one
      scan agree; a continued page follows a signed checkpoint; an unchanged source
      is left alone, except after a change of the scan bound
      ([rebound_scan_misses_the_baseline]).

    ** Bounds and fuel

    [Json.scan_value] runs on fuel [2 * n + 1] for a text of length [n]; every level
    of nesting consumes a character and at most two calls, and [Json] proves that the
    fuel never runs out.  [Prelude.replace_in] and the loops over texts run on the
    length of the text.  The one-hop loop of [Kernel] runs the code's own page limit.
    [FileScan.scan_loop] runs on fuel; [ScanFacts] proves that one turn for each
    change and one more suffice in an honest environment.
    [SupplyBridge.turns] runs on fuel; [BridgeFacts] proves that one turn more than the
    page limit suffices, for any connector.
    Framing is injective for lengths that fit eight bytes ([sized]).  Timestamps and
    UUIDs are parsed as texts that print back unchanged.  Of the interpreter's
    limits only the nesting of [json.loads] and the length of decimal integers are
    modelled, not its memory.

    ** Not modelled

    SQL and row mapping ([engine/persistence], [migrations]), credential
    parsing, wire models and the other routes of the HTTP adapter, MCP and connector
    adapters, the file-system traversal below [FileProvider], the other applications
    and the scripts (process start-up and I/O), the Markdown
    and document compilers, link extraction and embedding providers of [engine/supply], and the
    evaluation corpus tooling of [engine/learning].  The manifest lists each with
    its reason. *)

From Stdlib Require Export ZArith Lia.
From stdpp Require Export base gmap sets list strings sorting.

Open Scope Z_scope.

(** ** Exceptions and fallible code

    One constructor per exception class the modelled code raises or catches.
    Messages are static text in the source and are not part of the model.
    [FuelExhausted] is not an exception of the program: it marks the end of the
    fuel of a recursion that is not structural, and each such function comes with
    the theorem that it never returns it. *)
Inductive SupplyExecutionBoundReason := PAGE_COUNT | PAGE_BYTES | CUMULATIVE_BYTES | NO_PROGRESS.
#[export] Instance SupplyExecutionBoundReason_eq_dec : EqDecision SupplyExecutionBoundReason.
Proof. solve_decision. Defined.

Inductive exn : Type :=
  | ValueError
  | UnicodeEncodeError
  | TypeError
  | OverflowError
  | KeyError
  | PackageBudgetExceeded
  | TokenizerUnavailable
  | RuntimeConfigurationError
  | PolicyEpochAuthorityUnavailable
  | PolicyEpochPortFailure
  | FragmentWindowNotAvailable
  | ReleasePromotionRejected
  | ReleasePromotionUnavailable
  | ReleaseOperatorAuthenticationRejected
  | ReleaseOperatorAuthorityUnavailable
  | ReleaseEvaluationUnavailable
  | AttributeError
  | UnboundLocalError
  | TimeoutError
  | IndexError
  | LookupError
  | RuntimeError
  | RecursionError
  | SourceNotAvailable
  | SourceScanRefused
  | SourceControlUnavailable
  | ControlOperatorAuthenticationRejected
  | ControlOperatorAuthorityUnavailable
  | DeliveryEvidenceNotAvailable
  | DeliveryEvidenceAuthorityUnavailable
  | CitationLocatorNotAvailable
  | CitationAuthorityUnavailable
  | StaleGoldenLineage
  | InvalidTrustedScopeSnapshot
  | EgressGrantIssuanceUnavailable
  | MaterializedCandidateDiscoveryUnavailable
  | CandidateIndexUnavailable
  | UnicodeDecodeError
  | JSONDecodeError
  | TicketNotAvailable
  | WorkNotAvailable (lease_digest : list Z)
  | ContextRunPersistenceUnavailable
  | ActiveReleaseUnavailable
  | UnsupportedCapability
  | InvalidAuthenticationContext
  | OrganizationVerificationRejected
  | MembershipNotCurrent
  | MembershipAuthorityUnavailable
  | ScopeAuthorityUnavailable
  | TransportAuthenticationFailed
  | TrustedAuthorityUnavailable
  | ResolveApplicationForbidden
  | ResolveRateLimited
  | SupplyStagedPageByteLimitExceeded
  | SupplyExecutionBoundExceeded (reason : SupplyExecutionBoundReason)
  | SupplyBridgeUnavailable
  | AssertionError
  | SQLAlchemyError
  | FuelExhausted.

#[export] Instance exn_eq_dec : EqDecision exn.
Proof. solve_decision. Defined.

(** [except ValueError] also catches its subclasses. *)
Definition is_ValueError (e : exn) : bool :=
  match e with
  | ValueError | UnicodeEncodeError | UnicodeDecodeError | JSONDecodeError | InvalidTrustedScopeSnapshot
  | InvalidAuthenticationContext | SupplyStagedPageByteLimitExceeded => true
  | _ => false end.

Definition is_TypeError (e : exn) : bool :=
  match e with TypeError => true | _ => false end.

Inductive result (A : Type) : Type :=
  | Ok (a : A)
  | Err (e : exn).
Arguments Ok {A} a.
Arguments Err {A} e.

#[export] Instance result_eq_dec {A} `{!EqDecision A} : EqDecision (result A).
Proof. solve_decision. Defined.

#[export] Instance result_ret : MRet result := λ A a, Ok a.
#[export] Instance result_bind : MBind result := λ A B f m,
  match m with Ok a => f a | Err e => Err e end.
#[export] Instance result_fmap : FMap result := λ A B f m,
  match m with Ok a => Ok (f a) | Err e => Err e end.

(** [raise e] unless the condition holds: the shape of every guard. *)
Definition require (b : bool) (e : exn) : result unit :=
  if b then Ok tt else Err e.

(** [try: m except h: k], where [h] selects the caught classes. *)
Definition try_except {A} (m : result A) (h : exn → bool) (k : result A) : result A :=
  match m with
  | Ok a => Ok a
  | Err e => if h e then k else Err e
  end.

Definition is_ok {A} (m : result A) : bool :=
  match m with Ok _ => true | Err _ => false end.

(** A generator expression or loop whose body may raise, left to right. *)
Fixpoint map_result {A B} (f : A → result B) (l : list A) : result (list B) :=
  match l with
  | [] => Ok []
  | x :: l => y ← f x; ys ← map_result f l; Ok (y :: ys)
  end.

Fixpoint each {A} (f : A → result unit) (l : list A) : result unit :=
  match l with
  | [] => Ok tt
  | x :: l => f x ;; each f l
  end.

Lemma Ok_inj {A} (a b : A) : Ok a = Ok b → a = b.
Proof. congruence. Qed.

Lemma bind_Ok {A B} (m : result A) (f : A → result B) b :
  m ≫= f = Ok b ↔ ∃ a, m = Ok a ∧ f a = Ok b.
Proof. destruct m; simpl; naive_solver. Qed.

Lemma bind_Err {A B} (m : result A) (f : A → result B) e :
  m ≫= f = Err e ↔ m = Err e ∨ ∃ a, m = Ok a ∧ f a = Err e.
Proof. destruct m; simpl; naive_solver. Qed.

Lemma require_Ok b e u : require b e = Ok u ↔ b = true.
Proof. destruct b, u; simpl; naive_solver. Qed.

Lemma require_true e : require true e = Ok tt.
Proof. reflexivity. Qed.

Lemma map_result_Ok {A B} (f : A → result B) l l' :
  map_result f l = Ok l' ↔ Forall2 (λ x y, f x = Ok y) l l'.
Proof.
  revert l'. induction l as [|x l IH]; intros l'; simpl.
  - split; [naive_solver | by inversion 1].
  - split.
    + intros (y & Hy & H)%bind_Ok. apply bind_Ok in H as (ys & Hys & [= <-]).
      constructor; [done | by apply IH].
    + inversion 1 as [|?? ?? Hxy Hl]; simplify_eq. rewrite Hxy; simpl.
      by rewrite (proj2 (IH _) Hl).
Qed.

Lemma map_result_pure {A B} (f : A → result B) (g : A → B) l :
  (∀ x, x ∈ l → f x = Ok (g x)) → map_result f l = Ok (g <$> l).
Proof.
  induction l as [|x l IH]; intros H; simpl; [done|].
  rewrite H by (by left). simpl. rewrite IH; [done|].
  intros y Hy. apply H. by right.
Qed.

Lemma each_Ok {A} (f : A → result unit) l u :
  each f l = Ok u ↔ Forall (λ x, f x = Ok tt) l.
Proof.
  destruct u. induction l as [|x l IH]; simpl; [naive_solver|].
  rewrite bind_Ok, Forall_cons, <- IH. split.
  - by intros ([] & -> & ->).
  - intros [-> ->]. by exists tt.
Qed.

(** ** Dynamic values

    A parameter that the source annotates [object] and tests with [type(x) is]
    is modelled on this type; a parameter annotated with a class is modelled
    at that class's own type, which discharges the nominal test. *)
Inductive obj : Type :=
  | ONone
  | OBool (b : bool)
  | OInt (z : Z)
  | OStr (s : list Z)
  | OBytes (b : list Z)
  | OOther.

(** ** Strings and bytes

    A [str] is the list of its code points and a [bytes] the list of its byte
    values, so that [len], slicing, iteration and lexicographic comparison are
    the list operations. *)
Abbreviation pystr := (list Z) (only parsing).
Abbreviation pybytes := (list Z) (only parsing).

Definition char_ok (c : Z) : Prop := 0 ≤ c ≤ 0x10FFFF.
Definition byte_ok (b : Z) : Prop := 0 ≤ b < 256.

Definition ascii_code (a : Ascii.ascii) : Z := Z.of_N (Ascii.N_of_ascii a).
Fixpoint lit (s : string) : pystr :=
  match s with
  | EmptyString => []
  | String a s => ascii_code a :: lit s
  end.

(** [len] as an exact integer. *)
Definition len {A} (l : list A) : Z := Z.of_nat (length l).

(** [str.isspace] of one character: the Unicode characters that are bidirectional
    WS, B or S or of category Zs. *)
Definition is_space (c : Z) : bool :=
  ((9 <=? c) && (c <=? 13)) || ((28 <=? c) && (c <=? 32)) || (c =? 0x85)
  || (c =? 0xA0) || (c =? 0x1680) || ((0x2000 <=? c) && (c <=? 0x200A))
  || (c =? 0x2028) || (c =? 0x2029) || (c =? 0x202F) || (c =? 0x205F)
  || (c =? 0x3000).

(** [str.isspace]: nonempty and every character is whitespace. *)
Definition isspace (s : pystr) : bool :=
  match s with [] => false | _ => forallb is_space s end.

(** [not value or value.isspace()] *)
Definition blank (s : pystr) : bool :=
  match s with [] => true | _ => isspace s end.

Fixpoint lstrip (s : pystr) : pystr :=
  match s with
  | [] => []
  | c :: s' => if is_space c then lstrip s' else s
  end.
Definition strip (s : pystr) : pystr := reverse (lstrip (reverse (lstrip s))).

Fixpoint startswith (p s : pystr) : bool :=
  match p, s with
  | [], _ => true
  | _ :: _, [] => false
  | x :: p', y :: s' => (x =? y) && startswith p' s'
  end.

(** [s.removeprefix(prefix)] *)
Definition removeprefix (prefix s : pystr) : pystr := if startswith prefix s then drop (length prefix) s else s.

(** [s.replace(old, new)] of a nonempty [old]; the fuel is the length of [s]. *)
Fixpoint replace_in (n : nat) (old new s : pystr) : pystr :=
  match n, s with
  | S n', c :: s' =>
      if startswith old s then new ++ replace_in n' old new (drop (length old) s)
      else c :: replace_in n' old new s'
  | _, _ => s
  end.
Definition replace (old new s : pystr) : pystr := replace_in (length s) old new s.

(** [sep.join(xs)] *)
Fixpoint join (sep : pystr) (xs : list pystr) : pystr :=
  match xs with
  | [] => []
  | [x] => x
  | x :: xs' => x ++ sep ++ join sep xs'
  end.

(** [character in alphabet] *)
Definition mem (c : Z) (alphabet : pystr) : bool := existsb (Z.eqb c) alphabet.
Definition hex_alphabet : pystr := lit "0123456789abcdef".
Definition all_in (alphabet s : pystr) : bool := forallb (λ c, mem c alphabet) s.

(** The recurring lowercase SHA-256 shape: exactly 64 hexadecimal digits. *)
Definition is_sha256_hex (s : pystr) : bool :=
  (len s =? 64) && all_in hex_alphabet s.

(** [len(xs) != len(set(xs))] negated: no duplicates. *)
Definition nodupb {A} `{!EqDecision A} (l : list A) : bool := bool_decide (NoDup l).

Lemma mem_spec c s : mem c s = true ↔ c ∈ s.
Proof.
  unfold mem. rewrite existsb_exists. split.
  - intros (x & Hx & ->%Z.eqb_eq). by apply list_elem_of_In.
  - intros H. exists c. rewrite Z.eqb_refl. by apply list_elem_of_In in H.
Qed.

Lemma len_nil {A} : len (@nil A) = 0.
Proof. reflexivity. Qed.
Lemma len_cons {A} (x : A) l : len (x :: l) = 1 + len l.
Proof. unfold len. simpl length. lia. Qed.
Lemma len_app {A} (l k : list A) : len (l ++ k) = len l + len k.
Proof. unfold len. rewrite length_app. lia. Qed.
Lemma len_nonneg {A} (l : list A) : 0 ≤ len l.
Proof. unfold len. lia. Qed.

(** ** Total orders as the code compares values

    [py_leb a b] is [not (b < a)].  [PyTotal] is what [sorted] relies on;
    [PyAntisym] adds that mutually ordered values are the same value. *)
Class PyOrd (A : Type) := py_leb : A → A → bool.
Class PyTotal (A : Type) `{!PyOrd A} := {
  py_total : ∀ a b : A, py_leb a b = true ∨ py_leb b a = true;
  py_trans : ∀ a b c : A, py_leb a b = true → py_leb b c = true → py_leb a c = true
}.
Class PyAntisym (A : Type) `{!PyOrd A} :=
  py_antisym : ∀ a b : A, py_leb a b = true → py_leb b a = true → a = b.

#[export] Instance Z_ord : PyOrd Z := Z.leb.
#[export] Instance Z_total : PyTotal Z.
Proof. split; unfold py_leb, Z_ord; intros; lia. Qed.
#[export] Instance Z_antisym : PyAntisym Z.
Proof. unfold PyAntisym, py_leb, Z_ord. intros; lia. Qed.

(** Tuple comparison: the first components decide unless they are equal. *)
Definition pair_leb {A B} `{!PyOrd A, !PyOrd B} (p q : A * B) : bool :=
  if py_leb p.1 q.1 then
    if py_leb q.1 p.1 then py_leb p.2 q.2 else true
  else false.
#[export] Instance pair_ord {A B} `{!PyOrd A, !PyOrd B} : PyOrd (A * B) := pair_leb.

#[export] Instance pair_total {A B} `{!PyOrd A, !PyOrd B, !PyTotal A, !PyTotal B} :
  PyTotal (A * B).
Proof.
  split; [intros [a b] [a' b'] | intros [a b] [a' b'] [a'' b'']];
    change (py_leb (A := A * B)) with (pair_leb (A := A) (B := B)); unfold pair_leb; simpl.
  - destruct (py_leb a a') eqn:E1, (py_leb a' a) eqn:E2; try tauto.
    + apply py_total.
    + destruct (py_total a a'); congruence.
  - destruct (py_leb a a') eqn:E1; [|done]. destruct (py_leb a' a'') eqn:E2; [|done].
    rewrite (py_trans a a' a'') by done.
    destruct (py_leb a'' a) eqn:E3; [|done].
    rewrite (py_trans a'' a a'), (py_trans a' a'' a) by done. apply py_trans.
Qed.

#[export] Instance pair_antisym {A B} `{!PyOrd A, !PyOrd B, !PyAntisym A, !PyAntisym B} :
  PyAntisym (A * B).
Proof.
  intros [a b] [a' b'].
  change (py_leb (A := A * B)) with (pair_leb (A := A) (B := B)); unfold pair_leb; simpl.
  destruct (py_leb a a') eqn:E1; [|done]. destruct (py_leb a' a) eqn:E2; [|done].
  intros. f_equal; by apply py_antisym.
Qed.

(** Lexicographic comparison of [str], [bytes] and [tuple]. *)
Fixpoint list_leb {A} `{!PyOrd A} (l k : list A) : bool :=
  match l, k with
  | [], _ => true
  | _ :: _, [] => false
  | a :: l', b :: k' =>
      if py_leb a b then if py_leb b a then list_leb l' k' else true else false
  end.
#[export] Instance list_ord {A} `{!PyOrd A} : PyOrd (list A) := list_leb.

#[export] Instance list_total {A} `{!PyOrd A, !PyTotal A} : PyTotal (list A).
Proof.
  split; change (py_leb (A := list A)) with (list_leb (A := A)).
  - induction a as [|x l IH]; intros [|y k]; simpl; try tauto.
    destruct (py_leb x y) eqn:E1, (py_leb y x) eqn:E2; try tauto; auto.
    destruct (py_total x y); congruence.
  - induction a as [|x l IH]; intros [|y k] [|z m]; simpl; try done.
    destruct (py_leb x y) eqn:E1; [|done]. destruct (py_leb y z) eqn:E2; [|done].
    rewrite (py_trans x y z) by done. destruct (py_leb z x) eqn:E3; [|done].
    rewrite (py_trans z x y), (py_trans y z x) by done. apply IH.
Qed.

#[export] Instance list_antisym {A} `{!PyOrd A, !PyAntisym A} : PyAntisym (list A).
Proof.
  intros l. change (py_leb (A := list A)) with (list_leb (A := A)).
  induction l as [|x l IH]; intros [|y k]; simpl; try done.
  destruct (py_leb x y) eqn:E1; [|done]. destruct (py_leb y x) eqn:E2; [|done].
  intros. f_equal; [by apply py_antisym | by apply IH].
Qed.

(** ** [sorted(xs, key=key)]: the stable sort

    Insertion from the right keeps elements with equal keys in their original
    order, which determines the result of any stable sort. *)
Section sorted.
Context {A K : Type} `{!PyOrd K} (key : A → K).

Fixpoint sort_insert (x : A) (l : list A) : list A :=
  match l with
  | [] => [x]
  | y :: l' => if py_leb (key x) (key y) then x :: l else y :: sort_insert x l'
  end.

Fixpoint sorted_by (l : list A) : list A :=
  match l with [] => [] | x :: l' => sort_insert x (sorted_by l') end.

Definition key_le (x y : A) : Prop := py_leb (key x) (key y) = true.

Lemma sort_insert_perm x l : sort_insert x l ≡ₚ x :: l.
Proof.
  induction l as [|y l IH]; simpl; [done|]. destruct (py_leb _ _); [done|].
  rewrite IH. apply Permutation_swap.
Qed.

Lemma sorted_by_perm l : sorted_by l ≡ₚ l.
Proof.
  induction l as [|x l IH]; simpl; [done|]. by rewrite sort_insert_perm, IH.
Qed.

Lemma elem_of_sorted_by x l : x ∈ sorted_by l ↔ x ∈ l.
Proof. by rewrite sorted_by_perm. Qed.

Lemma length_sorted_by l : length (sorted_by l) = length l.
Proof. apply Permutation_length, sorted_by_perm. Qed.

Lemma NoDup_sorted_by l : NoDup (sorted_by l) ↔ NoDup l.
Proof. by rewrite sorted_by_perm. Qed.

Context `{!PyTotal K}.

Lemma key_le_trans : Transitive key_le.
Proof. intros x y z. apply py_trans. Qed.

Lemma sort_insert_sorted x l :
  StronglySorted key_le l → StronglySorted key_le (sort_insert x l).
Proof.
  induction 1 as [|y l Hl IH Hy]; simpl; [by repeat constructor|].
  destruct (py_leb (key x) (key y)) eqn:E.
  - constructor; [by constructor|]. constructor; [done|].
    eapply Forall_impl; [exact Hy|]. intros z. by apply key_le_trans.
  - constructor; [done|]. rewrite sort_insert_perm. constructor; [|done].
    destruct (py_total (key x) (key y)); [congruence|done].
Qed.

Lemma sorted_by_sorted l : StronglySorted key_le (sorted_by l).
Proof.
  induction l as [|x l IH]; simpl; [constructor|]. by apply sort_insert_sorted.
Qed.

(** Elements whose keys tie are equal: the sort depends on the multiset only. *)
Lemma sorted_by_unique l k :
  (∀ x y, x ∈ l → y ∈ l → key_le x y → key_le y x → x = y) →
  l ≡ₚ k → sorted_by l = sorted_by k.
Proof.
  intros Hinj Hp. apply (StronglySorted_unique_strong key_le).
  - intros x y Hx Hy. rewrite elem_of_sorted_by in Hx, Hy. apply Hinj; [done|].
    by rewrite Hp.
  - apply sorted_by_sorted.
  - apply sorted_by_sorted.
  - by rewrite !sorted_by_perm.
Qed.

Lemma sorted_by_fixed l : StronglySorted key_le l → sorted_by l = l.
Proof.
  induction 1 as [|x l Hl IH Hx]; simpl; [done|]. rewrite IH.
  destruct l as [|y l]; simpl; [done|]. apply Forall_cons in Hx as [Hxy _].
  unfold key_le in Hxy. by rewrite Hxy.
Qed.
End sorted.

(** The sort of a list only looks at the keys of its own elements. *)
Lemma sorted_by_map {A B K} `{!PyOrd K} (f : A → B) (k : A → K) (k' : B → K) l :
  (∀ x, x ∈ l → k' (f x) = k x) → sorted_by k' (f <$> l) = f <$> sorted_by k l.
Proof.
  induction l as [|x l IH]; intros H; [done|].
  rewrite fmap_cons. cbn [sorted_by]. rewrite IH by (intros y Hy; apply H; by right).
  assert (Hx : k' (f x) = k x) by (apply H; by left).
  assert (Hs : ∀ y, y ∈ sorted_by k l → k' (f y) = k y).
  { intros y Hy. rewrite elem_of_sorted_by in Hy. apply H. by right. }
  clear -Hx Hs. induction (sorted_by k l) as [|y m IH]; [done|].
  rewrite fmap_cons. cbn [sort_insert]. rewrite Hx, (Hs y) by (by left).
  destruct (py_leb _ _); [done|]. rewrite fmap_cons. f_equal. apply IH. intros z Hz. apply Hs. by right.
Qed.

(** Plain [sorted(xs)]. *)
Definition sorted {A} `{!PyOrd A} (l : list A) : list A := sorted_by (λ x, x) l.

Lemma sorted_perm_eq {A} `{!PyOrd A, !PyTotal A, !PyAntisym A} (l k : list A) :
  l ≡ₚ k → sorted l = sorted k.
Proof. apply (sorted_by_unique (λ x, x)). intros x y _ _. apply py_antisym. Qed.

#[export] Instance sorted_proper {A} `{!PyOrd A, !PyTotal A, !PyAntisym A} :
  Proper ((≡ₚ) ==> (=)) (sorted (A := A)).
Proof. intros l k. apply sorted_perm_eq. Qed.

(** ** Insertion-ordered dictionaries

    [dict] keeps the position of a key's first insertion and its last value. *)
Section dict.
Context {K V : Type} `{!EqDecision K}.

Fixpoint dict_get (d : list (K * V)) (k : K) : option V :=
  match d with
  | [] => None
  | (k', v) :: d' => if decide (k = k') then Some v else dict_get d' k
  end.

Fixpoint dict_set (d : list (K * V)) (k : K) (v : V) : list (K * V) :=
  match d with
  | [] => [(k, v)]
  | (k', v') :: d' => if decide (k = k') then (k', v) :: d' else (k', v') :: dict_set d' k v
  end.

Lemma dict_get_set d k v k' :
  dict_get (dict_set d k v) k' = if decide (k' = k) then Some v else dict_get d k'.
Proof.
  induction d as [|[a b] d IH]; simpl; repeat (case_decide; simplify_eq; simpl); auto.
Qed.

Lemma dict_keys_set d k v :
  (dict_set d k v).*1 = if decide (k ∈ d.*1) then d.*1 else d.*1 ++ [k].
Proof.
  induction d as [|[a b] d IH]; [done|].
  cbn [dict_set]. rewrite !fmap_cons. cbn [fst].
  destruct (decide (k = a)) as [->|Hne]; rewrite fmap_cons; cbn [fst].
  - rewrite decide_True by (by left). done.
  - rewrite IH. repeat case_decide; set_solver.
Qed.

Lemma dict_get_Some d k v : NoDup d.*1 → dict_get d k = Some v ↔ (k, v) ∈ d.
Proof.
  induction d as [|[a b] d IH]; simpl; intros Hnd; [set_solver|].
  apply NoDup_cons in Hnd as [Ha Hnd]. case_decide as Heq; simplify_eq.
  - rewrite elem_of_cons. split; [naive_solver|]. intros [|Hin]; [naive_solver|].
    destruct Ha. apply list_elem_of_fmap. by exists (a, v).
  - rewrite IH, elem_of_cons by done. naive_solver.
Qed.

Lemma dict_get_None d k : dict_get d k = None ↔ k ∉ d.*1.
Proof.
  induction d as [|[a b] d IH]; simpl; [set_solver|].
  case_decide as Heq; simplify_eq; [set_solver|]. rewrite IH. set_solver.
Qed.
Lemma dict_get_perm d d' k : NoDup d.*1 → d ≡ₚ d' → dict_get d k = dict_get d' k.
Proof.
  intros Hnd Hp. assert (Hnd' : NoDup d'.*1) by (by rewrite <- Hp).
  apply option_eq. intros v. by rewrite !dict_get_Some, Hp.
Qed.
End dict.

(** ** Identifiers *)

(** [uuid.UUID]: a 128-bit integer; [.bytes] is its big-endian form. *)
Record UUID := mkUUID { uuid_int : Z }.
#[export] Instance UUID_eq_dec : EqDecision UUID.
Proof. solve_decision. Defined.
#[export] Instance UUID_countable : Countable UUID.
Proof. apply (inj_countable' uuid_int mkUUID). by intros []. Defined.
Definition uuid_ok (u : UUID) : Prop := 0 ≤ uuid_int u < 2 ^ 128.

(** ** Automation *)

(** Break the monadic hypotheses and the guards of a run that returned [Ok]. *)
Ltac run_ok :=
  repeat match goal with
  | H : _ ≫= _ = Ok _ |- _ => apply bind_Ok in H as (? & ? & ?)
  | H : require _ _ = Ok _ |- _ => apply require_Ok in H
  | H : each _ _ = Ok _ |- _ => apply each_Ok in H
  | H : Ok _ = Ok _ |- _ => injection H as H; subst
  | H : Err _ = Ok _ |- _ => discriminate H
  | H : Ok _ = Err _ |- _ => discriminate H
  | H : mret _ = Ok _ |- _ => injection H as H; subst
  | H : negb _ = true |- _ => apply negb_true_iff in H
  | H : _ && _ = true |- _ => apply andb_true_iff in H as [? ?]
  | H : _ || _ = false |- _ => apply orb_false_iff in H as [? ?]
  | H : bool_decide _ = true |- _ => apply bool_decide_eq_true in H
  | H : bool_decide _ = false |- _ => apply bool_decide_eq_false in H
  end.

(** [m] raises only exceptions of [P]. *)
Definition raises {A} (P : exn → bool) (m : result A) : Prop := ∀ e, m = Err e → P e = true.

Section Raises.
Context (P : exn → bool).
Lemma raises_Ok {A} (a : A) : raises P (Ok a).
Proof. by intros e [=]. Qed.
Lemma raises_Err {A} e : P e = true → raises P (Err (A := A) e).
Proof. by intros He e' [= <-]. Qed.
Lemma raises_require b e : P e = true → raises P (require b e).
Proof. intros He. destruct b; [apply raises_Ok|by apply raises_Err]. Qed.
Lemma raises_bind {A B} (m : result A) (f : A → result B) :
  raises P m → (∀ a, m = Ok a → raises P (f a)) → raises P (m ≫= f).
Proof. intros Hm Hf e [H|(a & Ha & H)]%bind_Err; [by apply Hm|by apply (Hf a)]. Qed.
Lemma raises_weaken {A} (Q : exn → bool) (m : result A) : (∀ e, P e = true → Q e = true) → raises P m → raises Q m.
Proof. intros H Hm e He. by apply H, Hm. Qed.
Lemma raises_each {A} (f : A → result unit) l : (∀ x, raises P (f x)) → raises P (each f l).
Proof.
  intros Hf. induction l as [|x l IH]; cbn [each]; [apply raises_Ok|]. apply raises_bind; [apply Hf|done].
Qed.
Lemma raises_try {A} (m k : result A) h : raises P m → raises P k → raises P (try_except m h k).
Proof.
  intros Hm Hk e. unfold try_except. destruct m as [a|e']; [done|]. destruct (h e'); [apply Hk|].
  intros [= <-]. by apply Hm.
Qed.
End Raises.

(** Walk through a computation; the checks' own lemmas are in the database. *)
Create HintDb raises.
#[export] Hint Resolve raises_Ok raises_Err raises_require raises_each raises_try : raises.
Ltac raises := repeat first [ done | solve [eauto 2 with raises] | apply raises_bind; [|intros ? _] | apply raises_try
  | apply raises_require | apply raises_each; intros ? | apply raises_Ok | apply raises_Err ].

(** Linear arithmetic with division and remainder by constants. *)
Ltac zdiv := Z.to_euclidean_division_equations; lia.

Create HintDb engine.
#[export] Hint Resolve sorted_by_perm sorted_by_sorted len_nonneg : engine.
