(* ===== verification/Codec.v ===== *)
(** * Byte-level codecs

    The encodings every digest, token and reference of the engine is built
    from: UTF-8, fixed-width big-endian integers, eight-byte length prefixes,
    hexadecimal and decimal text (the language's own operations, modelled as
    the source uses them), and the canonical unpadded base64url codec of
    [src/engine/_opaque.py]. *)

From S2P Require Import Prelude.
From Stdlib Require Import DecimalString DecimalZ.

(** ** UTF-8 *)

Definition is_surrogate (c : Z) : bool := (0xD800 <=? c) && (c <=? 0xDFFF).

(** One code point, surrogates included ([errors="surrogatepass"]). *)
Definition utf8_char (c : Z) : pybytes :=
  if c <? 0x80 then [c]
  else if c <? 0x800 then [0xC0 + c / 64; 0x80 + c mod 64]
  else if c <? 0x10000 then
    [0xE0 + c / 4096; 0x80 + (c / 64) mod 64; 0x80 + c mod 64]
  else [0xF0 + c / 262144; 0x80 + (c / 4096) mod 64; 0x80 + (c / 64) mod 64; 0x80 + c mod 64].

Fixpoint utf8 (s : pystr) : pybytes :=
  match s with [] => [] | c :: s' => utf8_char c ++ utf8 s' end.

(** [value.encode("utf-8")] in strict mode refuses surrogates. *)
Definition encode_utf8 (s : pystr) : result pybytes :=
  if existsb is_surrogate s then Err UnicodeEncodeError else Ok (utf8 s).

Definition is_cont (b : Z) : bool := (0x80 <=? b) && (b <=? 0xBF).

(** [bytes.decode("utf-8", errors)] in strict mode or with ["surrogatepass"];
    [None] is [UnicodeDecodeError]. *)
Fixpoint utf8_decode_with (surrogatepass : bool) (b : pybytes) : option pystr :=
  match b with
  | [] => Some []
  | b0 :: r0 =>
    if b0 <? 0x80 then cons b0 <$> utf8_decode_with surrogatepass r0
    else match r0 with
    | [] => None
    | b1 :: r1 =>
      if (0xC2 <=? b0) && (b0 <=? 0xDF) then
        if is_cont b1 then cons ((b0 - 0xC0) * 64 + (b1 - 0x80)) <$> utf8_decode_with surrogatepass r1
        else None
      else match r1 with
      | [] => None
      | b2 :: r2 =>
        if (0xE0 <=? b0) && (b0 <=? 0xEF) then
          let c := (b0 - 0xE0) * 4096 + (b1 - 0x80) * 64 + (b2 - 0x80) in
          if is_cont b1 && is_cont b2 && (0x800 <=? c) && (surrogatepass || negb (is_surrogate c))
          then cons c <$> utf8_decode_with surrogatepass r2
          else None
        else match r2 with
        | [] => None
        | b3 :: r3 =>
          let c := (b0 - 0xF0) * 262144 + (b1 - 0x80) * 4096
                   + (b2 - 0x80) * 64 + (b3 - 0x80) in
          if (0xF0 <=? b0) && (b0 <=? 0xF4) && is_cont b1 && is_cont b2 && is_cont b3
             && (0x10000 <=? c) && (c <=? 0x10FFFF)
          then cons c <$> utf8_decode_with surrogatepass r3
          else None
        end
      end
    end
  end.

Definition utf8_decode : pybytes → option pystr := utf8_decode_with false.

(** The encoding of one code point is never empty. *)
Lemma utf8_char_length c : 1 ≤ len (utf8_char c) ≤ 4.
Proof. unfold utf8_char, len. repeat case_match; simpl length; lia. Qed.

Lemma len_utf8 s : len s ≤ len (utf8 s) ≤ 4 * len s.
Proof.
  induction s as [|c s IH]; simpl; rewrite ?len_nil, ?len_cons, ?len_app; [lia|].
  pose proof (utf8_char_length c). lia.
Qed.

Ltac zcases :=
  repeat match goal with
  | |- context [if ?b then _ else _] => destruct b eqn:?
  | H : context [if ?b then _ else _] |- _ => destruct b eqn:?
  end.

(** UTF-8 is a prefix code on code points. *)
Lemma utf8_char_prefix c c' r r' :
  char_ok c → char_ok c' → utf8_char c ++ r = utf8_char c' ++ r' → c = c' ∧ r = r'.
Proof.
  unfold char_ok, utf8_char. intros Hc Hc' H. zcases; simplify_list_eq; split; try done; zdiv.
Qed.

Lemma utf8_inj s s' : Forall char_ok s → Forall char_ok s' → utf8 s = utf8 s' → s = s'.
Proof.
  intros Hs. revert s'. induction Hs as [|c s Hc Hs IH]; intros s' Hs' H.
  - destruct s' as [|c' s']; [done|]. exfalso. simpl in H.
    pose proof (utf8_char_length c') as Hl. destruct (utf8_char c'); [unfold len in Hl; simpl length in Hl; lia|done].
  - destruct Hs' as [|c' s' Hc' Hs'].
    + simpl in H. pose proof (utf8_char_length c) as Hl.
      destruct (utf8_char c); [unfold len in Hl; simpl length in Hl; lia|done].
    + simpl in H. apply utf8_char_prefix in H as [-> H]; [|done..]. f_equal. by apply IH.
Qed.

Lemma utf8_decode_char c r :
  char_ok c → is_surrogate c = false → utf8_decode (utf8_char c ++ r) = cons c <$> utf8_decode r.
Proof.
  unfold char_ok, is_surrogate, utf8_char. intros Hc Hs.
  unfold utf8_decode. zcases; cbn [app utf8_decode_with]; unfold is_cont, is_surrogate; zcases; try zdiv;
    repeat f_equal; zdiv.
Qed.

Lemma utf8_decode_encode s :
  Forall char_ok s → existsb is_surrogate s = false → utf8_decode (utf8 s) = Some s.
Proof.
  induction 1 as [|c s Hc Hs IH]; [done|]. intros [H1 H2]%orb_false_iff. cbn [utf8].
  rewrite utf8_decode_char, IH by done. done.
Qed.

(** ** Fixed-width positional digits *)

Fixpoint digits (base : Z) (n : nat) (x : Z) : list Z :=
  match n with
  | O => []
  | S n' => digits base n' (x / base) ++ [x mod base]
  end.

Lemma length_digits base n x : length (digits base n x) = n.
Proof. revert x. induction n; intros x; simpl; [done|]. rewrite length_app, IHn. simpl. lia. Qed.

Lemma digits_inj base n x y :
  1 < base → 0 ≤ x < base ^ Z.of_nat n → 0 ≤ y < base ^ Z.of_nat n →
  digits base n x = digits base n y → x = y.
Proof.
  intros Hb. revert x y. induction n as [|n IH]; intros x y Hx Hy H.
  - simpl in *. lia.
  - simpl in H. apply app_inj_tail in H as [H Hm].
    rewrite Nat2Z.inj_succ, Z.pow_succ_r in Hx, Hy by lia.
    assert (x / base = y / base) as Hd.
    { apply IH; [..|done]; (split; [apply Z.div_pos; lia|apply Z.div_lt_upper_bound; lia]). }
    rewrite (Z.div_mod x base), (Z.div_mod y base) by lia. congruence.
Qed.

(** [n.to_bytes(width, byteorder="big")] *)
Definition be_bytes (n : nat) (x : Z) : pybytes := digits 256 n x.

Definition uuid_bytes (u : UUID) : pybytes := be_bytes 16 (uuid_int u).

Lemma digits_ok base n x : 0 < base → Forall (λ d, 0 ≤ d < base) (digits base n x).
Proof.
  intros Hb. revert x. induction n as [|n IH]; intros x; cbn [digits]; [constructor|].
  apply Forall_app. split; [apply IH|]. constructor; [|constructor]. by apply Z.mod_pos_bound.
Qed.

Lemma uuid_bytes_inj u v : uuid_ok u → uuid_ok v → uuid_bytes u = uuid_bytes v → u = v.
Proof.
  destruct u as [u], v as [v]. unfold uuid_ok, uuid_bytes, be_bytes; cbn [uuid_int].
  intros Hu Hv H. f_equal. apply (digits_inj 256 16); [lia|exact Hu|exact Hv|exact H].
Qed.

(** ** Length-prefixed framing

    [len(value).to_bytes(8, byteorder="big") + value]; no value is longer than
    [sys.maxsize], so the conversion to eight bytes never overflows. *)
Definition sys_maxsize : Z := 2 ^ 63 - 1.
Definition sized {A} (l : list A) : Prop := len l ≤ sys_maxsize.

Definition length_prefix (v : pybytes) : pybytes := be_bytes 8 (len v) ++ v.

Fixpoint frames (vs : list pybytes) : pybytes :=
  match vs with [] => [] | v :: vs' => length_prefix v ++ frames vs' end.

Lemma frames_app vs ws : frames (vs ++ ws) = frames vs ++ frames ws.
Proof. induction vs as [|v vs IH]; simpl; [done|]. by rewrite IH, app_assoc. Qed.

Lemma length_prefix_inj v w r r' :
  sized v → sized w → length_prefix v ++ r = length_prefix w ++ r' → v = w ∧ r = r'.
Proof.
  unfold sized, sys_maxsize, length_prefix, be_bytes. intros Hv Hw H.
  rewrite <- !app_assoc in H. apply app_inj_1 in H as [Hl H].
  2:{ by rewrite !length_digits. }
  apply digits_inj in Hl; [|lia|simpl; pose proof (len_nonneg v); lia
                               |simpl; pose proof (len_nonneg w); lia].
  apply app_inj_1 in H; [done|]. unfold len in Hl. lia.
Qed.

Lemma length_prefix_nonempty v r : length_prefix v ++ r ≠ [].
Proof.
  unfold length_prefix, be_bytes. intros H%(f_equal length).
  rewrite !length_app, length_digits in H. cbn [length] in H. lia.
Qed.

Lemma frames_inj vs ws :
  Forall sized vs → Forall sized ws → frames vs = frames ws → vs = ws.
Proof.
  intros Hv. revert ws. induction Hv as [|v vs Hv Hvs IH]; intros ws Hw H;
    destruct Hw as [|w ws Hw Hws]; cbn [frames] in H.
  - done.
  - by destruct (length_prefix_nonempty w (frames ws)).
  - by destruct (length_prefix_nonempty v (frames vs)).
  - apply length_prefix_inj in H as [-> H]; [|done..]. f_equal. by apply IH.
Qed.

(** ** Hexadecimal and decimal text *)

Definition hex_digit (d : Z) : Z := if d <? 10 then 48 + d else 87 + d.
Definition hex_byte (b : Z) : pystr := [hex_digit (b / 16); hex_digit (b mod 16)].
(** [bytes.hex()] *)
Definition hex (b : pybytes) : pystr := b ≫= hex_byte.

Lemma hex_digit_inj a b : 0 ≤ a < 16 → 0 ≤ b < 16 → hex_digit a = hex_digit b → a = b.
Proof.
  unfold hex_digit. intros. destruct (Z.ltb_spec a 10), (Z.ltb_spec b 10); lia.
Qed.

Lemma hex_inj b c : Forall byte_ok b → Forall byte_ok c → hex b = hex c → b = c.
Proof.
  unfold hex. intros Hb. revert c. induction Hb as [|x b Hx Hb IH]; intros [|y c] Hc H; try done.
  apply Forall_cons in Hc as [Hy Hc]. unfold byte_ok in *. rewrite !bind_cons in H.
  unfold hex_byte in H. cbn [app] in H. injection H as H1 H2 H.
  apply hex_digit_inj in H1; [|zdiv..]. apply hex_digit_inj in H2; [|zdiv..].
  f_equal; [zdiv|by apply IH].
Qed.

Lemma length_hex b : length (hex b) = (2 * length b)%nat.
Proof. unfold hex. induction b as [|x b IH]; [done|]. rewrite bind_cons, length_app, IH. simpl. lia. Qed.

(** [str(n)] of an exact integer. *)
Definition str_of_int (z : Z) : pystr := lit (NilZero.string_of_int (Z.to_int z)).

Lemma ascii_code_inj a b : ascii_code a = ascii_code b → a = b.
Proof.
  unfold ascii_code. intros H%N2Z.inj.
  rewrite <- (Ascii.ascii_N_embedding a), <- (Ascii.ascii_N_embedding b). congruence.
Qed.

Lemma lit_inj s t : lit s = lit t → s = t.
Proof.
  revert t. induction s as [|a s IH]; intros [|b t] H; simpl in H; try done.
  injection H as Ha Hs. f_equal; [by apply ascii_code_inj | by apply IH].
Qed.

Lemma lit_char_ok s : Forall char_ok (lit s).
Proof.
  induction s as [|a s IH]; simpl; constructor; [|done]. unfold char_ok, ascii_code.
  pose proof (Ascii.N_ascii_bounded a). lia.
Qed.

Lemma str_of_int_inj x y : str_of_int x = str_of_int y → x = y.
Proof.
  unfold str_of_int. intros H%lit_inj. apply (f_equal NilZero.int_of_string) in H.
  rewrite !NilZero.isi in H.
  2-3: match goal with |- Z.to_int ?v ≠ _ => destruct v as [|p|p] end; try done;
       unfold Z.to_int; intros [= E%DecimalPos.Unsigned.to_uint_nonnil]; done.
  2-3: match goal with |- Z.to_int ?v ≠ _ => destruct v as [|p|p] end; try done;
       unfold Z.to_int; intros [= E%DecimalPos.Unsigned.to_uint_nonnil]; done.
  apply to_int_inj. congruence.
Qed.

(** Decimal text is at most one character longer than the number of bits. *)
Lemma nb_digits_double d :
  (Decimal.nb_digits (Decimal.Little.double d) ≤ S (Decimal.nb_digits d))%nat
  ∧ (Decimal.nb_digits (Decimal.Little.succ_double d) ≤ S (Decimal.nb_digits d))%nat.
Proof. induction d; simpl; lia. Qed.

Lemma nb_digits_pos p : (Decimal.nb_digits (Pos.to_uint p) ≤ S (Pos.size_nat p))%nat.
Proof.
  unfold Pos.to_uint. rewrite DecimalFacts.nb_digits_rev.
  induction p as [p IH|p IH|]; cbn [Pos.to_little_uint Pos.size_nat];
    [pose proof (nb_digits_double (Pos.to_little_uint p)); lia.. | simpl; lia].
Qed.

Lemma length_lit_uint d : length (lit (NilEmpty.string_of_uint d)) = Decimal.nb_digits d.
Proof. induction d; simpl; lia. Qed.

Lemma length_lit_uint_zero d :
  (length (lit (NilZero.string_of_uint d)) ≤ S (Decimal.nb_digits d))%nat.
Proof. destruct d; try (simpl; lia); cbn [NilZero.string_of_uint]; rewrite length_lit_uint; lia. Qed.

Lemma str_of_int_length z : Z.abs z < 2 ^ 63 → len (str_of_int z) ≤ 66.
Proof.
  intros Hz. unfold str_of_int, len.
  assert (Hp : ∀ p, Zpos p < 2 ^ 63 → (Decimal.nb_digits (Pos.to_uint p) ≤ 64)%nat).
  { intros p Hp. pose proof (nb_digits_pos p).
    assert (Hs : (Pos.size_nat p ≤ 63)%nat); [|lia].
    assert (Hsz : ∀ n q, Zpos q < 2 ^ Z.of_nat n → (Pos.size_nat q ≤ n)%nat).
    { induction n as [|n IH]; intros q Hq; [simpl in Hq; lia|].
      rewrite Nat2Z.inj_succ, Z.pow_succ_r in Hq by lia.
      destruct q as [q|q|]; cbn [Pos.size_nat]; [| |lia]; apply le_n_S, IH; lia. }
    by apply Hsz. }
  destruct z as [|p|p]; [simpl; lia| |]; simpl in Hz; specialize (Hp p Hz);
    cbn [Z.to_int NilZero.string_of_int]; [|cbn [lit length]];
    pose proof (length_lit_uint_zero (Pos.to_uint p)); lia.
Qed.

(** ** Canonical unpadded base64url: [engine/_opaque.py] *)
Module Opaque.

Definition alphabet : pystr :=
  lit "ABCDEFGHIJKLMNOPQRSTUVWXYZabcdefghijklmnopqrstuvwxyz0123456789-_".

Definition b64_char (d : Z) : Z := nth (Z.to_nat d) alphabet 0.

Fixpoint index_of (c : Z) (l : list Z) : Z :=
  match l with
  | [] => 0
  | x :: l' => if c =? x then 0 else 1 + index_of c l'
  end.
Definition b64_value (c : Z) : Z := index_of c alphabet.

(** [base64.urlsafe_b64encode(value).rstrip(b"=").decode("ascii")] *)
Fixpoint encode_base64url (value : pybytes) : pystr :=
  match value with
  | [] => []
  | [x] => [b64_char (x / 4); b64_char (x mod 4 * 16)]
  | [x; y] => [b64_char (x / 4); b64_char (x mod 4 * 16 + y / 16); b64_char (y mod 16 * 4)]
  | x :: y :: z :: r =>
      b64_char (x / 4) :: b64_char (x mod 4 * 16 + y / 16)
      :: b64_char (y mod 16 * 4 + z / 64) :: b64_char (z mod 64) :: encode_base64url r
  end.

(** [base64.b64decode(value + "=" * (-len(value) % 4), altchars=b"-_",
    validate=True)] on characters of the alphabet: the unused low bits of the
    last group are dropped, and a lone last character is refused. *)
Fixpoint b64decode (value : pystr) : result pybytes :=
  match value with
  | [] => Ok []
  | [a] => Err ValueError
  | [a; b] => Ok [b64_value a * 4 + b64_value b / 16]
  | [a; b; c] =>
      Ok [b64_value a * 4 + b64_value b / 16; b64_value b mod 16 * 16 + b64_value c / 4]
  | a :: b :: c :: d :: r =>
      tail ← b64decode r;
      Ok (b64_value a * 4 + b64_value b / 16
          :: b64_value b mod 16 * 16 + b64_value c / 4
          :: b64_value c mod 4 * 64 + b64_value d :: tail)
  end.

Definition decode_base64url (value : pystr) : result pybytes :=
  require (negb (bool_decide (value = [])) && all_in alphabet value) ValueError ;;
  decoded ← try_except (b64decode value) is_ValueError (Err ValueError);
  require (bool_decide (encode_base64url decoded = value)) ValueError ;;
  Ok decoded.

Lemma b64_value_char d : 0 ≤ d < 64 → b64_value (b64_char d) = d ∧ b64_char d ∈ alphabet.
Proof.
  intros Hd. set (P d := bool_decide (b64_value (b64_char d) = d) && mem (b64_char d) alphabet).
  assert (H : forallb P (seqZ 0 64) = true) by (vm_compute; reflexivity).
  rewrite forallb_forall in H. specialize (H d).
  apply andb_true_iff in H as [H1 H2]; [|apply list_elem_of_In, elem_of_seqZ; lia].
  split; [by apply bool_decide_eq_true in H1 | by apply mem_spec].
Qed.

Lemma b64_value_of_char d : 0 ≤ d < 64 → b64_value (b64_char d) = d.
Proof. apply b64_value_char. Qed.

Lemma b64_roundtrip_raw value :
  Forall byte_ok value → b64decode (encode_base64url value) = Ok value.
Proof.
  revert value. fix IH 1. intros [|x [|y [|z r]]] H; [done|..];
    repeat match goal with H : Forall _ (_ :: _) |- _ => apply Forall_cons in H as [? H] end;
    unfold byte_ok in *; cbn [encode_base64url b64decode].
  - rewrite !b64_value_of_char by zdiv. repeat f_equal; zdiv.
  - rewrite !b64_value_of_char by zdiv. repeat f_equal; zdiv.
  - rewrite (IH r) by done. rewrite !b64_value_of_char by zdiv. simpl.
    repeat f_equal; zdiv.
Qed.

Lemma encode_all_in value : Forall byte_ok value → all_in alphabet (encode_base64url value) = true.
Proof.
  unfold all_in. revert value. fix IH 1. intros [|x [|y [|z r]]] H; [done|..];
    repeat match goal with H : Forall _ (_ :: _) |- _ => apply Forall_cons in H as [? H] end;
    unfold byte_ok in *; cbn [encode_base64url forallb];
    repeat (rewrite (proj2 (mem_spec _ _)) by (apply b64_value_char; zdiv)); try done.
  by rewrite (IH r).
Qed.

(** Every nonempty byte string survives the round trip through its text form. *)
Lemma decode_encode value :
  value ≠ [] → Forall byte_ok value → decode_base64url (encode_base64url value) = Ok value.
Proof.
  intros Hne Hv. unfold decode_base64url. rewrite encode_all_in by done.
  rewrite bool_decide_eq_false_2.
  2:{ by destruct value as [|x [|y [|z r]]]. }
  simpl. rewrite b64_roundtrip_raw by done. simpl. by rewrite bool_decide_eq_true_2.
Qed.

(** An accepted text is the one canonical text of the bytes it denotes. *)
Lemma decode_canonical value decoded :
  decode_base64url value = Ok decoded → encode_base64url decoded = value.
Proof. unfold decode_base64url. intros H. run_ok. done. Qed.

Example base64url_hello : encode_base64url (lit "Hello") = lit "SGVsbG8".
Proof. reflexivity. Qed.
(** The padding bits of the last character must be zero. *)
Example base64url_noncanonical : decode_base64url (lit "SGVsbG9") = Err ValueError.
Proof. reflexivity. Qed.

(** Decoding accepts exactly one text per nonempty byte string: [value] decodes to
    [bytes] if and only if it is their unpadded base64url encoding, so there is a
    round trip and no second spelling of the same opaque value. *)
Theorem base64url_canonical value bytes :
  Forall byte_ok bytes →
  decode_base64url value = Ok bytes ↔ bytes ≠ [] ∧ value = encode_base64url bytes.
Proof.
  intros Hb. split.
  - intros H. pose proof (decode_canonical _ _ H) as Hc. split; [|done].
    intros ->. unfold decode_base64url in H. run_ok. done.
  - intros [Hne ->]. by apply decode_encode.
Qed.

Lemma base64url_canonical_witness :
  decode_base64url (lit "-_8") = Ok [251; 255].
Proof.
  apply (base64url_canonical (lit "-_8") [251; 255]).
  - repeat constructor; unfold byte_ok; lia.
  - split; [discriminate | reflexivity].
Defined.

End Opaque.
