(* ===== verification/Json.v ===== *)
(** * JSON as [json.loads] and [json.dumps] read and write it

    The standard library's decoder and encoder in the configuration the signed
    documents use: [json.loads(raw, object_pairs_hook=...)] on bytes, and
    [json.dumps(value, ensure_ascii=True, allow_nan=False, separators=(",", ":"),
    sort_keys=True)].  The decoder accepts the whole grammar that Python accepts
    (white space, escapes, [NaN], floats, every Unicode encoding that
    [json.detect_encoding] knows).  A float is kept as its literal, and how
    [repr] prints it, or that it is not finite, is an argument.  So is how many
    containers the interpreter's stack lets the scanner nest: one more raises
    [RecursionError].  The encoder needs no such limit here, since what the code
    encodes is either a document of a small fixed shape or a value that the scanner
    has just accepted ([loads_depth]). *)

From S2P Require Import Prelude Codec.
From Stdlib Require DecimalPos DecimalFacts.
From Stdlib Require Import DecimalString Wf_nat.

Inductive json : Type :=
  | JNull
  | JBool (b : bool)
  | JInt (z : Z)
  | JFloat (literal : pystr)
  | JStr (s : pystr)
  | JArr (l : list json)
  | JObj (kvs : list (pystr * json)).

(** ** Text of the input: [s.decode(detect_encoding(s), "surrogatepass")] *)

(** Bytes to units of [n] bytes; a truncated last unit is an error. *)
Fixpoint units2 (le : bool) (b : pybytes) : option (list Z) :=
  match b with
  | [] => Some []
  | x :: y :: r => cons (if le then x + 256 * y else 256 * x + y) <$> units2 le r
  | _ => None
  end.

Fixpoint units4 (le : bool) (b : pybytes) : option (list Z) :=
  match b with
  | [] => Some []
  | x :: y :: z :: w :: r =>
      cons (if le then x + 256 * (y + 256 * (z + 256 * w)) else w + 256 * (z + 256 * (y + 256 * x)))
        <$> units4 le r
  | _ => None
  end.

Definition is_high (u : Z) : bool := (0xD800 <=? u) && (u <=? 0xDBFF).
Definition is_low (u : Z) : bool := (0xDC00 <=? u) && (u <=? 0xDFFF).
Definition join_surrogates (h l : Z) : Z := 0x10000 + (h - 0xD800) * 0x400 + (l - 0xDC00).

(** Surrogate pairs combine; a lone surrogate passes. *)
Fixpoint utf16_chars (us : list Z) : pystr :=
  match us with
  | [] => []
  | u :: r =>
      match r with
      | v :: r' => if is_high u && is_low v then join_surrogates u v :: utf16_chars r' else u :: utf16_chars r
      | [] => [u]
      end
  end.

Definition decode_utf16 (le : bool) (b : pybytes) : option pystr := utf16_chars <$> units2 le b.
Definition decode_utf32 (le : bool) (b : pybytes) : option pystr :=
  us ← units4 le b; if forallb (λ u, u <=? 0x10FFFF) us then Some us else None.

(** [json.detect_encoding] and the decoding it selects. *)
Definition decode_bytes (b : pybytes) : option pystr :=
  if startswith [0; 0; 0xFE; 0xFF] b then decode_utf32 false (drop 4 b)
  else if startswith [0xFF; 0xFE; 0; 0] b then decode_utf32 true (drop 4 b)
  else if startswith [0xFE; 0xFF] b then decode_utf16 false (drop 2 b)
  else if startswith [0xFF; 0xFE] b then decode_utf16 true (drop 2 b)
  else if startswith [0xEF; 0xBB; 0xBF] b then utf8_decode_with true (drop 3 b)
  else
    match b with
    | b0 :: b1 :: b2 :: b3 :: _ =>
        if b0 =? 0 then if negb (b1 =? 0) then decode_utf16 false b else decode_utf32 false b
        else if b1 =? 0 then
          if negb (b2 =? 0) || negb (b3 =? 0) then decode_utf16 true b else decode_utf32 true b
        else utf8_decode_with true b
    | [b0; b1] =>
        if b0 =? 0 then decode_utf16 false b
        else if b1 =? 0 then decode_utf16 true b
        else utf8_decode_with true b
    | _ => utf8_decode_with true b
    end.

(** ** The scanner *)

Definition is_ws (c : Z) : bool := (c =? 32) || (c =? 9) || (c =? 10) || (c =? 13).
Fixpoint skip_ws (s : pystr) : pystr :=
  match s with
  | [] => []
  | c :: s' => if is_ws c then skip_ws s' else s
  end.

Definition is_digit (c : Z) : bool := (48 <=? c) && (c <=? 57).
Fixpoint span_digits (s : pystr) : pystr * pystr :=
  match s with
  | [] => ([], [])
  | c :: s' => if is_digit c then let '(d, r) := span_digits s' in (c :: d, r) else ([], s)
  end.

Definition hex_value (c : Z) : option Z :=
  if is_digit c then Some (c - 48)
  else if (97 <=? c) && (c <=? 102) then Some (c - 87)
  else if (65 <=? c) && (c <=? 70) then Some (c - 55)
  else None.

Definition scan_hex4 (a b c d : Z) : option Z :=
  a' ← hex_value a; b' ← hex_value b; c' ← hex_value c; d' ← hex_value d;
  Some (4096 * a' + 256 * b' + 16 * c' + d').

Definition unescape (c : Z) : option Z :=
  if (c =? 34) || (c =? 92) || (c =? 47) then Some c
  else if c =? 98 then Some 8
  else if c =? 102 then Some 12
  else if c =? 110 then Some 10
  else if c =? 114 then Some 13
  else if c =? 116 then Some 9
  else None.

Definition push (c : Z) (m : result (pystr * pystr)) : result (pystr * pystr) :=
  match m with Ok (s, r) => Ok (c :: s, r) | Err e => Err e end.

(** [scanstring] in strict mode, after the opening quote. *)
Fixpoint scan_string (s : pystr) : result (pystr * pystr) :=
  match s with
  | [] => Err JSONDecodeError
  | c :: r =>
      if c =? 34 then Ok ([], r)
      else if c =? 92 then
        match r with
        | [] => Err JSONDecodeError
        | e :: r1 =>
            if e =? 117 then
              match r1 with
              | h1 :: h2 :: h3 :: h4 :: r5 =>
                  match scan_hex4 h1 h2 h3 h4 with
                  | None => Err JSONDecodeError
                  | Some u =>
                      if negb (is_high u) then push u (scan_string r5)
                      else
                        match r5 with
                        | x :: y :: k1 :: k2 :: k3 :: k4 :: r11 =>
                            if (x =? 92) && (y =? 117) then
                              match scan_hex4 k1 k2 k3 k4 with
                              | None => Err JSONDecodeError
                              | Some v =>
                                  if is_low v then push (join_surrogates u v) (scan_string r11)
                                  else push u (scan_string r5)
                              end
                            else push u (scan_string r5)
                        | _ => push u (scan_string r5)
                        end
                  end
              | _ => Err JSONDecodeError
              end
            else
              match unescape e with
              | None => Err JSONDecodeError
              | Some u => push u (scan_string r1)
              end
        end
      else if c <? 32 then Err JSONDecodeError
      else push c (scan_string r)
  end.

(** The interpreter refuses to convert longer decimal texts. *)
Definition int_max_str_digits : Z := 4300.
Definition int_of_digits (ds : pystr) : Z := foldl (λ a c, a * 10 + (c - 48)) 0 ds.

Definition scan_fraction (s : pystr) : pystr * pystr :=
  match s with
  | c :: r =>
      let '(ds, r') := span_digits r in
      if (c =? 46) && negb (bool_decide (ds = [])) then (c :: ds, r') else ([], s)
  | [] => ([], s)
  end.

Definition scan_exponent (s : pystr) : pystr * pystr :=
  match s with
  | c :: r =>
      let '(sign, r1) :=
        match r with x :: r' => if (x =? 43) || (x =? 45) then ([x], r') else ([], r) | [] => ([], r) end in
      let '(ds, r2) := span_digits r1 in
      if ((c =? 101) || (c =? 69)) && negb (bool_decide (ds = [])) then (c :: sign ++ ds, r2) else ([], s)
  | [] => ([], s)
  end.

(** [_match_number_unicode] *)
Definition scan_number (s : pystr) : result (json * pystr) :=
  let '(neg, s1) := match s with c :: r => if c =? 45 then (true, r) else (false, s) | [] => (false, s) end in
  match s1 with
  | [] => Err JSONDecodeError
  | c :: r =>
      if negb (is_digit c) then Err JSONDecodeError
      else
        let '(ds, r1) := if c =? 48 then ([c], r) else span_digits s1 in
        let '(frac, r2) := scan_fraction r1 in
        let '(expo, r3) := scan_exponent r2 in
        if bool_decide (frac = []) && bool_decide (expo = []) then
          require (len ds <=? int_max_str_digits) ValueError ;;
          Ok (JInt (if neg then - int_of_digits ds else int_of_digits ds), r3)
        else Ok (JFloat ((if neg then [45] else []) ++ ds ++ frac ++ expo), r3)
  end.

(** The room that the calls in progress leave on the interpreter's stack, as the number
    of containers that the scanner may enter.  The limit depends on the platform and
    on the caller; the smallest that CPython ships is in the hundreds, and no document
    that the engine writes for itself nests deeper than [document_depth]. *)
Definition document_depth : Z := 8.
Class NestingLimit : Type := {
  nesting_limit : Z;
  nesting_room : document_depth ≤ nesting_limit
}.

Section Loads.
(** The [object_pairs_hook] of the call. *)
Context (hook : list (pystr * json) → result (list (pystr * json))).

Definition constants : list (pystr * json) :=
  [(lit "null", JNull); (lit "true", JBool true); (lit "false", JBool false);
   (lit "NaN", JFloat (lit "NaN")); (lit "Infinity", JFloat (lit "Infinity"));
   (lit "-Infinity", JFloat (lit "-Infinity"))].

Fixpoint scan_constant (cs : list (pystr * json)) (s : pystr) : option (json * pystr) :=
  match cs with
  | [] => None
  | (t, v) :: cs' => if startswith t s then Some (v, drop (length t) s) else scan_constant cs' s
  end.

Definition build_object (m : result (list (pystr * json) * pystr)) : result (json * pystr) :=
  '(pairs, r) ← m; kvs ← hook pairs; Ok (JObj kvs, r).

(** [scan_once_unicode], [_parse_array_unicode] after the bracket and
    [_parse_object_unicode] after the brace. *)
Fixpoint scan_value (room : Z) (fuel : nat) (s : pystr) : result (json * pystr) :=
  match fuel with
  | O => Err FuelExhausted
  | S n =>
      match s with
      | [] => Err JSONDecodeError
      | c :: r =>
          if c =? 34 then '(t, r') ← scan_string r; Ok (JStr t, r')
          else if c =? 123 then
            require (0 <? room) RecursionError ;;
            match skip_ws r with
            | [] => Err JSONDecodeError
            | d :: r' =>
                if d =? 125 then build_object (Ok ([], r'))
                else build_object (scan_pairs (room - 1) n (d :: r'))
            end
          else if c =? 91 then
            require (0 <? room) RecursionError ;;
            match skip_ws r with
            | [] => Err JSONDecodeError
            | d :: r' =>
                if d =? 93 then Ok (JArr [], r')
                else '(vs, r'') ← scan_items (room - 1) n (d :: r'); Ok (JArr vs, r'')
            end
          else
            match scan_constant constants s with
            | Some p => Ok p
            | None => scan_number s
            end
      end
  end
with scan_items (room : Z) (fuel : nat) (s : pystr) : result (list json * pystr) :=
  match fuel with
  | O => Err FuelExhausted
  | S n =>
      '(v, r) ← scan_value room n s;
      match skip_ws r with
      | [] => Err JSONDecodeError
      | d :: r' =>
          if d =? 93 then Ok ([v], r')
          else if d =? 44 then '(vs, r'') ← scan_items room n (skip_ws r'); Ok (v :: vs, r'')
          else Err JSONDecodeError
      end
  end
with scan_pairs (room : Z) (fuel : nat) (s : pystr) : result (list (pystr * json) * pystr) :=
  match fuel with
  | O => Err FuelExhausted
  | S n =>
      match s with
      | [] => Err JSONDecodeError
      | c :: r =>
          if negb (c =? 34) then Err JSONDecodeError
          else
            '(k, r1) ← scan_string r;
            match skip_ws r1 with
            | [] => Err JSONDecodeError
            | d :: r2 =>
                if negb (d =? 58) then Err JSONDecodeError
                else
                  '(v, r3) ← scan_value room n (skip_ws r2);
                  match skip_ws r3 with
                  | [] => Err JSONDecodeError
                  | d' :: r4 =>
                      if d' =? 125 then Ok ([(k, v)], r4)
                      else if d' =? 44 then
                        '(kvs, r5) ← scan_pairs room n (skip_ws r4); Ok ((k, v) :: kvs, r5)
                      else Err JSONDecodeError
                  end
            end
      end
  end.

Context {limit : NestingLimit}.

Definition loads_str (text : pystr) : result json :=
  let s := skip_ws text in
  '(v, r) ← scan_value nesting_limit (2 * length s + 1) s;
  require (bool_decide (skip_ws r = [])) JSONDecodeError ;;
  Ok v.

(** [json.loads(raw, object_pairs_hook=hook)] on bytes. *)
Definition loads (raw : pybytes) : result json :=
  match decode_bytes raw with
  | None => Err UnicodeDecodeError
  | Some text => loads_str text
  end.
End Loads.

(** [json.loads] builds a dict: a repeated key keeps its first place and last value. *)
Definition json_dict (pairs : list (list Z * json)) : result (list (list Z * json)) :=
  Ok (foldl (λ d kv, dict_set d kv.1 kv.2) [] pairs).

(** ** The encoder *)

Abbreviation commas := (join [44%Z]).

Definition u_escape (u : Z) : pystr := 92 :: 117 :: (hex_digit <$> digits 16 4 u).

(** [py_encode_basestring_ascii] of one character. *)
Definition dump_char (c : Z) : pystr :=
  if c =? 34 then [92; 34]
  else if c =? 92 then [92; 92]
  else if (32 <=? c) && (c <=? 126) then [c]
  else if c =? 8 then [92; 98]
  else if c =? 12 then [92; 102]
  else if c =? 10 then [92; 110]
  else if c =? 13 then [92; 114]
  else if c =? 9 then [92; 116]
  else if c <? 0x10000 then u_escape c
  else u_escape (0xD800 + (c - 0x10000) / 0x400) ++ u_escape (0xDC00 + (c - 0x10000) mod 0x400).

Definition dump_str (s : pystr) : pystr := [34] ++ (s ≫= dump_char) ++ [34].

Definition dump_int (z : Z) : result pystr :=
  require (len (str_of_int (Z.abs z)) <=? int_max_str_digits) ValueError ;; Ok (str_of_int z).

Section Dumps.
(** [float.__repr__] of the float a literal denotes, or [ValueError] if it is not finite. *)
Context (float_repr : pystr → result pystr).

Fixpoint dumps (v : json) : result pystr :=
  match v with
  | JNull => Ok (lit "null")
  | JBool true => Ok (lit "true")
  | JBool false => Ok (lit "false")
  | JInt z => dump_int z
  | JFloat x => float_repr x
  | JStr s => Ok (dump_str s)
  | JArr l =>
      ts ← (fix go l := match l with
                        | [] => Ok []
                        | v :: l' => t ← dumps v; ts ← go l'; Ok (t :: ts)
                        end) l;
      Ok ([91] ++ commas ts ++ [93])
  | JObj kvs =>
      kts ← (fix go l := match l with
                         | [] => Ok []
                         | (k, v) :: l' => t ← dumps v; kts ← go l'; Ok ((k, t) :: kts)
                         end) kvs;
      Ok ([123] ++ commas ((λ kt, dump_str kt.1 ++ [58] ++ kt.2) <$> sorted_by fst kts) ++ [125])
  end.
End Dumps.

(** ** Termination: the fuel of the scanner is enough *)

(** The exceptions of the decoder: a [ValueError], or the stack is exhausted. *)
Definition is_decoding_error (e : exn) : bool := is_ValueError e || bool_decide (e = RecursionError).

Lemma decoding_error_cases e : is_decoding_error e = true → is_ValueError e = true ∨ e = RecursionError.
Proof. unfold is_decoding_error. rewrite orb_true_iff, bool_decide_eq_true. done. Qed.

(** A scan consumed input or failed with such an exception; running out of fuel is neither. *)
Definition progress {A} (m : result (A * pystr)) (s : pystr) : Prop :=
  match m with Ok (_, r) => (length r < length s)%nat | Err e => is_decoding_error e = true end.

Lemma progress_bind {A B} (m : result (A * pystr)) (f : A * pystr → result (B * pystr)) s :
  progress m s → (∀ a r, (length r < length s)%nat → progress (f (a, r)) s) → progress (m ≫= f) s.
Proof. destruct m as [[a r]|e]; simpl; auto. Qed.

Lemma progress_weaken {A} (m : result (A * pystr)) s s' :
  (length s ≤ length s')%nat → progress m s → progress m s'.
Proof. destruct m as [[a r]|e]; simpl; [lia|done]. Qed.

Lemma progress_push c m s : progress m s → progress (push c m) s.
Proof. destruct m as [[a r]|e]; simpl; auto. Qed.

Lemma length_skip_ws s : (length (skip_ws s) ≤ length s)%nat.
Proof. induction s as [|c s IH]; simpl; [done|]. destruct (is_ws c); simpl; lia. Qed.

Lemma length_span_digits s : (length (span_digits s).2 ≤ length s)%nat.
Proof.
  induction s as [|c s IH]; simpl; [done|]. destruct (is_digit c); [|done].
  destruct (span_digits s); simpl in *. lia.
Qed.

Lemma scan_string_progress s : progress (scan_string s) s.
Proof.
  induction s as [s IH] using (induction_ltof1 _ length). unfold ltof in IH.
  assert (Hp : ∀ c r, (length r < length s)%nat → progress (push c (scan_string r)) s).
  { intros c r Hr. apply progress_push, (progress_weaken _ r); [lia|]. by apply IH. }
  destruct s as [|c r]; [done|]. cbn [scan_string].
  repeat (match goal with
          | |- progress (push _ _) _ => apply Hp; simpl; lia
          | |- progress (Err _) _ => reflexivity
          | |- progress (Ok _) _ => simpl; lia
          | |- progress (if ?b then _ else _) _ => destruct b
          | |- progress (match ?x with _ => _ end) _ => destruct x
          end).
Qed.

Lemma scan_fraction_length s : (length (scan_fraction s).2 ≤ length s)%nat.
Proof.
  destruct s as [|c r]; simpl; [done|]. pose proof (length_span_digits r).
  destruct (span_digits r); simpl in *. destruct (_ && _); simpl; lia.
Qed.

Lemma scan_exponent_length s : (length (scan_exponent s).2 ≤ length s)%nat.
Proof.
  destruct s as [|c r]; simpl; [done|].
  set (p := match r with [] => _ | _ => _ end).
  assert (Hp : (length p.2 ≤ length r)%nat).
  { subst p. destruct r as [|x r]; [done|]. destruct (_ || _); simpl; lia. }
  destruct p as [sign r1]; simpl in *. pose proof (length_span_digits r1).
  destruct (span_digits r1); simpl in *. destruct (_ && _); simpl; lia.
Qed.

Lemma scan_number_progress s : progress (scan_number s) s.
Proof.
  unfold scan_number.
  set (p := match s with [] => _ | _ => _ end).
  assert (Hp : (length p.2 ≤ length s)%nat).
  { subst p. destruct s as [|x r]; [done|]. destruct (_ =? _); simpl; lia. }
  destruct p as [neg s1]; simpl in Hp. destruct s1 as [|c r]; [done|].
  destruct (is_digit c) eqn:Hc; cbn [negb]; [|done].
  set (q := if c =? 48 then _ else _).
  assert (Hq : (length q.2 < length (c :: r))%nat).
  { subst q. destruct (c =? 48); simpl; [lia|]. rewrite Hc. pose proof (length_span_digits r).
    destruct (span_digits r); simpl in *. lia. }
  destruct q as [ds r1]; simpl in Hq. pose proof (scan_fraction_length r1).
  destruct (scan_fraction r1) as [frac r2]; simpl in *. pose proof (scan_exponent_length r2).
  destruct (scan_exponent r2) as [expo r3]; simpl in *.
  destruct (_ && _); [|simpl; lia]. unfold require. destruct (_ <=? _); simpl; [lia|done].
Qed.

Lemma scan_constant_progress cs s v r :
  Forall (λ c, c.1 ≠ []) cs → scan_constant cs s = Some (v, r) → (length r < length s)%nat.
Proof.
  induction 1 as [|[t w] cs Ht _ IH]; simpl; [done|].
  destruct (startswith t s) eqn:Hs; [|done]. intros [= <- <-]. rewrite length_drop.
  destruct t as [|x t], s as [|y s]; simpl in *; try done. lia.
Qed.

Section Progress.
Context (hook : list (pystr * json) → result (list (pystr * json))).
Context (hook_errors : ∀ l e, hook l = Err e → is_ValueError e = true).

Lemma build_object_progress m s : progress m s → progress (build_object hook m) s.
Proof.
  intros H. unfold build_object. apply progress_bind; [done|]. intros kvs r Hr.
  destruct (hook kvs) as [o|e] eqn:He; simpl; [done|]. apply orb_true_iff. left. by eapply hook_errors.
Qed.

Lemma scan_progress n :
  (∀ room s, (2 * length s + 1 ≤ n)%nat → progress (scan_value hook room n s) s)
  ∧ (∀ room s, (2 * length s + 2 ≤ n)%nat → progress (scan_items hook room n s) s)
  ∧ (∀ room s, (2 * length s + 2 ≤ n)%nat → progress (scan_pairs hook room n s) s).
Proof.
  induction n as [|n (IHv & IHi & IHp)]; [split_and!; intros; lia|]. split_and!; intros room s Hn.
  - destruct s as [|c r]; [done|]. cbn [scan_value]. simpl length in Hn. pose proof (length_skip_ws r).
    destruct (c =? 34).
    { apply progress_bind; [|done]. apply (progress_weaken _ r); [simpl; lia|]. apply scan_string_progress. }
    destruct (c =? 123).
    { destruct (0 <? room); [cbn [require mbind result_bind]|done]. destruct (skip_ws r) as [|d r']; [done|]. simpl length in *.
      destruct (d =? 125); apply build_object_progress; [simpl; lia|].
      apply (progress_weaken _ (d :: r')); [simpl; lia|]. apply IHp. simpl. lia. }
    destruct (c =? 91).
    { destruct (0 <? room); [cbn [require mbind result_bind]|done]. destruct (skip_ws r) as [|d r']; [done|]. simpl length in *. destruct (d =? 93); [simpl; lia|].
      apply progress_bind; [|done]. apply (progress_weaken _ (d :: r')); [simpl; lia|]. apply IHi. simpl. lia. }
    destruct (scan_constant constants (c :: r)) as [[v r']|] eqn:Hs; [|apply scan_number_progress].
    apply scan_constant_progress in Hs; [done|]. by repeat constructor.
  - cbn [scan_items]. apply progress_bind; [apply IHv; lia|]. intros v r Hr.
    pose proof (length_skip_ws r). destruct (skip_ws r) as [|d r']; [done|]. simpl length in *.
    destruct (d =? 93); [simpl; lia|]. destruct (d =? 44); [|done]. pose proof (length_skip_ws r').
    apply progress_bind; [|done]. apply (progress_weaken _ (skip_ws r')); [lia|]. apply IHi. lia.
  - destruct s as [|c r]; [done|]. cbn [scan_pairs]. destruct (c =? 34); cbn [negb]; [|done].
    simpl length in Hn. apply progress_bind.
    { apply (progress_weaken _ r); [simpl; lia|]. apply scan_string_progress. }
    intros k r1 Hr1. pose proof (length_skip_ws r1). destruct (skip_ws r1) as [|d r2]; [done|].
    simpl length in *. destruct (d =? 58); cbn [negb]; [|done]. pose proof (length_skip_ws r2).
    apply progress_bind.
    { apply (progress_weaken _ (skip_ws r2)); [simpl; lia|]. apply IHv. lia. }
    intros v r3 Hr3. pose proof (length_skip_ws r3). destruct (skip_ws r3) as [|d' r4]; [done|].
    simpl length in *. destruct (d' =? 125); [simpl; lia|]. destruct (d' =? 44); [|done].
    pose proof (length_skip_ws r4). apply progress_bind; [|done].
    apply (progress_weaken _ (skip_ws r4)); [simpl; lia|]. apply IHp. lia.
Qed.

(** Decoding ends with a value or with one of Python's decoding errors. *)
Lemma loads_errors {limit : NestingLimit} raw e : loads hook raw = Err e → is_decoding_error e = true.
Proof.
  unfold loads. destruct (decode_bytes raw) as [text|]; [|by intros [= <-]]. unfold loads_str.
  set (s := skip_ws text). pose proof (proj1 (scan_progress (2 * length s + 1)) nesting_limit s (le_n _)) as H.
  intros [Heq|([v r] & _ & Heq)]%bind_Err.
  - by rewrite Heq in H.
  - destruct (bool_decide (skip_ws r = [])); simpl in Heq; [done|]. by injection Heq as <-.
Qed.
End Progress.

(** ** Round trip: what the encoder writes, the scanner reads back *)

Section JsonInd.
Context (P : json → Prop).
Context (Hnull : P JNull) (Hbool : ∀ b, P (JBool b)) (Hint : ∀ z, P (JInt z)).
Context (Hfloat : ∀ x, P (JFloat x)) (Hstr : ∀ s, P (JStr s)).
Context (Harr : ∀ l, Forall P l → P (JArr l)).
Context (Hobj : ∀ kvs, Forall (λ kv, P kv.2) kvs → P (JObj kvs)).

Fixpoint json_nested_ind (v : json) : P v :=
  match v with
  | JNull => Hnull | JBool b => Hbool b | JInt z => Hint z | JFloat x => Hfloat x | JStr s => Hstr s
  | JArr l => Harr l ((fix go l : Forall P l :=
      match l with [] => Forall_nil_2 _ | v :: l' => Forall_cons_2 _ _ _ (json_nested_ind v) (go l') end) l)
  | JObj kvs => Hobj kvs ((fix go l : Forall (λ kv, P kv.2) l :=
      match l with [] => Forall_nil_2 _ | kv :: l' => Forall_cons_2 _ _ _ (json_nested_ind kv.2) (go l') end) kvs)
  end.
End JsonInd.

(** No lone high surrogate stands before a lone low one: such a pair is written
    as the escapes of one character and read back as that character. *)
Fixpoint unpaired (s : pystr) : bool :=
  match s with
  | [] => true
  | u :: r => match r with v :: _ => negb (is_high u && is_low v) | [] => true end && unpaired r
  end.
Definition str_ok (s : pystr) : bool := forallb (λ c, (0 <=? c) && (c <=? 0x10FFFF)) s && unpaired s.

(** Values that survive the round trip: no floats, no split pairs, no repeated key. *)
Fixpoint json_ok (v : json) : bool :=
  match v with
  | JFloat _ => false
  | JStr s => str_ok s
  | JArr l => forallb json_ok l
  | JObj kvs => nodupb kvs.*1 && forallb (λ kv, str_ok kv.1 && json_ok kv.2) kvs
  | _ => true
  end.

(** The same value with every object in key order, the order of the text. *)
Fixpoint sort_keys (v : json) : json :=
  match v with
  | JArr l => JArr (sort_keys <$> l)
  | JObj kvs => JObj (sorted_by fst ((λ kv, (kv.1, sort_keys kv.2)) <$> kvs))
  | _ => v
  end.

(** The containers of a value nest at most [d] deep. *)
Fixpoint nests (d : Z) (v : json) : bool :=
  match v with
  | JArr l => (0 <? d) && forallb (nests (d - 1)) l
  | JObj kvs => (0 <? d) && forallb (λ kv, nests (d - 1) kv.2) kvs
  | _ => true
  end.

Lemma nests_mono d d' v : d ≤ d' → nests d v = true → nests d' v = true.
Proof.
  revert d d'. induction v as [| | | | |l IH|kvs IH] using json_nested_ind; intros d d' Hd H; try done;
    cbn [nests] in *; apply andb_true_iff in H as [H0%Z.ltb_lt H]; apply andb_true_iff; (split; [lia|]);
    rewrite forallb_forall in *; intros x Hx; rewrite Forall_forall in IH;
    apply (IH x (proj2 (list_elem_of_In _ _) Hx) (d - 1)); auto with lia.
Qed.

Lemma nests_map {A} (f : A → json) d l : 0 < d → (∀ x, nests (d - 1) (f x) = true) → nests d (JArr (f <$> l)) = true.
Proof.
  intros Hd Hf. cbn [nests]. apply andb_true_iff. split; [lia|]. apply forallb_forall. intros v Hv%list_elem_of_In.
  by apply list_elem_of_fmap in Hv as (x & -> & _).
Qed.

Lemma nests_sort_keys d v : nests d v = true → nests d (sort_keys v) = true.
Proof.
  revert d. induction v as [| | | | |l IH|kvs IH] using json_nested_ind; intros d H; try done;
    cbn [nests sort_keys] in *; apply andb_true_iff in H as [H0 H]; apply andb_true_iff; (split; [done|]);
    rewrite forallb_forall in *; rewrite Forall_forall in IH.
  - intros v Hv%list_elem_of_In. apply list_elem_of_fmap in Hv as (x & -> & Hx).
    apply (IH x Hx), H, list_elem_of_In, Hx.
  - intros kv Hv%list_elem_of_In. rewrite elem_of_sorted_by in Hv. apply list_elem_of_fmap in Hv as (x & -> & Hx).
    apply (IH x Hx), H, list_elem_of_In, Hx.
Qed.

(** What the engine writes for itself fits on any stack. *)
Lemma nests_room {limit : NestingLimit} v : nests document_depth v = true → nests nesting_limit v = true.
Proof. apply nests_mono, nesting_room. Qed.

Lemma nests_enough v : ∃ d, document_depth ≤ d ∧ nests d v = true.
Proof.
  assert (Hl : ∀ (A : Type) (f : A → json) l, Forall (λ x, ∃ d, document_depth ≤ d ∧ nests d (f x) = true) l →
            ∃ d, document_depth ≤ d ∧ forallb (λ x, nests d (f x)) l = true).
  { intros A f l. induction 1 as [|x l (d & Hd & Hx) _ (d' & Hd' & H')]; [by exists document_depth|].
    exists (Z.max d d'). split; [lia|]. cbn [forallb]. apply andb_true_iff. split; [by apply (nests_mono d); [lia|]|].
    rewrite forallb_forall in *. intros y Hy. apply (nests_mono d'); [lia|auto]. }
  unfold document_depth in *. induction v as [| | | | |l IH|kvs IH] using json_nested_ind; try (by exists 8).
  - destruct (Hl _ id l IH) as (d & Hd & H). exists (d + 1). split; [lia|]. cbn [nests].
    replace (d + 1 - 1) with d by lia. apply andb_true_iff. split; [lia|exact H].
  - destruct (Hl _ snd kvs IH) as (d & Hd & H). exists (d + 1). split; [lia|]. cbn [nests].
    replace (d + 1 - 1) with d by lia. apply andb_true_iff. split; [lia|exact H].
Qed.

Lemma dumps_arr fr l :
  dumps fr (JArr l) = ts ← map_result (dumps fr) l; Ok ([91] ++ commas ts ++ [93]).
Proof.
  cbn [dumps]. f_equal. induction l as [|v l IH]; [done|]. cbn. by rewrite IH.
Qed.

Definition dump_entry (kt : pystr * pystr) : pystr := dump_str kt.1 ++ [58] ++ kt.2.

Lemma dumps_obj fr kvs :
  dumps fr (JObj kvs)
  = kts ← map_result (λ kv, t ← dumps fr kv.2; Ok (kv.1, t)) kvs;
    Ok ([123] ++ commas (dump_entry <$> sorted_by fst kts) ++ [125]).
Proof.
  cbn [dumps]. f_equal. induction kvs as [|[k v] kvs IH]; [done|]. cbn. rewrite IH.
  by destruct (dumps fr v).
Qed.

(** *** Strings *)

Lemma hex_value_digit d : 0 ≤ d < 16 → hex_value (hex_digit d) = Some d.
Proof.
  intros Hd. unfold hex_value, hex_digit, is_digit. destruct (Z.ltb_spec d 10).
  - rewrite (proj2 (Z.leb_le _ _)), (proj2 (Z.leb_le _ _)) by lia. simpl. f_equal. lia.
  - rewrite (proj2 (Z.leb_le 48 _)), (proj2 (Z.leb_gt _ 57)) by lia. cbn [andb].
    rewrite (proj2 (Z.leb_le 97 _)), (proj2 (Z.leb_le _ 102)) by lia. simpl. f_equal. lia.
Qed.

Definition hex_at (k u : Z) : Z := hex_digit (u / k mod 16).

Lemma u_escape_eq u : u_escape u = [92; 117; hex_at 4096 u; hex_at 256 u; hex_at 16 u; hex_at 1 u].
Proof.
  unfold u_escape, hex_at. cbn [digits app fmap list_fmap]. rewrite !Z.div_div by lia. cbn.
  by rewrite Z.div_1_r.
Qed.

Lemma hex4_at u : 0 ≤ u < 0x10000 → scan_hex4 (hex_at 4096 u) (hex_at 256 u) (hex_at 16 u) (hex_at 1 u) = Some u.
Proof.
  intros Hu. unfold scan_hex4, hex_at. rewrite !hex_value_digit by zdiv. cbn. f_equal. zdiv.
Qed.

(** A text that does not continue a surrogate pair. *)
Definition no_low_escape (t : pystr) : Prop :=
  match t with
  | x :: y :: k1 :: k2 :: k3 :: k4 :: _ =>
      x = 92 → y = 117 → ∃ v, scan_hex4 k1 k2 k3 k4 = Some v ∧ is_low v = false
  | _ => True
  end.

Lemma scan_u_escape u rest :
  0 ≤ u < 0x10000 → (is_high u = true → no_low_escape rest) →
  scan_string (u_escape u ++ rest) = push u (scan_string rest).
Proof.
  intros Hu Hn. rewrite u_escape_eq. cbn [app scan_string].
  change (92 =? 34) with false. change (92 =? 92) with true. change (117 =? 117) with true. cbn iota.
  rewrite hex4_at by done. destruct (is_high u); cbn [negb]; [|done]. specialize (Hn eq_refl).
  destruct rest as [|x [|y [|k1 [|k2 [|k3 [|k4 r]]]]]]; try done. cbn [no_low_escape] in Hn.
  destruct (Z.eqb_spec x 92), (Z.eqb_spec y 117); cbn [andb]; try done. subst.
  destruct Hn as (v & -> & ->); done.
Qed.

Lemma scan_pair_escape h l rest :
  is_high h = true → is_low l = true →
  scan_string (u_escape h ++ u_escape l ++ rest) = push (join_surrogates h l) (scan_string rest).
Proof.
  intros Hh Hl. rewrite !u_escape_eq. cbn [app scan_string].
  change (92 =? 34) with false. change (92 =? 92) with true. change (117 =? 117) with true. cbn iota.
  unfold is_high, is_low in *. rewrite hex4_at by lia. unfold is_high. rewrite Hh. cbn [negb andb].
  rewrite hex4_at by lia. unfold is_low. by rewrite Hl.
Qed.

Lemma scan_plain c rest :
  c ≠ 34 → c ≠ 92 → 32 ≤ c → scan_string (c :: rest) = push c (scan_string rest).
Proof.
  intros H1 H2 H3. cbn [scan_string].
  rewrite (proj2 (Z.eqb_neq _ _) H1), (proj2 (Z.eqb_neq _ _) H2), (proj2 (Z.ltb_ge _ _) H3). done.
Qed.

Lemma scan_escape e u rest :
  e ≠ 117 → unescape e = Some u → scan_string (92 :: e :: rest) = push u (scan_string rest).
Proof.
  intros H1 H2. cbn [scan_string]. change (92 =? 34) with false. change (92 =? 92) with true. cbn iota.
  by rewrite (proj2 (Z.eqb_neq _ _) H1), H2.
Qed.

Lemma scan_dump_char c rest :
  0 ≤ c ≤ 0x10FFFF → (is_high c = true → no_low_escape rest) →
  scan_string (dump_char c ++ rest) = push c (scan_string rest).
Proof.
  intros Hc Hn. unfold dump_char.
  repeat match goal with
  | |- context [if ?b then _ else _] => destruct b eqn:?
  end; rewrite ?andb_true_iff, ?andb_false_iff, ?Z.eqb_eq, ?Z.eqb_neq, ?Z.leb_le, ?Z.ltb_lt, ?Z.ltb_ge in *;
    subst; cbn [app]; try (apply scan_escape; [lia|reflexivity]).
  - apply scan_plain; lia.
  - apply scan_u_escape; [lia|done].
  - rewrite <- app_assoc, scan_pair_escape.
    + f_equal. unfold join_surrogates. zdiv.
    + unfold is_high. apply andb_true_iff. rewrite !Z.leb_le. zdiv.
    + unfold is_low. apply andb_true_iff. rewrite !Z.leb_le. zdiv.
Qed.

Lemma dump_char_no_low c t :
  0 ≤ c ≤ 0x10FFFF → is_low c = false → no_low_escape (dump_char c ++ t).
Proof.
  intros Hc Hl. unfold dump_char.
  repeat match goal with
  | |- context [if ?b then _ else _] => destruct b eqn:?
  end; rewrite ?andb_true_iff, ?andb_false_iff, ?Z.eqb_eq, ?Z.eqb_neq, ?Z.leb_le, ?Z.ltb_lt, ?Z.ltb_ge in *;
    rewrite <- ?app_assoc, ?u_escape_eq; cbn [app].
  all: try (unfold no_low_escape; repeat case_match; simplify_eq; try done; intros; exfalso; lia).
  - cbn [no_low_escape]. intros _ _. exists c. rewrite hex4_at by lia. done.
  - cbn [no_low_escape]. intros _ _. eexists. rewrite hex4_at by zdiv. split; [done|].
    unfold is_low. apply andb_false_iff. left. apply Z.leb_gt. zdiv.
Qed.

Lemma scan_dump_str s rest :
  str_ok s = true → scan_string ((s ≫= dump_char) ++ 34 :: rest) = Ok (s, rest).
Proof.
  unfold str_ok. intros [Hc Hu]%andb_true_iff. induction s as [|c s IH]; [done|].
  cbn [forallb unpaired] in Hc, Hu. apply andb_true_iff in Hc as [Hc Hs].
  apply andb_true_iff in Hu as [Hcs Hu]. rewrite bind_cons, <- app_assoc.
  apply andb_true_iff in Hc as [Hc1 Hc2]. rewrite Z.leb_le in Hc1, Hc2.
  rewrite scan_dump_char, IH; [done|done|done|lia|]. intros Hh.
  destruct s as [|d s]; [simpl; repeat case_match; done|].
  rewrite bind_cons, <- app_assoc. rewrite Hh in Hcs. apply negb_true_iff in Hcs.
  apply dump_char_no_low; [|done]. cbn [forallb] in Hs. apply andb_true_iff in Hs as [Hd _]. lia.
Qed.

(** *** Integers *)

(** What may follow an integer without extending it. *)
Definition follow (rest : pystr) : Prop :=
  match rest with
  | [] => True
  | c :: _ => is_digit c = false ∧ c ≠ 46 ∧ c ≠ 101 ∧ c ≠ 69
  end.

Lemma digits_value d p :
  foldl (λ a c, a * 10 + (c - 48)) (Zpos p) (lit (NilEmpty.string_of_uint d)) = Zpos (Pos.of_uint_acc d p).
Proof.
  revert p. induction d; intros p; cbn [NilEmpty.string_of_uint lit foldl Pos.of_uint_acc]; [done|..];
    rewrite <- IHd; f_equal; vm_compute (ascii_code _); lia.
Qed.

Lemma uint_text d : forallb is_digit (lit (NilEmpty.string_of_uint d)) = true.
Proof. induction d; [done|..]; cbn [NilEmpty.string_of_uint lit forallb]; rewrite IHd; done. Qed.

Lemma to_uint_head p d : Pos.to_uint p ≠ Decimal.D0 d.
Proof.
  intros H. pose proof (DecimalPos.Unsigned.of_to p) as Hof. rewrite H in Hof.
  apply (f_equal N.to_uint) in Hof. rewrite DecimalPos.Unsigned.to_of in Hof. cbn [N.to_uint] in Hof.
  rewrite H in Hof. symmetry in Hof. unfold Decimal.unorm in Hof.
  destruct (Decimal.nzhead (Decimal.D0 d)) eqn:Hn; try done.
  - injection Hof as ->. by apply (DecimalPos.Unsigned.to_uint_nonzero p).
  - by apply (DecimalFacts.nzhead_nonzero _ _ Hn).
Qed.

(** Decimal text of a positive integer: digits, no leading zero, the right value. *)
Lemma pos_text p :
  ∃ c ds, str_of_int (Zpos p) = c :: ds ∧ forallb is_digit (c :: ds) = true ∧ c ≠ 48
    ∧ int_of_digits (c :: ds) = Zpos p.
Proof.
  unfold str_of_int. cbn [Z.to_int NilZero.string_of_int]. pose proof (DecimalPos.Unsigned.of_to p) as Hof.
  pose proof (to_uint_head p) as H0.
  assert (Hv : lit (NilZero.string_of_uint (Pos.to_uint p)) = lit (NilEmpty.string_of_uint (Pos.to_uint p))).
  { pose proof (DecimalPos.Unsigned.to_uint_nonnil p). by destruct (Pos.to_uint p). }
  rewrite Hv. destruct (Pos.to_uint p) as [|d|d|d|d|d|d|d|d|d|d]; [done|by destruct (H0 d)|..];
    (eexists _, _; split; [reflexivity|]; split; [apply (uint_text _)|]; split; [done|];
     unfold int_of_digits; cbn [foldl]; vm_compute (_ + _);
     match goal with |- foldl _ ?a _ = _ => let b := eval vm_compute in a in change a with b end;
     rewrite digits_value; injection Hof as ->; reflexivity).
Qed.

Lemma neg_text p : str_of_int (Zneg p) = 45 :: str_of_int (Zpos p).
Proof. reflexivity. Qed.

Lemma span_digits_app ds rest :
  forallb is_digit ds = true → follow rest → span_digits (ds ++ rest) = (ds, rest).
Proof.
  intros Hd Hf. induction ds as [|c ds IH]; cbn [app].
  - destruct rest as [|c rest]; [done|]. destruct Hf as [Hc _]. simpl. by rewrite Hc.
  - cbn [forallb] in Hd. apply andb_true_iff in Hd as [Hc Hd]. simpl. by rewrite Hc, IH.
Qed.

Lemma follow_stops rest : follow rest → scan_fraction rest = ([], rest) ∧ scan_exponent rest = ([], rest).
Proof.
  destruct rest as [|c r]; [done|]. intros (_ & H1 & H2 & H3). simpl. rewrite (proj2 (Z.eqb_neq _ _) H1),
    (proj2 (Z.eqb_neq _ _) H2), (proj2 (Z.eqb_neq _ _) H3). split; repeat case_match; done.
Qed.

Lemma scan_number_pos (neg : bool) c ds rest :
  forallb is_digit (c :: ds) = true → (c = 48 → ds = []) → follow rest →
  (len (c :: ds) <=? int_max_str_digits) = true →
  scan_number ((if neg then [45] else []) ++ (c :: ds) ++ rest)
  = Ok (JInt (if neg then - int_of_digits (c :: ds) else int_of_digits (c :: ds)), rest).
Proof.
  intros Hd Hz Hf Hl. pose proof (proj1 (andb_true_iff _ _) Hd) as [Hc _]. unfold scan_number.
  set (p := match (if neg then [45] else []) ++ (c :: ds) ++ rest with [] => _ | _ => _ end).
  assert (Hp : p = (neg, (c :: ds) ++ rest)).
  { subst p. destruct neg; [done|]. cbn [app]. unfold is_digit in Hc.
    by rewrite (proj2 (Z.eqb_neq c 45)) by lia. }
  rewrite Hp. cbn [app]. rewrite Hc. cbn [negb].
  set (q := if c =? 48 then _ else _).
  assert (Hq : q = (c :: ds, rest)).
  { subst q. destruct (Z.eqb_spec c 48) as [Hc0|]; [by rewrite Hz|].
    change (c :: ds ++ rest) with ((c :: ds) ++ rest). by rewrite span_digits_app. }
  rewrite Hq. destruct (follow_stops rest Hf) as [-> ->]. rewrite !bool_decide_eq_true_2 by done. cbn [andb].
  by rewrite Hl.
Qed.

Lemma dump_int_head z t : dump_int z = Ok t → ∃ c t', t = c :: t' ∧ (is_digit c = true ∨ c = 45).
Proof.
  unfold dump_int. intros (_ & _ & [= <-])%bind_Ok. destruct z as [|p|p].
  - exists 48, []. split; [reflexivity|by left].
  - destruct (pos_text p) as (c & ds & -> & Hd & _). cbn [forallb] in Hd. apply andb_true_iff in Hd as [Hc _].
    exists c, ds. by split; [|left].
  - rewrite neg_text. exists 45, (str_of_int (Zpos p)). by split; [|right].
Qed.

Lemma scan_dump_int z t rest :
  dump_int z = Ok t → follow rest → scan_number (t ++ rest) = Ok (JInt z, rest).
Proof.
  unfold dump_int. intros (u & Hl%require_Ok & [= <-])%bind_Ok Hf. destruct z as [|p|p].
  - exact (scan_number_pos false 48 [] rest eq_refl (λ _, eq_refl) Hf eq_refl).
  - destruct (pos_text p) as (c & ds & Ht & Hd & Hc & Hv). change (Z.abs (Zpos p)) with (Zpos p) in Hl.
    rewrite Ht in Hl |- *. rewrite <- Hv.
    exact (scan_number_pos false c ds rest Hd (λ H, False_ind _ (Hc H)) Hf Hl).
  - rewrite neg_text. destruct (pos_text p) as (c & ds & Ht & Hd & Hc & Hv). change (Z.abs (Zneg p)) with (Zpos p) in Hl.
    rewrite Ht in Hl |- *. change (Zneg p) with (- Zpos p). rewrite <- Hv.
    exact (scan_number_pos true c ds rest Hd (λ H, False_ind _ (Hc H)) Hf Hl).
Qed.

(** *** Values *)

(** A member of an object with its text. *)
Abbreviation member := (list Z * (json * list Z))%type.

Section RoundTrip.
Context (hook : list (pystr * json) → result (list (pystr * json))).
Context (float_repr : pystr → result pystr).
Context (hook_nodup : ∀ l, NoDup l.*1 → hook l = Ok l).

(** The scanner reads the text of [v] back, whatever follows it. *)
Definition reads (room : Z) (v : json) : Prop :=
  ∀ t rest n, dumps float_repr v = Ok t → follow rest → (2 * length t + 1 ≤ n)%nat →
    scan_value hook room n (t ++ rest) = Ok (sort_keys v, rest).

Lemma dumps_head v t :
  json_ok v = true → dumps float_repr v = Ok t →
  ∃ c t', t = c :: t' ∧ is_ws c = false ∧ c ≠ 93 ∧ c ≠ 125.
Proof.
  intros Hok H. destruct v as [|b|z|x|s|l|kvs]; try done.
  - injection H as <-. by eexists _, _.
  - destruct b; injection H as <-; by eexists _, _.
  - apply dump_int_head in H as (c & t' & -> & Hc). exists c, t'. unfold is_digit, is_ws in *. split; [done|].
    rewrite !orb_false_iff, !Z.eqb_neq. destruct Hc; lia.
  - injection H as <-. by eexists _, _.
  - rewrite dumps_arr in H. apply bind_Ok in H as (ts & _ & [= <-]). by eexists _, _.
  - rewrite dumps_obj in H. apply bind_Ok in H as (ts & _ & [= <-]). by eexists _, _.
Qed.

Lemma skip_ws_dumps v t rest :
  json_ok v = true → dumps float_repr v = Ok t → skip_ws (t ++ rest) = t ++ rest.
Proof. intros Hok (c & t' & -> & Hc & _)%dumps_head; [|done]. simpl. by rewrite Hc. Qed.

Lemma join_cons2 sep (t t' : pystr) ts : join sep (t :: t' :: ts) = t ++ sep ++ join sep (t' :: ts).
Proof. reflexivity. Qed.

(** One step of the list scanner. *)
Lemma scan_items_step room n s v d r :
  scan_value hook room n s = Ok (v, d :: r) → is_ws d = false →
  scan_items hook room (S n) s
  = if d =? 93 then Ok ([v], r)
    else if d =? 44 then '(vs, r') ← scan_items hook room n (skip_ws r); Ok (v :: vs, r')
    else Err JSONDecodeError.
Proof. intros H Hd. cbn [scan_items]. rewrite H. cbn [mbind result_bind skip_ws]. by rewrite Hd. Qed.

Lemma follow_sep d r : d = 44 ∨ d = 93 ∨ d = 125 → follow (d :: r).
Proof. intros [->|[->| ->]]; done. Qed.

Lemma scan_items_dumps room l ts rest n :
  Forall2 (λ v t, json_ok v = true ∧ reads room v ∧ dumps float_repr v = Ok t) l ts → l ≠ [] →
  (2 * length (commas ts) + 2 ≤ n)%nat →
  scan_items hook room n (commas ts ++ 93 :: rest) = Ok (sort_keys <$> l, rest).
Proof.
  intros H. revert n. induction H as [|v t l ts (Hok & Hv & Ht) Hl IH]; intros n Hne Hn; [done|].
  destruct n as [|n]; [lia|]. destruct Hl as [|v' t' l' ts' H' Hl].
  - cbn [join] in *. rewrite (scan_items_step _ _ _ (sort_keys v) 93 rest); [done| |done].
    apply Hv; [done|apply follow_sep; lia|lia].
  - rewrite join_cons2 in *. rewrite !length_app in Hn. change (length [44%Z]) with 1%nat in Hn.
    rewrite <- !app_assoc. change ([44] ++ ?x) with (44 :: x).
    rewrite (scan_items_step _ _ _ (sort_keys v) 44 (commas (t' :: ts') ++ 93 :: rest)); [|..|done].
    + change (44 =? 93) with false. change (44 =? 44) with true. cbn iota.
      assert (Hs : skip_ws (commas (t' :: ts') ++ 93 :: rest) = commas (t' :: ts') ++ 93 :: rest).
      { destruct H' as (Hok' & _ & Ht'). destruct ts'; [by eapply skip_ws_dumps|].
        rewrite join_cons2, <- app_assoc. by eapply skip_ws_dumps. }
      rewrite Hs, IH; [done|done|lia].
    + apply Hv; [done|apply follow_sep; lia|lia].
Qed.

Definition member_text (e : member) : pystr := dump_entry (e.1, e.2.2).
Definition member_pair (e : member) : pystr * json := (e.1, sort_keys e.2.1).
Definition member_ok (room : Z) (e : member) : Prop :=
  str_ok e.1 = true ∧ json_ok e.2.1 = true ∧ reads room e.2.1 ∧ dumps float_repr e.2.1 = Ok e.2.2.

Lemma member_text_eq e : member_text e = 34 :: (e.1 ≫= dump_char) ++ 34 :: 58 :: e.2.2.
Proof. unfold member_text, dump_entry, dump_str. cbn [fst snd]. by rewrite <- !app_assoc. Qed.

Lemma scan_pairs_step room n e d r :
  member_ok room e → (2 * length (member_text e) + 1 ≤ n)%nat → d = 44 ∨ d = 125 →
  scan_pairs hook room (S n) (member_text e ++ d :: r)
  = if d =? 125 then Ok ([member_pair e], r)
    else '(kvs, r') ← scan_pairs hook room n (skip_ws r); Ok (member_pair e :: kvs, r').
Proof.
  intros (Hk & Hok & Hv & Ht) Hn Hd. rewrite member_text_eq in *.
  simpl length in Hn. rewrite length_app in Hn. simpl length in Hn.
  cbn [app scan_pairs]. change (34 =? 34) with true. cbn [negb].
  rewrite <- app_assoc. cbn [app]. rewrite scan_dump_str by done. cbn [mbind result_bind skip_ws].
  change (is_ws 58) with false. change (58 =? 58) with true. cbn [negb]. cbn iota.
  erewrite (skip_ws_dumps e.2.1 e.2.2), Hv; [|done|apply follow_sep; lia|lia|done|done].
  cbn [mbind result_bind skip_ws].
  destruct Hd as [-> | ->]; reflexivity.
Qed.

Lemma scan_pairs_dumps room L rest n :
  Forall (member_ok room) L → L ≠ [] → (2 * length (commas (member_text <$> L)) + 2 ≤ n)%nat →
  scan_pairs hook room n (commas (member_text <$> L) ++ 125 :: rest) = Ok (member_pair <$> L, rest).
Proof.
  intros H. revert n. induction H as [|e L He HL IH]; intros n Hne Hn; [done|].
  destruct n as [|n]; [lia|]. destruct L as [|e' L].
  - cbn [fmap list_fmap join] in *. rewrite scan_pairs_step; [done|done|lia|by right].
  - rewrite !fmap_cons, join_cons2 in *. rewrite !length_app in Hn.
    change (length [44%Z]) with 1%nat in Hn. rewrite <- !app_assoc. change ([44] ++ ?x) with (44 :: x).
    rewrite scan_pairs_step; [|done|lia|by left]. change (44 =? 125) with false. cbn iota.
    assert (Hs : skip_ws (commas (member_text e' :: (member_text <$> L)) ++ 125 :: rest)
                 = commas (member_text e' :: (member_text <$> L)) ++ 125 :: rest).
    { destruct L; cbn [fmap list_fmap]; rewrite ?join_cons2, member_text_eq; done. }
    rewrite Hs, IH; [done|done|lia].
Qed.

(** The members of an encoded object, in the order of the text. *)
Lemma members_of kvs kts :
  map_result (λ kv : pystr * json, t ← dumps float_repr kv.2; Ok (kv.1, t)) kvs = Ok kts →
  ∃ M : list member, kvs = (λ e, (e.1, e.2.1)) <$> M ∧ kts = (λ e, (e.1, e.2.2)) <$> M
    ∧ Forall (λ e, dumps float_repr e.2.1 = Ok e.2.2) M.
Proof.
  intros H%map_result_Ok. induction H as [|[k v] [k' t] kvs kts Hv _ (M & -> & -> & HM)]; [by exists []|].
  apply bind_Ok in Hv as (t' & Ht & [= <- ->]). exists ((k, (v, t)) :: M). split_and!; [done|done|].
  by constructor.
Qed.

Lemma int_skips_constants z t rest :
  dump_int z = Ok t →
  ∃ c t', t = c :: t' ∧ c ≠ 34 ∧ c ≠ 123 ∧ c ≠ 91 ∧ scan_constant constants (t ++ rest) = None.
Proof.
  intros H. unfold dump_int in H. apply bind_Ok in H as (_ & _ & [= <-]).
  assert (Hc : ∀ c r, is_digit c = true → scan_constant constants (c :: r) = None ∧ c ≠ 34 ∧ c ≠ 123 ∧ c ≠ 91
             ∧ scan_constant constants (45 :: c :: r) = None).
  { intros c r Hc. unfold is_digit in Hc. let k := eval vm_compute in constants in change constants with k.
    cbn -[Z.eqb].
    repeat match goal with |- context [?k =? c] => rewrite (proj2 (Z.eqb_neq k c)) by lia end.
    repeat match goal with |- context [?k =? 45] =>
      let b := eval vm_compute in (k =? 45) in change (k =? 45) with b end. cbn -[Z.eqb].
    repeat match goal with |- context [?k =? c] => rewrite (proj2 (Z.eqb_neq k c)) by lia end. cbn.
    split_and!; done || lia. }
  destruct z as [|p|p].
  - by exists 48, [].
  - destruct (pos_text p) as (c & ds & -> & Hd & _). cbn [forallb] in Hd. apply andb_true_iff in Hd as [Hd _].
    destruct (Hc c (ds ++ rest) Hd) as (? & ? & ? & ? & _). by exists c, ds.
  - rewrite neg_text. destruct (pos_text p) as (c & ds & -> & Hd & _). cbn [forallb] in Hd.
    apply andb_true_iff in Hd as [Hd _]. destruct (Hc c (ds ++ rest) Hd) as (_ & _ & _ & _ & ?).
    by exists 45, (c :: ds).
Qed.

Lemma reads_arr room l :
  0 < room → Forall (λ v, json_ok v = true ∧ reads (room - 1) v) l → reads room (JArr l).
Proof.
  intros Hroom%Z.ltb_lt Hl t rest n Ht Hf Hn. destruct n as [|n]; [lia|].
  rewrite dumps_arr in Ht. apply bind_Ok in Ht as (ts & Hts%map_result_Ok & [= <-]).
  cbn [app] in Hn |- *. rewrite <- app_assoc. cbn [app scan_value]. change (91 =? 34) with false. change (91 =? 123) with false.
  change (91 =? 91) with true. rewrite Hroom. cbn [require mbind result_bind].
  assert (H2 : Forall2 (λ v t, json_ok v = true ∧ reads (room - 1) v ∧ dumps float_repr v = Ok t) l ts).
  { clear Hn. induction Hts as [|v t l ts Hv Hts IH]; [constructor|]. apply Forall_cons in Hl as [[] Hl].
    constructor; auto. }
  destruct Hts as [|v t l ts Hv Hts]; [done|]. simpl length in Hn. rewrite !length_app in Hn. simpl length in Hn.
  apply Forall_cons in Hl as [[Hok _] _]. destruct (dumps_head _ _ Hok Hv) as (c & t' & Heq & Hws & H93 & _).
  assert (Hj : ∃ j, commas (t :: ts) = c :: j).
  { subst t. destruct ts; [by exists t'|]. rewrite join_cons2. by eexists. }
  destruct Hj as [j Hj]. rewrite Hj. cbn [app skip_ws]. rewrite Hws, (proj2 (Z.eqb_neq _ _) H93).
  change (c :: j ++ 93 :: rest) with ((c :: j) ++ 93 :: rest). rewrite <- Hj.
  rewrite (scan_items_dumps _ _ _ rest n H2); [done|done|]. simpl length. lia.
Qed.

Lemma reads_obj room kvs :
  0 < room → NoDup kvs.*1 →
  Forall (λ kv, str_ok kv.1 = true ∧ json_ok kv.2 = true ∧ reads (room - 1) kv.2) kvs → reads room (JObj kvs).
Proof.
  intros Hroom%Z.ltb_lt Hnd Hl t rest n Ht Hf Hn. destruct n as [|n]; [lia|].
  rewrite dumps_obj in Ht. apply bind_Ok in Ht as (kts & (M & Hkvs & -> & HM)%members_of & <-%Ok_inj).
  assert (Hok : Forall (member_ok (room - 1)) (sorted_by fst M)).
  { rewrite sorted_by_perm. rewrite Hkvs in Hl. apply Forall_fmap in Hl. rewrite Forall_forall in Hl. rewrite Forall_forall in HM.
    apply Forall_forall. intros e He. destruct (Hl e He) as (? & ? & ?). by split_and!; [..|apply HM]. }
  assert (Htext : dump_entry <$> sorted_by fst ((λ e : member, (e.1, e.2.2)) <$> M)
                  = member_text <$> sorted_by fst M).
  { rewrite (sorted_by_map (λ e : member, (e.1, e.2.2)) fst fst) by done. by rewrite <- list_fmap_compose. }
  rewrite Htext in Hn |- *.
  assert (Hs : sort_keys (JObj kvs) = JObj (member_pair <$> sorted_by fst M)).
  { change (sort_keys (JObj ?kvs)) with (JObj (sorted_by fst ((λ kv, (kv.1, sort_keys kv.2)) <$> kvs))).
    f_equal. rewrite Hkvs, <- list_fmap_compose. by apply (sorted_by_map member_pair fst fst). }
  rewrite Hs. cbn [app] in Hn |- *. rewrite <- app_assoc. cbn [app scan_value]. change (123 =? 34) with false.
  change (123 =? 123) with true. rewrite Hroom. cbn [require mbind result_bind]. simpl length in Hn. rewrite !length_app in Hn. simpl length in Hn.
  assert (Hh : ∀ l, NoDup l.*1 → build_object hook (Ok (l, rest)) = Ok (JObj l, rest)).
  { intros l Hnd'. unfold build_object. cbn. by rewrite hook_nodup. }
  assert (Hnd' : NoDup (member_pair <$> sorted_by fst M).*1).
  { rewrite <- list_fmap_compose. change (fst ∘ member_pair) with (@fst pystr (json * pystr)).
    rewrite Hkvs, <- list_fmap_compose in Hnd. rewrite sorted_by_perm. exact Hnd. }
  destruct (sorted_by fst M) as [|e L]; [by apply (Hh [])|].
  assert (Hj : ∃ j, commas (member_text <$> e :: L) = 34 :: j).
  { rewrite fmap_cons. destruct L; cbn [fmap list_fmap]; rewrite ?join_cons2, member_text_eq; by eexists. }
  destruct Hj as [j Hj]. rewrite Hj. cbn [app skip_ws]. change (is_ws 34) with false.
  change (34 =? 125) with false. cbn iota. change (34 :: j ++ 125 :: rest) with ((34 :: j) ++ 125 :: rest).
  rewrite <- Hj, scan_pairs_dumps; [by apply Hh|done|done|lia].
Qed.

Lemma dumps_reads room v : json_ok v = true → nests room v = true → reads room v.
Proof.
  revert room. induction v as [|b|z|x|s|l IH|kvs IH] using json_nested_ind; intros room Hok Hd.
  5:{ intros t rest [|n] Ht Hf Hn; [lia|]. injection Ht as <-. unfold dump_str. rewrite <- !app_assoc.
      cbn [app scan_value]. change (34 =? 34) with true. cbn iota. by rewrite scan_dump_str. }
  5:{ cbn [json_ok nests] in Hok, Hd. apply andb_true_iff in Hd as [H0%Z.ltb_lt Hd]. apply reads_arr; [done|].
      rewrite forallb_forall in Hok, Hd. rewrite Forall_forall in IH. apply Forall_forall. intros v Hv.
      pose proof (proj1 (list_elem_of_In _ _) Hv) as Hi. auto. }
  5:{ cbn [json_ok nests] in Hok, Hd. apply andb_true_iff in Hd as [H0%Z.ltb_lt Hd].
      apply andb_true_iff in Hok as [Hnd%bool_decide_eq_true Hok]. apply reads_obj; [done..|].
      rewrite forallb_forall in Hok, Hd. rewrite Forall_forall in IH. apply Forall_forall. intros kv Hv.
      pose proof (proj1 (list_elem_of_In _ _) Hv) as Hi. pose proof (Hok kv Hi) as [? ?]%andb_true_iff. auto. }
  - intros t rest [|n] Ht Hf Hn; [lia|]. by injection Ht as <-.
  - intros t rest [|n] Ht Hf Hn; [lia|]. destruct b; by injection Ht as <-.
  - intros t rest [|n] Ht Hf Hn; [lia|]. change (sort_keys (JInt z)) with (JInt z).
    destruct (int_skips_constants _ _ rest Ht) as (c & t' & Heq & H1 & H2 & H3 & Hcon).
    rewrite <- (scan_dump_int _ _ _ Ht Hf), Heq in *. cbn [app scan_value]. cbn [app] in Hcon.
    by rewrite (proj2 (Z.eqb_neq _ _) H1), (proj2 (Z.eqb_neq _ _) H2), (proj2 (Z.eqb_neq _ _) H3), Hcon.
  - done.
Qed.

(** *** Bytes *)

Definition printable (c : Z) : Prop := 32 ≤ c < 127.

Lemma hex_digit_printable d : 0 ≤ d < 16 → printable (hex_digit d).
Proof. unfold printable, hex_digit. destruct (Z.ltb_spec d 10); lia. Qed.

Lemma u_escape_printable u : Forall printable (u_escape u).
Proof.
  rewrite u_escape_eq. unfold hex_at. repeat apply Forall_cons_2; try apply Forall_nil_2; try (unfold printable; lia);
    apply hex_digit_printable; apply Z.mod_pos_bound; lia.
Qed.

Lemma dump_str_printable s : Forall printable (dump_str s).
Proof.
  unfold dump_str. rewrite !Forall_app, !Forall_singleton. split; [done|]. split; [|done].
  apply Forall_bind, Forall_true. intros c. cbn. unfold dump_char.
  repeat match goal with |- context [if ?b then _ else _] => destruct b eqn:? end;
    rewrite ?Forall_app; try split; try apply u_escape_printable;
    repeat apply Forall_cons_2; try apply Forall_nil_2; unfold printable; lia.
Qed.

Lemma dump_int_printable z t : dump_int z = Ok t → Forall printable t.
Proof.
  unfold dump_int. intros (_ & _ & <-%Ok_inj)%bind_Ok.
  assert (Hp : ∀ p, Forall printable (str_of_int (Zpos p))).
  { intros p. destruct (pos_text p) as (c & ds & -> & Hd & _). rewrite forallb_forall in Hd.
    apply Forall_forall. intros x Hx%list_elem_of_In%Hd. unfold is_digit, printable in *. lia. }
  destruct z as [|p|p]; [by repeat constructor|done|]. rewrite neg_text. by constructor.
Qed.

Lemma join_printable ts : Forall (Forall printable) ts → Forall printable (commas ts).
Proof.
  induction 1 as [|t ts Ht Hts IH]; [done|]. destruct ts; [done|]. rewrite join_cons2, !Forall_app.
  split; [done|]. split; [by repeat constructor|done].
Qed.

Lemma dumps_printable v t : json_ok v = true → dumps float_repr v = Ok t → Forall printable t.
Proof.
  revert t. induction v as [|b|z|x|s|l IH|kvs IH] using json_nested_ind; intros t Hok Ht.
  - injection Ht as <-. by repeat constructor.
  - destruct b; injection Ht as <-; by repeat constructor.
  - by eapply dump_int_printable.
  - done.
  - injection Ht as <-. apply dump_str_printable.
  - rewrite dumps_arr in Ht. apply bind_Ok in Ht as (ts & Hts%map_result_Ok & <-%Ok_inj).
    rewrite !Forall_app, !Forall_singleton. split; [done|]. split; [|done]. apply join_printable.
    cbn [json_ok] in Hok. rewrite forallb_forall in Hok. rewrite Forall_forall in IH. apply Forall_forall.
    intros t Ht. apply list_elem_of_lookup in Ht as [i Hi].
    destruct (Forall2_lookup_r _ _ _ _ _ Hts Hi) as (v & Hv%list_elem_of_lookup_2 & Hd).
    apply (IH v Hv); [|done]. by apply Hok, list_elem_of_In.
  - rewrite dumps_obj in Ht. apply bind_Ok in Ht as (kts & (M & -> & -> & HM)%members_of & <-%Ok_inj).
    rewrite !Forall_app, !Forall_singleton. split; [done|]. split; [|done]. apply join_printable.
    apply Forall_fmap. rewrite sorted_by_perm. apply Forall_fmap. cbn [json_ok] in Hok.
    apply andb_true_iff in Hok as [_ Hok]. rewrite forallb_forall in Hok. apply Forall_fmap in IH.
    rewrite Forall_forall in IH. rewrite Forall_forall in HM. apply Forall_forall. intros e He.
    change (Forall printable (dump_str e.1 ++ [58] ++ e.2.2)). rewrite !Forall_app. split; [apply dump_str_printable|]. split; [by repeat constructor|].
    apply (IH e He); [|by apply HM].
    eapply andb_true_iff, (Hok (e.1, e.2.1)), list_elem_of_In, list_elem_of_fmap. eauto.
Qed.

Lemma utf8_decode_printable b : Forall printable b → utf8_decode_with true b = Some b.
Proof.
  induction 1 as [|c b Hc _ IH]; [done|]. unfold printable in Hc. cbn [utf8_decode_with].
  rewrite (proj2 (Z.ltb_lt c 128)) by lia. by rewrite IH.
Qed.

Lemma decode_bytes_printable b : Forall printable b → decode_bytes b = Some b.
Proof.
  intros Hb. transitivity (utf8_decode_with true b); [|by apply utf8_decode_printable].
  unfold decode_bytes, printable in *.
  destruct b as [|b0 b]; [done|]. apply Forall_cons in Hb as [H0 Hb]. cbn [startswith].
  rewrite !(proj2 (Z.eqb_neq _ b0)) by lia. cbn [andb].
  destruct b as [|b1 [|b2 [|b3 b]]]; try done; apply Forall_cons in Hb as [H1 Hb];
    rewrite (proj2 (Z.eqb_neq b0 0)), (proj2 (Z.eqb_neq b1 0)) by lia; done.
Qed.

Lemma loads_dumps {limit : NestingLimit} v raw :
  json_ok v = true → nests nesting_limit v = true → dumps float_repr v = Ok raw → loads hook raw = Ok (sort_keys v).
Proof.
  intros Hok Hn Hd. unfold loads. rewrite (decode_bytes_printable raw) by by eapply dumps_printable.
  pose proof (skip_ws_dumps v raw [] Hok Hd) as Hs. rewrite app_nil_r in Hs.
  unfold loads_str. rewrite Hs.
  pose proof (dumps_reads _ v Hok Hn raw [] (2 * length raw + 1)%nat Hd I (le_n _)) as Hr. rewrite app_nil_r in Hr.
  by rewrite Hr.
Qed.
End RoundTrip.

(** ** Canonical text *)

Section Canonical.
Context (float_repr : pystr → result pystr).

Lemma map_result_members (g : member → json) (M : list member) :
  Forall (λ e, dumps float_repr (g e) = Ok e.2.2) M →
  map_result (λ kv : pystr * json, t ← dumps float_repr kv.2; Ok (kv.1, t)) ((λ e, (e.1, g e)) <$> M)
  = Ok ((λ e, (e.1, e.2.2)) <$> M).
Proof.
  induction 1 as [|e M He _ IH]; [done|]. rewrite fmap_cons. cbn [map_result fst snd].
  rewrite He. cbn [mbind result_bind]. by rewrite IH.
Qed.

Lemma sorted_members (M : list member) :
  sorted_by fst ((λ e : member, (e.1, e.2.2)) <$> M) = (λ e : member, (e.1, e.2.2)) <$> sorted_by fst M.
Proof. by apply (sorted_by_map (λ e : member, (e.1, e.2.2)) fst fst). Qed.

Lemma sort_keys_obj kvs (M : list member) :
  kvs = (λ e : member, (e.1, e.2.1)) <$> M →
  sort_keys (JObj kvs) = JObj ((λ e, (e.1, sort_keys e.2.1)) <$> sorted_by fst M).
Proof.
  intros ->.
  change (sort_keys (JObj ?kvs)) with (JObj (sorted_by fst ((λ kv, (kv.1, sort_keys kv.2)) <$> kvs))).
  f_equal. rewrite <- list_fmap_compose. by apply (sorted_by_map member_pair fst fst).
Qed.

(** Encoding fails only with [ValueError]. *)
Lemma dumps_errors v e :
  (∀ x e, float_repr x = Err e → is_ValueError e = true) →
  dumps float_repr v = Err e → is_ValueError e = true.
Proof.
  intros Hf. revert e. induction v as [|b|z|x|s|l IH|kvs IH] using json_nested_ind; intros e H; try done.
  - by destruct b.
  - unfold dumps, dump_int, require in H. destruct (_ <=? _); by inversion H.
  - by eapply Hf.
  - rewrite dumps_arr in H. apply bind_Err in H as [H|(? & _ & [=])].
    induction IH as [|v l Hv _ IH]; [done|]. cbn [map_result] in H.
    apply bind_Err in H as [H|(? & _ & H)]; [by apply Hv|]. apply bind_Err in H as [H|(? & _ & [=])]. by apply IH.
  - rewrite dumps_obj in H. apply bind_Err in H as [H|(? & _ & [=])].
    induction IH as [|[k v] l Hv _ IH]; [done|]. cbn [map_result fst snd] in H.
    apply bind_Err in H as [H|(? & _ & H)].
    + apply bind_Err in H as [H|(? & _ & [=])]. by apply Hv.
    + apply bind_Err in H as [H|(? & _ & [=])]. by apply IH.
Qed.

(** The order of the keys does not show in the text. *)
Lemma dumps_sort_keys v t :
  dumps float_repr v = Ok t → dumps float_repr (sort_keys v) = Ok t.
Proof.
  revert t. induction v as [|b|z|x|s|l IH|kvs IH] using json_nested_ind; intros t Ht; try exact Ht.
  - rewrite dumps_arr in Ht. apply bind_Ok in Ht as (ts & Hts & Ht).
    change (sort_keys (JArr l)) with (JArr (sort_keys <$> l)). rewrite dumps_arr.
    enough (map_result (dumps float_repr) (sort_keys <$> l) = Ok ts) as -> by done.
    apply map_result_Ok in Hts. apply map_result_Ok. clear Ht.
    induction Hts as [|v t' l ts Hv _ IH']; [constructor|]. apply Forall_cons in IH as [H1 H2].
    constructor; auto.
  - rewrite dumps_obj in Ht. apply bind_Ok in Ht as (kts & (M & Hkvs & -> & HM)%members_of & <-%Ok_inj).
    rewrite (sort_keys_obj _ M Hkvs), dumps_obj. rewrite Hkvs in IH. apply Forall_fmap in IH.
    rewrite (map_result_members (λ e, sort_keys e.2.1)).
    + cbn [mbind result_bind]. rewrite !sorted_members.
      by rewrite (sorted_by_fixed fst (sorted_by fst M) (sorted_by_sorted fst M)).
    + rewrite sorted_by_perm. rewrite Forall_forall in IH. rewrite Forall_forall in HM.
      apply Forall_forall. intros e He. apply (IH e He). by apply HM.
Qed.

Lemma dumps_perm kvs kvs' t :
  kvs ≡ₚ kvs' → NoDup kvs.*1 → dumps float_repr (JObj kvs) = Ok t → dumps float_repr (JObj kvs') = Ok t.
Proof.
  intros Hp Hnd Ht. rewrite dumps_obj in Ht.
  apply bind_Ok in Ht as (kts & (M & -> & -> & HM)%members_of & <-%Ok_inj).
  apply symmetry, Permutation_map_inv in Hp as (M' & -> & Hp). rewrite dumps_obj.
  rewrite (map_result_members (λ e, e.2.1)) by by rewrite <- Hp. cbn [mbind result_bind].
  rewrite !sorted_members. rewrite (sorted_by_unique fst M M'); [done| |done].
  intros x y Hx Hy Hle Hge. assert (Hk : x.1 = y.1) by (by apply py_antisym).
  rewrite <- list_fmap_compose in Hnd.
  apply list_elem_of_lookup in Hx as [i Hi]. apply list_elem_of_lookup in Hy as [j Hj].
  assert (i = j) as <-; [|congruence].
  apply (NoDup_lookup _ i j x.1 Hnd); rewrite list_lookup_fmap, ?Hi, ?Hj; cbn; [done|by rewrite Hk].
Qed.
End Canonical.

(** The text determines the value up to the order of the keys. *)
Lemma dumps_inj float_repr v w t :
  json_ok v = true → json_ok w = true → dumps float_repr v = Ok t → dumps float_repr w = Ok t →
  sort_keys v = sort_keys w.
Proof.
  intros Hv Hw Ev Ew. destruct (nests_enough v) as (d & Hd & Nv), (nests_enough w) as (d' & Hd' & Nw).
  assert (Hm : document_depth ≤ Z.max d d') by lia. pose (room := Build_NestingLimit (Z.max d d') Hm).
  apply (loads_dumps (λ l, Ok l) float_repr (λ l _, eq_refl)) in Ev; [|done|by apply (nests_mono d); [cbn; lia|]].
  apply (loads_dumps (λ l, Ok l) float_repr (λ l _, eq_refl)) in Ew; [|done|by apply (nests_mono d'); [cbn; lia|]].
  congruence.
Qed.

(** ** The limit of the stack *)

Section Room.
Context (hook : list (pystr * json) → result (list (pystr * json))).
Context (hook_values : ∀ d l l', hook l = Ok l' → forallb (λ kv, nests d kv.2) l = true →
                         forallb (λ kv, nests d kv.2) l' = true).

Lemma build_object_room room m r v :
  0 < room → (∀ pairs r', m = Ok (pairs, r') → forallb (λ kv, nests (room - 1) kv.2) pairs = true) →
  build_object hook m = Ok (v, r) → nests room v = true.
Proof.
  intros H0 Hm H. unfold build_object in H. apply bind_Ok in H as ([pairs r'] & Hp & H).
  apply bind_Ok in H as (kvs & Hk & [= <- <-]). cbn [nests]. apply andb_true_iff. split; [lia|].
  eapply hook_values; [exact Hk|by eapply Hm].
Qed.

Lemma scan_room n :
  (∀ room s v r, scan_value hook room n s = Ok (v, r) → nests room v = true)
  ∧ (∀ room s vs r, scan_items hook room n s = Ok (vs, r) → forallb (nests room) vs = true)
  ∧ (∀ room s kvs r, scan_pairs hook room n s = Ok (kvs, r) → forallb (λ kv, nests room kv.2) kvs = true).
Proof.
  induction n as [|n (IHv & IHi & IHp)]; [done|]. split_and!; intros room s.
  - intros v r H. destruct s as [|c s]; [done|]. cbn [scan_value] in H.
    destruct (c =? 34); [by apply bind_Ok in H as ([t r'] & _ & [= <- <-])|].
    destruct (c =? 123).
    { apply bind_Ok in H as ([] & H0%require_Ok%Z.ltb_lt & H). destruct (skip_ws s) as [|d r']; [done|].
      destruct (d =? 125); (eapply build_object_room; [exact H0| |exact H]); [by intros ? ? [= <- <-]|].
      intros pairs r2 Hp. by eapply IHp. }
    destruct (c =? 91).
    { apply bind_Ok in H as ([] & H0%require_Ok & H). destruct (skip_ws s) as [|d r']; [done|].
      destruct (d =? 93); [injection H as <- <-; cbn [nests]; by rewrite H0|].
      apply bind_Ok in H as ([vs r2] & Hi & [= <- <-]). cbn [nests]. rewrite H0. by eapply IHi. }
    destruct (scan_constant constants (c :: s)) as [[v' r']|] eqn:Hc.
    + injection H as -> ->. unfold constants in Hc. cbn [scan_constant] in Hc. repeat case_match; by simplify_eq.
    + unfold scan_number in H. repeat case_match; try done; try (by injection H as <- <-);
        apply bind_Ok in H as (? & _ & H); by injection H as <- <-.
  - intros vs r H. cbn [scan_items] in H. apply bind_Ok in H as ([v r1] & Hv & H).
    destruct (skip_ws r1) as [|d r2]; [done|]. apply IHv in Hv.
    destruct (d =? 93); [injection H as <- <-; cbn; by rewrite Hv|]. destruct (d =? 44); [|done].
    apply bind_Ok in H as ([vs' r3] & Hi & [= <- <-]). cbn [forallb]. rewrite Hv. by eapply IHi.
  - intros kvs r H. destruct s as [|c s]; [done|]. cbn [scan_pairs] in H. destruct (negb _); [done|].
    apply bind_Ok in H as ([k r1] & _ & H). destruct (skip_ws r1) as [|d r2]; [done|]. destruct (negb _); [done|].
    apply bind_Ok in H as ([v r3] & Hv & H). apply IHv in Hv. destruct (skip_ws r3) as [|d' r4]; [done|].
    destruct (d' =? 125); [injection H as <- <-; cbn; by rewrite Hv|]. destruct (d' =? 44); [|done].
    apply bind_Ok in H as ([kvs' r5] & Hp & [= <- <-]). cbn [forallb snd]. rewrite Hv. by eapply IHp.
Qed.

(** A value that the decoder returns nests no deeper than the stack allowed. *)
Lemma loads_depth {limit : NestingLimit} raw v : loads hook raw = Ok v → nests nesting_limit v = true.
Proof.
  unfold loads, loads_str. destruct (decode_bytes raw) as [text|]; [|done].
  intros ([v' r] & H & Hr)%bind_Ok. apply bind_Ok in Hr as (_ & _ & <-%Ok_inj). by eapply scan_room.
Qed.
End Room.

Section Deep.
Context (hook : list (pystr * json) → result (list (pystr * json))).

(** Brackets that open more containers than the stack has room for. *)
Lemma scan_deep k : ∀ room n rest,
  0 ≤ room < Z.of_nat k → (2 * k ≤ n)%nat → scan_value hook room n (repeat 91 k ++ rest) = Err RecursionError.
Proof.
  induction k as [|k IH]; intros room n rest Hr Hn; [lia|]. destruct n as [|n]; [lia|].
  cbn [repeat app scan_value]. change (91 =? 34) with false. change (91 =? 123) with false.
  change (91 =? 91) with true. cbn iota. destruct (Z.ltb_spec 0 room) as [H0|]; [|done].
  cbn [require mbind result_bind]. destruct k as [|k]; [lia|]. cbn [repeat app skip_ws].
  change (is_ws 91) with false. change (91 =? 93) with false. cbn iota. destruct n as [|n]; [lia|].
  cbn [scan_items]. change (91 :: repeat 91 k ++ rest) with (repeat 91 (S k) ++ rest).
  rewrite IH; [done|lia|lia].
Qed.

Lemma loads_deep {limit : NestingLimit} k : nesting_limit < Z.of_nat k → loads hook (repeat 91 k) = Err RecursionError.
Proof.
  intros Hk. pose proof nesting_room as Hroom. unfold document_depth in Hroom. unfold loads.
  rewrite decode_bytes_printable.
  - unfold loads_str. destruct k as [|k]; [lia|]. change (skip_ws (repeat 91 (S k))) with (repeat 91 (S k)).
    pose proof (scan_deep (S k) nesting_limit (2 * length (repeat 91 (S k)) + 1) []) as H. rewrite app_nil_r in H.
    rewrite H; [done|lia|]. rewrite repeat_length. lia.
  - apply Forall_forall. intros x Hx%list_elem_of_In%repeat_spec. by subst.
Qed.
End Deep.

(** CPython 3.13 on most platforms lets its C code recurse 10000 deep. *)
Definition cpython_nesting : NestingLimit := Build_NestingLimit 10000 ltac:(done).

(** ** [bytes.fromhex] *)

(** [bytes.fromhex], which skips ASCII white space between the bytes. *)
Fixpoint fromhex (s : pystr) : result pybytes :=
  match s with
  | [] => Ok []
  | a :: s' =>
      if mem a [9; 10; 11; 12; 13; 32] then fromhex s'
      else match s' with
           | [] => Err ValueError
           | b :: s'' =>
               match hex_value a, hex_value b with
               | Some x, Some y => r ← fromhex s''; Ok (16 * x + y :: r)
               | _, _ => Err ValueError
               end
           end
  end.

Lemma fromhex_hex b : Forall byte_ok b → fromhex (hex b) = Ok b.
Proof.
  unfold hex. induction 1 as [|x b Hx Hb IH]; [done|]. rewrite bind_cons. unfold hex_byte. cbn [app fromhex].
  unfold byte_ok in Hx. assert (H1 : 0 ≤ x / 16 < 16) by zdiv. assert (H2 : 0 ≤ x mod 16 < 16) by zdiv.
  replace (mem (hex_digit (x / 16)) _) with false.
  - rewrite !hex_value_digit by done. change (λ b : Z, [hex_digit (b / 16); hex_digit (b mod 16)]) with hex_byte. rewrite IH. cbn. do 2 f_equal. zdiv.
  - symmetry. apply not_true_iff_false. rewrite mem_spec. unfold hex_digit. intros H.
    destruct (Z.ltb_spec (x / 16) 10);
      repeat (apply elem_of_cons in H as [H|H]; [lia|]); by apply not_elem_of_nil in H.
Qed.

Lemma hex_digit_value a : mem a hex_alphabet = true → ∃ x, hex_value a = Some x ∧ 0 ≤ x < 16 ∧ hex_digit x = a.
Proof.
  rewrite mem_spec. intros H. revert a H.
  enough (H : Forall (λ a, match hex_value a with Some x => (0 <=? x) && (x <? 16) && (hex_digit x =? a) | None => false end = true)
                hex_alphabet).
  { intros a Ha. rewrite Forall_forall in H. specialize (H a Ha). cbn beta in H. destruct (hex_value a) as [x|]; [|done].
    exists x. split; [done|]. lia. }
  apply (bool_decide_unpack _). by vm_compute.
Qed.

(** A lowercase hexadecimal text is the text of the bytes it denotes. *)
Lemma hex_fromhex n s :
  length s = (2 * n)%nat → all_in hex_alphabet s = true →
  ∃ b, fromhex s = Ok b ∧ hex b = s ∧ length b = n ∧ Forall byte_ok b.
Proof.
  revert s. induction n as [|n IH]; intros s Hl Hs.
  - destruct s; [|done]. by exists [].
  - destruct s as [|x [|y s]]; try (cbn in Hl; lia). cbn [all_in forallb] in Hs.
    apply andb_true_iff in Hs as [Hx [Hy Hs]%andb_true_iff].
    destruct (IH s) as (b & Hb & Hh & Hn & Hok); [cbn in Hl; lia|done|].
    pose proof Hx as Hx'. apply hex_digit_value in Hx as (u & Hu & Bu & Eu).
    apply hex_digit_value in Hy as (v & Hv & Bv & Ev). exists (16 * u + v :: b). cbn [fromhex].
    replace (mem x _) with false; [rewrite Hu, Hv, Hb|].
    + split; [done|]. unfold hex. rewrite bind_cons. fold (hex b). rewrite Hh. unfold hex_byte.
      replace ((16 * u + v) / 16) with u by zdiv. replace ((16 * u + v) mod 16) with v by zdiv.
      rewrite Eu, Ev. split; [done|]. split; [by rewrite length_cons, Hn|]. constructor; [unfold byte_ok; lia|done].
    + symmetry. apply not_true_iff_false. rewrite mem_spec. rewrite <- Eu. unfold hex_digit. intros H.
      destruct (Z.ltb_spec u 10); repeat (apply elem_of_cons in H as [H|H]; [lia|]); by apply not_elem_of_nil in H.
Qed.

Lemma sha256_fromhex s :
  is_sha256_hex s = true → ∃ b, fromhex s = Ok b ∧ hex b = s ∧ length b = 32%nat ∧ Forall byte_ok b.
Proof.
  unfold is_sha256_hex, len. intros [Hl Hs]%andb_true_iff. apply (hex_fromhex 32 s); [|done]. lia.
Qed.
