(* ===== verification/Sha256.v ===== *)
(** * SHA-256 and HMAC-SHA-256

    The digests of [hashlib.sha256] and [hmac.digest(key, msg, "sha256")],
    executable on 32-bit words kept as integers below [2 ^ 32].  The
    development never assumes the hash to be injective: a theorem about a digest
    either concludes on the hashed bytes or exhibits a [collision]. *)

From S2P Require Import Prelude Codec.

Definition w32 (x : Z) : Z := Z.land x 0xFFFFFFFF.
Definition add32 (x y : Z) : Z := w32 (x + y).
Definition rotr (n x : Z) : Z := Z.lor (Z.shiftr x n) (w32 (Z.shiftl x (32 - n))).
Definition shr (n x : Z) : Z := Z.shiftr x n.
Definition not32 (x : Z) : Z := Z.lxor x 0xFFFFFFFF.

Definition ch (x y z : Z) : Z := Z.lxor (Z.land x y) (Z.land (not32 x) z).
Definition maj (x y z : Z) : Z :=
  Z.lxor (Z.lxor (Z.land x y) (Z.land x z)) (Z.land y z).
Definition big_sigma0 (x : Z) : Z := Z.lxor (Z.lxor (rotr 2 x) (rotr 13 x)) (rotr 22 x).
Definition big_sigma1 (x : Z) : Z := Z.lxor (Z.lxor (rotr 6 x) (rotr 11 x)) (rotr 25 x).
Definition small_sigma0 (x : Z) : Z := Z.lxor (Z.lxor (rotr 7 x) (rotr 18 x)) (shr 3 x).
Definition small_sigma1 (x : Z) : Z := Z.lxor (Z.lxor (rotr 17 x) (rotr 19 x)) (shr 10 x).

(** The constants of FIPS 180-4 are the first 32 fractional bits of the cube and
    square roots of the first primes; they are evaluated once, here. *)
Definition is_prime (n : Z) : bool :=
  (1 <? n) && forallb (λ d, negb (n mod d =? 0)) (seqZ 2 (Z.sqrt n - 1)).
Definition primes : list Z := Eval vm_compute in filter is_prime (seqZ 2 310).

(** The integer cube root, one binary digit at a time. *)
Fixpoint cube_root (bits : nat) (n acc : Z) : Z :=
  match bits with
  | O => acc
  | S bits' =>
      let next := acc + 2 ^ Z.of_nat bits' in
      cube_root bits' n (if next ^ 3 <=? n then next else acc)
  end.

Definition round_constants : list Z :=
  Eval vm_compute in (λ p, cube_root 40 (p * 2 ^ 96) 0 mod 2 ^ 32) <$> take 64 primes.
Definition initial_hash : list Z :=
  Eval vm_compute in (λ p, Z.sqrt (p * 2 ^ 64) mod 2 ^ 32) <$> take 8 primes.

Definition word_of (b : list Z) : Z := foldl (λ acc x, acc * 256 + x) 0 b.

Fixpoint words_of (b : pybytes) : list Z :=
  match b with
  | b0 :: b1 :: b2 :: b3 :: r => word_of [b0; b1; b2; b3] :: words_of r
  | _ => []
  end.

(** The message schedule, newest word first. *)
Fixpoint extend (n : nat) (rw : list Z) : list Z :=
  match n with
  | O => rw
  | S n' =>
      let w := w32 (small_sigma1 (nth 1 rw 0) + nth 6 rw 0
                    + small_sigma0 (nth 14 rw 0) + nth 15 rw 0) in
      extend n' (w :: rw)
  end.
Definition schedule (block : list Z) : list Z := reverse (extend 48 (reverse block)).

Definition round (st : list Z) (kw : Z * Z) : list Z :=
  match st with
  | [a; b; c; d; e; f; g; h] =>
      let t1 := w32 (h + big_sigma1 e + ch e f g + kw.1 + kw.2) in
      let t2 := w32 (big_sigma0 a + maj a b c) in
      [add32 t1 t2; a; b; c; add32 d t1; e; f; g]
  | _ => st
  end.

Definition compress (hash : list Z) (block : list Z) : list Z :=
  zip_with add32 hash (foldl round hash (zip round_constants (schedule block))).

Definition pad (m : pybytes) : pybytes :=
  m ++ [0x80] ++ replicate (Z.to_nat ((55 - len m) mod 64)) 0 ++ be_bytes 8 (8 * len m).

Fixpoint compress_all (fuel : nat) (hash : list Z) (ws : list Z) : list Z :=
  match fuel, ws with
  | S fuel', _ :: _ => compress_all fuel' (compress hash (take 16 ws)) (drop 16 ws)
  | _, _ => hash
  end.

(** [hashlib.sha256(m).digest()]; one unit of fuel per word exceeds the number
    of blocks. *)
Definition sha256 (m : pybytes) : pybytes :=
  let ws := words_of (pad m) in
  compress_all (length ws) initial_hash ws ≫= be_bytes 4.

(** [hashlib.sha256(m).hexdigest()] *)
Definition hexdigest (m : pybytes) : pystr := hex (sha256 m).

Definition hmac_block (key : pybytes) : pybytes :=
  let key := if 64 <? len key then sha256 key else key in
  key ++ replicate (64 - length key) 0.

(** [hmac.digest(key, msg, "sha256")] *)
Definition hmac_sha256 (key msg : pybytes) : pybytes :=
  let k := hmac_block key in
  sha256 ((Z.lxor 0x5c <$> k) ++ sha256 ((Z.lxor 0x36 <$> k) ++ msg)).

(** Two different byte strings with the same digest. *)
Definition collision (x y : pybytes) : Prop := x ≠ y ∧ hexdigest x = hexdigest y.

Example sha256_abc :
  hexdigest (lit "abc")
  = lit "ba7816bf8f01cfea414140de5dae2223b00361a396177a9cb410ff61f20015ad".
Proof. vm_compute. reflexivity. Qed.

Example sha256_two_blocks :
  hexdigest (lit "abcdbcdecdefdefgefghfghighijhijkijkljklmklmnlmnomnopnopq")
  = lit "248d6a61d20638b8e5c026930c3e6039a33ce45964ff2167f6ecedd419db06c1".
Proof. vm_compute. reflexivity. Qed.

Example hmac_rfc4231_case2 :
  hex (hmac_sha256 (lit "Jefe") (lit "what do ya want for nothing?"))
  = lit "5bdcc146bf60754e6a042426089575c75a003f089d2739839dec58b964ec3843".
Proof. vm_compute. reflexivity. Qed.

Lemma length_compress hash block :
  length hash = 8%nat → length (compress hash block) = 8%nat.
Proof.
  intros H. unfold compress. rewrite length_zip_with.
  assert (Hr : ∀ kws st, length st = 8%nat → length (foldl round st kws) = 8%nat).
  { induction kws as [|kw kws IH]; intros st Hst; [done|]. simpl. apply IH.
    do 8 (destruct st as [|? st]; [done|]). by destruct st. }
  rewrite Hr by done. lia.
Qed.

Lemma length_sha256 m : length (sha256 m) = 32%nat.
Proof.
  unfold sha256. generalize (words_of (pad m)) as ws. intros ws.
  assert (H : ∀ fuel hash ws, length hash = 8%nat →
                length (compress_all fuel hash ws) = 8%nat).
  { induction fuel as [|fuel IH]; intros hash [|w ws'] Hh; try done.
    simpl. apply IH. by apply length_compress. }
  specialize (H (length ws) initial_hash ws eq_refl). revert H.
  generalize (compress_all (length ws) initial_hash ws). intros l H.
  do 8 (destruct l as [|? l]; [done|]). by destruct l.
Qed.

Lemma sha256_byte_ok m : Forall byte_ok (sha256 m).
Proof.
  unfold sha256. apply Forall_bind. apply Forall_true. intros x.
  unfold be_bytes. cbn [digits app].
  repeat constructor; unfold byte_ok; apply Z.mod_pos_bound; lia.
Qed.

Lemma mem_hex_digit d : 0 ≤ d < 16 → mem (hex_digit d) hex_alphabet = true.
Proof.
  intros Hd. assert (H : forallb (λ d, mem (hex_digit d) hex_alphabet) (seqZ 0 16) = true)
    by (vm_compute; reflexivity).
  rewrite forallb_forall in H. apply H. apply list_elem_of_In, elem_of_seqZ. lia.
Qed.

(** A digest always has the shape that [is_sha256_hex] checks. *)
Lemma hexdigest_shape m : is_sha256_hex (hexdigest m) = true.
Proof.
  unfold is_sha256_hex, hexdigest. apply andb_true_iff. split.
  - apply Z.eqb_eq. unfold len, hex. pose proof (length_sha256 m) as H. revert H.
    generalize (sha256 m). intros l H. do 32 (destruct l as [|? l]; [done|]). by destruct l.
  - unfold all_in. apply forallb_forall. intros c Hc%list_elem_of_In.
    unfold hex in Hc. apply list_elem_of_bind in Hc as (b & Hc & Hb).
    pose proof (sha256_byte_ok m) as Hok. rewrite Forall_forall in Hok.
    specialize (Hok b Hb). unfold byte_ok in Hok. unfold hex_byte in Hc.
    apply elem_of_cons in Hc as [->|Hc]; [apply mem_hex_digit; zdiv|].
    apply list_elem_of_singleton in Hc as ->. apply mem_hex_digit. zdiv.
Qed.

Lemma hmac_shape key m : length (hmac_sha256 key m) = 32%nat ∧ Forall byte_ok (hmac_sha256 key m).
Proof. unfold hmac_sha256. split; [apply length_sha256|apply sha256_byte_ok]. Qed.

(** Equal digests come from equal bytes or exhibit a collision. *)
Lemma hexdigest_eq x y : hexdigest x = hexdigest y → x = y ∨ collision x y.
Proof. intros H. destruct (decide (x = y)) as [->|]; [by left|]. by right. Qed.

#[global] Opaque sha256 hexdigest hmac_sha256.
