(* ===== verification/Datetime.v ===== *)
(** * [datetime] and [timedelta]

    A datetime is the number of microseconds from the start of year 1 in its
    own zone with the zone's offset from UTC ([None] is a naive datetime); a
    timedelta is a number of microseconds.  [isoformat] prints the proleptic
    Gregorian calendar fields, computed by the calendar algorithm of the
    standard library's reference implementation. *)

From S2P Require Import Prelude Codec.

Record datetime := mkDatetime { dt_us : Z; dt_off : option Z }.
#[export] Instance datetime_eq_dec : EqDecision datetime.
Proof. solve_decision. Defined.
#[export] Instance datetime_countable : Countable datetime.
Proof.
  apply (inj_countable' (λ d, (dt_us d, dt_off d)) (λ p, mkDatetime p.1 p.2)). by intros [].
Defined.

Definition us_per_second : Z := 1000000.
Definition us_per_day : Z := 86400 * us_per_second.
Definition max_ordinal : Z := 3652059.

(** [datetime.min] to [datetime.max]. *)
Definition datetime_ok (d : datetime) : Prop := 0 ≤ dt_us d < max_ordinal * us_per_day.

(** [value.tzinfo is not None and value.utcoffset() == timedelta(0)] *)
Definition is_utc (d : datetime) : bool := bool_decide (dt_off d = Some 0).
Definition microsecond (d : datetime) : Z := dt_us d mod us_per_second.

Definition seconds (n : Z) : Z := n * us_per_second.

(** Comparison and difference of two UTC datetimes. *)
Definition dt_ltb (a b : datetime) : bool := dt_us a <? dt_us b.
Definition dt_leb (a b : datetime) : bool := dt_us a <=? dt_us b.
(** [a == b]: aware datetimes compare as instants; a naive and an aware datetime
    are never equal. *)
Definition dt_eqb (a b : datetime) : bool :=
  match dt_off a, dt_off b with
  | Some x, Some y => dt_us a - x =? dt_us b - y
  | None, None => dt_us a =? dt_us b
  | _, _ => false
  end.
Lemma dt_eqb_refl a : dt_eqb a a = true.
Proof. unfold dt_eqb. destruct (dt_off a); lia. Qed.
Lemma dt_eqb_sym a b : dt_eqb a b = dt_eqb b a.
Proof. unfold dt_eqb. repeat case_match; lia. Qed.
Lemma dt_eqb_trans a b c : dt_eqb a b = true → dt_eqb b c = true → dt_eqb a c = true.
Proof. unfold dt_eqb. repeat case_match; try done; lia. Qed.
Definition dt_sub (a b : datetime) : Z := dt_us a - dt_us b.
Definition dt_min (a b : datetime) : datetime := if dt_ltb b a then b else a.

(** [value + timedelta] leaves the supported range with [OverflowError]. *)
Definition dt_add (d : datetime) (t : Z) : result datetime :=
  let us := dt_us d + t in
  if (0 <=? us) && (us <? max_ordinal * us_per_day)
  then Ok (mkDatetime us (dt_off d)) else Err OverflowError.

Definition require_utc (d : datetime) : result datetime :=
  require (is_utc d) ValueError ;; Ok d.

(** ** Calendar *)

Definition is_leap (y : Z) : bool :=
  (y mod 4 =? 0) && (negb (y mod 100 =? 0) || (y mod 400 =? 0)).
Definition days_before_year (y : Z) : Z :=
  (y - 1) * 365 + (y - 1) / 4 - (y - 1) / 100 + (y - 1) / 400.
Definition days_before_month_table : list Z :=
  [0; 0; 31; 59; 90; 120; 151; 181; 212; 243; 273; 304; 334].
Definition days_in_month_table : list Z :=
  [0; 31; 28; 31; 30; 31; 30; 31; 31; 30; 31; 30; 31].
Definition days_before_month (leap : bool) (m : Z) : Z :=
  nth (Z.to_nat m) days_before_month_table 0 + (if (2 <? m) && leap then 1 else 0).
Definition days_in_month (leap : bool) (m : Z) : Z :=
  nth (Z.to_nat m) days_in_month_table 0 + (if (m =? 2) && leap then 1 else 0).

Definition ymd2ord (y m d : Z) : Z := days_before_year y + days_before_month (is_leap y) m + d.

(** Month and day of the zero-based day [n] of a year. *)
Definition month_day (leap : bool) (n : Z) : Z * Z :=
  let month := Z.shiftr (n + 50) 5 in
  let preceding := days_before_month leap month in
  if n <? preceding
  then let month := month - 1 in
       (month, n - (preceding - days_in_month leap month) + 1)
  else (month, n - preceding + 1).

Definition ord2ymd (n : Z) : Z * Z * Z :=
  let n := n - 1 in
  let n400 := n / 146097 in let n := n mod 146097 in
  let n100 := n / 36524 in let n := n mod 36524 in
  let n4 := n / 1461 in let n := n mod 1461 in
  let n1 := n / 365 in let n := n mod 365 in
  let year := n400 * 400 + 1 + n100 * 100 + n4 * 4 + n1 in
  if (n1 =? 4) || (n100 =? 4) then (year - 1, 12, 31)
  else
    let leap := (n1 =? 3) && (negb (n4 =? 24) || (n100 =? 3)) in
    let '(month, day) := month_day leap n in
    (year, month, day).

Lemma month_day_inverse (leap : bool) (n : Z) :
  0 ≤ n < (if leap then 366 else 365) →
  let '(m, d) := month_day leap n in
  days_before_month leap m + d = n + 1 ∧ 1 ≤ m ≤ 12 ∧ 1 ≤ d ≤ 31 ∧ d ≤ days_in_month leap m.
Proof.
  intros Hn.
  set (P (leap : bool) (n : Z) := let '(m, d) := month_day leap n in
        (days_before_month leap m + d =? n + 1) && (1 <=? m) && (m <=? 12)
        && (1 <=? d) && (d <=? 31) && (d <=? days_in_month leap m)).
  assert (H : forallb (P true) (seqZ 0 366) && forallb (P false) (seqZ 0 365) = true)
    by (vm_compute; reflexivity).
  apply andb_true_iff in H as [Ht Hf]. rewrite forallb_forall in Ht, Hf.
  assert (Hp : P leap n = true).
  { destruct leap; [apply Ht|apply Hf]; apply list_elem_of_In, elem_of_seqZ; lia. }
  unfold P in Hp. destruct (month_day leap n) as [m d]. lia.
Qed.

(** The year's own arithmetic: the 400, 100, 4 and 1 year cycles. *)
Lemma ord2ymd_inverse n :
  1 ≤ n ≤ max_ordinal →
  let '(y, m, d) := ord2ymd n in
  ymd2ord y m d = n ∧ 1 ≤ y ≤ 9999 ∧ 1 ≤ m ≤ 12 ∧ 1 ≤ d ≤ 31 ∧ d ≤ days_in_month (is_leap y) m.
Proof.
  unfold max_ordinal, ord2ymd. intros Hn.
  set (a := (n - 1) / 146097). set (r400 := (n - 1) mod 146097).
  set (b := r400 / 36524). set (r100 := r400 mod 36524).
  set (c := r100 / 1461). set (r4 := r100 mod 1461).
  set (e := r4 / 365). set (r1 := r4 mod 365).
  assert (Hbounds : n = 146097 * a + r400 + 1 ∧ 0 ≤ a ≤ 24 ∧ 0 ≤ r400 < 146097 ∧
          r400 = 36524 * b + r100 ∧ 0 ≤ b ≤ 4 ∧ 0 ≤ r100 < 36524 ∧
          r100 = 1461 * c + r4 ∧ 0 ≤ c ≤ 24 ∧ 0 ≤ r4 < 1461 ∧
          r4 = 365 * e + r1 ∧ 0 ≤ e ≤ 4 ∧ 0 ≤ r1 < 365)
    by (subst a r400 b r100 c r4 e r1; zdiv).
  clearbody a r400 b r100 c r4 e r1.
  destruct ((e =? 4) || (b =? 4)) eqn:Elast.
  - unfold ymd2ord, days_before_year, days_before_month, is_leap.
    change (nth (Z.to_nat 12) days_before_month_table 0) with 334.
    change (days_in_month _ 12) with 31. zcases; split; try zdiv.
  - set (leap := (e =? 3) && (negb (c =? 24) || (b =? 3))).
    assert (Hr1 : 0 ≤ r1 < (if leap then 366 else 365)) by (destruct leap; lia).
    pose proof (month_day_inverse leap r1 Hr1) as Hmd.
    destruct (month_day leap r1) as [m d]. destruct Hmd as (Hmd & Hm & Hd).
    assert (Hleap : is_leap (a * 400 + 1 + b * 100 + c * 4 + e) = leap)
      by (subst leap; unfold is_leap; zdiv).
    unfold ymd2ord. rewrite Hleap. unfold days_before_year.
    split; [zdiv|]. split; [zdiv|]. lia.
Qed.

Lemma ord2ymd_inj x y :
  1 ≤ x ≤ max_ordinal → 1 ≤ y ≤ max_ordinal → ord2ymd x = ord2ymd y → x = y.
Proof.
  intros Hx Hy H. pose proof (ord2ymd_inverse x Hx) as Ix. pose proof (ord2ymd_inverse y Hy) as Iy.
  rewrite H in Ix. destruct (ord2ymd y) as [[? ?] ?]. lia.
Qed.

(** ** ISO 8601 text *)

Definition padded (n : nat) (x : Z) : pystr := Z.add 48 <$> digits 10 n x.

Definition iso_date (us : Z) : pystr :=
  let '(y, m, d) := ord2ymd (us / us_per_day + 1) in
  padded 4 y ++ lit "-" ++ padded 2 m ++ lit "-" ++ padded 2 d.

Definition iso_time (us : Z) : pystr :=
  let s := us / us_per_second mod 86400 in
  padded 2 (s / 3600) ++ lit ":" ++ padded 2 (s / 60 mod 60) ++ lit ":" ++ padded 2 (s mod 60).

Definition iso_micros (us : Z) : pystr := lit "." ++ padded 6 (us mod us_per_second).

Definition iso_offset (off : option Z) : pystr :=
  match off with
  | None => []
  | Some o =>
      let a := Z.abs o in
      let s := a / us_per_second in
      lit (if o <? 0 then "-" else "+") ++ padded 2 (s / 3600) ++ lit ":" ++ padded 2 (s / 60 mod 60)
      ++ (if s mod 60 =? 0 then [] else lit ":" ++ padded 2 (s mod 60))
      ++ (if a mod us_per_second =? 0 then [] else lit "." ++ padded 6 (a mod us_per_second))
  end.

(** [value.isoformat(timespec="microseconds")] *)
Definition isoformat_us (d : datetime) : pystr :=
  iso_date (dt_us d) ++ lit "T" ++ iso_time (dt_us d) ++ iso_micros (dt_us d)
  ++ iso_offset (dt_off d).

Lemma padded_length n x : length (padded n x) = n.
Proof. unfold padded. by rewrite length_fmap, length_digits. Qed.

Lemma padded_inj n x y :
  0 ≤ x < 10 ^ Z.of_nat n → 0 ≤ y < 10 ^ Z.of_nat n → padded n x = padded n y → x = y.
Proof.
  unfold padded. intros Hx Hy H. apply (digits_inj 10 n); [lia|done|done|].
  assert (Inj (=) (=) (Z.add 48)) by (intros ??; lia).
  by apply (inj (fmap (Z.add 48))) in H.
Qed.

Lemma iso_date_length us : length (iso_date us) = 10%nat.
Proof.
  unfold iso_date. destruct (ord2ymd _) as [[y m] d].
  by rewrite !length_app, !padded_length.
Qed.
Lemma iso_time_length us : length (iso_time us) = 8%nat.
Proof. unfold iso_time. by rewrite !length_app, !padded_length. Qed.

Lemma iso_micros_length us : length (iso_micros us) = 7%nat.
Proof. unfold iso_micros. by rewrite !length_app, !padded_length. Qed.

(** Split an equation between fixed-width fields into its components. *)
Ltac split_fields H :=
  repeat (rewrite <- ?app_assoc in H; apply app_inj_1 in H as [? H];
          [|by rewrite ?padded_length, ?iso_date_length, ?iso_time_length, ?iso_micros_length]).

Lemma iso_date_inj a b :
  0 ≤ a < max_ordinal * us_per_day → 0 ≤ b < max_ordinal * us_per_day →
  iso_date a = iso_date b → a / us_per_day = b / us_per_day.
Proof.
  unfold iso_date. change us_per_day with 86400000000. unfold max_ordinal. intros Ha Hb H.
  enough (a / 86400000000 + 1 = b / 86400000000 + 1) by lia.
  assert (Ha' : 1 ≤ a / 86400000000 + 1 ≤ max_ordinal) by (unfold max_ordinal; zdiv).
  assert (Hb' : 1 ≤ b / 86400000000 + 1 ≤ max_ordinal) by (unfold max_ordinal; zdiv).
  apply ord2ymd_inj; [done..|].
  pose proof (ord2ymd_inverse _ Ha') as Ia. pose proof (ord2ymd_inverse _ Hb') as Ib.
  revert Ia Ib H.
  destruct (ord2ymd (a / 86400000000 + 1)) as [[y m] d],
    (ord2ymd (b / 86400000000 + 1)) as [[y' m'] d'].
  intros Ia Ib H. split_fields H.
  repeat match goal with E : padded ?n _ = padded ?n _ |- _ =>
    apply (padded_inj n) in E; [|simpl; lia..] end. congruence.
Qed.

Lemma iso_time_inj a b :
  iso_time a = iso_time b → a / us_per_second mod 86400 = b / us_per_second mod 86400.
Proof.
  unfold iso_time. intros H.
  pose proof (Z.mod_pos_bound (a / us_per_second) 86400 ltac:(lia)) as Ha.
  pose proof (Z.mod_pos_bound (b / us_per_second) 86400 ltac:(lia)) as Hb.
  revert Ha Hb H. generalize (a / us_per_second mod 86400) (b / us_per_second mod 86400).
  intros x y Hx Hy H. split_fields H.
  repeat match goal with E : padded ?n _ = padded ?n _ |- _ =>
    apply (padded_inj n) in E; [|simpl; zdiv..] end. zdiv.
Qed.

(** Microsecond ISO text identifies a UTC datetime. *)
Lemma isoformat_us_inj a b :
  datetime_ok a → datetime_ok b → is_utc a = true → is_utc b = true →
  isoformat_us a = isoformat_us b → a = b.
Proof.
  destruct a as [a ao], b as [b bo]. unfold datetime_ok, is_utc; cbn [dt_us dt_off].
  intros Ha Hb ->%bool_decide_eq_true ->%bool_decide_eq_true H.
  unfold isoformat_us in H; cbn [dt_us dt_off] in H. split_fields H.
  repeat match goal with
  | E : iso_date _ = iso_date _ |- _ => apply iso_date_inj in E; [|done..]
  | E : iso_time _ = iso_time _ |- _ => apply iso_time_inj in E
  | E : iso_micros _ = iso_micros _ |- _ => unfold iso_micros in E; split_fields E;
      apply (padded_inj 6) in E; [|unfold us_per_second; simpl; zdiv..]
  end.
  f_equal. unfold us_per_day, us_per_second in *. zdiv.
Qed.

(** [value.isoformat()]: no fraction on a whole second. *)
Definition isoformat (d : datetime) : pystr :=
  iso_date (dt_us d) ++ lit "T" ++ iso_time (dt_us d)
  ++ (if dt_us d mod us_per_second =? 0 then [] else iso_micros (dt_us d)) ++ iso_offset (dt_off d).

Lemma isoformat_parts d : is_utc d = true →
  isoformat d = iso_date (dt_us d) ++ lit "T" ++ iso_time (dt_us d)
    ++ (if dt_us d mod us_per_second =? 0 then [] else iso_micros (dt_us d)) ++ lit "+00:00".
Proof. unfold is_utc, isoformat. intros ->%bool_decide_eq_true. reflexivity. Qed.

(** [isoformat] without a timespec identifies a UTC datetime as well. *)
Lemma isoformat_inj d e :
  datetime_ok d → datetime_ok e → is_utc d = true → is_utc e = true → isoformat d = isoformat e → d = e.
Proof.
  intros Hd He Ud Ue H. rewrite !isoformat_parts in H by done.
  apply isoformat_us_inj; [done..|]. unfold isoformat_us. unfold is_utc in *. apply bool_decide_eq_true in Ud as ->, Ue as ->.
  apply app_inj_1 in H as [H1 H]; [|by rewrite !iso_date_length]. apply app_inj_1 in H as [_ H]; [|done].
  apply app_inj_1 in H as [H2 H]; [|by rewrite !iso_time_length]. rewrite H1, H2. do 3 f_equal.
  destruct (dt_us d mod us_per_second =? 0) eqn:Ed, (dt_us e mod us_per_second =? 0) eqn:Ee.
  - apply Z.eqb_eq in Ed, Ee. unfold iso_micros. by rewrite Ed, Ee.
  - exfalso. apply (f_equal length) in H. rewrite !length_app, iso_micros_length in H. by cbn in H.
  - exfalso. apply (f_equal length) in H. rewrite !length_app, iso_micros_length in H. by cbn in H.
  - apply app_inj_2 in H as [H _]; [|done]. by rewrite H.
Qed.

(** Timestamps are short ASCII text. *)
Lemma padded_char_ok n x : Forall char_ok (padded n x).
Proof.
  unfold padded. revert x. induction n as [|n IH]; intros x; cbn [digits]; [constructor|].
  rewrite fmap_app. apply Forall_app. split; [apply IH|]. repeat constructor; unfold char_ok; zdiv.
Qed.

Lemma isoformat_us_text d :
  is_utc d = true → Forall char_ok (isoformat_us d) ∧ len (isoformat_us d) = 32.
Proof.
  unfold is_utc. intros Hu%bool_decide_eq_true. unfold isoformat_us. rewrite Hu. split.
  - unfold iso_date, iso_time, iso_micros. destruct (ord2ymd _) as [[y m] dd].
    rewrite !Forall_app. split_and!; try apply padded_char_ok; try apply lit_char_ok.
    apply (lit_char_ok "+00:00").
  - unfold len. rewrite !length_app, iso_date_length, iso_time_length, iso_micros_length.
    reflexivity.
Qed.

Example isoformat_epoch :
  isoformat_us (mkDatetime (719162 * us_per_day + 3661 * us_per_second + 7) (Some 0))
  = lit "1970-01-01T01:01:01.000007+00:00".
Proof. vm_compute. reflexivity. Qed.
