(* ===== verification/Float64.v ===== *)
(** * IEEE 754 binary64

    Python's [float], through the Standard Library's executable
    specification of the format (53-bit precision, exponents below 1024, round
    to nearest even). *)

From S2P Require Import Prelude.
From Stdlib Require Export SpecFloat.

Abbreviation float := spec_float (only parsing).

Definition fadd : float → float → float := SFadd 53 1024.
Definition fdiv : float → float → float := SFdiv 53 1024.
Definition fopp : float → float := SFopp.
(** [float(n)] of an exact integer below [2 ^ 1024]. *)
Definition float_of_int (z : Z) : float := binary_normalize 53 1024 z 0 false.

Definition fzero : float := S754_zero false.
Definition fone : float := float_of_int 1.

Definition isnan (f : float) : bool := match f with S754_nan => true | _ => false end.
(** [math.isfinite] *)
Definition isfinite (f : float) : bool :=
  match f with S754_zero _ | S754_finite _ _ _ => true | _ => false end.
Definition fltb (a b : float) : bool := SFltb a b.

#[export] Instance float_eq_dec : EqDecision spec_float.
Proof. solve_decision. Defined.

(** [not (b < a)] on numbers; NaN, which no score is, is put below them. *)
#[export] Instance float_ord : PyOrd spec_float := λ a b,
  match SFcompare a b with
  | Some Gt => false
  | Some _ => true
  | None => isnan a
  end.

Lemma float_leb_lt a b : isnan a = false → isnan b = false → py_leb a b = negb (fltb b a).
Proof.
  unfold py_leb, float_ord, fltb, SFltb.
  destruct a as [[]|[]| |[] m e], b as [[]|[]| |[] m' e']; simpl; try done; intros _ _;
    rewrite (Z.compare_antisym e e'); destruct (e ?= e') eqn:E; simpl; try done;
    change (PosDef.Pos.compare_cont Eq) with Pos.compare;
    rewrite (Pos.compare_antisym m m'); by destruct (Pos.compare m m').
Qed.

(** A position on the line: zero in the middle, larger magnitudes outwards. *)
Definition float_rank (f : float) : Z * (Z * Z) :=
  match f with
  | S754_nan => (-3, (0, 0))
  | S754_infinity true => (-2, (0, 0))
  | S754_finite true m e => (-1, (- e, - Z.pos m))
  | S754_zero _ => (0, (0, 0))
  | S754_finite false m e => (1, (e, Z.pos m))
  | S754_infinity false => (2, (0, 0))
  end.

Lemma float_leb_rank a b : py_leb a b = py_leb (float_rank a) (float_rank b).
Proof.
  unfold py_leb at 1, float_ord. unfold py_leb, pair_ord, pair_leb, py_leb, pair_ord, pair_leb, py_leb, Z_ord.
  destruct a as [[]|[]| |[] m e], b as [[]|[]| |[] m' e']; simpl; try done;
    change (PosDef.Pos.compare_cont Eq) with Pos.compare.
  - destruct (Z.compare_spec e e') as [->|?|?]; simpl.
    + rewrite Z.leb_refl. destruct (Pos.compare_spec m m'); simpl; lia.
    + rewrite (proj2 (Z.leb_gt _ _)) by lia. done.
    + rewrite (proj2 (Z.leb_le _ _)), (proj2 (Z.leb_gt _ _)) by lia. done.
  - destruct (Z.compare_spec e e') as [->|?|?]; simpl.
    + rewrite Z.leb_refl. destruct (Pos.compare_spec m m'); simpl; lia.
    + rewrite (proj2 (Z.leb_le _ _)), (proj2 (Z.leb_gt _ _)) by lia. done.
    + rewrite (proj2 (Z.leb_gt _ _)) by lia. done.
Qed.

#[export] Instance float_total : PyTotal spec_float.
Proof.
  split; intros *; rewrite !float_leb_rank; [apply py_total | apply py_trans].
Qed.

Example third_rounds : fdiv fone (float_of_int 3) = S754_finite false 6004799503160661 (-54).
Proof. vm_compute. reflexivity. Qed.

Definition fsub : float → float → float := SFsub 53 1024.
Definition fabs : float → float := SFabs.
Definition fleb (a b : float) : bool := SFleb a b.

(** [sum(xs)] of floats.  Since Python 3.12 the built-in keeps a compensation
    term (Neumaier) and adds it once at the end when it is nonzero and finite;
    the integer start value 0 is added to the first element. *)
Fixpoint sum_loop (total c : float) (xs : list float) : float * float :=
  match xs with
  | [] => (total, c)
  | x :: xs' =>
      let t := fadd total x in
      let c := if fleb (fabs x) (fabs total)
               then fadd c (fadd (fsub total t) x) else fadd c (fadd (fsub x t) total) in
      sum_loop t c xs'
  end.

Definition py_sum (xs : list float) : float :=
  match xs with
  | [] => fzero
  | x :: xs' =>
      let '(total, c) := sum_loop (fadd fzero x) fzero xs' in
      match c with
      | S754_finite _ _ _ => fadd total c
      | _ => total
      end
  end.

Example py_sum_compensates :
  py_sum [float_of_int 1; float_of_int (10 ^ 100); float_of_int 1; float_of_int (- 10 ^ 100)]
  = float_of_int 2.
Proof. vm_compute. reflexivity. Qed.
