(* ===== verification/ReleaseLineage.v ===== *)
(** * Release lineage: [runtime/release_lineage.py] and the profiles it admits

    Tokenizer descriptors ([context_engine_contracts/__init__.py],
    [tokenizer_accounting.py]), embedding provider profiles ([supply/embeddings.py]) and
    the active Runtime release, whose constructor admits a closed set of profiles and
    derives the public manifest reference.  RFC 8785 is the argument [canon]; the bytes
    of a tokenizer artifact are an argument, [None] when the file cannot be read. *)

From S2P Require Import Prelude Codec Sha256 Json.

(** ** Shared checks *)

(** [_require_ref]: an opaque reference. *)
Definition opaque_ref (s : pystr) : bool :=
  negb (blank s) && bool_decide (s = strip s) && negb (existsb is_space s).
Definition opaque_text (s : pystr) : bool :=
  negb (bool_decide (s = [])) && bool_decide (s = strip s) && negb (existsb is_space s).

(** ** Tokenizer profiles *)

Record TokenizerProfileDescriptor := mkDescriptor {
  td_profile_ref : pystr;
  td_artifact_name : pystr;
  td_artifact_digest : pystr;
  td_vocabulary_ref : pystr;
  td_normalization_ref : pystr;
  td_accounting_version : pystr;
  td_counting_contract : pystr
}.
#[export] Instance TokenizerProfileDescriptor_eq_dec : EqDecision TokenizerProfileDescriptor.
Proof. solve_decision. Defined.

(** [__post_init__] *)
Definition check_descriptor (d : TokenizerProfileDescriptor) : result unit :=
  each (λ s, require (opaque_text s) ValueError)
    [td_profile_ref d; td_artifact_name d; td_vocabulary_ref d; td_normalization_ref d;
     td_accounting_version d; td_counting_contract d] ;;
  require (negb (mem 47 (td_artifact_name d) || mem 92 (td_artifact_name d))) ValueError ;;
  require (is_sha256_hex (td_artifact_digest d)) ValueError.

(** [canonical_document] *)
Definition descriptor_document (d : TokenizerProfileDescriptor) : json :=
  JObj [(lit "accountingVersion", JStr (td_accounting_version d));
        (lit "artifactDigest", JStr (td_artifact_digest d));
        (lit "countingContract", JStr (td_counting_contract d));
        (lit "normalizationRef", JStr (td_normalization_ref d));
        (lit "profileRef", JStr (td_profile_ref d));
        (lit "vocabularyRef", JStr (td_vocabulary_ref d))].

Definition _TOKENIZER_PROFILE_DIGEST_DOMAIN : pybytes := lit "context-engine.tokenizer-profile.v1" ++ [0].

Definition UNICODE_SCALAR_DESCRIPTOR : TokenizerProfileDescriptor :=
  mkDescriptor (lit "unicode-scalar-tokenizer-v1") (lit "unicode-scalar-v1.json")
    (lit "8d301e3ce94e5b48febffb2e0871e139cd4d5f808084eccbf9cfc512d3948cca")
    (lit "unicode-scalars-v15.1") (lit "none") (lit "unicode-scalar-accounting-v1")
    (lit "one-unicode-scalar-one-token-v1").
Definition REGISTERED_V1_TOKENIZER_PROFILES : list TokenizerProfileDescriptor := [UNICODE_SCALAR_DESCRIPTOR].

(** The historical v0 profile, whose document is written out. *)
Definition HISTORICAL_UTF8_BYTE_TOKENIZER_PROFILE_DOCUMENT : pystr :=
  lit "{" ++ dump_str (lit "accountingVersion") ++ lit ":" ++ dump_str (lit "utf8-byte-budget-v1") ++ lit ","
  ++ dump_str (lit "artifactDigest") ++ lit ":" ++ dump_str (hexdigest (lit "utf8-byte-budget-v1")) ++ lit ","
  ++ dump_str (lit "countingContract") ++ lit ":" ++ dump_str (lit "historical-delivered-block-utf8-bytes-v1") ++ lit ","
  ++ dump_str (lit "normalizationRef") ++ lit ":" ++ dump_str (lit "none") ++ lit ","
  ++ dump_str (lit "profileRef") ++ lit ":" ++ dump_str (lit "utf8-byte-budget-v1") ++ lit ","
  ++ dump_str (lit "vocabularyRef") ++ lit ":" ++ dump_str (lit "utf8-octets") ++ lit "}".
Definition HISTORICAL_UTF8_BYTE_TOKENIZER_PROFILE_DIGEST : pystr :=
  hexdigest (_TOKENIZER_PROFILE_DIGEST_DOMAIN ++ utf8 HISTORICAL_UTF8_BYTE_TOKENIZER_PROFILE_DOCUMENT).

(** [document != {...}] of [TokenizerProfile.load]. *)
Definition is_dict_of (document : json) (expected : list (list Z * list Z)) : bool :=
  match document with
  | JObj d =>
      (len d =? len expected)
      && forallb (λ kv, match dict_get d kv.1 with Some (JStr s) => bool_decide (s = kv.2) | _ => false end) expected
  | _ => false
  end.

(** [TokenizerProfile.load] *)
Definition load_tokenizer {nesting : NestingLimit} (artifact : option pybytes) (d : TokenizerProfileDescriptor) : result unit :=
  match artifact with
  | None => Err TokenizerUnavailable
  | Some bytes =>
      require (bool_decide (hexdigest bytes = td_artifact_digest d)) TokenizerUnavailable ;;
      document ← try_except (loads json_dict bytes)
                   (λ e, bool_decide (e = UnicodeDecodeError) || bool_decide (e = JSONDecodeError))
                   (Err TokenizerUnavailable);
      require (is_dict_of document
                 [(lit "accountingVersion", td_accounting_version d); (lit "normalization", td_normalization_ref d);
                  (lit "vocabulary", td_vocabulary_ref d)]) TokenizerUnavailable
  end.

Section Canon.
Context (canon : json → result pybytes).

(** [rfc8785.dumps(document).decode("utf-8")] *)
Definition canonical_text (document : json) : result pystr :=
  b ← canon document;
  match utf8_decode b with Some s => Ok s | None => Err UnicodeDecodeError end.
Definition domain_digest (domain : pybytes) (document : json) : result pystr :=
  b ← canon document; Ok (hexdigest (domain ++ b)).

Definition descriptor_json (d : TokenizerProfileDescriptor) : result pystr := canonical_text (descriptor_document d).
Definition descriptor_digest (d : TokenizerProfileDescriptor) : result pystr :=
  domain_digest _TOKENIZER_PROFILE_DIGEST_DOMAIN (descriptor_document d).

(** The descriptors of [REGISTERED_V1_TOKENIZER_PROFILES] for which [test] holds. *)
Fixpoint matching (test : TokenizerProfileDescriptor → result bool) (ds : list TokenizerProfileDescriptor) :
    result (list TokenizerProfileDescriptor) :=
  match ds with
  | [] => Ok []
  | d :: ds' => b ← test d; l ← matching test ds'; Ok (if b : bool then d :: l else l)
  end.
Definition the_match (ds : list TokenizerProfileDescriptor) : result TokenizerProfileDescriptor :=
  match ds with [d] => Ok d | _ => Err TokenizerUnavailable end.

Definition registered_tokenizer_profile (canonical_document profile_digest : pystr) : result TokenizerProfileDescriptor :=
  ds ← matching (λ d, text ← descriptor_json d;
                      if bool_decide (text = canonical_document)
                      then digest ← descriptor_digest d; Ok (bool_decide (digest = profile_digest)) else Ok false)
         REGISTERED_V1_TOKENIZER_PROFILES;
  the_match ds.

Definition registered_tokenizer_profile_by_identity (profile_ref profile_digest : pystr) :
    result TokenizerProfileDescriptor :=
  ds ← matching (λ d, if bool_decide (td_profile_ref d = profile_ref)
                      then digest ← descriptor_digest d; Ok (bool_decide (digest = profile_digest)) else Ok false)
         REGISTERED_V1_TOKENIZER_PROFILES;
  the_match ds.

(** ** Embedding provider profiles *)

Record EmbeddingProviderProfile := mkEmbeddingProfile {
  em_model_id : pystr;
  em_revision : pystr;
  em_artifact_digest : pystr;
  em_dimension : Z;
  em_pooling : pystr;
  em_query_prefix : pystr;
  em_document_prefix : pystr;
  em_transformation_pipeline : pystr;
  em_precision : pystr;
  em_batch_size : Z
}.
Definition _MAX_PROFILE_TEXT_LENGTH : Z := 4096.

(** [__post_init__] before the digest is computed. *)
Definition check_embedding_profile (p : EmbeddingProviderProfile) : result unit :=
  let texts := [em_model_id p; em_pooling p; em_transformation_pipeline p; em_precision p] in
  require (forallb (λ s, (len s <=? _MAX_PROFILE_TEXT_LENGTH) && bool_decide (s = strip s)) texts
           && forallb (λ s, negb (bool_decide (s = []))) texts
           && (len (em_query_prefix p) <=? _MAX_PROFILE_TEXT_LENGTH)
           && (len (em_document_prefix p) <=? _MAX_PROFILE_TEXT_LENGTH)
           && (((len (em_revision p) =? 40) || (len (em_revision p) =? 64)) && all_in hex_alphabet (em_revision p))
           && is_sha256_hex (em_artifact_digest p)
           && (1 <=? em_dimension p) && (em_dimension p <=? 4096)
           && (1 <=? em_batch_size p) && (em_batch_size p <=? 1024)) ValueError.

(** [canonical_document] *)
Definition embedding_document (p : EmbeddingProviderProfile) : json :=
  JObj [(lit "artifactDigest", JStr (em_artifact_digest p)); (lit "batchSize", JInt (em_batch_size p));
        (lit "dimension", JInt (em_dimension p)); (lit "documentPrefix", JStr (em_document_prefix p));
        (lit "modelId", JStr (em_model_id p)); (lit "pooling", JStr (em_pooling p));
        (lit "precision", JStr (em_precision p)); (lit "queryPrefix", JStr (em_query_prefix p));
        (lit "revision", JStr (em_revision p)); (lit "transformationPipeline", JStr (em_transformation_pipeline p))].

Definition _EMBEDDING_PROFILE_DIGEST_DOMAIN : pybytes := lit "context-engine.embedding-provider-profile.v1" ++ [0].
Definition embedding_digest (p : EmbeddingProviderProfile) : result pystr :=
  domain_digest _EMBEDDING_PROFILE_DIGEST_DOMAIN (embedding_document p).
Definition embedding_json (p : EmbeddingProviderProfile) : result pystr := canonical_text (embedding_document p).

Definition DETERMINISTIC_TWIN_EMBEDDING_PROFILE : EmbeddingProviderProfile :=
  mkEmbeddingProfile (lit "context-engine/deterministic-embedding-twin") (replicate 40 48)
    (hexdigest (lit "context-engine.embedding-twin.v1" ++ [0] ++ lit "network-free-python")) 384
    (lit "shake256-component-l2") [] [] (lit "shake256 float components -> l2") (lit "float64-to-float32") 256.
Definition QWEN3_EMBEDDING_PROFILE : EmbeddingProviderProfile :=
  mkEmbeddingProfile (lit "Qwen/Qwen3-Embedding-0.6B") (lit "97b0c614be4d77ee51c0cef4e5f07c00f9eb65b3")
    (lit "8cb25677d5be69ce6ac88ebbdfb5dad30980fee39c35c6324a583e325917eddc") 384 (lit "last_token")
    (lit "Instruct: Given a web search query, retrieve relevant passages that answer the query" ++ [10] ++ lit "Query:")
    [] (lit "l2 -> truncate 1024->384 -> l2") (lit "float32") 8.

(** [registered_embedding_provider_profile] over the two registered profiles. *)
Definition registered_embedding_provider_profile (canonical_document profile_digest : pystr) :
    result EmbeddingProviderProfile :=
  let matches p := text ← embedding_json p; digest ← embedding_digest p;
              Ok (bool_decide (text = canonical_document) && bool_decide (digest = profile_digest)) in
  twin ← matches DETERMINISTIC_TWIN_EMBEDDING_PROFILE;
  qwen ← matches QWEN3_EMBEDDING_PROFILE;
  if qwen : bool then Ok QWEN3_EMBEDDING_PROFILE
  else if twin : bool then Ok DETERMINISTIC_TWIN_EMBEDDING_PROFILE else Err ValueError.

(** ** The active Runtime release *)

Definition RUNTIME_PROFILE_REF_V0 : pystr := lit "runtime-materialized-openapi-v0".
Definition RUNTIME_TOKENIZER_REF_V0 : pystr := lit "utf8-byte-budget-v1".
Definition PACKAGE_SCHEMA_REF_V0 : pystr := lit "context-package-openapi-v0".
Definition RUNTIME_PROFILE_REF_V1 : pystr := lit "runtime-materialized-openapi-v1".
Definition RUNTIME_TOKENIZER_REF_V1 : pystr := td_profile_ref UNICODE_SCALAR_DESCRIPTOR.
Definition PACKAGE_SCHEMA_REF_V1 : pystr := lit "context-package-openapi-v1".
Definition CONTENT_PROFILE_REF_V0 : pystr := lit "content-materialized-v0".
Definition CONTENT_SCHEMA_REF_V0 : pystr := lit "context-content-schema-v1".
Definition INDEX_PROFILE_REF_V0 : pystr := lit "index-exact-phrase-v0".
Definition DOGFOOD_VECTOR_INDEX_PROFILE_REF_V1 : pystr := lit "index-file-pgvector-deterministic-twin-v1".
Definition QWEN_VECTOR_INDEX_PROFILE_REF_V1 : pystr := lit "index-file-pgvector-qwen3-0.6b-v1".
Definition INDEX_SCHEMA_REF_V0 : pystr := lit "context-index-schema-v1".
Definition CONTENT_PROFILE_DIGEST_V0 : pystr := hexdigest (lit "context-engine.content-profile.materialized-v0").
Definition INDEX_PROFILE_DIGEST_V0 : pystr := hexdigest (lit "context-engine.index-profile.exact-phrase-v0").
Definition DOGFOOD_VECTOR_INDEX_PROFILE_DIGEST_V1 : pystr :=
  hexdigest (lit "context-engine.index-profile.file-pgvector-v1" ++ [0]
             ++ lit "embedding-model:deterministic-twin-v1" ++ [0] ++ lit "embedding-input:contextual-fragment-v1").
Definition QWEN_VECTOR_INDEX_PROFILE_DIGEST_V1 : result pystr :=
  digest ← embedding_digest QWEN3_EMBEDDING_PROFILE; b ← fromhex digest;
  Ok (hexdigest (lit "context-engine.index-profile.file-pgvector.v1" ++ [0] ++ b)).
Definition RUNTIME_PROFILE_DIGEST_V0 : pystr := hexdigest (lit "context-engine.runtime-profile.materialized-openapi-v0").
Definition RUNTIME_PROFILE_DIGEST_V1 : result pystr :=
  digest ← descriptor_digest UNICODE_SCALAR_DESCRIPTOR; b ← fromhex digest;
  Ok (hexdigest (lit "context-engine.runtime-profile.materialized-openapi-v1" ++ [0] ++ b)).
Definition CURATION_PROFILE_REF_V0 : pystr := lit "curation-off-v0".
Definition CURATION_PROFILE_DIGEST_V0 : pystr := hexdigest (lit "context-engine.curation-profile.off-v0").
Definition _PUBLIC_RELEASE_REF_DOMAIN : pybytes := lit "context-engine.public-release-ref.v1" ++ [0].

Definition is_generation (z : Z) : bool := (1 <=? z) && (z <=? 2 ^ 63 - 1).

Definition public_release_manifest_ref (manifest_digest : pystr) (active_generation : Z) : result pystr :=
  require (is_sha256_hex manifest_digest) ValueError ;;
  require (is_generation active_generation) ValueError ;;
  b ← fromhex manifest_digest;
  Ok (lit "rel_" ++ hexdigest (_PUBLIC_RELEASE_REF_DOMAIN ++ b ++ be_bytes 8 active_generation)).

Record ActiveRuntimeRelease := mkRuntimeRelease {
  ar_organization_id : UUID;
  ar_manifest_digest : pystr;
  ar_active_generation : Z;
  ar_content_profile_ref : pystr;
  ar_content_schema_ref : pystr;
  ar_index_profile_ref : pystr;
  ar_index_schema_ref : pystr;
  ar_runtime_profile_ref : pystr;
  ar_runtime_profile_digest : pystr;
  ar_content_profile_digest : pystr;
  ar_index_profile_digest : pystr;
  ar_embedding_profile_document : pystr;
  ar_embedding_profile_digest : pystr;
  ar_tokenizer_ref : pystr;
  ar_package_schema_ref : pystr;
  ar_curation_profile_ref : pystr;
  ar_curation_profile_digest : pystr;
  ar_curation_mode : pystr;
  ar_curation_snapshot_ref : option pystr;
  ar_curation_evaluation_digest : option pystr;
  ar_compatible_revision_refs : list pystr;
  ar_active_revision_refs : list pystr;
  ar_tokenizer_profile_document : pystr;
  ar_tokenizer_profile_digest : pystr;
  ar_manifest_ref : pystr
}.
#[export] Instance ActiveRuntimeRelease_eq_dec : EqDecision ActiveRuntimeRelease.
Proof. solve_decision. Defined.

Definition check_revisions (refs : list pystr) : result unit :=
  each (λ r, require (opaque_ref r) ValueError) refs ;;
  require (nodupb refs && bool_decide (refs = sorted refs)) ValueError.

(** The membership tests of the two sets of supported profiles. *)
Definition supported_index_profile (r : ActiveRuntimeRelease) : result bool :=
  twin_digest ← embedding_digest DETERMINISTIC_TWIN_EMBEDDING_PROFILE;
  twin_json ← embedding_json DETERMINISTIC_TWIN_EMBEDDING_PROFILE;
  qwen_index ← QWEN_VECTOR_INDEX_PROFILE_DIGEST_V1;
  qwen_digest ← embedding_digest QWEN3_EMBEDDING_PROFILE;
  qwen_json ← embedding_json QWEN3_EMBEDDING_PROFILE;
  Ok (bool_decide ((ar_index_profile_ref r, ar_index_profile_digest r, ar_embedding_profile_digest r,
                    ar_embedding_profile_document r)
        ∈ [(INDEX_PROFILE_REF_V0, INDEX_PROFILE_DIGEST_V0, twin_digest, twin_json);
           (DOGFOOD_VECTOR_INDEX_PROFILE_REF_V1, DOGFOOD_VECTOR_INDEX_PROFILE_DIGEST_V1, twin_digest, twin_json);
           (QWEN_VECTOR_INDEX_PROFILE_REF_V1, qwen_index, qwen_digest, qwen_json)])).
Definition supported_runtime_profile (r : ActiveRuntimeRelease) : result bool :=
  v1_digest ← RUNTIME_PROFILE_DIGEST_V1;
  tok_json ← descriptor_json UNICODE_SCALAR_DESCRIPTOR;
  tok_digest ← descriptor_digest UNICODE_SCALAR_DESCRIPTOR;
  Ok (bool_decide ((ar_runtime_profile_ref r, ar_runtime_profile_digest r, ar_tokenizer_ref r,
                    ar_tokenizer_profile_document r, ar_tokenizer_profile_digest r, ar_package_schema_ref r)
        ∈ [(RUNTIME_PROFILE_REF_V0, RUNTIME_PROFILE_DIGEST_V0, RUNTIME_TOKENIZER_REF_V0,
            HISTORICAL_UTF8_BYTE_TOKENIZER_PROFILE_DOCUMENT, HISTORICAL_UTF8_BYTE_TOKENIZER_PROFILE_DIGEST,
            PACKAGE_SCHEMA_REF_V0);
           (RUNTIME_PROFILE_REF_V1, v1_digest, RUNTIME_TOKENIZER_REF_V1, tok_json, tok_digest,
            PACKAGE_SCHEMA_REF_V1)])).

Definition with_manifest_ref (r : ActiveRuntimeRelease) (ref : pystr) : ActiveRuntimeRelease :=
  mkRuntimeRelease (ar_organization_id r) (ar_manifest_digest r) (ar_active_generation r)
    (ar_content_profile_ref r) (ar_content_schema_ref r) (ar_index_profile_ref r) (ar_index_schema_ref r)
    (ar_runtime_profile_ref r) (ar_runtime_profile_digest r) (ar_content_profile_digest r)
    (ar_index_profile_digest r) (ar_embedding_profile_document r) (ar_embedding_profile_digest r)
    (ar_tokenizer_ref r) (ar_package_schema_ref r) (ar_curation_profile_ref r) (ar_curation_profile_digest r)
    (ar_curation_mode r) (ar_curation_snapshot_ref r) (ar_curation_evaluation_digest r)
    (ar_compatible_revision_refs r) (ar_active_revision_refs r) (ar_tokenizer_profile_document r)
    (ar_tokenizer_profile_digest r) ref.

(** [ActiveRuntimeRelease.__post_init__]; the manifest reference of the argument is not read. *)
Definition new_ActiveRuntimeRelease (r : ActiveRuntimeRelease) : result ActiveRuntimeRelease :=
  require (is_generation (ar_active_generation r)) ValueError ;;
  each (λ s, require (opaque_ref s) ValueError)
    [ar_content_profile_ref r; ar_content_schema_ref r; ar_index_profile_ref r; ar_index_schema_ref r;
     ar_runtime_profile_ref r; ar_tokenizer_ref r; ar_package_schema_ref r; ar_curation_profile_ref r] ;;
  each (λ s, require (is_sha256_hex s) ValueError)
    [ar_manifest_digest r; ar_runtime_profile_digest r; ar_content_profile_digest r; ar_index_profile_digest r;
     ar_embedding_profile_digest r; ar_curation_profile_digest r; ar_tokenizer_profile_digest r] ;;
  check_revisions (ar_active_revision_refs r) ;;
  check_revisions (ar_compatible_revision_refs r) ;;
  index ← supported_index_profile r;
  runtime ← supported_runtime_profile r;
  require (bool_decide (ar_content_profile_ref r = CONTENT_PROFILE_REF_V0)
           && bool_decide (ar_content_schema_ref r = CONTENT_SCHEMA_REF_V0)
           && (index : bool)
           && bool_decide (ar_index_schema_ref r = INDEX_SCHEMA_REF_V0)
           && bool_decide (ar_content_profile_digest r = CONTENT_PROFILE_DIGEST_V0)
           && (runtime : bool)
           && bool_decide (ar_curation_profile_ref r = CURATION_PROFILE_REF_V0)
           && bool_decide (ar_curation_profile_digest r = CURATION_PROFILE_DIGEST_V0)
           && bool_decide (ar_curation_mode r = lit "curation_off")
           && bool_decide (ar_curation_snapshot_ref r = None)
           && bool_decide (ar_curation_evaluation_digest r = None)
           && bool_decide (ar_compatible_revision_refs r = [])) ValueError ;;
  ref ← public_release_manifest_ref (ar_manifest_digest r) (ar_active_generation r);
  Ok (with_manifest_ref r ref).
End Canon.

(** ** What a constructed release guarantees *)

Section Facts.
Context (canon : json → result pybytes).

(** The two lines of profiles a release can select. *)
Inductive release_line (r : ActiveRuntimeRelease) : Prop :=
  | release_v0 :
      ar_package_schema_ref r = PACKAGE_SCHEMA_REF_V0 → ar_tokenizer_ref r = RUNTIME_TOKENIZER_REF_V0 →
      ar_tokenizer_profile_digest r = HISTORICAL_UTF8_BYTE_TOKENIZER_PROFILE_DIGEST → release_line r
  | release_v1 :
      ar_package_schema_ref r = PACKAGE_SCHEMA_REF_V1 → ar_tokenizer_ref r = RUNTIME_TOKENIZER_REF_V1 →
      descriptor_json canon UNICODE_SCALAR_DESCRIPTOR = Ok (ar_tokenizer_profile_document r) →
      descriptor_digest canon UNICODE_SCALAR_DESCRIPTOR = Ok (ar_tokenizer_profile_digest r) → release_line r.

Lemma supported_runtime_line r : supported_runtime_profile canon r = Ok true → release_line r.
Proof.
  unfold supported_runtime_profile. intros H. apply bind_Ok in H as (d & _ & H). apply bind_Ok in H as (j & Hj & H).
  apply bind_Ok in H as (t & Ht & H). apply Ok_inj in H. rewrite bool_decide_eq_true in H.
  apply elem_of_cons in H as [H|H]; [|apply elem_of_cons in H as [H|H]; [|by apply not_elem_of_nil in H]];
    pose proof (f_equal (λ t, t.1.1.1.2) H) as E1; pose proof (f_equal (λ t, t.1.1.2) H) as E2;
    pose proof (f_equal (λ t, t.1.2) H) as E3; pose proof (f_equal snd H) as E4; clear H; cbn [fst snd] in E1, E2, E3, E4.
  - by apply release_v0.
  - apply release_v1; [exact E4|exact E1|by rewrite E2|by rewrite E3].
Qed.

Lemma manifest_ref_shape d g ref :
  public_release_manifest_ref d g = Ok ref →
  is_generation g = true ∧ ∃ h, ref = lit "rel_" ++ h ∧ is_sha256_hex h = true.
Proof.
  unfold public_release_manifest_ref. intros H. apply bind_Ok in H as ([] & _ & H).
  apply bind_Ok in H as ([] & Hg & H). apply bind_Ok in H as (b & _ & <-%Ok_inj).
  split; [by apply require_Ok in Hg|]. eexists. split; [done|]. apply hexdigest_shape.
Qed.

Record release_ok (r : ActiveRuntimeRelease) : Prop := {
  release_generation_ok : is_generation (ar_active_generation r) = true;
  release_refs_ok : opaque_ref (ar_tokenizer_ref r) = true ∧ opaque_ref (ar_package_schema_ref r) = true;
  release_digest_ok : is_sha256_hex (ar_tokenizer_profile_digest r) = true;
  release_profiles_ok : release_line r;
  release_ref_ok : public_release_manifest_ref (ar_manifest_digest r) (ar_active_generation r) = Ok (ar_manifest_ref r)
}.

Lemma new_release_ok r r' : new_ActiveRuntimeRelease canon r = Ok r' → release_ok r'.
Proof.
  unfold new_ActiveRuntimeRelease. intros H. apply bind_Ok in H as ([] & Hg & H).
  apply bind_Ok in H as ([] & Hrefs & H). apply bind_Ok in H as ([] & Hdig & H).
  apply bind_Ok in H as ([] & _ & H). apply bind_Ok in H as ([] & _ & H).
  apply bind_Ok in H as (ix & _ & H). apply bind_Ok in H as (rt & Hrt & H).
  apply bind_Ok in H as ([] & Hreq & H). apply bind_Ok in H as (ref & Href & <-%Ok_inj).
  apply require_Ok in Hg. apply require_Ok in Hreq. rewrite each_Ok in Hrefs, Hdig.
  rewrite !Forall_cons in Hrefs, Hdig. destruct_and!.
  repeat match goal with H : require _ _ = Ok tt |- _ => apply require_Ok in H end.
  assert (Ert : rt = true) by (destruct rt; [done|]; rewrite !andb_true_iff in Hreq; destruct_and!; done).
  subst rt. apply supported_runtime_line in Hrt. split; try done. by destruct Hrt; [apply release_v0|apply release_v1].
Qed.

Lemma bound_bytes_inj b c g h :
  length b = 32%nat → length c = 32%nat → is_generation g = true → is_generation h = true →
  _PUBLIC_RELEASE_REF_DOMAIN ++ b ++ be_bytes 8 g = _PUBLIC_RELEASE_REF_DOMAIN ++ c ++ be_bytes 8 h → b = c ∧ g = h.
Proof.
  unfold is_generation. intros Hb Hc Hg Hh E%app_inv_head. apply app_inj_1 in E as [-> E]; [|lia]. split; [done|].
  unfold be_bytes in E. apply digits_inj in E; lia.
Qed.

(** The bytes whose digest is the public reference of a release. *)
Definition release_ref_bytes (r : ActiveRuntimeRelease) : pybytes :=
  _PUBLIC_RELEASE_REF_DOMAIN ++ match fromhex (ar_manifest_digest r) with Ok b => b | Err _ => [] end
  ++ be_bytes 8 (ar_active_generation r).

(** The public reference of a release determines its manifest digest and generation,
    or the hashed bytes of the two releases collide. *)
Lemma manifest_ref_binds r s :
  release_ok r → release_ok s → ar_manifest_ref r = ar_manifest_ref s →
  (ar_manifest_digest r = ar_manifest_digest s ∧ ar_active_generation r = ar_active_generation s)
  ∨ collision (release_ref_bytes r) (release_ref_bytes s).
Proof.
  intros [_ _ _ _ Hr] [_ _ _ _ Hs] E. rewrite E in Hr. revert Hr Hs. unfold public_release_manifest_ref.
  intros H K. apply bind_Ok in H as ([] & Hd & H). apply bind_Ok in K as ([] & Kd & K).
  apply bind_Ok in H as ([] & Hg & H). apply bind_Ok in K as ([] & Kg & K).
  apply bind_Ok in H as (b & Hb & H). apply bind_Ok in K as (c & Kc & K).
  apply require_Ok in Hd, Hg, Kd, Kg. pose proof (eq_trans H (eq_sym K)) as Eh. apply Ok_inj, app_inv_head in Eh.
  apply hexdigest_eq in Eh as [Eh|Eh]; [left|right; unfold release_ref_bytes; by rewrite Hb, Kc].
  destruct (sha256_fromhex _ Hd) as (b' & Hb' & Hh & Hl & _). destruct (sha256_fromhex _ Kd) as (c' & Hc' & Kh & Kl & _).
  rewrite Hb in Hb'. rewrite Kc in Hc'. apply Ok_inj in Hb' as <-. apply Ok_inj in Hc' as <-.
  apply bound_bytes_inj in Eh as [<- Eg]; try done. split; [congruence|done].
Qed.

(** Both lookups of a v1 release find its tokenizer. *)
Lemma v1_tokenizer_registered doc digest :
  descriptor_json canon UNICODE_SCALAR_DESCRIPTOR = Ok doc → descriptor_digest canon UNICODE_SCALAR_DESCRIPTOR = Ok digest →
  registered_tokenizer_profile canon doc digest = Ok UNICODE_SCALAR_DESCRIPTOR
  ∧ registered_tokenizer_profile_by_identity canon RUNTIME_TOKENIZER_REF_V1 digest = Ok UNICODE_SCALAR_DESCRIPTOR.
Proof.
  intros Hj Hd. unfold registered_tokenizer_profile, registered_tokenizer_profile_by_identity, REGISTERED_V1_TOKENIZER_PROFILES.
  cbn [matching]. rewrite Hj. cbn [mbind result_bind]. rewrite (bool_decide_true (doc = doc)) by done.
  rewrite (bool_decide_true (td_profile_ref UNICODE_SCALAR_DESCRIPTOR = RUNTIME_TOKENIZER_REF_V1)) by done.
  rewrite Hd. cbn [mbind result_bind]. by rewrite (bool_decide_true (digest = digest)) by done.
Qed.
End Facts.
