(* ===== verification/Budget.v ===== *)
(** * PackageBudget: [src/engine/runtime/budget.py]

    Finite budgets, their intersection with a caller's request, and the shared
    meter with its reservations.  Meters and reservations are mutable objects
    shared by reference, so they live in a store: an object is the index of its
    cell, [meter is self] compares indices, and each operation returns the store
    it leaves behind together with its value or exception.  Every mutation of a
    meter happens inside its lock, so one operation is one step.

    [AccountingTokenizer.count] of [src/engine/tokenizer_accounting.py] is
    modelled in full; loading a tokenizer artifact from disk is a parameter. *)

From S2P Require Import Prelude Codec.

(** ** Budgets and usages *)

Definition _require_positive_exact_integer (value : obj) : result unit :=
  match value with
  | OInt z => require (0 <? z) ValueError
  | _ => Err ValueError
  end.

Record PackageBudget := mkPackageBudget {
  max_tokens : Z;
  max_provider_calls : Z;
  max_cost_microunits : Z;
  max_elapsed_ms : Z
}.

#[export] Instance PackageBudget_eq_dec : EqDecision PackageBudget.
Proof. solve_decision. Defined.

(** [PackageBudget.__post_init__] over the four fields in order. *)
Definition PackageBudget_post_init (b : PackageBudget) : result PackageBudget :=
  each _require_positive_exact_integer
    [OInt (max_tokens b); OInt (max_provider_calls b);
     OInt (max_cost_microunits b); OInt (max_elapsed_ms b)] ;;
  Ok b.

Record BudgetUsage := mkBudgetUsage {
  tokens : Z;
  provider_calls : Z;
  cost_microunits : Z;
  elapsed_ms : Z
}.

#[export] Instance BudgetUsage_eq_dec : EqDecision BudgetUsage.
Proof. solve_decision. Defined.

Definition usage_fields (u : BudgetUsage) : list Z :=
  [tokens u; provider_calls u; cost_microunits u; elapsed_ms u].

(** [BudgetUsage.__post_init__]: every dimension is non-negative. *)
Definition BudgetUsage_post_init (u : BudgetUsage) : result BudgetUsage :=
  require (forallb (Z.leb 0) (usage_fields u)) ValueError ;; Ok u.

Definition _EMPTY_USAGE : BudgetUsage := mkBudgetUsage 0 0 0 0.

(** ** Caller requests *)

Record PackageBudgetRequest := mkPackageBudgetRequest {
  req_max_tokens : option Z;
  req_max_provider_calls : option Z;
  req_max_cost_microunits : option Z;
  req_max_elapsed_ms : option Z
}.

Definition request_fields (r : PackageBudgetRequest) : list (option Z) :=
  [req_max_tokens r; req_max_provider_calls r; req_max_cost_microunits r;
   req_max_elapsed_ms r].

(** [PackageBudgetRequest.__post_init__] *)
Definition PackageBudgetRequest_post_init (r : PackageBudgetRequest) :
    result PackageBudgetRequest :=
  each (λ f, match f with
             | None => Ok tt
             | Some v => _require_positive_exact_integer (OInt v)
             end) (request_fields r) ;;
  require (existsb (λ f, bool_decide (is_Some f)) (request_fields r)) ValueError ;;
  Ok r.

Definition narrowed (server_value : Z) (requested_value : option Z) : Z :=
  match requested_value with
  | None => server_value
  | Some r => Z.min server_value r
  end.

Definition effective_package_budget (server_ceiling : PackageBudget)
    (requested_ceiling : option PackageBudgetRequest) : result PackageBudget :=
  match requested_ceiling with
  | None => Ok server_ceiling
  | Some req =>
      PackageBudget_post_init
        (mkPackageBudget
           (narrowed (max_tokens server_ceiling) (req_max_tokens req))
           (narrowed (max_provider_calls server_ceiling) (req_max_provider_calls req))
           (narrowed (max_cost_microunits server_ceiling) (req_max_cost_microunits req))
           (narrowed (max_elapsed_ms server_ceiling) (req_max_elapsed_ms req)))
  end.

(** ** Tokenizer accounting: [engine/tokenizer_accounting.py] *)

Record TokenizerProfile := mkTokenizerProfile {
  profile_ref : pystr;
  profile_digest : pystr
}.

Inductive token_input := TokStr (s : pystr) | TokBytes (b : pybytes).

(** [AccountingTokenizer.count] *)
Definition tokenizer_count (value : token_input) : result Z :=
  decoded ← match value with
            | TokBytes b => match utf8_decode b with
                            | Some s => Ok s
                            | None => Err TokenizerUnavailable
                            end
            | TokStr s => Ok s
            end;
  require (negb (existsb is_surrogate decoded)) TokenizerUnavailable ;;
  Ok (len decoded).

(** ** The meter and its store *)

(** The carrier bound to a meter; a historical v0 meter has none. *)
Record TokenizerBinding := mkTokenizerBinding {
  tok_ref : pystr;
  tok_profile_digest : pystr;
  tok_release_generation : Z
}.

Record PackageBudgetMeter := mkMeter {
  meter_budget : PackageBudget;
  meter_reserved : BudgetUsage;
  meter_usage : BudgetUsage;
  meter_tokenizer : option TokenizerBinding
}.

Record Reservation := mkReservation {
  res_meter : nat;
  res_maximum : BudgetUsage;
  res_active : bool
}.

Record store := mkStore {
  meters : list PackageBudgetMeter;
  reservations : list Reservation
}.

Definition empty_store : store := mkStore [] [].

Definition _fits (m : PackageBudgetMeter) (u : BudgetUsage) : bool :=
  (tokens u <=? max_tokens (meter_budget m))
  && (provider_calls u <=? max_provider_calls (meter_budget m))
  && (cost_microunits u <=? max_cost_microunits (meter_budget m))
  && (elapsed_ms u <=? max_elapsed_ms (meter_budget m)).

Definition _sum (left right : BudgetUsage) : result BudgetUsage :=
  BudgetUsage_post_init
    (mkBudgetUsage (tokens left + tokens right)
       (provider_calls left + provider_calls right)
       (cost_microunits left + cost_microunits right)
       (elapsed_ms left + elapsed_ms right)).

Definition _subtract (left right : BudgetUsage) : result BudgetUsage :=
  BudgetUsage_post_init
    (mkBudgetUsage (tokens left - tokens right)
       (provider_calls left - provider_calls right)
       (cost_microunits left - cost_microunits right)
       (elapsed_ms left - elapsed_ms right)).

Definition with_meter (s : store) (self : nat) (m : PackageBudgetMeter) : store :=
  mkStore (<[self := m]> (meters s)) (reservations s).
Definition with_reservation (s : store) (r : nat) (v : Reservation) : store :=
  mkStore (meters s) (<[r := v]> (reservations s)).
Definition set_reserved (m : PackageBudgetMeter) (u : BudgetUsage) : PackageBudgetMeter :=
  mkMeter (meter_budget m) u (meter_usage m) (meter_tokenizer m).
Definition set_usage (m : PackageBudgetMeter) (u : BudgetUsage) : PackageBudgetMeter :=
  mkMeter (meter_budget m) (meter_reserved m) u (meter_tokenizer m).
Definition deactivate (r : Reservation) : Reservation :=
  mkReservation (res_meter r) (res_maximum r) false.

Section Meter.
(** [TokenizerProfile.load] reads and checks the artifact file. *)
Variable tokenizer_load : TokenizerProfile → result unit.

(** [PackageBudgetMeter.__init__]; the new object's index is returned. *)
Definition meter_init (s : store) (budget : PackageBudget) (initial_usage : BudgetUsage)
    (tokenizer_profile : option TokenizerProfile) (release_generation : option Z) :
    store * result nat :=
  let built :=
    tok ← match tokenizer_profile, release_generation with
          | None, None => Ok None
          | None, Some _ => Err TypeError
          | Some _, None => Err ValueError
          | Some p, Some g =>
              require (1 <=? g) ValueError ;;
              tokenizer_load p ;;
              Ok (Some (mkTokenizerBinding (profile_ref p) (profile_digest p) g))
          end;
    let m := mkMeter budget _EMPTY_USAGE initial_usage tok in
    require (_fits m initial_usage) ValueError ;; Ok m in
  match built with
  | Ok m => (mkStore (meters s ++ [m]) (reservations s), Ok (length (meters s)))
  | Err e => (s, Err e)
  end.
End Meter.

(** [PackageBudgetMeter.usage] *)
Definition usage (s : store) (self : nat) : option BudgetUsage :=
  meter_usage <$> meters s !! self.

(** An unbound meter's identity fields are [None], which no text equals. *)
Definition require_tokenizer (m : PackageBudgetMeter)
    (tokenizer_ref tokenizer_profile_digest : pystr) (release_generation : Z) : result unit :=
  match meter_tokenizer m with
  | None => Err TokenizerUnavailable
  | Some t =>
      require (bool_decide (tokenizer_ref = tok_ref t)
               && bool_decide (tokenizer_profile_digest = tok_profile_digest t)
               && (release_generation =? tok_release_generation t)) TokenizerUnavailable
  end.

Definition require_carrier_tokenizer (m : PackageBudgetMeter)
    (tokenizer_ref tokenizer_profile_digest : pystr) : result unit :=
  match meter_tokenizer m with
  | None => Ok tt
  | Some t =>
      require (bool_decide (tokenizer_ref = tok_ref t)
               && bool_decide (tokenizer_profile_digest = tok_profile_digest t))
        TokenizerUnavailable
  end.

Definition require_release_generation (m : PackageBudgetMeter) (release_generation : Z) :
    result unit :=
  match meter_tokenizer m with
  | None => Err TokenizerUnavailable
  | Some t => require (release_generation =? tok_release_generation t) TokenizerUnavailable
  end.

Definition count_tokens (m : PackageBudgetMeter) (value : token_input) : result Z :=
  match meter_tokenizer m with
  | None => Ok 0
  | Some _ => tokenizer_count value
  end.

(** [_reserve]: admit [maximum] on top of the committed and reserved usage. *)
Definition _reserve (s : store) (self : nat) (maximum : BudgetUsage) : store * result nat :=
  match meters s !! self with
  | None => (s, Err TypeError)
  | Some m =>
      match (committed ← _sum (meter_usage m) (meter_reserved m);
             proposed ← _sum committed maximum;
             require (_fits m proposed) PackageBudgetExceeded ;;
             _sum (meter_reserved m) maximum) with
      | Err e => (s, Err e)
      | Ok reserved =>
          (mkStore (<[self := set_reserved m reserved]> (meters s))
             (reservations s ++ [mkReservation self maximum true]),
           Ok (length (reservations s)))
      end
  end.

(** The membership test before the lock: [reservation.meter is self]. *)
Definition own_reservation (s : store) (self reservation : nat) :
    result (PackageBudgetMeter * Reservation) :=
  match meters s !! self, reservations s !! reservation with
  | Some m, Some r => require (bool_decide (res_meter r = self)) ValueError ;; Ok (m, r)
  | _, _ => Err ValueError
  end.

Definition usage_le (a b : BudgetUsage) : bool :=
  forallb (λ p, p.1 <=? p.2) (zip (usage_fields a) (usage_fields b)).

(** [_commit]: replace a live reservation by the actual charge. *)
Definition _commit (s : store) (self reservation : nat) (actual : BudgetUsage) :
    store * result unit :=
  match own_reservation s self reservation with
  | Err e => (s, Err e)
  | Ok (m, r) =>
      if negb (usage_le actual (res_maximum r)) then (s, Err ValueError)
      else if negb (res_active r) then (s, Err ValueError)
      else match _subtract (meter_reserved m) (res_maximum r) with
      | Err e => (s, Err e)
      | Ok reserved =>
          let m := set_reserved m reserved in
          match _sum (meter_usage m) actual with
          | Err e => (with_meter s self m, Err e)
          | Ok usage =>
              (with_reservation (with_meter s self (set_usage m usage)) reservation (deactivate r),
               Ok tt)
          end
      end
  end.

(** [_cancel]: release a live reservation without a charge. *)
Definition _cancel (s : store) (self reservation : nat) : store * result unit :=
  match own_reservation s self reservation with
  | Err e => (s, Err e)
  | Ok (m, r) =>
      if negb (res_active r) then (s, Err ValueError)
      else match _subtract (meter_reserved m) (res_maximum r) with
      | Err e => (s, Err e)
      | Ok reserved =>
          (with_reservation (with_meter s self (set_reserved m reserved)) reservation
             (deactivate r), Ok tt)
      end
  end.

(** ** Executions

    A charge or a maximum reaches the meter as a constructed [BudgetUsage], so
    it passed [__post_init__]; operations may fail, be retried, and interleave
    over any number of meters in any order. *)
Inductive op :=
  | OpNew (budget : PackageBudget) (initial : BudgetUsage)
      (profile : option TokenizerProfile) (generation : option Z)
  | OpReserve (self : nat) (maximum : BudgetUsage)
  | OpCommit (self reservation : nat) (actual : BudgetUsage)
  | OpCancel (self reservation : nat).

Definition usage_ok (u : BudgetUsage) : Prop := BudgetUsage_post_init u = Ok u.
Definition budget_ok (b : PackageBudget) : Prop := PackageBudget_post_init b = Ok b.

Definition op_ok (o : op) : Prop :=
  match o with
  | OpNew b u _ _ => budget_ok b ∧ usage_ok u
  | OpReserve _ u | OpCommit _ _ u => usage_ok u
  | OpCancel _ _ => True
  end.

Definition run_op (load : TokenizerProfile → result unit) (s : store) (o : op) : store :=
  match o with
  | OpNew b u p g => (meter_init load s b u p g).1
  | OpReserve self u => (_reserve s self u).1
  | OpCommit self r u => (_commit s self r u).1
  | OpCancel self r => (_cancel s self r).1
  end.

Definition run (load : TokenizerProfile → result unit) : store → list op → store :=
  foldl (run_op load).

(** ** The ledger invariant *)

Definition usage_add (a b : BudgetUsage) : BudgetUsage :=
  mkBudgetUsage (tokens a + tokens b) (provider_calls a + provider_calls b)
    (cost_microunits a + cost_microunits b) (elapsed_ms a + elapsed_ms b).

(** The maxima of the live reservations of one meter. *)
Fixpoint outstanding (self : nat) (rs : list Reservation) : BudgetUsage :=
  match rs with
  | [] => _EMPTY_USAGE
  | r :: rs' =>
      if bool_decide (res_meter r = self) && res_active r
      then usage_add (res_maximum r) (outstanding self rs')
      else outstanding self rs'
  end.

Definition within (b : PackageBudget) (u : BudgetUsage) : Prop :=
  tokens u ≤ max_tokens b ∧ provider_calls u ≤ max_provider_calls b
  ∧ cost_microunits u ≤ max_cost_microunits b ∧ elapsed_ms u ≤ max_elapsed_ms b.

Record ledger_ok (s : store) (self : nat) (m : PackageBudgetMeter) : Prop := {
  ledger_usage : usage_ok (meter_usage m);
  ledger_outstanding : meter_reserved m = outstanding self (reservations s);
  ledger_within : within (meter_budget m) (usage_add (meter_usage m) (meter_reserved m))
}.

Definition store_ok (s : store) : Prop :=
  (∀ self m, meters s !! self = Some m → ledger_ok s self m)
  ∧ (∀ i r, reservations s !! i = Some r →
       (res_meter r < length (meters s))%nat ∧ usage_ok (res_maximum r)).

Lemma usage_ok_iff u :
  usage_ok u ↔ 0 ≤ tokens u ∧ 0 ≤ provider_calls u ∧ 0 ≤ cost_microunits u ∧ 0 ≤ elapsed_ms u.
Proof.
  unfold usage_ok, BudgetUsage_post_init. rewrite bind_Ok. simpl. split.
  - intros ([] & H & _). run_ok. lia.
  - intros H. exists tt. split; [|done]. apply require_Ok. lia.
Qed.

Lemma budget_ok_iff b :
  budget_ok b ↔ 0 < max_tokens b ∧ 0 < max_provider_calls b ∧ 0 < max_cost_microunits b
    ∧ 0 < max_elapsed_ms b.
Proof.
  unfold budget_ok, PackageBudget_post_init. rewrite bind_Ok. split.
  - intros ([] & H & _). run_ok. rewrite !Forall_cons in H. simpl in H.
    setoid_rewrite require_Ok in H. lia.
  - intros H. exists tt. split; [|done]. apply each_Ok. rewrite !Forall_cons. simpl.
    rewrite !require_Ok. repeat split; try lia. constructor.
Qed.

Lemma usage_eq a b :
  tokens a = tokens b → provider_calls a = provider_calls b →
  cost_microunits a = cost_microunits b → elapsed_ms a = elapsed_ms b → a = b.
Proof. destruct a, b. simpl. congruence. Qed.

Lemma BudgetUsage_post_init_Ok u v : BudgetUsage_post_init u = Ok v ↔ u = v ∧ usage_ok u.
Proof.
  unfold usage_ok, BudgetUsage_post_init.
  destruct (forallb _ (usage_fields u)); simpl; naive_solver.
Qed.

Lemma sum_eq a b u : _sum a b = Ok u ↔ u = usage_add a b ∧ usage_ok u.
Proof.
  unfold _sum. rewrite BudgetUsage_post_init_Ok. unfold usage_add. naive_solver.
Qed.

Lemma subtract_eq a b u : _subtract a b = Ok u ↔ a = usage_add u b ∧ usage_ok u.
Proof.
  unfold _subtract. rewrite BudgetUsage_post_init_Ok. split; intros [H Hu].
  - subst u. split; [|done]. apply usage_eq; simpl; lia.
  - subst a. assert (Heq : mkBudgetUsage
      (tokens (usage_add u b) - tokens b) (provider_calls (usage_add u b) - provider_calls b)
      (cost_microunits (usage_add u b) - cost_microunits b)
      (elapsed_ms (usage_add u b) - elapsed_ms b) = u) by (apply usage_eq; simpl; lia).
    by rewrite Heq.
Qed.

Lemma fits_within m u : _fits m u = true ↔ within (meter_budget m) u.
Proof. unfold _fits, within. lia. Qed.

Lemma usage_add_ok a b : usage_ok a → usage_ok b → usage_ok (usage_add a b).
Proof. rewrite !usage_ok_iff. simpl. lia. Qed.

Lemma usage_le_iff a b :
  usage_le a b = true ↔ tokens a ≤ tokens b ∧ provider_calls a ≤ provider_calls b
    ∧ cost_microunits a ≤ cost_microunits b ∧ elapsed_ms a ≤ elapsed_ms b.
Proof. unfold usage_le. simpl. lia. Qed.

Lemma outstanding_ok self rs :
  Forall (λ r, usage_ok (res_maximum r)) rs → usage_ok (outstanding self rs).
Proof.
  induction 1 as [|r rs Hr Hrs IH]; simpl; [by apply usage_ok_iff; simpl; lia|].
  destruct (_ && _); [by apply usage_add_ok | done].
Qed.

Lemma outstanding_snoc self rs r :
  outstanding self (rs ++ [r]) =
  if bool_decide (res_meter r = self) && res_active r
  then usage_add (outstanding self rs) (res_maximum r) else outstanding self rs.
Proof.
  induction rs as [|q rs IH]; simpl; [|rewrite IH]; repeat destruct (_ && _);
    apply usage_eq; simpl; lia.
Qed.

(** Retiring a reservation takes exactly its maximum off its own meter. *)
Lemma outstanding_deactivate self rs i r :
  rs !! i = Some r → res_active r = true →
  outstanding self rs =
  if bool_decide (res_meter r = self)
  then usage_add (outstanding self (<[i := deactivate r]> rs)) (res_maximum r)
  else outstanding self (<[i := deactivate r]> rs).
Proof.
  revert i. induction rs as [|q rs IH]; intros [|i] Hi Ha; simplify_eq/=.
  - rewrite Ha, !andb_true_r, !andb_false_r. case_bool_decide; [|done].
    apply usage_eq; simpl; lia.
  - rewrite (IH i) by done. case_bool_decide; destruct (_ && _); try done.
    apply usage_eq; simpl; lia.
Qed.

Lemma reservations_usage_ok s :
  store_ok s → Forall (λ r, usage_ok (res_maximum r)) (reservations s).
Proof. intros [_ H]. apply Forall_lookup. intros i r Hr. by apply (H i r). Qed.

Lemma ledger_reserved_ok s self m : store_ok s → ledger_ok s self m → usage_ok (meter_reserved m).
Proof.
  intros Hs Hm. rewrite (ledger_outstanding _ _ _ Hm).
  by apply outstanding_ok, reservations_usage_ok.
Qed.

Lemma meter_init_ok load s b u p g :
  store_ok s → budget_ok b → usage_ok u → store_ok (meter_init load s b u p g).1.
Proof.
  intros Hs Hb Hu. unfold meter_init.
  match goal with |- context [match ?x with Ok _ => _ | Err _ => _ end] =>
    destruct x as [m|e] eqn:E end; [|done].
  assert (Hmeter : ∃ tok, m = mkMeter b _EMPTY_USAGE u tok ∧ _fits m u = true)
    by (run_ok; eauto).
  destruct Hmeter as (tok & -> & Hfits). simpl. clear E.
  destruct Hs as [Hm Hr]. split; simpl.
  - intros self m' [Hl|[Hl Hs]]%lookup_app_Some; [by destruct (Hm self m' Hl); constructor|].
    apply list_lookup_singleton_Some in Hs as [Hself <-]. constructor; simpl.
    + done.
    + assert (self = length (meters s)) as -> by lia. clear -Hr.
      induction (reservations s) as [|r rs IH]; simpl; [done|].
      destruct (Hr 0%nat r eq_refl) as [Hlt _].
      rewrite bool_decide_eq_false_2 by lia. apply IH. intros i. apply (Hr (S i)).
    + rewrite (usage_eq (usage_add u _EMPTY_USAGE) u) by (simpl; lia).
      by apply fits_within in Hfits.
  - intros i r Hi. destruct (Hr i r Hi) as [? ?]. rewrite length_app. simpl. split; [lia|done].
Qed.

(** A meter's cell and the reservation list change together. *)
Lemma store_ok_update s self m m' rs :
  store_ok s → meters s !! self = Some m →
  (∀ k, k ≠ self → outstanding k rs = outstanding k (reservations s)) →
  (∀ i r, rs !! i = Some r → (res_meter r < length (meters s))%nat ∧ usage_ok (res_maximum r)) →
  ledger_ok (mkStore (<[self := m']> (meters s)) rs) self m' →
  store_ok (mkStore (<[self := m']> (meters s)) rs).
Proof.
  intros [Hm Hr] Hself Hother Hrs Hm'. split; simpl.
  - intros k mk Hk. destruct (decide (k = self)) as [->|Hne].
    + rewrite list_lookup_insert_eq in Hk by (by eapply lookup_lt_Some). by simplify_eq.
    + rewrite list_lookup_insert_ne in Hk by done. destruct (Hm k mk Hk) as [H1 H2 H3].
      constructor; simpl; [done| |done]. by rewrite Hother.
  - intros i r Hi. rewrite length_insert. by apply (Hrs i r).
Qed.

Lemma reserve_ok s self u : store_ok s → usage_ok u → store_ok (_reserve s self u).1.
Proof.
  intros Hs Hu. unfold _reserve. destruct (meters s !! self) as [m|] eqn:Hm; [|done].
  match goal with |- context [match ?x with Ok _ => _ | Err _ => _ end] =>
    destruct x as [reserved|e] eqn:E end; [|done].
  apply bind_Ok in E as (committed & [-> _]%sum_eq & E).
  apply bind_Ok in E as (proposed & [-> _]%sum_eq & E).
  apply bind_Ok in E as ([] & Hfit & [-> _]%sum_eq).
  apply require_Ok, fits_within in Hfit. simpl. pose proof (proj1 Hs self m Hm) as Hl.
  eapply store_ok_update; [done..| | |].
  - intros k Hk. rewrite outstanding_snoc. simpl. by rewrite bool_decide_eq_false_2.
  - intros i r [Hi|[_ Hi]]%lookup_app_Some; [by apply (proj2 Hs i)|].
    apply list_lookup_singleton_Some in Hi as [_ <-]. simpl. split; [|done].
    by eapply lookup_lt_Some.
  - constructor; simpl; [apply Hl| |].
    + rewrite outstanding_snoc. simpl. rewrite bool_decide_eq_true_2 by done. simpl.
      by rewrite (ledger_outstanding _ _ _ Hl).
    + unfold within in *. simpl in *. lia.
Qed.

Lemma own_reservation_Ok s self i m r :
  own_reservation s self i = Ok (m, r) ↔
  meters s !! self = Some m ∧ reservations s !! i = Some r ∧ res_meter r = self.
Proof.
  unfold own_reservation. destruct (meters s !! self), (reservations s !! i) as [q|];
    try naive_solver.
  destruct (decide (res_meter q = self)).
  - rewrite bool_decide_eq_true_2 by done. simpl. naive_solver.
  - rewrite bool_decide_eq_false_2 by done. simpl. naive_solver.
Qed.

(** A live reservation's maximum is part of what its meter holds reserved. *)
Lemma live_reserved s self m i r :
  store_ok s → meters s !! self = Some m → reservations s !! i = Some r →
  res_meter r = self → res_active r = true →
  _subtract (meter_reserved m) (res_maximum r)
  = Ok (outstanding self (<[i := deactivate r]> (reservations s))).
Proof.
  intros Hs Hm Hi Hr Ha. apply subtract_eq.
  rewrite (ledger_outstanding _ _ _ (proj1 Hs self m Hm)).
  rewrite (outstanding_deactivate self _ i r), bool_decide_eq_true_2 by done. split; [done|].
  apply outstanding_ok. apply Forall_insert; [by apply reservations_usage_ok|].
  by apply (proj2 Hs i r).
Qed.

(** Settling a reservation with a charge that it covers keeps the ledger. *)
Lemma settle_ok s self m i r charged :
  store_ok s → meters s !! self = Some m → reservations s !! i = Some r →
  res_meter r = self → res_active r = true → usage_ok charged →
  usage_le charged (res_maximum r) = true →
  store_ok (mkStore
    (<[self := mkMeter (meter_budget m)
         (outstanding self (<[i := deactivate r]> (reservations s)))
         (usage_add (meter_usage m) charged) (meter_tokenizer m)]> (meters s))
    (<[i := deactivate r]> (reservations s))).
Proof.
  intros Hs Hm Hi Hr Ha Hc Hle. pose proof (proj1 Hs self m Hm) as Hl.
  eapply store_ok_update; [done..| | |].
  - intros k Hk. rewrite (outstanding_deactivate k (reservations s) i r) by done.
    by rewrite bool_decide_eq_false_2 by congruence.
  - intros j q Hj. destruct (decide (i = j)) as [<-|Hne].
    + rewrite list_lookup_insert_eq in Hj by (by eapply lookup_lt_Some). simplify_eq/=.
      by apply (proj2 Hs i r).
    + rewrite list_lookup_insert_ne in Hj by done. by apply (proj2 Hs j).
  - constructor; simpl.
    + apply usage_add_ok; [apply Hl|done].
    + done.
    + pose proof (ledger_within _ _ _ Hl) as Hw.
      rewrite (ledger_outstanding _ _ _ Hl), (outstanding_deactivate self _ i r) in Hw by done.
      rewrite bool_decide_eq_true_2 in Hw by done. apply usage_le_iff in Hle.
      unfold within in *. simpl in *. lia.
Qed.

(** The complete behaviour of [_commit] and [_cancel] on a consistent store:
    the internal subtraction and sum never raise. *)
Lemma commit_eq s self i actual :
  store_ok s → usage_ok actual →
  _commit s self i actual =
  match own_reservation s self i with
  | Err e => (s, Err e)
  | Ok (m, r) =>
      if usage_le actual (res_maximum r) && res_active r
      then (mkStore
              (<[self := mkMeter (meter_budget m)
                   (outstanding self (<[i := deactivate r]> (reservations s)))
                   (usage_add (meter_usage m) actual) (meter_tokenizer m)]> (meters s))
              (<[i := deactivate r]> (reservations s)), Ok tt)
      else (s, Err ValueError)
  end.
Proof.
  intros Hs Ha. unfold _commit. destruct (own_reservation s self i) as [[m r]|e] eqn:E; [|done].
  apply own_reservation_Ok in E as (Hm & Hi & Hr).
  destruct (usage_le actual (res_maximum r)) eqn:Hle; [|done].
  destruct (res_active r) eqn:Hact; [|by rewrite ?Hact]. simpl.
  rewrite (live_reserved s self m i r) by done.
  rewrite (proj2 (sum_eq (meter_usage m) actual (usage_add (meter_usage m) actual))); [done|].
  split; [done|]. apply usage_add_ok; [|done]. apply (proj1 Hs self m Hm).
Qed.

Lemma cancel_eq s self i :
  store_ok s →
  _cancel s self i =
  match own_reservation s self i with
  | Err e => (s, Err e)
  | Ok (m, r) =>
      if res_active r
      then (mkStore
              (<[self := set_reserved m
                   (outstanding self (<[i := deactivate r]> (reservations s)))]> (meters s))
              (<[i := deactivate r]> (reservations s)), Ok tt)
      else (s, Err ValueError)
  end.
Proof.
  intros Hs. unfold _cancel. destruct (own_reservation s self i) as [[m r]|e] eqn:E; [|done].
  apply own_reservation_Ok in E as (Hm & Hi & Hr).
  destruct (res_active r) eqn:Hact; [|by rewrite ?Hact]. simpl.
  by rewrite (live_reserved s self m i r).
Qed.

Lemma commit_ok s self i actual :
  store_ok s → usage_ok actual → store_ok (_commit s self i actual).1.
Proof.
  intros Hs Ha. rewrite commit_eq by done.
  destruct (own_reservation s self i) as [[m r]|e] eqn:E; [|done].
  apply own_reservation_Ok in E as (Hm & Hi & Hr).
  destruct (usage_le _ _) eqn:Hle; [|done]. destruct (res_active r) eqn:Hact; [|done].
  by apply settle_ok.
Qed.

Lemma cancel_ok s self i : store_ok s → store_ok (_cancel s self i).1.
Proof.
  intros Hs. rewrite cancel_eq by done.
  destruct (own_reservation s self i) as [[m r]|e] eqn:E; [|done].
  apply own_reservation_Ok in E as (Hm & Hi & Hr).
  destruct (res_active r) eqn:Hact; [|done].
  pose proof (settle_ok s self m i r _EMPTY_USAGE) as H. simpl in *.
  rewrite (usage_eq (usage_add (meter_usage m) _EMPTY_USAGE) (meter_usage m)) in H
    by (simpl; lia).
  apply H; try done. apply usage_le_iff. simpl.
  destruct (proj2 Hs i r Hi) as [_ Hq%usage_ok_iff]. lia.
Qed.

Lemma run_op_ok load s o : op_ok o → store_ok s → store_ok (run_op load s o).
Proof.
  destruct o; simpl; intros Ho Hs;
    [apply meter_init_ok | apply reserve_ok | apply commit_ok | apply cancel_ok]; naive_solver.
Qed.

Lemma run_ok_from load s ops : Forall op_ok ops → store_ok s → store_ok (run load s ops).
Proof.
  intros H. revert s. induction H as [|o ops Ho Hops IH]; intros s Hs; [done|].
  simpl. by apply IH, run_op_ok.
Qed.

Lemma empty_store_ok : store_ok empty_store.
Proof. split; intros k ? H; by destruct k. Qed.

Lemma reachable_ok load ops : Forall op_ok ops → store_ok (run load empty_store ops).
Proof. intros H. by apply run_ok_from, empty_store_ok. Qed.

(** A settled reservation object stays settled. *)
Lemma settled_step load s o i r :
  store_ok s → op_ok o → reservations s !! i = Some r → res_active r = false →
  reservations (run_op load s o) !! i = Some r.
Proof.
  intros Hs Ho Hi Hr. destruct o as [b u p g|self u|self j u|self j]; simpl.
  - unfold meter_init. by destruct (_ ≫= _).
  - unfold _reserve. destruct (meters s !! self); [|done]. destruct (_ ≫= _); [|done]. simpl.
    by apply lookup_app_l_Some.
  - rewrite commit_eq by done. destruct (own_reservation s self j) as [[m q]|] eqn:E; [|done].
    apply own_reservation_Ok in E as (_ & Hj & _). destruct (_ && _) eqn:Hq; [|done]. simpl.
    rewrite list_lookup_insert_ne; [done|]. intros ->. simplify_eq. rewrite Hr in Hq. lia.
  - rewrite cancel_eq by done. destruct (own_reservation s self j) as [[m q]|] eqn:E; [|done].
    apply own_reservation_Ok in E as (_ & Hj & _). destruct (res_active q) eqn:Hq; [|done]. simpl.
    rewrite list_lookup_insert_ne; [done|]. intros ->. congruence.
Qed.

Lemma settled_run load s ops i r :
  store_ok s → Forall op_ok ops → reservations s !! i = Some r → res_active r = false →
  reservations (run load s ops) !! i = Some r.
Proof.
  intros Hs H. revert s Hs. induction H as [|o ops Ho Hops IH]; intros s Hs Hi Hr; [done|].
  simpl. apply IH; [by apply run_op_ok| |done]. by apply settled_step.
Qed.

Lemma settled_refuses s self i actual r :
  store_ok s → usage_ok actual → reservations s !! i = Some r → res_active r = false →
  _commit s self i actual = (s, Err ValueError) ∧ _cancel s self i = (s, Err ValueError).
Proof.
  intros Hs Hu Hi Hr. rewrite commit_eq, cancel_eq by done. unfold own_reservation.
  rewrite Hi. destruct (meters s !! self); [|done].
  destruct (decide (res_meter r = self)).
  - rewrite bool_decide_eq_true_2 by done. simpl. by rewrite Hr, andb_false_r.
  - by rewrite bool_decide_eq_false_2.
Qed.

(** ** Properties *)

(** C39: Across any interleaving of meter constructions, reservations, commits and
    cancellations (failing ones included), every meter's reserved total is
    exactly the sum of the maxima of its live reservations, and what it has
    charged plus what it holds reserved stays within its budget in all four
    dimensions. *)
Theorem meter_ledger_invariant load ops self m :
  Forall op_ok ops →
  meters (run load empty_store ops) !! self = Some m →
  meter_reserved m = outstanding self (reservations (run load empty_store ops))
  ∧ usage_ok (meter_usage m)
  ∧ within (meter_budget m) (usage_add (meter_usage m) (meter_reserved m)).
Proof.
  intros Hops Hm. destruct (proj1 (reachable_ok load ops Hops) self m Hm). done.
Qed.

Definition witness_ops : list op :=
  [OpNew (mkPackageBudget 10 2 5 7) _EMPTY_USAGE None None;
   OpReserve 0 (mkBudgetUsage 6 1 0 0); OpReserve 0 (mkBudgetUsage 5 0 0 0);
   OpCommit 0 0 (mkBudgetUsage 4 1 0 0); OpReserve 0 (mkBudgetUsage 6 0 0 0)].

Lemma meter_ledger_invariant_witness :
  let s := run (λ _, Ok tt) empty_store witness_ops in
  meters s !! 0%nat = Some (mkMeter (mkPackageBudget 10 2 5 7) (mkBudgetUsage 6 0 0 0)
                            (mkBudgetUsage 4 1 0 0) None)
  ∧ within (mkPackageBudget 10 2 5 7) (mkBudgetUsage 10 1 0 0).
Proof.
  assert (H := meter_ledger_invariant (λ _, Ok tt) witness_ops 0
    (mkMeter (mkPackageBudget 10 2 5 7) (mkBudgetUsage 6 0 0 0) (mkBudgetUsage 4 1 0 0) None)).
  split; [vm_compute; reflexivity|]. apply H.
  - repeat constructor.
  - vm_compute. reflexivity.
Defined.

(** On every reachable store, [_commit] succeeds exactly when the reservation
    belongs to the meter, is live and covers the charge; success charges exactly
    [actual], releases exactly the reserved maximum, and from then on every
    commit or cancel of that reservation, after any further operations, raises
    ValueError and changes nothing. *)
Theorem reservation_settles_once load ops self i actual s' m r :
  Forall op_ok ops → usage_ok actual →
  let s := run load empty_store ops in
  meters s !! self = Some m → reservations s !! i = Some r → res_meter r = self →
  (_commit s self i actual = (s', Ok tt) →
     res_active r = true ∧ usage_le actual (res_maximum r) = true
     ∧ meters s' !! self = Some (mkMeter (meter_budget m)
           (outstanding self (reservations s')) (usage_add (meter_usage m) actual)
           (meter_tokenizer m))
     ∧ meter_reserved m = usage_add (outstanding self (reservations s')) (res_maximum r)
     ∧ ∀ later k charge, Forall op_ok later → usage_ok charge →
         let s2 := run load s' later in
         _commit s2 k i charge = (s2, Err ValueError) ∧ _cancel s2 k i = (s2, Err ValueError))
  ∧ (res_active r = true → usage_le actual (res_maximum r) = true →
     ∃ s'', _commit s self i actual = (s'', Ok tt)).
Proof.
  intros Hops Ha s Hm Hi Hr. pose proof (reachable_ok load ops Hops) as Hs. fold s in Hs.
  pose proof (commit_ok s self i actual Hs Ha) as Hs'.
  rewrite commit_eq in Hs' |- * by done.
  rewrite (proj2 (own_reservation_Ok s self i m r)) in Hs' |- * by done.
  destruct (usage_le actual (res_maximum r)) eqn:Hle, (res_active r) eqn:Hact; simpl in *;
    try naive_solver.
  split; [|eauto]. intros [= <-]. split_and!; try done.
  - simpl. rewrite list_lookup_insert_eq by (by eapply lookup_lt_Some). done.
  - rewrite (ledger_outstanding _ _ _ (proj1 Hs self m Hm)). simpl.
    rewrite (outstanding_deactivate self (reservations s) i r) by done.
    by rewrite bool_decide_eq_true_2.
  - intros later k charge Hlater Hch. eapply settled_refuses.
    + by apply run_ok_from.
    + done.
    + apply settled_run; [done..| |]; [|instantiate (1 := deactivate r); done]. simpl.
      apply list_lookup_insert_eq. by eapply lookup_lt_Some.
    + done.
Qed.

Lemma reservation_settles_once_witness :
  let s := run (λ _, Ok tt) empty_store (take 2 witness_ops) in
  ∃ s', _commit s 0 0 (mkBudgetUsage 4 1 0 0) = (s', Ok tt)
        ∧ _cancel s' 0 0 = (s', Err ValueError).
Proof.
  set (s := run (λ _, Ok tt) empty_store (take 2 witness_ops)).
  set (s' := (_commit s 0 0 (mkBudgetUsage 4 1 0 0)).1).
  destruct (reservation_settles_once (λ _, Ok tt) (take 2 witness_ops) 0 0
    (mkBudgetUsage 4 1 0 0) s'
    (mkMeter (mkPackageBudget 10 2 5 7) (mkBudgetUsage 6 1 0 0) (mkBudgetUsage 0 0 0 0) None)
    (mkReservation 0 (mkBudgetUsage 6 1 0 0) true)) as [H _];
    [repeat constructor | reflexivity | reflexivity | reflexivity | reflexivity |].
  exists s'. split; [vm_compute; reflexivity|].
  destruct H as (_ & _ & _ & _ & H); [vm_compute; reflexivity|].
  apply (H [] 0%nat (mkBudgetUsage 0 0 0 0)); [constructor | reflexivity].
Defined.

Lemma narrowed_le x server req :
  x ≤ narrowed server req ↔ x ≤ server ∧ ∀ v, req = Some v → x ≤ v.
Proof.
  destruct req as [r|]; simpl; [|naive_solver]. rewrite Z.min_glb_iff. naive_solver.
Qed.

(** The effective budget of a valid server ceiling and a valid request is a
    valid budget and is the greatest one below both: it never exceeds the server
    in any dimension nor the caller in a requested one, and any budget with that
    property is below it; an omitted request leaves the ceiling unchanged. *)
Theorem effective_budget_is_meet server req :
  budget_ok server → PackageBudgetRequest_post_init req = Ok req →
  effective_package_budget server None = Ok server
  ∧ ∃ b, effective_package_budget server (Some req) = Ok b ∧ budget_ok b
    ∧ ∀ u, within b u ↔
        within server u
        ∧ (∀ v, req_max_tokens req = Some v → tokens u ≤ v)
        ∧ (∀ v, req_max_provider_calls req = Some v → provider_calls u ≤ v)
        ∧ (∀ v, req_max_cost_microunits req = Some v → cost_microunits u ≤ v)
        ∧ (∀ v, req_max_elapsed_ms req = Some v → elapsed_ms u ≤ v).
Proof.
  intros Hs Hr. split; [done|]. unfold PackageBudgetRequest_post_init in Hr.
  apply bind_Ok in Hr as ([] & Hr & _). apply each_Ok in Hr.
  destruct req as [t p c e]. unfold request_fields in Hr. simpl in Hr.
  rewrite !Forall_cons in Hr. unfold effective_package_budget. simpl.
  match goal with |- ∃ b, PackageBudget_post_init ?x = _ ∧ _ => set (b := x) end.
  assert (Hb : budget_ok b).
  { apply budget_ok_iff in Hs. apply budget_ok_iff. subst b. simpl.
    destruct t, p, c, e; simpl in *; rewrite ?require_Ok in Hr; lia. }
  exists b. split; [done|]. split; [done|]. intros u. unfold within. subst b. simpl.
  rewrite !narrowed_le. tauto.
Qed.

Lemma effective_budget_is_meet_witness :
  effective_package_budget (mkPackageBudget 100 8 9 7)
    (Some (mkPackageBudgetRequest (Some 40) None (Some 50) None))
  = Ok (mkPackageBudget 40 8 9 7)
  ∧ budget_ok (mkPackageBudget 40 8 9 7).
Proof.
  destruct (effective_budget_is_meet (mkPackageBudget 100 8 9 7)
    (mkPackageBudgetRequest (Some 40) None (Some 50) None)) as (_ & b & H1 & H2 & _);
    [reflexivity | reflexivity |].
  vm_compute in H1. injection H1 as <-. split; [reflexivity | exact H2].
Defined.

(** Counting the UTF-8 bytes of a text costs exactly as many tokens as
    counting the text itself, for every text of Unicode scalar values, and a text
    with a surrogate is refused. *)
Theorem tokenizer_count_bytes_agrees s :
  Forall char_ok s →
  tokenizer_count (TokStr s) =
    (if existsb is_surrogate s then Err TokenizerUnavailable else Ok (len s))
  ∧ (existsb is_surrogate s = false →
     tokenizer_count (TokBytes (utf8 s)) = tokenizer_count (TokStr s)).
Proof.
  intros Hs. unfold tokenizer_count. simpl. split.
  - by destruct (existsb is_surrogate s).
  - intros Hsur. by rewrite utf8_decode_encode.
Qed.

Lemma tokenizer_count_bytes_agrees_witness :
  tokenizer_count (TokBytes (utf8 [0x68; 0xE9; 0x4E2D; 0x1F600])) = Ok 4.
Proof.
  assert (H : Forall char_ok [0x68; 0xE9; 0x4E2D; 0x1F600])
    by (repeat constructor; unfold char_ok; lia).
  destruct (tokenizer_count_bytes_agrees _ H) as [H1 H2].
  rewrite H2; [exact H1 | reflexivity].
Defined.
