(* ===== verification/Scope.v ===== *)
(** * The effective-scope oracle: [src/engine/runtime/scope.py]

    Authorization targets, the seven trusted operands, the caller's narrowing
    ([RequestNarrowing] of [src/engine/runtime/contracts.py]) and the one
    intersection that decides what a resolve may see, with the digest that
    stands for the result outside the authorization boundary.  A [frozenset] of
    targets is a [gset]; the digest sorts the encoded targets, so no iteration
    order reaches it. *)

From S2P Require Import Prelude Codec Sha256.

(** ** Targets and operands *)

(** [_require_nonblank_exact_string] *)
Definition _require_nonblank_exact_string (value : obj) : result unit :=
  match value with
  | OStr s => require (negb (blank s)) ValueError
  | _ => Err ValueError
  end.

Record ScopeTarget := mkScopeTarget {
  organization_id : UUID;
  source_ref : pystr;
  resource_ref : option pystr
}.

#[export] Instance ScopeTarget_eq_dec : EqDecision ScopeTarget.
Proof. solve_decision. Defined.
#[export] Instance ScopeTarget_countable : Countable ScopeTarget.
Proof.
  apply (inj_countable' (λ t, (organization_id t, source_ref t, resource_ref t))
           (λ p, mkScopeTarget p.1.1 p.1.2 p.2)).
  by intros [].
Defined.

(** [ScopeTarget.__post_init__] *)
Definition ScopeTarget_post_init (t : ScopeTarget) : result ScopeTarget :=
  _require_nonblank_exact_string (OStr (source_ref t)) ;;
  match resource_ref t with
  | None => Ok tt
  | Some r => _require_nonblank_exact_string (OStr r)
  end ;;
  Ok t.

(** [ScopeSet | MissingTrustedScope] *)
Inductive TrustedScopeOperand :=
  | ScopeSet (targets : gset ScopeTarget)
  | MISSING_TRUSTED_SCOPE.

Record TrustedScopeOperands := mkTrustedScopeOperands {
  organization_boundary : TrustedScopeOperand;
  membership_rights : TrustedScopeOperand;
  principal_grants : TrustedScopeOperand;
  agent_ceiling : TrustedScopeOperand;
  source_native_acl : TrustedScopeOperand;
  resource_acl : TrustedScopeOperand;
  purpose_policy : TrustedScopeOperand
}.

(** [tuple(getattr(trusted_operands, f.name) for f in fields(...))] *)
Definition operand_fields (o : TrustedScopeOperands) : list TrustedScopeOperand :=
  [organization_boundary o; membership_rights o; principal_grants o; agent_ceiling o;
   source_native_acl o; resource_acl o; purpose_policy o].

(** ** The caller's narrowing *)

Definition MAX_NARROWING_REFS : Z := 64.
Definition MAX_NARROWING_REF_LENGTH : Z := 256.

(** [_require_optional_ref_tuple] *)
Definition _require_optional_ref_tuple (value : option (list pystr)) : result unit :=
  match value with
  | None => Ok tt
  | Some refs =>
      require (negb (bool_decide (refs = []))) ValueError ;;
      require (len refs <=? MAX_NARROWING_REFS) ValueError ;;
      each (λ ref, require (negb (blank ref)) ValueError ;;
                   require (len ref <=? MAX_NARROWING_REF_LENGTH) ValueError) refs ;;
      require (nodupb refs) ValueError
  end.

Record RequestNarrowing := mkRequestNarrowing {
  source_refs : option (list pystr);
  resource_refs : option (list pystr)
}.

(** [RequestNarrowing.__post_init__] *)
Definition RequestNarrowing_post_init (n : RequestNarrowing) : result RequestNarrowing :=
  _require_optional_ref_tuple (source_refs n) ;;
  _require_optional_ref_tuple (resource_refs n) ;;
  require (negb (bool_decide (source_refs n = None) && bool_decide (resource_refs n = None)))
    ValueError ;;
  Ok n.

(** ** The digest *)

(** [_canonical_target_bytes]; the texts are encoded with [surrogatepass]. *)
Definition _canonical_target_bytes (t : ScopeTarget) : pybytes :=
  let resource_bytes :=
    match resource_ref t with
    | None => [0]
    | Some r => [1] ++ length_prefix (utf8 r)
    end in
  length_prefix (uuid_bytes (organization_id t)) ++ length_prefix (utf8 (source_ref t))
  ++ resource_bytes.

(** The bytes that [_effective_scope_digest] hashes. *)
Definition effective_scope_canonical (targets : gset ScopeTarget) : pybytes :=
  let encoded_targets := sorted (_canonical_target_bytes <$> elements targets) in
  lit "context-engine:effective-scope:v1" ++ be_bytes 8 (len encoded_targets)
  ++ frames encoded_targets.

Definition _effective_scope_digest (targets : gset ScopeTarget) : pystr :=
  hexdigest (effective_scope_canonical targets).

(** An [EffectiveScope] object: its two slots as they are read later. *)
Record EffectiveScope := mkEffectiveScope {
  es_targets : gset ScopeTarget;
  es_digest : pystr
}.

(** [EffectiveScope(targets)] with [__post_init__]. *)
Definition new_EffectiveScope (targets : gset ScopeTarget) : EffectiveScope :=
  mkEffectiveScope targets (_effective_scope_digest targets).

(** [_require_effective_scope_integrity] *)
Definition _require_effective_scope_integrity (scope : EffectiveScope) : result unit :=
  require (bool_decide (es_digest scope = _effective_scope_digest (es_targets scope)))
    ValueError.

(** [CandidateDiscoveryScope.__new__]; the view is the digest text itself. *)
Definition new_CandidateDiscoveryScope (digest : pystr) : result pystr :=
  require ((len digest =? 64) && all_in hex_alphabet digest) ValueError ;; Ok digest.

Definition candidate_discovery_scope (scope : EffectiveScope) : result pystr :=
  _require_effective_scope_integrity scope ;; new_CandidateDiscoveryScope (es_digest scope).

Definition _require_candidate_discovery_scope_integrity (scope : pystr) : result unit :=
  require ((len scope =? 64) && all_in hex_alphabet scope) ValueError.

(** ** The intersection *)

(** The scopes of a tuple of operands, unless one is missing. *)
Fixpoint present_scopes (operands : list TrustedScopeOperand) : option (list (gset ScopeTarget)) :=
  match operands with
  | [] => Some []
  | MISSING_TRUSTED_SCOPE :: _ => None
  | ScopeSet s :: operands' => (λ ss, s :: ss) <$> present_scopes operands'
  end.

(** [intersection = set(scopes[0].targets)] and its updates. *)
Definition intersect_scopes (scopes : list (gset ScopeTarget)) : gset ScopeTarget :=
  match scopes with
  | [] => ∅
  | s :: ss => foldl (∩) s ss
  end.

(** [target.source_ref in source_refs], where the filter is present. *)
Definition source_selected (n : RequestNarrowing) (t : ScopeTarget) : Prop :=
  match source_refs n with None => True | Some refs => source_ref t ∈ refs end.
Definition resource_selected (n : RequestNarrowing) (t : ScopeTarget) : Prop :=
  match resource_refs n with
  | None => True
  | Some refs => match resource_ref t with None => False | Some r => r ∈ refs end
  end.
#[export] Instance source_selected_dec n t : Decision (source_selected n t).
Proof. unfold source_selected. destruct (source_refs n); apply _. Defined.
#[export] Instance resource_selected_dec n t : Decision (resource_selected n t).
Proof.
  unfold resource_selected. destruct (resource_refs n), (resource_ref t); apply _.
Defined.

(** [compute_effective_scope]; [None] is [OMITTED_REQUEST_NARROWING]. *)
Definition compute_effective_scope (trusted_operands : TrustedScopeOperands)
    (request_narrowing : option RequestNarrowing) : EffectiveScope :=
  match present_scopes (operand_fields trusted_operands) with
  | None => new_EffectiveScope ∅
  | Some scopes =>
      let intersection := intersect_scopes scopes in
      new_EffectiveScope
        match request_narrowing with
        | None => intersection
        | Some n => filter (resource_selected n) (filter (source_selected n) intersection)
        end
  end.

(** ** Specification: one conjunction over the operands *)

Definition operand_allows (o : TrustedScopeOperand) (t : ScopeTarget) : Prop :=
  match o with ScopeSet s => t ∈ s | MISSING_TRUSTED_SCOPE => False end.

Definition narrowing_allows (n : option RequestNarrowing) (t : ScopeTarget) : Prop :=
  match n with None => True | Some n => source_selected n t ∧ resource_selected n t end.

Definition scope_spec (o : TrustedScopeOperands) (n : option RequestNarrowing)
    (t : ScopeTarget) : Prop :=
  Forall (λ x, operand_allows x t) (operand_fields o) ∧ narrowing_allows n t.

Lemma present_scopes_Some os ss t :
  present_scopes os = Some ss →
  Forall (λ x, operand_allows x t) os ↔ Forall (λ s, t ∈ s) ss.
Proof.
  revert ss. induction os as [|[s|] os IH]; intros ss; simpl; [| |done].
  - intros [= <-]. done.
  - intros (ss' & H & ->)%fmap_Some. rewrite !Forall_cons, (IH ss') by done. done.
Qed.

Lemma present_scopes_None os t :
  present_scopes os = None → ¬ Forall (λ x, operand_allows x t) os.
Proof.
  induction os as [|[s|] os IH]; simpl; [done| |].
  - intros H%fmap_None. rewrite Forall_cons. naive_solver.
  - rewrite Forall_cons. naive_solver.
Qed.

Lemma elem_of_intersect_scopes ss t :
  ss ≠ [] → t ∈ intersect_scopes ss ↔ Forall (λ s, t ∈ s) ss.
Proof.
  destruct ss as [|s ss]; [done|]. intros _. simpl. rewrite Forall_cons.
  revert s. induction ss as [|s' ss IH]; intros s; simpl; [naive_solver|].
  rewrite IH, Forall_cons. set_solver.
Qed.

Lemma effective_scope_spec o n t :
  t ∈ es_targets (compute_effective_scope o n) ↔ scope_spec o n t.
Proof.
  unfold compute_effective_scope, scope_spec.
  destruct (present_scopes (operand_fields o)) as [ss|] eqn:E.
  - rewrite (present_scopes_Some _ ss) by done.
    assert (Hne : ss ≠ []).
    { intros ->. unfold operand_fields in E. simpl in E. repeat case_match; simplify_eq/=;
        repeat (apply fmap_Some in E as (? & E & ?); simplify_eq). }
    destruct n as [n|]; simpl; rewrite ?elem_of_filter, elem_of_intersect_scopes by done;
      tauto.
  - simpl. split; [set_solver|]. intros [H _]. by apply present_scopes_None with (t := t) in E.
Qed.

(** ** The digest determines the set *)

(** Representation bounds of a target that exists in memory. *)
Definition target_ok (t : ScopeTarget) : Prop :=
  uuid_ok (organization_id t) ∧ Forall char_ok (source_ref t) ∧ sized (utf8 (source_ref t))
  ∧ (∀ r, resource_ref t = Some r → Forall char_ok r ∧ sized (utf8 r))
  ∧ sized (_canonical_target_bytes t).

Definition targets_ok (s : gset ScopeTarget) : Prop :=
  (∀ t, t ∈ s → target_ok t) ∧ sized (elements s).

Lemma uuid_bytes_sized u : sized (uuid_bytes u).
Proof.
  unfold sized, uuid_bytes, be_bytes, len, sys_maxsize. rewrite length_digits. lia.
Qed.

Lemma canonical_target_inj t t' :
  target_ok t → target_ok t' →
  _canonical_target_bytes t = _canonical_target_bytes t' → t = t'.
Proof.
  destruct t as [o s r], t' as [o' s' r'].
  intros (Ho & Hs & Hs2 & Hr & _) (Ho' & Hs' & Hs2' & Hr' & _) H.
  unfold _canonical_target_bytes in H. cbn [organization_id source_ref resource_ref] in *.
  apply length_prefix_inj in H as [Hu H]; [|apply uuid_bytes_sized..].
  apply uuid_bytes_inj in Hu as ->; [|done..].
  apply length_prefix_inj in H as [Hsrc H]; [|done..].
  apply utf8_inj in Hsrc as ->; [|done..]. f_equal.
  destruct r as [r|], r' as [r'|]; try done.
  destruct (Hr r eq_refl), (Hr' r' eq_refl). apply app_inv_head in H. f_equal.
  rewrite <- (app_nil_r (length_prefix (utf8 r))), <- (app_nil_r (length_prefix (utf8 r'))) in H.
  apply length_prefix_inj in H as [H _]; [|done..]. by apply utf8_inj in H.
Qed.

Lemma effective_scope_canonical_inj s s' :
  targets_ok s → targets_ok s' →
  effective_scope_canonical s = effective_scope_canonical s' → s = s'.
Proof.
  intros [Hs Hn] [Hs' Hn'] H. unfold effective_scope_canonical in H.
  apply app_inv_head in H. apply app_inj_1 in H as [_ H]; [|unfold be_bytes; by rewrite !length_digits].
  assert (Hz : ∀ x : gset ScopeTarget, (∀ t, t ∈ x → target_ok t) →
            Forall sized (sorted (_canonical_target_bytes <$> elements x))).
  { intros x Hx. apply Forall_forall. intros b Hb. unfold sorted in Hb.
    rewrite elem_of_sorted_by in Hb. apply list_elem_of_fmap in Hb as (t & -> & Ht%elem_of_elements).
    apply (Hx t Ht). }
  apply frames_inj in H; [|by apply Hz..].
  assert (Hp : _canonical_target_bytes <$> elements s ≡ₚ _canonical_target_bytes <$> elements s').
  { rewrite <- (sorted_by_perm (λ x, x) (_ <$> elements s)).
    rewrite <- (sorted_by_perm (λ x, x) (_ <$> elements s')). unfold sorted in H. by rewrite H. }
  assert (Hsub : ∀ x y : gset ScopeTarget, (∀ t, t ∈ x → target_ok t) → (∀ t, t ∈ y → target_ok t) →
            _canonical_target_bytes <$> elements x ≡ₚ _canonical_target_bytes <$> elements y →
            x ⊆ y).
  { intros x y Hx Hy Hxy t Ht.
    assert (Hin : _canonical_target_bytes t ∈ _canonical_target_bytes <$> elements y).
    { rewrite <- Hxy. apply list_elem_of_fmap_2. by apply elem_of_elements. }
    apply list_elem_of_fmap in Hin as (t' & He & Ht'%elem_of_elements).
    by rewrite (canonical_target_inj t t' (Hx t Ht) (Hy t' Ht') He). }
  apply (anti_symm (⊆)); by apply Hsub.
Qed.

(** ** Properties *)

(** C9: A target is in the effective scope if and only if every one of the seven
    trusted operands is present and contains it and the caller's narrowing
    selects it: a missing operand yields the empty scope and no narrowing adds a
    target. *)
Theorem effective_scope_exact o n t :
  t ∈ es_targets (compute_effective_scope o n) ↔
    Forall (λ x, ∃ s, x = ScopeSet s ∧ t ∈ s) (operand_fields o)
    ∧ (∀ r refs, n = Some r → source_refs r = Some refs → source_ref t ∈ refs)
    ∧ (∀ r refs, n = Some r → resource_refs r = Some refs →
         ∃ ref, resource_ref t = Some ref ∧ ref ∈ refs).
Proof.
  rewrite effective_scope_spec. unfold scope_spec.
  assert (Hand : ∀ A B C D, (A ↔ C) → (B ↔ D) → (A ∧ B ↔ C ∧ D)) by tauto. apply Hand.
  - apply Forall_iff. intros [s|]; simpl; naive_solver.
  - destruct n as [n|]; simpl; [|naive_solver].
    unfold source_selected, resource_selected. apply Hand; clear Hand.
    + destruct (source_refs n) eqn:E; naive_solver.
    + destruct (resource_refs n) eqn:E; [|naive_solver]. destruct (resource_ref t); naive_solver.
Qed.

(** The digest handed across the discovery seam stands for exactly one set of
    targets: if two scopes pass the integrity check and give the same discovery
    view, their targets are the same set, or two different canonical encodings
    collide under SHA-256.  The view of a computed scope always exists and
    passes its own check. *)
Theorem discovery_scope_binds_targets a b view :
  targets_ok (es_targets a) → targets_ok (es_targets b) →
  candidate_discovery_scope a = Ok view → candidate_discovery_scope b = Ok view →
  (es_targets a = es_targets b
   ∨ collision (effective_scope_canonical (es_targets a))
       (effective_scope_canonical (es_targets b)))
  ∧ (∀ o n, ∃ v, candidate_discovery_scope (compute_effective_scope o n) = Ok v
       ∧ _require_candidate_discovery_scope_integrity v = Ok tt).
Proof.
  intros Ha Hb Hva Hvb. split.
  - unfold candidate_discovery_scope, _require_effective_scope_integrity,
      new_CandidateDiscoveryScope, _effective_scope_digest in Hva, Hvb. run_ok.
    assert (He : hexdigest (effective_scope_canonical (es_targets a))
                 = hexdigest (effective_scope_canonical (es_targets b))) by congruence.
    apply hexdigest_eq in He as [He|]; [|by right].
    left. by apply effective_scope_canonical_inj.
  - intros o n. assert (Hc : ∃ s, compute_effective_scope o n = new_EffectiveScope s)
      by (unfold compute_effective_scope; case_match; eauto).
    destruct Hc as [s ->]. exists (_effective_scope_digest s).
    pose proof (hexdigest_shape (effective_scope_canonical s)) as Hshape.
    unfold is_sha256_hex in Hshape. fold (_effective_scope_digest s) in Hshape.
    unfold candidate_discovery_scope, _require_effective_scope_integrity,
      new_CandidateDiscoveryScope, _require_candidate_discovery_scope_integrity.
    simpl. rewrite bool_decide_eq_true_2 by done. simpl.
    rewrite Hshape. split; reflexivity.
Qed.

Definition demo_target (n : Z) : ScopeTarget := mkScopeTarget (mkUUID n) (lit "src") None.
Definition demo_scope : EffectiveScope :=
  let s := ScopeSet {[ demo_target 1; demo_target 2 ]} in
  compute_effective_scope (mkTrustedScopeOperands s s s s s s (ScopeSet {[ demo_target 2 ]})) None.

Lemma discovery_scope_binds_targets_witness :
  ∃ view, candidate_discovery_scope demo_scope = Ok view ∧ len view = 64.
Proof.
  assert (Ht : targets_ok (es_targets demo_scope)).
  { assert (He : es_targets demo_scope = {[ demo_target 2 ]})
      by (apply (bool_decide_unpack _); vm_compute; exact I).
    rewrite He. split.
    - intros t ->%elem_of_singleton. unfold target_ok. split_and!.
      + unfold uuid_ok. simpl. lia.
      + apply lit_char_ok.
      + unfold sized. vm_compute. discriminate.
      + discriminate.
      + unfold sized. vm_compute. discriminate.
    - rewrite elements_singleton. unfold sized, sys_maxsize, len. simpl. lia. }
  assert (Hv : candidate_discovery_scope demo_scope
               = Ok (_effective_scope_digest {[ demo_target 2 ]})) by (vm_compute; reflexivity).
  destruct (discovery_scope_binds_targets demo_scope demo_scope _ Ht Ht Hv Hv) as [_ H].
  exists (_effective_scope_digest {[ demo_target 2 ]}). split; [exact Hv|]. vm_compute. reflexivity.
Defined.
