(* ===== verification/Evidence.v ===== *)
(** * Authorized projections, Evidence and package content:
      [src/engine/runtime/evidence.py]

    A projection is content that the authorization kernel released; it carries
    the lifetime token of the kernel operation that built it.  Tokens are mutable
    objects, so they are cells of a store ([kernel_scopes], the [_active] flag of
    each token) and a projection holds the index of its token.  Every record is
    modelled with its fields as they are read at the time of a check, not as they
    were constructed, so the integrity checks also speak about mutated objects. *)

From S2P Require Import Prelude Codec Sha256 Datetime.

Definition MAX_OPAQUE_REF_LENGTH : Z := 256.
Definition MAX_POLICY_EPOCH : Z := 2 ^ 63 - 1.
Definition MAX_PROJECTED_FIELD_REFS : Z := 64.
Definition MAX_PROJECTED_FIELD_REF_LENGTH : Z := 64.
Definition MAX_OPAQUE_CAPABILITY_LENGTH : Z := 4096.

(** ** Field checks *)

Definition _require_opaque_ref (value : obj) : result pystr :=
  match value with
  | OStr s =>
      require (negb (bool_decide (s = [])) && (len s <=? MAX_OPAQUE_REF_LENGTH)
               && negb (existsb is_space s)) ValueError ;;
      Ok s
  | _ => Err ValueError
  end.

Definition _require_nonblank_body (value : obj) : result pystr :=
  match value with
  | OStr s => require (negb (blank s)) ValueError ;; Ok s
  | _ => Err ValueError
  end.

Definition _require_utc_as_of (value : datetime) : result datetime :=
  require (is_utc value) ValueError ;; Ok value.

Definition EVIDENCE_REF_PREFIX : pystr := lit "ev".
Definition EVIDENCE_REF_ENTROPY_LENGTH : Z := 64.

Definition _require_evidence_ref (value : obj) : result pystr :=
  match value with
  | OStr s =>
      let expected_length := len EVIDENCE_REF_PREFIX + 1 + EVIDENCE_REF_ENTROPY_LENGTH in
      require ((len s =? expected_length) && startswith (EVIDENCE_REF_PREFIX ++ lit "_") s)
        ValueError ;;
      require (all_in hex_alphabet (drop (length EVIDENCE_REF_PREFIX + 1) s)) ValueError ;;
      Ok s
  | _ => Err ValueError
  end.

Definition lower : pystr := lit "abcdefghijklmnopqrstuvwxyz".
Definition lower_digit_underscore : pystr := lit "abcdefghijklmnopqrstuvwxyz0123456789_".

Definition field_ref_ok (ref : pystr) : bool :=
  match ref with
  | [] => false
  | c :: _ =>
      (len ref <=? MAX_PROJECTED_FIELD_REF_LENGTH) && mem c lower
      && all_in lower_digit_underscore ref
  end.

(** [context_engine_contracts.validate_projected_field_refs] *)
Definition validate_projected_field_refs (refs : list pystr) : result (list pystr) :=
  require (negb (bool_decide (refs = []))) ValueError ;;
  require (len refs <=? MAX_PROJECTED_FIELD_REFS) ValueError ;;
  require (forallb field_ref_ok refs) ValueError ;;
  require (nodupb refs) ValueError ;;
  Ok refs.

(** ** Candidates and lineage *)

Record CandidateRef := mkCandidateRef {
  cr_organization_id : UUID;
  cr_source_ref : pystr;
  cr_resource_ref : pystr;
  cr_revision_ref : pystr;
  cr_fragment_ref : pystr
}.

#[export] Instance CandidateRef_eq_dec : EqDecision CandidateRef.
Proof. solve_decision. Defined.
#[export] Instance CandidateRef_countable : Countable CandidateRef.
Proof.
  apply (inj_countable'
    (λ c, (cr_organization_id c, cr_source_ref c, cr_resource_ref c, cr_revision_ref c,
           cr_fragment_ref c))
    (λ p, mkCandidateRef p.1.1.1.1 p.1.1.1.2 p.1.1.2 p.1.2 p.2)).
  by intros [].
Defined.

Definition candidate_texts (c : CandidateRef) : list pystr :=
  [cr_source_ref c; cr_resource_ref c; cr_revision_ref c; cr_fragment_ref c].

(** [CandidateRef.__post_init__] *)
Definition CandidateRef_post_init (c : CandidateRef) : result CandidateRef :=
  each (λ v, _require_opaque_ref (OStr v) ;; Ok tt) (candidate_texts c) ;; Ok c.

Record EvidenceLineage := mkEvidenceLineage {
  run_ref : pystr;
  principal_ref : pystr;
  purpose : pystr;
  as_of : datetime;
  decision_ref : pystr;
  policy_snapshot_ref : pystr;
  policy_epoch : Z;
  source_acl_decision_ref : pystr;
  source_acl_projection_ref : pystr;
  source_acl_as_of : datetime;
  source_acl_freshness_profile_ref : pystr
}.

#[export] Instance EvidenceLineage_eq_dec : EqDecision EvidenceLineage.
Proof. solve_decision. Defined.

Definition lineage_refs (l : EvidenceLineage) : list pystr :=
  [run_ref l; principal_ref l; purpose l; decision_ref l; policy_snapshot_ref l;
   source_acl_decision_ref l; source_acl_projection_ref l; source_acl_freshness_profile_ref l].

(** [EvidenceLineage.__post_init__] *)
Definition EvidenceLineage_post_init (l : EvidenceLineage) : result EvidenceLineage :=
  each (λ v, _require_opaque_ref (OStr v) ;; Ok tt) (lineage_refs l) ;;
  _require_utc_as_of (as_of l) ;;
  _require_utc_as_of (source_acl_as_of l) ;;
  require ((1 <=? policy_epoch l) && (policy_epoch l <=? MAX_POLICY_EPOCH)) ValueError ;;
  Ok l.

(** The texts that every digest hashes for a lineage, in order. *)
Definition lineage_texts (l : EvidenceLineage) : list pystr :=
  [run_ref l; principal_ref l; purpose l; isoformat_us (as_of l); decision_ref l;
   policy_snapshot_ref l; str_of_int (policy_epoch l); source_acl_decision_ref l;
   source_acl_projection_ref l; isoformat_us (source_acl_as_of l);
   source_acl_freshness_profile_ref l].

(** A run of [canonical += _encode_text(value)]. *)
Definition _encode_text (value : pystr) : pybytes := length_prefix (utf8 value).
Definition encode_texts (values : list pystr) : pybytes := frames (utf8 <$> values).

Definition _lineage_canonical_bytes (l : EvidenceLineage) : pybytes :=
  encode_texts (lineage_texts l).

(** ** Kernel lifetimes and projections *)

Abbreviation kernel_scopes := (list bool).

Definition _open_authorization_kernel_scope (K : kernel_scopes) : kernel_scopes * nat :=
  (K ++ [true], length K).

Definition _close_authorization_kernel_scope (K : kernel_scopes) (scope : nat) : kernel_scopes :=
  <[scope := false]> K.

Definition _require_active_authorization_kernel_scope (K : kernel_scopes) (scope : nat) :
    result unit :=
  match K !! scope with
  | Some true => Ok tt
  | _ => Err ValueError
  end.

Record AuthorizedProjection := mkAuthorizedProjection {
  candidate_ref : CandidateRef;
  projected_body : pystr;
  projected_field_refs : list pystr;
  lineage : EvidenceLineage;
  _kernel_scope : nat;
  _integrity_digest : pystr
}.

#[export] Instance AuthorizedProjection_eq_dec : EqDecision AuthorizedProjection.
Proof. solve_decision. Defined.

(** Everything both projection digests hash after their domain text. *)
Definition projection_canonical (c : CandidateRef) (body : pystr) (fields : list pystr)
    (l : EvidenceLineage) : pybytes :=
  length_prefix (uuid_bytes (cr_organization_id c))
  ++ encode_texts (candidate_texts c ++ [body] ++ lineage_texts l)
  ++ encode_texts fields.

Definition _projection_integrity_digest (c : CandidateRef) (body : pystr) (fields : list pystr)
    (l : EvidenceLineage) : pystr :=
  hexdigest (lit "context-engine:authorized-projection:v4" ++ projection_canonical c body fields l).

Definition _construct_authorized_projection (K : kernel_scopes) (kernel_scope : nat)
    (c : CandidateRef) (body : pystr) (field_refs : list pystr) (l : EvidenceLineage) :
    result AuthorizedProjection :=
  _require_active_authorization_kernel_scope K kernel_scope ;;
  body ← _require_nonblank_body (OStr body);
  field_refs ← validate_projected_field_refs field_refs;
  Ok (mkAuthorizedProjection c body field_refs l kernel_scope
        (_projection_integrity_digest c body field_refs l)).

Definition _require_active_authorized_projection (K : kernel_scopes)
    (p : AuthorizedProjection) : result unit :=
  _require_active_authorization_kernel_scope K (_kernel_scope p) ;;
  bf ← try_except
         (body ← _require_nonblank_body (OStr (projected_body p));
          field_refs ← validate_projected_field_refs (projected_field_refs p);
          Ok (body, field_refs))
         is_ValueError (Err ValueError);
  let expected_digest := _projection_integrity_digest (candidate_ref p) bf.1 bf.2 (lineage p) in
  require (bool_decide (_integrity_digest p = expected_digest)) ValueError.

(** The four components that name one revision of one Article. *)
Definition same_revision (c a : CandidateRef) : bool :=
  bool_decide (cr_organization_id c = cr_organization_id a)
  && bool_decide (cr_source_ref c = cr_source_ref a)
  && bool_decide (cr_resource_ref c = cr_resource_ref a)
  && bool_decide (cr_revision_ref c = cr_revision_ref a).

Definition _construct_inherited_authorized_projection (K : kernel_scopes)
    (anchor : AuthorizedProjection) (c : CandidateRef) (body : pystr) (field_refs : list pystr) :
    result AuthorizedProjection :=
  _require_active_authorized_projection K anchor ;;
  require (same_revision c (candidate_ref anchor)) ValueError ;;
  _construct_authorized_projection K (_kernel_scope anchor) c body field_refs (lineage anchor).

(** ** Evidence and blocks *)

(** [contracts.CitationOpenRef] and its check. *)
Definition _require_opaque_capability_value (value : pystr) : result unit :=
  require (negb (bool_decide (value = [])) && (len value <=? MAX_OPAQUE_CAPABILITY_LENGTH)
           && negb (existsb is_space value)) ValueError.

Record CitationOpenRef := mkCitationOpenRef { citation_value : pystr }.
#[export] Instance CitationOpenRef_eq_dec : EqDecision CitationOpenRef.
Proof. solve_decision. Defined.

Definition CitationOpenRef_post_init (c : CitationOpenRef) : result CitationOpenRef :=
  _require_opaque_capability_value (citation_value c) ;; Ok c.

Record Evidence := mkEvidence {
  ev_evidence_ref : pystr;
  ev_source_ref : pystr;
  ev_resource_ref : pystr;
  ev_revision_ref : pystr;
  ev_fragment_ref : pystr;
  ev_projected_field_refs : list pystr;
  ev_lineage : EvidenceLineage;
  ev_citation_open_ref : option CitationOpenRef;
  ev_integrity_digest : pystr
}.

#[export] Instance Evidence_eq_dec : EqDecision Evidence.
Proof. solve_decision. Defined.

(** The bytes of [_evidence_integrity_digest]. *)
Definition evidence_canonical (e : Evidence) : pybytes :=
  encode_texts [ev_evidence_ref e; ev_source_ref e; ev_resource_ref e; ev_revision_ref e;
                ev_fragment_ref e]
  ++ encode_texts (ev_projected_field_refs e)
  ++ _encode_text match ev_citation_open_ref e with Some r => citation_value r | None => [] end
  ++ _lineage_canonical_bytes (ev_lineage e).

Definition _evidence_integrity_digest (e : Evidence) : pystr :=
  hexdigest (lit "context-engine:evidence-integrity:v4" ++ evidence_canonical e).

(** [Evidence(...)] with [__post_init__], which seals the other fields. *)
Definition new_Evidence (evidence_ref source resource revision fragment : pystr)
    (fields : list pystr) (l : EvidenceLineage) (citation : option CitationOpenRef) :
    result Evidence :=
  _require_evidence_ref (OStr evidence_ref) ;;
  each (λ v, _require_opaque_ref (OStr v) ;; Ok tt) [source; resource; revision; fragment] ;;
  validate_projected_field_refs fields ;;
  EvidenceLineage_post_init l ;;
  let e d := mkEvidence evidence_ref source resource revision fragment fields l citation d in
  Ok (e (_evidence_integrity_digest (e []))).

Record PackageBlock := mkPackageBlock {
  bl_evidence_ref : pystr;
  bl_body : pystr;
  bl_integrity_digest : pystr
}.

#[export] Instance PackageBlock_eq_dec : EqDecision PackageBlock.
Proof. solve_decision. Defined.

Definition _block_integrity_digest (b : PackageBlock) : pystr :=
  hexdigest (lit "context-engine:package-block-integrity:v1"
             ++ _encode_text (bl_evidence_ref b) ++ _encode_text (bl_body b)).

Definition new_PackageBlock (evidence_ref body : pystr) : result PackageBlock :=
  _require_evidence_ref (OStr evidence_ref) ;;
  _require_nonblank_body (OStr body) ;;
  let b d := mkPackageBlock evidence_ref body d in
  Ok (b (_block_integrity_digest (b []))).

(** ** Package content *)

Definition _package_lineage_binding (l : EvidenceLineage) :=
  (run_ref l, principal_ref l, purpose l, as_of l, decision_ref l, policy_snapshot_ref l,
   policy_epoch l).

(** Every later element agrees with the first one. *)
Definition all_same {A B} `{!EqDecision B} (f : A → B) (l : list A) : bool :=
  match l with
  | [] => true
  | x :: l' => forallb (λ y, bool_decide (f y = f x)) l'
  end.

Definition fragment_identity (e : Evidence) :=
  (ev_source_ref e, ev_resource_ref e, ev_revision_ref e, ev_fragment_ref e).

Definition validate_package_content (blocks : list PackageBlock) (evidence : list Evidence) :
    result unit :=
  each (λ b,
    _require_evidence_ref (OStr (bl_evidence_ref b)) ;;
    _require_nonblank_body (OStr (bl_body b)) ;;
    require (bool_decide (bl_integrity_digest b = _block_integrity_digest b)) ValueError) blocks ;;
  each (λ e,
    EvidenceLineage_post_init (ev_lineage e) ;;
    require (bool_decide (ev_integrity_digest e = _evidence_integrity_digest e)) ValueError)
    evidence ;;
  let block_refs := bl_evidence_ref <$> blocks in
  let evidence_refs := ev_evidence_ref <$> evidence in
  require (nodupb block_refs) ValueError ;;
  require (nodupb evidence_refs) ValueError ;;
  require (nodupb (fragment_identity <$> evidence)) ValueError ;;
  require (forallb (λ r, bool_decide (r ∈ evidence_refs)) block_refs) ValueError ;;
  require (forallb (λ r, bool_decide (r ∈ block_refs)) evidence_refs) ValueError ;;
  require (all_same (λ e, _package_lineage_binding (ev_lineage e)) evidence) ValueError.

Record PackageContent := mkPackageContent {
  blocks : list PackageBlock;
  evidence : list Evidence
}.

Definition _construct_validated_package_content (bs : list PackageBlock) (es : list Evidence) :
    result PackageContent :=
  validate_package_content bs es ;; Ok (mkPackageContent bs es).

(** The locators are issued as a mapping from evidence refs. *)
Definition _attach_citation_open_refs (content : PackageContent)
    (references : gmap (list Z) CitationOpenRef) : result PackageContent :=
  let expected : gset (list Z) := list_to_set (ev_evidence_ref <$> evidence content) in
  require (bool_decide (dom references = expected)) ValueError ;;
  es ← map_result (λ e,
         match references !! ev_evidence_ref e with
         | None => Err KeyError
         | Some r => new_Evidence (ev_evidence_ref e) (ev_source_ref e) (ev_resource_ref e)
                       (ev_revision_ref e) (ev_fragment_ref e) (ev_projected_field_refs e)
                       (ev_lineage e) (Some r)
         end) (evidence content);
  _construct_validated_package_content (blocks content) es.

Definition _candidate_sort_key (c : CandidateRef) :=
  (uuid_bytes (cr_organization_id c), cr_source_ref c, cr_resource_ref c, cr_revision_ref c,
   cr_fragment_ref c).

Definition _evidence_ref_for_projection (p : AuthorizedProjection) : pystr :=
  EVIDENCE_REF_PREFIX ++ lit "_"
  ++ hexdigest (lit "context-engine:evidence-ref:v4"
       ++ projection_canonical (candidate_ref p) (projected_body p) (projected_field_refs p)
            (lineage p)).

(** One turn of the loop that designates and blocks a projection. *)
Definition package_item (p : AuthorizedProjection) : result (Evidence * PackageBlock) :=
  let c := candidate_ref p in
  let evidence_ref := _evidence_ref_for_projection p in
  e ← new_Evidence evidence_ref (cr_source_ref c) (cr_resource_ref c) (cr_revision_ref c)
        (cr_fragment_ref c) (projected_field_refs p) (lineage p) None;
  b ← new_PackageBlock evidence_ref (projected_body p);
  Ok (e, b).

Definition construct_package_content (K : kernel_scopes) (projections : list AuthorizedProjection) :
    result PackageContent :=
  each (_require_active_authorized_projection K) projections ;;
  require (all_same (λ p, cr_organization_id (candidate_ref p)) projections) ValueError ;;
  require (all_same (λ p, _package_lineage_binding (lineage p)) projections) ValueError ;;
  items ← map_result package_item projections;
  _construct_validated_package_content items.*2 items.*1.

(** ** Checks as predicates *)

Lemma try_reraise {A} (m : result A) e :
  (∀ e', m = Err e' → is_ValueError e' = true) →
  try_except m is_ValueError (Err e) = match m with Ok a => Ok a | Err _ => Err e end.
Proof. destruct m; simpl; [done|]. intros H. by rewrite (H _ eq_refl). Qed.

Definition opaque_ref_ok (s : pystr) : Prop := _require_opaque_ref (OStr s) = Ok s.

Lemma opaque_ref_check s u : (_require_opaque_ref (OStr s) ;; Ok tt) = Ok u ↔ opaque_ref_ok s.
Proof.
  destruct u. unfold opaque_ref_ok, _require_opaque_ref. rewrite !bind_Ok. split.
  - intros (v & (w & -> & Hv)%bind_Ok & _). injection Hv as <-. by exists w.
  - intros (w & Hw & _). exists s. rewrite Hw. by split.
Qed.

Lemma opaque_ref_length s : opaque_ref_ok s → len s ≤ MAX_OPAQUE_REF_LENGTH.
Proof. unfold opaque_ref_ok, _require_opaque_ref. intros H. run_ok. lia. Qed.

Lemma opaque_refs_each l u :
  each (λ v, _require_opaque_ref (OStr v) ;; Ok tt) l = Ok u ↔ Forall opaque_ref_ok l.
Proof. rewrite each_Ok. apply Forall_iff. intros s. apply opaque_ref_check. Qed.

Lemma candidate_post_init_Ok c c' :
  CandidateRef_post_init c = Ok c' ↔ c' = c ∧ Forall opaque_ref_ok (candidate_texts c).
Proof.
  unfold CandidateRef_post_init. rewrite bind_Ok. setoid_rewrite opaque_refs_each.
  naive_solver.
Qed.

Lemma lineage_post_init_Ok l l' :
  EvidenceLineage_post_init l = Ok l' ↔
    l' = l ∧ Forall opaque_ref_ok (lineage_refs l) ∧ is_utc (as_of l) = true
    ∧ is_utc (source_acl_as_of l) = true ∧ 1 ≤ policy_epoch l ≤ MAX_POLICY_EPOCH.
Proof.
  unfold EvidenceLineage_post_init, _require_utc_as_of. split.
  - intros H. apply bind_Ok in H as (? & H1%opaque_refs_each & H). run_ok.
    split_and!; try done; lia.
  - intros (-> & H1 & H2 & H3 & H4).
    rewrite (proj2 (opaque_refs_each (lineage_refs l) tt) H1). simpl. rewrite H2, H3. simpl.
    by rewrite (proj2 (andb_true_iff _ _)) by lia.
Qed.

Definition field_refs_ok (refs : list pystr) : Prop :=
  refs ≠ [] ∧ len refs ≤ MAX_PROJECTED_FIELD_REFS ∧ forallb field_ref_ok refs = true ∧ NoDup refs.

Lemma validate_projected_field_refs_Ok refs r :
  validate_projected_field_refs refs = Ok r ↔ r = refs ∧ field_refs_ok refs.
Proof.
  unfold validate_projected_field_refs, field_refs_ok, nodupb. split.
  - intros H. run_ok. split_and!; try done. lia.
  - intros (-> & H1 & H2 & H3 & H4). rewrite (bool_decide_eq_false_2 (refs = [])) by done. simpl.
    rewrite (proj2 (Z.leb_le _ _) H2), H3. simpl. by rewrite bool_decide_eq_true_2.
Qed.

Lemma validate_projected_field_refs_Err refs e :
  validate_projected_field_refs refs = Err e → e = ValueError.
Proof.
  unfold validate_projected_field_refs, require. repeat case_match; simpl; naive_solver.
Qed.

Lemma nonblank_body_Ok s r : _require_nonblank_body (OStr s) = Ok r ↔ r = s ∧ blank s = false.
Proof. unfold _require_nonblank_body. destruct (blank s); simpl; naive_solver. Qed.

(** The complete meaning of the check before every use of a projection. *)
Definition projection_active (K : kernel_scopes) (p : AuthorizedProjection) : Prop :=
  K !! _kernel_scope p = Some true ∧ blank (projected_body p) = false
  ∧ field_refs_ok (projected_field_refs p)
  ∧ _integrity_digest p
    = _projection_integrity_digest (candidate_ref p) (projected_body p) (projected_field_refs p)
        (lineage p).

Lemma require_active_Ok K p u :
  _require_active_authorized_projection K p = Ok u ↔ projection_active K p.
Proof.
  destruct u. unfold _require_active_authorized_projection, projection_active,
    _require_active_authorization_kernel_scope. rewrite try_reraise.
  2:{ intros e He. apply bind_Err in He as [He|(b & Hb & He)].
      - unfold _require_nonblank_body in He. destruct (blank _); simpl in He; by simplify_eq.
      - apply bind_Err in He as [->%validate_projected_field_refs_Err|(? & ? & ?)]; done. }
  split.
  - intros H. apply bind_Ok in H as ([] & H1 & H). apply bind_Ok in H as (bf & H2 & H).
    destruct (K !! _kernel_scope p) as [[]|]; [|done..]. split; [done|].
    destruct (_ ≫= _) as [bf'|] eqn:E; [|done]. injection H2 as ->.
    apply bind_Ok in E as (b & [-> Hb]%nonblank_body_Ok & E).
    apply bind_Ok in E as (f & [-> Hf]%validate_projected_field_refs_Ok & [= <-]).
    by apply require_Ok, bool_decide_eq_true in H.
  - intros (-> & Hb & Hf & Hd). cbn [mbind result_bind].
    rewrite (proj2 (nonblank_body_Ok _ _) (conj eq_refl Hb)). cbn [mbind result_bind].
    rewrite (proj2 (validate_projected_field_refs_Ok _ _) (conj eq_refl Hf)). simpl.
    by rewrite bool_decide_eq_true_2.
Qed.

Lemma require_active_Err K p e : _require_active_authorized_projection K p = Err e → e = ValueError.
Proof.
  unfold _require_active_authorized_projection, _require_active_authorization_kernel_scope.
  intros H. apply bind_Err in H as [H|(? & _ & H)]; [by repeat case_match; simplify_eq|].
  apply bind_Err in H as [H|(? & _ & H)].
  - unfold try_except in H. repeat case_match; simplify_eq; try done.
    match goal with E : _ ≫= _ = Err _ |- _ => rename E into HE end.
    apply bind_Err in HE as [He|(b & Hb & He)].
    + unfold _require_nonblank_body in He. destruct (blank _); simpl in He; by simplify_eq.
    + apply bind_Err in He as [->%validate_projected_field_refs_Err|(? & ? & ?)]; done.
  - unfold require in H. case_match; by simplify_eq.
Qed.

(** ** Canonical bytes identify their fields *)

Definition text_ok (s : pystr) : Prop := Forall char_ok s ∧ sized (utf8 s).

Lemma short_text_ok s n : Forall char_ok s → len s ≤ n → n ≤ 10 ^ 9 → text_ok s.
Proof.
  intros Hs Hl Hn. split; [done|]. pose proof (len_utf8 s). unfold sized, sys_maxsize. lia.
Qed.

Lemma encode_texts_app a b : encode_texts (a ++ b) = encode_texts a ++ encode_texts b.
Proof. unfold encode_texts. by rewrite fmap_app, frames_app. Qed.

Lemma encode_texts_inj a b :
  Forall text_ok a → Forall text_ok b → encode_texts a = encode_texts b → a = b.
Proof.
  intros Ha Hb H. unfold encode_texts in H. apply frames_inj in H.
  2-3: apply Forall_fmap; eapply Forall_impl; [eassumption|]; by intros s [].
  revert b Hb H. induction Ha as [|s a [Hs _] Ha IH]; intros [|t b] Hb H; try done.
  apply Forall_cons in Hb as [[Ht _] Hb]. rewrite !fmap_cons in H. injection H as H1 H2.
  f_equal; [by apply utf8_inj | by apply IH].
Qed.

Definition candidate_wf (c : CandidateRef) : Prop :=
  uuid_ok (cr_organization_id c) ∧ Forall (Forall char_ok) (candidate_texts c)
  ∧ CandidateRef_post_init c = Ok c.

Definition lineage_wf (l : EvidenceLineage) : Prop :=
  Forall (Forall char_ok) (lineage_refs l) ∧ datetime_ok (as_of l)
  ∧ datetime_ok (source_acl_as_of l) ∧ EvidenceLineage_post_init l = Ok l.

(** Fields of a projection as constructed objects hold them. *)
Definition projection_wf (p : AuthorizedProjection) : Prop :=
  candidate_wf (candidate_ref p) ∧ lineage_wf (lineage p) ∧ text_ok (projected_body p).

Lemma refs_text_ok l : Forall (Forall char_ok) l → Forall opaque_ref_ok l → Forall text_ok l.
Proof.
  intros H1 H2. induction H1 as [|s l Hs Hl IH]; [constructor|].
  apply Forall_cons in H2 as [Ho H2]. constructor; [|by apply IH].
  apply (short_text_ok _ MAX_OPAQUE_REF_LENGTH);
    [done|by apply opaque_ref_length|unfold MAX_OPAQUE_REF_LENGTH; lia].
Qed.

Lemma field_refs_text_ok refs : field_refs_ok refs → Forall text_ok refs.
Proof.
  intros (_ & _ & H & _). rewrite forallb_forall in H. apply Forall_forall. intros s Hs.
  specialize (H s (proj1 (list_elem_of_In _ _) Hs)). destruct s as [|c s]; [done|].
  unfold field_ref_ok in H. run_ok. eapply (short_text_ok _ MAX_PROJECTED_FIELD_REF_LENGTH);
    [|lia|unfold MAX_PROJECTED_FIELD_REF_LENGTH; lia].
  apply Forall_forall. intros x Hx. unfold all_in in *.
  assert (Hm : mem x lower_digit_underscore = true).
  { match goal with Hf : forallb _ _ = true |- _ => apply (proj1 (forallb_forall _ _) Hf x) end.
    by apply list_elem_of_In. }
  apply mem_spec in Hm. pose proof (lit_char_ok "abcdefghijklmnopqrstuvwxyz0123456789_") as Hok.
  rewrite Forall_forall in Hok. by apply Hok.
Qed.

Lemma lineage_texts_ok l : lineage_wf l → Forall text_ok (lineage_texts l).
Proof.
  intros (Hc & _ & _ & (_ & Ho & Hu & Hu2 & He)%lineage_post_init_Ok).
  pose proof (refs_text_ok _ Hc Ho) as H. unfold lineage_refs in H. rewrite !Forall_cons in H.
  assert (Ht : ∀ d, is_utc d = true → text_ok (isoformat_us d)).
  { intros d Hd. destruct (isoformat_us_text d Hd) as [H1 H2].
    eapply (short_text_ok _ 32); [done|lia|lia]. }
  assert (Hp : text_ok (str_of_int (policy_epoch l))).
  { eapply (short_text_ok _ 66); [apply lit_char_ok| |lia]. apply str_of_int_length.
    unfold MAX_POLICY_EPOCH in He. lia. }
  unfold lineage_texts. rewrite !Forall_cons. naive_solver.
Qed.

Lemma lineage_texts_inj l l' :
  lineage_wf l → lineage_wf l' → lineage_texts l = lineage_texts l' → l = l'.
Proof.
  intros (_ & Hd1 & Hd2 & (_ & _ & Hu & Hu2 & _)%lineage_post_init_Ok)
    (_ & Hd1' & Hd2' & (_ & _ & Hu' & Hu2' & _)%lineage_post_init_Ok) H.
  destruct l, l'. unfold lineage_texts in H. simpl in *. simplify_eq.
  repeat match goal with
  | E : isoformat_us _ = isoformat_us _ |- _ => apply isoformat_us_inj in E; [|done..]
  | E : str_of_int _ = str_of_int _ |- _ => apply str_of_int_inj in E
  end. by subst.
Qed.

Lemma candidate_texts_ok c : candidate_wf c → Forall text_ok (candidate_texts c).
Proof. intros (_ & Hc & (_ & Ho)%candidate_post_init_Ok). by apply refs_text_ok. Qed.

Lemma length_prefix_uuid_inj u v r r' :
  uuid_ok u → uuid_ok v →
  length_prefix (uuid_bytes u) ++ r = length_prefix (uuid_bytes v) ++ r' → u = v ∧ r = r'.
Proof.
  intros Hu Hv H.
  assert (Hs : ∀ w, sized (uuid_bytes w)).
  { intros w. unfold sized, uuid_bytes, be_bytes, len, sys_maxsize. rewrite length_digits. lia. }
  apply length_prefix_inj in H as [H Hr]; [|apply Hs..]. split; [|done]. by apply uuid_bytes_inj.
Qed.

(** The content of a projection, without its lifetime token and seal. *)
Definition projection_content (p : AuthorizedProjection) :=
  (candidate_ref p, projected_body p, projected_field_refs p, lineage p).

Definition projection_bytes (p : AuthorizedProjection) : pybytes :=
  projection_canonical (candidate_ref p) (projected_body p) (projected_field_refs p) (lineage p).

Lemma projection_bytes_inj p q :
  projection_wf p → projection_wf q →
  field_refs_ok (projected_field_refs p) → field_refs_ok (projected_field_refs q) →
  projection_bytes p = projection_bytes q → projection_content p = projection_content q.
Proof.
  intros (Hc & Hl & Hb) (Hc' & Hl' & Hb') Hf Hf' H.
  unfold projection_bytes, projection_canonical in H.
  apply length_prefix_uuid_inj in H as [Ho H]; [|apply Hc|apply Hc'].
  rewrite <- !encode_texts_app in H.
  apply encode_texts_inj in H.
  2-3: rewrite !Forall_app, Forall_singleton; split_and!;
       by auto using candidate_texts_ok, lineage_texts_ok, field_refs_text_ok.
  rewrite <- !app_assoc in H. apply app_inj_1 in H as [Hct H]; [|done].
  apply app_inj_1 in H as [Hbody H]; [|done]. apply app_inj_1 in H as [Hlt H]; [|done].
  apply lineage_texts_inj in Hlt; [|done..].
  unfold projection_content. destruct p as [c ????], q as [c' ????]. simpl in *.
  destruct c, c'. simpl in *. unfold candidate_texts in Hct. simpl in Hct. by simplify_eq.
Qed.

(** ** What a successful package holds *)

Definition evidence_of (p : AuthorizedProjection) (citation : option CitationOpenRef) : Evidence :=
  let c := candidate_ref p in
  let e d := mkEvidence (_evidence_ref_for_projection p) (cr_source_ref c) (cr_resource_ref c)
               (cr_revision_ref c) (cr_fragment_ref c) (projected_field_refs p) (lineage p)
               citation d in
  e (_evidence_integrity_digest (e [])).

Definition block_of (p : AuthorizedProjection) : PackageBlock :=
  let b d := mkPackageBlock (_evidence_ref_for_projection p) (projected_body p) d in
  b (_block_integrity_digest (b [])).

Lemma evidence_ref_shape p :
  _require_evidence_ref (OStr (_evidence_ref_for_projection p)) = Ok (_evidence_ref_for_projection p).
Proof.
  unfold _evidence_ref_for_projection. set (m := lit "context-engine:evidence-ref:v4" ++ _).
  pose proof (hexdigest_shape m) as H. unfold is_sha256_hex in H. run_ok.
  apply Z.eqb_eq in H. revert H H0. generalize (hexdigest m). intros h Hl Ha.
  unfold _require_evidence_ref.
  rewrite (proj2 (andb_true_iff _ _)); [|split; [rewrite !len_app, Hl|]; reflexivity].
  change (drop (length EVIDENCE_REF_PREFIX + 1) (EVIDENCE_REF_PREFIX ++ lit "_" ++ h)) with h.
  rewrite Ha. reflexivity.
Qed.

Lemma require_evidence_ref_same s r : _require_evidence_ref (OStr s) = Ok r → r = s.
Proof. unfold _require_evidence_ref. intros H. by run_ok. Qed.

Lemma new_Evidence_Ok r s re rv f fs l c e :
  new_Evidence r s re rv f fs l c = Ok e ↔
    _require_evidence_ref (OStr r) = Ok r ∧ Forall opaque_ref_ok [s; re; rv; f]
    ∧ field_refs_ok fs ∧ EvidenceLineage_post_init l = Ok l
    ∧ e = (let e d := mkEvidence r s re rv f fs l c d in e (_evidence_integrity_digest (e []))).
Proof.
  unfold new_Evidence. split.
  - intros H. apply bind_Ok in H as (r' & H1 & H). apply bind_Ok in H as (? & H2 & H).
    apply bind_Ok in H as (? & [-> H3]%validate_projected_field_refs_Ok & H).
    apply bind_Ok in H as (? & H4 & [= <-]). pose proof H4 as [-> _]%lineage_post_init_Ok.
    apply opaque_refs_each in H2. split_and!; try done.
    by rewrite (require_evidence_ref_same _ _ H1) in H1.
  - intros (-> & H2 & H3 & -> & ->).
    rewrite (proj2 (opaque_refs_each [s; re; rv; f] tt) H2). simpl.
    by rewrite (proj2 (validate_projected_field_refs_Ok _ _) (conj eq_refl H3)).
Qed.

Lemma all_same_spec {A B} `{!EqDecision B} (f : A → B) l :
  all_same f l = true ↔ ∀ x y, x ∈ l → y ∈ l → f x = f y.
Proof.
  destruct l as [|a l]; simpl; [set_solver|]. rewrite forallb_forall. split.
  - intros H x y Hx Hy.
    assert (Ha : ∀ z, z ∈ a :: l → f z = f a).
    { intros z [->|Hz]%elem_of_cons; [done|].
      eapply bool_decide_eq_true, H. by apply list_elem_of_In. }
    by rewrite (Ha x Hx), (Ha y Hy).
  - intros H x Hx. apply bool_decide_eq_true. apply H; [right; by apply list_elem_of_In|by left].
Qed.

Lemma all_same_fmap {A B C} `{!EqDecision C} (g : A → B) (f : B → C) l :
  all_same f (g <$> l) = all_same (λ x, f (g x)) l.
Proof.
  destruct l as [|a l]; [done|]. simpl. induction l as [|b l IH]; [done|]. simpl. by rewrite IH.
Qed.

(** A projection whose fields still satisfy their constructors. *)
Definition projection_valid (p : AuthorizedProjection) : Prop :=
  CandidateRef_post_init (candidate_ref p) = Ok (candidate_ref p)
  ∧ EvidenceLineage_post_init (lineage p) = Ok (lineage p).

Lemma package_item_Ok p eb :
  package_item p = Ok eb ↔
    projection_valid p ∧ field_refs_ok (projected_field_refs p)
    ∧ blank (projected_body p) = false ∧ eb = (evidence_of p None, block_of p).
Proof.
  unfold package_item, projection_valid. rewrite candidate_post_init_Ok. split.
  - intros H. apply bind_Ok in H as (e & (_ & H1 & H2 & H3 & ->)%new_Evidence_Ok & H).
    apply bind_Ok in H as (b & Hb & [= <-]). unfold new_PackageBlock in Hb.
    apply bind_Ok in Hb as (? & _ & Hb).
    apply bind_Ok in Hb as (? & [-> Hb']%nonblank_body_Ok & [= <-]). done.
  - intros (((_ & H1) & H3) & H2 & Hb & ->).
    rewrite (proj2 (new_Evidence_Ok _ _ _ _ _ _ _ _ (evidence_of p None))).
    2:{ split_and!; [apply evidence_ref_shape|done..]. }
    simpl. unfold new_PackageBlock. rewrite evidence_ref_shape. cbn [mbind result_bind].
    by rewrite (proj2 (nonblank_body_Ok _ _) (conj eq_refl Hb)).
Qed.

Definition candidate_fragment (p : AuthorizedProjection) :=
  let c := candidate_ref p in
  (cr_source_ref c, cr_resource_ref c, cr_revision_ref c, cr_fragment_ref c).

(** Blocks and Evidence built from the same projections always match each other. *)
Lemma validate_built ps (cite : AuthorizedProjection → option CitationOpenRef) :
  Forall (λ p, projection_valid p ∧ blank (projected_body p) = false) ps →
  validate_package_content (block_of <$> ps) ((λ p, evidence_of p (cite p)) <$> ps) = Ok tt ↔
    NoDup (_evidence_ref_for_projection <$> ps)
    ∧ NoDup (candidate_fragment <$> ps)
    ∧ all_same (λ p, _package_lineage_binding (lineage p)) ps = true.
Proof.
  intros Hps. unfold validate_package_content.
  rewrite (proj2 (each_Ok _ (block_of <$> ps) tt)).
  2:{ apply Forall_fmap. eapply Forall_impl; [exact Hps|]. intros p [_ Hb]. unfold compose.
      change (bl_evidence_ref (block_of p)) with (_evidence_ref_for_projection p).
      change (bl_body (block_of p)) with (projected_body p).
      rewrite evidence_ref_shape. cbn [mbind result_bind].
      rewrite (proj2 (nonblank_body_Ok _ _) (conj eq_refl Hb)). simpl.
      by rewrite bool_decide_eq_true_2. }
  rewrite (proj2 (each_Ok _ (_ <$> ps) tt)).
  2:{ apply Forall_fmap. eapply Forall_impl; [exact Hps|]. intros p [[_ Hl] _]. unfold compose.
      change (ev_lineage (evidence_of p (cite p))) with (lineage p).
      rewrite Hl. simpl. by rewrite bool_decide_eq_true_2. }
  cbn [mbind result_bind]. rewrite <- !list_fmap_compose.
  change (bl_evidence_ref ∘ block_of) with _evidence_ref_for_projection.
  change (ev_evidence_ref ∘ (λ p, evidence_of p (cite p))) with _evidence_ref_for_projection.
  assert (Hin : forallb (λ r, bool_decide (r ∈ _evidence_ref_for_projection <$> ps))
                  (_evidence_ref_for_projection <$> ps) = true).
  { apply forallb_forall. intros r Hr. apply bool_decide_eq_true. by apply list_elem_of_In. }
  rewrite Hin, all_same_fmap. unfold nodupb.
  change (fragment_identity ∘ (λ p, evidence_of p (cite p))) with candidate_fragment.
  change (all_same (λ x, _package_lineage_binding (ev_lineage (evidence_of x (cite x)))) ps)
    with (all_same (λ p, _package_lineage_binding (lineage p)) ps).
  split.
  - intros H. by run_ok.
  - intros (H1 & H2 & H3). rewrite !bool_decide_eq_true_2 by done. simpl. by rewrite H3.
Qed.

Lemma projections_valid_bodies K ps :
  Forall (projection_active K) ps → Forall projection_valid ps →
  Forall (λ p, projection_valid p ∧ blank (projected_body p) = false) ps.
Proof.
  rewrite !Forall_forall. intros Ha Hv p Hp. split; [by apply Hv|]. by destruct (Ha p Hp) as (_ & ? & _).
Qed.

Lemma package_items_Ok ps items :
  map_result package_item ps = Ok items ↔
    Forall (λ p, projection_valid p ∧ field_refs_ok (projected_field_refs p)
                 ∧ blank (projected_body p) = false) ps
    ∧ items = (λ p, (evidence_of p None, block_of p)) <$> ps.
Proof.
  rewrite map_result_Ok. split.
  - induction 1 as [|p eb ps items (H1 & H2 & H3 & ->)%package_item_Ok Hr IH]; [done|].
    destruct IH as [IH ->]. split; [by constructor|done].
  - intros [H ->]. induction H as [|p ps (H1 & H2 & H3) Hr IH]; simpl; constructor; [|done].
    by apply package_item_Ok.
Qed.

Lemma construct_package_content_Ok K ps content :
  construct_package_content K ps = Ok content ↔
    Forall (projection_active K) ps ∧ Forall projection_valid ps
    ∧ all_same (λ p, cr_organization_id (candidate_ref p)) ps = true
    ∧ all_same (λ p, _package_lineage_binding (lineage p)) ps = true
    ∧ NoDup (_evidence_ref_for_projection <$> ps) ∧ NoDup (candidate_fragment <$> ps)
    ∧ content = mkPackageContent (block_of <$> ps) ((λ p, evidence_of p None) <$> ps).
Proof.
  assert (Hact : ∀ u, each (_require_active_authorized_projection K) ps = Ok u
                      ↔ Forall (projection_active K) ps).
  { intros u. rewrite each_Ok. apply Forall_iff. intros p. apply require_active_Ok. }
  unfold construct_package_content, _construct_validated_package_content. split.
  - intros H. apply bind_Ok in H as (? & H1%Hact & H). apply bind_Ok in H as (? & H2%require_Ok & H).
    apply bind_Ok in H as (? & H3%require_Ok & H).
    apply bind_Ok in H as (items & [H4 ->]%package_items_Ok & H).
    apply bind_Ok in H as ([] & H5 & [= <-]). rewrite <- !list_fmap_compose in *.
    assert (Hv : Forall projection_valid ps) by (eapply Forall_impl; [exact H4|]; by intros p (? & _)).
    apply (validate_built ps (λ _, None)) in H5 as (H5 & H6 & H7);
      [done | by eapply projections_valid_bodies].
  - intros (H1 & H2 & H3 & H4 & H5 & H6 & ->). rewrite (proj2 (Hact tt) H1). simpl.
    rewrite H3, H4. simpl.
    pose proof (projections_valid_bodies K ps H1 H2) as Hv.
    rewrite (proj2 (package_items_Ok ps ((λ p, (evidence_of p None, block_of p)) <$> ps))).
    2:{ split; [|done]. rewrite Forall_forall in *. intros p Hp.
        destruct (Hv p Hp), (H1 p Hp) as (_ & _ & ? & _). done. }
    cbn [mbind result_bind]. rewrite <- !list_fmap_compose.
    change (snd ∘ (λ p, (evidence_of p None, block_of p))) with block_of.
    change (fst ∘ (λ p, (evidence_of p None, block_of p))) with (λ p, evidence_of p None).
    by rewrite (proj2 (validate_built ps (λ _, None) Hv)).
Qed.

Definition evidence_ref_bytes (p : AuthorizedProjection) : pybytes :=
  lit "context-engine:evidence-ref:v4" ++ projection_bytes p.

Lemma evidence_ref_binds p q :
  projection_wf p → projection_wf q →
  field_refs_ok (projected_field_refs p) → field_refs_ok (projected_field_refs q) →
  _evidence_ref_for_projection p = _evidence_ref_for_projection q →
  projection_content p = projection_content q
  ∨ collision (evidence_ref_bytes p) (evidence_ref_bytes q).
Proof.
  intros Hp Hq Hf Hf' H. unfold _evidence_ref_for_projection in H.
  apply app_inv_head, app_inv_head, hexdigest_eq in H as [H|H]; [|by right].
  left. apply app_inv_head in H. by apply projection_bytes_inj.
Qed.

(** Different candidates get different refs, unless two hashed strings collide. *)
Lemma evidence_refs_NoDup ps :
  Forall projection_wf ps → Forall (λ p, field_refs_ok (projected_field_refs p)) ps →
  NoDup (candidate_ref <$> ps) →
  NoDup (_evidence_ref_for_projection <$> ps)
  ∨ ∃ p q, p ∈ ps ∧ q ∈ ps ∧ collision (evidence_ref_bytes p) (evidence_ref_bytes q).
Proof.
  induction ps as [|p ps IH]; intros Hw Hf Hnd; [left; constructor|].
  apply Forall_cons in Hw as [Hpw Hw]. apply Forall_cons in Hf as [Hpf Hf].
  rewrite fmap_cons in Hnd. apply NoDup_cons in Hnd as [Hp Hnd].
  destruct (IH Hw Hf Hnd) as [Hn|(a & b & Ha & Hb & Hc)].
  2:{ right. exists a, b. split_and!; [by right..|done]. }
  destruct (decide (_evidence_ref_for_projection p ∈ _evidence_ref_for_projection <$> ps)) as [Hin|Hin].
  2:{ left. rewrite fmap_cons. by constructor. }
  apply list_elem_of_fmap in Hin as (q & Heq & Hq). rewrite Forall_forall in Hw, Hf.
  destruct (evidence_ref_binds p q Hpw (Hw q Hq) Hpf (Hf q Hq) Heq) as [Hc|Hc].
  - destruct Hp. apply list_elem_of_fmap. exists q. split; [|done].
    unfold projection_content in Hc. congruence.
  - right. exists p, q. split_and!; [by left|by right|done].
Qed.

Lemma candidate_fragment_NoDup ps :
  all_same (λ p, cr_organization_id (candidate_ref p)) ps = true →
  NoDup (candidate_ref <$> ps) → NoDup (candidate_fragment <$> ps).
Proof.
  rewrite all_same_spec. induction ps as [|p ps IH]; intros Ho Hnd; [constructor|].
  rewrite fmap_cons in *. apply NoDup_cons in Hnd as [Hp Hnd]. constructor.
  2:{ apply IH; [|done]. intros x y Hx Hy. apply Ho; by right. }
  intros (q & Heq & Hq)%list_elem_of_fmap. apply Hp, list_elem_of_fmap. exists q. split; [|done].
  pose proof (Ho p q ltac:(by left) ltac:(by right)) as Horg.
  unfold candidate_fragment in Heq. destruct (candidate_ref p), (candidate_ref q). simpl in *.
  by simplify_eq.
Qed.

Lemma wf_valid ps : Forall projection_wf ps → Forall projection_valid ps.
Proof. intros H. eapply Forall_impl; [exact H|]. intros p ((_ & _ & Hc) & (_ & _ & _ & Hl) & _). done. Qed.

(** ** A concrete instance *)

Definition demo_lineage : EvidenceLineage :=
  let t := mkDatetime (719162 * us_per_day) (Some 0) in
  mkEvidenceLineage (lit "run") (lit "principal") (lit "answer") t (lit "dec") (lit "snapshot") 7
    (lit "acl-decision") (lit "acl-projection") t (lit "profile").
Definition demo_candidate (fragment : string) : CandidateRef :=
  mkCandidateRef (mkUUID 5) (lit "source") (lit "article") (lit "revision") (lit fragment).
Definition demo_projection (fragment body : string) : AuthorizedProjection :=
  let c := demo_candidate fragment in
  mkAuthorizedProjection c (lit body) [lit "body"] demo_lineage 0
    (_projection_integrity_digest c (lit body) [lit "body"] demo_lineage).
Definition demo_projections : list AuthorizedProjection :=
  [demo_projection "f2" "second"; demo_projection "f1" "first"].

Lemma lit_chars_ok l : Forall (Forall char_ok) (lit <$> l).
Proof. apply Forall_fmap, Forall_true. intros s. apply lit_char_ok. Qed.

Lemma demo_projection_wf f b :
  opaque_ref_ok (lit f) → sized (utf8 (lit b)) → projection_wf (demo_projection f b).
Proof.
  intros Hf Hb. split; [split; [|split]|split; [split; [|split; [|split]]|]].
  - unfold uuid_ok. simpl. lia.
  - apply (lit_chars_ok ["source"; "article"; "revision"; f]%string).
  - apply candidate_post_init_Ok. split; [done|]. repeat constructor; done.
  - apply (lit_chars_ok ["run"; "principal"; "answer"; "dec"; "snapshot"; "acl-decision";
                         "acl-projection"; "profile"]%string).
  - unfold datetime_ok. simpl. unfold us_per_day, us_per_second, max_ordinal. lia.
  - unfold datetime_ok. simpl. unfold us_per_day, us_per_second, max_ordinal. lia.
  - vm_compute. reflexivity.
  - split; [apply lit_char_ok|done].
Qed.

Lemma demo_projections_wf : Forall projection_wf demo_projections.
Proof.
  apply Forall_cons; split; [|apply Forall_singleton];
    (apply demo_projection_wf; [reflexivity | unfold sized; vm_compute; discriminate]).
Qed.

Lemma demo_projections_active : Forall (projection_active [true]) demo_projections.
Proof.
  apply Forall_cons; split; [|apply Forall_singleton];
    (apply (require_active_Ok [true] _ tt); vm_compute; reflexivity).
Qed.

Definition demo_content : PackageContent :=
  mkPackageContent (block_of <$> demo_projections) ((λ p, evidence_of p None) <$> demo_projections).
Lemma demo_package : construct_package_content [true] demo_projections = Ok demo_content.
Proof. vm_compute. reflexivity. Qed.

(** ** Properties *)

(** C14: Package content built from live projections holds, in the supplied order,
    exactly one Evidence and one block per projection, linked by the projection's
    own ref and carrying its body, fields and lineage; all of it belongs to one
    Organization and one request decision, and no ref or Fragment repeats.
    Conversely distinct candidates of one Organization and one decision always
    yield a package, unless two of the hashed ref strings collide. *)
Theorem package_content_exact K ps :
  Forall projection_wf ps → Forall (projection_active K) ps →
  (∀ content, construct_package_content K ps = Ok content →
     content = mkPackageContent (block_of <$> ps) ((λ p, evidence_of p None) <$> ps)
     ∧ (∀ p q, p ∈ ps → q ∈ ps →
          cr_organization_id (candidate_ref p) = cr_organization_id (candidate_ref q)
          ∧ _package_lineage_binding (lineage p) = _package_lineage_binding (lineage q))
     ∧ NoDup (ev_evidence_ref <$> evidence content)
     ∧ NoDup (fragment_identity <$> evidence content)
     ∧ bl_evidence_ref <$> blocks content = ev_evidence_ref <$> evidence content)
  ∧ ((∀ p q, p ∈ ps → q ∈ ps →
        cr_organization_id (candidate_ref p) = cr_organization_id (candidate_ref q)
        ∧ _package_lineage_binding (lineage p) = _package_lineage_binding (lineage q)) →
     NoDup (candidate_ref <$> ps) →
     (∃ content, construct_package_content K ps = Ok content)
     ∨ ∃ p q, p ∈ ps ∧ q ∈ ps ∧ collision (evidence_ref_bytes p) (evidence_ref_bytes q)).
Proof.
  intros Hw Ha. split.
  - intros content (_ & _ & H1 & H2 & H3 & H4 & ->)%construct_package_content_Ok. simpl.
    rewrite all_same_spec in H1. rewrite all_same_spec in H2. rewrite <- !list_fmap_compose. naive_solver.
  - intros Hsame Hnd.
    assert (Ho : all_same (λ p, cr_organization_id (candidate_ref p)) ps = true)
      by (apply all_same_spec; naive_solver).
    assert (Hb : all_same (λ p, _package_lineage_binding (lineage p)) ps = true)
      by (apply all_same_spec; naive_solver).
    assert (Hf : Forall (λ p, field_refs_ok (projected_field_refs p)) ps)
      by (eapply Forall_impl; [exact Ha|]; by intros p (_ & _ & ? & _)).
    destruct (evidence_refs_NoDup ps Hw Hf Hnd) as [Hr|Hc]; [left|by right].
    eexists. apply construct_package_content_Ok.
    auto 8 using wf_valid, candidate_fragment_NoDup.
Qed.

Lemma package_content_exact_witness :
  (∃ content, construct_package_content [true] demo_projections = Ok content
     ∧ bl_body <$> blocks content = [lit "second"; lit "first"])
  ∧ NoDup (_evidence_ref_for_projection <$> demo_projections).
Proof.
  destruct (package_content_exact [true] demo_projections demo_projections_wf
    demo_projections_active) as [H _].
  pose proof demo_package as Hc.
  split; [exists demo_content; split; [exact Hc | reflexivity]|].
  destruct (H _ Hc) as (_ & _ & Hnd & _). exact Hnd.
Defined.

(** The seal of a projection binds everything it shows: two projections that
    both pass the check before use and carry the same integrity digest, or get
    the same Evidence ref, have the same candidate, body, field refs and lineage,
    or the hashed strings collide. *)
Theorem projection_seal_binds K p q :
  projection_wf p → projection_wf q →
  _require_active_authorized_projection K p = Ok tt →
  _require_active_authorized_projection K q = Ok tt →
  (_integrity_digest p = _integrity_digest q →
     projection_content p = projection_content q
     ∨ collision (lit "context-engine:authorized-projection:v4" ++ projection_bytes p)
         (lit "context-engine:authorized-projection:v4" ++ projection_bytes q))
  ∧ (_evidence_ref_for_projection p = _evidence_ref_for_projection q →
     projection_content p = projection_content q
     ∨ collision (evidence_ref_bytes p) (evidence_ref_bytes q)).
Proof.
  intros Hp Hq (_ & _ & Hf & Hd)%require_active_Ok (_ & _ & Hf' & Hd')%require_active_Ok.
  split; [|by apply evidence_ref_binds].
  rewrite Hd, Hd'. unfold _projection_integrity_digest. intros [H|H]%hexdigest_eq; [|by right].
  left. apply app_inv_head in H. by apply projection_bytes_inj.
Qed.

Lemma projection_seal_binds_witness :
  projection_content (demo_projection "f1" "first") = projection_content (demo_projection "f1" "first")
  ∨ collision (evidence_ref_bytes (demo_projection "f1" "first"))
      (evidence_ref_bytes (demo_projection "f1" "first")).
Proof.
  assert (Hw : projection_wf (demo_projection "f1" "first"))
    by (apply demo_projection_wf; [reflexivity | unfold sized; vm_compute; discriminate]).
  apply (projection_seal_binds [true] (demo_projection "f1" "first") (demo_projection "f1" "first")
    Hw Hw); vm_compute; reflexivity.
Defined.

(** ** Lifetimes over any sequence of kernel operations *)

Inductive scope_op := OpenScope | CloseScope (scope : nat).

Definition run_scope_op (K : kernel_scopes) (o : scope_op) : kernel_scopes :=
  match o with
  | OpenScope => (_open_authorization_kernel_scope K).1
  | CloseScope s => _close_authorization_kernel_scope K s
  end.

Lemma closed_stays_closed ops K k :
  K !! k = Some false → foldl run_scope_op K ops !! k = Some false.
Proof.
  revert K. induction ops as [|o ops IH]; intros K Hk; [done|]. simpl. apply IH.
  destruct o as [|s]; simpl.
  - by apply lookup_app_l_Some.
  - unfold _close_authorization_kernel_scope. destruct (decide (s = k)) as [->|Hne].
    + apply list_lookup_insert_eq. by eapply lookup_lt_Some.
    + by rewrite list_lookup_insert_ne.
Qed.

Lemma each_first_Err {A} (f : A → result unit) l x e :
  (∀ y e', y ∈ l → f y = Err e' → e' = e) → x ∈ l → f x = Err e → each f l = Err e.
Proof.
  induction l as [|y l IH]; intros He Hx Hf; [by apply not_elem_of_nil in Hx|]. simpl.
  destruct (f y) as [[]|e'] eqn:E; simpl; [|f_equal; by eapply He; [left|]].
  apply IH; [|apply elem_of_cons in Hx as [->|Hx]; [congruence|done]|done]. intros z ez Hz. apply He. by right.
Qed.

(** Closing the lifetime of a kernel operation revokes every projection it built,
    for good: after any further openings and closings, the check before use, the
    construction of another projection under it, the inheritance of its decision
    and every package containing one of its projections raise ValueError. *)
Theorem closed_scope_revokes K k ops p :
  (k < length K)%nat → _kernel_scope p = k →
  let K' := foldl run_scope_op (_close_authorization_kernel_scope K k) ops in
  _require_active_authorized_projection K' p = Err ValueError
  ∧ (∀ c body fields l, _construct_authorized_projection K' k c body fields l = Err ValueError)
  ∧ (∀ c body fields, _construct_inherited_authorized_projection K' p c body fields = Err ValueError)
  ∧ (∀ ps, p ∈ ps → construct_package_content K' ps = Err ValueError).
Proof.
  intros Hk Hp K'.
  assert (HK : K' !! k = Some false).
  { apply closed_stays_closed. unfold _close_authorization_kernel_scope.
    by apply list_lookup_insert_eq. }
  assert (Hreq : _require_active_authorized_projection K' p = Err ValueError).
  { unfold _require_active_authorized_projection, _require_active_authorization_kernel_scope.
    by rewrite Hp, HK. }
  split_and!; [done| | |].
  - intros. unfold _construct_authorized_projection, _require_active_authorization_kernel_scope.
    by rewrite HK.
  - intros. unfold _construct_inherited_authorized_projection. by rewrite Hreq.
  - intros ps Hin. unfold construct_package_content.
    by rewrite (each_first_Err _ ps p ValueError (λ y e' _, require_active_Err K' y e') Hin Hreq).
Qed.

Lemma closed_scope_revokes_witness :
  construct_package_content (_close_authorization_kernel_scope [true] 0) demo_projections
  = Err ValueError.
Proof.
  assert (Hk : (0 < length [true])%nat) by (simpl; lia).
  destruct (closed_scope_revokes [true] 0 [] (demo_projection "f1" "first") Hk eq_refl)
    as (_ & _ & _ & H).
  apply (H demo_projections). right. left.
Defined.

(** Binding citation locators to a built package succeeds exactly when they
    cover its Evidence refs and nothing else; it changes no block and no Evidence
    field except the locator and the seal over it. *)
Theorem attach_citations_exact K ps content references :
  construct_package_content K ps = Ok content →
  _attach_citation_open_refs content references =
    if bool_decide (dom references =@{gset (list Z)} list_to_set (ev_evidence_ref <$> evidence content))
    then Ok (mkPackageContent (blocks content)
               ((λ p, evidence_of p (references !! _evidence_ref_for_projection p)) <$> ps))
    else Err ValueError.
Proof.
  intros (Ha & Hv & _ & H2 & H3 & H4 & ->)%construct_package_content_Ok.
  unfold _attach_citation_open_refs. cbn [evidence blocks].
  case_bool_decide as Hdom; [|done]. cbn [require mbind result_bind].
  set (cite p := references !! _evidence_ref_for_projection p).
  match goal with |- context [map_result ?f _] =>
    assert (Hmap : map_result f ((λ p, evidence_of p None) <$> ps)
                   = Ok ((λ p, evidence_of p (cite p)) <$> ps)) end.
  { apply map_result_Ok. apply Forall2_fmap_2, Forall_Forall2_diag.
    rewrite !Forall_forall in *. intros p Hp. simpl.
    change (ev_evidence_ref (evidence_of p None)) with (_evidence_ref_for_projection p).
    assert (Hin : _evidence_ref_for_projection p ∈ dom references).
    { rewrite Hdom. apply elem_of_list_to_set. rewrite <- list_fmap_compose.
      by apply list_elem_of_fmap_2. }
    apply elem_of_dom in Hin as [r Hr]. unfold cite. rewrite Hr.
    apply new_Evidence_Ok. destruct (Hv p Hp) as [[_ Hc]%candidate_post_init_Ok Hl].
    destruct (Ha p Hp) as (_ & _ & Hf & _). split_and!; [apply evidence_ref_shape|done..]. }
  rewrite Hmap. cbn [mbind result_bind]. unfold _construct_validated_package_content.
  by rewrite (proj2 (validate_built ps cite (projections_valid_bodies K ps Ha Hv))).
Qed.

Lemma attach_citations_exact_witness :
  ∃ content, construct_package_content [true] demo_projections = Ok content
    ∧ _attach_citation_open_refs content ∅ = Err ValueError.
Proof.
  exists demo_content.
  pose proof demo_package as Hc.
  split; [exact Hc|]. rewrite (attach_citations_exact [true] demo_projections _ ∅ Hc).
  rewrite bool_decide_eq_false_2; [reflexivity|]. rewrite dom_empty_L. intros He.
  apply (not_elem_of_empty (C := gset (list Z))
           (_evidence_ref_for_projection (demo_projection "f2" "second"))).
  rewrite He. apply elem_of_list_to_set. left.
Defined.
