(* ===== verification/Ranking.v ===== *)
(** * Candidate ranking before authorization:
      [src/engine/runtime/candidate_ranking.py], [prekernel_fusion.py]

    The ranked lists an untrusted candidate index submits, the bound on one
    submission, and the fusion that deduplicates the candidates and carries, per
    candidate, the position each ranker gave it.  Dictionaries keep insertion
    order as association lists. *)

From S2P Require Import Prelude Codec Float64 Evidence.

Definition MAX_CANDIDATE_SUBMISSION_CEILING : Z := 512.
Definition MAX_SUBMITTED_RANKED_LISTS : Z := 8.

(** ** Numbers of type [int] or [float] *)

Inductive number := NInt (z : Z) | NFloat (f : float).
#[export] Instance number_eq_dec : EqDecision number.
Proof. solve_decision. Defined.

(** [float(n)]; an integer beyond the format raises. *)
Definition to_float (n : number) : result float :=
  match n with
  | NFloat f => Ok f
  | NInt z => let f := float_of_int z in if isfinite f then Ok f else Err OverflowError
  end.

(** [math.isfinite(n)] *)
Definition number_isfinite (n : number) : result bool := f ← to_float n; Ok (isfinite f).

(** ** Submissions *)

Definition require_candidate_submission_limit (limit : obj) : result Z :=
  match limit with
  | OInt n => require ((1 <=? n) && (n <=? MAX_CANDIDATE_SUBMISSION_CEILING)) ValueError ;; Ok n
  | _ => Err ValueError
  end.

Definition ranker_ref_alphabet : pystr := lit "abcdefghijklmnopqrstuvwxyz0123456789_-".

Definition _require_ranker_ref (value : pystr) : result pystr :=
  match value with
  | [] => Err ValueError
  | c :: _ =>
      require ((len value <=? 64) && mem c lower && all_in ranker_ref_alphabet value) ValueError ;;
      Ok value
  end.

Definition _require_optional_score (value : option number) : result unit :=
  match value with
  | None => Ok tt
  | Some n => f ← number_isfinite n; require f ValueError
  end.

Record RankedCandidate := mkRankedCandidate {
  rc_candidate_ref : CandidateRef;
  rc_score : option number
}.

Definition RankedCandidate_post_init (c : RankedCandidate) : result unit :=
  _require_optional_score (rc_score c).

Record RankedCandidateList := mkRankedCandidateList {
  rl_ranker_ref : pystr;
  rl_candidates : list RankedCandidate
}.

Definition RankedCandidateList_post_init (l : RankedCandidateList) : result unit :=
  _require_ranker_ref (rl_ranker_ref l) ;; Ok tt.

(** [CandidateQuery]: its ranked lists. *)
Record CandidateQuery := mkCandidateQuery { ranked_lists : list RankedCandidateList }.

Definition CandidateQuery_post_init (q : CandidateQuery) : result unit :=
  require (negb (bool_decide (rl_ranker_ref <$> ranked_lists q = []))) ValueError ;;
  require (nodupb (rl_ranker_ref <$> ranked_lists q)) ValueError.

Definition sum_Z (l : list Z) : Z := foldr Z.add 0 l.

Definition require_bounded_candidate_submission (query : CandidateQuery) (submission_limit : obj) :
    result CandidateQuery :=
  limit ← require_candidate_submission_limit submission_limit;
  CandidateQuery_post_init query ;;
  each (λ l, RankedCandidateList_post_init l ;; each RankedCandidate_post_init (rl_candidates l))
    (ranked_lists query) ;;
  require (len (ranked_lists query) <=? MAX_SUBMITTED_RANKED_LISTS) ValueError ;;
  let submitted := sum_Z ((λ l, len (rl_candidates l)) <$> ranked_lists query) in
  require (submitted <=? limit) ValueError ;;
  Ok query.

(** ** Rank evidence *)

Record RankerEvidence := mkRankerEvidence {
  re_ranker_ref : pystr;
  re_position : Z;
  re_score : option number
}.

(** [RankerEvidence(...)] with [__post_init__]. *)
Definition new_RankerEvidence (r : pystr) (position : Z) (score : option number) :
    result RankerEvidence :=
  _require_ranker_ref r ;;
  require (1 <=? position) ValueError ;;
  _require_optional_score score ;;
  Ok (mkRankerEvidence r position score).

Record CandidateRankEvidence := mkCandidateRankEvidence {
  rk_candidate_ref : CandidateRef;
  rk_per_ranker : list RankerEvidence;
  rk_fused_rank : Z
}.

Definition new_CandidateRankEvidence (c : CandidateRef) (per_ranker : list RankerEvidence)
    (fused_rank : Z) : result CandidateRankEvidence :=
  require (negb (bool_decide (re_ranker_ref <$> per_ranker = []))) ValueError ;;
  require (nodupb (re_ranker_ref <$> per_ranker)) ValueError ;;
  require (1 <=? fused_rank) ValueError ;;
  Ok (mkCandidateRankEvidence c per_ranker fused_rank).

Record FusedCandidates := mkFusedCandidates {
  candidate_refs : list CandidateRef;
  rank_evidence : list CandidateRankEvidence
}.

Definition new_FusedCandidates (refs : list CandidateRef) (es : list CandidateRankEvidence) :
    result FusedCandidates :=
  require (bool_decide (rk_candidate_ref <$> es = refs)) ValueError ;;
  Ok (mkFusedCandidates refs es).

(** ** Fusion *)

(** [enumerate(xs, start)] *)
Fixpoint enumerate {A} (start : Z) (l : list A) : list (Z * A) :=
  match l with [] => [] | x :: l' => (start, x) :: enumerate (start + 1) l' end.

(** [d.setdefault(k, []).append(v)] and [defaultdict(list)[k].append(v)] *)
Definition dict_append {K V} `{!EqDecision K} (d : list (K * list V)) (k : K) (v : V) :
    list (K * list V) :=
  dict_set d k (default [] (dict_get d k) ++ [v]).

Record fusion_state := mkFusion {
  reciprocal_scores : list (CandidateRef * float);
  evidence_by_ref : list (CandidateRef * list RankerEvidence)
}.

(** The inner loop over one ranker's enumerated candidates. *)
Fixpoint fuse_list (ranker_ref : pystr) (seen_by_ranker : list CandidateRef)
    (items : list (Z * RankedCandidate)) (st : fusion_state) : result fusion_state :=
  match items with
  | [] => Ok st
  | (position, ranked) :: items' =>
      RankedCandidate_post_init ranked ;;
      let c := rc_candidate_ref ranked in
      if decide (c ∈ seen_by_ranker) then fuse_list ranker_ref seen_by_ranker items' st
      else
        let scores :=
          dict_set (reciprocal_scores st) c
            (fadd (default fzero (dict_get (reciprocal_scores st) c))
               (fdiv fone (float_of_int position))) in
        e ← new_RankerEvidence ranker_ref position (rc_score ranked);
        fuse_list ranker_ref (c :: seen_by_ranker) items'
          (mkFusion scores (dict_append (evidence_by_ref st) c e))
  end.

Fixpoint fuse_lists (ls : list RankedCandidateList) (st : fusion_state) : result fusion_state :=
  match ls with
  | [] => Ok st
  | l :: ls' =>
      RankedCandidateList_post_init l ;;
      st ← fuse_list (rl_ranker_ref l) [] (enumerate 1 (rl_candidates l)) st;
      fuse_lists ls' st
  end.

(** [key=lambda c: (-scores[c], _candidate_sort_key(c))] *)
Definition score_key (scores : list (CandidateRef * float)) (c : CandidateRef) :=
  (fopp (default fzero (dict_get scores c)), _candidate_sort_key c).

Definition fuse_candidate_evidence (query : CandidateQuery) : result FusedCandidates :=
  CandidateQuery_post_init query ;;
  st ← fuse_lists (ranked_lists query) (mkFusion [] []);
  let ordered := sorted_by (score_key (reciprocal_scores st)) (reciprocal_scores st).*1 in
  es ← map_result (λ '(fused_rank, c),
         new_CandidateRankEvidence c (default [] (dict_get (evidence_by_ref st) c)) fused_rank)
         (enumerate 1 ordered);
  new_FusedCandidates ordered es.

(** ** Specification of the carried evidence *)

(** Where one ranker first placed a candidate. *)
Fixpoint first_occurrence (c : CandidateRef) (items : list (Z * RankedCandidate)) :
    option (Z * option number) :=
  match items with
  | [] => None
  | (position, ranked) :: items' =>
      if decide (rc_candidate_ref ranked = c) then Some (position, rc_score ranked)
      else first_occurrence c items'
  end.

Definition occurrence_evidence (r : pystr) (o : option (Z * option number)) : list RankerEvidence :=
  match o with None => [] | Some (p, s) => [mkRankerEvidence r p s] end.

(** One entry per ranker that placed the candidate, in the order of the lists. *)
Definition evidence_spec (ls : list RankedCandidateList) (c : CandidateRef) : list RankerEvidence :=
  ls ≫= λ l, occurrence_evidence (rl_ranker_ref l)
               (first_occurrence c (enumerate 1 (rl_candidates l))).

Definition ranked_list_ok (l : RankedCandidateList) : Prop :=
  RankedCandidateList_post_init l = Ok tt
  ∧ Forall (λ c, RankedCandidate_post_init c = Ok tt) (rl_candidates l).

(** A query every object of which passed its constructor. *)
Definition query_ok (q : CandidateQuery) : Prop :=
  CandidateQuery_post_init q = Ok tt ∧ Forall ranked_list_ok (ranked_lists q).

Definition submitted_refs (q : CandidateQuery) : list CandidateRef :=
  ranked_lists q ≫= λ l, rc_candidate_ref <$> rl_candidates l.

Lemma dict_set_NoDup {K V} `{!EqDecision K} (d : list (K * V)) k v :
  NoDup d.*1 → NoDup (dict_set d k v).*1.
Proof.
  intros H. rewrite dict_keys_set. case_decide; [done|]. apply NoDup_app. split_and!; [done| |].
  - intros x Hx ->%list_elem_of_singleton. done.
  - apply NoDup_singleton.
Qed.

Lemma elem_of_dict_keys_set {K V} `{!EqDecision K} (d : list (K * V)) k v x :
  x ∈ (dict_set d k v).*1 ↔ x = k ∨ x ∈ d.*1.
Proof. rewrite dict_keys_set. case_decide; set_solver. Qed.

Lemma dict_get_append {K V} `{!EqDecision K} (d : list (K * list V)) k v x :
  default [] (dict_get (dict_append d k v) x)
  = default [] (dict_get d x) ++ (if decide (x = k) then [v] else []).
Proof.
  unfold dict_append. rewrite dict_get_set. case_decide; subst; simpl; [done|]. by rewrite app_nil_r.
Qed.

Definition fusion_wf (st : fusion_state) : Prop :=
  NoDup (evidence_by_ref st).*1 ∧ (reciprocal_scores st).*1 = (evidence_by_ref st).*1.

Definition evidence_at (st : fusion_state) (c : CandidateRef) : list RankerEvidence :=
  default [] (dict_get (evidence_by_ref st) c).

Lemma new_RankerEvidence_Ok r p s :
  _require_ranker_ref r = Ok r → 1 ≤ p → _require_optional_score s = Ok tt →
  new_RankerEvidence r p s = Ok (mkRankerEvidence r p s).
Proof.
  intros Hr Hp Hs. unfold new_RankerEvidence. rewrite Hr. simpl.
  rewrite (proj2 (Z.leb_le 1 p)) by lia. simpl. by rewrite Hs.
Qed.

(** The inner loop, from any set of candidates already seen. *)
Lemma fuse_list_spec r seen items st :
  _require_ranker_ref r = Ok r →
  Forall (λ pc, 1 ≤ pc.1 ∧ RankedCandidate_post_init pc.2 = Ok tt) items →
  fusion_wf st →
  ∃ st', fuse_list r seen items st = Ok st' ∧ fusion_wf st'
    ∧ (∀ c, evidence_at st' c = evidence_at st c ++
         (if decide (c ∈ seen) then [] else occurrence_evidence r (first_occurrence c items)))
    ∧ (∀ c, c ∈ (evidence_by_ref st').*1 ↔
         c ∈ (evidence_by_ref st).*1 ∨ (c ∉ seen ∧ c ∈ (λ pc, rc_candidate_ref pc.2) <$> items)).
Proof.
  intros Hr. revert seen st. induction items as [|[p ranked] items IH]; intros seen st Hi Hst.
  { exists st. split_and!; try done; intros c; [|set_solver].
    case_decide; by rewrite ?app_nil_r. }
  apply Forall_cons in Hi as [[Hp Hranked] Hi]. simpl in Hp, Hranked.
  cbn [fuse_list]. rewrite Hranked. cbn [mbind result_bind].
  set (c0 := rc_candidate_ref ranked). destruct (decide (c0 ∈ seen)) as [Hseen|Hseen].
  - destruct (IH seen st Hi Hst) as (st' & E & Hwf & Hev & Hk). exists st'. split_and!; try done.
    + intros c. rewrite Hev. cbn [first_occurrence]. fold c0.
      repeat case_decide; subst; done.
    + intros c. rewrite Hk, fmap_cons, elem_of_cons. fold c0. naive_solver.
  - rewrite new_RankerEvidence_Ok by done. cbn [mbind result_bind].
    match goal with |- context [fuse_list r (c0 :: seen) items ?s] => set (st1 := s) end.
    assert (Hst1 : fusion_wf st1).
    { destruct Hst as [Hnd Hkeys]. split; simpl; unfold dict_append; [by apply dict_set_NoDup|].
      by rewrite !dict_keys_set, Hkeys. }
    destruct (IH (c0 :: seen) st1 Hi Hst1) as (st' & E & Hwf & Hev & Hk). exists st'.
    split_and!; try done.
    + intros c. rewrite Hev. unfold evidence_at. simpl. rewrite dict_get_append, <- app_assoc.
      f_equal. fold c0.
      destruct (decide (c = c0)) as [->|Hne].
      * rewrite (decide_True (P := c0 = c0)), (decide_True (P := c0 ∈ c0 :: seen)),
          (decide_False (P := c0 ∈ seen)) by (done || by left). done.
      * rewrite (decide_False (P := c0 = c)) by done. simpl.
        destruct (decide (c ∈ seen)).
        -- by rewrite decide_True by (by right).
        -- by rewrite decide_False by (by rewrite elem_of_cons; naive_solver).
    + intros c. rewrite Hk. simpl. unfold dict_append. rewrite elem_of_dict_keys_set.
      rewrite !elem_of_cons. fold c0. destruct (decide (c = c0)); naive_solver.
Qed.

Lemma enumerate_snd {A} start (l : list A) : (enumerate start l).*2 = l.
Proof. revert start. induction l as [|x l IH]; intros start; [done|]. simpl. by rewrite IH. Qed.

Lemma enumerate_ge {A} start (l : list A) i x : (i, x) ∈ enumerate start l → start ≤ i.
Proof.
  revert start. induction l as [|y l IH]; intros start; simpl; [by intros ?%not_elem_of_nil|].
  intros [[= -> ->]|H]%elem_of_cons; [lia|]. apply IH in H. lia.
Qed.

Lemma enumerate_refs (l : list RankedCandidate) start :
  (λ pc, rc_candidate_ref pc.2) <$> enumerate start l = rc_candidate_ref <$> l.
Proof. rewrite <- (enumerate_snd start l) at 2. by rewrite <- list_fmap_compose. Qed.

Lemma ranked_list_items l :
  ranked_list_ok l →
  _require_ranker_ref (rl_ranker_ref l) = Ok (rl_ranker_ref l)
  ∧ Forall (λ pc, 1 ≤ pc.1 ∧ RankedCandidate_post_init pc.2 = Ok tt) (enumerate 1 (rl_candidates l)).
Proof.
  intros [Hr Hc]. split.
  - unfold RankedCandidateList_post_init, _require_ranker_ref in *.
    destruct (rl_ranker_ref l); [done|]. run_ok.
    repeat match goal with H : _ = true |- _ => rewrite H end. done.
  - apply Forall_forall. intros [i c] Hic. split; [by apply enumerate_ge in Hic|].
    rewrite Forall_forall in Hc. apply Hc. rewrite <- (enumerate_snd 1 (rl_candidates l)).
    apply list_elem_of_fmap. by exists (i, c).
Qed.

Lemma fuse_lists_spec ls st :
  Forall ranked_list_ok ls → fusion_wf st →
  ∃ st', fuse_lists ls st = Ok st' ∧ fusion_wf st'
    ∧ (∀ c, evidence_at st' c = evidence_at st c ++ evidence_spec ls c)
    ∧ (∀ c, c ∈ (evidence_by_ref st').*1 ↔
         c ∈ (evidence_by_ref st).*1 ∨ c ∈ (ls ≫= λ l, rc_candidate_ref <$> rl_candidates l)).
Proof.
  intros Hls. revert st. induction Hls as [|l ls Hl Hls IH]; intros st Hst.
  { exists st. split_and!; try done; intros c; [by rewrite app_nil_r|set_solver]. }
  destruct (ranked_list_items l Hl) as [Hr Hitems]. cbn [fuse_lists].
  rewrite (proj1 Hl). cbn [mbind result_bind].
  destruct (fuse_list_spec _ [] _ st Hr Hitems Hst) as (st1 & -> & Hst1 & Hev1 & Hk1).
  cbn [mbind result_bind]. destruct (IH st1 Hst1) as (st' & E & Hwf & Hev & Hk).
  exists st'. split_and!; try done.
  - intros c. rewrite Hev, Hev1, decide_False by apply not_elem_of_nil.
    by rewrite <- app_assoc.
  - intros c. rewrite Hk, Hk1, enumerate_refs, bind_cons, elem_of_app. set_solver.
Qed.

Lemma occurrence_rankers r o e : e ∈ occurrence_evidence r o → re_ranker_ref e = r.
Proof. destruct o as [[p s]|]; simpl; [by intros ->%list_elem_of_singleton|by intros ?%not_elem_of_nil]. Qed.

Lemma evidence_spec_rankers ls c :
  NoDup (rl_ranker_ref <$> ls) → NoDup (re_ranker_ref <$> evidence_spec ls c).
Proof.
  induction ls as [|l ls IH]; intros H; [constructor|]. rewrite fmap_cons in H.
  apply NoDup_cons in H as [Hl H]. unfold evidence_spec. rewrite bind_cons, fmap_app.
  apply NoDup_app. split_and!; [|intros x Hx Hin|by apply IH].
  - destruct (first_occurrence _ _) as [[]|]; simpl; [apply NoDup_singleton|constructor].
  - apply list_elem_of_fmap in Hx as (e & -> & Hx%occurrence_rankers). rewrite Hx in Hin.
    apply list_elem_of_fmap in Hin as (e' & He' & Hin). apply Hl.
    apply list_elem_of_bind in Hin as (l' & Hin & Hl'). apply occurrence_rankers in Hin.
    apply list_elem_of_fmap. exists l'. split; [congruence|done].
Qed.

Lemma first_occurrence_None c start l :
  first_occurrence c (enumerate start l) = None ↔ c ∉ rc_candidate_ref <$> l.
Proof.
  revert start. induction l as [|x l IH]; intros start; simpl; [set_solver|].
  case_decide; [set_solver|]. rewrite IH. set_solver.
Qed.

Lemma evidence_spec_nil ls c :
  evidence_spec ls c = [] ↔ c ∉ (ls ≫= λ l, rc_candidate_ref <$> rl_candidates l).
Proof.
  induction ls as [|l ls IH]; [set_solver|]. unfold evidence_spec in *.
  rewrite !bind_cons, not_elem_of_app, <- IH, <- (first_occurrence_None c 1).
  destruct (first_occurrence _ _) as [[]|]; simpl; naive_solver.
Qed.

Lemma query_post_init_Ok q :
  CandidateQuery_post_init q = Ok tt ↔
    ranked_lists q ≠ [] ∧ NoDup (rl_ranker_ref <$> ranked_lists q).
Proof.
  unfold CandidateQuery_post_init, nodupb. split.
  - intros H. run_ok. split; [|done]. by intros E; rewrite E in *.
  - intros [H1 H2]. rewrite (bool_decide_eq_false_2 (_ = [])) by (by intros ?%fmap_nil_inv).
    simpl. by rewrite bool_decide_eq_true_2.
Qed.

Definition evidence_entries (ls : list RankedCandidateList) (start : Z) (refs : list CandidateRef) :
    list CandidateRankEvidence :=
  (λ ic, mkCandidateRankEvidence ic.2 (evidence_spec ls ic.2) ic.1) <$> enumerate start refs.

Lemma evidence_entries_refs ls start refs :
  rk_candidate_ref <$> evidence_entries ls start refs = refs.
Proof.
  unfold evidence_entries. rewrite <- list_fmap_compose. apply enumerate_snd.
Qed.

(** The whole fusion: it never raises on a well-formed query. *)
Lemma fuse_spec q :
  query_ok q →
  ∃ refs scores, fuse_candidate_evidence q
    = Ok (mkFusedCandidates refs (evidence_entries (ranked_lists q) 1 refs))
    ∧ NoDup refs ∧ (∀ c, c ∈ refs ↔ c ∈ submitted_refs q)
    ∧ StronglySorted (key_le (score_key scores)) refs.
Proof.
  intros [Hq Hls]. pose proof Hq as [_ Hnd]%query_post_init_Ok.
  unfold fuse_candidate_evidence. rewrite Hq. cbn [mbind result_bind].
  destruct (fuse_lists_spec (ranked_lists q) (mkFusion [] []) Hls) as (st & -> & [Hn Hkeys] & Hev & Hk).
  { split; [constructor|done]. }
  cbn [mbind result_bind]. set (refs := sorted_by _ _).
  assert (Hin : ∀ c, c ∈ refs ↔ c ∈ submitted_refs q).
  { intros c. unfold refs. rewrite elem_of_sorted_by, Hkeys, Hk. set_solver. }
  exists refs, (reciprocal_scores st). split_and!.
  - rewrite (map_result_pure _
      (λ ic, mkCandidateRankEvidence ic.2 (evidence_spec (ranked_lists q) ic.2) ic.1)).
    + fold (evidence_entries (ranked_lists q) 1 refs). cbn [mbind result_bind].
      unfold new_FusedCandidates. by rewrite bool_decide_eq_true_2 by apply evidence_entries_refs.
    + intros [i c] Hic. pose proof (enumerate_ge _ _ _ _ Hic) as Hi.
      assert (Hc : c ∈ refs).
      { rewrite <- (enumerate_snd 1 refs). apply list_elem_of_fmap. by exists (i, c). }
      specialize (Hev c). unfold evidence_at in Hev. simpl in Hev. rewrite Hev.
      unfold new_CandidateRankEvidence. rewrite (bool_decide_eq_false_2 (_ = [])).
      2:{ intros E%fmap_nil_inv. apply evidence_spec_nil in E. apply E. by apply Hin. }
      unfold nodupb. rewrite bool_decide_eq_true_2 by (by apply evidence_spec_rankers).
      simpl. by rewrite (proj2 (Z.leb_le 1 i)) by lia.
  - unfold refs. apply NoDup_sorted_by. by rewrite Hkeys.
  - done.
  - apply sorted_by_sorted. apply _.
Qed.

Lemma length_submitted q :
  len (submitted_refs q) = sum_Z ((λ l, len (rl_candidates l)) <$> ranked_lists q).
Proof.
  unfold submitted_refs. induction (ranked_lists q) as [|l ls IH]; [done|].
  rewrite bind_cons, len_app, IH. simpl. f_equal. unfold len. by rewrite length_fmap.
Qed.

Lemma NoDup_subset_length {A} (l k : list A) :
  NoDup l → (∀ x, x ∈ l → x ∈ k) → len l ≤ len k.
Proof.
  intros Hl Hs. unfold len. apply inj_le, submseteq_length, NoDup_submseteq; [done|].
  intros x. apply Hs.
Qed.

(** ** Properties *)

(** C31: Fusing a well-formed query never raises: every submitted candidate appears
    exactly once and nothing else does, the evidence is aligned with the refs and
    numbered 1, 2, ..., and each candidate carries, ranker by ranker in submission
    order, the position and score of its first occurrence there. *)
Theorem fuse_candidate_evidence_exact q :
  query_ok q →
  ∃ f, fuse_candidate_evidence q = Ok f
    ∧ NoDup (candidate_refs f) ∧ (∀ c, c ∈ candidate_refs f ↔ c ∈ submitted_refs q)
    ∧ rk_candidate_ref <$> rank_evidence f = candidate_refs f
    ∧ ∀ i e, rank_evidence f !! i = Some e →
        rk_fused_rank e = Z.of_nat i + 1
        ∧ rk_per_ranker e = evidence_spec (ranked_lists q) (rk_candidate_ref e).
Proof.
  intros Hq. destruct (fuse_spec q Hq) as (refs & scores & -> & Hnd & Hin & _).
  eexists. split; [done|]. simpl. split_and!; try done; [apply evidence_entries_refs|].
  assert (H : ∀ l start i e, evidence_entries (ranked_lists q) start l !! i = Some e →
    rk_fused_rank e = Z.of_nat i + start
    ∧ rk_per_ranker e = evidence_spec (ranked_lists q) (rk_candidate_ref e)).
  { induction l as [|c l IH]; intros start [|i] e He; try done; simpl in He.
    - injection He as <-. split; [simpl; lia|done].
    - apply (IH (start + 1)) in He as [He1 He2]. split; [lia|done]. }
  intros i e. apply H.
Qed.

Definition demo_query : CandidateQuery :=
  let a := demo_candidate "f1" in let b := demo_candidate "f2" in let c := demo_candidate "f3" in
  mkCandidateQuery
    [mkRankedCandidateList (lit "fts")
       [mkRankedCandidate a None; mkRankedCandidate b (Some (NInt 3)); mkRankedCandidate a None];
     mkRankedCandidateList (lit "vector")
       [mkRankedCandidate c (Some (NFloat fone)); mkRankedCandidate b None]].

Lemma demo_query_ok : query_ok demo_query.
Proof. split; [vm_compute; reflexivity|]. repeat constructor; vm_compute; reflexivity. Qed.

Lemma fuse_candidate_evidence_exact_witness :
  ∃ f, fuse_candidate_evidence demo_query = Ok f ∧ NoDup (candidate_refs f)
    ∧ length (candidate_refs f) = 3%nat.
Proof.
  destruct (fuse_candidate_evidence_exact demo_query demo_query_ok) as (f & Hf & Hnd & _).
  exists f. split; [exact Hf|]. split; [exact Hnd|].
  vm_compute in Hf. injection Hf as <-. reflexivity.
Defined.

(** A submission that passes the server's bound was not altered, names at most
    512 and at most the configured number of candidates, is well formed, and fuses
    to at most that many candidates; any other limit, list count or total raises
    ValueError or the error of a malformed part. *)
Theorem bounded_submission_fuses q limit q' :
  require_bounded_candidate_submission q limit = Ok q' →
  q' = q ∧ query_ok q ∧ len (ranked_lists q) ≤ MAX_SUBMITTED_RANKED_LISTS
  ∧ ∃ n f, limit = OInt n ∧ 1 ≤ n ≤ MAX_CANDIDATE_SUBMISSION_CEILING
      ∧ len (submitted_refs q) ≤ n
      ∧ fuse_candidate_evidence q' = Ok f ∧ len (candidate_refs f) ≤ n.
Proof.
  unfold require_bounded_candidate_submission. intros H.
  apply bind_Ok in H as (n & Hn & H). apply bind_Ok in H as ([] & Hq & H).
  apply bind_Ok in H as (? & Hl%each_Ok & H). apply bind_Ok in H as (? & Hlists%require_Ok & H).
  apply bind_Ok in H as (? & Hsub%require_Ok & [= <-]).
  rewrite <- length_submitted in Hsub.
  assert (Hok : query_ok q).
  { split; [done|]. eapply Forall_impl; [exact Hl|]. intros l Hlist.
    apply bind_Ok in Hlist as ([] & H1 & H2%each_Ok). by split. }
  destruct (fuse_spec q Hok) as (refs & scores & Hf & Hnd & Hin & _).
  unfold require_candidate_submission_limit in Hn. destruct limit; try done. run_ok.
  split_and!; try done; [lia|]. eexists _, _. split_and!; try done; try lia. simpl.
  etrans; [apply (NoDup_subset_length _ (submitted_refs q)); [done|apply Hin]|lia].
Qed.

Lemma bounded_submission_fuses_witness :
  require_bounded_candidate_submission demo_query (OInt 5) = Ok demo_query
  ∧ query_ok demo_query
  ∧ require_bounded_candidate_submission demo_query (OInt 4) = Err ValueError.
Proof.
  assert (H : require_bounded_candidate_submission demo_query (OInt 5) = Ok demo_query)
    by (vm_compute; reflexivity).
  destruct (bounded_submission_fuses demo_query (OInt 5) demo_query H) as (_ & Hq & _).
  split; [exact H|]. split; [exact Hq|]. vm_compute. reflexivity.
Defined.
