(* ===== verification/AuthorizedRanking.v ===== *)
(** * Ranking after authorization: [src/engine/runtime/authorized_ranking.py]

    Rank evidence is rejoined only with admitted projections: positions are
    compacted over the admitted candidates of each ranker, fused with the
    server's weights, and the order they induce is packed to the token budget.
    The Unicode tokenisation behind the lexical graph ranking ([re] with
    [casefold]) is a parameter: it needs the Unicode character tables. *)

From S2P Require Import Prelude Codec Float64 Budget Evidence Ranking.

Definition NEUTRAL_FUSED_RANK : Z := 1.
Definition UNIFORM_RANKER_WEIGHT : float := fone.
Definition GRAPH_RANKER_REF : pystr := lit "graph".

(** ** Weights *)

(** [type(w) in {int, float} and isfinite(w) and not w <= 0.0]; [isfinite] of an
    integer beyond the format raises. *)
Definition weight_bad (w : number) : result bool :=
  finite ← number_isfinite w;
  Ok (negb finite || match w with NInt z => z <=? 0 | NFloat f => fleb f fzero end).

(** [any(...)] over a generator that may raise. *)
Fixpoint any_result {A} (f : A → result bool) (l : list A) : result bool :=
  match l with
  | [] => Ok false
  | x :: l' => b ← f x; match b with true => Ok true | false => any_result f l' end
  end.

Abbreviation weight_map := (list (list Z * number)).

(** [_authorized_ranker_weights]; the frozenset is given by its elements. *)
Definition _authorized_ranker_weights (ranker_weights : option weight_map)
    (admitted_ranker_refs : list pystr) : result (list (pystr * float)) :=
  match ranker_weights with
  | None => Ok ((λ r, (r, UNIFORM_RANKER_WEIGHT)) <$> admitted_ranker_refs)
  | Some ws =>
      require (forallb (λ r, bool_decide (r ∈ ws.*1)) admitted_ranker_refs) ValueError ;;
      bad ← any_result weight_bad ws.*2;
      require (negb bad) ValueError ;;
      map_result (λ r, match dict_get ws r with
                       | None => Err KeyError
                       | Some w => f ← to_float w; Ok (r, f)
                       end) admitted_ranker_refs
  end.

(** [RankerWeights(values)] with [__post_init__]. *)
Definition new_RankerWeights (values : option weight_map) : result (option (list (pystr * float))) :=
  match values with
  | None => Ok None
  | Some ws =>
      require (negb (bool_decide (ws.*1 = []))) ValueError ;;
      validated ← _authorized_ranker_weights (Some ws) ws.*1;
      Ok (Some validated)
  end.

(** ** Items *)

Record AuthorizedRerankItem := mkAuthorizedRerankItem {
  it_projection : AuthorizedProjection;
  it_rank_evidence : option CandidateRankEvidence;
  it_fused_rank : Z
}.

(** [AuthorizedRerankItem(projection, rank_evidence)] *)
Definition new_AuthorizedRerankItem (K : kernel_scopes) (p : AuthorizedProjection)
    (e : option CandidateRankEvidence) : result AuthorizedRerankItem :=
  _require_active_authorized_projection K p ;;
  match e with
  | None => Ok (mkAuthorizedRerankItem p None NEUTRAL_FUSED_RANK)
  | Some ev =>
      require (bool_decide (rk_candidate_ref ev = candidate_ref p)) ValueError ;;
      Ok (mkAuthorizedRerankItem p (Some ev) (rk_fused_rank ev))
  end.

(** ** The lexical graph ranker *)

Section OneHop.
(** [frozenset(_RELEVANCE_TOKEN.findall(text.casefold()))] *)
Variable relevance_tokens : pystr → gset pystr.

Definition one_half : float := fdiv fone (float_of_int 2).

Definition overlap_score (query_tokens : gset pystr) (p : AuthorizedProjection) : float :=
  fdiv (float_of_int (Z.of_nat (size (query_tokens ∩ relevance_tokens (projected_body p)))))
    (float_of_int (Z.of_nat (size query_tokens))).

Definition rank_authorized_one_hop (K : kernel_scopes) (query_text : pystr)
    (projections : list AuthorizedProjection) : result (list CandidateRankEvidence) :=
  require (negb (blank query_text)) ValueError ;;
  let query_tokens := relevance_tokens query_text in
  if bool_decide (query_tokens = ∅) then Ok []
  else
    each (_require_active_authorized_projection K) projections ;;
    let scored := filter (λ ps, fltb one_half ps.2 = true)
                    ((λ p, (p, overlap_score query_tokens p)) <$> projections) in
    let ordered := sorted_by (λ ps, (fopp ps.2, _candidate_sort_key (candidate_ref ps.1))) scored in
    map_result (λ '(position, (p, score)),
      e ← new_RankerEvidence GRAPH_RANKER_REF position (Some (NFloat score));
      new_CandidateRankEvidence (candidate_ref p) [e] position) (enumerate 1 ordered).
End OneHop.

(** ** The join *)

(** [by_ranker[ranker.ranker_ref].append((candidate, position))] for one candidate. *)
Definition add_rankers (d : list (pystr * list (CandidateRef * Z))) (ce : CandidateRef * CandidateRankEvidence) :=
  foldl (λ d r, dict_append d (re_ranker_ref r) (rk_candidate_ref ce.2, re_position r)) d
    (rk_per_ranker ce.2).

Definition group_by_ranker (admitted : list (CandidateRef * CandidateRankEvidence)) :
    list (pystr * list (CandidateRef * Z)) :=
  foldl add_rankers [] admitted.

(** [key=lambda value: (value[1], _candidate_sort_key(value[0]))] *)
Definition entry_key (v : CandidateRef * Z) := (v.2, _candidate_sort_key v.1).

Definition compact_ranker (d : list (CandidateRef * pystr * Z)) (re : pystr * list (CandidateRef * Z)) :=
  foldl (λ d ie, dict_set d (ie.2.1, re.1) ie.1) d (enumerate 1 (sorted_by entry_key re.2)).

Definition compact_positions (by_ranker : list (pystr * list (CandidateRef * Z))) :
    list (CandidateRef * pystr * Z) :=
  foldl compact_ranker [] by_ranker.

Definition lookup_or_KeyError {K V} `{!EqDecision K} (d : list (K * V)) (k : K) : result V :=
  match dict_get d k with Some v => Ok v | None => Err KeyError end.

(** [sum(weights[r] / compacted[(c, r)] for r in per_ranker)] *)
Definition fused_score (weights : list (pystr * float)) (compacted : list (CandidateRef * pystr * Z))
    (ce : CandidateRef * CandidateRankEvidence) : result (CandidateRef * float) :=
  terms ← map_result (λ r,
    w ← lookup_or_KeyError weights (re_ranker_ref r);
    position ← lookup_or_KeyError compacted (ce.1, re_ranker_ref r);
    Ok (fdiv w (float_of_int position))) (rk_per_ranker ce.2);
  Ok (ce.1, py_sum terms).

Definition normalize_evidence (compacted : list (CandidateRef * pystr * Z))
    (authorized_rank : list (CandidateRef * Z)) (ce : CandidateRef * CandidateRankEvidence) :
    result (CandidateRef * CandidateRankEvidence) :=
  per_ranker ← map_result (λ r,
    position ← lookup_or_KeyError compacted (ce.1, re_ranker_ref r);
    new_RankerEvidence (re_ranker_ref r) position (re_score r)) (rk_per_ranker ce.2);
  rank ← lookup_or_KeyError authorized_rank ce.1;
  e ← new_CandidateRankEvidence ce.1 per_ranker rank;
  Ok (ce.1, e).

Definition min_list (l : list Z) : Z := match l with [] => 0 | x :: l' => foldl Z.min x l' end.
Definition max_list (l : list Z) : Z := match l with [] => 0 | x :: l' => foldl Z.max x l' end.

Definition item_key (it : AuthorizedRerankItem) :=
  (it_fused_rank it, _candidate_sort_key (candidate_ref (it_projection it))).

(** The evidence of admitted candidates, as the dictionary built from the tuple. *)
Definition admitted_evidence (projections : list AuthorizedProjection)
    (rank_evidence : list CandidateRankEvidence) : list (CandidateRef * CandidateRankEvidence) :=
  filter (λ ce, ce.1 ∈ candidate_ref <$> projections)
    (foldl (λ d e, dict_set d (rk_candidate_ref e) e) [] rank_evidence).

Definition join_authorized_ranking (K : kernel_scopes) (projections : list AuthorizedProjection)
    (rank_evidence : list CandidateRankEvidence) (ranker_weights : option weight_map) :
    result (list AuthorizedRerankItem) :=
  let evidence_by_ref := foldl (λ d e, dict_set d (rk_candidate_ref e) e) [] rank_evidence in
  require (len evidence_by_ref =? len rank_evidence) ValueError ;;
  let admitted := admitted_evidence projections rank_evidence in
  let by_ranker := group_by_ranker admitted in
  let compacted := compact_positions by_ranker in
  weights ← _authorized_ranker_weights ranker_weights by_ranker.*1;
  fused_scores ← map_result (fused_score weights compacted) admitted;
  let ranked_refs := sorted_by (score_key fused_scores) fused_scores.*1 in
  let authorized_rank := (λ rc, (rc.2, 2 * rc.1 - 1)) <$> enumerate 1 ranked_refs in
  normalized ← map_result (normalize_evidence compacted authorized_rank) admitted;
  let neutral_rank :=
    match authorized_rank with
    | [] => NEUTRAL_FUSED_RANK
    | _ => (min_list authorized_rank.*2 + max_list authorized_rank.*2) / 2
    end in
  joined ← map_result (λ p,
    it ← new_AuthorizedRerankItem K p (dict_get normalized (candidate_ref p));
    Ok (mkAuthorizedRerankItem (it_projection it) (it_rank_evidence it)
          (default neutral_rank (dict_get authorized_rank (candidate_ref p))))) projections;
  Ok (sorted_by item_key joined).

(** ** Packing to the budget *)

Fixpoint select_loop (max_tokens consumed : Z) (joined : list AuthorizedRerankItem) :
    result (list AuthorizedRerankItem) :=
  match joined with
  | [] => Ok []
  | it :: joined' =>
      encoded ← encode_utf8 (projected_body (it_projection it));
      let body_tokens := len encoded in
      if max_tokens <? consumed + body_tokens then select_loop max_tokens consumed joined'
      else
        rest ← select_loop max_tokens (consumed + body_tokens) joined';
        Ok (it :: rest)
  end.

Definition select_authorized_ranking (joined : list AuthorizedRerankItem) (budget : PackageBudget) :
    result (list AuthorizedRerankItem) :=
  select_loop (max_tokens budget) 0 joined.

(** ** Dictionaries built by a loop of assignments *)

Section dict_loops.
Context {K V : Type} `{!EqDecision K}.
Implicit Types (d kvs : list (K * V)).

Definition dict_update d kvs : list (K * V) := foldl (λ d kv, dict_set d kv.1 kv.2) d kvs.

Lemma dict_get_update d kvs k :
  NoDup kvs.*1 →
  dict_get (dict_update d kvs) k
  = match dict_get kvs k with Some v => Some v | None => dict_get d k end.
Proof.
  unfold dict_update. revert d. induction kvs as [|[k' v] kvs IH]; intros d Hnd; [done|].
  rewrite fmap_cons in Hnd. apply NoDup_cons in Hnd as [Hk Hnd]. simpl.
  rewrite IH, dict_get_set by done. destruct (decide (k = k')) as [->|Hne]; [|done].
  by rewrite (proj2 (dict_get_None kvs k')).
Qed.

Lemma dict_set_fresh d k v : k ∉ d.*1 → dict_set d k v = d ++ [(k, v)].
Proof.
  induction d as [|[k' v'] d IH]; [done|]. rewrite fmap_cons, not_elem_of_cons. intros [Hne Hk].
  simpl. rewrite decide_False by done. by rewrite IH.
Qed.

Lemma dict_update_fresh d kvs : NoDup (d ++ kvs).*1 → dict_update d kvs = d ++ kvs.
Proof.
  unfold dict_update. revert d. induction kvs as [|[k v] kvs IH]; intros d Hnd; [by rewrite app_nil_r|].
  simpl. rewrite dict_set_fresh.
  - rewrite IH; [by rewrite <- app_assoc|]. by rewrite <- app_assoc.
  - rewrite fmap_app in Hnd. apply NoDup_app in Hnd as (_ & Hd & _). intros Hk.
    apply (Hd k Hk). left.
Qed.

(** Order does not matter to lookups in a dictionary without repeated keys. *)
Lemma dict_get_fmap {A} (f : A → K) (g : A → V) (l : list A) x :
  NoDup (f <$> l) → x ∈ l → dict_get ((λ a, (f a, g a)) <$> l) (f x) = Some (g x).
Proof.
  intros Hnd Hx. apply dict_get_Some; [by rewrite <- list_fmap_compose|].
  by apply (list_elem_of_fmap_2 (λ a, (f a, g a))).
Qed.
End dict_loops.

Lemma enumerate_lookup {A} start (l : list A) i x :
  enumerate start l !! i = Some x ↔ x.1 = start + Z.of_nat i ∧ l !! i = Some x.2.
Proof.
  revert start i. induction l as [|y l IH]; intros start i; [simpl; naive_solver|].
  destruct i as [|i]; simpl.
  - destruct x as [n x]. simpl. split; [intros [= <- <-]; split; [lia|done]|].
    intros [-> [= ->]]. do 2 f_equal. lia.
  - rewrite IH. split; intros [H1 H2]; split; try done; lia.
Qed.

Lemma filter_none {A} (P : A → Prop) `{!∀ x, Decision (P x)} l :
  Forall (λ x, ¬ P x) l → filter P l = [].
Proof. induction 1 as [|x l Hx Hl IH]; [done|]. by rewrite filter_cons_False. Qed.

(** ** The position in a sort is the number of smaller elements *)

Section sorted_index.
Context {A K : Type} `{!PyOrd K, !PyTotal K} (key : A → K).

Definition smaller (x : A) (l : list A) : list A := filter (λ y, py_leb (key x) (key y) = false) l.

Lemma key_le_refl x : py_leb (key x) (key x) = true.
Proof. by destruct (py_total (key x) (key x)). Qed.

Lemma sorted_index l i x :
  (∀ a b, a ∈ l → b ∈ l → key_le key a b → key_le key b a → a = b) →
  NoDup l → sorted_by key l !! i = Some x → length (smaller x l) = i.
Proof.
  intros Hinj Hnd Hi. unfold smaller.
  rewrite <- (sorted_by_perm key l) in Hnd. 
  assert (Hinj' : ∀ a b, a ∈ sorted_by key l → b ∈ sorted_by key l → key_le key a b →
                         key_le key b a → a = b)
    by (intros a b; rewrite !elem_of_sorted_by; apply Hinj).
  rewrite <- (sorted_by_perm key l).
  pose proof (sorted_by_sorted key l) as Hs. revert Hnd Hinj' Hi Hs.
  generalize (sorted_by key l) as s. clear - PyTotal0. intros s Hnd Hinj Hi Hs. revert i Hi.
  induction Hs as [|y s Hs IH Hy]; intros i Hi; [done|].
  apply NoDup_cons in Hnd as [Hny Hnd]. rewrite filter_cons.
  destruct i as [|i]; simpl in Hi.
  - injection Hi as ->. rewrite decide_False by (by rewrite key_le_refl).
    assert (Hnil : filter (λ z, py_leb (key x) (key z) = false) s = []); [|by rewrite Hnil].
    apply filter_none. eapply Forall_impl; [exact Hy|]. unfold key_le. intros z Hz. by rewrite Hz.
  - assert (Hx : x ∈ s) by (by eapply list_elem_of_lookup_2). rewrite decide_True.
    + simpl. f_equal. apply IH; [done| |done]. intros a b Ha Hb. apply Hinj; by right.
    + apply not_true_iff_false. intros Hle. apply Hny. rewrite Forall_forall in Hy.
      rewrite (Hinj y x); [done|by left|by right|by apply Hy|done].
Qed.
End sorted_index.

(** The count only depends on how the keys compare. *)
Lemma smaller_Forall2 {A B K K'} `{!PyOrd K, !PyOrd K'} (k : A → K) (k' : B → K') x x' l l' :
  Forall2 (λ a b, py_leb (k x) (k a) = py_leb (k' x') (k' b)) l l' →
  length (smaller k x l) = length (smaller k' x' l').
Proof.
  unfold smaller. induction 1 as [|a b l l' Hab Hl IH]; [done|]. rewrite !filter_cons.
  rewrite Hab. case_decide; simpl; by rewrite IH.
Qed.

(** ** Grouping and compaction *)

Definition rank_facts (A : list (CandidateRef * CandidateRankEvidence)) :
    list (pystr * (CandidateRef * Z)) :=
  A ≫= λ ce, (λ r, (re_ranker_ref r, (rk_candidate_ref ce.2, re_position r))) <$> rk_per_ranker ce.2.

(** One ranker's (candidate, position) pairs. *)
Definition entries (r : pystr) (A : list (CandidateRef * CandidateRankEvidence)) :
    list (CandidateRef * Z) :=
  (filter (λ kv, kv.1 = r) (rank_facts A)).*2.

Lemma foldl_fmap {A B C} (f : C → B → C) (g : A → B) l z :
  foldl f z (g <$> l) = foldl (λ c a, f c (g a)) z l.
Proof. revert z. induction l as [|x l IH]; intros z; [done|]. apply IH. Qed.

Lemma append_loop_spec {K V} `{!EqDecision K} (kvs : list (K * V)) d :
  let d' := foldl (λ d kv, dict_append d kv.1 kv.2) d kvs in
  (∀ k, default [] (dict_get d' k) = default [] (dict_get d k) ++ (filter (λ kv, kv.1 = k) kvs).*2)
  ∧ (∀ k, k ∈ d'.*1 ↔ k ∈ d.*1 ∨ k ∈ kvs.*1)
  ∧ (NoDup d.*1 → NoDup d'.*1).
Proof.
  simpl. revert d. induction kvs as [|[k0 v] kvs IH]; intros d.
  { simpl. split_and!; [intros k; by rewrite app_nil_r|set_solver|done]. }
  destruct (IH (dict_append d k0 v)) as (H1 & H2 & H3). simpl. split_and!.
  - intros k. rewrite H1, dict_get_append, <- app_assoc. f_equal.
    rewrite filter_cons. cbn [fst]. destruct (decide (k = k0)) as [->|Hne].
    + by rewrite decide_True.
    + by rewrite decide_False.
  - intros k. rewrite H2. unfold dict_append. rewrite elem_of_dict_keys_set. set_solver.
  - intros Hd. apply H3. by apply dict_set_NoDup.
Qed.

Lemma group_by_ranker_loop A d :
  foldl add_rankers d A = foldl (λ d kv, dict_append d kv.1 kv.2) d (rank_facts A).
Proof.
  revert d. induction A as [|ce A IH]; intros d; [done|].
  unfold rank_facts. rewrite bind_cons, foldl_app, foldl_fmap. apply IH.
Qed.

Lemma group_spec A :
  (∀ r, default [] (dict_get (group_by_ranker A) r) = entries r A)
  ∧ (∀ r, r ∈ (group_by_ranker A).*1 ↔ r ∈ (rank_facts A).*1)
  ∧ NoDup (group_by_ranker A).*1.
Proof.
  unfold group_by_ranker. rewrite group_by_ranker_loop.
  destruct (append_loop_spec (rank_facts A) []) as (H1 & H2 & H3).
  split_and!; [done| |apply H3; constructor]. intros r. rewrite H2. set_solver.
Qed.

Lemma group_entry A r es : (r, es) ∈ group_by_ranker A → es = entries r A.
Proof.
  destruct (group_spec A) as (H1 & _ & H3). intros H. rewrite <- H1.
  by rewrite (proj2 (dict_get_Some _ r es H3) H).
Qed.

(** The assignments of one ranker's compaction loop. *)
Definition compacted_entries (r : pystr) (es : list (CandidateRef * Z)) :
    list (CandidateRef * pystr * Z) :=
  (λ ie, (ie.2.1, r, ie.1)) <$> enumerate 1 (sorted_by entry_key es).

Lemma compact_positions_update br :
  compact_positions br = dict_update [] (br ≫= λ re, compacted_entries re.1 re.2).
Proof.
  unfold compact_positions, dict_update. generalize (@nil (CandidateRef * list Z * Z)) as d.
  induction br as [|re br IH]; intros d; [done|].
  rewrite bind_cons, foldl_app. unfold compacted_entries at 1. rewrite foldl_fmap. apply IH.
Qed.

Lemma compacted_entries_keys r es :
  (compacted_entries r es).*1 = (λ c, (c, r)) <$> (sorted_by entry_key es).*1.
Proof.
  unfold compacted_entries. rewrite <- (enumerate_snd 1 (sorted_by entry_key es)) at 2.
  by rewrite <- !list_fmap_compose.
Qed.

Lemma compacted_keys_NoDup br :
  NoDup br.*1 → (∀ r es, (r, es) ∈ br → NoDup es.*1) →
  NoDup (br ≫= λ re, compacted_entries re.1 re.2).*1.
Proof.
  induction br as [|[r es] br IH]; intros Hnd Hes; [constructor|].
  rewrite fmap_cons in Hnd. apply NoDup_cons in Hnd as [Hr Hnd].
  rewrite bind_cons, fmap_app. cbn [fst snd]. rewrite compacted_entries_keys.
  apply NoDup_app. split_and!.
  - apply NoDup_fmap_2; [by intros ?? [=]|]. rewrite (fmap_Permutation fst _ _ (sorted_by_perm entry_key es)).
    apply (Hes r). by left.
  - intros [c r'] H1 H2. apply list_elem_of_fmap in H1 as (c' & [= -> ->] & _).
    apply list_elem_of_fmap in H2 as ([k v] & Hk & H2).
    apply list_elem_of_bind in H2 as ([r2 es2] & H2 & Hin). cbn [fst snd] in *.
    assert (Hk2 : k ∈ (compacted_entries r2 es2).*1) by (apply list_elem_of_fmap; by exists (k, v)).
    rewrite compacted_entries_keys in Hk2. apply list_elem_of_fmap in Hk2 as (c2 & -> & _).
    injection Hk as <- <-. apply Hr, list_elem_of_fmap. by exists (r, es2).
  - apply IH; [done|]. intros r' es' Hin. apply (Hes r'). by right.
Qed.

(** ** Admitted evidence *)

Definition rank_evidence_ok (e : CandidateRankEvidence) : Prop :=
  Forall (λ r, new_RankerEvidence (re_ranker_ref r) (re_position r) (re_score r) = Ok r)
    (rk_per_ranker e)
  ∧ new_CandidateRankEvidence (rk_candidate_ref e) (rk_per_ranker e) (rk_fused_rank e) = Ok e
  ∧ uuid_ok (cr_organization_id (rk_candidate_ref e)).

Record admitted_ok (A : list (CandidateRef * CandidateRankEvidence)) : Prop := {
  ao_nodup : NoDup A.*1;
  ao_key : ∀ ce, ce ∈ A → ce.1 = rk_candidate_ref ce.2;
  ao_evidence : ∀ ce, ce ∈ A → rank_evidence_ok ce.2
}.

Lemma rank_evidence_rankers e : rank_evidence_ok e → NoDup (re_ranker_ref <$> rk_per_ranker e).
Proof.
  intros (_ & H & _). unfold new_CandidateRankEvidence, nodupb in H. by run_ok.
Qed.

Lemma candidate_key_inj c c' :
  uuid_ok (cr_organization_id c) → uuid_ok (cr_organization_id c') →
  py_leb (_candidate_sort_key c) (_candidate_sort_key c') = true →
  py_leb (_candidate_sort_key c') (_candidate_sort_key c) = true → c = c'.
Proof.
  intros Hu Hu' H1 H2. pose proof (py_antisym _ _ H1 H2) as H. clear H1 H2.
  unfold _candidate_sort_key in H. rewrite !pair_equal_spec in H.
  destruct H as [[[[H ?] ?] ?] ?]. apply uuid_bytes_inj in H; [|done..].
  destruct c, c'. simpl in *. by subst.
Qed.

Lemma pair_leb_second {A B} `{!PyOrd A, !PyOrd B} (a : A) (b : B) a' b' :
  py_leb (a, b) (a', b') = true → py_leb (a', b') (a, b) = true →
  py_leb a a' = true ∧ py_leb a' a = true ∧ py_leb b b' = true ∧ py_leb b' b = true.
Proof.
  unfold py_leb at 1 2, pair_ord, pair_leb. simpl.
  destruct (py_leb a a'), (py_leb a' a); simpl; naive_solver.
Qed.

Lemma entry_key_inj v v' :
  uuid_ok (cr_organization_id v.1) → uuid_ok (cr_organization_id v'.1) →
  key_le entry_key v v' → key_le entry_key v' v → v = v'.
Proof.
  destruct v as [c p], v' as [c' p']. unfold key_le, entry_key. cbn [fst snd]. intros Hu Hu' H1 H2.
  destruct (pair_leb_second _ _ _ _ H1 H2) as (H3 & H4 & H5 & H6).
  f_equal; [by apply candidate_key_inj|]. by apply py_antisym.
Qed.

Lemma elem_of_rank_facts A r c p :
  (r, (c, p)) ∈ rank_facts A ↔
    ∃ ce re, ce ∈ A ∧ re ∈ rk_per_ranker ce.2 ∧ c = rk_candidate_ref ce.2
      ∧ r = re_ranker_ref re ∧ p = re_position re.
Proof.
  unfold rank_facts. rewrite list_elem_of_bind. setoid_rewrite list_elem_of_fmap. split.
  - intros (ce & (re & [= -> -> ->] & Hre) & Hce). by exists ce, re.
  - intros (ce & re & Hce & Hre & -> & -> & ->). exists ce. split; [|done]. by exists re.
Qed.

Lemma elem_of_entries A r c p : (c, p) ∈ entries r A ↔ (r, (c, p)) ∈ rank_facts A.
Proof.
  unfold entries. rewrite list_elem_of_fmap. split.
  - intros ([r' v] & -> & [<- H]%list_elem_of_filter). done.
  - intros H. exists (r, (c, p)). split; [done|]. by apply list_elem_of_filter.
Qed.

Lemma rank_facts_NoDup A :
  admitted_ok A → NoDup ((λ kv, (kv.1, kv.2.1)) <$> rank_facts A).
Proof.
  intros [Hnd Hk He]. induction A as [|ce A IH]; [constructor|].
  rewrite fmap_cons in Hnd. apply NoDup_cons in Hnd as [Hc Hnd].
  unfold rank_facts. rewrite bind_cons, fmap_app. apply NoDup_app. split_and!.
  - rewrite <- list_fmap_compose.
    pose proof (rank_evidence_rankers ce.2 (He ce ltac:(by left))) as Hr.
    apply (NoDup_fmap_1 fst). by rewrite <- list_fmap_compose.
  - intros [r c] H1 H2. apply list_elem_of_fmap in H1 as ([r1 [c1 p1]] & [= -> ->] & H1).
    apply list_elem_of_fmap in H1 as (re & [= -> -> ->] & _).
    apply list_elem_of_fmap in H2 as ([r2 [c2 p2]] & [= _ Hc2] & H2).
    apply (elem_of_rank_facts A) in H2 as (ce' & re' & Hin & _ & -> & _).
    apply Hc. rewrite (Hk ce) by (by left). rewrite Hc2, <- (Hk ce') by (by right).
    by apply list_elem_of_fmap_2.
  - apply IH; [done| |]; intros ce' Hce'; [apply Hk|apply He]; by right.
Qed.

Lemma entries_NoDup A r : admitted_ok A → NoDup (entries r A).*1.
Proof.
  intros HA. pose proof (rank_facts_NoDup A HA) as H. unfold entries. revert H.
  generalize (rank_facts A) as kvs. clear. intros kvs H.
  induction kvs as [|[r' [c p]] kvs IH]; [constructor|].
  rewrite fmap_cons in H. apply NoDup_cons in H as [Hc H]. rewrite filter_cons.
  case_decide as Hr; cbn [fst] in Hr; subst; [|by apply IH]. rewrite !fmap_cons. cbn [fst snd].
  constructor; [|by apply IH]. intros Hin. apply Hc.
  apply list_elem_of_fmap in Hin as ([c' p'] & -> & Hin).
  apply list_elem_of_fmap in Hin as ([r2 v] & -> & [Hr2 Hin]%list_elem_of_filter).
  apply list_elem_of_fmap. exists (r2, v). cbn [fst snd] in *. split; [congruence|done].
Qed.

(** A compacted position is one more than the number of admitted candidates the
    ranker placed before this one. *)
Lemma compacted_get A c r v :
  admitted_ok A →
  dict_get (compact_positions (group_by_ranker A)) (c, r) = Some v ↔
    ∃ p, (c, p) ∈ entries r A ∧ v = 1 + Z.of_nat (length (smaller entry_key (c, p) (entries r A))).
Proof.
  intros HA. destruct (group_spec A) as (Hget & Hkeys & Hnd).
  assert (Hes : ∀ r es, (r, es) ∈ group_by_ranker A → NoDup es.*1)
    by (intros r' es ->%group_entry; by apply entries_NoDup).
  assert (Hidx : ∀ i x, sorted_by entry_key (entries r A) !! i = Some x →
            length (smaller entry_key x (entries r A)) = i).
  { intros i x. apply (sorted_index entry_key); [|by eapply NoDup_fmap_1, entries_NoDup].
    intros [c1 p1] [c2 p2] H1 H2. apply elem_of_entries, elem_of_rank_facts in H1, H2.
    destruct H1 as (ce1 & ? & Hin1 & _ & -> & _), H2 as (ce2 & ? & Hin2 & _ & -> & _).
    apply entry_key_inj; by eapply HA. }
  rewrite compact_positions_update, dict_get_update by (by apply compacted_keys_NoDup).
  cbn [dict_get].
  assert (Hid : ∀ o : option Z, match o with Some v => Some v | None => None end = o) by (by intros []).
  rewrite Hid.
  rewrite dict_get_Some, list_elem_of_bind by (by apply compacted_keys_NoDup). split.
  - intros ([r' es] & Hin & Hg). cbn [fst snd] in Hin.
    apply list_elem_of_fmap in Hin as ([v' [c' p]] & Heq & Hin). simplify_eq/=.
    apply group_entry in Hg as ->. apply list_elem_of_lookup in Hin as [i Hi].
    apply enumerate_lookup in Hi as [Hv Hi]. simpl in Hv, Hi. subst v'. exists p. split.
    + rewrite <- (elem_of_sorted_by entry_key). by eapply list_elem_of_lookup_2.
    + by rewrite (Hidx i).
  - intros (p & Hp & ->). exists (r, entries r A). cbn [fst snd]. split.
    + pose proof Hp as Hs. rewrite <- (elem_of_sorted_by entry_key) in Hs.
      apply list_elem_of_lookup in Hs as [i Hi]. apply list_elem_of_fmap.
      exists (1 + Z.of_nat i, (c, p)). cbn [fst snd]. split; [by rewrite (Hidx i)|].
      apply list_elem_of_lookup. exists i. by apply enumerate_lookup.
    + apply dict_get_Some; [done|]. specialize (Hget r).
      destruct (dict_get (group_by_ranker A) r) as [es|] eqn:E; simpl in Hget; [by subst|].
      rewrite <- Hget in Hp. by apply not_elem_of_nil in Hp.
Qed.

Lemma Forall2_elem {A B} (R : A → B → Prop) l l' :
  Forall2 R l l' → Forall2 (λ a b, a ∈ l ∧ b ∈ l' ∧ R a b) l l'.
Proof.
  induction 1 as [|a b l l' Hab Hl IH]; constructor; [by split_and!; [left|left|]|].
  eapply Forall2_impl; [exact IH|]. intros x y (? & ? & ?). split_and!; [by right|by right|done].
Qed.

(** ** Evidence that differs only in how positions are numbered *)

Definition same_ranker (a b : RankerEvidence) : Prop :=
  re_ranker_ref a = re_ranker_ref b ∧ re_score a = re_score b.

Definition same_evidence (a b : CandidateRef * CandidateRankEvidence) : Prop :=
  a.1 = b.1 ∧ Forall2 same_ranker (rk_per_ranker a.2) (rk_per_ranker b.2).

Definition same_order (A B : list (CandidateRef * CandidateRankEvidence)) : Prop :=
  ∀ r c c' p p' q q', (c, p) ∈ entries r A → (c', p') ∈ entries r A →
    (c, q) ∈ entries r B → (c', q') ∈ entries r B → (p ≤ p' ↔ q ≤ q').

Lemma entries_Forall2 A B r :
  admitted_ok A → admitted_ok B → Forall2 same_evidence A B →
  Forall2 (λ x y : CandidateRef * Z, x.1 = y.1) (entries r A) (entries r B).
Proof.
  intros HA HB HAB. unfold entries.
  assert (H : Forall2 (λ x y : pystr * (CandidateRef * Z), x.1 = y.1 ∧ x.2.1 = y.2.1)
                (rank_facts A) (rank_facts B)).
  { apply Forall2_elem in HAB. unfold rank_facts. apply Forall2_bind. eapply Forall2_impl; [exact HAB|].
    intros a b (Ha & Hb & Hk & Hr). apply Forall2_fmap_2. eapply Forall2_impl; [exact Hr|].
    intros x y [Hx _]. simpl. split; [done|].
    rewrite <- (ao_key A HA a Ha), <- (ao_key B HB b Hb). done. }
  induction H as [|[r1 v] [r2 w] l l' [H1 H2] Hl IH]; [constructor|]. simpl in H1. subst r2.
  rewrite !filter_cons. cbn [fst]. case_decide; [|done]. by constructor.
Qed.

Lemma entries_perm A B r : A ≡ₚ B → entries r A ≡ₚ entries r B.
Proof. intros H. unfold entries, rank_facts. by rewrite H. Qed.

Lemma entry_key_order A B r c p q c' p' q' :
  same_order A B → (c, p) ∈ entries r A → (c', p') ∈ entries r A →
  (c, q) ∈ entries r B → (c', q') ∈ entries r B →
  py_leb (entry_key (c, p)) (entry_key (c', p')) = py_leb (entry_key (c, q)) (entry_key (c', q')).
Proof.
  intros Ho H1 H2 H3 H4.
  change (pair_leb (p, _candidate_sort_key c) (p', _candidate_sort_key c')
          = pair_leb (q, _candidate_sort_key c) (q', _candidate_sort_key c')).
  unfold pair_leb. cbn [fst snd].
  assert (Hle : py_leb p p' = py_leb q q').
  { unfold py_leb, Z_ord. pose proof (Ho r c c' p p' q q' H1 H2 H3 H4). apply eq_true_iff_eq. lia. }
  assert (Hge : py_leb p' p = py_leb q' q).
  { unfold py_leb, Z_ord. pose proof (Ho r c' c p' p q' q H2 H1 H4 H3). apply eq_true_iff_eq. lia. }
  by rewrite Hle, Hge.
Qed.

Lemma rank_facts_rankers A B : Forall2 same_evidence A B → (rank_facts A).*1 = (rank_facts B).*1.
Proof.
  induction 1 as [|a b l l' [_ Hab] Hl IH]; [done|]. unfold rank_facts in *.
  rewrite !bind_cons, !fmap_app, IH. f_equal. rewrite <- !list_fmap_compose.
  induction Hab as [|x y k k' [Hxy _] Hk IH']; [done|]. rewrite !fmap_cons, IH'. simpl.
  by rewrite Hxy.
Qed.

Section alike.
Context (A B B' : list (CandidateRef * CandidateRankEvidence)).
Context (HA : admitted_ok A) (HB : admitted_ok B) (HBB : B ≡ₚ B').
Context (HAB : Forall2 same_evidence A B') (Hord : same_order A B).

Lemma alike_B'_ok : admitted_ok B'.
Proof.
  destruct HB as [H1 H2 H3]. split; [by rewrite <- HBB|..]; intros ce; rewrite <- HBB; auto.
Qed.

Lemma smaller_agree r c p q :
  (c, p) ∈ entries r A → (c, q) ∈ entries r B →
  length (smaller entry_key (c, p) (entries r A)) = length (smaller entry_key (c, q) (entries r B)).
Proof.
  intros Hp Hq.
  assert (Hperm : smaller entry_key (c, q) (entries r B) ≡ₚ smaller entry_key (c, q) (entries r B'))
    by (unfold smaller; by rewrite (entries_perm B B')).
  rewrite Hperm. apply smaller_Forall2.
  pose proof (Forall2_elem _ _ _ (entries_Forall2 A B' r HA alike_B'_ok HAB)) as H.
  eapply Forall2_impl; [exact H|]. intros [c1 p1] [c2 p2] (H1 & H2 & Heq). simpl in Heq. subst c2.
  rewrite <- (entries_perm B B') in H2 by done. by eapply entry_key_order.
Qed.

Lemma entries_exist r c :
  (∃ p, (c, p) ∈ entries r A) ↔ (∃ q, (c, q) ∈ entries r B).
Proof.
  assert (Hf : (entries r A).*1 ≡ₚ (entries r B).*1).
  { rewrite (entries_perm B B' r HBB).
    pose proof (entries_Forall2 A B' r HA alike_B'_ok HAB) as H.
    induction H as [|x y l l' Hxy Hl IH]; [done|]. rewrite !fmap_cons, Hxy. by rewrite IH. }
  assert (Hex : ∀ l : list (CandidateRef * Z), (∃ p, (c, p) ∈ l) ↔ c ∈ l.*1).
  { intros l. rewrite list_elem_of_fmap. split; [intros [p Hp]; by exists (c, p)|].
    intros ([c' p] & -> & Hp). by exists p. }
  by rewrite !Hex, Hf.
Qed.

Lemma compacted_agree c r :
  dict_get (compact_positions (group_by_ranker A)) (c, r)
  = dict_get (compact_positions (group_by_ranker B)) (c, r).
Proof.
  apply option_eq. intros v. rewrite !compacted_get by done. split.
  - intros (p & Hp & ->). destruct (proj1 (entries_exist r c) (ex_intro _ p Hp)) as [q Hq].
    exists q. split; [done|]. by rewrite (smaller_agree r c p q).
  - intros (q & Hq & ->). destruct (proj2 (entries_exist r c) (ex_intro _ q Hq)) as [p Hp].
    exists p. split; [done|]. by rewrite (smaller_agree r c p q).
Qed.

Lemma rankers_agree r : r ∈ (group_by_ranker A).*1 ↔ r ∈ (group_by_ranker B).*1.
Proof.
  destruct (group_spec A) as (_ & Ha & _), (group_spec B) as (_ & Hb & _). rewrite Ha, Hb.
  rewrite (rank_facts_rankers A B' HAB). unfold rank_facts. by rewrite HBB.
Qed.
End alike.

(** ** The join without its impossible failures *)

Definition weight_of (w : option weight_map) (r : pystr) : float :=
  match w with
  | None => UNIFORM_RANKER_WEIGHT
  | Some ws => match to_float <$> dict_get ws r with Some (Ok f) => f | _ => fzero end
  end.

Definition weights_check (w : option weight_map) (refs : list pystr) : result unit :=
  match w with
  | None => Ok tt
  | Some ws =>
      require (forallb (λ r, bool_decide (r ∈ ws.*1)) refs) ValueError ;;
      bad ← any_result weight_bad ws.*2;
      require (negb bad) ValueError
  end.

Lemma any_result_false {A} (f : A → result bool) l :
  any_result f l = Ok false → ∀ x, x ∈ l → f x = Ok false.
Proof.
  induction l as [|y l IH]; simpl; [intros _ x Hx; by apply not_elem_of_nil in Hx|].
  destruct (f y) as [[]|] eqn:E; simpl; try done. intros H x [->|Hx]%elem_of_cons; auto.
Qed.

Lemma weights_pure w refs :
  _authorized_ranker_weights w refs
  = (weights_check w refs ;; Ok ((λ r, (r, weight_of w r)) <$> refs)).
Proof.
  destruct w as [ws|]; [|done]. unfold _authorized_ranker_weights, weights_check.
  destruct (forallb _ refs) eqn:Hsub; [|done]. simpl.
  destruct (any_result weight_bad ws.*2) as [[]|] eqn:Hbad; [done| |done]. simpl.
  apply map_result_pure. intros r Hr. rewrite forallb_forall in Hsub.
  apply list_elem_of_In, Hsub, bool_decide_eq_true in Hr.
  destruct (dict_get ws r) as [n|] eqn:E; [|by apply dict_get_None in E]. simpl.
  assert (Hn : weight_bad n = Ok false).
  { eapply any_result_false; [done|]. clear -E. induction ws as [|[k v] ws IH]; [done|].
    simpl in E. case_decide; simplify_eq/=; [left|right; by apply IH]. }
  unfold weight_bad, number_isfinite in Hn. by destruct (to_float n).
Qed.

Lemma weights_check_ext w refs refs' :
  (∀ r, r ∈ refs ↔ r ∈ refs') → weights_check w refs = weights_check w refs'.
Proof.
  intros H. destruct w as [ws|]; [|done]. unfold weights_check. do 2 f_equal.
  apply eq_true_iff_eq. rewrite !forallb_forall. setoid_rewrite <- list_elem_of_In.
  naive_solver.
Qed.

Definition score_of (w : option weight_map) (C : list (CandidateRef * pystr * Z))
    (ce : CandidateRef * CandidateRankEvidence) : CandidateRef * float :=
  (ce.1, py_sum ((λ r, fdiv (weight_of w (re_ranker_ref r))
                         (float_of_int (default 0 (dict_get C (ce.1, re_ranker_ref r)))))
                 <$> rk_per_ranker ce.2)).

Definition normalized_of (C : list (CandidateRef * pystr * Z)) (ranks : list (CandidateRef * Z))
    (ce : CandidateRef * CandidateRankEvidence) : CandidateRef * CandidateRankEvidence :=
  (ce.1, mkCandidateRankEvidence ce.1
    ((λ r, mkRankerEvidence (re_ranker_ref r) (default 0 (dict_get C (ce.1, re_ranker_ref r)))
             (re_score r)) <$> rk_per_ranker ce.2)
    (default 0 (dict_get ranks ce.1))).

Definition ranks_of (scores : list (CandidateRef * float)) : list (CandidateRef * Z) :=
  (λ rc, (rc.2, 2 * rc.1 - 1)) <$> enumerate 1 (sorted_by (score_key scores) scores.*1).

Definition neutral_of (ranks : list (CandidateRef * Z)) : Z :=
  match ranks with
  | [] => NEUTRAL_FUSED_RANK
  | _ => (min_list ranks.*2 + max_list ranks.*2) / 2
  end.

(** The final loop over the projections, and the sort of its items. *)
Definition join_items (K : kernel_scopes) (projections : list AuthorizedProjection)
    (ranks : list (CandidateRef * Z)) (normalized : list (CandidateRef * CandidateRankEvidence)) :
    result (list AuthorizedRerankItem) :=
  joined ← map_result (λ p,
    it ← new_AuthorizedRerankItem K p (dict_get normalized (candidate_ref p));
    Ok (mkAuthorizedRerankItem (it_projection it) (it_rank_evidence it)
          (default (neutral_of ranks) (dict_get ranks (candidate_ref p))))) projections;
  Ok (sorted_by item_key joined).

Section pure_join.
Context (A : list (CandidateRef * CandidateRankEvidence)) (HA : admitted_ok A).
Let C := compact_positions (group_by_ranker A).

Lemma compacted_present ce r :
  ce ∈ A → r ∈ rk_per_ranker ce.2 → ∃ v, dict_get C (ce.1, re_ranker_ref r) = Some v ∧ 1 ≤ v.
Proof.
  intros Hce Hr. eexists. split; [|shelve]. apply compacted_get; [done|].
  exists (re_position r). split; [|done]. apply elem_of_entries, elem_of_rank_facts.
  exists ce, r. split_and!; try done. by apply ao_key with A.
  Unshelve. lia.
Qed.

Lemma fused_scores_pure w :
  map_result (fused_score ((λ r, (r, weight_of w r)) <$> (group_by_ranker A).*1) C) A
  = Ok (score_of w C <$> A).
Proof.
  apply map_result_pure. intros ce Hce. unfold fused_score.
  rewrite (map_result_pure _ (λ r, fdiv (weight_of w (re_ranker_ref r))
    (float_of_int (default 0 (dict_get C (ce.1, re_ranker_ref r)))))); [done|].
  intros r Hr. destruct (compacted_present ce r Hce Hr) as (v & Hv & _).
  destruct (group_spec A) as (_ & Hk & Hnd). unfold lookup_or_KeyError.
  assert (Hin : re_ranker_ref r ∈ (group_by_ranker A).*1).
  { apply Hk, list_elem_of_fmap. eexists (_, (_, _)). split; [done|].
    apply elem_of_rank_facts. by exists ce, r. }
  rewrite (dict_get_fmap id (weight_of w) (group_by_ranker A).*1 (re_ranker_ref r)).
  - simpl. by rewrite Hv.
  - by rewrite list_fmap_id.
  - done.
Qed.

Lemma score_keys w : (score_of w C <$> A).*1 = A.*1.
Proof. by rewrite <- list_fmap_compose. Qed.

Lemma ranks_present w c :
  c ∈ A.*1 → ∃ v, dict_get (ranks_of (score_of w C <$> A)) c = Some v ∧ 1 ≤ v.
Proof.
  intros Hc. unfold ranks_of. set (l := sorted_by _ _).
  assert (Hl : c ∈ l) by (unfold l; by rewrite elem_of_sorted_by, score_keys).
  apply list_elem_of_lookup in Hl as [i Hi].
  exists (2 * (1 + Z.of_nat i) - 1). split; [|lia].
  assert (Hnd : NoDup ((λ rc : Z * CandidateRef, (rc.2, 2 * rc.1 - 1)) <$> enumerate 1 l).*1).
  { rewrite <- list_fmap_compose. change (fst ∘ _) with (snd : Z * CandidateRef → CandidateRef).
    rewrite enumerate_snd. apply NoDup_sorted_by. rewrite score_keys. apply HA. }
  apply dict_get_Some; [done|]. apply list_elem_of_fmap. exists (1 + Z.of_nat i, c).
  split; [done|]. apply list_elem_of_lookup. exists i. by apply enumerate_lookup.
Qed.

Lemma normalized_pure w :
  map_result (normalize_evidence C (ranks_of (score_of w C <$> A))) A
  = Ok (normalized_of C (ranks_of (score_of w C <$> A)) <$> A).
Proof.
  apply map_result_pure. intros ce Hce. unfold normalize_evidence.
  pose proof (ao_evidence A HA ce Hce) as (Hrs & Hev & _).
  rewrite (map_result_pure _ (λ r, mkRankerEvidence (re_ranker_ref r)
    (default 0 (dict_get C (ce.1, re_ranker_ref r))) (re_score r))).
  2:{ intros r Hr. destruct (compacted_present ce r Hce Hr) as (v & Hv & Hpos).
      unfold lookup_or_KeyError. rewrite Hv. cbn [mbind result_bind].
      rewrite Forall_forall in Hrs. specialize (Hrs r Hr). unfold new_RankerEvidence in *.
      apply bind_Ok in Hrs as (? & -> & Hrs). apply bind_Ok in Hrs as (? & _ & Hrs).
      apply bind_Ok in Hrs as ([] & -> & _). simpl.
      by rewrite (proj2 (Z.leb_le 1 v)). }
  cbn [mbind result_bind].
  destruct (ranks_present w ce.1) as (v & Hv & Hpos); [by apply list_elem_of_fmap_2|].
  unfold lookup_or_KeyError. rewrite Hv. cbn [mbind result_bind].
  unfold new_CandidateRankEvidence in *. rewrite <- list_fmap_compose.
  change (re_ranker_ref ∘ _) with re_ranker_ref.
  apply bind_Ok in Hev as (? & -> & Hev). apply bind_Ok in Hev as (? & -> & _). simpl.
  rewrite (proj2 (Z.leb_le 1 v)) by done. simpl. unfold normalized_of. by rewrite Hv.
Qed.
End pure_join.

(** Evidence for distinct candidates is the dictionary it builds. *)
Lemma evidence_dict E :
  NoDup (rk_candidate_ref <$> E) →
  foldl (λ d e, dict_set d (rk_candidate_ref e) e) [] E = (λ e, (rk_candidate_ref e, e)) <$> E.
Proof.
  intros H. pose proof (dict_update_fresh [] ((λ e, (rk_candidate_ref e, e)) <$> E)) as Hu.
  unfold dict_update in Hu. rewrite foldl_fmap in Hu. apply Hu. simpl.
  by rewrite <- list_fmap_compose.
Qed.

Lemma NoDup_fmap_filter {A B} (f : A → B) (P : A → Prop) `{!∀ x, Decision (P x)} l :
  NoDup (f <$> l) → NoDup (f <$> filter P l).
Proof.
  induction l as [|x l IH]; [done|]. rewrite fmap_cons, filter_cons. intros [Hx Hl]%NoDup_cons.
  case_decide; [|by apply IH]. rewrite fmap_cons. constructor; [|by apply IH].
  intros (y & Heq & [_ Hy]%list_elem_of_filter)%list_elem_of_fmap. apply Hx.
  rewrite Heq. by apply list_elem_of_fmap_2.
Qed.

Lemma elem_of_admitted P E ce :
  NoDup (rk_candidate_ref <$> E) →
  ce ∈ admitted_evidence P E ↔
    ce.2 ∈ E ∧ ce.1 = rk_candidate_ref ce.2 ∧ ce.1 ∈ candidate_ref <$> P.
Proof.
  intros H. unfold admitted_evidence.
  rewrite evidence_dict, list_elem_of_filter by done. split.
  - intros (Hp & (e & -> & He)%list_elem_of_fmap). done.
  - destruct ce as [c e]. simpl. intros (He & -> & Hp). split; [done|].
    apply list_elem_of_fmap. by exists e.
Qed.

Lemma admitted_evidence_ok P E :
  NoDup (rk_candidate_ref <$> E) → Forall rank_evidence_ok E → admitted_ok (admitted_evidence P E).
Proof.
  intros Hnd HE. split.
  - unfold admitted_evidence. rewrite evidence_dict by done. apply NoDup_fmap_filter.
    by rewrite <- list_fmap_compose.
  - intros ce Hce. by apply elem_of_admitted in Hce as (_ & ? & _).
  - intros ce (He & _ & _)%elem_of_admitted; [|done]. rewrite Forall_forall in HE. by apply HE.
Qed.

Lemma join_pure K P E w :
  NoDup (rk_candidate_ref <$> E) → Forall rank_evidence_ok E →
  let A := admitted_evidence P E in
  let C := compact_positions (group_by_ranker A) in
  let ranks := ranks_of (score_of w C <$> A) in
  join_authorized_ranking K P E w
  = (weights_check w (group_by_ranker A).*1 ;;
     join_items K P ranks (normalized_of C ranks <$> A)).
Proof.
  intros Hnd HE A C ranks. pose proof (admitted_evidence_ok P E Hnd HE) as HA.
  unfold join_authorized_ranking. rewrite evidence_dict by done.
  assert (Hlen : len ((λ e, (rk_candidate_ref e, e)) <$> E) =? len E = true)
    by (unfold len; rewrite length_fmap; lia).
  rewrite Hlen. cbn [require mbind result_bind]. fold A C. rewrite weights_pure.
  destruct (weights_check w (group_by_ranker A).*1) as [[]|]; [|done]. cbn [mbind result_bind].
  unfold A, C. rewrite (fused_scores_pure _ HA). cbn [mbind result_bind].
  fold A C. fold (ranks_of (score_of w C <$> A)). fold ranks. unfold ranks, A, C.
  rewrite (normalized_pure _ HA). done.
Qed.

Lemma map_result_ext {A B} (f g : A → result B) l :
  (∀ x, f x = g x) → map_result f l = map_result g l.
Proof. intros H. induction l as [|x l IH]; simpl; [done|]. by rewrite H, IH. Qed.

Lemma score_key_inj scores c c' :
  uuid_ok (cr_organization_id c) → uuid_ok (cr_organization_id c') →
  key_le (score_key scores) c c' → key_le (score_key scores) c' c → c = c'.
Proof.
  unfold key_le, score_key. intros Hu Hu' H1 H2.
  destruct (pair_leb_second _ _ _ _ H1 H2) as (_ & _ & ? & ?). by apply candidate_key_inj.
Qed.

Lemma ranks_of_perm S T :
  NoDup S.*1 → (∀ c, c ∈ S.*1 → uuid_ok (cr_organization_id c)) → S ≡ₚ T → ranks_of S = ranks_of T.
Proof.
  intros Hnd Hu HST. unfold ranks_of. do 2 f_equal.
  assert (Hkey : ∀ c, score_key S c = score_key T c)
    by (intros c; unfold score_key; by rewrite (dict_get_perm S T c Hnd HST)).
  rewrite (sorted_by_unique (score_key S) S.*1 T.*1).
  - pose proof (sorted_by_map id (score_key S) (score_key T) T.*1) as Hm.
    rewrite !list_fmap_id in Hm. symmetry. apply Hm. intros c _. simpl. by rewrite Hkey.
  - intros x y Hx Hy. apply score_key_inj; by apply Hu.
  - by rewrite HST.
Qed.

(** Evidence that agrees up to the numbering of positions gives the same ranking. *)
Lemma join_alike K P E F B w :
  NoDup (rk_candidate_ref <$> E) → Forall rank_evidence_ok E →
  NoDup (rk_candidate_ref <$> F) → Forall rank_evidence_ok F →
  admitted_evidence P F ≡ₚ B → Forall2 same_evidence (admitted_evidence P E) B →
  same_order (admitted_evidence P E) (admitted_evidence P F) →
  join_authorized_ranking K P E w = join_authorized_ranking K P F w.
Proof.
  intros HnE HE HnF HF HB HAB Hord. rewrite !join_pure by done.
  pose proof (admitted_evidence_ok P E HnE HE) as HA1.
  pose proof (admitted_evidence_ok P F HnF HF) as HA2.
  set (A1 := admitted_evidence P E) in *. set (A2 := admitted_evidence P F) in *.
  rewrite (weights_check_ext w (group_by_ranker A1).*1 (group_by_ranker A2).*1)
    by (intros r; by eapply rankers_agree).
  set (C1 := compact_positions (group_by_ranker A1)).
  set (C2 := compact_positions (group_by_ranker A2)).
  assert (HC : ∀ c r, dict_get C1 (c, r) = dict_get C2 (c, r))
    by (intros c r; by apply (compacted_agree A1 A2 B)).
  assert (Hmap : ∀ {X} (f g : CandidateRef * CandidateRankEvidence → X),
            (∀ a b, same_evidence a b → f a = g b) → f <$> A1 ≡ₚ g <$> A2).
  { intros X f g Hfg. rewrite HB. clear -HAB Hfg.
    induction HAB as [|a b l l' Hab Hl IH]; [done|]. by rewrite !fmap_cons, (Hfg a b), IH. }
  assert (Hper : ∀ {X} (f g : CandidateRef → RankerEvidence → X) a b, same_evidence a b →
            (∀ c x y, same_ranker x y → f c x = g c y) →
            f a.1 <$> rk_per_ranker a.2 = g b.1 <$> rk_per_ranker b.2).
  { intros X f g a b [Hab1 Hab2] Hf. rewrite Hab1. induction Hab2 as [|x y k k' Hxy Hk IH]; [done|].
    by rewrite !fmap_cons, (Hf b.1 x y), IH. }
  assert (HS : ranks_of (score_of w C1 <$> A1) = ranks_of (score_of w C2 <$> A2)).
  { assert (Hkeys : (score_of w C1 <$> A1).*1 = A1.*1) by (by rewrite <- list_fmap_compose).
    apply ranks_of_perm; rewrite ?Hkeys.
    - apply HA1.
    - intros c (ce & -> & Hce)%list_elem_of_fmap. rewrite (ao_key A1 HA1 ce Hce).
      by apply (ao_evidence A1 HA1 ce Hce).
    - apply Hmap. intros a b Hab. unfold score_of. f_equal; [apply Hab|]. f_equal.
      apply (Hper _
        (λ c r, fdiv (weight_of w (re_ranker_ref r))
                  (float_of_int (default 0 (dict_get C1 (c, re_ranker_ref r)))))
        (λ c r, fdiv (weight_of w (re_ranker_ref r))
                  (float_of_int (default 0 (dict_get C2 (c, re_ranker_ref r)))))); [done|].
      intros c x y [Hxy _]. by rewrite Hxy, HC. }
  rewrite HS. set (ranks := ranks_of (score_of w C2 <$> A2)).
  assert (HN : ∀ c, dict_get (normalized_of C1 ranks <$> A1) c
                    = dict_get (normalized_of C2 ranks <$> A2) c).
  { intros c. apply dict_get_perm; [rewrite <- list_fmap_compose; apply HA1|].
    apply Hmap. intros a b Hab. unfold normalized_of. destruct (Hab) as [Hk _].
    f_equal; [done|]. f_equal; [done| |by rewrite Hk].
    apply (Hper _
      (λ c r, mkRankerEvidence (re_ranker_ref r) (default 0 (dict_get C1 (c, re_ranker_ref r)))
                (re_score r))
      (λ c r, mkRankerEvidence (re_ranker_ref r) (default 0 (dict_get C2 (c, re_ranker_ref r)))
                (re_score r))); [done|].
    intros c' x y [Hxy Hs]. by rewrite Hxy, Hs, HC. }
  unfold join_items. f_equal.
  rewrite (map_result_ext _ (λ p,
    it ← new_AuthorizedRerankItem K p (dict_get (normalized_of C2 ranks <$> A2) (candidate_ref p));
    Ok (mkAuthorizedRerankItem (it_projection it) (it_rank_evidence it)
          (default (neutral_of ranks) (dict_get ranks (candidate_ref p)))))); [done|].
  intros p. by rewrite HN.
Qed.

(** ** Deleting candidates from a submission *)

Definition restrict_list (refs : list CandidateRef) (l : RankedCandidateList) : RankedCandidateList :=
  mkRankedCandidateList (rl_ranker_ref l)
    (filter (λ c, rc_candidate_ref c ∈ refs) (rl_candidates l)).

(** The submission as if the index had never named any other candidate. *)
Definition restrict_query (refs : list CandidateRef) (q : CandidateQuery) : CandidateQuery :=
  mkCandidateQuery (restrict_list refs <$> ranked_lists q).

Lemma first_occurrence_ge c start l p s :
  first_occurrence c (enumerate start l) = Some (p, s) → start ≤ p.
Proof.
  revert start. induction l as [|x l IH]; intros start; simpl; [done|].
  case_decide; [naive_solver lia|]. intros Hge%IH. lia.
Qed.

Section restrict.
Context (refs : list CandidateRef).
Let keep (l : list RankedCandidate) := filter (λ c, rc_candidate_ref c ∈ refs) l.

Lemma first_occurrence_restrict c l s s' :
  c ∈ refs →
  match first_occurrence c (enumerate s l), first_occurrence c (enumerate s' (keep l)) with
  | Some (_, x), Some (_, y) => x = y
  | None, None => True
  | _, _ => False
  end.
Proof.
  intros Hc. revert s s'. induction l as [|x l IH]; intros s s'; simpl; [done|].
  unfold keep. rewrite filter_cons. case_decide as Hx.
  - subst c. rewrite decide_True by done. simpl. by rewrite decide_True.
  - case_decide; simpl; [rewrite decide_False by done|]; apply IH.
Qed.

Lemma first_occurrence_order c c' l s s' p p' q q' a a' b b' :
  c ∈ refs → c' ∈ refs →
  first_occurrence c (enumerate s l) = Some (p, a) →
  first_occurrence c' (enumerate s l) = Some (p', a') →
  first_occurrence c (enumerate s' (keep l)) = Some (q, b) →
  first_occurrence c' (enumerate s' (keep l)) = Some (q', b') →
  p ≤ p' ↔ q ≤ q'.
Proof.
  intros Hc Hc'. revert s s'. induction l as [|x l IH]; intros s s'; [done|].
  unfold keep. rewrite filter_cons. cbn [enumerate first_occurrence].
  destruct (decide (rc_candidate_ref x ∈ refs)) as [Hx|Hx].
  - cbn [enumerate first_occurrence].
    destruct (decide (rc_candidate_ref x = c)) as [Hxc|Hxc],
      (decide (rc_candidate_ref x = c')) as [Hxc'|Hxc'].
    + intros [= <- _] [= <- _] [= <- _] [= <- _]. lia.
    + intros [= <- _] H2%first_occurrence_ge [= <- _] H4%first_occurrence_ge. lia.
    + intros H1%first_occurrence_ge [= <- _] H3%first_occurrence_ge [= <- _]. lia.
    + apply IH.
  - rewrite !decide_False by (by intros <-). apply IH.
Qed.

Lemma evidence_spec_restrict ls c :
  c ∈ refs → Forall2 same_ranker (evidence_spec ls c) (evidence_spec (restrict_list refs <$> ls) c).
Proof.
  intros Hc. unfold evidence_spec. induction ls as [|l ls IH]; [constructor|].
  rewrite fmap_cons, !bind_cons. apply Forall2_app; [|done].
  pose proof (first_occurrence_restrict c (rl_candidates l) 1 1 Hc) as H. unfold keep in H. simpl.
  destruct (first_occurrence c (enumerate 1 (rl_candidates l))) as [[p x]|];
    destruct (first_occurrence c (enumerate 1 (filter _ _))) as [[q y]|]; try done; simpl.
  subst. by repeat constructor.
Qed.

Lemma restrict_query_ok q : query_ok q → query_ok (restrict_query refs q).
Proof.
  intros [Hq Hls]. apply query_post_init_Ok in Hq as [Hne Hnd]. split.
  - apply query_post_init_Ok. simpl. split; [by intros ?%fmap_nil_inv|].
    by rewrite <- list_fmap_compose.
  - simpl. apply Forall_fmap. eapply Forall_impl; [exact Hls|]. intros l [H1 H2]. split; [done|].
    apply Forall_forall. intros x [_ Hx]%list_elem_of_filter. rewrite Forall_forall in H2. by apply H2.
Qed.

Lemma restrict_submitted q c :
  c ∈ submitted_refs (restrict_query refs q) ↔ c ∈ refs ∧ c ∈ submitted_refs q.
Proof.
  unfold submitted_refs. simpl. rewrite !list_elem_of_bind. split.
  - intros (l & Hc & (l0 & -> & Hl)%list_elem_of_fmap).
    apply list_elem_of_fmap in Hc as (x & -> & [Hr Hx]%list_elem_of_filter).
    split; [done|]. exists l0. split; [by apply list_elem_of_fmap_2|done].
  - intros (Hr & l & (x & -> & Hx)%list_elem_of_fmap & Hl). exists (restrict_list refs l).
    split; [|by apply list_elem_of_fmap_2]. apply list_elem_of_fmap_2. by apply list_elem_of_filter.
Qed.
End restrict.

(** The rank evidence of a fusion is well formed. *)
Lemma evidence_spec_valid ls c re :
  Forall ranked_list_ok ls → re ∈ evidence_spec ls c →
  new_RankerEvidence (re_ranker_ref re) (re_position re) (re_score re) = Ok re.
Proof.
  intros Hls (l & Hre & Hl)%list_elem_of_bind. rewrite Forall_forall in Hls.
  destruct (ranked_list_items l (Hls l Hl)) as [Hr Hitems].
  destruct (first_occurrence c (enumerate 1 (rl_candidates l))) as [[p s]|] eqn:E;
    [|by apply not_elem_of_nil in Hre].
  simpl in Hre. apply list_elem_of_singleton in Hre as ->. simpl.
  assert (Hv : 1 ≤ p ∧ _require_optional_score s = Ok tt).
  { clear -E Hitems. induction Hitems as [|[i x] items [Hi Hx] Hrest IH]; simpl in E; [done|].
    case_decide; [by simplify_eq|by apply IH]. }
  by apply new_RankerEvidence_Ok; [|apply Hv|apply Hv].
Qed.

Lemma fused_evidence_ok q f :
  query_ok q → (∀ c, c ∈ submitted_refs q → uuid_ok (cr_organization_id c)) →
  fuse_candidate_evidence q = Ok f →
  NoDup (rk_candidate_ref <$> rank_evidence f) ∧ Forall rank_evidence_ok (rank_evidence f)
  ∧ (∀ c, c ∈ rk_candidate_ref <$> rank_evidence f ↔ c ∈ submitted_refs q)
  ∧ (∀ e, e ∈ rank_evidence f → rk_per_ranker e = evidence_spec (ranked_lists q) (rk_candidate_ref e)).
Proof.
  intros Hq Hu Hf. destruct (fuse_spec q Hq) as (refs & scores & Hf' & Hnd & Hin & _).
  rewrite Hf in Hf'. injection Hf' as ->. simpl. rewrite evidence_entries_refs.
  split_and!; try done.
  - apply Forall_fmap, Forall_forall. intros [i c] Hic.
    pose proof (enumerate_ge _ _ _ _ Hic) as Hi.
    assert (Hc : c ∈ refs).
    { rewrite <- (enumerate_snd 1 refs). apply list_elem_of_fmap. by exists (i, c). }
    apply Hin in Hc. destruct Hq as [[_ Hrl]%query_post_init_Ok Hls]. split_and!; simpl.
    + apply Forall_forall. intros re Hre. by eapply evidence_spec_valid.
    + unfold new_CandidateRankEvidence. rewrite (bool_decide_eq_false_2 (_ = [])).
      2:{ by intros ?%fmap_nil_inv%evidence_spec_nil. }
      unfold nodupb. rewrite bool_decide_eq_true_2 by (by apply evidence_spec_rankers). simpl.
      by rewrite (proj2 (Z.leb_le 1 i)) by lia.
    + by apply Hu.
  - intros e (ic & -> & _)%list_elem_of_fmap. done.
Qed.

Lemma entries_origin P q f r c p :
  query_ok q → (∀ c, c ∈ submitted_refs q → uuid_ok (cr_organization_id c)) →
  fuse_candidate_evidence q = Ok f → (c, p) ∈ entries r (admitted_evidence P (rank_evidence f)) →
  c ∈ candidate_ref <$> P
  ∧ ∃ l s, l ∈ ranked_lists q ∧ rl_ranker_ref l = r
      ∧ first_occurrence c (enumerate 1 (rl_candidates l)) = Some (p, s).
Proof.
  intros Hq Hu Hf (ce & re & Hce & Hre & -> & -> & ->)%elem_of_entries%elem_of_rank_facts.
  destruct (fused_evidence_ok q f Hq Hu Hf) as (Hnd & _ & _ & Hev).
  apply elem_of_admitted in Hce as (He & Hk & Hp); [|done]. rewrite Hk in Hp. split; [done|].
  rewrite (Hev _ He) in Hre. apply list_elem_of_bind in Hre as (l & Hre & Hl).
  destruct (first_occurrence _ _) as [[p s]|] eqn:E; simpl in Hre; [|by apply not_elem_of_nil in Hre].
  apply list_elem_of_singleton in Hre as ->. exists l, s. split_and!; [done|done|]. by rewrite E.
Qed.

Lemma NoDup_fmap_inj_on {A B} (f : A → B) l x y :
  NoDup (f <$> l) → x ∈ l → y ∈ l → f x = f y → x = y.
Proof.
  induction l as [|z l IH]; intros Hnd Hx Hy Hf; [by apply not_elem_of_nil in Hx|].
  rewrite fmap_cons in Hnd. apply NoDup_cons in Hnd as [Hz Hnd].
  apply elem_of_cons in Hx as [->|Hx], Hy as [->|Hy]; auto.
  - destruct Hz. rewrite Hf. by apply list_elem_of_fmap_2.
  - destruct Hz. rewrite <- Hf. by apply list_elem_of_fmap_2.
Qed.

(** A dictionary can be listed in the order of any list of its keys. *)
Lemma reorder {A B} (f : A → B) l k :
  f <$> l ≡ₚ k → ∃ l', l ≡ₚ l' ∧ f <$> l' = k.
Proof.
  intros H. apply Permutation_sym, Permutation_map_inv in H as (l' & -> & Hp). by exists l'.
Qed.

Lemma restricted_order P q f g :
  query_ok q → (∀ c, c ∈ submitted_refs q → uuid_ok (cr_organization_id c)) →
  fuse_candidate_evidence q = Ok f →
  fuse_candidate_evidence (restrict_query (candidate_ref <$> P) q) = Ok g →
  same_order (admitted_evidence P (rank_evidence f)) (admitted_evidence P (rank_evidence g)).
Proof.
  intros Hq Hu Hf Hg. set (refs := candidate_ref <$> P) in *.
  assert (Hu' : ∀ c, c ∈ submitted_refs (restrict_query refs q) → uuid_ok (cr_organization_id c))
    by (intros c [_ Hc]%restrict_submitted; by apply Hu).
  pose proof (restrict_query_ok refs q Hq) as Hrq.
  intros r c c' p p' x x' H1 H2 H3 H4.
  destruct (entries_origin P q f r c p Hq Hu Hf H1) as (Hc & l1 & s1 & Hl1 & Hr1 & E1).
  destruct (entries_origin P q f r c' p' Hq Hu Hf H2) as (Hc' & l2 & s2 & Hl2 & Hr2 & E2).
  destruct (entries_origin P _ g r c x Hrq Hu' Hg H3) as (_ & l3 & s3 & Hl3 & Hr3 & E3).
  destruct (entries_origin P _ g r c' x' Hrq Hu' Hg H4) as (_ & l4 & s4 & Hl4 & Hr4 & E4).
  apply list_elem_of_fmap in Hl3 as (m3 & -> & Hl3), Hl4 as (m4 & -> & Hl4). simpl in *.
  destruct Hq as [[_ Hnd]%query_post_init_Ok _].
  assert (l2 = l1) as -> by (eapply (NoDup_fmap_inj_on rl_ranker_ref); try done; congruence).
  assert (m3 = l1) as -> by (eapply (NoDup_fmap_inj_on rl_ranker_ref); try done; congruence).
  assert (m4 = l1) as -> by (eapply (NoDup_fmap_inj_on rl_ranker_ref); try done; congruence).
  eapply (first_occurrence_order refs c c' (rl_candidates l1) 1 1); eassumption.
Qed.

(** The join returns one item per projection, in some order. *)
Lemma join_items_Ok K P ranks N items :
  join_items K P ranks N = Ok items →
  it_projection <$> items ≡ₚ P
  ∧ ∀ it, it ∈ items → projection_active K (it_projection it)
      ∧ it_rank_evidence it = dict_get N (candidate_ref (it_projection it))
      ∧ it_fused_rank it = default (neutral_of ranks) (dict_get ranks (candidate_ref (it_projection it)))
      ∧ ∀ e, it_rank_evidence it = Some e → rk_candidate_ref e = candidate_ref (it_projection it).
Proof.
  unfold join_items. intros H. apply bind_Ok in H as (joined & Hj%map_result_Ok & [= <-]).
  assert (Hone : Forall2 (λ p it, it_projection it = p ∧ projection_active K (it_projection it)
      ∧ it_rank_evidence it = dict_get N (candidate_ref (it_projection it))
      ∧ it_fused_rank it = default (neutral_of ranks) (dict_get ranks (candidate_ref (it_projection it)))
      ∧ ∀ e, it_rank_evidence it = Some e → rk_candidate_ref e = candidate_ref (it_projection it)) P joined).
  { eapply Forall2_impl; [exact Hj|]. intros p it Hit. apply bind_Ok in Hit as (it' & Hit' & [= <-]).
    simpl. unfold new_AuthorizedRerankItem in Hit'. apply bind_Ok in Hit' as ([] & Ha & Hit').
    apply require_active_Ok in Ha.
    destruct (dict_get N (candidate_ref p)) as [e|] eqn:E; [|by simplify_eq/=].
    apply bind_Ok in Hit' as (? & Heq%require_Ok%bool_decide_eq_true & [= <-]). simpl.
    split_and!; try done. by intros e' [= <-]. }
  split.
  - rewrite sorted_by_perm. clear -Hone. induction Hone as [|p it P joined (<- & _) _ IH]; [done|].
    by rewrite fmap_cons, IH.
  - intros it Hit. rewrite elem_of_sorted_by in Hit. clear -Hone Hit.
    induction Hone as [|p it' P joined (_ & Hx) _ IH]; [by apply not_elem_of_nil in Hit|].
    apply elem_of_cons in Hit as [->|Hit]; [done|by apply IH].
Qed.

Lemma join_items_total K P ranks N :
  Forall (projection_active K) P → (∀ c e, dict_get N c = Some e → rk_candidate_ref e = c) →
  ∃ items, join_items K P ranks N = Ok items.
Proof.
  intros HP HN. unfold join_items.
  rewrite (map_result_pure _ (λ p, mkAuthorizedRerankItem p (dict_get N (candidate_ref p))
    (default (neutral_of ranks) (dict_get ranks (candidate_ref p))))); [eauto|].
  intros p Hp. rewrite Forall_forall in HP. unfold new_AuthorizedRerankItem.
  rewrite (proj2 (require_active_Ok K p tt) (HP p Hp)). simpl.
  destruct (dict_get N (candidate_ref p)) as [e|] eqn:E; [|done].
  by rewrite bool_decide_eq_true_2 by (by apply HN).
Qed.

(** ** Properties *)

(** C10: Denied candidates cannot influence the ranking.  Fuse a submission, authorize
    any set of projections and join; then fuse the same submission with every
    candidate that was not authorized deleted from every ranker's list, and join
    again: the two results are equal, item by item and error by error, in their
    order, ranks and carried evidence. *)
Theorem ranking_noninterference K P q w f g :
  query_ok q → (∀ c, c ∈ submitted_refs q → uuid_ok (cr_organization_id c)) →
  fuse_candidate_evidence q = Ok f →
  fuse_candidate_evidence (restrict_query (candidate_ref <$> P) q) = Ok g →
  join_authorized_ranking K P (rank_evidence f) w = join_authorized_ranking K P (rank_evidence g) w.
Proof.
  intros Hq Hu Hf Hg. set (refs := candidate_ref <$> P) in *.
  assert (Hu' : ∀ c, c ∈ submitted_refs (restrict_query refs q) → uuid_ok (cr_organization_id c))
    by (intros c [_ Hc]%restrict_submitted; by apply Hu).
  destruct (fused_evidence_ok q f Hq Hu Hf) as (Hnf & Hokf & Hinf & Hevf).
  destruct (fused_evidence_ok _ g (restrict_query_ok refs q Hq) Hu' Hg) as (Hng & Hokg & Hing & Hevg).
  pose proof (admitted_evidence_ok P _ Hnf Hokf) as HA.
  pose proof (admitted_evidence_ok P _ Hng Hokg) as HB.
  assert (Hkey : ∀ E c, NoDup (rk_candidate_ref <$> E) → c ∈ (admitted_evidence P E).*1 ↔
            c ∈ rk_candidate_ref <$> E ∧ c ∈ refs).
  { intros E c HE. rewrite !list_elem_of_fmap. split.
    - intros (ce & -> & (He & Hk & Hp)%elem_of_admitted); [|done]. split; [|done]. by exists ce.2.
    - intros ((e & -> & He) & Hp). exists (rk_candidate_ref e, e). split; [done|].
      by apply elem_of_admitted. }
  destruct (reorder fst (admitted_evidence P (rank_evidence g))
              (admitted_evidence P (rank_evidence f)).*1) as (B & HBp & HBk).
  { apply NoDup_Permutation; [apply HB|apply HA|]. intros c.
    rewrite !Hkey, Hinf, Hing, restrict_submitted by done. tauto. }
  apply (join_alike K P _ _ B w); try done; [|by apply (restricted_order P q)].
  assert (HBin : ∀ ce, ce ∈ B → ce ∈ admitted_evidence P (rank_evidence g))
    by (intros ce; by rewrite HBp).
  assert (HAin : ∀ ce, ce ∈ admitted_evidence P (rank_evidence f) →
            ce ∈ admitted_evidence P (rank_evidence f)) by done.
  revert HBin HAin HBk. generalize (admitted_evidence P (rank_evidence f)) at 1 3 4 as A.
  clear HBp. intros A. revert B. induction A as [|a A IH]; intros [|b B] HBin HAin Hk; try done.
  rewrite !fmap_cons in Hk. injection Hk as Hab Hk. constructor.
  2:{ apply IH; [..|done]; intros ce Hce; [apply HBin|apply HAin]; by right. }
  destruct (proj1 (elem_of_admitted P _ a Hnf) (HAin a ltac:(by left))) as (Ha & Hka & Hpa).
  destruct (proj1 (elem_of_admitted P _ b Hng) (HBin b ltac:(by left))) as (Hb & Hkb & _).
  split; [done|]. rewrite (Hevf _ Ha), (Hevg _ Hb), <- Hka, <- Hkb, Hab. simpl.
  apply evidence_spec_restrict. exact Hpa.
Qed.

(** Joining loses and adds nothing: for live projections, well-formed evidence and
    weights that cover the admitted rankers it returns exactly one item per
    projection, each carrying only evidence for its own candidate, in increasing
    order of (fused rank, candidate key). *)
Theorem join_ranking_permutes K P E w :
  Forall (projection_active K) P →
  NoDup (rk_candidate_ref <$> E) → Forall rank_evidence_ok E →
  weights_check w (group_by_ranker (admitted_evidence P E)).*1 = Ok tt →
  ∃ items, join_authorized_ranking K P E w = Ok items
    ∧ it_projection <$> items ≡ₚ P
    ∧ StronglySorted (key_le item_key) items
    ∧ ∀ it e, it ∈ items → it_rank_evidence it = Some e →
        rk_candidate_ref e = candidate_ref (it_projection it)
        ∧ rk_candidate_ref e ∈ rk_candidate_ref <$> E.
Proof.
  intros HP Hnd HE Hw. rewrite join_pure by done. rewrite Hw. cbn [mbind result_bind].
  pose proof (admitted_evidence_ok P E Hnd HE) as HA.
  set (A := admitted_evidence P E) in *. set (C := compact_positions _).
  set (ranks := ranks_of _). set (N := normalized_of C ranks <$> A).
  assert (HN : ∀ c e, dict_get N c = Some e → rk_candidate_ref e = c ∧ c ∈ A.*1).
  { intros c e He. apply dict_get_Some in He; [|unfold N; rewrite <- list_fmap_compose; apply HA].
    apply list_elem_of_fmap in He as (ce & [= -> ->] & Hce). split; [done|].
    by apply list_elem_of_fmap_2. }
  destruct (join_items_total K P ranks N HP) as [items Hitems]; [naive_solver|].
  exists items. split; [done|]. destruct (join_items_Ok _ _ _ _ _ Hitems) as [Hperm Hits].
  split_and!; [done| |].
  - unfold join_items in Hitems. apply bind_Ok in Hitems as (joined & _ & [= <-]).
    apply sorted_by_sorted. apply _.
  - intros it e Hit He. destruct (Hits it Hit) as (_ & Hev & _ & Hown). split; [by apply Hown|].
    rewrite Hev in He. apply HN in He as [-> Hin].
    apply list_elem_of_fmap in Hin as (ce & -> & (Hce & -> & _)%elem_of_admitted); [|done].
    by apply list_elem_of_fmap_2.
Qed.

(** ** Packing *)

Definition item_tokens (it : AuthorizedRerankItem) : Z := len (utf8 (projected_body (it_projection it))).
Definition total_tokens (l : list AuthorizedRerankItem) : Z := sum_Z (item_tokens <$> l).
Definition encodable (it : AuthorizedRerankItem) : Prop :=
  existsb is_surrogate (projected_body (it_projection it)) = false.

Lemma total_tokens_cons it l : total_tokens (it :: l) = item_tokens it + total_tokens l.
Proof. reflexivity. Qed.

Lemma total_tokens_app l k : total_tokens (l ++ k) = total_tokens l + total_tokens k.
Proof.
  unfold total_tokens. rewrite fmap_app. induction (item_tokens <$> l) as [|x xs IH]; simpl; lia.
Qed.

Lemma select_loop_app m c l k :
  select_loop m c (l ++ k)
  = (s ← select_loop m c l; t ← select_loop m (c + total_tokens s) k; Ok (s ++ t)).
Proof.
  revert c. induction l as [|it l IH]; intros c.
  { simpl. change (total_tokens []) with 0. rewrite Z.add_0_r. by destruct (select_loop m c k). }
  cbn [app select_loop]. unfold encode_utf8. destruct (existsb _ _); [done|]. cbn [mbind result_bind].
  destruct (m <? _); [apply IH|]. rewrite IH.
  destruct (select_loop m _ l) as [s|]; [|done]. simpl.
  replace (c + total_tokens (it :: s)) with (c + len (utf8 (projected_body (it_projection it))) + total_tokens s)
    by (rewrite total_tokens_cons; unfold item_tokens; lia).
  by destruct (select_loop m _ k).
Qed.

Lemma select_loop_total m c l :
  Forall encodable l → c ≤ m →
  ∃ s, select_loop m c l = Ok s ∧ s `sublist_of` l ∧ c + total_tokens s ≤ m.
Proof.
  intros H. revert c. induction H as [|it l Hit Hl IH]; intros c Hc.
  { exists []. split_and!; try done. unfold total_tokens. simpl. lia. }
  cbn [select_loop]. unfold encode_utf8. rewrite Hit. cbn [mbind result_bind].
  destruct (Z.ltb_spec m (c + len (utf8 (projected_body (it_projection it))))) as [Hlt|Hle].
  - destruct (IH c Hc) as (s & -> & Hs & Ht). exists s. split_and!; try done. by apply sublist_cons.
  - destruct (IH (c + len (utf8 (projected_body (it_projection it))))) as (s & -> & Hs & Ht); [lia|].
    exists (it :: s). split_and!; [done|by apply sublist_skip|].
    rewrite total_tokens_cons. unfold item_tokens. lia.
Qed.

(** Packing a ranking to a budget keeps the order, never exceeds the token
    budget, and is the greedy choice: the result on any prefix is a prefix of the
    result, and the next item is taken exactly when it still fits after what was
    taken before it. *)
Theorem selection_is_greedy joined budget :
  Forall encodable joined → 0 ≤ max_tokens budget →
  ∃ sel, select_authorized_ranking joined budget = Ok sel
    ∧ sel `sublist_of` joined ∧ total_tokens sel ≤ max_tokens budget
    ∧ ∀ before it after, joined = before ++ it :: after →
        ∃ taken rest, select_authorized_ranking before budget = Ok taken
          ∧ sel = taken ++ (if total_tokens taken + item_tokens it <=? max_tokens budget
                            then [it] else []) ++ rest.
Proof.
  intros He Hb. unfold select_authorized_ranking.
  destruct (select_loop_total (max_tokens budget) 0 joined He Hb) as (sel & Hsel & Hsub & Htot).
  exists sel. split_and!; [done|done|lia|]. intros before it after ->.
  rewrite select_loop_app in Hsel. apply bind_Ok in Hsel as (taken & Ht & Hsel). rewrite Ht.
  apply bind_Ok in Hsel as (t & Hrest & [= <-]). exists taken.
  cbn [select_loop] in Hrest. unfold encode_utf8 in Hrest. unfold item_tokens.
  destruct (existsb is_surrogate _); [done|]. cbn [mbind result_bind] in Hrest.
  rewrite Z.add_0_l in Hrest.
  destruct (Z.ltb_spec (max_tokens budget)
    (total_tokens taken + len (utf8 (projected_body (it_projection it))))) as [Hlt|Hle].
  - rewrite (proj2 (Z.leb_gt _ _)) by lia. by exists t.
  - rewrite (proj2 (Z.leb_le _ _)) by lia. apply bind_Ok in Hrest as (rest & _ & [= <-]). by exists rest.
Qed.

(** ** Concrete instances *)

Definition demo_fused : FusedCandidates :=
  match fuse_candidate_evidence demo_query with Ok f => f | Err _ => mkFusedCandidates [] [] end.
Definition demo_restricted : CandidateQuery := restrict_query (candidate_ref <$> demo_projections) demo_query.
Definition demo_fused_restricted : FusedCandidates :=
  match fuse_candidate_evidence demo_restricted with Ok f => f | Err _ => mkFusedCandidates [] [] end.

Lemma demo_uuids c : c ∈ submitted_refs demo_query → uuid_ok (cr_organization_id c).
Proof.
  intros Hc. assert (H : Forall (λ c, cr_organization_id c = mkUUID 5) (submitted_refs demo_query))
    by (repeat constructor).
  rewrite Forall_forall in H. rewrite (H c Hc). unfold uuid_ok. simpl. lia.
Qed.

Lemma ranking_noninterference_witness :
  join_authorized_ranking [true] demo_projections (rank_evidence demo_fused) None
  = join_authorized_ranking [true] demo_projections (rank_evidence demo_fused_restricted) None
  ∧ length (candidate_refs demo_fused) = 3%nat
  ∧ length (candidate_refs demo_fused_restricted) = 2%nat.
Proof.
  split; [|split; vm_compute; reflexivity].
  apply (ranking_noninterference [true] demo_projections demo_query None demo_fused
           demo_fused_restricted demo_query_ok demo_uuids); vm_compute; reflexivity.
Defined.

Definition demo_evidence : list CandidateRankEvidence :=
  [mkCandidateRankEvidence (demo_candidate "f1") [mkRankerEvidence (lit "fts") 4 None] 9].

Lemma join_ranking_permutes_witness :
  ∃ items, join_authorized_ranking [true] demo_projections demo_evidence None = Ok items
    ∧ it_projection <$> items ≡ₚ demo_projections.
Proof.
  assert (Hok : Forall rank_evidence_ok demo_evidence).
  { apply Forall_singleton. split; [apply Forall_singleton; vm_compute; reflexivity|].
    split; [vm_compute; reflexivity|]. unfold uuid_ok. simpl. lia. }
  assert (Hnd : NoDup (rk_candidate_ref <$> demo_evidence)) by apply NoDup_singleton.
  destruct (join_ranking_permutes [true] demo_projections demo_evidence None
    demo_projections_active Hnd Hok eq_refl) as (items & H1 & H2 & _).
  exists items. split; [exact H1 | exact H2].
Defined.

Lemma selection_is_greedy_witness :
  let items := (λ p, mkAuthorizedRerankItem p None 1) <$> demo_projections in
  select_authorized_ranking items (mkPackageBudget 8 1 1 1)
  = Ok [mkAuthorizedRerankItem (demo_projection "f2" "second") None 1].
Proof.
  set (items := (λ p, mkAuthorizedRerankItem p None 1) <$> demo_projections).
  assert (He : Forall encodable items) by (repeat constructor).
  assert (Hb : 0 ≤ max_tokens (mkPackageBudget 8 1 1 1)) by (simpl; lia).
  destruct (selection_is_greedy items (mkPackageBudget 8 1 1 1) He Hb) as (sel & Hsel & _ & _ & _).
  cbv zeta. rewrite Hsel. vm_compute in Hsel. injection Hsel as <-. vm_compute. reflexivity.
Defined.
