(* ===== verification/Materialized.v ===== *)
(** * The materialized projection seam: [src/engine/runtime/materialized.py]

    What the retained database transaction may hand to the runtime: fragment
    locators, field projections and their rendered bodies, bounded discovery
    results and one-hop graph candidates, each checked at the seam.  The
    transaction itself is a [Protocol] in the source; here it is the class
    [MaterializedProjectionPort], whose operations may raise, and every theorem
    holds for every implementation of it. *)

From S2P Require Import Prelude Codec Datetime Float64 Scope Evidence Ranking.

(** ** Field values *)

Definition _require_bounded_discovery_limit (value : obj) : result Z :=
  match value with
  | OInt n => require ((1 <=? n) && (n <=? MAX_CANDIDATE_SUBMISSION_CEILING)) ValueError ;; Ok n
  | _ => Err ValueError
  end.

Definition _require_nonblank_ref (value : obj) : result pystr :=
  match value with
  | OStr s => require (negb (blank s)) ValueError ;; Ok s
  | _ => Err ValueError
  end.

Definition _require_field_ref (value : obj) : result pystr :=
  match value with
  | OStr s => require (field_ref_ok s) ValueError ;; Ok s
  | _ => Err ValueError
  end.

Definition _STRUCTURED_FIELD_LINE_BREAKS : pystr :=
  [0x0A; 0x0D; 0x0B; 0x0C; 0x1C; 0x1D; 0x1E; 0x85; 0x2028; 0x2029].

(** The four hexadecimal digits of [f"{ord(c):04x}"] for a code below 0x10000. *)
Definition hex4 (c : Z) : pystr := hex_digit <$> digits 16 4 c.

Definition encode_structured_char (c : Z) : pystr :=
  if c =? 92 then [92; 92]
  else if c =? 61 then [92; 61]
  else if mem c _STRUCTURED_FIELD_LINE_BREAKS then [92; 117] ++ hex4 c
  else [c].

Definition _encode_structured_field_value (value : pystr) : pystr := value ≫= encode_structured_char.

Inductive MaterializedProjectionKind := LEGACY_BODY | STRUCTURED_FIELDS.
#[export] Instance MaterializedProjectionKind_eq_dec : EqDecision MaterializedProjectionKind.
Proof. solve_decision. Defined.

Record MaterializedFieldValue := mkMaterializedFieldValue {
  field_ref : pystr;
  field_value : pystr;
  ordinal : Z
}.
#[export] Instance MaterializedFieldValue_eq_dec : EqDecision MaterializedFieldValue.
Proof. solve_decision. Defined.

Definition MaterializedFieldValue_post_init (f : MaterializedFieldValue) : result unit :=
  _require_field_ref (OStr (field_ref f)) ;;
  require (negb (blank (field_value f))) ValueError ;;
  require (0 <=? ordinal f) ValueError.

Record MaterializedFragmentProjection := mkMaterializedFragmentProjection {
  kind : MaterializedProjectionKind;
  fields : list MaterializedFieldValue;
  projection_ceiling : gset pystr
}.

(** [tuple(range(n))] *)
Definition range (n : nat) : list Z := seqZ 0 (Z.of_nat n).

Definition body_field : pystr := lit "body".

Definition MaterializedFragmentProjection_post_init (p : MaterializedFragmentProjection) :
    result unit :=
  require (negb (bool_decide (fields p = []))) ValueError ;;
  require (negb (bool_decide (projection_ceiling p = ∅))) ValueError ;;
  each (λ r, _require_field_ref (OStr r) ;; Ok tt) (elements (projection_ceiling p)) ;;
  let field_refs := field_ref <$> fields p in
  try_except (validate_projected_field_refs field_refs ;; Ok tt) is_ValueError (Err ValueError) ;;
  require (bool_decide (ordinal <$> fields p = range (length (fields p)))) ValueError ;;
  require (forallb (λ r, bool_decide (r ∈ projection_ceiling p)) field_refs) ValueError ;;
  require (negb (bool_decide (kind p = LEGACY_BODY) && negb (bool_decide (field_refs = [body_field]))))
    ValueError ;;
  require (negb (bool_decide (kind p = STRUCTURED_FIELDS) && bool_decide (body_field ∈ field_refs)))
    ValueError.

(** The property [MaterializedFragmentProjection.projected_field_refs]. *)
Definition materialized_field_refs (p : MaterializedFragmentProjection) : list pystr :=
  field_ref <$> fields p.

Definition render_field (f : MaterializedFieldValue) : pystr :=
  field_ref f ++ [61] ++ _encode_structured_field_value (field_value f).

(** [fields[0]] of the legacy kind exists after construction. *)
Definition rendered_body (p : MaterializedFragmentProjection) : pystr :=
  match kind p with
  | LEGACY_BODY => match fields p with [] => [] | f :: _ => field_value f end
  | STRUCTURED_FIELDS => join [0x0A] (render_field <$> fields p)
  end.

(** ** Locators and graph candidates *)

Record MaterializedFragmentLocator := mkMaterializedFragmentLocator {
  loc_organization_id : UUID;
  loc_source_ref : pystr;
  loc_resource_ref : pystr;
  loc_revision_ref : pystr;
  loc_fragment_ref : pystr;
  loc_source_acl_projection_ref : pystr;
  loc_source_acl_as_of : datetime;
  loc_source_acl_freshness_profile_ref : pystr
}.
#[export] Instance MaterializedFragmentLocator_eq_dec : EqDecision MaterializedFragmentLocator.
Proof. solve_decision. Defined.

Definition MaterializedFragmentLocator_post_init (l : MaterializedFragmentLocator) : result unit :=
  each (λ v, _require_nonblank_ref (OStr v) ;; Ok tt)
    [loc_source_ref l; loc_resource_ref l; loc_revision_ref l; loc_fragment_ref l;
     loc_source_acl_projection_ref l; loc_source_acl_freshness_profile_ref l] ;;
  require (is_utc (loc_source_acl_as_of l)) ValueError.

Record MaterializedOneHopCandidate := mkMaterializedOneHopCandidate {
  oh_anchor_ref : CandidateRef;
  oh_candidate_ref : CandidateRef
}.

Record MaterializedFragmentWindowItem := mkWindowItem {
  wi_locator : MaterializedFragmentLocator;
  wi_projection : MaterializedFragmentProjection
}.
Record MaterializedFragmentWindowRead := mkWindowRead {
  mw_items : list MaterializedFragmentWindowItem;
  mw_reauthorization_refs : list CandidateRef
}.

(** ** Discovery requests *)

Record FtsDiscoveryRequest := mkFts {
  fts_query_text : pystr;
  fts_limit : Z;
  fts_source_refs : option (list pystr);
  fts_resource_refs : option (list pystr)
}.
Record VectorDiscoveryRequest := mkVector {
  vec_query_embedding : list float;
  vec_embedding_profile_digest : pystr;
  vec_limit : Z;
  vec_source_refs : option (list pystr);
  vec_resource_refs : option (list pystr)
}.
Inductive CandidateDiscoveryRequest :=
  | ExactPhraseDiscoveryRequest (phrase_digest : pystr)
  | FtsRequest (r : FtsDiscoveryRequest)
  | VectorRequest (r : VectorDiscoveryRequest)
  | HybridDiscoveryRequest (fts : FtsDiscoveryRequest) (vector : VectorDiscoveryRequest).

Definition require_optional_refs (refs : option (list pystr)) : result unit :=
  match refs with
  | None => Ok tt
  | Some rs => require (negb (bool_decide (rs = [])) && negb (existsb (λ r, bool_decide (r = [])) rs))
                 ValueError
  end.

Definition VectorDiscoveryRequest_post_init (r : VectorDiscoveryRequest) : result unit :=
  require (negb (bool_decide (vec_query_embedding r = []))) ValueError ;;
  require (is_sha256_hex (vec_embedding_profile_digest r)) ValueError ;;
  _require_bounded_discovery_limit (OInt (vec_limit r)) ;;
  each require_optional_refs [vec_source_refs r; vec_resource_refs r].

Definition FtsDiscoveryRequest_post_init (r : FtsDiscoveryRequest) : result unit :=
  require (negb (blank (fts_query_text r))) ValueError ;;
  _require_bounded_discovery_limit (OInt (fts_limit r)) ;;
  each require_optional_refs [fts_source_refs r; fts_resource_refs r].

Definition CandidateDiscoveryRequest_post_init (r : CandidateDiscoveryRequest) : result unit :=
  match r with
  | ExactPhraseDiscoveryRequest d => require (negb (bool_decide (d = []))) ValueError
  | FtsRequest f => FtsDiscoveryRequest_post_init f
  | VectorRequest v => VectorDiscoveryRequest_post_init v
  | HybridDiscoveryRequest f v => FtsDiscoveryRequest_post_init f ;; VectorDiscoveryRequest_post_init v
  end.

Definition require_bounded_discovery_request (request : CandidateDiscoveryRequest)
    (submission_limit : Z) : result CandidateDiscoveryRequest :=
  CandidateDiscoveryRequest_post_init request ;;
  require_candidate_submission_limit (OInt submission_limit) ;;
  match request with
  | FtsRequest f => require (fts_limit f <=? submission_limit) ValueError
  | VectorRequest v => require (vec_limit v <=? submission_limit) ValueError
  | HybridDiscoveryRequest f v => require (fts_limit f + vec_limit v <=? submission_limit) ValueError
  | ExactPhraseDiscoveryRequest _ => Ok tt
  end ;;
  Ok request.

(** ** The port and its session *)

(** The optional operations are [None] on a port that lacks them. *)
Class MaterializedProjectionPort := {
  port_locate : CandidateRef → result (option MaterializedFragmentLocator);
  port_project : MaterializedFragmentLocator → result (option MaterializedFragmentProjection);
  port_discover_exact_phrase : option (pystr → result (list CandidateRef));
  port_discover_fts :
    option (FtsDiscoveryRequest → gset ScopeTarget → result (list CandidateRef));
  port_discover_vector :
    option (VectorDiscoveryRequest → gset ScopeTarget → result (list CandidateRef));
  port_discover_one_hop :
    option (list CandidateRef → Z → Z → result (list MaterializedOneHopCandidate));
  port_read_fragment_window :
    option (MaterializedFragmentLocator → Z → Z → list CandidateRef →
            result MaterializedFragmentWindowRead)
}.

(** [_active] of every projection scope; a session object (its identity and the
    index of its scope). *)
Abbreviation projection_scopes := (list bool).
Record MaterializedProjectionSession := mkSession {
  session_id : nat;
  session_scope : nat
}.
#[export] Instance MaterializedProjectionSession_eq_dec : EqDecision MaterializedProjectionSession.
Proof. solve_decision. Defined.

Definition _open_materialized_projection_scope (T : projection_scopes) : projection_scopes * nat :=
  (T ++ [true], length T).
Definition _close_materialized_projection_scope (T : projection_scopes) (scope : nat) :
    projection_scopes := <[scope := false]> T.

Definition _require_active_materialized_projection_session (T : projection_scopes)
    (session : MaterializedProjectionSession) : result unit :=
  match T !! session_scope session with
  | Some true => Ok tt
  | _ => Err ValueError
  end.

Definition _construct_materialized_projection_session (T : projection_scopes) (fresh scope : nat) :
    result MaterializedProjectionSession :=
  match T !! scope with
  | Some true => Ok (mkSession fresh scope)
  | _ => Err ValueError
  end.

Section Port.
Context `{!MaterializedProjectionPort} (T : projection_scopes).

Definition _locate_materialized_fragment (session : MaterializedProjectionSession)
    (c : CandidateRef) : result (option MaterializedFragmentLocator) :=
  _require_active_materialized_projection_session T session ;; port_locate c.

Definition _project_materialized_fragment (session : MaterializedProjectionSession)
    (l : MaterializedFragmentLocator) : result (option MaterializedFragmentProjection) :=
  _require_active_materialized_projection_session T session ;;
  projection ← port_project l;
  match projection with
  | None => Ok None
  | Some p => MaterializedFragmentProjection_post_init p ;; Ok (Some p)
  end.

Definition _discover_fts_candidates (request : FtsDiscoveryRequest) (effective_scope : EffectiveScope) :
    result (list CandidateRef) :=
  match port_discover_fts with
  | None => Err TypeError
  | Some discover_fts =>
      candidates ← discover_fts request (es_targets effective_scope);
      require (len candidates <=? fts_limit request) TypeError ;;
      Ok candidates
  end.

Definition _discover_vector_candidates (request : VectorDiscoveryRequest)
    (effective_scope : EffectiveScope) : result (list CandidateRef) :=
  match port_discover_vector with
  | None => Err TypeError
  | Some discover_vector =>
      candidates ← discover_vector request (es_targets effective_scope);
      require (len candidates <=? vec_limit request) TypeError ;;
      Ok candidates
  end.

(** The disposable result: its ranker-named candidate sets while active. *)
Record CandidateDiscoverySession := mkDiscovery {
  ds_active : bool;
  ds_candidate_sets : list (pystr * list CandidateRef)
}.

Definition _construct_candidate_discovery_session (session : MaterializedProjectionSession)
    (request : CandidateDiscoveryRequest) (effective_scope : EffectiveScope) :
    result CandidateDiscoverySession :=
  _require_active_materialized_projection_session T session ;;
  _require_effective_scope_integrity effective_scope ;;
  candidate_sets ←
    match request with
    | ExactPhraseDiscoveryRequest d =>
        match port_discover_exact_phrase with
        | None => Err TypeError
        | Some discover_exact_phrase =>
            candidates ← discover_exact_phrase d; Ok [(lit "exact_phrase", candidates)]
        end
    | FtsRequest f =>
        candidates ← _discover_fts_candidates f effective_scope; Ok [(lit "fts", candidates)]
    | VectorRequest v =>
        candidates ← _discover_vector_candidates v effective_scope; Ok [(lit "vector", candidates)]
    | HybridDiscoveryRequest f v =>
        fts ← _discover_fts_candidates f effective_scope;
        vector ← _discover_vector_candidates v effective_scope;
        Ok [(lit "fts", fts); (lit "vector", vector)]
    end;
  Ok (mkDiscovery true candidate_sets).

Definition _candidate_discovery_candidates (session : CandidateDiscoverySession) :
    result (list CandidateRef) :=
  require (ds_active session) ValueError ;;
  match ds_candidate_sets session with
  | [(_, candidates)] => Ok candidates
  | _ => Err ValueError
  end.

Definition _candidate_discovery_ranker_candidates (session : CandidateDiscoverySession)
    (ranker_ref : pystr) : result (list CandidateRef) :=
  require (ds_active session) ValueError ;;
  match filter (λ rc, rc.1 = ranker_ref) (ds_candidate_sets session) with
  | [(_, candidates)] => Ok candidates
  | _ => Err ValueError
  end.

Definition _close_candidate_discovery_session (_ : CandidateDiscoverySession) :
    CandidateDiscoverySession := mkDiscovery false [].

Definition _discover_materialized_one_hop (K : kernel_scopes) (session : MaterializedProjectionSession)
    (anchors : list AuthorizedProjection) (limit offset : Z) :
    result (list MaterializedOneHopCandidate) :=
  _require_active_materialized_projection_session T session ;;
  require ((1 <=? limit) && (limit <=? 64)) ValueError ;;
  require (0 <=? offset) ValueError ;;
  each (_require_active_authorized_projection K) anchors ;;
  match anchors with
  | [] => Ok []
  | _ =>
      match port_discover_one_hop with
      | None => Ok []
      | Some discover_one_hop =>
          let anchor_refs := candidate_ref <$> anchors in
          discovered ← discover_one_hop anchor_refs limit offset;
          require (len discovered <=? limit) TypeError ;;
          require (forallb (λ i, bool_decide (oh_anchor_ref i ∈ anchor_refs)) discovered) ValueError ;;
          require (negb (existsb (λ i, bool_decide (oh_candidate_ref i ∈ anchor_refs)) discovered))
            ValueError ;;
          require (nodupb (oh_candidate_ref <$> discovered)) ValueError ;;
          Ok discovered
      end
  end.

Definition same_article (c a : CandidateRef) : bool :=
  bool_decide (cr_organization_id c = cr_organization_id a)
  && bool_decide (cr_source_ref c = cr_source_ref a)
  && bool_decide (cr_resource_ref c = cr_resource_ref a).

(** The candidate a locator points at. *)
Definition locator_candidate (l : MaterializedFragmentLocator) : CandidateRef :=
  mkCandidateRef (loc_organization_id l) (loc_source_ref l) (loc_resource_ref l)
    (loc_revision_ref l) (loc_fragment_ref l).

Definition _read_materialized_fragment_window (session : MaterializedProjectionSession)
    (anchor : MaterializedFragmentLocator) (before after : Z) (expansion_candidates : list CandidateRef) :
    result MaterializedFragmentWindowRead :=
  _require_active_materialized_projection_session T session ;;
  require ((0 <=? before) && (before <=? 32) && (0 <=? after) && (after <=? 32)) ValueError ;;
  require (len expansion_candidates <=? 64) ValueError ;;
  match port_read_fragment_window with
  | None => Err TypeError
  | Some read_fragment_window =>
      read ← read_fragment_window anchor before after expansion_candidates;
      let anchor_ref := locator_candidate anchor in
      each (λ i, require (same_revision (locator_candidate (wi_locator i)) anchor_ref) ValueError)
        (mw_items read) ;;
      require (nodupb (mw_reauthorization_refs read)) ValueError ;;
      require (negb (existsb (λ c, same_article c anchor_ref) (mw_reauthorization_refs read)))
        ValueError ;;
      Ok read
  end.
End Port.

(** ** Rendered fields can be read back *)

Lemma app_sep_inj (x : Z) a b r r' :
  x ∉ a → x ∉ b → a ++ x :: r = b ++ x :: r' → a = b ∧ r = r'.
Proof.
  revert b. induction a as [|y a IH]; intros [|z b] Ha Hb H; simpl in *; simplify_eq; try done.
  - by destruct Hb; left.
  - by destruct Ha; left.
  - apply not_elem_of_cons in Ha as [_ Ha]. apply not_elem_of_cons in Hb as [_ Hb].
    match goal with E : a ++ _ = b ++ _ |- _ => by destruct (IH b Ha Hb E) as [-> ->] end.
Qed.

Lemma join_inj x l k :
  Forall (λ s, x ∉ s) l → Forall (λ s, x ∉ s) k → l ≠ [] → k ≠ [] →
  join [x] l = join [x] k → l = k.
Proof.
  intros Hl. revert k. induction Hl as [|s l Hs Hl IH]; intros k Hk Hne Hke H; [done|].
  destruct Hk as [|t k Ht Hk]; [done|]. destruct l as [|s' l], k as [|t' k].
  - simpl in H. by subst.
  - simpl in H. subst s. destruct Hs. apply elem_of_app. right. left.
  - simpl in H. subst t. destruct Ht. apply elem_of_app. right. left.
  - cbn [join] in H. change (s ++ x :: join [x] (s' :: l) = t ++ x :: join [x] (t' :: k)) in H.
    apply app_sep_inj in H as [-> H]; [|done..]. f_equal. by apply IH.
Qed.

Lemma line_break_cases c :
  mem c _STRUCTURED_FIELD_LINE_BREAKS = true → 0 ≤ c < 0x10000.
Proof.
  intros H%mem_spec. unfold _STRUCTURED_FIELD_LINE_BREAKS in H.
  repeat (apply elem_of_cons in H as [->|H]; [lia|]). by apply not_elem_of_nil in H.
Qed.

(** Encoded characters form a prefix code. *)
Lemma encode_char_prefix c c' r r' :
  encode_structured_char c ++ r = encode_structured_char c' ++ r' → c = c' ∧ r = r'.
Proof.
  unfold encode_structured_char. intros H.
  repeat match type of H with
  | context [if ?b then _ else _] => let E := fresh "E" in destruct b eqn:E
  end; rewrite ?Z.eqb_eq, ?Z.eqb_neq in *; subst; cbn [app] in H; simplify_eq; try done.
  apply line_break_cases in E1, E4. split; [|done].
  repeat match goal with
  | D : hex_digit _ = hex_digit _ |- _ => apply hex_digit_inj in D; [|zdiv..]
  end. zdiv.
Qed.

Lemma encode_value_inj v w :
  _encode_structured_field_value v = _encode_structured_field_value w → v = w.
Proof.
  unfold _encode_structured_field_value. revert w. induction v as [|c v IH]; intros [|d w] H; [done|..].
  - rewrite bind_cons in H. unfold encode_structured_char in H. by repeat case_match.
  - rewrite bind_cons in H. unfold encode_structured_char in H. by repeat case_match.
  - rewrite !bind_cons in H. apply encode_char_prefix in H as [-> H]. f_equal. by apply IH.
Qed.

Lemma encoded_no_newline v : 10 ∉ _encode_structured_field_value v.
Proof.
  unfold _encode_structured_field_value. intros (c & Hin & _)%list_elem_of_bind.
  unfold encode_structured_char in Hin.
  destruct (Z.eqb_spec c 92); [set_solver|]. destruct (Z.eqb_spec c 61); [set_solver|].
  destruct (mem c _STRUCTURED_FIELD_LINE_BREAKS) eqn:E.
  - apply line_break_cases in E. unfold hex4 in Hin. cbn [digits app] in Hin. rewrite !fmap_cons in Hin.
    repeat (apply elem_of_cons in Hin as [Hin|Hin]; [unfold hex_digit in Hin;
      repeat case_match; zdiv|]). by apply not_elem_of_nil in Hin.
  - apply list_elem_of_singleton in Hin as <-. by vm_compute in E.
Qed.

Lemma field_ref_no_separator r : field_ref_ok r = true → 61 ∉ r ∧ 10 ∉ r.
Proof.
  destruct r as [|c r]; [done|]. unfold field_ref_ok. intros H. run_ok.
  match goal with H : all_in _ _ = true |- _ => unfold all_in in H; rewrite forallb_forall in H;
    split; intros Hin%list_elem_of_In%H; by vm_compute in Hin end.
Qed.

Lemma render_field_inj f g :
  field_ref_ok (field_ref f) = true → field_ref_ok (field_ref g) = true →
  render_field f = render_field g → field_ref f = field_ref g ∧ field_value f = field_value g.
Proof.
  intros [Hf _]%field_ref_no_separator [Hg _]%field_ref_no_separator H.
  unfold render_field in H. apply app_sep_inj in H as [H1 H2]; [|done..].
  split; [done|]. by apply encode_value_inj.
Qed.

Lemma projection_fields_ok p :
  MaterializedFragmentProjection_post_init p = Ok tt →
  fields p ≠ [] ∧ field_refs_ok (field_ref <$> fields p)
  ∧ ordinal <$> fields p = range (length (fields p))
  ∧ Forall (λ r, r ∈ projection_ceiling p) (field_ref <$> fields p)
  ∧ (kind p = LEGACY_BODY → field_ref <$> fields p = [body_field])
  ∧ (kind p = STRUCTURED_FIELDS → body_field ∉ field_ref <$> fields p).
Proof.
  unfold MaterializedFragmentProjection_post_init. intros H.
  apply bind_Ok in H as (? & H1 & H). apply bind_Ok in H as (? & _ & H).
  apply bind_Ok in H as (? & _ & H). apply bind_Ok in H as (? & H2 & H).
  apply bind_Ok in H as (? & H3 & H). apply bind_Ok in H as (? & H4 & H).
  apply bind_Ok in H as (? & H5 & H6). rewrite require_Ok in *.
  unfold try_except in H2. destruct (_ ≫= _) eqn:E in H2; [|by case_match].
  apply bind_Ok in E as (? & [_ Hrefs]%validate_projected_field_refs_Ok & _).
  apply negb_true_iff, bool_decide_eq_false in H1. apply bool_decide_eq_true in H3.
  split_and!; try done.
  - apply Forall_forall. rewrite forallb_forall in H4. intros r Hr%list_elem_of_In%H4.
    by apply bool_decide_eq_true in Hr.
  - intros Hk. rewrite Hk in H5. by repeat case_bool_decide.
  - intros Hk. rewrite Hk in H6. by repeat case_bool_decide.
Qed.

Lemma rendered_lines l :
  forallb field_ref_ok (field_ref <$> l) = true → Forall (λ s, 10 ∉ s) (render_field <$> l).
Proof.
  intros Hr. rewrite forallb_forall in Hr. apply Forall_fmap, Forall_forall. intros f Hf.
  unfold compose, render_field. destruct (field_ref_no_separator (field_ref f)) as [_ Hn].
  { apply Hr, list_elem_of_In. by apply list_elem_of_fmap_2. }
  rewrite !elem_of_app, list_elem_of_singleton. pose proof (encoded_no_newline (field_value f)).
  intros [?|[?|?]]; done.
Qed.

Lemma render_fields_inj l k :
  forallb field_ref_ok (field_ref <$> l) = true → forallb field_ref_ok (field_ref <$> k) = true →
  ordinal <$> l = ordinal <$> k → render_field <$> l = render_field <$> k → l = k.
Proof.
  revert k. induction l as [|f l IH]; intros [|g k] Hr Hr' Ho Hb; try done.
  rewrite !fmap_cons in *. cbn [forallb] in Hr, Hr'. run_ok.
  injection Ho as Ho1 Ho2. injection Hb as Hb1 Hb2.
  apply render_field_inj in Hb1 as [Hb1 Hb1']; [|done..].
  f_equal; [destruct f, g; simpl in *; by subst|]. by apply IH.
Qed.

(** ** Properties *)

(** The rendered body of structured fields is unambiguous: two checked
    structured projections with the same rendered text have the same fields with
    the same values in the same order, so no field value can imitate another
    field or a line of its own; a legacy projection renders exactly its one body
    value; and every rendered field lies within the trusted ceiling. *)
Theorem rendered_body_unambiguous p q :
  MaterializedFragmentProjection_post_init p = Ok tt →
  MaterializedFragmentProjection_post_init q = Ok tt →
  kind p = kind q → rendered_body p = rendered_body q →
  fields p = fields q
  ∧ Forall (λ r, r ∈ projection_ceiling p ∧ r ∈ projection_ceiling q) (materialized_field_refs p).
Proof.
  intros (Hne & (_ & _ & Hr & _) & Ho & Hc & Hl & _)%projection_fields_ok
    (Hne' & (_ & _ & Hr' & _) & Ho' & Hc' & Hl' & _)%projection_fields_ok Hk Hb.
  assert (Heq : fields p = fields q).
  { unfold rendered_body in Hb. rewrite <- Hk in Hb, Hl'. destruct (kind p).
    - specialize (Hl eq_refl). specialize (Hl' eq_refl).
      destruct (fields p) as [|[r v o] [|]], (fields q) as [|[r' v' o'] [|]]; try done.
      pose proof (eq_trans Ho (eq_sym Ho')) as Hoo. clear Ho Ho'. simpl in *. by simplify_eq.
    - apply join_inj in Hb; [|by apply rendered_lines|by apply rendered_lines
                            |by intros ?%fmap_nil_inv|by intros ?%fmap_nil_inv].
      apply render_fields_inj; try done. rewrite Ho, Ho'.
      apply (f_equal length) in Hb. rewrite !length_fmap in Hb. by rewrite Hb. }
  split; [done|]. unfold materialized_field_refs. rewrite <- Heq in Hc'.
  rewrite !Forall_forall in *. naive_solver.
Qed.

Definition demo_structured : MaterializedFragmentProjection :=
  mkMaterializedFragmentProjection STRUCTURED_FIELDS
    [mkMaterializedFieldValue (lit "title") (lit "a=b") 0;
     mkMaterializedFieldValue (lit "owner") [97; 10; 120] 1] {[ lit "title"; lit "owner"; lit "x" ]}.

Example demo_rendered : rendered_body demo_structured = lit "title=a\=b" ++ [10] ++ lit "owner=a\u000ax".
Proof. vm_compute. reflexivity. Qed.

Lemma rendered_body_unambiguous_witness :
  MaterializedFragmentProjection_post_init demo_structured = Ok tt
  ∧ Forall (λ r, r ∈ projection_ceiling demo_structured ∧ r ∈ projection_ceiling demo_structured)
      [lit "title"; lit "owner"].
Proof.
  assert (H : MaterializedFragmentProjection_post_init demo_structured = Ok tt)
    by (vm_compute; reflexivity).
  split; [exact H|].
  destruct (rendered_body_unambiguous demo_structured demo_structured H H eq_refl eq_refl) as [_ Hc].
  exact Hc.
Defined.

Section PortProperties.
Context `{!MaterializedProjectionPort} (T : projection_scopes).

(** Whatever an index port does, a prepared discovery plan accepted under a server
    bound exposes at most that many ranked candidates when it is full-text, vector
    or hybrid; nothing is exposed for a forged scope or outside the transaction. *)
Theorem discovery_is_bounded session request limit scope d :
  require_bounded_discovery_request request limit = Ok request →
  _construct_candidate_discovery_session T session request scope = Ok d →
  T !! session_scope session = Some true
  ∧ es_digest scope = _effective_scope_digest (es_targets scope)
  ∧ 1 ≤ limit ≤ MAX_CANDIDATE_SUBMISSION_CEILING
  ∧ ((∀ phrase, request ≠ ExactPhraseDiscoveryRequest phrase) →
     sum_Z ((λ rc, len rc.2) <$> ds_candidate_sets d) ≤ limit)
  ∧ ∀ r cs, _candidate_discovery_ranker_candidates d r = Ok cs → (r, cs) ∈ ds_candidate_sets d.
Proof.
  unfold require_bounded_discovery_request, _construct_candidate_discovery_session.
  intros Hb Hd. apply bind_Ok in Hb as (? & _ & Hb). apply bind_Ok in Hb as (? & Hlim & Hb).
  apply bind_Ok in Hb as (? & Hbound & _).
  apply bind_Ok in Hd as (? & Hs & Hd). apply bind_Ok in Hd as (? & Hi & Hd).
  apply bind_Ok in Hd as (sets & Hsets & [= <-]). simpl.
  unfold _require_active_materialized_projection_session in Hs.
  unfold _require_effective_scope_integrity in Hi.
  unfold require_candidate_submission_limit in Hlim.
  apply bind_Ok in Hlim as (? & Hlim%require_Ok & _). split_and!; try lia.
  - destruct (T !! session_scope session) as [[]|]; done.
  - by apply require_Ok, bool_decide_eq_true in Hi.
  - intros Hne. destruct request as [phrase|f|v|f v]; [by destruct (Hne phrase)|..];
      apply require_Ok in Hbound;
      unfold _discover_fts_candidates, _discover_vector_candidates in Hsets;
      destruct port_discover_fts, port_discover_vector; try done; run_ok; simpl; lia.
  - intros r cs Hget. unfold _candidate_discovery_ranker_candidates in Hget. simpl in Hget.
    destruct (filter _ sets) as [|[r' cs'] [|]] eqn:E; try done. simplify_eq.
    assert (Hin : (r', cs) ∈ filter (λ rc, rc.1 = r) sets) by (rewrite E; by left).
    apply list_elem_of_filter in Hin as [<- Hin]. done.
Qed.
End PortProperties.

(** A port over one article with two fragments. *)
Definition demo_locator (fragment : string) : MaterializedFragmentLocator :=
  mkMaterializedFragmentLocator (mkUUID 5) (lit "source") (lit "article") (lit "revision") (lit fragment)
    (lit "acl-projection") (mkDatetime (719162 * us_per_day) (Some 0)) (lit "profile").

Definition demo_body (body : string) : MaterializedFragmentProjection :=
  mkMaterializedFragmentProjection LEGACY_BODY [mkMaterializedFieldValue body_field (lit body) 0]
    {[ body_field ]}.

Definition demo_port : MaterializedProjectionPort := {|
  port_locate c := Ok (if bool_decide (c = demo_candidate "f1") then Some (demo_locator "f1")
                       else if bool_decide (c = demo_candidate "f2") then Some (demo_locator "f2")
                       else None);
  port_project l := Ok (if bool_decide (l = demo_locator "f1") then Some (demo_body "first") else None);
  port_discover_exact_phrase := None;
  port_discover_fts := Some (λ r _, Ok [demo_candidate "f1"; demo_candidate "f2"]);
  port_discover_vector := None;
  port_discover_one_hop :=
    Some (λ _ _ offset, Ok (if offset =? 0
      then [mkMaterializedOneHopCandidate (demo_candidate "f1") (demo_candidate "f2")] else []));
  port_read_fragment_window := None
|}.

Lemma discovery_is_bounded_witness :
  ∃ d, _construct_candidate_discovery_session (H := demo_port) [true] (mkSession 0 0)
         (FtsRequest (mkFts (lit "query") 3 None None)) demo_scope = Ok d
    ∧ sum_Z ((λ rc, len rc.2) <$> ds_candidate_sets d) ≤ 4.
Proof.
  eexists. 
  assert (Hd : _construct_candidate_discovery_session (H := demo_port) [true] (mkSession 0 0)
         (FtsRequest (mkFts (lit "query") 3 None None)) demo_scope
       = Ok (mkDiscovery true [(lit "fts", [demo_candidate "f1"; demo_candidate "f2"])]))
    by (vm_compute; reflexivity).
  split; [exact Hd|].
  destruct (discovery_is_bounded (H := demo_port) [true] (mkSession 0 0)
    (FtsRequest (mkFts (lit "query") 3 None None)) 4 demo_scope _ eq_refl Hd) as (_ & _ & _ & H & _).
  apply H. discriminate.
Defined.
