(* ===== verification/Trusted.v ===== *)
(** * Trusted request inputs

    [src/engine/runtime/policy_epoch.py], [actor.py], [organization.py],
    [scope_authority.py], [invocation.py], [delivery.py], [trusted_inputs.py].

    Every proof object of a request carries a private lifetime token; all tokens
    are cells of one store ([lifetimes], the [_active] flag of each), and a proof
    holds the index of its token.  Python compares some proofs with [is], so they
    carry an object identity.  The durable Policy Epoch changes while a request
    runs: each read takes the authority's answer at that moment as an argument. *)

From S2P Require Import Prelude Codec Sha256 Datetime Scope Evidence Materialized ReleaseLineage.

Abbreviation lifetimes := (list bool).

Definition open_lifetime (L : lifetimes) : lifetimes * nat := (L ++ [true], length L).
Definition close_lifetime (L : lifetimes) (scope : nat) : lifetimes := <[scope := false]> L.
Definition lifetime_active (L : lifetimes) (scope : nat) : bool :=
  match L !! scope with Some true => true | _ => false end.

(** [type(value) is not str or not value or value.isspace()] negated. *)
Definition nonempty_ref (s : pystr) : bool := negb (blank s).

(** ** Canonical UUID text *)

(** 32 hexadecimal digits grouped 8-4-4-4-12. *)
Definition dashed (h : pystr) : pystr :=
  take 8 h ++ lit "-" ++ take 4 (drop 8 h) ++ lit "-" ++ take 4 (drop 12 h) ++ lit "-"
  ++ take 4 (drop 16 h) ++ lit "-" ++ drop 20 h.

(** [str(uuid)] *)
Definition uuid_str (u : UUID) : pystr := dashed (hex (uuid_bytes u)).

(** [value == str(UUID(value))] without an error: the parser removes the dashes
    and reads 32 digits, and printing groups the lowercase digits again.  The
    other spellings the parser accepts print differently from [value]. *)
Definition is_canonical_uuid (value : pystr) : bool :=
  let digits := filter (λ c, c ≠ 45) value in
  (len digits =? 32) && all_in hex_alphabet digits && bool_decide (dashed digits = value).

(** ** Policy Epoch: [policy_epoch.py] *)

(** What [read_current_epoch] returns or raises at one moment. *)
Abbreviation epoch_port := (UUID → result obj).

Record PolicyEpochSession := mkPolicyEpochSession {
  pes_id : nat;
  pes_organization_id : UUID;
  pes_authority_scope : nat
}.
#[export] Instance PolicyEpochSession_eq_dec : EqDecision PolicyEpochSession.
Proof. solve_decision. Defined.

Record PolicyEpochVerification := mkPolicyEpochVerification {
  pev_id : nat;
  pev_organization_id : UUID;
  pev_policy_epoch : Z;
  pev_validation_session : PolicyEpochSession
}.
#[export] Instance PolicyEpochVerification_eq_dec : EqDecision PolicyEpochVerification.
Proof. solve_decision. Defined.

Definition _require_policy_epoch (value : obj) : result Z :=
  match value with
  | OInt z => require ((1 <=? z) && (z <=? MAX_POLICY_EPOCH)) PolicyEpochAuthorityUnavailable ;; Ok z
  | _ => Err PolicyEpochAuthorityUnavailable
  end.

Definition _require_active_policy_epoch_session (L : lifetimes) (s : PolicyEpochSession) : result unit :=
  require (lifetime_active L (pes_authority_scope s)) ValueError.

Definition _construct_policy_epoch_session (L : lifetimes) (fresh authority_scope : nat)
    (organization_id : UUID) : result PolicyEpochSession :=
  let s := mkPolicyEpochSession fresh organization_id authority_scope in
  _require_active_policy_epoch_session L s ;; Ok s.

(** [except (PolicyEpochAuthorityUnavailable, PolicyEpochPortFailure)] *)
Definition is_epoch_failure (e : exn) : bool :=
  match e with PolicyEpochAuthorityUnavailable | PolicyEpochPortFailure => true | _ => false end.

Definition read_epoch (port : epoch_port) (organization_id : UUID) : result Z :=
  observed ← try_except (port organization_id) is_epoch_failure (Err PolicyEpochAuthorityUnavailable);
  _require_policy_epoch observed.

Definition _observe_current_policy_epoch (L : lifetimes) (port : epoch_port) (fresh : nat)
    (s : PolicyEpochSession) : result PolicyEpochVerification :=
  _require_active_policy_epoch_session L s ;;
  epoch ← read_epoch port (pes_organization_id s);
  Ok (mkPolicyEpochVerification fresh (pes_organization_id s) epoch s).

Definition _require_active_policy_epoch_verification (L : lifetimes) (v : PolicyEpochVerification) :
    result unit :=
  _require_policy_epoch (OInt (pev_policy_epoch v)) ;;
  _require_active_policy_epoch_session L (pev_validation_session v) ;;
  require (bool_decide (pev_organization_id v = pes_organization_id (pev_validation_session v)))
    ValueError.

Definition _policy_epoch_is_current (L : lifetimes) (port : epoch_port) (v : PolicyEpochVerification) :
    result bool :=
  _require_active_policy_epoch_verification L v ;;
  observed ← read_epoch port (pev_organization_id v);
  Ok (observed =? pev_policy_epoch v).

(** [PolicyEpochGate.is_current] of [construction.py]. *)
Definition policy_epoch_gate_is_current (L : lifetimes) (port : epoch_port)
    (v : PolicyEpochVerification) : result bool :=
  try_except (_require_active_policy_epoch_verification L v ;; _policy_epoch_is_current L port v)
    (λ e, is_TypeError e || is_ValueError e) (Err PolicyEpochAuthorityUnavailable).

(** ** Membership and UserActor: [actor.py] *)

Definition MAX_MEMBERSHIP_VERSION : Z := 2 ^ 63 - 1.

(** A session of one of the other retained transactions. *)
Record AuthoritySession := mkAuthoritySession { as_id : nat; as_scope : nat }.
#[export] Instance AuthoritySession_eq_dec : EqDecision AuthoritySession.
Proof. solve_decision. Defined.

(** The observed release object: its identity and its value. *)
Record ActiveRelease := mkActiveRelease { rel_id : nat; rel_value : ActiveRuntimeRelease }.
#[export] Instance ActiveRelease_eq_dec : EqDecision ActiveRelease.
Proof. solve_decision. Defined.

(** The facts that [CurrentMembershipVerification] and [UserActor] both hold. *)
Record MembershipFacts := mkMembershipFacts {
  m_organization_id : UUID;
  m_user_id : UUID;
  m_membership_id : UUID;
  m_membership_version : Z;
  m_principal_ref : pystr;
  m_request_id : pystr;
  m_authentication_binding_ref : pystr;
  m_checked_at : datetime;
  m_policy_epoch : Z;
  m_policy_epoch_verification : PolicyEpochVerification;
  m_materialized_projection_session : option MaterializedProjectionSession;
  m_context_run_persistence_session : option AuthoritySession;
  m_delivery_evidence_redemption_session : option AuthoritySession;
  m_egress_grant_issuance_session : option AuthoritySession;
  m_citation_open_session : option AuthoritySession;
  m_active_runtime_release : option ActiveRelease
}.
#[export] Instance MembershipFacts_eq_dec : EqDecision MembershipFacts.
Proof. solve_decision. Defined.

Record CurrentMembershipVerification := mkCurrentMembershipVerification {
  cmv_facts : MembershipFacts;
  cmv_authority_scope : nat
}.
Record UserActor := mkUserActor {
  ua_facts : MembershipFacts;
  ua_current_membership_verification : CurrentMembershipVerification
}.

Definition require_active_authority_session (L : lifetimes) (s : option AuthoritySession) : result unit :=
  match s with
  | None => Ok tt
  | Some s => require (lifetime_active L (as_scope s)) ValueError
  end.

(** The checks on the optional sessions, in order. *)
Definition require_active_sessions (L : lifetimes) (f : MembershipFacts) : result unit :=
  match m_materialized_projection_session f with
  | None => Ok tt
  | Some s => _require_active_materialized_projection_session L s
  end ;;
  each (require_active_authority_session L)
    [m_context_run_persistence_session f; m_delivery_evidence_redemption_session f;
     m_egress_grant_issuance_session f; m_citation_open_session f].

(** [_construct_current_membership_verification]; the policy epoch is read off the
    verification. *)
Definition _construct_current_membership_verification (L : lifetimes) (authority_scope : nat)
    (f : MembershipFacts) : result CurrentMembershipVerification :=
  let f := mkMembershipFacts (m_organization_id f) (m_user_id f) (m_membership_id f)
             (m_membership_version f) (m_principal_ref f) (m_request_id f)
             (m_authentication_binding_ref f) (m_checked_at f)
             (pev_policy_epoch (m_policy_epoch_verification f)) (m_policy_epoch_verification f)
             (m_materialized_projection_session f) (m_context_run_persistence_session f)
             (m_delivery_evidence_redemption_session f) (m_egress_grant_issuance_session f)
             (m_citation_open_session f) (m_active_runtime_release f) in
  require (lifetime_active L authority_scope) ValueError ;;
  require ((1 <=? m_membership_version f) && (m_membership_version f <=? MAX_MEMBERSHIP_VERSION))
    ValueError ;;
  require (forallb nonempty_ref
             [m_principal_ref f; m_request_id f; m_authentication_binding_ref f]) ValueError ;;
  require (is_utc (m_checked_at f)) ValueError ;;
  require_active_sessions L f ;;
  match m_active_runtime_release f with
  | None => Ok tt
  | Some r => require (bool_decide (ar_organization_id (rel_value r) = m_organization_id f)) ValueError
  end ;;
  _require_active_policy_epoch_verification L (m_policy_epoch_verification f) ;;
  require (bool_decide (pev_organization_id (m_policy_epoch_verification f) = m_organization_id f))
    ValueError ;;
  Ok (mkCurrentMembershipVerification f authority_scope).

Definition _require_active_current_membership_verification (L : lifetimes)
    (v : CurrentMembershipVerification) : result unit :=
  let f := cmv_facts v in
  require (lifetime_active L (cmv_authority_scope v)) ValueError ;;
  require_active_sessions L f ;;
  _require_active_policy_epoch_verification L (m_policy_epoch_verification f) ;;
  require (bool_decide (m_policy_epoch f = pev_policy_epoch (m_policy_epoch_verification f))
           && bool_decide (m_organization_id f = pev_organization_id (m_policy_epoch_verification f)))
    ValueError.

Definition _construct_user_actor (L : lifetimes) (v : CurrentMembershipVerification) :
    result UserActor :=
  _require_active_current_membership_verification L v ;; Ok (mkUserActor (cmv_facts v) v).

(** The values are compared with [==], the proofs and sessions with [is]. *)
Definition facts_match (f g : MembershipFacts) : bool :=
  bool_decide (m_organization_id f = m_organization_id g)
  && bool_decide (m_user_id f = m_user_id g)
  && bool_decide (m_membership_id f = m_membership_id g)
  && (m_membership_version f =? m_membership_version g)
  && bool_decide (m_principal_ref f = m_principal_ref g)
  && bool_decide (m_request_id f = m_request_id g)
  && bool_decide (m_authentication_binding_ref f = m_authentication_binding_ref g)
  && dt_eqb (m_checked_at f) (m_checked_at g)
  && (m_policy_epoch f =? m_policy_epoch g)
  && bool_decide (m_policy_epoch_verification f = m_policy_epoch_verification g)
  && bool_decide (m_materialized_projection_session f = m_materialized_projection_session g)
  && bool_decide (m_context_run_persistence_session f = m_context_run_persistence_session g)
  && bool_decide (m_delivery_evidence_redemption_session f
                  = m_delivery_evidence_redemption_session g)
  && bool_decide (m_egress_grant_issuance_session f = m_egress_grant_issuance_session g)
  && bool_decide (m_citation_open_session f = m_citation_open_session g)
  && bool_decide (m_active_runtime_release f = m_active_runtime_release g).

Definition _require_active_user_actor (L : lifetimes) (a : UserActor) : result unit :=
  let v := ua_current_membership_verification a in
  _require_active_current_membership_verification L v ;;
  require (facts_match (ua_facts a) (cmv_facts v)) ValueError.

(** ** Organization and scope proofs: [organization.py], [scope_authority.py] *)

Record ExistingOrganizationVerification := mkExistingOrganizationVerification {
  eov_organization_id : UUID;
  eov_request_id : pystr;
  eov_authentication_binding_ref : pystr;
  eov_verified_at : datetime
}.

Definition _construct_existing_http_organization_verification (v : ExistingOrganizationVerification) :
    result ExistingOrganizationVerification :=
  require (forallb nonempty_ref [eov_request_id v; eov_authentication_binding_ref v]) ValueError ;;
  require (bool_decide (is_Some (dt_off (eov_verified_at v)))) ValueError ;;
  Ok v.

Record TrustedScopeSnapshot := mkTrustedScopeSnapshot {
  ts_organization_id : UUID;
  ts_user_id : UUID;
  ts_membership_id : UUID;
  ts_membership_version : Z;
  ts_policy_epoch : Z;
  ts_principal_ref : pystr;
  ts_agent_version_ref : pystr;
  ts_purpose : pystr;
  ts_request_id : pystr;
  ts_authentication_binding_ref : pystr;
  ts_checked_at : datetime;
  ts_operands : TrustedScopeOperands;
  ts_authority_scope : nat
}.

Definition operand_in_organization (organization_id : UUID) (o : TrustedScopeOperand) : bool :=
  match o with
  | MISSING_TRUSTED_SCOPE => true
  | ScopeSet s => bool_decide (Forall (λ t, organization_id = Scope.organization_id t) (elements s))
  end.

Definition _construct_trusted_scope_snapshot (L : lifetimes) (s : TrustedScopeSnapshot) :
    result TrustedScopeSnapshot :=
  require (lifetime_active L (ts_authority_scope s)) ValueError ;;
  require ((1 <=? ts_membership_version s) && (ts_membership_version s <=? MAX_MEMBERSHIP_VERSION))
    ValueError ;;
  require ((1 <=? ts_policy_epoch s) && (ts_policy_epoch s <=? MAX_POLICY_EPOCH)) ValueError ;;
  require (forallb nonempty_ref
             [ts_principal_ref s; ts_agent_version_ref s; ts_purpose s; ts_request_id s;
              ts_authentication_binding_ref s]) ValueError ;;
  require (is_utc (ts_checked_at s)) ValueError ;;
  each (λ o, require (operand_in_organization (ts_organization_id s) o) ValueError)
    (operand_fields (ts_operands s)) ;;
  Ok s.

Definition _require_active_trusted_scope_snapshot (L : lifetimes) (s : TrustedScopeSnapshot) :
    result unit :=
  require (lifetime_active L (ts_authority_scope s)) InvalidTrustedScopeSnapshot ;;
  require ((1 <=? ts_policy_epoch s) && (ts_policy_epoch s <=? MAX_POLICY_EPOCH))
    InvalidTrustedScopeSnapshot.

Definition _trusted_operands_from_snapshot (L : lifetimes) (s : TrustedScopeSnapshot) :
    result TrustedScopeOperands :=
  _require_active_trusted_scope_snapshot L s ;;
  each (λ o, require (operand_in_organization (ts_organization_id s) o) InvalidTrustedScopeSnapshot)
    (operand_fields (ts_operands s)) ;;
  Ok (ts_operands s).

(** ** Invocation and delivery: [invocation.py], [delivery.py], [trusted_inputs.py] *)

Record AuthenticatedInvocation := mkAuthenticatedInvocation {
  inv_request_id : pystr;
  inv_organization_ref : pystr;
  inv_user_ref : pystr;
  inv_principal_ref : pystr;
  inv_membership_ref : pystr;
  inv_membership_version : Z;
  inv_policy_epoch : Z;
  inv_agent_version_ref : pystr;
  inv_authenticated_application_ref : pystr;
  inv_authentication_binding_ref : pystr;
  inv_received_at : datetime;
  inv_organization_verification : ExistingOrganizationVerification;
  inv_user_actor : UserActor;
  inv_trusted_scope_snapshot : TrustedScopeSnapshot
}.

(** The Organization proof matches the authenticated facts. *)
Definition organization_matches (v : ExistingOrganizationVerification)
    (organization_ref request_id binding : pystr) (at_ : datetime) : bool :=
  bool_decide (uuid_str (eov_organization_id v) = organization_ref)
  && bool_decide (eov_request_id v = request_id)
  && bool_decide (eov_authentication_binding_ref v = binding)
  && dt_eqb (eov_verified_at v) at_.

Definition actor_matches (f : MembershipFacts) (organization_ref user_ref membership_ref : pystr)
    (version : Z) (principal request_id binding : pystr) (at_ : datetime) : bool :=
  bool_decide (uuid_str (m_organization_id f) = organization_ref)
  && bool_decide (uuid_str (m_user_id f) = user_ref)
  && bool_decide (uuid_str (m_membership_id f) = membership_ref)
  && (m_membership_version f =? version)
  && bool_decide (m_principal_ref f = principal)
  && bool_decide (m_request_id f = request_id)
  && bool_decide (m_authentication_binding_ref f = binding)
  && dt_eqb (m_checked_at f) at_.

Definition snapshot_matches (s : TrustedScopeSnapshot) (organization_id user_id membership_id : UUID)
    (version : Z) (principal agent purpose request_id binding : pystr) (at_ : datetime) : bool :=
  bool_decide (ts_organization_id s = organization_id)
  && bool_decide (ts_user_id s = user_id)
  && bool_decide (ts_membership_id s = membership_id)
  && (ts_membership_version s =? version)
  && bool_decide (ts_principal_ref s = principal)
  && bool_decide (ts_agent_version_ref s = agent)
  && bool_decide (ts_purpose s = purpose)
  && bool_decide (ts_request_id s = request_id)
  && bool_decide (ts_authentication_binding_ref s = binding)
  && dt_eqb (ts_checked_at s) at_.

Definition _construct_authenticated_http_invocation (L : lifetimes) (request_id organization_ref : pystr)
    (organization_verification : ExistingOrganizationVerification)
    (user_ref principal_ref membership_ref : pystr) (membership_version : Z)
    (current_membership_verification : CurrentMembershipVerification)
    (agent_version_ref authenticated_application_ref authentication_binding_ref trusted_purpose : pystr)
    (received_at : datetime) (snapshot : TrustedScopeSnapshot) : result AuthenticatedInvocation :=
  require (forallb nonempty_ref
             [request_id; organization_ref; user_ref; principal_ref; membership_ref; agent_version_ref;
              authenticated_application_ref; authentication_binding_ref; trusted_purpose]) ValueError ;;
  require (forallb is_canonical_uuid [organization_ref; user_ref; membership_ref]) ValueError ;;
  require ((1 <=? membership_version) && (membership_version <=? MAX_MEMBERSHIP_VERSION)) ValueError ;;
  require (is_utc received_at) ValueError ;;
  require (organization_matches organization_verification organization_ref request_id
             authentication_binding_ref received_at) ValueError ;;
  user_actor ← _construct_user_actor L current_membership_verification;
  let f := ua_facts user_actor in
  require (actor_matches f organization_ref user_ref membership_ref membership_version principal_ref
             request_id authentication_binding_ref received_at
           && (m_policy_epoch f =? m_policy_epoch (cmv_facts current_membership_verification)))
    ValueError ;;
  try_except (_require_active_trusted_scope_snapshot L snapshot)
    (λ e, is_TypeError e || is_ValueError e) (Err InvalidTrustedScopeSnapshot) ;;
  require (snapshot_matches snapshot (eov_organization_id organization_verification) (m_user_id f)
             (m_membership_id f) membership_version principal_ref agent_version_ref trusted_purpose
             request_id authentication_binding_ref received_at) InvalidTrustedScopeSnapshot ;;
  Ok (mkAuthenticatedInvocation request_id organization_ref user_ref principal_ref membership_ref
        membership_version (m_policy_epoch f) agent_version_ref authenticated_application_ref
        authentication_binding_ref received_at organization_verification user_actor snapshot).

Inductive DeliveryConstructionProvenance :=
  | AUTHENTICATED_DIRECT_INGRESS
  | REDEEMED_PRIVATE_DELIVERY_EVIDENCE.
#[export] Instance DeliveryConstructionProvenance_eq_dec : EqDecision DeliveryConstructionProvenance.
Proof. solve_decision. Defined.

Record TrustedDeliveryContext := mkTrustedDeliveryContext {
  dc_purpose : pystr;
  dc_authenticated_application_ref : pystr;
  dc_delivery_binding_ref : pystr;
  dc_established_at : datetime;
  dc_construction_provenance : DeliveryConstructionProvenance;
  dc_destination_ref : option pystr;
  dc_consumer_ref : option pystr;
  dc_audience_digest : option pystr;
  dc_logical_resolution_ref : option pystr;
  dc_delivery_profile_ref : option pystr
}.

Definition _construct_direct_delivery_context (purpose application_ref binding_ref : pystr)
    (established_at : datetime) : result TrustedDeliveryContext :=
  each (λ v, require (nonempty_ref v) ValueError) [purpose; application_ref; binding_ref] ;;
  require (bool_decide (is_Some (dt_off established_at))) ValueError ;;
  Ok (mkTrustedDeliveryContext purpose application_ref binding_ref established_at
        AUTHENTICATED_DIRECT_INGRESS None None None None None).

Definition _construct_private_delivery_context (purpose application_ref binding_ref : pystr)
    (established_at : datetime)
    (destination_ref consumer_ref audience_digest logical_resolution_ref delivery_profile_ref : pystr) :
    result TrustedDeliveryContext :=
  _construct_direct_delivery_context purpose application_ref binding_ref established_at ;;
  each (λ v, require (nonempty_ref v) ValueError)
    [destination_ref; consumer_ref; logical_resolution_ref; delivery_profile_ref] ;;
  require (is_sha256_hex audience_digest) ValueError ;;
  Ok (mkTrustedDeliveryContext purpose application_ref binding_ref established_at
        REDEEMED_PRIVATE_DELIVERY_EVIDENCE (Some destination_ref) (Some consumer_ref)
        (Some audience_digest) (Some logical_resolution_ref) (Some delivery_profile_ref)).

Definition _validate_trusted_invocation_and_delivery (L : lifetimes) (inv : AuthenticatedInvocation)
    (dc : TrustedDeliveryContext) : result unit :=
  require (organization_matches (inv_organization_verification inv) (inv_organization_ref inv)
             (inv_request_id inv) (inv_authentication_binding_ref inv) (inv_received_at inv))
    ValueError ;;
  let actor := inv_user_actor inv in
  let f := ua_facts actor in
  _require_active_user_actor L actor ;;
  require (actor_matches f (inv_organization_ref inv) (inv_user_ref inv) (inv_membership_ref inv)
             (inv_membership_version inv) (inv_principal_ref inv) (inv_request_id inv)
             (inv_authentication_binding_ref inv) (inv_received_at inv)
           && (m_policy_epoch f =? inv_policy_epoch inv)) ValueError ;;
  require (bool_decide (dc_authenticated_application_ref dc = inv_authenticated_application_ref inv)
           && bool_decide (dc_delivery_binding_ref dc = inv_authentication_binding_ref inv)
           && dt_eqb (dc_established_at dc) (inv_received_at inv)) ValueError ;;
  let s := inv_trusted_scope_snapshot inv in
  _require_active_trusted_scope_snapshot L s ;;
  require (snapshot_matches s (m_organization_id f) (m_user_id f) (m_membership_id f)
             (m_membership_version f) (inv_principal_ref inv) (inv_agent_version_ref inv)
             (dc_purpose dc) (inv_request_id inv) (inv_authentication_binding_ref inv)
             (inv_received_at inv)) ValueError.

(** ** UUID text *)

Lemma uuid_bytes_ok u : Forall byte_ok (uuid_bytes u).
Proof. apply (digits_ok 256). lia. Qed.

Lemma length_uuid_hex u : length (hex (uuid_bytes u)) = 32%nat.
Proof. rewrite length_hex. unfold uuid_bytes, be_bytes. by rewrite length_digits. Qed.

(** Grouping keeps the digits: removing the separators gives them back. *)
Lemma uuid_str_digits u :
  let s := uuid_str u in
  take 8 s ++ take 4 (drop 9 s) ++ take 4 (drop 14 s) ++ take 4 (drop 19 s) ++ drop 24 s
  = hex (uuid_bytes u).
Proof.
  pose proof (length_uuid_hex u) as H. unfold uuid_str, dashed. revert H.
  generalize (hex (uuid_bytes u)). intros h H. do 32 (destruct h as [|? h]; [done|]).
  by destruct h.
Qed.

Lemma uuid_str_inj u v : uuid_ok u → uuid_ok v → uuid_str u = uuid_str v → u = v.
Proof.
  intros Hu Hv H. apply uuid_bytes_inj; [done..|]. apply hex_inj; [apply uuid_bytes_ok..|].
  rewrite <- !uuid_str_digits. by rewrite H.
Qed.

Lemma hex_char_digit c : mem c hex_alphabet = true → ∃ d, 0 ≤ d < 16 ∧ c = hex_digit d.
Proof.
  intros H%mem_spec. unfold hex_alphabet in H. cbn [lit] in H.
  assert (Hc : (48 ≤ c ≤ 57) ∨ (97 ≤ c ≤ 102)).
  { repeat (apply elem_of_cons in H as [->|H]; [first [left; vm_compute; split; discriminate | right; vm_compute; split; discriminate]|]).
    by apply not_elem_of_nil in H. }
  destruct Hc; [exists (c - 48)|exists (c - 87)]; unfold hex_digit; (split; [lia|]);
    destruct (Z.ltb_spec (c - 48) 10), (Z.ltb_spec (c - 87) 10); lia.
Qed.

Lemma digits_surj base l :
  1 < base → Forall (λ d, 0 ≤ d < base) l →
  ∃ x, 0 ≤ x < base ^ Z.of_nat (length l) ∧ digits base (length l) x = l.
Proof.
  intros Hb. induction l as [|d l IH] using rev_ind; intros H.
  - exists 0. simpl. split; [lia|done].
  - apply Forall_app in H as [Hl Hd]. apply Forall_cons in Hd as [Hd _].
    destruct (IH Hl) as (x & Hx & He). exists (x * base + d).
    rewrite length_app. cbn [length]. rewrite Nat.add_1_r. cbn [digits].
    rewrite Z.div_add_l, Z.div_small, Z.add_0_r, He by lia.
    rewrite Z.add_comm, Z.mod_add, Z.mod_small by lia. split; [|done].
    rewrite Nat2Z.inj_succ, Z.pow_succ_r by lia. nia.
Qed.

Lemma unhex n h :
  length h = (2 * n)%nat → Forall (λ c, mem c hex_alphabet = true) h →
  ∃ b, length b = n ∧ Forall byte_ok b ∧ hex b = h.
Proof.
  revert h. induction n as [|n IH]; intros h Hlen Hh.
  - destruct h; [|done]. by exists [].
  - destruct h as [|x [|y h]]; [simpl in Hlen; lia..|]. apply Forall_cons in Hh as [Hx Hh].
    apply Forall_cons in Hh as [Hy Hh]. destruct (IH h) as (b & Hb & Hok & <-); [simpl in Hlen; lia|done|].
    apply hex_char_digit in Hx as (d & Hd & ->), Hy as (e & He & ->).
    exists ((16 * d + e) :: b). split_and!; [by f_equal/=| |].
    + constructor; [unfold byte_ok; lia|done].
    + unfold hex. rewrite bind_cons. unfold hex_byte. simpl. repeat f_equal; zdiv.
Qed.

Lemma hex_digits_ok b : Forall byte_ok b → all_in hex_alphabet (hex b) = true.
Proof.
  unfold all_in, hex. rewrite forallb_forall. intros Hb c Hc%list_elem_of_In.
  apply list_elem_of_bind in Hc as (x & Hc & Hx). rewrite Forall_forall in Hb.
  specialize (Hb x Hx). unfold byte_ok in Hb.
  assert (Hd : ∀ d, 0 ≤ d < 16 → mem (hex_digit d) hex_alphabet = true).
  { intros d Hd. assert (H : forallb (λ d, mem (hex_digit d) hex_alphabet) (seqZ 0 16) = true)
      by (vm_compute; reflexivity).
    rewrite forallb_forall in H. apply H. apply list_elem_of_In, elem_of_seqZ. lia. }
  unfold hex_byte in Hc. apply elem_of_cons in Hc as [Hc|Hc%list_elem_of_singleton]; subst c;
    apply Hd; zdiv.
Qed.

Lemma elem_of_take_drop i j (h : pystr) c : c ∈ take i (drop j h) → c ∈ h.
Proof.
  intros Hc. rewrite <- (take_drop j h). apply elem_of_app. right.
  rewrite <- (take_drop i (drop j h)). apply elem_of_app. by left.
Qed.

Lemma dashed_digits h :
  length h = 32%nat → all_in hex_alphabet h = true → filter (λ c, c ≠ 45) (dashed h) = h.
Proof.
  intros Hlen Hall.
  assert (Hf : ∀ l, l ⊆ h → filter (λ c, c ≠ 45) l = l).
  { intros l. induction l as [|c l IH]; intros Hl; [done|]. rewrite filter_cons, decide_True.
    - f_equal. apply IH. intros x Hx. apply Hl. by right.
    - intros ->. unfold all_in in Hall. rewrite forallb_forall in Hall.
      assert (Hc : 45 ∈ h) by (apply Hl; by left). apply list_elem_of_In, Hall in Hc.
      by vm_compute in Hc. }
  assert (Ht : ∀ i j, filter (λ c, c ≠ 45) (take i (drop j h)) = take i (drop j h)).
  { intros i j. apply Hf. intros c Hc. apply (elem_of_take_drop _ _ _ _ Hc). }
  assert (Hd : filter (λ c, c ≠ 45) (lit "-") = []) by reflexivity.
  unfold dashed. rewrite !filter_app, !Ht, Hd, (Hf (take 8 h)), (Hf (drop 20 h)).
  - clear -Hlen. do 32 (destruct h as [|? h]; [done|]). by destruct h.
  - intros c Hc. apply (elem_of_take_drop 32 20 h c). by rewrite take_ge by (rewrite length_drop; lia).
  - intros c Hc. by apply (elem_of_take_drop 8 0 h c).
Qed.

(** The test accepts the text of UUIDs and nothing else. *)
Lemma canonical_uuid_spec s : is_canonical_uuid s = true ↔ ∃ u, uuid_ok u ∧ s = uuid_str u.
Proof.
  unfold is_canonical_uuid. split.
  - intros H. run_ok. rewrite Z.eqb_eq in *. unfold len in *.
    destruct (unhex 16 (filter (λ c, c ≠ 45) s)) as (b & Hb & Hok & Hh); [lia| |].
    { apply Forall_forall. intros c Hc. unfold all_in in *. rewrite forallb_forall in *.
      match goal with H : ∀ x, _ |- _ => apply H end. by apply list_elem_of_In. }
    destruct (digits_surj 256 b) as (x & Hx & Hd); [lia|done|]. rewrite Hb in Hx, Hd.
    exists (mkUUID x). split; [exact Hx|]. unfold uuid_str, uuid_bytes, be_bytes. cbn [uuid_int].
    rewrite Hd, Hh. done.
  - intros (u & Hu & ->). unfold uuid_str.
    rewrite dashed_digits by (apply length_uuid_hex || apply hex_digits_ok, uuid_bytes_ok).
    unfold len. rewrite length_uuid_hex, hex_digits_ok by apply uuid_bytes_ok.
    by rewrite bool_decide_eq_true_2.
Qed.

(** ** Lifetimes

    The lifetime tokens an invocation depends on, and the part of each check that
    does not depend on them. *)

Definition all_active (L : lifetimes) (ks : list nat) : Prop :=
  Forall (λ k, lifetime_active L k = true) ks.

Definition session_lifetimes (f : MembershipFacts) : list nat :=
  option_list (session_scope <$> m_materialized_projection_session f)
  ++ (x ← [m_context_run_persistence_session f; m_delivery_evidence_redemption_session f;
           m_egress_grant_issuance_session f; m_citation_open_session f];
      option_list (as_scope <$> x)).

Definition membership_lifetimes (v : CurrentMembershipVerification) : list nat :=
  cmv_authority_scope v :: session_lifetimes (cmv_facts v)
  ++ [pes_authority_scope (pev_validation_session (m_policy_epoch_verification (cmv_facts v)))].

Definition invocation_lifetimes (inv : AuthenticatedInvocation) : list nat :=
  membership_lifetimes (ua_current_membership_verification (inv_user_actor inv))
  ++ [ts_authority_scope (inv_trusted_scope_snapshot inv)].

Lemma lifetime_active_close L k j :
  lifetime_active (close_lifetime L k) j = lifetime_active L j && bool_decide (j ≠ k).
Proof.
  unfold lifetime_active, close_lifetime. destruct (decide (j = k)) as [->|Hne].
  - rewrite (bool_decide_eq_false_2 (k ≠ k)) by naive_solver. rewrite andb_false_r.
    destruct (decide (k < length L)%nat) as [Hk|Hk].
    + by rewrite list_lookup_insert_eq.
    + rewrite lookup_ge_None_2; [done|]. rewrite length_insert. lia.
  - rewrite bool_decide_eq_true_2, andb_true_r by done. by rewrite list_lookup_insert_ne.
Qed.

Lemma all_active_close L k ks : all_active (close_lifetime L k) ks ↔ all_active L ks ∧ k ∉ ks.
Proof.
  unfold all_active. induction ks as [|j ks IH].
  - rewrite !Forall_nil. set_solver.
  - rewrite !Forall_cons, IH, lifetime_active_close, andb_true_iff, bool_decide_eq_true. set_solver.
Qed.

Lemma all_active_app L ks js : all_active L (ks ++ js) ↔ all_active L ks ∧ all_active L js.
Proof. unfold all_active. by rewrite Forall_app. Qed.
Lemma all_active_cons L k ks :
  all_active L (k :: ks) ↔ lifetime_active L k = true ∧ all_active L ks.
Proof. unfold all_active. by rewrite Forall_cons. Qed.
Lemma all_active_nil L : all_active L [].
Proof. constructor. Qed.

Lemma epoch_ok_spec z :
  (1 <=? z) && (z <=? MAX_POLICY_EPOCH) = true ↔ 1 ≤ z ≤ MAX_POLICY_EPOCH.
Proof. lia. Qed.

Lemma require_epoch_Ok z w : _require_policy_epoch (OInt z) = Ok w ↔ w = z ∧ 1 ≤ z ≤ MAX_POLICY_EPOCH.
Proof.
  unfold _require_policy_epoch. rewrite <- epoch_ok_spec.
  destruct ((1 <=? z) && (z <=? MAX_POLICY_EPOCH)); simpl; naive_solver.
Qed.

Lemma require_active_epoch_Ok L v u :
  _require_active_policy_epoch_verification L v = Ok u ↔
    (1 ≤ pev_policy_epoch v ≤ MAX_POLICY_EPOCH
     ∧ pev_organization_id v = pes_organization_id (pev_validation_session v))
    ∧ lifetime_active L (pes_authority_scope (pev_validation_session v)) = true.
Proof.
  unfold _require_active_policy_epoch_verification, _require_active_policy_epoch_session.
  split.
  - intros H. run_ok. rewrite require_epoch_Ok in *. naive_solver.
  - intros [[He Ho] Hl]. rewrite (proj2 (require_epoch_Ok _ _) (conj eq_refl He)).
    rewrite Hl, bool_decide_eq_true_2 by done. by destruct u.
Qed.

Lemma require_active_sessions_Ok L f u :
  require_active_sessions L f = Ok u ↔ all_active L (session_lifetimes f).
Proof.
  unfold require_active_sessions, session_lifetimes. rewrite all_active_app, bind_Ok.
  assert (Hm : ∀ x, match m_materialized_projection_session f with
      | None => Ok tt | Some s => _require_active_materialized_projection_session L s end = Ok x
      ↔ all_active L (option_list (session_scope <$> m_materialized_projection_session f))).
  { intros []. destruct (m_materialized_projection_session f) as [s|]; simpl.
    - unfold _require_active_materialized_projection_session, all_active.
      rewrite Forall_singleton. unfold lifetime_active. repeat case_match; naive_solver.
    - split; [intros _; apply all_active_nil|done]. }
  setoid_rewrite Hm. setoid_rewrite each_Ok.
  generalize [m_context_run_persistence_session f; m_delivery_evidence_redemption_session f;
              m_egress_grant_issuance_session f; m_citation_open_session f]. intros l.
  assert (Hl : Forall (λ x, require_active_authority_session L x = Ok tt) l ↔
               all_active L (x ← l; option_list (as_scope <$> x))).
  { induction l as [|[s|] l IH].
    - split; intros; constructor.
    - rewrite Forall_cons, bind_cons, all_active_app, IH. simpl. unfold all_active at 2.
      by rewrite Forall_singleton, require_Ok.
    - rewrite Forall_cons, bind_cons, all_active_app, IH. simpl.
      pose proof (all_active_nil L). naive_solver. }
  rewrite <- Hl. split; [naive_solver|]. intros [? ?]. by exists tt.
Qed.

(** What the checks require besides active lifetimes. *)
Definition membership_static (v : CurrentMembershipVerification) : Prop :=
  let f := cmv_facts v in
  let e := m_policy_epoch_verification f in
  1 ≤ pev_policy_epoch e ≤ MAX_POLICY_EPOCH
  ∧ pev_organization_id e = pes_organization_id (pev_validation_session e)
  ∧ m_policy_epoch f = pev_policy_epoch e
  ∧ m_organization_id f = pev_organization_id e.

Lemma require_active_membership_Ok L v u :
  _require_active_current_membership_verification L v = Ok u ↔
    membership_static v ∧ all_active L (membership_lifetimes v).
Proof.
  unfold _require_active_current_membership_verification, membership_static, membership_lifetimes.
  rewrite all_active_cons, all_active_app, all_active_cons. split.
  - intros H. run_ok. rewrite require_active_sessions_Ok, require_active_epoch_Ok in *.
    pose proof (all_active_nil L). naive_solver.
  - intros [(? & ? & ? & ?) (Hs & Hf & Hl & _)]. destruct u. rewrite Hs. cbn [require mbind result_bind].
    rewrite (proj2 (require_active_sessions_Ok L _ tt)) by done. cbn [mbind result_bind].
    rewrite (proj2 (require_active_epoch_Ok L _ tt)) by done. cbn [mbind result_bind].
    by rewrite !bool_decide_eq_true_2.
Qed.

Lemma require_active_snapshot_Ok L s u :
  _require_active_trusted_scope_snapshot L s = Ok u ↔
    1 ≤ ts_policy_epoch s ≤ MAX_POLICY_EPOCH ∧ lifetime_active L (ts_authority_scope s) = true.
Proof.
  unfold _require_active_trusted_scope_snapshot. rewrite <- epoch_ok_spec.
  destruct (lifetime_active L _), ((1 <=? _) && _), u; simpl; naive_solver.
Qed.

(** The checks of a validation that do not depend on lifetimes. *)
Definition invocation_static (inv : AuthenticatedInvocation) (dc : TrustedDeliveryContext) : Prop :=
  let f := ua_facts (inv_user_actor inv) in
  let v := ua_current_membership_verification (inv_user_actor inv) in
  let s := inv_trusted_scope_snapshot inv in
  organization_matches (inv_organization_verification inv) (inv_organization_ref inv)
    (inv_request_id inv) (inv_authentication_binding_ref inv) (inv_received_at inv) = true
  ∧ membership_static v
  ∧ facts_match f (cmv_facts v) = true
  ∧ actor_matches f (inv_organization_ref inv) (inv_user_ref inv) (inv_membership_ref inv)
      (inv_membership_version inv) (inv_principal_ref inv) (inv_request_id inv)
      (inv_authentication_binding_ref inv) (inv_received_at inv) = true
  ∧ m_policy_epoch f = inv_policy_epoch inv
  ∧ dc_authenticated_application_ref dc = inv_authenticated_application_ref inv
  ∧ dc_delivery_binding_ref dc = inv_authentication_binding_ref inv
  ∧ dt_eqb (dc_established_at dc) (inv_received_at inv) = true
  ∧ 1 ≤ ts_policy_epoch s ≤ MAX_POLICY_EPOCH
  ∧ snapshot_matches s (m_organization_id f) (m_user_id f) (m_membership_id f)
      (m_membership_version f) (inv_principal_ref inv) (inv_agent_version_ref inv)
      (dc_purpose dc) (inv_request_id inv) (inv_authentication_binding_ref inv)
      (inv_received_at inv) = true.

Lemma validate_Ok L inv dc u :
  _validate_trusted_invocation_and_delivery L inv dc = Ok u ↔
    invocation_static inv dc ∧ all_active L (invocation_lifetimes inv).
Proof.
  unfold _validate_trusted_invocation_and_delivery, invocation_static, invocation_lifetimes,
    _require_active_user_actor.
  rewrite all_active_app, all_active_cons. split.
  - intros H. apply bind_Ok in H as (? & Ho%require_Ok & H).
    apply bind_Ok in H as (? & (? & Hm & Hf%require_Ok)%bind_Ok & H).
    apply bind_Ok in H as (? & (Ha & He)%require_Ok%andb_true_iff & H).
    apply bind_Ok in H as (? & Hd%require_Ok & H).
    apply bind_Ok in H as (? & Hs & Hsm%require_Ok).
    apply require_active_membership_Ok in Hm as [Hms Hml].
    apply require_active_snapshot_Ok in Hs as [Hse Hsl]. run_ok.
    pose proof (all_active_nil L). split_and!; try done; lia.
  - intros [(Ho & Hm & Hf & Ha & He & Hd1 & Hd2 & Hd3 & Hse & Hsm) (Hml & Hsl & _)]. destruct u.
    rewrite Ho. cbn [require mbind result_bind].
    rewrite (proj2 (require_active_membership_Ok L _ tt)) by done. cbn [mbind result_bind].
    rewrite Hf. cbn [require mbind result_bind]. rewrite Ha, He, Z.eqb_refl.
    cbn [andb require mbind result_bind]. rewrite !bool_decide_eq_true_2, Hd3 by done.
    cbn [andb require mbind result_bind].
    rewrite (proj2 (require_active_snapshot_Ok L _ tt)) by done. cbn [mbind result_bind].
    by rewrite Hsm.
Qed.

(** Targets computed from a snapshot's operands belong to its Organization. *)
Lemma operands_in_organization L s ops n t :
  _trusted_operands_from_snapshot L s = Ok ops →
  t ∈ es_targets (compute_effective_scope ops n) → Scope.organization_id t = ts_organization_id s.
Proof.
  intros Hops Ht. unfold _trusted_operands_from_snapshot in Hops.
  apply bind_Ok in Hops as (? & _ & Hops). apply bind_Ok in Hops as (? & Hall & [= <-]).
  rewrite each_Ok in Hall. apply effective_scope_spec in Ht as [Ht _].
  unfold operand_fields in Hall, Ht. apply Forall_cons in Hall as [Hb _].
  apply Forall_cons in Ht as [Ht _]. apply require_Ok in Hb.
  destruct (organization_boundary (ts_operands s)) as [b|]; [|done].
  simpl in Hb, Ht. apply bool_decide_eq_true in Hb. rewrite Forall_forall in Hb.
  symmetry. apply Hb. by apply elem_of_elements.
Qed.

Lemma validated_snapshot_organization L inv dc u :
  _validate_trusted_invocation_and_delivery L inv dc = Ok u →
  ts_organization_id (inv_trusted_scope_snapshot inv) = m_organization_id (ua_facts (inv_user_actor inv)).
Proof.
  intros [(_ & _ & _ & _ & _ & _ & _ & _ & _ & Hsm) _]%validate_Ok. unfold snapshot_matches in Hsm.
  by run_ok.
Qed.

Lemma validated_proof_organization L inv dc u :
  uuid_ok (eov_organization_id (inv_organization_verification inv)) →
  uuid_ok (m_organization_id (ua_facts (inv_user_actor inv))) →
  _validate_trusted_invocation_and_delivery L inv dc = Ok u →
  eov_organization_id (inv_organization_verification inv)
  = m_organization_id (ua_facts (inv_user_actor inv)).
Proof.
  intros Hv Hf [(Ho & _ & _ & Ha & _) _]%validate_Ok. unfold organization_matches, actor_matches in *.
  run_ok. apply uuid_str_inj; congruence.
Qed.

(** ** Properties *)

(** A validated request names one Organization and one caller.  The
    Organization proof, the actor's membership, the Policy Epoch session and the
    scope snapshot all carry the same Organization; user, membership, request
    and authentication binding agree between them; the snapshot's purpose is the
    delivery purpose; and every target of the effective scope computed from the
    snapshot's operands, under any narrowing, belongs to that Organization. *)
Theorem validated_request_stays_in_organization L inv dc :
  let f := ua_facts (inv_user_actor inv) in
  let s := inv_trusted_scope_snapshot inv in
  let v := inv_organization_verification inv in
  uuid_ok (eov_organization_id v) → uuid_ok (m_organization_id f) →
  _validate_trusted_invocation_and_delivery L inv dc = Ok tt →
  eov_organization_id v = m_organization_id f
  ∧ ts_organization_id s = m_organization_id f
  ∧ pes_organization_id (pev_validation_session (m_policy_epoch_verification f))
    = m_organization_id f
  ∧ ts_user_id s = m_user_id f ∧ ts_membership_id s = m_membership_id f
  ∧ ts_membership_version s = m_membership_version f
  ∧ ts_request_id s = m_request_id f ∧ eov_request_id v = m_request_id f
  ∧ ts_authentication_binding_ref s = m_authentication_binding_ref f
  ∧ dc_delivery_binding_ref dc = m_authentication_binding_ref f
  ∧ ts_purpose s = dc_purpose dc
  ∧ inv_policy_epoch inv = pev_policy_epoch (m_policy_epoch_verification f)
  ∧ ∀ ops n t, _trusted_operands_from_snapshot L s = Ok ops →
      t ∈ es_targets (compute_effective_scope ops n) →
      Scope.organization_id t = m_organization_id f.
Proof.
  cbv zeta. intros Hv Hf Hval. pose proof (validated_proof_organization L inv dc tt Hv Hf Hval) as Hov.
  pose proof (validated_snapshot_organization L inv dc tt Hval) as Hso.
  split; [done|]. split; [done|]. split_and!.
  11:{ intros ops n t Hops Ht. rewrite <- Hso. by eapply operands_in_organization. }
  all: apply validate_Ok in Hval as [(Ho & Hm & Hfm & Ha & He & Hd1 & Hd2 & Hd3 & Hse & Hsm) _];
    unfold organization_matches, actor_matches, snapshot_matches, facts_match, membership_static in *;
    run_ok; repeat match goal with H : _ ∧ _ |- _ => destruct H end; rewrite Z.eqb_eq in *; congruence.
Qed.

(** An invocation built by authenticated ingress passes the shared validation
    with every delivery context of the same purpose, application, binding and
    instant, as long as no lifetime ended in between. *)
Theorem constructed_invocation_validates L request_id organization_ref ov user_ref principal_ref
    membership_ref version cmv agent app binding purpose received_at snapshot inv dc :
  uuid_ok (eov_organization_id ov) → uuid_ok (m_organization_id (cmv_facts cmv)) →
  _construct_authenticated_http_invocation L request_id organization_ref ov user_ref principal_ref
    membership_ref version cmv agent app binding purpose received_at snapshot = Ok inv →
  dc_purpose dc = purpose → dc_authenticated_application_ref dc = app →
  dc_delivery_binding_ref dc = binding → dt_eqb (dc_established_at dc) received_at = true →
  _validate_trusted_invocation_and_delivery L inv dc = Ok tt.
Proof.
  intros Hov Hcmv H <- <- <- Hat. unfold _construct_authenticated_http_invocation, _construct_user_actor in H.
  apply bind_Ok in H as (? & _ & H). apply bind_Ok in H as (? & _ & H).
  apply bind_Ok in H as (? & _ & H). apply bind_Ok in H as (? & _ & H).
  apply bind_Ok in H as (? & Ho%require_Ok & H).
  apply bind_Ok in H as (actor & (? & Hm & [= <-])%bind_Ok & H). cbn [ua_facts] in H.
  apply bind_Ok in H as (? & (Ha & _)%require_Ok%andb_true_iff & H).
  apply bind_Ok in H as (? & Hs & H). apply bind_Ok in H as (? & Hsm%require_Ok & [= <-]).
  apply require_active_membership_Ok in Hm as [Hms Hml].
  destruct (_require_active_trusted_scope_snapshot L snapshot) as [[]|e] eqn:Es;
    [|simpl in Hs; by destruct (_ || _)].
  apply require_active_snapshot_Ok in Es as [Hse Hsl].
  apply validate_Ok. split; [|unfold invocation_lifetimes;
    cbn [inv_user_actor inv_trusted_scope_snapshot ua_current_membership_verification];
    rewrite all_active_app, all_active_cons; pose proof (all_active_nil L); done].
  assert (Hf : facts_match (cmv_facts cmv) (cmv_facts cmv) = true).
  { unfold facts_match. by rewrite !bool_decide_eq_true_2, !Z.eqb_refl, dt_eqb_refl. }
  assert (Heq : eov_organization_id ov = m_organization_id (cmv_facts cmv)).
  { unfold organization_matches, actor_matches in Ho, Ha. run_ok. apply uuid_str_inj; congruence. }
  assert (Hver : m_membership_version (cmv_facts cmv) = version).
  { unfold actor_matches in Ha. run_ok. by apply Z.eqb_eq. }
  unfold invocation_static.
  cbn [inv_user_actor inv_trusted_scope_snapshot ua_current_membership_verification ua_facts
       inv_organization_verification inv_organization_ref inv_request_id inv_received_at
       inv_authentication_binding_ref inv_user_ref inv_membership_ref inv_membership_version
       inv_principal_ref inv_policy_epoch inv_authenticated_application_ref inv_agent_version_ref].
  rewrite <- Heq, Hver. split_and!; first [done | lia].
Qed.

(** Ending lifetimes revokes exactly the requests that depend on them: after
    any sequence of closed tokens a request validates if and only if it
    validated before and none of the tokens is its membership, session, Policy
    Epoch or scope-snapshot lifetime. *)
Theorem closing_lifetimes_revokes L ks inv dc :
  _validate_trusted_invocation_and_delivery (foldl close_lifetime L ks) inv dc = Ok tt ↔
    _validate_trusted_invocation_and_delivery L inv dc = Ok tt
    ∧ Forall (λ k, k ∉ invocation_lifetimes inv) ks.
Proof.
  revert L. induction ks as [|k ks IH]; intros L; simpl.
  - rewrite Forall_nil. tauto.
  - rewrite IH, !validate_Ok, all_active_close, Forall_cons. tauto.
Qed.

(** What an epoch authority may raise: its own failures, or the errors that the
    gate turns into unavailability. *)
Definition port_faults_expected (port : epoch_port) (organization_id : UUID) : Prop :=
  ∀ e, port organization_id = Err e →
    is_epoch_failure e || is_TypeError e || is_ValueError e = true.

Lemma read_epoch_Ok port o z :
  read_epoch port o = Ok z ↔ port o = Ok (OInt z) ∧ 1 ≤ z ≤ MAX_POLICY_EPOCH.
Proof.
  unfold read_epoch. destruct (port o) as [w|e]; simpl.
  - destruct w as [|b|w|s|b|]; simpl; try naive_solver.
    rewrite <- epoch_ok_spec. destruct ((1 <=? w) && _) eqn:E; simpl.
    + split; [intros [= ->]|]; naive_solver.
    + naive_solver congruence.
  - destruct (is_epoch_failure e); simpl; naive_solver.
Qed.

(** C26: The Policy Epoch gate against the authority that was observed.  After an
    observation, the gate answers true exactly when the session's lifetime is
    still active and the durable authority now answers as it did at the
    observation; it answers false exactly when the lifetime is active and the
    authority answers another valid epoch; everything else (an ended lifetime, an
    invalid epoch value, a failing authority) is authority unavailability and
    never a decision. *)
Theorem epoch_gate_tracks_authority L port fresh s v L' port' :
  _observe_current_policy_epoch L port fresh s = Ok v →
  port_faults_expected port' (pes_organization_id s) →
  (policy_epoch_gate_is_current L' port' v = Ok true ↔
     lifetime_active L' (pes_authority_scope s) = true
     ∧ port' (pes_organization_id s) = port (pes_organization_id s))
  ∧ (policy_epoch_gate_is_current L' port' v = Ok false ↔
     lifetime_active L' (pes_authority_scope s) = true
     ∧ port' (pes_organization_id s) ≠ port (pes_organization_id s)
     ∧ ∃ z, port' (pes_organization_id s) = Ok (OInt z) ∧ 1 ≤ z ≤ MAX_POLICY_EPOCH)
  ∧ ∀ e, policy_epoch_gate_is_current L' port' v = Err e → e = PolicyEpochAuthorityUnavailable.
Proof.
  intros (? & _ & (epoch & [Hp He]%read_epoch_Ok & [= <-])%bind_Ok)%bind_Ok Hfault.
  rewrite Hp. unfold policy_epoch_gate_is_current, _policy_epoch_is_current.
  cbn [pev_organization_id pev_policy_epoch pev_validation_session].
  set (v := mkPolicyEpochVerification fresh (pes_organization_id s) epoch s).
  destruct (lifetime_active L' (pes_authority_scope s)) eqn:Hl.
  - rewrite (proj2 (require_active_epoch_Ok L' v tt)) by done. cbn [mbind result_bind].
    destruct (read_epoch port' (pes_organization_id s)) as [z|e] eqn:Hr; cbn [mbind result_bind try_except].
    + apply read_epoch_Ok in Hr as [Hp' Hz]. rewrite Hp'.
      destruct (Z.eqb_spec z epoch); naive_solver congruence.
    + assert (Hno : ∀ z, port' (pes_organization_id s) = Ok (OInt z) → ¬ 1 ≤ z ≤ MAX_POLICY_EPOCH).
      { intros z Hz Hr'. pose proof (proj2 (read_epoch_Ok _ _ _) (conj Hz Hr')). congruence. }
      assert (Hcaught : (if is_TypeError e || is_ValueError e
                then Err PolicyEpochAuthorityUnavailable else Err e)
               = Err (A := bool) PolicyEpochAuthorityUnavailable).
      { revert Hr. unfold read_epoch. unfold port_faults_expected in Hfault.
        destruct (port' (pes_organization_id s)) as [w|e'] eqn:Hp'; simpl.
        - destruct w; simpl; try (intros [= <-]; done). destruct (_ && _); simpl; naive_solver.
        - specialize (Hfault e' eq_refl). destruct (is_epoch_failure e') eqn:Hef; simpl.
          + by intros [= <-].
          + intros [= <-]. simpl in Hfault. by rewrite Hfault. }
      rewrite Hcaught. naive_solver.
  - assert (Hreq : _require_active_policy_epoch_verification L' v = Err ValueError).
    { unfold _require_active_policy_epoch_verification, _require_active_policy_epoch_session.
      change (pev_policy_epoch v) with epoch. rewrite (proj2 (require_epoch_Ok epoch epoch)) by done.
      cbn [pev_validation_session v mbind result_bind]. by rewrite Hl. }
    rewrite Hreq. simpl. naive_solver.
Qed.

Definition demo_epoch_session : PolicyEpochSession := mkPolicyEpochSession 1 (mkUUID 1) 0.
Definition demo_epoch : PolicyEpochVerification :=
  mkPolicyEpochVerification 2 (mkUUID 1) 5 demo_epoch_session.
Definition demo_time : datetime := mkDatetime 1000 (Some 0).
Definition demo_facts : MembershipFacts :=
  mkMembershipFacts (mkUUID 1) (mkUUID 2) (mkUUID 3) 7 (lit "principal") (lit "request")
    (lit "binding") demo_time 5 demo_epoch None None None None None None.
Definition demo_membership : CurrentMembershipVerification := mkCurrentMembershipVerification demo_facts 1.
Definition demo_organization : ExistingOrganizationVerification :=
  mkExistingOrganizationVerification (mkUUID 1) (lit "request") (lit "binding")
    (mkDatetime 3600001000 (Some 3600000000)).
Definition demo_operands : TrustedScopeOperands :=
  let s := ScopeSet {[ demo_target 1 ]} in mkTrustedScopeOperands s s s s s s s.
Definition demo_snapshot : TrustedScopeSnapshot :=
  mkTrustedScopeSnapshot (mkUUID 1) (mkUUID 2) (mkUUID 3) 7 5 (lit "principal") (lit "agent")
    (lit "answer") (lit "request") (lit "binding") demo_time demo_operands 2.
Definition demo_lifetimes : lifetimes := [true; true; true].
Definition demo_invocation : AuthenticatedInvocation :=
  mkAuthenticatedInvocation (lit "request") (uuid_str (mkUUID 1)) (uuid_str (mkUUID 2))
    (lit "principal") (uuid_str (mkUUID 3)) 7 5 (lit "agent") (lit "app") (lit "binding") demo_time
    demo_organization (mkUserActor demo_facts demo_membership) demo_snapshot.
Definition demo_delivery : TrustedDeliveryContext :=
  mkTrustedDeliveryContext (lit "answer") (lit "app") (lit "binding") demo_time
    AUTHENTICATED_DIRECT_INGRESS None None None None None.

Lemma epoch_gate_tracks_authority_witness :
  policy_epoch_gate_is_current demo_lifetimes (λ _, Ok (OInt 6)) demo_epoch = Ok false.
Proof.
  apply (epoch_gate_tracks_authority demo_lifetimes (λ _, Ok (OInt 5)) 2 demo_epoch_session demo_epoch
           demo_lifetimes (λ _, Ok (OInt 6))).
  - vm_compute. reflexivity.
  - intros e He. discriminate.
  - split_and!; [reflexivity|discriminate|]. exists 6. split; [reflexivity|].
    unfold MAX_POLICY_EPOCH. lia.
Defined.

Lemma constructed_invocation_validates_witness :
  _validate_trusted_invocation_and_delivery demo_lifetimes demo_invocation demo_delivery = Ok tt.
Proof.
  apply (constructed_invocation_validates demo_lifetimes (lit "request") (uuid_str (mkUUID 1))
           demo_organization (uuid_str (mkUUID 2)) (lit "principal") (uuid_str (mkUUID 3)) 7
           demo_membership (lit "agent") (lit "app") (lit "binding") (lit "answer") demo_time
           demo_snapshot).
  1,2: unfold uuid_ok; cbn; lia.
  all: vm_compute; reflexivity.
Defined.

Lemma validated_request_stays_in_organization_witness :
  ∃ t, t ∈ es_targets (compute_effective_scope demo_operands None)
    ∧ Scope.organization_id t = m_organization_id (ua_facts (inv_user_actor demo_invocation)).
Proof.
  assert (Hops : _trusted_operands_from_snapshot demo_lifetimes demo_snapshot = Ok demo_operands)
    by (vm_compute; reflexivity).
  assert (Hin : demo_target 1 ∈ es_targets (compute_effective_scope demo_operands None))
    by (apply (bool_decide_unpack _); vm_compute; exact I).
  assert (Hval : _validate_trusted_invocation_and_delivery demo_lifetimes demo_invocation demo_delivery
                 = Ok tt) by (vm_compute; reflexivity).
  exists (demo_target 1). split; [exact Hin|].
  destruct (validated_request_stays_in_organization demo_lifetimes demo_invocation demo_delivery)
    as (_ & _ & _ & _ & _ & _ & _ & _ & _ & _ & _ & _ & H).
  1,2: unfold uuid_ok; cbn; lia.
  - exact Hval.
  - exact (H demo_operands None (demo_target 1) Hops Hin).
Defined.
