(* ===== verification/Signing.v ===== *)
(** * Canonical signed documents: [engine/runtime/_ticket_signing.py]

    Field checks, the versioned keyring, canonical JSON documents in base64url,
    and the HS256 tokens of three dot-separated parts.  The theorems of this file
    are about one protocol in general; [ContextTickets], [ActionTickets]
    and [Leases] instantiate it. *)

From S2P Require Import Prelude Codec Sha256 Datetime Json Trusted.

Definition _MAX_KEY_VERSION : Z := Z.shiftl 1 63 - 1.
Definition _MINIMUM_KEY_BYTES : Z := 32.
Definition _NONCE_BYTES : Z := 32.
Definition _MAX_TOKEN_LENGTH : Z := 8192.

(** ** Field checks *)

Definition _require_positive_bigint (value : obj) : result Z :=
  match value with
  | OInt z => require ((1 <=? z) && (z <=? _MAX_KEY_VERSION)) ValueError ;; Ok z
  | _ => Err ValueError
  end.

Definition _require_identifier (value : obj) (maximum_length : Z) : result pystr :=
  match value with
  | OStr s =>
      require (negb (bool_decide (s = []) || isspace s || (maximum_length <? len s) || existsb is_space s))
        ValueError ;; Ok s
  | _ => Err ValueError
  end.

Definition _require_utc (value : datetime) : result datetime :=
  require (is_utc value && (microsecond value =? 0)) ValueError ;; Ok value.

Definition _require_opaque_ticket_value (value : obj) : result pystr :=
  match value with
  | OStr s =>
      require (negb (bool_decide (s = []) || (_MAX_TOKEN_LENGTH <? len s) || existsb is_space s)) ValueError ;;
      Ok s
  | _ => Err ValueError
  end.

(** ** Keyring *)

Record TicketSigningKeyring := mkTicketSigningKeyring {
  active_version : Z;
  _keys : list (Z * pybytes)
}.

(** [TicketSigningKeyring.__init__]: the mapping is read in its order. *)
Definition new_TicketSigningKeyring (active : Z) (keys : list (Z * pybytes)) : result TicketSigningKeyring :=
  version ← _require_positive_bigint (OInt active);
  require (negb (bool_decide (keys = []))) ValueError ;;
  copied ← foldl (λ acc ks,
             copied ← acc;
             canonical_version ← _require_positive_bigint (OInt ks.1);
             require (_MINIMUM_KEY_BYTES <=? len ks.2) ValueError ;;
             Ok (dict_set copied canonical_version ks.2)) (Ok []) keys;
  require (bool_decide (version ∈ copied.*1)) ValueError ;;
  Ok (mkTicketSigningKeyring version copied).

Definition _key_for (keyring : TicketSigningKeyring) (version : Z) : option pybytes :=
  dict_get (_keys keyring) version.

(** ** Values of a decoded document *)

Definition obj_of_json (v : json) : obj :=
  match v with
  | JNull => ONone
  | JBool b => OBool b
  | JInt z => OInt z
  | JStr s => OStr s
  | _ => OOther
  end.

Abbreviation document := (list (list Z * json)).

(** [document[key]] and [document.get(key)] *)
Definition doc_get (d : document) (key : pystr) : result obj :=
  match dict_get d key with Some v => Ok (obj_of_json v) | None => Err KeyError end.
Definition doc_get_or_None (d : document) (key : pystr) : obj :=
  match dict_get d key with Some v => obj_of_json v | None => ONone end.

(** [document[key] == "text"] *)
Definition is_text (o : obj) (t : pystr) : bool :=
  match o with OStr s => bool_decide (s = t) | _ => false end.
Definition is_int (o : obj) (z : Z) : bool :=
  match o with OInt x => x =? z | _ => false end.

(** ** Text of the fields *)

Definition _base64url_encode (value : pybytes) : pystr := Opaque.encode_base64url value.

(** ["=" in value] is refused first; it is not in the alphabet either. *)
Definition _base64url_decode (value : obj) : result pybytes :=
  match value with
  | OStr s =>
      require (negb (bool_decide (s = [])) && negb (mem 61 s)) ValueError ;;
      require (all_in Opaque.alphabet s) ValueError ;;
      decoded ← Opaque.b64decode s;
      require (bool_decide (_base64url_encode decoded = s)) ValueError ;;
      Ok decoded
  | _ => Err ValueError
  end.

(** [value.astimezone(UTC).strftime("%Y-%m-%dT%H:%M:%SZ")] of an aware datetime. *)
Definition _timestamp (value : datetime) : pystr :=
  let us := dt_us value - default 0 (dt_off value) in
  iso_date us ++ lit "T" ++ iso_time us ++ lit "Z".

Definition num2 (a b : Z) : Z := 10 * (a - 48) + (b - 48).

(** [datetime.strptime(value, "%Y-%m-%dT%H:%M:%SZ").replace(tzinfo=UTC)] on the
    texts that print back unchanged: two digits per field and four for the year.
    The parser also takes shorter fields and other digits and letter cases, which
    the caller's comparison with the printed form refuses with the same error. *)
Definition strptime (s : pystr) : result datetime :=
  match s with
  | [y1; y2; y3; y4; s1; m1; m2; s2; d1; d2; t; h1; h2; s3; n1; n2; s4; e1; e2; z] =>
      require (forallb is_digit [y1; y2; y3; y4; m1; m2; d1; d2; h1; h2; n1; n2; e1; e2]
               && bool_decide ([s1; s2; t; s3; s4; z] = lit "--T::Z")) ValueError ;;
      let y := 100 * num2 y1 y2 + num2 y3 y4 in
      let m := num2 m1 m2 in
      let d := num2 d1 d2 in
      require ((1 <=? y) && (1 <=? m) && (m <=? 12) && (1 <=? d) && (d <=? days_in_month (is_leap y) m)
               && (num2 h1 h2 <=? 23) && (num2 n1 n2 <=? 59) && (num2 e1 e2 <=? 59)) ValueError ;;
      Ok (mkDatetime ((ymd2ord y m d - 1) * us_per_day
                      + seconds (3600 * num2 h1 h2 + 60 * num2 n1 n2 + num2 e1 e2)) (Some 0))
  | _ => Err ValueError
  end.

Definition _parse_timestamp (value : obj) : result datetime :=
  match value with
  | OStr s =>
      parsed ← strptime s;
      require (bool_decide (_timestamp parsed = s)) ValueError ;;
      Ok parsed
  | _ => Err ValueError
  end.

Definition uuid_of_digits (ds : pystr) : UUID :=
  mkUUID (foldl (λ a c, 16 * a + default 0 (hex_value c)) 0 ds).

(** [UUID(value)] and the comparison with its text. *)
Definition _parse_uuid (value : obj) : result UUID :=
  match value with
  | OStr s =>
      require (is_canonical_uuid s) ValueError ;;
      Ok (uuid_of_digits (filter (λ c, c ≠ 45) s))
  | _ => Err ValueError
  end.

Definition _require_nonce (value : pybytes) : result pybytes :=
  require (len value =? _NONCE_BYTES) ValueError ;; Ok value.
Definition _parse_nonce (value : obj) : result pybytes :=
  decoded ← _base64url_decode value; _require_nonce decoded.
Definition _nonce_document (value : pybytes) : result pystr :=
  nonce ← _require_nonce value; Ok (_base64url_encode nonce).

(** ** Documents and tokens *)

Fixpoint reject_loop (d : document) (pairs : document) : result document :=
  match pairs with
  | [] => Ok d
  | (key, value) :: pairs' =>
      require (bool_decide (key ∉ d.*1)) ValueError ;; reject_loop (dict_set d key value) pairs'
  end.
Definition _reject_duplicate_pairs (pairs : document) : result document := reject_loop [] pairs.

Fixpoint split_dot (s : pystr) : list pystr :=
  match s with
  | [] => [[]]
  | c :: s' =>
      if c =? 46 then [] :: split_dot s'
      else match split_dot s' with
           | [] => [[c]]
           | p :: ps => (c :: p) :: ps
           end
  end.

Section Signing.
Context {nesting : NestingLimit}.
Context (float_repr : pystr → result pystr).

(** The text is ASCII, so its encoding is the text itself. *)
Definition _canonical_json (value : document) : result pybytes := dumps float_repr (JObj value).

Definition _decode_document (encoded : pystr) (expected_fields : list pystr) : result document :=
  raw ← _base64url_decode (OStr encoded);
  v ← loads _reject_duplicate_pairs raw;
  match v with
  | JObj d =>
      require (bool_decide (list_to_set d.*1 =@{gset pystr} list_to_set expected_fields)) ValueError ;;
      canonical ← _canonical_json d;
      require (bool_decide (canonical = raw)) ValueError ;;
      Ok d
  | _ => Err ValueError
  end.

Definition _HEADER_FIELDS : list pystr := [lit "alg"; lit "dom"; lit "kid"; lit "typ"; lit "v"].
Definition _ALGORITHM : pystr := lit "HS256".
Definition _PROTOCOL_VERSION : Z := 1.

Definition header_document (domain token_type : pystr) (kid version : Z) : document :=
  [(lit "alg", JStr _ALGORITHM); (lit "dom", JStr domain); (lit "kid", JInt kid);
   (lit "typ", JStr token_type); (lit "v", JInt version)].

Definition signing_input (encoded_header encoded_claims : pystr) : pystr :=
  encoded_header ++ [46] ++ encoded_claims.

(** The three parts of a token. *)
Definition signed_token (key header claims : pybytes) : pystr :=
  let input := signing_input (_base64url_encode header) (_base64url_encode claims) in
  input ++ [46] ++ _base64url_encode (hmac_sha256 key input).

Definition _mint_signed_ticket (keyring : TicketSigningKeyring) (domain token_type : pystr)
    (claims : document) : result pystr :=
  let version := active_version keyring in
  match _key_for keyring version with
  | None => Err ValueError
  | Some key =>
      header ← _canonical_json (header_document domain token_type version _PROTOCOL_VERSION);
      raw ← _canonical_json claims;
      Ok (signed_token key header raw)
  end.

Definition _verify_signed_ticket (value : pystr) (keyring : TicketSigningKeyring)
    (domain token_type : pystr) (claim_fields : list pystr) : result document :=
  _require_opaque_ticket_value (OStr value) ;;
  match split_dot value with
  | [encoded_header; encoded_claims; encoded_signature] =>
      header ← _decode_document encoded_header _HEADER_FIELDS;
      v ← doc_get header (lit "v");
      require (is_int v _PROTOCOL_VERSION) ValueError ;;
      kid ← doc_get header (lit "kid");
      key_version ← _require_positive_bigint kid;
      alg ← doc_get header (lit "alg");
      dom ← doc_get header (lit "dom");
      typ ← doc_get header (lit "typ");
      require (is_text alg _ALGORITHM && is_text dom domain && is_text typ token_type) ValueError ;;
      match _key_for keyring key_version with
      | None => Err ValueError
      | Some key =>
          supplied ← _base64url_decode (OStr encoded_signature);
          require (len supplied =? 32) ValueError ;;
          require (bool_decide (supplied = hmac_sha256 key (signing_input encoded_header encoded_claims)))
            ValueError ;;
          d ← _decode_document encoded_claims claim_fields;
          skv ← doc_get d (lit "signing_key_version");
          require (is_int skv key_version) ValueError ;;
          Ok d
      end
  | _ => Err ValueError
  end.
End Signing.

(** [_EXPECTED_DECODING_ERRORS] *)
Definition is_expected_decoding_error (e : exn) : bool :=
  is_ValueError e || is_TypeError e || bool_decide (e = RecursionError).

(** ** Decoded documents *)

Lemma dict_set_new {K V} `{!EqDecision K} (d : list (K * V)) k v :
  k ∉ d.*1 → dict_set d k v = d ++ [(k, v)].
Proof.
  induction d as [|[k' v'] d IH]; cbn [dict_set]; [done|]. rewrite fmap_cons. cbn. intros Hk.
  rewrite decide_False by set_solver. rewrite IH by set_solver. done.
Qed.

Lemma reject_loop_Ok d pairs r :
  NoDup d.*1 → reject_loop d pairs = Ok r ↔ NoDup (d ++ pairs).*1 ∧ r = d ++ pairs.
Proof.
  revert d. induction pairs as [|[k v] pairs IH]; intros d Hd; cbn [reject_loop].
  - rewrite app_nil_r. naive_solver.
  - rewrite bind_Ok. setoid_rewrite require_Ok. setoid_rewrite bool_decide_eq_true.
    assert (Happ : d ++ (k, v) :: pairs = (d ++ [(k, v)]) ++ pairs) by by rewrite <- app_assoc.
    rewrite Happ. split.
    + intros (_ & Hk & H). rewrite dict_set_new in H by done. apply IH in H; [done|].
      rewrite fmap_app. apply NoDup_app. split_and!; [done|set_solver|apply NoDup_singleton].
    + intros [Hnd ->]. assert (Hnd' : NoDup (d ++ [(k, v)]).*1).
      { rewrite fmap_app in Hnd. by apply NoDup_app in Hnd as [? _]. }
      assert (Hk : k ∉ d.*1).
      { rewrite fmap_app in Hnd'. apply NoDup_app in Hnd' as (_ & Hk & _). intros Hin. apply (Hk k Hin). by left. }
      exists tt. split; [done|]. rewrite dict_set_new by done. by apply IH.
Qed.

Lemma reject_duplicate_pairs_Ok pairs r :
  _reject_duplicate_pairs pairs = Ok r ↔ NoDup pairs.*1 ∧ r = pairs.
Proof. unfold _reject_duplicate_pairs. by rewrite reject_loop_Ok by constructor. Qed.

Lemma loads_object {nesting : NestingLimit} raw d : loads _reject_duplicate_pairs raw = Ok (JObj d) → NoDup d.*1.
Proof.
  unfold loads, loads_str. destruct (decode_bytes raw) as [text|]; [|done].
  intros ([v r] & H & Hv)%bind_Ok. apply bind_Ok in Hv as (_ & _ & ->%Ok_inj). revert H.
  generalize (skip_ws text). intros s H. rewrite Nat.add_1_r in H. destruct s as [|c s]; [done|].
  cbn [scan_value] in H.
  assert (Hb : ∀ m, build_object _reject_duplicate_pairs m = Ok (JObj d, r) → NoDup d.*1).
  { unfold build_object. intros m ([ps r'] & _ & Hm)%bind_Ok. apply bind_Ok in Hm as (kvs & Hk & [= -> _]).
    by apply reject_duplicate_pairs_Ok in Hk as [? ->]. }
  destruct (c =? 34); [by apply bind_Ok in H as ([] & _ & [=])|].
  destruct (c =? 123).
  { apply bind_Ok in H as (_ & _ & H). destruct (skip_ws s) as [|x s']; [done|]. destruct (x =? 125); by eapply Hb. }
  destruct (c =? 91).
  { apply bind_Ok in H as (_ & _ & H). destruct (skip_ws s) as [|x s']; [done|]. destruct (x =? 93); [done|].
    by apply bind_Ok in H as ([] & _ & [=]). }
  destruct (scan_constant constants (c :: s)) as [[v r']|] eqn:Hc.
  - exfalso. injection H as -> ->. revert Hc. cbn [scan_constant constants].
    repeat (destruct (startswith _ _); [congruence|]). done.
  - exfalso. unfold scan_number in H. repeat case_match; simplify_eq. all: unfold require in *; repeat case_match; done.
Qed.

(** ** Base64url *)

Lemma all_in_no_pad s : all_in Opaque.alphabet s = true → mem 61 s = false.
Proof.
  unfold all_in. rewrite forallb_forall. intros H. destruct (mem 61 s) eqn:E; [|done]. exfalso.
  apply mem_spec, list_elem_of_In, H in E. by vm_compute in E.
Qed.

Lemma base64url_decode_Ok s b : _base64url_decode (OStr s) = Ok b → s = _base64url_encode b ∧ b ≠ [].
Proof.
  unfold _base64url_decode. intros H. run_ok. split; [done|]. intros ->. done.
Qed.

Lemma base64url_decode_encode b :
  b ≠ [] → Forall byte_ok b → _base64url_decode (OStr (_base64url_encode b)) = Ok b.
Proof.
  intros Hne Hb. unfold _base64url_decode, _base64url_encode.
  pose proof (Opaque.encode_all_in b Hb) as Ha. rewrite Ha, (all_in_no_pad _ Ha).
  rewrite bool_decide_eq_false_2 by (by destruct b as [|? [|? [|? ?]]]). cbn [negb andb require mbind result_bind].
  rewrite Opaque.b64_roundtrip_raw by done. cbn [mbind result_bind]. by rewrite bool_decide_eq_true_2.
Qed.

Lemma printable_byte_ok b : Forall printable b → Forall byte_ok b.
Proof. intros H. eapply Forall_impl; [exact H|]. unfold printable, byte_ok. lia. Qed.

(** ** Splitting at the dots *)

Lemma split_dot_nonempty s : split_dot s ≠ [].
Proof. destruct s as [|c s]; cbn [split_dot]; [done|]. destruct (c =? 46); [done|]. by destruct (split_dot s). Qed.

Lemma join_split_dot s : join [46] (split_dot s) = s.
Proof.
  induction s as [|c s IH]; [done|]. cbn [split_dot]. pose proof (split_dot_nonempty s).
  destruct (Z.eqb_spec c 46) as [->|].
  - destruct (split_dot s) as [|p ps]; [done|]. change (join [46] ([] :: p :: ps)) with (46 :: join [46] (p :: ps)).
    by rewrite IH.
  - destruct (split_dot s) as [|p ps]; [done|]. destruct ps as [|q ps].
    + cbn [join] in *. by rewrite IH.
    + change (join [46] ((c :: p) :: q :: ps)) with (c :: join [46] (p :: q :: ps)). by rewrite IH.
Qed.

Lemma split_dot_app a b : 46 ∉ a → split_dot (a ++ 46 :: b) = a :: split_dot b.
Proof.
  induction a as [|c a IH]; intros Ha; [done|]. cbn [app split_dot].
  rewrite (proj2 (Z.eqb_neq c 46)) by (intros ->; apply Ha; by left).
  rewrite IH by (intros ?; apply Ha; by right). done.
Qed.

Lemma split_dot_none a : 46 ∉ a → split_dot a = [a].
Proof.
  induction a as [|c a IH]; intros Ha; [done|]. cbn [split_dot].
  rewrite (proj2 (Z.eqb_neq c 46)) by (intros ->; apply Ha; by left).
  rewrite IH by (intros ?; apply Ha; by right). done.
Qed.

Lemma base64url_no_dot b : Forall byte_ok b → 46 ∉ _base64url_encode b.
Proof.
  intros Hb H. pose proof (Opaque.encode_all_in b Hb) as Ha. unfold all_in in Ha.
  rewrite forallb_forall in Ha. apply list_elem_of_In, Ha in H. by vm_compute in H.
Qed.

Lemma split_signed_token key header claims :
  Forall byte_ok header → Forall byte_ok claims →
  split_dot (signed_token key header claims)
  = [_base64url_encode header; _base64url_encode claims;
     _base64url_encode (hmac_sha256 key (signing_input (_base64url_encode header) (_base64url_encode claims)))].
Proof.
  intros Hh Hc. unfold signed_token, signing_input. rewrite <- !app_assoc. cbn [app].
  rewrite split_dot_app by by apply base64url_no_dot. rewrite split_dot_app by by apply base64url_no_dot.
  rewrite split_dot_none; [done|]. apply base64url_no_dot, hmac_shape.
Qed.

(** ** Exact characterization of a signed token *)

Lemma same_dict {K V} `{!EqDecision K} (d e : list (K * V)) :
  NoDup d.*1 → NoDup e.*1 → (∀ k, dict_get d k = dict_get e k) → d ≡ₚ e.
Proof.
  intros Hd He H. apply NoDup_Permutation; [by eapply NoDup_fmap_1|by eapply NoDup_fmap_1|].
  intros [k v]. by rewrite <- !dict_get_Some, H by done.
Qed.

Section Exact.
Context {nesting : NestingLimit}.
Context (float_repr : pystr → result pystr).

Lemma decode_document_Ok enc fields d :
  _decode_document float_repr enc fields = Ok d →
  NoDup d.*1 ∧ list_to_set d.*1 =@{gset pystr} list_to_set fields
  ∧ ∃ raw, _canonical_json float_repr d = Ok raw ∧ enc = _base64url_encode raw.
Proof.
  unfold _decode_document. intros (raw & [-> _]%base64url_decode_Ok & H)%bind_Ok.
  apply bind_Ok in H as (v & Hv & H). destruct v as [| | | | | |kvs]; try done.
  apply bind_Ok in H as (_ & Hf%require_Ok%bool_decide_eq_true & H).
  apply bind_Ok in H as (canonical & Hc & H). apply bind_Ok in H as (_ & ->%require_Ok%bool_decide_eq_true & H).
  apply Ok_inj in H as ->. split; [by eapply loads_object|]. split; [done|]. by exists raw.
Qed.

(** The document in the order of its text. *)
Definition in_key_order (d : document) : document :=
  sorted_by fst ((λ kv, (kv.1, sort_keys kv.2)) <$> d).

Lemma keys_in_order d : (in_key_order d).*1 ≡ₚ d.*1.
Proof. unfold in_key_order. rewrite sorted_by_perm, <- list_fmap_compose. done. Qed.

Lemma get_in_order d k :
  NoDup d.*1 → dict_get (in_key_order d) k = sort_keys <$> dict_get d k.
Proof.
  intros Hnd. assert (Hnd' : NoDup (in_key_order d).*1) by by rewrite keys_in_order.
  destruct (dict_get d k) as [v|] eqn:Hv; cbn.
  - apply dict_get_Some; [done|]. apply dict_get_Some in Hv; [|done]. unfold in_key_order.
    rewrite sorted_by_perm. apply list_elem_of_fmap. by exists (k, v).
  - apply dict_get_None. apply dict_get_None in Hv. by rewrite keys_in_order.
Qed.

Lemma decode_document_encode d raw fields :
  json_ok (JObj d) = true → nests nesting_limit (JObj d) = true → _canonical_json float_repr d = Ok raw →
  list_to_set d.*1 =@{gset pystr} list_to_set fields →
  _decode_document float_repr (_base64url_encode raw) fields = Ok (in_key_order d).
Proof.
  intros Hok Hn Hraw Hf. unfold _decode_document, _canonical_json in *.
  assert (Hp : Forall printable raw) by (by eapply dumps_printable).
  rewrite base64url_decode_encode; [| |by apply printable_byte_ok].
  2:{ destruct (dumps_head float_repr _ _ Hok Hraw) as (? & ? & -> & _). done. }
  cbn [mbind result_bind].
  rewrite (loads_dumps _reject_duplicate_pairs float_repr) with (v := JObj d); [|..|done|done|done].
  2:{ intros l Hl. by apply reject_duplicate_pairs_Ok. }
  change (sort_keys (JObj d)) with (JObj (in_key_order d)). cbn [mbind result_bind].
  rewrite bool_decide_eq_true_2 by (by rewrite keys_in_order). cbn [require mbind result_bind].
  change (JObj (in_key_order d)) with (sort_keys (JObj d)).
  rewrite (dumps_sort_keys float_repr _ _ Hraw). cbn [mbind result_bind]. by rewrite bool_decide_eq_true_2.
Qed.

Lemma header_unique d dom typ kid version :
  NoDup d.*1 → list_to_set d.*1 =@{gset pystr} list_to_set _HEADER_FIELDS →
  dict_get d (lit "alg") = Some (JStr _ALGORITHM) → dict_get d (lit "dom") = Some (JStr dom) →
  dict_get d (lit "kid") = Some (JInt kid) → dict_get d (lit "typ") = Some (JStr typ) →
  dict_get d (lit "v") = Some (JInt version) → d ≡ₚ header_document dom typ kid version.
Proof.
  intros Hnd Hf Ha Hd Hk Ht Hv. apply same_dict; [done| |].
  { change (NoDup _HEADER_FIELDS). apply (bool_decide_unpack _). by vm_compute. }
  intros k. destruct (decide (k ∈ _HEADER_FIELDS)) as [Hin|Hout].
  - unfold _HEADER_FIELDS in Hin. repeat (apply elem_of_cons in Hin as [->|Hin]);
      [rewrite Ha|rewrite Hd|rewrite Hk|rewrite Ht|rewrite Hv|by apply not_elem_of_nil in Hin]; reflexivity.
  - assert (Hn : k ∉ d.*1).
    { intros Hin. apply Hout. rewrite <- (elem_of_list_to_set (C := gset pystr)), <- Hf.
      by apply elem_of_list_to_set. }
    rewrite (proj2 (dict_get_None d k) Hn). symmetry. by apply dict_get_None.
Qed.

Lemma doc_get_text d k o t : doc_get d k = Ok o → is_text o t = true → dict_get d k = Some (JStr t).
Proof.
  unfold doc_get. destruct (dict_get d k) as [v|]; [|done]. intros [= <-] H.
  destruct v; try done. by apply bool_decide_eq_true in H as ->.
Qed.

Lemma doc_get_int d k o z : doc_get d k = Ok o → is_int o z = true → dict_get d k = Some (JInt z).
Proof.
  unfold doc_get. destruct (dict_get d k) as [v|]; [|done]. intros [= <-] H.
  destruct v; try done. by apply Z.eqb_eq in H as ->.
Qed.

Lemma positive_bigint_Ok o z :
  _require_positive_bigint o = Ok z ↔ o = OInt z ∧ 1 ≤ z ≤ _MAX_KEY_VERSION.
Proof.
  unfold _require_positive_bigint. destruct o; try (split; [done|by intros [? _]]).
  rewrite bind_Ok. setoid_rewrite require_Ok. split.
  - intros (_ & H & [= ->]). split; [done|lia].
  - intros [[= ->] H]. exists tt. split; [lia|done].
Qed.

Definition with_active (K : TicketSigningKeyring) (version : Z) : TicketSigningKeyring :=
  mkTicketSigningKeyring version (_keys K).

Definition opaque_value_ok (value : pystr) : Prop := _require_opaque_ticket_value (OStr value) = Ok value.

(** A well-formed claims document of a protocol. *)
Definition claims_ok (fields : list pystr) (kid : Z) (d : document) : Prop :=
  list_to_set d.*1 =@{gset pystr} list_to_set fields
  ∧ dict_get d (lit "signing_key_version") = Some (JInt kid).

(** The header of a verified token. *)
Lemma verify_header value K dom typ fields d :
  _verify_signed_ticket float_repr value K dom typ fields = Ok d →
  ∃ eh ec es kid header,
    split_dot value = [eh; ec; es] ∧ _decode_document float_repr eh _HEADER_FIELDS = Ok header
    ∧ opaque_value_ok value ∧ 1 ≤ kid ≤ _MAX_KEY_VERSION
    ∧ header ≡ₚ header_document dom typ kid _PROTOCOL_VERSION
    ∧ ∃ key, _key_for K kid = Some key
      ∧ es = _base64url_encode (hmac_sha256 key (signing_input eh ec))
      ∧ _decode_document float_repr ec fields = Ok d
      ∧ dict_get d (lit "signing_key_version") = Some (JInt kid).
Proof.
  unfold _verify_signed_ticket. intros (x & Hop & H)%bind_Ok.
  assert (x = value) as -> by (unfold _require_opaque_ticket_value in Hop; by run_ok).
  destruct (split_dot value) as [|eh [|ec [|es [|? ?]]]]; try done.
  apply bind_Ok in H as (header & Hh & H). apply bind_Ok in H as (v & Hv & H).
  apply bind_Ok in H as (_ & Hv1%require_Ok & H). apply bind_Ok in H as (kid & Hk & H).
  apply bind_Ok in H as (kv & [-> Hkv]%positive_bigint_Ok & H). apply bind_Ok in H as (alg & Ha & H).
  apply bind_Ok in H as (dm & Hd & H). apply bind_Ok in H as (ty & Ht & H).
  apply bind_Ok in H as (_ & Htxt%require_Ok & H). rewrite !andb_true_iff in Htxt.
  destruct Htxt as [[Ha' Hd'] Ht']. destruct (_key_for K kv) as [key|] eqn:Hkey; [|done].
  apply bind_Ok in H as (sg & [-> _]%base64url_decode_Ok & H). apply bind_Ok in H as (_ & _ & H).
  apply bind_Ok in H as (_ & ->%require_Ok%bool_decide_eq_true & H). apply bind_Ok in H as (d' & Hdoc & H).
  apply bind_Ok in H as (skv & Hs & H). apply bind_Ok in H as (_ & Hs'%require_Ok & ->%Ok_inj).
  eexists eh, ec, _, kv, header. split_and!; [done|done|exact Hop|lia|lia| |].
  - destruct (decode_document_Ok _ _ _ Hh) as (Hnd & Hf & _). eapply header_unique; eauto using doc_get_text, doc_get_int.
    eapply doc_get_int; [exact Hk|]. cbn. apply Z.eqb_refl.
  - exists key. split_and!; try done. by eapply doc_get_int.
Qed.

Lemma canonical_perm d e raw :
  d ≡ₚ e → NoDup d.*1 → _canonical_json float_repr d = Ok raw → _canonical_json float_repr e = Ok raw.
Proof. apply dumps_perm. Qed.

Lemma verified_is_minted value K dom typ fields d :
  _verify_signed_ticket float_repr value K dom typ fields = Ok d →
  ∃ kid, 1 ≤ kid ≤ _MAX_KEY_VERSION ∧ claims_ok fields kid d ∧ NoDup d.*1 ∧ opaque_value_ok value
    ∧ _mint_signed_ticket float_repr (with_active K kid) dom typ d = Ok value.
Proof.
  intros (eh & ec & es & kid & header & Hsplit & Hh & Hop & Hkid & Hperm & key & Hkey & Hes & Hd & Hskv)%verify_header.
  destruct (decode_document_Ok _ _ _ Hh) as (Hnd & _ & hraw & Hhraw & ->).
  destruct (decode_document_Ok _ _ _ Hd) as (Hndd & Hf & craw & Hcraw & ->).
  exists kid. split_and!; [lia|lia|done..|]. unfold _mint_signed_ticket. cbn [active_version with_active].
  change (_key_for (with_active K kid) kid) with (_key_for K kid). rewrite Hkey.
  rewrite (canonical_perm _ _ _ Hperm Hnd Hhraw). cbn [mbind result_bind]. rewrite Hcraw.
  cbn [mbind result_bind]. f_equal. rewrite <- (join_split_dot value), Hsplit, Hes.
  unfold signed_token, signing_input. cbn [join]. by rewrite <- !app_assoc.
Qed.

Lemma header_json_ok dom typ kid version :
  str_ok dom = true → str_ok typ = true → json_ok (JObj (header_document dom typ kid version)) = true.
Proof.
  intros Hd Ht. cbn [json_ok header_document forallb fst snd]. rewrite Hd, Ht. reflexivity.
Qed.

Lemma header_nests dom typ kid version : nests nesting_limit (JObj (header_document dom typ kid version)) = true.
Proof. by apply nests_room. Qed.

Lemma header_in_order dom typ kid version :
  in_key_order (header_document dom typ kid version) = header_document dom typ kid version.
Proof. reflexivity. Qed.

Lemma minted_verifies value K dom typ fields kid d :
  str_ok dom = true → str_ok typ = true → json_ok (JObj d) = true → nests nesting_limit (JObj d) = true →
  1 ≤ kid ≤ _MAX_KEY_VERSION → claims_ok fields kid d → opaque_value_ok value →
  _mint_signed_ticket float_repr (with_active K kid) dom typ d = Ok value →
  _verify_signed_ticket float_repr value K dom typ fields = Ok (in_key_order d).
Proof.
  intros Hdom Htyp Hok Hn Hkid [Hf Hskv] Hop Hmint. unfold _mint_signed_ticket in Hmint.
  cbn [active_version with_active] in Hmint.
  change (_key_for (with_active K kid) kid) with (_key_for K kid) in Hmint.
  destruct (_key_for K kid) as [key|] eqn:Hkey; [|done].
  apply bind_Ok in Hmint as (hraw & Hh & Hmint). apply bind_Ok in Hmint as (craw & Hc & <-%Ok_inj).
  pose proof (header_json_ok _ _ kid _PROTOCOL_VERSION Hdom Htyp) as Hhok.
  assert (Hph : Forall byte_ok hraw).
  { apply printable_byte_ok. exact (dumps_printable float_repr _ _ Hhok Hh). }
  assert (Hpc : Forall byte_ok craw).
  { apply printable_byte_ok. exact (dumps_printable float_repr _ _ Hok Hc). }
  unfold _verify_signed_ticket. rewrite Hop. cbn [mbind result_bind].
  rewrite (split_signed_token key hraw craw Hph Hpc).
  rewrite (decode_document_encode _ hraw _HEADER_FIELDS Hhok (header_nests _ _ _ _) Hh eq_refl), header_in_order.
  cbn [mbind result_bind].
  change (doc_get (header_document dom typ kid _PROTOCOL_VERSION) (lit "v")) with (Ok (OInt _PROTOCOL_VERSION)).
  change (doc_get (header_document dom typ kid _PROTOCOL_VERSION) (lit "kid")) with (Ok (OInt kid)).
  change (doc_get (header_document dom typ kid _PROTOCOL_VERSION) (lit "alg")) with (Ok (OStr _ALGORITHM)).
  change (doc_get (header_document dom typ kid _PROTOCOL_VERSION) (lit "dom")) with (Ok (OStr dom)).
  change (doc_get (header_document dom typ kid _PROTOCOL_VERSION) (lit "typ")) with (Ok (OStr typ)).
  cbn [mbind result_bind is_int is_text]. change (_PROTOCOL_VERSION =? _PROTOCOL_VERSION) with true.
  cbn [require mbind result_bind]. rewrite (proj2 (positive_bigint_Ok _ _) (conj eq_refl Hkid)).
  cbn [mbind result_bind]. rewrite !bool_decide_eq_true_2 by done. cbn [andb require mbind result_bind].
  rewrite Hkey. destruct (hmac_shape key (signing_input (_base64url_encode hraw) (_base64url_encode craw))) as [Hl Hb].
  rewrite base64url_decode_encode; [|by destruct (hmac_sha256 _ _)|done]. cbn [mbind result_bind].
  unfold len. rewrite Hl. change (Z.of_nat 32 =? 32) with true. cbn [require mbind result_bind].
  rewrite bool_decide_eq_true_2 by done. cbn [require mbind result_bind].
  rewrite (decode_document_encode d craw fields Hok Hn Hc Hf). cbn [mbind result_bind].
  unfold doc_get. rewrite get_in_order, Hskv.
  - cbn. by rewrite Z.eqb_refl.
  - cbn [json_ok] in Hok. by apply andb_true_iff in Hok as [?%bool_decide_eq_true _].
Qed.

(** A header names one domain and one type. *)
Lemma header_protocol_unique h dom typ kid v dom' typ' kid' v' :
  h ≡ₚ header_document dom typ kid v → h ≡ₚ header_document dom' typ' kid' v' → dom = dom' ∧ typ = typ'.
Proof.
  intros Hp Hp'. assert (Hnd : ∀ a b c d, NoDup (header_document a b c d).*1).
  { intros a b c d. change (NoDup _HEADER_FIELDS). apply (bool_decide_unpack _). by vm_compute. }
  assert (Hget : ∀ k, dict_get (header_document dom typ kid v) k = dict_get (header_document dom' typ' kid' v') k).
  { intros k. destruct (dict_get (header_document dom typ kid v) k) as [x|] eqn:E.
    - apply dict_get_Some in E; [|done]. symmetry. apply dict_get_Some; [done|]. by rewrite <- Hp', Hp.
    - apply dict_get_None in E. symmetry. by apply dict_get_None. }
  pose proof (Hget (lit "dom")) as [= ->]. by pose proof (Hget (lit "typ")) as [= ->].
Qed.

(** C33: A signed ticket has exactly one spelling and only the minting of its own
    document produces it: for a well-formed claims document that nests no deeper than
    the interpreter's stack allows, the verification of
    [value] under a keyring, a domain and a type returns that document if and only
    if [value] is what minting the document under one of the keyring's keys
    returns, the document names that key version, has exactly the protocol's claim
    fields, and the text is within the size bound. *)
Theorem signed_ticket_exact value K dom typ fields d :
  str_ok dom = true → str_ok typ = true → json_ok (JObj d) = true →
  nests nesting_limit (JObj d) = true → in_key_order d = d →
  _verify_signed_ticket float_repr value K dom typ fields = Ok d ↔
    ∃ kid, 1 ≤ kid ≤ _MAX_KEY_VERSION ∧ claims_ok fields kid d ∧ opaque_value_ok value
      ∧ _mint_signed_ticket float_repr (with_active K kid) dom typ d = Ok value.
Proof.
  intros Hdom Htyp Hok Hn Hord. split.
  - intros (kid & ? & ? & _ & ? & ?)%verified_is_minted. by exists kid.
  - intros (kid & Hkid & Hcl & Hop & Hmint). rewrite <- Hord at 1. by eapply minted_verifies.
Qed.
End Exact.

(** ** Text of the fields: round trips *)

Lemma positional base acc n x :
  0 < base → 0 ≤ x < base ^ Z.of_nat n →
  foldl (λ a d, base * a + d) acc (digits base n x) = acc * base ^ Z.of_nat n + x.
Proof.
  intros Hb. revert acc x. induction n as [|n IH]; intros acc x Hx; [cbn in *; lia|].
  rewrite Nat2Z.inj_succ, Z.pow_succ_r in Hx |- * by lia. cbn [digits]. rewrite foldl_app. cbn [foldl].
  rewrite IH by (split; [apply Z.div_pos; lia|apply Z.div_lt_upper_bound; lia]).
  pose proof (Z.div_mod x base ltac:(lia)). nia.
Qed.

Lemma hex_positional acc b :
  Forall byte_ok b →
  foldl (λ a c, 16 * a + default 0 (hex_value c)) acc (hex b) = foldl (λ a d, 256 * a + d) acc b.
Proof.
  intros Hb. revert acc. induction Hb as [|x b Hx Hb IH]; intros acc; [done|]. unfold hex in *.
  rewrite bind_cons. unfold hex_byte, byte_ok in *. cbn [app foldl].
  rewrite !hex_value_digit by zdiv. cbn [default].
  assert (Hv : 16 * (16 * acc + x / 16) + x mod 16 = 256 * acc + x) by zdiv. cbn. rewrite Hv. apply IH.
Qed.

Lemma parse_uuid_text u : uuid_ok u → _parse_uuid (OStr (uuid_str u)) = Ok u.
Proof.
  intros Hu. unfold _parse_uuid. rewrite (proj2 (canonical_uuid_spec _)) by eauto. cbn [require mbind result_bind].
  unfold uuid_str. rewrite dashed_digits by (apply length_uuid_hex || apply hex_digits_ok, uuid_bytes_ok).
  unfold uuid_of_digits. rewrite hex_positional by apply uuid_bytes_ok. unfold uuid_bytes, be_bytes.
  rewrite positional; [|lia|exact Hu]. cbn [Z.mul]. by destruct u.
Qed.

Lemma parse_uuid_Ok o u : _parse_uuid o = Ok u ↔ uuid_ok u ∧ o = OStr (uuid_str u).
Proof.
  split; [|intros [Hu ->]; by apply parse_uuid_text]. unfold _parse_uuid.
  destruct o as [| | |s| |]; try done. intros H. pose proof H as H'.
  apply bind_Ok in H' as (_ & Hc%require_Ok & _). apply canonical_uuid_spec in Hc as (v & Hv & ->).
  pose proof (parse_uuid_text v Hv) as Hp. unfold _parse_uuid in Hp. rewrite Hp in H. by injection H as ->.
Qed.

Lemma num2_padded x : 0 ≤ x < 100 → padded 2 x = [48 + x / 10; 48 + x mod 10] ∧ num2 (48 + x / 10) (48 + x mod 10) = x.
Proof.
  intros Hx. unfold padded, num2. cbn [digits app fmap list_fmap]. split; [by rewrite (Z.mod_small (x / 10)) by zdiv|zdiv].
Qed.

Lemma num4_padded y :
  0 ≤ y < 10000 →
  padded 4 y = [48 + y / 1000; 48 + y / 100 mod 10; 48 + y / 10 mod 10; 48 + y mod 10]
  ∧ 100 * num2 (48 + y / 1000) (48 + y / 100 mod 10) + num2 (48 + y / 10 mod 10) (48 + y mod 10) = y.
Proof.
  intros Hy. unfold padded, num2. cbn [digits app fmap list_fmap]. split; [|zdiv].
  rewrite !Z.div_div by lia. cbn. by rewrite (Z.mod_small (y / 1000)) by zdiv.
Qed.

(** A whole second in UTC. *)
Definition second_ok (d : datetime) : Prop := datetime_ok d ∧ is_utc d = true ∧ microsecond d = 0.

Lemma strptime_timestamp d : second_ok d → strptime (_timestamp d) = Ok d.
Proof.
  destruct d as [us off]. unfold second_ok, datetime_ok, is_utc, microsecond. cbn [dt_us dt_off].
  intros (Hok & ->%bool_decide_eq_true & Hus). unfold _timestamp. cbn [dt_us dt_off default].
  rewrite Z.sub_0_r. unfold iso_date, iso_time. change us_per_second with 1000000 in *.
  change us_per_day with 86400000000 in *. unfold max_ordinal in Hok.
  assert (Hn : 1 ≤ us / 86400000000 + 1 ≤ max_ordinal) by (unfold max_ordinal; zdiv).
  pose proof (ord2ymd_inverse _ Hn) as Hymd. destruct (ord2ymd _) as [[y m] d].
  destruct Hymd as (Hord & Hy & Hm & Hd31 & Hd). set (sec := us / 1000000 mod 86400).
  assert (Hsec : 0 ≤ sec < 86400) by (subst sec; apply Z.mod_pos_bound; lia).
  destruct (num4_padded y) as [-> Hy']; [lia|]. destruct (num2_padded m) as [-> Hm']; [lia|].
  destruct (num2_padded d) as [-> Hd']; [lia|]. destruct (num2_padded (sec / 3600)) as [-> Hh]; [zdiv|].
  destruct (num2_padded (sec / 60 mod 60)) as [-> Hmin]; [zdiv|].
  destruct (num2_padded (sec mod 60)) as [-> Hs]; [zdiv|].
  cbn [app strptime lit]. rewrite Hy', Hm', Hd', Hh, Hmin, Hs.
  assert (Hdig : ∀ k, 0 ≤ k < 10 → is_digit (48 + k) = true) by (intros k Hk; unfold is_digit; lia).
  cbn [forallb]. rewrite !Hdig by zdiv. rewrite bool_decide_eq_true_2 by reflexivity.
  cbn [andb require mbind result_bind].
  rewrite (proj2 (require_Ok _ ValueError tt)) by (rewrite !andb_true_iff, !Z.leb_le; zdiv).
  cbn [mbind result_bind]. rewrite Hord. unfold seconds. change us_per_day with 86400000000.
  change us_per_second with 1000000. repeat f_equal. subst sec. zdiv.
Qed.

Lemma parse_timestamp_text d : second_ok d → _parse_timestamp (OStr (_timestamp d)) = Ok d.
Proof.
  intros Hd. unfold _parse_timestamp. rewrite strptime_timestamp by done. cbn [mbind result_bind].
  by rewrite bool_decide_eq_true_2.
Qed.

Lemma parse_timestamp_Ok o d : _parse_timestamp o = Ok d → o = OStr (_timestamp d).
Proof. unfold _parse_timestamp. destruct o; try done. intros H. run_ok. by subst. Qed.

Lemma identifier_Ok o n s :
  _require_identifier o n = Ok s ↔
    o = OStr s ∧ s ≠ [] ∧ len s ≤ n ∧ existsb is_space s = false.
Proof.
  unfold _require_identifier. destruct o as [| | |t| |]; try (split; [done|by intros [? _]]).
  rewrite bind_Ok. setoid_rewrite require_Ok. split.
  - intros (_ & H & [= <-]). apply negb_true_iff in H. rewrite !orb_false_iff in H.
    destruct H as [[[H1%bool_decide_eq_false _] H3] H4]. split_and!; [done..|lia|done].
  - intros ([= ->] & Hne & Hlen & Hsp). exists tt. split; [|done]. apply negb_true_iff.
    rewrite Hsp, bool_decide_eq_false_2, (proj2 (Z.ltb_ge _ _) Hlen) by done. rewrite !orb_false_r. cbn [orb].
    destruct s as [|c s]; [done|]. cbn [isspace forallb existsb] in *. by destruct (is_space c).
Qed.

Lemma parse_nonce_text n t :
  Forall byte_ok n → _nonce_document n = Ok t → _parse_nonce (OStr t) = Ok n.
Proof.
  intros Hb (m & Hm & <-%Ok_inj)%bind_Ok. unfold _require_nonce in Hm. pose proof Hm as Hm'.
  apply bind_Ok in Hm' as (_ & Hl%require_Ok & ->%Ok_inj). unfold _parse_nonce.
  rewrite base64url_decode_encode; [exact Hm| |done]. intros ->. done.
Qed.

(** ** Errors: every failure is one of the caught classes *)

Abbreviation raises_expected := (raises is_expected_decoding_error).

Lemma raises_ValueError {A} : raises_expected (Err (A := A) ValueError).
Proof. by apply raises_Err. Qed.
Lemma raises_require_ValueError b : raises_expected (require b ValueError).
Proof. by apply raises_require. Qed.

Create HintDb expected.
#[export] Hint Resolve raises_Ok raises_ValueError raises_require_ValueError : expected.

(** Walk through a chain of checks. *)
Ltac expected_chain :=
  repeat match goal with
  | |- raises _ (_ ≫= _) => apply raises_bind; [|intros ? ?]
  | |- raises _ _ => solve [eauto with expected]
  end.

Lemma raises_positive_bigint o : raises_expected (_require_positive_bigint o).
Proof. unfold _require_positive_bigint. destruct o; expected_chain. Qed.
Lemma raises_identifier o n : raises_expected (_require_identifier o n).
Proof. unfold _require_identifier. destruct o; expected_chain. Qed.
Lemma raises_opaque o : raises_expected (_require_opaque_ticket_value o).
Proof. unfold _require_opaque_ticket_value. destruct o; expected_chain. Qed.
Lemma raises_require_utc d : raises_expected (_require_utc d).
Proof. unfold _require_utc. expected_chain. Qed.
Lemma raises_b64decode s : raises_expected (Opaque.b64decode s).
Proof.
  revert s. fix IH 1. intros [|a [|b [|c [|d r]]]]; cbn [Opaque.b64decode]; try (by apply raises_Ok).
  - apply raises_ValueError.
  - apply raises_bind; [apply IH|intros; apply raises_Ok].
Qed.
#[export] Hint Resolve raises_positive_bigint raises_identifier raises_opaque raises_require_utc raises_b64decode
  : expected.

Lemma raises_base64url_decode o : raises_expected (_base64url_decode o).
Proof. unfold _base64url_decode. destruct o; expected_chain. Qed.
Lemma raises_parse_uuid o : raises_expected (_parse_uuid o).
Proof. unfold _parse_uuid. destruct o; expected_chain. Qed.
Lemma raises_strptime s : raises_expected (strptime s).
Proof. unfold strptime. repeat case_match; expected_chain. Qed.
#[export] Hint Resolve raises_base64url_decode raises_parse_uuid raises_strptime : expected.
Lemma raises_parse_timestamp o : raises_expected (_parse_timestamp o).
Proof. unfold _parse_timestamp. destruct o; expected_chain. Qed.
Lemma raises_parse_nonce o : raises_expected (_parse_nonce o).
Proof. unfold _parse_nonce, _require_nonce. expected_chain. Qed.
#[export] Hint Resolve raises_parse_timestamp raises_parse_nonce : expected.

Lemma reject_errors l e : _reject_duplicate_pairs l = Err e → is_ValueError e = true.
Proof.
  unfold _reject_duplicate_pairs. generalize (@nil (pystr * json)).
  induction l as [|[k v] l IH]; intros d; cbn [reject_loop]; [done|].
  intros [H|(? & _ & H)]%bind_Err; [|by eapply IH]. unfold require in H. case_match; by inversion H.
Qed.

Lemma reject_values d l l' :
  _reject_duplicate_pairs l = Ok l' → forallb (λ kv, nests d kv.2) l = true → forallb (λ kv, nests d kv.2) l' = true.
Proof. by intros [_ ->]%reject_duplicate_pairs_Ok. Qed.

Lemma raises_loads {nesting : NestingLimit} raw : raises_expected (loads _reject_duplicate_pairs raw).
Proof.
  intros e [H|H]%(loads_errors _ reject_errors)%decoding_error_cases; unfold is_expected_decoding_error; by rewrite H.
Qed.

Lemma raises_doc_get d k : k ∈ d.*1 → raises_expected (doc_get d k).
Proof.
  intros Hk. unfold doc_get. destruct (dict_get d k) eqn:E; [apply raises_Ok|].
  by apply dict_get_None in E.
Qed.

Section Errors.
Context {nesting : NestingLimit}.
Context (float_repr : pystr → result pystr).
Context (float_repr_errors : ∀ x e, float_repr x = Err e → is_ValueError e = true).

Lemma raises_decode_document enc fields : raises_expected (_decode_document float_repr enc fields).
Proof.
  unfold _decode_document. apply raises_bind; [apply raises_base64url_decode|]. intros raw _.
  apply raises_bind; [apply raises_loads|]. intros v _. destruct v; try apply raises_ValueError.
  expected_chain. intros e He. apply dumps_errors in He; [|done].
  unfold is_expected_decoding_error. by rewrite He.
Qed.

Lemma document_has enc fields d k :
  _decode_document float_repr enc fields = Ok d → k ∈ fields → k ∈ d.*1.
Proof.
  intros (_ & Hf & _)%decode_document_Ok Hk.
  apply (elem_of_list_to_set (C := gset pystr)). rewrite Hf. by apply elem_of_list_to_set.
Qed.

Lemma raises_verify value K dom typ fields :
  lit "signing_key_version" ∈ fields →
  raises_expected (_verify_signed_ticket float_repr value K dom typ fields).
Proof.
  intros Hskv. unfold _verify_signed_ticket. apply raises_bind; [apply raises_opaque|]. intros _ _.
  destruct (split_dot value) as [|eh [|ec [|es [|? ?]]]]; try apply raises_ValueError.
  apply raises_bind; [apply raises_decode_document|]. intros header Hh.
  assert (Hget : ∀ k, k ∈ _HEADER_FIELDS → raises_expected (doc_get header k)).
  { intros k Hk. apply raises_doc_get. by eapply document_has. }
  assert (Hin : ∀ k, bool_decide (k ∈ _HEADER_FIELDS) = true → raises_expected (doc_get header k)).
  { intros k Hk%bool_decide_eq_true. by apply Hget. }
  repeat (first [apply raises_bind; [first [apply raises_require_ValueError|apply raises_positive_bigint
    |apply raises_base64url_decode|apply raises_decode_document|apply Hin; by vm_compute]|intros ? ?]]).
  destruct (_key_for K _) as [key|]; [|apply raises_ValueError].
  repeat (first [apply raises_bind; [first [apply raises_require_ValueError|apply raises_positive_bigint
    |apply raises_base64url_decode|apply raises_decode_document|apply Hin; by vm_compute]|intros ? ?]]).
  apply raises_bind.
  - apply raises_doc_get. by eapply document_has.
  - intros. expected_chain.
Qed.

Lemma decoded_nests enc fields d :
  _decode_document float_repr enc fields = Ok d → nests nesting_limit (JObj d) = true.
Proof.
  unfold _decode_document. intros (raw & _ & H)%bind_Ok. apply bind_Ok in H as (v & Hv & H).
  apply (loads_depth _ reject_values) in Hv. destruct v as [| | | | | |kvs]; try done.
  apply bind_Ok in H as (_ & _ & H). apply bind_Ok in H as (? & _ & H). by apply bind_Ok in H as (_ & _ & <-%Ok_inj).
Qed.

(** Too many opening brackets. *)
Lemma deep_document k fields :
  nesting_limit < Z.of_nat k → _decode_document float_repr (_base64url_encode (repeat 91 k)) fields = Err RecursionError.
Proof.
  intros Hk. pose proof nesting_room as Hroom. unfold document_depth in Hroom. unfold _decode_document.
  rewrite base64url_decode_encode; [|by destruct k; [lia|]|].
  - cbn [mbind result_bind]. by rewrite loads_deep.
  - apply Forall_forall. intros x Hx%list_elem_of_In%repeat_spec. by subst.
Qed.

(** C40: Decoding a document terminates, and what it raises is what its callers expect.
    The descent over the text that [_decode_document] runs is bounded by twice the
    length of the text, and whatever text is presented this bound is never reached.
    The outcome is a document with exactly the expected fields that nests no deeper
    than the interpreter's stack allows, or an exception that
    [_EXPECTED_DECODING_ERRORS] lists.  The [RecursionError] of that tuple is needed: a text of
    more opening brackets than the stack has room for raises it. *)
Theorem document_decoding_terminates enc fields :
  match _decode_document float_repr enc fields with
  | Ok d => list_to_set d.*1 =@{gset pystr} list_to_set fields ∧ nests nesting_limit (JObj d) = true
  | Err e => is_expected_decoding_error e = true ∧ e ≠ FuelExhausted
  end
  ∧ ∀ k, nesting_limit < Z.of_nat k →
      _decode_document float_repr (_base64url_encode (repeat 91 k)) fields = Err RecursionError.
Proof.
  split.
  - destruct (_decode_document float_repr enc fields) as [d|e] eqn:E.
    + split; [by apply decode_document_Ok in E as (_ & ? & _)|by eapply decoded_nests].
    + apply raises_decode_document in E. split; [done|]. by intros ->.
  - intros k. apply deep_document.
Qed.
End Errors.
