(* ===== verification/UuidText.v ===== *)
(** * Reading a UUID: [UUID(text)]

    The parser of [uuid.UUID], with the spellings it accepts, and that it reads back
    what [str] prints. *)

From S2P Require Import Prelude Codec Json Trusted Signing.

(** The code points of the digit zero in each decimal script. *)
Definition decimal_zeros : list Z :=
  [0x30; 0x660; 0x6f0; 0x7c0; 0x966; 0x9e6; 0xa66; 0xae6; 0xb66; 0xbe6; 0xc66; 0xce6; 0xd66; 0xde6; 0xe50; 0xed0;
   0xf20; 0x1040; 0x1090; 0x17e0; 0x1810; 0x1946; 0x19d0; 0x1a80; 0x1a90; 0x1b50; 0x1bb0; 0x1c40; 0x1c50; 0xa620;
   0xa8d0; 0xa900; 0xa9d0; 0xa9f0; 0xaa50; 0xabf0; 0xff10; 0x104a0; 0x10d30; 0x11066; 0x110f0; 0x11136; 0x111d0;
   0x112f0; 0x11450; 0x114d0; 0x11650; 0x116c0; 0x11730; 0x118e0; 0x11950; 0x11c50; 0x11d50; 0x11da0; 0x11f50;
   0x16a60; 0x16ac0; 0x16b50; 0x1d7ce; 0x1d7d8; 0x1d7e2; 0x1d7ec; 0x1d7f6; 0x1e140; 0x1e2f0; 0x1e4f0; 0x1e950;
   0x1fbf0].
(** How [int] reads one character: other scripts' digits and spaces become ASCII. *)
Definition int_char (c : Z) : Z :=
  if c <? 127 then c
  else if is_space c then 32
  else match filter (λ z, z ≤ c < z + 10) decimal_zeros with z :: _ => 48 + (c - z) | [] => 63 end.
Definition c_space (c : Z) : bool := (c =? 32) || ((9 <=? c) && (c <=? 13)).
Fixpoint drop_while (p : Z → bool) (s : pystr) : pystr :=
  match s with c :: s' => if p c then drop_while p s' else s | [] => [] end.
Definition strip_chars (p : Z → bool) (s : pystr) : pystr := reverse (drop_while p (reverse (drop_while p s))).
(** Digits with single underscores between them. *)
Fixpoint int_digits (acc : Z) (underscore : bool) (s : pystr) : option Z :=
  match s with
  | [] => if underscore then None else Some acc
  | c :: s' =>
      if c =? 95 then if underscore then None else int_digits acc true s'
      else match hex_value c with Some d => int_digits (16 * acc + d) false s' | None => None end
  end.
(** [int(s, 16)] *)
Definition int_base16 (s : pystr) : option Z :=
  let s := strip_chars c_space (int_char <$> s) in
  let '(neg, s) := match s with
                   | 43 :: s' => (false, s') | 45 :: s' => (true, s') | _ => (false, s)
                   end in
  let s := match s with
           | 48 :: c :: s' =>
               if (c =? 120) || (c =? 88) then match s' with 95 :: s'' => s'' | _ => s' end else s
           | _ => s
           end in
  (λ i, if neg : bool then - i else i) <$> int_digits 0 true s.
Definition uuid_of_text (text : pystr) : result UUID :=
  let h := replace (lit "uuid:") [] (replace (lit "urn:") [] text) in
  let h := replace (lit "-") [] (strip_chars (λ c, (c =? 123) || (c =? 125)) h) in
  require (len h =? 32) ValueError ;;
  match int_base16 h with
  | Some i => require ((0 <=? i) && (i <? 2 ^ 128)) ValueError ;; Ok (mkUUID i)
  | None => Err ValueError
  end.

(** ** Reading back *)

Lemma startswith_absent p c old s : startswith (p :: old) (c :: s) = true → c = p.
Proof. cbn. intros [H _]%andb_true_iff. by apply Z.eqb_eq in H. Qed.

(** A pattern whose first character does not occur is not replaced. *)
Lemma replace_absent p old new s : Forall (λ c, c ≠ p) s → replace (p :: old) new s = s.
Proof.
  unfold replace. generalize (length s) as n. intros n H. revert n.
  induction H as [|c s Hc Hs IH]; intros [|n]; try done. cbn [replace_in].
  destruct (startswith (p :: old) (c :: s)) eqn:E; [by apply startswith_absent in E|]. by rewrite IH.
Qed.

Lemma replace_char_nil p s : replace [p] [] s = filter (λ c, c ≠ p) s.
Proof.
  unfold replace. induction s as [|c s IH]; [done|]. cbn [length replace_in]. rewrite filter_cons.
  destruct (decide (c ≠ p)) as [Hc|Hc].
  - destruct (startswith [p] (c :: s)) eqn:E; [by apply startswith_absent in E|]. by rewrite IH.
  - assert (c = p) as -> by (by destruct (decide (c = p))). cbn [startswith]. rewrite Z.eqb_refl. cbn. done.
Qed.

Lemma drop_while_none p s : Forall (λ c, p c = false) s → drop_while p s = s.
Proof. destruct 1 as [|c s Hc]; [done|]. cbn. by rewrite Hc. Qed.
Lemma strip_chars_none p s : Forall (λ c, p c = false) s → strip_chars p s = s.
Proof.
  intros H. unfold strip_chars. rewrite (drop_while_none p s) by done.
  rewrite drop_while_none by (by apply Forall_reverse). apply reverse_involutive.
Qed.

(** *** Lowercase hexadecimal digits *)

Definition hex_char (c : Z) : Prop := 48 ≤ c ≤ 57 ∨ 97 ≤ c ≤ 102.

Lemma hex_chars b : Forall byte_ok b → Forall hex_char (hex b).
Proof.
  intros Hb. apply Forall_forall. intros c Hc. pose proof (hex_digits_ok b Hb) as Ha. unfold all_in in Ha.
  rewrite forallb_forall in Ha. apply list_elem_of_In, Ha, hex_char_digit in Hc as (d & Hd & ->).
  unfold hex_char, hex_digit. destruct (Z.ltb_spec d 10); lia.
Qed.

Lemma int_digits_hex acc u s :
  Forall hex_char s → s ≠ [] ∨ u = false →
  int_digits acc u s = Some (foldl (λ a c, 16 * a + default 0 (hex_value c)) acc s).
Proof.
  intros H. revert acc u. induction H as [|c s Hc Hs IH]; intros acc u Hu; [by destruct Hu as [?| ->]|].
  cbn [int_digits foldl]. rewrite (proj2 (Z.eqb_neq c 95)) by (unfold hex_char in Hc; lia).
  assert (Hv : hex_value c = Some (default 0 (hex_value c))).
  { unfold hex_value, is_digit. unfold hex_char in Hc. repeat case_match; try done; lia. }
  rewrite Hv at 1. apply IH. by right.
Qed.

Lemma int_base16_hex s :
  Forall hex_char s → s ≠ [] → int_base16 s = Some (foldl (λ a c, 16 * a + default 0 (hex_value c)) 0 s).
Proof.
  intros H Hne. unfold int_base16.
  assert (Hi : int_char <$> s = s).
  { clear Hne. induction H as [|c s Hc _ IH]; [done|]. cbn. rewrite IH. unfold int_char. unfold hex_char in Hc.
    by rewrite (proj2 (Z.ltb_lt c 127)) by lia. }
  rewrite Hi, strip_chars_none.
  2:{ eapply Forall_impl; [exact H|]. intros c Hc. unfold hex_char, c_space in *. lia. }
  destruct s as [|c s]; [done|]. pose proof H as [Hc Hs]%Forall_cons. unfold hex_char in Hc.
  assert (Hsign : match c :: s with 43 :: s' => (false, s') | 45 :: s' => (true, s') | _ => (false, c :: s) end
                  = (false, c :: s)) by (repeat case_match; try done; lia).
  rewrite Hsign. cbv zeta beta iota.
  assert (Hprefix : match c :: s with
                    | 48 :: x :: s' =>
                        if (x =? 120) || (x =? 88) then match s' with 95 :: s'' => s'' | _ => s' end else c :: s
                    | _ => c :: s
                    end = c :: s).
  { destruct s as [|x s]; [by repeat case_match|]. apply Forall_cons in Hs as [Hx _]. unfold hex_char in Hx.
    rewrite (proj2 (Z.eqb_neq x 120)), (proj2 (Z.eqb_neq x 88)) by lia. by repeat case_match. }
  rewrite Hprefix, int_digits_hex by (done || by left). done.
Qed.

(** [UUID(str(u)) == u] *)
Lemma uuid_of_text_str u : uuid_ok u → uuid_of_text (uuid_str u) = Ok u.
Proof.
  intros Hu. pose proof (hex_chars _ (uuid_bytes_ok u)) as Hh.
  assert (Hs : Forall (λ c, hex_char c ∨ c = 45) (uuid_str u)).
  { apply Forall_forall. intros c Hc. destruct (decide (c = 45)) as [->|Hn]; [by right|left].
    rewrite Forall_forall in Hh. apply Hh.
    rewrite <- (dashed_digits (hex (uuid_bytes u))) by (apply length_uuid_hex || apply hex_digits_ok, uuid_bytes_ok).
    by apply list_elem_of_filter. }
  unfold uuid_of_text. change (lit "urn:") with (117 :: lit "rn:"). change (lit "uuid:") with (117 :: lit "uid:").
  change (lit "-") with [45].
  assert (Hu117 : Forall (λ c, c ≠ 117) (uuid_str u)) by (eapply Forall_impl; [exact Hs|]; unfold hex_char; lia).
  rewrite (replace_absent 117 (lit "rn:")), (replace_absent 117 (lit "uid:")) by done.
  rewrite strip_chars_none by (eapply Forall_impl; [exact Hs|]; unfold hex_char; lia).
  rewrite replace_char_nil. unfold uuid_str.
  rewrite dashed_digits by (apply length_uuid_hex || apply hex_digits_ok, uuid_bytes_ok).
  unfold len. rewrite length_uuid_hex. cbn [Z.of_nat Z.eqb require mbind result_bind].
  rewrite int_base16_hex; [|done|intros He; pose proof (length_uuid_hex u) as Hl; by rewrite He in Hl].
  rewrite hex_positional by apply uuid_bytes_ok. unfold uuid_bytes, be_bytes. rewrite positional; [|lia|exact Hu].
  unfold uuid_ok in Hu. destruct u as [i]. cbn [uuid_int] in *. rewrite Z.mul_0_l, Z.add_0_l.
  rewrite (proj2 (Z.leb_le 0 i)), (proj2 (Z.ltb_lt i _)) by lia. done.
Qed.
