(* ===== verification/TicketIdentity.v ===== *)
(** * Ticket identity and the claims both ticket protocols share

    The trusted identity of [ticket_identity.py] that issues and redeems tickets,
    and the subject claims that [context_access_ticket.py] and [action_ticket.py]
    write and read alike. *)

From S2P Require Import Prelude Codec Sha256 Datetime Json Materialized Trusted Signing.

#[export] Instance CurrentMembershipVerification_eq_dec : EqDecision CurrentMembershipVerification.
Proof. solve_decision. Defined.
#[export] Instance UserActor_eq_dec : EqDecision UserActor.
Proof. solve_decision. Defined.

(** ** Identity *)

(** Provenance and construction seal hold of every value of this type. *)
Record TicketExecutionIdentity := mkTicketExecutionIdentity {
  ti_organization_id : UUID;
  ti_subject_user_id : UUID;
  ti_subject_membership_id : UUID;
  ti_subject_membership_version : Z;
  ti_actor_principal_ref : pystr;
  ti_agent_version_ref : pystr;
  ti_purpose : pystr;
  ti_policy_epoch : Z;
  ti_policy_epoch_verification : PolicyEpochVerification;
  ti_user_actor : UserActor;
  ti_authenticated_invocation : AuthenticatedInvocation;
  ti_trusted_delivery_context : TrustedDeliveryContext
}.

Definition identity_matches (i : TicketExecutionIdentity) : bool :=
  let f := ua_facts (ti_user_actor i) in
  let inv := ti_authenticated_invocation i in
  bool_decide (ti_organization_id i = m_organization_id f)
  && bool_decide (ti_subject_user_id i = m_user_id f)
  && bool_decide (ti_subject_membership_id i = m_membership_id f)
  && (ti_subject_membership_version i =? m_membership_version f)
  && bool_decide (ti_actor_principal_ref i = m_principal_ref f)
  && bool_decide (ti_user_actor i = inv_user_actor inv)
  && bool_decide (ti_agent_version_ref i = inv_agent_version_ref inv)
  && bool_decide (ti_purpose i = dc_purpose (ti_trusted_delivery_context i))
  && (ti_policy_epoch i =? m_policy_epoch f)
  && bool_decide (ti_policy_epoch_verification i = m_policy_epoch_verification f).

Definition _require_active_ticket_execution_identity (L : lifetimes) (i : TicketExecutionIdentity) :
    result unit :=
  _validate_trusted_invocation_and_delivery L (ti_authenticated_invocation i) (ti_trusted_delivery_context i) ;;
  _require_active_user_actor L (ti_user_actor i) ;;
  _require_positive_bigint (OInt (ti_subject_membership_version i)) ;;
  _require_identifier (OStr (ti_actor_principal_ref i)) 256 ;;
  _require_identifier (OStr (ti_agent_version_ref i)) 256 ;;
  _require_identifier (OStr (ti_purpose i)) 256 ;;
  _require_positive_bigint (OInt (ti_policy_epoch i)) ;;
  require (identity_matches i) ValueError.

Definition _construct_ticket_execution_identity (L : lifetimes) (inv : AuthenticatedInvocation)
    (dc : TrustedDeliveryContext) : result TicketExecutionIdentity :=
  _validate_trusted_invocation_and_delivery L inv dc ;;
  let user_actor := inv_user_actor inv in
  let f := ua_facts user_actor in
  _require_active_user_actor L user_actor ;;
  _require_identifier (OStr (inv_agent_version_ref inv)) 256 ;;
  _require_identifier (OStr (dc_purpose dc)) 256 ;;
  let identity := mkTicketExecutionIdentity (m_organization_id f) (m_user_id f) (m_membership_id f)
                    (m_membership_version f) (m_principal_ref f) (inv_agent_version_ref inv) (dc_purpose dc)
                    (m_policy_epoch f) (m_policy_epoch_verification f) user_actor inv dc in
  _require_active_ticket_execution_identity L identity ;;
  Ok identity.

(** [_is_materialized_source_active]: [source_is_active] is the session's port. *)
Definition _is_materialized_source_active (L : lifetimes) (source_is_active : UUID → result obj)
    (session : MaterializedProjectionSession) (source_ref : UUID) : result bool :=
  _require_active_materialized_projection_session L session ;;
  observed ← source_is_active source_ref;
  match observed with OBool b => Ok b | _ => Err TypeError end.

Definition MAX_TTL_SECONDS : Z := 300.

(** The claims that both protocols carry, in the order of the constructors. *)
Record SubjectClaims := mkSubjectClaims {
  sc_signing_key_version : Z;
  sc_organization_id : UUID;
  sc_subject_user_id : UUID;
  sc_subject_membership_id : UUID;
  sc_subject_membership_version : Z;
  sc_actor_principal_ref : pystr;
  sc_agent_version_ref : pystr;
  sc_purpose : pystr;
  sc_policy_epoch : Z
}.

(** The first arguments of either [_claims_from_document]. *)
Definition subject_of_document (d : document) : result SubjectClaims :=
  kv ← doc_get d (lit "signing_key_version"); kv ← _require_positive_bigint kv;
  org ← doc_get d (lit "organization_id"); org ← _parse_uuid org;
  user ← doc_get d (lit "subject_user_id"); user ← _parse_uuid user;
  mem ← doc_get d (lit "subject_membership_id"); mem ← _parse_uuid mem;
  mv ← doc_get d (lit "subject_membership_version"); mv ← _require_positive_bigint mv;
  pr ← doc_get d (lit "actor_principal_ref"); pr ← _require_identifier pr 256;
  av ← doc_get d (lit "agent_version_ref"); av ← _require_identifier av 256;
  pu ← doc_get d (lit "purpose"); pu ← _require_identifier pu 256;
  pe ← doc_get d (lit "policy_epoch"); pe ← _require_positive_bigint pe;
  Ok (mkSubjectClaims kv org user mem mv pr av pu pe).

(** The claims compared with the identity in either handler. *)
Definition subject_matches (c : SubjectClaims) (i : TicketExecutionIdentity) (configured : UUID) : bool :=
  bool_decide (sc_organization_id c = ti_organization_id i)
  && bool_decide (sc_organization_id c = configured)
  && bool_decide (sc_subject_user_id c = ti_subject_user_id i)
  && bool_decide (sc_subject_membership_id c = ti_subject_membership_id i)
  && (sc_subject_membership_version c =? ti_subject_membership_version i)
  && bool_decide (sc_actor_principal_ref c = ti_actor_principal_ref i)
  && bool_decide (sc_agent_version_ref c = ti_agent_version_ref i)
  && bool_decide (sc_purpose c = ti_purpose i)
  && (sc_policy_epoch c =? ti_policy_epoch i).

Definition subject_of_identity (keyring : TicketSigningKeyring) (i : TicketExecutionIdentity) : SubjectClaims :=
  mkSubjectClaims (active_version keyring) (ti_organization_id i) (ti_subject_user_id i)
    (ti_subject_membership_id i) (ti_subject_membership_version i) (ti_actor_principal_ref i)
    (ti_agent_version_ref i) (ti_purpose i) (ti_policy_epoch i).

(** [timedelta(0) < expires_at - issued_at <= timedelta(seconds=_MAX_TTL_SECONDS)] *)
Definition lifetime_bounded (issued_at expires_at : datetime) : bool :=
  (0 <? dt_sub expires_at issued_at) && (dt_sub expires_at issued_at <=? seconds MAX_TTL_SECONDS).

(** The classes that the redemption handlers catch. *)
Definition ticket_caught (e : exn) : bool :=
  is_expected_decoding_error e || bool_decide (e = PolicyEpochAuthorityUnavailable).

(** ** Text that survives JSON *)

Lemma printable_str_ok s : Forall printable s → str_ok s = true.
Proof.
  intros H. unfold str_ok. apply andb_true_iff. split.
  - apply forallb_forall. intros c Hc%list_elem_of_In. rewrite Forall_forall in H.
    specialize (H c Hc). unfold printable in H. lia.
  - induction H as [|c s Hc Hs IH]; [done|]. cbn [unpaired]. rewrite IH, andb_true_r.
    destruct s as [|d s]; [done|]. unfold printable, is_high in *.
    rewrite (proj2 (Z.leb_gt 0xD800 c)) by lia. done.
Qed.

Lemma closed_printable s : forallb (λ c, (32 <=? c) && (c <? 127)) s = true → Forall printable s.
Proof.
  rewrite forallb_forall. intros H. apply Forall_forall. intros c Hc%list_elem_of_In%H. unfold printable. lia.
Qed.

Lemma alphabet_printable s : all_in Opaque.alphabet s = true → Forall printable s.
Proof.
  unfold all_in. rewrite forallb_forall. intros H. apply Forall_forall. intros c Hc%list_elem_of_In%H.
  apply mem_spec in Hc. revert c Hc. apply Forall_forall, closed_printable. by vm_compute.
Qed.

Lemma sha256_hex_str_ok s : is_sha256_hex s = true → str_ok s = true.
Proof.
  intros [_ H]%andb_true_iff. apply printable_str_ok. unfold all_in in H. rewrite forallb_forall in H.
  apply Forall_forall. intros c Hc%list_elem_of_In%H. apply mem_spec in Hc. revert c Hc.
  apply Forall_forall, closed_printable. by vm_compute.
Qed.

Lemma base64url_str_ok b : Forall byte_ok b → str_ok (_base64url_encode b) = true.
Proof. intros Hb. by apply printable_str_ok, alphabet_printable, Opaque.encode_all_in. Qed.

Lemma padded_printable n x : Forall printable (padded n x).
Proof.
  unfold padded. apply Forall_fmap. eapply Forall_impl; [apply (digits_ok 10); lia|].
  unfold compose, printable. intros; lia.
Qed.

Lemma timestamp_str_ok d : str_ok (_timestamp d) = true.
Proof.
  apply printable_str_ok. unfold _timestamp, iso_date, iso_time. destruct (ord2ymd _) as [[y m] dd].
  rewrite !Forall_app. split_and!; try apply padded_printable; by apply closed_printable.
Qed.

Lemma uuid_str_ok u : str_ok (uuid_str u) = true.
Proof.
  apply printable_str_ok. unfold uuid_str, dashed.
  assert (Hh : Forall printable (hex (uuid_bytes u))).
  { unfold hex. apply Forall_bind. eapply Forall_impl; [apply uuid_bytes_ok|]. intros b Hb.
    unfold byte_ok, compose, hex_byte in *. repeat apply Forall_cons_2; try apply Forall_nil_2;
      apply hex_digit_printable; zdiv. }
  rewrite !Forall_app. split_and!;
    repeat first [apply Forall_take|apply Forall_drop|exact Hh|by apply closed_printable].
Qed.

(** ** The subject claims survive their document *)

Definition identifier_ok (n : Z) (s : pystr) : Prop := _require_identifier (OStr s) n = Ok s.
Definition bigint_ok (z : Z) : Prop := 1 ≤ z ≤ _MAX_KEY_VERSION.

Definition subject_ok (s : SubjectClaims) : Prop :=
  bigint_ok (sc_signing_key_version s) ∧ uuid_ok (sc_organization_id s) ∧ uuid_ok (sc_subject_user_id s)
  ∧ uuid_ok (sc_subject_membership_id s) ∧ bigint_ok (sc_subject_membership_version s)
  ∧ identifier_ok 256 (sc_actor_principal_ref s) ∧ identifier_ok 256 (sc_agent_version_ref s)
  ∧ identifier_ok 256 (sc_purpose s) ∧ bigint_ok (sc_policy_epoch s).

(** The free text of the subject can be written as JSON and read back. *)
Definition subject_text_ok (s : SubjectClaims) : Prop :=
  str_ok (sc_actor_principal_ref s) = true ∧ str_ok (sc_agent_version_ref s) = true
  ∧ str_ok (sc_purpose s) = true.

Definition subject_entries (s : SubjectClaims) : document :=
  [(lit "signing_key_version", JInt (sc_signing_key_version s));
   (lit "organization_id", JStr (uuid_str (sc_organization_id s)));
   (lit "subject_user_id", JStr (uuid_str (sc_subject_user_id s)));
   (lit "subject_membership_id", JStr (uuid_str (sc_subject_membership_id s)));
   (lit "subject_membership_version", JInt (sc_subject_membership_version s));
   (lit "actor_principal_ref", JStr (sc_actor_principal_ref s));
   (lit "agent_version_ref", JStr (sc_agent_version_ref s));
   (lit "purpose", JStr (sc_purpose s));
   (lit "policy_epoch", JInt (sc_policy_epoch s))].

Definition holds (d : document) (kv : pystr * json) : Prop := dict_get d kv.1 = Some kv.2.

Lemma holds_doc_get d k v : holds d (k, v) → doc_get d k = Ok (obj_of_json v).
Proof. unfold holds, doc_get. cbn. by intros ->. Qed.

Lemma subject_roundtrip d s :
  subject_ok s → Forall (holds d) (subject_entries s) → subject_of_document d = Ok s.
Proof.
  intros (H1 & H2 & H3 & H4 & H5 & H6 & H7 & H8 & H9) H. unfold subject_entries in H.
  repeat match goal with
  | H : Forall _ (_ :: _) |- _ => let K := fresh "K" in apply Forall_cons in H as [K%holds_doc_get H]
  end.
  unfold subject_of_document. rewrite K, K0, K1, K2, K3, K4, K5, K6, K7. cbn [mbind result_bind obj_of_json].
  unfold identifier_ok, bigint_ok in *.
  rewrite (proj2 (positive_bigint_Ok _ _) (conj eq_refl H1)), (proj2 (positive_bigint_Ok _ _) (conj eq_refl H5)),
    (proj2 (positive_bigint_Ok _ _) (conj eq_refl H9)), !parse_uuid_text, H6, H7, H8 by done.
  by destruct s.
Qed.

Lemma subject_of_identity_ok L keyring i :
  _require_active_ticket_execution_identity L i = Ok tt → bigint_ok (active_version keyring) →
  uuid_ok (ti_organization_id i) → uuid_ok (ti_subject_user_id i) → uuid_ok (ti_subject_membership_id i) →
  subject_ok (subject_of_identity keyring i).
Proof.
  intros H Hk Ho Hu Hm. unfold _require_active_ticket_execution_identity in H.
  apply bind_Ok in H as (_ & _ & H). apply bind_Ok in H as (_ & _ & H).
  apply bind_Ok in H as (? & [[= <-] H1]%positive_bigint_Ok & H).
  apply bind_Ok in H as (? & H2 & H). apply bind_Ok in H as (? & H3 & H). apply bind_Ok in H as (? & H4 & H).
  apply bind_Ok in H as (? & [[= <-] H5]%positive_bigint_Ok & H).
  assert (Hid : ∀ s t n, _require_identifier (OStr s) n = Ok t → identifier_ok n s).
  { intros s t n Hs. unfold identifier_ok. rewrite Hs. by apply identifier_Ok in Hs as [[= ->] _]. }
  exact (conj Hk (conj Ho (conj Hu (conj Hm (conj H1 (conj (Hid _ _ _ H2) (conj (Hid _ _ _ H3)
          (conj (Hid _ _ _ H4) H5)))))))).
Qed.

Lemma subject_matches_identity keyring i :
  subject_matches (subject_of_identity keyring i) i (ti_organization_id i) = true.
Proof. unfold subject_matches. cbn. by rewrite !bool_decide_eq_true_2, !Z.eqb_refl. Qed.

Lemma subject_matches_spec s i configured :
  subject_matches s i configured = true →
  configured = ti_organization_id i
  ∧ s = mkSubjectClaims (sc_signing_key_version s) (ti_organization_id i) (ti_subject_user_id i)
          (ti_subject_membership_id i) (ti_subject_membership_version i) (ti_actor_principal_ref i)
          (ti_agent_version_ref i) (ti_purpose i) (ti_policy_epoch i).
Proof.
  unfold subject_matches. intros H. run_ok. rewrite !Z.eqb_eq in *. destruct s; cbn in *. split; congruence.
Qed.

Lemma subject_version d s kid :
  subject_of_document d = Ok s → dict_get d (lit "signing_key_version") = Some (JInt kid) →
  sc_signing_key_version s = kid.
Proof.
  intros H Hk. unfold subject_of_document in H. apply bind_Ok in H as (o & Ho & H).
  unfold doc_get in Ho. rewrite Hk in Ho. apply Ok_inj in Ho as <-. apply bind_Ok in H as (kv & [[= <-] _]%positive_bigint_Ok & H).
  repeat (apply bind_Ok in H as (? & _ & H)). by apply Ok_inj in H as <-.
Qed.

(** ** What the identity check may raise *)

Lemma expected_caught {A} (m : result A) : raises_expected m → raises ticket_caught m.
Proof. apply raises_weaken. unfold ticket_caught. by intros e ->. Qed.

Lemma caught_require b e : ticket_caught e = true → raises ticket_caught (require b e).
Proof. apply raises_require. Qed.

Lemma caught_epoch_verification L v : raises ticket_caught (_require_active_policy_epoch_verification L v).
Proof.
  unfold _require_active_policy_epoch_verification, _require_policy_epoch, _require_active_policy_epoch_session.
  repeat (apply raises_bind; [|intros ? _]); try by apply caught_require. apply raises_Ok.
Qed.

Lemma caught_sessions L f : raises ticket_caught (require_active_sessions L f).
Proof.
  unfold require_active_sessions. apply raises_bind; [|intros _ _; apply raises_each].
  - destruct (m_materialized_projection_session f); [|apply raises_Ok].
    unfold _require_active_materialized_projection_session. repeat case_match; by (apply raises_Ok || apply raises_Err).
  - intros [s|]; cbn; [by apply caught_require|apply raises_Ok].
Qed.

Lemma caught_user_actor L a : raises ticket_caught (_require_active_user_actor L a).
Proof.
  unfold _require_active_user_actor, _require_active_current_membership_verification.
  repeat first [apply caught_sessions|apply caught_epoch_verification|by apply caught_require
               |apply raises_bind; [|intros ? _]].
Qed.

Lemma caught_identity L i : raises ticket_caught (_require_active_ticket_execution_identity L i).
Proof.
  unfold _require_active_ticket_execution_identity, _validate_trusted_invocation_and_delivery,
    _require_active_trusted_scope_snapshot.
  repeat first [by apply caught_require|apply caught_user_actor|apply expected_caught; solve [eauto with expected]
               |apply raises_bind; [|intros ? _]].
Qed.

(** The gate raises only unavailability when the authority's faults are the expected ones. *)
Lemma caught_gate L port v :
  port_faults_expected port (pev_organization_id v) →
  raises ticket_caught (policy_epoch_gate_is_current L port v).
Proof.
  intros Hport. unfold policy_epoch_gate_is_current, try_except.
  destruct (_ ≫= _) as [b|e] eqn:E; [apply raises_Ok|].
  destruct (is_TypeError e || is_ValueError e) eqn:Hc; [by apply raises_Err|]. apply raises_Err.
  assert (Hr : raises (λ e, ticket_caught e) (_require_active_policy_epoch_verification L v ;;
                                              _policy_epoch_is_current L port v)).
  { unfold _policy_epoch_is_current. apply raises_bind; [apply caught_epoch_verification|intros _ _].
    apply raises_bind; [apply caught_epoch_verification|intros _ _].
    apply raises_bind; [|intros; apply raises_Ok]. unfold read_epoch, try_except. apply raises_bind.
    - destruct (port (pev_organization_id v)) as [o|e'] eqn:Hp; [apply raises_Ok|].
      destruct (is_epoch_failure e') eqn:Hf; [by apply raises_Err|]. apply raises_Err.
      specialize (Hport e' Hp). rewrite Hf in Hport. unfold ticket_caught, is_expected_decoding_error.
      cbn [orb] in Hport. rewrite orb_comm in Hport. by rewrite Hport.
    - intros o _. unfold _require_policy_epoch. destruct o; try by apply raises_Err.
      apply raises_bind; [by apply caught_require|intros; apply raises_Ok]. }
  by apply Hr.
Qed.

Lemma raises_subject d :
  (∀ k, k ∈ (subject_entries (mkSubjectClaims 0 (mkUUID 0) (mkUUID 0) (mkUUID 0) 0 [] [] [] 0)).*1 → k ∈ d.*1) →
  raises_expected (subject_of_document d).
Proof.
  intros Hk. assert (Hget : ∀ k, bool_decide (k ∈ (subject_entries
    (mkSubjectClaims 0 (mkUUID 0) (mkUUID 0) (mkUUID 0) 0 [] [] [] 0)).*1) = true → raises_expected (doc_get d k)).
  { intros k Hin%bool_decide_eq_true. apply raises_doc_get. by apply Hk. }
  unfold subject_of_document.
  repeat first [solve [eauto with expected]|apply Hget; by vm_compute|apply raises_bind; [|intros ? _]].
Qed.
