(* ===== verification/ContextTickets.v ===== *)
(** * The read-only ContextAccessTicket: [engine/runtime/context_access_ticket.py]

    Clocks and nonces are the values that the callbacks return at that moment.
    A redemption returns the calls made to the configured Provider next to its
    result, so that a theorem can say that a refusal had no effect. *)

From S2P Require Import Prelude Codec Sha256 Datetime Json Materialized Trusted Signing TicketIdentity.

Definition CONTEXT_ACCESS_OPERATION : pystr := lit "synthetic.provider.read".
Definition CONTEXT_READ_AUDIENCE_PREFIX : pystr := lit "context-read:".
Definition _DOMAIN : pystr := lit "context-engine.context-access-ticket".
Definition _TOKEN_TYPE : pystr := lit "CE-ContextAccessTicket".

Definition _LEGACY_CLAIM_FIELDS : list pystr :=
  [lit "actor_principal_ref"; lit "agent_version_ref"; lit "audience"; lit "expires_at"; lit "issued_at";
   lit "nonce"; lit "operation"; lit "organization_id"; lit "policy_epoch"; lit "provider_ref"; lit "purpose";
   lit "signing_key_version"; lit "subject_membership_id"; lit "subject_membership_version";
   lit "subject_user_id"].
Definition _CLAIM_FIELDS : list pystr := lit "source_ref" :: _LEGACY_CLAIM_FIELDS.

(** A value of this type was built by the issuer or the validated deserializer. *)
Record ContextAccessTicket := mkContextAccessTicket { _value : pystr }.

Record _ContextAccessClaims := mkContextAccessClaims {
  subject : SubjectClaims;
  provider_ref : pystr;
  source_ref : option UUID;
  audience : pystr;
  issued_at : datetime;
  expires_at : datetime;
  nonce : pybytes
}.

Definition _claims_document (c : _ContextAccessClaims) : result document :=
  let s := subject c in
  nonce_text ← _nonce_document (nonce c);
  Ok [(lit "actor_principal_ref", JStr (sc_actor_principal_ref s));
      (lit "agent_version_ref", JStr (sc_agent_version_ref s));
      (lit "audience", JStr (audience c));
      (lit "expires_at", JStr (_timestamp (expires_at c)));
      (lit "issued_at", JStr (_timestamp (issued_at c)));
      (lit "nonce", JStr nonce_text);
      (lit "operation", JStr CONTEXT_ACCESS_OPERATION);
      (lit "organization_id", JStr (uuid_str (sc_organization_id s)));
      (lit "policy_epoch", JInt (sc_policy_epoch s));
      (lit "provider_ref", JStr (provider_ref c));
      (lit "purpose", JStr (sc_purpose s));
      (lit "signing_key_version", JInt (sc_signing_key_version s));
      (lit "source_ref", match source_ref c with None => JNull | Some u => JStr (uuid_str u) end);
      (lit "subject_membership_id", JStr (uuid_str (sc_subject_membership_id s)));
      (lit "subject_membership_version", JInt (sc_subject_membership_version s));
      (lit "subject_user_id", JStr (uuid_str (sc_subject_user_id s)))].

Definition _parse_optional_file_source_ref (value : obj) : result (option UUID) :=
  match value with
  | ONone => Ok None
  | _ => u ← _parse_uuid value; Ok (Some u)
  end.

Definition _claims_from_document (d : document) : result _ContextAccessClaims :=
  operation ← doc_get d (lit "operation");
  require (is_text operation CONTEXT_ACCESS_OPERATION) ValueError ;;
  s ← subject_of_document d;
  provider ← doc_get d (lit "provider_ref"); provider ← _require_identifier provider 128;
  source ← _parse_optional_file_source_ref (doc_get_or_None d (lit "source_ref"));
  aud ← doc_get d (lit "audience"); aud ← _require_identifier aud 256;
  issued ← doc_get d (lit "issued_at"); issued ← _parse_timestamp issued;
  expires ← doc_get d (lit "expires_at"); expires ← _parse_timestamp expires;
  n ← doc_get d (lit "nonce"); n ← _parse_nonce n;
  require (lifetime_bounded issued expires) ValueError ;;
  Ok (mkContextAccessClaims s provider source aud issued expires n).

Definition _construct_context_access_ticket (value : pystr) : result ContextAccessTicket :=
  v ← _require_opaque_ticket_value (OStr value); Ok (mkContextAccessTicket v).

Definition _read_audience (provider : pystr) : result pystr :=
  p ← _require_identifier (OStr provider) 128; Ok (CONTEXT_READ_AUDIENCE_PREFIX ++ p).

(** The configuration of an issuer or a read handler. *)
Record ContextAccessTicketIssuer := mkIssuer {
  is_keyring : TicketSigningKeyring;
  is_organization_id : UUID;
  is_provider_ref : pystr;
  is_source_ref : option UUID;
  is_ttl_seconds : Z
}.
Record ContextAccessTicketReadHandler := mkReadHandler {
  rh_keyring : TicketSigningKeyring;
  rh_organization_id : UUID;
  rh_provider_ref : pystr;
  rh_source_ref : option UUID
}.

Definition new_ContextAccessTicketIssuer (keyring : TicketSigningKeyring) (organization_id : UUID)
    (provider : pystr) (source : option UUID) (ttl_seconds : Z) : result ContextAccessTicketIssuer :=
  require ((1 <=? ttl_seconds) && (ttl_seconds <=? MAX_TTL_SECONDS)) ValueError ;;
  p ← _require_identifier (OStr provider) 128;
  Ok (mkIssuer keyring organization_id p source ttl_seconds).

Definition new_ContextAccessTicketReadHandler (keyring : TicketSigningKeyring) (organization_id : UUID)
    (provider : pystr) (source : option UUID) : result ContextAccessTicketReadHandler :=
  p ← _require_identifier (OStr provider) 128;
  Ok (mkReadHandler keyring organization_id p source).

(** The lifecycle test that issue and read share: [denied] is what they raise. *)
Definition require_source_active (L : lifetimes) (source_is_active : UUID → result obj)
    (identity : TicketExecutionIdentity) (source : option UUID) (denied : exn) : result unit :=
  match source with
  | None => Ok tt
  | Some u =>
      match m_materialized_projection_session (ua_facts (ti_user_actor identity)) with
      | None => Err denied
      | Some session =>
          active ← _is_materialized_source_active L source_is_active session u;
          require active denied
      end
  end.

Section Ticket.
Context {nesting : NestingLimit}.
Context (float_repr : pystr → result pystr).

(** Accept the document without [source_ref] too. *)
Definition _verify_context_access_ticket (value : pystr) (keyring : TicketSigningKeyring) : result document :=
  try_except (_verify_signed_ticket float_repr value keyring _DOMAIN _TOKEN_TYPE _CLAIM_FIELDS)
    is_expected_decoding_error
    (_verify_signed_ticket float_repr value keyring _DOMAIN _TOKEN_TYPE _LEGACY_CLAIM_FIELDS).

Definition deserialize (value : pystr) (keyring : TicketSigningKeyring) : result ContextAccessTicket :=
  try_except (d ← _verify_context_access_ticket value keyring; _claims_from_document d ;; Ok tt)
    is_expected_decoding_error (Err TicketNotAvailable) ;;
  _construct_context_access_ticket value.

(** [ContextAccessTicketIssuer.issue] at the moment of [L], [port], the lifecycle
    port, the clock and the nonce. *)
Definition issue (L : lifetimes) (port : epoch_port) (source_is_active : UUID → result obj)
    (clock : datetime) (fresh_nonce : pybytes) (issuer : ContextAccessTicketIssuer)
    (identity : TicketExecutionIdentity) : result ContextAccessTicket :=
  _require_active_ticket_execution_identity L identity ;;
  require (bool_decide (ti_organization_id identity = is_organization_id issuer)) ValueError ;;
  try_except
    (current ← policy_epoch_gate_is_current L port (ti_policy_epoch_verification identity);
     require current TicketNotAvailable ;;
     require_source_active L source_is_active identity (is_source_ref issuer) TicketNotAvailable)
    (λ e, bool_decide (e = PolicyEpochAuthorityUnavailable) || is_TypeError e || is_ValueError e)
    (Err TicketNotAvailable) ;;
  issued ← _require_utc clock;
  aud ← _read_audience (is_provider_ref issuer);
  expires ← dt_add issued (seconds (is_ttl_seconds issuer));
  d ← _claims_document (mkContextAccessClaims (subject_of_identity (is_keyring issuer) identity)
        (is_provider_ref issuer) (is_source_ref issuer) aud issued expires fresh_nonce);
  value ← _mint_signed_ticket float_repr (is_keyring issuer) _DOMAIN _TOKEN_TYPE d;
  _construct_context_access_ticket value.

(** The checks of [ContextAccessTicketReadHandler.read] before its effect. *)
Definition claims_match (c : _ContextAccessClaims) (identity : TicketExecutionIdentity)
    (handler : ContextAccessTicketReadHandler) (aud : pystr) (checked_at : datetime) : bool :=
  subject_matches (subject c) identity (rh_organization_id handler)
  && bool_decide (provider_ref c = rh_provider_ref handler)
  && bool_decide (source_ref c = rh_source_ref handler)
  && bool_decide (audience c = aud)
  && negb (dt_ltb checked_at (issued_at c)) && dt_ltb checked_at (expires_at c).

Definition authorize_read (L : lifetimes) (port : epoch_port) (source_is_active : UUID → result obj)
    (clock : datetime) (handler : ContextAccessTicketReadHandler) (ticket : ContextAccessTicket)
    (identity : TicketExecutionIdentity) : result unit :=
  try_except
    (_require_active_ticket_execution_identity L identity ;;
     checked_at ← _require_utc clock;
     d ← _verify_context_access_ticket (_value ticket) (rh_keyring handler);
     c ← _claims_from_document d;
     aud ← _read_audience (rh_provider_ref handler);
     require (claims_match c identity handler aud checked_at) ValueError ;;
     current ← policy_epoch_gate_is_current L port (ti_policy_epoch_verification identity);
     require current ValueError ;;
     require_source_active L source_is_active identity (rh_source_ref handler) ValueError)
    ticket_caught (Err TicketNotAvailable).

(** [read]: the Provider's calls and the result. *)
Definition read (L : lifetimes) (port : epoch_port) (source_is_active : UUID → result obj)
    (provider_read : UUID → pystr → result unit) (clock : datetime)
    (handler : ContextAccessTicketReadHandler) (ticket : ContextAccessTicket)
    (identity : TicketExecutionIdentity) : list (UUID * pystr) * result unit :=
  match authorize_read L port source_is_active clock handler ticket identity with
  | Err e => ([], Err e)
  | Ok _ =>
      ([(ti_organization_id identity, rh_provider_ref handler)],
       provider_read (ti_organization_id identity) (rh_provider_ref handler))
  end.
End Ticket.

(** ** The claims survive their document *)

Definition claims_static (c : _ContextAccessClaims) : Prop :=
  subject_ok (subject c) ∧ identifier_ok 128 (provider_ref c)
  ∧ match source_ref c with None => True | Some u => uuid_ok u end
  ∧ identifier_ok 256 (audience c) ∧ second_ok (issued_at c) ∧ second_ok (expires_at c)
  ∧ lifetime_bounded (issued_at c) (expires_at c) = true ∧ Forall byte_ok (nonce c).

Definition claims_text_ok (c : _ContextAccessClaims) : Prop :=
  subject_text_ok (subject c) ∧ str_ok (provider_ref c) = true ∧ str_ok (audience c) = true.

(** The entries of the document besides the subject's. *)
Definition other_entries (c : _ContextAccessClaims) (nonce_text : pystr) : document :=
  [(lit "operation", JStr CONTEXT_ACCESS_OPERATION); (lit "provider_ref", JStr (provider_ref c));
   (lit "source_ref", match source_ref c with None => JNull | Some u => JStr (uuid_str u) end);
   (lit "audience", JStr (audience c)); (lit "issued_at", JStr (_timestamp (issued_at c)));
   (lit "expires_at", JStr (_timestamp (expires_at c))); (lit "nonce", JStr nonce_text)].

Lemma claims_document_Ok c d :
  _claims_document c = Ok d →
  ∃ t, _nonce_document (nonce c) = Ok t ∧ Forall (holds d) (subject_entries (subject c))
    ∧ Forall (holds d) (other_entries c t) ∧ d.*1 ≡ₚ _CLAIM_FIELDS ∧ in_key_order d = d
    ∧ Forall (λ kv, str_ok kv.1 = true) d
    ∧ (claims_text_ok c → Forall byte_ok (nonce c) → Forall (λ kv, json_ok kv.2 = true) d).
Proof.
  intros (t & Ht & <-%Ok_inj)%bind_Ok. exists t. split; [done|].
  split; [repeat apply Forall_cons_2; try apply Forall_nil_2; reflexivity|].
  split; [repeat apply Forall_cons_2; try apply Forall_nil_2; reflexivity|].
  split; [apply (bool_decide_unpack _); by vm_compute|].
  split; [by destruct (source_ref c)|].
  split; [repeat apply Forall_cons_2; try apply Forall_nil_2; reflexivity|].
  intros ((H1 & H2 & H3) & H4 & H5) Hn.
  assert (Hts : str_ok t = true).
  { apply bind_Ok in Ht as (n & Hn' & <-%Ok_inj). unfold _require_nonce in Hn'. run_ok. by apply base64url_str_ok. }
  repeat apply Forall_cons_2; try apply Forall_nil_2; cbn [snd json_ok];
    auto using uuid_str_ok, timestamp_str_ok.
  destruct (source_ref c); [apply uuid_str_ok|done].
Qed.

Lemma read_claims_nest {nesting : NestingLimit} c d : _claims_document c = Ok d → nests nesting_limit (JObj d) = true.
Proof. intros (t & _ & <-%Ok_inj)%bind_Ok. apply nests_room. by destruct (source_ref c). Qed.

Lemma claims_roundtrip c d :
  claims_static c → _claims_document c = Ok d → _claims_from_document d = Ok c.
Proof.
  intros (Hs & Hp & Hsrc & Ha & Hi & He & Hl & Hn) (t & Ht & Hsub & Hoth & _)%claims_document_Ok.
  unfold other_entries in Hoth. apply Forall_cons in Hoth as [K1%holds_doc_get Hoth].
  apply Forall_cons in Hoth as [K2%holds_doc_get Hoth]. apply Forall_cons in Hoth as [K3 Hoth].
  apply Forall_cons in Hoth as [K4%holds_doc_get Hoth]. apply Forall_cons in Hoth as [K5%holds_doc_get Hoth].
  apply Forall_cons in Hoth as [K6%holds_doc_get Hoth]. apply Forall_cons in Hoth as [K7%holds_doc_get _].
  unfold _claims_from_document. rewrite K1, K2, K4, K5, K6, K7, (subject_roundtrip _ _ Hs Hsub).
  unfold doc_get_or_None. unfold holds in K3. cbn [fst snd] in K3. rewrite K3.
  cbn [mbind result_bind obj_of_json is_text]. rewrite bool_decide_eq_true_2 by done.
  cbn [require mbind result_bind]. rewrite Hp. cbn [mbind result_bind].
  assert (Hso : _parse_optional_file_source_ref
                  (obj_of_json match source_ref c with None => JNull | Some u => JStr (uuid_str u) end)
                = Ok (source_ref c)).
  { destruct (source_ref c) as [u|]; [|done]. cbn [obj_of_json _parse_optional_file_source_ref].
    by rewrite parse_uuid_text. }
  rewrite Hso, Ha. cbn [mbind result_bind]. rewrite !parse_timestamp_text by done.
  cbn [mbind result_bind]. rewrite (parse_nonce_text _ _ Hn Ht). cbn [mbind result_bind]. rewrite Hl.
  by destruct c.
Qed.

(** ** Redemption *)

Lemma read_audience_ok p aud : _read_audience p = Ok aud → identifier_ok 256 aud ∧ identifier_ok 128 p.
Proof.
  unfold _read_audience. intros (q & Hq & <-%Ok_inj)%bind_Ok. pose proof Hq as Hq'.
  apply identifier_Ok in Hq' as ([= ->] & Hne & Hlen & Hsp). split; [|done].
  apply identifier_Ok. split; [done|]. split; [by destruct q|]. split.
  - rewrite len_app. change (len CONTEXT_READ_AUDIENCE_PREFIX) with 13. lia.
  - rewrite existsb_app, Hsp. reflexivity.
Qed.

Section Redeem.
Context {nesting : NestingLimit}.
Context (float_repr : pystr → result pystr).

Lemma claims_skv c d t :
  Forall (holds d) (subject_entries (subject c)) → t = sc_signing_key_version (subject c) →
  dict_get d (lit "signing_key_version") = Some (JInt t).
Proof. intros H ->. apply Forall_cons in H as [H _]. exact H. Qed.

(** A minted document verifies under any keyring that holds the key. *)
Lemma minted_ticket_verifies K c d value :
  claims_static c → claims_text_ok c → _claims_document c = Ok d → opaque_value_ok value →
  _mint_signed_ticket float_repr (with_active K (sc_signing_key_version (subject c))) _DOMAIN _TOKEN_TYPE d
    = Ok value →
  _verify_context_access_ticket float_repr value K = Ok d.
Proof.
  intros Hst Htx Hd Hop Hm.
  destruct (claims_document_Ok _ _ Hd) as (t & _ & Hsub & _ & Hkeys & Hord & Hk & Hv).
  specialize (Hv Htx (proj2 (proj2 (proj2 (proj2 (proj2 (proj2 (proj2 Hst)))))))).
  unfold _verify_context_access_ticket.
  rewrite (minted_verifies float_repr value K _DOMAIN _TOKEN_TYPE _CLAIM_FIELDS
             (sc_signing_key_version (subject c)) d); [by rewrite Hord|done|done| |by eapply read_claims_nest|apply Hst| |done|done].
  - cbn [json_ok]. apply andb_true_iff. split.
    + apply bool_decide_eq_true. rewrite Hkeys. apply (bool_decide_unpack _). by vm_compute.
    + apply forallb_forall. intros kv Hkv%list_elem_of_In. rewrite Forall_forall in Hk. rewrite Forall_forall in Hv.
      by rewrite (Hk kv Hkv), (Hv kv Hkv).
  - split; [by rewrite Hkeys|]. by eapply claims_skv.
Qed.

(** The handler serves the issuer's Organization, Provider and source and still
    holds the key the issuer signs with, whatever its own active version is. *)
Definition configured_alike (issuer : ContextAccessTicketIssuer) (h : ContextAccessTicketReadHandler) : Prop :=
  rh_organization_id h = is_organization_id issuer ∧ rh_provider_ref h = is_provider_ref issuer
  ∧ rh_source_ref h = is_source_ref issuer
  ∧ _key_for (rh_keyring h) (active_version (is_keyring issuer))
    = _key_for (is_keyring issuer) (active_version (is_keyring issuer)).

(** The identity, the epoch and the source are good at one moment. *)
Definition authority_current (L : lifetimes) (port : epoch_port) (source_is_active : UUID → result obj)
    (identity : TicketExecutionIdentity) (source : option UUID) : Prop :=
  _require_active_ticket_execution_identity L identity = Ok tt
  ∧ policy_epoch_gate_is_current L port (ti_policy_epoch_verification identity) = Ok true
  ∧ require_source_active L source_is_active identity source ValueError = Ok tt.

(** Values of the Python types, and text that JSON can carry. *)
Definition representable (issuer : ContextAccessTicketIssuer) (identity : TicketExecutionIdentity)
    (clock : datetime) (fresh_nonce : pybytes) : Prop :=
  uuid_ok (ti_organization_id identity) ∧ uuid_ok (ti_subject_user_id identity)
  ∧ uuid_ok (ti_subject_membership_id identity)
  ∧ match is_source_ref issuer with None => True | Some u => uuid_ok u end
  ∧ datetime_ok clock ∧ Forall byte_ok fresh_nonce
  ∧ str_ok (ti_actor_principal_ref identity) = true ∧ str_ok (ti_agent_version_ref identity) = true
  ∧ str_ok (ti_purpose identity) = true ∧ str_ok (is_provider_ref issuer) = true.

Lemma require_utc_second d e : _require_utc d = Ok e → e = d ∧ is_utc d = true ∧ microsecond d = 0.
Proof. unfold _require_utc. intros H. run_ok. by rewrite Z.eqb_eq in *. Qed.

Lemma dt_add_seconds d n e :
  second_ok d → dt_add d (seconds n) = Ok e → second_ok e ∧ dt_us e = dt_us d + seconds n.
Proof.
  unfold second_ok, datetime_ok, dt_add, seconds, microsecond, is_utc. intros (Hd & Hu & Hm) H.
  destruct ((0 <=? _) && _) eqn:E; [|done]. apply Ok_inj in H as <-. cbn [dt_us dt_off].
  apply andb_true_iff in E as [E1%Z.leb_le E2%Z.ltb_lt]. split; [|done]. split; [done|]. split; [done|].
  unfold us_per_second in *. by rewrite Z.mod_add by lia.
Qed.

Lemma keyring_version_ok a ks K : new_TicketSigningKeyring a ks = Ok K → bigint_ok (active_version K).
Proof.
  unfold new_TicketSigningKeyring. intros (v & [_ Hv]%positive_bigint_Ok & H)%bind_Ok.
  apply bind_Ok in H as (_ & _ & H). apply bind_Ok in H as (copied & _ & H).
  apply bind_Ok in H as (_ & _ & <-%Ok_inj). exact Hv.
Qed.

(** What an issued ticket says. *)
Lemma issue_Ok L port src clock n issuer identity ticket :
  issue float_repr L port src clock n issuer identity = Ok ticket →
  _require_active_ticket_execution_identity L identity = Ok tt
  ∧ ti_organization_id identity = is_organization_id issuer
  ∧ is_utc clock = true ∧ microsecond clock = 0
  ∧ ∃ aud expires d,
      _read_audience (is_provider_ref issuer) = Ok aud ∧ dt_add clock (seconds (is_ttl_seconds issuer)) = Ok expires
      ∧ _claims_document (mkContextAccessClaims (subject_of_identity (is_keyring issuer) identity)
          (is_provider_ref issuer) (is_source_ref issuer) aud clock expires n) = Ok d
      ∧ _mint_signed_ticket float_repr (is_keyring issuer) _DOMAIN _TOKEN_TYPE d = Ok (_value ticket)
      ∧ opaque_value_ok (_value ticket).
Proof.
  unfold issue. intros ([] & Hact & H)%bind_Ok. apply bind_Ok in H as (_ & Ho%require_Ok%bool_decide_eq_true & H).
  apply bind_Ok in H as (_ & _ & H). apply bind_Ok in H as (i & (-> & Hu & Hm)%require_utc_second & H).
  apply bind_Ok in H as (aud & Ha & H). apply bind_Ok in H as (ex & He & H). apply bind_Ok in H as (d & Hd & H).
  apply bind_Ok in H as (v & Hv & H). unfold _construct_context_access_ticket in H.
  apply bind_Ok in H as (v' & Hop & <-%Ok_inj). cbn [_value].
  assert (v' = v) as -> by (unfold _require_opaque_ticket_value in Hop; by run_ok).
  split_and!; try done. by exists aud, ex, d.
Qed.

(** The claims of an issued ticket are well formed. *)
Lemma issued_claims_ok L K p source ttl identity aud clock ex n org :
  bigint_ok (active_version K) → (1 <=? ttl) && (ttl <=? MAX_TTL_SECONDS) = true →
  _require_active_ticket_execution_identity L identity = Ok tt → second_ok clock →
  representable (mkIssuer K org p source ttl) identity clock n →
  _read_audience p = Ok aud → dt_add clock (seconds ttl) = Ok ex →
  let c := mkContextAccessClaims (subject_of_identity K identity) p source aud clock ex n in
  claims_static c ∧ claims_text_ok c.
Proof.
  intros Hkr Httl Hact Hsec (Hu1 & Hu2 & Hu3 & Hus & Hdt & Hn & Ht1 & Ht2 & Ht3 & Ht4) Haud Hex c.
  cbn [is_source_ref is_provider_ref] in *.
  destruct (dt_add_seconds _ _ _ Hsec Hex) as [Hsec' Hex'].
  destruct (read_audience_ok _ _ Haud) as [Ha256 Hp128]. split.
  - split; [by eapply subject_of_identity_ok|]. split; [done|]. split; [done|]. split; [done|]. split; [done|].
    split; [done|]. split; [|done]. cbn. unfold lifetime_bounded, dt_sub, seconds, MAX_TTL_SECONDS, us_per_second in *.
    lia.
  - split; [done|]. split; [done|]. cbn. unfold _read_audience in Haud. apply bind_Ok in Haud as (q & Hq & <-%Ok_inj).
    apply identifier_Ok in Hq as [[= ->] _]. clear -Ht4. unfold str_ok in *. rewrite forallb_app.
    apply andb_true_iff in Ht4 as [H1 H2]. rewrite H1, andb_true_r. cbn. destruct q; cbn in *; [done|]. by rewrite H2.
Qed.

Lemma issued_ticket_redeems L port src clock n issuer identity ticket a ks K org prov source ttl
    L' port' src' provider_read clock' handler :
  new_TicketSigningKeyring a ks = Ok K →
  new_ContextAccessTicketIssuer K org prov source ttl = Ok issuer →
  issue float_repr L port src clock n issuer identity = Ok ticket →
  representable issuer identity clock n → configured_alike issuer handler →
  authority_current L' port' src' identity (is_source_ref issuer) →
  _require_utc clock' = Ok clock' → dt_us clock ≤ dt_us clock' < dt_us clock + seconds ttl →
  read float_repr L' port' src' provider_read clock' handler ticket identity
  = ([(ti_organization_id identity, rh_provider_ref handler)],
     provider_read (ti_organization_id identity) (rh_provider_ref handler)).
Proof.
  intros Hkr%keyring_version_ok Hiss Hissue Hrep (Ho & Hp & Hsrc & Hkey) (Hact & Hgate & Hsa) Hclk Hwin.
  unfold new_ContextAccessTicketIssuer in Hiss. apply bind_Ok in Hiss as (_ & Httl%require_Ok & Hiss).
  apply bind_Ok in Hiss as (p & _ & <-%Ok_inj). cbn [is_keyring is_organization_id is_provider_ref is_source_ref is_ttl_seconds] in *.
  apply issue_Ok in Hissue as (Hact0 & Horg & Hu & Hm & aud & ex & d & Haud & Hex & Hd & Hmint & Hop).
  cbn [is_keyring is_organization_id is_provider_ref is_source_ref is_ttl_seconds] in *.
  assert (Hsec : second_ok clock) by (split; [apply Hrep|done]).
  destruct (issued_claims_ok _ _ _ _ _ _ _ _ _ _ _ Hkr Httl Hact0 Hsec Hrep Haud Hex) as [Hst Htx].
  set (c := mkContextAccessClaims (subject_of_identity K identity) p source aud clock ex n) in *.
  assert (Hver : _verify_context_access_ticket float_repr (_value ticket) (rh_keyring handler) = Ok d).
  { eapply (minted_ticket_verifies (rh_keyring handler) c d); try done. revert Hmint.
    unfold _mint_signed_ticket. cbn [active_version with_active c subject subject_of_identity sc_signing_key_version].
    change (_key_for (with_active (rh_keyring handler) (active_version K)) (active_version K))
      with (_key_for (rh_keyring handler) (active_version K)). by rewrite Hkey. }
  unfold read, authorize_read. rewrite Hact. cbn [mbind result_bind]. rewrite Hclk. cbn [mbind result_bind].
  rewrite Hver. cbn [mbind result_bind]. rewrite (claims_roundtrip c d Hst Hd). cbn [mbind result_bind].
  rewrite Hp, Haud. cbn [mbind result_bind].
  assert (Hcm : claims_match c identity handler aud clock' = true).
  { unfold claims_match. cbn [c subject provider_ref source_ref audience issued_at expires_at].
    rewrite Ho, <- Horg, subject_matches_identity, Hp, Hsrc, !bool_decide_eq_true_2 by done.
    unfold dt_ltb. rewrite (proj2 (dt_add_seconds _ _ _ Hsec Hex)). cbn [andb]. lia. }
  rewrite Hcm. cbn [require mbind result_bind]. rewrite Hgate. cbn [require mbind result_bind].
  rewrite Hsrc, Hsa. done.
Qed.

(** C37: An issued ticket can be redeemed.  While the same identity, the Policy Epoch
    and the source are still good, a handler configured like the issuer, whose
    keyring still holds the signing key (even if another key is active by then),
    accepts the ticket at every whole second from its issue until before its
    expiry, and makes exactly the one Provider call for the identity's own
    Organization. *)
Theorem issued_ticket_is_redeemed L port src clock n issuer identity ticket a ks K org prov source ttl
    L' port' src' provider_read clock' handler :
  new_TicketSigningKeyring a ks = Ok K →
  new_ContextAccessTicketIssuer K org prov source ttl = Ok issuer →
  issue float_repr L port src clock n issuer identity = Ok ticket →
  representable issuer identity clock n → configured_alike issuer handler →
  authority_current L' port' src' identity (is_source_ref issuer) →
  _require_utc clock' = Ok clock' → dt_us clock ≤ dt_us clock' < dt_us clock + seconds ttl →
  read float_repr L' port' src' provider_read clock' handler ticket identity
  = ([(ti_organization_id identity, rh_provider_ref handler)],
     provider_read (ti_organization_id identity) (rh_provider_ref handler)).
Proof. apply issued_ticket_redeems. Qed.

(** ** What a redemption requires *)

Lemma verify_context_Ok value K d :
  _verify_context_access_ticket float_repr value K = Ok d →
  ∃ fields, (fields = _CLAIM_FIELDS ∨ fields = _LEGACY_CLAIM_FIELDS)
    ∧ _verify_signed_ticket float_repr value K _DOMAIN _TOKEN_TYPE fields = Ok d.
Proof.
  unfold _verify_context_access_ticket, try_except.
  destruct (_verify_signed_ticket _ _ _ _ _ _CLAIM_FIELDS) as [d'|e] eqn:E.
  - intros [= ->]. exists _CLAIM_FIELDS. eauto.
  - destruct (is_expected_decoding_error e); [|done]. intros H. exists _LEGACY_CLAIM_FIELDS. eauto.
Qed.

Lemma authorize_read_Ok L port src clock handler ticket identity :
  authorize_read float_repr L port src clock handler ticket identity = Ok tt ↔
  authority_current L port src identity (rh_source_ref handler)
  ∧ _require_utc clock = Ok clock
  ∧ ∃ d c aud, _verify_context_access_ticket float_repr (_value ticket) (rh_keyring handler) = Ok d
      ∧ _claims_from_document d = Ok c ∧ _read_audience (rh_provider_ref handler) = Ok aud
      ∧ claims_match c identity handler aud clock = true.
Proof.
  unfold authorize_read, authority_current. split.
  - intros H. unfold try_except in H.
    match type of H with match ?m with _ => _ end = _ => destruct m as [[]|e] eqn:E; [clear H|by case_match] end.
    apply bind_Ok in E as ([] & Hact & E). apply bind_Ok in E as (ck & Hck & E).
    destruct (require_utc_second _ _ Hck) as [-> _].
    apply bind_Ok in E as (d & Hd & E). apply bind_Ok in E as (c & Hc & E). apply bind_Ok in E as (aud & Ha & E).
    apply bind_Ok in E as (_ & Hm%require_Ok & E). apply bind_Ok in E as (cur & Hcur & E).
    apply bind_Ok in E as (_ & ->%require_Ok & Hs). split; [done|]. split; [done|]. by exists d, c, aud.
  - intros ((Hact & Hg & Hs) & Hck & d & c & aud & Hd & Hc & Ha & Hm).
    rewrite Hact. cbn [mbind result_bind]. rewrite Hck. cbn [mbind result_bind]. rewrite Hd. cbn [mbind result_bind].
    rewrite Hc. cbn [mbind result_bind]. rewrite Ha. cbn [mbind result_bind]. rewrite Hm.
    cbn [require mbind result_bind]. rewrite Hg. cbn [require mbind result_bind]. by rewrite Hs.
Qed.

Lemma claims_from_document_Ok d c :
  _claims_from_document d = Ok c →
  subject_of_document d = Ok (subject c) ∧ lifetime_bounded (issued_at c) (expires_at c) = true.
Proof.
  unfold _claims_from_document. intros H. do 2 apply bind_Ok in H as (? & _ & H).
  apply bind_Ok in H as (s & Hs & H). do 11 apply bind_Ok in H as (? & _ & H).
  apply bind_Ok in H as (_ & Hl%require_Ok & <-%Ok_inj). done.
Qed.

(** C32: A read happens only under current authority.  If the handler calls the
    Provider at all, it makes one call, for the identity's own Organization, which
    is the configured one; the identity is active, the Policy Epoch current and the
    configured source active at that moment; and the ticket is a text that minting
    produces from claims, under a key of the handler's keyring, that name exactly
    this subject, Provider, source and audience and a lifetime of at most five
    minutes that contains the moment. *)
Theorem read_requires_authority L port src provider_read clock handler ticket identity calls r :
  read float_repr L port src provider_read clock handler ticket identity = (calls, r) → calls ≠ [] →
  calls = [(ti_organization_id identity, rh_provider_ref handler)]
  ∧ rh_organization_id handler = ti_organization_id identity
  ∧ authority_current L port src identity (rh_source_ref handler)
  ∧ ∃ kid d c, _mint_signed_ticket float_repr (with_active (rh_keyring handler) kid) _DOMAIN _TOKEN_TYPE d
               = Ok (_value ticket)
      ∧ _claims_from_document d = Ok c
      ∧ subject c = mkSubjectClaims kid (ti_organization_id identity) (ti_subject_user_id identity)
          (ti_subject_membership_id identity) (ti_subject_membership_version identity)
          (ti_actor_principal_ref identity) (ti_agent_version_ref identity) (ti_purpose identity)
          (ti_policy_epoch identity)
      ∧ provider_ref c = rh_provider_ref handler ∧ source_ref c = rh_source_ref handler
      ∧ _read_audience (rh_provider_ref handler) = Ok (audience c)
      ∧ dt_us (issued_at c) ≤ dt_us clock < dt_us (expires_at c)
      ∧ dt_us (expires_at c) - dt_us (issued_at c) ≤ seconds MAX_TTL_SECONDS.
Proof.
  unfold read. destruct (authorize_read _ _ _ _ _ _ _ _) as [[]|e] eqn:E; intros [= <- <-]; [intros _|done].
  apply authorize_read_Ok in E as (Hauth & _ & d & c & aud & Hd & Hc & Ha & Hm).
  unfold claims_match in Hm. rewrite !andb_true_iff in Hm.
  destruct Hm as (((((Hs & Hp%bool_decide_eq_true) & Hsr%bool_decide_eq_true) & Hau%bool_decide_eq_true)
    & Hi%negb_true_iff) & He). unfold dt_ltb in *. apply subject_matches_spec in Hs as [Ho Hs].
  apply verify_context_Ok in Hd as (fields & _ & Hd).
  apply verified_is_minted in Hd as (kid & _ & [_ Hkid] & _ & _ & Hmint).
  split; [done|]. split; [done|]. split; [done|]. exists kid, d, c. split; [done|]. split; [done|].
  destruct (claims_from_document_Ok _ _ Hc) as [Hsd Hlife].
  split; [rewrite Hs; f_equal; by eapply subject_version|]. split; [done|]. split; [done|].
  split; [congruence|]. split; [lia|]. unfold lifetime_bounded, dt_sub in Hlife. lia.
Qed.

(** ** Refusals *)

Lemma raises_claims d :
  (∀ k, k ∈ _LEGACY_CLAIM_FIELDS → k ∈ d.*1) → raises_expected (_claims_from_document d).
Proof.
  intros Hk. assert (Hget : ∀ k, bool_decide (k ∈ _LEGACY_CLAIM_FIELDS) = true → raises_expected (doc_get d k)).
  { intros k Hin%bool_decide_eq_true. apply raises_doc_get. by apply Hk. }
  assert (Hsub : raises_expected (subject_of_document d)).
  { apply raises_subject. intros k Hin. apply Hk. revert k Hin. apply Forall_forall.
    apply (bool_decide_unpack _). by vm_compute. }
  assert (Hsrc : ∀ o, raises_expected (_parse_optional_file_source_ref o)).
  { intros o. unfold _parse_optional_file_source_ref.
    destruct o; solve [apply raises_Ok|apply raises_bind; [apply raises_parse_uuid|intros; apply raises_Ok]]. }
  unfold _claims_from_document.
  repeat first [solve [eauto with expected]|exact Hsub|apply Hsrc|apply Hget; by vm_compute
               |apply raises_bind; [|intros ? _]].
Qed.

Context (float_repr_errors : ∀ x e, float_repr x = Err e → is_ValueError e = true).

Lemma raises_verify_context value K : raises_expected (_verify_context_access_ticket float_repr value K).
Proof.
  assert (Hv : ∀ fields, bool_decide (lit "signing_key_version" ∈ fields) = true →
            raises_expected (_verify_signed_ticket float_repr value K _DOMAIN _TOKEN_TYPE fields)).
  { intros fields Hf%bool_decide_eq_true. by apply raises_verify. }
  unfold _verify_context_access_ticket, try_except.
  destruct (_verify_signed_ticket _ _ _ _ _ _CLAIM_FIELDS) as [d|e] eqn:E; [apply raises_Ok|].
  rewrite (Hv _CLAIM_FIELDS eq_refl e E). by apply Hv.
Qed.

(** Every refusal looks the same.  Whatever the text of the ticket (not base64,
    not JSON, repeated or missing keys, a foreign protocol, a wrong signature, an
    expired or foreign claim), whatever the state of the identity, the epoch and
    the source: if no Provider call is made the handler raises the one
    TicketNotAvailable, provided the epoch authority and the lifecycle port fail
    only with their documented errors. *)
Theorem read_refusal_is_uniform L port src provider_read clock handler ticket identity r :
  port_faults_expected port (pev_organization_id (ti_policy_epoch_verification identity)) →
  (∀ u, raises ticket_caught (src u)) →
  read float_repr L port src provider_read clock handler ticket identity = ([], r) →
  r = Err TicketNotAvailable.
Proof.
  intros Hport Hsrc. unfold read, authorize_read, try_except.
  match goal with |- context [match (match ?m with _ => _ end) with _ => _ end] =>
    assert (Hm : raises ticket_caught m); [|destruct m as [u|e]; [done|]] end.
  2:{ rewrite (Hm e eq_refl). by intros [= <-]. }
  apply raises_bind; [apply caught_identity|intros _ _].
  apply raises_bind; [apply expected_caught, raises_require_utc|intros ck _].
  apply raises_bind; [apply expected_caught, raises_verify_context|intros d Hd].
  apply raises_bind; [apply expected_caught, raises_claims|intros c _].
  { apply verify_context_Ok in Hd as (fields & Hf & (kid & _ & [Hset _] & _)%verified_is_minted).
    intros k Hk. apply (elem_of_list_to_set (C := gset pystr)). rewrite Hset. apply elem_of_list_to_set.
    destruct Hf as [->| ->]; [by right|done]. }
  apply raises_bind; [apply expected_caught; unfold _read_audience; expected_chain|intros aud _].
  apply raises_bind; [by apply caught_require|intros _ _].
  apply raises_bind; [by apply caught_gate|intros cur _].
  apply raises_bind; [by apply caught_require|intros _ _].
  unfold require_source_active. destruct (rh_source_ref handler); [|apply raises_Ok].
  destruct (m_materialized_projection_session _); [|by apply raises_Err].
  unfold _is_materialized_source_active, _require_active_materialized_projection_session.
  apply raises_bind; [|intros; by apply caught_require]. apply raises_bind.
  - repeat case_match; by (apply raises_Ok || apply raises_Err).
  - intros _ _. apply raises_bind; [apply Hsrc|]. intros o _. destruct o; by (apply raises_Ok || apply raises_Err).
Qed.
End Redeem.
