(* ===== verification/ActionTickets.v ===== *)
(** * The ActionTicket: [engine/runtime/action_ticket.py]

    The second ticket protocol.  Its issuer, unlike the read issuer, does not ask
    the Policy Epoch gate; the handler does.  Clocks and nonces are the values that
    the callbacks return at that moment, and a redemption returns the calls made to
    the configured channel next to its result. *)

From S2P Require Import Prelude Codec Sha256 Datetime Json Materialized Trusted Signing TicketIdentity.

Definition ACTION_TICKET_OPERATION : pystr := lit "synthetic.channel.noop".
Definition ACTION_AUDIENCE_PREFIX : pystr := lit "im-send:".
Definition _DOMAIN : pystr := lit "context-engine.action-ticket".
Definition _TOKEN_TYPE : pystr := lit "CE-ActionTicket".

Definition _CLAIM_FIELDS : list pystr :=
  [lit "actor_principal_ref"; lit "agent_version_ref"; lit "audience"; lit "channel_ref"; lit "expires_at";
   lit "issued_at"; lit "nonce"; lit "operation"; lit "organization_id"; lit "policy_epoch"; lit "purpose";
   lit "signing_key_version"; lit "subject_membership_id"; lit "subject_membership_version";
   lit "subject_user_id"].

(** A value of this type was built by the issuer or the validated deserializer. *)
Record ActionTicket := mkActionTicket { _value : pystr }.

Record _ActionClaims := mkActionClaims {
  subject : SubjectClaims;
  channel_ref : pystr;
  audience : pystr;
  issued_at : datetime;
  expires_at : datetime;
  nonce : pybytes
}.

Definition _claims_document (c : _ActionClaims) : result document :=
  let s := subject c in
  nonce_text ← _nonce_document (nonce c);
  Ok [(lit "actor_principal_ref", JStr (sc_actor_principal_ref s));
      (lit "agent_version_ref", JStr (sc_agent_version_ref s));
      (lit "audience", JStr (audience c));
      (lit "channel_ref", JStr (channel_ref c));
      (lit "expires_at", JStr (_timestamp (expires_at c)));
      (lit "issued_at", JStr (_timestamp (issued_at c)));
      (lit "nonce", JStr nonce_text);
      (lit "operation", JStr ACTION_TICKET_OPERATION);
      (lit "organization_id", JStr (uuid_str (sc_organization_id s)));
      (lit "policy_epoch", JInt (sc_policy_epoch s));
      (lit "purpose", JStr (sc_purpose s));
      (lit "signing_key_version", JInt (sc_signing_key_version s));
      (lit "subject_membership_id", JStr (uuid_str (sc_subject_membership_id s)));
      (lit "subject_membership_version", JInt (sc_subject_membership_version s));
      (lit "subject_user_id", JStr (uuid_str (sc_subject_user_id s)))].

Definition _claims_from_document (d : document) : result _ActionClaims :=
  operation ← doc_get d (lit "operation");
  require (is_text operation ACTION_TICKET_OPERATION) ValueError ;;
  s ← subject_of_document d;
  channel ← doc_get d (lit "channel_ref"); channel ← _require_identifier channel 128;
  aud ← doc_get d (lit "audience"); aud ← _require_identifier aud 256;
  issued ← doc_get d (lit "issued_at"); issued ← _parse_timestamp issued;
  expires ← doc_get d (lit "expires_at"); expires ← _parse_timestamp expires;
  n ← doc_get d (lit "nonce"); n ← _parse_nonce n;
  require (lifetime_bounded issued expires) ValueError ;;
  Ok (mkActionClaims s channel aud issued expires n).

Definition _construct_action_ticket (value : pystr) : result ActionTicket :=
  v ← _require_opaque_ticket_value (OStr value); Ok (mkActionTicket v).

Definition _action_audience (channel : pystr) : result pystr :=
  c ← _require_identifier (OStr channel) 128; Ok (ACTION_AUDIENCE_PREFIX ++ c).

Record ActionTicketIssuer := mkActionIssuer {
  ai_keyring : TicketSigningKeyring;
  ai_organization_id : UUID;
  ai_channel_ref : pystr;
  ai_ttl_seconds : Z
}.
Record ActionTicketNoopHandler := mkNoopHandler {
  ah_keyring : TicketSigningKeyring;
  ah_organization_id : UUID;
  ah_channel_ref : pystr
}.

Definition new_ActionTicketIssuer (keyring : TicketSigningKeyring) (organization_id : UUID)
    (channel : pystr) (ttl_seconds : Z) : result ActionTicketIssuer :=
  require ((1 <=? ttl_seconds) && (ttl_seconds <=? MAX_TTL_SECONDS)) ValueError ;;
  c ← _require_identifier (OStr channel) 128;
  Ok (mkActionIssuer keyring organization_id c ttl_seconds).

Definition new_ActionTicketNoopHandler (keyring : TicketSigningKeyring) (organization_id : UUID)
    (channel : pystr) : result ActionTicketNoopHandler :=
  c ← _require_identifier (OStr channel) 128; Ok (mkNoopHandler keyring organization_id c).

Section Ticket.
Context {nesting : NestingLimit}.
Context (float_repr : pystr → result pystr).

Definition verify_action (value : pystr) (keyring : TicketSigningKeyring) : result document :=
  _verify_signed_ticket float_repr value keyring _DOMAIN _TOKEN_TYPE _CLAIM_FIELDS.

(** [ActionTicket.deserialize] *)
Definition deserialize (value : pystr) (keyring : TicketSigningKeyring) : result ActionTicket :=
  try_except (d ← verify_action value keyring; _claims_from_document d ;; Ok tt)
    is_expected_decoding_error (Err TicketNotAvailable) ;;
  _construct_action_ticket value.

(** [ActionTicketIssuer.issue] *)
Definition issue (L : lifetimes) (clock : datetime) (fresh_nonce : pybytes) (issuer : ActionTicketIssuer)
    (identity : TicketExecutionIdentity) : result ActionTicket :=
  _require_active_ticket_execution_identity L identity ;;
  require (bool_decide (ti_organization_id identity = ai_organization_id issuer)) ValueError ;;
  issued ← _require_utc clock;
  aud ← _action_audience (ai_channel_ref issuer);
  expires ← dt_add issued (seconds (ai_ttl_seconds issuer));
  d ← _claims_document (mkActionClaims (subject_of_identity (ai_keyring issuer) identity)
        (ai_channel_ref issuer) aud issued expires fresh_nonce);
  value ← _mint_signed_ticket float_repr (ai_keyring issuer) _DOMAIN _TOKEN_TYPE d;
  _construct_action_ticket value.

Definition claims_match (c : _ActionClaims) (identity : TicketExecutionIdentity)
    (handler : ActionTicketNoopHandler) (aud : pystr) (checked_at : datetime) : bool :=
  subject_matches (subject c) identity (ah_organization_id handler)
  && bool_decide (channel_ref c = ah_channel_ref handler)
  && bool_decide (audience c = aud)
  && negb (dt_ltb checked_at (issued_at c)) && dt_ltb checked_at (expires_at c).

(** The checks of [ActionTicketNoopHandler.perform] before its effect. *)
Definition authorize_action (L : lifetimes) (port : epoch_port) (clock : datetime)
    (handler : ActionTicketNoopHandler) (ticket : ActionTicket) (identity : TicketExecutionIdentity) :
    result unit :=
  try_except
    (_require_active_ticket_execution_identity L identity ;;
     checked_at ← _require_utc clock;
     d ← verify_action (_value ticket) (ah_keyring handler);
     c ← _claims_from_document d;
     aud ← _action_audience (ah_channel_ref handler);
     require (claims_match c identity handler aud checked_at) ValueError ;;
     current ← policy_epoch_gate_is_current L port (ti_policy_epoch_verification identity);
     require current ValueError)
    ticket_caught (Err TicketNotAvailable).

(** [perform]: the channel's calls and the result. *)
Definition perform (L : lifetimes) (port : epoch_port) (perform_noop : UUID → pystr → result unit)
    (clock : datetime) (handler : ActionTicketNoopHandler) (ticket : ActionTicket)
    (identity : TicketExecutionIdentity) : list (UUID * pystr) * result unit :=
  match authorize_action L port clock handler ticket identity with
  | Err e => ([], Err e)
  | Ok _ =>
      ([(ti_organization_id identity, ah_channel_ref handler)],
       perform_noop (ti_organization_id identity) (ah_channel_ref handler))
  end.
End Ticket.

(** ** What an action requires *)

Section Perform.
Context {nesting : NestingLimit}.
Context (float_repr : pystr → result pystr).

Lemma action_claims_Ok d c :
  _claims_from_document d = Ok c →
  subject_of_document d = Ok (subject c) ∧ lifetime_bounded (issued_at c) (expires_at c) = true.
Proof.
  unfold _claims_from_document. intros H. do 2 apply bind_Ok in H as (? & _ & H).
  apply bind_Ok in H as (s & Hs & H). do 10 apply bind_Ok in H as (? & _ & H).
  apply bind_Ok in H as (_ & Hl%require_Ok & <-%Ok_inj). done.
Qed.

Lemma authorize_action_Ok L port clock handler ticket identity :
  authorize_action float_repr L port clock handler ticket identity = Ok tt →
  _require_active_ticket_execution_identity L identity = Ok tt
  ∧ policy_epoch_gate_is_current L port (ti_policy_epoch_verification identity) = Ok true
  ∧ ∃ d c aud, verify_action float_repr (_value ticket) (ah_keyring handler) = Ok d
      ∧ _claims_from_document d = Ok c ∧ _action_audience (ah_channel_ref handler) = Ok aud
      ∧ claims_match c identity handler aud clock = true.
Proof.
  unfold authorize_action, try_except. intros H.
  match type of H with match ?m with _ => _ end = _ => destruct m as [[]|e] eqn:E; [clear H|by case_match] end.
  apply bind_Ok in E as ([] & Hact & E). apply bind_Ok in E as (ck & Hck & E).
  assert (ck = clock) as -> by (unfold _require_utc in Hck; by run_ok).
  apply bind_Ok in E as (d & Hd & E). apply bind_Ok in E as (c & Hc & E). apply bind_Ok in E as (aud & Ha & E).
  apply bind_Ok in E as (_ & Hm%require_Ok & E). apply bind_Ok in E as (cur & Hcur & ->%require_Ok).
  split; [done|]. split; [done|]. by exists d, c, aud.
Qed.

(** An action happens only under current authority.  If the handler calls the
    channel at all, it makes one call, for the identity's own Organization, which
    is the configured one; the identity is active and the Policy Epoch current at
    that moment, although the issuer did not ask for it; and the ticket is a text
    that minting produces from claims, under a key of the handler's keyring, that
    name exactly this subject, channel and audience and a lifetime of at most five
    minutes that contains the moment. *)
Theorem perform_requires_authority L port perform_noop clock handler ticket identity calls r :
  perform float_repr L port perform_noop clock handler ticket identity = (calls, r) → calls ≠ [] →
  calls = [(ti_organization_id identity, ah_channel_ref handler)]
  ∧ ah_organization_id handler = ti_organization_id identity
  ∧ _require_active_ticket_execution_identity L identity = Ok tt
  ∧ policy_epoch_gate_is_current L port (ti_policy_epoch_verification identity) = Ok true
  ∧ ∃ kid d c, _mint_signed_ticket float_repr (with_active (ah_keyring handler) kid) _DOMAIN _TOKEN_TYPE d
               = Ok (_value ticket)
      ∧ _claims_from_document d = Ok c
      ∧ subject c = mkSubjectClaims kid (ti_organization_id identity) (ti_subject_user_id identity)
          (ti_subject_membership_id identity) (ti_subject_membership_version identity)
          (ti_actor_principal_ref identity) (ti_agent_version_ref identity) (ti_purpose identity)
          (ti_policy_epoch identity)
      ∧ channel_ref c = ah_channel_ref handler
      ∧ _action_audience (ah_channel_ref handler) = Ok (audience c)
      ∧ dt_us (issued_at c) ≤ dt_us clock < dt_us (expires_at c)
      ∧ dt_us (expires_at c) - dt_us (issued_at c) ≤ seconds MAX_TTL_SECONDS.
Proof.
  unfold perform. destruct (authorize_action _ _ _ _ _ _ _) as [[]|e] eqn:E; intros [= <- <-]; [intros _|done].
  apply authorize_action_Ok in E as (Hact & Hgate & d & c & aud & Hd & Hc & Ha & Hm).
  unfold claims_match in Hm. rewrite !andb_true_iff in Hm.
  destruct Hm as ((((Hs & Hp%bool_decide_eq_true) & Hau%bool_decide_eq_true) & Hi%negb_true_iff) & He).
  unfold dt_ltb in *. apply subject_matches_spec in Hs as [Ho Hs].
  apply verified_is_minted in Hd as (kid & _ & [_ Hkid] & _ & _ & Hmint).
  split; [done|]. split; [done|]. split; [done|]. split; [done|]. exists kid, d, c. split; [done|]. split; [done|].
  destruct (action_claims_Ok _ _ Hc) as [Hsd Hlife].
  split; [rewrite Hs; f_equal; by eapply subject_version|]. split; [done|].
  split; [congruence|]. split; [lia|]. unfold lifetime_bounded, dt_sub in Hlife. lia.
Qed.
End Perform.
