(* ===== verification/Leases.v ===== *)
(** * WorkerLease tokens: [engine/supply/jobs.py]

    The signed exact-job lease of a Supply worker: its claims with the three
    operations and their own fields, the keyring, the token, minting and
    verification.  The helpers that the module shares word for word with
    [_ticket_signing.py] are the definitions of [Signing]. *)

From S2P Require Import Prelude Codec Sha256 Datetime Json Trusted Signing TicketIdentity.

Definition WORKER_LEASE_ACTOR_KIND : pystr := lit "service".
Definition WORKER_LEASE_OPERATION : pystr := lit "noop.complete".
Definition FILE_IMPORT_WORKER_LEASE_OPERATION : pystr := lit "file.import".
Definition SUPPLY_CONNECTOR_WORKER_LEASE_OPERATION : pystr := lit "connector.execute".
Definition _TOKEN_TYPE : pystr := lit "CE-WorkerLease".
Definition _TOKEN_VERSION : Z := 1.
Definition _FILE_IMPORT_TOKEN_VERSION : Z := 3.
Definition _SUPPLY_CONNECTOR_TOKEN_VERSION : Z := 4.
Definition _DOMAIN : pystr := lit "context-engine.worker-lease".
Definition _MAX_ALLOWED_SET_ITEMS : Z := 32.
Definition closed_operations : list pystr :=
  [WORKER_LEASE_OPERATION; FILE_IMPORT_WORKER_LEASE_OPERATION; SUPPLY_CONNECTOR_WORKER_LEASE_OPERATION].

Definition _CLAIM_FIELDS : list pystr :=
  [lit "actor_kind"; lit "expires_at"; lit "issued_at"; lit "job_id"; lit "nonce"; lit "operation";
   lit "organization_id"; lit "service_principal_id"; lit "signing_key_version"; lit "worker_audience";
   lit "workload"].
Definition _FILE_IMPORT_CLAIM_FIELDS : list pystr := _CLAIM_FIELDS ++ [lit "lease_generation"; lit "source_ref"].
Definition _SUPPLY_CONNECTOR_CLAIM_FIELDS : list pystr :=
  _CLAIM_FIELDS ++ [lit "allowed_operations"; lit "allowed_source_version_refs"; lit "idempotency_key";
                    lit "lease_generation"; lit "policy_epoch"; lit "service_actor_expires_at";
                    lit "source_version_ref"].

(** ** Field checks *)

Definition _require_key_version (value : obj) : result Z := _require_positive_bigint value.
Definition _require_positive_int (value : obj) : result Z := _require_positive_bigint value.

Definition _require_identifier_set (items : list obj) (maximum_length : Z) : result (list pystr) :=
  require ((1 <=? len items) && (len items <=? _MAX_ALLOWED_SET_ITEMS)) ValueError ;;
  texts ← map_result (λ item, _require_identifier item maximum_length) items;
  require (bool_decide (texts = sorted (remove_dups texts))) ValueError ;;
  Ok texts.

Definition opt_obj (o : option pystr) : obj := match o with None => ONone | Some s => OStr s end.
Definition opt_int (o : option Z) : obj := match o with None => ONone | Some z => OInt z end.
Definition is_None {A} (o : option A) : bool := match o with None => true | Some _ => false end.
Definition is_ONone (o : obj) : bool := match o with ONone => true | _ => false end.

(** ** Claims *)

Record WorkerLeaseClaims := mkWorkerLeaseClaims {
  signing_key_version : Z;
  organization_id : UUID;
  job_id : UUID;
  service_principal_id : UUID;
  workload : pystr;
  worker_audience : pystr;
  issued_at : datetime;
  expires_at : datetime;
  nonce : pybytes;
  operation : pystr;
  source_ref : option pystr;
  source_version_ref : option pystr;
  lease_generation : option Z;
  policy_epoch : option Z;
  idempotency_key : option pystr;
  allowed_source_version_refs : option (list pystr);
  allowed_operations : option (list pystr);
  service_actor_expires_at : option datetime
}.

(** The arguments of the constructor as they arrive, before [__post_init__] has
    looked at the types of the values that come out of a document. *)
Record LeaseArguments := mkLeaseArguments {
  a_signing_key_version : obj;
  a_organization_id : UUID;
  a_job_id : UUID;
  a_service_principal_id : UUID;
  a_workload : obj;
  a_worker_audience : obj;
  a_issued_at : datetime;
  a_expires_at : datetime;
  a_nonce : pybytes;
  a_operation : pystr;
  a_source_ref : obj;
  a_source_version_ref : obj;
  a_lease_generation : obj;
  a_policy_epoch : obj;
  a_idempotency_key : obj;
  a_allowed_source_version_refs : option (list obj);
  a_allowed_operations : option (list obj);
  a_service_actor_expires_at : option datetime
}.

(** [_require_identifier_set] refuses [None], which is not a tuple. *)
Definition require_set (value : option (list obj)) (maximum_length : Z) : result (list pystr) :=
  match value with None => Err ValueError | Some l => _require_identifier_set l maximum_length end.

(** [WorkerLeaseClaims.__post_init__] *)
Definition new_WorkerLeaseClaims (a : LeaseArguments) : result WorkerLeaseClaims :=
  kv ← _require_key_version (a_signing_key_version a);
  w ← _require_identifier (a_workload a) 128;
  aud ← _require_identifier (a_worker_audience a) 255;
  issued ← _require_utc (a_issued_at a);
  expires ← _require_utc (a_expires_at a);
  require (negb (dt_leb expires issued)) ValueError ;;
  require (len (a_nonce a) =? _NONCE_BYTES) ValueError ;;
  require (bool_decide (a_operation a ∈ closed_operations)) ValueError ;;
  let claims := mkWorkerLeaseClaims kv (a_organization_id a) (a_job_id a) (a_service_principal_id a) w aud
                  issued expires (a_nonce a) (a_operation a) in
  if bool_decide (a_operation a = WORKER_LEASE_OPERATION) then
    require (is_ONone (a_source_ref a) && is_ONone (a_source_version_ref a) && is_ONone (a_lease_generation a)
             && is_ONone (a_policy_epoch a) && is_ONone (a_idempotency_key a)
             && is_None (a_allowed_source_version_refs a) && is_None (a_allowed_operations a)
             && is_None (a_service_actor_expires_at a)) ValueError ;;
    Ok (claims None None None None None None None None)
  else if bool_decide (a_operation a = FILE_IMPORT_WORKER_LEASE_OPERATION) then
    src ← _require_identifier (a_source_ref a) 255;
    require (is_ONone (a_source_version_ref a)) ValueError ;;
    require (is_ONone (a_policy_epoch a) && is_ONone (a_idempotency_key a)
             && is_None (a_allowed_source_version_refs a) && is_None (a_allowed_operations a)
             && is_None (a_service_actor_expires_at a)) ValueError ;;
    generation ← _require_positive_bigint (a_lease_generation a);
    Ok (claims (Some src) None (Some generation) None None None None None)
  else
    require (is_ONone (a_source_ref a)) ValueError ;;
    src ← _require_identifier (a_source_version_ref a) 255;
    epoch ← _require_positive_int (a_policy_epoch a);
    key ← _require_identifier (a_idempotency_key a) 255;
    require (is_sha256_hex key) ValueError ;;
    sources ← require_set (a_allowed_source_version_refs a) 255;
    ops ← require_set (a_allowed_operations a) 128;
    require (bool_decide (src ∈ sources)) ValueError ;;
    each (λ s, require (is_canonical_uuid s) ValueError) sources ;;
    require (bool_decide (a_operation a ∈ ops)) ValueError ;;
    match a_service_actor_expires_at a with
    | None => Err ValueError
    | Some actor_expires =>
        actor_expiry ← _require_utc actor_expires;
        require (negb (dt_ltb actor_expiry expires)) ValueError ;;
        generation ← _require_positive_bigint (a_lease_generation a);
        Ok (claims None (Some src) (Some generation) (Some epoch) (Some key) (Some sources) (Some ops)
              (Some actor_expiry))
    end.

(** ** Keyring, token, digests *)

Record WorkerLeaseKeyring := mkWorkerLeaseKeyring {
  lk_active_version : Z;
  lk_keys : list (Z * pybytes)
}.

(** [WorkerLeaseKeyring.__init__] *)
Definition new_WorkerLeaseKeyring (active : Z) (keys : list (Z * pybytes)) : result WorkerLeaseKeyring :=
  version ← _require_key_version (OInt active);
  require (negb (bool_decide (keys = []))) ValueError ;;
  copied ← foldl (λ acc ks,
             copied ← acc;
             canonical_version ← _require_key_version (OInt ks.1);
             require (_MINIMUM_KEY_BYTES <=? len ks.2) ValueError ;;
             Ok (dict_set copied canonical_version ks.2)) (Ok []) keys;
  require (bool_decide (version ∈ copied.*1)) ValueError ;;
  Ok (mkWorkerLeaseKeyring version copied).

Definition lease_key_for (keyring : WorkerLeaseKeyring) (version : Z) : option pybytes :=
  dict_get (lk_keys keyring) version.

(** [WorkerLeaseToken.__post_init__] has the test of the opaque tickets. *)
Record WorkerLeaseToken := mkWorkerLeaseToken { token_value : pystr }.
Definition new_WorkerLeaseToken (value : obj) : result WorkerLeaseToken :=
  v ← _require_opaque_ticket_value value; Ok (mkWorkerLeaseToken v).

Definition worker_lease_digest (token : WorkerLeaseToken) : result pystr :=
  b ← encode_utf8 (token_value token); Ok (hexdigest b).

Definition worker_lease_nonce_digest (n : pybytes) : result pystr :=
  require (len n =? _NONCE_BYTES) ValueError ;; Ok (hexdigest n).

(** [raise WorkNotAvailable(WorkerLeaseRejectionAuditReceipt(worker_lease_digest(token)))] *)
Definition reject {A} (token : WorkerLeaseToken) : result A :=
  lease_digest ← worker_lease_digest token;
  require (is_sha256_hex lease_digest) ValueError ;;
  Err (WorkNotAvailable lease_digest).

(** ** The document *)

Definition opt_json {A} (f : A → json) (o : option A) : json := match o with None => JNull | Some a => f a end.
Definition text_array (l : list pystr) : json := JArr (JStr <$> l).

Definition base_document (c : WorkerLeaseClaims) : document :=
  [(lit "actor_kind", JStr WORKER_LEASE_ACTOR_KIND);
   (lit "expires_at", JStr (_timestamp (expires_at c)));
   (lit "issued_at", JStr (_timestamp (issued_at c)));
   (lit "job_id", JStr (uuid_str (job_id c)));
   (lit "nonce", JStr (_base64url_encode (nonce c)));
   (lit "operation", JStr (operation c));
   (lit "organization_id", JStr (uuid_str (organization_id c)));
   (lit "service_principal_id", JStr (uuid_str (service_principal_id c)));
   (lit "signing_key_version", JInt (signing_key_version c));
   (lit "worker_audience", JStr (worker_audience c));
   (lit "workload", JStr (workload c))].

Definition _claims_document (c : WorkerLeaseClaims) : document :=
  base_document c
  ++ if bool_decide (operation c = FILE_IMPORT_WORKER_LEASE_OPERATION) then
       [(lit "source_ref", opt_json JStr (source_ref c));
        (lit "lease_generation", opt_json JInt (lease_generation c))]
     else if bool_decide (operation c = SUPPLY_CONNECTOR_WORKER_LEASE_OPERATION) then
       [(lit "source_version_ref", opt_json JStr (source_version_ref c));
        (lit "lease_generation", opt_json JInt (lease_generation c));
        (lit "policy_epoch", opt_json JInt (policy_epoch c));
        (lit "idempotency_key", opt_json JStr (idempotency_key c));
        (lit "allowed_source_version_refs", opt_json text_array (allowed_source_version_refs c));
        (lit "allowed_operations", opt_json text_array (allowed_operations c));
        (lit "service_actor_expires_at", opt_json (λ d, JStr (_timestamp d)) (service_actor_expires_at c))]
     else [].

Definition token_version (op : pystr) : result Z :=
  if bool_decide (op = WORKER_LEASE_OPERATION) then Ok _TOKEN_VERSION
  else if bool_decide (op = FILE_IMPORT_WORKER_LEASE_OPERATION) then Ok _FILE_IMPORT_TOKEN_VERSION
  else if bool_decide (op = SUPPLY_CONNECTOR_WORKER_LEASE_OPERATION) then Ok _SUPPLY_CONNECTOR_TOKEN_VERSION
  else Err KeyError.

Definition version_operation (v : Z) : pystr :=
  if v =? _TOKEN_VERSION then WORKER_LEASE_OPERATION
  else if v =? _FILE_IMPORT_TOKEN_VERSION then FILE_IMPORT_WORKER_LEASE_OPERATION
  else SUPPLY_CONNECTOR_WORKER_LEASE_OPERATION.
Definition version_fields (v : Z) : list pystr :=
  if v =? _TOKEN_VERSION then _CLAIM_FIELDS
  else if v =? _FILE_IMPORT_TOKEN_VERSION then _FILE_IMPORT_CLAIM_FIELDS
  else _SUPPLY_CONNECTOR_CLAIM_FIELDS.

(** [tuple(value)] of a decoded value: the items of a list, the characters of a
    string, the keys of an object; other values are not iterable. *)
Definition tuple_of (v : json) : result (list obj) :=
  match v with
  | JArr l => Ok (obj_of_json <$> l)
  | JStr s => Ok ((λ c, OStr [c]) <$> s)
  | JObj kvs => Ok (OStr <$> kvs.*1)
  | _ => Err TypeError
  end.
Definition doc_tuple (d : document) (key : pystr) : result (list obj) :=
  match dict_get d key with Some v => tuple_of v | None => Err KeyError end.

(** The optional claims that a token version carries. *)
Definition doc_if (present : bool) (d : document) (key : pystr) : result obj :=
  if present then doc_get d key else Ok ONone.
Definition doc_tuple_if (present : bool) (d : document) (key : pystr) : result (option (list obj)) :=
  if present then t ← doc_tuple d key; Ok (Some t) else Ok None.

(** The constructor call at the end of [_verify_signed]. *)
Definition arguments_of_document (version key_version : Z) (d : document) : result LeaseArguments :=
  let file := version =? _FILE_IMPORT_TOKEN_VERSION in
  let connector := version =? _SUPPLY_CONNECTOR_TOKEN_VERSION in
  org ← doc_get d (lit "organization_id"); org ← _parse_uuid org;
  job ← doc_get d (lit "job_id"); job ← _parse_uuid job;
  sp ← doc_get d (lit "service_principal_id"); sp ← _parse_uuid sp;
  w ← doc_get d (lit "workload");
  aud ← doc_get d (lit "worker_audience");
  issued ← doc_get d (lit "issued_at"); issued ← _parse_timestamp issued;
  expires ← doc_get d (lit "expires_at"); expires ← _parse_timestamp expires;
  n ← doc_get d (lit "nonce"); n ← _base64url_decode n;
  src ← doc_if file d (lit "source_ref");
  srcv ← doc_if connector d (lit "source_version_ref");
  gen ← doc_if (file || connector) d (lit "lease_generation");
  epoch ← doc_if connector d (lit "policy_epoch");
  key ← doc_if connector d (lit "idempotency_key");
  sources ← doc_tuple_if connector d (lit "allowed_source_version_refs");
  ops ← doc_tuple_if connector d (lit "allowed_operations");
  actor ← (if connector
           then a ← doc_get d (lit "service_actor_expires_at"); a ← _parse_timestamp a; Ok (Some a)
           else Ok None);
  Ok (mkLeaseArguments (OInt key_version) org job sp w aud issued expires n (version_operation version)
        src srcv gen epoch key sources ops actor).

Section Codec.
Context {nesting : NestingLimit}.
Context (float_repr : pystr → result pystr).

(** [WorkerLeaseCodec.mint] *)
Definition mint (keyring : WorkerLeaseKeyring) (c : WorkerLeaseClaims) : result WorkerLeaseToken :=
  require (signing_key_version c =? lk_active_version keyring) ValueError ;;
  match lease_key_for keyring (signing_key_version c) with
  | None => Err ValueError
  | Some key =>
      v ← token_version (operation c);
      header ← _canonical_json float_repr (header_document _DOMAIN _TOKEN_TYPE (signing_key_version c) v);
      raw ← _canonical_json float_repr (_claims_document c);
      new_WorkerLeaseToken (OStr (signed_token key header raw))
  end.

(** [WorkerLeaseCodec._verify_signed] *)
Definition _verify_signed (keyring : WorkerLeaseKeyring) (token : WorkerLeaseToken) : result WorkerLeaseClaims :=
  match split_dot (token_value token) with
  | [encoded_header; encoded_claims; encoded_signature] =>
      header ← _decode_document float_repr encoded_header _HEADER_FIELDS;
      v ← doc_get header (lit "v");
      version ← match v with OInt z => Ok z | _ => Err ValueError end;
      require (bool_decide (version ∈ [_TOKEN_VERSION; _FILE_IMPORT_TOKEN_VERSION;
                                       _SUPPLY_CONNECTOR_TOKEN_VERSION])) ValueError ;;
      alg ← doc_get header (lit "alg");
      dom ← doc_get header (lit "dom");
      typ ← doc_get header (lit "typ");
      require (is_text alg _ALGORITHM && is_text dom _DOMAIN && is_text typ _TOKEN_TYPE) ValueError ;;
      kid ← doc_get header (lit "kid");
      key_version ← _require_key_version kid;
      match lease_key_for keyring key_version with
      | None => Err ValueError
      | Some key =>
          supplied ← _base64url_decode (OStr encoded_signature);
          require (len supplied =? 32) ValueError ;;
          require (bool_decide (supplied = hmac_sha256 key (signing_input encoded_header encoded_claims)))
            ValueError ;;
          d ← _decode_document float_repr encoded_claims (version_fields version);
          skv ← doc_get d (lit "signing_key_version");
          require (is_int skv key_version) ValueError ;;
          kind ← doc_get d (lit "actor_kind");
          require (is_text kind WORKER_LEASE_ACTOR_KIND) ValueError ;;
          op ← doc_get d (lit "operation");
          require (is_text op (version_operation version)) ValueError ;;
          a ← arguments_of_document version key_version d;
          new_WorkerLeaseClaims a
      end
  | _ => Err ValueError
  end.

Definition lease_matches (c : WorkerLeaseClaims) (org job sp : UUID) (w op aud : pystr) (checked_at : datetime)
    (src srcv : option pystr) : bool :=
  bool_decide (organization_id c = org) && bool_decide (job_id c = job)
  && bool_decide (service_principal_id c = sp) && bool_decide (workload c = w)
  && bool_decide (operation c = op) && bool_decide (source_ref c = src)
  && bool_decide (source_version_ref c = srcv) && bool_decide (worker_audience c = aud)
  && negb (dt_ltb checked_at (issued_at c)) && dt_ltb checked_at (expires_at c).

(** The expectations a caller may state. *)
Definition check_expected (op : pystr) (src srcv : option pystr) : result unit :=
  if bool_decide (op = FILE_IMPORT_WORKER_LEASE_OPERATION) then
    _require_identifier (opt_obj src) 255 ;; require (is_None srcv) ValueError
  else if bool_decide (op = SUPPLY_CONNECTOR_WORKER_LEASE_OPERATION) then
    _require_identifier (opt_obj srcv) 255 ;; require (is_None src) ValueError
  else require (is_None src && is_None srcv) ValueError.

(** The classes that [verify] catches: those of [_EXPECTED_DECODING_ERRORS] without
    [RecursionError]. *)
Definition is_lease_decoding_error (e : exn) : bool := is_ValueError e || is_TypeError e.

(** [WorkerLeaseCodec.verify] *)
Definition verify (keyring : WorkerLeaseKeyring) (token : WorkerLeaseToken) (org job sp : UUID)
    (w op aud : pystr) (now : datetime) (src srcv : option pystr) : result WorkerLeaseClaims :=
  _require_identifier (OStr w) 128 ;;
  _require_identifier (OStr aud) 255 ;;
  if negb (bool_decide (op ∈ closed_operations)) then reject token
  else
    check_expected op src srcv ;;
    checked_at ← _require_utc now;
    try_except
      (c ← _verify_signed keyring token;
       require (lease_matches c org job sp w op aud checked_at src srcv) ValueError ;;
       Ok c)
      is_lease_decoding_error (reject token).
End Codec.

(** ** The type of the claims *)

Definition whole_second (d : datetime) : Prop := is_utc d = true ∧ microsecond d = 0.

(** What a connector lease binds. *)
Definition connector_shape (c : WorkerLeaseClaims) (src : pystr) (g e : Z) (k : pystr) (srcs ops : list pystr)
    (t : datetime) : Prop :=
  c.(source_ref) = None ∧ c.(source_version_ref) = Some src ∧ c.(lease_generation) = Some g
  ∧ c.(policy_epoch) = Some e ∧ c.(idempotency_key) = Some k ∧ c.(allowed_source_version_refs) = Some srcs
  ∧ c.(allowed_operations) = Some ops ∧ c.(service_actor_expires_at) = Some t
  ∧ identifier_ok 255 src ∧ bigint_ok g ∧ bigint_ok e ∧ is_sha256_hex k = true
  ∧ _require_identifier_set (OStr <$> srcs) 255 = Ok srcs ∧ _require_identifier_set (OStr <$> ops) 128 = Ok ops
  ∧ src ∈ srcs ∧ Forall (λ s, is_canonical_uuid s = true) srcs ∧ c.(operation) ∈ ops
  ∧ whole_second t ∧ dt_us c.(expires_at) ≤ dt_us t.

Definition no_connector_fields (c : WorkerLeaseClaims) : Prop :=
  c.(source_version_ref) = None ∧ c.(policy_epoch) = None ∧ c.(idempotency_key) = None
  ∧ c.(allowed_source_version_refs) = None ∧ c.(allowed_operations) = None
  ∧ c.(service_actor_expires_at) = None.

Definition lease_shape (c : WorkerLeaseClaims) : Prop :=
  bigint_ok c.(signing_key_version) ∧ identifier_ok 128 c.(workload) ∧ identifier_ok 255 c.(worker_audience)
  ∧ whole_second c.(issued_at) ∧ whole_second c.(expires_at) ∧ dt_us c.(issued_at) < dt_us c.(expires_at)
  ∧ len c.(nonce) = 32
  ∧ ((c.(operation) = WORKER_LEASE_OPERATION ∧ c.(source_ref) = None ∧ c.(lease_generation) = None
      ∧ no_connector_fields c)
     ∨ (c.(operation) = FILE_IMPORT_WORKER_LEASE_OPERATION
        ∧ (∃ s g, c.(source_ref) = Some s ∧ identifier_ok 255 s ∧ c.(lease_generation) = Some g ∧ bigint_ok g)
        ∧ no_connector_fields c)
     ∨ (c.(operation) = SUPPLY_CONNECTOR_WORKER_LEASE_OPERATION
        ∧ ∃ src g e k srcs ops t, connector_shape c src g e k srcs ops t)).

(** The constructor call that gives these claims. *)
Definition arguments_of (c : WorkerLeaseClaims) : LeaseArguments :=
  mkLeaseArguments (OInt c.(signing_key_version)) c.(organization_id) c.(job_id) c.(service_principal_id)
    (OStr c.(workload)) (OStr c.(worker_audience)) c.(issued_at) c.(expires_at) c.(nonce) c.(operation)
    (opt_obj c.(source_ref)) (opt_obj c.(source_version_ref)) (opt_int c.(lease_generation))
    (opt_int c.(policy_epoch)) (opt_obj c.(idempotency_key))
    (fmap (M := option) (λ l, OStr <$> l) c.(allowed_source_version_refs))
    (fmap (M := option) (λ l, OStr <$> l) c.(allowed_operations)) c.(service_actor_expires_at).

Lemma whole_second_Ok d e : _require_utc d = Ok e ↔ e = d ∧ whole_second d.
Proof.
  unfold _require_utc, whole_second. rewrite bind_Ok. setoid_rewrite require_Ok.
  rewrite <- (Z.eqb_eq (microsecond d)), <- andb_true_iff. naive_solver.
Qed.

Lemma identifier_ok_Ok o n s : _require_identifier o n = Ok s ↔ o = OStr s ∧ identifier_ok n s.
Proof. unfold identifier_ok. rewrite !identifier_Ok. naive_solver. Qed.

Lemma identifier_set_Ok items n l :
  _require_identifier_set items n = Ok l ↔ items = OStr <$> l ∧ _require_identifier_set (OStr <$> l) n = Ok l.
Proof.
  split; [|by intros [-> ?]]. intros H. enough (items = OStr <$> l) as -> by done.
  unfold _require_identifier_set in H. apply bind_Ok in H as (_ & _ & H).
  apply bind_Ok in H as (texts & Ht & H). apply bind_Ok in H as (_ & _ & ->%Ok_inj).
  apply map_result_Ok in Ht. induction Ht as [|o s items l Ho _ IH]; [done|].
  apply identifier_Ok in Ho as [-> _]. by rewrite fmap_cons, IH.
Qed.

Lemma require_set_Ok v n l :
  require_set v n = Ok l ↔ v = Some (OStr <$> l) ∧ _require_identifier_set (OStr <$> l) n = Ok l.
Proof.
  destruct v as [items|]; cbn [require_set]; [|split; [done|by intros [[=] _]]].
  rewrite identifier_set_Ok. naive_solver.
Qed.

Lemma is_ONone_true o : is_ONone o = true ↔ o = ONone.
Proof. destruct o; naive_solver. Qed.
Lemma is_None_true {A} (o : option A) : is_None o = true ↔ o = None.
Proof. destruct o; naive_solver. Qed.

Lemma operations_distinct :
  FILE_IMPORT_WORKER_LEASE_OPERATION ≠ WORKER_LEASE_OPERATION
  ∧ SUPPLY_CONNECTOR_WORKER_LEASE_OPERATION ≠ WORKER_LEASE_OPERATION
  ∧ SUPPLY_CONNECTOR_WORKER_LEASE_OPERATION ≠ FILE_IMPORT_WORKER_LEASE_OPERATION.
Proof. split_and!; discriminate. Qed.

(** The checks that do not depend on the operation. *)
Lemma new_claims_common a c :
  new_WorkerLeaseClaims a = Ok c →
  ∃ kv w aud, a_signing_key_version a = OInt kv ∧ bigint_ok kv ∧ a_workload a = OStr w ∧ identifier_ok 128 w
    ∧ a_worker_audience a = OStr aud ∧ identifier_ok 255 aud ∧ whole_second (a_issued_at a)
    ∧ whole_second (a_expires_at a) ∧ dt_us (a_issued_at a) < dt_us (a_expires_at a) ∧ len (a_nonce a) = 32
    ∧ a_operation a ∈ closed_operations
    ∧ (signing_key_version c, organization_id c, job_id c, service_principal_id c)
      = (kv, a_organization_id a, a_job_id a, a_service_principal_id a)
    ∧ (workload c, worker_audience c, issued_at c, expires_at c, nonce c, operation c)
      = (w, aud, a_issued_at a, a_expires_at a, a_nonce a, a_operation a).
Proof.
  unfold new_WorkerLeaseClaims, _require_key_version.
  intros (kv & [Hkv Hkr]%positive_bigint_Ok & H)%bind_Ok.
  apply bind_Ok in H as (w & [Hw Hwo]%identifier_ok_Ok & H).
  apply bind_Ok in H as (aud & [Ha Hao]%identifier_ok_Ok & H).
  apply bind_Ok in H as (i & [-> Hi]%whole_second_Ok & H). apply bind_Ok in H as (e & [-> He]%whole_second_Ok & H).
  apply bind_Ok in H as (_ & Hlt%require_Ok & H). apply bind_Ok in H as (_ & Hn%require_Ok & H).
  apply bind_Ok in H as (_ & Hop%require_Ok & H). apply bool_decide_eq_true in Hop.
  apply negb_true_iff in Hlt. unfold dt_leb in Hlt. apply Z.leb_gt in Hlt. apply Z.eqb_eq in Hn.
  exists kv, w, aud. split_and!; try done; try apply Hkr.
  - repeat case_match; run_ok; subst; done.
  - repeat case_match; run_ok; subst; done.
Qed.

Lemma arguments_eq a c kv w aud :
  a_signing_key_version a = OInt kv → a_workload a = OStr w → a_worker_audience a = OStr aud →
  (signing_key_version c, organization_id c, job_id c, service_principal_id c)
  = (kv, a_organization_id a, a_job_id a, a_service_principal_id a) →
  (workload c, worker_audience c, issued_at c, expires_at c, nonce c, operation c)
  = (w, aud, a_issued_at a, a_expires_at a, a_nonce a, a_operation a) →
  a_source_ref a = opt_obj c.(source_ref) → a_source_version_ref a = opt_obj c.(source_version_ref) →
  a_lease_generation a = opt_int c.(lease_generation) → a_policy_epoch a = opt_int c.(policy_epoch) →
  a_idempotency_key a = opt_obj c.(idempotency_key) →
  a_allowed_source_version_refs a = fmap (M := option) (λ l, OStr <$> l) c.(allowed_source_version_refs) →
  a_allowed_operations a = fmap (M := option) (λ l, OStr <$> l) c.(allowed_operations) →
  a_service_actor_expires_at a = c.(service_actor_expires_at) → a = arguments_of c.
Proof.
  destruct a, c. unfold arguments_of. cbn. intros; simplify_eq. done.
Qed.

(** The optional claims of a constructed lease, by operation. *)
Lemma new_claims_optional a c :
  new_WorkerLeaseClaims a = Ok c →
  (a_operation a = WORKER_LEASE_OPERATION ∧ a = arguments_of c ∧ source_ref c = None ∧ lease_generation c = None
   ∧ no_connector_fields c)
  ∨ (a_operation a = FILE_IMPORT_WORKER_LEASE_OPERATION ∧ a = arguments_of c
     ∧ (∃ s g, c.(source_ref) = Some s ∧ identifier_ok 255 s ∧ c.(lease_generation) = Some g ∧ bigint_ok g)
     ∧ no_connector_fields c)
  ∨ (a_operation a = SUPPLY_CONNECTOR_WORKER_LEASE_OPERATION ∧ a = arguments_of c
     ∧ ∃ src g e k srcs ops t, connector_shape c src g e k srcs ops t).
Proof.
  intros H. pose proof (new_claims_common a c H) as (kv & w & aud & H1 & _ & H2 & _ & H3 & _ & _ & _ & _ & _ & Hop & H4 & H5).
  unfold new_WorkerLeaseClaims in H. do 5 apply bind_Ok in H as (? & _ & H). do 3 apply bind_Ok in H as (_ & _ & H).
  destruct (bool_decide (a_operation a = WORKER_LEASE_OPERATION)) eqn:E1.
  { apply bool_decide_eq_true in E1. left. apply bind_Ok in H as (_ & Hn%require_Ok & <-%Ok_inj).
    rewrite !andb_true_iff, !is_ONone_true, !is_None_true in Hn. destruct Hn as (((((((? & ?) & ?) & ?) & ?) & ?) & ?) & ?).
    split; [done|]. split; [by eapply arguments_eq|]. done. }
  destruct (bool_decide (a_operation a = FILE_IMPORT_WORKER_LEASE_OPERATION)) eqn:E2.
  { apply bool_decide_eq_true in E2. right; left. apply bind_Ok in H as (s & [Hs Hso]%identifier_ok_Ok & H).
    apply bind_Ok in H as (_ & Hv%require_Ok & H). apply bind_Ok in H as (_ & Hn%require_Ok & H).
    apply bind_Ok in H as (g & [Hg Hgo]%positive_bigint_Ok & <-%Ok_inj).
    rewrite !andb_true_iff, !is_ONone_true, !is_None_true in Hn. destruct Hn as ((((? & ?) & ?) & ?) & ?).
    apply is_ONone_true in Hv. split; [done|]. split; [by eapply arguments_eq|]. split; [by exists s, g|done]. }
  right; right. apply bool_decide_eq_false in E1. apply bool_decide_eq_false in E2.
  assert (Hc : a_operation a = SUPPLY_CONNECTOR_WORKER_LEASE_OPERATION).
  { unfold closed_operations in Hop. repeat (apply elem_of_cons in Hop as [?|Hop]; [done|]).
    by apply not_elem_of_nil in Hop. }
  apply bind_Ok in H as (_ & Hs%require_Ok%is_ONone_true & H).
  apply bind_Ok in H as (src & [Hsr Hsro]%identifier_ok_Ok & H).
  apply bind_Ok in H as (e & [He Heo]%positive_bigint_Ok & H).
  apply bind_Ok in H as (k & [Hk Hko]%identifier_ok_Ok & H). apply bind_Ok in H as (_ & Hhex%require_Ok & H).
  apply bind_Ok in H as (srcs & [Hss Hsso]%require_set_Ok & H). apply bind_Ok in H as (ops & [Ho Hoo]%require_set_Ok & H).
  apply bind_Ok in H as (_ & Hin%require_Ok%bool_decide_eq_true & H). apply bind_Ok in H as (_ & Hu%each_Ok & H).
  apply bind_Ok in H as (_ & Hino%require_Ok%bool_decide_eq_true & H).
  destruct (a_service_actor_expires_at a) as [t|] eqn:Ht; [|done].
  apply bind_Ok in H as (t' & [-> Htw]%whole_second_Ok & H). apply bind_Ok in H as (_ & Hlt%require_Ok & H).
  apply bind_Ok in H as (g & [Hg Hgo]%positive_bigint_Ok & <-%Ok_inj).
  split; [done|]. split; [by eapply arguments_eq|]. exists src, g, e, k, srcs, ops, t.
  pose proof (f_equal (λ p, p.1.1.2) H5) as Hexp. cbn in Hexp.
  assert (Hle : ¬ dt_us t < dt_us (a_expires_at a)).
  { apply negb_true_iff in Hlt. unfold dt_ltb in Hlt. rewrite <- Hexp. lia. }
  unfold connector_shape. cbn. rewrite <- Hexp in *. split_and!; try done; try apply Hgo; try apply Heo; try lia.
  eapply Forall_impl; [exact Hu|]. intros s Hsu. by apply require_Ok in Hsu.
Qed.

Lemma operations_closed :
  bool_decide (WORKER_LEASE_OPERATION ∈ closed_operations) = true
  ∧ bool_decide (FILE_IMPORT_WORKER_LEASE_OPERATION ∈ closed_operations) = true
  ∧ bool_decide (SUPPLY_CONNECTOR_WORKER_LEASE_OPERATION ∈ closed_operations) = true.
Proof. split_and!; vm_compute; reflexivity. Qed.

Lemma shaped_claims_construct c : lease_shape c → new_WorkerLeaseClaims (arguments_of c) = Ok c.
Proof.
  intros (Hk & Hw & Ha & Hi & He & Hlt & Hn & Hop). unfold new_WorkerLeaseClaims, arguments_of, _require_key_version.
  cbn [a_signing_key_version a_organization_id a_job_id a_service_principal_id a_workload a_worker_audience
       a_issued_at a_expires_at a_nonce a_operation a_source_ref a_source_version_ref a_lease_generation
       a_policy_epoch a_idempotency_key a_allowed_source_version_refs a_allowed_operations a_service_actor_expires_at].
  rewrite (proj2 (positive_bigint_Ok _ _) (conj eq_refl Hk)). cbn [mbind result_bind].
  unfold identifier_ok in Hw, Ha. rewrite Hw, Ha. cbn [mbind result_bind].
  rewrite (proj2 (whole_second_Ok _ _) (conj eq_refl Hi)), (proj2 (whole_second_Ok _ _) (conj eq_refl He)).
  cbn [mbind result_bind]. unfold dt_leb. rewrite (proj2 (Z.leb_gt _ _) Hlt), Hn.
  change (32 =? _NONCE_BYTES) with true. cbn [negb require mbind result_bind].
  destruct operations_distinct as (D1 & D2 & D3). destruct operations_closed as (C1 & C2 & C3).
  destruct Hop as [(Hop & Hs & Hg & H1 & H2 & H3 & H4 & H5 & H6)|[(Hop & (s & g & Hs & Hso & Hg & Hgo) & H1 & H2 & H3 & H4 & H5 & H6)|(Hop & src & g & e & k & srcs & ops & t & Hc)]].
  - rewrite Hop, Hs, Hg, H1, H2, H3, H4, H5, H6. rewrite C1, bool_decide_eq_true_2 by done.
    cbn. destruct c; cbn in *. by subst.
  - rewrite Hop, Hs, Hg, H1, H2, H3, H4, H5, H6. rewrite C2.
    rewrite bool_decide_eq_false_2, bool_decide_eq_true_2 by done. cbn [require mbind result_bind opt_obj opt_int fmap option_fmap option_map is_ONone is_None andb].
    unfold identifier_ok in Hso. rewrite Hso. cbn [mbind result_bind].
    rewrite (proj2 (positive_bigint_Ok _ _) (conj eq_refl Hgo)). destruct c; cbn in *. by subst.
  - destruct Hc as (Q1 & Q2 & Q3 & Q4 & Q5 & Q6 & Q7 & Q8 & Hsr & Hg & Hep & Hhex & Hss & Hoo & Hin & Hu & Hino & Ht & Hle).
    rewrite Hop in Hino. rewrite Hop, Q1, Q2, Q3, Q4, Q5, Q6, Q7, Q8.
    rewrite C3. rewrite !bool_decide_eq_false_2 by done.
    change (fmap (M := option) (λ l, OStr <$> l) (Some ?x)) with (Some (OStr <$> x)).
    cbn [require mbind result_bind opt_obj opt_int is_ONone is_None andb require_set].
    unfold identifier_ok, _require_positive_int in *. rewrite Hsr. cbn [mbind result_bind].
    rewrite (proj2 (positive_bigint_Ok _ _) (conj eq_refl Hep)). cbn [mbind result_bind].
    assert (Hki : _require_identifier (OStr k) 255 = Ok k).
    { apply identifier_Ok. unfold is_sha256_hex in Hhex. apply andb_true_iff in Hhex as [Hl%Z.eqb_eq Hall].
      split; [done|]. split; [by intros ->|]. split; [lia|]. unfold all_in in Hall. rewrite forallb_forall in Hall.
      apply not_true_iff_false. intros H'. apply existsb_exists in H'. revert H'. intros (x & Hx & Hsp). apply Hall, mem_spec in Hx.
      assert (Hd : Forall (λ x, is_space x = false) hex_alphabet) by (apply (bool_decide_unpack _); by vm_compute).
      rewrite Forall_forall in Hd. rewrite (Hd x Hx) in Hsp. done. }
    rewrite Hki. cbn [mbind result_bind]. rewrite Hhex. cbn [require mbind result_bind].
    rewrite Hss. cbn [mbind result_bind]. rewrite Hoo. cbn [mbind result_bind].
    rewrite (bool_decide_eq_true_2 (src ∈ srcs)) by done. cbn [require mbind result_bind].
    rewrite (proj2 (each_Ok _ srcs tt)) by (eapply Forall_impl; [exact Hu|]; cbn; by intros ? ->).
    cbn [mbind result_bind]. rewrite (bool_decide_eq_true_2 (_ ∈ ops)) by done. cbn [require mbind result_bind].
    rewrite (proj2 (whole_second_Ok _ _) (conj eq_refl Ht)). cbn [mbind result_bind]. unfold dt_ltb.
    rewrite (proj2 (Z.ltb_ge _ _) Hle). cbn [negb require mbind result_bind].
    rewrite (proj2 (positive_bigint_Ok _ _) (conj eq_refl Hg)). destruct c; cbn in *. by subst.
Qed.

Lemma new_claims_Ok a c :
  new_WorkerLeaseClaims a = Ok c ↔ a = arguments_of c ∧ lease_shape c.
Proof.
  split; [|intros [-> ?]; by apply shaped_claims_construct]. intros H.
  destruct (new_claims_common a c H)
    as (kv & w & aud & H1 & Hk & H2 & Hw & H3 & Ha & Hi & He & Hlt & Hn & Hop & Hf1 & Hf2).
  pose proof (new_claims_optional a c H) as Hopt.
  assert (Hargs : a = arguments_of c) by naive_solver. split; [exact Hargs|].
  injection Hf1 as E1 _ _ _. injection Hf2 as E2 E3 E4 E5 E6 E7. rewrite <- E7 in Hopt.
  unfold lease_shape. rewrite E1, E2, E3, E4, E5, E6.
  split; [done|]. split; [done|]. split; [done|]. split; [done|]. split; [done|]. split; [done|]. split; [done|].
  naive_solver.
Qed.

(** C38: The type of lease claims.  The constructor accepts exactly the arguments of
    well-shaped claims and stores them unchanged: whatever values arrive from a
    decoded document, a constructed lease has a positive 64-bit key version,
    bounded identifiers, a nonempty whole-second UTC lifetime, a 256-bit nonce, one
    of the three closed operations, and exactly the optional fields of its
    operation (none for a no-op, source and generation for a File import, all of
    the connector's for a connector, with the source and the operation in their
    sorted allowed sets and a service actor that outlives the lease). *)
Theorem lease_claims_typed a c :
  new_WorkerLeaseClaims a = Ok c ↔ a = arguments_of c ∧ lease_shape c.
Proof. apply new_claims_Ok. Qed.

(** ** The claims survive their document *)

(** Values of the Python types, and text that JSON can carry. *)
Definition lease_representable (c : WorkerLeaseClaims) : Prop :=
  uuid_ok c.(organization_id) ∧ uuid_ok c.(job_id) ∧ uuid_ok c.(service_principal_id)
  ∧ datetime_ok c.(issued_at) ∧ datetime_ok c.(expires_at)
  ∧ match c.(service_actor_expires_at) with None => True | Some t => datetime_ok t end
  ∧ Forall byte_ok c.(nonce) ∧ str_ok c.(workload) = true ∧ str_ok c.(worker_audience) = true
  ∧ str_ok (default [] c.(source_ref)) = true
  ∧ Forall (λ s, str_ok s = true) (default [] c.(allowed_operations)).

Definition lease_version (c : WorkerLeaseClaims) : Z :=
  match token_version c.(operation) with Ok v => v | Err _ => 0 end.

Lemma sort_text_array l : sort_keys (text_array l) = text_array l.
Proof. unfold text_array. cbn [sort_keys]. f_equal. rewrite <- list_fmap_compose. by apply list_fmap_ext. Qed.

Lemma holds_in_order d :
  NoDup d.*1 → Forall (λ kv, sort_keys kv.2 = kv.2) d → Forall (holds (in_key_order d)) d.
Proof.
  intros Hnd Hs. rewrite Forall_forall in Hs. apply Forall_forall. intros [k v] Hin. unfold holds. cbn.
  rewrite get_in_order by done. apply dict_get_Some in Hin as Hg; [|done]. rewrite Hg. cbn. f_equal.
  exact (Hs _ Hin).
Qed.

Lemma tuple_of_text_array l : tuple_of (text_array l) = Ok (OStr <$> l).
Proof. unfold tuple_of, text_array. f_equal. rewrite <- list_fmap_compose. by apply list_fmap_ext. Qed.

Lemma canonical_uuid_str_ok s : is_canonical_uuid s = true → str_ok s = true.
Proof. intros (u & _ & ->)%canonical_uuid_spec. apply uuid_str_ok. Qed.

Lemma text_array_ok l : Forall (λ s, str_ok s = true) l → json_ok (text_array l) = true.
Proof.
  intros H. unfold text_array. cbn [json_ok]. apply forallb_forall. intros v Hv%list_elem_of_In.
  apply list_elem_of_fmap in Hv as (s & -> & Hs). rewrite Forall_forall in H. by apply H.
Qed.

Lemma lease_claims_nest {nesting : NestingLimit} c : nests nesting_limit (JObj (_claims_document c)) = true.
Proof.
  assert (Ha : ∀ o d, 0 < d → nests d (opt_json text_array o) = true).
  { intros [l|] d Hd; [|done]. by apply nests_map. }
  assert (Ho : ∀ A (f : A → json) (o : option A) d, (∀ x, nests d (f x) = true) → nests d (opt_json f o) = true)
    by (by intros A f [x|] d H; [apply H|]).
  apply nests_room. cbn [nests]. unfold _claims_document, document_depth. rewrite forallb_app.
  destruct (bool_decide _); [|destruct (bool_decide _)]; cbn [forallb fst snd base_document nests];
    rewrite !andb_true_iff; split_and!; first [done|by apply Ha|by apply Ho].
Qed.

(** The document of shaped claims: its keys, its order, its text. *)
Lemma lease_document_ok c :
  lease_shape c → lease_representable c →
  token_version c.(operation) = Ok (lease_version c)
  ∧ lease_version c ∈ [_TOKEN_VERSION; _FILE_IMPORT_TOKEN_VERSION; _SUPPLY_CONNECTOR_TOKEN_VERSION]
  ∧ version_operation (lease_version c) = c.(operation)
  ∧ (_claims_document c).*1 ≡ₚ version_fields (lease_version c)
  ∧ Forall (λ kv, str_ok kv.1 && json_ok kv.2 = true) (_claims_document c)
  ∧ Forall (λ kv, sort_keys kv.2 = kv.2) (_claims_document c).
Proof.
  intros (Hk & Hw & Ha & Hi & He & Hlt & Hn & Hop) (Hu1 & Hu2 & Hu3 & Hd1 & Hd2 & Hd3 & Hb & Ht1 & Ht2 & Ht3 & Ht4).
  assert (Hbase : str_ok c.(operation) = true →
            Forall (λ kv, str_ok kv.1 && json_ok kv.2 = true) (base_document c)
            ∧ Forall (λ kv, sort_keys kv.2 = kv.2) (base_document c)).
  { intros Ho. split.
    - repeat apply Forall_cons_2; try apply Forall_nil_2; cbn [fst snd json_ok]; apply andb_true_iff;
        (split; [reflexivity|]); auto using uuid_str_ok, timestamp_str_ok, base64url_str_ok.
    - repeat apply Forall_cons_2; try apply Forall_nil_2; reflexivity. }
  unfold lease_version, _claims_document.
  destruct Hop as [(Hop & _)|[(Hop & (s & g & Hs & _ & Hg & _) & _)|(Hop & src & g & e & k & srcs & ops & t & Hc)]];
    rewrite Hop.
  - change (token_version WORKER_LEASE_OPERATION) with (Ok _TOKEN_VERSION).
    rewrite !bool_decide_eq_false_2 by apply not_eq_sym, operations_distinct. rewrite app_nil_r.
    destruct Hbase as [B1 B2]; [rewrite Hop; reflexivity|].
    split_and!; [done|by left|reflexivity|reflexivity|exact B1|exact B2].
  - change (token_version FILE_IMPORT_WORKER_LEASE_OPERATION) with (Ok _FILE_IMPORT_TOKEN_VERSION).
    rewrite bool_decide_eq_true_2 by done. destruct Hbase as [B1 B2]; [rewrite Hop; reflexivity|].
    rewrite Hs in Ht3 |- *. rewrite Hg, !Forall_app. cbn [opt_json].
    split; [done|]. split; [right; by left|]. split; [reflexivity|].
    split; [apply (bool_decide_unpack _); by vm_compute|]. split; (split; [done|]);
      repeat apply Forall_cons_2; try apply Forall_nil_2; cbn [fst snd json_ok]; done.
  - change (token_version SUPPLY_CONNECTOR_WORKER_LEASE_OPERATION) with (Ok _SUPPLY_CONNECTOR_TOKEN_VERSION).
    rewrite bool_decide_eq_false_2, bool_decide_eq_true_2 by (done || apply operations_distinct).
    destruct Hbase as [B1 B2]; [rewrite Hop; reflexivity|].
    destruct Hc as (Q1 & Q2 & Q3 & Q4 & Q5 & Q6 & Q7 & Q8 & Hsr & _ & _ & Hhex & _ & _ & Hin & Hu & _ & _ & _).
    rewrite Q2, Q3, Q4, Q5, Q6, Q7, Q8, !Forall_app in *. cbn [opt_json default] in *.
    rewrite Forall_forall in Hu.
    split; [done|]. split; [right; right; by left|]. split; [reflexivity|].
    split; [apply (bool_decide_unpack _); by vm_compute|]. split; (split; [done|]).
    + repeat apply Forall_cons_2; try apply Forall_nil_2; cbn [fst snd]; apply andb_true_iff;
        (split; [reflexivity|]); cbn [json_ok]; auto using sha256_hex_str_ok, timestamp_str_ok, text_array_ok.
      * by apply canonical_uuid_str_ok, Hu.
      * apply text_array_ok, Forall_forall. intros s Hs. by apply canonical_uuid_str_ok, Hu.
    + repeat apply Forall_cons_2; try apply Forall_nil_2; cbn [fst snd]; try reflexivity; apply sort_text_array.
Qed.

(** Reading the entries of a document that holds the claims. *)
Lemma base_arguments d c :
  Forall (holds d) (base_document c) →
  doc_get d (lit "organization_id") = Ok (OStr (uuid_str c.(organization_id)))
  ∧ doc_get d (lit "job_id") = Ok (OStr (uuid_str c.(job_id)))
  ∧ doc_get d (lit "service_principal_id") = Ok (OStr (uuid_str c.(service_principal_id)))
  ∧ doc_get d (lit "workload") = Ok (OStr c.(workload))
  ∧ doc_get d (lit "worker_audience") = Ok (OStr c.(worker_audience))
  ∧ doc_get d (lit "issued_at") = Ok (OStr (_timestamp c.(issued_at)))
  ∧ doc_get d (lit "expires_at") = Ok (OStr (_timestamp c.(expires_at)))
  ∧ doc_get d (lit "nonce") = Ok (OStr (_base64url_encode c.(nonce)))
  ∧ doc_get d (lit "signing_key_version") = Ok (OInt c.(signing_key_version))
  ∧ doc_get d (lit "actor_kind") = Ok (OStr WORKER_LEASE_ACTOR_KIND)
  ∧ doc_get d (lit "operation") = Ok (OStr c.(operation)).
Proof.
  intros H. unfold base_document in H.
  repeat match goal with
  | H : Forall _ (_ :: _) |- _ => let K := fresh "K" in apply Forall_cons in H as [K%holds_doc_get H]
  end.
  split_and!; assumption.
Qed.

Lemma holds_tuple d k l : holds d (k, text_array l) → doc_tuple d k = Ok (OStr <$> l).
Proof. unfold holds, doc_tuple. cbn [fst snd]. intros ->. apply tuple_of_text_array. Qed.

Lemma whole_second_ok t : datetime_ok t → whole_second t → second_ok t.
Proof. by intros ? [? ?]. Qed.

Lemma nonce_roundtrip n :
  len n = 32 → Forall byte_ok n → _base64url_decode (OStr (_base64url_encode n)) = Ok n.
Proof. intros Hl Hb. apply base64url_decode_encode; [by intros ->|done]. Qed.

Lemma arguments_roundtrip c d :
  lease_shape c → lease_representable c → Forall (holds d) (_claims_document c) →
  arguments_of_document (lease_version c) c.(signing_key_version) d = Ok (arguments_of c).
Proof.
  intros (Hk & Hw & Ha & Hi & He & Hlt & Hn & Hop) (Hu1 & Hu2 & Hu3 & Hd1 & Hd2 & Hd3 & Hb & _) Hd.
  unfold _claims_document in Hd. apply Forall_app in Hd as [Hbase Hopt].
  destruct (base_arguments d c Hbase) as (E1 & E2 & E3 & E4 & E5 & E6 & E7 & E8 & _).
  unfold arguments_of_document. rewrite E1, E2, E3, E4, E5, E6, E7, E8. cbn [mbind result_bind].
  rewrite !parse_uuid_text, !parse_timestamp_text, nonce_roundtrip by auto using whole_second_ok.
  cbn [mbind result_bind]. unfold lease_version, arguments_of in *.
  destruct Hop as [(Hop & Hs & Hg & H1 & H2 & H3 & H4 & H5 & H6)|[(Hop & (s & g & Hs & Hso & Hg & Hgo) & H1 & H2 & H3 & H4 & H5 & H6)|(Hop & src & g & e & k & srcs & ops & t & Hc)]];
    rewrite Hop in *.
  - rewrite Hs, Hg, H1, H2, H3, H4, H5, H6. reflexivity.
  - rewrite bool_decide_eq_true_2, Hs, Hg in Hopt by done. cbn [opt_json] in Hopt.
    apply Forall_cons in Hopt as [K1%holds_doc_get Hopt]. apply Forall_cons in Hopt as [K2%holds_doc_get _].
    rewrite Hs, Hg, H1, H2, H3, H4, H5, H6.
    change (match token_version FILE_IMPORT_WORKER_LEASE_OPERATION with Ok v => v | Err _ => 0 end)
      with _FILE_IMPORT_TOKEN_VERSION. cbv zeta.
    change (_FILE_IMPORT_TOKEN_VERSION =? _FILE_IMPORT_TOKEN_VERSION) with true.
    change (_FILE_IMPORT_TOKEN_VERSION =? _SUPPLY_CONNECTOR_TOKEN_VERSION) with false.
    cbn [orb doc_if doc_tuple_if]. rewrite K1, K2. reflexivity.
  - destruct Hc as (Q1 & Q2 & Q3 & Q4 & Q5 & Q6 & Q7 & Q8 & _ & _ & _ & _ & _ & _ & _ & _ & _ & Ht & _).
    rewrite bool_decide_eq_false_2, bool_decide_eq_true_2 in Hopt by (done || apply operations_distinct).
    rewrite Q2, Q3, Q4, Q5, Q6, Q7, Q8 in Hopt. cbn [opt_json] in Hopt. rewrite Q8 in Hd3.
    apply Forall_cons in Hopt as [K1%holds_doc_get Hopt]. apply Forall_cons in Hopt as [K2%holds_doc_get Hopt].
    apply Forall_cons in Hopt as [K3%holds_doc_get Hopt]. apply Forall_cons in Hopt as [K4%holds_doc_get Hopt].
    apply Forall_cons in Hopt as [K5%holds_tuple Hopt]. apply Forall_cons in Hopt as [K6%holds_tuple Hopt].
    apply Forall_cons in Hopt as [K7%holds_doc_get _].
    change (match token_version SUPPLY_CONNECTOR_WORKER_LEASE_OPERATION with Ok v => v | Err _ => 0 end)
      with _SUPPLY_CONNECTOR_TOKEN_VERSION. cbv zeta.
    change (_SUPPLY_CONNECTOR_TOKEN_VERSION =? _FILE_IMPORT_TOKEN_VERSION) with false.
    change (_SUPPLY_CONNECTOR_TOKEN_VERSION =? _SUPPLY_CONNECTOR_TOKEN_VERSION) with true.
    cbn [orb doc_if doc_tuple_if]. rewrite K1, K2, K3, K4, K5, K6, K7. cbn [mbind result_bind obj_of_json].
    rewrite parse_timestamp_text by auto using whole_second_ok. cbn [mbind result_bind].
    rewrite Q1, Q2, Q3, Q4, Q5, Q6, Q7, Q8. reflexivity.
Qed.

(** ** Minting and verification *)

Section Verify.
Context {nesting : NestingLimit}.
Context (float_repr : pystr → result pystr).

Lemma lease_opaque_Ok v token : new_WorkerLeaseToken (OStr v) = Ok token → token_value token = v.
Proof.
  unfold new_WorkerLeaseToken, _require_opaque_ticket_value. intros H. by run_ok; subst.
Qed.

(** A minted lease verifies under every keyring that still holds its key. *)
Lemma minted_lease_verifies K K' c token :
  lease_shape c → lease_representable c → mint float_repr K c = Ok token →
  lease_key_for K' c.(signing_key_version) = lease_key_for K c.(signing_key_version) →
  _verify_signed float_repr K' token = Ok c.
Proof.
  intros Hshape Hrep Hmint Hkeys. unfold mint in Hmint. apply bind_Ok in Hmint as (_ & _ & Hmint).
  destruct (lease_key_for K c.(signing_key_version)) as [key|] eqn:Hkey; [|done].
  destruct (lease_document_ok c Hshape Hrep) as (Hv & Hin & Hvo & Hf & Hok & Hso).
  rewrite Hv in Hmint. cbn [mbind result_bind] in Hmint.
  apply bind_Ok in Hmint as (hraw & Hh & Hmint). apply bind_Ok in Hmint as (craw & Hc & Htv%lease_opaque_Ok).
  set (v := lease_version c) in *. set (kid := c.(signing_key_version)) in *.
  assert (Hnd : NoDup (_claims_document c).*1).
  { rewrite Hf. unfold version_fields. repeat case_match; apply (bool_decide_unpack _); by vm_compute. }
  assert (Hdok : json_ok (JObj (_claims_document c)) = true).
  { cbn [json_ok]. apply andb_true_iff. split; [by apply bool_decide_eq_true|].
    apply forallb_forall. intros kv Hkv%list_elem_of_In.
    rewrite Forall_forall in Hok. by apply Hok. }
  pose proof (header_json_ok _DOMAIN _TOKEN_TYPE kid v eq_refl eq_refl) as Hhok.
  assert (Hph : Forall byte_ok hraw).
  { apply printable_byte_ok. exact (dumps_printable float_repr _ _ Hhok Hh). }
  assert (Hpc : Forall byte_ok craw).
  { apply printable_byte_ok. exact (dumps_printable float_repr _ _ Hdok Hc). }
  unfold _verify_signed. rewrite Htv, (split_signed_token key hraw craw Hph Hpc).
  rewrite (decode_document_encode float_repr _ hraw _HEADER_FIELDS Hhok (header_nests _ _ _ _) Hh eq_refl), header_in_order.
  cbn [mbind result_bind].
  change (doc_get (header_document ?a ?b ?c ?d) (lit "v")) with (Ok (OInt d)).
  change (doc_get (header_document ?a ?b ?c ?d) (lit "kid")) with (Ok (OInt c)).
  change (doc_get (header_document ?a ?b ?c ?d) (lit "alg")) with (Ok (OStr _ALGORITHM)).
  change (doc_get (header_document ?a ?b ?c ?d) (lit "dom")) with (Ok (OStr a)).
  change (doc_get (header_document ?a ?b ?c ?d) (lit "typ")) with (Ok (OStr b)).
  cbn [mbind result_bind is_text]. rewrite !bool_decide_eq_true_2 by done. cbn [andb require mbind result_bind].
  unfold _require_key_version. rewrite (proj2 (positive_bigint_Ok (OInt kid) kid) (conj eq_refl (proj1 Hshape))).
  cbn [mbind result_bind]. rewrite Hkeys.
  destruct (hmac_shape key (signing_input (_base64url_encode hraw) (_base64url_encode craw))) as [Hl Hb].
  rewrite base64url_decode_encode; [|by destruct (hmac_sha256 _ _)|done]. cbn [mbind result_bind].
  unfold len. rewrite Hl. change (Z.of_nat 32 =? 32) with true. cbn [require mbind result_bind].
  rewrite bool_decide_eq_true_2 by done. cbn [require mbind result_bind].
  rewrite (decode_document_encode float_repr _ craw _ Hdok (lease_claims_nest c) Hc) by (by rewrite Hf). cbn [mbind result_bind].
  pose proof (holds_in_order _ Hnd Hso) as Hholds. pose proof Hholds as [Hbase _]%Forall_app.
  destruct (base_arguments _ c Hbase) as (_ & _ & _ & _ & _ & _ & _ & _ & E1 & E2 & E3).
  rewrite E1, E2, E3, Hvo. cbn [mbind result_bind is_int is_text]. rewrite Z.eqb_refl, !bool_decide_eq_true_2 by done.
  cbn [require mbind result_bind]. subst v kid. rewrite (arguments_roundtrip c _ Hshape Hrep Hholds).
  cbn [mbind result_bind]. by apply shaped_claims_construct.
Qed.

(** What a verified token is. *)
Lemma verify_signed_Ok K token c :
  _verify_signed float_repr K token = Ok c →
  ∃ eh ec kid v header key d a,
    split_dot (token_value token)
      = [eh; ec; _base64url_encode (hmac_sha256 key (signing_input eh ec))]
    ∧ _decode_document float_repr eh _HEADER_FIELDS = Ok header
    ∧ header ≡ₚ header_document _DOMAIN _TOKEN_TYPE kid v
    ∧ lease_key_for K kid = Some key
    ∧ _decode_document float_repr ec (version_fields v) = Ok d
    ∧ arguments_of_document v kid d = Ok a ∧ a = arguments_of c ∧ lease_shape c.
Proof.
  unfold _verify_signed. destruct (split_dot (token_value token)) as [|eh [|ec [|es [|? ?]]]]; try done. intros H.
  apply bind_Ok in H as (header & Hh & H). apply bind_Ok in H as (vo & Hv & H).
  apply bind_Ok in H as (v & Hvi & H). apply bind_Ok in H as (_ & _ & H). apply bind_Ok in H as (alg & Ha & H).
  apply bind_Ok in H as (dm & Hd & H). apply bind_Ok in H as (ty & Ht & H).
  apply bind_Ok in H as (_ & Htxt%require_Ok & H). rewrite !andb_true_iff in Htxt.
  destruct Htxt as [[Ha' Hd'] Ht']. apply bind_Ok in H as (kid & Hk & H).
  apply bind_Ok in H as (kv & [-> Hkv]%positive_bigint_Ok & H).
  destruct (lease_key_for K kv) as [key|] eqn:Hkey; [|done].
  apply bind_Ok in H as (sg & [-> _]%base64url_decode_Ok & H). apply bind_Ok in H as (_ & _ & H).
  apply bind_Ok in H as (_ & ->%require_Ok%bool_decide_eq_true & H). apply bind_Ok in H as (d & Hdoc & H).
  do 6 apply bind_Ok in H as (? & _ & H). apply bind_Ok in H as (a & Harg & [Heq Hsh]%new_claims_Ok).
  exists eh, ec, kv, v, header, key, d, a.
  assert (vo = OInt v) as -> by (destruct vo; naive_solver).
  split; [done|]. split; [done|]. split; [|done].
  destruct (decode_document_Ok _ _ _ _ Hh) as (Hnd & Hf & _).
  eapply header_unique; eauto using doc_get_text.
  - eapply doc_get_int; [exact Hk|]. cbn. apply Z.eqb_refl.
  - eapply doc_get_int; [exact Hv|]. cbn. apply Z.eqb_refl.
Qed.

Lemma doc_get_str d k s : doc_get d k = Ok (OStr s) → holds d (k, JStr s).
Proof.
  unfold doc_get, holds. cbn [fst snd]. destruct (dict_get d k) as [v|]; [|done]. intros [= H].
  destruct v; cbn in H; by simplify_eq.
Qed.

(** The names that the signed document binds. *)
Definition bound_entries (c : WorkerLeaseClaims) : document :=
  [(lit "organization_id", JStr (uuid_str c.(organization_id))); (lit "job_id", JStr (uuid_str c.(job_id)));
   (lit "service_principal_id", JStr (uuid_str c.(service_principal_id)));
   (lit "workload", JStr c.(workload)); (lit "worker_audience", JStr c.(worker_audience));
   (lit "issued_at", JStr (_timestamp c.(issued_at))); (lit "expires_at", JStr (_timestamp c.(expires_at)))].

Lemma arguments_bound v kid d c :
  arguments_of_document v kid d = Ok (arguments_of c) →
  kid = c.(signing_key_version) ∧ version_operation v = c.(operation) ∧ Forall (holds d) (bound_entries c).
Proof.
  unfold arguments_of_document. cbv zeta. intros H.
  apply bind_Ok in H as (o1 & E1 & H). apply bind_Ok in H as (u1 & [_ ->]%parse_uuid_Ok & H).
  apply bind_Ok in H as (o2 & E2 & H). apply bind_Ok in H as (u2 & [_ ->]%parse_uuid_Ok & H).
  apply bind_Ok in H as (o3 & E3 & H). apply bind_Ok in H as (u3 & [_ ->]%parse_uuid_Ok & H).
  apply bind_Ok in H as (w & E4 & H). apply bind_Ok in H as (aud & E5 & H).
  apply bind_Ok in H as (o6 & E6 & H). apply bind_Ok in H as (t6 & ->%parse_timestamp_Ok & H).
  apply bind_Ok in H as (o7 & E7 & H). apply bind_Ok in H as (t7 & ->%parse_timestamp_Ok & H).
  do 10 apply bind_Ok in H as (? & _ & H). apply Ok_inj in H.
  pose proof (f_equal a_signing_key_version H) as F0. pose proof (f_equal a_organization_id H) as F1.
  pose proof (f_equal a_job_id H) as F2. pose proof (f_equal a_service_principal_id H) as F3.
  pose proof (f_equal a_workload H) as F4. pose proof (f_equal a_worker_audience H) as F5.
  pose proof (f_equal a_issued_at H) as F6. pose proof (f_equal a_expires_at H) as F7.
  pose proof (f_equal a_operation H) as F8.
  cbn [arguments_of a_signing_key_version a_organization_id a_job_id a_service_principal_id a_workload
       a_worker_audience a_issued_at a_expires_at a_operation] in F0, F1, F2, F3, F4, F5, F6, F7, F8.
  subst. split; [by injection F0|]. split; [done|].
  repeat apply Forall_cons_2; try apply Forall_nil_2; by apply doc_get_str.
Qed.

Lemma verify_Ok K token org job sp w op aud now src srcv c :
  verify float_repr K token org job sp w op aud now src srcv = Ok c →
  _verify_signed float_repr K token = Ok c ∧ whole_second now
  ∧ lease_matches c org job sp w op aud now src srcv = true.
Proof.
  unfold verify. intros H. do 2 apply bind_Ok in H as (? & _ & H).
  assert (Hrej : reject token ≠ Ok c).
  { unfold reject. intros (? & _ & H')%bind_Ok. by apply bind_Ok in H' as (? & _ & H'). }
  destruct (negb _); [done|]. apply bind_Ok in H as (_ & _ & H). apply bind_Ok in H as (ck & [-> Hck]%whole_second_Ok & H).
  unfold try_except in H.
  match type of H with match ?m with _ => _ end = _ => destruct m as [c'|e] eqn:E; [|by case_match] end.
  apply Ok_inj in H as <-. apply bind_Ok in E as (c'' & Hc & E). by apply bind_Ok in E as (_ & Hm%require_Ok & <-%Ok_inj).
Qed.

Lemma lease_matches_spec c org job sp w op aud now src srcv :
  lease_matches c org job sp w op aud now src srcv = true ↔
  c.(organization_id) = org ∧ c.(job_id) = job ∧ c.(service_principal_id) = sp ∧ c.(workload) = w
  ∧ c.(operation) = op ∧ c.(source_ref) = src ∧ c.(source_version_ref) = srcv ∧ c.(worker_audience) = aud
  ∧ dt_us c.(issued_at) ≤ dt_us now < dt_us c.(expires_at).
Proof.
  unfold lease_matches, dt_ltb. rewrite !andb_true_iff, !bool_decide_eq_true, negb_true_iff, Z.ltb_ge, Z.ltb_lt.
  tauto.
Qed.

(** A verified lease is bound to the exact job.  Whatever token a worker
    presents, an accepted one carries well-shaped claims whose Organization, job,
    ServicePrincipal, workload, operation, source and audience are the expected
    ones, at a moment of its lifetime; and its text is a header of the WorkerLease
    protocol and a claims document, both canonical, signed with the keyring's key
    of the version that the header and the claims name; the signed document itself
    names that Organization, job, principal, workload, audience and lifetime. *)
Theorem verified_lease_is_bound K token org job sp w op aud now src srcv c :
  verify float_repr K token org job sp w op aud now src srcv = Ok c →
  lease_shape c
  ∧ (c.(organization_id), c.(job_id), c.(service_principal_id)) = (org, job, sp)
  ∧ (c.(workload), c.(operation), c.(worker_audience)) = (w, op, aud)
  ∧ (c.(source_ref), c.(source_version_ref)) = (src, srcv)
  ∧ dt_us c.(issued_at) ≤ dt_us now < dt_us c.(expires_at)
  ∧ ∃ v key hraw d raw,
      version_operation v = op ∧ lease_key_for K c.(signing_key_version) = Some key
      ∧ _canonical_json float_repr (header_document _DOMAIN _TOKEN_TYPE c.(signing_key_version) v) = Ok hraw
      ∧ _canonical_json float_repr d = Ok raw
      ∧ list_to_set d.*1 =@{gset pystr} list_to_set (version_fields v)
      ∧ Forall (holds d) (bound_entries c)
      ∧ token_value token = signed_token key hraw raw.
Proof.
  intros (Hs & _ & Hm)%verify_Ok.
  destruct (proj1 (lease_matches_spec _ _ _ _ _ _ _ _ _ _) Hm) as (<- & <- & <- & <- & <- & <- & <- & <- & Ht).
  apply verify_signed_Ok in Hs as (eh & ec & kid & v & header & key & d & a & Hsp & Hh & Hp & Hk & Hd & Ha & -> & Hsh).
  apply arguments_bound in Ha as (-> & Hop & Hb).
  destruct (decode_document_Ok _ _ _ _ Hh) as (Hnd & _ & hraw & Hhraw & ->).
  destruct (decode_document_Ok _ _ _ _ Hd) as (_ & Hf & raw & Hraw & ->).
  split_and!; try done; try apply Ht. exists v, key, hraw, d, raw.
  split_and!; try done; [by eapply canonical_perm|].
  rewrite <- (join_split_dot (token_value token)), Hsp. unfold signed_token, signing_input. cbn [join].
  by rewrite <- !app_assoc.
Qed.

(** ** Round trip *)

Lemma check_expected_own c :
  lease_shape c → check_expected c.(operation) c.(source_ref) c.(source_version_ref) = Ok tt.
Proof.
  intros (_ & _ & _ & _ & _ & _ & _ & Hop). unfold check_expected. destruct operations_distinct as (D1 & D2 & D3).
  destruct Hop as [(Hop & Hs & _ & H1 & _)|[(Hop & (s & g & Hs & Hso & _) & H1 & _)|(Hop & src & g & e & k & srcs & ops & t & Q1 & Q2 & Hc)]];
    rewrite Hop.
  - rewrite !bool_decide_eq_false_2 by (by apply not_eq_sym). by rewrite Hs, H1.
  - rewrite bool_decide_eq_true_2, Hs, H1 by done. cbn [opt_obj]. unfold identifier_ok in Hso. by rewrite Hso.
  - rewrite bool_decide_eq_false_2, bool_decide_eq_true_2, Q1, Q2 by done. cbn [opt_obj].
    destruct Hc as (_ & _ & _ & _ & _ & _ & Hsr & _). unfold identifier_ok in Hsr. by rewrite Hsr.
Qed.

Lemma minted_lease_verify K K' a c token now :
  new_WorkerLeaseClaims a = Ok c → lease_representable c → mint float_repr K c = Ok token →
  lease_key_for K' c.(signing_key_version) = lease_key_for K c.(signing_key_version) →
  _require_utc now = Ok now → dt_us c.(issued_at) ≤ dt_us now < dt_us c.(expires_at) →
  verify float_repr K' token c.(organization_id) c.(job_id) c.(service_principal_id) c.(workload) c.(operation)
    c.(worker_audience) now c.(source_ref) c.(source_version_ref) = Ok c.
Proof.
  intros [_ Hsh]%new_claims_Ok Hrep Hmint Hkeys Hnow Hwin.
  pose proof Hsh as (_ & Hw & Ha & _ & _ & _ & _ & Hop). unfold verify, identifier_ok in *.
  rewrite Hw, Ha. cbn [mbind result_bind].
  assert (Hcl : bool_decide (operation c ∈ closed_operations) = true).
  { destruct operations_closed as (C1 & C2 & C3). destruct Hop as [(-> & _)|[(-> & _)|(-> & _)]]; done. }
  rewrite Hcl. cbn [negb]. rewrite (check_expected_own c Hsh). cbn [mbind result_bind]. rewrite Hnow.
  cbn [mbind result_bind]. rewrite (minted_lease_verifies K K' c token) by done. cbn [mbind result_bind].
  rewrite (proj2 (lease_matches_spec _ _ _ _ _ _ _ _ _ _)) by done. done.
Qed.

(** A minted lease is accepted.  Claims that the constructor accepts, whose
    values are values of the Python types and whose text is well-formed Unicode,
    come back unchanged from the token that minting them returned, for a worker
    that expects exactly those claims, at every whole second of the lifetime, and
    under every keyring that still holds the signing key, whichever version is
    active by then. *)
Theorem minted_lease_is_accepted K K' a c token now :
  new_WorkerLeaseClaims a = Ok c → lease_representable c → mint float_repr K c = Ok token →
  lease_key_for K' c.(signing_key_version) = lease_key_for K c.(signing_key_version) →
  _require_utc now = Ok now → dt_us c.(issued_at) ≤ dt_us now < dt_us c.(expires_at) →
  verify float_repr K' token c.(organization_id) c.(job_id) c.(service_principal_id) c.(workload) c.(operation)
    c.(worker_audience) now c.(source_ref) c.(source_version_ref) = Ok c.
Proof. apply minted_lease_verify. Qed.

(** ** Refusals *)

Lemma raises_tuple d k : k ∈ d.*1 → raises_expected (doc_tuple d k).
Proof.
  intros Hk. unfold doc_tuple. destruct (dict_get d k) as [v|] eqn:E; [|by apply dict_get_None in E].
  destruct v; cbn [tuple_of]; by (apply raises_Ok || apply raises_Err).
Qed.

Lemma raises_map_result {A B} P (f : A → result B) l : (∀ x, raises P (f x)) → raises P (map_result f l).
Proof.
  intros Hf. induction l as [|x l IH]; cbn [map_result]; [apply raises_Ok|].
  apply raises_bind; [apply Hf|intros ? _]. apply raises_bind; [exact IH|intros; apply raises_Ok].
Qed.

Lemma raises_identifier_set l n : raises_expected (_require_identifier_set l n).
Proof. unfold _require_identifier_set. expected_chain. apply raises_map_result. eauto with expected. Qed.

Lemma raises_new_claims a : raises_expected (new_WorkerLeaseClaims a).
Proof.
  assert (Hset : ∀ v n, raises_expected (require_set v n)).
  { intros [l|] n; cbn [require_set]; [apply raises_identifier_set|apply raises_ValueError]. }
  assert (Heach : ∀ l, raises_expected (each (λ s, require (is_canonical_uuid s) ValueError) l)).
  { intros l. apply raises_each. intros s. apply raises_require_ValueError. }
  unfold new_WorkerLeaseClaims, _require_key_version, _require_positive_int. cbv zeta.
  repeat first [apply Hset|apply Heach|solve [eauto with expected]|apply raises_bind; [|intros ? _]|case_match].
Qed.

Lemma raises_arguments v kid d :
  (∀ k, k ∈ version_fields v → k ∈ d.*1) → raises_expected (arguments_of_document v kid d).
Proof.
  intros Hk. assert (Hget : ∀ k, bool_decide (k ∈ _CLAIM_FIELDS) = true → raises_expected (doc_get d k)).
  { intros k Hin%bool_decide_eq_true. apply raises_doc_get, Hk. unfold version_fields.
    repeat case_match; [done|apply elem_of_app; by left..]. }
  assert (Hif : ∀ b k, (b = true → k ∈ version_fields v) → raises_expected (doc_if b d k)).
  { intros [] k Hb; cbn [doc_if]; [|apply raises_Ok]. by apply raises_doc_get, Hk, Hb. }
  assert (Htif : ∀ b k, (b = true → k ∈ version_fields v) → raises_expected (doc_tuple_if b d k)).
  { intros [] k Hb; cbn [doc_tuple_if]; [|apply raises_Ok].
    apply raises_bind; [by apply raises_tuple, Hk, Hb|intros; apply raises_Ok]. }
  assert (Hconn : ∀ k, bool_decide (k ∈ _SUPPLY_CONNECTOR_CLAIM_FIELDS) = true →
            v =? _SUPPLY_CONNECTOR_TOKEN_VERSION = true → k ∈ version_fields v).
  { intros k Hin%bool_decide_eq_true ->%Z.eqb_eq. exact Hin. }
  assert (Hfile : ∀ k, bool_decide (k ∈ _FILE_IMPORT_CLAIM_FIELDS) = true →
            v =? _FILE_IMPORT_TOKEN_VERSION = true → k ∈ version_fields v).
  { intros k Hin%bool_decide_eq_true ->%Z.eqb_eq. exact Hin. }
  unfold arguments_of_document. cbv zeta.
  do 14 (apply raises_bind; [first [apply Hget; by vm_compute|solve [eauto with expected]]|intros ? _]).
  apply raises_bind; [apply Hif, Hfile; by vm_compute|intros ? _].
  apply raises_bind; [apply Hif, Hconn; by vm_compute|intros ? _].
  apply raises_bind; [apply Hif; intros [?|?]%orb_true_iff; [apply Hfile|apply Hconn]; by vm_compute || done|intros ? _].
  do 2 (apply raises_bind; [apply Hif, Hconn; by vm_compute|intros ? _]).
  do 2 (apply raises_bind; [apply Htif, Hconn; by vm_compute|intros ? _]).
  apply raises_bind; [|intros; apply raises_Ok].
  destruct (v =? _SUPPLY_CONNECTOR_TOKEN_VERSION) eqn:E; [|apply raises_Ok].
  apply raises_bind; [apply raises_doc_get, Hk, Hconn; [by vm_compute|done]|intros ? _]. expected_chain.
Qed.

Context (float_repr_errors : ∀ x e, float_repr x = Err e → is_ValueError e = true).

Lemma raises_verify_lease K token : raises_expected (_verify_signed float_repr K token).
Proof.
  unfold _verify_signed.
  destruct (split_dot (token_value token)) as [|eh [|ec [|es [|? ?]]]]; try apply raises_ValueError.
  apply raises_bind; [by apply raises_decode_document|]. intros header Hh.
  assert (Hin : ∀ k, bool_decide (k ∈ _HEADER_FIELDS) = true → raises_expected (doc_get header k)).
  { intros k Hk%bool_decide_eq_true. apply raises_doc_get. by eapply document_has. }
  apply raises_bind; [apply Hin; by vm_compute|intros vo _].
  apply raises_bind; [destruct vo; by (apply raises_Ok || apply raises_Err)|intros v _].
  repeat (apply raises_bind; [first [apply raises_require_ValueError|apply raises_positive_bigint
    |apply Hin; by vm_compute]|intros ? _]).
  destruct (lease_key_for K _) as [key|]; [|apply raises_ValueError].
  do 3 (apply raises_bind; [solve [eauto with expected]|intros ? _]).
  apply raises_bind; [by apply raises_decode_document|]. intros d Hd.
  assert (Hdoc : ∀ k, k ∈ version_fields v → k ∈ d.*1) by (intros k; by eapply document_has).
  assert (Hget : ∀ k, bool_decide (k ∈ _CLAIM_FIELDS) = true → raises_expected (doc_get d k)).
  { intros k Hk%bool_decide_eq_true. apply raises_doc_get, Hdoc. unfold version_fields.
    repeat case_match; [done|apply elem_of_app; by left..]. }
  do 6 (apply raises_bind; [first [apply raises_require_ValueError|apply Hget; by vm_compute]|intros ? _]).
  apply raises_bind; [by apply raises_arguments|intros; apply raises_new_claims].
Qed.

Lemma reject_digest {A} token b :
  encode_utf8 (token_value token) = Ok b → reject (A := A) token = Err (WorkNotAvailable (hexdigest b)).
Proof.
  intros Hb. unfold reject, worker_lease_digest. rewrite Hb. cbn [mbind result_bind].
  by rewrite hexdigest_shape.
Qed.

(** Every refusal of a lease looks the same.  For expectations that the caller
    may state and a whole-second UTC clock, a token that is not accepted, for
    whatever reason (not a token, not canonical, an unknown key, a wrong signature,
    another job, source or operation, outside its lifetime, an operation outside
    the closed set), raises the one WorkNotAvailable whose receipt holds nothing
    but the SHA-256 of the token's text.  The one other exception is [RecursionError],
    of a header or claims document that nests deeper than the stack allows. *)
Theorem lease_refusal_is_uniform K token b org job sp w op aud now src srcv e :
  encode_utf8 (token_value token) = Ok b →
  identifier_ok 128 w → identifier_ok 255 aud → _require_utc now = Ok now →
  (op ∈ closed_operations → check_expected op src srcv = Ok tt) →
  verify float_repr K token org job sp w op aud now src srcv = Err e →
  e = WorkNotAvailable (hexdigest b) ∨ e = RecursionError.
Proof.
  intros Hb Hw Ha Hnow Hexp. unfold verify, identifier_ok in *. rewrite Hw, Ha. cbn [mbind result_bind].
  rewrite (reject_digest token b Hb). destruct (decide (op ∈ closed_operations)) as [Hin|Hout].
  - rewrite bool_decide_eq_true_2, (Hexp Hin), Hnow by done. cbn [negb mbind result_bind]. unfold try_except.
    match goal with |- context [match ?m with Ok _ => _ | Err _ => _ end] => assert (Hm : raises_expected m) end.
    { apply raises_bind; [apply raises_verify_lease|intros c _]. expected_chain. }
    destruct (_ ≫= _) as [c|e'] eqn:E; [done|]. specialize (Hm e' eq_refl). unfold is_expected_decoding_error in Hm.
    fold (is_lease_decoding_error e') in Hm. destruct (is_lease_decoding_error e'); [intros [= <-]; by left|].
    apply bool_decide_eq_true in Hm. intros [= <-]. by right.
  - rewrite bool_decide_eq_false_2 by done. cbn [negb]. intros [= <-]. by left.
Qed.

(** Such a header needs no signature: the codec reads it before it checks one. *)
Lemma deep_lease_header_escapes K token k ec es org job sp w op aud now src srcv :
  split_dot (token_value token) = [_base64url_encode (repeat 91 k); ec; es] → nesting_limit < Z.of_nat k →
  identifier_ok 128 w → identifier_ok 255 aud → _require_utc now = Ok now →
  op ∈ closed_operations → check_expected op src srcv = Ok tt →
  verify float_repr K token org job sp w op aud now src srcv = Err RecursionError.
Proof.
  intros Hs Hk Hw Ha Hnow Hin Hexp. unfold verify, identifier_ok in *. rewrite Hw, Ha. cbn [mbind result_bind].
  rewrite bool_decide_eq_true_2, Hexp, Hnow by done. cbn [negb mbind result_bind]. unfold _verify_signed.
  by rewrite Hs, deep_document.
Qed.
End Verify.
