(* ===== verification/Protocols.v ===== *)
(** * The three signed-token protocols side by side

    ContextAccessTickets, ActionTickets and WorkerLeases share the token format and
    may share keys; this file shows that their texts are nevertheless disjoint, and
    evaluates one token of each protocol on a concrete request, from which the
    instances of the theorems of the protocol files are taken. *)

From S2P Require Import Prelude Codec Sha256 Datetime Json Scope Evidence Materialized Trusted Signing TicketIdentity ContextTickets ActionTickets Leases.

Section Separation.
Context {nesting : NestingLimit}.
Context (float_repr : pystr → result pystr).

(** What the three verifiers accept, under any keyring. *)
Definition read_ticket (value : pystr) : Prop :=
  ∃ K d, ContextTickets._verify_context_access_ticket float_repr value K = Ok d.
Definition action_ticket (value : pystr) : Prop :=
  ∃ K d, ActionTickets.verify_action float_repr value K = Ok d.
Definition worker_lease (value : pystr) : Prop :=
  ∃ K c, Leases._verify_signed float_repr K (Leases.mkWorkerLeaseToken value) = Ok c.

(** The protocol that a text's header names. *)
Definition names_protocol (value dom typ : pystr) : Prop :=
  ∃ eh ec es header kid v, split_dot value = [eh; ec; es]
    ∧ _decode_document float_repr eh _HEADER_FIELDS = Ok header ∧ header ≡ₚ header_document dom typ kid v.

Lemma names_one_protocol value dom typ dom' typ' :
  names_protocol value dom typ → names_protocol value dom' typ' → dom = dom' ∧ typ = typ'.
Proof.
  intros (eh & ec & es & h & kid & v & Hs & Hh & Hp) (eh' & ec' & es' & h' & kid' & v' & Hs' & Hh' & Hp').
  rewrite Hs in Hs'. injection Hs' as <- <- <-. rewrite Hh in Hh'. injection Hh' as <-.
  by eapply header_protocol_unique.
Qed.

Lemma verified_names value K dom typ fields d :
  _verify_signed_ticket float_repr value K dom typ fields = Ok d → names_protocol value dom typ.
Proof.
  intros (eh & ec & es & kid & h & Hs & Hh & _ & _ & Hp & _)%verify_header.
  by exists eh, ec, es, h, kid, _PROTOCOL_VERSION.
Qed.

Lemma read_ticket_names value :
  read_ticket value → names_protocol value ContextTickets._DOMAIN ContextTickets._TOKEN_TYPE.
Proof. intros (K & d & (fields & _ & H)%ContextTickets.verify_context_Ok). by eapply verified_names. Qed.
Lemma action_ticket_names value :
  action_ticket value → names_protocol value ActionTickets._DOMAIN ActionTickets._TOKEN_TYPE.
Proof. intros (K & d & H). exact (verified_names value K _ _ ActionTickets._CLAIM_FIELDS d H). Qed.
Lemma worker_lease_names value : worker_lease value → names_protocol value Leases._DOMAIN Leases._TOKEN_TYPE.
Proof.
  intros (K & c & H). apply Leases.verify_signed_Ok in H as (eh & ec & kid & v & h & key & d & a & Hs & Hh & Hp & _).
  by exists eh, ec, (_base64url_encode (hmac_sha256 key (signing_input eh ec))), h, kid, v.
Qed.

(** C36: The three protocols are disjoint.  No text that one of the verifiers
    accepts is accepted by another, whatever keyrings they hold: a read ticket
    cannot be spent as an action or as a worker's lease, nor the other way round,
    even when the protocols share their signing keys. *)
Theorem protocols_are_disjoint value :
  ¬ (read_ticket value ∧ action_ticket value)
  ∧ ¬ (read_ticket value ∧ worker_lease value)
  ∧ ¬ (action_ticket value ∧ worker_lease value).
Proof.
  split_and!; intros [H1 H2]; [apply read_ticket_names in H1|apply read_ticket_names in H1|apply action_ticket_names in H1];
    [apply action_ticket_names in H2|apply worker_lease_names in H2..];
    destruct (names_one_protocol _ _ _ _ _ H1 H2) as [H _]; discriminate H.
Qed.
End Separation.

(** ** One token of each protocol *)

#[local] Existing Instance cpython_nesting.

(** No claim is a float. *)
Definition demo_float_repr : pystr → result pystr := λ _, Err ValueError.
Lemma demo_float_errors x e : demo_float_repr x = Err e → is_ValueError e = true.
Proof. by intros [= <-]. Qed.

Definition demo_key : pybytes := replicate 32 7.
Definition demo_keys : list (Z * pybytes) := [(1, replicate 32 5); (2, demo_key)].
Definition demo_keyring : TicketSigningKeyring := mkTicketSigningKeyring 2 demo_keys.
Definition demo_nonce : pybytes := replicate 32 9.
Definition demo_second (n : Z) : datetime := mkDatetime (719162 * us_per_day + seconds n) (Some 0).
Definition demo_port : epoch_port := λ _, Ok (OInt 5).
Definition demo_source : UUID → result obj := λ _, Ok (OBool true).
Definition demo_identity : TicketExecutionIdentity :=
  mkTicketExecutionIdentity (mkUUID 1) (mkUUID 2) (mkUUID 3) 7 (lit "principal") (lit "agent") (lit "answer") 5
    demo_epoch (mkUserActor demo_facts demo_membership) demo_invocation demo_delivery.

Lemma demo_identity_constructed :
  _construct_ticket_execution_identity demo_lifetimes demo_invocation demo_delivery = Ok demo_identity.
Proof. vm_compute. reflexivity. Qed.

Lemma signed_ticket_exact_witness :
  let d := [(lit "signing_key_version", JInt 2)] in
  ∃ value, _verify_signed_ticket demo_float_repr value demo_keyring (lit "d") (lit "t")
             [lit "signing_key_version"] = Ok d.
Proof.
  intros d. exists (match _mint_signed_ticket demo_float_repr demo_keyring (lit "d") (lit "t") d with
                    | Ok v => v | Err _ => [] end).
  apply (signed_ticket_exact demo_float_repr); [reflexivity..|]. exists 2.
  split; [apply (bool_decide_unpack _); by vm_compute|]. split; [split; reflexivity|].
  split; vm_compute; reflexivity.
Defined.

Lemma document_decoding_terminates_witness :
  match _decode_document demo_float_repr (lit "W1tbW1tb") _HEADER_FIELDS with
  | Ok d => list_to_set d.*1 =@{gset pystr} list_to_set _HEADER_FIELDS ∧ nests nesting_limit (JObj d) = true
  | Err e => is_expected_decoding_error e = true ∧ e ≠ FuelExhausted
  end
  ∧ ∀ k, nesting_limit < Z.of_nat k →
      _decode_document demo_float_repr (_base64url_encode (repeat 91 k)) _HEADER_FIELDS = Err RecursionError.
Proof. apply (document_decoding_terminates demo_float_repr demo_float_errors). Defined.

(** *** Read ticket *)

Definition demo_issuer : ContextTickets.ContextAccessTicketIssuer :=
  ContextTickets.mkIssuer demo_keyring (mkUUID 1) (lit "provider") None 60.
Definition demo_handler : ContextTickets.ContextAccessTicketReadHandler :=
  ContextTickets.mkReadHandler demo_keyring (mkUUID 1) (lit "provider") None.
Definition demo_provider : UUID → pystr → result unit := λ _ _, Ok tt.

Lemma demo_issued :
  ∃ ticket, ContextTickets.issue demo_float_repr demo_lifetimes demo_port demo_source (demo_second 0) demo_nonce
              demo_issuer demo_identity = Ok ticket.
Proof.
  assert (H : match ContextTickets.issue demo_float_repr demo_lifetimes demo_port demo_source (demo_second 0)
                      demo_nonce demo_issuer demo_identity with Ok _ => true | Err _ => false end = true)
    by (vm_compute; reflexivity).
  destruct (ContextTickets.issue _ _ _ _ _ _ _ _) as [ticket|]; [by exists ticket|discriminate H].
Qed.

Lemma demo_authority : ContextTickets.authority_current demo_lifetimes demo_port demo_source demo_identity None.
Proof. split_and!; vm_compute; reflexivity. Qed.

Lemma demo_representable : ContextTickets.representable demo_issuer demo_identity (demo_second 0) demo_nonce.
Proof.
  unfold ContextTickets.representable, uuid_ok, datetime_ok, byte_ok. cbn [ContextTickets.is_source_ref demo_issuer].
  split_and!; try (apply (bool_decide_unpack _); by vm_compute); try reflexivity.
Qed.

Lemma issued_ticket_is_redeemed_witness :
  ∃ ticket, ContextTickets.read demo_float_repr demo_lifetimes demo_port demo_source demo_provider (demo_second 59)
              demo_handler ticket demo_identity = ([(mkUUID 1, lit "provider")], Ok tt).
Proof.
  destruct demo_issued as [ticket H]. exists ticket.
  apply (ContextTickets.issued_ticket_is_redeemed demo_float_repr demo_lifetimes demo_port demo_source
           (demo_second 0) demo_nonce demo_issuer demo_identity ticket 2 demo_keys demo_keyring (mkUUID 1)
           (lit "provider") None 60 demo_lifetimes demo_port demo_source demo_provider (demo_second 59) demo_handler);
    [reflexivity|reflexivity|exact H|exact demo_representable|split_and!; reflexivity|exact demo_authority|reflexivity|].
  cbn. unfold seconds, us_per_day, us_per_second. lia.
Defined.

Lemma read_requires_authority_witness :
  ∃ ticket, ContextTickets.rh_organization_id demo_handler = ti_organization_id demo_identity
    ∧ ∃ kid d, _mint_signed_ticket demo_float_repr (with_active demo_keyring kid) ContextTickets._DOMAIN
                 ContextTickets._TOKEN_TYPE d = Ok (ContextTickets._value ticket).
Proof.
  destruct demo_issued as [ticket H]. exists ticket.
  assert (Hr : ContextTickets.read demo_float_repr demo_lifetimes demo_port demo_source demo_provider (demo_second 59)
                 demo_handler ticket demo_identity = ([(mkUUID 1, lit "provider")], Ok tt)).
  { apply (ContextTickets.issued_ticket_redeems demo_float_repr demo_lifetimes demo_port demo_source
           (demo_second 0) demo_nonce demo_issuer demo_identity ticket 2 demo_keys demo_keyring (mkUUID 1)
           (lit "provider") None 60 demo_lifetimes demo_port demo_source demo_provider (demo_second 59) demo_handler);
    [reflexivity|reflexivity|exact H|exact demo_representable|split_and!; reflexivity|exact demo_authority|reflexivity|].
    cbn. unfold seconds, us_per_day, us_per_second. lia. }
  destruct (ContextTickets.read_requires_authority _ _ _ _ _ _ _ _ _ _ _ Hr)
    as (_ & Ho & _ & kid & d & c & Hmint & _); [discriminate|].
  split; [exact Ho|]. exists kid, d. exact Hmint.
Defined.

Lemma read_refusal_is_uniform_witness :
  (ContextTickets.read demo_float_repr demo_lifetimes demo_port demo_source demo_provider (demo_second 0) demo_handler
     (ContextTickets.mkContextAccessTicket (lit "a.b.c")) demo_identity).2 = Err TicketNotAvailable.
Proof.
  set (r := ContextTickets.read _ _ _ _ _ _ _ _ _).
  assert (Hr : r = ([], r.2)) by (vm_compute; reflexivity).
  apply (ContextTickets.read_refusal_is_uniform demo_float_repr demo_float_errors demo_lifetimes demo_port demo_source
           demo_provider (demo_second 0) demo_handler (ContextTickets.mkContextAccessTicket (lit "a.b.c")) demo_identity).
  - intros e He. discriminate He.
  - intros u e He. discriminate He.
  - exact Hr.
Defined.

(** *** Action ticket *)

Definition demo_action_issuer : ActionTickets.ActionTicketIssuer :=
  ActionTickets.mkActionIssuer demo_keyring (mkUUID 1) (lit "channel") 60.
Definition demo_action_handler : ActionTickets.ActionTicketNoopHandler :=
  ActionTickets.mkNoopHandler demo_keyring (mkUUID 1) (lit "channel").

Definition demo_action (ticket : ActionTickets.ActionTicket) : list (UUID * pystr) * result unit :=
  ActionTickets.perform demo_float_repr demo_lifetimes demo_port (λ _ _, Ok tt) (demo_second 30)
    demo_action_handler ticket demo_identity.

Lemma demo_performed : ∃ ticket, demo_action ticket = ([(mkUUID 1, lit "channel")], Ok tt).
Proof.
  assert (H : match ActionTickets.issue demo_float_repr demo_lifetimes (demo_second 0) demo_nonce
                      demo_action_issuer demo_identity with
              | Ok t => bool_decide (demo_action t = ([(mkUUID 1, lit "channel")], Ok tt))
              | Err _ => false end = true) by (vm_compute; reflexivity).
  destruct (ActionTickets.issue _ _ _ _ _ _) as [t|]; [|discriminate H]. exists t. by apply bool_decide_eq_true in H.
Qed.

Lemma perform_requires_authority_witness :
  ∃ ticket kid d, demo_action ticket = ([(mkUUID 1, lit "channel")], Ok tt)
    ∧ _mint_signed_ticket demo_float_repr (with_active demo_keyring kid) ActionTickets._DOMAIN
        ActionTickets._TOKEN_TYPE d = Ok (ActionTickets._value ticket).
Proof.
  destruct demo_performed as [ticket H].
  destruct (ActionTickets.perform_requires_authority _ _ _ _ _ _ _ _ _ _ H)
    as (_ & _ & _ & _ & kid & d & c & Hmint & _); [discriminate|].
  exists ticket, kid, d. split; [exact H|exact Hmint].
Defined.

(** *** Worker lease *)

Definition demo_lease_keyring : Leases.WorkerLeaseKeyring := Leases.mkWorkerLeaseKeyring 2 demo_keys.
Definition demo_claims : Leases.WorkerLeaseClaims :=
  Leases.mkWorkerLeaseClaims 2 (mkUUID 1) (mkUUID 8) (mkUUID 9) (lit "supply") (lit "worker") (demo_second 0)
    (demo_second 300) demo_nonce Leases.SUPPLY_CONNECTOR_WORKER_LEASE_OPERATION None
    (Some (uuid_str (mkUUID 4))) (Some 3) (Some 5) (Some (replicate 64 97)) (Some [uuid_str (mkUUID 4)])
    (Some [Leases.SUPPLY_CONNECTOR_WORKER_LEASE_OPERATION]) (Some (demo_second 600)).

Lemma demo_claims_constructed : Leases.new_WorkerLeaseClaims (Leases.arguments_of demo_claims) = Ok demo_claims.
Proof. vm_compute. reflexivity. Qed.

Lemma demo_claims_representable : Leases.lease_representable demo_claims.
Proof.
  unfold Leases.lease_representable, uuid_ok, datetime_ok, byte_ok. cbn [demo_claims Leases.service_actor_expires_at].
  split_and!; try (apply (bool_decide_unpack _); by vm_compute); try reflexivity.
Qed.

Lemma demo_minted : ∃ token, Leases.mint demo_float_repr demo_lease_keyring demo_claims = Ok token.
Proof.
  assert (H : match Leases.mint demo_float_repr demo_lease_keyring demo_claims with
              | Ok _ => true | Err _ => false end = true) by (vm_compute; reflexivity).
  destruct (Leases.mint _ _ _) as [t|]; [by exists t|discriminate H].
Qed.

Definition demo_verify (token : Leases.WorkerLeaseToken) (job : UUID) (n : Z) : result Leases.WorkerLeaseClaims :=
  Leases.verify demo_float_repr demo_lease_keyring token (mkUUID 1) job (mkUUID 9) (lit "supply")
    Leases.SUPPLY_CONNECTOR_WORKER_LEASE_OPERATION (lit "worker") (demo_second n) None (Some (uuid_str (mkUUID 4))).

Lemma minted_lease_is_accepted_witness : ∃ token, demo_verify token (mkUUID 8) 299 = Ok demo_claims.
Proof.
  destruct demo_minted as [token H]. exists token.
  apply (Leases.minted_lease_is_accepted demo_float_repr demo_lease_keyring demo_lease_keyring
           (Leases.arguments_of demo_claims) demo_claims token (demo_second 299));
    [exact demo_claims_constructed|exact demo_claims_representable|exact H|reflexivity|reflexivity|].
  cbn. unfold seconds, us_per_day, us_per_second. lia.
Defined.

Lemma verified_lease_is_bound_witness :
  ∃ token, demo_verify token (mkUUID 8) 299 = Ok demo_claims ∧ Leases.lease_shape demo_claims.
Proof.
  destruct demo_minted as [token H]. exists token.
  assert (Hv : demo_verify token (mkUUID 8) 299 = Ok demo_claims).
  { apply (Leases.minted_lease_verify demo_float_repr demo_lease_keyring demo_lease_keyring
             (Leases.arguments_of demo_claims) demo_claims token (demo_second 299));
      [exact demo_claims_constructed|exact demo_claims_representable|exact H|reflexivity|reflexivity|].
    cbn. unfold seconds, us_per_day, us_per_second. lia. }
  split; [exact Hv|]. unfold demo_verify in Hv.
  exact (proj1 (Leases.verified_lease_is_bound _ _ _ _ _ _ _ _ _ _ _ _ _ Hv)).
Defined.

Lemma lease_refusal_is_uniform_witness :
  demo_verify (Leases.mkWorkerLeaseToken (lit "a.b.c")) (mkUUID 8) 0
  = Err (WorkNotAvailable (hexdigest (lit "a.b.c"))).
Proof.
  assert (H : match demo_verify (Leases.mkWorkerLeaseToken (lit "a.b.c")) (mkUUID 8) 0 with
              | Ok _ => false | Err e => negb (bool_decide (e = RecursionError)) end = true) by (vm_compute; reflexivity).
  destruct (demo_verify _ _ _) as [c|e] eqn:E; [discriminate H|]. unfold demo_verify in E. f_equal.
  edestruct (Leases.lease_refusal_is_uniform demo_float_repr demo_float_errors demo_lease_keyring
           (Leases.mkWorkerLeaseToken (lit "a.b.c")) (lit "a.b.c") (mkUUID 1) (mkUUID 8) (mkUUID 9) (lit "supply")
           Leases.SUPPLY_CONNECTOR_WORKER_LEASE_OPERATION (lit "worker") (demo_second 0) None
           (Some (uuid_str (mkUUID 4)))) as [He|He];
    [reflexivity|reflexivity|reflexivity|reflexivity|reflexivity|exact E|exact He|]. subst e. discriminate H.
Defined.
