(* ===== verification/ArticlePolicy.v ===== *)
(** * Article visibility: [src/engine/article_access_policy.py]

    The Article's policy settings, their validation against the group directory
    of the owning Organization, the first-ingest cascade and the source ACL
    floor.  The directory is a [Protocol] in the source: here it is a function
    whose answers may be exceptions or values of the wrong type, and each pass
    over the groups takes its own, since the answers may change between passes.
    A [frozenset] of groups is a [gset]; a pass asks for them in the order of
    [elements]. *)

From S2P Require Import Prelude Codec.

Definition MAX_ARTICLE_POLICY_VERSION : Z := Z.shiftl 1 63 - 1.

Inductive ArticleAccessPolicyKind := PRIVATE | ORGANIZATION | GROUPS.
#[export] Instance ArticleAccessPolicyKind_eq_dec : EqDecision ArticleAccessPolicyKind.
Proof. solve_decision. Defined.

Record GroupRef := mkGroupRef { group_value : pystr }.
#[export] Instance GroupRef_eq_dec : EqDecision GroupRef.
Proof. solve_decision. Defined.
#[export] Instance GroupRef_countable : Countable GroupRef.
Proof. refine (inj_countable' group_value mkGroupRef _). by intros []. Defined.

(** [GroupRef.__post_init__] *)
Definition new_GroupRef (value : obj) : result GroupRef :=
  match value with
  | OStr s =>
      require (negb (bool_decide (s = [])) && (len s <=? 256) && negb (existsb is_space s)) ValueError ;;
      Ok (mkGroupRef s)
  | _ => Err ValueError
  end.

(** What [resolve_organization_id] may return. *)
Inductive directory_answer := Unresolved | Organization (u : UUID) | OtherAnswer.
Abbreviation GroupDirectory := (GroupRef → result directory_answer) (only parsing).

Record ArticleAccessPolicySetting := mkSetting {
  kind : ArticleAccessPolicyKind;
  group_refs : gset GroupRef
}.
#[export] Instance ArticleAccessPolicySetting_eq_dec : EqDecision ArticleAccessPolicySetting.
Proof. solve_decision. Defined.

Definition _require_policy_setting_shape (s : ArticleAccessPolicySetting) : result unit :=
  if bool_decide (kind s = GROUPS) then require (negb (bool_decide (group_refs s = ∅))) ValueError
  else require (bool_decide (group_refs s = ∅)) ValueError.

(** [ArticleAccessPolicySetting(kind, group_refs)] *)
Definition new_Setting (k : ArticleAccessPolicyKind) (refs : gset GroupRef) : result ArticleAccessPolicySetting :=
  _require_policy_setting_shape (mkSetting k refs) ;; Ok (mkSetting k refs).

Record ArticleAccessPolicy := mkPolicy {
  pol_organization_id : UUID;
  pol_kind : ArticleAccessPolicyKind;
  pol_group_refs : gset GroupRef;
  pol_version : Z
}.
#[export] Instance ArticleAccessPolicy_eq_dec : EqDecision ArticleAccessPolicy.
Proof. solve_decision. Defined.

(** One group of the loop in [_validate_policy_setting_for_organization]. *)
Definition require_own_group (dir : GroupDirectory) (organization_id : UUID) (g : GroupRef) : result unit :=
  answer ← dir g;
  match answer with
  | Unresolved => Err ValueError
  | OtherAnswer => Err TypeError
  | Organization u => require (bool_decide (u = organization_id)) ValueError
  end.

Definition _validate_policy_setting_for_organization (organization_id : UUID) (s : ArticleAccessPolicySetting)
    (dir : GroupDirectory) : result unit :=
  _require_policy_setting_shape s ;;
  each (require_own_group dir organization_id) (elements (group_refs s)).

(** [ArticleAccessPolicy.create] *)
Definition create (organization_id : UUID) (k : ArticleAccessPolicyKind) (refs : gset GroupRef) (version : Z)
    (dir : GroupDirectory) : result ArticleAccessPolicy :=
  setting ← new_Setting k refs;
  _validate_policy_setting_for_organization organization_id setting dir ;;
  require ((1 <=? version) && (version <=? MAX_ARTICLE_POLICY_VERSION)) ValueError ;;
  Ok (mkPolicy organization_id k refs version).

(** The property [ArticleAccessPolicy.setting], which constructs a setting. *)
Definition setting (p : ArticleAccessPolicy) : result ArticleAccessPolicySetting :=
  new_Setting (pol_kind p) (pol_group_refs p).

Definition _validated_policy (organization_id : UUID) (s : ArticleAccessPolicySetting) (version : Z)
    (dir : GroupDirectory) : result ArticleAccessPolicy :=
  _require_policy_setting_shape s ;;
  create organization_id (kind s) (group_refs s) version dir.

(** ** The first-ingest cascade *)

Inductive ArticlePolicyResolutionRung := EXPLICIT_ARTICLE | SOURCE_DEFAULT | TENANT_DEFAULT | ISOLATION.
#[export] Instance ArticlePolicyResolutionRung_eq_dec : EqDecision ArticlePolicyResolutionRung.
Proof. solve_decision. Defined.

Record ArticlePolicyResolution := mkResolution {
  policy : option ArticleAccessPolicy;
  rung : ArticlePolicyResolutionRung
}.
#[export] Instance ArticlePolicyResolution_eq_dec : EqDecision ArticlePolicyResolution.
Proof. solve_decision. Defined.

(** [ArticlePolicyResolution.__post_init__] *)
Definition check_resolution (r : ArticlePolicyResolution) : result unit :=
  match policy r with
  | None => require (bool_decide (rung r = ISOLATION)) ValueError
  | Some _ => require (negb (bool_decide (rung r = ISOLATION))) ValueError
  end.
Definition new_Resolution (p : option ArticleAccessPolicy) (g : ArticlePolicyResolutionRung) :
    result ArticlePolicyResolution :=
  check_resolution (mkResolution p g) ;; Ok (mkResolution p g).
Definition published (r : ArticlePolicyResolution) : bool := bool_decide (policy r ≠ None).

Fixpoint cascade (organization_id : UUID) (dir : GroupDirectory)
    (rungs : list (option ArticleAccessPolicySetting * ArticlePolicyResolutionRung)) :
    result ArticlePolicyResolution :=
  match rungs with
  | [] => new_Resolution None ISOLATION
  | (None, _) :: rungs' => cascade organization_id dir rungs'
  | (Some s, g) :: _ => p ← _validated_policy organization_id s 1 dir; new_Resolution (Some p) g
  end.

Definition resolve_article_access_policy (organization_id : UUID)
    (explicit source_default tenant_default : option ArticleAccessPolicySetting) (dir : GroupDirectory) :
    result ArticlePolicyResolution :=
  cascade organization_id dir
    [(explicit, EXPLICIT_ARTICLE); (source_default, SOURCE_DEFAULT); (tenant_default, TENANT_DEFAULT)].

(** ** The source ACL floor *)

Inductive SourceAclEvidenceMode := LIVE | MIRRORED | WEAK.
#[export] Instance SourceAclEvidenceMode_eq_dec : EqDecision SourceAclEvidenceMode.
Proof. solve_decision. Defined.
Inductive AclObservationStatus := RESOLVED | MISSING | FAILED | UNRESOLVED_GROUP.
#[export] Instance AclObservationStatus_eq_dec : EqDecision AclObservationStatus.
Proof. solve_decision. Defined.

Record SourceAclEvidence := mkSourceAclEvidence {
  status : AclObservationStatus;
  observed_policy : option ArticleAccessPolicySetting;
  mode : SourceAclEvidenceMode
}.

(** [SourceAclEvidence.__post_init__] *)
Definition check_evidence (e : SourceAclEvidence) : result unit :=
  require (bool_decide (mode e = MIRRORED)) ValueError ;;
  if bool_decide (status e = RESOLVED) then require (bool_decide (observed_policy e ≠ None)) ValueError
  else require (bool_decide (observed_policy e = None)) ValueError.

Definition _intersect_policy_settings (local source : ArticleAccessPolicySetting) :
    result (option ArticleAccessPolicySetting) :=
  if bool_decide (kind local = PRIVATE) then Ok (Some local)
  else if bool_decide (kind source = PRIVATE) then Ok (Some source)
  else if bool_decide (kind local = ORGANIZATION) then Ok (Some source)
  else if bool_decide (kind source = ORGANIZATION) then Ok (Some local)
  else
    let shared := group_refs local ∩ group_refs source in
    if bool_decide (shared = ∅) then Ok None
    else s ← new_Setting GROUPS shared; Ok (Some s).

Definition type_or_value (e : exn) : bool := is_TypeError e || is_ValueError e.
Definition isolated : ArticlePolicyResolution := mkResolution None ISOLATION.

(** [try: x = m except (TypeError, ValueError): return isolation], then the rest. *)
Definition or_isolate {A} (m : result A) (k : A → result ArticlePolicyResolution) :
    result ArticlePolicyResolution :=
  match m with
  | Ok a => k a
  | Err e => if type_or_value e then new_Resolution None ISOLATION else Err e
  end.

(** [apply_source_acl_floor]; [d1], [d2], [d3] are the directory's answers when the
    local policy, the observed one and their intersection are validated. *)
Definition apply_source_acl_floor (organization_id : UUID) (local_resolution : ArticlePolicyResolution)
    (source_evidence : option SourceAclEvidence) (d1 d2 d3 : GroupDirectory) : result ArticlePolicyResolution :=
  or_isolate (check_resolution local_resolution) (λ _,
  match policy local_resolution with
  | None => Ok local_resolution
  | Some lp =>
      or_isolate (s ← setting lp; _validated_policy organization_id s (pol_version lp) d1) (λ local,
      match source_evidence with
      | None => new_Resolution None ISOLATION
      | Some ev =>
          or_isolate (check_evidence ev) (λ _,
          match status ev, observed_policy ev with
          | RESOLVED, Some observed =>
              or_isolate (_validated_policy organization_id observed (pol_version local) d2) (λ source,
              ls ← setting local; ss ← setting source;
              shared ← _intersect_policy_settings ls ss;
              match shared with
              | None => new_Resolution None ISOLATION
              | Some s =>
                  or_isolate (_validated_policy organization_id s (pol_version local) d3) (λ p,
                  new_Resolution (Some p) (rung local_resolution))
              end)
          | _, _ => new_Resolution None ISOLATION
          end)
      end)
  end).

(** ** The order of visibility *)

Definition setting_ok (s : ArticleAccessPolicySetting) : Prop := kind s = GROUPS ↔ group_refs s ≠ ∅.
Definition own_groups (dir : GroupDirectory) (organization_id : UUID) (s : ArticleAccessPolicySetting) : Prop :=
  ∀ g, g ∈ group_refs s → dir g = Ok (Organization organization_id).
Definition version_ok (v : Z) : Prop := 1 ≤ v ≤ MAX_ARTICLE_POLICY_VERSION.

(** [s] shows the Article to nobody to whom [t] does not: private settings are the
    narrowest, organization-wide ones the widest, and group settings are compared
    by their groups. *)
Definition narrower (s t : ArticleAccessPolicySetting) : Prop :=
  match kind s, kind t with
  | PRIVATE, _ | _, ORGANIZATION => True
  | GROUPS, GROUPS => group_refs s ⊆ group_refs t
  | _, _ => False
  end.

(** The widest setting below two settings; two group settings meet in a group
    setting or not at all. *)
Definition greatest_common (l o s : ArticleAccessPolicySetting) : Prop :=
  setting_ok s ∧ narrower s l ∧ narrower s o
  ∧ (∀ t, setting_ok t → narrower t l → narrower t o → narrower t s)
  ∧ (kind l = GROUPS → kind o = GROUPS → kind s = GROUPS).

Lemma require_shape_Ok s u : _require_policy_setting_shape s = Ok u ↔ setting_ok s.
Proof.
  unfold _require_policy_setting_shape, setting_ok. destruct (decide (kind s = GROUPS)) as [E|E].
  - rewrite bool_decide_eq_true_2, require_Ok, negb_true_iff, bool_decide_eq_false by done. tauto.
  - rewrite bool_decide_eq_false_2, require_Ok, bool_decide_eq_true by done.
    destruct (decide (group_refs s = ∅)); tauto.
Qed.

Lemma shape_errors s e : _require_policy_setting_shape s = Err e → e = ValueError.
Proof. unfold _require_policy_setting_shape, require. repeat case_match; congruence. Qed.

Lemma setting_of_kind_eq s t : setting_ok s → setting_ok t → narrower s t → narrower t s → s = t.
Proof.
  destruct s as [k a], t as [k' b]. unfold setting_ok, narrower. cbn. intros Hs Ht H1 H2.
  destruct (decide (a = ∅)) as [Ea|Ea], (decide (b = ∅)) as [Eb|Eb], k, k'; try tauto; try (exfalso; naive_solver).
  all: f_equal; try (by subst); by apply set_eq_subseteq || (apply leibniz_equiv; set_solver).
Qed.

Lemma new_Setting_Ok k refs s : new_Setting k refs = Ok s ↔ s = mkSetting k refs ∧ setting_ok (mkSetting k refs).
Proof.
  unfold new_Setting. rewrite bind_Ok. split.
  - intros (u & H%require_shape_Ok & [= <-]). done.
  - intros [-> H]. exists tt. by rewrite require_shape_Ok.
Qed.

Lemma validate_setting_Ok organization_id s dir u :
  _validate_policy_setting_for_organization organization_id s dir = Ok u
  ↔ setting_ok s ∧ own_groups dir organization_id s.
Proof.
  unfold _validate_policy_setting_for_organization, own_groups. destruct u.
  assert (Hg : ∀ g, require_own_group dir organization_id g = Ok tt ↔ dir g = Ok (Organization organization_id)).
  { intros g. unfold require_own_group. rewrite bind_Ok. split.
    - intros (a & -> & H). destruct a; try done. by apply require_Ok, bool_decide_eq_true in H as ->.
    - intros ->. eexists. split; [done|]. by rewrite require_Ok, bool_decide_eq_true. }
  split.
  - intros (u & Hs%require_shape_Ok & He%each_Ok)%bind_Ok. split; [done|]. intros g Hin.
    rewrite Forall_forall in He. apply Hg, He. by apply elem_of_elements.
  - intros [Hs Ho]. rewrite (proj2 (require_shape_Ok _ tt) Hs). cbn [mbind result_bind]. apply each_Ok, Forall_forall.
    intros g Hin%elem_of_elements. by apply Hg, Ho.
Qed.

Lemma validated_policy_Ok organization_id s version dir p :
  _validated_policy organization_id s version dir = Ok p ↔
  setting_ok s ∧ own_groups dir organization_id s ∧ version_ok version
  ∧ p = mkPolicy organization_id (kind s) (group_refs s) version.
Proof.
  unfold _validated_policy, create, version_ok. destruct s as [k refs]. cbn [kind group_refs]. split.
  - intros (u & H & Hc)%bind_Ok. apply bind_Ok in Hc as (s & [-> _]%new_Setting_Ok & Hc).
    apply bind_Ok in Hc as (u' & [Hs Hg]%validate_setting_Ok & Hc). apply bind_Ok in Hc as (_ & Hv%require_Ok & <-%Ok_inj).
    split_and!; try done; lia.
  - intros (Hs & Hg & Hv & ->). rewrite (proj2 (require_shape_Ok _ tt) Hs). cbn [mbind result_bind].
    rewrite (proj2 (new_Setting_Ok _ _ _) (conj eq_refl Hs)). cbn [mbind result_bind].
    rewrite (proj2 (validate_setting_Ok _ _ _ tt) (conj Hs Hg)). cbn [mbind result_bind].
    rewrite (proj2 (require_Ok _ _ tt)) by lia. done.
Qed.

(** Exceptions of a directory that the floor catches. *)
Definition faults_caught (dir : GroupDirectory) : Prop := ∀ g e, dir g = Err e → type_or_value e = true.

Lemma validated_policy_errors organization_id s version dir e :
  faults_caught dir → _validated_policy organization_id s version dir = Err e → type_or_value e = true.
Proof.
  intros Hdir. unfold _validated_policy, create, new_Setting, _validate_policy_setting_for_organization.
  intros [->%shape_errors|(_ & _ & H)]%bind_Err; [done|].
  apply bind_Err in H as [[->%shape_errors|(_ & _ & [=])]%bind_Err|(? & _ & H)]; [done|].
  apply bind_Err in H as [[->%shape_errors|(_ & _ & H)]%bind_Err|(_ & _ & H)]; [done| |].
  - revert H. generalize (elements (group_refs x)). intros l. induction l as [|g l IH]; [done|]. cbn [each].
    intros [H|(_ & _ & H)]%bind_Err; [|by apply IH]. unfold require_own_group in H.
    apply bind_Err in H as [H|(a & _ & H)]; [by eapply Hdir|].
    destruct a; [by injection H as <-|unfold require in H; case_match; by simplify_eq|by injection H as <-].
  - apply bind_Err in H as [H|(_ & _ & [=])]. unfold require in H. case_match; by simplify_eq.
Qed.

Lemma intersect_Ok l o :
  setting_ok l → setting_ok o →
  ∃ m, _intersect_policy_settings l o = Ok m ∧ ∀ s, m = Some s ↔ greatest_common l o s.
Proof.
  intros Hl Ho. assert (Huniq : ∀ s t, greatest_common l o s → greatest_common l o t → s = t).
  { intros s t (Hs & H1 & H2 & H3 & _) (Ht & K1 & K2 & K3 & _). apply setting_of_kind_eq; auto. }
  assert (Hsome : ∀ m, greatest_common l o m →
            ∃ m', Ok (Some m) = Ok m' ∧ ∀ s, m' = Some s ↔ greatest_common l o s).
  { intros m Hm. eexists. split; [done|]. intros s. split; [by intros [= <-]|]. intros Hs. f_equal. by apply Huniq. }
  destruct l as [kl a], o as [ko b]. unfold _intersect_policy_settings. cbn [kind group_refs].
  unfold setting_ok in Hl, Ho. cbn in Hl, Ho.
  destruct kl, ko; rewrite ?bool_decide_eq_true_2, ?bool_decide_eq_false_2 by done; cbn;
    try (apply Hsome; unfold greatest_common, setting_ok, narrower; cbn; split_and!; try done;
         intros [[] c]; cbn; done || set_solver).
  destruct (decide (a ∩ b = ∅)) as [E|E]; rewrite ?(bool_decide_eq_true_2 _ E), ?(bool_decide_eq_false_2 _ E).
  - eexists. split; [done|]. intros s. split; [done|]. intros (Hs & H1 & H2 & _ & Hk).
    destruct s as [k c]. unfold setting_ok, narrower in *. cbn in *. rewrite (Hk eq_refl eq_refl) in *.
    exfalso. apply (proj1 Hs eq_refl). set_solver.
  - assert (Hok : setting_ok (mkSetting GROUPS (a ∩ b))) by by unfold setting_ok.
    rewrite (proj2 (new_Setting_Ok GROUPS (a ∩ b) _) (conj eq_refl Hok)). cbn [mbind result_bind].
    apply Hsome. split; [done|]. unfold narrower. cbn [kind group_refs].
    split; [apply intersection_subseteq_l|]. split; [apply intersection_subseteq_r|]. split; [|done].
    intros [[] c]; cbn [kind group_refs]; [done..|]. intros _ H1 H2. by apply intersection_greatest.
Qed.

(** ** The cascade *)

(** The first setting that is present, with its rung. *)
Definition first_setting (explicit source_default tenant_default : option ArticleAccessPolicySetting) :
    option (ArticleAccessPolicySetting * ArticlePolicyResolutionRung) :=
  match explicit, source_default, tenant_default with
  | Some s, _, _ => Some (s, EXPLICIT_ARTICLE)
  | None, Some s, _ => Some (s, SOURCE_DEFAULT)
  | None, None, Some s => Some (s, TENANT_DEFAULT)
  | None, None, None => None
  end.

(** The first-ingest cascade has no broad fallback.  The most specific setting
    that is present decides alone: the Article is published with exactly that
    setting, at version 1 and with its rung, if and only if the setting is well
    shaped and all its groups belong to the owning Organization; a setting that is
    present but not valid raises and never falls through to a wider default; and
    without any setting the Article is isolated. *)
Theorem cascade_is_exact organization_id explicit source_default tenant_default dir r :
  resolve_article_access_policy organization_id explicit source_default tenant_default dir = Ok r ↔
  match first_setting explicit source_default tenant_default with
  | None => r = isolated
  | Some (s, g) =>
      setting_ok s ∧ own_groups dir organization_id s
      ∧ r = mkResolution (Some (mkPolicy organization_id (kind s) (group_refs s) 1)) g
  end.
Proof.
  assert (Hrung : ∀ s g, g ≠ ISOLATION →
            (p ← _validated_policy organization_id s 1 dir; new_Resolution (Some p) g) = Ok r ↔
            setting_ok s ∧ own_groups dir organization_id s
            ∧ r = mkResolution (Some (mkPolicy organization_id (kind s) (group_refs s) 1)) g).
  { intros s g Hg. rewrite bind_Ok. setoid_rewrite validated_policy_Ok. unfold new_Resolution, check_resolution.
    cbn [policy rung]. rewrite bool_decide_eq_false_2 by done. cbn [negb require mbind result_bind]. split.
    - intros (p & (H1 & H2 & _ & ->) & [= <-]). done.
    - intros (H1 & H2 & ->). eexists. split; [|done]. by split_and!. }
  unfold resolve_article_access_policy. destruct explicit, source_default, tenant_default; cbn [cascade first_setting];
    try by apply Hrung. split; [by intros [= <-]|by intros ->].
Qed.

(** ** The floor *)

(** The facts under which the floor publishes [p]. *)
Definition floor_publishes (organization_id : UUID) (l : ArticlePolicyResolution) (ev : option SourceAclEvidence)
    (d1 d2 d3 : GroupDirectory) (p : ArticleAccessPolicy) : Prop :=
  ∃ lp e o s, policy l = Some lp ∧ rung l ≠ ISOLATION ∧ ev = Some e
    ∧ mode e = MIRRORED ∧ status e = RESOLVED ∧ observed_policy e = Some o
    ∧ let local := mkSetting (pol_kind lp) (pol_group_refs lp) in
      setting_ok local ∧ own_groups d1 organization_id local ∧ version_ok (pol_version lp)
      ∧ setting_ok o ∧ own_groups d2 organization_id o
      ∧ greatest_common local o s ∧ own_groups d3 organization_id s
      ∧ p = mkPolicy organization_id (kind s) (group_refs s) (pol_version lp).

Definition floor_outcome (l : ArticlePolicyResolution) (P : ArticleAccessPolicy → Prop) (r : ArticlePolicyResolution) :
    Prop := (r = isolated ∧ ∀ p, ¬ P p) ∨ ∃ p, r = mkResolution (Some p) (rung l) ∧ ∀ q, P q ↔ q = p.

Lemma or_isolate_outcome {A} (m : result A) k l P :
  (∀ e, m = Err e → type_or_value e = true) →
  (∀ p, P p → ∃ a, m = Ok a) → (∀ a, m = Ok a → ∃ r, k a = Ok r ∧ floor_outcome l P r) →
  ∃ r, or_isolate m k = Ok r ∧ floor_outcome l P r.
Proof.
  intros Herr Hsome Hk. unfold or_isolate. destruct m as [a|e]; [by apply Hk|]. rewrite (Herr e eq_refl).
  exists isolated. split; [done|]. left. split; [done|]. intros p [a [=]]%Hsome.
Qed.

Lemma isolated_outcome l (P : ArticleAccessPolicy → Prop) :
  (∀ p, ¬ P p) → ∃ r, new_Resolution None ISOLATION = Ok r ∧ floor_outcome l P r.
Proof. intros HP. exists isolated. split; [done|]. by left. Qed.

(** Both settings are valid: what is left is their intersection. *)
Definition meets (organization_id : UUID) (local o : ArticleAccessPolicySetting) (d3 : GroupDirectory) (version : Z)
    (p : ArticleAccessPolicy) : Prop :=
  ∃ s, greatest_common local o s ∧ own_groups d3 organization_id s
    ∧ p = mkPolicy organization_id (kind s) (group_refs s) version.

Lemma intersection_outcome organization_id l local o d3 version (P : ArticleAccessPolicy → Prop) :
  faults_caught d3 → setting_ok local → setting_ok o → version_ok version → rung l ≠ ISOLATION →
  (∀ p, P p ↔ meets organization_id local o d3 version p) →
  ∃ r, (shared ← _intersect_policy_settings local o;
        match shared with
        | None => new_Resolution None ISOLATION
        | Some s => or_isolate (_validated_policy organization_id s version d3) (λ p,
                    new_Resolution (Some p) (rung l))
        end) = Ok r ∧ floor_outcome l P r.
Proof.
  intros F3 Hl Ho Hv Hr HP. destruct (intersect_Ok _ _ Hl Ho) as (m & -> & Hm). cbn [mbind result_bind].
  destruct m as [s|]; [|apply isolated_outcome; by intros p (s & [=]%Hm & _)%HP].
  assert (Hgc : greatest_common local o s) by by apply Hm. apply or_isolate_outcome.
  - intros x. by apply validated_policy_errors.
  - intros p (s' & [= <-]%Hm & Hs' & _)%HP. eexists. apply validated_policy_Ok. split; [apply Hgc|done].
  - intros p (_ & Hg3 & _ & ->)%validated_policy_Ok. unfold new_Resolution, check_resolution. cbn [policy rung].
    rewrite bool_decide_eq_false_2 by done. eexists. split; [done|]. right. eexists. split; [done|].
    intros q. rewrite HP. split; [by intros (s' & [= <-]%Hm & _ & ->)|]. intros ->. by exists s.
Qed.

Lemma check_resolution_errors l e : check_resolution l = Err e → type_or_value e = true.
Proof. unfold check_resolution, require. intros H. repeat case_match; simplify_eq; reflexivity. Qed.

Lemma check_evidence_errors ev e : check_evidence ev = Err e → type_or_value e = true.
Proof.
  unfold check_evidence, require. intros [H|(_ & _ & H)]%bind_Err; repeat case_match; simplify_eq; reflexivity.
Qed.

Lemma setting_errors p e : setting p = Err e → type_or_value e = true.
Proof. unfold setting, new_Setting. by intros [->%shape_errors|(_ & _ & [=])]%bind_Err. Qed.

Lemma floor_publishes_meets organization_id l lp e o d1 d2 d3 :
  policy l = Some lp → rung l ≠ ISOLATION → mode e = MIRRORED → status e = RESOLVED → observed_policy e = Some o →
  let local := mkSetting (pol_kind lp) (pol_group_refs lp) in
  setting_ok local → own_groups d1 organization_id local → version_ok (pol_version lp) →
  ∀ p, floor_publishes organization_id l (Some e) d1 d2 d3 p ↔
    (setting_ok o ∧ own_groups d2 organization_id o) ∧ meets organization_id local o d3 (pol_version lp) p.
Proof.
  intros Hp Hr Hm Hst Ho local Hls Hog Hv p. split.
  - intros (lp' & e' & o' & s & Hp' & _ & [= <-] & _ & _ & Ho' & H). rewrite Hp in Hp'. injection Hp' as <-.
    rewrite Ho in Ho'. injection Ho' as <-. unfold meets. naive_solver.
  - intros ([H1 H2] & s & H). exists lp, e, o, s. naive_solver.
Qed.

(** C28: The source ACL floor narrows and never widens, and fails closed.  With a
    directory whose faults are TypeError or ValueError the floor always returns: it
    publishes exactly one policy, at the local version and rung, if the local
    policy is valid for the Organization, the source's Mirrored observation is
    resolved and valid, and the widest setting below both (for two group policies:
    their nonempty common groups) still consists of groups of the Organization;
    in every other case, be it a missing, failed or malformed observation, a
    foreign or vanished group, or disjoint groups, the Article is isolated. *)
Theorem source_floor_is_meet organization_id l ev d1 d2 d3 :
  faults_caught d1 → faults_caught d2 → faults_caught d3 →
  ∃ r, apply_source_acl_floor organization_id l ev d1 d2 d3 = Ok r
    ∧ floor_outcome l (floor_publishes organization_id l ev d1 d2 d3) r.
Proof.
  intros F1 F2 F3. unfold apply_source_acl_floor. apply or_isolate_outcome; [apply check_resolution_errors|..].
  { intros p (lp & _ & _ & _ & Hp & Hr & _). exists tt. unfold check_resolution. rewrite Hp.
    by rewrite bool_decide_eq_false_2. }
  intros [] Hchk. unfold check_resolution in Hchk. destruct (policy l) as [lp|] eqn:Hp.
  2:{ apply require_Ok, bool_decide_eq_true in Hchk. exists l. split; [done|]. left.
      split; [destruct l; cbn in *; by subst|]. intros p (lp & ? & ? & ? & H & _). congruence. }
  apply require_Ok, negb_true_iff, bool_decide_eq_false in Hchk. apply or_isolate_outcome.
  { intros e [H|(s & _ & H)]%bind_Err; [exact (setting_errors _ _ H)|exact (validated_policy_errors _ _ _ _ _ F1 H)]. }
  { intros p (lp' & _ & _ & _ & Hp' & _ & _ & _ & _ & _ & H1 & H2 & H3 & _). rewrite Hp in Hp'. injection Hp' as <-.
    eexists. apply bind_Ok. eexists. split; [by apply new_Setting_Ok|]. by apply validated_policy_Ok. }
  intros local (ls & [-> Hls]%new_Setting_Ok & (_ & Hog & Hv & ->)%validated_policy_Ok)%bind_Ok.
  destruct ev as [e|]; [|apply isolated_outcome; by intros p (? & ? & ? & ? & _ & _ & [=] & _)].
  apply or_isolate_outcome; [apply check_evidence_errors|..].
  { intros p (? & e' & o & _ & _ & _ & [= <-] & Hm & Hst & Ho & _). exists tt. unfold check_evidence.
    rewrite Hm, Hst, Ho, !bool_decide_eq_true_2 by done. done. }
  intros [] (_ & Hm%require_Ok%bool_decide_eq_true & _)%bind_Ok.
  destruct (status e) eqn:Hst; try by (apply isolated_outcome; intros p (? & ? & ? & ? & _ & _ & [= <-] & _ & H & _); congruence).
  destruct (observed_policy e) as [o|] eqn:Ho;
    [|apply isolated_outcome; intros p (? & ? & ? & ? & _ & _ & [= <-] & _ & _ & H & _); congruence].
  pose proof (floor_publishes_meets organization_id l lp e o d1 d2 d3 Hp Hchk Hm Hst Ho Hls Hog Hv) as Hinv.
  apply or_isolate_outcome; [intros x; by apply validated_policy_errors|..].
  { intros p [[H1 H2] _]%Hinv. eexists. by apply validated_policy_Ok. }
  intros src (Hso & Hg2 & _ & ->)%validated_policy_Ok. unfold setting.
  cbn [pol_kind pol_group_refs kind group_refs pol_version].
  rewrite (proj2 (new_Setting_Ok (pol_kind lp) (pol_group_refs lp) _) (conj eq_refl Hls)). cbn [mbind result_bind].
  assert (Eo : mkSetting (kind o) (group_refs o) = o) by by destruct o.
  rewrite (proj2 (new_Setting_Ok (kind o) (group_refs o) o)) by (rewrite Eo; done). cbn [mbind result_bind].
  apply intersection_outcome; try done. intros p. rewrite Hinv. tauto.
Qed.

Definition demo_directory : GroupRef → result directory_answer := λ _, Ok (Organization (mkUUID 1)).
Definition demo_local : ArticlePolicyResolution :=
  mkResolution (Some (mkPolicy (mkUUID 1) GROUPS {[ mkGroupRef (lit "g1"); mkGroupRef (lit "g2") ]} 4)) SOURCE_DEFAULT.
Definition demo_evidence : SourceAclEvidence :=
  mkSourceAclEvidence RESOLVED (Some (mkSetting GROUPS {[ mkGroupRef (lit "g2"); mkGroupRef (lit "g3") ]})) MIRRORED.

Lemma source_floor_is_meet_witness :
  let P := floor_publishes (mkUUID 1) demo_local (Some demo_evidence) demo_directory demo_directory demo_directory in
  P (mkPolicy (mkUUID 1) GROUPS {[ mkGroupRef (lit "g2") ]} 4).
Proof.
  destruct (source_floor_is_meet (mkUUID 1) demo_local (Some demo_evidence) demo_directory demo_directory demo_directory)
    as (r & Hr & [[Hi _]|(p & Hp & HP)]); [intros g e [=]..| |].
  - exfalso. rewrite Hi in Hr. vm_compute in Hr. discriminate Hr.
  - apply HP. assert (Hc : apply_source_acl_floor (mkUUID 1) demo_local (Some demo_evidence) demo_directory
      demo_directory demo_directory = Ok (mkResolution (Some (mkPolicy (mkUUID 1) GROUPS {[ mkGroupRef (lit "g2") ]} 4))
      SOURCE_DEFAULT)) by (vm_compute; reflexivity). rewrite Hp, Hc in Hr. congruence.
Defined.
