(* ===== verification/BulkPolicy.v ===== *)
(** * Previewed bulk changes of Article policies:
      [src/engine/control/bulk_article_policy.py]

    The selection, the preview whose digest is the confirmation capability, and
    the sealed commit.  The process key of the seal is an argument. *)

From S2P Require Import Prelude Codec Sha256 Json Trusted TicketIdentity ArticlePolicy.

Definition MAX_BULK_ARTICLE_SELECTION : Z := 1000.
Definition MAX_RESOURCE_REF_LENGTH : Z := 512.

(** No value of these documents is a float. *)
Definition json_text (v : json) : result pybytes := dumps (λ _, Err ValueError) v.

(** [_require_bounded_text] of [src/engine/control/contracts.py] *)
Definition _require_bounded_text (value : obj) (maximum : Z) : result pystr :=
  match value with
  | OStr s =>
      require (negb (blank s) && bool_decide (s = strip s) && (len s <=? maximum)
               && forallb (λ c, negb (c <? 0x20) && negb ((0xD800 <=? c) && (c <=? 0xDFFF))) s) ValueError ;;
      Ok s
  | _ => Err ValueError
  end.

Definition kind_value (k : ArticleAccessPolicyKind) : pystr :=
  match k with PRIVATE => lit "private" | ORGANIZATION => lit "organization" | GROUPS => lit "groups" end.
Definition rung_value (g : ArticlePolicyResolutionRung) : pystr :=
  match g with
  | EXPLICIT_ARTICLE => lit "explicit_article"
  | SOURCE_DEFAULT => lit "source_default"
  | TENANT_DEFAULT => lit "tenant_default"
  | ISOLATION => lit "isolation"
  end.

Definition setting_json (s : ArticleAccessPolicySetting) : json :=
  JObj [(lit "groupRefs", JArr (JStr <$> sorted (group_value <$> elements (group_refs s))));
        (lit "kind", JStr (kind_value (kind s)))].

Definition article_policy_setting_document (s : option ArticleAccessPolicySetting) : result json :=
  match s with
  | None => Ok JNull
  | Some s => _require_policy_setting_shape s ;; Ok (setting_json s)
  end.

Definition _resource_ref (value : obj) : result pystr :=
  ref ← _require_bounded_text value MAX_RESOURCE_REF_LENGTH;
  require (negb (existsb is_space ref)) ValueError ;;
  Ok ref.

(** ** Selection *)

Record BulkArticlePolicyChange := mkChange {
  resource_refs : list pystr;
  ch_target_policy : ArticleAccessPolicySetting
}.

(** [BulkArticlePolicyChange.__post_init__] *)
Definition new_Change (refs : list obj) (target : ArticleAccessPolicySetting) : result BulkArticlePolicyChange :=
  require ((1 <=? len refs) && (len refs <=? MAX_BULK_ARTICLE_SELECTION)) ValueError ;;
  texts ← map_result _resource_ref refs;
  require (nodupb texts) ValueError ;;
  article_policy_setting_document (Some target) ;;
  Ok (mkChange (sorted texts) target).

(** ** Preview *)

Record BulkArticlePolicyPreviewItem := mkItem {
  resource_ref : pystr;
  policy_version : Z;
  current_policy : option ArticleAccessPolicySetting;
  resolution_rung : ArticlePolicyResolutionRung;
  target_policy : ArticleAccessPolicySetting
}.

(** [BulkArticlePolicyPreviewItem.__post_init__] *)
Definition check_item (i : BulkArticlePolicyPreviewItem) : result unit :=
  _resource_ref (OStr (resource_ref i)) ;;
  require ((1 <=? policy_version i) && (policy_version i <? 2 ^ 63)) ValueError ;;
  article_policy_setting_document (current_policy i) ;;
  article_policy_setting_document (Some (target_policy i)) ;;
  require (Bool.eqb (bool_decide (current_policy i = None)) (bool_decide (resolution_rung i = ISOLATION)))
    ValueError.

Record BulkArticlePolicyPreview := mkPreview {
  pv_organization_id : UUID;
  items : list BulkArticlePolicyPreviewItem;
  digest : pystr
}.

Definition item_document (i : BulkArticlePolicyPreviewItem) : result json :=
  current ← article_policy_setting_document (current_policy i);
  target ← article_policy_setting_document (Some (target_policy i));
  Ok (JObj [(lit "currentPolicy", current); (lit "policyVersion", JInt (policy_version i));
            (lit "resolutionRung", JStr (rung_value (resolution_rung i)));
            (lit "resourceRef", JStr (resource_ref i)); (lit "targetPolicy", target)]).

Definition preview_document (organization_id : UUID) (its : list BulkArticlePolicyPreviewItem) : result json :=
  docs ← map_result item_document its;
  Ok (JObj [(lit "items", JArr docs); (lit "organizationId", JStr (uuid_str organization_id));
            (lit "profile", JStr (lit "context-engine.bulk-article-policy-preview.v1"))]).

(** [BulkArticlePolicyPreview._payload] *)
Definition _payload (organization_id : UUID) (its : list BulkArticlePolicyPreviewItem) : result pybytes :=
  d ← preview_document organization_id its; json_text d.

(** [BulkArticlePolicyPreview.__post_init__] *)
Definition check_preview (p : BulkArticlePolicyPreview) : result unit :=
  require (negb (bool_decide (items p = []))) ValueError ;;
  each check_item (items p) ;;
  let refs := resource_ref <$> items p in
  require (bool_decide (refs = sorted refs) && nodupb refs) ValueError ;;
  require (is_sha256_hex (digest p)) ValueError ;;
  payload ← _payload (pv_organization_id p) (items p);
  require (bool_decide (hexdigest payload = digest p)) ValueError.

(** [BulkArticlePolicyPreview.create] *)
Definition create_preview (organization_id : UUID) (command : BulkArticlePolicyChange)
    (its : list BulkArticlePolicyPreviewItem) : result BulkArticlePolicyPreview :=
  command ← new_Change (OStr <$> resource_refs command) (ch_target_policy command);
  let canonical_items := sorted_by resource_ref its in
  require (bool_decide ((resource_ref <$> canonical_items) = resource_refs command)) ValueError ;;
  require (forallb (λ i, bool_decide (target_policy i = ch_target_policy command)) canonical_items) ValueError ;;
  payload ← _payload organization_id canonical_items;
  let p := mkPreview organization_id canonical_items (hexdigest payload) in
  check_preview p ;;
  Ok p.

(** ** Commit *)

Record BulkArticlePolicyConfirmation := mkConfirmation { preview_digest : pystr }.
Definition new_Confirmation (d : pystr) : result BulkArticlePolicyConfirmation :=
  require (is_sha256_hex d) ValueError ;; Ok (mkConfirmation d).

Record BulkArticlePolicyCommit := mkCommit {
  organization_id : UUID;
  preview : BulkArticlePolicyPreview;
  operator_ref : pystr;
  authority_ref : pystr;
  request_id : pystr;
  _seal : pybytes
}.

Definition commit_document (organization_id : UUID) (p : BulkArticlePolicyPreview)
    (operator authority request : pystr) : json :=
  JObj [(lit "authorityRef", JStr authority); (lit "operatorRef", JStr operator);
        (lit "organizationId", JStr (uuid_str organization_id)); (lit "previewDigest", JStr (digest p));
        (lit "profile", JStr (lit "context-engine.bulk-article-policy-commit.v1"));
        (lit "requestId", JStr request)].

Definition _bulk_article_commit_material (organization_id : UUID) (p : BulkArticlePolicyPreview)
    (operator authority request : pystr) : result pybytes :=
  check_preview p ;;
  require (bool_decide (pv_organization_id p = organization_id)) ValueError ;;
  each (λ v, _require_bounded_text (OStr v) 256 ;; Ok tt) [operator; authority; request] ;;
  json_text (commit_document organization_id p operator authority request).

Definition _issue_bulk_article_policy_commit (key : pybytes) (organization_id : UUID)
    (p : BulkArticlePolicyPreview) (operator authority request : pystr) : result BulkArticlePolicyCommit :=
  material ← _bulk_article_commit_material organization_id p operator authority request;
  Ok (mkCommit organization_id p operator authority request (hmac_sha256 key material)).

Definition _validate_bulk_article_policy_commit (key : pybytes) (c : BulkArticlePolicyCommit) : result unit :=
  material ← try_except
    (_bulk_article_commit_material (organization_id c) (preview c) (operator_ref c) (authority_ref c) (request_id c))
    type_or_value (Err TypeError);
  require (bool_decide (_seal c = hmac_sha256 key material)) TypeError.

(** [BulkArticlePolicyResult.__post_init__] *)
Record BulkArticlePolicyResult := mkResult {
  res_organization_id : UUID;
  policy_epoch : Z;
  changed_articles : Z;
  audit_ref : UUID
}.
Definition check_result (r : BulkArticlePolicyResult) : result unit :=
  require ((1 <=? policy_epoch r) && (policy_epoch r <? 2 ^ 63)) ValueError ;;
  require ((1 <=? changed_articles r) && (changed_articles r <=? MAX_BULK_ARTICLE_SELECTION)) ValueError.

(** ** Documents determine their values *)

Definition group_text_ok (s : ArticleAccessPolicySetting) : Prop :=
  ∀ g, g ∈ group_refs s → str_ok (group_value g) = true.
Definition item_text_ok (i : BulkArticlePolicyPreviewItem) : Prop :=
  str_ok (resource_ref i) = true ∧ group_text_ok (target_policy i)
  ∧ match current_policy i with None => True | Some s => group_text_ok s end.
(** Values of the Python types, and text that JSON can carry. *)
Definition preview_text_ok (p : BulkArticlePolicyPreview) : Prop :=
  uuid_ok (pv_organization_id p) ∧ Forall item_text_ok (items p).

#[export] Instance group_value_inj : Inj (=) (=) group_value.
Proof. intros [a] [b]. cbn. congruence. Qed.
#[export] Instance JStr_inj : Inj (=) (=) JStr.
Proof. by intros a b [= ->]. Qed.

Lemma kind_value_inj k k' : kind_value k = kind_value k' → k = k'.
Proof. by destruct k, k'. Qed.
Lemma rung_value_inj g g' : rung_value g = rung_value g' → g = g'.
Proof. by destruct g, g'. Qed.

Lemma setting_json_inj s t : setting_json s = setting_json t → s = t.
Proof.
  destruct s as [k a], t as [k' b]. unfold setting_json. cbn [kind group_refs]. intros H.
  injection H as Hg Hk. apply kind_value_inj in Hk as ->. f_equal. apply set_eq. intros g.
  apply (inj (fmap JStr)) in Hg.
  assert (Hp : group_value <$> elements a ≡ₚ group_value <$> elements b).
  { pose proof (sorted_by_perm (λ x, x) (group_value <$> elements a)) as Ha.
    pose proof (sorted_by_perm (λ x, x) (group_value <$> elements b)) as Hb.
    change (sorted_by (λ x, x) ?l) with (sorted l) in Ha, Hb. rewrite <- Ha, <- Hb. by rewrite Hg. }
  by rewrite <- !elem_of_elements, <- (list_elem_of_fmap_inj group_value), Hp, (list_elem_of_fmap_inj group_value).
Qed.

Lemma setting_json_text s : group_text_ok s → json_ok (setting_json s) = true.
Proof.
  intros H. unfold setting_json. cbn [json_ok]. apply andb_true_iff. split; [reflexivity|].
  cbn [forallb fst snd json_ok]. rewrite !andb_true_iff. split_and!; try reflexivity.
  - apply forallb_forall. intros v Hv%list_elem_of_In. apply list_elem_of_fmap in Hv as (x & -> & Hx).
    unfold sorted in Hx. rewrite sorted_by_perm in Hx. apply list_elem_of_fmap in Hx as (g & -> & Hg%elem_of_elements).
    by apply H.
  - by destruct (kind s).
Qed.

Lemma setting_json_sorted s : sort_keys (setting_json s) = setting_json s.
Proof.
  unfold setting_json. cbn [sort_keys fmap list_fmap fst snd].
  assert (Hs : ∀ l : list pystr, sort_keys <$> (JStr <$> l) = JStr <$> l).
  { intros l. rewrite <- list_fmap_compose. by apply list_fmap_ext. }
  change (list_fmap json json sort_keys ?l) with (sort_keys <$> l). rewrite Hs. reflexivity.
Qed.

Lemma setting_document_Ok s j : article_policy_setting_document s = Ok j → j = from_option setting_json JNull s.
Proof. destruct s as [s|]; cbn; [by intros (? & _ & [= <-])%bind_Ok|by intros [= <-]]. Qed.

Definition item_json (i : BulkArticlePolicyPreviewItem) : json :=
  JObj [(lit "currentPolicy", from_option setting_json JNull (current_policy i));
        (lit "policyVersion", JInt (policy_version i));
        (lit "resolutionRung", JStr (rung_value (resolution_rung i)));
        (lit "resourceRef", JStr (resource_ref i)); (lit "targetPolicy", setting_json (target_policy i))].

Lemma item_document_Ok i j : item_document i = Ok j → j = item_json i.
Proof.
  unfold item_document. intros (c & ->%setting_document_Ok & H)%bind_Ok.
  by apply bind_Ok in H as (t & ->%setting_document_Ok & <-%Ok_inj).
Qed.

Lemma item_json_inj i i' : item_json i = item_json i' → i = i'.
Proof.
  destruct i as [r v c g t], i' as [r' v' c' g' t']. unfold item_json.
  cbn [resource_ref policy_version current_policy resolution_rung target_policy]. intros H.
  pose proof (f_equal (λ j, match j with JObj l => l.*2 | _ => [] end) H) as E. cbn [fmap list_fmap snd] in E.
  assert (Et : setting_json t = setting_json t') by congruence.
  assert (Eg : rung_value g = rung_value g') by congruence. assert (r = r' ∧ v = v') as [-> ->] by (split; congruence).
  assert (Ec : from_option setting_json JNull c = from_option setting_json JNull c') by congruence.
  apply rung_value_inj in Eg as ->. apply setting_json_inj in Et as ->. f_equal.
  destruct c as [c|], c' as [c'|]; cbn in Ec; try done. by apply setting_json_inj in Ec as ->.
Qed.

Lemma item_json_text i : item_text_ok i → json_ok (item_json i) = true ∧ sort_keys (item_json i) = item_json i.
Proof.
  intros (Hr & Ht & Hc). assert (Hc' : json_ok (from_option setting_json JNull (current_policy i)) = true
    ∧ sort_keys (from_option setting_json JNull (current_policy i)) = from_option setting_json JNull (current_policy i)).
  { destruct (current_policy i); [|done]. split; [by apply setting_json_text|apply setting_json_sorted]. }
  destruct Hc' as [Hc1 Hc2]. split.
  - unfold item_json. cbn [json_ok]. apply andb_true_iff. split; [reflexivity|]. cbn [forallb fst snd json_ok].
    rewrite Hc1, Hr, setting_json_text by done. by destruct (resolution_rung i).
  - unfold item_json. cbn [sort_keys fmap list_fmap fst snd]. rewrite Hc2, setting_json_sorted. reflexivity.
Qed.

Definition preview_json (organization_id : UUID) (its : list BulkArticlePolicyPreviewItem) : json :=
  JObj [(lit "items", JArr (item_json <$> its)); (lit "organizationId", JStr (uuid_str organization_id));
        (lit "profile", JStr (lit "context-engine.bulk-article-policy-preview.v1"))].

Lemma payload_Ok organization_id its b : _payload organization_id its = Ok b → json_text (preview_json organization_id its) = Ok b.
Proof.
  unfold _payload, preview_document. intros (d & Hd & H)%bind_Ok. apply bind_Ok in Hd as (docs & Hdocs & <-%Ok_inj).
  assert (docs = item_json <$> its) as ->; [|done]. clear H. apply map_result_Ok in Hdocs.
  induction Hdocs as [|i j its docs Hi _ IH]; [done|]. apply item_document_Ok in Hi as ->. by rewrite fmap_cons, IH.
Qed.

Lemma preview_json_text p :
  preview_text_ok p → let j := preview_json (pv_organization_id p) (items p) in json_ok j = true ∧ sort_keys j = j.
Proof.
  intros [Hu Hi]. rewrite Forall_forall in Hi. split.
  - unfold preview_json. cbn [json_ok]. apply andb_true_iff. split; [reflexivity|]. cbn [forallb fst snd json_ok].
    rewrite uuid_str_ok. assert (Hall : forallb json_ok (item_json <$> items p) = true).
    { apply forallb_forall. intros v Hv%list_elem_of_In. apply list_elem_of_fmap in Hv as (i & -> & Hin).
      by apply item_json_text, Hi. }
    rewrite Hall. reflexivity.
  - unfold preview_json. cbn [sort_keys fmap list_fmap fst snd].
    change (list_fmap ?A ?B ?f ?l) with (fmap (M := list) (A := A) (B := B) f l).
    assert (Hs : sort_keys <$> (item_json <$> items p) = item_json <$> items p).
    { rewrite <- list_fmap_compose. apply list_fmap_ext. intros k i Hk%list_elem_of_lookup_2.
      cbn. by apply item_json_text, Hi. }
    rewrite Hs. reflexivity.
Qed.

Lemma payload_inj p q b :
  preview_text_ok p → preview_text_ok q →
  _payload (pv_organization_id p) (items p) = Ok b → _payload (pv_organization_id q) (items q) = Ok b →
  pv_organization_id p = pv_organization_id q ∧ items p = items q.
Proof.
  intros Hp Hq H1%payload_Ok H2%payload_Ok. destruct (preview_json_text p Hp) as [Jp Sp].
  destruct (preview_json_text q Hq) as [Jq Sq]. pose proof (dumps_inj _ _ _ _ Jp Jq H1 H2) as H. rewrite Sp, Sq in H.
  assert (Eu : uuid_str (pv_organization_id p) = uuid_str (pv_organization_id q)) by (unfold preview_json in H; congruence).
  assert (Ei : item_json <$> items p = item_json <$> items q) by (unfold preview_json in H; congruence).
  split; [apply uuid_str_inj; [apply Hp|apply Hq|done]|].
  assert (Inj (=) (=) item_json) by exact item_json_inj. by apply (inj (fmap item_json)) in Ei.
Qed.

(** ** What a confirmed change is *)

Definition hmac_collision (key x y : pybytes) : Prop := x ≠ y ∧ hmac_sha256 key x = hmac_sha256 key y.

Lemma check_preview_Ok p :
  check_preview p = Ok tt →
  ∃ payload, _payload (pv_organization_id p) (items p) = Ok payload ∧ digest p = hexdigest payload.
Proof.
  unfold check_preview. intros H. do 4 apply bind_Ok in H as (_ & _ & H).
  apply bind_Ok in H as (payload & Hp & Hd%require_Ok%bool_decide_eq_true). by exists payload.
Qed.

(** The payloads of two previews, with one SHA-256. *)
Definition preview_collision (p q : BulkArticlePolicyPreview) : Prop :=
  ∃ x y, _payload (pv_organization_id p) (items p) = Ok x ∧ _payload (pv_organization_id q) (items q) = Ok y
    ∧ collision x y.

Lemma preview_digest_inj p q :
  check_preview p = Ok tt → check_preview q = Ok tt → preview_text_ok p → preview_text_ok q → digest p = digest q →
  p = q ∨ preview_collision p q.
Proof.
  intros (x & Hx & Ex)%check_preview_Ok (y & Hy & Ey)%check_preview_Ok Tp Tq Ed. rewrite Ex, Ey in Ed.
  apply hexdigest_eq in Ed as [->|Hc]; [left|by right; exists x, y].
  destruct (payload_inj p q y Tp Tq Hx Hy) as [Eo Ei]. destruct p, q. cbn in *. congruence.
Qed.

Lemma material_Ok organization_id p operator authority request m :
  _bulk_article_commit_material organization_id p operator authority request = Ok m →
  check_preview p = Ok tt ∧ pv_organization_id p = organization_id
  ∧ json_text (commit_document organization_id p operator authority request) = Ok m.
Proof.
  unfold _bulk_article_commit_material. intros ([] & Hc & H)%bind_Ok.
  apply bind_Ok in H as (_ & Ho%require_Ok%bool_decide_eq_true & H). by apply bind_Ok in H as (_ & _ & H).
Qed.

Definition commit_text_ok (c : BulkArticlePolicyCommit) : Prop :=
  preview_text_ok (preview c) ∧ str_ok (operator_ref c) = true ∧ str_ok (authority_ref c) = true
  ∧ str_ok (request_id c) = true.

(** What the seal covers. *)
Definition commit_facts (c : BulkArticlePolicyCommit) : UUID * BulkArticlePolicyPreview * pystr * pystr * pystr :=
  (organization_id c, preview c, operator_ref c, authority_ref c, request_id c).

(** The documents that two commits seal, with one HMAC. *)
Definition commit_material (c : BulkArticlePolicyCommit) : result pybytes :=
  _bulk_article_commit_material (organization_id c) (preview c) (operator_ref c) (authority_ref c) (request_id c).
Definition commit_collision (key : pybytes) (c c' : BulkArticlePolicyCommit) : Prop :=
  ∃ m m', commit_material c = Ok m ∧ commit_material c' = Ok m' ∧ hmac_collision key m m'.

Lemma validate_commit_Ok key c :
  _validate_bulk_article_policy_commit key c = Ok tt →
  ∃ m, _bulk_article_commit_material (organization_id c) (preview c) (operator_ref c) (authority_ref c) (request_id c)
       = Ok m ∧ _seal c = hmac_sha256 key m.
Proof.
  unfold _validate_bulk_article_policy_commit, try_except. intros (m & Hm & Hs%require_Ok%bool_decide_eq_true)%bind_Ok.
  exists m. split; [|done]. destruct (_bulk_article_commit_material _ _ _ _ _) as [m'|e]; [done|by case_match].
Qed.

(** The seal of a bulk commit covers everything that was confirmed.  Two
    commits with the same seal that both validate under the process key confirm the
    same facts, namely the Organization, the whole preview with every Article's
    current and target policy, version and rung, the operator, the authority and
    the request; otherwise the two sealed documents have one HMAC, or the two
    previews' payloads one SHA-256. *)
Theorem bulk_commit_binds key c c' :
  _validate_bulk_article_policy_commit key c = Ok tt → _validate_bulk_article_policy_commit key c' = Ok tt →
  commit_text_ok c → commit_text_ok c' → _seal c = _seal c' →
  commit_facts c = commit_facts c' ∨ commit_collision key c c' ∨ preview_collision (preview c) (preview c').
Proof.
  intros (m & Hm & Es)%validate_commit_Ok (m' & Hm' & Es')%validate_commit_Ok (Tp & To & Ta & Tr) (Tp' & To' & Ta' & Tr') E.
  rewrite Es, Es' in E. destruct (decide (m = m')) as [<-|Hne]; [|by right; left; exists m, m'].
  apply material_Ok in Hm as (Hc & Ho & Hj). apply material_Ok in Hm' as (Hc' & Ho' & Hj').
  assert (Hok : ∀ o p op au rq, str_ok op = true → str_ok au = true → str_ok rq = true → check_preview p = Ok tt →
            json_ok (commit_document o p op au rq) = true).
  { intros o p op au rq H1 H2 H3 (x & _ & Ex)%check_preview_Ok. unfold commit_document. cbn [json_ok].
    apply andb_true_iff. split; [reflexivity|]. cbn [forallb fst snd json_ok].
    rewrite H1, H2, H3, uuid_str_ok, Ex, (sha256_hex_str_ok _ (hexdigest_shape x)). reflexivity. }
  unfold json_text in Hj, Hj'.
  pose proof (dumps_inj _ _ _ _ (Hok _ _ _ _ _ To Ta Tr Hc) (Hok _ _ _ _ _ To' Ta' Tr' Hc') Hj Hj') as H.
  change (sort_keys (commit_document ?o ?p ?a ?b ?d)) with (commit_document o p a b d) in H.
  assert (Hf : (authority_ref c, operator_ref c, digest (preview c), request_id c)
             = (authority_ref c', operator_ref c', digest (preview c'), request_id c')).
  { unfold commit_document in H. congruence. }
  injection Hf as E1 E2 E3 E4.
  destruct (preview_digest_inj _ _ Hc Hc' Tp Tp' E3) as [Ep|Hcol]; [left|by right; right].
  unfold commit_facts. rewrite <- Ho, <- Ho'. congruence.
Qed.

(** A previewed change reaches exactly the selected Articles.  The preview of a
    command lists the given Articles, which are exactly the command's selection in
    its canonical order, each with the command's target policy; a commit issued
    for it validates, and its seal holds as long as no field of it changes. *)
Theorem bulk_change_is_exact key org command its p operator authority request c :
  create_preview org command its = Ok p →
  _issue_bulk_article_policy_commit key org p operator authority request = Ok c →
  items p ≡ₚ its ∧ (resource_ref <$> items p) = sorted (resource_refs command) ∧ NoDup (resource_ref <$> items p)
  ∧ Forall (λ i, target_policy i = ch_target_policy command) (items p)
  ∧ len (items p) ≤ MAX_BULK_ARTICLE_SELECTION
  ∧ preview c = p ∧ _validate_bulk_article_policy_commit key c = Ok tt.
Proof.
  unfold create_preview. intros (cmd & Hcmd & H)%bind_Ok. unfold new_Change in Hcmd.
  apply bind_Ok in Hcmd as (_ & Hlen%require_Ok & Hcmd). apply bind_Ok in Hcmd as (texts & Ht & Hcmd).
  apply bind_Ok in Hcmd as (_ & _ & Hcmd). apply bind_Ok in Hcmd as (_ & _ & <-%Ok_inj).
  cbn [resource_refs ch_target_policy] in H.
  assert (texts = resource_refs command) as ->.
  { clear -Ht. apply map_result_Ok in Ht. revert texts Ht. induction (resource_refs command) as [|r l IH]; intros texts Ht.
    - by inversion Ht.
    - rewrite fmap_cons in Ht. inversion Ht as [|? y ? ys Hy Hys]; subst. f_equal; [|by apply IH].
      unfold _resource_ref in Hy. apply bind_Ok in Hy as (z & Hz & Hy). apply bind_Ok in Hy as (_ & _ & <-%Ok_inj).
      unfold _require_bounded_text in Hz. by apply bind_Ok in Hz as (_ & _ & <-%Ok_inj). }
  apply bind_Ok in H as (_ & Hrefs%require_Ok%bool_decide_eq_true & H).
  apply bind_Ok in H as (_ & Htgt%require_Ok & H). apply bind_Ok in H as (payload & Hp & H).
  apply bind_Ok in H as ([] & Hchk & <-%Ok_inj). intros (m & Hm & <-%Ok_inj)%bind_Ok. cbn [items preview].
  pose proof Hchk as Hnd. unfold check_preview in Hnd. do 2 apply bind_Ok in Hnd as (_ & _ & Hnd). cbn [items] in Hnd.
  apply bind_Ok in Hnd as (_ & Hnd%require_Ok & _). apply andb_true_iff in Hnd as [_ Hnd%bool_decide_eq_true].
  split; [apply sorted_by_perm|]. split; [done|]. split; [done|]. split.
  { rewrite forallb_forall in Htgt. apply Forall_forall. intros i Hi%list_elem_of_In%Htgt. by apply bool_decide_eq_true in Hi. }
  split.
  { apply andb_true_iff in Hlen as [_ Hlen%Z.leb_le]. unfold len in *. rewrite length_fmap in Hlen.
    apply (f_equal length) in Hrefs. rewrite length_fmap in Hrefs. unfold sorted in Hrefs.
    rewrite (Permutation_length (sorted_by_perm (λ x, x) (resource_refs command))) in Hrefs. lia. }
  split; [done|]. unfold _validate_bulk_article_policy_commit, try_except.
  cbn [organization_id preview operator_ref authority_ref request_id _seal]. rewrite Hm. cbn [mbind result_bind].
  by rewrite bool_decide_eq_true_2.
Qed.

(** *** A concrete change *)

Definition demo_groups : ArticleAccessPolicySetting := mkSetting GROUPS {[ mkGroupRef (lit "g1"); mkGroupRef (lit "g2") ]}.
Definition demo_item (ref : string) : BulkArticlePolicyPreviewItem :=
  mkItem (lit ref) 3 (Some (mkSetting ORGANIZATION ∅)) TENANT_DEFAULT demo_groups.
Definition demo_change : BulkArticlePolicyChange := mkChange [lit "a"; lit "b"] demo_groups.
Definition demo_preview : BulkArticlePolicyPreview :=
  match create_preview (mkUUID 1) demo_change [demo_item "b"; demo_item "a"] with
  | Ok p => p | Err _ => mkPreview (mkUUID 0) [] [] end.
Definition demo_commit_key : pybytes := replicate 32 1.
Definition demo_commit : BulkArticlePolicyCommit :=
  match _issue_bulk_article_policy_commit demo_commit_key (mkUUID 1) demo_preview (lit "op") (lit "au") (lit "rq") with
  | Ok c => c | Err _ => mkCommit (mkUUID 0) demo_preview [] [] [] [] end.

Lemma demo_change_runs :
  create_preview (mkUUID 1) demo_change [demo_item "b"; demo_item "a"] = Ok demo_preview
  ∧ _issue_bulk_article_policy_commit demo_commit_key (mkUUID 1) demo_preview (lit "op") (lit "au") (lit "rq")
    = Ok demo_commit.
Proof. split; vm_compute; reflexivity. Qed.

Lemma bulk_change_is_exact_witness :
  (resource_ref <$> items demo_preview) = [lit "a"; lit "b"]
  ∧ _validate_bulk_article_policy_commit demo_commit_key demo_commit = Ok tt.
Proof.
  destruct demo_change_runs as [H1 H2].
  destruct (bulk_change_is_exact _ _ _ _ _ _ _ _ _ H1 H2) as (_ & Hr & _ & _ & _ & _ & Hv).
  split; [rewrite Hr; reflexivity|exact Hv].
Defined.

Lemma demo_commit_valid : _validate_bulk_article_policy_commit demo_commit_key demo_commit = Ok tt.
Proof. vm_compute. reflexivity. Qed.

Lemma demo_commit_text : commit_text_ok demo_commit.
Proof.
  assert (Hg : group_text_ok demo_groups).
  { intros g Hin. cbn [demo_groups group_refs] in Hin. by apply elem_of_union in Hin as [->%elem_of_singleton| ->%elem_of_singleton]. }
  assert (He : group_text_ok (mkSetting ORGANIZATION ∅)) by by intros g ?%not_elem_of_empty.
  split; [|split_and!; vm_compute; reflexivity]. split; [unfold uuid_ok; vm_compute; done|].
  assert (Hi : items (preview demo_commit) = [demo_item "a"; demo_item "b"]) by (vm_compute; reflexivity).
  rewrite Hi. repeat apply Forall_cons_2; try apply Forall_nil_2; (split; [reflexivity|]); (split; [exact Hg|]); exact He.
Qed.

Lemma bulk_commit_binds_witness :
  commit_facts demo_commit = commit_facts demo_commit
  ∨ commit_collision demo_commit_key demo_commit demo_commit
  ∨ preview_collision (preview demo_commit) (preview demo_commit).
Proof.
  apply (bulk_commit_binds demo_commit_key demo_commit demo_commit demo_commit_valid demo_commit_valid
           demo_commit_text demo_commit_text). reflexivity.
Defined.
