(* ===== verification/Release.v ===== *)
(** * Release manifests, candidates and signed evaluations:
      [src/engine/learning/contracts.py], [evaluation.py]

    Profiles, the manifest with its two digests, the candidate with its four gate
    results, the signed evaluation and its keyring.  The RFC 8785 canonicalizer is
    third-party code, the argument [canon].  Every record holds its fields as they
    are when they are read, so the [verify_*] functions also speak about mutated
    objects. *)

From S2P Require Import Prelude Codec Sha256 Datetime Json Trusted.

Definition MAX_SIGNED_BIGINT : Z := Z.shiftl 1 63 - 1.
Definition MAX_REFERENCE_LENGTH : Z := 255.
Definition _MANIFEST_LINEAGE_DOMAIN : pybytes := lit "context-engine.release-manifest-lineage.v1" ++ [0].
Definition _MANIFEST_DOMAIN : pybytes := lit "context-engine.release-manifest.v1" ++ [0].
Definition RELEASE_EVALUATION_DIGEST_PROFILE : pystr := lit "release-evaluation-rfc8785-sha256-v1".
Definition RELEASE_EVALUATION_SIGNATURE_PROFILE : pystr := lit "release-evaluation-hmac-sha256-v1".
Definition _CANDIDATE_DIGEST_DOMAIN : pybytes := lit "context-engine.release-candidate.v1" ++ [0].
Definition _COMPATIBILITY_DIGEST_DOMAIN : pybytes := lit "context-engine.release-compatibility.v1" ++ [0].
Definition _EVALUATION_DIGEST_DOMAIN : pybytes := lit "context-engine.release-evaluation.v1" ++ [0].
Definition _EVALUATION_SIGNATURE_DOMAIN : pybytes := lit "context-engine.release-evaluation-signature.v1" ++ [0].
Definition _MINIMUM_SIGNING_KEY_BYTES : Z := 32.
Definition _MAX_COMMAND_LENGTH : Z := 2048.

(** ** Field checks *)

Definition _require_ref (value : obj) : result pystr :=
  match value with
  | OStr s =>
      require (negb (blank s) && bool_decide (s = strip s) && (len s <=? MAX_REFERENCE_LENGTH)
               && negb (existsb is_space s)) ValueError ;;
      Ok s
  | _ => Err ValueError
  end.
Definition _require_digest (value : obj) : result pystr :=
  match value with
  | OStr s => require (is_sha256_hex s) ValueError ;; Ok s
  | _ => Err ValueError
  end.
Definition _require_generation (value : obj) : result Z :=
  match value with
  | OInt z => require ((0 <=? z) && (z <=? MAX_SIGNED_BIGINT)) ValueError ;; Ok z
  | _ => Err ValueError
  end.
Definition _canonical_bigint (z : Z) : pystr := str_of_int z.
Definition opt_str (o : option pystr) : obj := match o with None => ONone | Some s => OStr s end.

Definition _require_canonical_refs (refs : list pystr) (allow_empty : bool) : result unit :=
  require (allow_empty || negb (bool_decide (refs = []))) ValueError ;;
  each (λ r, _require_ref (OStr r) ;; Ok tt) refs ;;
  require (nodupb refs) ValueError ;;
  require (bool_decide (refs = sorted refs)) ValueError.

(** [hmac.compare_digest] of two strings. *)
Definition compare_digest (a b : pystr) : result bool :=
  require (forallb (λ c, c <? 128) a && forallb (λ c, c <? 128) b) TypeError ;;
  Ok (bool_decide (a = b)).

Definition _timestamp (d : datetime) : pystr := replace (lit "+00:00") (lit "Z") (isoformat_us d).

(** ** Profiles *)

Record ContentProfileRef := mkContentProfile {
  cp_profile_ref : pystr;
  cp_profile_digest : pystr;
  cp_content_schema_ref : pystr
}.
Record IndexProfileRef := mkIndexProfile {
  ip_profile_ref : pystr;
  ip_profile_digest : pystr;
  ip_content_profile_digest : pystr;
  ip_content_schema_ref : pystr;
  ip_index_schema_ref : pystr;
  ip_embedding_profile_document : pystr;
  ip_embedding_profile_digest : pystr
}.
Record RuntimeProfileRef := mkRuntimeProfile {
  rp_profile_ref : pystr;
  rp_profile_digest : pystr;
  rp_content_profile_digest : pystr;
  rp_index_profile_digest : pystr;
  rp_content_schema_ref : pystr;
  rp_index_schema_ref : pystr;
  rp_tokenizer_ref : pystr;
  rp_package_schema_ref : pystr;
  rp_tokenizer_profile_document : pystr;
  rp_tokenizer_profile_digest : pystr
}.
Inductive CurationMode := CURATION_OFF | CURATION_ON.
#[export] Instance CurationMode_eq_dec : EqDecision CurationMode.
Proof. solve_decision. Defined.
Definition mode_value (m : CurationMode) : pystr :=
  match m with CURATION_OFF => lit "curation_off" | CURATION_ON => lit "curation_on" end.
Record CurationProfileRef := mkCurationProfile {
  cu_profile_ref : pystr;
  cu_profile_digest : pystr;
  cu_mode : CurationMode;
  cu_snapshot_ref : option pystr;
  cu_compatible_revision_refs : list pystr;
  cu_evaluation_digest : option pystr
}.

(** The constructors' checks; [IndexProfileRef] and [RuntimeProfileRef] look their
    embedding and tokenizer profiles up in registries of other modules first. *)
Definition check_content_profile (p : ContentProfileRef) : result unit :=
  _require_ref (OStr (cp_profile_ref p)) ;; _require_digest (OStr (cp_profile_digest p)) ;;
  _require_ref (OStr (cp_content_schema_ref p)) ;; Ok tt.

Definition check_curation_profile (p : CurationProfileRef) : result unit :=
  _require_ref (OStr (cu_profile_ref p)) ;; _require_digest (OStr (cu_profile_digest p)) ;;
  if bool_decide (cu_mode p = CURATION_OFF) then
    require (bool_decide (cu_snapshot_ref p = None) && bool_decide (cu_compatible_revision_refs p = [])
             && bool_decide (cu_evaluation_digest p = None)) ValueError
  else
    _require_ref (opt_str (cu_snapshot_ref p)) ;;
    _require_canonical_refs (cu_compatible_revision_refs p) false ;;
    _require_digest (opt_str (cu_evaluation_digest p)) ;; Ok tt.

Definition opt_text (o : option pystr) : json := match o with None => JNull | Some s => JStr s end.
Definition texts (l : list pystr) : json := JArr (JStr <$> l).

(** [_profile_document] *)
Definition content_document (p : ContentProfileRef) : json :=
  JObj [(lit "content_schema_ref", JStr (cp_content_schema_ref p));
        (lit "profile_digest", JStr (cp_profile_digest p)); (lit "profile_ref", JStr (cp_profile_ref p))].
Definition index_document (p : IndexProfileRef) : json :=
  JObj [(lit "content_profile_digest", JStr (ip_content_profile_digest p));
        (lit "content_schema_ref", JStr (ip_content_schema_ref p));
        (lit "embedding_profile_digest", JStr (ip_embedding_profile_digest p));
        (lit "embedding_profile_document", JStr (ip_embedding_profile_document p));
        (lit "index_schema_ref", JStr (ip_index_schema_ref p));
        (lit "profile_digest", JStr (ip_profile_digest p)); (lit "profile_ref", JStr (ip_profile_ref p))].
Definition runtime_document (p : RuntimeProfileRef) : json :=
  JObj ([(lit "content_profile_digest", JStr (rp_content_profile_digest p));
         (lit "content_schema_ref", JStr (rp_content_schema_ref p));
         (lit "index_profile_digest", JStr (rp_index_profile_digest p));
         (lit "index_schema_ref", JStr (rp_index_schema_ref p));
         (lit "package_schema_ref", JStr (rp_package_schema_ref p));
         (lit "profile_digest", JStr (rp_profile_digest p)); (lit "profile_ref", JStr (rp_profile_ref p));
         (lit "tokenizer_ref", JStr (rp_tokenizer_ref p))]
        ++ if bool_decide (rp_package_schema_ref p = lit "context-package-openapi-v1") then
             [(lit "tokenizer_profile_digest", JStr (rp_tokenizer_profile_digest p));
              (lit "tokenizer_profile_document", JStr (rp_tokenizer_profile_document p))]
           else []).
Definition curation_document (p : CurationProfileRef) : json :=
  JObj [(lit "compatible_revision_refs", texts (cu_compatible_revision_refs p));
        (lit "curation_snapshot_ref", opt_text (cu_snapshot_ref p));
        (lit "evaluation_digest", opt_text (cu_evaluation_digest p));
        (lit "mode", JStr (mode_value (cu_mode p)));
        (lit "profile_digest", JStr (cu_profile_digest p)); (lit "profile_ref", JStr (cu_profile_ref p))].

Record ReleaseManifest := mkManifest {
  mf_organization_id : UUID;
  mf_manifest_ref : pystr;
  mf_content_profile : ContentProfileRef;
  mf_index_profile : IndexProfileRef;
  mf_runtime_profile : RuntimeProfileRef;
  mf_curation_profile : CurationProfileRef;
  mf_active_revision_refs : list pystr;
  mf_lineage_digest : pystr;
  mf_manifest_digest : pystr
}.

Definition release_manifest_lineage_document (m : ReleaseManifest) : list (list Z * json) :=
  [(lit "active_revision_refs", texts (mf_active_revision_refs m));
   (lit "content_profile", content_document (mf_content_profile m));
   (lit "curation_profile", curation_document (mf_curation_profile m));
   (lit "index_profile", index_document (mf_index_profile m));
   (lit "organization_id", JStr (uuid_str (mf_organization_id m)));
   (lit "runtime_profile", runtime_document (mf_runtime_profile m))].

(** The incompatible profile combinations that [ReleaseManifest.__post_init__]
    refuses. *)
Definition profiles_compatible (m : ReleaseManifest) : bool :=
  let c := mf_content_profile m in
  let i := mf_index_profile m in
  let r := mf_runtime_profile m in
  bool_decide (ip_content_profile_digest i = cp_profile_digest c)
  && bool_decide (ip_content_schema_ref i = cp_content_schema_ref c)
  && bool_decide (rp_content_profile_digest r = cp_profile_digest c)
  && bool_decide (rp_content_schema_ref r = cp_content_schema_ref c)
  && bool_decide (rp_index_profile_digest r = ip_profile_digest i)
  && bool_decide (rp_index_schema_ref r = ip_index_schema_ref i)
  && negb (bool_decide (cu_mode (mf_curation_profile m) = CURATION_ON)
           && negb (bool_decide (cu_compatible_revision_refs (mf_curation_profile m) = mf_active_revision_refs m))).

(** ** Gates *)

Inductive Gate := SECURITY | RELIABILITY | QUALITY | BUDGET.
#[export] Instance Gate_eq_dec : EqDecision Gate.
Proof. solve_decision. Defined.
Definition gate_value (g : Gate) : pystr :=
  match g with
  | SECURITY => lit "security" | RELIABILITY => lit "reliability" | QUALITY => lit "quality" | BUDGET => lit "budget"
  end.
Definition all_gates : list Gate := [SECURITY; RELIABILITY; QUALITY; BUDGET].
Inductive GateStatus := PASS | FAIL.
#[export] Instance GateStatus_eq_dec : EqDecision GateStatus.
Proof. solve_decision. Defined.
Definition status_value (s : GateStatus) : pystr := match s with PASS => lit "pass" | FAIL => lit "fail" end.

Record GateEvidence := mkGateEvidence { gate : Gate; gate_status : GateStatus; evidence_digest : pystr }.
#[export] Instance GateEvidence_eq_dec : EqDecision GateEvidence.
Proof. solve_decision. Defined.

Definition _gate_document (e : GateEvidence) : json :=
  JObj [(lit "evidence_digest", JStr (evidence_digest e)); (lit "gate", JStr (gate_value (gate e)));
        (lit "status", JStr (status_value (gate_status e)))].

Definition _require_gate_set (es : list GateEvidence) : result unit :=
  require (len es =? 4) ValueError ;;
  require (bool_decide ((gate <$> es) = all_gates)) ValueError.

Definition _require_commands (cs : list pystr) : result unit :=
  require (negb (bool_decide (cs = []))) ValueError ;;
  each (λ c, require (negb (blank c) && bool_decide (c = strip c) && (len c <=? _MAX_COMMAND_LENGTH)
                      && negb (existsb is_surrogate c)) ValueError) cs ;;
  require (nodupb cs) ValueError.

(** The base of a generation: absent for the first, exact for every later one. *)
Definition _require_base (generation : Z) (base : option pystr) : result unit :=
  if generation =? 0 then require (bool_decide (base = None)) ValueError
  else match base with
       | None => Err ValueError
       | Some b => _require_digest (OStr b) ;; Ok tt
       end.

Record ReleaseCandidateRef := mkCandidateRef {
  cr_organization : UUID;
  cr_candidate_ref : pystr;
  cr_candidate_digest : pystr
}.
#[export] Instance ReleaseCandidateRef_eq_dec : EqDecision ReleaseCandidateRef.
Proof. solve_decision. Defined.
Record ReleaseCandidate := mkCandidate {
  ca_organization_id : UUID;
  ca_candidate_ref : pystr;
  ca_manifest : ReleaseManifest;
  ca_expected_active_generation : Z;
  ca_expected_base_manifest_digest : option pystr;
  ca_gate_evidence : list GateEvidence;
  ca_capability_coverage_digest : pystr;
  ca_fixture_digest : pystr;
  ca_verification_commands : list pystr;
  ca_candidate_digest : pystr
}.

Definition candidate_document (c : ReleaseCandidate) : list (list Z * json) :=
  [(lit "candidate_ref", JStr (ca_candidate_ref c));
   (lit "capability_coverage_digest", JStr (ca_capability_coverage_digest c));
   (lit "expected_active_generation", JStr (_canonical_bigint (ca_expected_active_generation c)));
   (lit "expected_base_manifest_digest", opt_text (ca_expected_base_manifest_digest c));
   (lit "fixture_digest", JStr (ca_fixture_digest c));
   (lit "gate_evidence", JArr (_gate_document <$> ca_gate_evidence c));
   (lit "manifest_digest", JStr (mf_manifest_digest (ca_manifest c)));
   (lit "manifest_ref", JStr (mf_manifest_ref (ca_manifest c)));
   (lit "organization_id", JStr (uuid_str (ca_organization_id c)));
   (lit "verification_commands", texts (ca_verification_commands c))].

Record ReleaseEvaluation := mkEvaluation {
  ev_organization_id : UUID;
  ev_candidate_ref : pystr;
  ev_candidate_digest : pystr;
  ev_manifest_ref : pystr;
  ev_manifest_digest : pystr;
  ev_expected_active_generation : Z;
  ev_expected_base_manifest_digest : option pystr;
  ev_gate_evidence : list GateEvidence;
  ev_compatibility_passed : bool;
  ev_compatibility_evidence_digest : pystr;
  ev_capability_coverage_digest : pystr;
  ev_fixture_digest : pystr;
  ev_verification_commands : list pystr;
  ev_evaluated_at : datetime;
  ev_signing_key_version : Z;
  ev_signature : pybytes;
  ev_digest_profile : pystr;
  ev_signature_profile : pystr;
  ev_evaluation_ref : pystr;
  ev_evaluation_digest : pystr
}.

(** [evaluation_document]; [_evaluation_document] builds the same entries before
    the evaluation exists. *)
Definition evaluation_document (e : ReleaseEvaluation) : list (list Z * json) :=
  [(lit "candidate_digest", JStr (ev_candidate_digest e)); (lit "candidate_ref", JStr (ev_candidate_ref e));
   (lit "capability_coverage_digest", JStr (ev_capability_coverage_digest e));
   (lit "compatibility_evidence_digest", JStr (ev_compatibility_evidence_digest e));
   (lit "compatibility_passed", JBool (ev_compatibility_passed e));
   (lit "evaluated_at", JStr (_timestamp (ev_evaluated_at e)));
   (lit "expected_active_generation", JStr (_canonical_bigint (ev_expected_active_generation e)));
   (lit "expected_base_manifest_digest", opt_text (ev_expected_base_manifest_digest e));
   (lit "fixture_digest", JStr (ev_fixture_digest e));
   (lit "gate_evidence", JArr (_gate_document <$> ev_gate_evidence e));
   (lit "manifest_digest", JStr (ev_manifest_digest e)); (lit "manifest_ref", JStr (ev_manifest_ref e));
   (lit "organization_id", JStr (uuid_str (ev_organization_id e)));
   (lit "verification_commands", texts (ev_verification_commands e))].

Record ReleaseEvaluationKeyring := mkEvaluationKeyring {
  ek_active_version : Z;
  ek_keys : list (Z * pybytes)
}.

(** The remaining constructors of the profiles, [registered_embedding] and
    [registered_tokenizer] being the registries of [supply/embeddings.py] and
    [tokenizer_accounting.py] (the latter returns the profile's reference). *)
Definition check_index_profile (registered_embedding : pystr → pystr → result unit)
    (p : IndexProfileRef) : result unit :=
  _require_ref (OStr (ip_profile_ref p)) ;; _require_digest (OStr (ip_profile_digest p)) ;;
  _require_digest (OStr (ip_content_profile_digest p)) ;; _require_ref (OStr (ip_content_schema_ref p)) ;;
  _require_ref (OStr (ip_index_schema_ref p)) ;;
  require (negb (bool_decide (ip_embedding_profile_document p = []))
           && (len (ip_embedding_profile_document p) <=? 16384)) ValueError ;;
  _require_digest (OStr (ip_embedding_profile_digest p)) ;;
  registered_embedding (ip_embedding_profile_document p) (ip_embedding_profile_digest p).

Definition check_runtime_profile (historical : pystr * pystr)
    (registered_tokenizer : pystr → pystr → result pystr) (p : RuntimeProfileRef) : result unit :=
  _require_ref (OStr (rp_profile_ref p)) ;; _require_digest (OStr (rp_profile_digest p)) ;;
  _require_digest (OStr (rp_content_profile_digest p)) ;; _require_digest (OStr (rp_index_profile_digest p)) ;;
  _require_ref (OStr (rp_content_schema_ref p)) ;; _require_ref (OStr (rp_index_schema_ref p)) ;;
  _require_ref (OStr (rp_tokenizer_ref p)) ;; _require_ref (OStr (rp_package_schema_ref p)) ;;
  if negb (bool_decide (rp_package_schema_ref p = lit "context-package-openapi-v1")) then
    require (bool_decide (rp_tokenizer_profile_document p = historical.1)
             && bool_decide (rp_tokenizer_profile_digest p = historical.2)) ValueError
  else
    ref ← try_except (registered_tokenizer (rp_tokenizer_profile_document p) (rp_tokenizer_profile_digest p))
            (λ e, bool_decide (e = TokenizerUnavailable)) (Err ValueError);
    require (bool_decide (ref = rp_tokenizer_ref p)) ValueError.

(** [CurationProfileRef.off], [.on] *)
Definition curation_off (ref digest : pystr) : result CurationProfileRef :=
  let p := mkCurationProfile ref digest CURATION_OFF None [] None in
  check_curation_profile p ;; Ok p.
Definition curation_on (ref digest snapshot : pystr) (revisions : list pystr) (evaluation : pystr) :
    result CurationProfileRef :=
  let p := mkCurationProfile ref digest CURATION_ON (Some snapshot) revisions (Some evaluation) in
  check_curation_profile p ;; Ok p.
Definition is_curation_off (p : CurationProfileRef) : bool := bool_decide (cu_mode p = CURATION_OFF).

Definition new_GateEvidence (g : Gate) (s : GateStatus) (digest : pystr) : result GateEvidence :=
  _require_digest (OStr digest) ;; Ok (mkGateEvidence g s digest).

Definition new_ReleaseCandidateRef (org : UUID) (ref digest : pystr) : result ReleaseCandidateRef :=
  _require_ref (OStr ref) ;; _require_digest (OStr digest) ;; Ok (mkCandidateRef org ref digest).

(** [ReleaseCandidate.reference] *)
Definition reference (c : ReleaseCandidate) : result ReleaseCandidateRef :=
  new_ReleaseCandidateRef (ca_organization_id c) (ca_candidate_ref c) (ca_candidate_digest c).

Record ReleaseCandidateSnapshot := mkSnapshot {
  sn_organization_id : UUID;
  sn_expected_active_generation : Z;
  sn_expected_base_manifest_digest : option pystr;
  sn_active_revision_refs : list pystr
}.
Definition new_ReleaseCandidateSnapshot (org : UUID) (generation : Z) (base : option pystr)
    (refs : list pystr) : result ReleaseCandidateSnapshot :=
  g ← _require_generation (OInt generation);
  _require_base g base ;;
  each (λ r, _require_ref (OStr r) ;; Ok tt) refs ;;
  require (nodupb refs) ValueError ;;
  keyed ← map_result (λ r, b ← encode_utf8 r; Ok (b, r)) refs;
  require (bool_decide (refs = (sorted_by fst keyed).*2)) ValueError ;;
  Ok (mkSnapshot org generation base refs).

(** [ReleaseEvaluationKeyring.__init__]; a mapping has no repeated version. *)
Definition new_ReleaseEvaluationKeyring (active : Z) (keys : list (Z * pybytes)) :
    result ReleaseEvaluationKeyring :=
  let version_ok v := (1 <=? v) && (v <=? MAX_SIGNED_BIGINT) in
  require (version_ok active) ValueError ;;
  require (negb (bool_decide (keys = []))) ValueError ;;
  each (λ vk, require (version_ok vk.1) ValueError ;;
              require (_MINIMUM_SIGNING_KEY_BYTES <=? len vk.2) ValueError) keys ;;
  require (bool_decide (active ∈ keys.*1)) ValueError ;;
  Ok (mkEvaluationKeyring active keys).

Definition _sign (k : ReleaseEvaluationKeyring) (digest : pystr) : result pybytes :=
  match dict_get (ek_keys k) (ek_active_version k) with
  | None => Err KeyError
  | Some key => b ← fromhex digest; Ok (hmac_sha256 key (_EVALUATION_SIGNATURE_DOMAIN ++ b))
  end.

Definition _verify (k : ReleaseEvaluationKeyring) (e : ReleaseEvaluation) : result bool :=
  match dict_get (ek_keys k) (ev_signing_key_version e) with
  | None => Ok false
  | Some key =>
      b ← fromhex (ev_evaluation_digest e);
      Ok (bool_decide (ev_signature e = hmac_sha256 key (_EVALUATION_SIGNATURE_DOMAIN ++ b)))
  end.

(** [except (TypeError, ValueError)] *)
Definition type_or_value (e : exn) : bool := is_TypeError e || is_ValueError e.

Section Canon.
Context (canon : json → result pybytes).

(** [_canonical_digest] of [contracts.py], [_domain_digest] of [evaluation.py] *)
Definition _domain_digest (domain : pybytes) (document : list (list Z * json)) : result pystr :=
  b ← canon (JObj document); Ok (hexdigest (domain ++ b)).

Definition manifest_document (m : ReleaseManifest) (lineage_digest : pystr) : list (list Z * json) :=
  release_manifest_lineage_document m
  ++ [(lit "lineage_digest", JStr lineage_digest); (lit "manifest_ref", JStr (mf_manifest_ref m))].

Definition manifest_digests (m : ReleaseManifest) : result (pystr * pystr) :=
  lineage ← _domain_digest _MANIFEST_LINEAGE_DOMAIN (release_manifest_lineage_document m);
  digest ← _domain_digest _MANIFEST_DOMAIN (manifest_document m lineage);
  Ok (lineage, digest).

(** [ReleaseManifest.__post_init__] *)
Definition new_ReleaseManifest (org : UUID) (ref : pystr) (content : ContentProfileRef)
    (index : IndexProfileRef) (runtime : RuntimeProfileRef) (curation : CurationProfileRef)
    (active_revision_refs : list pystr) : result ReleaseManifest :=
  let m := mkManifest org ref content index runtime curation active_revision_refs in
  _require_ref (OStr ref) ;;
  _require_canonical_refs active_revision_refs true ;;
  require (profiles_compatible (m [] [])) ValueError ;;
  ds ← manifest_digests (m [] []);
  Ok (m ds.1 ds.2).

Definition m0_empty (org : UUID) (ref : pystr) (content : ContentProfileRef)
    (index : IndexProfileRef) (runtime : RuntimeProfileRef) (curation : CurationProfileRef) :
    result ReleaseManifest :=
  require (is_curation_off curation) ValueError ;;
  new_ReleaseManifest org ref content index runtime curation [].

Definition verify_release_manifest (m : ReleaseManifest) : result bool :=
  try_except
    (ds ← manifest_digests m;
     Ok (bool_decide (mf_lineage_digest m = ds.1) && bool_decide (mf_manifest_digest m = ds.2)))
    type_or_value (Ok false).

(** [ReleaseCandidate.__post_init__] *)
Definition new_ReleaseCandidate (org : UUID) (ref : pystr) (manifest : ReleaseManifest) (generation : Z)
    (base : option pystr) (gates : list GateEvidence) (coverage fixture : pystr) (commands : list pystr) :
    result ReleaseCandidate :=
  let c := mkCandidate org ref manifest generation base gates coverage fixture commands in
  _require_ref (OStr ref) ;;
  require (bool_decide (mf_organization_id manifest = org)) ValueError ;;
  verified ← verify_release_manifest manifest;
  require verified ValueError ;;
  g ← _require_generation (OInt generation);
  require (g <? MAX_SIGNED_BIGINT) ValueError ;;
  _require_base g base ;;
  _require_gate_set gates ;;
  _require_digest (OStr coverage) ;;
  _require_digest (OStr fixture) ;;
  _require_commands commands ;;
  digest ← _domain_digest _CANDIDATE_DIGEST_DOMAIN (candidate_document (c []));
  Ok (c digest).

Definition verify_release_candidate (c : ReleaseCandidate) : result bool :=
  verified ← verify_release_manifest (ca_manifest c);
  if negb verified then Ok false
  else
    match _domain_digest _CANDIDATE_DIGEST_DOMAIN (candidate_document c) ≫= λ expected,
          _require_gate_set (ca_gate_evidence c) ;; Ok expected with
    | Err e => if type_or_value e then Ok false else Err e
    | Ok expected => compare_digest (ca_candidate_digest c) expected
    end.

Definition compatibility_document (c : ReleaseCandidate) (passed : bool) : list (list Z * json) :=
  let m := ca_manifest c in
  [(lit "active_revision_refs", texts (mf_active_revision_refs m));
   (lit "candidate_digest", JStr (ca_candidate_digest c));
   (lit "curation_mode", JStr (mode_value (cu_mode (mf_curation_profile m))));
   (lit "curation_snapshot_ref", opt_text (cu_snapshot_ref (mf_curation_profile m)));
   (lit "manifest_digest", JStr (mf_manifest_digest m));
   (lit "passed", JBool passed)].

Definition _compatibility (c : ReleaseCandidate) : result (bool * pystr) :=
  let passed := bool_decide (cu_mode (mf_curation_profile (ca_manifest c)) = CURATION_OFF) in
  digest ← _domain_digest _COMPATIBILITY_DIGEST_DOMAIN (compatibility_document c passed);
  Ok (passed, digest).

Definition _evaluation_document (c : ReleaseCandidate) (passed : bool) (digest : pystr) (at_ : datetime) :
    list (list Z * json) :=
  [(lit "candidate_digest", JStr (ca_candidate_digest c)); (lit "candidate_ref", JStr (ca_candidate_ref c));
   (lit "capability_coverage_digest", JStr (ca_capability_coverage_digest c));
   (lit "compatibility_evidence_digest", JStr digest);
   (lit "compatibility_passed", JBool passed);
   (lit "evaluated_at", JStr (_timestamp at_));
   (lit "expected_active_generation", JStr (_canonical_bigint (ca_expected_active_generation c)));
   (lit "expected_base_manifest_digest", opt_text (ca_expected_base_manifest_digest c));
   (lit "fixture_digest", JStr (ca_fixture_digest c));
   (lit "gate_evidence", JArr (_gate_document <$> ca_gate_evidence c));
   (lit "manifest_digest", JStr (mf_manifest_digest (ca_manifest c)));
   (lit "manifest_ref", JStr (mf_manifest_ref (ca_manifest c)));
   (lit "organization_id", JStr (uuid_str (ca_organization_id c)));
   (lit "verification_commands", texts (ca_verification_commands c))].

(** [ReleaseEvaluation.__post_init__]; the last four fields are not arguments of
    the constructor: [e] carries the other sixteen. *)
Definition ReleaseEvaluation_post_init (e : ReleaseEvaluation) : result ReleaseEvaluation :=
  _require_ref (OStr (ev_candidate_ref e)) ;; _require_digest (OStr (ev_candidate_digest e)) ;;
  _require_ref (OStr (ev_manifest_ref e)) ;; _require_digest (OStr (ev_manifest_digest e)) ;;
  g ← _require_generation (OInt (ev_expected_active_generation e));
  _require_base g (ev_expected_base_manifest_digest e) ;;
  _require_gate_set (ev_gate_evidence e) ;;
  _require_digest (OStr (ev_compatibility_evidence_digest e)) ;;
  _require_digest (OStr (ev_capability_coverage_digest e)) ;;
  _require_digest (OStr (ev_fixture_digest e)) ;;
  _require_commands (ev_verification_commands e) ;;
  require_utc (ev_evaluated_at e) ;;
  require ((1 <=? ev_signing_key_version e) && (ev_signing_key_version e <=? MAX_SIGNED_BIGINT)) ValueError ;;
  require (len (ev_signature e) =? 32) ValueError ;;
  digest ← _domain_digest _EVALUATION_DIGEST_DOMAIN (evaluation_document e);
  Ok (mkEvaluation (ev_organization_id e) (ev_candidate_ref e) (ev_candidate_digest e) (ev_manifest_ref e)
        (ev_manifest_digest e) (ev_expected_active_generation e) (ev_expected_base_manifest_digest e)
        (ev_gate_evidence e) (ev_compatibility_passed e) (ev_compatibility_evidence_digest e)
        (ev_capability_coverage_digest e) (ev_fixture_digest e) (ev_verification_commands e)
        (ev_evaluated_at e) (ev_signing_key_version e) (ev_signature e)
        RELEASE_EVALUATION_DIGEST_PROFILE RELEASE_EVALUATION_SIGNATURE_PROFILE
        (lit "evaluation_" ++ digest) digest).

Definition evaluate_candidate (c : ReleaseCandidate) (keyring : ReleaseEvaluationKeyring)
    (evaluated_at : datetime) : result ReleaseEvaluation :=
  verified ← verify_release_candidate c;
  require verified ValueError ;;
  checked_at ← require_utc evaluated_at;
  compat ← _compatibility c;
  digest ← _domain_digest _EVALUATION_DIGEST_DOMAIN (_evaluation_document c compat.1 compat.2 checked_at);
  signature ← _sign keyring digest;
  ReleaseEvaluation_post_init
    (mkEvaluation (ca_organization_id c) (ca_candidate_ref c) (ca_candidate_digest c)
       (mf_manifest_ref (ca_manifest c)) (mf_manifest_digest (ca_manifest c))
       (ca_expected_active_generation c) (ca_expected_base_manifest_digest c) (ca_gate_evidence c)
       compat.1 compat.2 (ca_capability_coverage_digest c) (ca_fixture_digest c) (ca_verification_commands c)
       checked_at (ek_active_version keyring) signature [] [] [] []).

Definition exact_binding (e : ReleaseEvaluation) (c : ReleaseCandidate) (compat : bool * pystr) : bool :=
  bool_decide (ev_organization_id e = ca_organization_id c)
  && bool_decide (ev_candidate_ref e = ca_candidate_ref c)
  && bool_decide (ev_candidate_digest e = ca_candidate_digest c)
  && bool_decide (ev_manifest_ref e = mf_manifest_ref (ca_manifest c))
  && bool_decide (ev_manifest_digest e = mf_manifest_digest (ca_manifest c))
  && (ev_expected_active_generation e =? ca_expected_active_generation c)
  && bool_decide (ev_expected_base_manifest_digest e = ca_expected_base_manifest_digest c)
  && bool_decide (ev_gate_evidence e = ca_gate_evidence c)
  && Bool.eqb (ev_compatibility_passed e) compat.1
  && bool_decide (ev_compatibility_evidence_digest e = compat.2)
  && bool_decide (ev_capability_coverage_digest e = ca_capability_coverage_digest c)
  && bool_decide (ev_fixture_digest e = ca_fixture_digest c)
  && bool_decide (ev_verification_commands e = ca_verification_commands c)
  && bool_decide (ev_evaluation_ref e = lit "evaluation_" ++ ev_evaluation_digest e)
  && bool_decide (ev_digest_profile e = RELEASE_EVALUATION_DIGEST_PROFILE)
  && bool_decide (ev_signature_profile e = RELEASE_EVALUATION_SIGNATURE_PROFILE).

Definition verify_release_evaluation (e : ReleaseEvaluation) (c : ReleaseCandidate)
    (keyring : ReleaseEvaluationKeyring) : result bool :=
  verified ← verify_release_candidate c;
  if negb verified then Ok false
  else
    match _domain_digest _EVALUATION_DIGEST_DOMAIN (evaluation_document e) ≫= λ expected,
          compat ← _compatibility c; Ok (expected, compat) with
    | Err err => if type_or_value err then Ok false else Err err
    | Ok (expected, compat) =>
        if negb (exact_binding e c compat) then Ok false
        else
          same ← compare_digest (ev_evaluation_digest e) expected;
          if negb same then Ok false else _verify keyring e
    end.
End Canon.
