(* ===== verification/ReleaseFacts.v ===== *)
(** * What a signed release evaluation promises

    The canonicalizer's contract [Canonicalizer] (RFC 8785 on values without
    numbers), and the two halves of the evaluation's correctness: an evaluation of
    a constructed candidate exists and verifies, and a verified evaluation admits
    one release only. *)

From S2P Require Import Prelude Codec Sha256 Datetime Json Trusted TicketIdentity Release.

(** ** The canonicalizer's contract *)

Definition well_formed_text (s : pystr) : bool :=
  forallb (λ c, (0 <=? c) && (c <=? 0x10FFFF) && negb (is_surrogate c)) s.

(** No numbers and no repeated key: the shape of every release document. *)
Fixpoint shape (v : json) : bool :=
  match v with
  | JInt _ | JFloat _ => false
  | JArr l => forallb shape l
  | JObj kvs => nodupb kvs.*1 && forallb (λ kv, shape kv.2) kvs
  | _ => true
  end.

Fixpoint unicode (v : json) : bool :=
  match v with
  | JStr s => well_formed_text s
  | JArr l => forallb unicode l
  | JObj kvs => forallb (λ kv, well_formed_text kv.1 && unicode kv.2) kvs
  | _ => true
  end.

(** RFC 8785: such a value has a canonical form only when its text is well-formed
    Unicode, and then always if it does not nest deep; two values with the same
    canonical form differ at most in the order of their keys. *)
Class Canonicalizer (canon : json → result pybytes) := {
  canon_total : ∀ v, shape v = true → unicode v = true → nests document_depth v = true → ∃ b, canon v = Ok b;
  canon_strict : ∀ v b, shape v = true → canon v = Ok b → unicode v = true;
  canon_injective : ∀ v w b, shape v = true → shape w = true → canon v = Ok b → canon w = Ok b →
    sort_keys v = sort_keys w
}.

(** ** Objects up to the order of their keys *)

Lemma dict_get_values {V W} (f : V → W) (d : list (pystr * V)) k :
  dict_get ((λ kv, (kv.1, f kv.2)) <$> d) k = f <$> dict_get d k.
Proof. induction d as [|[a v] d IH]; [done|]. cbn. by case_decide. Qed.

Lemma sort_keys_get d d' k :
  sort_keys (JObj d) = sort_keys (JObj d') → shape (JObj d) = true → shape (JObj d') = true →
  sort_keys <$> dict_get d k = sort_keys <$> dict_get d' k.
Proof.
  intros H Hd Hd'. cbn [shape] in Hd, Hd'. apply andb_true_iff in Hd as [Hd%bool_decide_eq_true _].
  apply andb_true_iff in Hd' as [Hd'%bool_decide_eq_true _].
  assert (Hk : ∀ e : list (list Z * json), ((λ kv, (kv.1, sort_keys kv.2)) <$> e).*1 = e.*1).
  { intros e. rewrite <- list_fmap_compose. done. }
  assert (Hg : ∀ e : list (list Z * json), NoDup e.*1 →
    dict_get (sorted_by fst ((λ kv, (kv.1, sort_keys kv.2)) <$> e)) k = sort_keys <$> dict_get e k).
  { intros e He. rewrite <- dict_get_values. apply dict_get_perm; [by rewrite sorted_by_perm, Hk|].
    apply sorted_by_perm. }
  rewrite <- (Hg d), <- (Hg d') by done.
  cbn [sort_keys] in H. congruence.
Qed.

Lemma sort_keys_texts l : sort_keys (texts l) = texts l.
Proof. unfold texts. cbn [sort_keys]. f_equal. induction l; [done|]. cbn. by f_equal. Qed.
Lemma texts_inj l l' : texts l = texts l' → l = l'.
Proof. unfold texts. intros [= H]. apply list_fmap_eq_inj in H; [done|]. intros ?? E. congruence. Qed.
Lemma opt_text_inj o o' : opt_text o = opt_text o' → o = o'.
Proof. destruct o, o'; cbn; congruence. Qed.
Lemma sort_keys_opt_text o : sort_keys (opt_text o) = opt_text o.
Proof. by destruct o. Qed.

(** ** The documents have the shape *)

Lemma shape_texts l : shape (texts l) = true.
Proof. unfold texts. cbn [shape]. by induction l. Qed.
Lemma shape_opt_text o : shape (opt_text o) = true.
Proof. by destruct o. Qed.
Lemma shape_gates es : shape (JArr (_gate_document <$> es)) = true.
Proof.
  cbn [shape]. induction es as [|e es IH]; [done|]. rewrite fmap_cons. cbn [forallb].
  rewrite IH, andb_true_r. by vm_compute.
Qed.

Definition distinct (keys : list pystr) : bool := nodupb keys.

(** A document given by its entries: the keys are literals. *)
Lemma shape_doc kvs : distinct kvs.*1 = true → Forall (λ kv, shape kv.2 = true) kvs → shape (JObj kvs) = true.
Proof.
  intros Hk H. cbn [shape]. unfold distinct in Hk. rewrite Hk. cbn. apply forallb_forall.
  rewrite Forall_forall in H. intros kv Hkv. apply H. by apply list_elem_of_In.
Qed.
Ltac shape_doc :=
  apply shape_doc; [by vm_compute|];
  repeat apply Forall_cons_2; try apply Forall_nil_2; cbn [snd];
  first [reflexivity | apply shape_texts | apply shape_opt_text | apply shape_gates | idtac].

Lemma content_shape p : shape (content_document p) = true.
Proof. unfold content_document. shape_doc. Qed.
Lemma index_shape p : shape (index_document p) = true.
Proof. unfold index_document. shape_doc. Qed.
Lemma runtime_shape p : shape (runtime_document p) = true.
Proof. unfold runtime_document. case_bool_decide; cbn [app]; shape_doc. Qed.
Lemma curation_shape p : shape (curation_document p) = true.
Proof. unfold curation_document. shape_doc. Qed.
Lemma lineage_shape m : shape (JObj (release_manifest_lineage_document m)) = true.
Proof.
  unfold release_manifest_lineage_document. shape_doc;
    auto using content_shape, index_shape, runtime_shape, curation_shape.
Qed.
Lemma manifest_shape m d : shape (JObj (manifest_document m d)) = true.
Proof.
  unfold manifest_document, release_manifest_lineage_document. cbn [app]. shape_doc;
    auto using content_shape, index_shape, runtime_shape, curation_shape.
Qed.
Lemma candidate_shape c : shape (JObj (candidate_document c)) = true.
Proof. unfold candidate_document. shape_doc. Qed.
Lemma compatibility_shape c b : shape (JObj (compatibility_document c b)) = true.
Proof. unfold compatibility_document. shape_doc. Qed.
Lemma evaluation_shape e : shape (JObj (evaluation_document e)) = true.
Proof. unfold evaluation_document. shape_doc. Qed.
#[export] Hint Resolve lineage_shape manifest_shape candidate_shape compatibility_shape evaluation_shape : engine.

(** ** Equal documents have equal entries *)

Lemma same_nth i d d' k v v' :
  sort_keys (JObj d) = sort_keys (JObj d') → shape (JObj d) = true → shape (JObj d') = true →
  d !! i = Some (k, v) → d' !! i = Some (k, v') → sort_keys v = sort_keys v'.
Proof.
  intros H Hd Hd' Hi Hi'. pose proof (sort_keys_get d d' k H Hd Hd') as E.
  cbn [shape] in Hd, Hd'. apply andb_true_iff in Hd as [Hd%bool_decide_eq_true _].
  apply andb_true_iff in Hd' as [Hd'%bool_decide_eq_true _].
  rewrite (proj2 (dict_get_Some d k v Hd)) in E by (by eapply list_elem_of_lookup_2).
  rewrite (proj2 (dict_get_Some d' k v' Hd')) in E by (by eapply list_elem_of_lookup_2).
  cbn in E. congruence.
Qed.

(** Entry [i] of two equal documents [H], as a new hypothesis. *)
Ltac entry H i E :=
  match type of H with
  | sort_keys (JObj ?d) = sort_keys (JObj ?d') =>
      let s := fresh in let s' := fresh in
      assert (s : shape (JObj d) = true) by eauto with engine;
      assert (s' : shape (JObj d') = true) by eauto with engine;
      pose proof (same_nth i d d' _ _ _ H s s' eq_refl eq_refl) as E; clear s s'
  end.

Lemma content_document_inj p q :
  sort_keys (content_document p) = sort_keys (content_document q) → p = q.
Proof.
  pose proof (content_shape p) as Sp. pose proof (content_shape q) as Sq. unfold content_document in *. intros H.
  entry H 0%nat E0. entry H 1%nat E1. entry H 2%nat E2. destruct p, q; cbn in *. congruence.
Qed.

Lemma index_document_inj p q : sort_keys (index_document p) = sort_keys (index_document q) → p = q.
Proof.
  pose proof (index_shape p) as Sp. pose proof (index_shape q) as Sq. unfold index_document in *. intros H.
  entry H 0%nat E0. entry H 1%nat E1. entry H 2%nat E2. entry H 3%nat E3. entry H 4%nat E4. entry H 5%nat E5.
  entry H 6%nat E6. destruct p, q; cbn in *. congruence.
Qed.

Lemma mode_value_inj a b : mode_value a = mode_value b → a = b.
Proof. by destruct a, b. Qed.

Lemma curation_document_inj p q : sort_keys (curation_document p) = sort_keys (curation_document q) → p = q.
Proof.
  pose proof (curation_shape p) as Sp. pose proof (curation_shape q) as Sq. unfold curation_document in *. intros H.
  entry H 0%nat E0. entry H 1%nat E1. entry H 2%nat E2. entry H 3%nat E3. entry H 4%nat E4. entry H 5%nat E5.
  rewrite !sort_keys_texts in E0. apply texts_inj in E0.
  rewrite !sort_keys_opt_text in E1. apply opt_text_inj in E1.
  rewrite !sort_keys_opt_text in E2. apply opt_text_inj in E2.
  assert (E3' : mode_value (cu_mode p) = mode_value (cu_mode q)) by (cbn [sort_keys] in E3; congruence). apply mode_value_inj in E3'.
  destruct p, q; cbn in *. congruence.
Qed.

(** The tokenizer profile of a historical package schema is not in the document:
    the constructor fixes it. *)
Lemma runtime_document_inj historical reg reg' p q :
  check_runtime_profile historical reg p = Ok tt → check_runtime_profile historical reg' q = Ok tt →
  sort_keys (runtime_document p) = sort_keys (runtime_document q) → p = q.
Proof.
  intros Hp Hq H. pose proof (runtime_shape p) as Sp. pose proof (runtime_shape q) as Sq.
  assert (E : rp_package_schema_ref p = rp_package_schema_ref q).
  { unfold runtime_document in *. entry H 4%nat E. cbn in E. congruence. }
  unfold check_runtime_profile in Hp, Hq. run_ok. rewrite E in *. unfold runtime_document in *. rewrite E in *.
  destruct (bool_decide (rp_package_schema_ref q = _)); cbn [negb app] in *; run_ok;
  entry H 0%nat E0; entry H 1%nat E1; entry H 2%nat E2; entry H 3%nat E3; entry H 5%nat E5; entry H 6%nat E6;
  entry H 7%nat E7; [entry H 8%nat E8; entry H 9%nat E9|]; destruct p, q; cbn in *; congruence.
Qed.

Section Facts.
Context (canon : json → result pybytes) `{!Canonicalizer canon}.

(** Two documents that were hashed under one domain to one digest. *)
Definition digest_collision (domain : pybytes) (d d' : list (list Z * json)) : Prop :=
  ∃ b b', canon (JObj d) = Ok b ∧ canon (JObj d') = Ok b' ∧ collision (domain ++ b) (domain ++ b').

Lemma domain_digest_inj domain d d' x :
  shape (JObj d) = true → shape (JObj d') = true →
  _domain_digest canon domain d = Ok x → _domain_digest canon domain d' = Ok x →
  sort_keys (JObj d) = sort_keys (JObj d') ∨ digest_collision domain d d'.
Proof.
  intros Hd Hd' (b & Hb & Hx)%bind_Ok (b' & Hb' & Hx')%bind_Ok.
  assert (E : hexdigest (domain ++ b) = hexdigest (domain ++ b')) by congruence.
  apply hexdigest_eq in E as [E%app_inv_head|E]; [left; subst b'|right; by exists b, b'].
  by apply (canon_injective _ _ b).
Qed.

Lemma verify_manifest_Ok m :
  verify_release_manifest canon m = Ok true →
  _domain_digest canon _MANIFEST_LINEAGE_DOMAIN (release_manifest_lineage_document m) = Ok (mf_lineage_digest m)
  ∧ _domain_digest canon _MANIFEST_DOMAIN (manifest_document m (mf_lineage_digest m)) = Ok (mf_manifest_digest m).
Proof.
  unfold verify_release_manifest, try_except. intros H.
  destruct (manifest_digests canon m ≫= _) as [b|e] eqn:E; [|destruct (type_or_value e); discriminate].
  apply Ok_inj in H as ->. apply bind_Ok in E as ([l d] & E & H). cbn [fst snd] in H. run_ok. subst l d.
  unfold manifest_digests in E. apply bind_Ok in E as (l & El & E). apply bind_Ok in E as (d & Ed & E).
  injection E as -> ->. by split.
Qed.

Lemma manifest_determined historical reg reg' m m' :
  verify_release_manifest canon m = Ok true → verify_release_manifest canon m' = Ok true →
  check_runtime_profile historical reg (mf_runtime_profile m) = Ok tt →
  check_runtime_profile historical reg' (mf_runtime_profile m') = Ok tt →
  uuid_ok (mf_organization_id m) → uuid_ok (mf_organization_id m') →
  mf_manifest_digest m = mf_manifest_digest m' →
  m = m'
  ∨ digest_collision _MANIFEST_DOMAIN (manifest_document m (mf_lineage_digest m))
      (manifest_document m' (mf_lineage_digest m')).
Proof.
  intros [_ Hm]%verify_manifest_Ok [_ Hm']%verify_manifest_Ok Hr Hr' Hu Hu' Hd.
  rewrite <- Hd in Hm'.
  destruct (domain_digest_inj _ _ _ _ (manifest_shape _ _) (manifest_shape _ _) Hm Hm') as [E|E]; [left|by right].
  entry E 0%nat E0. entry E 1%nat E1. entry E 2%nat E2. entry E 3%nat E3. entry E 4%nat E4. entry E 5%nat E5.
  entry E 6%nat E6. entry E 7%nat E7.
  rewrite !sort_keys_texts in E0. apply texts_inj in E0. apply content_document_inj in E1.
  apply curation_document_inj in E2. apply index_document_inj in E3.
  assert (E4' : mf_organization_id m = mf_organization_id m').
  { apply uuid_str_inj; [done..|]. cbn [sort_keys] in E4. congruence. }
  apply (runtime_document_inj historical reg reg') in E5; [|done..].
  destruct m, m'; cbn [sort_keys] in *; cbn in *. congruence.
Qed.

Lemma verify_candidate_Ok c :
  verify_release_candidate canon c = Ok true →
  verify_release_manifest canon (ca_manifest c) = Ok true
  ∧ _domain_digest canon _CANDIDATE_DIGEST_DOMAIN (candidate_document c) = Ok (ca_candidate_digest c)
  ∧ (gate <$> ca_gate_evidence c) = all_gates.
Proof.
  unfold verify_release_candidate. intros ([] & Hm & H)%bind_Ok; cbn [negb] in H; [|done].
  destruct (_domain_digest _ _ _ ≫= _) as [x|e] eqn:E; [|destruct (type_or_value e); discriminate].
  apply bind_Ok in E as (y & Ey & E). apply bind_Ok in E as ([] & Eg & E). apply Ok_inj in E as ->.
  unfold compare_digest, _require_gate_set in *. run_ok. by subst.
Qed.

Lemma exact_binding_spec e c compat :
  exact_binding e c compat = true →
  ev_organization_id e = ca_organization_id c ∧ ev_candidate_ref e = ca_candidate_ref c
  ∧ ev_candidate_digest e = ca_candidate_digest c ∧ ev_manifest_ref e = mf_manifest_ref (ca_manifest c)
  ∧ ev_manifest_digest e = mf_manifest_digest (ca_manifest c)
  ∧ ev_expected_active_generation e = ca_expected_active_generation c
  ∧ ev_expected_base_manifest_digest e = ca_expected_base_manifest_digest c
  ∧ ev_gate_evidence e = ca_gate_evidence c ∧ ev_compatibility_passed e = compat.1
  ∧ ev_compatibility_evidence_digest e = compat.2
  ∧ ev_capability_coverage_digest e = ca_capability_coverage_digest c
  ∧ ev_fixture_digest e = ca_fixture_digest c ∧ ev_verification_commands e = ca_verification_commands c
  ∧ ev_evaluation_ref e = lit "evaluation_" ++ ev_evaluation_digest e.
Proof. unfold exact_binding. intros H. run_ok. split_and!; try done; [lia|by apply eqb_prop]. Qed.

(** Everything a successful verification establishes. *)
Lemma verify_evaluation_Ok e c k :
  verify_release_evaluation canon e c k = Ok true →
  verify_release_candidate canon c = Ok true
  ∧ _domain_digest canon _EVALUATION_DIGEST_DOMAIN (evaluation_document e) = Ok (ev_evaluation_digest e)
  ∧ (∃ compat, _compatibility canon c = Ok compat ∧ exact_binding e c compat = true)
  ∧ _verify k e = Ok true.
Proof.
  unfold verify_release_evaluation. intros ([] & Hc & H)%bind_Ok; cbn [negb] in H; [|done].
  destruct (_domain_digest _ _ _ ≫= _) as [[x compat]|err] eqn:E; [|destruct (type_or_value err); discriminate].
  apply bind_Ok in E as (y & Ey & E). apply bind_Ok in E as (compat' & Ec & E). injection E as -> ->.
  destruct (exact_binding e c compat) eqn:Eb; cbn [negb] in H; [|discriminate].
  apply bind_Ok in H as ([] & Es & H); cbn [negb] in H; [|discriminate].
  unfold compare_digest in Es. run_ok. subst x. split_and!; eauto.
Qed.

(** C30: one signed evaluation admits one release: two candidates that both verify
    against it (under any keyrings) are the same candidate, manifest and profiles
    included, or the two hashed manifest documents collide under SHA-256.  The
    profiles passed their constructor and the identifiers are UUIDs. *)
Theorem evaluation_admits_one_release historical reg reg' e c c' k k' :
  verify_release_evaluation canon e c k = Ok true →
  verify_release_evaluation canon e c' k' = Ok true →
  check_runtime_profile historical reg (mf_runtime_profile (ca_manifest c)) = Ok tt →
  check_runtime_profile historical reg' (mf_runtime_profile (ca_manifest c')) = Ok tt →
  uuid_ok (mf_organization_id (ca_manifest c)) → uuid_ok (mf_organization_id (ca_manifest c')) →
  c = c'
  ∨ digest_collision _MANIFEST_DOMAIN
      (manifest_document (ca_manifest c) (mf_lineage_digest (ca_manifest c)))
      (manifest_document (ca_manifest c') (mf_lineage_digest (ca_manifest c'))).
Proof.
  intros (Hc & _ & (p & _ & Hb%exact_binding_spec) & _)%verify_evaluation_Ok
    (Hc' & _ & (p' & _ & Hb'%exact_binding_spec) & _)%verify_evaluation_Ok Hr Hr' Hu Hu'.
  apply verify_candidate_Ok in Hc as (Hm & _ & _). apply verify_candidate_Ok in Hc' as (Hm' & _ & _).
  destruct_and!.
  destruct (manifest_determined historical reg reg' _ _ Hm Hm' Hr Hr' Hu Hu') as [E|E]; [congruence| |by right].
  left. destruct c, c'; cbn in *. congruence.
Qed.

(** ** A constructed candidate is evaluated, and its evaluation verifies *)

Lemma printable_text s : Forall printable s → well_formed_text s = true.
Proof.
  intros H. apply forallb_forall. intros c Hc%list_elem_of_In. rewrite Forall_forall in H.
  specialize (H c Hc). unfold printable, is_surrogate in *. lia.
Qed.

Lemma sha256_hex_text s : is_sha256_hex s = true → Forall printable s.
Proof.
  intros [_ H]%andb_true_iff. unfold all_in in H. rewrite forallb_forall in H.
  apply Forall_forall. intros c Hc%list_elem_of_In%H. apply mem_spec in Hc. revert c Hc.
  apply Forall_forall, closed_printable. by vm_compute.
Qed.

Lemma replace_in_printable n old new s :
  Forall printable new → Forall printable s → Forall printable (replace_in n old new s).
Proof.
  intros Hn. revert s. induction n as [|n IH]; intros s Hs; [done|]. destruct s as [|c s]; [done|].
  cbn [replace_in]. destruct (startswith _ _).
  - apply Forall_app. split; [done|]. by apply IH, Forall_drop.
  - apply Forall_cons in Hs as [Hc Hs]. constructor; auto.
Qed.

Lemma timestamp_text d : is_utc d = true → Forall printable (Release._timestamp d).
Proof.
  unfold is_utc. intros Hu%bool_decide_eq_true. unfold Release._timestamp, replace.
  apply replace_in_printable; [by apply closed_printable; vm_compute|]. unfold isoformat_us. rewrite Hu.
  unfold iso_date, iso_time, iso_micros. destruct (ord2ymd _) as [[y m] dd].
  rewrite !Forall_app. split_and!; try apply padded_printable; by apply closed_printable; vm_compute.
Qed.

(** The text of one entry of a document, and of a document entry by entry. *)
Lemma unicode_nth i d k v : unicode (JObj d) = true → d !! i = Some (k, v) → unicode v = true.
Proof.
  cbn [unicode]. rewrite forallb_forall. intros H Hi. apply list_elem_of_lookup_2, list_elem_of_In in Hi.
  apply H in Hi. by apply andb_true_iff in Hi as [_ Hi].
Qed.
Lemma unicode_doc d :
  forallb (λ k, well_formed_text k) d.*1 = true → Forall (λ kv, unicode kv.2 = true) d → unicode (JObj d) = true.
Proof.
  intros Hk Hv. cbn [unicode]. induction Hv as [|[k v] d Hv _ IH]; [done|].
  rewrite fmap_cons in Hk. cbn [forallb fst snd] in *. apply andb_true_iff in Hk as [Hk Hd].
  by rewrite Hk, Hv, (IH Hd).
Qed.
Ltac unicode_doc :=
  apply unicode_doc; [by vm_compute|];
  repeat apply Forall_cons_2; try apply Forall_nil_2; cbn [snd].

Lemma digest_text domain d x : _domain_digest canon domain d = Ok x → is_sha256_hex x = true.
Proof. intros (b & _ & <-%Ok_inj)%bind_Ok. apply hexdigest_shape. Qed.
Lemma digest_unicode domain d x :
  shape (JObj d) = true → _domain_digest canon domain d = Ok x → unicode (JObj d) = true.
Proof. intros Hs (b & Hb & _)%bind_Ok. by eapply canon_strict. Qed.
Lemma digest_total domain d :
  shape (JObj d) = true → unicode (JObj d) = true → nests document_depth (JObj d) = true →
  ∃ x, _domain_digest canon domain d = Ok x.
Proof. intros Hs Hu Hn. destruct (canon_total _ Hs Hu Hn) as [b Hb]. eexists. unfold _domain_digest. by rewrite Hb. Qed.
Lemma sha256_json s : is_sha256_hex s = true → unicode (JStr s) = true.
Proof. intros H. by apply printable_text, sha256_hex_text. Qed.

Lemma compatibility_nests c b : nests document_depth (JObj (compatibility_document c b)) = true.
Proof.
  assert (Ht : ∀ l, nests 7 (texts l) = true) by (intros l; by apply nests_map).
  unfold compatibility_document. cbn [nests forallb fst snd] in *. rewrite Ht. by destruct (cu_snapshot_ref _).
Qed.
Lemma evaluation_nests c b d t : nests document_depth (JObj (_evaluation_document c b d t)) = true.
Proof.
  assert (Ht : ∀ l, nests 7 (texts l) = true) by (intros l; by apply nests_map).
  assert (Hg : ∀ l, nests 7 (JArr (_gate_document <$> l)) = true) by (intros l; by apply nests_map).
  unfold _evaluation_document. cbn [nests forallb fst snd] in *. rewrite Ht, Hg.
  by destruct (ca_expected_base_manifest_digest c).
Qed.

Lemma compatibility_total c :
  verify_release_candidate canon c = Ok true →
  ∃ d, _compatibility canon c
       = Ok (bool_decide (cu_mode (mf_curation_profile (ca_manifest c)) = CURATION_OFF), d)
       ∧ is_sha256_hex d = true.
Proof.
  intros (Hl & Hc & _)%verify_candidate_Ok. apply verify_manifest_Ok in Hl as [Hl Hm]. unfold _compatibility.
  set (b := bool_decide _).
  destruct (digest_total _COMPATIBILITY_DIGEST_DOMAIN (compatibility_document c b)) as [d Hd];
    [apply compatibility_shape| |apply compatibility_nests|rewrite Hd; exists d; eauto using digest_text].
  apply digest_unicode in Hl; [|apply lineage_shape].
  pose proof (unicode_nth 0 _ _ _ Hl eq_refl) as H0. pose proof (unicode_nth 2 _ _ _ Hl eq_refl) as H2.
  pose proof (unicode_nth 1 _ _ _ H2 eq_refl) as H21. pose proof (unicode_nth 3 _ _ _ H2 eq_refl) as H23.
  unfold compatibility_document. unicode_doc; try done; by eapply sha256_json, digest_text.
Qed.

Lemma sign_total active keys k s :
  new_ReleaseEvaluationKeyring active keys = Ok k → is_sha256_hex s = true → (∃ x, s = hexdigest x) →
  ∃ key sig, dict_get (ek_keys k) (ek_active_version k) = Some key ∧ _sign k s = Ok sig
    ∧ len sig = 32 ∧ 1 ≤ ek_active_version k ≤ MAX_SIGNED_BIGINT.
Proof.
  intros Hk Hs [x ->]. unfold new_ReleaseEvaluationKeyring in Hk. run_ok. cbn [ek_keys ek_active_version] in *.
  destruct (dict_get keys active) as [key|] eqn:E; [|by apply dict_get_None in E].
  exists key. unfold _sign. cbn [ek_keys ek_active_version]. rewrite E.
  change (hexdigest x) with (hex (sha256 x)). rewrite fromhex_hex by apply sha256_byte_ok.
  eexists. split; [done|]. split; [reflexivity|]. unfold len.
  rewrite (proj1 (hmac_shape _ _)). split; [reflexivity|lia].
Qed.

Lemma compare_digest_refl x : is_sha256_hex x = true → compare_digest x x = Ok true.
Proof.
  intros Hx%sha256_hex_text. unfold compare_digest. rewrite (bool_decide_eq_true_2 _ eq_refl).
  assert (Ha : forallb (λ c, c <? 128) x = true); [|by rewrite Ha].
  apply forallb_forall. intros c Hc%list_elem_of_In. rewrite Forall_forall in Hx. specialize (Hx c Hc).
  unfold printable in Hx. lia.
Qed.

Lemma candidate_constructed org ref m g base gates coverage fixture commands c :
  new_ReleaseCandidate canon org ref m g base gates coverage fixture commands = Ok c →
  verify_release_candidate canon c = Ok true
  ∧ ∃ d, c = mkCandidate org ref m g base gates coverage fixture commands d ∧ is_sha256_hex d = true
  ∧ _require_ref (OStr ref) = Ok ref ∧ _require_generation (OInt g) = Ok g ∧ _require_base g base = Ok tt
  ∧ _require_gate_set gates = Ok tt ∧ _require_digest (OStr coverage) = Ok coverage
  ∧ _require_digest (OStr fixture) = Ok fixture ∧ _require_commands commands = Ok tt.
Proof.
  unfold new_ReleaseCandidate. intros (r & Hr & H)%bind_Ok.
  apply bind_Ok in H as ([] & Ho & H). apply bind_Ok in H as (v & Hv & H). apply bind_Ok in H as ([] & Hv' & H).
  apply require_Ok in Hv' as ->. apply bind_Ok in H as (g' & Hg & H). apply bind_Ok in H as ([] & Hg' & H).
  apply bind_Ok in H as ([] & Hb & H). apply bind_Ok in H as ([] & Hgs & H). apply bind_Ok in H as (cv & Hcv & H).
  apply bind_Ok in H as (fx & Hfx & H). apply bind_Ok in H as ([] & Hcm & H). apply bind_Ok in H as (d & Hd & H).
  apply Ok_inj in H as <-. pose proof (digest_text _ _ _ Hd) as Hx.
  assert (r = ref) as -> by (unfold _require_ref in Hr; run_ok; done).
  assert (g' = g) as -> by (unfold _require_generation in Hg; run_ok; done).
  assert (cv = coverage) as -> by (unfold _require_digest in Hcv; run_ok; done).
  assert (fx = fixture) as -> by (unfold _require_digest in Hfx; run_ok; done).
  split; [|by exists d].
  unfold verify_release_candidate. cbn [ca_manifest ca_gate_evidence ca_candidate_digest]. rewrite Hv.
  cbn [mbind result_bind negb].
  change (candidate_document _) with (candidate_document
    (mkCandidate org ref m g base gates coverage fixture commands [])).
  rewrite Hd. cbn [mbind result_bind]. rewrite Hgs. cbn [mbind result_bind]. by apply compare_digest_refl.
Qed.

(** The record that [evaluate_candidate] builds. *)
Definition signed_evaluation (c : ReleaseCandidate) (p : bool) (cd : pystr) (t : datetime) (version : Z)
    (sig : pybytes) (dp sp ref d : pystr) : ReleaseEvaluation :=
  mkEvaluation (ca_organization_id c) (ca_candidate_ref c) (ca_candidate_digest c)
    (mf_manifest_ref (ca_manifest c)) (mf_manifest_digest (ca_manifest c))
    (ca_expected_active_generation c) (ca_expected_base_manifest_digest c) (ca_gate_evidence c)
    p cd (ca_capability_coverage_digest c) (ca_fixture_digest c) (ca_verification_commands c)
    t version sig dp sp ref d.

Lemma signed_evaluation_verifies c k p cd t sig d :
  verify_release_candidate canon c = Ok true → _compatibility canon c = Ok (p, cd) →
  _domain_digest canon _EVALUATION_DIGEST_DOMAIN (_evaluation_document c p cd t) = Ok d →
  _sign k d = Ok sig →
  verify_release_evaluation canon
    (signed_evaluation c p cd t (ek_active_version k) sig RELEASE_EVALUATION_DIGEST_PROFILE
       RELEASE_EVALUATION_SIGNATURE_PROFILE (lit "evaluation_" ++ d) d) c k = Ok true.
Proof.
  intros Hc Hp Hd Hs. unfold verify_release_evaluation. rewrite Hc. cbn [mbind result_bind negb].
  change (evaluation_document _) with (_evaluation_document c p cd t). rewrite Hd. cbn [mbind result_bind].
  rewrite Hp. cbn [mbind result_bind].
  assert (Eb : exact_binding (signed_evaluation c p cd t (ek_active_version k) sig RELEASE_EVALUATION_DIGEST_PROFILE
       RELEASE_EVALUATION_SIGNATURE_PROFILE (lit "evaluation_" ++ d) d) c (p, cd) = true).
  { unfold exact_binding, signed_evaluation. cbn [ev_organization_id ev_candidate_ref ev_candidate_digest
      ev_manifest_ref ev_manifest_digest ev_expected_active_generation ev_expected_base_manifest_digest
      ev_gate_evidence ev_compatibility_passed ev_compatibility_evidence_digest ev_capability_coverage_digest
      ev_fixture_digest ev_verification_commands ev_evaluation_ref ev_evaluation_digest ev_digest_profile
      ev_signature_profile fst snd].
    rewrite Z.eqb_refl, eqb_reflx. repeat rewrite (bool_decide_eq_true_2 (_ = _) eq_refl). done. }
  rewrite Eb. cbn [negb]. cbn [ev_evaluation_digest signed_evaluation].
  rewrite compare_digest_refl by (by eapply digest_text). cbn [mbind result_bind negb].
  unfold _sign in Hs. unfold _verify. cbn [ev_signing_key_version ev_evaluation_digest ev_signature signed_evaluation].
  destruct (dict_get (ek_keys k) _) as [key|]; [|discriminate].
  apply bind_Ok in Hs as (b & Hb & <-%Ok_inj). rewrite Hb. cbn [mbind result_bind].
  by rewrite (bool_decide_eq_true_2 _ eq_refl).
Qed.

Lemma evaluate_verifies c k t e :
  evaluate_candidate canon c k t = Ok e → verify_release_evaluation canon e c k = Ok true.
Proof.
  unfold evaluate_candidate. intros (v & Hc & H)%bind_Ok. apply bind_Ok in H as ([] & Hv & H).
  apply require_Ok in Hv as ->. apply bind_Ok in H as (t' & Ht & H).
  apply bind_Ok in H as ([p cd] & Hp & H). apply bind_Ok in H as (d & Hd & H).
  apply bind_Ok in H as (sig & Hs & H). cbn [fst snd] in *. unfold ReleaseEvaluation_post_init in H.
  do 14 apply bind_Ok in H as (? & _ & H). apply bind_Ok in H as (d' & Hd' & H).
  change (evaluation_document _) with (_evaluation_document c p cd t') in Hd'.
  rewrite Hd in Hd'. apply Ok_inj in Hd' as <-. apply Ok_inj in H as <-.
  by apply signed_evaluation_verifies.
Qed.

Lemma evaluation_text c p cd t :
  verify_release_candidate canon c = Ok true → is_sha256_hex cd = true → is_utc t = true →
  is_sha256_hex (ca_candidate_digest c) = true →
  unicode (JObj (_evaluation_document c p cd t)) = true.
Proof.
  intros (Hm & Hc & _)%verify_candidate_Ok Hcd Ht Hd.
  apply digest_unicode in Hc; [|apply candidate_shape].
  pose proof (unicode_nth 0 _ _ _ Hc eq_refl) as H0. pose proof (unicode_nth 1 _ _ _ Hc eq_refl) as H1.
  pose proof (unicode_nth 2 _ _ _ Hc eq_refl) as H2. pose proof (unicode_nth 3 _ _ _ Hc eq_refl) as H3.
  pose proof (unicode_nth 4 _ _ _ Hc eq_refl) as H4. pose proof (unicode_nth 5 _ _ _ Hc eq_refl) as H5.
  pose proof (unicode_nth 6 _ _ _ Hc eq_refl) as H6. pose proof (unicode_nth 7 _ _ _ Hc eq_refl) as H7.
  pose proof (unicode_nth 8 _ _ _ Hc eq_refl) as H8. pose proof (unicode_nth 9 _ _ _ Hc eq_refl) as H9.
  unfold _evaluation_document. unicode_doc; try done; try by apply sha256_json.
  by apply printable_text, timestamp_text.
Qed.

Lemma require_digest_Ok s : is_sha256_hex s = true → _require_digest (OStr s) = Ok s.
Proof. intros H. unfold _require_digest. by rewrite H. Qed.

Lemma post_init_total c p cd t v sig d :
  _require_ref (OStr (mf_manifest_ref (ca_manifest c))) = Ok (mf_manifest_ref (ca_manifest c)) →
  is_sha256_hex (mf_manifest_digest (ca_manifest c)) = true →
  is_sha256_hex (ca_candidate_digest c) = true → is_sha256_hex cd = true →
  _require_ref (OStr (ca_candidate_ref c)) = Ok (ca_candidate_ref c)
  ∧ _require_generation (OInt (ca_expected_active_generation c)) = Ok (ca_expected_active_generation c)
  ∧ _require_base (ca_expected_active_generation c) (ca_expected_base_manifest_digest c) = Ok tt
  ∧ _require_gate_set (ca_gate_evidence c) = Ok tt
  ∧ _require_digest (OStr (ca_capability_coverage_digest c)) = Ok (ca_capability_coverage_digest c)
  ∧ _require_digest (OStr (ca_fixture_digest c)) = Ok (ca_fixture_digest c)
  ∧ _require_commands (ca_verification_commands c) = Ok tt →
  is_utc t = true → 1 ≤ v ≤ MAX_SIGNED_BIGINT → len sig = 32 →
  _domain_digest canon _EVALUATION_DIGEST_DOMAIN (_evaluation_document c p cd t) = Ok d →
  ReleaseEvaluation_post_init canon (signed_evaluation c p cd t v sig [] [] [] [])
  = Ok (signed_evaluation c p cd t v sig RELEASE_EVALUATION_DIGEST_PROFILE
          RELEASE_EVALUATION_SIGNATURE_PROFILE (lit "evaluation_" ++ d) d).
Proof.
  intros Hm Hmd Hcd Hc (Hr & Hg & Hb & Hgs & Hcv & Hfx & Hcm) Ht Hv Hl Hd.
  unfold ReleaseEvaluation_post_init.
  change (evaluation_document _) with (_evaluation_document c p cd t). unfold signed_evaluation.
  cbn [ev_organization_id ev_candidate_ref ev_candidate_digest ev_evaluated_at ev_signing_key_version ev_signature
      ev_manifest_ref ev_manifest_digest ev_expected_active_generation ev_expected_base_manifest_digest
      ev_gate_evidence ev_compatibility_passed ev_compatibility_evidence_digest ev_capability_coverage_digest
      ev_fixture_digest ev_verification_commands].
  rewrite Hr. cbn [mbind result_bind]. rewrite (require_digest_Ok _ Hcd). cbn [mbind result_bind].
  rewrite Hm. cbn [mbind result_bind]. rewrite (require_digest_Ok _ Hmd). cbn [mbind result_bind].
  rewrite Hg. cbn [mbind result_bind]. rewrite Hb. cbn [mbind result_bind]. rewrite Hgs. cbn [mbind result_bind].
  rewrite (require_digest_Ok _ Hc). cbn [mbind result_bind]. rewrite Hcv. cbn [mbind result_bind].
  rewrite Hfx. cbn [mbind result_bind]. rewrite Hcm. cbn [mbind result_bind]. unfold require_utc. rewrite Ht.
  cbn [mbind result_bind require].
  rewrite (proj2 (Z.leb_le 1 v)), (proj2 (Z.leb_le v MAX_SIGNED_BIGINT)), Hl, Hd by lia. reflexivity.
Qed.

(** The evaluation of a candidate at an instant, and that it verifies. *)
Definition evaluates (c : ReleaseCandidate) (k : ReleaseEvaluationKeyring) (t : datetime) (e : ReleaseEvaluation) :
    Prop :=
  evaluate_candidate canon c k t = Ok e ∧ verify_release_evaluation canon e c k = Ok true.

(** A candidate built from a constructed manifest is evaluated by every
    constructed keyring at every UTC instant, and the evaluation verifies against
    that candidate and keyring; it reports compatibility exactly when the manifest
    has curation off. *)
Theorem constructed_candidate_is_evaluated org mref cp ip rp cu refs m
    ref g base gates coverage fixture commands c active keys k t :
  new_ReleaseManifest canon org mref cp ip rp cu refs = Ok m →
  new_ReleaseCandidate canon org ref m g base gates coverage fixture commands = Ok c →
  new_ReleaseEvaluationKeyring active keys = Ok k → is_utc t = true →
  ∃ e, evaluates c k t e ∧ ev_compatibility_passed e = is_curation_off cu.
Proof.
  intros Hm Hc Hk Ht.
  apply candidate_constructed in Hc as (Hc & cdg & Ec & Hcd & Hr & Hg & Hb & Hgs & Hcv & Hfx & Hcm).
  destruct (compatibility_total c Hc) as (cd & Hp & Hcdok).
  set (p := bool_decide _) in Hp.
  assert (Hcdc : is_sha256_hex (ca_candidate_digest c) = true) by by rewrite Ec.
  destruct (digest_total _EVALUATION_DIGEST_DOMAIN (_evaluation_document c p cd t)) as [d Hd].
  { exact (evaluation_shape (signed_evaluation c p cd t 0 [] [] [] [] [])). }
  { by apply evaluation_text. }
  { apply evaluation_nests. }
  pose proof (digest_text _ _ _ Hd) as Hdt.
  destruct (sign_total _ _ _ d Hk Hdt) as (key & sig & _ & Hs & Hl & Hv).
  { apply bind_Ok in Hd as (b & _ & <-%Ok_inj). by eexists. }
  exists (signed_evaluation c p cd t (ek_active_version k) sig RELEASE_EVALUATION_DIGEST_PROFILE
       RELEASE_EVALUATION_SIGNATURE_PROFILE (lit "evaluation_" ++ d) d).
  split; [split; [|by apply signed_evaluation_verifies]|].
  2: { subst c. unfold new_ReleaseManifest in Hm. run_ok. reflexivity. }
  unfold evaluate_candidate. rewrite Hc. cbn [mbind result_bind require]. unfold require_utc. rewrite Ht.
  cbn [mbind result_bind require]. rewrite Hp. cbn [mbind result_bind fst snd]. rewrite Hd. cbn [mbind result_bind].
  rewrite Hs. cbn [mbind result_bind]. apply (post_init_total c p cd t (ek_active_version k) sig d); try done.
  - unfold new_ReleaseManifest in Hm. apply bind_Ok in Hm as (r & Hmr & Hm).
    do 2 apply bind_Ok in Hm as (? & _ & Hm). apply bind_Ok in Hm as (? & _ & Hm). apply Ok_inj in Hm as <-.
    subst c. cbn [ca_manifest mf_manifest_ref]. unfold _require_ref in Hmr |- *.
    apply bind_Ok in Hmr as ([] & -> & _). done.
  - apply verify_candidate_Ok in Hc as ([_ Hmd]%verify_manifest_Ok & _ & _). by eapply digest_text.
  - subst c. cbn in *. by split_and!.
Qed.
End Facts.

(** ** A canonicalizer with the contract, and a sample release *)

Lemma well_formed_str_ok s : well_formed_text s = true → str_ok s = true.
Proof.
  unfold well_formed_text, str_ok. intros H. apply andb_true_iff. split.
  - apply forallb_forall. rewrite forallb_forall in H. intros c Hc%H. lia.
  - induction s as [|c s IH]; [done|]. cbn [forallb] in H. apply andb_true_iff in H as [Hc H].
    cbn [unpaired]. rewrite (IH H), andb_true_r. destruct s as [|d s]; [done|].
    cbn [forallb] in H. unfold is_high, is_low, is_surrogate in *. lia.
Qed.

Lemma shape_json_ok v : shape v = true → unicode v = true → json_ok v = true.
Proof.
  induction v as [|b|z|x|s|l IH|kvs IH] using json_nested_ind; intros Hs Hu; try done.
  - by apply well_formed_str_ok.
  - cbn [shape unicode json_ok] in *. induction IH as [|v l Hv _ IH]; [done|]. cbn [forallb] in *. run_ok.
    apply andb_true_iff. auto.
  - cbn [shape unicode json_ok] in *. apply andb_true_iff in Hs as [-> Hs]. cbn [andb].
    induction IH as [|v l Hv _ IH]; [done|]. cbn [forallb] in *. run_ok.
    rewrite !andb_true_iff. split_and!; auto using well_formed_str_ok.
Qed.

Definition no_float (_ : pystr) : result pystr := Err ValueError.

Lemma dumps_total v : shape v = true → ∃ t, dumps no_float v = Ok t.
Proof.
  induction v as [|b|z|x|s|l IH|kvs IH] using json_nested_ind; intros Hs; try done; try by eexists.
  - destruct b; by eexists.
  - rewrite dumps_arr. cbn [shape] in Hs.
    enough (∃ ts, map_result (dumps no_float) l = Ok ts) as [ts ->] by by eexists.
    induction IH as [|v l Hv _ IH]; [by exists []|]. cbn [forallb map_result] in *. run_ok.
    destruct Hv as [t ->]; [done|]. destruct IH as [ts ->]; [done|]. by eexists.
  - rewrite dumps_obj. cbn [shape] in Hs. apply andb_true_iff in Hs as [_ Hs].
    match goal with |- ∃ t, map_result ?f kvs ≫= _ = _ =>
      enough (∃ ts, map_result f kvs = Ok ts) as [ts ->] by by eexists end.
    induction IH as [|[k v] l Hv _ IH]; [by exists []|]. cbn [forallb map_result fst snd] in *. run_ok.
    destruct Hv as [t ->]; [done|]. destruct IH as [ts E]; [done|]. cbn [mbind result_bind]. rewrite E. by eexists.
Qed.

(** Sorted keys and escaped text: JSON of the standard encoder, refused when the
    text is not well-formed Unicode. *)
Definition sample_canon (v : json) : result pybytes :=
  if unicode v then dumps no_float v else Err UnicodeEncodeError.

#[export] Instance sample_canonicalizer : Canonicalizer sample_canon.
Proof.
  split; unfold sample_canon.
  - intros v Hs -> _. by apply dumps_total.
  - intros v b _. by destruct (unicode v).
  - intros v w b Hs Hs'. destruct (unicode v) eqn:Ev; [|done]. destruct (unicode w) eqn:Ew; [|done].
    apply dumps_inj; by apply shape_json_ok.
Qed.

Definition sample_org : UUID := mkUUID 7.
Definition sample_digest (s : string) : pystr := hexdigest (lit s).
Definition sample_content : ContentProfileRef := mkContentProfile (lit "content") (sample_digest "c") (lit "schema").
Definition sample_index : IndexProfileRef :=
  mkIndexProfile (lit "index") (sample_digest "i") (sample_digest "c") (lit "schema") (lit "ischema") (lit "{}")
    (sample_digest "e").
Definition sample_runtime : RuntimeProfileRef :=
  mkRuntimeProfile (lit "runtime") (sample_digest "r") (sample_digest "c") (sample_digest "i") (lit "schema")
    (lit "ischema") (lit "bytes") (lit "package-v0") (lit "{}") (sample_digest "t").
Definition sample_curation : CurationProfileRef :=
  mkCurationProfile (lit "curation") (sample_digest "u") CURATION_OFF None [] None.
Definition sample_manifest : result ReleaseManifest :=
  new_ReleaseManifest sample_canon sample_org (lit "manifest") sample_content sample_index sample_runtime
    sample_curation [lit "rev-1"].
Definition sample_gates : list GateEvidence := (λ g, mkGateEvidence g PASS (sample_digest "g")) <$> all_gates.
Definition sample_candidate : result ReleaseCandidate :=
  m ← sample_manifest;
  new_ReleaseCandidate sample_canon sample_org (lit "candidate") m 0 None sample_gates (sample_digest "v")
    (sample_digest "f") [lit "make test"].
Definition sample_keys : list (Z * pybytes) := [(1, replicate 32 9)].
Definition sample_keyring : ReleaseEvaluationKeyring := mkEvaluationKeyring 1 sample_keys.
Definition sample_time : datetime := mkDatetime 63900000000000000 (Some 0).
Definition sample_historical : pystr * pystr := (lit "{}", sample_digest "t").
Definition no_tokenizer (_ _ : pystr) : result pystr := Err TokenizerUnavailable.

(** The values of these runs. *)
Definition value_or {A} (d : A) (m : result A) : A := match m with Ok a => a | Err _ => d end.
Definition sample_m : ReleaseManifest := Eval vm_compute in
  value_or (mkManifest sample_org [] sample_content sample_index sample_runtime sample_curation [] [] [])
    sample_manifest.
Definition sample_c : ReleaseCandidate := Eval vm_compute in
  value_or (mkCandidate sample_org [] sample_m 0 None [] [] [] [] []) sample_candidate.
Definition sample_e : ReleaseEvaluation := Eval vm_compute in
  value_or (signed_evaluation sample_c false [] sample_time 0 [] [] [] [] [])
    (evaluate_candidate sample_canon sample_c sample_keyring sample_time).

Lemma sample_evaluated : verify_release_evaluation sample_canon sample_e sample_c sample_keyring = Ok true.
Proof. by vm_compute. Qed.

Lemma constructed_candidate_is_evaluated_witness :
  ∃ e, evaluates sample_canon sample_c sample_keyring sample_time e ∧ ev_compatibility_passed e = true.
Proof.
  apply (constructed_candidate_is_evaluated sample_canon sample_org (lit "manifest") sample_content sample_index
    sample_runtime sample_curation [lit "rev-1"] sample_m (lit "candidate") 0 None sample_gates (sample_digest "v")
    (sample_digest "f") [lit "make test"] sample_c 1 sample_keys); by vm_compute.
Defined.

Lemma evaluation_admits_one_release_witness :
  sample_c = sample_c
  ∨ digest_collision sample_canon _MANIFEST_DOMAIN (manifest_document sample_m (mf_lineage_digest sample_m))
      (manifest_document sample_m (mf_lineage_digest sample_m)).
Proof.
  apply (evaluation_admits_one_release sample_canon sample_historical no_tokenizer no_tokenizer sample_e
    sample_c sample_c sample_keyring sample_keyring); first [exact sample_evaluated | by vm_compute].
Defined.
