(* ===== verification/Promotion.v ===== *)
(** * Release promotion: [src/engine/learning/promotion.py], [module.py]

    The operator authority issues a call whose scope lives in a store of scope
    objects ([scopes]): entering [authorize] allocates one, leaving it deactivates
    it, and [ContextLearning.promote] consumes it.  The authenticator's answer, the
    clock readings, the release store's answers and the transaction's behaviour are
    arguments; [promote] also returns the list of calls it made on the transaction. *)

From S2P Require Import Prelude Codec Sha256 Datetime Json Trusted Release.

Definition _AUDIT_REASON_DIGEST_DOMAIN : pybytes := lit "context-engine.release-audit-reason.v1" ++ [0].
Definition _PROMOTION_CALL_DIGEST_DOMAIN : pybytes := lit "context-engine.trusted-promotion-call.v1" ++ [0].
Definition _AUTHORITY_DIGEST_DOMAIN : pybytes := lit "context-engine.release-operator-authority.v1" ++ [0].
Definition _MAX_AUDIT_REASON_LENGTH : Z := 4096.

Record VerifiedReleaseOperatorIdentity := mkIdentity {
  vi_organization_id : UUID;
  vi_operator_ref : pystr;
  vi_authentication_binding_ref : pystr;
  vi_authority_ref : pystr;
  vi_authority_digest : pystr;
  vi_valid_from : datetime;
  vi_expires_at : datetime
}.

Record PromotionAuthorizationRequest := mkPromotionRequest {
  pr_organization_id : UUID;
  pr_promotion_ref : pystr;
  pr_candidate : ReleaseCandidate;
  pr_evaluation : ReleaseEvaluation;
  pr_request_id : pystr;
  pr_audit_reason : pystr;
  pr_opaque_credential : pystr
}.

(** [PromotionAuthorizationRequest.__post_init__] *)
Definition check_promotion_request (r : PromotionAuthorizationRequest) : result unit :=
  _require_ref (OStr (pr_promotion_ref r)) ;;
  require (bool_decide (ca_organization_id (pr_candidate r) = pr_organization_id r)
           && bool_decide (ev_organization_id (pr_evaluation r) = pr_organization_id r)) ValueError ;;
  _require_ref (OStr (pr_request_id r)) ;;
  require (negb (blank (pr_audit_reason r)) && bool_decide (pr_audit_reason r = strip (pr_audit_reason r))
           && (len (pr_audit_reason r) <=? _MAX_AUDIT_REASON_LENGTH)
           && negb (existsb is_surrogate (pr_audit_reason r))) ValueError ;;
  require (negb (blank (pr_opaque_credential r))) ValueError.

Inductive PromotionCallProvenance := RELEASE_OPERATOR_AUTHORITY.
#[export] Instance PromotionCallProvenance_eq_dec : EqDecision PromotionCallProvenance.
Proof. solve_decision. Defined.

(** [_PromotionAuthorityScope]: the objects of the store; the issuer's seal is the
    number of the authority, [ps_sealed] the test of the module's own seal. *)
Record PromotionAuthorityScope := mkPromotionScope {
  ps_active : bool;
  ps_consumed : bool;
  ps_issuer : nat;
  ps_sealed : bool
}.
Abbreviation scopes := (list PromotionAuthorityScope) (only parsing).

Record TrustedPromotionCall := mkPromotionCall {
  tc_organization_id : UUID;
  tc_promotion_ref : pystr;
  tc_operator_ref : pystr;
  tc_authentication_binding_ref : pystr;
  tc_authority_ref : pystr;
  tc_authority_digest : pystr;
  tc_candidate : ReleaseCandidate;
  tc_candidate_ref : pystr;
  tc_candidate_digest : pystr;
  tc_manifest_ref : pystr;
  tc_manifest_digest : pystr;
  tc_evaluation : ReleaseEvaluation;
  tc_evaluation_ref : pystr;
  tc_evaluation_digest : pystr;
  tc_expected_active_generation : Z;
  tc_expected_base_manifest_digest : option pystr;
  tc_issued_at : datetime;
  tc_expires_at : datetime;
  tc_request_id : pystr;
  tc_audit_reason_digest : pystr;
  tc_promotion_call_digest : pystr;
  tc_provenance : PromotionCallProvenance;
  tc_authority_scope : nat
}.

Definition promotion_call_document (c : TrustedPromotionCall) : list (list Z * json) :=
  [(lit "audit_reason_digest", JStr (tc_audit_reason_digest c));
   (lit "authentication_binding_ref", JStr (tc_authentication_binding_ref c));
   (lit "authority_digest", JStr (tc_authority_digest c));
   (lit "authority_ref", JStr (tc_authority_ref c));
   (lit "candidate_digest", JStr (tc_candidate_digest c));
   (lit "candidate_ref", JStr (tc_candidate_ref c));
   (lit "evaluation_digest", JStr (tc_evaluation_digest c));
   (lit "evaluation_ref", JStr (tc_evaluation_ref c));
   (lit "evaluation_signature", JStr (hex (ev_signature (tc_evaluation c))));
   (lit "evaluation_signing_key_version", JStr (_canonical_bigint (ev_signing_key_version (tc_evaluation c))));
   (lit "expected_active_generation", JStr (_canonical_bigint (tc_expected_active_generation c)));
   (lit "expected_base_manifest_digest", opt_text (tc_expected_base_manifest_digest c));
   (lit "expires_at", JStr (_timestamp (tc_expires_at c)));
   (lit "issued_at", JStr (_timestamp (tc_issued_at c)));
   (lit "manifest_digest", JStr (tc_manifest_digest c));
   (lit "manifest_ref", JStr (tc_manifest_ref c));
   (lit "operator_ref", JStr (tc_operator_ref c));
   (lit "organization_id", JStr (uuid_str (tc_organization_id c)));
   (lit "promotion_ref", JStr (tc_promotion_ref c));
   (lit "request_id", JStr (tc_request_id c))].

Record ReleaseOperatorAuthority := mkAuthority { ra_call_ttl : Z; ra_issuer : nat }.
(** [ReleaseOperatorAuthority.__init__]; [issuer] numbers the new seal. *)
Definition new_ReleaseOperatorAuthority (call_ttl : Z) (issuer : nat) : result ReleaseOperatorAuthority :=
  require (0 <? call_ttl) ValueError ;; Ok (mkAuthority call_ttl issuer).

Record PromotionCommit := mkCommit {
  co_organization_id : UUID;
  co_promotion_ref : pystr;
  co_active_generation : Z;
  co_manifest_ref : pystr;
  co_manifest_digest : pystr;
  co_promoted_at : datetime
}.
Definition new_PromotionCommit (org : UUID) (ref : pystr) (generation : Z) (mref mdigest : pystr)
    (at_ : datetime) : result PromotionCommit :=
  _require_ref (OStr ref) ;;
  g ← _require_generation (OInt generation);
  require (negb (g =? 0)) ValueError ;;
  _require_ref (OStr mref) ;; _require_digest (OStr mdigest) ;; require_utc at_ ;;
  Ok (mkCommit org ref generation mref mdigest at_).

Record PromotionReceipt := mkReceipt {
  re_organization_id : UUID;
  re_promotion_ref : pystr;
  re_active_generation : Z;
  re_manifest_ref : pystr;
  re_manifest_digest : pystr;
  re_promoted_at : datetime
}.
Definition _construct_promotion_receipt (c : PromotionCommit) : PromotionReceipt :=
  mkReceipt (co_organization_id c) (co_promotion_ref c) (co_active_generation c) (co_manifest_ref c)
    (co_manifest_digest c) (co_promoted_at c).

(** [ReleaseStorePort]: what the durable store does.  [tx_exit] answers [__exit__]
    with the pending exception; [Ok true] suppresses it. *)
Record ReleaseStorePort := mkReleaseStore {
  load_candidate : ReleaseCandidateRef → result ReleaseCandidate;
  persist_evaluation : ReleaseEvaluation → result unit;
  tx_enter : UUID → result unit;
  tx_complete : bool;
  revalidate_promotion : TrustedPromotionCall → ReleaseEvaluationKeyring → result unit;
  promote_atomically : TrustedPromotionCall → result PromotionCommit;
  tx_commit : result unit;
  tx_exit : option exn → result bool
}.

(** The calls that [promote] makes on the store, in order. *)
Inductive promotion_event :=
  | ETransaction (org : UUID)
  | ERevalidate (c : TrustedPromotionCall)
  | EPromote (c : TrustedPromotionCall)
  | ECommit
  | EExit (pending : option exn).

Section Canon.
Context (canon : json → result pybytes).

Definition _audit_reason_digest (reason : pystr) : result pystr :=
  b ← canon (JStr reason); Ok (hexdigest (_AUDIT_REASON_DIGEST_DOMAIN ++ b)).

Definition release_authority_digest (org : UUID) (operator binding authority : pystr) : result pystr :=
  _require_ref (OStr operator) ;; _require_ref (OStr binding) ;; _require_ref (OStr authority) ;;
  _domain_digest canon _AUTHORITY_DIGEST_DOMAIN
    [(lit "authentication_binding_ref", JStr binding); (lit "authority_ref", JStr authority);
     (lit "operator_ref", JStr operator); (lit "organization_id", JStr (uuid_str org))].

(** [VerifiedReleaseOperatorIdentity.__post_init__] *)
Definition check_identity (i : VerifiedReleaseOperatorIdentity) : result unit :=
  _require_ref (OStr (vi_operator_ref i)) ;; _require_ref (OStr (vi_authentication_binding_ref i)) ;;
  _require_ref (OStr (vi_authority_ref i)) ;; _require_digest (OStr (vi_authority_digest i)) ;;
  d ← release_authority_digest (vi_organization_id i) (vi_operator_ref i) (vi_authentication_binding_ref i)
        (vi_authority_ref i);
  require (bool_decide (vi_authority_digest i = d)) ValueError ;;
  valid_from ← require_utc (vi_valid_from i);
  expires_at ← require_utc (vi_expires_at i);
  require (dt_ltb valid_from expires_at) ValueError.

Definition _promotion_call_digest (c : TrustedPromotionCall) : result pystr :=
  _domain_digest canon _PROMOTION_CALL_DIGEST_DOMAIN (promotion_call_document c).

(** [ReleaseOperatorAuthority._authorized] up to the [yield]: [answer] is what the
    authenticator returned, [now] the clock. *)
Definition authorize (a : ReleaseOperatorAuthority) (answer : result VerifiedReleaseOperatorIdentity)
    (now : datetime) (r : PromotionAuthorizationRequest) (st : scopes) : result (TrustedPromotionCall * scopes) :=
  identity ← match answer with
             | Ok i => Ok i
             | Err ReleaseOperatorAuthenticationRejected => Err ReleaseOperatorAuthenticationRejected
             | Err _ => Err ReleaseOperatorAuthorityUnavailable
             end;
  now ← require_utc now;
  require (bool_decide (vi_organization_id identity = pr_organization_id r)
           && negb (dt_ltb now (vi_valid_from identity)) && dt_ltb now (vi_expires_at identity))
    ReleaseOperatorAuthenticationRejected ;;
  bound ← dt_add now (ra_call_ttl a);
  let expires_at := dt_min (vi_expires_at identity) bound in
  require (dt_ltb now expires_at) ReleaseOperatorAuthenticationRejected ;;
  let candidate := pr_candidate r in
  let evaluation := pr_evaluation r in
  require (bool_decide (ev_organization_id evaluation = ca_organization_id candidate)
           && bool_decide (ev_candidate_ref evaluation = ca_candidate_ref candidate)
           && bool_decide (ev_candidate_digest evaluation = ca_candidate_digest candidate)
           && bool_decide (ev_manifest_ref evaluation = mf_manifest_ref (ca_manifest candidate))
           && bool_decide (ev_manifest_digest evaluation = mf_manifest_digest (ca_manifest candidate))
           && (ev_expected_active_generation evaluation =? ca_expected_active_generation candidate)
           && bool_decide (ev_expected_base_manifest_digest evaluation
                           = ca_expected_base_manifest_digest candidate))
    ReleaseOperatorAuthenticationRejected ;;
  reason ← _audit_reason_digest (pr_audit_reason r);
  let call d := mkPromotionCall (pr_organization_id r) (pr_promotion_ref r) (vi_operator_ref identity)
    (vi_authentication_binding_ref identity) (vi_authority_ref identity) (vi_authority_digest identity)
    candidate (ca_candidate_ref candidate) (ca_candidate_digest candidate)
    (mf_manifest_ref (ca_manifest candidate)) (mf_manifest_digest (ca_manifest candidate))
    evaluation (ev_evaluation_ref evaluation) (ev_evaluation_digest evaluation)
    (ca_expected_active_generation candidate) (ca_expected_base_manifest_digest candidate)
    now expires_at (pr_request_id r) reason d RELEASE_OPERATOR_AUTHORITY (length st) in
  digest ← _promotion_call_digest (call (replicate 64 48));
  Ok (call digest, st ++ [mkPromotionScope true false (ra_issuer a) true]).

Definition close_scope (s : PromotionAuthorityScope) : PromotionAuthorityScope :=
  mkPromotionScope false (ps_consumed s) (ps_issuer s) (ps_sealed s).
(** [finally: scope._active = False] *)
Definition leave (call : TrustedPromotionCall) (st : scopes) : scopes :=
  alter close_scope (tc_authority_scope call) st.

Definition _require_active_trusted_promotion_call (a : ReleaseOperatorAuthority) (st : scopes)
    (call : TrustedPromotionCall) : result unit :=
  match st !! tc_authority_scope call with
  | None => Err ReleasePromotionRejected
  | Some s =>
      require (bool_decide (tc_provenance call = RELEASE_OPERATOR_AUTHORITY) && ps_sealed s && ps_active s
               && bool_decide (ps_issuer s = ra_issuer a)) ReleasePromotionRejected ;;
      expected ← try_except (_promotion_call_digest call)
                   (λ e, type_or_value e || bool_decide (e = AttributeError)) (Err ReleasePromotionRejected);
      same ← compare_digest (tc_promotion_call_digest call) expected;
      require same ReleasePromotionRejected
  end.

Definition consume_scope (s : PromotionAuthorityScope) : PromotionAuthorityScope :=
  mkPromotionScope (ps_active s) true (ps_issuer s) (ps_sealed s).
Definition _consume_trusted_promotion_call (st : scopes) (call : TrustedPromotionCall) : result scopes :=
  match st !! tc_authority_scope call with
  | None => Err ReleasePromotionRejected
  | Some s =>
      require (negb (ps_consumed s)) ReleasePromotionRejected ;;
      Ok (alter consume_scope (tc_authority_scope call) st)
  end.

Definition _require_current_call_time (call : TrustedPromotionCall) (checked_at : datetime) : result unit :=
  require (is_utc checked_at && negb (dt_ltb checked_at (tc_issued_at call))
           && dt_ltb checked_at (tc_expires_at call)) ReleasePromotionRejected.

(** [_require_promotable]: the first failing disjunct decides, so the evaluation is
    only verified when the candidate is. *)
Definition _require_promotable (keyring : ReleaseEvaluationKeyring) (call : TrustedPromotionCall) : result unit :=
  let candidate := tc_candidate call in
  let evaluation := tc_evaluation call in
  verified ← verify_release_candidate canon candidate;
  require verified ReleasePromotionRejected ;;
  evaluated ← verify_release_evaluation canon evaluation candidate keyring;
  require (evaluated
           && bool_decide (tc_organization_id call = ca_organization_id candidate)
           && bool_decide (tc_candidate_ref call = ca_candidate_ref candidate)
           && bool_decide (tc_candidate_digest call = ca_candidate_digest candidate)
           && bool_decide (tc_manifest_ref call = mf_manifest_ref (ca_manifest candidate))
           && bool_decide (tc_manifest_digest call = mf_manifest_digest (ca_manifest candidate))
           && bool_decide (tc_evaluation_ref call = ev_evaluation_ref evaluation)
           && bool_decide (tc_evaluation_digest call = ev_evaluation_digest evaluation)
           && (tc_expected_active_generation call =? ca_expected_active_generation candidate)
           && (tc_expected_active_generation call =? ev_expected_active_generation evaluation)
           && bool_decide (tc_expected_base_manifest_digest call = ca_expected_base_manifest_digest candidate)
           && bool_decide (tc_expected_base_manifest_digest call = ev_expected_base_manifest_digest evaluation)
           && forallb (λ g, bool_decide (gate_status g = PASS)) (ev_gate_evidence evaluation)
           && ev_compatibility_passed evaluation) ReleasePromotionRejected.

Definition _require_exact_commit (call : TrustedPromotionCall) (c : PromotionCommit) : result unit :=
  require (bool_decide (co_organization_id c = tc_organization_id call)
           && bool_decide (co_promotion_ref c = tc_promotion_ref call)
           && (co_active_generation c =? tc_expected_active_generation call + 1)
           && bool_decide (co_manifest_ref c = tc_manifest_ref call)
           && bool_decide (co_manifest_digest c = tc_manifest_digest call)) ReleasePromotionUnavailable.

(** The body of the [with] statement: the calls it made, the value of the local
    [commit] when control left it, and the pending exception. *)
Definition transaction_body (port : ReleaseStorePort) (keyring : ReleaseEvaluationKeyring)
    (call : TrustedPromotionCall) : list promotion_event * option PromotionCommit * result unit :=
  if negb (tx_complete port) then ([], None, Err ReleasePromotionUnavailable)
  else match revalidate_promotion port call keyring with
  | Err e => ([ERevalidate call], None, Err e)
  | Ok _ =>
      match promote_atomically port call with
      | Err e => ([ERevalidate call; EPromote call], None, Err e)
      | Ok commit =>
          match _require_exact_commit call commit with
          | Err e => ([ERevalidate call; EPromote call], Some commit, Err e)
          | Ok _ => ([ERevalidate call; EPromote call; ECommit], Some commit, tx_commit port)
          end
      end
  end.

Definition pending (r : result unit) : option exn := match r with Ok _ => None | Err e => Some e end.

(** [with self._store.transaction(...) as transaction: ...; return receipt] *)
Definition with_transaction (port : ReleaseStorePort) (keyring : ReleaseEvaluationKeyring)
    (call : TrustedPromotionCall) : list promotion_event * result PromotionReceipt :=
  match tx_enter port (tc_organization_id call) with
  | Err e => ([ETransaction (tc_organization_id call)], Err e)
  | Ok _ =>
      let '(evs, commit, r) := transaction_body port keyring call in
      (ETransaction (tc_organization_id call) :: evs ++ [EExit (pending r)],
       match tx_exit port (pending r), r with
       | Err e, _ => Err e
       | Ok false, Err e => Err e
       | Ok _, _ => match commit with
                    | None => Err UnboundLocalError
                    | Some c => Ok (_construct_promotion_receipt c)
                    end
       end)
  end.

(** The three [except] clauses of [promote]. *)
Definition promotion_error {A} (r : result A) : result A :=
  match r with
  | Ok a => Ok a
  | Err ReleasePromotionRejected => Err ReleasePromotionRejected
  | Err ReleasePromotionUnavailable => Err ReleasePromotionUnavailable
  | Err _ => Err ReleasePromotionUnavailable
  end.

(** [ContextLearning.promote] at clock reading [now]. *)
Definition promote (a : ReleaseOperatorAuthority) (keyring : ReleaseEvaluationKeyring) (port : ReleaseStorePort)
    (now : datetime) (call : TrustedPromotionCall) (st : scopes) :
    scopes * list promotion_event * result PromotionReceipt :=
  match _require_active_trusted_promotion_call a st call ;; _consume_trusted_promotion_call st call with
  | Err e => (st, [], promotion_error (Err e))
  | Ok st' =>
      match _require_current_call_time call now ;; _require_promotable keyring call with
      | Err e => (st', [], promotion_error (Err e))
      | Ok _ => let '(evs, r) := with_transaction port keyring call in (st', evs, promotion_error r)
      end
  end.

(** [ContextLearning.evaluate]: the evaluations handed to the store, the outcome. *)
Definition evaluate (keyring : ReleaseEvaluationKeyring) (port : ReleaseStorePort) (now : datetime)
    (ref : ReleaseCandidateRef) : list ReleaseEvaluation * result ReleaseEvaluation :=
  match
    candidate ← load_candidate port ref;
    own ← reference candidate;
    require (bool_decide (own = ref)) ReleaseEvaluationUnavailable ;;
    verified ← verify_release_candidate canon candidate;
    require verified ReleaseEvaluationUnavailable ;;
    evaluate_candidate canon candidate keyring now
  with
  | Err _ => ([], Err ReleaseEvaluationUnavailable)
  | Ok e => ([e], match persist_evaluation port e with
                  | Ok _ => Ok e
                  | Err _ => Err ReleaseEvaluationUnavailable
                  end)
  end.
End Canon.
