(* ===== verification/PromotionFacts.v ===== *)
(** * What promotion guarantees

    Safety of one promotion, single use of a call over every history of the
    authority and the module, closed errors, and that an authorized, passing
    release is promoted by a store that answers exactly. *)

From S2P Require Import Prelude Codec Sha256 Datetime Json Trusted Release ReleaseFacts Promotion.

(** The contract of a store's transaction: leaving it never hides an exception. *)
Definition never_suppresses (port : ReleaseStorePort) : Prop := ∀ e, tx_exit port (Some e) ≠ Ok true.

Section Facts.
Context (canon : json → result pybytes) `{!Canonicalizer canon}.

(** ** One promotion *)

Lemma promotion_error_Ok {A} (r : result A) a : promotion_error r = Ok a → r = Ok a.
Proof. destruct r as [b|[]]; try done. Qed.

Lemma error_not_Ok {A B C} (x x' : B) (y y' : C) e (a : A) :
  (x, y, promotion_error (Err e)) = (x', y', Ok a) → False.
Proof. intros [= _ _ H]. by destruct e. Qed.

Lemma promotion_error_closed {A} (r : result A) e :
  promotion_error r = Err e → e = ReleasePromotionRejected ∨ e = ReleasePromotionUnavailable.
Proof. destruct r as [b|[]]; cbn; intros [= <-]; auto. Qed.

Lemma active_call_Ok a st call :
  _require_active_trusted_promotion_call canon a st call = Ok tt →
  ∃ s, st !! tc_authority_scope call = Some s ∧ ps_active s = true ∧ ps_sealed s = true
    ∧ ps_issuer s = ra_issuer a ∧ _promotion_call_digest canon call = Ok (tc_promotion_call_digest call).
Proof.
  unfold _require_active_trusted_promotion_call. destruct (st !! _) as [s|]; [|done].
  intros ([] & Hs & H)%bind_Ok. apply bind_Ok in H as (x & Hx & H). apply bind_Ok in H as (b & Hb & H).
  apply require_Ok in H as ->. exists s. unfold try_except in Hx.
  destruct (_promotion_call_digest canon call) as [y|e]; [|by destruct (_ || _)].
  unfold compare_digest in Hb. run_ok. by subst x.
Qed.

Lemma consume_Ok st call st' :
  _consume_trusted_promotion_call st call = Ok st' →
  st' = alter consume_scope (tc_authority_scope call) st
  ∧ ∃ s, st !! tc_authority_scope call = Some s ∧ ps_consumed s = false.
Proof.
  unfold _consume_trusted_promotion_call. destruct (st !! _) as [s|]; [|done]. intros H. run_ok. eauto.
Qed.

(** Everything [_require_promotable] establishes of a call. *)
Definition promotable (keyring : ReleaseEvaluationKeyring) (call : TrustedPromotionCall) : Prop :=
  let c := tc_candidate call in
  let e := tc_evaluation call in
  verify_release_candidate canon c = Ok true ∧ verify_release_evaluation canon e c keyring = Ok true
  ∧ tc_organization_id call = ca_organization_id c ∧ tc_manifest_ref call = mf_manifest_ref (ca_manifest c)
  ∧ tc_manifest_digest call = mf_manifest_digest (ca_manifest c)
  ∧ tc_candidate_digest call = ca_candidate_digest c ∧ tc_evaluation_digest call = ev_evaluation_digest e
  ∧ tc_expected_active_generation call = ca_expected_active_generation c
  ∧ tc_expected_base_manifest_digest call = ca_expected_base_manifest_digest c
  ∧ (∀ g, g ∈ all_gates → ∃ ge, ge ∈ ca_gate_evidence c ∧ gate ge = g ∧ gate_status ge = PASS)
  ∧ cu_mode (mf_curation_profile (ca_manifest c)) = CURATION_OFF.

Lemma promotable_Ok keyring call :
  _require_promotable canon keyring call = Ok tt → promotable keyring call.
Proof.
  unfold _require_promotable. intros (b & Hc & H)%bind_Ok. apply bind_Ok in H as ([] & Hb & H).
  apply require_Ok in Hb as ->. apply bind_Ok in H as (b & He & H). apply require_Ok in H.
  repeat match goal with H : _ && _ = true |- _ => apply andb_true_iff in H as [H ?] end. subst b.
  pose proof (verify_evaluation_Ok canon _ _ _ He) as (_ & _ & (p & Hp & Hbind%exact_binding_spec) & _).
  destruct Hbind as (_ & _ & _ & _ & _ & _ & _ & Hg & Hcp & _).
  pose proof (verify_candidate_Ok canon _ Hc) as (_ & _ & Hgates).
  run_ok. unfold promotable. split_and!; try done; try lia.
  - intros g Hin. rewrite <- Hgates in Hin. apply list_elem_of_fmap in Hin as (ge & -> & Hin).
    exists ge. split_and!; [done..|]. rewrite Hg in *.
    match goal with H : forallb _ _ = true |- _ => rewrite forallb_forall in H;
      apply list_elem_of_In, H in Hin; by apply bool_decide_eq_true in Hin end.
  - unfold _compatibility in Hp. apply bind_Ok in Hp as (d & _ & <-%Ok_inj). cbn [fst] in Hcp.
    match goal with H : ev_compatibility_passed _ = true |- _ => rewrite Hcp in H; by apply bool_decide_eq_true in H end.
Qed.

(** The calls of a completed transaction, and its receipt. *)
Lemma with_transaction_Ok port keyring call evs r :
  never_suppresses port → with_transaction port keyring call = (evs, Ok r) →
  evs = [ETransaction (tc_organization_id call); ERevalidate call; EPromote call; ECommit; EExit None]
  ∧ revalidate_promotion port call keyring = Ok tt ∧ tx_commit port = Ok tt
  ∧ ∃ co, promote_atomically port call = Ok co ∧ _require_exact_commit call co = Ok tt
    ∧ r = _construct_promotion_receipt co.
Proof.
  unfold with_transaction, transaction_body. intros Hn. destruct (tx_enter port _) as [|e]; [|done].
  destruct (tx_complete port); cbn [negb].
  2: { cbn. pose proof (Hn ReleasePromotionUnavailable). destruct (tx_exit port _) as [[]|]; done. }
  destruct (revalidate_promotion port call keyring) as [[]|e] eqn:E1.
  2: { cbn. pose proof (Hn e). destruct (tx_exit port _) as [[]|]; done. }
  destruct (promote_atomically port call) as [co|e] eqn:E2.
  2: { cbn. pose proof (Hn e). destruct (tx_exit port _) as [[]|]; done. }
  destruct (_require_exact_commit call co) as [[]|e] eqn:E3.
  2: { cbn. pose proof (Hn e). destruct (tx_exit port _) as [[]|]; done. }
  destruct (tx_commit port) as [[]|e] eqn:E4; cbn.
  2: { pose proof (Hn e). destruct (tx_exit port _) as [[]|]; done. }
  destruct (tx_exit port None) as [[]|]; intros [= <- <-]; eauto 10.
Qed.

(** A promotion that returned a receipt, step by step. *)
Lemma promote_Ok a keyring port now call st st' evs r :
  promote canon a keyring port now call st = (st', evs, Ok r) →
  _require_active_trusted_promotion_call canon a st call = Ok tt
  ∧ _consume_trusted_promotion_call st call = Ok st'
  ∧ _require_current_call_time call now = Ok tt ∧ _require_promotable canon keyring call = Ok tt
  ∧ with_transaction port keyring call = (evs, Ok r).
Proof.
  unfold promote. destruct (_require_active_trusted_promotion_call canon a st call) as [[]|e] eqn:E1;
    cbn [mbind result_bind]; [|intros H; by apply error_not_Ok in H].
  destruct (_consume_trusted_promotion_call st call) as [s|e] eqn:E2;
    [|intros H; by apply error_not_Ok in H].
  destruct (_require_current_call_time call now) as [[]|e] eqn:E3; cbn [mbind result_bind];
    [|intros H; by apply error_not_Ok in H].
  destruct (_require_promotable canon keyring call) as [[]|e] eqn:E4;
    [|intros H; by apply error_not_Ok in H].
  destruct (with_transaction port keyring call) as [evs' r'] eqn:E5.
  intros H. assert (H' : promotion_error r' = Ok r) by congruence. apply promotion_error_Ok in H'. subst r'.
  injection H as <- <-. done.
Qed.

(** C19: a receipt exists only for a live, unconsumed call of this authority, within
    its lifetime, whose digest covers its fields, whose candidate and evaluation
    verify, whose four gates all passed with curation off; the transaction was
    opened, revalidated, promoted and committed exactly once in that order, and the
    receipt names generation [n + 1] and the evaluated manifest. *)
Theorem receipt_requires_every_veto a keyring port now call st st' evs r :
  never_suppresses port →
  promote canon a keyring port now call st = (st', evs, Ok r) →
  (∃ s, st !! tc_authority_scope call = Some s ∧ ps_active s = true ∧ ps_consumed s = false
        ∧ ps_issuer s = ra_issuer a)
  ∧ _promotion_call_digest canon call = Ok (tc_promotion_call_digest call)
  ∧ is_utc now = true ∧ dt_us (tc_issued_at call) ≤ dt_us now < dt_us (tc_expires_at call)
  ∧ promotable keyring call
  ∧ evs = [ETransaction (tc_organization_id call); ERevalidate call; EPromote call; ECommit; EExit None]
  ∧ re_organization_id r = ca_organization_id (tc_candidate call)
  ∧ re_active_generation r = ca_expected_active_generation (tc_candidate call) + 1
  ∧ re_manifest_ref r = mf_manifest_ref (ca_manifest (tc_candidate call))
  ∧ re_manifest_digest r = mf_manifest_digest (ca_manifest (tc_candidate call)).
Proof.
  intros Hn (Ha & Hco & Ht & Hp & Hw)%promote_Ok.
  apply active_call_Ok in Ha as (s & Hs & Hact & _ & Hiss & Hdig).
  apply consume_Ok in Hco as (_ & s' & Hs' & Hcons). assert (s' = s) as -> by congruence.
  apply promotable_Ok in Hp. destruct (with_transaction_Ok _ _ _ _ _ Hn Hw) as (Hev & _ & _ & co & _ & Hex & ->).
  unfold _require_current_call_time, dt_ltb in Ht. unfold _require_exact_commit in Hex. run_ok.
  destruct Hp as (P1 & P2 & P3 & P4 & P5 & P6 & P7 & P8 & P9) eqn:EP.
  split_and!; try done; cbn [_construct_promotion_receipt re_organization_id re_active_generation
    re_manifest_ref re_manifest_digest]; try congruence; try lia. eauto 6.
Qed.

(** ** Errors *)

Lemma with_transaction_commits port keyring call :
  ECommit ∈ (with_transaction port keyring call).1 →
  revalidate_promotion port call keyring = Ok tt
  ∧ ∃ co, promote_atomically port call = Ok co ∧ _require_exact_commit call co = Ok tt.
Proof.
  unfold with_transaction, transaction_body. destruct (tx_enter port _); [|set_solver].
  destruct (tx_complete port); cbn [negb]; [|set_solver].
  destruct (revalidate_promotion port call keyring) as [[]|]; [|set_solver].
  destruct (promote_atomically port call) as [co|]; [|set_solver].
  destruct (_require_exact_commit call co) as [[]|] eqn:E; [|set_solver].
  intros _. split; [done|]. by exists co.
Qed.

(** Whatever the store, the clock and the call do, [promote] raises only its two
    own exceptions; and the store is asked to commit only after the call passed
    every guard, the revalidation returned and the staged commit is exactly
    generation [n + 1] of the evaluated manifest. *)
Theorem promotion_errors_are_closed a keyring port now call st :
  let '(_, evs, r) := promote canon a keyring port now call st in
  (∀ e, r = Err e → e = ReleasePromotionRejected ∨ e = ReleasePromotionUnavailable)
  ∧ (ECommit ∈ evs →
     promotable keyring call ∧ revalidate_promotion port call keyring = Ok tt
     ∧ ∃ co, promote_atomically port call = Ok co
        ∧ co_active_generation co = ca_expected_active_generation (tc_candidate call) + 1
        ∧ co_manifest_digest co = mf_manifest_digest (ca_manifest (tc_candidate call))).
Proof.
  unfold promote.
  destruct (_ ;; _consume_trusted_promotion_call st call) as [st'|e].
  2: { split; [intros ?; apply promotion_error_closed|set_solver]. }
  destruct (_require_current_call_time call now ;; _) as [[]|e] eqn:E.
  2: { split; [intros ?; apply promotion_error_closed|set_solver]. }
  apply bind_Ok in E as ([] & _ & Hp%promotable_Ok).
  destruct (with_transaction port keyring call) as [evs r] eqn:Ew.
  split; [intros ?; apply promotion_error_closed|]. intros Hc.
  replace evs with (with_transaction port keyring call).1 in Hc by by rewrite Ew.
  apply with_transaction_commits in Hc as (Hr & co & Hco & Hx). split_and!; try done. exists co.
  destruct Hp as (_ & _ & _ & _ & P5 & _ & _ & P8 & _). unfold _require_exact_commit in Hx. run_ok.
  split_and!; [done|lia|congruence].
Qed.

(** ** Histories: a call promotes at most once, inside its lifetime *)

(** What an operation of the process does; any call object may be presented. *)
Inductive operation :=
  | OAuthorize (a : ReleaseOperatorAuthority) (answer : result VerifiedReleaseOperatorIdentity)
      (now : datetime) (r : PromotionAuthorizationRequest)
  | OLeave (call : TrustedPromotionCall)
  | OPromote (a : ReleaseOperatorAuthority) (keyring : ReleaseEvaluationKeyring) (port : ReleaseStorePort)
      (now : datetime) (call : TrustedPromotionCall).

Inductive entry :=
  | LIssued (id : nat)
  | LLeft (id : nat)
  | LTransaction (id : nat).

Definition opens (evs : list promotion_event) : bool := match evs with [] => false | _ => true end.

Definition perform_op (w : scopes * list entry) (op : operation) : scopes * list entry :=
  let '(st, log) := w in
  match op with
  | OAuthorize a answer now r =>
      match authorize canon a answer now r st with
      | Ok (call, st') => (st', log ++ [LIssued (tc_authority_scope call)])
      | Err _ => w
      end
  | OLeave call =>
      if decide (tc_authority_scope call < length st)%nat
      then (leave call st, log ++ [LLeft (tc_authority_scope call)]) else w
  | OPromote a keyring port now call =>
      let '(st', evs, _) := promote canon a keyring port now call st in
      (st', if opens evs then log ++ [LTransaction (tc_authority_scope call)] else log)
  end.
Definition history (ops : list operation) : scopes * list entry := foldl perform_op ([], []) ops.

Definition is_transaction (id : nat) (e : entry) : bool :=
  match e with LTransaction i => bool_decide (i = id) | _ => false end.
Definition transactions (id : nat) (log : list entry) : nat := length (filter (is_transaction id) log).

(** The store agrees with the log: a scope exists exactly when it was issued, an
    active one was not left, an unconsumed one opened no transaction. *)
Definition agrees (w : scopes * list entry) : Prop :=
  (∀ id, LIssued id ∈ w.2 ↔ (id < length w.1)%nat)
  ∧ (∀ id, w.1 !! id = None → transactions id w.2 = 0%nat ∧ LLeft id ∉ w.2)
  ∧ (∀ id s, w.1 !! id = Some s →
       (ps_active s = true → LLeft id ∉ w.2)
       ∧ (transactions id w.2 ≤ if ps_consumed s then 1 else 0)%nat).

Lemma transactions_app id l e :
  transactions id (l ++ [e])
  = (transactions id l + match e with LTransaction i => if decide (i = id) then 1 else 0 | _ => 0 end)%nat.
Proof.
  unfold transactions. rewrite filter_app, length_app. f_equal. rewrite filter_cons, filter_nil.
  destruct e as [i|i|i]; cbn [is_transaction]; try done.
  destruct (decide (i = id)); [rewrite bool_decide_eq_true_2 by done|rewrite bool_decide_eq_false_2 by done]; done.
Qed.

Lemma promote_store a keyring port now call st st' evs r :
  promote canon a keyring port now call st = (st', evs, r) →
  st' = st ∧ evs = []
  ∨ ∃ s, st !! tc_authority_scope call = Some s ∧ ps_active s = true ∧ ps_consumed s = false
      ∧ st' = alter consume_scope (tc_authority_scope call) st.
Proof.
  unfold promote. destruct (_require_active_trusted_promotion_call canon a st call) as [[]|e] eqn:E1;
    cbn [mbind result_bind]; [|intros [= <- <- _]; by left].
  destruct (_consume_trusted_promotion_call st call) as [s|e] eqn:E2; [|intros [= <- <- _]; by left].
  apply active_call_Ok in E1 as (s1 & Hs1 & Ha & _). apply consume_Ok in E2 as (-> & s2 & Hs2 & Hc).
  assert (s2 = s1) as -> by congruence.
  intros H. right. exists s1. split_and!; try done.
  destruct (_ ;; _require_promotable canon keyring call); [destruct (with_transaction _ _ _)|]; congruence.
Qed.

Lemma authorize_store a answer now r st call st' :
  authorize canon a answer now r st = Ok (call, st') →
  tc_authority_scope call = length st ∧ st' = st ++ [mkPromotionScope true false (ra_issuer a) true].
Proof.
  unfold authorize. intros H.
  repeat match type of H with _ ≫= _ = Ok _ =>
    let x := fresh in let E := fresh in apply bind_Ok in H as (x & E & H); clear E end.
  apply Ok_inj in H. injection H as <- <-. done.
Qed.

Lemma alter_lookup_cases (f : PromotionAuthorityScope → PromotionAuthorityScope) st i id s :
  (alter f i st : scopes) !! id = Some s →
  ∃ s0, st !! id = Some s0 ∧ s = if decide (id = i) then f s0 else s0.
Proof.
  destruct (decide (id = i)) as [->|Hne].
  - rewrite list_lookup_alter_eq. destruct (st !! i); [|done]. intros [= <-]. eauto.
  - rewrite list_lookup_alter_ne by done. eauto.
Qed.

Lemma alter_lookup_None (f : PromotionAuthorityScope → PromotionAuthorityScope) (st : scopes) i id :
  alter f i st !! id = None ↔ st !! id = None.
Proof. by rewrite !lookup_ge_None, length_alter. Qed.

Lemma authorize_agrees st log a answer now r : agrees (st, log) → agrees (perform_op (st, log) (OAuthorize a answer now r)).
Proof.
  intros (HI & HN & HS). cbn [fst snd] in *.
  cbn [perform_op]. destruct (authorize canon a answer now r st) as [[call st']|] eqn:E; [|done].
  apply authorize_store in E as [-> ->]. unfold agrees; cbn [fst snd]. split_and!.
  - intros id. rewrite elem_of_app, list_elem_of_singleton, HI, length_app. cbn [length].
    split; [intros [|[= ->]]; lia|]. intros H. destruct (decide (id = length st)) as [->|]; [by right|left; lia].
  - intros id Hid%lookup_ge_None. rewrite length_app in Hid. cbn [length] in Hid.
    destruct (HN id) as [H1 H2]; [apply lookup_ge_None; lia|]. rewrite transactions_app.
    split; [lia|]. rewrite elem_of_app, list_elem_of_singleton. naive_solver.
  - intros id s Hs. rewrite transactions_app, elem_of_app, list_elem_of_singleton, Nat.add_0_r.
    apply lookup_app_Some in Hs as [Hs|[Hl Hs]].
    + specialize (HS id s Hs). naive_solver.
    + apply list_lookup_singleton_Some in Hs as [Hid <-].
      destruct (HN id) as [H1 H2]; [apply lookup_ge_None; lia|]. cbn. split; [naive_solver|lia].
Qed.

Lemma leave_agrees st log call : agrees (st, log) → agrees (perform_op (st, log) (OLeave call)).
Proof.
  intros (HI & HN & HS). cbn [fst snd] in *.
  cbn [perform_op]. case_decide as Hlt; [|done]. unfold agrees; cbn [fst snd]. unfold leave. split_and!.
  - intros id. rewrite elem_of_app, list_elem_of_singleton, HI, length_alter. naive_solver.
  - intros id Hid%alter_lookup_None. destruct (HN id Hid) as [H1 H2].
    apply lookup_ge_None in Hid. rewrite transactions_app, elem_of_app, list_elem_of_singleton.
    split; [lia|]. intros [|[= ->]]; [done|lia].
  - intros id s (s0 & Hs0 & ->)%alter_lookup_cases. destruct (HS id s0 Hs0) as [H1 H2].
    rewrite transactions_app, elem_of_app, list_elem_of_singleton, Nat.add_0_r.
    case_decide; cbn [close_scope ps_active ps_consumed]; [by split|]; split; [naive_solver|done].
Qed.

Lemma promote_agrees st log a k port now call : agrees (st, log) → agrees (perform_op (st, log) (OPromote a k port now call)).
Proof.
  intros (HI & HN & HS). cbn [fst snd] in *.
  cbn [perform_op]. destruct (promote canon a k port now call st) as [[st' evs] r] eqn:E.
  apply promote_store in E as [[-> ->]|(s & Hs & Ha & Hc & ->)]; [done|].
  assert (Htr : ∀ id, (transactions id (if opens evs then log ++ [LTransaction (tc_authority_scope call)] else log)
    ≤ transactions id log + if decide (tc_authority_scope call = id) then 1 else 0)%nat).
  { intros id. destruct (opens evs); [rewrite transactions_app|]; case_decide; lia. }
  assert (Hmem : ∀ e, e ∈ (if opens evs then log ++ [LTransaction (tc_authority_scope call)] else log) →
    e ∈ log ∨ e = LTransaction (tc_authority_scope call)).
  { intros e. destruct (opens evs); [rewrite elem_of_app, list_elem_of_singleton|]; tauto. }
  unfold agrees; cbn [fst snd]. split_and!.
  - intros id. rewrite length_alter, <- HI. split; [intros [H|[=]]%Hmem; done|].
    destruct (opens evs); [rewrite elem_of_app|]; tauto.
  - intros id Hid%alter_lookup_None. destruct (HN id Hid) as [H1 H2]. specialize (Htr id).
    rewrite decide_False in Htr by congruence. split; [lia|]. intros [H|[=]]%Hmem; done.
  - intros id s' (s0 & Hs0 & ->)%alter_lookup_cases. destruct (HS id s0 Hs0) as [H1 H2]. specialize (Htr id).
    destruct (decide (id = tc_authority_scope call)) as [Hid|Hid]; cbn [consume_scope ps_active ps_consumed].
    + subst id. assert (s0 = s) as -> by congruence. rewrite Hc in H2. rewrite decide_True in Htr by done.
      split; [intros _ [H|[=]]%Hmem; by apply H1|lia].
    + rewrite decide_False in Htr by congruence.
      split; [intros Ha' [H|[=]]%Hmem; by apply H1|lia].
Qed.

Lemma perform_agrees w op : agrees w → agrees (perform_op w op).
Proof. destruct w, op; auto using authorize_agrees, leave_agrees, promote_agrees. Qed.

Lemma history_agrees ops : agrees (history ops).
Proof.
  unfold history. assert (H : agrees ([], [])).
  { unfold agrees. cbn. split_and!; [|by intros; split; [|set_solver]|done].
    intros id. split; [set_solver|lia]. }
  revert H. generalize (@nil PromotionAuthorityScope, @nil entry). induction ops as [|op ops IH]; intros w Hw; [done|].
  cbn [foldl]. by apply IH, perform_agrees.
Qed.

(** C20: over every history of authorizations, context exits and promotions, with any
    call objects, clocks, stores and authenticator answers: a scope opens at most one
    promotion transaction, and whenever a promotion reaches the store its scope was
    issued, has not been left and had opened no transaction before. *)
Theorem promotion_is_single_use ops id :
  let '(st, log) := history ops in
  (transactions id log ≤ 1)%nat
  ∧ ∀ a keyring port now call, tc_authority_scope call = id →
      (promote canon a keyring port now call st).1.2 = []
      ∨ LIssued id ∈ log ∧ LLeft id ∉ log ∧ transactions id log = 0%nat.
Proof.
  pose proof (history_agrees ops) as H. destruct (history ops) as [st log].
  destruct H as (HI & HN & HS). cbn [fst snd] in *. split.
  - destruct (st !! id) as [s|] eqn:Es.
    + destruct (HS id s Es) as [_ H]. destruct (ps_consumed s); lia.
    + destruct (HN id Es) as [-> _]. lia.
  - intros a keyring port now call <-.
    destruct (promote canon a keyring port now call st) as [[st' evs] r] eqn:E. cbn [fst snd].
    apply promote_store in E as [[_ ->]|(s & Hs & Ha & Hc & _)]; [by left|right].
    destruct (HS _ s Hs) as [H1 H2]. rewrite Hc in H2. split_and!; [|by apply H1|lia].
    apply HI. by eapply lookup_lt_Some.
Qed.

(** ** An authorized, passing release is promoted *)

(** A store whose transaction completes and stages exactly the next generation. *)
Record answers_exactly (port : ReleaseStorePort) (keyring : ReleaseEvaluationKeyring)
    (call : TrustedPromotionCall) (co : PromotionCommit) : Prop := {
  exact_enter : tx_enter port (tc_organization_id call) = Ok tt;
  exact_complete : tx_complete port = true;
  exact_revalidate : revalidate_promotion port call keyring = Ok tt;
  exact_promote : promote_atomically port call = Ok co;
  exact_commit : _require_exact_commit call co = Ok tt;
  exact_committed : tx_commit port = Ok tt;
  exact_exit : is_ok (tx_exit port None) = true
}.

Lemma with_transaction_exact port keyring call co :
  answers_exactly port keyring call co →
  with_transaction port keyring call
  = ([ETransaction (tc_organization_id call); ERevalidate call; EPromote call; ECommit; EExit None],
     Ok (_construct_promotion_receipt co)).
Proof.
  intros [H1 H2 H3 H4 H5 H6 H7]. unfold with_transaction, transaction_body. rewrite H1, H2, H3, H4, H5, H6.
  cbn. by destruct (tx_exit port None) as [[]|].
Qed.

(** The call of a successful authorization. *)
Lemma authorize_Ok a answer now r st call st' :
  authorize canon a answer now r st = Ok (call, st') →
  tc_organization_id call = pr_organization_id r ∧ tc_candidate call = pr_candidate r
  ∧ tc_candidate_ref call = ca_candidate_ref (pr_candidate r)
  ∧ tc_candidate_digest call = ca_candidate_digest (pr_candidate r)
  ∧ tc_manifest_ref call = mf_manifest_ref (ca_manifest (pr_candidate r))
  ∧ tc_manifest_digest call = mf_manifest_digest (ca_manifest (pr_candidate r))
  ∧ tc_evaluation call = pr_evaluation r
  ∧ tc_evaluation_ref call = ev_evaluation_ref (pr_evaluation r)
  ∧ tc_evaluation_digest call = ev_evaluation_digest (pr_evaluation r)
  ∧ tc_expected_active_generation call = ca_expected_active_generation (pr_candidate r)
  ∧ tc_expected_base_manifest_digest call = ca_expected_base_manifest_digest (pr_candidate r)
  ∧ _promotion_call_digest canon call = Ok (tc_promotion_call_digest call).
Proof.
  unfold authorize. intros (i & _ & H)%bind_Ok. apply bind_Ok in H as (t & _ & H).
  apply bind_Ok in H as ([] & _ & H). apply bind_Ok in H as (b & _ & H). apply bind_Ok in H as ([] & _ & H).
  apply bind_Ok in H as ([] & _ & H). apply bind_Ok in H as (rd & _ & H). apply bind_Ok in H as (d & Hd & H).
  apply Ok_inj in H. injection H as <- _.
  unfold tc_organization_id, tc_candidate, tc_candidate_ref, tc_candidate_digest, tc_manifest_ref,
    tc_manifest_digest, tc_evaluation, tc_evaluation_ref, tc_evaluation_digest, tc_expected_active_generation,
    tc_expected_base_manifest_digest, tc_promotion_call_digest.
  split_and!; try reflexivity. exact Hd.
Qed.

Lemma active_after_authorize a answer now r st call st' :
  authorize canon a answer now r st = Ok (call, st') →
  _require_active_trusted_promotion_call canon a st' call = Ok tt
  ∧ _consume_trusted_promotion_call st' call = Ok (alter consume_scope (length st) st').
Proof.
  intros H. pose proof (authorize_store _ _ _ _ _ _ _ H) as [Hid ->].
  apply authorize_Ok in H as (_ & _ & _ & _ & _ & _ & _ & _ & _ & _ & _ & Hd).
  unfold _require_active_trusted_promotion_call, _consume_trusted_promotion_call. rewrite Hid.
  rewrite lookup_app_r, Nat.sub_diag by done. cbn [lookup list_lookup ps_sealed ps_active ps_issuer ps_consumed].
  split; [|done]. destruct (tc_provenance call). rewrite !bool_decide_eq_true_2 by done. cbn [andb require mbind result_bind].
  rewrite Hd. cbn [try_except mbind result_bind].
  rewrite compare_digest_refl; [done|]. by eapply digest_text.
Qed.

Lemma promotable_intro keyring call :
  let c := tc_candidate call in
  let e := tc_evaluation call in
  verify_release_evaluation canon e c keyring = Ok true →
  tc_organization_id call = ca_organization_id c → tc_candidate_ref call = ca_candidate_ref c →
  tc_candidate_digest call = ca_candidate_digest c → tc_manifest_ref call = mf_manifest_ref (ca_manifest c) →
  tc_manifest_digest call = mf_manifest_digest (ca_manifest c) →
  tc_evaluation_ref call = ev_evaluation_ref e → tc_evaluation_digest call = ev_evaluation_digest e →
  tc_expected_active_generation call = ca_expected_active_generation c →
  tc_expected_base_manifest_digest call = ca_expected_base_manifest_digest c →
  Forall (λ g, gate_status g = PASS) (ca_gate_evidence c) →
  cu_mode (mf_curation_profile (ca_manifest c)) = CURATION_OFF →
  _require_promotable canon keyring call = Ok tt.
Proof.
  intros c e He H1 H2 H3 H4 H5 H6 H7 H8 H9 Hg Hcu.
  pose proof (verify_evaluation_Ok canon _ _ _ He) as (Hc & _ & (p & Hp & Hb%exact_binding_spec) & _).
  destruct Hb as (_ & _ & _ & _ & _ & B6 & B7 & B8 & B9 & _).
  unfold _require_promotable. fold c e. rewrite Hc. cbn [mbind result_bind require]. rewrite He.
  cbn [mbind result_bind]. rewrite B6, B7, B8, B9, <- H8, <- H9, Z.eqb_refl.
  unfold _compatibility in Hp. apply bind_Ok in Hp as (d & _ & <-%Ok_inj). cbn [fst].
  rewrite H1, H2, H3, H4, H5, H6, H7. rewrite !bool_decide_eq_true_2 by done.
  assert (Hall : forallb (λ g, bool_decide (gate_status g = PASS)) (ca_gate_evidence c) = true).
  { apply forallb_forall. intros g Hin%list_elem_of_In. rewrite Forall_forall in Hg.
    by apply bool_decide_eq_true, Hg. }
  rewrite Hall. reflexivity.
Qed.

(** C21: a verified evaluation whose four gates passed, with curation off, authorized
    by the operator authority and presented within the call's lifetime to a store
    that answers exactly, is promoted: [promote] returns the receipt of the store's
    commit, the scope is consumed, and presenting the call again is rejected. *)
Theorem authorized_release_is_promoted a answer now0 r st call st' keyring port now co :
  authorize canon a answer now0 r st = Ok (call, st') →
  verify_release_evaluation canon (pr_evaluation r) (pr_candidate r) keyring = Ok true →
  pr_organization_id r = ca_organization_id (pr_candidate r) →
  Forall (λ g, gate_status g = PASS) (ca_gate_evidence (pr_candidate r)) →
  cu_mode (mf_curation_profile (ca_manifest (pr_candidate r))) = CURATION_OFF →
  is_utc now = true → dt_us (tc_issued_at call) ≤ dt_us now < dt_us (tc_expires_at call) →
  answers_exactly port keyring call co →
  ∃ st'' evs, promote canon a keyring port now call st' = (st'', evs, Ok (_construct_promotion_receipt co))
    ∧ ∀ keyring' port' now', promote canon a keyring' port' now' call st'' = (st'', [], Err ReleasePromotionRejected).
Proof.
  intros Ha He Ho Hg Hcu Hu Ht Hx.
  pose proof (active_after_authorize _ _ _ _ _ _ _ Ha) as [Hact Hcons].
  pose proof (authorize_store _ _ _ _ _ _ _ Ha) as [Hid Hst].
  pose proof (authorize_Ok _ _ _ _ _ _ _ Ha) as (A1 & A2 & A3 & A4 & A5 & A6 & A7 & A8 & A9 & A10 & A11 & A12).
  exists (alter consume_scope (length st) st').
  exists [ETransaction (tc_organization_id call); ERevalidate call; EPromote call; ECommit; EExit None].
  assert (Hp : _require_promotable canon keyring call = Ok tt).
  { apply promotable_intro; rewrite ?A2, ?A7; try done; congruence. }
  assert (Htime : _require_current_call_time call now = Ok tt).
  { unfold _require_current_call_time, dt_ltb. rewrite Hu.
    rewrite (proj2 (Z.ltb_ge _ _)), (proj2 (Z.ltb_lt _ _)) by lia. done. }
  split.
  - unfold promote. rewrite Hact, Hcons, Htime, Hp. cbn [mbind result_bind].
    by rewrite (with_transaction_exact _ _ _ _ Hx).
  - intros keyring' port' now'. unfold promote.
    destruct (_ ;; _consume_trusted_promotion_call (alter consume_scope (length st) st') call) as [s|e] eqn:E.
    + apply bind_Ok in E as (? & _ & E). apply consume_Ok in E as (_ & s1 & Hs1 & Hc). rewrite Hid in Hs1.
      apply alter_lookup_cases in Hs1 as (s0 & _ & ->). by rewrite decide_True in Hc.
    + apply bind_Err in E as [E|(? & _ & E)].
      * unfold _require_active_trusted_promotion_call in *. rewrite Hid in *.
        rewrite list_lookup_alter_eq in E. destruct (st' !! length st) as [s0|]; [|by injection E as <-].
        cbn [fmap option_fmap option_map consume_scope ps_sealed ps_active ps_issuer] in E. congruence.
      * unfold _consume_trusted_promotion_call in *. rewrite Hid in *.
        rewrite list_lookup_alter_eq in E. destruct (st' !! length st) as [s0|]; [|by injection E as <-].
        cbn in E. by injection E as <-.
Qed.

(** [evaluate] hands to the store and returns only an evaluation that verifies
    against a candidate with exactly the requested reference; every failure is
    [ReleaseEvaluationUnavailable]. *)
Lemma evaluation_is_exact keyring port now ref :
  let '(persisted, r) := evaluate canon keyring port now ref in
  match r with
  | Ok e => persisted = [e] ∧ persist_evaluation port e = Ok tt
  | Err err => err = ReleaseEvaluationUnavailable
  end
  ∧ ∀ e, e ∈ persisted →
      ∃ c, load_candidate port ref = Ok c ∧ reference c = Ok ref
        ∧ evaluate_candidate canon c keyring now = Ok e
        ∧ verify_release_evaluation canon e c keyring = Ok true
        ∧ ev_organization_id e = cr_organization ref ∧ ev_candidate_digest e = cr_candidate_digest ref.
Proof.
  unfold evaluate.
  destruct (load_candidate port ref ≫= _) as [e|err] eqn:E; [|split; [done|set_solver]].
  apply bind_Ok in E as (c & Hc & E). apply bind_Ok in E as (own & Hown & E). apply bind_Ok in E as ([] & Hr & E).
  apply require_Ok, bool_decide_eq_true in Hr as ->. apply bind_Ok in E as (v & Hv & E).
  apply bind_Ok in E as ([] & _ & E). split.
  - by destruct (persist_evaluation port e) as [[]|] eqn:Ep.
  - intros e' ->%list_elem_of_singleton. exists c.
    split_and!; try done; [by eapply evaluate_verifies|..]; revert E Hown;
    unfold evaluate_candidate, ReleaseEvaluation_post_init, reference, new_ReleaseCandidateRef; intros E Hown;
    repeat match goal with H : _ ≫= _ = Ok _ |- _ => apply bind_Ok in H as (? & ? & H) end;
    apply Ok_inj in E as <-; apply Ok_inj in Hown as <-; reflexivity.
Qed.
End Facts.

(** ** A run *)

Definition sample_authority : ReleaseOperatorAuthority := mkAuthority (60 * us_per_second) 3.
Definition sample_identity : VerifiedReleaseOperatorIdentity :=
  mkIdentity sample_org (lit "operator") (lit "binding") (lit "authority") (sample_digest "a")
    sample_time (mkDatetime (dt_us sample_time + 3600 * us_per_second) (Some 0)).
Definition sample_request : PromotionAuthorizationRequest :=
  mkPromotionRequest sample_org (lit "promotion") sample_c sample_e (lit "request") (lit "ship it") (lit "secret").
Definition sample_authorized : result (TrustedPromotionCall * scopes) :=
  authorize sample_canon sample_authority (Ok sample_identity) sample_time sample_request [].
Definition sample_call : TrustedPromotionCall := Eval vm_compute in
  (value_or (mkPromotionCall sample_org [] [] [] [] [] sample_c [] [] [] [] sample_e [] [] 0 None sample_time
     sample_time [] [] [] RELEASE_OPERATOR_AUTHORITY 0, []) sample_authorized).1.
Definition sample_scopes : scopes := [mkPromotionScope true false 3 true].
Definition sample_later : datetime := mkDatetime (dt_us sample_time + 5) (Some 0).
Definition sample_commit : PromotionCommit :=
  mkCommit sample_org (lit "promotion") 1 (lit "manifest") (mf_manifest_digest sample_m) sample_later.
Definition sample_store : ReleaseStorePort :=
  mkReleaseStore (λ _, Ok sample_c) (λ _, Ok tt) (λ _, Ok tt) true (λ _ _, Ok tt) (λ _, Ok sample_commit) (Ok tt)
    (λ _, Ok false).

Lemma sample_authorizes : sample_authorized = Ok (sample_call, sample_scopes).
Proof. by vm_compute. Qed.

Lemma authorized_release_is_promoted_witness :
  ∃ st'' evs, promote sample_canon sample_authority sample_keyring sample_store sample_later sample_call sample_scopes
    = (st'', evs, Ok (_construct_promotion_receipt sample_commit))
    ∧ ∀ keyring' port' now', promote sample_canon sample_authority keyring' port' now' sample_call st''
        = (st'', [], Err ReleasePromotionRejected).
Proof.
  apply (authorized_release_is_promoted sample_canon sample_authority (Ok sample_identity) sample_time
    sample_request [] sample_call sample_scopes sample_keyring sample_store sample_later sample_commit).
  - exact sample_authorizes.
  - exact sample_evaluated.
  - reflexivity.
  - repeat apply Forall_cons_2; try apply Forall_nil_2; reflexivity.
  - reflexivity.
  - reflexivity.
  - split; vm_compute; [discriminate|reflexivity].
  - split; try reflexivity; by vm_compute.
Defined.

(** The same promotion, as [receipt_requires_every_veto] sees it. *)
Lemma receipt_requires_every_veto_witness :
  promotable sample_canon sample_keyring sample_call.
Proof.
  pose proof (receipt_requires_every_veto sample_canon sample_authority sample_keyring sample_store sample_later
    sample_call sample_scopes [mkPromotionScope true true 3 true]
    [ETransaction sample_org; ERevalidate sample_call; EPromote sample_call; ECommit; EExit None]
    (_construct_promotion_receipt sample_commit)) as H.
  apply H; [by intros e|by vm_compute].
Defined.

(** A history with one authorization, one promotion and a second try. *)
Definition sample_history : list operation :=
  [OAuthorize sample_authority (Ok sample_identity) sample_time sample_request;
   OPromote sample_authority sample_keyring sample_store sample_later sample_call;
   OPromote sample_authority sample_keyring sample_store sample_later sample_call].

Lemma promotion_is_single_use_witness :
  let '(st, log) := history sample_canon sample_history in
  (transactions 0 log ≤ 1)%nat
  ∧ ∀ a keyring port now call, tc_authority_scope call = 0%nat →
      (promote sample_canon a keyring port now call st).1.2 = []
      ∨ LIssued 0 ∈ log ∧ LLeft 0 ∉ log ∧ transactions 0 log = 0%nat.
Proof. exact (promotion_is_single_use sample_canon sample_history 0). Defined.

Lemma promotion_errors_are_closed_witness :
  let '(_, evs, r) :=
    promote sample_canon sample_authority sample_keyring sample_store sample_time sample_call [] in
  (∀ e, r = Err e → e = ReleasePromotionRejected ∨ e = ReleasePromotionUnavailable)
  ∧ (ECommit ∈ evs →
     promotable sample_canon sample_keyring sample_call
     ∧ revalidate_promotion sample_store sample_call sample_keyring = Ok tt
     ∧ ∃ co, promote_atomically sample_store sample_call = Ok co
        ∧ co_active_generation co = ca_expected_active_generation (tc_candidate sample_call) + 1
        ∧ co_manifest_digest co = mf_manifest_digest (ca_manifest (tc_candidate sample_call))).
Proof.
  exact (promotion_errors_are_closed sample_canon sample_authority sample_keyring sample_store sample_time
    sample_call []).
Defined.
