(* ===== verification/Egress.v ===== *)
(** * One-hop egress grants: [src/engine/runtime/egress.py], [egress_payload.py]

    Grants, hop profiles, issues and redemptions with their closed shapes, and the
    issuance of one grant through a session of the retained transaction.  Issuance
    scopes are cells of a store; the durable port's answer and the reference
    factory's text are arguments, and an issuance returns what it handed to the port. *)

From S2P Require Import Prelude Codec Sha256 Datetime Json Trusted.

Definition MODEL_EGRESS_GRANT_PREFIX : pystr := lit "egrm".
Definition CHANNEL_EGRESS_GRANT_PREFIX : pystr := lit "egrc".
Definition EGRESS_GRANT_PROFILE_LINEAGE : pystr := lit "egress-grant-v1".

(** ** Field checks *)

Definition nonblank (s : pystr) : result unit := require (negb (blank s)) ValueError.
Definition sha256_text (s : pystr) : result unit := require (is_sha256_hex s) ValueError.
Definition _require_positive_epoch (z : Z) : result unit := require (1 <=? z) ValueError.

Definition _require_opaque_grant (value prefix : pystr) : result unit :=
  require (startswith (prefix ++ [95]) value && (len value =? len prefix + 1 + 64)
           && all_in hex_alphabet (drop 5 value)) ValueError.

(** ** Grants and profiles *)

Record ModelEgressGrant := mkModelGrant { model_grant_value : pystr }.
Record ChannelEgressGrant := mkChannelGrant { channel_grant_value : pystr }.
Definition new_ModelEgressGrant (value : pystr) : result ModelEgressGrant :=
  _require_opaque_grant value MODEL_EGRESS_GRANT_PREFIX ;; Ok (mkModelGrant value).
Definition new_ChannelEgressGrant (value : pystr) : result ChannelEgressGrant :=
  _require_opaque_grant value CHANNEL_EGRESS_GRANT_PREFIX ;; Ok (mkChannelGrant value).
(** [digest] *)
Definition grant_digest_of (value : pystr) : result pybytes :=
  b ← encode_utf8 value; Ok (sha256 b).

Record ModelEgressProfile := mkModelEgressProfile {
  me_profile_ref : pystr;
  me_retention_policy_ref : pystr;
  me_sensitivity_policy_ref : pystr;
  me_issuer_ref : pystr;
  me_consumer_ref : pystr;
  me_provider_ref : pystr;
  me_model_ref : pystr;
  me_region_ref : pystr;
  me_maximum_ttl : Z
}.
#[export] Instance ModelEgressProfile_eq_dec : EqDecision ModelEgressProfile.
Proof. solve_decision. Defined.
Definition check_model_profile (p : ModelEgressProfile) : result unit :=
  each nonblank [me_profile_ref p; me_retention_policy_ref p; me_sensitivity_policy_ref p; me_issuer_ref p;
                 me_consumer_ref p; me_provider_ref p; me_model_ref p; me_region_ref p] ;;
  require (0 <? me_maximum_ttl p) ValueError.

Record ChannelEgressProfile := mkChannelEgressProfile {
  ch_profile_ref : pystr;
  ch_retention_policy_ref : pystr;
  ch_sensitivity_policy_ref : pystr;
  ch_issuer_ref : pystr;
  ch_consumer_ref : pystr;
  ch_channel_ref : pystr;
  ch_destination_ref : pystr;
  ch_region_ref : pystr;
  ch_maximum_ttl : Z
}.
Definition check_channel_profile (p : ChannelEgressProfile) : result unit :=
  each nonblank [ch_profile_ref p; ch_retention_policy_ref p; ch_sensitivity_policy_ref p; ch_issuer_ref p;
                 ch_consumer_ref p; ch_channel_ref p; ch_destination_ref p; ch_region_ref p] ;;
  require (0 <? ch_maximum_ttl p) ValueError.

(** [InternalOnlyEgressProfile.__post_init__] *)
Definition check_internal_profile (profile_ref : pystr) : result unit :=
  require (bool_decide (profile_ref = lit "internal-only-egress-v1")) ValueError.

(** ** The facts of one hop, common to an issue and a redemption *)

Record EgressFacts := mkEgressFacts {
  ef_hop_kind : pystr;
  ef_organization_id : UUID;
  ef_package_digest : pystr;
  ef_payload_digest : pystr;
  ef_purpose : pystr;
  ef_audience_digest : pystr;
  ef_policy_epoch : Z;
  ef_retention_policy_ref : pystr;
  ef_sensitivity_policy_ref : pystr;
  ef_issuer_ref : pystr;
  ef_consumer_ref : pystr;
  ef_provider_ref : option pystr;
  ef_model_ref : option pystr;
  ef_channel_ref : option pystr;
  ef_destination_ref : option pystr;
  ef_region_ref : pystr;
  ef_profile_ref : pystr
}.
#[export] Instance EgressFacts_eq_dec : EqDecision EgressFacts.
Proof. solve_decision. Defined.

Definition check_digests_and_refs (f : EgressFacts) : result unit :=
  sha256_text (ef_package_digest f) ;; sha256_text (ef_payload_digest f) ;; sha256_text (ef_audience_digest f) ;;
  _require_positive_epoch (ef_policy_epoch f) ;;
  each nonblank [ef_purpose f; ef_retention_policy_ref f; ef_sensitivity_policy_ref f; ef_issuer_ref f;
                 ef_consumer_ref f; ef_region_ref f; ef_profile_ref f].

(** Exactly the fields of the declared hop are present. *)
Definition check_hop (f : EgressFacts) : result unit :=
  if bool_decide (ef_hop_kind f = lit "model") then
    match ef_provider_ref f, ef_model_ref f, ef_channel_ref f, ef_destination_ref f with
    | Some p, Some m, None, None => nonblank p ;; nonblank m
    | _, _, _, _ => Err ValueError
    end
  else if bool_decide (ef_hop_kind f = lit "channel") then
    match ef_channel_ref f, ef_destination_ref f, ef_provider_ref f, ef_model_ref f with
    | Some c, Some d, None, None => nonblank c ;; nonblank d
    | _, _, _, _ => Err ValueError
    end
  else Err ValueError.

Inductive EgressAuditCategory := ISSUED | CONSUMED.
#[export] Instance EgressAuditCategory_eq_dec : EqDecision EgressAuditCategory.
Proof. solve_decision. Defined.

Record EgressGrantIssue := mkIssue {
  is_facts : EgressFacts;
  is_issued_at : datetime;
  is_expires_at : datetime;
  is_grant_profile_ref : pystr;
  is_category : EgressAuditCategory
}.
(** [EgressGrantIssue.__post_init__] *)
Definition check_issue (i : EgressGrantIssue) : result unit :=
  check_digests_and_refs (is_facts i) ;;
  require_utc (is_issued_at i) ;; require_utc (is_expires_at i) ;;
  require (dt_ltb (is_issued_at i) (is_expires_at i)) ValueError ;;
  require (bool_decide (is_grant_profile_ref i = EGRESS_GRANT_PROFILE_LINEAGE)) ValueError ;;
  require (bool_decide (is_category i = ISSUED)) ValueError ;;
  check_hop (is_facts i).

(** [EgressGrantRedemption.__post_init__] *)
Record EgressGrantRedemption := mkRedemption { rd_grant_digest : pybytes; rd_facts : EgressFacts }.
#[export] Instance EgressGrantRedemption_eq_dec : EqDecision EgressGrantRedemption.
Proof. solve_decision. Defined.
Definition check_redemption (r : EgressGrantRedemption) : result unit :=
  require (len (rd_grant_digest r) =? 32) ValueError ;;
  check_digests_and_refs (rd_facts r) ;; check_hop (rd_facts r).

(** The facts that [for_model] and [for_channel] take from the request and profile. *)
Definition model_facts (org : UUID) (package payload purpose audience : pystr) (epoch : Z)
    (p : ModelEgressProfile) : EgressFacts :=
  mkEgressFacts (lit "model") org package payload purpose audience epoch (me_retention_policy_ref p)
    (me_sensitivity_policy_ref p) (me_issuer_ref p) (me_consumer_ref p) (Some (me_provider_ref p))
    (Some (me_model_ref p)) None None (me_region_ref p) (me_profile_ref p).
Definition channel_facts (org : UUID) (package payload purpose audience : pystr) (epoch : Z)
    (p : ChannelEgressProfile) : EgressFacts :=
  mkEgressFacts (lit "channel") org package payload purpose audience epoch (ch_retention_policy_ref p)
    (ch_sensitivity_policy_ref p) (ch_issuer_ref p) (ch_consumer_ref p) None None (Some (ch_channel_ref p))
    (Some (ch_destination_ref p)) (ch_region_ref p) (ch_profile_ref p).

(** [expires_at - issued_at]: a naive and an aware datetime do not subtract. *)
Definition lifetime (expires_at issued_at : datetime) : result Z :=
  require (Bool.eqb (bool_decide (dt_off expires_at = None)) (bool_decide (dt_off issued_at = None))) TypeError ;;
  Ok (dt_sub expires_at issued_at).

(** The constructor with its defaults. *)
Definition new_issue (f : EgressFacts) (issued_at expires_at : datetime) : result EgressGrantIssue :=
  let i := mkIssue f issued_at expires_at EGRESS_GRANT_PROFILE_LINEAGE ISSUED in check_issue i ;; Ok i.
Definition issue_for_model (org : UUID) (package payload purpose audience : pystr) (epoch : Z)
    (issued_at expires_at : datetime) (p : ModelEgressProfile) : result EgressGrantIssue :=
  ttl ← lifetime expires_at issued_at;
  require (ttl <=? me_maximum_ttl p) ValueError ;;
  new_issue (model_facts org package payload purpose audience epoch p) issued_at expires_at.
Definition issue_for_channel (org : UUID) (package payload purpose audience : pystr) (epoch : Z)
    (issued_at expires_at : datetime) (p : ChannelEgressProfile) : result EgressGrantIssue :=
  ttl ← lifetime expires_at issued_at;
  require (ttl <=? ch_maximum_ttl p) ValueError ;;
  new_issue (channel_facts org package payload purpose audience epoch p) issued_at expires_at.

Definition redemption_for_model (g : ModelEgressGrant) (org : UUID) (package payload purpose audience : pystr)
    (epoch : Z) (p : ModelEgressProfile) : result EgressGrantRedemption :=
  digest ← grant_digest_of (model_grant_value g);
  let r := mkRedemption digest (model_facts org package payload purpose audience epoch p) in
  check_redemption r ;; Ok r.
Definition redemption_for_channel (g : ChannelEgressGrant) (org : UUID) (package payload purpose audience : pystr)
    (epoch : Z) (p : ChannelEgressProfile) : result EgressGrantRedemption :=
  digest ← grant_digest_of (channel_grant_value g);
  let r := mkRedemption digest (channel_facts org package payload purpose audience epoch p) in
  check_redemption r ;; Ok r.

(** ** Issuance *)

Abbreviation issuance_scopes := (list bool) (only parsing).
Definition _open_egress_grant_issuance_scope (G : issuance_scopes) : issuance_scopes * nat := (G ++ [true], length G).
Definition _close_egress_grant_issuance_scope (G : issuance_scopes) (scope : nat) : issuance_scopes :=
  <[scope := false]> G.
Definition _require_active_egress_grant_issuance_session (G : issuance_scopes) (scope : nat) : result unit :=
  match G !! scope with Some true => Ok tt | _ => Err ValueError end.

Inductive EgressGrant := ModelGrant (g : ModelEgressGrant) | ChannelGrant (g : ChannelEgressGrant).
Definition grant_value (g : EgressGrant) : pystr :=
  match g with ModelGrant g => model_grant_value g | ChannelGrant g => channel_grant_value g end.

(** [issue_egress_grant]: [factory] is what the reference factory returns, [answer]
    what the port does with the request and the digest. *)
Definition issue_egress_grant (G : issuance_scopes) (session : nat) (request : EgressGrantIssue)
    (factory : pystr → result pystr) (answer : EgressGrantIssue → pybytes → result bool) :
    list (EgressGrantIssue * pybytes) * result EgressGrant :=
  match
    _require_active_egress_grant_issuance_session G session ;;
    let model := bool_decide (ef_hop_kind (is_facts request) = lit "model") in
    value ← factory (if model then MODEL_EGRESS_GRANT_PREFIX else CHANNEL_EGRESS_GRANT_PREFIX);
    grant ← (if model then g ← new_ModelEgressGrant value; Ok (ModelGrant g)
             else g ← new_ChannelEgressGrant value; Ok (ChannelGrant g));
    digest ← grant_digest_of value;
    Ok (grant, digest)
  with
  | Err e => ([], Err e)
  | Ok (grant, digest) =>
      ([(request, digest)],
       match answer request digest with
       | Ok true => Ok grant
       | _ => Err EgressGrantIssuanceUnavailable
       end)
  end.

(** ** Digests *)

Section Canon.
Context (canon : json → result pybytes).

Definition direct_egress_audience_digest (organization_id membership_id : UUID) (membership_version : Z)
    (application delivery_binding : pystr) : result pystr :=
  require (1 <=? membership_version) ValueError ;;
  nonblank application ;; nonblank delivery_binding ;;
  b ← canon (JObj [(lit "applicationRef", JStr application); (lit "deliveryBindingRef", JStr delivery_binding);
                   (lit "membershipId", JStr (uuid_str membership_id));
                   (lit "membershipVersion", JInt membership_version);
                   (lit "organizationId", JStr (uuid_str organization_id));
                   (lit "profile", JStr (lit "direct-egress-audience-rfc8785-sha256-v1"))]);
  Ok (hexdigest (lit "context-engine.direct-egress-audience.v1" ++ [0] ++ b)).
End Canon.

Definition MODEL_INPUT_DIGEST_DOMAIN : pybytes := lit "context-engine.authorized-model-input.v1" ++ [0].
Definition CHANNEL_PAYLOAD_DIGEST_DOMAIN : pybytes := lit "context-engine.authorized-channel-payload.v1" ++ [0].
Definition model_payload_bytes_digest (payload : pybytes) : pystr := hexdigest (MODEL_INPUT_DIGEST_DOMAIN ++ payload).
Definition channel_payload_bytes_digest (payload : pybytes) : pystr :=
  hexdigest (CHANNEL_PAYLOAD_DIGEST_DOMAIN ++ payload).

(** ** The bearer value, its digest and its hop *)

Lemma opaque_grant_ascii value prefix :
  len prefix = 4 → Forall (λ c, 0 ≤ c < 128) prefix →
  _require_opaque_grant value prefix = Ok tt → Forall (λ c, 0 ≤ c < 128) value ∧ startswith (prefix ++ [95]) value = true.
Proof.
  intros Hp Ha H. unfold _require_opaque_grant in H. run_ok. split; [|done].
  assert (Hs : ∃ r, value = (prefix ++ [95]) ++ r).
  { match goal with H : startswith _ _ = true |- _ => revert H end. generalize (prefix ++ [95]). clear.
    intros p. revert value. induction p as [|x p IH]; intros [|y v]; cbn; try done; [by exists []|by eexists|].
    intros [->%Z.eqb_eq [r ->]%IH]%andb_true_iff. by exists r. }
  destruct Hs as [r ->]. rewrite !Forall_app. split_and!; [done|by repeat constructor|].
  match goal with H : all_in _ _ = true |- _ => rename H into Hr end.
  rewrite drop_app_length' in Hr by (unfold len in Hp; rewrite length_app; cbn; lia).
  unfold all_in in Hr. rewrite forallb_forall in Hr. apply Forall_forall. intros c Hc%list_elem_of_In%Hr.
  apply mem_spec in Hc. revert c Hc. apply Forall_forall. apply (bool_decide_unpack _). by vm_compute.
Qed.

Lemma encode_ascii s : Forall (λ c, 0 ≤ c < 128) s → encode_utf8 s = Ok s.
Proof.
  intros H. unfold encode_utf8.
  assert (Hs : existsb is_surrogate s = false).
  { apply not_true_iff_false. rewrite existsb_exists. intros (c & Hc%list_elem_of_In & Hsur).
    rewrite Forall_forall in H. specialize (H c Hc). unfold is_surrogate in Hsur. lia. }
  rewrite Hs. f_equal. clear Hs. induction H as [|c s Hc _ IH]; [done|]. cbn [utf8]. rewrite IH. unfold utf8_char.
  by rewrite (proj2 (Z.ltb_lt c 128)) by lia.
Qed.

Lemma sha256_eq x y : sha256 x = sha256 y → x = y ∨ collision x y.
Proof.
  intros H. apply hexdigest_eq. change (hexdigest x) with (hex (sha256 x)). by rewrite H.
Qed.

Definition hop_prefix (g : EgressGrant) : pystr :=
  match g with ModelGrant _ => MODEL_EGRESS_GRANT_PREFIX | ChannelGrant _ => CHANNEL_EGRESS_GRANT_PREFIX end.
Definition grant_ok (g : EgressGrant) : Prop := _require_opaque_grant (grant_value g) (hop_prefix g) = Ok tt.

Lemma grant_ok_ascii g :
  grant_ok g → Forall (λ c, 0 ≤ c < 128) (grant_value g) ∧ startswith (hop_prefix g ++ [95]) (grant_value g) = true.
Proof.
  intros H. apply opaque_grant_ascii in H; [done|by destruct g|]. destruct g; apply (bool_decide_unpack _); by vm_compute.
Qed.

Lemma startswith_same p q v : length p = length q → startswith p v = true → startswith q v = true → p = q.
Proof.
  revert q v. induction p as [|x p IH]; intros [|y q] v Hl Hp Hq; try done. destruct v as [|z v]; [done|].
  cbn in Hp, Hq. run_ok. f_equal; [lia|]. eapply IH; [by injection Hl|done..].
Qed.

(** Equal digests of two well-formed grants: the same hop and bearer value. *)
Lemma grant_digest_binds g h d :
  grant_ok g → grant_ok h → grant_digest_of (grant_value g) = Ok d → grant_digest_of (grant_value h) = Ok d →
  g = h ∨ collision (grant_value g) (grant_value h).
Proof.
  intros [Hg Sg]%grant_ok_ascii [Hh Sh]%grant_ok_ascii. unfold grant_digest_of.
  rewrite !encode_ascii by done. cbn [mbind result_bind]. intros Eg%Ok_inj Eh%Ok_inj.
  assert (E : sha256 (grant_value g) = sha256 (grant_value h)) by congruence.
  apply sha256_eq in E as [E|E]; [left|by right]. destruct g as [[v]|[v]], h as [[w]|[w]]; cbn [grant_value model_grant_value channel_grant_value hop_prefix] in E, Sg, Sh; subst; try done.
  - by apply (startswith_same _ (CHANNEL_EGRESS_GRANT_PREFIX ++ [95])) in Sg.
  - by apply (startswith_same _ (MODEL_EGRESS_GRANT_PREFIX ++ [95])) in Sg.
Qed.

(** How a consumer presents a grant: [h] is the bearer behind redemption [r]. *)
Definition presents (h : EgressGrant) (r : EgressGrantRedemption) : Prop :=
  grant_ok h ∧
  match h with
  | ModelGrant g => ∃ org package payload purpose audience epoch p,
      redemption_for_model g org package payload purpose audience epoch p = Ok r
  | ChannelGrant g => ∃ org package payload purpose audience epoch p,
      redemption_for_channel g org package payload purpose audience epoch p = Ok r
  end.

Lemma presents_digest h r :
  presents h r →
  grant_digest_of (grant_value h) = Ok (rd_grant_digest r)
  ∧ ef_hop_kind (rd_facts r) = match h with ModelGrant _ => lit "model" | ChannelGrant _ => lit "channel" end.
Proof.
  intros [_ H]. destruct h as [g|g]; destruct H as (org & package & payload & purpose & audience & epoch & p & H);
    [unfold redemption_for_model in H|unfold redemption_for_channel in H];
    apply bind_Ok in H as (d & Hd & H); apply bind_Ok in H as ([] & _ & H); apply Ok_inj in H as <-; by split.
Qed.

Lemma grant_issue_Ok G session req factory answer calls grant :
  issue_egress_grant G session req factory answer = (calls, Ok grant) →
  ∃ d, calls = [(req, d)] ∧ answer req d = Ok true ∧ G !! session = Some true ∧ grant_ok grant
    ∧ grant_digest_of (grant_value grant) = Ok d
    ∧ match grant with
      | ModelGrant _ => ef_hop_kind (is_facts req) = lit "model"
      | ChannelGrant _ => ef_hop_kind (is_facts req) ≠ lit "model"
      end.
Proof.
  unfold issue_egress_grant. destruct (_require_active_egress_grant_issuance_session G session ;; _) as [[g d]|e] eqn:E;
    [|by intros [= _]].
  destruct (answer req d) as [[]|] eqn:Ea; intros [= <- Hg]; try discriminate. subst g.
  apply bind_Ok in E as ([] & Hs & E). apply bind_Ok in E as (v & Hv & E). apply bind_Ok in E as (g & Hg & E).
  apply bind_Ok in E as (d' & Hd & E). injection E as -> ->. exists d. split; [done|]. split; [done|].
  unfold _require_active_egress_grant_issuance_session in Hs. destruct (G !! session) as [[]|]; try discriminate.
  split; [done|]. case_bool_decide as Hk; apply bind_Ok in Hg as (g' & Hg' & <-%Ok_inj);
    [unfold new_ModelEgressGrant in Hg'|unfold new_ChannelEgressGrant in Hg'];
    apply bind_Ok in Hg' as ([] & Hok & <-%Ok_inj); by split_and!.
Qed.

(** An issued grant was persisted exactly once, by its digest and request, under
    a live issuance scope and for the request's hop; any later redemption that
    presents the persisted digest was built from that same grant, hop included, or
    the two bearer values collide under SHA-256. *)
Theorem presented_grant_was_issued G session req factory answer calls grant :
  issue_egress_grant G session req factory answer = (calls, Ok grant) →
  ∃ d, calls = [(req, d)] ∧ answer req d = Ok true ∧ G !! session = Some true
    ∧ (ef_hop_kind (is_facts req) = lit "model" ↔ ∃ g, grant = ModelGrant g)
    ∧ ∀ h r, presents h r → rd_grant_digest r = d →
        h = grant ∨ collision (grant_value h) (grant_value grant).
Proof.
  intros (d & Hc & Ha & Hs & Hg & Hd & Hk)%grant_issue_Ok. exists d. split_and!; try done.
  - split; [|intros [g ->]; done]. intros Hm. destruct grant as [g|g]; [by eexists|done].
  - intros h r Hp Hr. pose proof (presents_digest h r Hp) as [Hh _]. rewrite Hr in Hh.
    destruct Hp as [Hok _]. by apply (grant_digest_binds h grant d).
Qed.

(** ** A model hop *)

Definition demo_profile : ModelEgressProfile :=
  mkModelEgressProfile (lit "p") (lit "r") (lit "s") (lit "i") (lit "c") (lit "prov") (lit "m") (lit "eu")
    (60 * us_per_second).
Definition demo_sha : pystr := replicate 64 48.
Definition demo_request : EgressGrantIssue :=
  mkIssue (model_facts (mkUUID 1) demo_sha demo_sha (lit "answer") demo_sha 1 demo_profile)
    (mkDatetime 63900000000000000 (Some 0)) (mkDatetime 63900000030000000 (Some 0))
    EGRESS_GRANT_PROFILE_LINEAGE ISSUED.
Definition demo_value : pystr := lit "egrm_" ++ replicate 64 97.

Example demo_request_issued :
  issue_for_model (mkUUID 1) demo_sha demo_sha (lit "answer") demo_sha 1
    (mkDatetime 63900000000000000 (Some 0)) (mkDatetime 63900000030000000 (Some 0)) demo_profile = Ok demo_request.
Proof. by vm_compute. Qed.

Lemma presented_grant_was_issued_witness :
  ∃ d, [(demo_request, sha256 demo_value)] = [(demo_request, d)] ∧ Ok true = Ok true ∧ [true] !! 0%nat = Some true
    ∧ (ef_hop_kind (is_facts demo_request) = lit "model" ↔ ∃ g, ModelGrant (mkModelGrant demo_value) = ModelGrant g)
    ∧ ∀ h r, presents h r → rd_grant_digest r = d →
        h = ModelGrant (mkModelGrant demo_value)
        ∨ collision (grant_value h) (grant_value (ModelGrant (mkModelGrant demo_value))).
Proof.
  apply (presented_grant_was_issued [true] 0 demo_request (λ _, Ok demo_value) (λ _ _, Ok true)
    [(demo_request, sha256 demo_value)] (ModelGrant (mkModelGrant demo_value))).
  unfold issue_egress_grant. reflexivity.
Defined.
