(* ===== verification/Inference.v ===== *)
(** * The governed model-inference port: [src/engine/runtime/model_inference.py]

    Profiles with their integrity digest, the three request kinds and their sealed
    snapshots, the shared budget -> redeem -> provider -> trace pipeline, and the
    closed parsers of the three operations.

    The port composes components that are modelled elsewhere: the meter's store of
    [Budget], the kernel lifetimes of [Evidence], the redemptions of [Egress].  The
    redemption authority, the gateway, the trace observer and the two clock readings
    are arguments that may answer anything; a run returns the calls it made.  The
    gateway's worker thread appears as its outcome at the deadline. *)

From S2P Require Import Prelude Codec Sha256 Float64 Json Budget Evidence Egress.

Definition MODEL_INFERENCE_DIGEST_PROFILE : pystr := lit "model-inference-rfc8785-sha256-v1".
Definition _DIGEST_DOMAIN : pybytes := lit "context-engine.model-inference.v1" ++ [0].
Definition _OUTPUT_DIGEST_DOMAIN : pybytes := lit "context-engine.model-inference-output.v1" ++ [0].
Definition _UNAVAILABLE_PROFILE_REF : pystr := lit "model-inference-profile-unavailable-v1".

Definition _require_positive_integer (z : Z) : result unit := require (1 <=? z) ValueError.
Definition _require_nonnegative_integer (z : Z) : result unit := require (0 <=? z) ValueError.

Inductive ModelInferenceOperation := REWRITE | RERANK | SELECT.
#[export] Instance ModelInferenceOperation_eq_dec : EqDecision ModelInferenceOperation.
Proof. solve_decision. Defined.
Definition operation_value (o : ModelInferenceOperation) : pystr :=
  match o with REWRITE => lit "rewrite" | RERANK => lit "rerank" | SELECT => lit "select" end.
Inductive ModelInferenceOutcomeCategory := SUCCEEDED | UNAVAILABLE.

Record ModelInferenceRetryPolicy := mkRetry { maximum_attempts : Z; backoff_ms : list Z }.
#[export] Instance ModelInferenceRetryPolicy_eq_dec : EqDecision ModelInferenceRetryPolicy.
Proof. solve_decision. Defined.
Definition check_retry (r : ModelInferenceRetryPolicy) : result unit :=
  require ((maximum_attempts r =? 1) && bool_decide (backoff_ms r = [])) ValueError.

Record ModelInferenceProfile := mkInferenceProfile {
  mp_profile_ref : pystr;
  mp_profile_version : Z;
  mp_operation : ModelInferenceOperation;
  mp_egress_profile : ModelEgressProfile;
  mp_tokenizer_ref : pystr;
  mp_tokenizer_profile_digest : pystr;
  mp_maximum_input_tokens : Z;
  mp_maximum_output_tokens : Z;
  mp_maximum_input_items : Z;
  mp_maximum_output_items : Z;
  mp_maximum_provider_calls : Z;
  mp_maximum_cost_microunits : Z;
  mp_maximum_elapsed_ms : Z;
  mp_timeout_ms : Z;
  mp_retry_policy : ModelInferenceRetryPolicy;
  mp_input_token_cost_microunits : Z;
  mp_output_token_cost_microunits : Z;
  mp_integrity_digest : pystr
}.
#[export] Instance ModelInferenceProfile_eq_dec : EqDecision ModelInferenceProfile.
Proof. solve_decision. Defined.

(** [int(td.total_seconds() * 1_000_000)]: the quotient and the product are rounded
    to binary64, then truncated; a timedelta is its number of microseconds. *)
Definition int_of_float (f : float) : Z :=
  match f with
  | S754_finite s m e =>
      let a := if 0 <=? e then Z.pos m * 2 ^ e else Z.pos m / 2 ^ (- e) in if s then - a else a
  | _ => 0
  end.
Definition ttl_microseconds (ttl : Z) : Z :=
  match ttl with
  | Zpos p =>
      int_of_float (SFmul 53 1024 (fdiv (S754_finite false p 0) (S754_finite false 1000000 0))
                      (float_of_int 1000000))
  | _ => 0
  end.

Definition _profile_document (p : ModelInferenceProfile) : json :=
  let e := mp_egress_profile p in
  JObj [
    (lit "cost", JObj [(lit "inputTokenMicrounits", JInt (mp_input_token_cost_microunits p));
                       (lit "outputTokenMicrounits", JInt (mp_output_token_cost_microunits p))]);
    (lit "egress", JObj [(lit "consumerRef", JStr (me_consumer_ref e)); (lit "issuerRef", JStr (me_issuer_ref e));
                         (lit "maximumTtlMicroseconds", JInt (ttl_microseconds (me_maximum_ttl e)));
                         (lit "modelRef", JStr (me_model_ref e)); (lit "profileRef", JStr (me_profile_ref e));
                         (lit "providerRef", JStr (me_provider_ref e)); (lit "regionRef", JStr (me_region_ref e));
                         (lit "retentionPolicyRef", JStr (me_retention_policy_ref e));
                         (lit "sensitivityPolicyRef", JStr (me_sensitivity_policy_ref e))]);
    (lit "limits", JObj [(lit "elapsedMs", JInt (mp_maximum_elapsed_ms p));
                         (lit "inputItems", JInt (mp_maximum_input_items p));
                         (lit "inputTokens", JInt (mp_maximum_input_tokens p));
                         (lit "outputItems", JInt (mp_maximum_output_items p));
                         (lit "outputTokens", JInt (mp_maximum_output_tokens p));
                         (lit "providerCalls", JInt (mp_maximum_provider_calls p));
                         (lit "totalCostMicrounits", JInt (mp_maximum_cost_microunits p))]);
    (lit "operation", JStr (operation_value (mp_operation p)));
    (lit "profileRef", JStr (mp_profile_ref p));
    (lit "profileVersion", JInt (mp_profile_version p));
    (lit "retry", JObj [(lit "backoffMs", JArr (JInt <$> backoff_ms (mp_retry_policy p)));
                        (lit "maximumAttempts", JInt (maximum_attempts (mp_retry_policy p)))]);
    (lit "timeoutMs", JInt (mp_timeout_ms p));
    (lit "tokenizerRef", JStr (mp_tokenizer_ref p));
    (lit "tokenizerProfileDigest", JStr (mp_tokenizer_profile_digest p))].

Record ModelInferenceEgressBinding := mkEgressBinding {
  eb_organization_id : UUID;
  eb_package_digest : pystr;
  eb_purpose : pystr;
  eb_audience_digest : pystr;
  eb_policy_epoch : Z;
  eb_release_generation : Z
}.
(** [_snapshot_egress_binding]: the copy runs the constructor's checks. *)
Definition _snapshot_egress_binding (b : ModelInferenceEgressBinding) : result ModelInferenceEgressBinding :=
  sha256_text (eb_package_digest b) ;; nonblank (eb_purpose b) ;; sha256_text (eb_audience_digest b) ;;
  _require_positive_integer (eb_policy_epoch b) ;; _require_positive_integer (eb_release_generation b) ;;
  Ok b.

(** ** Requests *)

(** The three request classes; the two last fields are computed at construction and
    read again by [_snapshot]. *)
Inductive inference_request :=
  | RewriteModelRequest (profile : ModelInferenceProfile) (query payload_digest : pystr) (payload : pybytes)
  | RerankModelRequest (profile : ModelInferenceProfile) (query : pystr) (projections : list AuthorizedProjection)
      (payload_digest : pystr) (payload : pybytes)
  | SelectModelRequest (profile : ModelInferenceProfile) (query : pystr) (projections : list AuthorizedProjection)
      (maximum_items : Z) (payload_digest : pystr) (payload : pybytes).

Definition rq_profile (r : inference_request) : ModelInferenceProfile :=
  match r with
  | RewriteModelRequest p _ _ _ | RerankModelRequest p _ _ _ _ | SelectModelRequest p _ _ _ _ _ => p
  end.
Definition rq_payload (r : inference_request) : pybytes :=
  match r with
  | RewriteModelRequest _ _ _ b | RerankModelRequest _ _ _ _ b | SelectModelRequest _ _ _ _ _ b => b
  end.
(** [_request_operation] *)
Definition _request_operation (r : inference_request) : ModelInferenceOperation :=
  match r with
  | RewriteModelRequest _ _ _ _ => REWRITE
  | RerankModelRequest _ _ _ _ _ => RERANK
  | SelectModelRequest _ _ _ _ _ _ => SELECT
  end.

Record _RequestSnapshot := mkSnapshot {
  sn_operation : ModelInferenceOperation;
  sn_profile : ModelInferenceProfile;
  sn_payload : pybytes;
  sn_payload_digest : pystr;
  sn_input_items : Z;
  sn_projections : list AuthorizedProjection;
  sn_maximum_items : option Z
}.

Record ModelInferenceTraceReceipt := mkTraceReceipt {
  tr_operation : ModelInferenceOperation;
  tr_outcome_category : ModelInferenceOutcomeCategory;
  tr_profile_ref : pystr;
  tr_profile_version : Z;
  tr_input_digest : pystr;
  tr_output_digest : option pystr;
  tr_budget_usage : BudgetUsage;
  tr_digest_profile : pystr
}.
(** [ModelInferenceTraceReceipt.__post_init__] with the default digest profile. *)
Definition new_receipt (op : ModelInferenceOperation) (cat : ModelInferenceOutcomeCategory) (ref : pystr)
    (version : Z) (input : pystr) (output : option pystr) (u : BudgetUsage) : result ModelInferenceTraceReceipt :=
  nonblank ref ;; _require_positive_integer version ;; sha256_text input ;;
  match output with None => Ok tt | Some d => sha256_text d end ;;
  Ok (mkTraceReceipt op cat ref version input output u MODEL_INFERENCE_DIGEST_PROFILE).

Record _TraceContext := mkTraceContext {
  cx_operation : ModelInferenceOperation;
  cx_profile_ref : pystr;
  cx_profile_version : Z;
  cx_input_digest : pystr
}.

(** ** Closed response documents *)

Definition _reject_duplicate_keys (pairs : list (list Z * json)) : result (list (list Z * json)) :=
  require (nodupb pairs.*1) ValueError ;; Ok pairs.

(** [parse_constant] is called for these three texts only. *)
Fixpoint nonfinite (v : json) : bool :=
  match v with
  | JFloat t => bool_decide (t ∈ [lit "NaN"; lit "Infinity"; lit "-Infinity"])
  | JArr l => existsb nonfinite l
  | JObj kvs => existsb (λ kv, nonfinite kv.2) kvs
  | _ => false
  end.

Definition _parse_closed_document {nesting : NestingLimit} (raw : pybytes) : result (list (list Z * json)) :=
  v ← loads _reject_duplicate_keys raw;
  require (negb (nonfinite v)) ValueError ;;
  match v with JObj d => Ok d | _ => Err ValueError end.

(** The list under the document's only key. *)
Definition closed_list {nesting : NestingLimit} (raw : pybytes) (key : string) : result (list json) :=
  d ← _parse_closed_document raw;
  match d with
  | [(k, JArr l)] => require (bool_decide (k = lit key)) ValueError ;; Ok l
  | _ => Err ValueError
  end.

Definition exact_int (v : json) : result Z := match v with JInt z => Ok z | _ => Err ValueError end.
Definition nonblank_text (v : json) : result pystr :=
  match v with JStr s => nonblank s ;; Ok s | _ => Err ValueError end.

Definition parse_rewrite {nesting : NestingLimit} (raw : pybytes) (sn : _RequestSnapshot) : result (list pystr) :=
  raw_rewrites ← closed_list raw "rewrites";
  require ((1 <=? len raw_rewrites) && (len raw_rewrites <=? mp_maximum_output_items (sn_profile sn))) ValueError ;;
  map_result nonblank_text raw_rewrites.

(** [snapshot.projections[index]]: a negative index counts from the end. *)
Definition index_projection (l : list AuthorizedProjection) (i : Z) : result AuthorizedProjection :=
  let j := if i <? 0 then i + len l else i in
  match (if j <? 0 then None else l !! Z.to_nat j) with Some p => Ok p | None => Err IndexError end.

Definition parse_rerank {nesting : NestingLimit} (raw : pybytes) (sn : _RequestSnapshot) : result (list AuthorizedProjection) :=
  vs ← closed_list raw "order";
  order ← map_result exact_int vs;
  require (bool_decide (sorted order = seqZ 0 (len (sn_projections sn)))) ValueError ;;
  map_result (index_projection (sn_projections sn)) order.

Definition parse_select {nesting : NestingLimit} (raw : pybytes) (sn : _RequestSnapshot) : result (list AuthorizedProjection) :=
  vs ← closed_list raw "selected";
  match sn_maximum_items sn with
  | None => Err ValueError
  | Some maximum =>
      require (len vs <=? maximum) ValueError ;;
      selected ← map_result exact_int vs;
      require (nodupb selected) ValueError ;;
      require (forallb (λ i, (0 <=? i) && (i <? len (sn_projections sn))) selected) ValueError ;;
      map_result (index_projection (sn_projections sn)) selected
  end.

(** ** The port *)

(** What the gateway did by its deadline. *)
Inductive gateway_answer := Returned (b : pybytes) | Failed | TimedOut.

(** The calls of one run, in order. *)
Inductive inference_event :=
  | IRedeem (r : EgressGrantRedemption)
  | IGateway (payload : pybytes) (timeout_ms : Z)
  | ITrace (r : ModelInferenceTraceReceipt).

(** How a run ends: a value with its receipt, [ModelInferenceUnavailable] with its
    receipt, or another exception. *)
Inductive outcome (A : Type) :=
  | Done (a : A) (r : ModelInferenceTraceReceipt)
  | Unavailable (r : ModelInferenceTraceReceipt)
  | Raised (e : exn).
Arguments Done {A} a r.
Arguments Unavailable {A} r.
Arguments Raised {A} e.

Section Port.
Context {nesting : NestingLimit}.
Context (canon : json → result pybytes).
(** [UNICODE_SCALAR_TOKENIZER_PROFILE]'s reference and digest. *)
Context (tokenizer_ref tokenizer_digest : pystr).

Definition _validate_profile_fields (p : ModelInferenceProfile) : result unit :=
  check_model_profile (mp_egress_profile p) ;;
  check_retry (mp_retry_policy p) ;;
  nonblank (mp_profile_ref p) ;;
  _require_positive_integer (mp_profile_version p) ;;
  require (bool_decide (me_profile_ref (mp_egress_profile p) = mp_profile_ref p)) ValueError ;;
  require (bool_decide (mp_tokenizer_ref p = tokenizer_ref)) ValueError ;;
  require (bool_decide (mp_tokenizer_profile_digest p = tokenizer_digest)) ValueError ;;
  each _require_positive_integer
    [mp_maximum_input_tokens p; mp_maximum_output_tokens p; mp_maximum_input_items p; mp_maximum_output_items p;
     mp_maximum_provider_calls p; mp_maximum_cost_microunits p; mp_maximum_elapsed_ms p; mp_timeout_ms p] ;;
  require (mp_maximum_provider_calls p =? 1) ValueError ;;
  require (mp_timeout_ms p <=? mp_maximum_elapsed_ms p) ValueError ;;
  _require_nonnegative_integer (mp_input_token_cost_microunits p) ;;
  _require_nonnegative_integer (mp_output_token_cost_microunits p) ;;
  require (mp_maximum_input_tokens p * mp_input_token_cost_microunits p
           + mp_maximum_output_tokens p * mp_output_token_cost_microunits p <=? mp_maximum_cost_microunits p)
    ValueError ;;
  require (negb (bool_decide (mp_operation p = REWRITE) && negb (mp_maximum_input_items p =? 1))) ValueError ;;
  require (negb (bool_decide (mp_operation p = RERANK)
                 && (mp_maximum_output_items p <? mp_maximum_input_items p))) ValueError.

Definition profile_digest_of (p : ModelInferenceProfile) : result pystr :=
  b ← canon (_profile_document p); Ok (hexdigest b).

Definition with_digest (p : ModelInferenceProfile) (d : pystr) : ModelInferenceProfile :=
  mkInferenceProfile (mp_profile_ref p) (mp_profile_version p) (mp_operation p) (mp_egress_profile p)
    (mp_tokenizer_ref p) (mp_tokenizer_profile_digest p) (mp_maximum_input_tokens p) (mp_maximum_output_tokens p)
    (mp_maximum_input_items p) (mp_maximum_output_items p) (mp_maximum_provider_calls p)
    (mp_maximum_cost_microunits p) (mp_maximum_elapsed_ms p) (mp_timeout_ms p) (mp_retry_policy p)
    (mp_input_token_cost_microunits p) (mp_output_token_cost_microunits p) d.

(** [ModelInferenceProfile.__post_init__]: the constructor of the fields of [p]. *)
Definition new_ModelInferenceProfile (p : ModelInferenceProfile) : result ModelInferenceProfile :=
  _validate_profile_fields p ;; d ← profile_digest_of p; Ok (with_digest p d).

Definition _require_profile_integrity (p : ModelInferenceProfile) : result unit :=
  try_except (_validate_profile_fields p) (λ e, is_TypeError e || is_ValueError e) (Err ValueError) ;;
  expected ← profile_digest_of p;
  require (bool_decide (mp_integrity_digest p = expected)) ValueError.

Definition _snapshot_profile (p : ModelInferenceProfile) : result ModelInferenceProfile :=
  _require_profile_integrity p ;;
  snapshot ← new_ModelInferenceProfile p;
  require (bool_decide (mp_integrity_digest snapshot = mp_integrity_digest p)) ValueError ;;
  Ok snapshot.

Definition _model_payload (op : ModelInferenceOperation) (p : ModelInferenceProfile) (input : json) : result pybytes :=
  canon (JObj [(lit "input", input); (lit "operation", JStr (operation_value op));
               (lit "profileRef", JStr (mp_profile_ref p)); (lit "profileVersion", JInt (mp_profile_version p))]).
Definition _rewrite_payload (p : ModelInferenceProfile) (query : pystr) : result pybytes :=
  _model_payload REWRITE p (JObj [(lit "query", JStr query)]).
Definition item_document (p : AuthorizedProjection) : json :=
  JObj [(lit "body", JStr (projected_body p));
        (lit "projectedFieldRefs", JArr (JStr <$> projected_field_refs p))].
Definition _projection_payload (op : ModelInferenceOperation) (p : ModelInferenceProfile) (query : pystr)
    (projections : list AuthorizedProjection) (maximum_items : option Z) : result pybytes :=
  _model_payload op p
    (JObj ([(lit "items", JArr (item_document <$> projections)); (lit "query", JStr query)]
           ++ match maximum_items with None => [] | Some n => [(lit "maximumItems", JInt n)] end)).

Definition payload_digest_of (payload : pybytes) : pystr := hexdigest (_DIGEST_DOMAIN ++ payload).

(** The constructors of the three requests, under the kernel lifetimes [K]. *)
Definition new_RewriteModelRequest (p : ModelInferenceProfile) (query : pystr) : result inference_request :=
  _require_profile_integrity p ;;
  require (bool_decide (mp_operation p = REWRITE)) ValueError ;;
  nonblank query ;;
  payload ← _rewrite_payload p query;
  Ok (RewriteModelRequest p query (payload_digest_of payload) payload).
Definition new_RerankModelRequest (K : kernel_scopes) (p : ModelInferenceProfile) (query : pystr)
    (projections : list AuthorizedProjection) : result inference_request :=
  _require_profile_integrity p ;;
  require (bool_decide (mp_operation p = RERANK)) ValueError ;;
  nonblank query ;;
  require (negb (bool_decide (projections = []))) TypeError ;;
  each (_require_active_authorized_projection K) projections ;;
  payload ← _projection_payload RERANK p query projections None;
  Ok (RerankModelRequest p query projections (payload_digest_of payload) payload).
Definition new_SelectModelRequest (K : kernel_scopes) (p : ModelInferenceProfile) (query : pystr)
    (projections : list AuthorizedProjection) (maximum_items : Z) : result inference_request :=
  _require_profile_integrity p ;;
  require (bool_decide (mp_operation p = SELECT)) ValueError ;;
  nonblank query ;;
  require (negb (bool_decide (projections = []))) TypeError ;;
  each (_require_active_authorized_projection K) projections ;;
  _require_positive_integer maximum_items ;;
  require (maximum_items <=? mp_maximum_output_items p) ValueError ;;
  payload ← _projection_payload SELECT p query projections (Some maximum_items);
  Ok (SelectModelRequest p query projections maximum_items (payload_digest_of payload) payload).

Definition _seal_request_snapshot (op : ModelInferenceOperation) (p : ModelInferenceProfile) (payload stored : pybytes)
    (stored_digest : pystr) (items : Z) (projections : list AuthorizedProjection) (maximum : option Z) :
    result _RequestSnapshot :=
  let digest := payload_digest_of payload in
  require (bool_decide (stored = payload) && bool_decide (stored_digest = digest)) ValueError ;;
  Ok (mkSnapshot op p payload digest items projections maximum).

(** [_snapshot] of the three classes. *)
Definition _snapshot (K : kernel_scopes) (r : inference_request) (p : ModelInferenceProfile) : result _RequestSnapshot :=
  require (bool_decide (mp_operation p = _request_operation r)) ValueError ;;
  match r with
  | RewriteModelRequest _ query digest stored =>
      nonblank query ;;
      payload ← _rewrite_payload p query;
      _seal_request_snapshot REWRITE p payload stored digest 1 [] None
  | RerankModelRequest _ query projections digest stored =>
      nonblank query ;;
      require (negb (bool_decide (projections = []))) TypeError ;;
      each (_require_active_authorized_projection K) projections ;;
      payload ← _projection_payload RERANK p query projections None;
      _seal_request_snapshot RERANK p payload stored digest (len projections) projections None
  | SelectModelRequest _ query projections maximum digest stored =>
      nonblank query ;;
      require (negb (bool_decide (projections = []))) TypeError ;;
      each (_require_active_authorized_projection K) projections ;;
      _require_positive_integer maximum ;;
      require (maximum <=? mp_maximum_output_items p) ValueError ;;
      payload ← _projection_payload SELECT p query projections (Some maximum);
      _seal_request_snapshot SELECT p payload stored digest (len projections) projections (Some maximum)
  end.

Definition _fallback_trace_context (r : inference_request) : result _TraceContext :=
  rv ← try_except
         (_require_profile_integrity (rq_profile r) ;;
          require (bool_decide (mp_operation (rq_profile r) = _request_operation r)) ValueError ;;
          Ok (mp_profile_ref (rq_profile r), mp_profile_version (rq_profile r)))
         (λ e, bool_decide (e = AttributeError) || is_TypeError e || is_ValueError e)
         (Ok (_UNAVAILABLE_PROFILE_REF, 1));
  Ok (mkTraceContext (_request_operation r) rv.1 rv.2 (payload_digest_of (rq_payload r))).

(** [ModelInferencePort.__init__]: the registered snapshots under their lineage. *)
Definition lineage_key (p : ModelInferenceProfile) : ModelInferenceOperation * list Z * Z :=
  (mp_operation p, mp_profile_ref p, mp_profile_version p).
Fixpoint register (ps : list ModelInferenceProfile)
    (registered : list (ModelInferenceOperation * list Z * Z * ModelInferenceProfile)) :
    result (list (ModelInferenceOperation * list Z * Z * ModelInferenceProfile)) :=
  match ps with
  | [] => Ok registered
  | p :: ps' =>
      snapshot ← _snapshot_profile p;
      require (negb (bool_decide (lineage_key snapshot ∈ registered.*1))) ValueError ;;
      register ps' (registered ++ [(lineage_key snapshot, snapshot)])
  end.
Definition new_ModelInferencePort (ps : list ModelInferenceProfile) :
    result (list (ModelInferenceOperation * list Z * Z * ModelInferenceProfile)) :=
  require (negb (bool_decide (ps = []))) TypeError ;; register ps [].

(** ** The pipeline *)

Context (profiles : list (ModelInferenceOperation * list Z * Z * ModelInferenceProfile)).
Context (redeem : EgressGrantRedemption → result bool).
Context (gateway : pybytes → Z → gateway_answer).
Context (observe : ModelInferenceTraceReceipt → result unit).

(** [_emit_unavailable]: the observer's own failure is suppressed. *)
Definition _emit_unavailable {A} (cx : _TraceContext) (u : BudgetUsage) (evs : list inference_event) :
    list inference_event * outcome A :=
  match new_receipt (cx_operation cx) UNAVAILABLE (cx_profile_ref cx) (cx_profile_version cx) (cx_input_digest cx)
          None u with
  | Ok r => (evs ++ [ITrace r], Unavailable r)
  | Err e => (evs, Raised e)
  end.

(** [except (PackageBudgetExceeded, TokenizerUnavailable, TypeError, ValueError)] *)
Definition refused (e : exn) : bool :=
  bool_decide (e = PackageBudgetExceeded) || bool_decide (e = TokenizerUnavailable) || is_TypeError e || is_ValueError e.
Definition refuse {A} (cx : _TraceContext) (e : exn) : list inference_event * outcome A :=
  if refused e then _emit_unavailable cx _EMPTY_USAGE [] else ([], Raised e).

(** The sealed request of the first [try]. *)
Definition sealed (K : kernel_scopes) (request : inference_request) : result _RequestSnapshot :=
  profile ← _snapshot_profile (rq_profile request);
  snapshot ← _snapshot K request profile;
  require (bool_decide (sn_operation snapshot = _request_operation request)) ValueError ;;
  Ok snapshot.

Definition snapshot_context (sn : _RequestSnapshot) : _TraceContext :=
  mkTraceContext (sn_operation sn) (mp_profile_ref (sn_profile sn)) (mp_profile_version (sn_profile sn))
    (sn_payload_digest sn).

(** From the sealed request to the redemption and the input's tokens. *)
Definition prepared (sn : _RequestSnapshot) (grant : ModelEgressGrant) (egress : ModelInferenceEgressBinding)
    (m : PackageBudgetMeter) : result (EgressGrantRedemption * Z) :=
  let p := sn_profile sn in
  require (bool_decide (dict_get profiles (lineage_key p) = Some p)) ValueError ;;
  eb ← _snapshot_egress_binding egress;
  require_tokenizer m (mp_tokenizer_ref p) (mp_tokenizer_profile_digest p) (eb_release_generation eb) ;;
  g ← new_ModelEgressGrant (model_grant_value grant);
  redemption ← redemption_for_model g (eb_organization_id eb) (eb_package_digest eb) (sn_payload_digest sn)
                 (eb_purpose eb) (eb_audience_digest eb) (eb_policy_epoch eb) (mp_egress_profile p);
  input_tokens ← count_tokens m (TokBytes (sn_payload sn));
  Ok (redemption, input_tokens).

Definition maximum_usage (sn : _RequestSnapshot) (input_tokens : Z) : BudgetUsage :=
  let p := sn_profile sn in
  mkBudgetUsage (input_tokens + mp_maximum_output_tokens p) 1
    (input_tokens * mp_input_token_cost_microunits p + mp_maximum_output_tokens p * mp_output_token_cost_microunits p)
    (mp_maximum_elapsed_ms p).

(** The gateway's answer, checked against the profile, parsed and priced. *)
Definition received {A} (parse : pybytes → _RequestSnapshot → result A) (sn : _RequestSnapshot)
    (m : PackageBudgetMeter) (input_tokens started : Z) (finished : result Z) : result (pybytes * A * BudgetUsage) :=
  let p := sn_profile sn in
  raw ← match gateway (sn_payload sn) (mp_timeout_ms p) with
        | Returned b => Ok b | Failed => Err ValueError | TimedOut => Err TimeoutError
        end;
  finished_ms ← finished;
  let elapsed := finished_ms - started in
  require ((0 <=? elapsed) && (elapsed <=? mp_timeout_ms p)) ValueError ;;
  output_tokens ← count_tokens m (TokBytes raw);
  require (output_tokens <=? mp_maximum_output_tokens p) ValueError ;;
  parsed ← parse raw sn;
  actual ← BudgetUsage_post_init
    (mkBudgetUsage (input_tokens + output_tokens) 1
       (input_tokens * mp_input_token_cost_microunits p + output_tokens * mp_output_token_cost_microunits p) elapsed);
  Ok (raw, parsed, actual).

(** After an accepted redemption: the gateway is called, and the reservation is
    committed with the actual or, on any failure, the maximum usage. *)
Definition call_provider {A} (parse : pybytes → _RequestSnapshot → result A) (s : store) (budget reservation : nat)
    (sn : _RequestSnapshot) (m : PackageBudgetMeter) (input_tokens : Z) (maximum : BudgetUsage) (started : Z)
    (finished : result Z) (evs : list inference_event) : store * (list inference_event * outcome A) :=
  let cx := snapshot_context sn in
  let evs := evs ++ [IGateway (sn_payload sn) (mp_timeout_ms (sn_profile sn))] in
  let charge_maximum (s : store) : store * (list inference_event * outcome A) :=
    match _commit s budget reservation maximum with
    | (s', Ok _) => (s', _emit_unavailable cx maximum evs)
    | (s', Err e) => (s', (evs, Raised e))
    end in
  match received parse sn m input_tokens started finished with
  | Err _ => charge_maximum s
  | Ok (raw, parsed, actual) =>
      match _commit s budget reservation actual with
      | (s', Err _) => charge_maximum s'
      | (s', Ok _) =>
          (s',
           match new_receipt (sn_operation sn) SUCCEEDED (mp_profile_ref (sn_profile sn))
                   (mp_profile_version (sn_profile sn)) (sn_payload_digest sn)
                   (Some (hexdigest (_OUTPUT_DIGEST_DOMAIN ++ raw))) actual with
           | Err e => (evs, Raised e)
           | Ok receipt =>
               match observe receipt with
               | Err _ => _emit_unavailable cx actual (evs ++ [ITrace receipt])
               | Ok _ => (evs ++ [ITrace receipt], Done parsed receipt)
               end
           end)
      end
  end.

(** The redemption, immediately before any outbound bytes. *)
Definition redeem_and_call {A} (parse : pybytes → _RequestSnapshot → result A) (s : store) (budget reservation : nat)
    (sn : _RequestSnapshot) (m : PackageBudgetMeter) (redemption : EgressGrantRedemption) (input_tokens : Z)
    (maximum : BudgetUsage) (started finished : result Z) : store * (list inference_event * outcome A) :=
  let cancel (evs : list inference_event) : store * (list inference_event * outcome A) :=
    match _cancel s budget reservation with
    | (s', Ok _) => (s', _emit_unavailable (snapshot_context sn) _EMPTY_USAGE evs)
    | (s', Err e) => (s', (evs, Raised e))
    end in
  match started with
  | Err _ => cancel []
  | Ok started_ms =>
      match redeem redemption with
      | Ok true =>
          call_provider parse s budget reservation sn m input_tokens maximum started_ms finished [IRedeem redemption]
      | _ => cancel [IRedeem redemption]
      end
  end.

(** [_execute] *)
Definition _execute {A} (parse : pybytes → _RequestSnapshot → result A) (K : kernel_scopes) (s : store) (budget : nat)
    (request : inference_request) (grant : ModelEgressGrant) (egress : ModelInferenceEgressBinding)
    (started finished : result Z) : store * (list inference_event * outcome A) :=
  match meters s !! budget, _fallback_trace_context request with
  | None, _ => (s, ([], Raised TypeError))
  | _, Err e => (s, ([], Raised e))
  | Some m, Ok fallback =>
      match sealed K request with
      | Err e => (s, refuse fallback e)
      | Ok sn =>
          let cx := snapshot_context sn in
          match prepared sn grant egress m with
          | Err e => (s, refuse cx e)
          | Ok (redemption, input_tokens) =>
              if (mp_maximum_input_tokens (sn_profile sn) <? input_tokens)
                 || (mp_maximum_input_items (sn_profile sn) <? sn_input_items sn)
              then (s, _emit_unavailable cx _EMPTY_USAGE [])
              else
                match BudgetUsage_post_init (maximum_usage sn input_tokens) with
                | Err e => (s, refuse cx e)
                | Ok maximum =>
                    match _reserve s budget maximum with
                    | (s', Err e) => (s', refuse cx e)
                    | (s', Ok reservation) =>
                        redeem_and_call parse s' budget reservation sn m redemption input_tokens maximum started finished
                    end
                end
          end
      end
  end.

(** [rewrite], [rerank], [select]; the nominal type of the request is checked first. *)
Definition rewrite_query (K : kernel_scopes) (s : store) (budget : nat) (request : inference_request)
    (grant : ModelEgressGrant) (egress : ModelInferenceEgressBinding) (started finished : result Z) :
    store * (list inference_event * outcome (list pystr)) :=
  match request with
  | RewriteModelRequest _ _ _ _ => _execute parse_rewrite K s budget request grant egress started finished
  | _ => (s, ([], Raised TypeError))
  end.
Definition rerank (K : kernel_scopes) (s : store) (budget : nat) (request : inference_request)
    (grant : ModelEgressGrant) (egress : ModelInferenceEgressBinding) (started finished : result Z) :
    store * (list inference_event * outcome (list AuthorizedProjection)) :=
  match request with
  | RerankModelRequest _ _ _ _ _ => _execute parse_rerank K s budget request grant egress started finished
  | _ => (s, ([], Raised TypeError))
  end.
Definition select (K : kernel_scopes) (s : store) (budget : nat) (request : inference_request)
    (grant : ModelEgressGrant) (egress : ModelInferenceEgressBinding) (started finished : result Z) :
    store * (list inference_event * outcome (list AuthorizedProjection)) :=
  match request with
  | SelectModelRequest _ _ _ _ _ _ => _execute parse_select K s budget request grant egress started finished
  | _ => (s, ([], Raised TypeError))
  end.
End Port.
