(* ===== verification/InferenceFacts.v ===== *)
(** * What the model-inference port guarantees

    Nothing leaves before its exact redemption was accepted; the meter is charged
    with exactly what the receipt reports, whatever fails; the results of rerank and
    select come from the authorized inputs only. *)

From S2P Require Import Prelude Codec Sha256 Json Budget Evidence Egress Inference.

(** ** Which exceptions a computation may raise *)

(** [except (TypeError, ValueError)], which every other guard of the port includes. *)
Definition type_or_value (e : exn) : bool := is_TypeError e || is_ValueError e.
Lemma raises_refused {A} (m : result A) : raises type_or_value m → raises refused m.
Proof. intros H e He. specialize (H e He). unfold refused, type_or_value in *. by destruct e. Qed.

Lemma nonblank_raises s : raises type_or_value (nonblank s).
Proof. unfold nonblank. raises. Qed.
Lemma sha256_text_raises s : raises type_or_value (sha256_text s).
Proof. unfold sha256_text. raises. Qed.
Lemma positive_raises z : raises type_or_value (_require_positive_integer z).
Proof. unfold _require_positive_integer. raises. Qed.
Lemma nonnegative_raises z : raises type_or_value (_require_nonnegative_integer z).
Proof. unfold _require_nonnegative_integer. raises. Qed.
Lemma grant_raises v p : raises type_or_value (_require_opaque_grant v p).
Proof. unfold _require_opaque_grant. raises. Qed.
Lemma grant_digest_raises v : raises type_or_value (grant_digest_of v).
Proof. unfold grant_digest_of, encode_utf8. destruct (existsb _ _); raises. Qed.
Lemma model_profile_raises p : raises type_or_value (check_model_profile p).
Proof. unfold check_model_profile. raises. Qed.
#[export] Hint Resolve nonblank_raises sha256_text_raises positive_raises nonnegative_raises grant_raises
  grant_digest_raises model_profile_raises : raises.

Lemma check_redemption_raises r : raises type_or_value (check_redemption r).
Proof.
  unfold check_redemption, check_digests_and_refs, check_hop, _require_positive_epoch. raises.
  repeat case_bool_decide; repeat case_match; raises.
Qed.
#[export] Hint Resolve check_redemption_raises : raises.

(** ** The meter around one run *)

(** The run charged [u] to the meter [m] of [budget] and left nothing reserved. *)
Definition charged (s : store) (budget : nat) (m : PackageBudgetMeter) (s' : store) (u : BudgetUsage) : Prop :=
  store_ok s'
  ∧ meters s' !! budget
    = Some (mkMeter (meter_budget m) (meter_reserved m) (usage_add (meter_usage m) u) (meter_tokenizer m))
  ∧ ∀ k, k ≠ budget → meters s' !! k = meters s !! k.

Lemma usage_add_empty u : usage_add u _EMPTY_USAGE = u.
Proof. apply usage_eq; simpl; lia. Qed.

Lemma charged_nothing s budget m :
  store_ok s → meters s !! budget = Some m → charged s budget m s _EMPTY_USAGE.
Proof. intros Hs Hm. split_and!; [done| |done]. rewrite Hm, usage_add_empty. by destruct m. Qed.

(** The store while the reservation [i] of [u] is live. *)
Record holding (s : store) (budget : nat) (m : PackageBudgetMeter) (u : BudgetUsage) (s' : store) (i : nat) : Prop := {
  held_ok : store_ok s';
  held_maximum : usage_ok u;
  held_index : i = length (reservations s);
  held_reservations : reservations s' = reservations s ++ [mkReservation budget u true];
  held_meter : meters s !! budget = Some m;
  held_reserved : meter_reserved m = outstanding budget (reservations s);
  held_meters : meters s' = <[budget := set_reserved m (usage_add (meter_reserved m) u)]> (meters s)
}.

Lemma reserve_holding s budget m u s' i :
  store_ok s → meters s !! budget = Some m → usage_ok u → _reserve s budget u = (s', Ok i) →
  holding s budget m u s' i.
Proof.
  intros Hs Hm Hu H. pose proof (reserve_ok s budget u Hs Hu) as Hok. rewrite H in Hok. cbn in Hok.
  unfold _reserve in H. rewrite Hm in H.
  match type of H with match ?x with Ok _ => _ | Err _ => _ end = _ => destruct x as [reserved|e] eqn:E end; [|done].
  injection H as <- <-.
  apply bind_Ok in E as (c & _ & E). apply bind_Ok in E as (p & _ & E). apply bind_Ok in E as ([] & _ & [-> _]%sum_eq).
  constructor; try done. by apply (ledger_outstanding s budget m), (proj1 Hs).
Qed.

Lemma reserve_refused s budget u s' e : _reserve s budget u = (s', Err e) → s' = s ∧ refused e = true.
Proof.
  unfold _reserve. destruct (meters s !! budget) as [m|]; [|by intros [= <- <-]].
  match goal with |- match ?x with Ok _ => _ | Err _ => _ end = _ → _ => destruct x as [r|e'] eqn:E end; [done|].
  intros [= <- <-]. split; [done|]. revert E. unfold _sum, BudgetUsage_post_init.
  assert (H : ∀ b, raises refused (require b ValueError)) by (by intros b; apply raises_require).
  raises.
Qed.

Lemma held_own s budget m u s' i :
  holding s budget m u s' i →
  own_reservation s' budget i = Ok (set_reserved m (usage_add (meter_reserved m) u), mkReservation budget u true).
Proof.
  intros H. apply own_reservation_Ok.
  rewrite (held_meters _ _ _ _ _ _ H), (held_reservations _ _ _ _ _ _ H), (held_index _ _ _ _ _ _ H).
  split_and!; [|by rewrite lookup_app_r, Nat.sub_diag by done|done].
  apply list_lookup_insert_eq. eapply lookup_lt_Some. apply (held_meter _ _ _ _ _ _ H).
Qed.

Lemma held_released s budget m u s' i :
  holding s budget m u s' i →
  outstanding budget (<[i := deactivate (mkReservation budget u true)]> (reservations s')) = meter_reserved m.
Proof.
  intros H. rewrite (held_reservations _ _ _ _ _ _ H), (held_index _ _ _ _ _ _ H), (held_reserved _ _ _ _ _ _ H).
  rewrite insert_app_r_alt, Nat.sub_diag by done. cbn [insert list_insert].
  rewrite outstanding_snoc. cbn. by rewrite andb_false_r.
Qed.

Lemma held_others s budget m u s' i m' :
  holding s budget m u s' i →
  (<[budget := m']> (meters s')) !! budget = Some m'
  ∧ ∀ k, k ≠ budget → (<[budget := m']> (meters s')) !! k = meters s !! k.
Proof.
  intros H. rewrite (held_meters _ _ _ _ _ _ H). split.
  - apply list_lookup_insert_eq. rewrite length_insert. eapply lookup_lt_Some. apply (held_meter _ _ _ _ _ _ H).
  - intros k Hk. by rewrite !list_lookup_insert_ne.
Qed.

Lemma commit_held s budget m u s' i actual :
  holding s budget m u s' i → usage_ok actual →
  (usage_le actual u = true ∧ ∃ s'', _commit s' budget i actual = (s'', Ok tt) ∧ charged s budget m s'' actual)
  ∨ _commit s' budget i actual = (s', Err ValueError).
Proof.
  intros H Ha. pose proof (held_ok _ _ _ _ _ _ H) as Hs.
  pose proof (commit_ok s' budget i actual Hs Ha) as Hok. revert Hok.
  rewrite (commit_eq s' budget i actual), (held_own _ _ _ _ _ _ H) by done. cbn [res_maximum res_active].
  rewrite (held_released _ _ _ _ _ _ H), andb_true_r. cbn [meter_budget meter_usage meter_tokenizer set_reserved].
  destruct (usage_le actual u) eqn:Hle; [|intros _; by right]. intros Hok. left. split; [done|].
  eexists. split; [reflexivity|]. split; [exact Hok|]. apply (held_others _ _ _ _ _ _ _ H).
Qed.

Lemma commit_maximum s budget m u s' i :
  holding s budget m u s' i → ∃ s'', _commit s' budget i u = (s'', Ok tt) ∧ charged s budget m s'' u.
Proof.
  intros H. pose proof (held_ok _ _ _ _ _ _ H) as Hs. pose proof (held_maximum _ _ _ _ _ _ H) as Hu.
  pose proof (commit_ok s' budget i u Hs Hu) as Hok. revert Hok.
  rewrite (commit_eq s' budget i u), (held_own _ _ _ _ _ _ H) by done. cbn [res_maximum res_active].
  assert (usage_le u u = true) as -> by (apply usage_le_iff; lia).
  rewrite (held_released _ _ _ _ _ _ H). cbn. intros Hok.
  eexists. split; [reflexivity|]. split; [exact Hok|]. apply (held_others _ _ _ _ _ _ _ H).
Qed.

Lemma cancel_held s budget m u s' i :
  holding s budget m u s' i →
  ∃ s'', _cancel s' budget i = (s'', Ok tt) ∧ charged s budget m s'' _EMPTY_USAGE.
Proof.
  intros H. pose proof (held_ok _ _ _ _ _ _ H) as Hs. pose proof (cancel_ok s' budget i Hs) as Hok. revert Hok.
  rewrite (cancel_eq s' budget i), (held_own _ _ _ _ _ _ H) by done. cbn [res_active].
  rewrite (held_released _ _ _ _ _ _ H). cbn. intros Hok.
  eexists. split; [reflexivity|]. split; [exact Hok|]. rewrite usage_add_empty. apply (held_others _ _ _ _ _ _ _ H).
Qed.

Section Facts.
Context (canon : json → result pybytes) (tokenizer_ref tokenizer_digest : pystr).
(** The library's own errors are [ValueError]s. *)
Hypothesis canon_errors : ∀ v e, canon v = Err e → is_ValueError e = true.

Lemma canon_raises v : raises type_or_value (canon v).
Proof. intros e H%canon_errors. unfold type_or_value. rewrite H. apply orb_true_r. Qed.
Hint Resolve canon_raises : raises.

Lemma validate_raises p : raises type_or_value (_validate_profile_fields tokenizer_ref tokenizer_digest p).
Proof. unfold _validate_profile_fields, check_retry. raises. Qed.
Hint Resolve validate_raises : raises.

Lemma integrity_raises p : raises type_or_value (_require_profile_integrity canon tokenizer_ref tokenizer_digest p).
Proof. unfold _require_profile_integrity, profile_digest_of. raises. Qed.
Hint Resolve integrity_raises : raises.

Lemma snapshot_profile_raises p : raises type_or_value (_snapshot_profile canon tokenizer_ref tokenizer_digest p).
Proof. unfold _snapshot_profile, new_ModelInferenceProfile, profile_digest_of. raises. Qed.
Hint Resolve snapshot_profile_raises : raises.

Lemma active_raises K p : raises type_or_value (_require_active_authorized_projection K p).
Proof. by intros e ->%require_active_Err. Qed.
Hint Resolve active_raises : raises.

Lemma sealed_raises K r : raises type_or_value (sealed canon tokenizer_ref tokenizer_digest K r).
Proof.
  unfold sealed, _snapshot, _seal_request_snapshot, _rewrite_payload, _projection_payload, _model_payload.
  destruct r; raises.
Qed.

Lemma admit_raises profiles sn g eb m : raises refused (prepared profiles sn g eb m).
Proof.
  unfold prepared.
  apply raises_bind; [by apply raises_require|intros _ _].
  apply raises_bind; [apply raises_refused; unfold _snapshot_egress_binding; raises|intros eb' _].
  apply raises_bind; [unfold require_tokenizer; destruct (meter_tokenizer m); raises|intros _ _].
  apply raises_bind; [apply raises_refused; unfold new_ModelEgressGrant; raises|intros g' _].
  apply raises_bind; [apply raises_refused; unfold redemption_for_model; raises|intros rd _].
  apply raises_bind; [|intros n _; apply raises_Ok].
  unfold count_tokens, tokenizer_count. destruct (meter_tokenizer m); [|raises].
  destruct (utf8_decode _); raises.
Qed.

(** The reference and version a refused request is traced under. *)
Definition traced_profile (r : inference_request) : result (list Z * Z) :=
  _require_profile_integrity canon tokenizer_ref tokenizer_digest (rq_profile r) ;;
  require (bool_decide (mp_operation (rq_profile r) = _request_operation r)) ValueError ;;
  Ok (mp_profile_ref (rq_profile r), mp_profile_version (rq_profile r)).

Lemma integrity_shape p :
  _require_profile_integrity canon tokenizer_ref tokenizer_digest p = Ok tt →
  _validate_profile_fields tokenizer_ref tokenizer_digest p = Ok tt.
Proof.
  unfold _require_profile_integrity, try_except. intros H. apply bind_Ok in H as ([] & Hv & _).
  destruct (_validate_profile_fields _ _ _) as [[]|e]; [done|]. by destruct (_ || _).
Qed.

Lemma valid_profile_shape p :
  _validate_profile_fields tokenizer_ref tokenizer_digest p = Ok tt →
  blank (mp_profile_ref p) = false ∧ 1 ≤ mp_profile_version p
  ∧ 0 < mp_maximum_output_tokens p ∧ 0 ≤ mp_input_token_cost_microunits p
  ∧ 0 ≤ mp_output_token_cost_microunits p ∧ 0 < mp_timeout_ms p ≤ mp_maximum_elapsed_ms p.
Proof.
  unfold _validate_profile_fields. intros H.
  apply bind_Ok in H as ([] & _ & H). apply bind_Ok in H as ([] & _ & H).
  unfold nonblank, _require_positive_integer, _require_nonnegative_integer in H. cbn [each] in H. run_ok.
  split_and!; try lia. by destruct (blank _).
Qed.

Lemma traced_profile_shape r v :
  traced_profile r = Ok v → blank v.1 = false ∧ 1 ≤ v.2.
Proof.
  unfold traced_profile. intros H. apply bind_Ok in H as ([] & Hi & H). apply bind_Ok in H as ([] & _ & <-%Ok_inj).
  apply integrity_shape, valid_profile_shape in Hi. cbn. tauto.
Qed.

Definition context_ok (cx : _TraceContext) : Prop :=
  blank (cx_profile_ref cx) = false ∧ 1 ≤ cx_profile_version cx ∧ is_sha256_hex (cx_input_digest cx) = true.

Lemma fallback_Ok r : ∃ cx, _fallback_trace_context canon tokenizer_ref tokenizer_digest r = Ok cx ∧ context_ok cx.
Proof.
  unfold _fallback_trace_context. fold (traced_profile r). unfold try_except.
  destruct (traced_profile r) as [v|e] eqn:E; cbn [mbind result_bind].
  - apply traced_profile_shape in E as [Hb Hp]. eexists. split; [reflexivity|]. split_and!; [done|done|apply hexdigest_shape].
  - assert (Hr : type_or_value e = true).
    { revert E. apply raises_bind; [apply integrity_raises|]. intros _ _. raises. }
    unfold type_or_value in Hr. rewrite <- orb_assoc, Hr, orb_true_r. eexists. split; [reflexivity|].
    split_and!; [by vm_compute|done|apply hexdigest_shape].
Qed.

Lemma receipt_Ok op cat cx output u :
  context_ok cx → from_option is_sha256_hex true output = true →
  new_receipt op cat (cx_profile_ref cx) (cx_profile_version cx) (cx_input_digest cx) output u
  = Ok (mkTraceReceipt op cat (cx_profile_ref cx) (cx_profile_version cx) (cx_input_digest cx) output u
          MODEL_INFERENCE_DIGEST_PROFILE).
Proof.
  intros (Hb & Hv & Hd) Ho. unfold new_receipt, nonblank, _require_positive_integer, sha256_text.
  rewrite Hb, Hd, (proj2 (Z.leb_le _ _) Hv). by destruct output; cbn in *; rewrite ?Ho.
Qed.

(** What the sealing of a request established. *)
Record sealed_ok (K : kernel_scopes) (r : inference_request) (sn : _RequestSnapshot) : Prop := {
  sealed_operation : sn_operation sn = _request_operation r;
  sealed_context : context_ok (snapshot_context sn);
  sealed_digest : sn_payload_digest sn = payload_digest_of (sn_payload sn);
  sealed_payload : sn_payload sn = rq_payload r;
  sealed_projections : each (_require_active_authorized_projection K) (sn_projections sn) = Ok tt
}.

(** The snapshot of a profile that passes its integrity check is the profile. *)
Lemma snapshot_profile_valid p q :
  _snapshot_profile canon tokenizer_ref tokenizer_digest p = Ok q →
  q = p ∧ blank (mp_profile_ref q) = false ∧ 1 ≤ mp_profile_version q.
Proof.
  unfold _snapshot_profile, new_ModelInferenceProfile. intros H.
  apply bind_Ok in H as ([] & Hi & H). apply bind_Ok in H as (q' & Hq & H). apply bind_Ok in H as ([] & He & <-%Ok_inj).
  apply bind_Ok in Hq as ([] & Hv & Hq). apply bind_Ok in Hq as (d & _ & <-%Ok_inj).
  apply require_Ok, bool_decide_eq_true_1 in He. cbn [with_digest mp_integrity_digest] in He. subst d.
  apply valid_profile_shape in Hv. split; [by destruct p|]. cbn. tauto.
Qed.

Lemma seal_Ok op p payload stored digest items projections maximum sn :
  _seal_request_snapshot op p payload stored digest items projections maximum = Ok sn →
  sn = mkSnapshot op p payload (payload_digest_of payload) items projections maximum ∧ payload = stored.
Proof. unfold _seal_request_snapshot. intros H. run_ok. done. Qed.

(** The parts of the request a snapshot copies. *)
Definition rq_projections (r : inference_request) : list AuthorizedProjection :=
  match r with
  | RewriteModelRequest _ _ _ _ => []
  | RerankModelRequest _ _ l _ _ | SelectModelRequest _ _ l _ _ _ => l
  end.
Definition rq_maximum (r : inference_request) : option Z :=
  match r with SelectModelRequest _ _ _ n _ _ => Some n | _ => None end.

Lemma snapshot_Ok K r p sn :
  _snapshot canon K r p = Ok sn →
  sn_profile sn = p ∧ sn_operation sn = _request_operation r
  ∧ sn_payload_digest sn = payload_digest_of (sn_payload sn) ∧ sn_payload sn = rq_payload r
  ∧ sn_projections sn = rq_projections r ∧ sn_maximum_items sn = rq_maximum r
  ∧ each (_require_active_authorized_projection K) (rq_projections r) = Ok tt
  ∧ (∀ n, rq_maximum r = Some n → n ≤ mp_maximum_output_items p).
Proof.
  unfold _snapshot. intros H. apply bind_Ok in H as ([] & _ & H).
  destruct r; repeat first [apply seal_Ok in H as [-> ->] | apply bind_Ok in H as (? & ? & H)];
    repeat match goal with u : unit |- _ => destruct u end; cbn; split_and!; try done;
    intros n [= <-]; run_ok; lia.
Qed.

Lemma sealed_Ok K r sn :
  sealed canon tokenizer_ref tokenizer_digest K r = Ok sn → sealed_ok K r sn.
Proof.
  unfold sealed. intros H. apply bind_Ok in H as (p & Hp & H). apply bind_Ok in H as (sn' & Hs & H).
  apply bind_Ok in H as ([] & Ho & <-%Ok_inj). apply snapshot_profile_valid in Hp as (_ & Hb & Hv).
  apply snapshot_Ok in Hs as (<- & H1 & H2 & H3 & H4 & H5 & H6 & _). constructor; try done; [|by rewrite H4].
  split_and!; [done|done|]. cbn. rewrite H2. apply hexdigest_shape.
Qed.

(** ** Every run ends with a receipt for exactly its charge *)

Definition is_gateway (e : inference_event) : bool := match e with IGateway _ _ => true | _ => false end.
Definition is_trace (e : inference_event) : bool := match e with ITrace _ => true | _ => false end.

Section Runs.
Context {A : Type} (parse : pybytes → _RequestSnapshot → result A).
Context (profiles : list (ModelInferenceOperation * list Z * Z * ModelInferenceProfile)).
Context (redeem : EgressGrantRedemption → result bool) (gateway : pybytes → Z → gateway_answer).
Context (observe : ModelInferenceTraceReceipt → result unit).

Definition reports (out : outcome A) (r : ModelInferenceTraceReceipt) : Prop :=
  out = Unavailable r ∨ ∃ a, out = Done a r.

(** The run reports a receipt whose usage is what the meter was charged: nothing
    before the gateway was called, one provider call after.  The receipt is the last
    thing the observer was given. *)
Definition accounted (s : store) (budget : nat) (m : PackageBudgetMeter)
    (end_ : store * (list inference_event * outcome A)) : Prop :=
  ∃ r, reports end_.2.2 r ∧ last end_.2.1 = Some (ITrace r) ∧ charged s budget m end_.1 (tr_budget_usage r)
    ∧ if existsb is_gateway end_.2.1 then provider_calls (tr_budget_usage r) = 1 else tr_budget_usage r = _EMPTY_USAGE.

Lemma emit_eq cx u evs :
  context_ok cx → ∃ r, _emit_unavailable (A := A) cx u evs = (evs ++ [ITrace r], Unavailable r) ∧ tr_budget_usage r = u.
Proof. intros H. unfold _emit_unavailable. rewrite receipt_Ok by done. eauto. Qed.

Lemma no_gateway_snoc evs r : existsb is_gateway (evs ++ [ITrace r]) = existsb is_gateway evs.
Proof. rewrite existsb_app. cbn. by rewrite orb_false_r. Qed.

Lemma emit_accounted s budget m s' cx u evs :
  context_ok cx → charged s budget m s' u →
  (if existsb is_gateway evs then provider_calls u = 1 else u = _EMPTY_USAGE) →
  accounted s budget m (s', _emit_unavailable cx u evs).
Proof.
  intros Hc Hch Hu. destruct (emit_eq cx u evs Hc) as (r & -> & Hr). exists r. cbn [fst snd].
  rewrite no_gateway_snoc, last_snoc, Hr. split_and!; [by left|done|done|done].
Qed.

Lemma refuse_accounted s budget m cx e :
  store_ok s → meters s !! budget = Some m → context_ok cx → refused e = true →
  accounted s budget m (s, refuse cx e).
Proof.
  intros Hs Hm Hc He. unfold refuse. rewrite He. apply emit_accounted; [done|by apply charged_nothing|done].
Qed.

Lemma received_usage sn m tokens_in started finished raw a u :
  received gateway parse sn m tokens_in started finished = Ok (raw, a, u) → usage_ok u ∧ provider_calls u = 1.
Proof.
  unfold received. intros H. repeat (apply bind_Ok in H as (? & ? & H)). apply Ok_inj in H.
  repeat match goal with E : BudgetUsage_post_init _ = Ok _ |- _ => apply BudgetUsage_post_init_Ok in E as [<- ?] end.
  by injection H as _ _ <-.
Qed.

Lemma call_accounted s budget m u s' i sn tokens_in started finished evs :
  holding s budget m u s' i → context_ok (snapshot_context sn) → provider_calls u = 1 → 
  accounted s budget m
    (call_provider gateway observe parse s' budget i sn m tokens_in u started finished evs).
Proof.
  intros H Hc Hu. unfold call_provider. set (evs' := evs ++ _).
  assert (Hg : existsb is_gateway evs' = true) by (subst evs'; rewrite existsb_app; cbn; by rewrite orb_true_r).
  destruct (commit_maximum s budget m u s' i H) as (smax & Emax & Cmax).
  assert (Hmax : accounted s budget m (smax, _emit_unavailable (snapshot_context sn) u evs')).
  { apply emit_accounted; [done..|]. by rewrite Hg. }
  destruct (received _ _ _ _ _ _ _) as [[[raw a] actual]|e] eqn:Hr; [|by rewrite Emax].
  apply received_usage in Hr as [Hok H1].
  destruct (commit_held s budget m u s' i actual H Hok) as [(_ & s2 & -> & C2)| ->]; [|by rewrite Emax].
  rewrite (receipt_Ok _ _ (snapshot_context sn) (Some _)) by (done || apply hexdigest_shape).
  destruct (observe _) as [[]|e].
  - eexists. cbn [fst snd]. rewrite no_gateway_snoc, last_snoc, Hg. split_and!; [by right; eexists|done|done|done].
  - apply emit_accounted; [done|done|]. by rewrite no_gateway_snoc, Hg.
Qed.

Lemma redeem_accounted s budget m u s' i sn rd tokens_in started finished :
  holding s budget m u s' i → context_ok (snapshot_context sn) → provider_calls u = 1 →
  accounted s budget m
    (redeem_and_call redeem gateway observe parse s' budget i sn m rd tokens_in u started finished).
Proof.
  intros H Hc Hu. unfold redeem_and_call. destruct (cancel_held s budget m u s' i H) as (s2 & -> & C2).
  assert (Hcancel : ∀ evs, existsb is_gateway evs = false →
            accounted s budget m (s2, _emit_unavailable (snapshot_context sn) _EMPTY_USAGE evs)).
  { intros evs He. apply emit_accounted; [done..|]. by rewrite He. }
  destruct started as [t|e]; [|by apply Hcancel].
  destruct (redeem rd) as [[]|e]; [by apply call_accounted|by apply Hcancel..].
Qed.

Lemma execute_accounted K s budget m request grant egress started finished :
  store_ok s → meters s !! budget = Some m →
  accounted s budget m
    (_execute canon tokenizer_ref tokenizer_digest profiles redeem gateway observe parse K s budget request grant
       egress started finished).
Proof.
  intros Hs Hm. unfold _execute. rewrite Hm. destruct (fallback_Ok request) as (cx & -> & Hcx).
  destruct (sealed _ _ _ K request) as [sn|e] eqn:Esn.
  2: { apply refuse_accounted; [done..|]. revert Esn. apply raises_refused, sealed_raises. }
  apply sealed_Ok, sealed_context in Esn.
  destruct (prepared profiles sn grant egress m) as [[rd n]|e] eqn:Ead.
  2: { apply refuse_accounted; [done..|]. revert Ead. apply admit_raises. }
  destruct (_ || _).
  { apply emit_accounted; [done|by apply charged_nothing|done]. }
  destruct (BudgetUsage_post_init _) as [u|e] eqn:Eu.
  2: { apply refuse_accounted; [done..|]. revert Eu. unfold BudgetUsage_post_init. raises. }
  apply BudgetUsage_post_init_Ok in Eu as [<- Hu].
  destruct (_reserve s budget _) as [s' [i|e]] eqn:Er.
  - apply redeem_accounted; [by apply reserve_holding|done|done].
  - apply reserve_refused in Er as [-> He]. by apply refuse_accounted.
Qed.

(** ** Nothing leaves before its redemption was accepted *)

(** [r] is the exact redemption the sealed request and the grant determine. *)
Definition exact_redemption (sn : _RequestSnapshot) (grant : ModelEgressGrant) (egress : ModelInferenceEgressBinding)
    (r : EgressGrantRedemption) : Prop :=
  grant_digest_of (model_grant_value grant) = Ok (rd_grant_digest r)
  ∧ rd_facts r = model_facts (eb_organization_id egress) (eb_package_digest egress) (sn_payload_digest sn)
                   (eb_purpose egress) (eb_audience_digest egress) (eb_policy_epoch egress)
                   (mp_egress_profile (sn_profile sn)).

Lemma admit_Ok sn grant egress m rd n :
  prepared profiles sn grant egress m = Ok (rd, n) →
  exact_redemption sn grant egress rd
  ∧ dict_get profiles (lineage_key (sn_profile sn)) = Some (sn_profile sn).
Proof.
  unfold prepared, _snapshot_egress_binding. intros H. apply bind_Ok in H as ([] & Hp & H).
  apply bind_Ok in H as (eb & He & H). apply bind_Ok in H as ([] & _ & H).
  apply bind_Ok in H as (g & Hg & H). apply bind_Ok in H as (rd' & Hrd & H).
  apply bind_Ok in H as (n' & _ & [= -> ->]%Ok_inj).
  repeat (apply bind_Ok in He as ([] & _ & He)). apply Ok_inj in He as <-.
  unfold new_ModelEgressGrant in Hg. apply bind_Ok in Hg as ([] & _ & <-%Ok_inj).
  unfold redemption_for_model in Hrd. cbn [model_grant_value] in Hrd.
  apply bind_Ok in Hrd as (d & Hd & Hrd). apply bind_Ok in Hrd as ([] & _ & <-%Ok_inj).
  apply require_Ok, bool_decide_eq_true_1 in Hp. done.
Qed.

(** The events of a run that did or did not reach the gateway. *)
Definition ordered (sn : _RequestSnapshot) (rd : EgressGrantRedemption) (evs : list inference_event) : Prop :=
  existsb is_gateway evs = false
  ∨ ∃ traces, evs = IRedeem rd :: IGateway (sn_payload sn) (mp_timeout_ms (sn_profile sn)) :: traces
      ∧ forallb is_trace traces = true ∧ redeem rd = Ok true.

Lemma emit_no_gateway cx u evs :
  existsb is_gateway evs = false → existsb is_gateway (_emit_unavailable (A := A) cx u evs).1 = false.
Proof. intros H. unfold _emit_unavailable. destruct (new_receipt _ _ _ _ _ _ _); cbn; [by rewrite no_gateway_snoc|done]. Qed.

Lemma emit_traces rd g cx u (traces : list inference_event) :
  forallb is_trace traces = true →
  ∃ traces', (_emit_unavailable (A := A) cx u (rd :: g :: traces)).1 = rd :: g :: traces' ∧ forallb is_trace traces' = true.
Proof.
  intros H. unfold _emit_unavailable. destruct (new_receipt _ _ _ _ _ _ _); cbn; [|eauto].
  eexists. split; [reflexivity|]. rewrite forallb_app, H. done.
Qed.

Lemma call_ordered s budget i sn m rd n u started finished :
  redeem rd = Ok true →
  ordered sn rd (call_provider gateway observe parse s budget i sn m n u started finished [IRedeem rd]).2.1.
Proof.
  intros Hr. right. unfold call_provider. cbn [app].
  set (g := IGateway _ _). 
  assert (Hcharge : ∀ s, ∃ traces,
    (match _commit s budget i u with
     | (s', Ok _) => (s', _emit_unavailable (A := A) (snapshot_context sn) u [IRedeem rd; g])
     | (s', Err e) => (s', ([IRedeem rd; g], Raised e))
     end).2.1 = IRedeem rd :: g :: traces ∧ forallb is_trace traces = true ∧ redeem rd = Ok true).
  { intros s0. destruct (_commit s0 budget i u) as [s1 [[]|e]]; cbn [fst snd]; [|by eexists].
    destruct (emit_traces (IRedeem rd) g (snapshot_context sn) u [] eq_refl) as (t & -> & Ht). eauto. }
  destruct (received _ _ _ _ _ _ _) as [[[raw a] actual]|e]; [|apply Hcharge].
  destruct (_commit s budget i actual) as [s1 [[]|e]]; [|apply Hcharge]. cbn [fst snd].
  destruct (new_receipt _ _ _ _ _ _ _) as [r|e]; [|by eexists].
  destruct (observe r) as [[]|e]; [by eexists|].
  destruct (emit_traces (IRedeem rd) g (snapshot_context sn) actual [ITrace r] eq_refl) as (t & E & Ht).
  cbn [app] in *. rewrite E. eauto.
Qed.

Lemma execute_ordered K s budget request grant egress started finished :
  let end_ := _execute canon tokenizer_ref tokenizer_digest profiles redeem gateway observe parse K s budget request
                grant egress started finished in
  existsb is_gateway end_.2.1 = false
  ∨ ∃ sn rd, sealed canon tokenizer_ref tokenizer_digest K request = Ok sn
      ∧ exact_redemption sn grant egress rd
      ∧ dict_get profiles (lineage_key (sn_profile sn)) = Some (sn_profile sn)
      ∧ ordered sn rd end_.2.1.
Proof.
  cbv zeta. unfold _execute. destruct (meters s !! budget) as [m|]; [|by left].
  destruct (_fallback_trace_context _ _ _ request) as [cx|e]; [|by left].
  assert (Hrefuse : ∀ cx e, existsb is_gateway (refuse (A := A) cx e).1 = false).
  { intros cx' e. unfold refuse. destruct (refused e); [by apply emit_no_gateway|done]. }
  destruct (sealed _ _ _ K request) as [sn|e] eqn:Esn; [|left; apply Hrefuse].
  destruct (prepared profiles sn grant egress m) as [[rd n]|e] eqn:Ead; [|left; apply Hrefuse].
  apply admit_Ok in Ead as [Hrd Hp].
  destruct (_ || _); [left; by apply emit_no_gateway|].
  destruct (BudgetUsage_post_init _) as [u|e]; [|left; apply Hrefuse].
  destruct (_reserve s budget u) as [s' [i|e]]; [|left; apply Hrefuse].
  right. exists sn, rd. split_and!; [done..|]. unfold redeem_and_call.
  assert (Hcancel : ∀ evs, existsb is_gateway evs = false → ordered sn rd
    (match _cancel s' budget i with
     | (s', Ok _) => (s', _emit_unavailable (A := A) (snapshot_context sn) _EMPTY_USAGE evs)
     | (s', Err e) => (s', (evs, Raised e))
     end).2.1).
  { intros evs He. left. destruct (_cancel s' budget i) as [s2 [[]|e]]; [by apply emit_no_gateway|done]. }
  destruct started as [t|e]; [|by apply Hcancel].
  destruct (redeem rd) as [[]|e] eqn:Hr; [by apply call_ordered|by apply Hcancel..].
Qed.

Lemma execute_Done K s budget request grant egress started finished a r :
  (_execute canon tokenizer_ref tokenizer_digest profiles redeem gateway observe parse K s budget request grant egress
     started finished).2.2 = Done a r →
  ∃ sn raw, _snapshot canon K request (rq_profile request) = Ok sn ∧ parse raw sn = Ok a
    ∧ gateway (sn_payload sn) (mp_timeout_ms (sn_profile sn)) = Returned raw
    ∧ tr_output_digest r = Some (hexdigest (_OUTPUT_DIGEST_DOMAIN ++ raw)).
Proof.
  assert (Hemit : ∀ cx u evs, (_emit_unavailable (A := A) cx u evs).2 ≠ Done a r).
  { intros cx u evs. unfold _emit_unavailable. by destruct (new_receipt _ _ _ _ _ _ _). }
  assert (Hrefuse : ∀ cx e, (refuse (A := A) cx e).2 ≠ Done a r).
  { intros cx e. unfold refuse. destruct (refused e); [apply Hemit|done]. }
  unfold _execute. destruct (meters s !! budget) as [m|]; [|done].
  destruct (_fallback_trace_context _ _ _ request) as [cx|e]; [|done].
  destruct (sealed _ _ _ K request) as [sn|e] eqn:Esn; [|by intros ?%Hrefuse].
  destruct (prepared profiles sn grant egress m) as [[rd n]|e]; [|by intros ?%Hrefuse].
  destruct (_ || _); [by intros ?%Hemit|].
  destruct (BudgetUsage_post_init _) as [u|e]; [|by intros ?%Hrefuse].
  destruct (_reserve s budget u) as [s' [i|e]]; [|by intros ?%Hrefuse].
  unfold redeem_and_call.
  assert (Hcancel : ∀ evs,
    (match _cancel s' budget i with
     | (s', Ok _) => (s', _emit_unavailable (A := A) (snapshot_context sn) _EMPTY_USAGE evs)
     | (s', Err e) => (s', (evs, Raised e))
     end).2.2 ≠ Done a r).
  { intros evs. destruct (_cancel s' budget i) as [s2 [[]|e]]; [apply Hemit|done]. }
  destruct started as [t|e]; [|by intros ?%Hcancel].
  destruct (redeem rd) as [[]|e]; [|by intros ?%Hcancel..].
  unfold call_provider. set (evs := _ ++ _).
  assert (Hcharge : ∀ s,
    (match _commit s budget i u with
     | (s', Ok _) => (s', _emit_unavailable (A := A) (snapshot_context sn) u evs)
     | (s', Err e) => (s', (evs, Raised e))
     end).2.2 ≠ Done a r).
  { intros s0. destruct (_commit s0 budget i u) as [s1 [[]|e]]; [apply Hemit|done]. }
  destruct (received _ _ _ _ _ _ _) as [[[raw a'] actual]|e] eqn:Hr; [|by intros ?%Hcharge].
  destruct (_commit s' budget i actual) as [s1 [[]|e]]; [|by intros ?%Hcharge]. cbn [fst snd].
  destruct (new_receipt _ _ _ _ _ _ _) as [r'|e] eqn:Hrec; [|done].
  destruct (observe r') as [[]|e]; [|by intros ?%Hemit]. cbn [snd]. intros [= <- <-].
  unfold sealed in Esn. apply bind_Ok in Esn as (p & Hp & Esn). apply bind_Ok in Esn as (sn' & Hsn & Esn).
  apply bind_Ok in Esn as ([] & _ & ->%Ok_inj). apply snapshot_profile_valid in Hp as [-> _].
  exists sn, raw. split; [done|].
  unfold received in Hr. apply bind_Ok in Hr as (raw' & Hg & Hr).
  repeat (apply bind_Ok in Hr as (? & ? & Hr)). apply Ok_inj in Hr as [= -> -> ->].
  split; [done|]. split.
  - destruct (gateway _ _); congruence.
  - unfold new_receipt in Hrec. repeat (apply bind_Ok in Hrec as (? & _ & Hrec)). by apply Ok_inj in Hrec as <-.
Qed.
End Runs.
End Facts.

(** ** Parsed orders and selections *)

Lemma index_all l : Forall2 (λ i p, index_projection l i = Ok p) (seqZ 0 (len l)) l.
Proof.
  apply Forall2_same_length_lookup_2.
  - rewrite length_seqZ. unfold len. lia.
  - intros i z p Hz Hp. apply lookup_seqZ in Hz as [-> Hi]. unfold index_projection.
    rewrite Z.add_0_l. cbv zeta. assert ((Z.of_nat i <? 0) = false) as -> by lia.
    assert ((Z.of_nat i <? 0) = false) as -> by lia. by rewrite Nat2Z.id, Hp.
Qed.

(** Distinct indices take distinct items. *)
Lemma indexed l order rest a :
  order ++ rest ≡ₚ seqZ 0 (len l) → map_result (index_projection l) order = Ok a →
  ∃ b, a ++ b ≡ₚ l ∧ length b = length rest.
Proof.
  intros Hp Ha. apply map_result_Ok in Ha.
  destruct (Permutation_Forall2 (Permutation_sym Hp) (index_all l)) as (l' & Hl' & F).
  apply Forall2_app_inv_l in F as (a' & b & Fa & Fb & ->).
  assert (a' = a) as ->.
  { clear -Fa Ha. revert a Ha. induction Fa as [|i p order a' Hi _ IH]; intros a Ha; inversion Ha; subst; [done|].
    f_equal; [congruence|]. by apply IH. }
  exists b. split; [by symmetry|]. by apply Forall2_length in Fb.
Qed.

Lemma rerank_permutes {nesting : NestingLimit} raw sn a : parse_rerank raw sn = Ok a → a ≡ₚ sn_projections sn.
Proof.
  unfold parse_rerank. intros H. apply bind_Ok in H as (vs & _ & H). apply bind_Ok in H as (order & _ & H).
  apply bind_Ok in H as ([] & Ho%require_Ok%bool_decide_eq_true_1 & H).
  destruct (indexed (sn_projections sn) order [] a) as (b & Hb & Hl); [|done|].
  { rewrite app_nil_r, <- Ho. symmetry. apply sorted_by_perm. }
  apply nil_length_inv in Hl as ->. by rewrite app_nil_r in Hb.
Qed.

Lemma select_selects {nesting : NestingLimit} raw sn a :
  parse_select raw sn = Ok a →
  a ⊆+ sn_projections sn ∧ ∃ n, sn_maximum_items sn = Some n ∧ len a ≤ n.
Proof.
  unfold parse_select. intros H. apply bind_Ok in H as (vs & _ & H).
  destruct (sn_maximum_items sn) as [n|]; [|done].
  apply bind_Ok in H as ([] & Hn%require_Ok & H). apply bind_Ok in H as (sel & Hsel & H).
  apply bind_Ok in H as ([] & Hnd%require_Ok%bool_decide_eq_true_1 & H). apply bind_Ok in H as ([] & Hr%require_Ok & H).
  assert (Hsub : sel ⊆+ seqZ 0 (len (sn_projections sn))).
  { apply NoDup_submseteq; [done|]. intros i Hi%list_elem_of_In. rewrite forallb_forall in Hr.
    apply Hr in Hi. apply elem_of_seqZ. lia. }
  apply submseteq_Permutation in Hsub as (rest & Hrest).
  destruct (indexed (sn_projections sn) sel rest a) as (b & Hb & _); [by symmetry|done|].
  split; [rewrite <- Hb; apply submseteq_inserts_r; done|]. exists n. split; [done|].
  apply map_result_Ok, Forall2_length in H. apply map_result_Ok, Forall2_length in Hsel. unfold len in *. lia.
Qed.

Lemma rewrites_nonblank {nesting : NestingLimit} raw sn a :
  parse_rewrite raw sn = Ok a →
  1 ≤ len a ≤ mp_maximum_output_items (sn_profile sn) ∧ Forall (λ s, blank s = false) a.
Proof.
  unfold parse_rewrite. intros H. apply bind_Ok in H as (vs & _ & H). apply bind_Ok in H as ([] & Hn%require_Ok & H).
  apply map_result_Ok in H. split.
  - apply Forall2_length in H. unfold len in *. lia.
  - clear Hn. induction H as [|v s vs a Hv _ IH]; constructor; [|done].
    unfold nonblank_text, nonblank in Hv. destruct v; run_ok. by destruct (blank _).
Qed.

(** ** The port's guarantees *)

(** C16: no byte reaches a model provider before its exact egress grant was redeemed.
    Whenever a run calls the gateway, it is the second call of the run, made once,
    after one accepted redemption; the bytes are those of the sealed request, over
    active authorized projections and a registered profile, and the redeemed facts
    carry the digest of exactly these bytes, the presented grant's digest, the
    organization, purpose, audience and Policy Epoch of the binding.  Nothing but
    trace receipts follows. *)
Theorem model_bytes_leave_after_redemption {A} canon tokenizer_ref tokenizer_digest profiles redeem gateway observe
    (parse : pybytes → _RequestSnapshot → result A) K s budget request grant egress started finished s' evs out
    payload t :
  _execute canon tokenizer_ref tokenizer_digest profiles redeem gateway observe parse K s budget request grant egress
    started finished = (s', (evs, out)) →
  IGateway payload t ∈ evs →
  ∃ sn rd traces,
    evs = IRedeem rd :: IGateway payload t :: traces
    ∧ forallb is_trace traces = true
    ∧ redeem rd = Ok true
    ∧ exact_redemption sn grant egress rd
    ∧ ef_payload_digest (rd_facts rd) = payload_digest_of payload
    ∧ payload = rq_payload request
    ∧ t = mp_timeout_ms (sn_profile sn)
    ∧ dict_get profiles (lineage_key (sn_profile sn)) = Some (sn_profile sn)
    ∧ Forall (projection_active K) (rq_projections request).
Proof.
  intros H Hin. pose proof (execute_ordered canon tokenizer_ref tokenizer_digest parse profiles redeem gateway observe
    K s budget request grant egress started finished) as Ho. rewrite H in Ho. cbn [fst snd] in Ho.
  assert (Hg : existsb is_gateway evs = true).
  { apply existsb_exists. exists (IGateway payload t). split; [by apply list_elem_of_In|done]. }
  destruct Ho as [Ho|(sn & rd & Hsn & Hrd & Hp & [Ho|(traces & -> & Ht & Hr)])]; [congruence..|].
  assert (IGateway payload t = IGateway (sn_payload sn) (mp_timeout_ms (sn_profile sn))) as [= -> ->].
  { apply elem_of_cons in Hin as [?|[?|Hin]%elem_of_cons]; [done|done|].
    rewrite forallb_forall in Ht. by apply list_elem_of_In, Ht in Hin. }
  unfold sealed in Hsn. apply bind_Ok in Hsn as (p & _ & Hsn). apply bind_Ok in Hsn as (sn' & Hs & Hsn).
  apply bind_Ok in Hsn as ([] & _ & ->%Ok_inj). apply snapshot_Ok in Hs as (_ & _ & Hd & Hpl & _ & _ & Ha & _).
  exists sn, rd, traces. split_and!; try done.
  - rewrite (proj2 Hrd). cbn. exact Hd.
  - apply each_Ok in Ha. eapply Forall_impl; [exact Ha|]. intros q. apply require_active_Ok.
Qed.

(** C17: every run of the port is settled and accounted.  From a consistent budget
    ledger the run always ends in a result or [ModelInferenceUnavailable], each with a
    trace receipt that was given to the observer; the meter is left with nothing of
    the run still reserved, every other meter is untouched, the ledger stays
    consistent, and the committed usage grew by exactly the receipt's: nothing when
    the gateway was not called, one provider call otherwise, whatever the provider,
    the clock, the parser or the observer did. *)
Theorem inference_run_is_accounted {A} canon tokenizer_ref tokenizer_digest profiles redeem gateway observe
    (parse : pybytes → _RequestSnapshot → result A) K s budget m request grant egress started finished :
  (∀ v e, canon v = Err e → is_ValueError e = true) →
  store_ok s → meters s !! budget = Some m →
  accounted s budget m
    (_execute canon tokenizer_ref tokenizer_digest profiles redeem gateway observe parse K s budget request grant
       egress started finished).
Proof. intros Hc Hs Hm. by apply execute_accounted. Qed.

(** What the port returns is made of the authorized inputs only.  A rerank is a
    permutation of the request's projections; a selection takes each projection at
    most once and at most [maximum_items] of them, which the profile bounds; and the
    receipt carries the digest of the provider's exact bytes. *)
Theorem inference_results_are_authorized {nesting : NestingLimit} canon tokenizer_ref tokenizer_digest profiles redeem
    gateway observe K s budget request grant egress started finished a r :
  (rerank canon tokenizer_ref tokenizer_digest profiles redeem gateway observe K s budget request grant egress started
     finished).2.2 = Done a r
  ∨ (select canon tokenizer_ref tokenizer_digest profiles redeem gateway observe K s budget request grant egress started
       finished).2.2 = Done a r →
  Forall (projection_active K) (rq_projections request)
  ∧ match rq_maximum request with
    | None => a ≡ₚ rq_projections request
    | Some n => a ⊆+ rq_projections request ∧ len a ≤ n ∧ n ≤ mp_maximum_output_items (rq_profile request)
    end
  ∧ ∃ raw t, gateway (rq_payload request) t = Returned raw
      ∧ tr_output_digest r = Some (hexdigest (_OUTPUT_DIGEST_DOMAIN ++ raw)).
Proof.
  intros [H|H]; [unfold rerank in H|unfold select in H]; destruct request; try done;
    apply execute_Done in H as (sn & raw & Hs & Hp & Hg & Hd);
    apply snapshot_Ok in Hs as (_ & _ & _ & Hpl & Hpr & Hm & Ha & Hn);
    apply each_Ok in Ha; (split; [eapply Forall_impl; [exact Ha|]; intros q; apply require_active_Ok|]);
    rewrite Hpl in Hg; (split; [|by eauto]).
  - apply rerank_permutes in Hp. by rewrite Hpr in Hp.
  - apply select_selects in Hp as (Hsub & n & Hm' & Hle). rewrite Hpr in Hsub. rewrite Hm in Hm'.
    cbn [rq_maximum] in *. injection Hm' as <-. split_and!; [done|done|by apply Hn].
Qed.

(** ** A concrete rerank *)

#[local] Existing Instance cpython_nesting.

Definition demo_canon (v : json) : result pybytes := Ok (lit "{}").
Definition demo_tokenizer : TokenizerBinding := mkTokenizerBinding (lit "tok") demo_sha 1.
Definition demo_inference_profile : ModelInferenceProfile :=
  mkInferenceProfile (lit "p") 1 RERANK demo_profile (lit "tok") demo_sha 100 100 5 5 1 1000 500 400 (mkRetry 1 []) 1 2
    (hexdigest (lit "{}")).
Definition demo_inference_request : inference_request :=
  RerankModelRequest demo_inference_profile (lit "q") demo_projections (payload_digest_of (lit "{}")) (lit "{}").
Definition demo_binding : ModelInferenceEgressBinding := mkEgressBinding (mkUUID 5) demo_sha (lit "answer") demo_sha 1 1.
Definition demo_meters : store :=
  mkStore [mkMeter (mkPackageBudget 1000 2 1000 1000) _EMPTY_USAGE _EMPTY_USAGE (Some demo_tokenizer)] [].
Definition demo_answer : pybytes := lit "{" ++ [34] ++ lit "order" ++ [34] ++ lit ":[1,0]}".
Definition demo_run : store * (list inference_event * outcome (list AuthorizedProjection)) :=
  rerank demo_canon (lit "tok") demo_sha [(lineage_key demo_inference_profile, demo_inference_profile)] (λ _, Ok true)
    (λ _ _, Returned demo_answer) (λ _, Ok tt) [true] demo_meters 0 demo_inference_request (mkModelGrant demo_value)
    demo_binding (Ok 10) (Ok 40).

Example demo_run_ranks :
  match demo_run.2.2 with Done a r => bool_decide (a = reverse demo_projections) && (tokens (tr_budget_usage r) =? 17)
  | _ => false end = true.
Proof. by vm_compute. Qed.

Definition receipt_of {A} (o : outcome A) : option ModelInferenceTraceReceipt :=
  match o with Done _ r | Unavailable r => Some r | Raised _ => None end.
Definition demo_receipt : option ModelInferenceTraceReceipt := Eval vm_compute in receipt_of demo_run.2.2.

Lemma demo_meters_ok : store_ok demo_meters.
Proof.
  split; [|by intros []]. intros [|k] m Hm; [|by destruct k]. injection Hm as <-.
  split; [done|done|]. unfold within. cbn. lia.
Qed.

Lemma model_bytes_leave_after_redemption_witness :
  ∃ (sn : _RequestSnapshot) rd traces, demo_run.2.1 = IRedeem rd :: IGateway (lit "{}") 400 :: traces
    ∧ ef_payload_digest (rd_facts rd) = payload_digest_of (lit "{}")
    ∧ Forall (projection_active [true]) demo_projections.
Proof.
  destruct (model_bytes_leave_after_redemption demo_canon (lit "tok") demo_sha
    [(lineage_key demo_inference_profile, demo_inference_profile)] (λ _, Ok true) (λ _ _, Returned demo_answer)
    (λ _, Ok tt) parse_rerank [true] demo_meters 0 demo_inference_request (mkModelGrant demo_value) demo_binding
    (Ok 10) (Ok 40) demo_run.1 demo_run.2.1 demo_run.2.2 (lit "{}") 400)
    as (sn & rd & traces & He & _ & _ & _ & Hd & _ & _ & _ & Ha).
  - change (_execute _ _ _ _ _ _ _ _ _ _ _ _ _ _ _ _) with demo_run. by destruct demo_run as [? [? ?]].
  - apply (list_elem_of_lookup_2 _ 1). by vm_compute.
  - exists sn, rd, traces. split; [exact He|]. split; [exact Hd|exact Ha].
Defined.

Lemma inference_run_is_accounted_witness :
  accounted demo_meters 0 (mkMeter (mkPackageBudget 1000 2 1000 1000) _EMPTY_USAGE _EMPTY_USAGE (Some demo_tokenizer))
    demo_run.
Proof.
  apply (inference_run_is_accounted demo_canon (lit "tok") demo_sha
    [(lineage_key demo_inference_profile, demo_inference_profile)] (λ _, Ok true) (λ _ _, Returned demo_answer)
    (λ _, Ok tt) parse_rerank [true] demo_meters 0 _ demo_inference_request (mkModelGrant demo_value) demo_binding
    (Ok 10) (Ok 40)); [done|apply demo_meters_ok|done].
Defined.

Lemma inference_results_are_authorized_witness :
  ∃ r, demo_run.2.2 = Done (reverse demo_projections) r
    ∧ Forall (projection_active [true]) demo_projections ∧ reverse demo_projections ≡ₚ demo_projections.
Proof.
  destruct demo_receipt as [r|] eqn:Er; [|done].
  assert (Hrun : demo_run.2.2 = Done (reverse demo_projections) r).
  { injection Er as <-. by vm_compute. }
  exists r. split; [exact Hrun|].
  pose proof (inference_results_are_authorized (nesting := cpython_nesting) demo_canon (lit "tok") demo_sha
    [(lineage_key demo_inference_profile, demo_inference_profile)] (λ _, Ok true) (λ _ _, Returned demo_answer)
    (λ _, Ok tt) [true] demo_meters 0 demo_inference_request (mkModelGrant demo_value) demo_binding
    (Ok 10) (Ok 40) (reverse demo_projections) r (or_introl Hrun)) as (Ha & Hp & _). exact (conj Ha Hp).
Defined.
