(* ===== verification/Canonical.v ===== *)
(** * RFC 8785 on documents with integers

    What the engine relies on when [rfc8785.dumps] serializes its signed documents:
    every well-formed document with safe integers has a canonical form, two documents
    with the same form differ at most in the order of their keys, and on plain values
    (ASCII text without quotes, safe integers) the form is the compact sorted JSON text
    that [json.loads] reads back.  [Rfc8785] is the interface; [safe_canon] satisfies it. *)

From S2P Require Import Prelude Codec Json Trusted TicketIdentity Release ReleaseFacts.

Definition safe_int (z : Z) : bool := Z.abs z <? 2 ^ 53.
(** Printable ASCII other than the quote and the backslash: written as it stands. *)
Definition simple_char (c : Z) : bool := (32 <=? c) && (c <=? 126) && negb (c =? 34) && negb (c =? 92).
Definition simple (s : pystr) : bool := forallb simple_char s.

Fixpoint wf_json (v : json) : bool :=
  match v with
  | JNull | JBool _ => true
  | JInt z => safe_int z
  | JFloat _ => false
  | JStr s => well_formed_text s
  | JArr l => forallb wf_json l
  | JObj kvs => nodupb kvs.*1 && forallb (λ kv, well_formed_text kv.1 && wf_json kv.2) kvs
  end.
Fixpoint plain (v : json) : bool :=
  match v with
  | JNull | JBool _ => true
  | JInt z => safe_int z
  | JFloat _ => false
  | JStr s => simple s
  | JArr l => forallb plain l
  | JObj kvs => nodupb kvs.*1 && forallb (λ kv, simple kv.1 && plain kv.2) kvs
  end.

Class Rfc8785 (canon : json → result pybytes) := {
  rfc_total : ∀ v, wf_json v = true → nests document_depth v = true → ∃ b, canon v = Ok b;
  rfc_injective : ∀ v w b, wf_json v = true → wf_json w = true → canon v = Ok b → canon w = Ok b →
    sort_keys v = sort_keys w;
  rfc_plain : ∀ v, plain v = true → nests document_depth v = true → canon v = dumps no_float v
}.

(** ** The text of a plain value *)

Lemma simple_well_formed s : simple s = true → well_formed_text s = true.
Proof.
  unfold simple, well_formed_text. rewrite !forallb_forall. intros H c Hc%H. unfold simple_char, is_surrogate in *. lia.
Qed.

Lemma wf_json_ok v : wf_json v = true → json_ok v = true.
Proof.
  induction v as [|b|z|x|s|l IH|kvs IH] using json_nested_ind; intros H; try done.
  - by apply well_formed_str_ok.
  - cbn [wf_json json_ok] in *. induction IH as [|v l Hv _ IH]; [done|]. cbn [forallb] in *. run_ok.
    apply andb_true_iff. auto.
  - cbn [wf_json json_ok] in *. apply andb_true_iff in H as [-> H]. cbn [andb].
    induction IH as [|v l Hv _ IH]; [done|]. cbn [forallb] in *. run_ok.
    rewrite !andb_true_iff. split_and!; auto using well_formed_str_ok.
Qed.

Lemma plain_wf v : plain v = true → wf_json v = true.
Proof.
  induction v as [|b|z|x|s|l IH|kvs IH] using json_nested_ind; intros H; try done.
  - by apply simple_well_formed.
  - cbn [wf_json plain] in *. induction IH as [|v l Hv _ IH]; [done|]. cbn [forallb] in *. run_ok.
    apply andb_true_iff. auto.
  - cbn [wf_json plain] in *. apply andb_true_iff in H as [-> H]. cbn [andb].
    induction IH as [|v l Hv _ IH]; [done|]. cbn [forallb] in *. run_ok.
    rewrite !andb_true_iff. split_and!; auto using simple_well_formed.
Qed.

Lemma safe_int_text z : safe_int z = true → dump_int z = Ok (str_of_int z) ∧ 1 ≤ len (str_of_int z) ≤ 66.
Proof.
  unfold safe_int. intros H. unfold dump_int, int_max_str_digits.
  pose proof (str_of_int_length (Z.abs z)) as Ha. pose proof (str_of_int_length z) as Hz.
  rewrite (proj2 (Z.leb_le _ _)) by lia. split; [done|]. split; [|lia].
  destruct (dump_int_head z (str_of_int z)) as (c & t & -> & _).
  { unfold dump_int, int_max_str_digits. rewrite (proj2 (Z.leb_le _ _)) by lia. done. }
  rewrite len_cons. pose proof (len_nonneg t). lia.
Qed.

Lemma dump_simple s : simple s = true → dump_str s = [34] ++ s ++ [34].
Proof.
  intros H. unfold dump_str. f_equal. f_equal. induction s as [|c s IH]; [done|].
  cbn [simple forallb] in H. apply andb_true_iff in H as [Hc H]. cbn [mbind list_bind]. rewrite IH by done.
  unfold dump_char, simple_char in *. repeat case_match; try lia. done.
Qed.

Lemma dumps_wf v : wf_json v = true → ∃ t, dumps no_float v = Ok t.
Proof.
  induction v as [|b|z|x|s|l IH|kvs IH] using json_nested_ind; intros Hs; try done; try by eexists.
  - destruct b; by eexists.
  - eexists. apply (safe_int_text z Hs).
  - rewrite dumps_arr. cbn [wf_json] in Hs.
    enough (∃ ts, map_result (dumps no_float) l = Ok ts) as [ts ->] by by eexists.
    induction IH as [|v l Hv _ IH]; [by exists []|]. cbn [forallb map_result] in *. run_ok.
    destruct Hv as [t ->]; [done|]. destruct IH as [ts ->]; [done|]. by eexists.
  - rewrite dumps_obj. cbn [wf_json] in Hs. apply andb_true_iff in Hs as [_ Hs].
    match goal with |- ∃ t, map_result ?f kvs ≫= _ = _ =>
      enough (∃ ts, map_result f kvs = Ok ts) as [ts ->] by by eexists end.
    induction IH as [|[k v] l Hv _ IH]; [by exists []|]. cbn [forallb map_result fst snd] in *. run_ok.
    destruct Hv as [t ->]; [done|]. destruct IH as [ts E]; [done|]. cbn [mbind result_bind]. rewrite E. by eexists.
Qed.

(** *** Its length *)

Definition sum (l : list Z) : Z := foldr Z.add 0 l.
Fixpoint text_size (v : json) : Z :=
  match v with
  | JNull => 4 | JBool _ => 5 | JInt _ => 66 | JFloat _ => 0
  | JStr s => len s + 2
  | JArr l => 2 + sum ((λ v, text_size v + 1) <$> l)
  | JObj kvs => 2 + sum ((λ kv, len kv.1 + 4 + text_size kv.2) <$> kvs)
  end.

Lemma sum_cons {A} (f : A → Z) x l : sum (f <$> x :: l) = f x + sum (f <$> l).
Proof. done. Qed.
Lemma sum_perm l k : l ≡ₚ k → sum l = sum k.
Proof. unfold sum. induction 1; cbn in *; lia. Qed.
Lemma len_commas ts : len (commas ts) ≤ sum ((λ t, len t + 1) <$> ts).
Proof.
  induction ts as [|t [|t' ts] IH]; [done| |].
  - cbn. lia.
  - rewrite join_cons2, !len_app. change (len [44]) with 1. cbn in *. lia.
Qed.

Lemma simple_size s : simple s = true → len (dump_str s) = len s + 2.
Proof. intros H. rewrite dump_simple, !len_app by done. change (len [34]) with 1. lia. Qed.

Lemma plain_size v t : plain v = true → dumps no_float v = Ok t → len t ≤ text_size v.
Proof.
  revert t. induction v as [|b|z|x|s|l IH|kvs IH] using json_nested_ind; intros t Hp Ht; try done.
  - by injection Ht as <-.
  - by destruct b; injection Ht as <-.
  - destruct (safe_int_text z Hp) as [E HL]. cbn [dumps] in Ht. rewrite E in Ht. injection Ht as <-. cbn. lia.
  - cbn [dumps] in Ht. injection Ht as <-. cbn [text_size]. by rewrite simple_size.
  - rewrite dumps_arr in Ht. apply bind_Ok in Ht as (ts & Hts%map_result_Ok & <-%Ok_inj).
    rewrite !len_app. change (len [91]) with 1. change (len [93]) with 1. cbn [text_size plain] in *.
    pose proof (len_commas ts) as Hc.
    enough (sum ((λ t, len t + 1) <$> ts) ≤ sum ((λ v, text_size v + 1) <$> l)) by lia. clear Hc.
    induction Hts as [|v t l ts Hv _ IH']; [done|]. apply Forall_cons in IH as [Hx IH].
    cbn [forallb] in Hp. apply andb_true_iff in Hp as [Hpv Hp]. rewrite !sum_cons.
    specialize (Hx t Hpv Hv). specialize (IH' IH Hp). lia.
  - rewrite dumps_obj in Ht. apply bind_Ok in Ht as (kts & Hts%map_result_Ok & <-%Ok_inj).
    rewrite !len_app. change (len [123]) with 1. change (len [125]) with 1. cbn [text_size plain] in *.
    apply andb_true_iff in Hp as [_ Hp].
    pose proof (len_commas (dump_entry <$> sorted_by fst kts)) as Hc. rewrite <- list_fmap_compose in Hc.
    rewrite (sum_perm _ ((λ kt, len (dump_entry kt) + 1) <$> kts)) in Hc
      by (apply fmap_Permutation, sorted_by_perm).
    enough (sum ((λ kt, len (dump_entry kt) + 1) <$> kts) ≤ sum ((λ kv, len kv.1 + 4 + text_size kv.2) <$> kvs)) by lia.
    clear Hc. induction Hts as [|[k v] [k' t] l ts Hv _ IH']; [done|]. apply Forall_cons in IH as [Hx IH].
    cbn [forallb fst snd] in *. apply andb_true_iff in Hp as [[Hk Hpv]%andb_true_iff Hp].
    apply bind_Ok in Hv as (t' & Hv & [= <- <-]%Ok_inj). rewrite !sum_cons.
    specialize (Hx t' Hpv Hv). specialize (IH' IH Hp). 
    unfold dump_entry at 1. cbn [fst snd]. rewrite !len_app, simple_size by done. change (len [58]) with 1. lia.
Qed.

(** The text is at least as long as the text it holds. *)
Fixpoint text_low (v : json) : Z :=
  match v with
  | JStr s => len s
  | JArr l => sum (text_low <$> l)
  | JObj kvs => sum ((λ kv, text_low kv.2) <$> kvs)
  | _ => 0
  end.

Lemma len_commas_low ts : sum (len <$> ts) ≤ len (commas ts).
Proof.
  induction ts as [|t [|t' ts] IH]; [done| |].
  - cbn. lia.
  - rewrite join_cons2, !len_app. change (len [44]) with 1. rewrite sum_cons. lia.
Qed.

Lemma plain_low v t : plain v = true → dumps no_float v = Ok t → text_low v ≤ len t.
Proof.
  revert t. induction v as [|b|z|x|s|l IH|kvs IH] using json_nested_ind; intros t Hp Ht; try done;
    try (cbn [text_low]; apply len_nonneg).
  - cbn [dumps] in Ht. injection Ht as <-. cbn [text_low]. rewrite simple_size by done. lia.
  - rewrite dumps_arr in Ht. apply bind_Ok in Ht as (ts & Hts%map_result_Ok & <-%Ok_inj).
    rewrite !len_app. change (len [91]) with 1. change (len [93]) with 1. cbn [text_low plain] in *.
    pose proof (len_commas_low ts) as Hc.
    enough (sum (text_low <$> l) ≤ sum (len <$> ts)) by lia. clear Hc.
    induction Hts as [|v t l ts Hv _ IH']; [done|]. apply Forall_cons in IH as [Hx IH].
    cbn [forallb] in Hp. apply andb_true_iff in Hp as [Hpv Hp]. rewrite !sum_cons.
    specialize (Hx t Hpv Hv). specialize (IH' IH Hp). lia.
  - rewrite dumps_obj in Ht. apply bind_Ok in Ht as (kts & Hts%map_result_Ok & <-%Ok_inj).
    rewrite !len_app. change (len [123]) with 1. change (len [125]) with 1. cbn [text_low plain] in *.
    apply andb_true_iff in Hp as [_ Hp].
    pose proof (len_commas_low (dump_entry <$> sorted_by fst kts)) as Hc. rewrite <- list_fmap_compose in Hc.
    rewrite (sum_perm _ (len ∘ dump_entry <$> kts)) in Hc by (apply fmap_Permutation, sorted_by_perm).
    enough (sum ((λ kv, text_low kv.2) <$> kvs) ≤ sum (len ∘ dump_entry <$> kts)) by lia.
    clear Hc. induction Hts as [|[k v] [k' t] l ts Hv _ IH']; [done|]. apply Forall_cons in IH as [Hx IH].
    cbn [forallb fst snd] in *. apply andb_true_iff in Hp as [[Hk Hpv]%andb_true_iff Hp].
    apply bind_Ok in Hv as (t' & Hv & [= <- <-]%Ok_inj). rewrite !sum_cons.
    specialize (Hx t' Hpv Hv). specialize (IH' IH Hp). cbn [compose snd]. unfold dump_entry at 1. cbn [fst snd].
    rewrite !len_app. pose proof (len_nonneg (dump_str k)). change (len [58]) with 1. lia.
Qed.

(** ** An instance *)

Definition safe_canon (v : json) : result pybytes := if wf_json v then dumps no_float v else Err ValueError.
#[export] Instance safe_canon_rfc8785 : Rfc8785 safe_canon.
Proof.
  split; unfold safe_canon.
  - intros v H _. rewrite H. by apply dumps_wf.
  - intros v w b Hv Hw. rewrite Hv, Hw. apply dumps_inj; by apply wf_json_ok.
  - intros v H%plain_wf _. by rewrite H.
Qed.
