(* ===== verification/FileChanges.v ===== *)
(** * File capabilities and change pages

    [src/engine/control/contracts.py] (the File capability declaration and the source
    version), the path of [control/file_imports.py] and all of
    [control/file_change_pages.py]: scan heads, complete baselines, bounded change
    pages, the page document a Provider signs, the cursor Control signs, and the two
    verifiers.

    Ed25519 and RFC 8785 are libraries: the signing and verification functions and
    the canonicalizer are parameters. *)

From S2P Require Import Prelude Codec Sha256 Datetime Float64 Json Trusted Signing ArticlePolicy BulkPolicy.
Import Opaque.

Definition require_sha256 (s : pystr) : result unit := require (is_sha256_hex s) ValueError.

(** ** Capabilities *)

Inductive SourceKind := FILE.
Inductive SourceMode := MATERIALIZED.
Inductive SourceContentKind := MARKDOWN.
Inductive SourceResourceKind := MARKDOWN_DOCUMENT.
Inductive CapabilityStatus := AVAILABLE | UNAVAILABLE.
#[export] Instance CapabilityStatus_eq_dec : EqDecision CapabilityStatus.
Proof. solve_decision. Defined.
#[export] Instance SourceContentKind_eq_dec : EqDecision SourceContentKind.
Proof. solve_decision. Defined.
#[export] Instance SourceResourceKind_eq_dec : EqDecision SourceResourceKind.
Proof. solve_decision. Defined.
#[export] Instance SourceMode_eq_dec : EqDecision SourceMode.
Proof. solve_decision. Defined.

Record FileCapabilityManifest := mkCapabilities {
  declaration_version : pystr;
  source_mode : SourceMode;
  content_kinds : list SourceContentKind;
  resource_kinds : list SourceResourceKind;
  acl_evidence_mode : SourceAclEvidenceMode;
  projection_fields : list pystr;
  cursor_semantics : CapabilityStatus;
  checkpoint_semantics : CapabilityStatus;
  batch_limits : CapabilityStatus;
  freshness : CapabilityStatus;
  consistency_guarantees : CapabilityStatus;
  describe_capabilities : CapabilityStatus;
  read_changes_status : CapabilityStatus;
  discover : CapabilityStatus;
  authorize_and_project : CapabilityStatus;
  checkpoint : CapabilityStatus;
  delete_observations : CapabilityStatus;
  deletion : CapabilityStatus;
  file_source_access : CapabilityStatus;
  ingestion_jobs : CapabilityStatus
}.
#[export] Instance FileCapabilityManifest_eq_dec : EqDecision FileCapabilityManifest.
Proof. solve_decision. Defined.

Definition available (s : CapabilityStatus) : bool := bool_decide (s = AVAILABLE).
Definition unavailable (s : CapabilityStatus) : bool := bool_decide (s = UNAVAILABLE).
Definition V1 : pystr := lit "file-capabilities-v1".
Definition V2 : pystr := lit "file-capabilities-v2".
Definition V3 : pystr := lit "file-capabilities-v3".
Definition V4 : pystr := lit "file-capabilities-v4".

Definition check_capabilities (m : FileCapabilityManifest) : result unit :=
  let version v := bool_decide (declaration_version m = v) in
  let paging := [cursor_semantics m; checkpoint_semantics m; batch_limits m; describe_capabilities m;
                 read_changes_status m; checkpoint m] in
  require (negb (
    negb (bool_decide (source_mode m = MATERIALIZED))
    || negb (bool_decide (content_kinds m = [MARKDOWN]))
    || negb (bool_decide (resource_kinds m = [MARKDOWN_DOCUMENT]))
    || negb (bool_decide (acl_evidence_mode m = MIRRORED))
    || negb (bool_decide (projection_fields m = []))
    || existsb (λ s, negb (unavailable s))
         [freshness m; consistency_guarantees m; discover m; authorize_and_project m; deletion m]
    || (version V1 && (negb (unavailable (file_source_access m)) || negb (unavailable (ingestion_jobs m))))
    || (version V2 && (negb (available (file_source_access m)) || negb (available (ingestion_jobs m))))
    || ((version V3 || version V4)
        && (existsb (λ s, negb (available s)) (paging ++ [file_source_access m; ingestion_jobs m])
            || negb (bool_decide (delete_observations m = if version V4 then AVAILABLE else UNAVAILABLE))))
    || ((version V1 || version V2)
        && existsb (λ s, negb (unavailable s)) (paging ++ [delete_observations m]))
    || negb (version V1 || version V2 || version V3 || version V4))) ValueError.

Definition declared (v : pystr) (paging deletes access : CapabilityStatus) : FileCapabilityManifest :=
  mkCapabilities v MATERIALIZED [MARKDOWN] [MARKDOWN_DOCUMENT] MIRRORED [] paging paging paging UNAVAILABLE UNAVAILABLE
    paging paging UNAVAILABLE UNAVAILABLE paging deletes UNAVAILABLE access access.
Definition FILE_CAPABILITY_MANIFEST := declared V1 UNAVAILABLE UNAVAILABLE UNAVAILABLE.
Definition FILE_IMPORT_CAPABILITY_MANIFEST := declared V2 UNAVAILABLE UNAVAILABLE AVAILABLE.
Definition FILE_CHANGE_CAPABILITY_MANIFEST := declared V3 AVAILABLE UNAVAILABLE AVAILABLE.
Definition FILE_DELETE_OBSERVATION_CAPABILITY_MANIFEST := declared V4 AVAILABLE AVAILABLE AVAILABLE.

Definition status_value (s : CapabilityStatus) : json :=
  JStr match s with AVAILABLE => lit "available" | UNAVAILABLE => lit "unavailable" end.
Definition mode_text (m : SourceAclEvidenceMode) : pystr :=
  match m with LIVE => lit "live" | MIRRORED => lit "mirrored" | WEAK => lit "weak" end.
(** [FileCapabilityManifest.document] *)
Definition capability_document (m : FileCapabilityManifest) : json :=
  JObj ([
    (lit "aclEvidenceMode", JStr (mode_text (acl_evidence_mode m)));
    (lit "authorizeAndProject", status_value (authorize_and_project m));
    (lit "batchLimits", status_value (batch_limits m));
    (lit "checkpoint", status_value (checkpoint m));
    (lit "checkpointSemantics", status_value (checkpoint_semantics m));
    (lit "contentKinds", JArr ((λ _, JStr (lit "markdown")) <$> content_kinds m));
    (lit "consistencyGuarantees", status_value (consistency_guarantees m));
    (lit "cursorSemantics", status_value (cursor_semantics m));
    (lit "declarationVersion", JStr (declaration_version m));
    (lit "deletion", status_value (deletion m));
    (lit "describeCapabilities", status_value (describe_capabilities m));
    (lit "discover", status_value (discover m));
    (lit "fileSourceAccess", status_value (file_source_access m));
    (lit "freshness", status_value (freshness m));
    (lit "ingestionJobs", status_value (ingestion_jobs m));
    (lit "projectionFields", JArr (JStr <$> projection_fields m));
    (lit "readChanges", status_value (read_changes_status m));
    (lit "resourceKinds", JArr ((λ _, JStr (lit "markdown_document")) <$> resource_kinds m));
    (lit "sourceMode", JStr (lit "materialized"))]
  ++ if bool_decide (declaration_version m = V4)
     then [(lit "deleteObservations", status_value (delete_observations m))] else []).

(** A declaration as an object: [is] compares it with the module's constant, which
    another object of equal fields is not. *)
Record capability_object := mkCapabilityObject { cap_manifest : FileCapabilityManifest; cap_constant : bool }.
Definition is_delete_observation (c : capability_object) : bool :=
  cap_constant c && bool_decide (cap_manifest c = FILE_DELETE_OBSERVATION_CAPABILITY_MANIFEST).

Record SourceVersion := mkSourceVersion {
  sv_source_ref : UUID;
  sv_version_ref : UUID;
  sv_kind : SourceKind;
  sv_root_ref : pystr;
  sv_capabilities : capability_object;
  sv_created_at : datetime
}.
Definition check_source_version (v : SourceVersion) : result unit := require_utc (sv_created_at v) ;; Ok tt.

(** ** Paths *)

Definition split_slash : pystr → list pystr :=
  fix split s :=
    match s with
    | [] => [[]]
    | c :: s' =>
        if c =? 47 then [] :: split s'
        else match split s' with [] => [[c]] | p :: ps => (c :: p) :: ps end
    end.
(** [value.casefold().endswith(".md")]: only ASCII letters fold to these letters. *)
Definition markdown_suffix (s : pystr) : bool :=
  match reverse s with
  | d :: m :: dot :: _ => ((d =? 100) || (d =? 68)) && ((m =? 109) || (m =? 77)) && (dot =? 46)
  | _ => false
  end.
Definition new_FileImportPath (value : pystr) : result pystr :=
  require (negb (
    bool_decide (value = [])
    || negb (bool_decide (value = strip value))
    || existsb (Z.eqb 92) value
    || negb (markdown_suffix value)
    || (255 <? len value)
    || existsb (λ part, bool_decide (part = []) || bool_decide (part = lit ".") || bool_decide (part = lit ".."))
         (split_slash value)
    || existsb (λ c, c <? 0x20) value
    || existsb is_surrogate value)) ValueError ;;
  Ok value.

(** ** Source references and registrations: [contracts.py] *)

Definition MAX_SOURCE_DISPLAY_NAME_LENGTH : Z := 200.
Definition MAX_SOURCE_TOKEN_LENGTH : Z := 128.
Definition ascii_alnum (c : Z) : bool :=
  ((48 <=? c) && (c <=? 57)) || ((65 <=? c) && (c <=? 90)) || ((97 <=? c) && (c <=? 122)).
Definition _require_token (value : pystr) : result unit :=
  _require_bounded_text (OStr value) MAX_SOURCE_TOKEN_LENGTH ;;
  require (match value with c :: _ => ascii_alnum c | [] => false end
           && forallb (λ c, ascii_alnum c || mem c (lit "._-")) value) ValueError.
Definition new_FileRootRef (value : pystr) : result pystr :=
  try_except (_require_token value) is_ValueError (Err ValueError) ;;
  require (negb (bool_decide (value = lit ".") || bool_decide (value = lit ".."))) ValueError ;;
  Ok value.
Definition check_register_file_source (display_name idempotency_key : pystr) : result unit :=
  _require_bounded_text (OStr display_name) MAX_SOURCE_DISPLAY_NAME_LENGTH ;; _require_token idempotency_key.

Record SourceManifest := mkSourceManifest {
  sm_source_ref : UUID;
  sm_display_name : pystr;
  sm_kind : SourceKind;
  sm_active_version : SourceVersion;
  sm_created_at : datetime
}.
Definition check_source_manifest (m : SourceManifest) : result unit :=
  _require_bounded_text (OStr (sm_display_name m)) MAX_SOURCE_DISPLAY_NAME_LENGTH ;;
  require (bool_decide (sv_source_ref (sm_active_version m) = sm_source_ref m)) ValueError ;;
  require_utc (sm_created_at m) ;; Ok tt.
Definition registered_file (source_ref version_ref : UUID) (display_name root_ref : pystr) (created_at : datetime)
    (version_created_at : option datetime) (capabilities : capability_object) : result SourceManifest :=
  let version := mkSourceVersion source_ref version_ref FILE root_ref capabilities (default created_at version_created_at) in
  let m := mkSourceManifest source_ref display_name FILE version created_at in
  check_source_version version ;; check_source_manifest m ;; Ok m.

(** ** Change pages: [file_change_pages.py] *)

Definition MAX_FILE_CHANGE_PAGE_SIZE : Z := 100.
Definition DEFAULT_FILE_CHANGE_BASELINE_SIZE : Z := 10000.
Definition MAX_CONFIGURED_FILE_CHANGE_BASELINE_SIZE : Z := 15000.

Definition _require_scan_bound (z : Z) : result unit :=
  require ((1 <=? z) && (z <=? MAX_CONFIGURED_FILE_CHANGE_BASELINE_SIZE)) ValueError.
Definition require_page_limit (z : Z) : result unit := require ((1 <=? z) && (z <=? MAX_FILE_CHANGE_PAGE_SIZE)) ValueError.
Definition require_sequence (z : Z) : result unit := require ((1 <=? z) && (z <=? 2 ^ 63 - 1)) ValueError.

(** [PendingChangeCursor] and [ChangeCursor] differ in their bounds. *)
Definition opaque_token (lo hi : Z) (value : pystr) : result unit :=
  require ((lo <=? len value) && (len value <=? hi) && bool_decide (value = strip value)
           && (len (filter (λ c, c = 46) value) =? 1) && negb (existsb is_space value)) ValueError.
Record PendingChangeCursor := mkPendingCursor { pending_value : pystr }.
Definition new_PendingChangeCursor (value : pystr) : result PendingChangeCursor :=
  opaque_token 64 8192 value ;; Ok (mkPendingCursor value).
Record ChangeCursor := mkChangeCursor { cursor_value : pystr }.
Definition new_ChangeCursor (value : pystr) : result ChangeCursor :=
  opaque_token 128 16384 value ;; Ok (mkChangeCursor value).

Definition _require_checkpoint_ref (value : pystr) : result unit :=
  require (startswith (lit "facp_") value && (len value =? 69) && all_in hex_alphabet (drop 5 value)) ValueError.

Record FileChangeScanHead := mkScanHead {
  sh_source_version_ref : UUID;
  sh_scan_ref : pystr;
  sh_scan_epoch : UUID;
  sh_page_limit : Z;
  sh_page_ref : pystr;
  sh_checkpoint_ref : pystr;
  sh_sequence : Z;
  sh_complete : bool;
  sh_scan_bound : Z;
  sh_superseded_scan_epoch : option UUID
}.
Definition check_scan_head (h : FileChangeScanHead) : result unit :=
  require_sha256 (sh_scan_ref h) ;; require_page_limit (sh_page_limit h) ;; require_sha256 (sh_page_ref h) ;;
  _require_checkpoint_ref (sh_checkpoint_ref h) ;; require_sequence (sh_sequence h) ;; _require_scan_bound (sh_scan_bound h).

Inductive FileChangeBaselineRef := mkBaselineRef {
  br_source_version_ref : UUID;
  br_scan_ref : pystr;
  br_scan_epoch : UUID;
  br_page_ref : pystr;
  br_checkpoint_ref : pystr;
  br_sequence : Z;
  br_scan_bound : Z;
  br_comparison : option FileChangeBaselineRef
}.
Definition check_baseline_ref (b : FileChangeBaselineRef) : result unit :=
  require_sha256 (br_scan_ref b) ;; require_sha256 (br_page_ref b) ;; _require_checkpoint_ref (br_checkpoint_ref b) ;;
  require_sequence (br_sequence b) ;; _require_scan_bound (br_scan_bound b) ;;
  match br_comparison b with
  | None => Ok tt
  | Some c =>
      require (bool_decide (br_source_version_ref c = br_source_version_ref b) && (br_sequence c <? br_sequence b))
        ValueError ;;
      require (match br_comparison c with None => true | Some _ => false end) ValueError
  end.

Inductive FileChangeKind := UPSERT | DELETE.
#[export] Instance FileChangeKind_eq_dec : EqDecision FileChangeKind.
Proof. solve_decision. Defined.
Definition change_kind_value (k : FileChangeKind) : pystr := match k with UPSERT => lit "upsert" | DELETE => lit "delete" end.

(** [FileChangeBaselineEntry], and the [_ObservedChange] of the Provider, which has
    the same fields. *)
Record FileChange := mkFileChange {
  fc_kind : FileChangeKind;
  fc_path : pystr;
  fc_sha256 : pystr;
  fc_length : Z
}.
#[export] Instance FileChange_eq_dec : EqDecision FileChange.
Proof. solve_decision. Defined.
Definition check_baseline_entry (e : FileChange) : result unit :=
  require_sha256 (fc_sha256 e) ;; require (0 <=? fc_length e) ValueError.

(** [sorted(paths, key=lambda value: value.encode("utf-8")) == paths] *)
Definition canonical_order (paths : list pystr) : bool := bool_decide (paths = sorted_by utf8 paths).

Record FileChangeBaseline := mkBaseline { bl_reference : FileChangeBaselineRef; bl_entries : list FileChange }.
Definition check_baseline (b : FileChangeBaseline) : result unit :=
  require ((len (bl_entries b) <=? MAX_CONFIGURED_FILE_CHANGE_BASELINE_SIZE)
           && (len (bl_entries b) <=? br_scan_bound (bl_reference b))) TypeError ;;
  require (canonical_order (fc_path <$> bl_entries b)) ValueError ;;
  require (nodupb (fc_path <$> bl_entries b)) ValueError.

Record FileChangeSource := mkChangeSource {
  cs_organization_id : UUID;
  cs_source_version : SourceVersion;
  cs_scan_head : option FileChangeScanHead;
  cs_complete_baseline : option FileChangeBaseline
}.
Definition check_change_source (s : FileChangeSource) : result unit :=
  match cs_complete_baseline s with
  | None => Ok tt
  | Some b =>
      require (is_delete_observation (sv_capabilities (cs_source_version s))) ValueError ;;
      require (bool_decide (br_source_version_ref (bl_reference b) = sv_version_ref (cs_source_version s))) ValueError
  end.

Record SourceChange := mkSourceChange {
  sc_organization_id : UUID;
  sc_source_ref : UUID;
  sc_source_version_ref : UUID;
  sc_scan_ref : pystr;
  sc_change : FileChange
}.
Definition check_source_change (c : SourceChange) : result unit :=
  require_sha256 (sc_scan_ref c) ;; require_sha256 (fc_sha256 (sc_change c)) ;;
  require (0 <=? fc_length (sc_change c)) ValueError.

Record ChangePage := mkChangePage {
  cp_organization_id : UUID;
  cp_source_ref : UUID;
  cp_source_version_ref : UUID;
  cp_scan_ref : pystr;
  cp_scan_epoch : UUID;
  cp_page_limit : Z;
  cp_predecessor_page_ref : option pystr;
  cp_predecessor_checkpoint_ref : option pystr;
  cp_predecessor_sequence : option Z;
  cp_superseded_scan_epoch : option UUID;
  cp_changes : list SourceChange;
  cp_next_cursor : option PendingChangeCursor;
  cp_complete : bool;
  cp_provider_proof : pystr;
  cp_baseline_ref : option FileChangeBaselineRef;
  cp_capability_version : pystr;
  cp_scan_bound : Z
}.
Definition is_none {A} (o : option A) : bool := match o with None => true | Some _ => false end.
Definition when_some {A} (f : A → result unit) (o : option A) : result unit :=
  match o with None => Ok tt | Some a => f a end.
Definition check_change_page (p : ChangePage) : result unit :=
  require (bool_decide (cp_capability_version p = V3) || bool_decide (cp_capability_version p = V4)) ValueError ;;
  require_sha256 (cp_scan_ref p) ;;
  require_page_limit (cp_page_limit p) ;;
  _require_scan_bound (cp_scan_bound p) ;;
  when_some require_sha256 (cp_predecessor_page_ref p) ;;
  when_some _require_checkpoint_ref (cp_predecessor_checkpoint_ref p) ;;
  when_some require_sequence (cp_predecessor_sequence p) ;;
  require (Bool.eqb (is_none (cp_predecessor_page_ref p)) (is_none (cp_predecessor_checkpoint_ref p))
           && Bool.eqb (is_none (cp_predecessor_page_ref p)) (is_none (cp_predecessor_sequence p))) ValueError ;;
  require (is_none (cp_predecessor_page_ref p) || is_none (cp_superseded_scan_epoch p)) ValueError ;;
  when_some (λ b, require (bool_decide (br_source_version_ref b = cp_source_version_ref p)) ValueError)
    (cp_baseline_ref p) ;;
  require (negb (bool_decide (cp_capability_version p = V3)
                 && (negb (is_none (cp_baseline_ref p))
                     || existsb (λ c, negb (bool_decide (fc_kind (sc_change c) = UPSERT))) (cp_changes p)))) ValueError ;;
  require (len (cp_changes p) <=? cp_page_limit p) TypeError ;;
  require (Bool.eqb (cp_complete p) (is_none (cp_next_cursor p))) ValueError ;;
  require (cp_complete p || negb (bool_decide (cp_changes p = []))) ValueError ;;
  let paths := (λ c, fc_path (sc_change c)) <$> cp_changes p in
  require (canonical_order paths) ValueError ;;
  require (nodupb paths) ValueError ;;
  require (forallb (λ c, bool_decide (sc_scan_ref c = cp_scan_ref p)
                         && bool_decide (sc_organization_id c = cp_organization_id p)
                         && bool_decide (sc_source_ref c = cp_source_ref p)
                         && bool_decide (sc_source_version_ref c = cp_source_version_ref p)) (cp_changes p)) ValueError ;;
  proof ← decode_base64url (cp_provider_proof p);
  require (len proof =? 64) ValueError.

(** ** Documents *)

Definition _PAGE_DOMAIN : pystr := lit "context-engine.file-change-page.v1".
Definition _CHECKPOINT_CURSOR_DOMAIN : pystr := lit "context-engine.accepted-file-change-cursor.v1".

Definition opt_json {A} (f : A → json) (o : option A) : json := match o with None => JNull | Some a => f a end.
Definition juuid (u : UUID) : json := JStr (uuid_str u).

Definition change_document (c : FileChange) : json :=
  JObj [(lit "contentLength", JInt (fc_length c)); (lit "contentSha256", JStr (fc_sha256 c));
        (lit "kind", JStr (change_kind_value (fc_kind c))); (lit "path", JStr (fc_path c))].
Definition _baseline_reference_document (b : FileChangeBaselineRef) : json :=
  JObj [(lit "checkpointRef", JStr (br_checkpoint_ref b)); (lit "pageRef", JStr (br_page_ref b));
        (lit "scanEpoch", juuid (br_scan_epoch b)); (lit "scanRef", JStr (br_scan_ref b));
        (lit "sequence", JInt (br_sequence b)); (lit "scanBound", JInt (br_scan_bound b));
        (lit "sourceVersionId", juuid (br_source_version_ref b))].
Definition _page_document (p : ChangePage) : list (list Z * json) :=
  [(lit "changes", JArr ((λ c, change_document (sc_change c)) <$> cp_changes p));
   (lit "complete", JBool (cp_complete p));
   (lit "domain", JStr _PAGE_DOMAIN);
   (lit "nextCursor", opt_json (λ c, JStr (pending_value c)) (cp_next_cursor p));
   (lit "organizationId", juuid (cp_organization_id p));
   (lit "pageLimit", JInt (cp_page_limit p));
   (lit "predecessorCheckpointRef", opt_json JStr (cp_predecessor_checkpoint_ref p));
   (lit "predecessorPageRef", opt_json JStr (cp_predecessor_page_ref p));
   (lit "predecessorSequence", opt_json JInt (cp_predecessor_sequence p));
   (lit "scanEpoch", juuid (cp_scan_epoch p));
   (lit "scanBound", JInt (cp_scan_bound p));
   (lit "scanRef", JStr (cp_scan_ref p));
   (lit "supersededScanEpoch", opt_json juuid (cp_superseded_scan_epoch p));
   (lit "sourceId", juuid (cp_source_ref p));
   (lit "sourceVersionId", juuid (cp_source_version_ref p));
   (lit "version", JInt 1)]
  ++ match cp_baseline_ref p with None => [] | Some b => [(lit "baseline", _baseline_reference_document b)] end
  ++ if bool_decide (cp_capability_version p = V4) then [(lit "declarationVersion", JStr (cp_capability_version p))] else [].

Definition accepted_cursor_document (organization_id source_ref source_version_ref : UUID) (scan_ref : pystr)
    (scan_epoch : UUID) (page_ref checkpoint_ref : pystr) (sequence : Z) (pending : PendingChangeCursor) : json :=
  JObj [(lit "checkpointRef", JStr checkpoint_ref); (lit "domain", JStr _CHECKPOINT_CURSOR_DOMAIN);
        (lit "organizationId", juuid organization_id); (lit "pageRef", JStr page_ref);
        (lit "pendingCursor", JStr (pending_value pending)); (lit "scanEpoch", juuid scan_epoch);
        (lit "scanRef", JStr scan_ref); (lit "sequence", JInt sequence); (lit "sourceId", juuid source_ref);
        (lit "sourceVersionId", juuid source_version_ref); (lit "version", JInt 1)].

(** [float(literal)] of a JSON number, correctly rounded. *)
Definition float_of_literal (t : pystr) : float :=
  let '(neg, s) := match t with 45 :: s => (true, s) | _ => (false, t) end in
  if bool_decide (s = lit "Infinity") then S754_infinity neg
  else if bool_decide (s = lit "NaN") then S754_nan
  else
    let '(ip, r) := span_digits s in
    let '(fp, r) := match r with 46 :: r' => span_digits r' | _ => ([], r) end in
    let e := match r with
             | 101 :: 45 :: d | 69 :: 45 :: d => - int_of_digits d
             | 101 :: 43 :: d | 69 :: 43 :: d => int_of_digits d
             | 101 :: d | 69 :: d => int_of_digits d
             | _ => 0 end - len fp in
    match int_of_digits (ip ++ fp) with
    | Zpos p =>
        let f := if 0 <=? e then float_of_int (Zpos p * 10 ^ e)
                 else fdiv (S754_finite false p 0) (S754_finite false (Z.to_pos (10 ^ (- e))) 0) in
        if neg then fopp f else f
    | _ => S754_zero neg
    end.

(** [value == n] for a decoded value and a small integer: a bool and a float compare
    by value. *)
Definition json_eq_int (v : option json) (n : Z) : bool :=
  match v with
  | Some (JInt z) => z =? n
  | Some (JBool b) => Z.b2z b =? n
  | Some (JFloat t) => SFeqb (float_of_literal t) (float_of_int n)
  | _ => false
  end.
Definition json_eq_str (v : option json) (s : pystr) : bool :=
  match v with Some (JStr t) => bool_decide (t = s) | _ => false end.
Definition json_text (v : option json) : result pystr := match v with Some (JStr t) => Ok t | _ => Err ValueError end.
(** [set(document) == {...}]; the keys of a dict are distinct. *)
Definition same_keys (d : list (list Z * json)) (keys : list string) : bool :=
  bool_decide (sorted d.*1 = sorted (lit <$> keys)).

Record _AcceptedCursorClaims := mkAcceptedClaims {
  ac_pending_cursor : PendingChangeCursor;
  ac_scan_ref : pystr;
  ac_page_ref : pystr;
  ac_checkpoint_ref : pystr;
  ac_sequence : Z;
  ac_scan_epoch : UUID
}.

Record AcceptedChangePage := mkAcceptedPage {
  ap_source_ref : UUID;
  ap_source_version_ref : UUID;
  ap_scan_ref : pystr;
  ap_scan_epoch : UUID;
  ap_page_limit : Z;
  ap_superseded_scan_epoch : option UUID;
  ap_page_ref : pystr;
  ap_checkpoint_ref : pystr;
  ap_sequence : Z;
  ap_change_count : Z;
  ap_complete : bool;
  ap_next_cursor : option ChangeCursor;
  ap_accepted_at : datetime;
  ap_scan_bound : Z
}.
Definition _validate_acceptance_fields (page_ref checkpoint_ref : pystr) (sequence change_count : Z) (accepted_at : datetime) :
    result unit :=
  require_sha256 page_ref ;; _require_checkpoint_ref checkpoint_ref ;; require_sequence sequence ;;
  require ((0 <=? change_count) && (change_count <=? MAX_FILE_CHANGE_PAGE_SIZE)) ValueError ;;
  require_utc accepted_at ;; Ok tt.
Definition check_accepted_page (a : AcceptedChangePage) : result unit :=
  _validate_acceptance_fields (ap_page_ref a) (ap_checkpoint_ref a) (ap_sequence a) (ap_change_count a)
    (ap_accepted_at a) ;;
  require_sha256 (ap_scan_ref a) ;; require_page_limit (ap_page_limit a) ;; _require_scan_bound (ap_scan_bound a) ;;
  require (Bool.eqb (ap_complete a) (is_none (ap_next_cursor a))) ValueError.
(** [AcceptedChangePage.scan_head] *)
Definition accepted_scan_head (a : AcceptedChangePage) : result FileChangeScanHead :=
  let h := mkScanHead (ap_source_version_ref a) (ap_scan_ref a) (ap_scan_epoch a) (ap_page_limit a) (ap_page_ref a)
             (ap_checkpoint_ref a) (ap_sequence a) (ap_complete a) (ap_scan_bound a) (ap_superseded_scan_epoch a) in
  check_scan_head h ;; Ok h.

(** [VerifiedChangePage], which only [verify_page] builds. *)
Record VerifiedChangePage := mkVerifiedPage { vp_page : ChangePage; vp_page_ref : pystr }.

Section Proofs.
Context {nesting : NestingLimit}.
(** [rfc8785.dumps] *)
Context (canon : json → result pybytes).
(** [Ed25519PrivateKey.sign] and [Ed25519PublicKey.verify] (signature, payload) of the
    Provider's and of Control's key pair. *)
Context (provider_sign : pybytes → pybytes) (provider_verify : pybytes → pybytes → bool).
Context (checkpoint_verify : pybytes → pybytes → bool).

Definition _page_payload (p : ChangePage) : result pybytes := canon (JObj (_page_document p)).

Definition _accepted_cursor_payload (organization_id source_ref source_version_ref : UUID) (scan_ref : pystr)
    (scan_epoch : UUID) (page_ref checkpoint_ref : pystr) (sequence : Z) (pending : PendingChangeCursor) : result pybytes :=
  require_sha256 scan_ref ;; require_sha256 page_ref ;; _require_checkpoint_ref checkpoint_ref ;; require_sequence sequence ;;
  canon (accepted_cursor_document organization_id source_ref source_version_ref scan_ref scan_epoch page_ref checkpoint_ref
           sequence pending).

(** [FileChangeProviderProofs] *)
Definition _seal_page (p : ChangePage) : result pystr :=
  payload ← _page_payload p; Ok (encode_base64url (provider_sign payload)).

Definition cursor_keys : list string :=
  ["checkpointRef"; "domain"; "organizationId"; "pageRef"; "pendingCursor"; "scanEpoch"; "scanRef"; "sequence";
   "sourceId"; "sourceVersionId"; "version"]%string.

(** The body of the [try]; [return None] inside it is a raised [ValueError]. *)
Definition unwrap_claims (value : pystr) : result _AcceptedCursorClaims :=
  match split_dot value with
  | [encoded_payload; encoded_signature] =>
      payload ← decode_base64url encoded_payload;
      signature ← decode_base64url encoded_signature;
      require (checkpoint_verify signature payload) ValueError ;;
      document ← loads json_dict payload;
      match document with
      | JObj d =>
          canonical ← canon document;
          require (bool_decide (canonical = payload) && same_keys d cursor_keys
                   && json_eq_str (dict_get d (lit "domain")) _CHECKPOINT_CURSOR_DOMAIN
                   && json_eq_int (dict_get d (lit "version")) 1) ValueError ;;
          scan_epoch_value ← json_text (dict_get d (lit "scanEpoch"));
          scan_epoch ← _parse_uuid (OStr scan_epoch_value);
          page_ref ← json_text (dict_get d (lit "pageRef"));
          require_sha256 page_ref ;;
          scan_ref ← json_text (dict_get d (lit "scanRef"));
          require_sha256 scan_ref ;;
          checkpoint_ref ← json_text (dict_get d (lit "checkpointRef"));
          _require_checkpoint_ref checkpoint_ref ;;
          sequence ← match dict_get d (lit "sequence") with Some (JInt z) => Ok z | _ => Err ValueError end;
          require_sequence sequence ;;
          each (λ k, t ← json_text (dict_get d (lit k)); _parse_uuid (OStr t) ;; Ok tt)
            ["organizationId"; "sourceId"; "sourceVersionId"]%string ;;
          pending ← json_text (dict_get d (lit "pendingCursor"));
          cursor ← new_PendingChangeCursor pending;
          Ok (mkAcceptedClaims cursor scan_ref page_ref checkpoint_ref sequence scan_epoch)
      | _ => Err ValueError
      end
  | _ => Err ValueError
  end.
Definition none_on_error {A} (m : result A) : result (option A) :=
  match m with
  | Ok a => Ok (Some a)
  | Err e => if is_ValueError e || is_TypeError e then Ok None else Err e
  end.
Definition _unwrap_cursor (cursor : ChangeCursor) : result (option _AcceptedCursorClaims) :=
  none_on_error (unwrap_claims (cursor_value cursor)).

(** [FileChangeControlProofs.verify_page] *)
Definition verify_page (page : ChangePage) : result (option VerifiedChangePage) :=
  payload ← _page_payload page;
  none_on_error
    (provided ← decode_base64url (cp_provider_proof page);
     require (provider_verify provided payload) ValueError ;;
     Ok (mkVerifiedPage page (hexdigest payload))).
End Proofs.
