(* ===== verification/FileProvider.v ===== *)
(** * The File Provider

    [FileChangeProvider] of [src/adapters/file_source.py], the acceptance of a page in
    [src/engine/persistence/control_sources.py] (from the stored row on).

    The file system is an argument: what one anchored traversal of the root observed,
    or how it failed.  The database row of an accepted page is an argument as well. *)

From S2P Require Import Prelude Codec Sha256 Datetime Float64 Json Trusted Signing ArticlePolicy BulkPolicy FileChanges.
Import Opaque.

Definition _CURSOR_DOMAIN : pystr := lit "context-engine.file-change-cursor.v1".
Definition _SCAN_DOMAIN : pybytes := lit "context-engine.file-change-scan.v1" ++ [0].
Definition _SCAN_EPOCH_DOMAIN : pystr := lit "context-engine.file-change-scan-epoch.v1".

(** The result of [_observe_markdown_files], before its final sort. *)
Inductive observation :=
  | Observed (files : list (list Z * list Z))
  | FileScanBoundExceeded
  | RootMissing
  | Unstable.

(** The registry's view of one root: the scan bound, the curated prefix (a [LookupError]
    when the root is not configured) and the traversal. *)
Record FileRootRegistry := mkRegistry {
  max_baseline_entries : Z;
  curated_subtree_prefix : result (option pystr);
  observe_markdown_files : observation
}.

Inductive scan_cursor := InitialScan | Continue (c : ChangeCursor).

Inductive provider_outcome :=
  | ProviderOk (page : ChangePage)
  | ProviderUnsupported
  | ProviderRetryableUnavailable
  | ProviderInvalidCheckpoint
  | ProviderGenericDenied
  | ProviderScanBoundExceeded (scan_bound : Z).

(** [describe_capabilities] *)
Definition describes_capabilities (source : FileChangeSource) : bool :=
  available (describe_capabilities (cap_manifest (sv_capabilities (cs_source_version source)))).

Definition file_identity : Type := list Z * Z.
Definition dict_of {A} `{!EqDecision K} (l : list (K * A)) : list (K * A) := foldl (λ d kv, dict_set d kv.1 kv.2) [] l.
(** Equality of dicts does not depend on the order. *)
Definition dict_eqb (d d' : list (list Z * (list Z * Z))) : bool :=
  (len d =? len d') && forallb (λ kv, bool_decide (dict_get d' kv.1 = Some kv.2)) d.

Definition identity_of (c : FileChange) : list Z * (list Z * Z) := (fc_path c, (fc_sha256 c, fc_length c)).
(** [_ObservedFile] of a path and its bytes, as the upsert it becomes. *)
Definition observed_file (f : list Z * list Z) : FileChange := mkFileChange UPSERT f.1 (hexdigest f.2) (len f.2).

Definition is_kind (k : FileChangeKind) (c : FileChange) : bool := bool_decide (fc_kind c = k).
Definition active_entries (b : FileChangeBaseline) : list FileChange := filter (λ e, fc_kind e = UPSERT) (bl_entries b).
Definition deleted_entries (b : FileChangeBaseline) : list FileChange := filter (λ e, fc_kind e = DELETE) (bl_entries b).

(** [current == active and deleted.isdisjoint(current)] *)
Definition unchanged (b : FileChangeBaseline) (observed : list FileChange) : bool :=
  let current := dict_of (identity_of <$> observed) in
  dict_eqb current (dict_of (identity_of <$> active_entries b))
  && forallb (λ e, negb (bool_decide (fc_path e ∈ current.*1))) (deleted_entries b).

Definition _baseline_is_current_head (source : FileChangeSource) (b : FileChangeBaselineRef) : bool :=
  match cs_scan_head source with
  | None => false
  | Some h =>
      sh_complete h
      && bool_decide (sh_source_version_ref h = br_source_version_ref b)
      && bool_decide (sh_scan_ref h = br_scan_ref b)
      && bool_decide (sh_scan_epoch h = br_scan_epoch b)
      && bool_decide (sh_page_ref h = br_page_ref b)
      && bool_decide (sh_checkpoint_ref h = br_checkpoint_ref b)
      && (sh_sequence h =? br_sequence b)
  end.

(** [current.__contains__] of the second branch. *)
Definition removed (observed : list FileChange) (e : FileChange) : bool :=
  bool_decide (fc_kind e = UPSERT) && negb (bool_decide (fc_path e ∈ (dict_of (identity_of <$> observed)).*1)).
Definition deletion_of (e : FileChange) : FileChange := mkFileChange DELETE (fc_path e) (fc_sha256 e) (fc_length e).
Definition path_key (c : FileChange) : pybytes := utf8 (fc_path c).

Definition _changes (source : FileChangeSource) (observed : list FileChange) :
    list FileChange * option FileChangeBaselineRef :=
  match cs_complete_baseline source with
  | None => (sorted_by path_key observed, None)
  | Some b =>
      if unchanged b observed
      then (bl_entries b,
            if _baseline_is_current_head source (bl_reference b) then br_comparison (bl_reference b)
            else Some (bl_reference b))
      else (sorted_by path_key (observed ++ (deletion_of <$> filter (λ e, removed observed e = true) (bl_entries b))),
            Some (bl_reference b))
  end.

Definition scan_entry (deletes : bool) (c : FileChange) : json :=
  JObj ([(lit "contentLength", JInt (fc_length c)); (lit "contentSha256", JStr (fc_sha256 c))]
        ++ (if deletes then [(lit "kind", JStr (change_kind_value (fc_kind c)))] else [])
        ++ [(lit "path", JStr (fc_path c))]).
Definition scan_document (source : FileChangeSource) (observed : list FileChange)
    (baseline_ref : option FileChangeBaselineRef) (scan_bound : Z) : json :=
  let v := cs_source_version source in
  let deletes := is_delete_observation (sv_capabilities v) in
  JObj ([(lit "organizationId", juuid (cs_organization_id source)); (lit "sourceId", juuid (sv_source_ref v));
         (lit "sourceVersionId", juuid (sv_version_ref v)); (lit "scanBound", JInt scan_bound);
         (lit "entries", JArr (scan_entry deletes <$> observed))]
        ++ if deletes then [(lit "baseline", opt_json _baseline_reference_document baseline_ref)] else []).

Definition epoch_document (source : FileChangeSource) (scan_ref : pystr) : json :=
  let v := cs_source_version source in
  JObj [(lit "domain", JStr _SCAN_EPOCH_DOMAIN); (lit "organizationId", juuid (cs_organization_id source));
        (lit "predecessor",
         opt_json (λ h, JObj [(lit "checkpointRef", JStr (sh_checkpoint_ref h)); (lit "pageRef", JStr (sh_page_ref h));
                              (lit "scanEpoch", juuid (sh_scan_epoch h)); (lit "sequence", JInt (sh_sequence h))])
           (cs_scan_head source));
        (lit "scanRef", JStr scan_ref); (lit "sourceId", juuid (sv_source_ref v));
        (lit "sourceVersionId", juuid (sv_version_ref v)); (lit "version", JInt 1)].
(** [UUID(bytes=...)] *)
Definition uuid_of_bytes (b : pybytes) : UUID := mkUUID (foldl (λ a x, 256 * a + x) 0 b).

(** The head already holds this scan. *)
Definition same_scan (source : FileChangeSource) (scan_ref : pystr) : option FileChangeScanHead :=
  match cs_scan_head source with
  | Some h =>
      if bool_decide (sh_source_version_ref h = sv_version_ref (cs_source_version source))
         && bool_decide (sh_scan_ref h = scan_ref) then Some h else None
  | None => None
  end.

Section Provider.
Context {nesting : NestingLimit}.
Context (canon : json → result pybytes).
Context (provider_sign : pybytes → pybytes) (provider_verify : pybytes → pybytes → bool).
Context (checkpoint_sign : pybytes → pybytes) (checkpoint_verify : pybytes → pybytes → bool).

Definition _scan_ref (source : FileChangeSource) (observed : list FileChange) (baseline_ref : option FileChangeBaselineRef)
    (scan_bound : Z) : result pystr :=
  b ← canon (scan_document source observed baseline_ref scan_bound); Ok (hexdigest (_SCAN_DOMAIN ++ b)).

Definition _scan_epoch (source : FileChangeSource) (scan_ref : pystr) : result (UUID * option UUID) :=
  match same_scan source scan_ref with
  | Some h => Ok (sh_scan_epoch h, sh_superseded_scan_epoch h)
  | None =>
      b ← canon (epoch_document source scan_ref);
      Ok (uuid_of_bytes (take 16 (sha256 b)), sh_scan_epoch <$> cs_scan_head source)
  end.

Definition cursor_document (source : FileChangeSource) (scan_ref : pystr) (scan_epoch : UUID) (offset limit bound : Z) : json :=
  let v := cs_source_version source in
  JObj [(lit "domain", JStr _CURSOR_DOMAIN); (lit "limit", JInt limit); (lit "offset", JInt offset);
        (lit "organizationId", juuid (cs_organization_id source)); (lit "scanEpoch", juuid scan_epoch);
        (lit "scanRef", JStr scan_ref); (lit "scanBound", JInt bound); (lit "sourceId", juuid (sv_source_ref v));
        (lit "sourceVersionId", juuid (sv_version_ref v)); (lit "version", JInt 1)].
Definition dotted (payload signature : pybytes) : pystr :=
  encode_base64url payload ++ [46] ++ encode_base64url signature.
Definition _encode_cursor (source : FileChangeSource) (scan_ref : pystr) (scan_epoch : UUID) (offset limit bound : Z) :
    result PendingChangeCursor :=
  payload ← canon (cursor_document source scan_ref scan_epoch offset limit bound);
  new_PendingChangeCursor (dotted payload (provider_sign payload)).

Definition pending_keys : list string :=
  ["domain"; "limit"; "offset"; "organizationId"; "scanEpoch"; "scanRef"; "scanBound"; "sourceId"; "sourceVersionId";
   "version"]%string.
Definition pending_claims (value : pystr) : result (list (list Z * json)) :=
  match split_dot value with
  | [encoded_payload; encoded_signature] =>
      payload ← decode_base64url encoded_payload;
      signature ← decode_base64url encoded_signature;
      require (bool_decide (signature = provider_sign payload)) ValueError ;;
      document ← loads json_dict payload;
      match document with
      | JObj d =>
          canonical ← canon document;
          require (bool_decide (canonical = payload) && same_keys d pending_keys) ValueError ;;
          Ok d
      | _ => Err ValueError
      end
  | _ => Err ValueError
  end.
Definition _decode_cursor (cursor : PendingChangeCursor) : result (option (list (list Z * json))) :=
  none_on_error (pending_claims (pending_value cursor)).

(** [_cursor_matches], with the offset it admits. *)
Definition _cursor_matches (d : list (list Z * json)) (source : FileChangeSource) (scan_ref : pystr) (scan_epoch : UUID)
    (limit observed_count scan_bound : Z) : option Z :=
  let v := cs_source_version source in
  let get k := dict_get d (lit k) in
  match get "offset"%string with
  | Some (JInt offset) =>
      if json_eq_str (get "domain"%string) _CURSOR_DOMAIN
         && json_eq_int (get "version"%string) 1
         && json_eq_str (get "organizationId"%string) (uuid_str (cs_organization_id source))
         && json_eq_str (get "sourceId"%string) (uuid_str (sv_source_ref v))
         && json_eq_str (get "sourceVersionId"%string) (uuid_str (sv_version_ref v))
         && json_eq_str (get "scanRef"%string) scan_ref
         && json_eq_int (get "scanBound"%string) scan_bound
         && json_eq_str (get "scanEpoch"%string) (uuid_str scan_epoch)
         && json_eq_int (get "limit"%string) limit
         && (1 <=? offset) && (offset <? observed_count)
      then Some offset else None
  | _ => None
  end.

(** Where a page starts and what it follows. *)
Record page_start := mkPageStart {
  ps_offset : Z;
  ps_predecessor : option (pystr * pystr * Z);
  ps_scan_epoch : UUID;
  ps_superseded : option UUID
}.

(** The [ChangeCursor] branch; [None] is [ProviderInvalidCheckpoint]. *)
Definition continue_scan (source : FileChangeSource) (cursor : ChangeCursor) (scan_ref : pystr)
    (limit observed_count scan_bound : Z) : result (option page_start) :=
  accepted ← _unwrap_cursor canon checkpoint_verify cursor;
  match accepted, cs_scan_head source with
  | Some a, Some h =>
      if bool_decide (sh_source_version_ref h = sv_version_ref (cs_source_version source))
         && bool_decide (sh_scan_ref h = ac_scan_ref a)
         && bool_decide (sh_scan_epoch h = ac_scan_epoch a)
         && (ac_sequence a <=? sh_sequence h)
      then
        claims ← _decode_cursor (ac_pending_cursor a);
        match claims with
        | None => Ok None
        | Some d =>
            match _cursor_matches d source scan_ref (ac_scan_epoch a) limit observed_count scan_bound with
            | None => Ok None
            | Some offset =>
                Ok (Some (mkPageStart offset (Some (ac_page_ref a, ac_checkpoint_ref a, ac_sequence a)) (ac_scan_epoch a) None))
            end
        end
      else Ok None
  | _, _ => Ok None
  end.

Definition start_of (source : FileChangeSource) (cursor : scan_cursor) (scan_ref : pystr) (limit observed_count scan_bound : Z) :
    result (option page_start) :=
  epochs ← _scan_epoch source scan_ref;
  match cursor with
  | InitialScan => Ok (Some (mkPageStart 0 None epochs.1 epochs.2))
  | Continue c => continue_scan source c scan_ref limit observed_count scan_bound
  end.

Definition own_change (source : FileChangeSource) (scan_ref : pystr) (c : FileChange) : SourceChange :=
  let v := cs_source_version source in
  mkSourceChange (cs_organization_id source) (sv_source_ref v) (sv_version_ref v) scan_ref c.
Definition new_SourceChange (c : SourceChange) : result SourceChange := check_source_change c ;; Ok c.

Definition unsigned_page (source : FileChangeSource) (scan_ref : pystr) (limit bound : Z) (start : page_start)
    (baseline_ref : option FileChangeBaselineRef) (changes : list SourceChange) (next : option PendingChangeCursor)
    (complete : bool) (proof : pystr) : ChangePage :=
  let v := cs_source_version source in
  mkChangePage (cs_organization_id source) (sv_source_ref v) (sv_version_ref v) scan_ref (ps_scan_epoch start) limit
    (fst ∘ fst <$> ps_predecessor start) (snd ∘ fst <$> ps_predecessor start) (snd <$> ps_predecessor start)
    (ps_superseded start) changes next complete proof baseline_ref (declaration_version (cap_manifest (sv_capabilities v)))
    bound.

(** The page of the changes from [start] on; [replace] runs the checks again. *)
Definition build_page (source : FileChangeSource) (changes : list FileChange) (baseline_ref : option FileChangeBaselineRef)
    (scan_ref : pystr) (limit bound : Z) (start : page_start) : result ChangePage :=
  let selected := take (Z.to_nat limit) (drop (Z.to_nat (ps_offset start)) changes) in
  let next_offset := ps_offset start + len selected in
  let complete := next_offset =? len changes in
  next ← (if complete then Ok None
          else c ← _encode_cursor source scan_ref (ps_scan_epoch start) next_offset limit bound; Ok (Some c));
  sources ← map_result (λ c, new_SourceChange (own_change source scan_ref c)) selected;
  let page proof := unsigned_page source scan_ref limit bound start baseline_ref sources next complete proof in
  let unsigned := page (replicate 86 65) in
  check_change_page unsigned ;;
  proof ← _seal_page canon provider_sign unsigned;
  check_change_page (page proof) ;; Ok (page proof).

Definition read_changes (registry : FileRootRegistry) (source : FileChangeSource) (cursor : scan_cursor) (limit : Z) :
    result provider_outcome :=
  let capabilities := cap_manifest (sv_capabilities (cs_source_version source)) in
  let bound := max_baseline_entries registry in
  if negb ((bool_decide (capabilities = FILE_CHANGE_CAPABILITY_MANIFEST)
            || bool_decide (capabilities = FILE_DELETE_OBSERVATION_CAPABILITY_MANIFEST))
           && available (read_changes_status capabilities))
  then Ok ProviderUnsupported
  else
    match curated_subtree_prefix registry with
    | Err _ => Ok ProviderGenericDenied
    | Ok prefix =>
        if match prefix, cs_complete_baseline source with
           | Some q, Some b => existsb (λ e, is_kind UPSERT e && negb (startswith q (fc_path e))) (bl_entries b)
           | _, _ => false end
        then Ok ProviderGenericDenied
        else
          match observe_markdown_files registry with
          | FileScanBoundExceeded => Ok (ProviderScanBoundExceeded bound)
          | RootMissing => Ok ProviderGenericDenied
          | Unstable => Ok ProviderRetryableUnavailable
          | Observed files =>
              let observed := observed_file <$> sorted_by (λ f, utf8 f.1) files in
              let '(changes, baseline_ref) := _changes source observed in
              if bound <? len changes then Ok (ProviderScanBoundExceeded bound)
              else
                scan_ref ← _scan_ref source changes baseline_ref bound;
                let requested :=
                  match cursor with
                  | InitialScan => from_option sh_page_limit limit (same_scan source scan_ref)
                  | Continue _ => limit
                  end in
                start ← start_of source cursor scan_ref requested (len changes) bound;
                match start with
                | None => Ok ProviderInvalidCheckpoint
                | Some st =>
                    page ← build_page source changes baseline_ref scan_ref requested bound st;
                    Ok (ProviderOk page)
                end
          end
    end.

(** ** Acceptance: [PostgreSQLControlStore.accept_file_change_page] after its statement *)

(** The row the accepting statement returned. *)
Record accepted_row := mkAcceptedRow {
  row_source_id : UUID;
  row_source_version_id : UUID;
  row_page_limit : Z;
  row_superseded_scan_epoch : option UUID;
  row_page_ref : pystr;
  row_checkpoint_ref : pystr;
  row_sequence : Z;
  row_change_count : Z;
  row_complete : bool;
  row_accepted_at : datetime;
  row_scan_bound : Z
}.
Definition accepted_page (organization_id : UUID) (value : ChangePage) (bounded_delete_observations : bool)
    (row : accepted_row) : result AcceptedChangePage :=
  next ← match cp_next_cursor value with
         | None => Ok None
         | Some pending =>
             payload ← _accepted_cursor_payload canon organization_id (row_source_id row) (row_source_version_id row)
                         (cp_scan_ref value) (cp_scan_epoch value) (row_page_ref row) (row_checkpoint_ref row)
                         (row_sequence row) pending;
             c ← new_ChangeCursor (dotted payload (checkpoint_sign payload)); Ok (Some c)
         end;
  let a := mkAcceptedPage (row_source_id row) (row_source_version_id row) (cp_scan_ref value) (cp_scan_epoch value)
             (row_page_limit row) (row_superseded_scan_epoch row) (row_page_ref row) (row_checkpoint_ref row)
             (row_sequence row) (row_change_count row) (row_complete row) next (row_accepted_at row)
             (if bounded_delete_observations then row_scan_bound row else cp_scan_bound value) in
  check_accepted_page a ;; Ok a.
End Provider.
