(* ===== verification/FileFacts.v ===== *)
(** * Pages, cursors and scans

    Signed tokens round trip; the changes of a scan describe exactly the difference
    between the baseline and the observed files; a scan served page by page delivers
    each change once, in order, and ends. *)

From S2P Require Import Prelude Codec Sha256 Datetime Json Trusted Signing TicketIdentity ReleaseFacts Canonical ArticlePolicy BulkPolicy FileChanges FileProvider.
Import Opaque.

(** ** Documents that are read back *)

Lemma dict_of_nodup {K A} `{!EqDecision K} (l : list (K * A)) : NoDup l.*1 → dict_of l = l.
Proof.
  unfold dict_of. intros Hnd.
  enough (H : ∀ d : list (K * A), NoDup (d ++ l).*1 → foldl (λ d kv, dict_set d kv.1 kv.2) d l = d ++ l) by (apply (H []), Hnd).
  clear Hnd. induction l as [|[k v] l IH]; intros d Hnd; cbn [foldl fst snd]; [by rewrite app_nil_r|].
  rewrite dict_set_new.
  - rewrite IH; rewrite <- app_assoc; done.
  - rewrite fmap_app, fmap_cons in Hnd. apply NoDup_app in Hnd as (_ & Hd & _). intros Hk. apply (Hd k Hk). by left.
Qed.

Lemma json_dict_nodup l : NoDup l.*1 → json_dict l = Ok l.
Proof. intros H. unfold json_dict. by rewrite (dict_of_nodup l H : foldl _ _ _ = l). Qed.

Lemma plain_sort_keys v : plain v = true → plain (sort_keys v) = true.
Proof.
  induction v as [|b|z|x|s|l IH|kvs IH] using json_nested_ind; intros H; try done.
  - cbn [plain sort_keys] in *. rewrite !forallb_forall in *. intros y Hy%list_elem_of_In.
    apply list_elem_of_fmap in Hy as (v & -> & Hv). rewrite Forall_forall in IH. by apply IH, H, list_elem_of_In.
  - cbn [plain sort_keys] in *. apply andb_true_iff in H as [Hn H]. apply andb_true_iff. split.
    + apply bool_decide_eq_true in Hn. apply bool_decide_eq_true. rewrite sorted_by_perm, <- list_fmap_compose. done.
    + rewrite !forallb_forall in *. intros kv Hkv%list_elem_of_In. rewrite elem_of_sorted_by in Hkv.
      apply list_elem_of_fmap in Hkv as ([k v] & -> & Hv). rewrite Forall_forall in IH. cbn [fst snd].
      pose proof (H _ (proj1 (list_elem_of_In _ _) Hv)) as Hx. cbn [fst snd] in Hx. run_ok.
      apply andb_true_iff. split; [done|]. by apply (IH _ Hv).
Qed.

Section Tokens.
Context {nesting : NestingLimit}.
Context (canon : json → result pybytes) `{!Rfc8785 canon}.

Lemma plain_document d :
  plain (JObj d) = true → nests document_depth (JObj d) = true →
  ∃ b, canon (JObj d) = Ok b ∧ Forall byte_ok b ∧ text_low (JObj d) ≤ len b ≤ text_size (JObj d)
    ∧ loads json_dict b = Ok (JObj (in_key_order d)) ∧ canon (JObj (in_key_order d)) = Ok b.
Proof.
  intros Hp Hn. destruct (dumps_wf (JObj d)) as [b Hb]; [by apply plain_wf|]. exists b.
  assert (Hok : json_ok (JObj d) = true) by by apply wf_json_ok, plain_wf.
  split_and!; [by rewrite rfc_plain|by eapply printable_byte_ok, dumps_printable|by apply plain_low
    |by apply plain_size| |].
  - by apply (loads_dumps json_dict no_float json_dict_nodup (JObj d)); [|apply nests_room|].
  - change (JObj (in_key_order d)) with (sort_keys (JObj d)).
    rewrite rfc_plain by (by apply plain_sort_keys || by apply nests_sort_keys). by apply dumps_sort_keys.
Qed.
End Tokens.

(** ** Opaque tokens *)

Lemma encode_size b : 4 * len b ≤ 3 * len (encode_base64url b) ≤ 4 * len b + 2.
Proof.
  revert b. fix IH 1. intros [|x [|y [|z r]]]; [split; cbv; discriminate| | |]; cbn [encode_base64url]; rewrite ?len_cons, ?len_nil; [clear IH; lia..|].
  specialize (IH r). lia.
Qed.

Lemma filter_absent c (l : list Z) : c ∉ l → filter (λ x, x = c) l = [].
Proof.
  intros Hc. induction l as [|x l IH]; [done|]. rewrite not_elem_of_cons in Hc. rewrite filter_cons_False by naive_solver.
  apply IH. tauto.
Qed.

Lemma alphabet_chars s : all_in alphabet s = true → existsb is_space s = false ∧ 46 ∉ s.
Proof.
  unfold all_in. rewrite forallb_forall. intros H. split.
  - destruct (existsb is_space s) eqn:E; [|done]. apply existsb_exists in E as (c & Hc & Hs).
    apply H, mem_spec in Hc. exfalso.
    assert (F : Forall (λ c, is_space c = false) alphabet) by (repeat (constructor; [done|]); constructor).
    rewrite Forall_forall in F. rewrite (F c Hc) in Hs. done.
  - intros Hc%list_elem_of_In%H%mem_spec. apply (bool_decide_unpack (46 ∉ alphabet)) in Hc; done.
Qed.

Lemma strip_no_space s : existsb is_space s = false → strip s = s.
Proof.
  intros H. unfold strip.
  assert (Hl : ∀ t, existsb is_space t = false → lstrip t = t).
  { intros [|c t] Ht; [done|]. cbn [existsb lstrip] in *. by apply orb_false_iff in Ht as [-> _]. }
  rewrite (Hl s H), Hl; [by rewrite reverse_involutive|].
  destruct (existsb is_space (reverse s)) eqn:E; [|done]. apply existsb_exists in E as (c & Hc & Hs).
  assert (existsb is_space s = true); [|congruence]. apply existsb_exists. exists c. split; [|done].
  apply list_elem_of_In. apply list_elem_of_In in Hc. by rewrite elem_of_reverse in Hc.
Qed.

Lemma dotted_token lo hi p s :
  Forall byte_ok p → Forall byte_ok s → lo ≤ len (dotted p s) ≤ hi → opaque_token lo hi (dotted p s) = Ok tt.
Proof.
  intros Hp Hs Hl. destruct (alphabet_chars _ (encode_all_in p Hp)) as [Hps Hpd].
  destruct (alphabet_chars _ (encode_all_in s Hs)) as [Hss Hsd]. unfold opaque_token.
  assert (Hsp : existsb is_space (dotted p s) = false).
  { unfold dotted. rewrite !existsb_app, Hps, Hss. done. }
  rewrite strip_no_space, Hsp, bool_decide_eq_true_2 by done.
  assert (Hf : filter (λ c, c = 46) (dotted p s) = [46]).
  { unfold dotted. by rewrite !filter_app, (filter_absent _ _ Hpd), (filter_absent _ _ Hsd). }
  rewrite Hf. rewrite !(proj2 (Z.leb_le _ _)) by lia. done.
Qed.

Lemma split_dotted p s : Forall byte_ok p → Forall byte_ok s → split_dot (dotted p s) = [encode_base64url p; encode_base64url s].
Proof.
  intros Hp Hs. unfold dotted. cbn [app]. rewrite split_dot_app by by apply alphabet_chars, encode_all_in.
  by rewrite split_dot_none by by apply alphabet_chars, encode_all_in.
Qed.

(** ** Signatures *)

(** Ed25519: 64 bytes, and the public key accepts what the private key signed. *)
Class Ed25519 (sign : pybytes → pybytes) (verify : pybytes → pybytes → bool) := {
  signature_bytes : ∀ p, Forall byte_ok (sign p);
  signature_size : ∀ p, len (sign p) = 64;
  signature_verifies : ∀ p, verify (sign p) p = true
}.

Lemma nonempty_of_len {A} (l : list A) n : 0 < n → len l = n → l ≠ [].
Proof. intros Hn Hl ->. rewrite len_nil in Hl. lia. Qed.

(** ** Plain texts *)

Lemma simple_app s t : simple (s ++ t) = simple s && simple t.
Proof. unfold simple. apply forallb_app. Qed.
Lemma simple_all_in a s : simple a = true → all_in a s = true → simple s = true.
Proof.
  unfold simple, all_in. rewrite !forallb_forall. intros Ha H c Hc%H%mem_spec. by apply Ha, list_elem_of_In.
Qed.
Lemma simple_hex s : all_in hex_alphabet s = true → simple s = true.
Proof. by apply simple_all_in. Qed.
Lemma sha256_hex_simple s : is_sha256_hex s = true → simple s = true ∧ len s = 64.
Proof. unfold is_sha256_hex. intros H. run_ok. split; [by apply simple_hex|lia]. Qed.
Lemma base64_simple b : Forall byte_ok b → simple (encode_base64url b) = true.
Proof. intros H. by apply (simple_all_in alphabet), encode_all_in. Qed.
Lemma dotted_simple p s : Forall byte_ok p → Forall byte_ok s → simple (dotted p s) = true.
Proof. intros Hp Hs. unfold dotted. by rewrite !simple_app, !base64_simple. Qed.
Lemma dotted_size p s : len (dotted p s) = len (encode_base64url p) + 1 + len (encode_base64url s).
Proof. unfold dotted. rewrite !len_app. change (len [46]) with 1. lia. Qed.
Lemma checkpoint_simple s : _require_checkpoint_ref s = Ok tt → simple s = true ∧ len s = 69.
Proof.
  unfold _require_checkpoint_ref. intros H. run_ok. split; [|lia].
  rewrite <- (take_drop 5 s), simple_app, (simple_hex (drop 5 s)), andb_true_r by done.
  do 5 (destruct s as [|? s]; [done|]). cbn [startswith lit] in *. run_ok.
  repeat match goal with H : _ =? _ = true |- _ => apply Z.eqb_eq in H as <- end. done.
Qed.
Lemma simple_Forall s : simple s = true ↔ Forall (λ c, simple_char c = true) s.
Proof. unfold simple. rewrite forallb_forall, Forall_forall. by setoid_rewrite list_elem_of_In. Qed.
Lemma uuid_simple u : simple (uuid_str u) = true ∧ len (uuid_str u) = 36.
Proof.
  split.
  - apply simple_Forall. unfold uuid_str, dashed.
    assert (Hh : Forall (λ c, simple_char c = true) (hex (uuid_bytes u))).
    { unfold hex. apply Forall_bind. eapply Forall_impl; [apply uuid_bytes_ok|]. intros b Hb.
      unfold byte_ok, compose, hex_byte in *. repeat apply Forall_cons_2; try apply Forall_nil_2;
        unfold hex_digit, simple_char; case_match; zdiv. }
    rewrite !Forall_app. split_and!; repeat first [apply Forall_take|apply Forall_drop|exact Hh|by repeat constructor].
  - pose proof (length_uuid_hex u) as H. unfold uuid_str, dashed. revert H.
    generalize (hex (uuid_bytes u)). intros h H. do 32 (destruct h as [|? h]; [done|]). by destruct h.
Qed.

(** ** Cursors are read back *)

Lemma uuid_plain u : simple (uuid_str u) = true.
Proof. apply uuid_simple. Qed.
Lemma uuid_size u : len (uuid_str u) = 36.
Proof. apply uuid_simple. Qed.

Ltac lit_lengths :=
  repeat match goal with |- context [len (lit ?x)] => let n := eval vm_compute in (len (lit x)) in change (len (lit x)) with n end.
Ltac text_bounds :=
  unfold juuid; cbn [text_size text_low fmap list_fmap sum foldr fst snd]; rewrite ?uuid_size; lit_lengths.
(** A literal document: distinct keys, each entry plain. *)
Ltac plain_doc :=
  unfold juuid; cbn [plain forallb fst snd]; rewrite ?uuid_plain; repeat (apply andb_true_iff; split); try done;
  try (apply bool_decide_unpack; by vm_compute).

Section Cursors.
Context {nesting : NestingLimit}.
Context (canon : json → result pybytes) `{!Rfc8785 canon}.
Context (provider_sign : pybytes → pybytes) (provider_verify : pybytes → pybytes → bool) `{!Ed25519 provider_sign provider_verify}.
Context (checkpoint_sign : pybytes → pybytes) (checkpoint_verify : pybytes → pybytes → bool).
Context `{!Ed25519 checkpoint_sign checkpoint_verify}.

(** The values a cursor carries. *)
Record cursor_values (scan_ref : pystr) (offset limit bound : Z) : Prop := {
  cv_scan_ref : is_sha256_hex scan_ref = true;
  cv_offset : 0 ≤ offset ≤ MAX_CONFIGURED_FILE_CHANGE_BASELINE_SIZE;
  cv_limit : 1 ≤ limit ≤ MAX_FILE_CHANGE_PAGE_SIZE;
  cv_bound : 1 ≤ bound ≤ MAX_CONFIGURED_FILE_CHANGE_BASELINE_SIZE
}.

Lemma encode_cursor_Ok source scan_ref epoch offset limit bound :
  cursor_values scan_ref offset limit bound →
  ∃ c d, _encode_cursor canon provider_sign source scan_ref epoch offset limit bound = Ok c
    ∧ simple (pending_value c) = true
    ∧ new_PendingChangeCursor (pending_value c) = Ok c
    ∧ _decode_cursor canon provider_sign c = Ok (Some d)
    ∧ ∀ observed, 1 ≤ offset < observed →
        _cursor_matches d source scan_ref epoch limit observed bound = Some offset.
Proof.
  intros [Hs Ho Hl Hb]. apply sha256_hex_simple in Hs as [Hs Hlen].
  unfold MAX_CONFIGURED_FILE_CHANGE_BASELINE_SIZE, MAX_FILE_CHANGE_PAGE_SIZE in *.
  unfold _encode_cursor, cursor_document. set (d := [_; _; _; _; _; _; _; _; _; _]).
  assert (Hp : plain (JObj d) = true).
  { unfold d. plain_doc. all: unfold safe_int; apply Z.ltb_lt; lia. }
  destruct (plain_document canon d Hp eq_refl) as (b & Hcan & Hbytes & Hsize & Hloads & Hagain).
  assert (Hub : text_size (JObj d) ≤ 1500) by (unfold d, _CURSOR_DOMAIN; text_bounds; rewrite Hlen; lia).
  pose proof (signature_bytes (sign := provider_sign) (verify := provider_verify) b) as Hsb.
  pose proof (signature_size (sign := provider_sign) (verify := provider_verify) b) as Hss.
  pose proof (len_nonneg b) as Hb0. pose proof (encode_size b) as He. pose proof (encode_size (provider_sign b)) as Hes.
  assert (Htok : opaque_token 64 8192 (dotted b (provider_sign b)) = Ok tt).
  { apply dotted_token; [done|done|]. rewrite dotted_size. lia. }
  assert (Hnb : b ≠ []).
  { intros ->. cbn in Hloads. discriminate. }
  exists (mkPendingCursor (dotted b (provider_sign b))), (in_key_order d). cbn [pending_value].
  rewrite Hcan. cbn [mbind result_bind]. unfold new_PendingChangeCursor. rewrite Htok. cbn [mbind result_bind].
  split_and!; [done|by apply dotted_simple|done| |].
  - unfold _decode_cursor, pending_claims. cbn [pending_value]. rewrite split_dotted by done.
    rewrite !decode_encode by (done || by eapply nonempty_of_len, Hss). cbn [mbind result_bind].
    rewrite bool_decide_eq_true_2 by done. cbn [mbind result_bind require]. rewrite Hloads. cbn [mbind result_bind].
    rewrite Hagain. cbn [mbind result_bind]. rewrite bool_decide_eq_true_2 by done.
    assert (same_keys (in_key_order d) pending_keys = true) as ->.
    { unfold same_keys. apply bool_decide_eq_true. apply sorted_perm_eq. rewrite keys_in_order. unfold d, pending_keys. reflexivity. }
    done.
  - intros observed Hobs. unfold _cursor_matches.
    assert (Hnd : NoDup d.*1).
    { cbn [plain] in Hp. apply andb_true_iff in Hp as [Hnd%bool_decide_eq_true _]. done. }
    rewrite !(get_in_order d) by done.
    change (dict_get d (lit "offset")) with (Some (JInt offset)). change (dict_get d (lit "domain")) with (Some (JStr _CURSOR_DOMAIN)).
    change (dict_get d (lit "version")) with (Some (JInt 1)).
    change (dict_get d (lit "organizationId")) with (Some (juuid (cs_organization_id source))).
    change (dict_get d (lit "sourceId")) with (Some (juuid (sv_source_ref (cs_source_version source)))).
    change (dict_get d (lit "sourceVersionId")) with (Some (juuid (sv_version_ref (cs_source_version source)))).
    change (dict_get d (lit "scanRef")) with (Some (JStr scan_ref)). change (dict_get d (lit "scanBound")) with (Some (JInt bound)).
    change (dict_get d (lit "scanEpoch")) with (Some (juuid epoch)). change (dict_get d (lit "limit")) with (Some (JInt limit)).
    unfold juuid. cbn [fmap option_fmap option_map sort_keys json_eq_str json_eq_int].
    rewrite !bool_decide_eq_true_2, !Z.eqb_refl by done. cbn [andb].
    by rewrite (proj2 (Z.leb_le 1 offset)), (proj2 (Z.ltb_lt offset observed)) by lia.
Qed.

Lemma accepted_cursor_Ok org src ver scan_ref epoch page_ref cp seq pending :
  uuid_ok org → uuid_ok src → uuid_ok ver → uuid_ok epoch →
  is_sha256_hex scan_ref = true → is_sha256_hex page_ref = true → _require_checkpoint_ref cp = Ok tt →
  1 ≤ seq < 2 ^ 53 → simple (pending_value pending) = true → new_PendingChangeCursor (pending_value pending) = Ok pending →
  ∃ payload c, _accepted_cursor_payload canon org src ver scan_ref epoch page_ref cp seq pending = Ok payload
    ∧ new_ChangeCursor (dotted payload (checkpoint_sign payload)) = Ok c
    ∧ _unwrap_cursor canon checkpoint_verify c = Ok (Some (mkAcceptedClaims pending scan_ref page_ref cp seq epoch)).
Proof.
  intros Ho Hsrc Hv He Hs Hpr Hcp Hseq Hpend Hnew.
  unfold _accepted_cursor_payload, require_sha256, require_sequence. rewrite Hs, Hpr, Hcp. cbn [mbind result_bind require].
  rewrite (proj2 (Z.leb_le 1 seq)), (proj2 (Z.leb_le seq _)) by lia. cbn [mbind result_bind require andb].
  apply sha256_hex_simple in Hs as Hs'. apply sha256_hex_simple in Hpr as Hpr'. apply checkpoint_simple in Hcp as Hcp'.
  unfold accepted_cursor_document. set (d := [_; _; _; _; _; _; _; _; _; _; _]).
  assert (Hp : plain (JObj d) = true).
  { unfold d. plain_doc; try (unfold safe_int; apply Z.ltb_lt; lia); tauto. }
  destruct (plain_document canon d Hp eq_refl) as (b & Hcan & Hbytes & Hsize & Hloads & Hagain).
  assert (Hpl : 64 ≤ len (pending_value pending) ≤ 8192).
  { unfold new_PendingChangeCursor, opaque_token in Hnew. run_ok. lia. }
  assert (Hub : text_size (JObj d) ≤ 10000) by (unfold d, _CHECKPOINT_CURSOR_DOMAIN; text_bounds; lia).
  assert (Hlb : 100 ≤ text_low (JObj d)) by (unfold d, _CHECKPOINT_CURSOR_DOMAIN; text_bounds; lia).
  pose proof (signature_bytes (sign := checkpoint_sign) (verify := checkpoint_verify) b) as Hsb.
  pose proof (signature_size (sign := checkpoint_sign) (verify := checkpoint_verify) b) as Hss.
  pose proof (signature_verifies (sign := checkpoint_sign) (verify := checkpoint_verify) b) as Hver.
  pose proof (encode_size b) as Heb. pose proof (encode_size (checkpoint_sign b)) as Hes.
  assert (Htok : opaque_token 128 16384 (dotted b (checkpoint_sign b)) = Ok tt).
  { apply dotted_token; [done|done|]. rewrite dotted_size. lia. }
  assert (Hnb : b ≠ []).
  { intros ->. rewrite len_nil in Hsize. lia. }
  exists b, (mkChangeCursor (dotted b (checkpoint_sign b))). rewrite Hcan. split; [done|].
  unfold new_ChangeCursor. rewrite Htok. split; [done|].
  unfold _unwrap_cursor, unwrap_claims. cbn [cursor_value]. rewrite split_dotted by done.
  rewrite !decode_encode by (done || by eapply nonempty_of_len, Hss). cbn [mbind result_bind].
  rewrite Hver. cbn [mbind result_bind require]. rewrite Hloads. cbn [mbind result_bind].
  rewrite Hagain. cbn [mbind result_bind].
  assert (same_keys (in_key_order d) cursor_keys = true) as ->.
  { unfold same_keys. apply bool_decide_eq_true. apply sorted_perm_eq. rewrite keys_in_order. unfold d, cursor_keys. reflexivity. }
  assert (Hnd : NoDup d.*1).
  { cbn [plain] in Hp. apply andb_true_iff in Hp as [Hnd%bool_decide_eq_true _]. done. }
  assert (Hget : ∀ k v, dict_get d (lit k) = Some v → dict_get (in_key_order d) (lit k) = Some (sort_keys v)).
  { intros k v Hk. by rewrite get_in_order, Hk. }
  pose proof (Hget "domain"%string _ eq_refl) as G1. pose proof (Hget "version"%string _ eq_refl) as G2.
  pose proof (Hget "scanEpoch"%string _ eq_refl) as G3. pose proof (Hget "pageRef"%string _ eq_refl) as G4.
  pose proof (Hget "scanRef"%string _ eq_refl) as G5. pose proof (Hget "checkpointRef"%string _ eq_refl) as G6.
  pose proof (Hget "sequence"%string _ eq_refl) as G7. pose proof (Hget "organizationId"%string _ eq_refl) as G8.
  pose proof (Hget "sourceId"%string _ eq_refl) as G9. pose proof (Hget "sourceVersionId"%string _ eq_refl) as G10.
  pose proof (Hget "pendingCursor"%string _ eq_refl) as G11.
  clear Hget Hagain Hloads Hcan Hub Hlb Hp Hnd. generalize dependent (in_key_order d). intros e G1 G2 G3 G4 G5 G6 G7 G8 G9 G10 G11.
  cbn [each]. rewrite G1, G2, G3, G4, G5, G6, G7, G8, G9, G10, G11.
  unfold juuid. cbn [fmap option_fmap option_map sort_keys json_eq_str json_eq_int json_text mbind result_bind].
  rewrite !bool_decide_eq_true_2 by done. cbn [andb Z.eqb Pos.eqb mbind result_bind require].
  rewrite !parse_uuid_text by done. cbn [mbind result_bind]. unfold require_sha256, require_sequence. rewrite Hpr. cbn [mbind result_bind require]. rewrite Hs.
  cbn [mbind result_bind require]. rewrite Hcp. cbn [mbind result_bind].
  rewrite (proj2 (Z.leb_le 1 seq)), (proj2 (Z.leb_le seq _)) by lia. cbn [mbind result_bind require andb].
  by rewrite Hnew.
Qed.
End Cursors.

(** ** The changes of a scan *)

(** The files a list of changes leaves, and the files a baseline or an observation has. *)
Abbreviation files := (gmap (list Z) (list Z * Z)).
Definition apply_change (m : files) (c : FileChange) : files :=
  match fc_kind c with UPSERT => <[fc_path c := (fc_sha256 c, fc_length c)]> m | DELETE => delete (fc_path c) m end.
Definition apply_changes : files → list FileChange → files := foldl apply_change.
Definition files_of (l : list FileChange) : files := list_to_map (identity_of <$> l).
Definition baseline_files (source : FileChangeSource) : files :=
  match cs_complete_baseline source with None => ∅ | Some b => files_of (active_entries b) end.

Lemma apply_absent cs m p : p ∉ fc_path <$> cs → apply_changes m cs !! p = m !! p.
Proof.
  revert m. induction cs as [|c cs IH]; intros m Hp; [done|]. rewrite fmap_cons, not_elem_of_cons in Hp. cbn [apply_changes foldl].
  fold (apply_changes (apply_change m c) cs). rewrite IH by tauto. unfold apply_change.
  destruct (fc_kind c); [by rewrite lookup_insert_ne by naive_solver|by rewrite lookup_delete_ne by naive_solver].
Qed.

Lemma apply_present cs m c :
  NoDup (fc_path <$> cs) → c ∈ cs →
  apply_changes m cs !! fc_path c = match fc_kind c with UPSERT => Some (fc_sha256 c, fc_length c) | DELETE => None end.
Proof.
  revert m. induction cs as [|c' cs IH]; intros m Hnd Hc; [by apply elem_of_nil in Hc|].
  rewrite fmap_cons in Hnd. apply NoDup_cons in Hnd as [Hp Hnd]. cbn [apply_changes foldl].
  fold (apply_changes (apply_change m c') cs). apply elem_of_cons in Hc as [->|Hc]; [|by apply IH].
  rewrite apply_absent by done. unfold apply_change. destruct (fc_kind c'); [by rewrite lookup_insert_eq|by rewrite lookup_delete_eq].
Qed.

Lemma identity_paths l : (identity_of <$> l).*1 = fc_path <$> l.
Proof. by rewrite <- list_fmap_compose. Qed.

Lemma dict_eqb_perm d d' : NoDup d.*1 → NoDup d'.*1 → dict_eqb d d' = true → d ≡ₚ d'.
Proof.
  intros Hd Hd' H. unfold dict_eqb in H. apply andb_true_iff in H as [Hl H]. rewrite forallb_forall in H.
  apply submseteq_length_Permutation; [|unfold len in Hl; lia].
  apply NoDup_submseteq; [by eapply NoDup_fmap_1|]. intros [k v] Hkv%list_elem_of_In.
  apply H in Hkv. apply bool_decide_eq_true in Hkv. by apply dict_get_Some.
Qed.

Lemma elem_of_files l p x : NoDup (fc_path <$> l) → files_of l !! p = Some x ↔ ∃ c, c ∈ l ∧ identity_of c = (p, x).
Proof.
  intros Hnd. unfold files_of. rewrite <- elem_of_list_to_map by (by rewrite identity_paths).
  rewrite list_elem_of_fmap. naive_solver.
Qed.

Lemma paths_filter {P : FileChange → Prop} `{!∀ x, Decision (P x)} l :
  NoDup (fc_path <$> l) → NoDup (fc_path <$> filter P l).
Proof.
  induction l as [|x l IH]; intros Hnd; [constructor|]. rewrite fmap_cons in Hnd. apply NoDup_cons in Hnd as [Hx Hnd].
  rewrite filter_cons. destruct (decide (P x)); [|by apply IH]. rewrite fmap_cons. constructor; [|by apply IH].
  intros (y & Hy & Hin)%list_elem_of_fmap. apply Hx, list_elem_of_fmap. exists y. split; [done|].
  by apply list_elem_of_filter in Hin as [_ Hin].
Qed.

Lemma same_path l x y : NoDup (fc_path <$> l) → x ∈ l → y ∈ l → fc_path x = fc_path y → x = y.
Proof.
  intros Hnd Hx Hy H. apply list_elem_of_lookup in Hx as [i Hi]. apply list_elem_of_lookup in Hy as [j Hj].
  assert (i = j) as <-; [|congruence].
  apply (NoDup_lookup _ i j (fc_path x) Hnd); rewrite list_lookup_fmap, ?Hi, ?Hj; cbn; congruence.
Qed.

Section Changes.
Context (source : FileChangeSource) (observed : list FileChange).
Context (Hobs : NoDup (fc_path <$> observed)) (Hup : Forall (λ c, fc_kind c = UPSERT) observed).
Context (Hbase : ∀ b, cs_complete_baseline source = Some b → check_baseline b = Ok tt).

Lemma baseline_nodup b : cs_complete_baseline source = Some b → NoDup (fc_path <$> bl_entries b).
Proof. intros H%Hbase. unfold check_baseline, nodupb in H. by run_ok. Qed.

Lemma removed_iff e : removed observed e = true ↔ fc_kind e = UPSERT ∧ fc_path e ∉ fc_path <$> observed.
Proof.
  unfold removed. rewrite dict_of_nodup, identity_paths by (by rewrite identity_paths).
  rewrite andb_true_iff, negb_true_iff, bool_decide_eq_true, bool_decide_eq_false. done.
Qed.

(** The upserts and the deletions of a changed scan. *)
Definition difference (b : FileChangeBaseline) : list FileChange :=
  observed ++ (deletion_of <$> filter (λ e, removed observed e = true) (bl_entries b)).

Lemma difference_nodup b : cs_complete_baseline source = Some b → NoDup (fc_path <$> difference b).
Proof.
  intros Hb. unfold difference. rewrite fmap_app, <- list_fmap_compose. apply NoDup_app. split_and!; [done| |].
  - intros p Hp Hd. apply list_elem_of_fmap in Hd as (e & -> & He). apply list_elem_of_filter in He as [[_ He]%removed_iff _].
    by apply He.
  - apply (paths_filter (P := λ e, removed observed e = true)). by apply baseline_nodup.
Qed.

Lemma changes_nodup : NoDup (fc_path <$> (_changes source observed).1).
Proof.
  pose proof baseline_nodup as Hn. pose proof difference_nodup as Hd. clear Hbase. unfold _changes.
  destruct (cs_complete_baseline source) as [b|]; cbn [fst].
  - destruct (unchanged b observed); cbn [fst]; [by apply Hn|]. rewrite sorted_by_perm. by apply Hd.
  - by rewrite sorted_by_perm.
Qed.

Lemma unchanged_files b :
  cs_complete_baseline source = Some b → unchanged b observed = true → files_of observed = files_of (active_entries b).
Proof.
  intros Hb H. unfold unchanged in H. apply andb_true_iff in H as [H _].
  assert (Ha : NoDup (fc_path <$> active_entries b)) by (by apply paths_filter, baseline_nodup).
  rewrite !dict_of_nodup in H by (by rewrite identity_paths).
  unfold files_of. apply list_to_map_proper; [by rewrite identity_paths|].
  apply dict_eqb_perm; by rewrite ?identity_paths.
Qed.

Lemma baseline_applies b :
  cs_complete_baseline source = Some b →
  apply_changes (files_of (active_entries b)) (bl_entries b) = files_of (active_entries b).
Proof.
  intros Hb. pose proof (baseline_nodup b Hb) as Hnd. apply map_eq. intros p.
  destruct (decide (p ∈ fc_path <$> bl_entries b)) as [(c & -> & Hc)%list_elem_of_fmap|Hp]; [|by apply apply_absent].
  rewrite apply_present by done. symmetry.
  assert (Ha : NoDup (fc_path <$> active_entries b)) by by apply paths_filter.
  destruct (fc_kind c) eqn:Ek.
  - apply elem_of_files; [done|]. exists c. split; [|done]. by apply list_elem_of_filter.
  - destruct (files_of _ !! _) as [x|] eqn:E; [|done]. apply elem_of_files in E as (c' & Hc' & [= Hp _]); [|done].
    apply list_elem_of_filter in Hc' as [Hk Hc']. by rewrite (same_path _ _ _ Hnd Hc' Hc Hp), Ek in Hk.
Qed.

Lemma difference_applies b m :
  cs_complete_baseline source = Some b → m = files_of (active_entries b) →
  apply_changes m (sorted_by path_key (difference b)) = files_of observed.
Proof.
  intros Hb ->. pose proof (baseline_nodup b Hb) as Hnd. pose proof (difference_nodup b Hb) as Hd.
  assert (Hs : NoDup (fc_path <$> sorted_by path_key (difference b))) by by rewrite sorted_by_perm.
  apply map_eq. intros p. destruct (decide (p ∈ fc_path <$> observed)) as [(c & -> & Hc)%list_elem_of_fmap|Hp].
  - rewrite Forall_forall in Hup.
    rewrite apply_present; [|done|apply elem_of_sorted_by, elem_of_app; by left]. rewrite (Hup c Hc). symmetry.
    apply elem_of_files; [done|]. by exists c.
  - assert (files_of observed !! p = None) as ->.
    { destruct (files_of observed !! p) eqn:E; [|done]. apply elem_of_files in E as (c & Hc & [= <- _]); [|done].
      exfalso. by apply Hp, list_elem_of_fmap_2. }
    destruct (decide (p ∈ fc_path <$> sorted_by path_key (difference b))) as [(c & -> & Hc)%list_elem_of_fmap|Hn].
    + rewrite apply_present by done. apply elem_of_sorted_by, elem_of_app in Hc as [Hc|(e & -> & _)%list_elem_of_fmap]; [|done].
      exfalso. by apply Hp, list_elem_of_fmap_2.
    + rewrite apply_absent by done. destruct (files_of (active_entries b) !! p) eqn:E; [|done].
      apply elem_of_files in E as (c & Hc & [= <- _]); [|by apply paths_filter].
      exfalso. apply Hn. rewrite sorted_by_perm. unfold difference. rewrite fmap_app. apply elem_of_app. right.
      rewrite <- list_fmap_compose. apply list_elem_of_fmap. exists c. split; [done|].
      apply list_elem_of_filter in Hc as [Hk Hc]. apply list_elem_of_filter. split; [|done]. by apply removed_iff.
Qed.

Lemma changes_apply : apply_changes (baseline_files source) (_changes source observed).1 = files_of observed.
Proof.
  pose proof difference_applies as Hd. pose proof baseline_applies as Hb. pose proof unchanged_files as Hu. clear Hbase.
  unfold baseline_files, _changes. destruct (cs_complete_baseline source) as [b|].
  - destruct (unchanged b observed) eqn:Eu; cbn [fst]; [|by apply Hd].
    by rewrite (Hb b eq_refl), (Hu b eq_refl Eu).
  - cbn [fst]. apply map_eq. intros p. rewrite Forall_forall in Hup.
    assert (Hs : NoDup (fc_path <$> sorted_by path_key observed)) by by rewrite sorted_by_perm.
    destruct (decide (p ∈ fc_path <$> observed)) as [(c & -> & Hc)%list_elem_of_fmap|Hp].
    + rewrite apply_present; [|done|by apply elem_of_sorted_by]. rewrite (Hup c Hc). symmetry. apply elem_of_files; [done|]. by exists c.
    + rewrite apply_absent by by rewrite sorted_by_perm. rewrite lookup_empty. symmetry.
      destruct (files_of observed !! p) eqn:E; [|done]. apply elem_of_files in E as (c & Hc & [= <- _]); [|done].
      exfalso. by apply Hp, list_elem_of_fmap_2.
Qed.
End Changes.
