(* ===== verification/FilePages.v ===== *)
(** * Serving a scan page by page

    A page over well-formed changes is always built; the cursor Control hands out for
    an incomplete page is accepted by the Provider, which continues exactly where that
    page ended. *)

From S2P Require Import Prelude Codec Sha256 Datetime Json Trusted Signing TicketIdentity ReleaseFacts Canonical ArticlePolicy BulkPolicy FileChanges FileProvider FileFacts.
Import Opaque.

(** ** Ordered slices *)

Lemma sorted_slice {A} (R : A → A → Prop) a b c : StronglySorted R (a ++ b ++ c) → StronglySorted R b.
Proof.
  induction a as [|x a IH]; cbn.
  - induction b as [|y b IHb]; [constructor|]. cbn. intros H. apply StronglySorted_inv in H as [H F].
    constructor; [by apply IHb|]. by apply Forall_app in F as [F _].
  - intros [H _]%StronglySorted_inv. auto.
Qed.

Lemma canonical_sorted paths : canonical_order paths = true ↔ StronglySorted (key_le utf8) paths.
Proof.
  unfold canonical_order. rewrite bool_decide_eq_true. split.
  - intros H. rewrite H. apply (sorted_by_sorted utf8 paths).
  - intros H. symmetry. by apply (sorted_by_fixed utf8 paths).
Qed.

Definition slice {A} (offset limit : Z) (l : list A) : list A := take (Z.to_nat limit) (drop (Z.to_nat offset) l).
Lemma slice_split {A} offset limit (l : list A) :
  l = take (Z.to_nat offset) l ++ slice offset limit l ++ drop (Z.to_nat limit) (drop (Z.to_nat offset) l).
Proof. unfold slice. by rewrite take_drop, take_drop. Qed.
Lemma slice_len {A} offset limit (l : list A) :
  0 ≤ offset ≤ len l → 0 ≤ limit → len (slice offset limit l) = Z.min limit (len l - offset).
Proof. intros Ho Hl. unfold slice, len in *. rewrite length_take, length_drop. lia. Qed.

(** ** Well-formed inputs of a page *)

Definition change_ok (c : FileChange) : Prop :=
  is_sha256_hex (fc_sha256 c) = true ∧ 0 ≤ fc_length c < 2 ^ 53 ∧ well_formed_text (fc_path c) = true.
Definition reference_ok (b : FileChangeBaselineRef) : Prop :=
  is_sha256_hex (br_scan_ref b) = true ∧ is_sha256_hex (br_page_ref b) = true
  ∧ _require_checkpoint_ref (br_checkpoint_ref b) = Ok tt ∧ 1 ≤ br_sequence b < 2 ^ 53
  ∧ 1 ≤ br_scan_bound b ≤ MAX_CONFIGURED_FILE_CHANGE_BASELINE_SIZE.

Record scan_inputs (source : FileChangeSource) (changes : list FileChange) (bref : option FileChangeBaselineRef)
    (bound : Z) : Prop := {
  si_version : declaration_version (cap_manifest (sv_capabilities (cs_source_version source))) = V3
    ∧ bref = None ∧ Forall (λ c, fc_kind c = UPSERT) changes
    ∨ declaration_version (cap_manifest (sv_capabilities (cs_source_version source))) = V4;
  si_changes : Forall change_ok changes;
  si_order : canonical_order (fc_path <$> changes) = true;
  si_nodup : NoDup (fc_path <$> changes);
  si_reference : ∀ b, bref = Some b → reference_ok b ∧ br_source_version_ref b = sv_version_ref (cs_source_version source);
  si_bound : 1 ≤ bound ≤ MAX_CONFIGURED_FILE_CHANGE_BASELINE_SIZE;
  si_length : len changes ≤ bound
}.

Record start_ok (n : Z) (st : page_start) : Prop := {
  so_offset : 0 ≤ ps_offset st ≤ n ∧ (ps_offset st = 0 ∨ ps_offset st < n);
  so_predecessor : ∀ p cp seq, ps_predecessor st = Some (p, cp, seq) →
    is_sha256_hex p = true ∧ _require_checkpoint_ref cp = Ok tt ∧ 1 ≤ seq < 2 ^ 53 ∧ ps_superseded st = None
}.

(** *** Their documents are well formed *)

Lemma sha_wf s : is_sha256_hex s = true → well_formed_text s = true.
Proof. intros [H _]%sha256_hex_simple. by apply simple_well_formed. Qed.
Lemma checkpoint_wf s : _require_checkpoint_ref s = Ok tt → well_formed_text s = true.
Proof. intros [H _]%checkpoint_simple. by apply simple_well_formed. Qed.
Lemma uuid_wf u : well_formed_text (uuid_str u) = true.
Proof. apply simple_well_formed, uuid_plain. Qed.

Ltac wf_doc :=
  unfold juuid; cbn [wf_json forallb fst snd app]; rewrite ?uuid_wf; repeat (apply andb_true_iff; split); try done;
  try (apply bool_decide_unpack; by vm_compute);
  try (by apply sha_wf); try (by apply checkpoint_wf);
  try (unfold safe_int; apply Z.ltb_lt; unfold MAX_CONFIGURED_FILE_CHANGE_BASELINE_SIZE, MAX_FILE_CHANGE_PAGE_SIZE in *; lia).

Lemma change_wf c : change_ok c → wf_json (change_document c) = true.
Proof. intros (Hs & Hl & Hp). unfold change_document. wf_doc. by destruct (fc_kind c). Qed.
Lemma scan_entry_wf d c : change_ok c → wf_json (scan_entry d c) = true.
Proof. intros (Hs & Hl & Hp). unfold scan_entry. destruct d; wf_doc. by destruct (fc_kind c). Qed.
Lemma reference_wf b : reference_ok b → wf_json (_baseline_reference_document b) = true.
Proof. intros (H1 & H2 & H3 & H4 & H5). unfold _baseline_reference_document. wf_doc. Qed.
Lemma arr_wf {A} (f : A → json) (P : A → Prop) l :
  (∀ x, P x → wf_json (f x) = true) → Forall P l → wf_json (JArr (f <$> l)) = true.
Proof.
  intros Hf H. cbn [wf_json]. apply forallb_forall. intros v Hv%list_elem_of_In.
  apply list_elem_of_fmap in Hv as (x & -> & Hx). rewrite Forall_forall in H. auto.
Qed.

Lemma scan_document_wf source changes bref bound :
  scan_inputs source changes bref bound → wf_json (scan_document source changes bref bound) = true.
Proof.
  intros [_ Hc _ _ Hr Hb _]. unfold scan_document.
  pose proof (arr_wf (scan_entry (is_delete_observation (sv_capabilities (cs_source_version source)))) change_ok changes
    (scan_entry_wf _) Hc) as Ha.
  destruct (is_delete_observation _); wf_doc. destruct bref as [b|]; [|done]. by apply reference_wf, Hr.
Qed.

Definition head_ok (h : FileChangeScanHead) : Prop :=
  is_sha256_hex (sh_page_ref h) = true ∧ _require_checkpoint_ref (sh_checkpoint_ref h) = Ok tt
  ∧ 1 ≤ sh_sequence h < 2 ^ 53 ∧ 1 ≤ sh_page_limit h ≤ MAX_FILE_CHANGE_PAGE_SIZE.
Lemma scan_document_nests source changes bref bound : nests document_depth (scan_document source changes bref bound) = true.
Proof.
  assert (Ha : ∀ b, nests 7 (JArr (scan_entry b <$> changes)) = true) by (intros []; by apply nests_map).
  unfold scan_document. cbv zeta. destruct (is_delete_observation _); cbn [nests forallb fst snd app] in *; rewrite Ha;
    by destruct bref.
Qed.
Lemma epoch_document_nests source scan_ref : nests document_depth (epoch_document source scan_ref) = true.
Proof. unfold epoch_document. by destruct (cs_scan_head source). Qed.
Lemma epoch_document_wf source scan_ref :
  is_sha256_hex scan_ref = true → (∀ h, cs_scan_head source = Some h → head_ok h) →
  wf_json (epoch_document source scan_ref) = true.
Proof.
  intros Hs Hh. unfold epoch_document. wf_doc. destruct (cs_scan_head source) as [h|]; [|done].
  destruct (Hh h eq_refl) as (H1 & H2 & H3 & _). cbn [opt_json]. wf_doc.
Qed.

(** ** Pages are built *)

Lemma own_change_check source scan_ref c :
  is_sha256_hex scan_ref = true → change_ok c → check_source_change (own_change source scan_ref c) = Ok tt.
Proof.
  intros Hs (Hc & Hl & _). unfold check_source_change, require_sha256. cbn [own_change sc_scan_ref sc_change].
  rewrite Hs, Hc. cbn [mbind result_bind require]. by rewrite (proj2 (Z.leb_le _ _)) by lia.
Qed.

Lemma own_paths source scan_ref (l : list FileChange) : (λ c, fc_path (sc_change c)) <$> (own_change source scan_ref <$> l) = fc_path <$> l.
Proof. by rewrite <- list_fmap_compose. Qed.

(** What follows a page. *)
Definition cursor_follows (complete : bool) (next : option PendingChangeCursor) : Prop :=
  match next with None => complete = true | Some c => complete = false ∧ simple (pending_value c) = true end.

Section Build.
Context {nesting : NestingLimit}.
Context (source : FileChangeSource) (changes : list FileChange) (bref : option FileChangeBaselineRef) (bound limit : Z).
Context (scan_ref : pystr) (st : page_start).
Context (Hin : scan_inputs source changes bref bound) (Hlim : 1 ≤ limit ≤ MAX_FILE_CHANGE_PAGE_SIZE).
Context (Hscan : is_sha256_hex scan_ref = true) (Hst : start_ok (len changes) st).

Let selected := slice (ps_offset st) limit changes.
Let complete := ps_offset st + len selected =? len changes.

Lemma selected_in : ∀ c, c ∈ selected → c ∈ changes.
Proof.
  intros c Hc. rewrite (slice_split (ps_offset st) limit changes). apply elem_of_app. right. apply elem_of_app. by left.
Qed.
Lemma selected_ok : Forall change_ok selected.
Proof.
  apply Forall_forall. intros c Hc%selected_in. pose proof (si_changes _ _ _ _ Hin) as H. rewrite Forall_forall in H. auto.
Qed.
Lemma selected_paths : canonical_order (fc_path <$> selected) = true ∧ NoDup (fc_path <$> selected).
Proof.
  pose proof (si_order _ _ _ _ Hin) as Ho. pose proof (si_nodup _ _ _ _ Hin) as Hn.
  rewrite (slice_split (ps_offset st) limit changes), !fmap_app in Ho, Hn. split.
  - apply canonical_sorted. apply canonical_sorted in Ho. by apply sorted_slice in Ho.
  - apply NoDup_app in Hn as (_ & _ & Hn). by apply NoDup_app in Hn as (Hn & _ & _).
Qed.
Lemma selected_len : len selected = Z.min limit (len changes - ps_offset st).
Proof. apply slice_len; [apply Hst|lia]. Qed.

Lemma predecessor_passes :
  when_some require_sha256 (fst ∘ fst <$> ps_predecessor st) = Ok tt
  ∧ when_some _require_checkpoint_ref (snd ∘ fst <$> ps_predecessor st) = Ok tt
  ∧ when_some require_sequence (snd <$> ps_predecessor st) = Ok tt
  ∧ is_none (snd ∘ fst <$> ps_predecessor st) = is_none (fst ∘ fst <$> ps_predecessor st)
  ∧ is_none (snd <$> ps_predecessor st) = is_none (fst ∘ fst <$> ps_predecessor st)
  ∧ is_none (fst ∘ fst <$> ps_predecessor st) || is_none (ps_superseded st) = true.
Proof.
  destruct (ps_predecessor st) as [[[p cp] seq]|] eqn:E; cbn; [|done].
  destruct (so_predecessor _ _ Hst p cp seq E) as (H1 & H2 & H3 & H4).
  unfold require_sha256, require_sequence. rewrite H1, H2, H4. rewrite !(proj2 (Z.leb_le _ _)) by lia. done.
Qed.

Lemma reference_passes :
  when_some (λ b, require (bool_decide (br_source_version_ref b = sv_version_ref (cs_source_version source))) ValueError) bref = Ok tt.
Proof.
  pose proof (si_reference _ _ _ _ Hin) as Hr. clear Hin. destruct bref as [r|]; [|done].
  destruct (Hr r eq_refl) as [_ E]. cbn. by rewrite bool_decide_eq_true_2.
Qed.

Lemma version_passes (v := declaration_version (cap_manifest (sv_capabilities (cs_source_version source)))) :
  bool_decide (v = V3) || bool_decide (v = V4) = true
  ∧ negb (bool_decide (v = V3) && (negb (is_none bref)
      || existsb (λ c, negb (bool_decide (fc_kind (sc_change c) = UPSERT))) (own_change source scan_ref <$> selected))) = true.
Proof.
  destruct (si_version _ _ _ _ Hin) as [(E & Hr & Hup)|E]; fold v in E; rewrite E; [|by split; vm_compute].
  split; [by vm_compute|]. rewrite Hr. cbn [is_none negb orb]. apply negb_true_iff, andb_false_iff. right.
  apply not_true_iff_false. intros (c & Hc%list_elem_of_In & Hk)%existsb_exists.
  apply list_elem_of_fmap in Hc as (c' & -> & Hc'%selected_in). rewrite Forall_forall in Hup.
  cbn [own_change sc_change] in Hk. by rewrite (Hup c' Hc') in Hk.
Qed.

Lemma owned_passes :
  forallb (λ c, bool_decide (sc_scan_ref c = scan_ref) && bool_decide (sc_organization_id c = cs_organization_id source)
    && bool_decide (sc_source_ref c = sv_source_ref (cs_source_version source))
    && bool_decide (sc_source_version_ref c = sv_version_ref (cs_source_version source)))
    (own_change source scan_ref <$> selected) = true.
Proof.
  apply forallb_forall. intros c Hc%list_elem_of_In. apply list_elem_of_fmap in Hc as (c' & -> & _). cbn.
  by rewrite !bool_decide_eq_true_2.
Qed.

Lemma advance_passes next :
  cursor_follows complete next →
  Bool.eqb complete (is_none next) = true
  ∧ complete || negb (bool_decide (own_change source scan_ref <$> selected = [])) = true.
Proof.
  intros Hnext. split; [destruct next; cbn in Hnext; [by destruct Hnext as [-> _]|by rewrite Hnext]|].
  destruct complete eqn:Ec; [done|]. cbn [orb]. apply negb_true_iff, bool_decide_eq_false. intros Hnil%fmap_nil_inv.
  pose proof selected_len as Hsl. rewrite Hnil, len_nil in Hsl. unfold complete in Ec. apply Z.eqb_neq in Ec.
  rewrite Hnil, len_nil in Ec. pose proof (so_offset _ _ Hst). lia.
Qed.

Lemma page_passes next proof b :
  cursor_follows complete next → decode_base64url proof = Ok b → len b = 64 →
  check_change_page (unsigned_page source scan_ref limit bound st bref (own_change source scan_ref <$> selected) next complete
    proof) = Ok tt.
Proof.
  intros Hnext Hd Hb. unfold check_change_page, unsigned_page.
  cbn [cp_organization_id cp_source_ref cp_source_version_ref cp_scan_ref cp_scan_epoch cp_page_limit
    cp_predecessor_page_ref cp_predecessor_checkpoint_ref cp_predecessor_sequence cp_superseded_scan_epoch cp_changes
    cp_next_cursor cp_complete cp_provider_proof cp_baseline_ref cp_capability_version cp_scan_bound].
  destruct version_passes as [-> Hv3]. cbn [mbind result_bind require].
  assert (require_sha256 scan_ref = Ok tt) as -> by (unfold require_sha256; by rewrite Hscan).
  cbn [mbind result_bind]. pose proof (si_bound _ _ _ _ Hin) as Hbd.
  assert (require_page_limit limit = Ok tt) as -> by (unfold require_page_limit; by rewrite !(proj2 (Z.leb_le _ _)) by lia).
  assert (_require_scan_bound bound = Ok tt) as -> by (unfold _require_scan_bound; by rewrite !(proj2 (Z.leb_le _ _)) by lia).
  cbn [mbind result_bind].
  destruct predecessor_passes as (-> & -> & -> & E1 & E2 & E3). cbn [mbind result_bind].
  rewrite E1, E2, eqb_reflx. cbn [andb mbind result_bind require]. rewrite E3. cbn [mbind result_bind require].
  rewrite reference_passes. cbn [mbind result_bind]. rewrite Hv3. cbn [mbind result_bind require].
  assert (Hlen : len (own_change source scan_ref <$> selected) = len selected) by (unfold len; by rewrite length_fmap).
  pose proof selected_len as Hsl. rewrite Hlen, (proj2 (Z.leb_le _ _)) by lia. cbn [mbind result_bind require].
  destruct (advance_passes next Hnext) as [-> ->]. cbn [mbind result_bind require].
  rewrite own_paths. destruct selected_paths as [-> Hn]. cbn [mbind result_bind require]. unfold nodupb.
  rewrite bool_decide_eq_true_2 by done. cbn [mbind result_bind require]. rewrite owned_passes. cbn [mbind result_bind require].
  rewrite Hd. cbn [mbind result_bind]. by rewrite Hb.
Qed.

Lemma own_changes_pass :
  map_result (λ c, new_SourceChange (own_change source scan_ref c)) selected = Ok (own_change source scan_ref <$> selected).
Proof.
  apply map_result_pure. intros c Hc. unfold new_SourceChange. pose proof selected_ok as H. rewrite Forall_forall in H.
  by rewrite own_change_check by auto.
Qed.

Lemma page_document_wf next proof :
  cursor_follows complete next →
  wf_json (JObj (_page_document (unsigned_page source scan_ref limit bound st bref (own_change source scan_ref <$> selected)
    next complete proof))) = true.
Proof.
  intros Hnext. pose proof (si_bound _ _ _ _ Hin) as Hbd.
  assert (Hv : wf_json (JStr (declaration_version (cap_manifest (sv_capabilities (cs_source_version source))))) = true).
  { destruct (si_version _ _ _ _ Hin) as [(-> & _)| ->]; by vm_compute. }
  assert (Hc : wf_json (JArr ((λ c, change_document (sc_change c)) <$> (own_change source scan_ref <$> selected))) = true).
  { rewrite <- list_fmap_compose. apply (arr_wf _ change_ok); [|apply selected_ok]. intros c. apply change_wf. }
  assert (Hb : ∀ r, bref = Some r → wf_json (_baseline_reference_document r) = true).
  { intros r Hr. by apply reference_wf, (si_reference _ _ _ _ Hin). }
  pose proof (so_predecessor _ _ Hst) as Hp. clear Hin Hst.
  unfold _page_document, unsigned_page. cbn [cp_organization_id cp_source_ref cp_source_version_ref cp_scan_ref cp_scan_epoch
    cp_page_limit cp_predecessor_page_ref cp_predecessor_checkpoint_ref cp_predecessor_sequence cp_superseded_scan_epoch
    cp_changes cp_next_cursor cp_complete cp_provider_proof cp_baseline_ref cp_capability_version cp_scan_bound].
  assert (Hn : wf_json (opt_json (λ c, JStr (pending_value c)) next) = true).
  { destruct next as [c|]; [|done]. cbn in Hnext. destruct Hnext as [_ Hs]. by apply simple_well_formed. }
  assert (Hpc : wf_json (opt_json JStr (snd ∘ fst <$> ps_predecessor st)) = true
    ∧ wf_json (opt_json JStr (fst ∘ fst <$> ps_predecessor st)) = true
    ∧ wf_json (opt_json JInt (snd <$> ps_predecessor st)) = true).
  { destruct (ps_predecessor st) as [[[p cp] seq]|]; [|done]. destruct (Hp p cp seq eq_refl) as (H1 & H2 & H3 & _). cbn.
    split_and!; [by apply checkpoint_wf|by apply sha_wf|]. unfold safe_int. apply Z.ltb_lt. lia. }
  destruct Hpc as (Hp1 & Hp2 & Hp3).
  assert (Hsu : wf_json (opt_json juuid (ps_superseded st)) = true) by (destruct (ps_superseded st); [apply uuid_wf|done]).
  destruct bref as [r|].
  - specialize (Hb r eq_refl). generalize dependent (_baseline_reference_document r). intros j Hj.
    destruct (bool_decide (_ = V4)); wf_doc.
  - destruct (bool_decide (_ = V4)); wf_doc.
Qed.

Context (canon : json → result pybytes) `{!Rfc8785 canon}.
Context (provider_sign : pybytes → pybytes) (provider_verify : pybytes → pybytes → bool) `{!Ed25519 provider_sign provider_verify}.

(** The cursor after the page: none at the end, and otherwise one the Provider reads
    back as the offset after the page. *)
Definition page_cursor (next : option PendingChangeCursor) : Prop :=
  match next with
  | None => complete = true
  | Some c =>
      complete = false ∧ simple (pending_value c) = true ∧ new_PendingChangeCursor (pending_value c) = Ok c
      ∧ ∃ d, _decode_cursor canon provider_sign c = Ok (Some d)
        ∧ _cursor_matches d source scan_ref (ps_scan_epoch st) limit (len changes) bound = Some (ps_offset st + len selected)
  end.

Lemma page_cursor_follows next : page_cursor next → cursor_follows complete next.
Proof. destruct next; cbn; tauto. Qed.

Lemma next_cursor_Ok :
  ∃ next, (if complete then Ok None
           else c ← _encode_cursor canon provider_sign source scan_ref (ps_scan_epoch st) (ps_offset st + len selected) limit bound;
                Ok (Some c)) = Ok next
    ∧ page_cursor next.
Proof.
  pose proof selected_len as Hsl. pose proof (so_offset _ _ Hst) as Ho. pose proof (si_bound _ _ _ _ Hin) as Hbd.
  pose proof (si_length _ _ _ _ Hin) as Hl. unfold page_cursor. destruct complete eqn:Ec; [by exists None|].
  unfold complete in Ec. apply Z.eqb_neq in Ec.
  destruct (encode_cursor_Ok canon provider_sign provider_verify source scan_ref (ps_scan_epoch st)
    (ps_offset st + len selected) limit bound) as (c & d & He & Hs & Hn & Hd & Hm); [split; [done|lia..]|].
  exists (Some c). rewrite He. split; [done|]. split_and!; [done..|]. exists d. split; [done|]. apply Hm. lia.
Qed.

Lemma blank_proof : decode_base64url (replicate 86 65) = Ok (replicate 64 0).
Proof. by vm_compute. Qed.

Lemma page_document_nests p : nests document_depth (JObj (_page_document p)) = true.
Proof.
  assert (Ha : nests 7 (JArr ((λ c, change_document (sc_change c)) <$> cp_changes p)) = true) by by apply nests_map.
  unfold _page_document. apply andb_true_iff. split; [done|]. rewrite !forallb_app, !andb_true_iff. split_and!.
  - cbn [forallb fst snd]. rewrite !andb_true_iff. split_and!; try done;
      first [by destruct (cp_next_cursor p)|by destruct (cp_predecessor_checkpoint_ref p)
        |by destruct (cp_predecessor_page_ref p)|by destruct (cp_predecessor_sequence p)
        |by destruct (cp_superseded_scan_epoch p)].
  - by destruct (cp_baseline_ref p).
  - by destruct (bool_decide _).
Qed.

Definition built_page (next : option PendingChangeCursor) (proof : pystr) : ChangePage :=
  unsigned_page source scan_ref limit bound st bref (own_change source scan_ref <$> selected) next complete proof.

Lemma built_page_payload next :
  cursor_follows complete next →
  ∃ payload, (∀ proof, _page_payload canon (built_page next proof) = Ok payload)
    ∧ decode_base64url (encode_base64url (provider_sign payload)) = Ok (provider_sign payload).
Proof.
  intros Hnext. destruct (rfc_total _ (page_document_wf next [] Hnext) (page_document_nests _)) as [payload Hp]. exists payload. split; [by intros|].
  apply decode_encode; [|apply (signature_bytes (verify := provider_verify))].
  apply (nonempty_of_len _ 64); [lia|]. apply (signature_size (verify := provider_verify)).
Qed.

Lemma build_page_Ok :
  ∃ next proof page_ref, build_page canon provider_sign source changes bref scan_ref limit bound st = Ok (built_page next proof)
    ∧ page_cursor next
    ∧ verify_page canon provider_verify (built_page next proof) = Ok (Some (mkVerifiedPage (built_page next proof) page_ref))
    ∧ is_sha256_hex page_ref = true.
Proof.
  destruct next_cursor_Ok as (next & En & Hnext). pose proof (page_cursor_follows _ Hnext) as Hf.
  destruct (built_page_payload next Hf) as (payload & Hp & Hd).
  exists next, (encode_base64url (provider_sign payload)), (hexdigest payload). split_and!; [|done| |apply hexdigest_shape].
  - unfold build_page. fold (slice (ps_offset st) limit changes). fold selected. fold complete. rewrite En.
    cbn [mbind result_bind]. rewrite own_changes_pass. cbn [mbind result_bind].
    rewrite (page_passes next _ _ Hf blank_proof) by done. cbn [mbind result_bind]. unfold _seal_page.
    rewrite (Hp (replicate 86 65) : _page_payload canon (unsigned_page _ _ _ _ _ _ _ _ _ _) = _). cbn [mbind result_bind].
    by rewrite (page_passes next _ _ Hf Hd) by apply (signature_size (verify := provider_verify)).
  - unfold verify_page. rewrite Hp. cbn [mbind result_bind built_page unsigned_page cp_provider_proof]. rewrite Hd.
    cbn [mbind result_bind]. by rewrite (signature_verifies payload : provider_verify _ _ = true).
Qed.
End Build.

(** ** One scan, page by page *)

Definition scan_reference_ok (b : FileChangeBaselineRef) : Prop := check_baseline_ref b = Ok tt ∧ br_sequence b < 2 ^ 53.
(** A path the constructor admits: a text of code points. *)
Definition path_ok (p : pystr) : Prop := Forall (λ c, 0 ≤ c ≤ 0x10FFFF) p ∧ new_FileImportPath p = Ok p.
Definition entry_ok (e : FileChange) : Prop :=
  check_baseline_entry e = Ok tt ∧ fc_length e < 2 ^ 53 ∧ path_ok (fc_path e).

(** A source as the constructors build it; sequences and sizes are integers that
    canonical JSON can carry. *)
Record source_ok (s : FileChangeSource) : Prop := {
  sr_capabilities : cap_manifest (sv_capabilities (cs_source_version s)) = FILE_CHANGE_CAPABILITY_MANIFEST
    ∨ cap_manifest (sv_capabilities (cs_source_version s)) = FILE_DELETE_OBSERVATION_CAPABILITY_MANIFEST;
  sr_source : check_change_source s = Ok tt;
  sr_head : ∀ h, cs_scan_head s = Some h → check_scan_head h = Ok tt ∧ sh_sequence h < 2 ^ 53;
  sr_baseline : ∀ b, cs_complete_baseline s = Some b →
    check_baseline b = Ok tt ∧ Forall entry_ok (bl_entries b) ∧ scan_reference_ok (bl_reference b)
    ∧ (∀ c, br_comparison (bl_reference b) = Some c → scan_reference_ok c)
}.

(** A root whose traversal found [files]: distinct admissible paths, payloads of bytes. *)
Record registry_ok (r : FileRootRegistry) (prefix : option pystr) (files : list (list Z * list Z)) : Prop := {
  rg_bound : 1 ≤ max_baseline_entries r ≤ MAX_CONFIGURED_FILE_CHANGE_BASELINE_SIZE;
  rg_prefix : curated_subtree_prefix r = Ok prefix;
  rg_observed : observe_markdown_files r = Observed files;
  rg_paths : NoDup files.*1;
  rg_files : Forall (λ f, path_ok f.1 ∧ len f.2 < 2 ^ 53) files
}.

(** The curated prefix still covers the files of the baseline. *)
Definition prefix_covers (prefix : option pystr) (s : FileChangeSource) : Prop :=
  ∀ q b e, prefix = Some q → cs_complete_baseline s = Some b → e ∈ bl_entries b → fc_kind e = UPSERT →
    startswith q (fc_path e) = true.

Lemma path_wf p : path_ok p → well_formed_text p = true.
Proof.
  unfold path_ok, new_FileImportPath. intros [Hcp H]. apply bind_Ok in H as (u & H%require_Ok & _). apply negb_true_iff in H.
  rewrite !orb_false_iff in H. destruct H as [_ H]. unfold well_formed_text. apply forallb_forall. intros c Hc.
  rewrite Forall_forall in Hcp. pose proof (Hcp c (proj2 (list_elem_of_In _ _) Hc)).
  rewrite !(proj2 (Z.leb_le _ _)) by lia. apply negb_true_iff, not_true_iff_false. intros Hs. assert (existsb is_surrogate p = true); [|congruence].
  apply existsb_exists. eauto.
Qed.

Lemma entry_change_ok e : entry_ok e → change_ok e.
Proof.
  intros (H & Hl & Hp). unfold check_baseline_entry, require_sha256 in H. run_ok. split_and!; [done|lia|lia|by apply path_wf].
Qed.

Lemma scan_reference_reference b : scan_reference_ok b → reference_ok b.
Proof.
  intros [H Hs]. unfold check_baseline_ref, require_sha256, require_sequence, _require_scan_bound in H.
  apply bind_Ok in H as (? & H1%require_Ok & H). apply bind_Ok in H as (? & H2%require_Ok & H).
  apply bind_Ok in H as ([] & H3 & H). apply bind_Ok in H as (? & H4%require_Ok & H).
  apply bind_Ok in H as (? & H5%require_Ok & _). split_and!; try done; lia.
Qed.

Lemma comparison_version b c : check_baseline_ref b = Ok tt → br_comparison b = Some c → br_source_version_ref c = br_source_version_ref b.
Proof. intros H Hc. unfold check_baseline_ref in H. rewrite Hc in H. by run_ok. Qed.

Lemma head_head_ok h : check_scan_head h = Ok tt → sh_sequence h < 2 ^ 53 → head_ok h.
Proof.
  intros H Hs. unfold check_scan_head, require_sha256, require_page_limit, require_sequence in H.
  apply bind_Ok in H as (? & H1%require_Ok & H). apply bind_Ok in H as (? & H2%require_Ok & H).
  apply bind_Ok in H as (? & H3%require_Ok & H). apply bind_Ok in H as ([] & H4 & H).
  apply bind_Ok in H as (? & H5%require_Ok & _). unfold head_ok. split_and!; try done; lia.
Qed.

(** *** The changes of the scan are well-formed inputs *)

Definition observed_changes (files : list (list Z * list Z)) : list FileChange := observed_file <$> sorted_by (λ f, utf8 f.1) files.

Lemma observed_paths files : NoDup files.*1 → NoDup (fc_path <$> observed_changes files).
Proof.
  intros H. unfold observed_changes. rewrite <- list_fmap_compose.
  change (NoDup ((sorted_by (λ f : list Z * list Z, utf8 f.1) files).*1)). by rewrite sorted_by_perm.
Qed.
Lemma observed_upserts files : Forall (λ c, fc_kind c = UPSERT) (observed_changes files).
Proof. unfold observed_changes. apply Forall_fmap. by apply Forall_forall. Qed.
Lemma observed_ok r prefix files : registry_ok r prefix files → Forall change_ok (observed_changes files).
Proof.
  intros H. unfold observed_changes. apply Forall_fmap, Forall_forall. intros f Hf%elem_of_sorted_by.
  pose proof (rg_files _ _ _ H) as Hr. rewrite Forall_forall in Hr. destruct (Hr f Hf) as [Hp Hl].
  unfold compose, observed_file, change_ok. cbn [fc_sha256 fc_length fc_path]. split_and!; [apply hexdigest_shape|unfold len; lia|done|by apply path_wf].
Qed.

Lemma sorted_changes_canonical l : canonical_order (fc_path <$> sorted_by path_key l) = true.
Proof.
  apply canonical_sorted. pose proof (sorted_by_sorted path_key l) as H. induction H as [|c l' _ IH Hc]; [constructor|].
  rewrite fmap_cons. constructor; [done|]. apply Forall_fmap. exact Hc.
Qed.

Section Inputs.
Context (source : FileChangeSource) (registry : FileRootRegistry) (prefix : option pystr) (files : list (list Z * list Z)).
Context (Hsource : source_ok source) (Hregistry : registry_ok registry prefix files).
Let changes := (_changes source (observed_changes files)).1.
Let bref := (_changes source (observed_changes files)).2.

Lemma scan_changes_nodup : NoDup (fc_path <$> changes).
Proof.
  apply changes_nodup; [by eapply observed_paths, rg_paths|]. intros b Hb. by apply (sr_baseline _ Hsource).
Qed.
Lemma scan_changes_canonical : canonical_order (fc_path <$> changes) = true.
Proof.
  pose proof (sr_baseline _ Hsource) as Hb. unfold changes, _changes. destruct (cs_complete_baseline source) as [b|]; cbn [fst].
  - destruct (unchanged b _); cbn [fst]; [|apply sorted_changes_canonical]. destruct (Hb b eq_refl) as [H _].
    unfold check_baseline in H. by run_ok.
  - apply sorted_changes_canonical.
Qed.
Lemma scan_changes_ok : Forall change_ok changes.
Proof.
  pose proof (sr_baseline _ Hsource) as Hb. pose proof (observed_ok _ _ _ Hregistry) as Ho. unfold changes, _changes.
  assert (He : ∀ b, cs_complete_baseline source = Some b → Forall change_ok (bl_entries b)).
  { intros b (_ & H & _)%Hb. eapply Forall_impl; [exact H|]. intros e. apply entry_change_ok. }
  destruct (cs_complete_baseline source) as [b|]; cbn [fst]; [|by rewrite sorted_by_perm].
  specialize (He b eq_refl). destruct (unchanged b _); cbn [fst]; [done|]. rewrite sorted_by_perm. apply Forall_app. split; [done|].
  apply Forall_fmap, Forall_forall. intros e [_ Hin]%list_elem_of_filter. rewrite Forall_forall in He. apply (He e Hin).
Qed.
Lemma scan_reference r : bref = Some r → reference_ok r ∧ br_source_version_ref r = sv_version_ref (cs_source_version source).
Proof.
  pose proof (sr_baseline _ Hsource) as Hb. pose proof (sr_source _ Hsource) as Hc. unfold check_change_source in Hc.
  unfold bref, _changes. destruct (cs_complete_baseline source) as [b|]; [|done].
  destruct (Hb b eq_refl) as (_ & _ & Hr & Hcomp). apply bind_Ok in Hc as (? & _ & Hv%require_Ok). apply bool_decide_eq_true in Hv.
  assert (Hown : reference_ok (bl_reference b) ∧ br_source_version_ref (bl_reference b) = sv_version_ref (cs_source_version source))
    by (by split; [apply scan_reference_reference|]).
  destruct (unchanged b _); cbn [snd]; [|by intros [= <-]].
  destruct (_baseline_is_current_head source (bl_reference b)); [|by intros [= <-]]. intros Hr'.
  split; [by apply scan_reference_reference, Hcomp|]. rewrite <- Hv. by apply comparison_version; [apply Hr|].
Qed.

Lemma scan_inputs_ok : len changes ≤ max_baseline_entries registry → scan_inputs source changes bref (max_baseline_entries registry).
Proof.
  intros Hl. split; [|exact scan_changes_ok|exact scan_changes_canonical|exact scan_changes_nodup
    |exact scan_reference|by eapply rg_bound|done].
  destruct (sr_capabilities _ Hsource) as [E|E]; rewrite E; [left|by right]. split; [done|].
  pose proof (sr_source _ Hsource) as Hc. unfold check_change_source in Hc. unfold bref, changes, _changes.
  destruct (cs_complete_baseline source) as [b|].
  - apply bind_Ok in Hc as (? & Hd%require_Ok & _). unfold is_delete_observation in Hd. rewrite E in Hd.
    apply andb_true_iff in Hd as [_ Hd%bool_decide_eq_true]. exfalso.
    apply (bool_decide_unpack (FILE_CHANGE_CAPABILITY_MANIFEST ≠ FILE_DELETE_OBSERVATION_CAPABILITY_MANIFEST)); [by vm_compute|done].
  - cbn [fst snd]. split; [done|]. rewrite sorted_by_perm. apply observed_upserts.
Qed.
End Inputs.
