(* ===== verification/FileReads.v ===== *)
(** * Reading a scan

    A source that is well-formed and within its bound is read page by page: the first
    page starts at the first change, and a page accepted by Control is followed by the
    page that starts where it ended. *)

From S2P Require Import Prelude Codec Sha256 Datetime Json Trusted Signing TicketIdentity ReleaseFacts Canonical ArticlePolicy BulkPolicy FileChanges FileProvider FileFacts FilePages.
Import Opaque.

(** ** Reading pages *)

Definition with_head (s : FileChangeSource) (h : FileChangeScanHead) : FileChangeSource :=
  mkChangeSource (cs_organization_id s) (cs_source_version s) (Some h) (cs_complete_baseline s).

Section Reading.
Context {nesting : NestingLimit}.
Context (canon : json → result pybytes) `{!Rfc8785 canon}.
Context (provider_sign : pybytes → pybytes) (provider_verify : pybytes → pybytes → bool) `{!Ed25519 provider_sign provider_verify}.
Context (checkpoint_sign : pybytes → pybytes) (checkpoint_verify : pybytes → pybytes → bool).
Context `{!Ed25519 checkpoint_sign checkpoint_verify}.
Context (registry : FileRootRegistry) (prefix : option pystr) (files : list (list Z * list Z)).
Context (Hregistry : registry_ok registry prefix files).

Abbreviation bound := (max_baseline_entries registry).
Definition scan_changes (source : FileChangeSource) : list FileChange := (_changes source (observed_changes files)).1.
Definition scan_baseline (source : FileChangeSource) : option FileChangeBaselineRef := (_changes source (observed_changes files)).2.

(** What makes a source readable: well-formed, covered by the prefix, within the bound. *)
Record readable (source : FileChangeSource) : Prop := {
  rd_source : source_ok source;
  rd_prefix : prefix_covers prefix source;
  rd_bound : len (scan_changes source) ≤ bound;
  rd_uuids : uuid_ok (cs_organization_id source) ∧ uuid_ok (sv_source_ref (cs_source_version source))
    ∧ uuid_ok (sv_version_ref (cs_source_version source))
    ∧ ∀ h, cs_scan_head source = Some h → uuid_ok (sh_scan_epoch h)
}.

Definition scan_identity (source : FileChangeSource) (scan_ref : pystr) : Prop :=
  _scan_ref canon source (scan_changes source) (scan_baseline source) bound = Ok scan_ref.

Lemma scan_ref_Ok source : readable source → ∃ scan_ref, scan_identity source scan_ref ∧ is_sha256_hex scan_ref = true.
Proof.
  intros [Hs Hp Hb _]. destruct (rfc_total _ (scan_document_wf _ _ _ _ (scan_inputs_ok _ _ _ _ Hs Hregistry Hb)) (scan_document_nests _ _ _ _)) as [b Hc].
  eexists. unfold scan_identity, _scan_ref. rewrite (Hc : canon (scan_document _ (scan_changes _) (scan_baseline _) _) = _).
  split; [reflexivity|]. apply hexdigest_shape.
Qed.

Lemma prefix_passes source :
  prefix_covers prefix source →
  match prefix, cs_complete_baseline source with
  | Some q, Some b => existsb (λ e, is_kind UPSERT e && negb (startswith q (fc_path e))) (bl_entries b)
  | _, _ => false end = false.
Proof.
  intros H. unfold prefix_covers in H. destruct prefix as [q|]; [|done]. destruct (cs_complete_baseline source) as [b|]; [|done].
  apply not_true_iff_false. intros (e & He%list_elem_of_In & Hk)%existsb_exists. apply andb_true_iff in Hk as [Hk Hn].
  apply bool_decide_eq_true in Hk. by rewrite (H q b e eq_refl eq_refl He Hk) in Hn.
Qed.

(** A read is the page built from where the cursor says. *)
Lemma read_changes_start source cursor limit scan_ref start :
  readable source → scan_identity source scan_ref →
  let requested := match cursor with
                   | InitialScan => from_option sh_page_limit limit (same_scan source scan_ref)
                   | Continue _ => limit end in
  start_of canon provider_sign checkpoint_verify source cursor scan_ref requested (len (scan_changes source)) bound = Ok (Some start) →
  read_changes canon provider_sign checkpoint_verify registry source cursor limit
  = (page ← build_page canon provider_sign source (scan_changes source) (scan_baseline source) scan_ref requested bound start;
     Ok (ProviderOk page)).
Proof.
  intros [Hs Hp Hb _] Hid requested Hstart. unfold read_changes.
  assert (negb ((bool_decide (cap_manifest (sv_capabilities (cs_source_version source)) = FILE_CHANGE_CAPABILITY_MANIFEST)
            || bool_decide (cap_manifest (sv_capabilities (cs_source_version source)) = FILE_DELETE_OBSERVATION_CAPABILITY_MANIFEST))
           && available (read_changes_status (cap_manifest (sv_capabilities (cs_source_version source))))) = false) as ->
    by (destruct (sr_capabilities _ Hs) as [-> | ->]; by vm_compute).
  rewrite (rg_prefix _ _ _ Hregistry), prefix_passes, (rg_observed _ _ _ Hregistry) by done.
  fold (observed_changes files). unfold scan_identity in Hid. unfold scan_changes, scan_baseline in *.
  destruct (_changes source (observed_changes files)) as [changes bref]. cbn [fst snd] in *.
  rewrite (proj2 (Z.ltb_ge _ _)) by done. rewrite Hid. cbn [mbind result_bind]. fold requested. rewrite Hstart. done.
Qed.

(** *** The first page *)

Lemma scan_epoch_Ok source scan_ref :
  source_ok source → is_sha256_hex scan_ref = true → ∃ epochs, _scan_epoch canon source scan_ref = Ok epochs.
Proof.
  intros Hs Href. unfold _scan_epoch. destruct (same_scan source scan_ref); [by eexists|].
  destruct (rfc_total _ (epoch_document_wf source scan_ref Href (λ h Hh, let '(conj a b) := sr_head _ Hs h Hh in head_head_ok h a b)) (epoch_document_nests _ _))
    as [b ->]. by eexists.
Qed.

Lemma initial_limit source scan_ref limit :
  source_ok source → 1 ≤ limit ≤ MAX_FILE_CHANGE_PAGE_SIZE →
  1 ≤ from_option sh_page_limit limit (same_scan source scan_ref) ≤ MAX_FILE_CHANGE_PAGE_SIZE.
Proof.
  intros Hs Hl. unfold same_scan. destruct (cs_scan_head source) as [h|] eqn:E; [|done]. destruct (_ && _); [|done].
  destruct (sr_head _ Hs h E) as [H1 H2]. by apply (head_head_ok h).
Qed.

Lemma first_page source limit scan_ref :
  readable source → scan_identity source scan_ref → is_sha256_hex scan_ref = true → 1 ≤ limit ≤ MAX_FILE_CHANGE_PAGE_SIZE →
  let requested := from_option sh_page_limit limit (same_scan source scan_ref) in
  ∃ epochs next proof page_ref (start := mkPageStart 0 None epochs.1 epochs.2),
    _scan_epoch canon source scan_ref = Ok epochs
    ∧ read_changes canon provider_sign checkpoint_verify registry source InitialScan limit
    = Ok (ProviderOk (built_page source (scan_changes source) (scan_baseline source) bound requested scan_ref start next proof))
    ∧ page_cursor source (scan_changes source) bound requested scan_ref start canon provider_sign next
    ∧ verify_page canon provider_verify
        (built_page source (scan_changes source) (scan_baseline source) bound requested scan_ref start next proof)
      = Ok (Some (mkVerifiedPage (built_page source (scan_changes source) (scan_baseline source) bound requested scan_ref start next proof) page_ref))
    ∧ is_sha256_hex page_ref = true.
Proof.
  intros Hr Hid Href Hlim requested. pose proof Hr as [Hs Hp Hb _].
  destruct (scan_epoch_Ok source scan_ref Hs Href) as [epochs He].
  pose proof (scan_inputs_ok _ _ _ _ Hs Hregistry Hb) as Hin.
  assert (Hst : start_ok (len (scan_changes source)) (mkPageStart 0 None epochs.1 epochs.2)).
  { split; cbn; [unfold len; lia|done]. }
  destruct (build_page_Ok source _ _ bound requested scan_ref _ Hin (initial_limit source scan_ref limit Hs Hlim) Href Hst
    canon provider_sign provider_verify) as (next & proof & page_ref & Hbuild & Hcur & Hver & Hpr).
  exists epochs, next, proof, page_ref. split; [done|]. split; [|done].
  erewrite (read_changes_start source InitialScan limit scan_ref); [|done|done|].
  - fold requested. rewrite (Hbuild : build_page _ _ _ (scan_changes _) (scan_baseline _) _ _ _ _ = _). done.
  - unfold start_of. by rewrite He.
Qed.

(** *** Later pages *)

(** The comparison baseline does not depend on whether the head is complete. *)
Definition stable (source : FileChangeSource) : Prop :=
  ∀ b, cs_complete_baseline source = Some b → unchanged b (observed_changes files) = true →
    _baseline_is_current_head source (bl_reference b) = false.

Lemma changes_with_head source h :
  stable source → sh_complete h = false →
  _changes (with_head source h) (observed_changes files) = _changes source (observed_changes files).
Proof.
  intros Hs Hh. unfold _changes, stable in *. cbn [with_head cs_complete_baseline].
  destruct (cs_complete_baseline source) as [b|]; [|done]. destruct (unchanged b _) eqn:Eu; [|done].
  rewrite (Hs b eq_refl Eu). unfold _baseline_is_current_head. cbn [with_head cs_scan_head]. by rewrite Hh.
Qed.

Lemma with_head_stable source h : sh_complete h = false → stable (with_head source h).
Proof. intros Hh b _ _. unfold _baseline_is_current_head. cbn [with_head cs_scan_head]. by rewrite Hh. Qed.

Lemma with_head_readable source h :
  readable source → stable source → sh_complete h = false → check_scan_head h = Ok tt → sh_sequence h < 2 ^ 53 →
  uuid_ok (sh_scan_epoch h) → readable (with_head source h).
Proof.
  intros [Hs Hp Hb Hu] Hst Hc Hh Hseq Hue. split.
  - destruct Hs as [H1 H2 H3 H4]. split; [done|done| |done]. cbn. by intros ? [= <-].
  - done.
  - unfold scan_changes. by rewrite changes_with_head.
  - cbn. destruct Hu as (U1 & U2 & U3 & _). split_and!; [done..|]. by intros ? [= <-].
Qed.

Lemma with_head_identity source h scan_ref :
  stable source → sh_complete h = false → scan_identity source scan_ref → scan_identity (with_head source h) scan_ref.
Proof. intros Hst Hc. unfold scan_identity, scan_changes, scan_baseline. by rewrite changes_with_head. Qed.

Lemma next_page source h cursor limit scan_ref epoch offset pending d page_ref checkpoint sequence :
  readable (with_head source h) → scan_identity (with_head source h) scan_ref → is_sha256_hex scan_ref = true →
  1 ≤ limit ≤ MAX_FILE_CHANGE_PAGE_SIZE →
  let changes := scan_changes (with_head source h) in
  let bref := scan_baseline (with_head source h) in
  1 ≤ offset < len changes →
  sh_source_version_ref h = sv_version_ref (cs_source_version source) → sh_scan_ref h = scan_ref → sh_scan_epoch h = epoch →
  sequence ≤ sh_sequence h →
  _unwrap_cursor canon checkpoint_verify cursor = Ok (Some (mkAcceptedClaims pending scan_ref page_ref checkpoint sequence epoch)) →
  is_sha256_hex page_ref = true → _require_checkpoint_ref checkpoint = Ok tt → 1 ≤ sequence < 2 ^ 53 →
  _decode_cursor canon provider_sign pending = Ok (Some d) →
  _cursor_matches d source scan_ref epoch limit (len changes) bound = Some offset →
  ∃ next proof ref (start := mkPageStart offset (Some (page_ref, checkpoint, sequence)) epoch None)
      (page := built_page (with_head source h) changes bref bound limit scan_ref start next proof),
    read_changes canon provider_sign checkpoint_verify registry (with_head source h) (Continue cursor) limit = Ok (ProviderOk page)
    ∧ page_cursor (with_head source h) changes bound limit scan_ref start canon provider_sign next
    ∧ verify_page canon provider_verify page = Ok (Some (mkVerifiedPage page ref))
    ∧ is_sha256_hex ref = true.
Proof.
  intros Hr Hid Href Hlim changes bref Hoff Hv Hsr He Hseq Hun Hpr Hcp Hsq Hdec Hmatch.
  pose proof (scan_inputs_ok _ _ _ _ (rd_source _ Hr) Hregistry (rd_bound _ Hr)) as Hin. fold changes bref in Hin.
  set (start := mkPageStart offset (Some (page_ref, checkpoint, sequence)) epoch None).
  assert (Hst : start_ok (len changes) start).
  { split; cbn; [lia|]. by intros ??? [= <- <- <-]. }
  destruct (build_page_Ok (with_head source h) _ _ bound limit scan_ref start Hin Hlim Href Hst canon provider_sign provider_verify)
    as (next & proof & ref & Hbuild & Hcur & Hver & Hrf).
  exists next, proof, ref. split; [|done].
  erewrite (read_changes_start (with_head source h) (Continue cursor) limit scan_ref start); [|done|done|].
  { by rewrite (Hbuild : build_page _ _ _ (scan_changes _) (scan_baseline _) _ _ _ _ = _). }
  unfold start_of. destruct (scan_epoch_Ok (with_head source h) scan_ref (rd_source _ Hr) Href) as [eps ->].
  cbn [mbind result_bind]. unfold continue_scan. rewrite Hun. cbn [mbind result_bind with_head cs_scan_head cs_source_version
    ac_scan_ref ac_scan_epoch ac_sequence ac_pending_cursor ac_page_ref ac_checkpoint_ref].
  rewrite Hv, Hsr, He, !bool_decide_eq_true_2, (proj2 (Z.leb_le _ _)) by done. cbn [andb]. rewrite Hdec. cbn [mbind result_bind].
  rewrite (Hmatch : _cursor_matches d (with_head source h) _ _ _ (len (scan_changes (with_head source h))) _ = _). done.
Qed.
End Reading.
