(* ===== verification/ControlContracts.v ===== *)
(** * Commands and results of Context Control

    [src/engine/control/file_imports.py], [file_deletions.py],
    [file_source_offboarding.py], [file_source_progress.py], [feishu_acl.py] and
    [article_access_policy.py]: the closed shapes of what operators ask and what the
    store answers. *)

From S2P Require Import Prelude Codec Datetime Json Trusted ArticlePolicy BulkPolicy FileChanges.

Definition MAX_BIGINT : Z := 2 ^ 63 - 1.
Definition positive_bigint (z : Z) : bool := (1 <=? z) && (z <=? MAX_BIGINT).

(** ** Imports *)

Definition FILE_IMPORT_WORKLOAD : pystr := lit "supply.file-import".
Definition FILE_IMPORT_WORKER_AUDIENCE : pystr := lit "context-engine-worker".
Definition FILE_IMPORT_OPERATION : pystr := lit "file.import".

(** [file_imports._require_token] *)
Definition require_import_token (value : pystr) : result unit :=
  require (negb (blank value) && bool_decide (value = strip value) && (len value <=? 255)
           && negb (existsb is_space value)) ValueError.

Record FileImportAudience := mkAudience { au_principal_ref : pystr; au_membership_id : UUID; au_membership_version : Z }.
Definition check_audience (a : FileImportAudience) : result unit :=
  require_import_token (au_principal_ref a) ;; require (positive_bigint (au_membership_version a)) ValueError.

Record PrepareFileImport := mkPrepareImport {
  pi_source_ref : UUID;
  pi_path : pystr;
  pi_audience : FileImportAudience;
  pi_idempotency_key : pystr
}.
Definition check_prepare_import (c : PrepareFileImport) : result unit := require_import_token (pi_idempotency_key c).

Record ScheduleFileChangePage := mkSchedulePage {
  sp_source_ref : UUID;
  sp_source_version_ref : UUID;
  sp_page_ref : pystr;
  sp_audience : FileImportAudience
}.
Definition check_schedule_page (c : ScheduleFileChangePage) : result unit := require_sha256 (sp_page_ref c).

(** [PreparedFileImport]: its last three fields have their declared value. *)
Record PreparedFileImport := mkPreparedImport {
  pr_organization_id : UUID;
  pr_job_id : UUID;
  pr_source_ref : UUID;
  pr_service_principal_id : UUID
}.

Record ScheduledFileChange := mkScheduledChange {
  sd_ordinal : Z;
  sd_path : pystr;
  sd_content_sha256 : pystr;
  sd_content_length : Z;
  sd_prepared_import : PreparedFileImport
}.
Definition ordinal_ok (z : Z) : bool := (1 <=? z) && (z <=? 100).
Definition check_scheduled_change (c : ScheduledFileChange) : result unit :=
  require (ordinal_ok (sd_ordinal c)) ValueError ;; require_sha256 (sd_content_sha256 c) ;;
  require (0 <=? sd_content_length c) ValueError.

Record ScheduledFileChangePage := mkScheduledPage {
  sg_organization_id : UUID;
  sg_source_ref : UUID;
  sg_source_version_ref : UUID;
  sg_page_ref : pystr;
  sg_changes : list ScheduledFileChange
}.
Fixpoint increasing (l : list Z) : bool :=
  match l with x :: (y :: _) as l' => (x <? y) && increasing l' | _ => true end.
Definition check_scheduled_page (p : ScheduledFileChangePage) : result unit :=
  require_sha256 (sg_page_ref p) ;;
  require (match sg_changes p with [] => false | _ => true end) TypeError ;;
  require (increasing (sd_ordinal <$> sg_changes p)) ValueError ;;
  require (forallb (λ c, bool_decide (pr_organization_id (sd_prepared_import c) = sg_organization_id p)
                         && bool_decide (pr_source_ref (sd_prepared_import c) = sg_source_ref p)) (sg_changes p)) ValueError.

(** ** Deletions *)

Record ExecuteFileDeleteObservation := mkExecuteDelete {
  ed_source_ref : UUID;
  ed_source_version_ref : UUID;
  ed_page_ref : pystr;
  ed_change_ordinal : Z
}.
Definition check_execute_delete (c : ExecuteFileDeleteObservation) : result unit :=
  require_sha256 (ed_page_ref c) ;; require (ordinal_ok (ed_change_ordinal c)) ValueError.

(** [_FILE_RESOURCE_REF.fullmatch] *)
Definition file_resource_ref (s : pystr) : bool :=
  startswith (lit "resource:file:") s && (len s =? 78) && all_in hex_alphabet (drop 14 s).

Record TombstoneFileResource := mkTombstone {
  tf_source_ref : UUID;
  tf_resource_ref : pystr;
  tf_event_ref : pystr;
  tf_event_sequence : Z
}.
Definition check_tombstone_command (c : TombstoneFileResource) : result unit :=
  require (file_resource_ref (tf_resource_ref c)) ValueError ;; _require_token (tf_event_ref c) ;;
  require (positive_bigint (tf_event_sequence c)) ValueError.

Record FileResourceTombstone := mkFileTombstone {
  ft_organization_id : UUID;
  ft_source_ref : UUID;
  ft_resource_ref : pystr;
  ft_revision_ref : UUID;
  ft_event_ref : pystr;
  ft_event_sequence : Z;
  ft_policy_epoch : Z;
  ft_cleanup_intent_ref : UUID;
  ft_tombstoned_at : datetime
}.
Definition check_tombstone (t : FileResourceTombstone) : result unit :=
  require (file_resource_ref (ft_resource_ref t)) ValueError ;; _require_token (ft_event_ref t) ;;
  each (λ z, require (positive_bigint z) ValueError) [ft_event_sequence t; ft_policy_epoch t] ;;
  require_utc (ft_tombstoned_at t) ;; Ok tt.

Record ExecutedFileDeleteObservation := mkExecutedDelete {
  xd_organization_id : UUID;
  xd_source_ref : UUID;
  xd_source_version_ref : UUID;
  xd_page_ref : pystr;
  xd_change_ordinal : Z;
  xd_tombstone : FileResourceTombstone
}.
Definition check_executed_delete (x : ExecutedFileDeleteObservation) : result unit :=
  require_sha256 (xd_page_ref x) ;; require (ordinal_ok (xd_change_ordinal x)) ValueError ;;
  require (bool_decide (ft_organization_id (xd_tombstone x) = xd_organization_id x)
           && bool_decide (ft_source_ref (xd_tombstone x) = xd_source_ref x)) ValueError.

(** ** Offboarding *)

Inductive FileSourceCleanupState := CLEANUP_PENDING.
Record FileSourceOffboarding := mkOffboarding {
  of_organization_id : UUID;
  of_source_ref : UUID;
  of_source_version_ref : UUID;
  of_policy_epoch : Z;
  of_cleanup_intent_ref : UUID;
  of_cancelled_job_count : Z;
  of_retained_resource_count : Z;
  of_security_completed_at : datetime;
  of_cleanup_state : FileSourceCleanupState
}.
Definition check_offboarding (o : FileSourceOffboarding) : result unit :=
  require (positive_bigint (of_policy_epoch o)) ValueError ;;
  each (λ z, require ((0 <=? z) && (z <=? MAX_BIGINT)) ValueError) [of_cancelled_job_count o; of_retained_resource_count o] ;;
  require_utc (of_security_completed_at o) ;; Ok tt.

(** ** Progress *)

Inductive FileSourceChangeKind := FILE_IMPORT | FILE_CHANGE_PAGE | FILE_TOMBSTONE.
Inductive FileSourcePublishOutcome := PUBLISHED | REPLACED | UNCHANGED | TOMBSTONED.
Inductive FileCompilationRefusalCategory := INVALID_UTF8 | UNSUPPORTED_CONSTRUCT | UNSUPPORTED_DOCUMENT_SHAPE.
Inductive FileScanRefusalCategory := SCAN_BOUND_EXCEEDED.
#[export] Instance FileSourceChangeKind_eq_dec : EqDecision FileSourceChangeKind.
Proof. solve_decision. Defined.
#[export] Instance FileSourcePublishOutcome_eq_dec : EqDecision FileSourcePublishOutcome.
Proof. solve_decision. Defined.

Definition _require_progress_ref (value prefix : pystr) : result unit :=
  _require_token value ;; require (startswith prefix value && is_sha256_hex (removeprefix prefix value)) ValueError.
Definition progress_sequence (z : Z) : result unit := require (positive_bigint z) ValueError.
Definition progress_resource_ref (value : option pystr) : result unit :=
  match value with None => Err ValueError | Some s => _require_bounded_text (OStr s) 512 ;; Ok tt end.

Record PendingFileChangeSchedule := mkPendingSchedule { pc_source_version_ref : UUID; pc_page_ref : pystr }.
Definition check_pending_schedule (p : PendingFileChangeSchedule) : result unit := _require_progress_ref (pc_page_ref p) [].

Record FileCompilationRefusal := mkRefusal { fr_path : pystr; fr_category : FileCompilationRefusalCategory }.
Definition check_refusal (r : FileCompilationRefusal) : result unit := new_FileImportPath (fr_path r) ;; Ok tt.

Record FileSourceStatus := mkStatus {
  fs_observed_at : datetime;
  fs_active_resource_count : Z;
  fs_last_successful_acquisition_at : option datetime;
  fs_last_successful_acquisition_age_seconds : option Z;
  fs_refusals : list FileCompilationRefusal;
  fs_scan_refusal_category : option FileScanRefusalCategory;
  fs_scan_refusal_bound : option Z
}.
Definition check_status (s : FileSourceStatus) : result unit :=
  require_utc (fs_observed_at s) ;;
  require (0 <=? fs_active_resource_count s) ValueError ;;
  match fs_last_successful_acquisition_at s, fs_last_successful_acquisition_age_seconds s with
  | None, age => require (is_none age) ValueError
  | Some at_, age =>
      require_utc at_ ;; require (match age with Some z => 0 <=? z | None => false end) ValueError
  end ;;
  let paths := fr_path <$> fs_refusals s in
  require (canonical_order paths) ValueError ;; require (nodupb paths) ValueError ;;
  match fs_scan_refusal_category s, fs_scan_refusal_bound s with
  | None, b => require (is_none b) ValueError
  | Some _, Some b => require ((1 <=? b) && (b <=? MAX_CONFIGURED_FILE_CHANGE_BASELINE_SIZE)) ValueError
  | Some _, None => Err ValueError
  end.

(** The lineage of one progress signal. *)
Record lineage := mkLineage {
  ln_change_kind : FileSourceChangeKind;
  ln_acquisition_ref : option UUID;
  ln_job_ref : option UUID;
  ln_cleanup_intent_ref : option UUID;
  ln_resource_ref : option pystr;
  ln_revision_ref : option UUID;
  ln_event_ref : option pystr;
  ln_event_sequence : option Z;
  ln_source_version_ref : option UUID;
  ln_change_page_ref : option pystr
}.
Definition require_resource_lineage (l : lineage) : result unit :=
  progress_resource_ref (ln_resource_ref l) ;; require (negb (is_none (ln_revision_ref l))) TypeError.
Definition _require_lineage (allow_unresolved_import_resource : bool) (l : lineage) : result unit :=
  match ln_change_kind l with
  | FILE_IMPORT =>
      require (negb (is_none (ln_acquisition_ref l)) && negb (is_none (ln_job_ref l))) TypeError ;;
      require (is_none (ln_cleanup_intent_ref l) && is_none (ln_event_ref l) && is_none (ln_event_sequence l)
               && is_none (ln_source_version_ref l) && is_none (ln_change_page_ref l)) ValueError ;;
      if allow_unresolved_import_resource && is_none (ln_resource_ref l) && is_none (ln_revision_ref l)
      then Ok tt else require_resource_lineage l
  | FILE_TOMBSTONE =>
      require (negb (is_none (ln_cleanup_intent_ref l))) TypeError ;;
      require (is_none (ln_acquisition_ref l) && is_none (ln_job_ref l)) ValueError ;;
      match ln_event_ref l with None => Err ValueError | Some e => _require_token e end ;;
      match ln_event_sequence l with None => Err ValueError | Some z => progress_sequence z end ;;
      require (is_none (ln_source_version_ref l) && is_none (ln_change_page_ref l)) ValueError ;;
      require_resource_lineage l
  | FILE_CHANGE_PAGE =>
      require (negb (is_none (ln_source_version_ref l))) TypeError ;;
      match ln_change_page_ref l with None => Err ValueError | Some p => require_sha256 p end ;;
      require (is_none (ln_acquisition_ref l) && is_none (ln_job_ref l) && is_none (ln_cleanup_intent_ref l)
               && is_none (ln_resource_ref l) && is_none (ln_revision_ref l) && is_none (ln_event_ref l)
               && is_none (ln_event_sequence l)) ValueError
  end.

Record FileSourceAcquisitionCheckpoint := mkCheckpoint {
  ck_sequence : Z;
  ck_checkpoint_ref : pystr;
  ck_lineage : lineage;
  ck_accepted_at : datetime
}.
Definition check_checkpoint (c : FileSourceAcquisitionCheckpoint) : result unit :=
  progress_sequence (ck_sequence c) ;; _require_progress_ref (ck_checkpoint_ref c) (lit "facp_") ;;
  _require_lineage true (ck_lineage c) ;; require_utc (ck_accepted_at c) ;; Ok tt.

(** A watermark has no source version and no page. *)
Definition without_page (l : lineage) : lineage :=
  mkLineage (ln_change_kind l) (ln_acquisition_ref l) (ln_job_ref l) (ln_cleanup_intent_ref l) (ln_resource_ref l)
    (ln_revision_ref l) (ln_event_ref l) (ln_event_sequence l) None None.
Record FileSourcePublishWatermark := mkWatermark {
  wm_sequence : Z;
  wm_watermark_ref : pystr;
  wm_checkpoint_ref : pystr;
  wm_outcome : FileSourcePublishOutcome;
  wm_lineage : lineage;
  wm_published_at : datetime
}.
Definition check_watermark (w : FileSourcePublishWatermark) : result unit :=
  progress_sequence (wm_sequence w) ;; _require_progress_ref (wm_watermark_ref w) (lit "fpwm_") ;;
  _require_progress_ref (wm_checkpoint_ref w) (lit "facp_") ;;
  require (negb (bool_decide (ln_change_kind (wm_lineage w) = FILE_CHANGE_PAGE))) ValueError ;;
  _require_lineage false (without_page (wm_lineage w)) ;;
  require (Bool.eqb (bool_decide (ln_change_kind (wm_lineage w) = FILE_TOMBSTONE)) (bool_decide (wm_outcome w = TOMBSTONED)))
    ValueError ;;
  require_utc (wm_published_at w) ;; Ok tt.

Record FileSourceProgress := mkProgress {
  pg_organization_id : UUID;
  pg_source_ref : UUID;
  pg_acquisition_checkpoint : option FileSourceAcquisitionCheckpoint;
  pg_publish_watermark : option FileSourcePublishWatermark;
  pg_change_scan_head : option FileChangeScanHead;
  pg_complete_change_baseline : option FileChangeBaseline;
  pg_pending_change_schedules : list PendingFileChangeSchedule;
  pg_status : option FileSourceStatus
}.
Definition check_progress_head (checkpoint : option FileSourceAcquisitionCheckpoint) (h : FileChangeScanHead) : result unit :=
  match checkpoint with
  | None => Err ValueError
  | Some c =>
      require (sh_sequence h <=? ck_sequence c) ValueError ;;
      require (negb ((sh_sequence h =? ck_sequence c)
        && (negb (bool_decide (sh_checkpoint_ref h = ck_checkpoint_ref c))
            || negb (bool_decide (ln_change_kind (ck_lineage c) = FILE_CHANGE_PAGE))
            || negb (bool_decide (Some (sh_source_version_ref h) = ln_source_version_ref (ck_lineage c)))
            || negb (bool_decide (Some (sh_page_ref h) = ln_change_page_ref (ck_lineage c)))))) ValueError
  end.
Definition check_progress_baseline (checkpoint : option FileSourceAcquisitionCheckpoint) (head : option FileChangeScanHead)
    (b : FileChangeBaseline) : result unit :=
  match checkpoint with
  | None => Err ValueError
  | Some c =>
      require (br_sequence (bl_reference b) <=? ck_sequence c) ValueError ;;
      when_some (λ h, require (bool_decide (br_source_version_ref (bl_reference b) = sh_source_version_ref h)) ValueError) head
  end.
Definition check_progress (p : FileSourceProgress) : result unit :=
  when_some (check_progress_head (pg_acquisition_checkpoint p)) (pg_change_scan_head p) ;;
  when_some (check_progress_baseline (pg_acquisition_checkpoint p) (pg_change_scan_head p)) (pg_complete_change_baseline p) ;;
  require (nodupb (pc_page_ref <$> pg_pending_change_schedules p)) ValueError ;;
  require (match pg_pending_change_schedules p, pg_change_scan_head p with
           | [], _ => true
           | _, None => false
           | l, Some h => forallb (λ q, bool_decide (pc_source_version_ref q = sh_source_version_ref h)) l
           end) ValueError ;;
  match pg_publish_watermark p with
  | None => Ok tt
  | Some w =>
      match pg_acquisition_checkpoint p with
      | None => Err ValueError
      | Some c =>
          require (wm_sequence w <=? ck_sequence c) ValueError ;;
          require (negb ((wm_sequence w =? ck_sequence c) && negb (bool_decide (wm_checkpoint_ref w = ck_checkpoint_ref c))))
            ValueError
      end
  end.

(** ** Feishu ACL observations *)

Definition require_acl_ref (value : pystr) : result unit :=
  require (negb (bool_decide (value = [])) && bool_decide (value = strip value) && (len value <=? 512)
           && negb (existsb is_space value)) ValueError.
Definition check_apply_feishu_acl (page_ref document_ref : pystr) : result unit :=
  require_acl_ref page_ref ;; require_acl_ref document_ref.
Definition check_applied_feishu_acl (document_ref : pystr) (observation_version policy_epoch : Z) (published tombstoned : bool) :
    result unit :=
  require_acl_ref document_ref ;;
  each (λ z, require (1 <=? z) ValueError) [observation_version; policy_epoch] ;;
  require (negb (tombstoned && published)) ValueError.

(** ** Article policy defaults *)

Record SetTenantArticlePolicyDefault := mkTenantDefault { td_expected_version : Z; td_setting : option ArticleAccessPolicySetting }.
Record SetSourceArticlePolicyDefault := mkSourceDefault {
  sdf_source_ref : pystr;
  sdf_expected_version : Z;
  sdf_setting : option ArticleAccessPolicySetting
}.
Definition check_tenant_default (c : SetTenantArticlePolicyDefault) : result unit :=
  require (1 <=? td_expected_version c) ValueError ;; when_some _require_policy_setting_shape (td_setting c).
Definition check_source_default (c : SetSourceArticlePolicyDefault) : result unit :=
  require (negb (blank (sdf_source_ref c))) ValueError ;;
  require (1 <=? sdf_expected_version c) ValueError ;; when_some _require_policy_setting_shape (sdf_setting c).

(** [RegisterFileSource]; the source locator of the other commands is a UUID. *)
Record RegisterFileSource := mkRegister { rf_display_name : pystr; rf_root_ref : pystr; rf_idempotency_key : pystr }.
