(* ===== verification/Control.v ===== *)
(** * Context Control

    [src/engine/control/authority.py] (an operator authority that hands out calls for
    one operation, to be used once), [control/module.py] ([ContextControl]) and
    [control/minimal_ui.py].

    The authenticator's and the store's answers, the clock and the random tokens are
    arguments; a store's answer [Ok None] is a value of a type the port does not
    declare.  Operations run in a monad over the authority's table of calls that
    records every call on the store. *)

From S2P Require Import Prelude Codec Sha256 Datetime Json Trusted TicketIdentity ArticlePolicy BulkPolicy FileChanges ControlContracts.

(** ** Operator authority *)

Inductive ControlOperation :=
  | ACCEPT_FILE_CHANGE_PAGE
  | ACTIVATE_FILE_CHANGE_FEED
  | ACTIVATE_FILE_DELETE_OBSERVATIONS
  | CHANGE_ARTICLE_POLICY
  | COMMIT_BULK_ARTICLE_POLICY_CHANGE
  | EXECUTE_FILE_DELETE_OBSERVATION
  | IMPORT_FILE
  | OFFBOARD_FILE_SOURCE
  | PREVIEW_BULK_ARTICLE_POLICY_CHANGE
  | REGISTER_SOURCE
  | READ_ARTICLE_POLICY
  | READ_SOURCE
  | READ_SOURCE_PROGRESS
  | SCHEDULE_FILE_CHANGE_PAGE
  | SET_SOURCE_ARTICLE_POLICY_DEFAULT
  | SET_TENANT_ARTICLE_POLICY_DEFAULT
  | TOMBSTONE_FILE_RESOURCE.
#[export] Instance ControlOperation_eq_dec : EqDecision ControlOperation.
Proof. solve_decision. Defined.
Definition operation_value (o : ControlOperation) : pystr :=
  lit match o with
      | ACCEPT_FILE_CHANGE_PAGE => "accept_file_change_page"
      | ACTIVATE_FILE_CHANGE_FEED => "activate_file_change_feed"
      | ACTIVATE_FILE_DELETE_OBSERVATIONS => "activate_file_delete_observations"
      | CHANGE_ARTICLE_POLICY => "change_article_policy"
      | COMMIT_BULK_ARTICLE_POLICY_CHANGE => "commit_bulk_article_policy_change"
      | EXECUTE_FILE_DELETE_OBSERVATION => "execute_file_delete_observation"
      | IMPORT_FILE => "import_file"
      | OFFBOARD_FILE_SOURCE => "offboard_file_source"
      | PREVIEW_BULK_ARTICLE_POLICY_CHANGE => "preview_bulk_article_policy_change"
      | REGISTER_SOURCE => "register_source"
      | READ_ARTICLE_POLICY => "read_article_policy"
      | READ_SOURCE => "read_source"
      | READ_SOURCE_PROGRESS => "read_source_progress"
      | SCHEDULE_FILE_CHANGE_PAGE => "schedule_file_change_page"
      | SET_SOURCE_ARTICLE_POLICY_DEFAULT => "set_source_article_policy_default"
      | SET_TENANT_ARTICLE_POLICY_DEFAULT => "set_tenant_article_policy_default"
      | TOMBSTONE_FILE_RESOURCE => "tombstone_file_resource"
      end.

Record VerifiedControlOperatorIdentity := mkOperatorIdentity {
  oi_organization_id : UUID;
  oi_operator_ref : pystr;
  oi_authentication_binding_ref : pystr;
  oi_authority_ref : pystr;
  oi_allowed_operations : list ControlOperation;
  oi_valid_from : datetime;
  oi_expires_at : datetime
}.
Definition bounded_ref (s : pystr) : result unit := _require_bounded_text (OStr s) 256 ;; Ok tt.
Definition check_operator_identity (i : VerifiedControlOperatorIdentity) : result unit :=
  each bounded_ref [oi_operator_ref i; oi_authentication_binding_ref i; oi_authority_ref i] ;;
  require (match oi_allowed_operations i with [] => false | _ => true end) ValueError ;;
  valid_from ← require_utc (oi_valid_from i);
  expires_at ← require_utc (oi_expires_at i);
  require (dt_ltb valid_from expires_at) ValueError.

(** What a call says, besides its nonce. *)
Record control_claims := mkClaims {
  cc_organization_id : UUID;
  cc_operator_ref : pystr;
  cc_authentication_binding_ref : pystr;
  cc_authority_ref : pystr;
  cc_operation : ControlOperation;
  cc_request_id : pystr;
  cc_issued_at : datetime;
  cc_expires_at : datetime
}.
(** A scope carries the seal of its issuer; [scope_sealed] is the module's own seal. *)
Record _ControlAuthorityScope := mkControlScope { scope_issuer : nat; scope_nonce : pybytes; scope_sealed : bool }.
Record TrustedControlCall := mkControlCall {
  tc_claims : control_claims;
  tc_digest : pybytes;
  tc_scope : _ControlAuthorityScope
}.

(** The authority's constants, and its mutable table of calls: [False] while a call
    may still be used. *)
Record ControlOperatorAuthority := mkControlAuthority { co_call_key : pybytes; co_call_ttl : Z; co_issuer : nat }.
Abbreviation active_calls := (list (list Z * bool)) (only parsing).
Definition new_ControlOperatorAuthority (key : pybytes) (call_ttl : Z) (issuer : nat) :
    result (ControlOperatorAuthority * active_calls) :=
  require (0 <? call_ttl) ValueError ;; Ok (mkControlAuthority key call_ttl issuer, []).

Definition control_call_document (c : control_claims) (nonce : pybytes) : json :=
  JObj [(lit "authenticationBindingRef", JStr (cc_authentication_binding_ref c));
        (lit "authorityRef", JStr (cc_authority_ref c));
        (lit "expiresAt", JStr (isoformat (cc_expires_at c)));
        (lit "issuedAt", JStr (isoformat (cc_issued_at c)));
        (lit "nonce", JStr (hex nonce));
        (lit "operation", JStr (operation_value (cc_operation c)));
        (lit "operatorRef", JStr (cc_operator_ref c));
        (lit "organizationId", JStr (uuid_str (cc_organization_id c)));
        (lit "requestId", JStr (cc_request_id c))].
Definition _CONTROL_CALL_DOMAIN : pybytes := lit "context-engine.control-call.v1" ++ [0].
Definition control_call_message (c : control_claims) (nonce : pybytes) : result pybytes :=
  payload ← BulkPolicy.json_text (control_call_document c nonce); Ok (_CONTROL_CALL_DOMAIN ++ payload).

Definition _control_call_digest (key : pybytes) (c : control_claims) (nonce : pybytes) : result pybytes :=
  require (len key =? 32) ValueError ;;
  each bounded_ref [cc_operator_ref c; cc_authentication_binding_ref c; cc_authority_ref c; cc_request_id c] ;;
  require_utc (cc_issued_at c) ;; require_utc (cc_expires_at c) ;;
  require (len nonce =? 32) ValueError ;;
  message ← control_call_message c nonce;
  Ok (hmac_sha256 key message).

(** The claims of a new call: [answer] is the authenticator's ([Ok None]: not an
    identity), [now] the clock's. *)
Definition authorized_claims (a : ControlOperatorAuthority) (opaque_credential : pystr) (operation : ControlOperation)
    (request_id : pystr) (answer : result (option VerifiedControlOperatorIdentity)) (now : datetime) : result control_claims :=
  require (negb (blank opaque_credential)) ControlOperatorAuthenticationRejected ;;
  bounded_ref request_id ;;
  identity ← match answer with
             | Ok (Some i) => Ok i
             | Err ControlOperatorAuthenticationRejected => Err ControlOperatorAuthenticationRejected
             | _ => Err ControlOperatorAuthorityUnavailable
             end;
  now ← require_utc now;
  require (bool_decide (operation ∈ oi_allowed_operations identity) && negb (dt_ltb now (oi_valid_from identity))
           && dt_ltb now (oi_expires_at identity)) ControlOperatorAuthenticationRejected ;;
  bound ← dt_add now (co_call_ttl a);
  Ok (mkClaims (oi_organization_id identity) (oi_operator_ref identity) (oi_authentication_binding_ref identity)
        (oi_authority_ref identity) operation request_id now (dt_min (oi_expires_at identity) bound)).
(** [authorize] and [_authorized_call] up to the [yield]; [nonce] is the random token,
    entered in the table before the digest is computed. *)
Definition authorize (a : ControlOperatorAuthority) (opaque_credential : pystr) (operation : ControlOperation)
    (request_id : pystr) (answer : result (option VerifiedControlOperatorIdentity)) (now : datetime) (nonce : pybytes)
    (active : active_calls) : result TrustedControlCall * active_calls :=
  match authorized_claims a opaque_credential operation request_id answer now with
  | Err e => (Err e, active)
  | Ok claims =>
      (digest ← _control_call_digest (co_call_key a) claims nonce;
       Ok (mkControlCall claims digest (mkControlScope (co_issuer a) nonce true)),
       dict_set active nonce false)
  end.

(** [self._active_calls.pop(scope.nonce, None)] on leaving the context. *)
Definition dict_pop {K V} `{!EqDecision K} (d : list (K * V)) (k : K) : list (K * V) := filter (λ kv, kv.1 ≠ k) d.
Definition leave (call : TrustedControlCall) (active : active_calls) : active_calls := dict_pop active (scope_nonce (tc_scope call)).

Definition _validate_and_consume_control_call (a : ControlOperatorAuthority) (call : TrustedControlCall)
    (expected_operation : ControlOperation) (checked_at : datetime) (active : active_calls) : result active_calls :=
  let scope := tc_scope call in
  let claims := tc_claims call in
  expected_digest ← try_except (_control_call_digest (co_call_key a) claims (scope_nonce scope))
                      (λ e, is_ValueError e || is_TypeError e || bool_decide (e = AttributeError))
                      (Err ControlOperatorAuthenticationRejected);
  require (scope_sealed scope && bool_decide (scope_issuer scope = co_issuer a)
           && bool_decide (cc_operation claims = expected_operation) && bool_decide (tc_digest call = expected_digest))
    ControlOperatorAuthenticationRejected ;;
  now ← require_utc checked_at;
  require (negb (dt_ltb now (cc_issued_at claims)) && dt_ltb now (cc_expires_at claims))
    ControlOperatorAuthenticationRejected ;;
  require (bool_decide (dict_get active (scope_nonce scope) = Some false)) ControlOperatorAuthenticationRejected ;;
  Ok (dict_set active (scope_nonce scope) true).

(** [MinimalUiControlGate.consume] *)
Definition gate_consume (a : ControlOperatorAuthority) (call : TrustedControlCall) (organization_id : UUID)
    (operation : ControlOperation) (checked_at : datetime) (active : active_calls) : result unit * active_calls :=
  match _validate_and_consume_control_call a call operation checked_at active with
  | Err e => (Err e, active)
  | Ok active' =>
      (require (bool_decide (cc_organization_id (tc_claims call) = organization_id)) ControlOperatorAuthenticationRejected, active')
  end.

(** ** ContextControl *)

(** The calls on the store ports. *)
Inductive store_call :=
  | CallAcceptPage (page : VerifiedChangePage)
  | CallReportBound (source_ref : UUID) (scan_bound : Z)
  | CallClearBound (source_ref : UUID)
  | CallActivateFeed (source_ref : UUID)
  | CallActivateDeletes (source_ref : UUID)
  | CallOffboard (source_ref : UUID)
  | CallRegister (command : RegisterFileSource)
  | CallReadSource (source_ref : UUID)
  | CallListSources
  | CallPrepareImport (command : PrepareFileImport)
  | CallReadProgress (source_ref : UUID)
  | CallSchedule (command : ScheduleFileChangePage)
  | CallTombstone (command : TombstoneFileResource)
  | CallExecuteDelete (command : ExecuteFileDeleteObservation)
  | CallTenantDefault (command : SetTenantArticlePolicyDefault)
  | CallSourceDefault (command : SetSourceArticlePolicyDefault)
  | CallPreview (organization_id : UUID) (command : BulkArticlePolicyChange)
  | CallChangeAccess (commit : BulkArticlePolicyCommit).

(** The monad of one operation. *)
Definition control (A : Type) : Type := active_calls → result A * (list (list Z * bool) * list store_call).
Definition lift {A} (m : result A) : control A := λ active, (m, (active, [])).
#[export] Instance control_bind : MBind control := λ A B f m active,
  match m active with
  | (Err e, w) => (Err e, w)
  | (Ok a, (active', calls)) => let '(r, (active'', calls')) := f a active' in (r, (active'', calls ++ calls'))
  end.

(** A call on the store and its answer. *)
Definition invoke {A} (c : store_call) (answer : result A) : control A := λ active, (answer, (active, [c])).

(** [except (ControlOperatorAuthenticationRejected, SourceNotAvailable)] and the
    handlers after it; [SourceScanRefused] is a subclass. *)
Definition closed_error (e : exn) : exn :=
  match e with
  | ControlOperatorAuthenticationRejected | SourceNotAvailable | SourceScanRefused => SourceNotAvailable
  | _ => SourceControlUnavailable
  end.
Definition guarded {A} (m : control A) : control A :=
  λ active, match m active with (Err e, w) => (Err (closed_error e), w) | r => r end.

(** A reply of the declared type that satisfies [exact]. *)
Definition exact_reply {A} (exact : A → bool) (reply : option A) : control A :=
  lift match reply with
       | Some a => require (exact a) SourceControlUnavailable ;; Ok a
       | None => Err SourceControlUnavailable
       end.
Definition any_reply {A} : option A → control A := exact_reply (λ _, true).

Section ContextControl.
Context (a : ControlOperatorAuthority) (now : datetime).

Definition consume (call : TrustedControlCall) (operation : ControlOperation) : control unit := λ active,
  match _validate_and_consume_control_call a call operation now active with
  | Ok active' => (Ok tt, (active', []))
  | Err e => (Err e, (active, []))
  end.

Abbreviation org call := (cc_organization_id (tc_claims call)).

(** [accept_file_change_page]: [verify] is [proofs.verify_page], absent without proofs. *)
Definition accept_file_change_page (verify : option (ChangePage → result (option VerifiedChangePage)))
    (call : TrustedControlCall) (page : ChangePage) (answer : result (option AcceptedChangePage)) : control AcceptedChangePage :=
  guarded (
    consume call ACCEPT_FILE_CHANGE_PAGE ;;
    match verify with
    | None => lift (Err SourceNotAvailable)
    | Some verify_page =>
        lift (require (bool_decide (cp_organization_id page = org call)) SourceNotAvailable) ;;
        verified ← lift (verify_page page);
        match verified with
        | None => lift (Err SourceNotAvailable)
        | Some v =>
            reply ← invoke (CallAcceptPage v) answer;
            exact_reply (λ r, bool_decide (ap_source_ref r = cp_source_ref page)
              && bool_decide (ap_source_version_ref r = cp_source_version_ref page)
              && bool_decide (ap_scan_ref r = cp_scan_ref page)
              && bool_decide (ap_scan_epoch r = cp_scan_epoch page)
              && (ap_scan_bound r =? cp_scan_bound page)
              && (ap_page_limit r =? cp_page_limit page)
              && (negb (is_none (cp_predecessor_page_ref page))
                  || bool_decide (ap_superseded_scan_epoch r = cp_superseded_scan_epoch page))
              && bool_decide (ap_page_ref r = vp_page_ref v)
              && (ap_change_count r =? len (cp_changes page))
              && Bool.eqb (ap_complete r) (cp_complete page)) reply
        end
    end).

Definition report_file_scan_bound_refusal (call : TrustedControlCall) (source_ref : UUID) (scan_bound : Z) (answer : result unit) :
    control unit :=
  guarded (consume call ACCEPT_FILE_CHANGE_PAGE ;; invoke (CallReportBound source_ref scan_bound) answer).
Definition clear_file_scan_bound_refusal (call : TrustedControlCall) (source_ref : UUID) (answer : result unit) : control unit :=
  guarded (consume call ACCEPT_FILE_CHANGE_PAGE ;; invoke (CallClearBound source_ref) answer).

(** [_require_manifest], then the requested source. *)
Definition manifest_of (source_ref : UUID) (m : SourceManifest) : bool := bool_decide (sm_source_ref m = source_ref).
Definition activate_file_change_feed (call : TrustedControlCall) (source_ref : UUID) (answer : result (option SourceManifest)) :
    control SourceManifest :=
  guarded (consume call ACTIVATE_FILE_CHANGE_FEED ;; reply ← invoke (CallActivateFeed source_ref) answer;
           exact_reply (manifest_of source_ref) reply).
Definition activate_file_delete_observations (call : TrustedControlCall) (source_ref : UUID)
    (answer : result (option SourceManifest)) : control SourceManifest :=
  guarded (consume call ACTIVATE_FILE_DELETE_OBSERVATIONS ;; reply ← invoke (CallActivateDeletes source_ref) answer;
           exact_reply (manifest_of source_ref) reply).
Definition register_source (call : TrustedControlCall) (command : RegisterFileSource) (answer : result (option SourceManifest)) :
    control SourceManifest :=
  guarded (consume call REGISTER_SOURCE ;; reply ← invoke (CallRegister command) answer; any_reply reply).
Definition read_source (call : TrustedControlCall) (source_ref : UUID) (answer : result (option SourceManifest)) :
    control SourceManifest :=
  guarded (consume call READ_SOURCE ;; reply ← invoke (CallReadSource source_ref) answer;
           exact_reply (manifest_of source_ref) reply).

(** [list_sources]; [listing] says whether the store offers the method, [None] in
    the answer a manifest of another type. *)
Definition list_sources (call : TrustedControlCall) (listing : bool) (answer : result (option (list (option SourceManifest)))) :
    control (list SourceManifest) :=
  guarded (
    consume call READ_SOURCE ;;
    lift (require listing SourceControlUnavailable) ;;
    reply ← invoke CallListSources answer;
    replies ← any_reply reply;
    manifests ← lift (map_result (λ m, match m with Some m => Ok m | None => Err SourceControlUnavailable end) replies);
    let source_refs := (λ m, uuid_int (sm_source_ref m)) <$> manifests in
    lift (require (bool_decide (source_refs = sorted source_refs) && nodupb source_refs) SourceControlUnavailable ;;
          Ok manifests)).

Definition offboard_file_source (call : TrustedControlCall) (source_ref : UUID) (answer : result (option FileSourceOffboarding)) :
    control FileSourceOffboarding :=
  guarded (consume call OFFBOARD_FILE_SOURCE ;; reply ← invoke (CallOffboard source_ref) answer;
           exact_reply (λ r, bool_decide (of_organization_id r = org call) && bool_decide (of_source_ref r = source_ref)) reply).
Definition prepare_file_import (call : TrustedControlCall) (command : PrepareFileImport)
    (answer : result (option PreparedFileImport)) : control PreparedFileImport :=
  guarded (consume call IMPORT_FILE ;; reply ← invoke (CallPrepareImport command) answer;
           exact_reply (λ r, bool_decide (pr_organization_id r = org call)
             && bool_decide (pr_source_ref r = pi_source_ref command)) reply).
Definition read_file_source_progress (call : TrustedControlCall) (source_ref : UUID)
    (answer : result (option FileSourceProgress)) : control FileSourceProgress :=
  guarded (consume call READ_SOURCE_PROGRESS ;; reply ← invoke (CallReadProgress source_ref) answer;
           exact_reply (λ r, bool_decide (pg_organization_id r = org call) && bool_decide (pg_source_ref r = source_ref)) reply).
Definition schedule_file_change_page (call : TrustedControlCall) (command : ScheduleFileChangePage)
    (answer : result (option ScheduledFileChangePage)) : control ScheduledFileChangePage :=
  guarded (consume call SCHEDULE_FILE_CHANGE_PAGE ;; reply ← invoke (CallSchedule command) answer;
           exact_reply (λ r, bool_decide (sg_organization_id r = org call)
             && bool_decide (sg_source_ref r = sp_source_ref command)
             && bool_decide (sg_source_version_ref r = sp_source_version_ref command)
             && bool_decide (sg_page_ref r = sp_page_ref command)) reply).
Definition tombstone_file_resource (call : TrustedControlCall) (command : TombstoneFileResource)
    (answer : result (option FileResourceTombstone)) : control FileResourceTombstone :=
  guarded (consume call TOMBSTONE_FILE_RESOURCE ;; reply ← invoke (CallTombstone command) answer;
           exact_reply (λ r, bool_decide (ft_organization_id r = org call)
             && bool_decide (ft_source_ref r = tf_source_ref command)
             && bool_decide (ft_resource_ref r = tf_resource_ref command)) reply).
Definition execute_file_delete_observation (call : TrustedControlCall) (command : ExecuteFileDeleteObservation)
    (answer : result (option ExecutedFileDeleteObservation)) : control ExecutedFileDeleteObservation :=
  guarded (consume call EXECUTE_FILE_DELETE_OBSERVATION ;; reply ← invoke (CallExecuteDelete command) answer;
           exact_reply (λ r, bool_decide (xd_organization_id r = org call)
             && bool_decide (xd_source_ref r = ed_source_ref command)
             && bool_decide (xd_source_version_ref r = ed_source_version_ref command)
             && bool_decide (xd_page_ref r = ed_page_ref command)
             && (xd_change_ordinal r =? ed_change_ordinal command)) reply).

(** *** Article policies *)

Definition _consume_article_policy_call (call : TrustedControlCall) (operation : ControlOperation) : control unit := λ active,
  match consume call operation active with
  | (Err ControlOperatorAuthenticationRejected, w) => (Err SourceNotAvailable, w)
  | r => r
  end.
Definition _invoke_article_policy_store {A} (c : store_call) (answer : result A) : control A := guarded (invoke c answer).

(** [store] says whether the port is configured; the answer of a default is an int. *)
Definition set_tenant_article_policy_default (store : bool) (call : TrustedControlCall)
    (command : SetTenantArticlePolicyDefault) (answer : result (option Z)) : control Z :=
  _consume_article_policy_call call SET_TENANT_ARTICLE_POLICY_DEFAULT ;;
  lift (require store SourceControlUnavailable) ;;
  reply ← _invoke_article_policy_store (CallTenantDefault command) answer;
  any_reply reply.
Definition set_source_article_policy_default (store : bool) (call : TrustedControlCall)
    (command : SetSourceArticlePolicyDefault) (answer : result (option Z)) : control Z :=
  _consume_article_policy_call call SET_SOURCE_ARTICLE_POLICY_DEFAULT ;;
  lift (require store SourceControlUnavailable) ;;
  reply ← _invoke_article_policy_store (CallSourceDefault command) answer;
  any_reply reply.

(** [command.__post_init__()] *)
Definition recheck_change (command : BulkArticlePolicyChange) : result unit :=
  new_Change (OStr <$> resource_refs command) (ch_target_policy command) ;; Ok tt.
Definition preview_bulk_article_policy_change (store : bool) (call : TrustedControlCall) (command : BulkArticlePolicyChange)
    (answer : result (option BulkArticlePolicyPreview)) : control BulkArticlePolicyPreview :=
  lift (recheck_change command) ;;
  _consume_article_policy_call call PREVIEW_BULK_ARTICLE_POLICY_CHANGE ;;
  lift (require store SourceControlUnavailable) ;;
  reply ← _invoke_article_policy_store (CallPreview (org call) command) answer;
  preview ← any_reply reply;
  lift (check_preview preview) ;;
  lift (require (bool_decide (pv_organization_id preview = org call)) SourceControlUnavailable) ;;
  lift (Ok preview).

(** [key] is the process key of the commit's seal. *)
Definition commit_bulk_article_policy_change (store : bool) (key : pybytes) (call : TrustedControlCall)
    (command : BulkArticlePolicyChange) (confirmation : BulkArticlePolicyConfirmation)
    (preview_answer : result (option BulkArticlePolicyPreview))
    (answer : BulkArticlePolicyCommit → result (option BulkArticlePolicyResult)) : control BulkArticlePolicyResult :=
  lift (recheck_change command) ;;
  lift (new_Confirmation (preview_digest confirmation)) ;;
  _consume_article_policy_call call COMMIT_BULK_ARTICLE_POLICY_CHANGE ;;
  lift (require store SourceControlUnavailable) ;;
  reply ← _invoke_article_policy_store (CallPreview (org call) command) preview_answer;
  preview ← any_reply reply;
  lift (check_preview preview) ;;
  lift (require (bool_decide (pv_organization_id preview = org call)
                 && bool_decide (digest preview = preview_digest confirmation)) SourceNotAvailable) ;;
  commit ← lift (_issue_bulk_article_policy_commit key (org call) preview (cc_operator_ref (tc_claims call))
                   (cc_authority_ref (tc_claims call)) (cc_request_id (tc_claims call)));
  reply ← _invoke_article_policy_store (CallChangeAccess commit) (answer commit);
  result ← any_reply reply;
  lift (check_result result) ;;
  lift (Ok result).
End ContextControl.
