(* ===== verification/ControlFacts.v ===== *)
(** * What Context Control guarantees

    A call that passes the check says what the authority signed; every use of the
    store belongs to a call that was issued for that operation, is used while it is
    current, and is used once; a call that does not pass has no effect. *)

From S2P Require Import Prelude Codec Sha256 Datetime Json Trusted TicketIdentity ReleaseFacts ArticlePolicy BulkPolicy FileChanges ControlContracts Control.

(** ** The message of a call determines the call *)

(** Values of the Python types. *)
Record claims_typed (c : control_claims) (nonce : pybytes) : Prop := {
  ct_organization : uuid_ok (cc_organization_id c);
  ct_operator : Forall char_ok (cc_operator_ref c);
  ct_binding : Forall char_ok (cc_authentication_binding_ref c);
  ct_authority : Forall char_ok (cc_authority_ref c);
  ct_request : Forall char_ok (cc_request_id c);
  ct_issued : datetime_ok (cc_issued_at c);
  ct_expires : datetime_ok (cc_expires_at c);
  ct_nonce : Forall byte_ok nonce
}.

Lemma bounded_str_ok s : Forall char_ok s → bounded_ref s = Ok tt → str_ok s = true.
Proof.
  intros Hc H. unfold bounded_ref, _require_bounded_text in H. apply bind_Ok in H as (? & H & _).
  apply bind_Ok in H as (? & H%require_Ok & _). apply andb_true_iff in H as [_ H].
  apply well_formed_str_ok. unfold well_formed_text. rewrite forallb_forall in H |- *. intros z Hx.
  rewrite Forall_forall in Hc. pose proof (Hc z (proj2 (list_elem_of_In _ _) Hx)) as Hr. specialize (H z Hx).
  unfold char_ok, is_surrogate in *. lia.
Qed.

Lemma hex_str_ok b : Forall byte_ok b → str_ok (hex b) = true.
Proof.
  intros Hb. apply printable_str_ok. unfold hex. apply Forall_bind. eapply Forall_impl; [exact Hb|]. intros x Hx.
  unfold byte_ok, compose, hex_byte in *. repeat apply Forall_cons_2; try apply Forall_nil_2; apply hex_digit_printable; zdiv.
Qed.
Lemma isoformat_str_ok d : is_utc d = true → str_ok (isoformat d) = true.
Proof.
  intros Hu. apply printable_str_ok. rewrite isoformat_parts by done. unfold iso_date, iso_time, iso_micros.
  destruct (ord2ymd _) as [[y m] dd]. rewrite !Forall_app. split_and!; try apply padded_printable; try by apply closed_printable.
  destruct (_ =? _); [constructor|]. rewrite Forall_app. split; [by apply closed_printable|apply padded_printable].
Qed.
Lemma operation_value_inj o o' : operation_value o = operation_value o' → o = o'.
Proof. destruct o, o'; try done; intros H; exfalso; by vm_compute in H. Qed.
Lemma operation_str_ok o : str_ok (operation_value o) = true.
Proof. by destruct o; vm_compute. Qed.

(** What the digest admits. *)
Lemma control_digest_Ok key c nonce d :
  _control_call_digest key c nonce = Ok d →
  bounded_ref (cc_operator_ref c) = Ok tt ∧ bounded_ref (cc_authentication_binding_ref c) = Ok tt
  ∧ bounded_ref (cc_authority_ref c) = Ok tt ∧ bounded_ref (cc_request_id c) = Ok tt
  ∧ is_utc (cc_issued_at c) = true ∧ is_utc (cc_expires_at c) = true
  ∧ ∃ m, control_call_message c nonce = Ok m ∧ d = hmac_sha256 key m.
Proof.
  unfold _control_call_digest. intros H. apply bind_Ok in H as (? & _ & H). apply bind_Ok in H as ([] & He%each_Ok & H).
  apply bind_Ok in H as (? & H1 & H). apply bind_Ok in H as (? & H2 & H). apply bind_Ok in H as (? & _ & H).
  apply bind_Ok in H as (m & Hm & <-%Ok_inj). unfold require_utc in H1, H2.
  apply bind_Ok in H1 as (? & H1%require_Ok & _). apply bind_Ok in H2 as (? & H2%require_Ok & _).
  rewrite !Forall_cons in He. destruct He as (? & ? & ? & ? & _). split_and!; try done. by exists m.
Qed.

Lemma control_document_ok key c n d : claims_typed c n → _control_call_digest key c n = Ok d → json_ok (control_call_document c n) = true.
Proof.
  intros [_ T2 T3 T4 T5 _ _ T8] (O & B & A & R & I & X & _)%control_digest_Ok. unfold control_call_document. cbn [json_ok].
  apply andb_true_iff. split; [reflexivity|]. cbn [forallb fst snd json_ok].
  rewrite (bounded_str_ok _ T2 O), (bounded_str_ok _ T3 B), (bounded_str_ok _ T4 A), (bounded_str_ok _ T5 R),
    !isoformat_str_ok, hex_str_ok, uuid_str_ok, operation_str_ok by done. reflexivity.
Qed.

Lemma control_message_inj key c n d c' n' d' m :
  claims_typed c n → claims_typed c' n' → _control_call_digest key c n = Ok d → _control_call_digest key c' n' = Ok d' →
  control_call_message c n = Ok m → control_call_message c' n' = Ok m → c = c' ∧ n = n'.
Proof.
  intros T T' D D' Hm Hm'. unfold control_call_message, BulkPolicy.json_text in Hm, Hm'.
  apply bind_Ok in Hm as (p & Hp & Em%Ok_inj). apply bind_Ok in Hm' as (p' & Hp' & Em'%Ok_inj).
  rewrite <- Em in Em'. apply app_inv_head in Em' as ->.
  pose proof (dumps_inj _ _ _ _ (control_document_ok _ _ _ _ T D) (control_document_ok _ _ _ _ T' D') Hp Hp') as H.
  change (sort_keys (control_call_document ?a ?b)) with (control_call_document a b) in H. unfold control_call_document in H.
  apply control_digest_Ok in D as (_ & _ & _ & _ & I & X & _), D' as (_ & _ & _ & _ & I' & X' & _).
  assert (E1 : cc_authentication_binding_ref c = cc_authentication_binding_ref c') by congruence.
  assert (E2 : cc_authority_ref c = cc_authority_ref c') by congruence.
  assert (E3 : isoformat (cc_expires_at c) = isoformat (cc_expires_at c')) by congruence.
  assert (E4 : isoformat (cc_issued_at c) = isoformat (cc_issued_at c')) by congruence.
  assert (E5 : hex n = hex n') by congruence.
  assert (E6 : operation_value (cc_operation c) = operation_value (cc_operation c')) by congruence.
  assert (E7 : cc_operator_ref c = cc_operator_ref c') by congruence.
  assert (E8 : uuid_str (cc_organization_id c) = uuid_str (cc_organization_id c')) by congruence.
  assert (E9 : cc_request_id c = cc_request_id c') by congruence. clear H Hp Hp' Em.
  destruct T as [T1 _ _ _ _ T6 T7 T8], T' as [T1' _ _ _ _ T6' T7' T8'].
  apply uuid_str_inj in E8; [|done..]. apply isoformat_inj in E3; [|done..]. apply isoformat_inj in E4; [|done..].
  apply hex_inj in E5; [|done..]. apply operation_value_inj in E6. destruct c, c'; cbn in *; subst. done.
Qed.

(** ** Operations use the store only after the call is consumed *)

(** What is left of a run when the value is forgotten. *)
Definition effect {A} (m : control A) (active : list (list Z * bool)) : option exn * (list (list Z * bool) * list store_call) :=
  match m active with (Ok _, w) => (None, w) | (Err e, w) => (Some e, w) end.

(** The part after the consumption leaves the table alone. *)
Definition keeps {A} (m : control A) : Prop := ∀ s, (m s).2.1 = s.
Lemma keeps_lift {A} (m : result A) : keeps (lift m).
Proof. by intros s. Qed.
Lemma keeps_invoke {A} c (m : result A) : keeps (invoke c m).
Proof. by intros s. Qed.
Lemma keeps_exact {A} (p : A → bool) r : keeps (exact_reply p r).
Proof. by intros s. Qed.
Lemma keeps_any {A} (r : option A) : keeps (any_reply r).
Proof. by intros s. Qed.
Lemma keeps_guarded {A} (m : control A) : keeps m → keeps (guarded m).
Proof. intros H s. unfold guarded. specialize (H s). by destruct (m s) as [[] ]. Qed.
Lemma keeps_bind {A B} (m : control A) (f : A → control B) : keeps m → (∀ x, keeps (f x)) → keeps (m ≫= f).
Proof.
  intros Hm Hf s. unfold mbind, control_bind. specialize (Hm s). destruct (m s) as [[x|e] [s' l]]; cbn in *; [|done].
  subst s'. specialize (Hf x s). by destruct (f x s) as [r [s'' l']].
Qed.
Create HintDb control discriminated.
#[export] Hint Resolve keeps_lift keeps_invoke keeps_exact keeps_any keeps_guarded keeps_bind : control.

Section Gated.
Context (a : ControlOperatorAuthority) (now : datetime).

(** A run that uses the store, or changes the table, has consumed the call. *)
Definition gated (call : TrustedControlCall) (op : ControlOperation)
    (run : list (list Z * bool) → option exn * (list (list Z * bool) * list store_call)) : Prop :=
  ∀ s, (run s).2 = (s, []) ∨ _validate_and_consume_control_call a call op now s = Ok (run s).2.1.

Lemma gated_consume {B} call op (f : unit → control B) : keeps (f tt) → gated call op (effect (consume a now call op ≫= f)).
Proof.
  intros Hf s. unfold effect, mbind, control_bind, consume.
  destruct (_validate_and_consume_control_call a call op now s) as [s'|e] eqn:E; [|by left].
  right. specialize (Hf s'). destruct (f tt s') as [[x|e'] [s'' l]]; cbn in *; congruence.
Qed.
Lemma effect_guarded {A} (m : control A) s : effect (guarded m) s = (closed_error <$> (effect m s).1, (effect m s).2).
Proof. unfold effect, guarded. by destruct (m s) as [[] ]. Qed.
Lemma gated_guarded {A} call op (m : control A) : gated call op (effect m) → gated call op (effect (guarded m)).
Proof. intros H s. rewrite effect_guarded. apply (H s). Qed.

Lemma consume_article_effect call op s : effect (_consume_article_policy_call a now call op) s
  = (match (effect (consume a now call op) s).1 with
     | Some ControlOperatorAuthenticationRejected => Some SourceNotAvailable | e => e end, (effect (consume a now call op) s).2).
Proof.
  unfold effect, _consume_article_policy_call. destruct (consume a now call op s) as [[x|e] w]; [done|]. by destruct e.
Qed.
Lemma gated_article {B} call op (f : unit → control B) :
  keeps (f tt) → gated call op (effect (_consume_article_policy_call a now call op ≫= f)).
Proof.
  intros Hf s. unfold effect, mbind, control_bind, _consume_article_policy_call, consume.
  destruct (_validate_and_consume_control_call a call op now s) as [s'|e] eqn:E; [|left; by destruct e].
  right. specialize (Hf s'). destruct (f tt s') as [[x|e'] [s'' l]]; cbn in *; congruence.
Qed.
Lemma gated_after {A B} call op (m : result A) (f : A → control B) :
  (∀ x, gated call op (effect (f x))) → gated call op (effect (lift m ≫= f)).
Proof.
  intros H s. unfold effect, mbind, control_bind, lift. destruct m as [x|e]; [|by left].
  specialize (H x s). unfold effect in H. by destruct (f x s) as [[y|e] [s' l]].
Qed.
End Gated.

(** ** Histories *)

(** The entry points of [ContextControl] and of the operator UI, with the operation
    each demands. *)
Inductive control_run (a : ControlOperatorAuthority) (now : datetime) (call : TrustedControlCall) :
    ControlOperation → (list (list Z * bool) → option exn * (list (list Z * bool) * list store_call)) → Prop :=
  | RunAccept verify page r :
      control_run a now call ACCEPT_FILE_CHANGE_PAGE (effect (accept_file_change_page a now verify call page r))
  | RunReport src b r : control_run a now call ACCEPT_FILE_CHANGE_PAGE (effect (report_file_scan_bound_refusal a now call src b r))
  | RunClear src r : control_run a now call ACCEPT_FILE_CHANGE_PAGE (effect (clear_file_scan_bound_refusal a now call src r))
  | RunActivateFeed src r : control_run a now call ACTIVATE_FILE_CHANGE_FEED (effect (activate_file_change_feed a now call src r))
  | RunActivateDeletes src r :
      control_run a now call ACTIVATE_FILE_DELETE_OBSERVATIONS (effect (activate_file_delete_observations a now call src r))
  | RunRegister c r : control_run a now call REGISTER_SOURCE (effect (register_source a now call c r))
  | RunRead src r : control_run a now call READ_SOURCE (effect (read_source a now call src r))
  | RunList listing r : control_run a now call READ_SOURCE (effect (list_sources a now call listing r))
  | RunOffboard src r : control_run a now call OFFBOARD_FILE_SOURCE (effect (offboard_file_source a now call src r))
  | RunImport c r : control_run a now call IMPORT_FILE (effect (prepare_file_import a now call c r))
  | RunProgress src r : control_run a now call READ_SOURCE_PROGRESS (effect (read_file_source_progress a now call src r))
  | RunSchedule c r : control_run a now call SCHEDULE_FILE_CHANGE_PAGE (effect (schedule_file_change_page a now call c r))
  | RunTombstone c r : control_run a now call TOMBSTONE_FILE_RESOURCE (effect (tombstone_file_resource a now call c r))
  | RunExecuteDelete c r :
      control_run a now call EXECUTE_FILE_DELETE_OBSERVATION (effect (execute_file_delete_observation a now call c r))
  | RunTenantDefault store c r :
      control_run a now call SET_TENANT_ARTICLE_POLICY_DEFAULT (effect (set_tenant_article_policy_default a now store call c r))
  | RunSourceDefault store c r :
      control_run a now call SET_SOURCE_ARTICLE_POLICY_DEFAULT (effect (set_source_article_policy_default a now store call c r))
  | RunPreview store c r :
      control_run a now call PREVIEW_BULK_ARTICLE_POLICY_CHANGE (effect (preview_bulk_article_policy_change a now store call c r))
  | RunCommit store key c conf r1 r2 :
      control_run a now call COMMIT_BULK_ARTICLE_POLICY_CHANGE
        (effect (commit_bulk_article_policy_change a now store key call c conf r1 r2)).

Lemma control_run_gated a now call op run : control_run a now call op run → gated a now call op run.
Proof.
  destruct 1;
    lazymatch goal with
    | |- gated _ _ _ _ (effect (commit_bulk_article_policy_change _ _ _ _ _ _ _ _ _)) =>
        unfold commit_bulk_article_policy_change; apply gated_after; intros _; apply gated_after; intros _; apply gated_article
    | |- gated _ _ _ _ (effect (preview_bulk_article_policy_change _ _ _ _ _ _)) => apply gated_after; intros _; apply gated_article
    | |- gated _ _ _ _ (effect (set_tenant_article_policy_default _ _ _ _ _ _)) => apply gated_article
    | |- gated _ _ _ _ (effect (set_source_article_policy_default _ _ _ _ _ _)) => apply gated_article
    | _ => apply gated_guarded, gated_consume
    end; try solve [eauto 20 with control].
  destruct verify as [v|]; [|apply keeps_lift].
  apply keeps_bind; [apply keeps_lift|]. intros _. apply keeps_bind; [apply keeps_lift|]. intros [q|]; eauto 10 with control.
Qed.

(** One use of the store: the call presented, the operation, the time, the calls made. *)
Record store_use := mkUse { use_call : TrustedControlCall; use_operation : ControlOperation; use_time : datetime; use_calls : list store_call }.
Definition use_nonce (u : store_use) : pybytes := scope_nonce (tc_scope (use_call u)).

(** The table, the tokens drawn so far, the calls handed out and the uses. *)
Record control_world := mkWorld {
  cw_active : list (list Z * bool);
  cw_drawn : list (list Z);
  cw_issued : list TrustedControlCall;
  cw_uses : list store_use
}.
Definition empty_world : control_world := mkWorld [] [] [] [].

(** Any call object may be presented; a random token is not drawn twice. *)
Inductive control_step (a : ControlOperatorAuthority) : control_world → control_world → Prop :=
  | StepAuthorize w credential op request answer now nonce r active :
      nonce ∉ cw_drawn w →
      authorize a credential op request answer now nonce (cw_active w) = (r, active) →
      (∀ call, r = Ok call → claims_typed (tc_claims call) nonce) →
      control_step a w (mkWorld active (nonce :: cw_drawn w) (match r with Ok call => call :: cw_issued w | Err _ => cw_issued w end) (cw_uses w))
  | StepLeave w call : control_step a w (mkWorld (leave call (cw_active w)) (cw_drawn w) (cw_issued w) (cw_uses w))
  | StepRun w call op run now e active calls :
      claims_typed (tc_claims call) (scope_nonce (tc_scope call)) →
      control_run a now call op run → run (cw_active w) = (e, (active, calls)) →
      control_step a w (mkWorld active (cw_drawn w) (cw_issued w)
        (match calls with [] => cw_uses w | _ => mkUse call op now calls :: cw_uses w end))
  | StepGate w call organization_id op now r active :
      gate_consume a call organization_id op now (cw_active w) = (r, active) →
      control_step a w (mkWorld active (cw_drawn w) (cw_issued w) (cw_uses w)).
Definition control_reachable (a : ControlOperatorAuthority) : control_world → Prop := rtc (control_step a) empty_world.

(** A valid seal on a message the authority never sealed. *)
Definition control_forgery (key : pybytes) (issued : list TrustedControlCall) (call : TrustedControlCall) : Prop :=
  ∃ m, control_call_message (tc_claims call) (scope_nonce (tc_scope call)) = Ok m ∧ tc_digest call = hmac_sha256 key m
    ∧ ∀ i, i ∈ issued → control_call_message (tc_claims i) (scope_nonce (tc_scope i)) ≠ Ok m.

(** *** What each transition does to the table *)

Lemma consume_call_Ok a call op now s s' :
  _validate_and_consume_control_call a call op now s = Ok s' →
  dict_get s (scope_nonce (tc_scope call)) = Some false ∧ s' = dict_set s (scope_nonce (tc_scope call)) true
  ∧ cc_operation (tc_claims call) = op
  ∧ dt_ltb now (cc_issued_at (tc_claims call)) = false ∧ dt_ltb now (cc_expires_at (tc_claims call)) = true
  ∧ _control_call_digest (co_call_key a) (tc_claims call) (scope_nonce (tc_scope call)) = Ok (tc_digest call).
Proof.
  unfold _validate_and_consume_control_call. intros H. apply bind_Ok in H as (d & Hd & H).
  apply bind_Ok in H as (? & H1%require_Ok & H). apply bind_Ok in H as (t & Ht & H).
  apply bind_Ok in H as (? & H2%require_Ok & H). apply bind_Ok in H as (? & H3%require_Ok & <-%Ok_inj).
  unfold require_utc in Ht. apply bind_Ok in Ht as (? & _ & <-%Ok_inj).
  apply andb_true_iff in H1 as [H1 Hdig%bool_decide_eq_true]. apply andb_true_iff in H1 as [_ Hop%bool_decide_eq_true].
  apply andb_true_iff in H2 as [Hi%negb_true_iff He]. apply bool_decide_eq_true in H3. split_and!; try done.
  unfold try_except in Hd. destruct (_control_call_digest _ _ _) as [d'|e] eqn:E; [congruence|]. by destruct (_ || _).
Qed.

Lemma authorize_table a credential op request answer now nonce s r s' :
  authorize a credential op request answer now nonce s = (r, s') →
  (s' = s ∨ s' = dict_set s nonce false)
  ∧ ∀ call, r = Ok call → scope_nonce (tc_scope call) = nonce
      ∧ _control_call_digest (co_call_key a) (tc_claims call) nonce = Ok (tc_digest call).
Proof.
  unfold authorize. destruct (authorized_claims _ _ _ _ _ _) as [claims|e]; intros [= <- <-]; [|by split; [left|]].
  split; [by right|]. intros call Hc. apply bind_Ok in Hc as (d & Hd & <-%Ok_inj). done.
Qed.

Lemma dict_get_pop {K V} `{!EqDecision K} (d : list (K * V)) k k' :
  dict_get (dict_pop d k) k' = if decide (k = k') then None else dict_get d k'.
Proof.
  unfold dict_pop. induction d as [|[q v] d IH]; [by case_decide|]. rewrite filter_cons. cbn [fst].
  destruct (decide (q ≠ k)) as [Hq|Hq]; cbn [dict_get]; rewrite IH.
  - destruct (decide (k' = q)) as [->|]; [by rewrite decide_False by naive_solver|done].
  - apply dec_stable in Hq as ->. destruct (decide (k = k')); [done|]. by rewrite decide_False by naive_solver.
Qed.

(** *** The invariant of a history *)

Record control_invariant (a : ControlOperatorAuthority) (w : control_world) : Prop := {
  ci_drawn : ∀ n b, dict_get (cw_active w) n = Some b → n ∈ cw_drawn w;
  ci_used : ∀ u, u ∈ cw_uses w → use_nonce u ∈ cw_drawn w ∧ dict_get (cw_active w) (use_nonce u) ≠ Some false;
  ci_once : NoDup (use_nonce <$> cw_uses w);
  ci_issued : ∀ i, i ∈ cw_issued w → claims_typed (tc_claims i) (scope_nonce (tc_scope i))
    ∧ _control_call_digest (co_call_key a) (tc_claims i) (scope_nonce (tc_scope i)) = Ok (tc_digest i);
  ci_uses : ∀ u, u ∈ cw_uses w →
    cc_operation (tc_claims (use_call u)) = use_operation u
    ∧ dt_ltb (use_time u) (cc_issued_at (tc_claims (use_call u))) = false
    ∧ dt_ltb (use_time u) (cc_expires_at (tc_claims (use_call u))) = true
    ∧ claims_typed (tc_claims (use_call u)) (use_nonce u)
    ∧ _control_call_digest (co_call_key a) (tc_claims (use_call u)) (use_nonce u) = Ok (tc_digest (use_call u))
}.

Lemma invariant_table a w active :
  control_invariant a w →
  (∀ n b, dict_get active n = Some b → n ∈ cw_drawn w) →
  (∀ n, dict_get active n = Some false → dict_get (cw_active w) n = Some false) →
  control_invariant a (mkWorld active (cw_drawn w) (cw_issued w) (cw_uses w)).
Proof.
  intros [H1 H2 H3 H4 H5] Hd Hf. split; cbn; try done. intros u Hu. destruct (H2 u Hu) as [Hn Ha]. split; [done|].
  intros E. by apply Ha, Hf.
Qed.

Lemma consumed_table (s : list (list Z * bool)) k n b : dict_get (dict_set s k true) n = Some b → (n = k ∧ b = true) ∨ (n ≠ k ∧ dict_get s n = Some b).
Proof. rewrite dict_get_set. case_decide as E; [intros [= <-]; left; naive_solver|]. intros H. right. naive_solver. Qed.

Lemma invariant_consume a w call op now s' :
  control_invariant a w → _validate_and_consume_control_call a call op now (cw_active w) = Ok s' →
  control_invariant a (mkWorld s' (cw_drawn w) (cw_issued w) (cw_uses w)).
Proof.
  intros Hw (Hg & -> & _)%consume_call_Ok. apply invariant_table; [done| |].
  - intros n b [[-> _]|[_ H]]%consumed_table; by eapply ci_drawn.
  - intros n [[_ [=]]|[_ H]]%consumed_table; done.
Qed.

Lemma invariant_use a w call op now s' calls :
  control_invariant a w → claims_typed (tc_claims call) (scope_nonce (tc_scope call)) →
  _validate_and_consume_control_call a call op now (cw_active w) = Ok s' →
  control_invariant a (mkWorld s' (cw_drawn w) (cw_issued w) (mkUse call op now calls :: cw_uses w)).
Proof.
  intros Hw Ht Hc. pose proof (invariant_consume _ _ _ _ _ _ Hw Hc) as [H1 H2 H3 H4 H5]. cbn in *.
  apply consume_call_Ok in Hc as (Hg & -> & Hop & Hi & He & Hd). split; cbn; try done.
  - intros u [->|Hu]%elem_of_cons; [|by apply H2]. unfold use_nonce. cbn. split; [by eapply ci_drawn|].
    rewrite dict_get_set. by case_decide.
  - constructor; [|done]. intros (u & Hu & Hin)%list_elem_of_fmap. destruct (ci_used _ _ Hw u Hin) as [_ Hne]. apply Hne.
    rewrite <- Hu. done.
  - intros u [->|Hu]%elem_of_cons; [|by apply H5]. done.
Qed.

Lemma control_step_invariant a w w' : control_step a w w' → control_invariant a w → control_invariant a w'.
Proof.
  intros Hs Hw. destruct Hs as [w credential op request answer now nonce r active Hf Ha Ht|w call|w call op run now e active calls Ht Hr Hrun|w call org op now r active Hg].
  - apply authorize_table in Ha as [Htab Hcall]. destruct Hw as [H1 H2 H3 H4 H5].
    assert (Hget : ∀ n b, dict_get active n = Some b → n = nonce ∨ dict_get (cw_active w) n = Some b).
    { intros n b. destruct Htab as [-> | ->]; [by right|]. rewrite dict_get_set. case_decide; naive_solver. }
    split; cbn; try done.
    + intros n b [->|H]%Hget; [by left|right; eauto].
    + intros u Hu. destruct (H2 u Hu) as [Hn Hne]. split; [by right|]. intros [E|E]%Hget; [|done]. rewrite E in Hn. done.
    + intros i. destruct r as [call|]; [|by apply H4]. intros [->|Hi]%elem_of_cons; [|by apply H4].
      destruct (Hcall call eq_refl) as [<- Hd]. by split; [apply Ht|].
  - apply invariant_table; [done| |]; intros n; [intros b|]; unfold leave; rewrite dict_get_pop; case_decide; try done.
    by eapply ci_drawn.
  - destruct (control_run_gated _ _ _ _ _ Hr (cw_active w)) as [E|E]; rewrite Hrun in E; cbn in E.
    + injection E as -> ->. by destruct w.
    + destruct calls as [|c calls]; [by eapply invariant_consume|by eapply invariant_use].
  - unfold gate_consume in Hg. destruct (_validate_and_consume_control_call a call op now (cw_active w)) as [s'|e] eqn:E;
      injection Hg as _ <-; [by eapply invariant_consume|by destruct w].
Qed.

Lemma control_steps_invariant a w w' : rtc (control_step a) w w' → control_invariant a w → control_invariant a w'.
Proof. induction 1 as [|w1 w2 w3 Hs _ IH]; [done|]. intros Hw. by eapply IH, control_step_invariant. Qed.
Lemma control_reachable_invariant a w : control_reachable a w → control_invariant a w.
Proof.
  intros H. apply (control_steps_invariant _ _ _ H). split; cbn; try done; try (intros ? Hu; by apply elem_of_nil in Hu). constructor.
Qed.

(** C23: Every use Context Control makes of its store is authorized, once.  However
    calls are authorized, presented, left and forged, in every history each use of the
    store was made with a call for exactly that operation, between the call's issue
    and its expiry; no two uses share a call; and the call says what the authority
    issued to an authenticated operator, unless it carries a valid HMAC on a message
    the authority never sealed. *)
Theorem control_uses_are_authorized a w :
  control_reachable a w →
  NoDup (use_nonce <$> cw_uses w)
  ∧ ∀ u, u ∈ cw_uses w →
      cc_operation (tc_claims (use_call u)) = use_operation u
      ∧ dt_us (cc_issued_at (tc_claims (use_call u))) ≤ dt_us (use_time u) < dt_us (cc_expires_at (tc_claims (use_call u)))
      ∧ ((∃ i, i ∈ cw_issued w ∧ tc_claims i = tc_claims (use_call u) ∧ scope_nonce (tc_scope i) = use_nonce u)
         ∨ control_forgery (co_call_key a) (cw_issued w) (use_call u)).
Proof.
  intros Hi%control_reachable_invariant.
  split; [apply Hi|]. intros u Hu. destruct (ci_uses _ _ Hi u Hu) as (Hop & Ht1 & Ht2 & Htyped & Hd).
  unfold dt_ltb in Ht1, Ht2. split_and!; [done|lia|lia|].
  pose proof (control_digest_Ok _ _ _ _ Hd) as (_ & _ & _ & _ & _ & _ & m & Hm & Hmac).
  destruct (decide (Exists (λ i, control_call_message (tc_claims i) (scope_nonce (tc_scope i)) = Ok m) (cw_issued w))) as [Hex|Hex].
  - left. apply Exists_exists in Hex as (i & Hin & Him). exists i. split; [done|].
    destruct (ci_issued _ _ Hi i Hin) as [Hti Hdi]. by eapply control_message_inj.
  - right. exists m. split_and!; [done|done|]. intros i Hin Him. apply Hex, Exists_exists. by exists i.
Qed.

(** ** Refusals *)

Definition file_operation (op : ControlOperation) : bool :=
  match op with
  | SET_TENANT_ARTICLE_POLICY_DEFAULT | SET_SOURCE_ARTICLE_POLICY_DEFAULT
  | PREVIEW_BULK_ARTICLE_POLICY_CHANGE | COMMIT_BULK_ARTICLE_POLICY_CHANGE => false
  | _ => true
  end.
Lemma file_run_shape a now call op run :
  control_run a now call op run → file_operation op = true →
  ∃ (B : Type) (f : unit → control B), run = effect (guarded (consume a now call op ≫= f)).
Proof. destruct 1; intros Hf; try discriminate Hf; eexists _, _; reflexivity. Qed.

(** A File operation of Context Control refuses without a trace.  Its only
    failures are the two of the Control contract; a call that does not pass the check
    (wrong operation, altered, foreign, expired, left, already used) leaves the table
    of calls as it was and does not reach the store; and when the check rejects the
    call, the operator learns only that the source is not available. *)
Theorem control_refusal_is_uniform a now call op run s :
  control_run a now call op run → file_operation op = true →
  (∀ e w, run s = (Some e, w) → e = SourceNotAvailable ∨ e = SourceControlUnavailable)
  ∧ (∀ e, _validate_and_consume_control_call a call op now s = Err e →
       (run s).2 = (s, []) ∧ (e = ControlOperatorAuthenticationRejected → (run s).1 = Some SourceNotAvailable)).
Proof.
  intros Hr Hf. destruct (file_run_shape _ _ _ _ _ Hr Hf) as (B & f & ->). split.
  - intros e w H. rewrite effect_guarded in H. destruct (effect _ s).1 as [e'|]; [|done]. injection H as <- _.
    destruct e'; cbn; tauto.
  - intros e He. rewrite effect_guarded. unfold effect, mbind, control_bind, consume. rewrite He. cbn. split; [done|]. by intros ->.
Qed.

(** ** A sample history *)

Definition sample_control_authority : ControlOperatorAuthority := mkControlAuthority (replicate 32 7) (60 * us_per_second) 1.
Definition sample_operator : VerifiedControlOperatorIdentity :=
  mkOperatorIdentity (mkUUID 5) (lit "operator:1") (lit "binding:1") (lit "authority:1") [READ_SOURCE]
    (mkDatetime 0 (Some 0)) (mkDatetime (1000 * us_per_second) (Some 0)).
Definition sample_nonce : pybytes := replicate 32 9.
Definition sample_moment : datetime := mkDatetime (10 * us_per_second) (Some 0).
Definition sample_authorization : result TrustedControlCall * list (list Z * bool) :=
  authorize sample_control_authority (lit "credential") READ_SOURCE (lit "request:1") (Ok (Some sample_operator)) sample_moment
    sample_nonce [].
Definition sample_claims : control_claims :=
  mkClaims (mkUUID 5) (lit "operator:1") (lit "binding:1") (lit "authority:1") READ_SOURCE (lit "request:1") sample_moment
    (mkDatetime (70 * us_per_second) (Some 0)).
Definition sample_call : TrustedControlCall :=
  Eval vm_compute in match sample_authorization.1 with Ok c => c | Err _ => mkControlCall sample_claims [] (mkControlScope 0 [] false) end.
Definition sample_world : control_world :=
  mkWorld [(sample_nonce, true)] [sample_nonce] [sample_call]
    [mkUse sample_call READ_SOURCE sample_moment [CallReadSource (mkUUID 3)]].

Lemma sample_typed : claims_typed (tc_claims sample_call) sample_nonce.
Proof.
  assert (Hc : ∀ t, forallb (λ c, (0 <=? c) && (c <=? 0x10FFFF)) t = true → Forall char_ok t).
  { intros t Ht. rewrite forallb_forall in Ht. apply Forall_forall. intros c Hc%list_elem_of_In%Ht. unfold char_ok. lia. }
  split; [unfold uuid_ok; cbn; lia|by apply Hc..|unfold datetime_ok; vm_compute; by split|unfold datetime_ok; vm_compute; by split|].
  apply Forall_replicate. unfold byte_ok. lia.
Qed.
Lemma sample_reachable : control_reachable sample_control_authority sample_world.
Proof.
  eapply rtc_l; [apply (StepAuthorize sample_control_authority empty_world (lit "credential") READ_SOURCE (lit "request:1")
    (Ok (Some sample_operator)) sample_moment sample_nonce (Ok sample_call) [(sample_nonce, false)])|].
  - apply not_elem_of_nil.
  - by vm_compute.
  - intros call [= <-]. apply sample_typed.
  - eapply rtc_l; [|apply rtc_refl]. eapply (StepRun _ (mkWorld [(sample_nonce, false)] [sample_nonce] [sample_call] []) sample_call READ_SOURCE _
      sample_moment (Some SourceNotAvailable) [(sample_nonce, true)] [CallReadSource (mkUUID 3)]); [apply sample_typed|apply (RunRead _ _ _ (mkUUID 3) (Err SourceNotAvailable))|by vm_compute].
Qed.

(** One use of the store, for the call that was issued. *)
Lemma control_uses_are_authorized_witness :
  length (cw_uses sample_world) = 1%nat ∧ NoDup (use_nonce <$> cw_uses sample_world).
Proof. split; [reflexivity|]. apply (control_uses_are_authorized sample_control_authority sample_world sample_reachable). Defined.

(** The same call, presented again. *)
Lemma control_refusal_is_uniform_witness :
  let run := effect (read_source sample_control_authority sample_moment sample_call (mkUUID 3) (Ok None)) in
  (run [(sample_nonce, true)]).2 = ([(sample_nonce, true)], []) ∧ (run [(sample_nonce, true)]).1 = Some SourceNotAvailable.
Proof.
  cbv zeta. pose proof (control_refusal_is_uniform sample_control_authority sample_moment sample_call READ_SOURCE _ [(sample_nonce, true)]
    (RunRead _ _ _ (mkUUID 3) (Ok None)) eq_refl) as [_ H].
  destruct (H ControlOperatorAuthenticationRejected ltac:(by vm_compute)) as [H1 H2]. split; [exact H1|by apply H2].
Defined.
