(* ===== verification/FileScan.v ===== *)
(** * Scanning a File source: [src/applications/file_scan.py]

    [scan_file_source]: the loop that reads a page, has Control accept it, schedules
    what is new and goes on with the accepted cursor.

    The environment is an argument with its own state: the authenticator, the clock,
    the random tokens, the root and its files, and the store.  Keys, audience and the
    composition of the store are read by the caller. *)

From S2P Require Import Prelude Codec Sha256 Datetime Json Trusted Signing ArticlePolicy BulkPolicy FileChanges FileProvider ControlContracts Control.

Definition FILE_SCAN_PAGE_LIMIT : Z := 1.

Record FileScanReport := mkScanReport {
  rp_source_ref : UUID;
  rp_paths_observed : Z;
  rp_changes_accepted : Z;
  rp_imports_scheduled : Z;
  rp_deletes_observed : Z;
  rp_advanced_cursor : option pystr;
  rp_scan_bound : Z
}.

(** ** The environment *)

(** One authorization: what the authenticator answers, the clock, the token, the
    request reference, and the clock when Control checks the call. *)
Record operator_turn := mkTurn {
  ot_identity : result (option VerifiedControlOperatorIdentity);
  ot_issued_at : datetime;
  ot_nonce : pybytes;
  ot_request_id : pystr;
  ot_checked_at : datetime
}.
Record ScanEnv (W : Type) := mkEnv {
  env_turn : W → operator_turn * W;
  env_roots : W → FileRootRegistry;
  (* [FileRootRegistry.read] *)
  env_read : W → pystr → result pybytes;
  (* the store *)
  env_read_source : W → result (option SourceManifest) * W;
  env_read_progress : W → result (option FileSourceProgress) * W;
  env_accept : W → ChangePage → result (option AcceptedChangePage) * W;
  env_schedule : W → ScheduleFileChangePage → result (option ScheduledFileChangePage) * W;
  env_report_bound : W → Z → result unit * W;
  env_clear_bound : W → result unit * W
}.
Arguments env_turn {W}. Arguments env_roots {W}. Arguments env_read {W}. Arguments env_read_source {W}.
Arguments env_read_progress {W}. Arguments env_accept {W}. Arguments env_schedule {W}.
Arguments env_report_bound {W}. Arguments env_clear_bound {W}.

(** The state of a scan: the environment's, the authority's table, and the calls made
    on the store so far. *)
Record scan_world (W : Type) := mkScanWorld { sw_env : W; sw_active : list (list Z * bool); sw_calls : list store_call }.
Arguments mkScanWorld {W}. Arguments sw_env {W}. Arguments sw_active {W}. Arguments sw_calls {W}.
Definition scan (W A : Type) : Type := scan_world W → result A * scan_world W.
Definition ret {W A} (m : result A) : scan W A := λ w, (m, w).
#[export] Instance scan_bind W : MBind (scan W) := λ A B f m w,
  match m w with (Ok x, w') => f x w' | (Err e, w') => (Err e, w') end.

Definition is_LookupError (e : exn) : bool := match e with LookupError | KeyError | IndexError => true | _ => false end.

(** ** Pure parts *)

Definition _prior_identities (source : FileChangeSource) : list (list Z * (list Z * Z)) :=
  match cs_complete_baseline source with
  | None => []
  | Some b => dict_of (identity_of <$> active_entries b)
  end.
Definition _replays_complete_baseline (source : FileChangeSource) (scan_ref : pystr) (scan_epoch : UUID) : bool :=
  match cs_complete_baseline source, cs_scan_head source with
  | Some b, Some h =>
      let r := bl_reference b in
      sh_complete h
      && bool_decide (sh_source_version_ref h = br_source_version_ref r) && bool_decide (sh_scan_ref h = br_scan_ref r)
      && bool_decide (sh_scan_epoch h = br_scan_epoch r) && bool_decide (sh_page_ref h = br_page_ref r)
      && bool_decide (sh_checkpoint_ref h = br_checkpoint_ref r) && (sh_sequence h =? br_sequence r)
      && (sh_scan_bound h =? br_scan_bound r)
      && bool_decide (scan_ref = br_scan_ref r) && bool_decide (scan_epoch = br_scan_epoch r)
  | _, _ => false
  end.
Definition is_upsert (c : SourceChange) : bool := bool_decide (fc_kind (sc_change c) = UPSERT).
Definition is_delete (c : SourceChange) : bool := bool_decide (fc_kind (sc_change c) = DELETE).
Definition novel (prior : list (list Z * (list Z * Z))) (c : SourceChange) : bool :=
  is_upsert c && negb (bool_decide (dict_get prior (fc_path (sc_change c)) = Some (fc_sha256 (sc_change c), fc_length (sc_change c)))).
(** [set.add] *)
Definition set_add (l : list (list Z)) (x : list Z) : list (list Z) := if decide (x ∈ l) then l else l ++ [x].
Definition observe_paths (paths : list (list Z)) (page : ChangePage) : list (list Z) :=
  foldl set_add paths ((λ c, fc_path (sc_change c)) <$> filter (λ c, is_upsert c = true) (cp_changes page)).

(** The mutable locals of the loop. *)
Record scan_locals := mkLocals {
  sl_source : FileChangeSource;
  sl_cursor : scan_cursor;
  sl_paths : list (list Z);
  sl_changes_accepted : Z;
  sl_imports_scheduled : Z;
  sl_deletes_observed : Z;
  sl_advanced_cursor : option pystr
}.

Section Scan.
Context {nesting : NestingLimit}.
Context {W : Type} (env : ScanEnv W).
Context (canon : json → result pybytes).
Context (provider_sign : pybytes → pybytes) (provider_verify : pybytes → pybytes → bool).
Context (checkpoint_verify : pybytes → pybytes → bool).
Context (authority : ControlOperatorAuthority) (opaque_credential : pystr).
Context (organization_id source_ref : UUID) (audience : FileImportAudience).

(** [with authority.authorize(...) as call:], the Organization check, and one
    operation of Control on the store's answer. *)
Definition operate {A B} (op : ControlOperation) (store : W → result B * W)
    (body : datetime → TrustedControlCall → result B → control A) : scan W A := λ w,
  let '(turn, e) := env_turn env (sw_env w) in
  match authorize authority opaque_credential op (ot_request_id turn) (ot_identity turn) (ot_issued_at turn) (ot_nonce turn)
          (sw_active w) with
  | (Err x, active) => (Err x, mkScanWorld e active (sw_calls w))
  | (Ok call, active) =>
      if bool_decide (cc_organization_id (tc_claims call) = organization_id)
      then
        let '(answer, e') := store e in
        let '(r, (active', calls)) := body (ot_checked_at turn) call answer active in
        (r, mkScanWorld (match calls with [] => e | _ => e' end) (leave call active') (sw_calls w ++ calls))
      else (Err SourceNotAvailable, mkScanWorld e (leave call active) (sw_calls w))
  end.

Definition _read_manifest : scan W SourceManifest :=
  operate READ_SOURCE (env_read_source env) (λ now call answer, read_source authority now call source_ref answer).
Definition _read_progress : scan W FileSourceProgress :=
  operate READ_SOURCE_PROGRESS (env_read_progress env)
    (λ now call answer, read_file_source_progress authority now call source_ref answer).
Definition _schedule_page (src version : UUID) (page_ref : pystr) : scan W ScheduledFileChangePage :=
  let command := mkSchedulePage src version page_ref audience in
  operate SCHEDULE_FILE_CHANGE_PAGE (λ e, env_schedule env e command)
    (λ now call answer, lift (check_schedule_page command) ;; schedule_file_change_page authority now call command answer).
Definition accept_page (page : ChangePage) : scan W AcceptedChangePage :=
  operate ACCEPT_FILE_CHANGE_PAGE (λ e, env_accept env e page)
    (λ now call answer, accept_file_change_page authority now (Some (verify_page canon provider_verify)) call page answer).
Definition report_bound (scan_bound : Z) : scan W unit :=
  operate ACCEPT_FILE_CHANGE_PAGE (λ e, env_report_bound env e scan_bound)
    (λ now call answer, report_file_scan_bound_refusal authority now call source_ref scan_bound answer).
Definition clear_bound : scan W unit :=
  operate ACCEPT_FILE_CHANGE_PAGE (env_clear_bound env)
    (λ now call answer, clear_file_scan_bound_refusal authority now call source_ref answer).

Definition _verify_accepted_content_identity (path expected_sha256 : pystr) (expected_length : Z) : scan W unit := λ w,
  (path' ← new_FileImportPath path;
   payload ← try_except (env_read env (sw_env w) path') is_LookupError (Err SourceScanRefused);
   require ((len payload =? expected_length) && bool_decide (hexdigest payload = expected_sha256)) SourceScanRefused, w).

Fixpoint each_scan {A} (f : A → scan W unit) (l : list A) : scan W unit :=
  match l with [] => ret (Ok tt) | x :: l => f x ;; each_scan f l end.
Definition verify_scheduled (c : ScheduledFileChange) : scan W unit :=
  _verify_accepted_content_identity (sd_path c) (sd_content_sha256 c) (sd_content_length c).

(** Pages accepted by an earlier scan whose imports are still to be scheduled. *)
Fixpoint reconcile (pending : list PendingFileChangeSchedule) (scheduled_so_far : Z) : scan W Z :=
  match pending with
  | [] => ret (Ok scheduled_so_far)
  | p :: pending =>
      scheduled ← _schedule_page source_ref (pc_source_version_ref p) (pc_page_ref p);
      each_scan verify_scheduled (sg_changes scheduled) ;;
      reconcile pending (scheduled_so_far + len (sg_changes scheduled))
  end.

(** Schedule what the accepted page brought; the number of imports. *)
Definition schedule_novel (accepted : AcceptedChangePage) (novel_upserts : list SourceChange) (reconciled : list (list Z)) :
    scan W Z :=
  if bool_decide (novel_upserts = []) || bool_decide (ap_page_ref accepted ∈ reconciled) then ret (Ok 0)
  else
    scheduled ← _schedule_page (ap_source_ref accepted) (ap_source_version_ref accepted) (ap_page_ref accepted);
    let paths := (λ c, fc_path (sc_change c)) <$> novel_upserts in
    let changes := dict_of ((λ c, (sd_path c, c)) <$> filter (λ c, sd_path c ∈ paths) (sg_changes scheduled)) in
    each_scan (λ kv, _verify_accepted_content_identity kv.1 (sd_content_sha256 kv.2) (sd_content_length kv.2)) changes ;;
    ret (Ok (len changes)).

(** One turn of the [while]: the report ([inl]) or the locals of the next turn. *)
Definition accept_turn (prior : list (list Z * (list Z * Z))) (reconciled : list (list Z)) (l : scan_locals) (page : ChangePage) :
    scan W (FileScanReport + scan_locals) :=
  let novel_upserts := filter (λ c, novel prior c = true) (cp_changes page) in
  let deletes := filter (λ c, is_delete c = true) (cp_changes page) in
  let paths := observe_paths (sl_paths l) page in
  accepted ← accept_page page;
  scheduled ← schedule_novel accepted novel_upserts reconciled;
  let changes_accepted := sl_changes_accepted l + (len novel_upserts + len deletes) in
  let imports_scheduled := sl_imports_scheduled l + scheduled in
  let deletes_observed := sl_deletes_observed l + len deletes in
  match ap_next_cursor accepted with
  | None =>
      λ w, (Ok (inl (mkScanReport source_ref (len paths) changes_accepted imports_scheduled deletes_observed
                       (Some (ap_checkpoint_ref accepted)) (max_baseline_entries (env_roots env (sw_env w))))), w)
  | Some cursor =>
      head ← ret (accepted_scan_head accepted);
      let source := mkChangeSource (cs_organization_id (sl_source l)) (cs_source_version (sl_source l)) (Some head)
                      (cs_complete_baseline (sl_source l)) in
      ret (check_change_source source) ;;
      ret (Ok (inr (mkLocals source (Continue cursor) paths changes_accepted imports_scheduled deletes_observed
                      (Some (ap_checkpoint_ref accepted)))))
  end.
Definition scan_turn (prior : list (list Z * (list Z * Z))) (reconciled : list (list Z)) (l : scan_locals) :
    scan W (FileScanReport + scan_locals) := λ w,
  match read_changes canon provider_sign checkpoint_verify (env_roots env (sw_env w)) (sl_source l) (sl_cursor l)
          FILE_SCAN_PAGE_LIMIT with
  | Err e => (Err e, w)
  | Ok (ProviderScanBoundExceeded scan_bound) => (report_bound scan_bound ;; ret (Err SourceNotAvailable)) w
  | Ok (ProviderOk page) =>
      (ret (require (cp_page_limit page =? FILE_SCAN_PAGE_LIMIT) SourceNotAvailable) ;;
       match sl_cursor l, cs_complete_baseline (sl_source l) with
       | InitialScan, Some baseline =>
           if _replays_complete_baseline (sl_source l) (cp_scan_ref page) (cp_scan_epoch page)
           then clear_bound ;;
                ret (Ok (inl (mkScanReport source_ref (len (active_entries baseline)) 0 (sl_imports_scheduled l) 0
                                (Some (br_checkpoint_ref (bl_reference baseline))) (br_scan_bound (bl_reference baseline)))))
           else accept_turn prior reconciled l page
       | _, _ => accept_turn prior reconciled l page
       end) w
  | Ok _ => (Err SourceScanRefused, w)
  end.
(** The [while], with the number of turns it may take. *)
Fixpoint scan_loop (fuel : nat) (prior : list (list Z * (list Z * Z))) (reconciled : list (list Z)) (l : scan_locals) :
    scan W FileScanReport :=
  match fuel with
  | O => ret (Err FuelExhausted)
  | S fuel =>
      r ← scan_turn prior reconciled l;
      match r with inl report => ret (Ok report) | inr l' => scan_loop fuel prior reconciled l' end
  end.

Definition scan_file_source (fuel : nat) : scan W FileScanReport :=
  manifest ← _read_manifest;
  ret (require (is_delete_observation (sv_capabilities (sm_active_version manifest))) SourceScanRefused) ;;
  progress ← _read_progress;
  imports_scheduled ← reconcile (pg_pending_change_schedules progress) 0;
  let source := mkChangeSource organization_id (sm_active_version manifest) (pg_change_scan_head progress)
                  (pg_complete_change_baseline progress) in
  ret (check_change_source source) ;;
  scan_loop fuel (_prior_identities source) (pc_page_ref <$> pg_pending_change_schedules progress)
    (mkLocals source InitialScan [] 0 imports_scheduled 0 None).
End Scan.
