(* ===== verification/ScanFacts.v ===== *)
(** * A scan accepts every change once and ends

    In an environment whose operator is authorized, whose root stays as it is and
    whose store records what it accepts, [scan_file_source]'s loop accepts exactly the
    changes of the scan, in order, in as many turns as there are changes. *)

From S2P Require Import Prelude Codec Sha256 Datetime Json Trusted Signing TicketIdentity ReleaseFacts Canonical ArticlePolicy BulkPolicy FileChanges FileProvider FileFacts FilePages FileReads ControlContracts Control ControlFacts FileScan.
Import Opaque.

(** ** A granted call passes the check *)

(** An authenticator, a clock and a token source that let an operator act. *)
Record grants (a : ControlOperatorAuthority) (credential : pystr) (organization_id : UUID) (turn : operator_turn) (op : ControlOperation) : Prop := {
  gr_key : len (co_call_key a) = 32;
  gr_credential : blank credential = false;
  gr_identity : ∃ i, ot_identity turn = Ok (Some i) ∧ oi_organization_id i = organization_id ∧ op ∈ oi_allowed_operations i
    ∧ bounded_ref (oi_operator_ref i) = Ok tt ∧ bounded_ref (oi_authentication_binding_ref i) = Ok tt ∧ bounded_ref (oi_authority_ref i) = Ok tt
    ∧ is_utc (oi_expires_at i) = true
    ∧ dt_us (oi_valid_from i) ≤ dt_us (ot_issued_at turn) ∧ dt_us (ot_checked_at turn) < dt_us (oi_expires_at i);
  gr_request : bounded_ref (ot_request_id turn) = Ok tt;
  gr_clock : is_utc (ot_issued_at turn) = true ∧ is_utc (ot_checked_at turn) = true;
  gr_lifetime : dt_us (ot_issued_at turn) ≤ dt_us (ot_checked_at turn) < dt_us (ot_issued_at turn) + co_call_ttl a
    ∧ dt_us (ot_issued_at turn) + co_call_ttl a < max_ordinal * us_per_day;
  gr_nonce : len (ot_nonce turn) = 32
}.

Lemma utc_Ok d : is_utc d = true → require_utc d = Ok d.
Proof. intros H. unfold require_utc. by rewrite H. Qed.

Lemma message_Ok key c n : len key = 32 → len n = 32 →
  bounded_ref (cc_operator_ref c) = Ok tt → bounded_ref (cc_authentication_binding_ref c) = Ok tt →
  bounded_ref (cc_authority_ref c) = Ok tt → bounded_ref (cc_request_id c) = Ok tt →
  is_utc (cc_issued_at c) = true → is_utc (cc_expires_at c) = true →
  ∃ d, _control_call_digest key c n = Ok d.
Proof.
  intros Hk Hn H1 H2 H3 H4 H5 H6. unfold _control_call_digest. rewrite Hk. cbn [Z.eqb Pos.eqb require mbind result_bind each].
  rewrite H1, H2, H3, H4. cbn [mbind result_bind each]. rewrite !utc_Ok by done. cbn [mbind result_bind]. rewrite Hn.
  cbn [Z.eqb Pos.eqb require mbind result_bind]. unfold control_call_message, BulkPolicy.json_text, control_call_document.
  rewrite dumps_obj. cbn [map_result fst snd dumps mbind result_bind]. by eexists.
Qed.

Lemma min_utc d e : is_utc d = true → is_utc e = true → is_utc (dt_min d e) = true.
Proof. unfold dt_min. by destruct (dt_ltb e d). Qed.
Lemma min_us d e : dt_us (dt_min d e) = Z.min (dt_us d) (dt_us e).
Proof. unfold dt_min, dt_ltb. destruct (Z.ltb_spec (dt_us e) (dt_us d)); lia. Qed.

Lemma granted_call a credential org turn op active :
  grants a credential org turn op →
  0 ≤ dt_us (ot_issued_at turn) →
  ∃ call active1 active2,
    authorize a credential op (ot_request_id turn) (ot_identity turn) (ot_issued_at turn) (ot_nonce turn) active = (Ok call, active1)
    ∧ cc_organization_id (tc_claims call) = org
    ∧ _validate_and_consume_control_call a call op (ot_checked_at turn) active1 = Ok active2.
Proof.
  intros [Hk Hc (i & Hi & Ho & Hop & B1 & B2 & B3 & Hx & Hvf & Hexp) Hr [U1 U2] Hl Hn] Hpos.
  assert (Hadd : dt_add (ot_issued_at turn) (co_call_ttl a)
    = Ok (mkDatetime (dt_us (ot_issued_at turn) + co_call_ttl a) (dt_off (ot_issued_at turn)))).
  { unfold dt_add. by rewrite (proj2 (Z.leb_le _ _)), (proj2 (Z.ltb_lt _ _)) by lia. }
  set (bound := mkDatetime (dt_us (ot_issued_at turn) + co_call_ttl a) (dt_off (ot_issued_at turn))) in *.
  set (claims := mkClaims org (oi_operator_ref i) (oi_authentication_binding_ref i) (oi_authority_ref i) op (ot_request_id turn)
    (ot_issued_at turn) (dt_min (oi_expires_at i) bound)).
  assert (Hcl : authorized_claims a credential op (ot_request_id turn) (ot_identity turn) (ot_issued_at turn) = Ok claims).
  { unfold authorized_claims. rewrite Hc, Hr, Hi, utc_Ok by done. cbn [negb require mbind result_bind].
    unfold dt_ltb. rewrite (bool_decide_eq_true_2 (op ∈ _)) by done.
    rewrite (proj2 (Z.ltb_ge _ (dt_us (oi_valid_from i)))), (proj2 (Z.ltb_lt _ (dt_us (oi_expires_at i)))) by lia.
    cbn [negb andb require mbind result_bind]. rewrite Hadd. cbn [mbind result_bind]. by rewrite Ho. }
  destruct (message_Ok (co_call_key a) claims (ot_nonce turn)) as [d Hd]; [done..|by apply min_utc|].
  exists (mkControlCall claims d (mkControlScope (co_issuer a) (ot_nonce turn) true)), (dict_set active (ot_nonce turn) false).
  eexists. unfold authorize. rewrite Hcl, Hd. split_and!; [done|done|].
  unfold _validate_and_consume_control_call. cbn [tc_scope tc_claims scope_nonce scope_sealed scope_issuer tc_digest].
  rewrite Hd. cbn [try_except mbind result_bind]. rewrite (bool_decide_eq_true_2 (_ = co_issuer a)), (bool_decide_eq_true_2 (_ = op)), (bool_decide_eq_true_2 (_ = d)) by done.
  cbn [andb require mbind result_bind].
  rewrite utc_Ok by done. cbn [mbind result_bind]. unfold claims. cbn [cc_issued_at cc_expires_at]. unfold dt_ltb.
  rewrite min_us. unfold bound. cbn [dt_us].
  rewrite (proj2 (Z.ltb_ge _ (dt_us (ot_issued_at turn)))), (proj2 (Z.ltb_lt _ (Z.min _ _))) by lia.
  cbn [negb andb require mbind result_bind].
  rewrite dict_get_set, decide_True, bool_decide_eq_true_2 by done. cbn [require mbind result_bind]. reflexivity.
Qed.

(** ** What the store records *)

(** The row of an accepted page: what the page says, under its digest. *)
Record records (page : ChangePage) (page_ref : pystr) (row : accepted_row) : Prop := {
  rw_source : row_source_id row = cp_source_ref page;
  rw_version : row_source_version_id row = cp_source_version_ref page;
  rw_limit : row_page_limit row = cp_page_limit page;
  rw_superseded : cp_predecessor_page_ref page = None → row_superseded_scan_epoch row = cp_superseded_scan_epoch page;
  rw_page_ref : row_page_ref row = page_ref;
  rw_checkpoint : _require_checkpoint_ref (row_checkpoint_ref row) = Ok tt;
  rw_sequence : 1 ≤ row_sequence row < 2 ^ 53;
  rw_count : row_change_count row = len (cp_changes page);
  rw_complete : row_complete row = cp_complete page;
  rw_accepted_at : is_utc (row_accepted_at row) = true;
  rw_bound : row_scan_bound row = cp_scan_bound page
}.

(** The pages of a log, and the changes they carry. *)
Definition accepted_in (c : store_call) : list FileChange :=
  match c with CallAcceptPage v => sc_change <$> cp_changes (vp_page v) | _ => [] end.
Definition delivered (calls : list store_call) : list FileChange := calls ≫= accepted_in.
Lemma delivered_app l k : delivered (l ++ k) = delivered l ++ delivered k.
Proof. apply bind_app. Qed.

Section Delivery.
Context {nesting : NestingLimit}.
Context {W : Type} (env : ScanEnv W).
Context (canon : json → result pybytes) `{!Rfc8785 canon}.
Context (provider_sign : pybytes → pybytes) (provider_verify : pybytes → pybytes → bool) `{!Ed25519 provider_sign provider_verify}.
Context (checkpoint_sign : pybytes → pybytes) (checkpoint_verify : pybytes → pybytes → bool).
Context `{!Ed25519 checkpoint_sign checkpoint_verify}.
Context (authority : ControlOperatorAuthority) (credential : pystr) (organization_id source_ref : UUID) (audience : FileImportAudience).
Context (registry : FileRootRegistry) (prefix : option pystr) (files : list (list Z * list Z)).

(** An environment in which a scan can finish. *)
Record honest : Prop := {
  hn_operator : ∀ e op, grants authority credential organization_id (env_turn env e).1 op ∧ 0 ≤ dt_us (ot_issued_at (env_turn env e).1);
  hn_roots : ∀ e, env_roots env e = registry;
  hn_accept : ∀ e page v, verify_page canon provider_verify page = Ok (Some v) →
    ∃ row bounded, records page (vp_page_ref v) row
      ∧ (env_accept env e page).1 = (a ← accepted_page canon checkpoint_sign organization_id page bounded row; Ok (Some a));
  hn_schedule : ∀ e command, ∃ s, (env_schedule env e command).1 = Ok (Some s)
    ∧ sg_organization_id s = organization_id ∧ sg_source_ref s = sp_source_ref command
    ∧ sg_source_version_ref s = sp_source_version_ref command ∧ sg_page_ref s = sp_page_ref command
    ∧ ∀ c, c ∈ sg_changes s → new_FileImportPath (sd_path c) = Ok (sd_path c)
        ∧ ∀ e', ∃ payload, env_read env e' (sd_path c) = Ok payload ∧ len payload = sd_content_length c
                ∧ hexdigest payload = sd_content_sha256 c
}.
Context (Hhonest : honest).

Abbreviation accept_page := (accept_page env canon provider_verify authority credential organization_id).
Abbreviation schedule_page := (_schedule_page env authority credential organization_id audience).

(** An operation whose body consumes the call and asks the store once. *)
Lemma operate_Ok {A B} (op : ControlOperation) (store : W → result B * W) (body : datetime → TrustedControlCall → result B → control A) r calls w :
  calls ≠ [] →
  (∀ now call active active', cc_organization_id (tc_claims call) = organization_id →
     _validate_and_consume_control_call authority call op now active = Ok active' →
     ∀ answer, answer = (store (env_turn env (sw_env w)).2).1 → body now call answer active = (Ok r, (active', calls))) →
  ∃ w', operate env authority credential organization_id op store body w = (Ok r, w') ∧ sw_calls w' = sw_calls w ++ calls.
Proof.
  intros Hc Hbody. unfold operate. destruct (env_turn env (sw_env w)) as [turn e] eqn:Et.
  pose proof (hn_operator Hhonest (sw_env w) op) as [Hg Hp]. rewrite Et in Hg, Hp. cbn [fst] in Hg, Hp.
  destruct (granted_call _ _ _ _ _ (sw_active w) Hg Hp) as (call & s1 & s2 & -> & Ho & Hv).
  rewrite bool_decide_eq_true_2 by done. cbn [snd] in Hbody. destruct (store e) as [answer e'].
  rewrite (Hbody _ _ _ _ Ho Hv answer eq_refl). eexists. split; [done|]. done.
Qed.

(** A page that verifies is accepted, and the store's answer passes Control's checks. *)
Lemma accept_page_Ok page v w :
  verify_page canon provider_verify page = Ok (Some v) → cp_organization_id page = organization_id →
  (∀ row bounded, records page (vp_page_ref v) row → ∃ a, accepted_page canon checkpoint_sign organization_id page bounded row = Ok a) →
  ∃ row bounded a w', accept_page page w = (Ok a, w') ∧ sw_calls w' = sw_calls w ++ [CallAcceptPage v]
    ∧ accepted_page canon checkpoint_sign organization_id page bounded row = Ok a ∧ records page (vp_page_ref v) row.
Proof.
  intros Hv Ho Hall. destruct (hn_accept Hhonest (env_turn env (sw_env w)).2 page v Hv) as (row & bounded & Hrow & Ha).
  destruct (Hall row bounded Hrow) as [a Hacc]. rewrite Hacc in Ha. cbn [mbind result_bind] in Ha.
  exists row, bounded, a. unfold FileScan.accept_page.
  destruct (operate_Ok ACCEPT_FILE_CHANGE_PAGE (λ e, env_accept env e page)
    (λ now call answer, accept_file_change_page authority now (Some (verify_page canon provider_verify)) call page answer)
    a [CallAcceptPage v] w) as (w' & -> & Hcalls); [done| |by exists w'].
  intros now call active active' Hco Hval answer ->. rewrite Ha.
  unfold accept_file_change_page, guarded, mbind, control_bind, consume. rewrite Hval. cbn [lift]. rewrite bool_decide_eq_true_2 by congruence.
  cbn [require lift]. rewrite Hv. cbn [lift invoke]. unfold exact_reply, lift.
  unfold accepted_page in Hacc. apply bind_Ok in Hacc as (next & _ & Hacc). apply bind_Ok in Hacc as (_ & _ & <-%Ok_inj).
  destruct Hrow as [R1 R2 R3 R4 R5 R6 R7 R8 R9 R10 R11]. cbn [ap_source_ref ap_source_version_ref ap_scan_ref ap_scan_epoch ap_scan_bound
    ap_page_limit ap_superseded_scan_epoch ap_page_ref ap_change_count ap_complete].
  rewrite R1, R2, R3, R5, R8, R9, R11. rewrite !bool_decide_eq_true_2, !Z.eqb_refl, eqb_reflx by done.
  assert ((if bounded then cp_scan_bound page else cp_scan_bound page) =? cp_scan_bound page = true) as -> by (destruct bounded; lia).
  assert (negb (is_none (cp_predecessor_page_ref page)) || bool_decide (row_superseded_scan_epoch row = cp_superseded_scan_epoch page) = true) as ->.
  { destruct (cp_predecessor_page_ref page); [done|]. by rewrite R4, bool_decide_eq_true_2. }
  by rewrite !bool_decide_eq_true_2 by done.
Qed.

Lemma schedule_page_Ok src version page_ref w :
  is_sha256_hex page_ref = true →
  ∃ s w', schedule_page src version page_ref w = (Ok s, w') ∧ delivered (sw_calls w') = delivered (sw_calls w)
    ∧ ∀ c, c ∈ sg_changes s → new_FileImportPath (sd_path c) = Ok (sd_path c)
        ∧ ∀ e', ∃ payload, env_read env e' (sd_path c) = Ok payload ∧ len payload = sd_content_length c
                ∧ hexdigest payload = sd_content_sha256 c.
Proof.
  intros Hp. set (command := mkSchedulePage src version page_ref audience).
  destruct (hn_schedule Hhonest (env_turn env (sw_env w)).2 command) as (s & Hs & E1 & E2 & E3 & E4 & Hread).
  exists s. unfold _schedule_page. fold command.
  destruct (operate_Ok SCHEDULE_FILE_CHANGE_PAGE (λ e, env_schedule env e command)
    (λ now call answer, lift (check_schedule_page command) ;; schedule_file_change_page authority now call command answer)
    s [CallSchedule command] w) as (w' & -> & Hcalls);
    [done|intros now call active active' Hco Hval answer ->|exists w'; split; [done|]; split; [|done]].
  2:{ rewrite Hcalls, delivered_app. apply app_nil_r. }
  - rewrite Hs. unfold mbind, control_bind, lift. unfold check_schedule_page, require_sha256.
    cbn [command sp_page_ref]. rewrite Hp. cbn [require]. unfold schedule_file_change_page, guarded, mbind, control_bind, consume. rewrite Hval.
    cbn [invoke]. unfold exact_reply, lift. rewrite E1, E2, E3, E4, Hco. rewrite !bool_decide_eq_true_2 by done.
    cbn [andb require mbind result_bind app]. reflexivity.
Qed.

Lemma verify_identity_Ok path sha length w payload :
  new_FileImportPath path = Ok path → env_read env (sw_env w) path = Ok payload → len payload = length → hexdigest payload = sha →
  _verify_accepted_content_identity env path sha length w = (Ok tt, w).
Proof.
  intros Hp Hr Hl Hs. unfold _verify_accepted_content_identity. rewrite Hp. cbn [mbind result_bind]. rewrite Hr. cbn [try_except mbind result_bind].
  by rewrite Hl, Hs, Z.eqb_refl, bool_decide_eq_true_2.
Qed.

Lemma each_scan_Ok {A} (f : A → scan W unit) l w : (∀ x, x ∈ l → f x w = (Ok tt, w)) → each_scan f l w = (Ok tt, w).
Proof.
  induction l as [|x l IH]; intros H; [done|]. cbn [each_scan]. unfold mbind, scan_bind. rewrite (H x) by (by left).
  apply IH. intros y Hy. apply H. by right.
Qed.

Lemma dict_of_elem {A} (l : list (list Z * A)) kv : kv ∈ dict_of l → kv ∈ l.
Proof.
  unfold dict_of. enough (H : ∀ d, kv ∈ foldl (λ d kv, dict_set d kv.1 kv.2) d l → kv ∈ d ∨ kv ∈ l).
  { intros [Hn|Hl]%H; [by apply elem_of_nil in Hn|done]. }
  induction l as [|x l IH]; intros d; cbn [foldl]; [by left|]. intros [Hd|Hl]%IH; [|right; by right].
  assert (Hset : ∀ (d : list (list Z * A)) k v, kv ∈ dict_set d k v → kv ∈ d ∨ kv = (k, v)).
  { clear. intros d k v. induction d as [|[k' v'] d IH]; cbn [dict_set]; [intros ->%list_elem_of_singleton; by right|].
    case_decide as E; [subst k'; intros [->|Hd]%elem_of_cons; [by right|left; by right]|].
    intros [->|[Hd|Hd]%IH]%elem_of_cons; [left; by left|left; by right|by right]. }
  apply Hset in Hd as [Hd|Hd]; [by left|]. right. rewrite Hd. destruct x. by left.
Qed.

Lemma schedule_novel_Ok a novel_upserts reconciled w :
  is_sha256_hex (ap_page_ref a) = true →
  ∃ n w', schedule_novel env authority credential organization_id audience a novel_upserts reconciled w = (Ok n, w')
    ∧ delivered (sw_calls w') = delivered (sw_calls w).
Proof.
  intros Hp. unfold schedule_novel. destruct (_ || _); [by exists 0, w|].
  destruct (schedule_page_Ok (ap_source_ref a) (ap_source_version_ref a) (ap_page_ref a) w Hp) as (s & w' & Hs & Hd & Hread).
  unfold mbind, scan_bind. rewrite Hs. set (changes := dict_of _). exists (len changes), w'. split; [|done].
  rewrite each_scan_Ok; [done|]. intros [k c] Hkc%dict_of_elem. apply list_elem_of_fmap in Hkc as (c' & [= -> ->] & Hc').
  apply list_elem_of_filter in Hc' as [_ Hc']. destruct (Hread c' Hc') as [Hpath Hpay]. destruct (Hpay (sw_env w')) as (payload & H1 & H2 & H3).
  cbn [fst snd]. by eapply verify_identity_Ok.
Qed.

(** ** The answer to a page *)

Lemma uuid_of_bytes_ok b : Forall byte_ok b → len b = 16 → uuid_ok (uuid_of_bytes b).
Proof.
  intros Hb Hl. unfold uuid_of_bytes, uuid_ok. cbn [uuid_int].
  enough (H : ∀ l a n, Forall byte_ok l → 0 ≤ a < 256 ^ n → 0 ≤ n → 0 ≤ foldl (λ a x, 256 * a + x) a l < 256 ^ (n + len l)).
  { specialize (H b 0 0 Hb). rewrite Hl in H. change (2 ^ 128) with (256 ^ (0 + 16)). apply H; lia. }
  clear. intros l. induction l as [|x l IH]; intros a n Hl Ha Hn; cbn [foldl]; [change (len (@nil Z)) with 0; by rewrite Z.add_0_r|].
  apply Forall_cons in Hl as [Hx Hl]. rewrite len_cons. replace (n + (1 + len l)) with ((n + 1) + len l) by lia.
  apply IH; [done| |lia]. unfold byte_ok in Hx. rewrite Z.pow_add_r, Z.pow_1_r by lia. nia.
Qed.

Lemma epoch_ok source scan_ref epochs :
  (∀ h, cs_scan_head source = Some h → uuid_ok (sh_scan_epoch h)) → _scan_epoch canon source scan_ref = Ok epochs → uuid_ok epochs.1.
Proof.
  intros Hu H. unfold _scan_epoch, same_scan in H.
  destruct (cs_scan_head source) as [h|]; [destruct (_ && _); [injection H as <-; by apply Hu|]|];
    apply bind_Ok in H as (b & _ & <-%Ok_inj); cbn [fst]; (apply uuid_of_bytes_ok; [apply Forall_take, sha256_byte_ok|];
      unfold len; rewrite length_take, length_sha256; reflexivity).
Qed.

(** What Control hands out for an incomplete page. *)
Record continuation (source : FileChangeSource) (scan_ref : pystr) (epoch : UUID) (pending : PendingChangeCursor) (a : AcceptedChangePage)
    (c : ChangeCursor) (h : FileChangeScanHead) : Prop := {
  cn_cursor : ap_next_cursor a = Some c;
  cn_head : accepted_scan_head a = Ok h;
  cn_claims : _unwrap_cursor canon checkpoint_verify c
    = Ok (Some (mkAcceptedClaims pending scan_ref (ap_page_ref a) (ap_checkpoint_ref a) (ap_sequence a) epoch));
  cn_version : sh_source_version_ref h = sv_version_ref (cs_source_version source);
  cn_scan : sh_scan_ref h = scan_ref ∧ sh_scan_epoch h = epoch;
  cn_sequence : sh_sequence h = ap_sequence a ∧ 1 ≤ ap_sequence a < 2 ^ 53;
  cn_checkpoint : _require_checkpoint_ref (ap_checkpoint_ref a) = Ok tt;
  cn_valid : check_scan_head h = Ok tt ∧ sh_complete h = false
}.

Lemma accepted_last page bounded row a :
  cp_next_cursor page = None → accepted_page canon checkpoint_sign organization_id page bounded row = Ok a → ap_next_cursor a = None.
Proof.
  intros Hn H. unfold accepted_page in H. rewrite Hn in H. cbn [mbind result_bind] in H.
  by apply bind_Ok in H as (_ & _ & <-%Ok_inj).
Qed.
Lemma accepted_page_ref page bounded row a ref :
  records page ref row → accepted_page canon checkpoint_sign organization_id page bounded row = Ok a → ap_page_ref a = ref.
Proof.
  intros Hr H. unfold accepted_page in H. apply bind_Ok in H as (n & _ & H). apply bind_Ok in H as (_ & _ & <-%Ok_inj). apply Hr.
Qed.

Lemma accepted_fields source scan_ref start changes bref bound next proof ref (bounded : bool) row (c : option ChangeCursor)
    (page := built_page source changes bref bound 1 scan_ref start next proof) :
  is_sha256_hex scan_ref = true → is_sha256_hex ref = true → 1 ≤ bound ≤ MAX_CONFIGURED_FILE_CHANGE_BASELINE_SIZE →
  cp_complete page = is_none c → records page ref row →
  check_accepted_page (mkAcceptedPage (row_source_id row) (row_source_version_id row) (cp_scan_ref page) (cp_scan_epoch page)
    (row_page_limit row) (row_superseded_scan_epoch row) (row_page_ref row) (row_checkpoint_ref row) (row_sequence row) (row_change_count row)
    (row_complete row) c (row_accepted_at row) (if bounded then row_scan_bound row else cp_scan_bound page)) = Ok tt.
Proof.
  intros Href Hpr Hbound Hc [R1 R2 R3 R4 R5 R6 R7 R8 R9 R10 R11].
  change (cp_page_limit page) with 1 in R3. change (cp_scan_bound page) with bound in *.
  assert (Hlen : 0 ≤ row_change_count row ≤ 100).
  { rewrite R8. unfold page. cbn [built_page unsigned_page cp_changes]. unfold slice, len. rewrite length_fmap, length_take. lia. }
  assert (Hif : (if bounded then row_scan_bound row else bound) = bound) by (rewrite R11; by destruct bounded). rewrite Hif.
  unfold check_accepted_page, _validate_acceptance_fields, require_sha256, require_sequence, require_page_limit, _require_scan_bound.
  cbn [ap_page_ref ap_checkpoint_ref ap_sequence ap_change_count ap_accepted_at ap_scan_ref ap_page_limit ap_scan_bound ap_complete ap_next_cursor].
  change (cp_scan_ref page) with scan_ref. rewrite R3, R5, R6, R9, Hc, Hpr, Href, utc_Ok by done. cbn [require mbind result_bind].
  rewrite !(proj2 (Z.leb_le _ _)) by (unfold MAX_FILE_CHANGE_PAGE_SIZE; lia). cbn [andb require mbind result_bind]. by rewrite eqb_reflx.
Qed.

Lemma accepted_built source scan_ref start changes bref bound next proof ref bounded row
    (page := built_page source changes bref bound 1 scan_ref start next proof) :
  is_sha256_hex scan_ref = true → is_sha256_hex ref = true → 1 ≤ bound ≤ MAX_CONFIGURED_FILE_CHANGE_BASELINE_SIZE →
  uuid_ok organization_id →
  uuid_ok (sv_source_ref (cs_source_version source)) → uuid_ok (sv_version_ref (cs_source_version source)) → uuid_ok (ps_scan_epoch start) →
  page_cursor source changes bound 1 scan_ref start canon provider_sign next → records page ref row →
  ∃ a, accepted_page canon checkpoint_sign organization_id page bounded row = Ok a.
Proof.
  intros Href Hpr Hbound U1 U2 U3 U4 Hcur Hrow. unfold accepted_page. change (cp_next_cursor page) with next.
  pose proof Hrow as [R1 R2 R3 R4 R5 R6 R7 R8 R9 R10 R11]. destruct next as [pending|].
  - destruct Hcur as (Hinc & Hsimple & Hnew & _).
    destruct (accepted_cursor_Ok canon checkpoint_sign checkpoint_verify organization_id _ _ scan_ref (ps_scan_epoch start) ref (row_checkpoint_ref row)
      (row_sequence row) pending U1 U2 U3 U4 Href Hpr R6 R7 Hsimple Hnew) as (payload & c & Hpay & Hc & _).
    change (sv_source_ref (cs_source_version source)) with (cp_source_ref page) in Hpay.
    change (sv_version_ref (cs_source_version source)) with (cp_source_version_ref page) in Hpay.
    rewrite R1, R2, R5, (Hpay : _accepted_cursor_payload _ _ _ _ (cp_scan_ref page) (cp_scan_epoch page) _ _ _ _ = _).
    cbn [mbind result_bind]. rewrite Hc. cbn [mbind result_bind].
    pose proof (accepted_fields _ _ _ _ _ _ _ _ ref bounded row (Some c) Href Hpr Hbound Hinc Hrow) as Hf. fold page in Hf.
    rewrite R1, R2, R5 in Hf. rewrite Hf. by eexists.
  - cbn [mbind result_bind].
    pose proof (accepted_fields _ _ _ _ _ _ _ _ ref bounded row None Href Hpr Hbound Hcur Hrow) as Hf. fold page in Hf. rewrite Hf. by eexists.
Qed.

Lemma accepted_next source scan_ref start changes bref bound pending proof ref bounded row a
    (page := built_page source changes bref bound 1 scan_ref start (Some pending) proof) :
  is_sha256_hex scan_ref = true → is_sha256_hex ref = true → 1 ≤ bound ≤ MAX_CONFIGURED_FILE_CHANGE_BASELINE_SIZE →
  cs_organization_id source = organization_id → uuid_ok organization_id →
  uuid_ok (sv_source_ref (cs_source_version source)) → uuid_ok (sv_version_ref (cs_source_version source)) → uuid_ok (ps_scan_epoch start) →
  page_cursor source changes bound 1 scan_ref start canon provider_sign (Some pending) →
  records page ref row → accepted_page canon checkpoint_sign organization_id page bounded row = Ok a →
  ∃ c h, continuation source scan_ref (ps_scan_epoch start) pending a c h.
Proof.
  intros Href Hpr Hbound Horg U1 U2 U3 U4 (Hinc & Hsimple & Hnew & _) [R1 R2 R3 R4 R5 R6 R7 R8 R9 R10 R11] Hacc.
  change (cp_source_ref page) with (sv_source_ref (cs_source_version source)) in R1.
  change (cp_source_version_ref page) with (sv_version_ref (cs_source_version source)) in R2.
  change (cp_page_limit page) with 1 in R3. change (cp_scan_bound page) with bound in R11.
  change (cp_complete page) with (ps_offset start + len (slice (ps_offset start) 1 changes) =? len changes) in R9. rewrite Hinc in R9.
  destruct (accepted_cursor_Ok canon checkpoint_sign checkpoint_verify organization_id _ _ scan_ref (ps_scan_epoch start) ref (row_checkpoint_ref row)
    (row_sequence row) pending U1 U2 U3 U4 Href Hpr R6 R7 Hsimple Hnew) as (payload & c & Hpay & Hc & Hun).
  unfold accepted_page in Hacc. change (cp_next_cursor page) with (Some pending) in Hacc.
  change (cp_scan_ref page) with scan_ref in Hacc. change (cp_scan_epoch page) with (ps_scan_epoch start) in Hacc.
  change (cp_scan_bound page) with bound in Hacc. rewrite R1, R2, R3, R5, R11, Hpay in Hacc. cbn [mbind result_bind] in Hacc. rewrite Hc in Hacc.
  cbn [mbind result_bind] in Hacc. apply bind_Ok in Hacc as (_ & _ & <-%Ok_inj).
  assert (Hif : (if bounded then bound else bound) = bound) by by destruct bounded. rewrite Hif.
  exists c, (mkScanHead (sv_version_ref (cs_source_version source)) scan_ref (ps_scan_epoch start) 1 ref (row_checkpoint_ref row) (row_sequence row) false
    bound (row_superseded_scan_epoch row)).
  assert (Hh : ∀ v s, check_scan_head (mkScanHead v scan_ref (ps_scan_epoch start) 1 ref (row_checkpoint_ref row) (row_sequence row) false bound s) = Ok tt).
  { intros v s. unfold check_scan_head, require_sha256, require_page_limit, require_sequence, _require_scan_bound.
    cbn [sh_scan_ref sh_page_limit sh_page_ref sh_checkpoint_ref sh_sequence sh_scan_bound]. rewrite Href, Hpr, R6.
    cbn [require mbind result_bind]. rewrite !(proj2 (Z.leb_le _ _)) by (unfold MAX_FILE_CHANGE_PAGE_SIZE; lia). done. }
  split; try done.
  unfold accepted_scan_head. cbn [ap_source_version_ref ap_scan_ref ap_scan_epoch ap_page_limit ap_page_ref ap_checkpoint_ref ap_sequence
      ap_complete ap_scan_bound ap_superseded_scan_epoch]. rewrite R9, Hh. cbn [mbind result_bind]. reflexivity.
Qed.

(** ** The loop *)

Context (Hregistry : registry_ok registry prefix files).
Context (source0 : FileChangeSource) (scan_ref : pystr).
Abbreviation bound := (max_baseline_entries registry).
Let changes := scan_changes files source0.

(** A scan of its own: not the one the source's head or baseline already holds. *)
Record new_scan : Prop := {
  ns_readable : readable registry prefix files source0;
  ns_identity : scan_identity canon registry files source0 scan_ref;
  ns_stable : stable files source0;
  ns_baseline : ∀ b, cs_complete_baseline source0 = Some b → br_scan_ref (bl_reference b) ≠ scan_ref;
  ns_limit : ∀ h, same_scan source0 scan_ref = Some h → sh_page_limit h = FILE_SCAN_PAGE_LIMIT;
  ns_organization : cs_organization_id source0 = organization_id
}.
Context (Hnew : new_scan).

(** Where the loop stands: [offset] changes are accepted. *)
Inductive position (offset : Z) (l : scan_locals) : Prop :=
  | AtStart : sl_source l = source0 → sl_cursor l = InitialScan → offset = 0 → position offset l
  | AtPage pending a c h d epoch :
      sl_source l = with_head source0 h → sl_cursor l = Continue c → 1 ≤ offset < len changes → uuid_ok epoch →
      continuation source0 scan_ref epoch pending a c h → is_sha256_hex (ap_page_ref a) = true →
      _decode_cursor canon provider_sign pending = Ok (Some d) →
      _cursor_matches d source0 scan_ref epoch 1 (len changes) bound = Some offset →
      position offset l.

Lemma scan_ref_hex : is_sha256_hex scan_ref = true.
Proof.
  destruct (scan_ref_Ok canon registry prefix files Hregistry source0 (ns_readable Hnew)) as (r & Hr & Hh).
  pose proof (ns_identity Hnew) as Hi. unfold scan_identity in *. congruence.
Qed.

(** The page at a position. *)
Definition page_at (offset : Z) (l : scan_locals) (page : ChangePage) (ref : pystr) : Prop :=
  ∃ source start next proof,
    page = built_page source changes (scan_baseline files source0) bound 1 scan_ref start next proof
    ∧ cs_organization_id source = cs_organization_id source0 ∧ cs_source_version source = cs_source_version source0
    ∧ cs_complete_baseline (sl_source l) = cs_complete_baseline source0
    ∧ (∀ h, with_head (sl_source l) h = with_head source0 h)
    ∧ ps_offset start = offset ∧ uuid_ok (ps_scan_epoch start)
    ∧ page_cursor source0 changes bound 1 scan_ref start canon provider_sign next
    ∧ verify_page canon provider_verify page = Ok (Some (mkVerifiedPage page ref)) ∧ is_sha256_hex ref = true.

Lemma read_at offset l :
  position offset l →
  ∃ page ref, read_changes canon provider_sign checkpoint_verify registry (sl_source l) (sl_cursor l) FILE_SCAN_PAGE_LIMIT = Ok (ProviderOk page)
    ∧ page_at offset l page ref.
Proof.
  pose proof scan_ref_hex as Hhex. pose proof (ns_readable Hnew) as Hr. intros [Hs Hc ->|pending a c h d epoch Hs Hc Ho Hu Hcont Hpr Hd Hm].
  - rewrite Hs, Hc. destruct (first_page canon provider_sign provider_verify checkpoint_verify registry prefix files Hregistry source0
      FILE_SCAN_PAGE_LIMIT scan_ref Hr (ns_identity Hnew) Hhex) as (epochs & next & proof & ref & He & Hread & Hcur & Hver & Href); [done|].
    assert (Hlim : from_option sh_page_limit FILE_SCAN_PAGE_LIMIT (same_scan source0 scan_ref) = 1).
    { pose proof (ns_limit Hnew) as Hl. destruct (same_scan source0 scan_ref) as [h|]; [by apply Hl|done]. }
    rewrite Hlim in Hread, Hcur, Hver. eexists _, ref. split; [exact Hread|].
    exists source0, (mkPageStart 0 None epochs.1 epochs.2), next, proof. rewrite Hs. split_and!; try done.
    cbn. apply (epoch_ok source0 scan_ref epochs); [apply (rd_uuids _ _ _ _ Hr)|done].
  - destruct Hcont as [C1 C2 C3 C4 [C5 C6] [C7 C8] C9 [C10 C11]]. rewrite Hs, Hc.
    assert (Hr' : readable registry prefix files (with_head source0 h)).
    { apply with_head_readable; [done|by apply Hnew|done|done|lia|congruence]. }
    pose proof (with_head_identity canon registry files source0 h scan_ref (ns_stable Hnew) C11 (ns_identity Hnew)) as Hi.
    assert (Hch : scan_changes files (with_head source0 h) = changes) by (unfold scan_changes; by rewrite changes_with_head by (done || apply Hnew)).
    assert (Hbr : scan_baseline files (with_head source0 h) = scan_baseline files source0)
      by (unfold scan_baseline; by rewrite changes_with_head by (done || apply Hnew)).
    destruct (next_page canon provider_sign provider_verify checkpoint_verify registry prefix files Hregistry source0 h c FILE_SCAN_PAGE_LIMIT
      scan_ref epoch offset pending d (ap_page_ref a) (ap_checkpoint_ref a) (ap_sequence a) Hr' Hi Hhex) as (next & proof & ref & Hread & Hcur & Hver & Href);
      rewrite ?Hch; try done; [lia|].
    rewrite Hch, Hbr in Hread, Hver. rewrite Hch in Hcur. eexists _, ref. split; [exact Hread|].
    exists (with_head source0 h), (mkPageStart offset (Some (ap_page_ref a, ap_checkpoint_ref a, ap_sequence a)) epoch None), next, proof.
    rewrite Hs. split_and!; done.
Qed.

(** What a turn counts. *)
Definition counted (prior : list (list Z * (list Z * Z))) (cs : list FileChange) : Z :=
  len (filter (λ c, novel prior (own_change source0 scan_ref c) = true) cs)
  + len (filter (λ c, is_delete (own_change source0 scan_ref c) = true) cs).
Lemma counted_app prior cs ds : counted prior (cs ++ ds) = counted prior cs + counted prior ds.
Proof. unfold counted. rewrite !filter_app, !len_app. lia. Qed.
Lemma filter_own (p : SourceChange → bool) cs :
  len (filter (λ c, p c = true) (own_change source0 scan_ref <$> cs)) = len (filter (λ c, p (own_change source0 scan_ref c) = true) cs).
Proof.
  induction cs as [|c cs IH]; [done|]. rewrite fmap_cons, !filter_cons. case_decide; rewrite ?len_cons; lia.
Qed.
Lemma counted_own prior cs :
  len (filter (λ c, novel prior c = true) (own_change source0 scan_ref <$> cs))
  + len (filter (λ c, is_delete c = true) (own_change source0 scan_ref <$> cs)) = counted prior cs.
Proof. unfold counted. by rewrite (filter_own (novel prior)), (filter_own is_delete). Qed.

Abbreviation slice1 offset := (slice offset 1 changes).

Definition turn_result (prior : list (list Z * (list Z * Z))) (offset : Z) (l : scan_locals) (r : FileScanReport + scan_locals) : Prop :=
  match r with
  | inl report =>
      offset + len (slice1 offset) = len changes
      ∧ rp_changes_accepted report = sl_changes_accepted l + counted prior (slice1 offset)
      ∧ rp_advanced_cursor report ≠ None
  | inr l' =>
      position (offset + len (slice1 offset)) l' ∧ sl_cursor l' ≠ InitialScan
      ∧ sl_changes_accepted l' = sl_changes_accepted l + counted prior (slice1 offset)
  end.

Lemma accept_turn_at prior reconciled offset l page ref w :
  page_at offset l page ref →
  ∃ r w', accept_turn env canon provider_verify authority credential organization_id source_ref audience prior reconciled l page w = (Ok r, w')
    ∧ delivered (sw_calls w') = delivered (sw_calls w) ++ slice1 offset ∧ turn_result prior offset l r.
Proof.
  intros (source & start & next & proof & -> & Ho & Hv & Hbl & Hwh & <- & Hu & Hcur & Hver & Href).
  set (page := built_page source changes (scan_baseline files source0) bound 1 scan_ref start next proof) in *.
  assert (Hown : cp_changes page = own_change source0 scan_ref <$> slice1 (ps_offset start)).
  { unfold page, built_page, unsigned_page. cbn [cp_changes]. apply list_fmap_ext. intros ? c _. unfold own_change. by rewrite Ho, Hv. }
  pose proof (rd_uuids _ _ _ _ (ns_readable Hnew)) as (U1 & U2 & U3 & _). rewrite (ns_organization Hnew) in U1. rewrite <- Hv in U2, U3.
  pose proof (ns_organization Hnew) as Horg. rewrite <- Ho in Horg. pose proof scan_ref_hex as Hhex. pose proof (rg_bound _ _ _ Hregistry) as Hbd.
  assert (Hcur' : page_cursor source changes bound 1 scan_ref start canon provider_sign next).
  { destruct next as [pending|]; [|done]. destruct Hcur as (Q1 & Q2 & Q3 & d & Q4 & Q5). split_and!; try done. exists d. split; [done|].
    unfold _cursor_matches in *. by rewrite Ho, Hv. }
  destruct (accept_page_Ok page _ w Hver) as (row & bounded & a & w1 & Ha & Hcalls & Hacc & Hrow); [done| |].
  { intros row bounded Hrow. by apply (accepted_built source scan_ref start changes (scan_baseline files source0) bound next proof ref). }
  pose proof (accepted_page_ref _ _ _ _ _ Hrow Hacc) as Hpr. cbn [vp_page_ref] in Hpr, Hrow.
  set (nov := filter (λ c, novel prior c = true) (cp_changes page)).
  destruct (schedule_novel_Ok a nov reconciled w1) as (n & w2 & Hs & Hd); [by rewrite Hpr|].
  assert (Hdel : delivered (sw_calls w2) = delivered (sw_calls w) ++ slice1 (ps_offset start)).
  { rewrite Hd, Hcalls, delivered_app. f_equal. unfold delivered. cbn [mbind list_bind accepted_in vp_page]. rewrite app_nil_r, Hown.
    rewrite <- list_fmap_compose. apply list_fmap_id. }
  assert (Hcount : len nov + len (filter (λ c, is_delete c = true) (cp_changes page)) = counted prior (slice1 (ps_offset start))).
  { unfold nov. rewrite Hown. apply counted_own. }
  unfold accept_turn. unfold mbind, scan_bind. rewrite Ha. fold nov. rewrite Hs.
  destruct next as [pending|].
  - destruct (accepted_next source scan_ref start changes (scan_baseline files source0) bound pending proof ref bounded row a) as (c & h & Hcont);
      [done..|].
    rewrite (cn_cursor _ _ _ _ _ _ _ Hcont). unfold ret. rewrite (cn_head _ _ _ _ _ _ _ Hcont).
      assert (Hchk : check_change_source (mkChangeSource (cs_organization_id (sl_source l)) (cs_source_version (sl_source l)) (Some h)
        (cs_complete_baseline (sl_source l))) = Ok tt).
      { pose proof (Hwh h) as Hw. unfold with_head in Hw. rewrite Hw. apply (sr_source _ (rd_source _ _ _ _ (ns_readable Hnew))). }
      rewrite Hchk. eexists _, w2. split; [reflexivity|]. split; [done|].
      destruct Hcur as (Q1 & Q2 & Q3 & d & Q4 & Q5).
      split; [|cbn [sl_changes_accepted sl_cursor]; by rewrite Hcount].
      apply (AtPage _ _ pending a c h d (ps_scan_epoch start)); try done; cbn [sl_source sl_cursor].
      * apply Hwh.
      * unfold _cursor_matches in Q5. repeat (case_match; try discriminate). injection Q5 as ->. run_ok. lia.
      * destruct Hcont. split; try done. congruence.
      * by rewrite Hpr.
  - rewrite (accepted_last page bounded row a eq_refl Hacc). eexists _, w2. split; [reflexivity|]. split; [done|].
    cbn [turn_result rp_changes_accepted rp_advanced_cursor]. cbn [page_cursor] in Hcur. apply Z.eqb_eq in Hcur.
    split_and!; [done|by rewrite Hcount|done].
Qed.

Lemma not_replayed page offset l ref : page_at offset l page ref → sl_source l = source0 →
  _replays_complete_baseline (sl_source l) (cp_scan_ref page) (cp_scan_epoch page) = false.
Proof.
  intros (source & start & next & proof & -> & _) ->. pose proof (ns_baseline Hnew) as Hb. unfold _replays_complete_baseline.
  destruct (cs_complete_baseline source0) as [b|]; [|done]. destruct (cs_scan_head source0); [|done].
  change (cp_scan_ref (built_page _ _ _ _ _ _ _ _ _)) with scan_ref.
  rewrite (bool_decide_eq_false_2 (scan_ref = _)) by (intros E; by apply (Hb b)). by rewrite andb_false_r.
Qed.

Lemma turn_at prior reconciled offset l w :
  position offset l →
  ∃ r w', scan_turn env canon provider_sign provider_verify checkpoint_verify authority credential organization_id source_ref audience
            prior reconciled l w = (Ok r, w')
    ∧ delivered (sw_calls w') = delivered (sw_calls w) ++ slice1 offset ∧ turn_result prior offset l r.
Proof.
  intros Hpos. destruct (read_at offset l Hpos) as (page & ref & Hread & Hat).
  destruct (accept_turn_at prior reconciled offset l page ref w Hat) as (r & w' & Hacc & Hdel & Hres). exists r, w'. split; [|done].
  unfold scan_turn. rewrite (hn_roots Hhonest), Hread. unfold mbind, scan_bind, ret.
  assert (cp_page_limit page =? FILE_SCAN_PAGE_LIMIT = true) as ->.
  { by destruct Hat as (source & start & next & proof & -> & _). }
  cbn [require]. destruct (sl_cursor l) as [|c] eqn:Ec; [|done].
  assert (Hs : sl_source l = source0) by (destruct Hpos as [? ? ?|? ? ? ? ? ? ? Hc]; [done|congruence]).
  pose proof (not_replayed _ _ _ _ Hat Hs) as Hrep. destruct (cs_complete_baseline (sl_source l)); [|done]. by rewrite Hrep.
Qed.

Lemma slice1_len offset : 0 ≤ offset ≤ len changes → len (slice1 offset) = Z.min 1 (len changes - offset).
Proof. intros H. apply slice_len; lia. Qed.
Lemma drop_slice1 offset : 0 ≤ offset ≤ len changes → drop (Z.to_nat offset) changes = slice1 offset ++ drop (Z.to_nat (offset + len (slice1 offset))) changes.
Proof.
  intros H. rewrite slice1_len by done. unfold slice. change (Z.to_nat 1) with 1%nat.
  destruct (decide (offset = len changes)) as [->|Hne].
  - rewrite !drop_ge by (unfold len; lia). done.
  - replace (Z.to_nat (offset + Z.min 1 (len changes - offset))) with (Z.to_nat offset + 1)%nat by lia.
    rewrite <- drop_drop. symmetry. apply take_drop.
Qed.

Lemma position_range offset l : position offset l → 0 ≤ offset ≤ len changes.
Proof. pose proof (len_nonneg changes). intros [? ? ?|]; lia. Qed.

Lemma loop_delivers prior reconciled fuel : ∀ offset l w,
  position offset l → len changes - offset < Z.of_nat fuel →
  ∃ report w', scan_loop env canon provider_sign provider_verify checkpoint_verify authority credential organization_id source_ref audience
                 fuel prior reconciled l w = (Ok report, w')
    ∧ delivered (sw_calls w') = delivered (sw_calls w) ++ drop (Z.to_nat offset) changes
    ∧ rp_changes_accepted report = sl_changes_accepted l + counted prior (drop (Z.to_nat offset) changes)
    ∧ rp_advanced_cursor report ≠ None.
Proof.
  induction fuel as [|fuel IH]; intros offset l w Hpos Hf; [pose proof (position_range _ _ Hpos); lia|].
  destruct (turn_at prior reconciled offset l w Hpos) as (r & w1 & Hturn & Hdel & Hres).
  cbn [scan_loop]. unfold mbind at 1, scan_bind at 1. rewrite Hturn. pose proof (position_range _ _ Hpos) as Hr.
  rewrite (drop_slice1 offset Hr), counted_app. destruct r as [report|l']; cbn [turn_result] in Hres.
  - destruct Hres as (He & Hc & Ha). exists report, w1. rewrite He, (drop_ge changes) by (unfold len; lia). rewrite app_nil_r.
    split_and!; [done|done| |done]. change (counted prior []) with 0. lia.
  - destruct Hres as (Hpos' & Hnot & Hc). pose proof (position_range _ _ Hpos') as Hr'.
    assert (Hl : len (slice1 offset) = 1).
    { destruct Hpos' as [_ E _|]; [by apply Hnot in E|]. rewrite slice1_len in * by done. lia. }
    destruct (IH _ l' w1 Hpos') as (report & w2 & Hloop & Hd2 & Hc2 & Ha2); [lia|].
    exists report, w2. rewrite Hd2, Hdel, Hc2, Hc, <- app_assoc. split_and!; [done|done|lia|done].
Qed.
End Delivery.

(** ** The whole scan *)

(** C22: A File scan ends, and hands over exactly the difference.  In an environment
    whose operator is authorized, whose root does not change and whose store records
    the pages it accepts, the loop of [scan_file_source] on a scan of its own returns a
    report after at most one turn per change: the pages the store accepted carry the
    changes of the scan, each once and in canonical order; applied to the files of the
    last complete baseline they give exactly the files observed in the root; and the
    report counts the new and the deleted files among them. *)
Theorem file_scan_delivers {nesting : NestingLimit} {W} (env : ScanEnv W) canon provider_sign provider_verify
    checkpoint_sign checkpoint_verify authority credential organization_id source_ref audience registry prefix files source scan_ref reconciled scheduled w fuel :
  Rfc8785 canon → Ed25519 provider_sign provider_verify → Ed25519 checkpoint_sign checkpoint_verify →
  honest env canon provider_verify checkpoint_sign authority credential organization_id registry →
  registry_ok registry prefix files → new_scan canon organization_id registry prefix files source scan_ref →
  sw_calls w = [] → len (scan_changes files source) < Z.of_nat fuel →
  ∃ report w',
    scan_loop env canon provider_sign provider_verify checkpoint_verify authority credential organization_id source_ref audience fuel
      (_prior_identities source) reconciled (mkLocals source InitialScan [] 0 scheduled 0 None) w = (Ok report, w')
    ∧ delivered (sw_calls w') = scan_changes files source
    ∧ canonical_order (fc_path <$> delivered (sw_calls w')) = true ∧ NoDup (fc_path <$> delivered (sw_calls w'))
    ∧ apply_changes (baseline_files source) (delivered (sw_calls w')) = files_of (observed_changes files)
    ∧ rp_changes_accepted report = counted source scan_ref (_prior_identities source) (scan_changes files source).
Proof.
  intros HC HP HK Hh Hr Hn Hw Hf.
  destruct (loop_delivers env canon provider_sign provider_verify checkpoint_sign checkpoint_verify authority credential organization_id source_ref
    audience registry prefix files Hh Hr source scan_ref Hn (_prior_identities source) reconciled fuel 0
    (mkLocals source InitialScan [] 0 scheduled 0 None) w) as (report & w' & Hloop & Hd & Hc & _); [by apply AtStart|lia|].
  pose proof (rd_source _ _ _ _ (ns_readable _ _ _ _ _ _ _ Hn)) as Hs.
  exists report, w'. rewrite Hloop, Hd, Hw. change (delivered [] ++ drop (Z.to_nat 0) ?l) with l. split_and!; [done|done| | | |by rewrite Hc].
  - by eapply scan_changes_canonical.
  - by eapply scan_changes_nodup.
  - apply changes_apply; [by eapply observed_paths, rg_paths|apply observed_upserts|]. intros b Hb. by apply (sr_baseline _ Hs).
Qed.

(** ** A sample scan: one file changed, one deleted, one new *)

#[local] Existing Instance cpython_nesting.

Definition toy_sign (p : pybytes) : pybytes := sha256 p ++ sha256 p.
Definition toy_verify (s p : pybytes) : bool := bool_decide (s = toy_sign p).
Lemma toy_ed25519 : Ed25519 toy_sign toy_verify.
Proof.
  split; intros p; unfold toy_sign.
  - apply Forall_app. split; apply sha256_byte_ok.
  - unfold len. by rewrite length_app, length_sha256.
  - unfold toy_verify. by rewrite bool_decide_eq_true_2.
Qed.

Definition moment (s : Z) : datetime := mkDatetime (s * us_per_second) (Some 0).
Definition scan_files : list (list Z * list Z) := [(lit "c.md", lit "# C"); (lit "a.md", lit "# A2")].
Definition scan_registry : FileRootRegistry := mkRegistry 100 (Ok None) (Observed scan_files).
Definition scan_org : UUID := mkUUID 11.
Definition scan_version : SourceVersion :=
  mkSourceVersion (mkUUID 12) (mkUUID 13) FILE (lit "root") (mkCapabilityObject FILE_DELETE_OBSERVATION_CAPABILITY_MANIFEST true) (moment 1).
Definition scan_entries : list FileChange :=
  [mkFileChange UPSERT (lit "a.md") (hexdigest (lit "# A1")) 4; mkFileChange UPSERT (lit "b.md") (hexdigest (lit "# B")) 3].
Definition scan_base_ref : FileChangeBaselineRef :=
  mkBaselineRef (mkUUID 13) (hexdigest (lit "old scan")) (mkUUID 14) (hexdigest (lit "old page")) (lit "facp_" ++ hexdigest (lit "old")) 7 100 None.
Definition scan_source : FileChangeSource := mkChangeSource scan_org scan_version None (Some (mkBaseline scan_base_ref scan_entries)).
Definition scan_reference : pystr :=
  Eval vm_compute in
    match _scan_ref safe_canon scan_source (scan_changes scan_files scan_source) (scan_baseline scan_files scan_source) 100 with
    | Ok r => r | Err _ => [] end.

Definition all_operations : list ControlOperation :=
  [ACCEPT_FILE_CHANGE_PAGE; ACTIVATE_FILE_CHANGE_FEED; ACTIVATE_FILE_DELETE_OBSERVATIONS; CHANGE_ARTICLE_POLICY;
   COMMIT_BULK_ARTICLE_POLICY_CHANGE; EXECUTE_FILE_DELETE_OBSERVATION; IMPORT_FILE; OFFBOARD_FILE_SOURCE;
   PREVIEW_BULK_ARTICLE_POLICY_CHANGE; REGISTER_SOURCE; READ_ARTICLE_POLICY; READ_SOURCE; READ_SOURCE_PROGRESS;
   SCHEDULE_FILE_CHANGE_PAGE; SET_SOURCE_ARTICLE_POLICY_DEFAULT; SET_TENANT_ARTICLE_POLICY_DEFAULT; TOMBSTONE_FILE_RESOURCE].
Definition scan_identity_card : VerifiedControlOperatorIdentity :=
  mkOperatorIdentity scan_org (lit "operator:1") (lit "binding:1") (lit "authority:1") all_operations (moment 0) (moment 1000).
Definition scan_turn_at : operator_turn := mkTurn (Ok (Some scan_identity_card)) (moment 10) (replicate 32 9) (lit "request:1") (moment 11).

(** A store that numbers the pages and schedules an import of every file. *)
Definition scan_row (page : ChangePage) (ref : pystr) (n : nat) : accepted_row :=
  mkAcceptedRow (cp_source_ref page) (cp_source_version_ref page) (cp_page_limit page) (cp_superseded_scan_epoch page) ref
    (lit "facp_" ++ hexdigest ref) (8 + Z.of_nat n mod 1000) (len (cp_changes page)) (cp_complete page) (moment 12) (cp_scan_bound page).
Definition scan_imports (command : ScheduleFileChangePage) : list ScheduledFileChange :=
  imap (λ i f, mkScheduledChange (1 + Z.of_nat i) f.1 (hexdigest f.2) (len f.2)
                 (mkPreparedImport scan_org (mkUUID 20) (sp_source_ref command) (mkUUID 21))) scan_files.
Definition scan_env : ScanEnv nat :=
  mkEnv nat (λ n, (scan_turn_at, n)) (λ _, scan_registry)
    (λ _ p, match dict_get scan_files p with Some b => Ok b | None => Err LookupError end)
    (λ n, (Ok None, n)) (λ n, (Ok None, n))
    (λ n page, (match verify_page safe_canon toy_verify page with
                | Ok (Some v) => a ← accepted_page safe_canon toy_sign scan_org page true (scan_row page (vp_page_ref v) n); Ok (Some a)
                | _ => Ok None
                end, S n))
    (λ n command, (Ok (Some (mkScheduledPage scan_org (sp_source_ref command) (sp_source_version_ref command) (sp_page_ref command)
                               (scan_imports command))), S n))
    (λ n _, (Ok tt, n)) (λ n, (Ok tt, n)).

Lemma scan_checkpoint ref : _require_checkpoint_ref (lit "facp_" ++ hexdigest ref) = Ok tt.
Proof.
  unfold _require_checkpoint_ref. pose proof (hexdigest_shape ref) as H. unfold is_sha256_hex in H. apply andb_true_iff in H as [Hl Ha].
  revert Hl Ha. generalize (hexdigest ref). intros h Hl Ha. change (startswith (lit "facp_") (lit "facp_" ++ h)) with true.
  change (drop 5 (lit "facp_" ++ h)) with h. rewrite Ha, len_app. change (len (lit "facp_")) with 5. apply Z.eqb_eq in Hl. by rewrite Hl.
Qed.

Lemma scan_env_honest :
  honest scan_env safe_canon toy_verify toy_sign sample_control_authority (lit "credential") scan_org scan_registry.
Proof.
  split.
  - intros e op. split; [|by vm_compute]. cbn [scan_env env_turn fst]. split.
    + reflexivity.
    + reflexivity.
    + exists scan_identity_card. split; [reflexivity|]. split; [reflexivity|]. split; [destruct op; apply (bool_decide_unpack _); reflexivity|].
      split; [reflexivity|]. split; [reflexivity|]. split; [reflexivity|]. split; [reflexivity|]. split; vm_compute; congruence.
    + reflexivity.
    + split; reflexivity.
    + split; [split; vm_compute; congruence|vm_compute; reflexivity].
    + reflexivity.
  - done.
  - intros e page v Hv. exists (scan_row page (vp_page_ref v) e), true. cbn [scan_env env_accept fst]. rewrite Hv. split; [|done].
    split; try done; [apply scan_checkpoint|]. cbn [scan_row row_sequence]. pose proof (Z.mod_pos_bound (Z.of_nat e) 1000). lia.
  - intros e command. eexists. split; [reflexivity|]. split_and!; try done. intros c Hc. cbn [sg_changes] in Hc.
    unfold scan_imports, scan_files in Hc. cbn [imap] in Hc.
    apply elem_of_cons in Hc as [->|Hc]; [split; [vm_compute; reflexivity|]; intros e'; exists (lit "# C"); split_and!; [vm_compute|..]; reflexivity|].
    apply elem_of_cons in Hc as [->|Hc]; [split; [vm_compute; reflexivity|]; intros e'; exists (lit "# A2"); split_and!; [vm_compute|..]; reflexivity|].
    by apply elem_of_nil in Hc.
Qed.

Lemma sample_path p : forallb (λ c, (0 <=? c) && (c <=? 0x10FFFF)) p = true → new_FileImportPath p = Ok p → path_ok p.
Proof.
  intros H. split; [|done]. rewrite forallb_forall in H. apply Forall_forall. intros c Hc%list_elem_of_In%H. lia.
Qed.
Lemma sample_registry_ok : registry_ok scan_registry None scan_files.
Proof.
  split; [vm_compute; split; discriminate|done|done|apply (bool_decide_unpack _); reflexivity|].
  repeat (constructor; [split; [apply sample_path; vm_compute; reflexivity|vm_compute; reflexivity]|]). constructor.
Qed.
Lemma sample_source_ok : source_ok scan_source.
Proof.
  split; [right; reflexivity|vm_compute; reflexivity|done|]. intros b Hb. injection Hb as <-. split; [vm_compute; reflexivity|]. split.
  - repeat (constructor; [split; [vm_compute; reflexivity|]; split; [vm_compute; reflexivity|apply sample_path; vm_compute; reflexivity]|]). constructor.
  - split; [split; [vm_compute; reflexivity|vm_compute; reflexivity]|done].
Qed.
Lemma sample_scan : new_scan safe_canon scan_org scan_registry None scan_files scan_source scan_reference.
Proof.
  split; [split| | | | |reflexivity].
  - exact sample_source_ok.
  - by intros q b e [=].
  - vm_compute. discriminate.
  - do 3 (split; [unfold uuid_ok; cbn; lia|]). intros h [=].
  - vm_compute. reflexivity.
  - intros b _ _. reflexivity.
  - intros b Hb. injection Hb as <-. vm_compute. discriminate.
  - done.
Qed.

(** The scan of the sample: three turns, three changes. *)
Lemma file_scan_delivers_witness :
  ∃ report w',
    scan_loop scan_env safe_canon toy_sign toy_verify toy_verify sample_control_authority (lit "credential") scan_org (mkUUID 12)
      (mkAudience (lit "principal:1") (mkUUID 15) 1) 4 (_prior_identities scan_source) [] (mkLocals scan_source InitialScan [] 0 0 0 None)
      (mkScanWorld 0%nat [] []) = (Ok report, w')
    ∧ len (delivered (sw_calls w')) = 3 ∧ rp_changes_accepted report = 3.
Proof.
  destruct (file_scan_delivers scan_env safe_canon toy_sign toy_verify toy_sign toy_verify sample_control_authority (lit "credential") scan_org
    (mkUUID 12) (mkAudience (lit "principal:1") (mkUUID 15) 1) scan_registry None scan_files scan_source scan_reference [] 0
    (mkScanWorld 0%nat [] []) 4 safe_canon_rfc8785 toy_ed25519 toy_ed25519 scan_env_honest sample_registry_ok sample_scan eq_refl)
    as (report & w' & Hloop & Hd & _ & _ & _ & Hc); [vm_compute; reflexivity|].
  exists report, w'. split; [exact Hloop|]. rewrite Hd, Hc. split; vm_compute; reflexivity.
Defined.
