(* ===== verification/ScanPins.v ===== *)
(** * Pages of one scan agree

    The scan reference is a digest of the whole list of changes: pages served under
    one reference, at whatever time and from whatever state of the root, are cut from
    the same list. *)

From S2P Require Import Prelude Codec Sha256 Datetime Json Trusted Signing TicketIdentity ReleaseFacts Canonical ArticlePolicy BulkPolicy FileChanges FileProvider FileFacts FilePages FileReads ControlFacts ScanFacts.
Import Opaque.

(** ** The document of a scan *)

Lemma sorted_entry (d d' : list (list Z * json)) k v v' :
  NoDup d.*1 → NoDup d'.*1 → sort_keys (JObj d) = sort_keys (JObj d') →
  dict_get d (lit k) = Some v → dict_get d' (lit k) = Some v' → sort_keys v = sort_keys v'.
Proof.
  intros Hd Hd' H Hv Hv'. change (sort_keys (JObj ?x)) with (JObj (in_key_order x)) in H. injection H as H.
  apply (f_equal (λ x, dict_get x (lit k))) in H. rewrite !get_in_order, Hv, Hv' in H by done. by injection H.
Qed.
Lemma wf_nodup d : wf_json (JObj d) = true → NoDup d.*1.
Proof. cbn [wf_json]. intros [H _]%andb_true_iff. by apply bool_decide_eq_true in H. Qed.

Lemma kind_value_eq k k' : change_kind_value k = change_kind_value k' → k = k'.
Proof. destruct k, k'; try done; intros H; exfalso; by vm_compute in H. Qed.

Lemma scan_entry_inj c c' : sort_keys (scan_entry true c) = sort_keys (scan_entry true c') → c = c'.
Proof.
  intros H. change (sort_keys (scan_entry true ?x)) with (scan_entry true x) in H. unfold scan_entry in H. cbn [app] in H.
  assert (E1 : fc_length c = fc_length c') by congruence. assert (E2 : fc_sha256 c = fc_sha256 c') by congruence.
  assert (E3 : change_kind_value (fc_kind c) = change_kind_value (fc_kind c')) by congruence.
  assert (E4 : fc_path c = fc_path c') by congruence. apply kind_value_eq in E3. destruct c, c'; cbn in *; congruence.
Qed.
Lemma scan_entries_inj (l l' : list FileChange) :
  sort_keys (JArr (scan_entry true <$> l)) = sort_keys (JArr (scan_entry true <$> l')) → l = l'.
Proof.
  intros H. cbn [sort_keys] in H. injection H as H. rewrite <- !list_fmap_compose in H.
  revert l' H. induction l as [|c l IH]; intros [|c' l'] H; try done. rewrite !fmap_cons in H. f_equal; [|by apply IH, (f_equal tail H)].
  apply scan_entry_inj. exact (f_equal (hd JNull) H).
Qed.

Record scan_facts (source : FileChangeSource) : Prop := {
  sf_deletes : is_delete_observation (sv_capabilities (cs_source_version source)) = true;
  sf_org : uuid_ok (cs_organization_id source);
  sf_source : uuid_ok (sv_source_ref (cs_source_version source));
  sf_version : uuid_ok (sv_version_ref (cs_source_version source))
}.

Lemma scan_document_inj source cs r b source' cs' r' b' :
  scan_facts source → scan_facts source' → scan_inputs source cs r b → scan_inputs source' cs' r' b' →
  sort_keys (scan_document source cs r b) = sort_keys (scan_document source' cs' r' b') →
  cs = cs' ∧ b = b' ∧ cs_organization_id source = cs_organization_id source'
  ∧ sv_version_ref (cs_source_version source) = sv_version_ref (cs_source_version source').
Proof.
  intros [D O S V] [D' O' S' V'] I I' H. pose proof (wf_nodup _ (scan_document_wf _ _ _ _ I)) as N.
  pose proof (wf_nodup _ (scan_document_wf _ _ _ _ I')) as N'. unfold scan_document in *. rewrite D in *. rewrite D' in *.
  pose proof (sorted_entry _ _ "organizationId" _ _ N N' H eq_refl eq_refl) as E1.
  pose proof (sorted_entry _ _ "sourceVersionId" _ _ N N' H eq_refl eq_refl) as E2.
  pose proof (sorted_entry _ _ "scanBound" _ _ N N' H eq_refl eq_refl) as E3.
  pose proof (sorted_entry _ _ "entries" _ _ N N' H eq_refl eq_refl) as E4. clear N N' H.
  apply scan_entries_inj in E4. unfold juuid in E1, E2. cbn [sort_keys] in E1, E2, E3.
  assert (E1' : uuid_str (cs_organization_id source) = uuid_str (cs_organization_id source')) by congruence.
  assert (E2' : uuid_str (sv_version_ref (cs_source_version source)) = uuid_str (sv_version_ref (cs_source_version source'))) by congruence.
  apply uuid_str_inj in E1'; [|done..]. apply uuid_str_inj in E2'; [|done..]. split_and!; [done|congruence|done|done].
Qed.

(** The canonical texts of two scans, with one SHA-256. *)
Definition scan_collision (canon : json → result pybytes) source cs r b source' cs' r' b' : Prop :=
  ∃ t t', canon (scan_document source cs r b) = Ok t ∧ canon (scan_document source' cs' r' b') = Ok t'
    ∧ collision (_SCAN_DOMAIN ++ t) (_SCAN_DOMAIN ++ t').

Lemma scan_ref_inj canon `{!Rfc8785 canon} source cs r b source' cs' r' b' ref :
  scan_facts source → scan_facts source' → scan_inputs source cs r b → scan_inputs source' cs' r' b' →
  _scan_ref canon source cs r b = Ok ref → _scan_ref canon source' cs' r' b' = Ok ref →
  (cs = cs' ∧ b = b' ∧ cs_organization_id source = cs_organization_id source'
   ∧ sv_version_ref (cs_source_version source) = sv_version_ref (cs_source_version source'))
  ∨ scan_collision canon source cs r b source' cs' r' b'.
Proof.
  intros F F' I I' H H'. unfold _scan_ref in H, H'. apply bind_Ok in H as (t & Ht & Er%Ok_inj), H' as (t' & Ht' & Er'%Ok_inj).
  destruct (decide (t = t')) as [<-|Hne].
  - left. eapply scan_document_inj; try done. eapply rfc_injective; try done; by eapply scan_document_wf.
  - right. exists t, t'. split_and!; [done..|]. split; [by intros E%app_inv_head|congruence].
Qed.

(** ** What a served page says *)

Section Served.
Context {nesting : NestingLimit}.
Context (canon : json → result pybytes) (provider_sign : pybytes → pybytes) (checkpoint_verify : pybytes → pybytes → bool).

Lemma build_page_changes source cs r ref limit bound st page :
  build_page canon provider_sign source cs r ref limit bound st = Ok page →
  cp_scan_ref page = ref ∧ cp_page_limit page = limit ∧ cp_scan_epoch page = ps_scan_epoch st
  ∧ (cp_predecessor_page_ref page, cp_predecessor_checkpoint_ref page, cp_predecessor_sequence page)
    = (fst ∘ fst <$> ps_predecessor st, snd ∘ fst <$> ps_predecessor st, snd <$> ps_predecessor st)
  ∧ sc_change <$> cp_changes page = slice (ps_offset st) limit cs
  ∧ cp_complete page = (ps_offset st + len (slice (ps_offset st) limit cs) =? len cs).
Proof.
  unfold build_page. intros H. apply bind_Ok in H as (next & _ & H). apply bind_Ok in H as (sources & Hs & H).
  apply bind_Ok in H as (? & _ & H). apply bind_Ok in H as (proof & _ & H). apply bind_Ok in H as (? & _ & <-%Ok_inj).
  split_and!; try done. cbn [unsigned_page cp_changes]. fold (slice (ps_offset st) limit cs) in Hs. revert Hs. generalize (slice (ps_offset st) limit cs).
  intros l. clear. revert sources. induction l as [|c l IH]; intros sources H; cbn [map_result] in H; [by apply Ok_inj in H as <-|].
  apply bind_Ok in H as (y & Hy & H). apply bind_Ok in H as (ys & Hys & <-%Ok_inj). rewrite fmap_cons, (IH _ Hys).
  unfold new_SourceChange in Hy. apply bind_Ok in Hy as (? & _ & <-%Ok_inj). done.
Qed.

Lemma served_page registry source cursor limit page :
  read_changes canon provider_sign checkpoint_verify registry source cursor limit = Ok (ProviderOk page) →
  ∃ files requested st, observe_markdown_files registry = Observed files ∧ (∀ c, cursor = Continue c → requested = limit)
    ∧ len (scan_changes files source) ≤ max_baseline_entries registry
    ∧ _scan_ref canon source (scan_changes files source) (scan_baseline files source) (max_baseline_entries registry) = Ok (cp_scan_ref page)
    ∧ start_of canon provider_sign checkpoint_verify source cursor (cp_scan_ref page) requested (len (scan_changes files source))
        (max_baseline_entries registry) = Ok (Some st)
    ∧ build_page canon provider_sign source (scan_changes files source) (scan_baseline files source) (cp_scan_ref page) requested
        (max_baseline_entries registry) st = Ok page.
Proof.
  unfold read_changes. destruct (negb _); [discriminate|]. destruct (curated_subtree_prefix registry) as [q|]; [|discriminate].
  destruct (match q with Some _ => _ | None => _ end); [discriminate|].
  destruct (observe_markdown_files registry) as [files| | |]; try discriminate. fold (observed_changes files).
  unfold scan_changes, scan_baseline. destruct (_changes source (observed_changes files)) as [cs r] eqn:Ec.
  destruct (max_baseline_entries registry <? len cs) eqn:Eb; [discriminate|]. intros H.
  apply bind_Ok in H as (ref & Href & H). apply bind_Ok in H as ([st|] & Hst & H); [|discriminate].
  apply bind_Ok in H as (p & Hp & H). injection H as ->. destruct (build_page_changes _ _ _ _ _ _ _ _ Hp) as [Er _].
  exists files. rewrite Ec. cbn [fst snd]. rewrite Er. eexists _, st. split_and!; [done| |lia|done|exact Hst|exact Hp]. by intros c ->.
Qed.
End Served.

(** C24: A scan is not torn.  When the Provider serves two pages under one scan
    reference (for any sources that observe deletions, at any time, from any content of
    the root), both are consecutive runs of one and the same list of changes, within
    the page limit, a page is marked complete exactly when it reaches the end of that
    list, and the Organization and the source version are the same; otherwise the
    canonical texts of these two scans collide under SHA-256. *)
Theorem pages_of_a_scan_agree {nesting : NestingLimit} canon provider_sign checkpoint_verify
    registry prefix files source cursor limit page registry' prefix' files' source' cursor' limit' page' :
  Rfc8785 canon → source_ok source → source_ok source' → scan_facts source → scan_facts source' →
  registry_ok registry prefix files → registry_ok registry' prefix' files' →
  read_changes canon provider_sign checkpoint_verify registry source cursor limit = Ok (ProviderOk page) →
  read_changes canon provider_sign checkpoint_verify registry' source' cursor' limit' = Ok (ProviderOk page') →
  cp_scan_ref page = cp_scan_ref page' →
  (∃ changes o o', changes = scan_changes files source
     ∧ sc_change <$> cp_changes page = slice o (cp_page_limit page) changes
     ∧ sc_change <$> cp_changes page' = slice o' (cp_page_limit page') changes
     ∧ (cp_complete page = true ↔ o + len (cp_changes page) = len changes)
     ∧ (cp_complete page' = true ↔ o' + len (cp_changes page') = len changes)
     ∧ cs_organization_id source = cs_organization_id source'
     ∧ sv_version_ref (cs_source_version source) = sv_version_ref (cs_source_version source'))
  ∨ scan_collision canon source (scan_changes files source) (scan_baseline files source) (max_baseline_entries registry)
      source' (scan_changes files' source') (scan_baseline files' source') (max_baseline_entries registry').
Proof.
  intros HC S S' F F' R R' H H' E.
  destruct (served_page _ _ _ _ _ _ _ _ H) as (fs & lim & st & Ho & _ & Hl & Href & _ & Hb).
  destruct (served_page _ _ _ _ _ _ _ _ H') as (fs' & lim' & st' & Ho' & _ & Hl' & Href' & _ & Hb').
  rewrite (rg_observed _ _ _ R) in Ho. injection Ho as <-. rewrite (rg_observed _ _ _ R') in Ho'. injection Ho' as <-.
  rewrite <- E in Href'.
  destruct (scan_ref_inj canon _ _ _ _ _ _ _ _ _ F F' (scan_inputs_ok _ _ _ _ S R Hl) (scan_inputs_ok _ _ _ _ S' R' Hl') Href Href')
    as [(Ecs & Eb & Eo & Ev)|Hcol]; [left|by right].
  destruct (build_page_changes _ _ _ _ _ _ _ _ _ _ Hb) as (_ & <- & _ & _ & Hch & Hco).
  destruct (build_page_changes _ _ _ _ _ _ _ _ _ _ Hb') as (_ & <- & _ & _ & Hch' & Hco').
  change (_changes source (observed_changes files)).1 with (scan_changes files source) in Ecs.
  change (_changes source' (observed_changes files')).1 with (scan_changes files' source') in Ecs.
  exists (scan_changes files source), (ps_offset st), (ps_offset st'). rewrite <- Ecs in Hch', Hco'.
  assert (Hlen : len (cp_changes page) = len (slice (ps_offset st) (cp_page_limit page) (scan_changes files source)))
    by (rewrite <- Hch; unfold len; by rewrite length_fmap).
  assert (Hlen' : len (cp_changes page') = len (slice (ps_offset st') (cp_page_limit page') (scan_changes files source)))
    by (rewrite <- Hch'; unfold len; by rewrite length_fmap).
  rewrite Hlen, Hlen', Hco, Hco', !Z.eqb_eq. done.
Qed.

(** ** Cursors *)

Lemma none_on_error_Some {A} (m : result A) a : none_on_error m = Ok (Some a) → m = Ok a.
Proof. unfold none_on_error. destruct m; [congruence|]. by destruct (_ || _). Qed.

Lemma unwrap_signed {nesting : NestingLimit} canon checkpoint_verify c a :
  _unwrap_cursor canon checkpoint_verify c = Ok (Some a) →
  ∃ p s payload signature, split_dot (cursor_value c) = [p; s] ∧ decode_base64url p = Ok payload ∧ decode_base64url s = Ok signature
    ∧ checkpoint_verify signature payload = true.
Proof.
  intros H%none_on_error_Some. unfold unwrap_claims in H. destruct (split_dot (cursor_value c)) as [|p [|s [|]]]; try discriminate.
  apply bind_Ok in H as (payload & Hp & H). apply bind_Ok in H as (sg & Hs & H). apply bind_Ok in H as (? & Hv%require_Ok & _). eauto 10.
Qed.
Lemma decode_signed {nesting : NestingLimit} canon provider_sign c d :
  _decode_cursor canon provider_sign c = Ok (Some d) →
  ∃ p s payload, split_dot (pending_value c) = [p; s] ∧ decode_base64url p = Ok payload ∧ decode_base64url s = Ok (provider_sign payload)
    ∧ canon (JObj d) = Ok payload.
Proof.
  intros H%none_on_error_Some. unfold pending_claims in H. destruct (split_dot (pending_value c)) as [|p [|s [|]]]; try discriminate.
  apply bind_Ok in H as (payload & Hp & H). apply bind_Ok in H as (sg & Hs & H). apply bind_Ok in H as (? & Hv%require_Ok & H).
  apply bool_decide_eq_true in Hv as ->. apply bind_Ok in H as (doc & _ & H). destruct doc as [| | | | | |d']; try discriminate.
  apply bind_Ok in H as (b & Hb & H). apply bind_Ok in H as (? & Hc%require_Ok & <-%Ok_inj).
  apply andb_true_iff in Hc as [->%bool_decide_eq_true _]. eauto 10.
Qed.

Lemma cursor_matches_Some d source ref epoch limit n bound offset :
  _cursor_matches d source ref epoch limit n bound = Some offset →
  dict_get d (lit "scanRef") = Some (JStr ref) ∧ dict_get d (lit "offset") = Some (JInt offset) ∧ 1 ≤ offset.
Proof.
  unfold _cursor_matches. destruct (dict_get d (lit "offset")) as [[| |z| | | |]|]; try discriminate.
  destruct (_ && _) eqn:E; [|discriminate]. intros [= ->]. rewrite !andb_true_iff in E.
  destruct E as [[[[[[[[[[_ _] _] _] _] Hr] _] _] _] Ho] _]. unfold json_eq_str in Hr.
  destruct (dict_get d (lit "scanRef")) as [[| | | |t| |]|]; try discriminate. apply bool_decide_eq_true in Hr as ->.
  split_and!; [done|done|lia].
Qed.

Lemma continue_scan_Some {nesting : NestingLimit} canon provider_sign checkpoint_verify source c ref limit n bound st :
  continue_scan canon provider_sign checkpoint_verify source c ref limit n bound = Ok (Some st) →
  ∃ a h d offset, _unwrap_cursor canon checkpoint_verify c = Ok (Some a) ∧ cs_scan_head source = Some h
    ∧ sh_scan_ref h = ac_scan_ref a ∧ sh_scan_epoch h = ac_scan_epoch a ∧ ac_sequence a ≤ sh_sequence h
    ∧ _decode_cursor canon provider_sign (ac_pending_cursor a) = Ok (Some d)
    ∧ _cursor_matches d source ref (ac_scan_epoch a) limit n bound = Some offset
    ∧ st = mkPageStart offset (Some (ac_page_ref a, ac_checkpoint_ref a, ac_sequence a)) (ac_scan_epoch a) None.
Proof.
  unfold continue_scan. intros H. apply bind_Ok in H as ([a|] & Hu & H); [|discriminate].
  destruct (cs_scan_head source) as [h|]; [|discriminate]. destruct (_ && _) eqn:E; [|discriminate].
  rewrite !andb_true_iff in E. destruct E as [[[_ E1%bool_decide_eq_true] E2%bool_decide_eq_true] E3%Z.leb_le].
  apply bind_Ok in H as ([d|] & Hd & H); [|discriminate].
  destruct (_cursor_matches d source ref (ac_scan_epoch a) limit n bound) as [o|] eqn:Em; [|discriminate]. injection H as <-.
  exists a, h, d, o. done.
Qed.

(** The Provider continues a scan only where both keys say.  A page served for a
    cursor names as its predecessor exactly the page, checkpoint and sequence in a
    payload that Control's key verifies; the list it continues is the one the Provider
    itself signed the reference of, at the offset and limit it signed; and the source's
    head is at or after that checkpoint, in the same scan and epoch. *)
Theorem continued_page_is_signed {nesting : NestingLimit} canon provider_sign checkpoint_verify registry source c limit page :
  read_changes canon provider_sign checkpoint_verify registry source (Continue c) limit = Ok (ProviderOk page) →
  ∃ a d payload offset h,
    _unwrap_cursor canon checkpoint_verify c = Ok (Some a)
    ∧ (∃ p s signed signature, split_dot (cursor_value c) = [p; s] ∧ decode_base64url p = Ok signed ∧ decode_base64url s = Ok signature
         ∧ checkpoint_verify signature signed = true)
    ∧ (∃ p s, split_dot (pending_value (ac_pending_cursor a)) = [p; s] ∧ decode_base64url p = Ok payload
         ∧ decode_base64url s = Ok (provider_sign payload) ∧ canon (JObj d) = Ok payload)
    ∧ dict_get d (lit "scanRef") = Some (JStr (cp_scan_ref page)) ∧ dict_get d (lit "offset") = Some (JInt offset) ∧ 1 ≤ offset
    ∧ cp_predecessor_page_ref page = Some (ac_page_ref a) ∧ cp_predecessor_checkpoint_ref page = Some (ac_checkpoint_ref a)
    ∧ cp_predecessor_sequence page = Some (ac_sequence a) ∧ cp_scan_epoch page = ac_scan_epoch a
    ∧ cs_scan_head source = Some h ∧ sh_scan_ref h = ac_scan_ref a ∧ sh_scan_epoch h = ac_scan_epoch a ∧ ac_sequence a ≤ sh_sequence h
    ∧ (∀ files, observe_markdown_files registry = Observed files →
         sc_change <$> cp_changes page = slice offset limit (scan_changes files source)).
Proof.
  intros H. destruct (served_page _ _ _ _ _ _ _ _ H) as (files & requested & st & Ho & Hreq & Hl & Href & Hst & Hb).
  rewrite (Hreq c eq_refl) in *. destruct (build_page_changes _ _ _ _ _ _ _ _ _ _ Hb) as (_ & _ & Hep & Hpred & Hch & _).
  unfold start_of in Hst. apply bind_Ok in Hst as (eps & _ & Hst). apply continue_scan_Some in Hst as (a & h & d & offset & Hun & Hh & Hsc & Hse & Hsq & Hd & Hm & ->).
  cbn [ps_predecessor ps_scan_epoch ps_offset] in *. injection Hpred as P1 P2 P3.
  destruct (decode_signed _ _ _ _ Hd) as (p & s & payload & D1 & D2 & D3 & D4).
  apply cursor_matches_Some in Hm as (M1 & M2 & M3). exists a, d, payload, offset, h.
  split_and!; try done; [by apply unwrap_signed in Hun|by exists p, s|]. intros fs Hfs. rewrite Ho in Hfs. by injection Hfs as <-.
Qed.

(** ** The sample *)

#[local] Existing Instance cpython_nesting.

(** The first page of the sample. *)
Definition sample_read : result provider_outcome :=
  read_changes safe_canon toy_sign toy_verify scan_registry scan_source InitialScan 2.
Definition sample_page : ChangePage :=
  Eval vm_compute in match sample_read with Ok (ProviderOk p) => p | _ => mkChangePage scan_org scan_org scan_org [] scan_org 0 None None None None [] None true [] None [] 0 end.
Lemma pages_of_a_scan_agree_witness :
  (∃ changes o o', changes = scan_changes scan_files scan_source
     ∧ sc_change <$> cp_changes sample_page = slice o (cp_page_limit sample_page) changes
     ∧ sc_change <$> cp_changes sample_page = slice o' (cp_page_limit sample_page) changes
     ∧ (cp_complete sample_page = true ↔ o + len (cp_changes sample_page) = len changes)
     ∧ (cp_complete sample_page = true ↔ o' + len (cp_changes sample_page) = len changes)
     ∧ cs_organization_id scan_source = cs_organization_id scan_source
     ∧ sv_version_ref (cs_source_version scan_source) = sv_version_ref (cs_source_version scan_source))
  ∨ scan_collision safe_canon scan_source (scan_changes scan_files scan_source) (scan_baseline scan_files scan_source)
      (max_baseline_entries scan_registry) scan_source (scan_changes scan_files scan_source)
      (scan_baseline scan_files scan_source) (max_baseline_entries scan_registry).
Proof.
  assert (F : scan_facts scan_source) by (split; [reflexivity|unfold uuid_ok; cbn; lia..]).
  assert (Hr : read_changes safe_canon toy_sign toy_verify scan_registry scan_source InitialScan 2 = Ok (ProviderOk sample_page)) by (vm_compute; reflexivity).
  apply (pages_of_a_scan_agree (nesting := cpython_nesting) safe_canon toy_sign toy_verify scan_registry None scan_files scan_source
    InitialScan 2 sample_page scan_registry None scan_files scan_source InitialScan 2 sample_page safe_canon_rfc8785 sample_source_ok sample_source_ok F F sample_registry_ok
    sample_registry_ok Hr Hr eq_refl).
Defined.

(** The second page of the sample, for the cursor of the first. *)
Definition sample_head : FileChangeScanHead :=
  mkScanHead (mkUUID 13) (cp_scan_ref sample_page) (cp_scan_epoch sample_page) 2 (hexdigest (lit "page")) (lit "facp_" ++ hexdigest (lit "page")) 8 false 100 None.
Definition sample_cursor : ChangeCursor :=
  Eval vm_compute in
    match cp_next_cursor sample_page with
    | Some p =>
        match _accepted_cursor_payload safe_canon scan_org (mkUUID 12) (mkUUID 13) (cp_scan_ref sample_page) (cp_scan_epoch sample_page)
                (hexdigest (lit "page")) (lit "facp_" ++ hexdigest (lit "page")) 8 p with
        | Ok t => mkChangeCursor (dotted t (toy_sign t)) | Err _ => mkChangeCursor [] end
    | None => mkChangeCursor [] end.
Definition sample_second_page : ChangePage :=
  Eval vm_compute in
    match read_changes safe_canon toy_sign toy_verify scan_registry (with_head scan_source sample_head) (Continue sample_cursor) 2 with
    | Ok (ProviderOk p) => p | _ => sample_page end.
Lemma continued_page_is_signed_witness :
  ∃ a offset, _unwrap_cursor safe_canon toy_verify sample_cursor = Ok (Some a) ∧ 1 ≤ offset
    ∧ sc_change <$> cp_changes sample_second_page = slice offset 2 (scan_changes scan_files scan_source).
Proof.
  destruct (continued_page_is_signed (nesting := cpython_nesting) safe_canon toy_sign toy_verify scan_registry (with_head scan_source sample_head) sample_cursor 2
    sample_second_page ltac:(vm_compute; reflexivity)) as (a & d & payload & offset & h & Hun & _ & _ & _ & _ & Hoff & _ & _ & _ & _ & _ & _ & _ & _ & Hch).
  exists a, offset. split; [exact Hun|]. split; [exact Hoff|]. rewrite (Hch scan_files eq_refl). reflexivity.
Defined.
