(* ===== verification/ScanReplay.v ===== *)
(** * Scanning an unchanged source

    When nothing changed since the last complete scan, the Provider serves that scan
    again and the application stops without accepting a page. *)

From S2P Require Import Prelude Codec Sha256 Datetime Json Trusted Signing TicketIdentity ReleaseFacts Canonical ArticlePolicy BulkPolicy FileChanges FileProvider FileFacts FilePages FileReads ControlContracts Control ControlFacts FileScan ScanFacts ScanPins.
Import Opaque.

(** The source's head is its complete baseline, scanned with this bound from these
    entries. *)
Record settled (canon : json → result pybytes) (source : FileChangeSource) (bound : Z) (b : FileChangeBaseline) (h : FileChangeScanHead) : Prop := {
  se_baseline : cs_complete_baseline source = Some b;
  se_head : cs_scan_head source = Some h;
  se_complete : sh_complete h = true;
  se_version : sh_source_version_ref h = br_source_version_ref (bl_reference b)
    ∧ br_source_version_ref (bl_reference b) = sv_version_ref (cs_source_version source);
  se_scan : sh_scan_ref h = br_scan_ref (bl_reference b) ∧ sh_scan_epoch h = br_scan_epoch (bl_reference b);
  se_page : sh_page_ref h = br_page_ref (bl_reference b) ∧ sh_checkpoint_ref h = br_checkpoint_ref (bl_reference b);
  se_sequence : sh_sequence h = br_sequence (bl_reference b) ∧ sh_scan_bound h = br_scan_bound (bl_reference b);
  se_limit : sh_page_limit h = FILE_SCAN_PAGE_LIMIT;
  se_provenance : _scan_ref canon source (bl_entries b) (br_comparison (bl_reference b)) bound = Ok (br_scan_ref (bl_reference b))
}.

Section Replay.
Context (canon : json → result pybytes) (source : FileChangeSource) (b : FileChangeBaseline) (h : FileChangeScanHead) (bound : Z).
Context (Hs : settled canon source bound b h).

Lemma settled_current : _baseline_is_current_head source (bl_reference b) = true.
Proof.
  destruct Hs as [_ Hh Hc [Hv _] [H1 H2] [H3 H4] [H5 _] _ _]. unfold _baseline_is_current_head. rewrite Hh, Hc, Hv, H1, H2, H3, H4, H5.
  by rewrite !bool_decide_eq_true_2, Z.eqb_refl.
Qed.
Lemma settled_changes observed :
  unchanged b observed = true → _changes source observed = (bl_entries b, br_comparison (bl_reference b)).
Proof. intros Hu. unfold _changes. rewrite (se_baseline _ _ _ _ _ Hs), Hu. by rewrite settled_current. Qed.
Lemma settled_same_scan : same_scan source (br_scan_ref (bl_reference b)) = Some h.
Proof.
  destruct Hs as [_ Hh _ [Hv Hv'] [H1 _] _ _ _ _]. unfold same_scan. rewrite Hh, Hv, Hv', H1. by rewrite !bool_decide_eq_true_2.
Qed.
Lemma settled_replays : _replays_complete_baseline source (br_scan_ref (bl_reference b)) (br_scan_epoch (bl_reference b)) = true.
Proof.
  destruct Hs as [Hb Hh Hc [Hv _] [H1 H2] [H3 H4] [H5 H6] _ _]. unfold _replays_complete_baseline.
  rewrite Hb, Hh, Hc, Hv, H1, H2, H3, H4, H5, H6. by rewrite !bool_decide_eq_true_2, !Z.eqb_refl.
Qed.

Lemma unchanged_length observed :
  check_baseline b = Ok tt → NoDup (fc_path <$> observed) → unchanged b observed = true → len (active_entries b) = len observed.
Proof.
  intros Hb Hn Hu. unfold unchanged in Hu. apply andb_true_iff in Hu as [Hu _]. unfold dict_eqb in Hu. apply andb_true_iff in Hu as [Hl _].
  assert (Ha : NoDup (fc_path <$> active_entries b)).
  { apply paths_filter. unfold check_baseline, nodupb in Hb. by run_ok. }
  rewrite !dict_of_nodup in Hl by (by rewrite identity_paths). apply Z.eqb_eq in Hl. unfold len in *. rewrite !length_fmap in Hl. lia.
Qed.
End Replay.

(** C25: Scanning an unchanged source changes nothing.  When the head is the complete
    baseline, taken under the same bound, and the root holds exactly the files of that
    baseline, the scan ends in its first turn: the only call on the store clears the
    bound condition, no page is accepted and nothing is scheduled, and the report
    counts the files present and repeats the baseline's checkpoint. *)
Theorem unchanged_scan_is_idempotent {nesting : NestingLimit} {W} (env : ScanEnv W) canon provider_sign provider_verify checkpoint_sign checkpoint_verify
    authority credential organization_id source_ref audience registry prefix files source b h prior reconciled scheduled w fuel :
  Rfc8785 canon → Ed25519 provider_sign provider_verify → Ed25519 checkpoint_sign checkpoint_verify →
  honest env canon provider_verify checkpoint_sign authority credential organization_id registry →
  (∀ e, (env_clear_bound env e).1 = Ok tt) →
  registry_ok registry prefix files → readable registry prefix files source → settled canon source (max_baseline_entries registry) b h →
  unchanged b (observed_changes files) = true →
  ∃ w', scan_loop env canon provider_sign provider_verify checkpoint_verify authority credential organization_id source_ref audience (S fuel)
          prior reconciled (mkLocals source InitialScan [] 0 scheduled 0 None) w
        = (Ok (mkScanReport source_ref (len files) 0 scheduled 0 (Some (br_checkpoint_ref (bl_reference b))) (br_scan_bound (bl_reference b))), w')
    ∧ sw_calls w' = sw_calls w ++ [CallClearBound source_ref].
Proof.
  intros HC HP HK Hh Hclear Hr Hrd Hs Hu. pose proof (settled_changes _ _ _ _ _ Hs _ Hu) as Hch.
  assert (Hid : scan_identity canon registry files source (br_scan_ref (bl_reference b))).
  { unfold scan_identity, scan_changes, scan_baseline. rewrite Hch. apply Hs. }
  destruct (scan_ref_Ok canon registry prefix files Hr source Hrd) as (ref & Hid' & Hhex).
  assert (ref = br_scan_ref (bl_reference b)) as -> by (unfold scan_identity in *; congruence).
  destruct (first_page canon provider_sign provider_verify checkpoint_verify registry prefix files Hr source FILE_SCAN_PAGE_LIMIT _ Hrd Hid Hhex)
    as (epochs & next & proof & pref & Hep & Hread & _); [done|].
  unfold _scan_epoch in Hep. rewrite (settled_same_scan _ _ _ _ _ Hs) in Hep, Hread. injection Hep as <-. cbn [from_option] in Hread.
  rewrite (se_limit _ _ _ _ _ Hs) in Hread.
  destruct (operate_Ok env canon provider_verify checkpoint_sign authority credential organization_id registry Hh ACCEPT_FILE_CHANGE_PAGE
    (env_clear_bound env) (λ now call answer, clear_file_scan_bound_refusal authority now call source_ref answer) tt [CallClearBound source_ref] w)
    as (w' & Hop & Hcalls); [done| |].
  { intros now call active active' Hco Hval answer ->. rewrite Hclear. unfold clear_file_scan_bound_refusal, guarded, mbind, control_bind, consume.
    by rewrite Hval. }
  exists w'. split; [|done]. cbn [scan_loop]. unfold mbind, scan_bind, scan_turn. cbn [sl_source sl_cursor sl_imports_scheduled].
  rewrite (hn_roots _ _ _ _ _ _ _ _ Hh), Hread. rewrite (se_baseline _ _ _ _ _ Hs). unfold mbind, scan_bind, ret.
  cbn [built_page unsigned_page cp_page_limit cp_scan_ref cp_scan_epoch ps_scan_epoch fst]. rewrite Z.eqb_refl. cbn [require].
  destruct (se_scan _ _ _ _ _ Hs) as [_ ->]. rewrite (settled_replays _ _ _ _ _ Hs). unfold clear_bound. rewrite Hop.
  rewrite (unchanged_length _ (observed_changes files)); [|by apply (sr_baseline _ (rd_source _ _ _ _ Hrd)), Hs
    |by eapply observed_paths, rg_paths|done].
  unfold observed_changes, len. rewrite length_fmap, length_sorted_by. reflexivity.
Qed.

(** ** Another bound *)

Lemma page_baseline canon provider_sign source cs r ref limit bound st page :
  build_page canon provider_sign source cs r ref limit bound st = Ok page → cp_baseline_ref page = r.
Proof.
  unfold build_page. intros H. apply bind_Ok in H as (next & _ & H). apply bind_Ok in H as (sources & _ & H).
  apply bind_Ok in H as (? & _ & H). apply bind_Ok in H as (proof & _ & H). by apply bind_Ok in H as (? & _ & <-%Ok_inj).
Qed.

(** Under another bound an unchanged source is not served its last scan again, and yet
    the page it is served compares with that scan's own comparison baseline, which
    precedes the latest complete scan: the page belongs to a new scan that does not
    start from the baseline it has to start from. *)
Theorem rebound_scan_misses_the_baseline {nesting : NestingLimit} canon provider_sign checkpoint_verify registry prefix files source b h bound limit page :
  Rfc8785 canon → source_ok source → scan_facts source → registry_ok registry prefix files →
  settled canon source bound b h → scan_inputs source (bl_entries b) (br_comparison (bl_reference b)) bound →
  bound ≠ max_baseline_entries registry → unchanged b (observed_changes files) = true →
  read_changes canon provider_sign checkpoint_verify registry source InitialScan limit = Ok (ProviderOk page) →
  cp_baseline_ref page = br_comparison (bl_reference b) ∧ cp_baseline_ref page ≠ Some (bl_reference b)
  ∧ (_replays_complete_baseline source (cp_scan_ref page) (cp_scan_epoch page) = false
     ∨ scan_collision canon source (bl_entries b) (br_comparison (bl_reference b)) bound
         source (bl_entries b) (br_comparison (bl_reference b)) (max_baseline_entries registry)).
Proof.
  intros HC Hso Hf Hr Hs Hin Hne Hu H.
  destruct (served_page _ _ _ _ _ _ _ _ H) as (fs & lim & st & Ho & _ & Hl & Href & _ & Hb). rewrite (rg_observed _ _ _ Hr) in Ho. injection Ho as <-.
  pose proof (scan_inputs_ok _ _ _ _ Hso Hr Hl) as Hin'. pose proof (page_baseline _ _ _ _ _ _ _ _ _ _ Hb) as ->.
  unfold scan_changes, scan_baseline in Href |- *. rewrite (settled_changes _ _ _ _ _ Hs _ Hu) in Href, Hin' |- *. cbn [fst snd] in *. split_and!; [done| |].
  - intros E. destruct (sr_baseline _ Hso b (se_baseline _ _ _ _ _ Hs)) as (_ & _ & [Hc _] & _). unfold check_baseline_ref in Hc. rewrite E in Hc.
    run_ok. lia.
  - destruct (decide (cp_scan_ref page = br_scan_ref (bl_reference b))) as [E|E].
    + right. rewrite E in Href. destruct (scan_ref_inj canon _ _ _ _ _ _ _ _ _ Hf Hf Hin Hin' (se_provenance _ _ _ _ _ Hs) Href) as [(_ & Hbd & _)|]; done.
    + left. unfold _replays_complete_baseline. rewrite (se_baseline _ _ _ _ _ Hs), (se_head _ _ _ _ _ Hs).
      rewrite (bool_decide_eq_false_2 (cp_scan_ref page = _)) by done. by rewrite andb_false_r.
Qed.

(** ** A settled sample *)

#[local] Existing Instance cpython_nesting.

Definition first_source : FileChangeSource := mkChangeSource scan_org scan_version None None.
Definition settled_entries : list FileChange := Eval vm_compute in scan_changes scan_files first_source.
Definition settled_reference : pystr :=
  Eval vm_compute in match _scan_ref safe_canon first_source settled_entries None 100 with Ok r => r | Err _ => [] end.
Definition settled_base : FileChangeBaselineRef :=
  mkBaselineRef (mkUUID 13) settled_reference (mkUUID 14) (hexdigest (lit "page")) (lit "facp_" ++ hexdigest (lit "page")) 9 100 None.
Definition settled_head : FileChangeScanHead :=
  mkScanHead (mkUUID 13) settled_reference (mkUUID 14) 1 (hexdigest (lit "page")) (lit "facp_" ++ hexdigest (lit "page")) 9 true 100 None.
Definition settled_source : FileChangeSource :=
  mkChangeSource scan_org scan_version (Some settled_head) (Some (mkBaseline settled_base settled_entries)).

Lemma settled_sample : settled safe_canon settled_source 100 (mkBaseline settled_base settled_entries) settled_head.
Proof. split; [reflexivity..|split; reflexivity|split; reflexivity|split; reflexivity|split; reflexivity|reflexivity|vm_compute; reflexivity]. Qed.
Lemma settled_source_ok : source_ok settled_source.
Proof.
  split; [right; reflexivity|vm_compute; reflexivity| |].
  - intros h Hh. injection Hh as <-. split; vm_compute; reflexivity.
  - intros b Hb. injection Hb as <-. split; [vm_compute; reflexivity|]. split.
    + repeat (constructor; [split; [vm_compute; reflexivity|]; split; [vm_compute; reflexivity|apply sample_path; vm_compute; reflexivity]|]). constructor.
    + split; [split; vm_compute; reflexivity|done].
Qed.
Lemma settled_readable : readable scan_registry None scan_files settled_source.
Proof.
  split; [exact settled_source_ok|by intros q b e [=]|vm_compute; discriminate|].
  do 3 (split; [unfold uuid_ok; cbn; lia|]). intros h Hh. injection Hh as <-. unfold uuid_ok. cbn. lia.
Qed.
Lemma unchanged_scan_is_idempotent_witness :
  ∃ w', scan_loop scan_env safe_canon toy_sign toy_verify toy_verify sample_control_authority (lit "credential") scan_org (mkUUID 12)
      (mkAudience (lit "principal:1") (mkUUID 15) 1) 1 [] [] (mkLocals settled_source InitialScan [] 0 0 0 None) (mkScanWorld 0%nat [] [])
    = (Ok (mkScanReport (mkUUID 12) 2 0 0 0 (Some (br_checkpoint_ref settled_base)) 100), w')
  ∧ sw_calls w' = [CallClearBound (mkUUID 12)].
Proof.
  apply (unchanged_scan_is_idempotent scan_env safe_canon toy_sign toy_verify toy_sign toy_verify sample_control_authority (lit "credential") scan_org
    (mkUUID 12) (mkAudience (lit "principal:1") (mkUUID 15) 1) scan_registry None scan_files settled_source (mkBaseline settled_base settled_entries)
    settled_head [] [] 0 (mkScanWorld 0%nat [] []) 0 safe_canon_rfc8785 toy_ed25519 toy_ed25519 scan_env_honest (λ e, eq_refl) sample_registry_ok
    settled_readable settled_sample).
  vm_compute. reflexivity.
Defined.

(** The sample under a larger bound. *)
Definition wider_registry : FileRootRegistry := mkRegistry 200 (Ok None) (Observed scan_files).
Definition wider_page : option ChangePage :=
  Eval vm_compute in
    match read_changes safe_canon toy_sign toy_verify wider_registry settled_source InitialScan 1 with Ok (ProviderOk p) => Some p | _ => None end.
Example wider_bound_misses_the_baseline :
  match wider_page with
  | Some page => cp_baseline_ref page = None ∧ cp_scan_ref page ≠ settled_reference ∧ cp_complete page = false
  | None => False
  end.
Proof. vm_compute. split_and!; [reflexivity|discriminate|reflexivity]. Qed.
