(* ===== verification/SupplyPages.v ===== *)
(** * Connector pages: [src/engine/supply/execution.py]

    The contracts between an untrusted connector runner and the Supply bridge: finite
    limits, ACL observations, document envelopes, change pages, and the JSON bytes in
    which a page is staged and read back.  [datetime.fromisoformat] is an argument with
    its documented law ([IsoParser]). *)

From S2P Require Import Prelude Codec Datetime Json Trusted Signing UuidText Leases.

(** ** Limits *)

Definition _MAX_OPAQUE_REF_LENGTH : Z := 512.
Definition _MAX_CONTENT_BYTES : Z := 64 * 1024 * 1024.
Definition _MAX_STAGED_PAGE_BYTES : Z := 256 * 1024 * 1024.
Definition _MAX_CHECKPOINT_BYTES : Z := 1024 * 1024.
Definition _MAX_EVIDENCE_BYTES : Z := 1024 * 1024.
Definition _MAX_METADATA_ITEMS : Z := 128.
Definition _MAX_REASON_LENGTH : Z := 512.
Definition _MAX_POLICY_EPOCH : Z := 2 ^ 63 - 1.
Definition DEFAULT_SUPPLY_EXECUTION_PAGE_LIMIT : Z := 1024.
Definition MAX_SUPPLY_EXECUTION_PAGE_LIMIT : Z := 65536.
Definition DEFAULT_SUPPLY_EXECUTION_CUMULATIVE_BYTE_LIMIT : Z := 16 * _MAX_STAGED_PAGE_BYTES.
Definition MAX_SUPPLY_EXECUTION_CUMULATIVE_BYTE_LIMIT : Z := 256 * _MAX_STAGED_PAGE_BYTES.
Definition DEFAULT_SUPPLY_EXECUTION_NO_PROGRESS_PAGE_LIMIT : Z := 3.
Definition MAX_SUPPLY_EXECUTION_NO_PROGRESS_PAGE_LIMIT : Z := 64.

Record SupplyExecutionConfiguration := mkExecutionConfiguration {
  xc_page_limit : Z;
  xc_cumulative_byte_limit : Z;
  xc_no_progress_page_limit : Z
}.
Definition _require_execution_limit (value ceiling : Z) : result unit :=
  require ((1 <=? value) && (value <=? ceiling)) ValueError.
Definition new_SupplyExecutionConfiguration (c : SupplyExecutionConfiguration) : result SupplyExecutionConfiguration :=
  _require_execution_limit (xc_page_limit c) MAX_SUPPLY_EXECUTION_PAGE_LIMIT ;;
  _require_execution_limit (xc_cumulative_byte_limit c) MAX_SUPPLY_EXECUTION_CUMULATIVE_BYTE_LIMIT ;;
  _require_execution_limit (xc_no_progress_page_limit c) MAX_SUPPLY_EXECUTION_NO_PROGRESS_PAGE_LIMIT ;;
  Ok c.

(** ** Checks *)

(** [_require_ref] *)
Definition is_supply_ref (s : pystr) : bool :=
  negb (bool_decide (s = [])) && negb (isspace s) && bool_decide (s = strip s) && (len s <=? _MAX_OPAQUE_REF_LENGTH)
  && negb (existsb is_space s).
Definition require_supply_ref (s : pystr) : result unit := require (is_supply_ref s) ValueError.
(** [_require_bytes] *)
Definition require_supply_bytes (b : pybytes) (maximum_length : Z) : result unit :=
  require (negb (bool_decide (b = [])) && (len b <=? maximum_length)) ValueError.
(** [_require_metadata] *)
Definition _require_metadata (metadata : list (list Z * list Z)) : result unit :=
  require (len metadata <=? _MAX_METADATA_ITEMS) TypeError ;;
  each (λ item,
    require_supply_ref item.1 ;;
    require (negb (blank item.2) && (len item.2 <=? _MAX_OPAQUE_REF_LENGTH)) ValueError) metadata ;;
  require (bool_decide (metadata.*1 = sorted metadata.*1) && nodupb metadata.*1) ValueError.

(** ** Contracts *)

Record ConnectorCheckpointBinding := mkCheckpointBinding {
  kb_organization_id : UUID;
  kb_source_version_id : UUID;
  kb_worker_job_id : UUID
}.
#[export] Instance ConnectorCheckpointBinding_eq_dec : EqDecision ConnectorCheckpointBinding.
Proof. solve_decision. Defined.

Record SupplyBridgeExecution := mkBridgeExecution {
  be_organization_id : UUID;
  be_source_version_id : UUID;
  be_worker_job_id : UUID;
  be_worker_lease : WorkerLeaseToken
}.
Definition execution_binding (e : SupplyBridgeExecution) : ConnectorCheckpointBinding :=
  mkCheckpointBinding (be_organization_id e) (be_source_version_id e) (be_worker_job_id e).

Inductive SourceAclEvidenceClass := LIVE | MIRRORED | WEAK.
#[export] Instance SourceAclEvidenceClass_eq_dec : EqDecision SourceAclEvidenceClass.
Proof. solve_decision. Defined.
Definition evidence_class_value (c : SourceAclEvidenceClass) : pystr :=
  match c with LIVE => lit "live" | MIRRORED => lit "mirrored" | WEAK => lit "weak" end.

Record SourceAclObservation := mkAclObservation {
  ao_organization_id : UUID;
  ao_observed_at : datetime;
  ao_policy_epoch : Z;
  ao_evidence_class : SourceAclEvidenceClass;
  ao_evidence_payload : option pybytes;
  ao_source_lacks_stronger_acl : option pystr
}.
Definition _validate_source_acl_observation (o : SourceAclObservation) : result unit :=
  require (is_utc (ao_observed_at o)) ValueError ;;
  require ((1 <=? ao_policy_epoch o) && (ao_policy_epoch o <=? _MAX_POLICY_EPOCH)) ValueError ;;
  match ao_evidence_payload o with None => Ok tt | Some b => require_supply_bytes b _MAX_EVIDENCE_BYTES end ;;
  match ao_source_lacks_stronger_acl o with
  | None => Ok tt
  | Some j => require (negb (blank j) && bool_decide (j = strip j) && (len j <=? _MAX_REASON_LENGTH)) ValueError
  end ;;
  match ao_evidence_class o with
  | LIVE | MIRRORED =>
      require (bool_decide (is_Some (ao_evidence_payload o))) ValueError ;;
      require (negb (bool_decide (is_Some (ao_source_lacks_stronger_acl o)))) ValueError
  | WEAK =>
      require (negb (bool_decide (is_Some (ao_evidence_payload o)))
               && bool_decide (is_Some (ao_source_lacks_stronger_acl o))) ValueError
  end.

Record SupplyDocumentDeleteObservation := mkDeleteObservation {
  do_document_ref : pystr;
  do_acl_observation : SourceAclObservation
}.
Definition _validate_supply_document_delete_observation (o : SupplyDocumentDeleteObservation) : result unit :=
  require_supply_ref (do_document_ref o) ;;
  _validate_source_acl_observation (do_acl_observation o).

Record SupplyDocumentEnvelope := mkEnvelope {
  en_organization_id : UUID;
  en_source_version_id : UUID;
  en_worker_job_id : UUID;
  en_document_ref : pystr;
  en_content : pybytes;
  en_content_type : pystr;
  en_acl_observation : SourceAclObservation;
  en_metadata : list (list Z * list Z)
}.
Definition _validate_supply_document_envelope (e : SupplyDocumentEnvelope) : result unit :=
  require_supply_ref (en_document_ref e) ;;
  require_supply_bytes (en_content e) _MAX_CONTENT_BYTES ;;
  require_supply_ref (en_content_type e) ;;
  _validate_source_acl_observation (en_acl_observation e) ;;
  require (bool_decide (ao_organization_id (en_acl_observation e) = en_organization_id e)) ValueError ;;
  _require_metadata (en_metadata e).

Record ConnectorCheckpointProposal := mkCheckpointProposal {
  cp_binding : ConnectorCheckpointBinding;
  cp_opaque_checkpoint : pybytes;
  cp_change_page_ref : pystr
}.
Definition new_ConnectorCheckpointProposal (p : ConnectorCheckpointProposal) : result ConnectorCheckpointProposal :=
  require_supply_bytes (cp_opaque_checkpoint p) _MAX_CHECKPOINT_BYTES ;;
  require_supply_ref (cp_change_page_ref p) ;;
  Ok p.

Record SupplyChangePage := mkChangePage {
  pg_binding : ConnectorCheckpointBinding;
  pg_page_ref : pystr;
  pg_documents : list SupplyDocumentEnvelope;
  pg_deleted_document_refs : list SupplyDocumentDeleteObservation;
  pg_checkpoint_proposal : pybytes;
  pg_terminal : bool
}.
Definition document_bound (b : ConnectorCheckpointBinding) (e : SupplyDocumentEnvelope) : bool :=
  bool_decide (mkCheckpointBinding (en_organization_id e) (en_source_version_id e) (en_worker_job_id e) = b).
(** [_validate_supply_change_page] *)
Definition _validate_supply_change_page (p : SupplyChangePage) : result unit :=
  require_supply_ref (pg_page_ref p) ;;
  each (λ d, _validate_supply_document_envelope d ;; require (document_bound (pg_binding p) d) ValueError)
    (pg_documents p) ;;
  each (λ o,
    _validate_supply_document_delete_observation o ;;
    require (bool_decide (ao_organization_id (do_acl_observation o) = kb_organization_id (pg_binding p))) ValueError)
    (pg_deleted_document_refs p) ;;
  let emitted_refs := en_document_ref <$> pg_documents p in
  let deleted_refs := do_document_ref <$> pg_deleted_document_refs p in
  require (nodupb emitted_refs && nodupb deleted_refs
           && negb (existsb (λ r, bool_decide (r ∈ deleted_refs)) emitted_refs)) ValueError ;;
  require_supply_bytes (pg_checkpoint_proposal p) _MAX_CHECKPOINT_BYTES.

Record StagedArtifact := mkStagedArtifact {
  sa_binding : ConnectorCheckpointBinding;
  sa_artifact_ref : pystr;
  sa_payload : pybytes
}.
Definition new_StagedArtifact (a : StagedArtifact) : result StagedArtifact :=
  require_supply_ref (sa_artifact_ref a) ;;
  require_supply_bytes (sa_payload a) _MAX_STAGED_PAGE_BYTES ;;
  Ok a.

Record ConnectorHeartbeat := mkHeartbeat { hb_binding : ConnectorCheckpointBinding; hb_observed_at : datetime }.
Definition new_ConnectorHeartbeat (h : ConnectorHeartbeat) : result ConnectorHeartbeat :=
  require (is_utc (hb_observed_at h)) ValueError ;; Ok h.

Inductive ConnectorFailureCategory := RETRYABLE | TERMINAL.
Record ConnectorFailure := mkConnectorFailure {
  cf_binding : ConnectorCheckpointBinding;
  cf_category : ConnectorFailureCategory;
  cf_reason_digest : pystr;
  cf_observed_at : datetime
}.
Definition new_ConnectorFailure (f : ConnectorFailure) : result ConnectorFailure :=
  require (is_sha256_hex (cf_reason_digest f)) ValueError ;;
  require (is_utc (cf_observed_at f)) ValueError ;;
  Ok f.

(** ** Standard base64 *)

Definition std_alphabet : pystr := lit "ABCDEFGHIJKLMNOPQRSTUVWXYZabcdefghijklmnopqrstuvwxyz0123456789+/".
Definition std_char (d : Z) : Z := nth (Z.to_nat d) std_alphabet 0.
Definition std_value (c : Z) : Z := Opaque.index_of c std_alphabet.

(** [base64.b64encode(value).decode("ascii")] *)
Fixpoint b64encode (value : pybytes) : pystr :=
  match value with
  | [] => []
  | [x] => [std_char (x / 4); std_char (x mod 4 * 16); 61; 61]
  | [x; y] => [std_char (x / 4); std_char (x mod 4 * 16 + y / 16); std_char (y mod 16 * 4); 61]
  | x :: y :: z :: r =>
      std_char (x / 4) :: std_char (x mod 4 * 16 + y / 16)
      :: std_char (y mod 16 * 4 + z / 64) :: std_char (z mod 64) :: b64encode r
  end.

(** [base64.b64decode(text, validate=True)]: groups of four characters of the alphabet,
    the last of which may end in one or two pads; bits left over are dropped. *)
Fixpoint b64decode_strict (s : pystr) : result pybytes :=
  match s with
  | [] => Ok []
  | a :: b :: c :: d :: r =>
      let '(va, vb, vc, vd) := (std_value a, std_value b, std_value c, std_value d) in
      require (mem a std_alphabet && mem b std_alphabet) ValueError ;;
      if (c =? 61) && (d =? 61) then
        require (bool_decide (r = [])) ValueError ;; Ok [va * 4 + vb / 16]
      else
        require (mem c std_alphabet) ValueError ;;
        if d =? 61 then
          require (bool_decide (r = [])) ValueError ;; Ok [va * 4 + vb / 16; vb mod 16 * 16 + vc / 4]
        else
          require (mem d std_alphabet) ValueError ;;
          tail ← b64decode_strict r;
          Ok (va * 4 + vb / 16 :: vb mod 16 * 16 + vc / 4 :: vc mod 4 * 64 + vd :: tail)
  | _ => Err ValueError
  end.

(** ** Staging a page *)

Section Staging.
Context {nesting : NestingLimit}.
Context (float_repr : pystr → result pystr) (fromisoformat : pystr → result datetime).

Definition optional_json {A} (f : A → json) (o : option A) : json :=
  match o with None => JNull | Some x => f x end.
Definition _serialize_source_acl_observation (o : SourceAclObservation) : json :=
  JObj [(lit "evidence_class", JStr (evidence_class_value (ao_evidence_class o)));
        (lit "evidence_payload", optional_json (λ b, JStr (b64encode b)) (ao_evidence_payload o));
        (lit "observed_at", JStr (isoformat (ao_observed_at o)));
        (lit "organization_id", JStr (uuid_str (ao_organization_id o)));
        (lit "policy_epoch", JInt (ao_policy_epoch o));
        (lit "source_lacks_stronger_acl", optional_json JStr (ao_source_lacks_stronger_acl o))].
Definition binding_document (b : ConnectorCheckpointBinding) : json :=
  JObj [(lit "organization_id", JStr (uuid_str (kb_organization_id b)));
        (lit "source_version_id", JStr (uuid_str (kb_source_version_id b)));
        (lit "worker_job_id", JStr (uuid_str (kb_worker_job_id b)))].
Definition delete_document (o : SupplyDocumentDeleteObservation) : json :=
  JObj [(lit "acl_observation", _serialize_source_acl_observation (do_acl_observation o));
        (lit "document_ref", JStr (do_document_ref o))].
Definition envelope_document (e : SupplyDocumentEnvelope) : json :=
  JObj [(lit "acl_observation", _serialize_source_acl_observation (en_acl_observation e));
        (lit "content", JStr (b64encode (en_content e)));
        (lit "content_type", JStr (en_content_type e));
        (lit "document_ref", JStr (en_document_ref e));
        (lit "metadata", JArr ((λ item, JArr [JStr item.1; JStr item.2]) <$> en_metadata e));
        (lit "organization_id", JStr (uuid_str (en_organization_id e)));
        (lit "source_version_id", JStr (uuid_str (en_source_version_id e)));
        (lit "worker_job_id", JStr (uuid_str (en_worker_job_id e)))].
Definition page_document (p : SupplyChangePage) : json :=
  JObj [(lit "binding", binding_document (pg_binding p));
        (lit "checkpoint_proposal", JStr (b64encode (pg_checkpoint_proposal p)));
        (lit "deleted_document_refs", JArr (delete_document <$> pg_deleted_document_refs p));
        (lit "documents", JArr (envelope_document <$> pg_documents p));
        (lit "page_ref", JStr (pg_page_ref p));
        (lit "terminal", JBool (pg_terminal p))].

Definition serialize_supply_change_page (p : SupplyChangePage) : result pybytes :=
  _validate_supply_change_page p ;;
  payload ← dumps float_repr (page_document p);
  require (len payload <=? _MAX_STAGED_PAGE_BYTES) SupplyStagedPageByteLimitExceeded ;;
  Ok payload.

(** *** Reading it back *)

(** [UUID(value)]: [None] is a missing argument, and other values have no [replace]. *)
Definition uuid_of_json (v : json) : result UUID :=
  match v with JStr s => uuid_of_text s | JNull => Err TypeError | _ => Err AttributeError end.
Definition bytes_of_json (v : json) : result pybytes :=
  match v with JStr s => b64decode_strict s | _ => Err TypeError end.
(** A value cast to [str], [int] or [bool], where the constructor tests its type. *)
Definition str_of_json (v : json) : result pystr := match v with JStr s => Ok s | _ => Err ValueError end.
Definition int_of_json (v : json) : result Z := match v with JInt z => Ok z | _ => Err ValueError end.
Definition bool_of_json (v : json) : result bool := match v with JBool b => Ok b | _ => Err TypeError end.
Definition list_of_json (v : json) : result (list json) := match v with JArr l => Ok l | _ => Err ValueError end.
Definition evidence_class_of_json (v : json) : result SourceAclEvidenceClass :=
  match v with
  | JStr s =>
      if bool_decide (s = lit "live") then Ok LIVE
      else if bool_decide (s = lit "mirrored") then Ok MIRRORED
      else if bool_decide (s = lit "weak") then Ok WEAK else Err ValueError
  | _ => Err ValueError
  end.
Definition optional_of_json {A} (f : json → result A) (v : json) : result (option A) :=
  match v with JNull => Ok None | _ => x ← f v; Ok (Some x) end.

Definition _exact_dict (v : json) (keys : list pystr) : result (list (list Z * json)) :=
  match v with
  | JObj d =>
      require (bool_decide (list_to_set d.*1 =@{gset (list Z)} list_to_set keys)) ValueError ;; Ok d
  | _ => Err ValueError
  end.
Definition item_of (d : list (list Z * json)) (key : pystr) : result json :=
  match dict_get d key with Some v => Ok v | None => Err KeyError end.

Definition _deserialize_source_acl_observation (v : json) : result SourceAclObservation :=
  d ← _exact_dict v [lit "evidence_class"; lit "evidence_payload"; lit "observed_at"; lit "organization_id";
                     lit "policy_epoch"; lit "source_lacks_stronger_acl"];
  payload ← item_of d (lit "evidence_payload"); evidence_payload ← optional_of_json bytes_of_json payload;
  organization ← item_of d (lit "organization_id"); organization_id ← uuid_of_json organization;
  at_ ← item_of d (lit "observed_at");
  observed_at ← match at_ with JStr s => fromisoformat s | _ => Err TypeError end;
  epoch ← item_of d (lit "policy_epoch");
  class ← item_of d (lit "evidence_class"); evidence_class ← evidence_class_of_json class;
  justification ← item_of d (lit "source_lacks_stronger_acl");
  policy_epoch ← int_of_json epoch;
  source_lacks_stronger_acl ← optional_of_json str_of_json justification;
  let o := mkAclObservation organization_id observed_at policy_epoch evidence_class evidence_payload
             source_lacks_stronger_acl in
  _validate_source_acl_observation o ;; Ok o.

Definition _deserialize_supply_delete_observation (v : json) : result SupplyDocumentDeleteObservation :=
  d ← _exact_dict v [lit "acl_observation"; lit "document_ref"];
  ref ← item_of d (lit "document_ref");
  acl ← item_of d (lit "acl_observation"); acl_observation ← _deserialize_source_acl_observation acl;
  document_ref ← str_of_json ref;
  let o := mkDeleteObservation document_ref acl_observation in
  _validate_supply_document_delete_observation o ;; Ok o.

Definition metadata_pair (v : json) : result (json * json) :=
  match v with JArr [k; x] => Ok (k, x) | _ => Err ValueError end.
Definition _deserialize_supply_document_envelope (v : json) : result SupplyDocumentEnvelope :=
  d ← _exact_dict v [lit "acl_observation"; lit "content"; lit "content_type"; lit "document_ref"; lit "metadata";
                     lit "organization_id"; lit "source_version_id"; lit "worker_job_id"];
  metadata ← item_of d (lit "metadata"); metadata ← list_of_json metadata; pairs ← map_result metadata_pair metadata;
  organization ← item_of d (lit "organization_id"); organization_id ← uuid_of_json organization;
  version ← item_of d (lit "source_version_id"); source_version_id ← uuid_of_json version;
  job ← item_of d (lit "worker_job_id"); worker_job_id ← uuid_of_json job;
  ref ← item_of d (lit "document_ref");
  content ← item_of d (lit "content"); content ← bytes_of_json content;
  type ← item_of d (lit "content_type");
  acl ← item_of d (lit "acl_observation"); acl_observation ← _deserialize_source_acl_observation acl;
  document_ref ← str_of_json ref;
  content_type ← str_of_json type;
  metadata ← map_result (λ kx, k ← str_of_json kx.1; x ← str_of_json kx.2; Ok (k, x)) pairs;
  let e := mkEnvelope organization_id source_version_id worker_job_id document_ref content content_type
             acl_observation metadata in
  _validate_supply_document_envelope e ;; Ok e.

Definition binding_of_document (v : json) : result ConnectorCheckpointBinding :=
  d ← _exact_dict v [lit "organization_id"; lit "source_version_id"; lit "worker_job_id"];
  organization ← item_of d (lit "organization_id"); organization_id ← uuid_of_json organization;
  version ← item_of d (lit "source_version_id"); source_version_id ← uuid_of_json version;
  job ← item_of d (lit "worker_job_id"); worker_job_id ← uuid_of_json job;
  Ok (mkCheckpointBinding organization_id source_version_id worker_job_id).
Definition page_of_document (v : json) : result SupplyChangePage :=
  d ← _exact_dict v [lit "binding"; lit "checkpoint_proposal"; lit "deleted_document_refs"; lit "documents";
                     lit "page_ref"; lit "terminal"];
  binding ← item_of d (lit "binding"); binding ← binding_of_document binding;
  raw_documents ← item_of d (lit "documents");
  raw_deletes ← item_of d (lit "deleted_document_refs");
  raw_documents ← list_of_json raw_documents; raw_deletes ← list_of_json raw_deletes;
  ref ← item_of d (lit "page_ref");
  documents ← map_result _deserialize_supply_document_envelope raw_documents;
  deletes ← map_result _deserialize_supply_delete_observation raw_deletes;
  proposal ← item_of d (lit "checkpoint_proposal"); checkpoint_proposal ← bytes_of_json proposal;
  terminal ← item_of d (lit "terminal");
  page_ref ← str_of_json ref;
  terminal ← bool_of_json terminal;
  let p := mkChangePage binding page_ref documents deletes checkpoint_proposal terminal in
  _validate_supply_change_page p ;; Ok p.

(** The classes the reader turns into its one error. *)
Definition is_page_error (e : exn) : bool :=
  is_ValueError e || is_TypeError e || match e with KeyError => true | _ => false end.
Definition deserialize_supply_change_page (payload : pybytes) : result SupplyChangePage :=
  require_supply_bytes payload _MAX_STAGED_PAGE_BYTES ;;
  try_except (v ← loads json_dict payload; page_of_document v) is_page_error (Err ValueError).
End Staging.
