(* ===== verification/SupplyFacts.v ===== *)
(** * Staged pages are read back exactly

    Standard base64, the JSON text of a page and its reader: the round trip that the
    staging of connector pages relies on, and what a malformed page raises. *)

From S2P Require Import Prelude Codec Datetime Json Trusted Signing TicketIdentity FileFacts UuidText Leases SupplyPages.

(** [datetime.fromisoformat]: the inverse of [isoformat], raising [ValueError]. *)
Class IsoParser (fromisoformat : pystr → result datetime) : Prop := {
  iso_roundtrip d : datetime_ok d → is_utc d = true → fromisoformat (isoformat d) = Ok d;
  iso_errors s e : fromisoformat s = Err e → is_ValueError e = true
}.

(** ** Base64 *)

Lemma std_value_char d : 0 ≤ d < 64 → std_value (std_char d) = d ∧ mem (std_char d) std_alphabet = true ∧ std_char d ≠ 61.
Proof.
  intros Hd.
  set (P d := bool_decide (std_value (std_char d) = d) && mem (std_char d) std_alphabet && negb (std_char d =? 61)).
  assert (H : forallb P (seqZ 0 64) = true) by (vm_compute; reflexivity).
  rewrite forallb_forall in H. specialize (H d).
  assert (HP : P d = true) by (apply H, list_elem_of_In, elem_of_seqZ; lia). unfold P in HP.
  rewrite !andb_true_iff, bool_decide_eq_true, negb_true_iff, Z.eqb_neq in HP. tauto.
Qed.

Ltac std_chars :=
  repeat match goal with
  | |- context [mem (std_char ?d) std_alphabet] => rewrite (proj1 (proj2 (std_value_char d ltac:(zdiv))))
  | |- context [std_char ?d =? 61] => rewrite (proj2 (Z.eqb_neq _ 61) (proj2 (proj2 (std_value_char d ltac:(zdiv)))))
  | |- context [std_value (std_char ?d)] => rewrite (proj1 (std_value_char d ltac:(zdiv)))
  end.

Lemma b64_strict_roundtrip value : Forall byte_ok value → b64decode_strict (b64encode value) = Ok value.
Proof.
  revert value. fix IH 1. intros [|x [|y [|z r]]] H; [done|..];
    repeat match goal with H : Forall _ (_ :: _) |- _ => apply Forall_cons in H as [? H] end;
    unfold byte_ok in *; cbn [b64encode b64decode_strict]; std_chars;
    rewrite ?Z.eqb_refl; cbn [andb require mbind result_bind].
  - rewrite bool_decide_eq_true_2 by done. cbn. repeat f_equal; zdiv.
  - rewrite bool_decide_eq_true_2 by done. cbn. repeat f_equal; zdiv.
  - rewrite (IH r) by done. cbn. repeat f_equal; zdiv.
Qed.

(** ** Texts *)

(** Characters below the surrogates are never joined. *)
Lemma plain_str_ok s : Forall (λ c, 0 ≤ c < 0xD800) s → str_ok s = true.
Proof.
  intros H. unfold str_ok. apply andb_true_iff. split.
  - apply forallb_forall. intros c Hc%list_elem_of_In. rewrite Forall_forall in H. specialize (H c Hc). lia.
  - induction H as [|c s Hc Hs IH]; [done|]. cbn [unpaired]. rewrite IH, andb_true_r. destruct s as [|v s]; [done|].
    unfold is_high. by rewrite (proj2 (Z.leb_gt 0xD800 c)) by lia.
Qed.

Lemma lit_plain s : Forall (λ c, 0 ≤ c < 0xD800) (lit s).
Proof.
  induction s as [|a s IH]; cbn [lit]; [constructor|]. constructor; [|done].
  unfold ascii_code. destruct a as [[] [] [] [] [] [] [] []]; cbv; split; congruence.
Qed.

Lemma lit_str_ok s : str_ok (lit s) = true.
Proof. apply plain_str_ok, lit_plain. Qed.

Lemma std_char_plain d : 0 ≤ d < 64 → 0 ≤ std_char d < 0xD800.
Proof.
  intros Hd. assert (H : forallb (λ d, (0 <=? std_char d) && (std_char d <? 0xD800)) (seqZ 0 64) = true)
    by (vm_compute; reflexivity).
  rewrite forallb_forall in H. specialize (H d). apply andb_true_iff in H; [lia|].
  apply list_elem_of_In, elem_of_seqZ. lia.
Qed.
Lemma b64encode_ok value : Forall byte_ok value → str_ok (b64encode value) = true.
Proof.
  intros H. apply plain_str_ok. revert value H. fix IH 1. intros [|x [|y [|z r]]] H; [constructor|..];
    repeat match goal with H : Forall _ (_ :: _) |- _ => apply Forall_cons in H as [? H] end;
    unfold byte_ok in *; cbn [b64encode]; repeat (constructor; [first [apply std_char_plain; zdiv|lia]|]);
    first [constructor|by apply IH].
Qed.

Lemma padded_plain n x : Forall (λ c, 0 ≤ c < 0xD800) (padded n x).
Proof.
  unfold padded. apply Forall_fmap. pose proof (digits_ok 10 n x ltac:(lia)) as H.
  eapply Forall_impl; [exact H|]. cbn. lia.
Qed.
Lemma isoformat_ok d : is_utc d = true → str_ok (isoformat d) = true.
Proof.
  intros Hu. rewrite isoformat_parts by done. apply plain_str_ok. unfold iso_date, iso_time, iso_micros.
  destruct (ord2ymd _) as [[y m] dd].
  destruct (_ =? 0); rewrite !Forall_app; split_and!; try apply padded_plain; try apply lit_plain; try constructor.
Qed.

(** ** Documents in key order *)

Lemma keys_sorted_by (kvs : list (list Z * json)) : sorted kvs.*1 = kvs.*1 → sorted_by fst kvs = kvs.
Proof.
  intros H. apply sorted_by_fixed. pose proof (sorted_by_sorted (λ x : list Z, x) kvs.*1) as Hs.
  unfold sorted in H. rewrite H in Hs. clear H. induction kvs as [|[k v] kvs IH]; [constructor|].
  inversion Hs as [|?? Hrest Hall]; subst. constructor; [by apply IH|].
  change (Forall (key_le (λ x : list Z, x) k) (fst <$> kvs)) in Hall. exact (proj1 (Forall_fmap _ _ _) Hall).
Qed.

(** An object whose keys are written in order is sorted member by member. *)
Lemma sort_keys_ordered kvs :
  sorted kvs.*1 = kvs.*1 → Forall (λ kv, sort_keys kv.2 = kv.2) kvs → sort_keys (JObj kvs) = JObj kvs.
Proof.
  intros Hk Hv. change (sort_keys (JObj kvs)) with (JObj (sorted_by fst ((λ kv, (kv.1, sort_keys kv.2)) <$> kvs))).
  f_equal. assert (He : (λ kv, (kv.1, sort_keys kv.2)) <$> kvs = kvs).
  { clear Hk. induction Hv as [|[k v] kvs Hv _ IH]; [done|]. cbn in *. by rewrite Hv, IH. }
  rewrite He. by apply keys_sorted_by.
Qed.
Lemma sort_keys_arr l : Forall (λ v, sort_keys v = v) l → sort_keys (JArr l) = JArr l.
Proof. intros H. cbn [sort_keys]. f_equal. induction H as [|v l Hv _ IH]; [done|]. cbn. by rewrite Hv, IH. Qed.

Lemma json_ok_obj kvs :
  nodupb kvs.*1 = true → Forall (λ kv, str_ok kv.1 = true ∧ json_ok kv.2 = true) kvs → json_ok (JObj kvs) = true.
Proof.
  intros Hn H. cbn [json_ok]. rewrite Hn. apply forallb_forall. intros kv Hkv%list_elem_of_In.
  rewrite Forall_forall in H. destruct (H kv Hkv) as [-> ->]. done.
Qed.
Lemma json_ok_arr {A} (f : A → json) l : Forall (λ x, json_ok (f x) = true) l → json_ok (JArr (f <$> l)) = true.
Proof.
  intros H. cbn [json_ok]. apply forallb_forall. intros v (x & -> & Hx)%list_elem_of_In%list_elem_of_fmap.
  rewrite Forall_forall in H. by apply H.
Qed.

(** A document with known keys: representable, in key order, and read by key. *)
Definition in_order (v : json) : Prop := json_ok v = true ∧ sort_keys v = v.
Lemma in_order_obj keys kvs :
  kvs.*1 = keys → nodupb keys = true → sorted keys = keys → Forall (λ kv, str_ok kv.1 = true ∧ in_order kv.2) kvs →
  in_order (JObj kvs).
Proof.
  intros <- Hn Hs H. split; [apply json_ok_obj|apply sort_keys_ordered]; try done;
    (eapply Forall_impl; [exact H|]); by intros kv (? & ? & ?).
Qed.
Lemma in_order_arr {A} (f : A → json) l : Forall (λ x, in_order (f x)) l → in_order (JArr (f <$> l)).
Proof.
  intros H. split; [apply json_ok_arr|apply sort_keys_arr, Forall_fmap];
    (eapply Forall_impl; [exact H|]); by intros x [? ?].
Qed.
Lemma in_order_str s : str_ok s = true → in_order (JStr s).
Proof. done. Qed.

Lemma exact_dict_Ok d keys : d.*1 = keys → _exact_dict (JObj d) keys = Ok d.
Proof. intros <-. cbn [_exact_dict]. by rewrite bool_decide_eq_true_2. Qed.
Lemma item_here k v d : item_of ((k, v) :: d) k = Ok v.
Proof. unfold item_of. cbn [dict_get]. by rewrite decide_True. Qed.
Lemma item_next k k' v d : lit k ≠ lit k' → item_of ((lit k', v) :: d) (lit k) = item_of d (lit k).
Proof. intros H. unfold item_of. cbn [dict_get]. by rewrite decide_False. Qed.
Lemma lit_neq k k' : k ≠ k' → lit k ≠ lit k'.
Proof. intros H E. by apply H, lit_inj. Qed.

(** Opens a document with known keys and reads its members. *)
Ltac open_document :=
  rewrite exact_dict_Ok by reflexivity; cbn [mbind result_bind];
  repeat first [rewrite item_here|rewrite item_next by (apply lit_neq; discriminate)]; cbn [mbind result_bind].
Ltac ordered_document :=
  eapply in_order_obj; [cbn [fmap list_fmap fst]; reflexivity|vm_compute; reflexivity|vm_compute; reflexivity|
    repeat (apply Forall_cons; split; [split; [apply lit_str_ok|cbn [snd]]|]); try apply Forall_nil; try exact I].

(** ** The round trip *)

(** Values that a Python process can hold and the text can carry. *)
Definition observation_ok (o : SourceAclObservation) : Prop :=
  uuid_ok (ao_organization_id o) ∧ datetime_ok (ao_observed_at o)
  ∧ (∀ b, ao_evidence_payload o = Some b → Forall byte_ok b)
  ∧ ∀ s, ao_source_lacks_stronger_acl o = Some s → str_ok s = true.
Definition delete_ok (o : SupplyDocumentDeleteObservation) : Prop :=
  str_ok (do_document_ref o) = true ∧ observation_ok (do_acl_observation o).
Definition envelope_ok (e : SupplyDocumentEnvelope) : Prop :=
  uuid_ok (en_organization_id e) ∧ uuid_ok (en_source_version_id e) ∧ uuid_ok (en_worker_job_id e)
  ∧ str_ok (en_document_ref e) = true ∧ Forall byte_ok (en_content e) ∧ str_ok (en_content_type e) = true
  ∧ observation_ok (en_acl_observation e)
  ∧ Forall (λ kx, str_ok kx.1 = true ∧ str_ok kx.2 = true) (en_metadata e).
Definition page_ok (p : SupplyChangePage) : Prop :=
  uuid_ok (kb_organization_id (pg_binding p)) ∧ uuid_ok (kb_source_version_id (pg_binding p))
  ∧ uuid_ok (kb_worker_job_id (pg_binding p)) ∧ str_ok (pg_page_ref p) = true
  ∧ Forall envelope_ok (pg_documents p) ∧ Forall delete_ok (pg_deleted_document_refs p)
  ∧ Forall byte_ok (pg_checkpoint_proposal p).

Lemma validated_utc o u : _validate_source_acl_observation o = Ok u → is_utc (ao_observed_at o) = true.
Proof. unfold _validate_source_acl_observation. by intros (? & ?%require_Ok & _)%bind_Ok. Qed.

Lemma evidence_class_roundtrip c : evidence_class_of_json (JStr (evidence_class_value c)) = Ok c.
Proof. by destruct c. Qed.

Section RoundTrip.
Context {nesting : NestingLimit}.
Context (float_repr : pystr → result pystr) (fromisoformat : pystr → result datetime).
Context `{!IsoParser fromisoformat}.

Lemma observation_in_order o u :
  observation_ok o → _validate_source_acl_observation o = Ok u → in_order (_serialize_source_acl_observation o).
Proof.
  intros (_ & _ & Hb & Hs) Hu%validated_utc. unfold _serialize_source_acl_observation. ordered_document.
  - apply in_order_str. destruct (ao_evidence_class o); apply lit_str_ok.
  - destruct (ao_evidence_payload o) as [b|]; [|done]. by apply in_order_str, b64encode_ok, Hb.
  - by apply in_order_str, isoformat_ok.
  - apply in_order_str, uuid_str_ok.
  - done.
  - destruct (ao_source_lacks_stronger_acl o) as [s|]; [|done]. by apply in_order_str, Hs.
Qed.

Lemma observation_roundtrip o :
  observation_ok o → _validate_source_acl_observation o = Ok tt →
  _deserialize_source_acl_observation fromisoformat (_serialize_source_acl_observation o) = Ok o.
Proof.
  intros (Hu & Hd & Hb & _) Hv. pose proof (validated_utc _ _ Hv) as Hutc.
  unfold _deserialize_source_acl_observation, _serialize_source_acl_observation. open_document.
  assert (Hp : optional_of_json bytes_of_json
                 (optional_json (λ b, JStr (b64encode b)) (ao_evidence_payload o)) = Ok (ao_evidence_payload o)).
  { destruct (ao_evidence_payload o) as [b|]; [|done]. cbn [optional_json optional_of_json bytes_of_json].
    by rewrite b64_strict_roundtrip by by apply Hb. }
  rewrite Hp. cbn [mbind result_bind]. cbn [uuid_of_json]. rewrite uuid_of_text_str by done.
  cbn [mbind result_bind]. rewrite iso_roundtrip by done. cbn [mbind result_bind].
  rewrite evidence_class_roundtrip. cbn [mbind result_bind]. cbn [int_of_json mbind result_bind].
  assert (Hj : optional_of_json str_of_json (optional_json JStr (ao_source_lacks_stronger_acl o))
               = Ok (ao_source_lacks_stronger_acl o)) by (by destruct (ao_source_lacks_stronger_acl o)).
  rewrite Hj. cbn [mbind result_bind].
  replace (mkAclObservation _ _ _ _ _ _) with o by by destruct o. by rewrite Hv.
Qed.

Lemma delete_in_order o u :
  delete_ok o → _validate_supply_document_delete_observation o = Ok u → in_order (delete_document o).
Proof.
  intros [Hr Ho] Hv. unfold _validate_supply_document_delete_observation in Hv. apply bind_Ok in Hv as (? & _ & Hv).
  unfold delete_document. ordered_document; [by eapply observation_in_order|by apply in_order_str].
Qed.
Lemma delete_roundtrip o :
  delete_ok o → _validate_supply_document_delete_observation o = Ok tt →
  _deserialize_supply_delete_observation fromisoformat (delete_document o) = Ok o.
Proof.
  intros [Hr Ho] Hv. pose proof Hv as Hv'. unfold _validate_supply_document_delete_observation in Hv'.
  apply bind_Ok in Hv' as (? & _ & Hv'). unfold _deserialize_supply_delete_observation, delete_document.
  open_document. rewrite observation_roundtrip by done. cbn [mbind result_bind str_of_json].
  replace (mkDeleteObservation _ _) with o by by destruct o. by rewrite Hv.
Qed.

Lemma envelope_acl_valid e u :
  _validate_supply_document_envelope e = Ok u → _validate_source_acl_observation (en_acl_observation e) = Ok tt.
Proof.
  unfold _validate_supply_document_envelope. intros H. do 3 (apply bind_Ok in H as (? & _ & H)).
  by apply bind_Ok in H as ([] & ? & _).
Qed.
Lemma envelope_in_order e u :
  envelope_ok e → _validate_supply_document_envelope e = Ok u → in_order (envelope_document e).
Proof.
  intros (_ & _ & _ & Hr & Hc & Ht & Ho & Hm) Hv%envelope_acl_valid. unfold envelope_document. ordered_document.
  - by eapply observation_in_order.
  - by apply in_order_str, b64encode_ok.
  - by apply in_order_str.
  - by apply in_order_str.
  - apply in_order_arr. eapply Forall_impl; [exact Hm|]. intros [k x] [Hk Hx]. cbn [fst snd] in *. split; [|done].
    cbn [json_ok forallb]. by rewrite Hk, Hx.
  - apply in_order_str, uuid_str_ok.
  - apply in_order_str, uuid_str_ok.
  - apply in_order_str, uuid_str_ok.
Qed.

Lemma metadata_roundtrip (m : list (list Z * list Z)) :
  map_result metadata_pair ((λ item, JArr [JStr item.1; JStr item.2]) <$> m)
    = Ok ((λ item, (JStr item.1, JStr item.2)) <$> m)
  ∧ map_result (λ kx, k ← str_of_json kx.1; x ← str_of_json kx.2; Ok (k, x))
      ((λ item : list Z * list Z, (JStr item.1, JStr item.2)) <$> m) = Ok m.
Proof.
  induction m as [|[k x] m [IH1 IH2]]; [done|]. rewrite !fmap_cons. cbn [map_result].
  rewrite IH1, IH2. done.
Qed.
Lemma envelope_roundtrip e :
  envelope_ok e → _validate_supply_document_envelope e = Ok tt →
  _deserialize_supply_document_envelope fromisoformat (envelope_document e) = Ok e.
Proof.
  intros (H1 & H2 & H3 & Hr & Hc & Ht & Ho & Hm) Hv. pose proof (envelope_acl_valid _ _ Hv) as Ha.
  destruct (metadata_roundtrip (en_metadata e)) as [Hm1 Hm2].
  unfold _deserialize_supply_document_envelope, envelope_document. open_document.
  cbn [list_of_json mbind result_bind]. rewrite Hm1. cbn [mbind result_bind].
  cbn [uuid_of_json]. rewrite uuid_of_text_str by done. cbn [mbind result_bind].
  cbn [uuid_of_json]. rewrite uuid_of_text_str by done. cbn [mbind result_bind].
  cbn [uuid_of_json]. rewrite uuid_of_text_str by done. cbn [mbind result_bind].
  cbn [bytes_of_json]. rewrite b64_strict_roundtrip by done. cbn [mbind result_bind].
  rewrite observation_roundtrip by done. cbn [mbind result_bind str_of_json].
  rewrite Hm2. cbn [mbind result_bind]. replace (mkEnvelope _ _ _ _ _ _ _ _) with e by by destruct e. by rewrite Hv.
Qed.
(** *** Pages *)

Lemma map_result_inverse {A B} (f : B → result A) (g : A → B) l :
  Forall (λ x, f (g x) = Ok x) l → map_result f (g <$> l) = Ok l.
Proof. intros H. apply map_result_Ok. induction H as [|x l Hx _ IH]; constructor; done. Qed.

(** What a validated page is made of. *)
Lemma validated_page p u :
  _validate_supply_change_page p = Ok u →
  Forall (λ d, _validate_supply_document_envelope d = Ok tt ∧ document_bound (pg_binding p) d = true) (pg_documents p)
  ∧ Forall (λ o, _validate_supply_document_delete_observation o = Ok tt) (pg_deleted_document_refs p)
  ∧ (pg_checkpoint_proposal p ≠ [] ∧ len (pg_checkpoint_proposal p) ≤ _MAX_CHECKPOINT_BYTES).
Proof.
  unfold _validate_supply_change_page. intros H. apply bind_Ok in H as (? & _ & H).
  apply bind_Ok in H as ([] & Hd%each_Ok & H). apply bind_Ok in H as ([] & Ho%each_Ok & H). cbv zeta in H.
  apply bind_Ok in H as (? & _ & Hp). split_and!.
  - eapply Forall_impl; [exact Hd|]. intros d Hx. by apply bind_Ok in Hx as ([] & ? & ?%require_Ok).
  - eapply Forall_impl; [exact Ho|]. intros o Hx. by apply bind_Ok in Hx as ([] & ? & _).
  - unfold require_supply_bytes in Hp. apply require_Ok, andb_true_iff in Hp as [Hp _].
    by apply negb_true_iff, bool_decide_eq_false in Hp.
  - unfold require_supply_bytes in Hp. apply require_Ok, andb_true_iff in Hp as [_ Hp]. by apply Z.leb_le.
Qed.

Lemma page_in_order p u : page_ok p → _validate_supply_change_page p = Ok u → in_order (page_document p).
Proof.
  intros (_ & _ & _ & Hr & Hd & Ho & Hc) (Hvd & Hvo & _)%validated_page. unfold page_document. ordered_document.
  - unfold binding_document. ordered_document; apply in_order_str, uuid_str_ok.
  - by apply in_order_str, b64encode_ok.
  - apply in_order_arr. rewrite Forall_forall in *. intros o Hin. eapply delete_in_order; [by apply Ho|by apply Hvo].
  - apply in_order_arr. rewrite Forall_forall in *. intros d Hin. eapply envelope_in_order; [by apply Hd|by apply Hvd].
  - by apply in_order_str.
  - done.
Qed.

Lemma nests_entries d kvs : 0 < d → Forall (λ kv, nests (d - 1) kv.2 = true) kvs → nests d (JObj kvs) = true.
Proof.
  intros Hd H. cbn [nests]. apply andb_true_iff. split; [lia|]. apply forallb_forall. intros kv Hkv%list_elem_of_In.
  rewrite Forall_forall in H. auto.
Qed.
Ltac nest_entries := apply nests_entries; [done|]; repeat apply Forall_cons_2; try apply Forall_nil_2; cbn [snd]; try done.
Lemma observation_nests o d : 0 < d → nests d (_serialize_source_acl_observation o) = true.
Proof.
  intros Hd. unfold _serialize_source_acl_observation. nest_entries;
    [by destruct (ao_evidence_payload o)|by destruct (ao_source_lacks_stronger_acl o)].
Qed.
Lemma supply_page_nests p : nests document_depth (page_document p) = true.
Proof.
  unfold page_document. nest_entries; (apply nests_map; [done|]; intros x).
  - unfold delete_document. nest_entries. by apply observation_nests.
  - unfold envelope_document. nest_entries; [by apply observation_nests|by apply nests_map].
Qed.

Lemma page_document_roundtrip p :
  page_ok p → _validate_supply_change_page p = Ok tt → page_of_document fromisoformat (page_document p) = Ok p.
Proof.
  intros (H1 & H2 & H3 & Hr & Hd & Ho & Hc) Hv. pose proof Hv as (Hvd & Hvo & _)%validated_page.
  unfold page_of_document, page_document. open_document.
  unfold binding_of_document, binding_document. open_document.
  cbn [uuid_of_json]. rewrite uuid_of_text_str by done. cbn [mbind result_bind].
  cbn [uuid_of_json]. rewrite uuid_of_text_str by done. cbn [mbind result_bind].
  cbn [uuid_of_json]. rewrite uuid_of_text_str by done. cbn [mbind result_bind].
  cbn [list_of_json mbind result_bind].
  rewrite (map_result_inverse (_deserialize_supply_document_envelope fromisoformat) envelope_document).
  2:{ rewrite Forall_forall in *. intros d Hin. apply envelope_roundtrip; [by apply Hd|by apply Hvd]. }
  cbn [mbind result_bind].
  rewrite (map_result_inverse (_deserialize_supply_delete_observation fromisoformat) delete_document).
  2:{ rewrite Forall_forall in *. intros o Hin. apply delete_roundtrip; [by apply Ho|by apply Hvo]. }
  cbn [mbind result_bind]. cbn [bytes_of_json]. rewrite b64_strict_roundtrip by done.
  cbn [mbind result_bind]. cbn [str_of_json bool_of_json mbind result_bind].
  replace (mkChangePage _ _ _ _ _ _) with p by (destruct p as [[] ? ? ? ? ?]; done). by rewrite Hv.
Qed.

(** C29: A staged page is read back exactly.  Whatever page the engine serializes, with
    its documents, deletions, ACL evidence, metadata and checkpoint, the reader returns
    that page from the staged bytes, which are nonempty and within the ceiling.  The
    texts must be such that JSON can carry them: no high surrogate directly before a low
    one. *)
Theorem staged_page_is_read_back p payload :
  page_ok p → serialize_supply_change_page float_repr p = Ok payload →
  deserialize_supply_change_page fromisoformat payload = Ok p ∧ 0 < len payload ≤ _MAX_STAGED_PAGE_BYTES.
Proof.
  intros Hok H. unfold serialize_supply_change_page in H. apply bind_Ok in H as ([] & Hv & H).
  apply bind_Ok in H as (text & Ht & H). apply bind_Ok in H as ([] & Hl%require_Ok%Z.leb_le & <-%Ok_inj).
  destruct (page_in_order _ _ Hok Hv) as [Hjson Hsort].
  assert (Hne : text ≠ []).
  { intros ->. destruct (dumps_head float_repr _ _ Hjson Ht) as (c & t & [=] & _). }
  split; [|split; [destruct text; [done|rewrite len_cons; pose proof (len_nonneg text); lia]|done]].
  unfold deserialize_supply_change_page, require_supply_bytes. rewrite bool_decide_eq_false_2 by done.
  rewrite (proj2 (Z.leb_le _ _)) by done. cbn [negb andb require mbind result_bind].
  rewrite (loads_dumps json_dict float_repr json_dict_nodup _ _ Hjson (nests_room _ (supply_page_nests p)) Ht), Hsort. cbn [mbind result_bind].
  by rewrite page_document_roundtrip.
Qed.
End RoundTrip.

(** ** What a malformed page raises *)

Definition page_raises {A} (m : result A) : Prop := ∀ e, m = Err e → is_page_error e = true ∨ e = AttributeError.

Lemma page_raises_Ok {A} (a : A) : page_raises (Ok a).
Proof. by intros e. Qed.
Lemma page_raises_Err {A} e : is_page_error e = true → page_raises (Err (A := A) e).
Proof. intros H e' [= <-]. by left. Qed.
Lemma page_raises_attribute {A} : page_raises (Err (A := A) AttributeError).
Proof. intros e [= <-]. by right. Qed.
Lemma page_raises_bind {A B} (m : result A) (f : A → result B) :
  page_raises m → (∀ a, page_raises (f a)) → page_raises (m ≫= f).
Proof. intros Hm Hf e [H|(a & _ & H)]%bind_Err; [by apply Hm|by eapply Hf]. Qed.
Lemma page_raises_require b e : is_page_error e = true → page_raises (require b e).
Proof. destruct b; [intros; apply page_raises_Ok|apply page_raises_Err]. Qed.
Lemma page_raises_map {A B} (f : A → result B) l : (∀ x, page_raises (f x)) → page_raises (map_result f l).
Proof.
  intros Hf. induction l as [|x l IH]; cbn [map_result]; [apply page_raises_Ok|].
  apply page_raises_bind; [done|intros]. apply page_raises_bind; [done|intros; apply page_raises_Ok].
Qed.
Lemma page_raises_each {A} (f : A → result unit) l : (∀ x, page_raises (f x)) → page_raises (each f l).
Proof. intros Hf. induction l as [|x l IH]; cbn [each]; [apply page_raises_Ok|by apply page_raises_bind]. Qed.

Create HintDb page discriminated.
#[export] Hint Resolve page_raises_Ok page_raises_attribute : page.
Ltac page_steps :=
  repeat first
    [ solve [auto with page]
    | apply page_raises_Err; reflexivity
    | apply page_raises_require; reflexivity
    | apply page_raises_map; intros
    | apply page_raises_each; intros
    | apply page_raises_bind; [|intros]
    | match goal with |- page_raises (match ?x with _ => _ end) => destruct x end ].

Lemma raises_uuid v : page_raises (uuid_of_json v).
Proof. unfold uuid_of_json, uuid_of_text. page_steps. Qed.
Lemma raises_b64 s : page_raises (b64decode_strict s).
Proof. revert s. fix IH 1. intros [|a [|b [|c [|d r]]]]; cbn [b64decode_strict]; page_steps; apply IH. Qed.
Lemma raises_bytes v : page_raises (bytes_of_json v).
Proof. destruct v; try (by apply page_raises_Err); apply raises_b64. Qed.
Lemma raises_optional {A} (f : json → result A) v : (∀ v, page_raises (f v)) → page_raises (optional_of_json f v).
Proof. intros Hf. unfold optional_of_json. destruct v; page_steps; apply Hf. Qed.
Lemma raises_exact_dict v keys : page_raises (_exact_dict v keys).
Proof. unfold _exact_dict. page_steps. Qed.
Lemma raises_item d k : page_raises (item_of d k).
Proof. unfold item_of. page_steps. Qed.
Lemma raises_str v : page_raises (str_of_json v).
Proof. unfold str_of_json. page_steps. Qed.
#[export] Hint Resolve raises_uuid raises_bytes raises_exact_dict raises_item raises_str : page.

Lemma raises_observation_checks o : page_raises (_validate_source_acl_observation o).
Proof. unfold _validate_source_acl_observation, require_supply_bytes. page_steps. Qed.
#[export] Hint Resolve raises_observation_checks : page.
Lemma raises_delete_checks o : page_raises (_validate_supply_document_delete_observation o).
Proof. unfold _validate_supply_document_delete_observation, require_supply_ref. page_steps. Qed.
Lemma raises_envelope_checks e : page_raises (_validate_supply_document_envelope e).
Proof.
  unfold _validate_supply_document_envelope, require_supply_ref, require_supply_bytes, _require_metadata,
    require_supply_ref. page_steps.
Qed.
#[export] Hint Resolve raises_delete_checks raises_envelope_checks : page.
Lemma raises_page_checks p : page_raises (_validate_supply_change_page p).
Proof.
  unfold _validate_supply_change_page, require_supply_ref, require_supply_bytes. page_steps.
Qed.
#[export] Hint Resolve raises_page_checks : page.

Section Raises.
Context {nesting : NestingLimit}.
Context (fromisoformat : pystr → result datetime) `{!IsoParser fromisoformat}.

Lemma raises_iso s : page_raises (fromisoformat s).
Proof. intros e He%iso_errors. left. unfold is_page_error. by rewrite He. Qed.
Hint Resolve raises_iso : page.
Lemma raises_observation v : page_raises (_deserialize_source_acl_observation fromisoformat v).
Proof.
  unfold _deserialize_source_acl_observation, evidence_class_of_json, int_of_json.
  page_steps; apply raises_optional; auto with page.
Qed.
Hint Resolve raises_observation : page.
Lemma raises_delete v : page_raises (_deserialize_supply_delete_observation fromisoformat v).
Proof. unfold _deserialize_supply_delete_observation. page_steps. Qed.
Lemma raises_envelope v : page_raises (_deserialize_supply_document_envelope fromisoformat v).
Proof. unfold _deserialize_supply_document_envelope, list_of_json, metadata_pair. page_steps. Qed.
Hint Resolve raises_delete raises_envelope : page.
Lemma raises_page v : page_raises (page_of_document fromisoformat v).
Proof. unfold page_of_document, binding_of_document, list_of_json, bool_of_json. page_steps. Qed.

(** A page whose Organization is written as a number. *)
Definition numbered_page : pybytes :=
  lit "{" ++ dump_str (lit "binding") ++ lit ":{" ++ dump_str (lit "organization_id") ++ lit ":7,"
  ++ dump_str (lit "source_version_id") ++ lit ":0," ++ dump_str (lit "worker_job_id") ++ lit ":0},"
  ++ dump_str (lit "checkpoint_proposal") ++ lit ":0," ++ dump_str (lit "deleted_document_refs") ++ lit ":[],"
  ++ dump_str (lit "documents") ++ lit ":[]," ++ dump_str (lit "page_ref") ++ lit ":0,"
  ++ dump_str (lit "terminal") ++ lit ":true}".

Definition numbered_document : json :=
  JObj [(lit "binding", JObj [(lit "organization_id", JInt 7); (lit "source_version_id", JInt 0);
                              (lit "worker_job_id", JInt 0)]);
        (lit "checkpoint_proposal", JInt 0); (lit "deleted_document_refs", JArr []); (lit "documents", JArr []);
        (lit "page_ref", JInt 0); (lit "terminal", JBool true)].
Lemma numbered_page_reads : loads json_dict numbered_page = Ok numbered_document.
Proof.
  by apply (loads_dumps json_dict (λ _, Err ValueError) json_dict_nodup numbered_document); [|apply nests_room|vm_compute].
Qed.

Lemma reader_raises payload e :
  deserialize_supply_change_page fromisoformat payload = Err e →
  e = ValueError ∨ e = AttributeError ∨ e = RecursionError ∧ loads json_dict payload = Err RecursionError.
Proof.
  intros H. unfold deserialize_supply_change_page in H. apply bind_Err in H as [H|(? & _ & H)].
  { unfold require_supply_bytes, require in H. destruct (_ && _); [done|]. injection H as <-. by left. }
  unfold try_except in H. destruct (_ ≫= _) as [p|e'] eqn:He; [done|].
  assert (Hr : is_page_error e' = true ∨ e' = AttributeError
               ∨ e' = RecursionError ∧ loads json_dict payload = Err RecursionError).
  { apply bind_Err in He as [He|(v & _ & He)]; [|destruct (raises_page _ _ He) as [?|?]; auto].
    pose proof He as [Hd| ->]%loads_errors%decoding_error_cases; [|by right; right|done].
    left. unfold is_page_error. by rewrite Hd. }
  destruct (is_page_error e') eqn:Ep; injection H as <-; [by left|]. destruct Hr as [?|Hr]; [done|by right].
Qed.

Lemma deep_page_raises k :
  nesting_limit < Z.of_nat k ≤ _MAX_STAGED_PAGE_BYTES →
  deserialize_supply_change_page fromisoformat (repeat 91 k) = Err RecursionError.
Proof.
  intros [Hk Hmax]. pose proof nesting_room as Hroom. unfold document_depth in Hroom.
  unfold deserialize_supply_change_page, require_supply_bytes, len. rewrite repeat_length.
  rewrite (proj2 (Z.leb_le _ _)) by done. rewrite bool_decide_eq_false_2 by (by destruct k; [lia|]).
  cbn [negb andb require mbind result_bind]. by rewrite loads_deep.
Qed.

(** C35: What the reader of staged pages raises.  A payload that it does not accept makes
    it raise [ValueError], its one documented refusal, or one of two exceptions that no
    clause of it catches: [AttributeError], which a page with a number for an identifier
    provokes, since [UUID] reads its argument with string methods; and [RecursionError],
    raised only by a payload on which [json.loads] exhausts the interpreter's stack,
    as any payload does that opens more brackets than the stack has room for.  The
    callers close the runner's output on [ValueError] alone. *)
Theorem reader_lets_errors_through :
  (∀ payload e, deserialize_supply_change_page fromisoformat payload = Err e →
     e = ValueError ∨ e = AttributeError ∨ e = RecursionError ∧ loads json_dict payload = Err RecursionError)
  ∧ deserialize_supply_change_page fromisoformat numbered_page = Err AttributeError
  ∧ ∀ k, nesting_limit < Z.of_nat k ≤ _MAX_STAGED_PAGE_BYTES →
      deserialize_supply_change_page fromisoformat (repeat 91 k) = Err RecursionError.
Proof.
  split; [|split]; [exact reader_raises| |exact deep_page_raises].
  unfold deserialize_supply_change_page. rewrite numbered_page_reads. by vm_compute.
Qed.
End Raises.
