(* ===== verification/SupplyBridge.v ===== *)
(** * The Supply bridge: [src/engine/persistence/supply_execution.py]

    A leased connector job: the lease is issued from a row the database grants and
    verified against the worker's own identity, the stored checkpoint is redeemed, and
    pages are accepted one after another until a terminal page or a finite bound.  The
    connector and the staging transaction are arguments with a state of their own, which
    may answer or raise anything; the database's rows are arguments too.  The log of a
    run holds the accepted pages. *)

From S2P Require Import Prelude Codec Datetime Json Trusted Signing UuidText Leases SupplyPages.

Definition SUPPLY_CONNECTOR_WORKLOAD : pystr := lit "supply.connector".
Definition SUPPLY_CONNECTOR_WORKER_AUDIENCE : pystr := lit "context-engine-connector-runner".
Definition DEFAULT_SUPPLY_BRIDGE_LEASE_TTL_SECONDS : Z := 300.
Definition MAX_SUPPLY_BRIDGE_LEASE_TTL_SECONDS : Z := 3600.

(** ** Lease issuance *)

Record SupplyBridgeLeaseIssueRequest := mkBridgeLeaseRequest {
  lr_organization_id : UUID;
  lr_source_id : UUID;
  lr_source_version_id : UUID;
  lr_worker_job_id : UUID;
  lr_service_principal_id : UUID
}.
Record SupplyBridgeLeasePreemptionRequest := mkBridgePreemption {
  lp_request : SupplyBridgeLeaseIssueRequest;
  lp_reason_digest : pystr
}.
Definition new_SupplyBridgeLeasePreemptionRequest (r : SupplyBridgeLeasePreemptionRequest) :
    result SupplyBridgeLeasePreemptionRequest :=
  require (is_sha256_hex (lp_reason_digest r)) ValueError ;; Ok r.

(** The row a lease function of the database returns. *)
Record lease_row := mkLeaseRow {
  row_issued_at : datetime;
  row_expires_at : datetime;
  row_lease_generation : obj;
  row_policy_epoch : obj;
  row_idempotency_key : obj;
  row_service_actor_expires_at : datetime
}.
Definition bridge_claims (keyring : WorkerLeaseKeyring) (nonce : pybytes) (request : SupplyBridgeLeaseIssueRequest)
    (row : lease_row) : result WorkerLeaseClaims :=
  issued_at ← _require_utc (row_issued_at row);
  expires_at ← _require_utc (row_expires_at row);
  service_actor_expires_at ← _require_utc (row_service_actor_expires_at row);
  new_WorkerLeaseClaims
    (mkLeaseArguments (OInt (lk_active_version keyring)) (lr_organization_id request) (lr_worker_job_id request)
       (lr_service_principal_id request) (OStr SUPPLY_CONNECTOR_WORKLOAD) (OStr SUPPLY_CONNECTOR_WORKER_AUDIENCE)
       issued_at expires_at nonce SUPPLY_CONNECTOR_WORKER_LEASE_OPERATION ONone
       (OStr (uuid_str (lr_source_version_id request))) (row_lease_generation row) (row_policy_epoch row)
       (row_idempotency_key row) (Some [OStr (uuid_str (lr_source_version_id request))])
       (Some [OStr SUPPLY_CONNECTOR_WORKER_LEASE_OPERATION]) (Some service_actor_expires_at)).
(** What the bridge makes of an exception of the database or its role check. *)
Definition bridge_error (e : exn) : exn :=
  match e with AssertionError | SQLAlchemyError => SupplyBridgeUnavailable | _ => e end.
Definition check_lease_ttl (lease_ttl_seconds : Z) : result unit :=
  require ((1 <=? lease_ttl_seconds) && (lease_ttl_seconds <=? MAX_SUPPLY_BRIDGE_LEASE_TTL_SECONDS)) ValueError.
(** [PostgreSQLSupplyBridgeLeaseIssuer._issue]; [row] is the database's answer to the
    request, with or without a reason to preempt. *)
Definition _issue (float_repr : pystr → result pystr) (keyring : WorkerLeaseKeyring) (nonce : pybytes)
    (request : SupplyBridgeLeaseIssueRequest) (row : result (option lease_row)) : result WorkerLeaseToken :=
  match row with
  | Err e => Err (bridge_error e)
  | Ok None => Err (WorkNotAvailable (repeat 48 64))
  | Ok (Some row) => claims ← bridge_claims keyring nonce request row; mint float_repr keyring claims
  end.

(** ** The worker's identity *)

Record SupplyBridgeExecutionIdentity := mkBridgeIdentity {
  bi_organization_id : UUID;
  bi_service_principal_id : UUID;
  bi_allowed_source_version_ids : list UUID;
  bi_allowed_operations : list pystr;
  bi_policy_epoch : Z;
  bi_idempotency_key : pystr;
  bi_expires_at : datetime
}.
Definition new_SupplyBridgeExecutionIdentity (i : SupplyBridgeExecutionIdentity) : result SupplyBridgeExecutionIdentity :=
  require (negb (bool_decide (bi_allowed_source_version_ids i = []))
           && bool_decide (bi_allowed_source_version_ids i
                           = sorted_by uuid_str (remove_dups (bi_allowed_source_version_ids i)))) ValueError ;;
  require (negb (bool_decide (bi_allowed_operations i = []))
           && forallb (λ s, negb (bool_decide (s = []))) (bi_allowed_operations i)
           && bool_decide (bi_allowed_operations i = sorted (remove_dups (bi_allowed_operations i)))) ValueError ;;
  require (0 <? bi_policy_epoch i) ValueError ;;
  require (is_sha256_hex (bi_idempotency_key i)) ValueError ;;
  _require_utc (bi_expires_at i) ;;
  Ok i.

Definition identity_admits (identity : SupplyBridgeExecutionIdentity) (execution : SupplyBridgeExecution)
    (checked_at : datetime) : bool :=
  bool_decide (bi_organization_id identity = be_organization_id execution)
  && bool_decide (be_source_version_id execution ∈ bi_allowed_source_version_ids identity)
  && bool_decide (SUPPLY_CONNECTOR_WORKER_LEASE_OPERATION ∈ bi_allowed_operations identity)
  && dt_ltb checked_at (bi_expires_at identity).
Definition claims_agree (identity : SupplyBridgeExecutionIdentity) (claims : WorkerLeaseClaims) : bool :=
  bool_decide (policy_epoch claims = Some (bi_policy_epoch identity))
  && bool_decide (idempotency_key claims = Some (bi_idempotency_key identity))
  && bool_decide (allowed_source_version_refs claims = Some (uuid_str <$> bi_allowed_source_version_ids identity))
  && bool_decide (allowed_operations claims = Some (bi_allowed_operations identity))
  && match service_actor_expires_at claims with Some d => dt_eqb d (bi_expires_at identity) | None => false end.
Definition _verify_execution {nesting : NestingLimit} (float_repr : pystr → result pystr) (keyring : WorkerLeaseKeyring)
    (execution : SupplyBridgeExecution) (token : WorkerLeaseToken) (checked_at : datetime)
    (identity : SupplyBridgeExecutionIdentity) : result WorkerLeaseClaims :=
  checked_at ← _require_utc checked_at;
  if negb (identity_admits identity execution checked_at) then reject token
  else
    claims ← verify float_repr keyring token (be_organization_id execution) (be_worker_job_id execution)
               (bi_service_principal_id identity) SUPPLY_CONNECTOR_WORKLOAD SUPPLY_CONNECTOR_WORKER_LEASE_OPERATION
               SUPPLY_CONNECTOR_WORKER_AUDIENCE checked_at None (Some (uuid_str (be_source_version_id execution)));
    if negb (claims_agree identity claims) then reject token else Ok claims.

(** ** The stores *)

(** The rejection of a row: a lease token that never was. *)
Definition unavailable_token : WorkerLeaseToken := mkWorkerLeaseToken (lit "unavailable.unavailable.unavailable").
(** [PostgreSQLConnectorCheckpointStore.redeem_for_execution] on the database's row of a
    checkpoint and a job state. *)
Definition redeem_for_execution (row : result (option (option pybytes * list Z))) : result (option pybytes) :=
  match row with
  | Err e => Err (bridge_error e)
  | Ok (Some (checkpoint, state)) =>
      if bool_decide (state = lit "running") then Ok checkpoint else reject unavailable_token
  | Ok None => reject unavailable_token
  end.
(** [PostgreSQLConnectorCheckpointStore.load] *)
Definition load_connector_checkpoint (row : result (option (option pybytes * list Z))) : result (option pybytes) :=
  match row with
  | Err e => Err (bridge_error e)
  | Ok None => Ok None
  | Ok (Some (checkpoint, _)) => Ok checkpoint
  end.
(** [PostgreSQLStagedArtifactSink.load] *)
Definition load_staged_page (binding : ConnectorCheckpointBinding) (artifact_ref : pystr)
    (row : result (option pybytes)) : result (option StagedArtifact) :=
  require (negb (bool_decide (artifact_ref = []))) ValueError ;;
  match row with
  | Err e => Err (bridge_error e)
  | Ok None => Ok None
  | Ok (Some payload) => a ← new_StagedArtifact (mkStagedArtifact binding artifact_ref payload); Ok (Some a)
  end.
(** [PostgreSQLStagedArtifactSink.accept_change_page]: a row with an integer ordinal. *)
Definition accept_change_page (row : result (option obj)) : result unit :=
  match row with
  | Err e => Err e
  | Ok (Some (OInt _)) => Ok tt
  | Ok _ => reject unavailable_token
  end.

(** ** The loop *)

Record SupplyBridgeExecutionResult := mkBridgeResult { accepted_page_refs : list pystr }.
Definition new_SupplyBridgeExecutionResult (refs : list pystr) : result SupplyBridgeExecutionResult :=
  require (negb (bool_decide (refs = [])) && forallb (λ s, negb (bool_decide (s = []))) refs) ValueError ;;
  Ok (mkBridgeResult refs).

Record staged_page := mkStagedPage {
  ap_checkpoint : option pybytes;
  ap_page : SupplyChangePage;
  ap_payload : pybytes
}.
Record loop_state := mkLoopState {
  lp_checkpoint : option pybytes;
  lp_accepted : list pystr;
  lp_page_count : Z;
  lp_byte_count : Z;
  lp_no_progress : Z
}.

(** [made_no_progress] *)
Definition no_progress (checkpoint : option pybytes) (page : SupplyChangePage) : bool :=
  negb (pg_terminal page) && bool_decide (length (pg_documents page) = 0%nat)
  && bool_decide (length (pg_deleted_document_refs page) = 0%nat)
  && bool_decide (Some (pg_checkpoint_proposal page) = checkpoint).

Section Bridge.
Context {nesting : NestingLimit}.
Context (float_repr : pystr → result pystr) (config : SupplyExecutionConfiguration).
(** The connector and the staging transaction, with their own states. *)
Context {A W : Type}.
Context (load_checkpoint : A → option pybytes → A * result unit).
Context (load poll : A → ConnectorCheckpointBinding → A * result (option SupplyChangePage)).
Context (accept : W → SupplyChangePage → pybytes → WorkerLeaseClaims → W * result unit).

Record bridge_state := mkBridgeState { bs_adapter : A; bs_sink : W; bs_log : list staged_page }.
Definition bridge_op (X : Type) : Type := bridge_state → bridge_state * result X.

(** The page the connector offers for a checkpoint. *)
Definition next_page (binding : ConnectorCheckpointBinding) (checkpoint : option pybytes) : bridge_op SupplyChangePage :=
  λ st,
  let '(a, r) := load_checkpoint (bs_adapter st) checkpoint in
  match r with
  | Err e => (mkBridgeState a (bs_sink st) (bs_log st), Err e)
  | Ok _ =>
      let '(a, r) := match checkpoint with None => load a binding | Some _ => poll a binding end in
      (mkBridgeState a (bs_sink st) (bs_log st),
       match r with
       | Err e => Err e
       | Ok None => Err SupplyBridgeUnavailable
       | Ok (Some page) => require (bool_decide (pg_binding page = binding)) SupplyBridgeUnavailable ;; Ok page
       end)
  end.

(** The bytes to stage and the bounds they must keep. *)
Definition bounded_payload (l : loop_state) (page : SupplyChangePage) : result pybytes :=
  payload ← match serialize_supply_change_page float_repr page with
            | Err SupplyStagedPageByteLimitExceeded => Err (SupplyExecutionBoundExceeded PAGE_BYTES)
            | r => r
            end;
  require (lp_byte_count l + len payload <=? xc_cumulative_byte_limit config)
    (SupplyExecutionBoundExceeded CUMULATIVE_BYTES) ;;
  require (negb (no_progress (lp_checkpoint l) page && (xc_no_progress_page_limit config <=? lp_no_progress l)))
    (SupplyExecutionBoundExceeded NO_PROGRESS) ;;
  Ok payload.

Definition stage (claims : WorkerLeaseClaims) (checkpoint : option pybytes) (page : SupplyChangePage)
    (payload : pybytes) : bridge_op unit := λ st,
  let '(s, r) := accept (bs_sink st) page payload claims in
  match r with
  | Ok _ => (mkBridgeState (bs_adapter st) s (bs_log st ++ [mkStagedPage checkpoint page payload]), Ok tt)
  | Err e => (mkBridgeState (bs_adapter st) s (bs_log st), Err (bridge_error e))
  end.

(** One turn of the loop: the next state, or the result. *)
Definition turn (claims : WorkerLeaseClaims) (binding : ConnectorCheckpointBinding) (l : loop_state) :
    bridge_op (loop_state + SupplyBridgeExecutionResult) := λ st,
  if xc_page_limit config <=? lp_page_count l then (st, Err (SupplyExecutionBoundExceeded PAGE_COUNT))
  else
    match next_page binding (lp_checkpoint l) st with
    | (st, Err e) => (st, Err e)
    | (st, Ok page) =>
        match bounded_payload l page with
        | Err e => (st, Err e)
        | Ok payload =>
            match stage claims (lp_checkpoint l) page payload st with
            | (st, Err e) => (st, Err e)
            | (st, Ok _) =>
                let accepted := lp_accepted l ++ [pg_page_ref page] in
                (st, if pg_terminal page then r ← new_SupplyBridgeExecutionResult accepted; Ok (inr r)
                     else Ok (inl (mkLoopState (Some (pg_checkpoint_proposal page)) accepted (lp_page_count l + 1)
                                     (lp_byte_count l + len payload)
                                     (if no_progress (lp_checkpoint l) page then lp_no_progress l + 1 else 0))))
            end
        end
    end.

(** [while True]; [None] when the fuel ends before the loop. *)
Fixpoint turns (fuel : nat) (claims : WorkerLeaseClaims) (binding : ConnectorCheckpointBinding) (l : loop_state)
    (st : bridge_state) : option (bridge_state * result SupplyBridgeExecutionResult) :=
  match fuel with
  | O => None
  | S fuel' =>
      match turn claims binding l st with
      | (st', Ok (inl l')) => turns fuel' claims binding l' st'
      | (st', Ok (inr r)) => Some (st', Ok r)
      | (st', Err e) => Some (st', Err e)
      end
  end.

(** [PostgreSQLSupplyExecutionBridge.execute]; [redeem] is the checkpoint store. *)
Definition execute (fuel : nat) (keyring : WorkerLeaseKeyring) (identity : SupplyBridgeExecutionIdentity)
    (now : datetime) (redeem : ConnectorCheckpointBinding → WorkerLeaseClaims → result (option pybytes))
    (execution : SupplyBridgeExecution) (st : bridge_state) :
    option (bridge_state * result SupplyBridgeExecutionResult) :=
  match claims ← _verify_execution float_repr keyring execution (be_worker_lease execution) now identity;
        checkpoint ← redeem (execution_binding execution) claims; Ok (claims, checkpoint) with
  | Err e => Some (st, Err e)
  | Ok (claims, checkpoint) =>
      turns fuel claims (execution_binding execution) (mkLoopState checkpoint [] 0 0 0) st
  end.
End Bridge.
Arguments bridge_state : clear implicits.
