(* ===== verification/BridgeFacts.v ===== *)
(** * What the Supply bridge guarantees

    The loop over a connector's pages ends, keeps its three bounds, and accepts only
    pages of the leased job, each from the checkpoint its predecessor proposed. *)

From S2P Require Import Prelude Codec Datetime Json Trusted Signing FileFacts UuidText Leases SupplyPages SupplyFacts SupplyBridge.

(** ** The log of a run *)

Definition total_bytes (log : list staged_page) : Z := foldr (λ t n, len (ap_payload t) + n) 0 log.
(** The checkpoint the connector is asked from after a log. *)
Definition checkpoint_after (start : option pybytes) (log : list staged_page) : option pybytes :=
  foldl (λ _ t, Some (pg_checkpoint_proposal (ap_page t))) start log.
(** Each page was asked for with the checkpoint that its predecessor proposed. *)
Definition chained (start : option pybytes) (log : list staged_page) : Prop :=
  ∀ i t, log !! i = Some t → ap_checkpoint t = checkpoint_after start (take i log).
(** The pages without progress at the end of a log. *)
Definition stall_run (log : list staged_page) : Z :=
  foldl (λ n t, if no_progress (ap_checkpoint t) (ap_page t) then n + 1 else 0) 0 log.
Definition page_refs (log : list staged_page) : list pystr := (λ t, pg_page_ref (ap_page t)) <$> log.
Definition pending (log : list staged_page) : Prop := Forall (λ t, pg_terminal (ap_page t) = false) log.

Lemma total_bytes_snoc log t : total_bytes (log ++ [t]) = total_bytes log + len (ap_payload t).
Proof. unfold total_bytes. induction log as [|x log IH]; cbn in *; lia. Qed.
Lemma checkpoint_after_snoc start log t :
  checkpoint_after start (log ++ [t]) = Some (pg_checkpoint_proposal (ap_page t)).
Proof. unfold checkpoint_after. by rewrite foldl_app. Qed.
Lemma stall_run_snoc log t :
  stall_run (log ++ [t]) = if no_progress (ap_checkpoint t) (ap_page t) then stall_run log + 1 else 0.
Proof. unfold stall_run. by rewrite foldl_app. Qed.
Lemma chained_snoc start log t :
  chained start log → ap_checkpoint t = checkpoint_after start log → chained start (log ++ [t]).
Proof.
  intros H Ht i x Hx. apply lookup_app_Some in Hx as [Hx|[Hi Hx]].
  - rewrite take_app_le by (apply lookup_lt_Some in Hx; lia). by apply H.
  - destruct (i - length log)%nat eqn:E; [|done]. cbn in Hx. injection Hx as <-.
    rewrite take_app_ge by lia. rewrite E, app_nil_r. done.
Qed.

Lemma prefix_snoc_cases {T} (pre l : list T) x : pre `prefix_of` l ++ [x] → pre `prefix_of` l ∨ pre = l ++ [x].
Proof.
  intros [k Hk]. destruct k as [|y k _] using rev_ind; [right; by rewrite app_nil_r in Hk|left].
  rewrite app_assoc in Hk. apply app_inj_tail in Hk as [-> _]. by exists k.
Qed.

Section BridgeFacts.
Context {nesting : NestingLimit}.
Context (float_repr : pystr → result pystr) (config : SupplyExecutionConfiguration).
Context {A W : Type}.
Context (load_checkpoint : A → option pybytes → A * result unit).
Context (load poll : A → ConnectorCheckpointBinding → A * result (option SupplyChangePage)).
Context (accept : W → SupplyChangePage → pybytes → WorkerLeaseClaims → W * result unit).

Abbreviation turn_ := (turn float_repr config load_checkpoint load poll accept).
Abbreviation turns_ := (turns float_repr config load_checkpoint load poll accept).

(** A page of the job, staged in its own bytes. *)
Definition staged_for (binding : ConnectorCheckpointBinding) (t : staged_page) : Prop :=
  pg_binding (ap_page t) = binding ∧ serialize_supply_change_page float_repr (ap_page t) = Ok (ap_payload t).

(** What holds of the log of every run, finished or not. *)
Record run_ok (binding : ConnectorCheckpointBinding) (start : option pybytes) (log : list staged_page) : Prop := {
  ro_staged : Forall (staged_for binding) log;
  ro_chained : chained start log;
  ro_pages : len log ≤ xc_page_limit config;
  ro_bytes : total_bytes log ≤ xc_cumulative_byte_limit config;
  ro_progress : ∀ pre, pre `prefix_of` log → stall_run pre ≤ xc_no_progress_page_limit config
}.
(** The loop's variables describe the log. *)
Record loop_ok (binding : ConnectorCheckpointBinding) (start : option pybytes) (l : loop_state)
    (log : list staged_page) : Prop := {
  lo_run : run_ok binding start log;
  lo_pending : pending log;
  lo_checkpoint : lp_checkpoint l = checkpoint_after start log;
  lo_accepted : lp_accepted l = page_refs log;
  lo_pages : lp_page_count l = len log;
  lo_bytes : lp_byte_count l = total_bytes log;
  lo_progress : lp_no_progress l = stall_run log
}.

Lemma serialized_page p payload :
  serialize_supply_change_page float_repr p = Ok payload →
  pg_page_ref p ≠ [] ∧ len payload ≤ _MAX_STAGED_PAGE_BYTES.
Proof.
  unfold serialize_supply_change_page, _validate_supply_change_page. intros H.
  apply bind_Ok in H as (? & Hv & H). apply bind_Ok in H as (? & _ & H).
  apply bind_Ok in H as (? & Hl%require_Ok%Z.leb_le & <-%Ok_inj). split; [|done].
  apply bind_Ok in Hv as (? & Hr & _). unfold require_supply_ref, is_supply_ref in Hr. apply require_Ok in Hr.
  rewrite !andb_true_iff, negb_true_iff, bool_decide_eq_false in Hr. tauto.
Qed.

(** ** One turn *)

Lemma next_page_Ok binding checkpoint (st st' : bridge_state A W) page :
  next_page load_checkpoint load poll binding checkpoint st = (st', Ok page) →
  pg_binding page = binding ∧ bs_log st' = bs_log st.
Proof.
  unfold next_page. destruct (load_checkpoint _ _) as [a [u|e]]; [|done].
  destruct (match checkpoint with None => _ | Some _ => _ end) as [a' [[p|]|e]]; [|done..].
  intros H. apply pair_equal_spec in H as [<- H]. apply bind_Ok in H as (? & Hb%require_Ok & <-%Ok_inj).
  by apply bool_decide_eq_true in Hb.
Qed.
Lemma next_page_log binding checkpoint (st : bridge_state A W) :
  bs_log (next_page load_checkpoint load poll binding checkpoint st).1 = bs_log st.
Proof.
  unfold next_page. destruct (load_checkpoint _ _) as [a [u|e]]; [|done].
  by destruct (match checkpoint with None => _ | Some _ => _ end) as [a' r].
Qed.

Lemma bounded_payload_Ok l page payload :
  bounded_payload float_repr config l page = Ok payload →
  serialize_supply_change_page float_repr page = Ok payload
  ∧ lp_byte_count l + len payload ≤ xc_cumulative_byte_limit config
  ∧ (no_progress (lp_checkpoint l) page = true → lp_no_progress l < xc_no_progress_page_limit config).
Proof.
  unfold bounded_payload. intros H. apply bind_Ok in H as (b & Hb & H).
  apply bind_Ok in H as (? & Hc%require_Ok%Z.leb_le & H). apply bind_Ok in H as (? & Hn%require_Ok & <-%Ok_inj).
  split_and!; [|done|].
  - destruct (serialize_supply_change_page float_repr page) as [p|e]; [done|]. by destruct e.
  - intros Hs. rewrite Hs in Hn. apply negb_true_iff in Hn. cbn [andb] in Hn. lia.
Qed.

(** Accepting a page within the bounds keeps the log in order. *)
Lemma run_extends binding start l log page payload :
  loop_ok binding start l log → lp_page_count l < xc_page_limit config → pg_binding page = binding →
  bounded_payload float_repr config l page = Ok payload →
  run_ok binding start (log ++ [mkStagedPage (lp_checkpoint l) page payload]).
Proof.
  intros [[Hst Hch Hpg Hby Hpr] Hpend Hcp Hacc Hpages Hbytes Hprog] Hlim Hbind (Hser & Hcum & Hstall)%bounded_payload_Ok.
  split.
  - apply Forall_app. split; [done|]. by repeat constructor.
  - by apply chained_snoc.
  - unfold len in *. rewrite length_app. cbn. lia.
  - rewrite total_bytes_snoc. cbn [ap_payload]. lia.
  - intros pre [Hpre| ->]%prefix_snoc_cases; [by apply Hpr|]. rewrite stall_run_snoc. cbn [ap_checkpoint ap_page].
    destruct (no_progress _ _) eqn:En; [specialize (Hstall eq_refl); lia|].
    specialize (Hpr [] (prefix_nil _)). cbn in Hpr. lia.
Qed.

Lemma accepted_result binding start log :
  run_ok binding start log → log ≠ [] →
  new_SupplyBridgeExecutionResult (page_refs log) = Ok (mkBridgeResult (page_refs log)).
Proof.
  intros [Hst _ _ _ _] Hne. unfold new_SupplyBridgeExecutionResult.
  rewrite (proj2 (require_Ok _ ValueError tt)); [done|]. apply andb_true_iff.
  split; [by destruct log|]. apply forallb_forall. intros r (x & -> & Hx)%list_elem_of_In%list_elem_of_fmap.
  rewrite Forall_forall in Hst. destruct (Hst x Hx) as [_ [Hr _]%serialized_page]. by rewrite bool_decide_eq_false_2.
Qed.

(** The log of a run that ended, with its result. *)
Definition run_ended (binding : ConnectorCheckpointBinding) (start : option pybytes) (log : list staged_page)
    (r : result SupplyBridgeExecutionResult) : Prop :=
  run_ok binding start log
  ∧ match r with
    | Ok res => accepted_page_refs res = page_refs log
        ∧ ∃ before t, log = before ++ [t] ∧ pending before ∧ pg_terminal (ap_page t) = true
    | Err _ => pending log
    end.

Lemma turn_step claims binding start l (st : bridge_state A W) :
  loop_ok binding start l (bs_log st) →
  match turn_ claims binding l st with
  | (st', Ok (inl l')) => loop_ok binding start l' (bs_log st') ∧ lp_page_count l' = lp_page_count l + 1
  | (st', Ok (inr r)) => run_ended binding start (bs_log st') (Ok r)
  | (st', Err e) => run_ended binding start (bs_log st') (Err e)
  end.
Proof.
  intros Hl. pose proof Hl as [Hrun Hpend Hcp Hacc Hpages Hbytes Hprog]. unfold turn.
  destruct (Z.leb_spec (xc_page_limit config) (lp_page_count l)) as [|Hlim]; [done|].
  pose proof (next_page_log binding (lp_checkpoint l) st) as Hlog.
  destruct (next_page _ _ _ _ _ _) as [st1 [page|e]] eqn:Hnext; cbn [fst] in Hlog; [|by rewrite Hlog].
  apply next_page_Ok in Hnext as [Hbind _].
  destruct (bounded_payload _ _ _ _) as [payload|e] eqn:Hpay; [|by rewrite Hlog].
  unfold stage. destruct (accept _ _ _ _) as [s [u|e]]; cbn [bs_log]; rewrite Hlog; [|done].
  pose proof (run_extends _ _ _ _ _ _ Hl Hlim Hbind Hpay) as Hnew. revert Hnew.
  set (t := mkStagedPage (lp_checkpoint l) page payload). intros Hnew.
  assert (Hrefs : lp_accepted l ++ [pg_page_ref page] = page_refs (bs_log st ++ [t]))
    by (unfold page_refs; by rewrite fmap_app, Hacc).
  destruct (pg_terminal page) eqn:Hterm.
  - rewrite Hrefs, (accepted_result _ _ _ Hnew) by (by destruct (bs_log st)). cbn [mbind result_bind].
    split; [done|]. split; [done|]. by exists (bs_log st), t.
  - split; [|done]. split; try done.
    + apply Forall_app. split; [done|]. by repeat constructor.
    + by rewrite checkpoint_after_snoc.
    + cbn [lp_page_count]. unfold len in *. rewrite length_app. cbn. lia.
    + rewrite total_bytes_snoc. cbn [lp_byte_count]. subst t. cbn [ap_payload]. lia.
    + rewrite stall_run_snoc, <- Hprog. done.
Qed.

(** ** The loop *)

Lemma turns_end claims binding start fuel l (st : bridge_state A W) :
  loop_ok binding start l (bs_log st) → xc_page_limit config - lp_page_count l < Z.of_nat fuel →
  ∃ st' r, turns_ fuel claims binding l st = Some (st', r) ∧ run_ended binding start (bs_log st') r.
Proof.
  revert l st. induction fuel as [|fuel IH]; intros l st Hl Hfuel.
  { destruct Hl as [[_ _ Hp _ _] _ _ _ Hpages _ _]. lia. }
  pose proof (turn_step claims _ _ _ _ Hl) as Hstep. cbn [turns].
  destruct (turn_ claims binding l st) as [st1 [[l'|r]|e]]; [|by eauto..].
  destruct Hstep as [Hl' Hcount]. apply IH; [done|lia].
Qed.

(** More fuel does not change a run that has ended. *)
Lemma turns_more claims binding fuel fuel' l (st : bridge_state A W) x :
  (fuel ≤ fuel')%nat → turns_ fuel claims binding l st = Some x → turns_ fuel' claims binding l st = Some x.
Proof.
  revert fuel' l st. induction fuel as [|fuel IH]; intros [|fuel'] l st Hle H; try done; [lia|].
  cbn [turns] in *. destruct (turn_ claims binding l st) as [st1 [[l'|r]|e]]; [|done..]. by apply IH; [lia|].
Qed.

Lemma start_ok binding start :
  new_SupplyExecutionConfiguration config = Ok config → loop_ok binding start (mkLoopState start [] 0 0 0) [].
Proof.
  unfold new_SupplyExecutionConfiguration, _require_execution_limit. intros H.
  apply bind_Ok in H as (? & H1%require_Ok & H). apply bind_Ok in H as (? & H2%require_Ok & H).
  apply bind_Ok in H as (? & H3%require_Ok & _). rewrite !andb_true_iff, !Z.leb_le in *.
  assert (Hrun : run_ok binding start []).
  { split; [by apply Forall_nil|by intros [] ?|unfold len; cbn; lia|unfold total_bytes; cbn; lia|].
    intros pre ->%prefix_nil_inv. unfold stall_run. cbn. lia. }
  split; try done. by apply Forall_nil.
Qed.

(** ** The lease *)

(** What a lease must say for the bridge to work under it. *)
Record lease_admits (identity : SupplyBridgeExecutionIdentity) (execution : SupplyBridgeExecution) (now : datetime)
    (claims : WorkerLeaseClaims) : Prop := {
  la_organization : organization_id claims = be_organization_id execution
    ∧ bi_organization_id identity = be_organization_id execution;
  la_job : job_id claims = be_worker_job_id execution;
  la_source : source_version_ref claims = Some (uuid_str (be_source_version_id execution))
    ∧ be_source_version_id execution ∈ bi_allowed_source_version_ids identity;
  la_operation : operation claims = SUPPLY_CONNECTOR_WORKER_LEASE_OPERATION;
  la_principal : service_principal_id claims = bi_service_principal_id identity;
  la_identity : policy_epoch claims = Some (bi_policy_epoch identity)
    ∧ idempotency_key claims = Some (bi_idempotency_key identity);
  la_time : dt_us (issued_at claims) ≤ dt_us now < dt_us (expires_at claims) ∧ dt_us now < dt_us (bi_expires_at identity)
}.

Lemma reject_never_Ok {X} token (x : X) : reject token ≠ Ok x.
Proof.
  unfold reject. intros H. apply bind_Ok in H as (? & _ & H). by apply bind_Ok in H as (? & _ & H).
Qed.
Lemma verify_matches keyring token org job sp w op aud now src srcv c :
  verify float_repr keyring token org job sp w op aud now src srcv = Ok c →
  lease_matches c org job sp w op aud now src srcv = true.
Proof.
  unfold verify. intros H. do 2 (apply bind_Ok in H as (? & _ & H)).
  destruct (negb _); [by apply reject_never_Ok in H|]. apply bind_Ok in H as (? & _ & H).
  apply bind_Ok in H as (d & Hd & H). unfold _require_utc in Hd. apply bind_Ok in Hd as (? & _ & <-%Ok_inj).
  unfold try_except in H. destruct (_ ≫= _) as [c'|e] eqn:E.
  - apply Ok_inj in H as <-. apply bind_Ok in E as (c'' & _ & E). by apply bind_Ok in E as (? & ?%require_Ok & <-%Ok_inj).
  - destruct (is_lease_decoding_error e); [by apply reject_never_Ok in H|done].
Qed.
Lemma verify_execution_Ok keyring execution token now identity claims :
  _verify_execution float_repr keyring execution token now identity = Ok claims →
  lease_admits identity execution now claims.
Proof.
  unfold _verify_execution. intros H. apply bind_Ok in H as (d & Hd & H).
  unfold _require_utc in Hd. apply bind_Ok in Hd as (? & _ & <-%Ok_inj).
  destruct (identity_admits _ _ _) eqn:Hi; cbn [negb] in H; [|by apply reject_never_Ok in H].
  apply bind_Ok in H as (c & Hv%verify_matches & H).
  destruct (claims_agree _ _) eqn:Ha; cbn [negb] in H; [|by apply reject_never_Ok in H]. apply Ok_inj in H as <-.
  unfold identity_admits, claims_agree, lease_matches, dt_ltb in *.
  rewrite !andb_true_iff, !bool_decide_eq_true in *. rewrite negb_true_iff in Hv.
  destruct_and?. split; first [done|by split|lia].
Qed.

(** C18: A connector execution ends within its bounds, and accepts only what it leased.
    For any connector and any staging transaction, whatever they answer or raise: with
    fuel for one turn more than the page limit the loop has ended, and more fuel changes
    nothing.  At most [page_limit] pages were accepted, together at most
    [cumulative_byte_limit] bytes, and never more than [no_progress_page_limit] pages in
    a row without progress.  Every accepted page carries the binding of the execution,
    was staged in exactly its serialized bytes, and was asked for with the stored
    checkpoint or the one its predecessor proposed.  Pages are accepted only under a
    lease that names the execution's Organization, job and SourceVersion and the worker's
    principal, Policy Epoch and idempotency key, while lease and identity are in force.
    The result lists the accepted pages in order, the last of them terminal and no other;
    a run that raises has accepted no terminal page. *)
Theorem connector_execution_is_bounded keyring identity now redeem execution adapter sink :
  new_SupplyExecutionConfiguration config = Ok config →
  ∃ st r,
    (∀ fuel, xc_page_limit config < Z.of_nat fuel →
       execute float_repr config load_checkpoint load poll accept fuel keyring identity now redeem execution
         (mkBridgeState adapter sink []) = Some (st, r))
    ∧ (bs_log st = [] ∨ ∃ claims start,
         lease_admits identity execution now claims ∧ redeem (execution_binding execution) claims = Ok start
         ∧ run_ended (execution_binding execution) start (bs_log st) r)
    ∧ (is_ok r = true → bs_log st ≠ []).
Proof.
  intros Hcfg. unfold execute. set (b := execution_binding execution).
  destruct (claims ← _; _) as [[claims start]|e] eqn:Hpre.
  2:{ exists (mkBridgeState adapter sink []), (Err e). split_and!; [done|by left|done]. }
  apply bind_Ok in Hpre as (c & Hv%verify_execution_Ok & Hpre). apply bind_Ok in Hpre as (cp & Hcp & [= -> ->]).
  pose proof (start_ok b start Hcfg) as Hl. pose proof (lo_run _ _ _ _ Hl) as [_ _ Hlimit _ _]. unfold len in Hlimit.
  cbn [length Z.of_nat] in Hlimit.
  destruct (turns_end claims b start (S (Z.to_nat (xc_page_limit config))) _ (mkBridgeState adapter sink []) Hl)
    as (st & r & Hrun & Hend); [cbn [lp_page_count]; lia|].
  exists st, r. split_and!.
  - intros fuel Hfuel. eapply turns_more; [|exact Hrun]. lia.
  - right. by exists claims, start.
  - intros Hr. destruct r as [res|]; [|done]. destruct Hend as (_ & _ & before & t & -> & _). by destruct before.
Qed.
End BridgeFacts.
