(* ===== verification/SupplyRun.v ===== *)
(** * A concrete connector execution

    A lease issued from a database row, a connector that offers two pages, and the bytes
    of one of them; the instances of the theorems about staging are taken from it.
    [iso_reader] is a concrete [datetime.fromisoformat] on the texts [isoformat] prints
    in UTC. *)

From S2P Require Import Prelude Codec Datetime Json Trusted Signing FileFacts UuidText Leases SupplyPages SupplyFacts SupplyBridge BridgeFacts.

#[local] Existing Instance cpython_nesting.

(** ** Reading timestamps *)

Definition iso_reader (s : pystr) : result datetime :=
  base ← strptime (take 19 s ++ lit "Z");
  match drop 19 s with
  | 46 :: r =>
      require (bool_decide (drop 6 r = lit "+00:00") && forallb is_digit (take 6 r)) ValueError ;;
      Ok (mkDatetime (dt_us base + int_of_digits (take 6 r)) (dt_off base))
  | r => require (bool_decide (r = lit "+00:00")) ValueError ;; Ok base
  end.

Lemma padded6_value x : 0 ≤ x < 1000000 → int_of_digits (padded 6 x) = x ∧ forallb is_digit (padded 6 x) = true.
Proof.
  intros Hx. unfold padded, int_of_digits. cbn [digits app fmap list_fmap foldl forallb]. split; [zdiv|].
  unfold is_digit. rewrite !andb_true_iff, !Z.leb_le. zdiv.
Qed.

Lemma iso_head d :
  take 19 (isoformat d) = iso_date (dt_us d) ++ lit "T" ++ iso_time (dt_us d)
  ∧ drop 19 (isoformat d) = (if dt_us d mod us_per_second =? 0 then [] else iso_micros (dt_us d)) ++ iso_offset (dt_off d).
Proof.
  unfold isoformat. rewrite !(app_assoc _ _ (_ ++ iso_offset _)). rewrite !(app_assoc (iso_date _)).
  rewrite take_app_length', drop_app_length'; [by rewrite <- app_assoc|..];
    rewrite !length_app, iso_date_length, iso_time_length; done.
Qed.

Lemma whole_second_text d :
  iso_date (dt_us d - dt_us d mod us_per_second) = iso_date (dt_us d)
  ∧ iso_time (dt_us d - dt_us d mod us_per_second) = iso_time (dt_us d).
Proof.
  set (us := dt_us d). unfold iso_date, iso_time, us_per_day, us_per_second.
  assert (E1 : (us - us mod 1000000) / (86400 * 1000000) = us / (86400 * 1000000)) by zdiv.
  assert (E2 : (us - us mod 1000000) / 1000000 = us / 1000000) by zdiv. by rewrite E1, E2.
Qed.

Lemma strptime_errors s e : strptime s = Err e → e = ValueError.
Proof.
  unfold strptime. intros H. repeat (case_match; try congruence).
  apply bind_Err in H as [H|(? & _ & H)]; [|apply bind_Err in H as [H|(? & _ & [=])]];
    unfold require in H; case_match; congruence.
Qed.

#[export] Instance iso_reader_parser : IsoParser iso_reader.
Proof.
  split.
  - intros [us off] Hok Hu. pose proof Hu as Hoff. unfold is_utc in Hoff. apply bool_decide_eq_true in Hoff.
    cbn [dt_off] in Hoff. subst off. unfold iso_reader. destruct (iso_head (mkDatetime us (Some 0))) as [-> ->].
    destruct (whole_second_text (mkDatetime us (Some 0))) as [E1 E2]. cbn [dt_us] in *. rewrite <- E1, <- E2.
    pose proof (strptime_timestamp (mkDatetime (us - us mod us_per_second) (Some 0))) as Hs.
    unfold _timestamp in Hs. cbn [dt_us dt_off default] in Hs. rewrite Z.sub_0_r, !app_assoc in Hs.
    rewrite !app_assoc, Hs.
    2:{ unfold second_ok, datetime_ok, microsecond in *. cbn [dt_us] in *. change us_per_second with 1000000 in *.
        change us_per_day with 86400000000 in *. unfold max_ordinal in *. split_and!; [zdiv|zdiv|done|zdiv]. }
    cbn [mbind result_bind dt_us dt_off]. destruct (Z.eqb_spec (us mod us_per_second) 0) as [Ez|Ez].
    + rewrite Ez, Z.sub_0_r. cbn [app]. change (iso_offset (Some 0)) with (lit "+00:00"). done.
    + unfold iso_micros. change (lit ".") with [46]. cbn [app]. change (iso_offset (Some 0)) with (lit "+00:00").
      destruct (padded6_value (us mod us_per_second)) as [Hv Hd]; [unfold us_per_second; zdiv|].
      rewrite take_app_length', drop_app_length' by (symmetry; apply padded_length). rewrite bool_decide_eq_true_2, Hd by done.
      cbn [andb require mbind result_bind]. rewrite Hv. repeat f_equal. lia.
  - intros s e H. unfold iso_reader in H. apply bind_Err in H as [H|(b & _ & H)].
    + by apply strptime_errors in H as ->.
    + assert (e = ValueError) as ->; [|done].
      repeat case_match; apply bind_Err in H as [H|(? & _ & [=])]; unfold require in H; case_match; congruence.
Qed.

(** ** The job *)

Definition sup_time (s : Z) : datetime := mkDatetime (719162 * us_per_day + seconds s) (Some 0).
Definition sup_binding : ConnectorCheckpointBinding := mkCheckpointBinding (mkUUID 5) (mkUUID 6) (mkUUID 7).
Definition sup_acl : SourceAclObservation :=
  mkAclObservation (mkUUID 5) (sup_time 0) 4 WEAK None (Some (lit "source has no ACL")).
Definition sup_document : SupplyDocumentEnvelope :=
  mkEnvelope (mkUUID 5) (mkUUID 6) (mkUUID 7) (lit "note") (lit "first") (lit "text/markdown") sup_acl
    [(lit "title", lit "First note")].
Definition sup_deleted : SupplyDocumentDeleteObservation :=
  mkDeleteObservation (lit "old") (mkAclObservation (mkUUID 5) (sup_time 0) 4 LIVE (Some [250; 251; 252; 0]) None).
Definition sup_first : SupplyChangePage :=
  mkChangePage sup_binding (lit "page-1") [sup_document] [sup_deleted] (lit "cursor") false.
Definition sup_last : SupplyChangePage := mkChangePage sup_binding (lit "page-2") [] [] (lit "end") true.

(** ** The lease *)

Definition sup_float (_ : pystr) : result pystr := Err ValueError.
Definition sup_keyring : WorkerLeaseKeyring := mkWorkerLeaseKeyring 1 [(1, repeat 7 32)].
Definition sup_identity : SupplyBridgeExecutionIdentity :=
  mkBridgeIdentity (mkUUID 5) (mkUUID 8) [mkUUID 6] [SUPPLY_CONNECTOR_WORKER_LEASE_OPERATION] 4 (repeat 97 64)
    (sup_time 600).
Lemma sup_identity_accepted : new_SupplyBridgeExecutionIdentity sup_identity = Ok sup_identity.
Proof. vm_compute. reflexivity. Qed.
Definition sup_row : lease_row :=
  mkLeaseRow (sup_time 0) (sup_time 300) (OInt 1) (OInt 4) (OStr (repeat 97 64)) (sup_time 600).
Definition sup_token : WorkerLeaseToken :=
  match _issue sup_float sup_keyring (repeat 9 32)
          (mkBridgeLeaseRequest (mkUUID 5) (mkUUID 9) (mkUUID 6) (mkUUID 7) (mkUUID 8)) (Ok (Some sup_row)) with
  | Ok token => token
  | Err _ => mkWorkerLeaseToken []
  end.
Definition sup_execution : SupplyBridgeExecution := mkBridgeExecution (mkUUID 5) (mkUUID 6) (mkUUID 7) sup_token.

(** ** The connector: the first page, then the last *)

Definition sup_load_checkpoint (a : option pybytes) (checkpoint : option pybytes) : option pybytes * result unit :=
  (checkpoint, Ok tt).
Definition sup_load (a : option pybytes) (_ : ConnectorCheckpointBinding) :
    option pybytes * result (option SupplyChangePage) := (a, Ok (Some sup_first)).
Definition sup_poll (a : option pybytes) (_ : ConnectorCheckpointBinding) :
    option pybytes * result (option SupplyChangePage) := (a, Ok (Some sup_last)).
Definition sup_accept (n : Z) (_ : SupplyChangePage) (_ : pybytes) (_ : WorkerLeaseClaims) : Z * result unit :=
  (n + 1, accept_change_page (Ok (Some (OInt n)))).
Definition sup_config : SupplyExecutionConfiguration :=
  mkExecutionConfiguration 8 DEFAULT_SUPPLY_EXECUTION_CUMULATIVE_BYTE_LIMIT 3.
Definition sup_redeem (_ : ConnectorCheckpointBinding) (_ : WorkerLeaseClaims) : result (option pybytes) :=
  redeem_for_execution (Ok (Some (None, lit "running"))).
Definition sup_run (fuel : nat) : option (bridge_state (option pybytes) Z * result SupplyBridgeExecutionResult) :=
  execute sup_float sup_config sup_load_checkpoint sup_load sup_poll sup_accept fuel sup_keyring sup_identity
    (sup_time 10) sup_redeem sup_execution (mkBridgeState None 0 []).

Definition sup_summary (o : option (bridge_state (option pybytes) Z * result SupplyBridgeExecutionResult)) :
    option (list (list Z) * list (option (list Z))) :=
  match o with
  | Some (st, Ok r) => Some (accepted_page_refs r, ap_checkpoint <$> bs_log st)
  | _ => None
  end.
Lemma sup_run_result :
  sup_summary (sup_run 9) = Some ([lit "page-1"; lit "page-2"], [None; Some (lit "cursor")]).
Proof. vm_compute. reflexivity. Qed.

(** ** Instances *)

Lemma lit_bytes s : Forall byte_ok (lit s).
Proof.
  induction s as [|a s IH]; cbn [lit]; [by apply Forall_nil|]. apply Forall_cons. split; [|done].
  unfold byte_ok, ascii_code. destruct a as [[] [] [] [] [] [] [] []]; cbv; split; congruence.
Qed.
Lemma small_uuid n : 0 ≤ n < 100 → uuid_ok (mkUUID n).
Proof. unfold uuid_ok. cbn [uuid_int]. lia. Qed.
Lemma sup_time_ok : datetime_ok (sup_time 0).
Proof. split; vm_compute; congruence. Qed.

Lemma sup_acl_ok : observation_ok sup_acl.
Proof.
  split; [by apply small_uuid|]. split; [exact sup_time_ok|]. split; [done|].
  intros s Hs. cbn [sup_acl ao_source_lacks_stronger_acl] in Hs. injection Hs as <-. vm_compute. reflexivity.
Qed.
Lemma sup_deleted_ok : delete_ok sup_deleted.
Proof.
  split; [apply lit_str_ok|]. split; [by apply small_uuid|]. split; [exact sup_time_ok|]. split; [|done].
  intros b Hb. cbn [sup_deleted do_acl_observation ao_evidence_payload] in Hb. injection Hb as <-.
  repeat (apply Forall_cons; split; [unfold byte_ok; lia|]). by apply Forall_nil.
Qed.
Lemma sup_first_ok : page_ok sup_first.
Proof.
  split; [by apply small_uuid|]. split; [by apply small_uuid|]. split; [by apply small_uuid|].
  split; [apply lit_str_ok|]. split; [|split; [|apply lit_bytes]].
  - apply Forall_cons. split; [|by apply Forall_nil].
    split; [by apply small_uuid|]. split; [by apply small_uuid|]. split; [by apply small_uuid|].
    split; [apply lit_str_ok|]. split; [apply lit_bytes|]. split; [apply lit_str_ok|]. split; [exact sup_acl_ok|].
    apply Forall_cons. split; [|by apply Forall_nil]. split; apply lit_str_ok.
  - apply Forall_cons. split; [exact sup_deleted_ok|by apply Forall_nil].
Qed.

Lemma staged_page_is_read_back_witness :
  ∃ payload, serialize_supply_change_page sup_float sup_first = Ok payload
    ∧ deserialize_supply_change_page iso_reader payload = Ok sup_first.
Proof.
  destruct (serialize_supply_change_page sup_float sup_first) as [payload|e] eqn:H.
  - exists payload. split; [reflexivity|].
    exact (proj1 (staged_page_is_read_back sup_float iso_reader sup_first payload sup_first_ok H)).
  - exfalso. assert (Hs : is_ok (serialize_supply_change_page sup_float sup_first) = true) by (vm_compute; reflexivity).
    rewrite H in Hs. discriminate Hs.
Defined.

Lemma reader_lets_errors_through_witness :
  deserialize_supply_change_page iso_reader numbered_page = Err AttributeError
  ∧ deserialize_supply_change_page iso_reader (repeat 91 (Z.to_nat 10001)) = Err RecursionError.
Proof.
  destruct (reader_lets_errors_through iso_reader) as (_ & Hn & Hd). split; [exact Hn|].
  apply Hd. rewrite Z2Nat.id by lia. unfold _MAX_STAGED_PAGE_BYTES. cbn. lia.
Defined.

Lemma connector_execution_is_bounded_witness :
  ∃ st r, sup_run 9 = Some (st, Ok r) ∧ page_refs (bs_log st) = [lit "page-1"; lit "page-2"]
    ∧ total_bytes (bs_log st) ≤ xc_cumulative_byte_limit sup_config ∧ sup_run 100 = Some (st, Ok r)
    ∧ ∃ claims, lease_admits sup_identity sup_execution (sup_time 10) claims.
Proof.
  assert (Hc : new_SupplyExecutionConfiguration sup_config = Ok sup_config) by (vm_compute; reflexivity).
  destruct (connector_execution_is_bounded sup_float sup_config sup_load_checkpoint sup_load sup_poll sup_accept
              sup_keyring sup_identity (sup_time 10) sup_redeem sup_execution None 0 Hc) as (st & r & Hrun & Hlog & _).
  pose proof (Hrun 9%nat eq_refl) as H9. pose proof (Hrun 100%nat eq_refl) as H100.
  pose proof sup_run_result as Hs. unfold sup_run in Hs. rewrite H9 in Hs. destruct r as [r|e]; [|discriminate Hs].
  cbn [sup_summary] in Hs. apply (f_equal (option_map fst)) in Hs. cbn [option_map fst] in Hs.
  assert (Hrefs : accepted_page_refs r = [lit "page-1"; lit "page-2"]) by congruence.
  exists st, r. split; [exact H9|]. destruct Hlog as [Hnil|(claims & start & Hadm & _ & Hend)].
  - exfalso. assert (Hl : is_ok (Ok r) = true) by reflexivity.
    destruct (connector_execution_is_bounded sup_float sup_config sup_load_checkpoint sup_load sup_poll sup_accept
                sup_keyring sup_identity (sup_time 10) sup_redeem sup_execution None 0 Hc) as (st' & r' & Hrun' & _ & Hne).
    rewrite (Hrun' 9%nat eq_refl) in H9. assert (Hst : st' = st ∧ r' = Ok r) by (split; congruence).
    destruct Hst as [-> ->]. by apply (Hne Hl).
  - destruct Hend as (Hok & Hacc & _). split; [by rewrite <- Hacc|]. split; [exact (ro_bytes _ _ _ _ _ Hok)|].
    split; [exact H100|]. by exists claims.
Defined.
