(* ===== verification/Pyrepr.v ===== *)
(** * [repr] of the values that the kernel seals

    [repr] of tuples, strings, bytes, integers, [None], UUIDs, datetimes and
    dataclass instances.  A dataclass prints only its fields declared with
    [repr=True]; the caller lists those.  Which code points beyond ASCII are
    printable is Unicode data, an argument of the printer. *)

From S2P Require Import Prelude Codec Datetime Materialized Trusted.

Inductive pyval : Type :=
  | VNone
  | VInt (z : Z)
  | VStr (s : pystr)
  | VBytes (b : pybytes)
  | VUUID (u : UUID)
  | VDatetime (d : datetime)
  | VTuple (l : list pyval)
  | VData (name : pystr) (shown : list (pystr * pyval)).

Section Repr.
Context (isprintable : Z → bool).

Definition padded_hex (n : nat) (c : Z) : pystr := hex_digit <$> digits 16 n c.

(** The quote is the single one unless the text contains it and not the double quote. *)
Definition quote_of (s : pystr) : Z := if mem 39 s && negb (mem 34 s) then 34 else 39.

Definition escaped_common (quote c : Z) : option pystr :=
  if (c =? 92) || (c =? quote) then Some [92; c]
  else if c =? 9 then Some (lit "\t")
  else if c =? 10 then Some (lit "\n")
  else if c =? 13 then Some (lit "\r")
  else if (c <? 32) || (c =? 127) then Some (lit "\x" ++ padded_hex 2 c)
  else if c <? 127 then Some [c]
  else None.

Definition escaped_char (quote c : Z) : pystr :=
  match escaped_common quote c with
  | Some e => e
  | None =>
      if isprintable c then [c]
      else if c <=? 0xFF then lit "\x" ++ padded_hex 2 c
      else if c <=? 0xFFFF then lit "\u" ++ padded_hex 4 c
      else lit "\U" ++ padded_hex 8 c
  end.

Definition repr_str (s : pystr) : pystr :=
  let q := quote_of s in [q] ++ (s ≫= escaped_char q) ++ [q].

Definition escaped_byte (quote c : Z) : pystr :=
  default (lit "\x" ++ padded_hex 2 c) (escaped_common quote c).

Definition repr_bytes (b : pybytes) : pystr :=
  let q := quote_of b in lit "b" ++ [q] ++ (b ≫= escaped_byte q) ++ [q].

Definition comma : pystr := lit ", ".
Definition join_comma (l : list pystr) : pystr := join comma l.

(** [repr(timedelta)]: the nonzero parts of the normalised days, seconds and
    microseconds. *)
Definition repr_timedelta (us : Z) : pystr :=
  let part name v := if v =? 0 then [] else [lit name ++ lit "=" ++ str_of_int v] in
  let parts := part "days" (us / us_per_day)
               ++ part "seconds" (us mod us_per_day / us_per_second)
               ++ part "microseconds" (us mod us_per_second) in
  lit "datetime.timedelta("
  ++ (match parts with [] => lit "0" | _ => join_comma parts end) ++ lit ")".

Definition repr_tzinfo (off : Z) : pystr :=
  if off =? 0 then lit "datetime.timezone.utc"
  else lit "datetime.timezone(" ++ repr_timedelta off ++ lit ")".

(** Trailing zero microseconds, then zero seconds, are left out. *)
Definition repr_datetime (d : datetime) : pystr :=
  let us := dt_us d in
  let '(y, m, day) := ord2ymd (us / us_per_day + 1) in
  let t := us mod us_per_day / us_per_second in
  let micro := us mod us_per_second in
  let sec := t mod 60 in
  let tail := if micro =? 0 then (if sec =? 0 then [] else [sec]) else [sec; micro] in
  lit "datetime.datetime("
  ++ join_comma (str_of_int <$> ([y; m; day; t / 3600; t / 60 mod 60] ++ tail))
  ++ match dt_off d with None => [] | Some off => lit ", tzinfo=" ++ repr_tzinfo off end
  ++ lit ")".

Fixpoint py_repr (v : pyval) : pystr :=
  match v with
  | VNone => lit "None"
  | VInt z => str_of_int z
  | VStr s => repr_str s
  | VBytes b => repr_bytes b
  | VUUID u => lit "UUID('" ++ uuid_str u ++ lit "')"
  | VDatetime d => repr_datetime d
  | VTuple [x] => lit "(" ++ py_repr x ++ lit ",)"
  | VTuple l => lit "(" ++ join_comma ((fix go l := match l with
                   | [] => [] | x :: l' => py_repr x :: go l' end) l) ++ lit ")"
  | VData name shown =>
      name ++ lit "(" ++ join_comma ((fix go l := match l with
        | [] => [] | (k, x) :: l' => (k ++ lit "=" ++ py_repr x) :: go l' end) shown) ++ lit ")"
  end.
End Repr.

Example repr_text : py_repr (λ _, true) (VTuple [VStr (lit "a'b\c"); VInt (-3); VNone; VTuple [VBytes [0; 65]];
    VDatetime (mkDatetime (63870984000 * 1000000) (Some 0)); VData (lit "P") [(lit "x", VInt 1)]])
  = lit "(" ++ [34] ++ lit "a'b\\c" ++ [34] ++ lit ", -3, None, (b'\x00A',), datetime.datetime(2024, 12, 28, 12, 0, tzinfo=datetime.timezone.utc), P(x=1))".
Proof. vm_compute. reflexivity. Qed.
