(* ===== verification/Kernel.v ===== *)
(** * The authorization kernel and the sealed selector:
      [src/engine/runtime/construction.py]

    The gates, the kernel's operations from preparation to the final delivery
    veto, the selector between them, the issuer of opaque references and the
    one-hop expansion loop of [Runtime.resolve].

    Kernel operations mutate three objects: the store of kernel lifetimes, the
    reference issuer and the audit counter ([kernel_state]); an operation is a
    function from the state to the new state and a result, so a raised exception
    keeps the mutations made before it.  Request lifetimes and the answers of the
    durable epoch authority do not change inside one operation and are arguments.
    Decisions carry their object identity, which [id] puts under the seal. *)

From S2P Require Import Prelude Codec Sha256 Datetime Budget Scope Evidence Ranking AuthorizedRanking Materialized Trusted Pyrepr.

(** ** Requests: [contracts.py] *)

Record Acquire := mkAcquire {
  acq_query : pystr;
  acq_package_budget : option PackageBudgetRequest;
  acq_narrowing : option RequestNarrowing
}.

Inductive RuntimeRequest :=
  | RAcquire (r : Acquire)
  | RContinue (continuation_token : pystr) (package_budget : option PackageBudgetRequest)
  | ROpenCitation (citation_open_ref : CitationOpenRef).

(** ** Receipts and decisions *)

Record PolicyReceipt := mkPolicyReceipt {
  po_request_id : pystr;
  po_purpose : pystr;
  po_policy_epoch : Z;
  po_effective_scope : EffectiveScope
}.

Record DecisionProvenanceReceipt := mkProvenance {
  pr_decision_ref : pystr;
  pr_package_id : pystr;
  pr_organization_id : UUID;
  pr_user_id : UUID;
  pr_membership_id : UUID;
  pr_membership_version : Z;
  pr_principal_ref : pystr;
  pr_agent_version_ref : pystr;
  pr_authenticated_application_ref : pystr;
  pr_authentication_binding_ref : pystr;
  pr_effective_scope_digest : pystr;
  pr_request_id : pystr;
  pr_purpose : pystr;
  pr_as_of : datetime;
  pr_run_ref : pystr;
  pr_policy_snapshot_ref : pystr;
  pr_policy_epoch : Z;
  pr_source_acl_decision_ref : pystr
}.

Inductive CoverageReason := NO_AUTHORIZED_EVIDENCE.

Record DecisionAuditReceipt := mkAudit {
  au_decision_ref : pystr;
  au_reason : option CoverageReason;
  au_authorized_evidence_count : Z
}.

(** The four limits as a tuple, after the budget's own checks ran again. *)
Definition budget_limits (b : PackageBudget) : Z * Z * Z * Z :=
  (max_tokens b, max_provider_calls b, max_cost_microunits b, max_elapsed_ms b).
Definition _package_budget_limits (b : PackageBudget) : result (Z * Z * Z * Z) :=
  PackageBudget_post_init b ;; Ok (budget_limits b).

Record AuthorizationDecision := mkDecision {
  ad_id : Z;
  ad_effective_budget : PackageBudget;
  ad_policy_receipt : PolicyReceipt;
  ad_provenance_receipt : DecisionProvenanceReceipt;
  ad_projections : list AuthorizedProjection;
  ad_projection_scope : option nat;
  ad_expanded_candidate_refs : gset CandidateRef;
  ad_effective_budget_limits : Z * Z * Z * Z;
  ad_integrity_seal : pybytes
}.

(** [AuthorizationDecision(...)] with [__post_init__]: the limits are copied from
    the budget and the decision is not sealed yet. *)
Definition new_AuthorizationDecision (fresh : Z) (budget : PackageBudget) (policy : PolicyReceipt)
    (provenance : DecisionProvenanceReceipt) (projections : list AuthorizedProjection)
    (scope : option nat) (expanded : gset CandidateRef) : result AuthorizationDecision :=
  limits ← _package_budget_limits budget;
  Ok (mkDecision fresh budget policy provenance projections scope expanded limits []).

Record PreparedAcquireAuthorization := mkPrepared {
  pa_effective_budget : PackageBudget;
  pa_policy_receipt : PolicyReceipt;
  pa_provenance_receipt : DecisionProvenanceReceipt
}.

Record SealedPackageSelection := mkSelection {
  sel_decision : AuthorizationDecision;
  sel_content : PackageContent;
  sel_effective_budget_limits : Z * Z * Z * Z;
  sel_integrity_seal : pybytes
}.

Record FinalizedAuthorizationResult := mkFinalized {
  fin_policy_receipt : PolicyReceipt;
  fin_provenance_receipt : DecisionProvenanceReceipt;
  fin_content : PackageContent;
  fin_audit_receipt : DecisionAuditReceipt
}.

(** ** The state of kernel operations *)

Record OpaqueReferenceIssuer := mkIssuer { iss_secret : pybytes; iss_sequence : Z }.

Record kernel_state := mkKernelState {
  ks_scopes : kernel_scopes;
  ks_issuer : OpaqueReferenceIssuer;
  ks_unsupported : Z
}.

Definition kernel_op (A : Type) : Type := kernel_state → kernel_state * result A.
#[export] Instance kernel_ret : MRet kernel_op := λ A a s, (s, Ok a).
#[export] Instance kernel_bind : MBind kernel_op := λ A B f m s,
  match m s with
  | (s', Ok a) => f a s'
  | (s', Err e) => (s', Err e)
  end.

(** A computation that does not touch the state. *)
Definition pure {A} (m : result A) : kernel_op A := λ s, (s, m).
(** A computation that reads the kernel lifetimes. *)
Definition with_scopes {A} (f : kernel_scopes → result A) : kernel_op A := λ s, (s, f (ks_scopes s)).

(** ** Opaque references *)

Definition PACKAGE_REF_PREFIX : pystr := lit "pkg".
Definition DECISION_REF_PREFIX : pystr := lit "dec".

(** [contracts._require_closed_opaque_ref] *)
Definition _require_closed_opaque_ref (value prefix : pystr) : result pystr :=
  require ((len value =? len prefix + 1 + 32) && startswith (prefix ++ lit "_") value) ValueError ;;
  require (all_in hex_alphabet (drop (length prefix + 1) value)) ValueError ;;
  Ok value.

Record IssuedReferences := mkIssued {
  is_package_id : pystr;
  is_decision_ref : pystr;
  is_run_ref : pystr;
  is_policy_snapshot_ref : pystr;
  is_source_acl_decision_ref : pystr
}.

(** The message authenticated for a label and a sequence number. *)
Definition issue_material (label : pystr) (sequence : Z) : pybytes :=
  label ++ lit ":" ++ be_bytes 16 sequence.
Definition issue_entropy (secret : pybytes) (label : pystr) (sequence : Z) : pystr :=
  take 32 (hex (hmac_sha256 secret (issue_material label sequence))).

Definition issued_references (secret : pybytes) (sequence : Z) : IssuedReferences :=
  mkIssued (PACKAGE_REF_PREFIX ++ lit "_" ++ issue_entropy secret (lit "package") sequence)
    (DECISION_REF_PREFIX ++ lit "_" ++ issue_entropy secret (lit "decision") sequence)
    (lit "run_" ++ issue_entropy secret (lit "run") sequence)
    (lit "policy_" ++ issue_entropy secret (lit "policy") sequence)
    (lit "sourceacl_" ++ issue_entropy secret (lit "source-acl") sequence).

(** [_OpaqueReferenceIssuer.issue]: the counter advances before it is encoded. *)
Definition issue : kernel_op IssuedReferences := λ s,
  let sequence := iss_sequence (ks_issuer s) + 1 in
  let s' := mkKernelState (ks_scopes s) (mkIssuer (iss_secret (ks_issuer s)) sequence)
              (ks_unsupported s) in
  (s', if sequence <? 2 ^ 128
       then Ok (issued_references (iss_secret (ks_issuer s)) sequence) else Err OverflowError).

(** [needle in haystack] *)
Fixpoint contains (needle haystack : pystr) : bool :=
  startswith needle haystack
  || match haystack with [] => false | _ :: h => contains needle h end.

(** ** Gates *)

Definition no_scope : EffectiveScope := new_EffectiveScope ∅.

(** The scope both content gates compute: empty unless the snapshot was taken
    under the invocation's epoch. *)
Definition current_effective_scope (L : lifetimes) (inv : AuthenticatedInvocation)
    (narrowing : option RequestNarrowing) : result EffectiveScope :=
  let s := inv_trusted_scope_snapshot inv in
  if ts_policy_epoch s =? inv_policy_epoch inv then
    operands ← _trusted_operands_from_snapshot L s;
    Ok (compute_effective_scope operands narrowing)
  else Ok no_scope.

(** [PolicyGate.validate_acquire] *)
Definition validate_acquire (L : lifetimes) (inv : AuthenticatedInvocation) (dc : TrustedDeliveryContext)
    (request : Acquire) : result PolicyReceipt :=
  _validate_trusted_invocation_and_delivery L inv dc ;;
  scope ← current_effective_scope L inv (acq_narrowing request);
  Ok (mkPolicyReceipt (inv_request_id inv) (dc_purpose dc) (inv_policy_epoch inv) scope).

(** [PolicyGate.validate_unavailable] *)
Definition validate_unavailable (L : lifetimes) (inv : AuthenticatedInvocation)
    (dc : TrustedDeliveryContext) : result PolicyReceipt :=
  _validate_trusted_invocation_and_delivery L inv dc ;;
  Ok (mkPolicyReceipt (inv_request_id inv) (dc_purpose dc) (inv_policy_epoch inv) no_scope).

(** [PolicyGate.validate_open_citation] *)
Definition validate_open_citation (L : lifetimes) (inv : AuthenticatedInvocation)
    (dc : TrustedDeliveryContext) : result PolicyReceipt :=
  _validate_trusted_invocation_and_delivery L inv dc ;;
  scope ← current_effective_scope L inv None;
  Ok (mkPolicyReceipt (inv_request_id inv) (dc_purpose dc) (inv_policy_epoch inv) scope).

(** [PackageBudgetGate.preflight], and [intersect] on the same requests. *)
Definition budget_for_request (server_budget : PackageBudget) (request : RuntimeRequest) :
    result PackageBudget :=
  match request with
  | RAcquire r => effective_package_budget server_budget (acq_package_budget r)
  | RContinue _ b => effective_package_budget server_budget b
  | ROpenCitation _ => effective_package_budget server_budget None
  end.

(** [ProvenanceGate.issue] *)
Definition provenance_issue (inv : AuthenticatedInvocation) (policy : PolicyReceipt) (as_of : datetime) :
    kernel_op DecisionProvenanceReceipt :=
  pure (require_utc as_of) ;;
  references ← issue;
  package_id ← pure (_require_closed_opaque_ref (is_package_id references) PACKAGE_REF_PREFIX);
  decision_ref ← pure (_require_closed_opaque_ref (is_decision_ref references) DECISION_REF_PREFIX);
  let organization := eov_organization_id (inv_organization_verification inv) in
  let organization_hex := hex (uuid_bytes organization) in
  pure (require (negb (contains organization_hex package_id || contains organization_hex decision_ref))
          ValueError) ;;
  let f := ua_facts (inv_user_actor inv) in
  mret (mkProvenance decision_ref package_id organization (m_user_id f) (m_membership_id f)
          (m_membership_version f) (inv_principal_ref inv) (inv_agent_version_ref inv)
          (inv_authenticated_application_ref inv) (inv_authentication_binding_ref inv)
          (es_digest (po_effective_scope policy)) (po_request_id policy) (po_purpose policy) as_of
          (is_run_ref references) (is_policy_snapshot_ref references) (po_policy_epoch policy)
          (is_source_acl_decision_ref references)).

(** [DecisionAuditGate.record] *)
Definition audit_record (provenance : DecisionProvenanceReceipt) (authorized_evidence_count : Z) :
    result DecisionAuditReceipt :=
  require (0 <=? authorized_evidence_count) ValueError ;;
  Ok (mkAudit (pr_decision_ref provenance)
        (if authorized_evidence_count =? 0 then Some NO_AUTHORIZED_EVIDENCE else None)
        authorized_evidence_count).

Definition count_unsupported : kernel_op unit := λ s,
  (mkKernelState (ks_scopes s) (ks_issuer s) (ks_unsupported s + 1), Ok tt).

(** [DecisionAuditGate.record_unsupported] *)
Definition record_unsupported (provenance : DecisionProvenanceReceipt) : kernel_op unit :=
  pure (_require_closed_opaque_ref (pr_decision_ref provenance) DECISION_REF_PREFIX) ;;
  count_unsupported.

(** ** Integrity material *)

Section Seal.
(** [repr] needs to know the printable characters; [secret] is the key of the
    kernel and selector pair. *)
Context (isprintable : Z → bool) (secret : pybytes).

Definition limits_value (l : Z * Z * Z * Z) : pyval :=
  let '(a, b, c, d) := l in VTuple [VInt a; VInt b; VInt c; VInt d].

(** The values of [fields(lineage)], in order. *)
Definition lineage_values (l : EvidenceLineage) : list pyval :=
  [VStr (run_ref l); VStr (principal_ref l); VStr (purpose l); VDatetime (as_of l);
   VStr (decision_ref l); VStr (policy_snapshot_ref l); VInt (policy_epoch l);
   VStr (source_acl_decision_ref l); VStr (source_acl_projection_ref l);
   VDatetime (source_acl_as_of l); VStr (source_acl_freshness_profile_ref l)].

Definition provenance_values (p : DecisionProvenanceReceipt) : list pyval :=
  [VStr (pr_decision_ref p); VStr (pr_package_id p); VUUID (pr_organization_id p);
   VUUID (pr_user_id p); VUUID (pr_membership_id p); VInt (pr_membership_version p);
   VStr (pr_principal_ref p); VStr (pr_agent_version_ref p);
   VStr (pr_authenticated_application_ref p); VStr (pr_authentication_binding_ref p);
   VStr (pr_effective_scope_digest p); VStr (pr_request_id p); VStr (pr_purpose p);
   VDatetime (pr_as_of p); VStr (pr_run_ref p); VStr (pr_policy_snapshot_ref p);
   VInt (pr_policy_epoch p); VStr (pr_source_acl_decision_ref p)].

Definition projection_value (p : AuthorizedProjection) : pyval :=
  let c := candidate_ref p in
  VTuple [VUUID (cr_organization_id c); VStr (cr_source_ref c); VStr (cr_resource_ref c);
          VStr (cr_revision_ref c); VStr (cr_fragment_ref c); VStr (projected_body p);
          VTuple (VStr <$> projected_field_refs p); VTuple (lineage_values (lineage p))].

Definition target_key (t : ScopeTarget) : list Z * list Z * list Z :=
  (uuid_bytes (Scope.organization_id t), source_ref t, default [] (resource_ref t)).
Definition target_value (k : list Z * list Z * list Z) : pyval :=
  VTuple [VBytes k.1.1; VStr k.1.2; VStr k.2].

Definition expanded_value (k : list Z * list Z * list Z * list Z * list Z) : pyval :=
  let '(a, b, c, d, e) := k in VTuple [VBytes a; VStr b; VStr c; VStr d; VStr e].

Definition _decision_integrity_snapshot (d : AuthorizationDecision) : result pyval :=
  let policy := ad_policy_receipt d in
  limits ← _package_budget_limits (ad_effective_budget d);
  Ok (VTuple
    [VInt (ad_id d);
     limits_value limits;
     limits_value (ad_effective_budget_limits d);
     VStr (po_request_id policy); VStr (po_purpose policy); VInt (po_policy_epoch policy);
     VTuple (target_value <$> sorted (target_key <$> elements (es_targets (po_effective_scope policy))));
     VStr (es_digest (po_effective_scope policy));
     VTuple (provenance_values (ad_provenance_receipt d));
     VTuple (projection_value <$> ad_projections d);
     VTuple (expanded_value <$> sorted (_candidate_sort_key <$> elements (ad_expanded_candidate_refs d)))]).

Definition _decision_integrity_material (d : AuthorizationDecision) : result pybytes :=
  snapshot ← _decision_integrity_snapshot d;
  Ok (utf8 (py_repr isprintable
        (VTuple [VStr (lit "context-engine:authorization-decision:v1"); snapshot]))).

(** The fields of [Evidence] in order; [EvidenceLineage] and [CitationOpenRef]
    declare every field with [repr=False] and print without fields. *)
Definition evidence_value (e : Evidence) : pyval :=
  VTuple [VStr (ev_evidence_ref e); VStr (ev_source_ref e); VStr (ev_resource_ref e);
          VStr (ev_revision_ref e); VStr (ev_fragment_ref e);
          VTuple (VStr <$> ev_projected_field_refs e); VData (lit "EvidenceLineage") [];
          match ev_citation_open_ref e with
          | None => VNone | Some _ => VData (lit "CitationOpenRef") []
          end;
          VStr (ev_integrity_digest e)].

Definition _selection_integrity_material (d : AuthorizationDecision) (content : PackageContent)
    (limits : Z * Z * Z * Z) : result pybytes :=
  snapshot ← _decision_integrity_snapshot d;
  Ok (utf8 (py_repr isprintable
    (VTuple [VStr (lit "context-engine:sealed-package-selection:v1"); snapshot;
             VBytes (ad_integrity_seal d); limits_value limits;
             VTuple [VTuple ((λ b, VTuple [VStr (bl_evidence_ref b); VStr (bl_body b)]) <$> blocks content);
                     VTuple (evidence_value <$> evidence content)]]))).

Definition _issue_selection_authority_seal (material : pybytes) : pybytes :=
  hmac_sha256 secret material.
Definition _verify_selection_authority_seal (seal material : pybytes) : bool :=
  bool_decide (seal = _issue_selection_authority_seal material).

(** [object.__setattr__(decision, "_integrity_seal", ...)] *)
Definition seal_decision (d : AuthorizationDecision) : result AuthorizationDecision :=
  material ← _decision_integrity_material d;
  Ok (mkDecision (ad_id d) (ad_effective_budget d) (ad_policy_receipt d) (ad_provenance_receipt d)
    (ad_projections d) (ad_projection_scope d) (ad_expanded_candidate_refs d)
    (ad_effective_budget_limits d)
    (_issue_selection_authority_seal material)).

(** ** The sealed selector *)

(** [SealedRuntimeSelector.select_for_delivery] *)
Definition select_for_delivery (K : kernel_scopes) (decision : AuthorizationDecision)
    (rank_evidence : list CandidateRankEvidence) (ranker_weights : option weight_map) :
    result SealedPackageSelection :=
  decision_material ← _decision_integrity_material decision;
  require (_verify_selection_authority_seal (ad_integrity_seal decision) decision_material)
    ValueError ;;
  let ranked_refs := rk_candidate_ref <$> rank_evidence in
  let eligible := filter (λ p, candidate_ref p ∉ ad_expanded_candidate_refs decision
                               ∨ candidate_ref p ∈ ranked_refs) (ad_projections decision) in
  joined ← join_authorized_ranking K eligible rank_evidence ranker_weights;
  selected ← select_authorized_ranking joined (ad_effective_budget decision);
  content ← construct_package_content K (it_projection <$> selected);
  let limits := ad_effective_budget_limits decision in
  material ← _selection_integrity_material decision content limits;
  Ok (mkSelection decision content limits (_issue_selection_authority_seal material)).

(** ** The final veto *)

Definition content_bound (provenance : DecisionProvenanceReceipt) (content : PackageContent) : bool :=
  forallb (λ e,
    let l := ev_lineage e in
    bool_decide (run_ref l = pr_run_ref provenance)
    && bool_decide (decision_ref l = pr_decision_ref provenance)
    && bool_decide (principal_ref l = pr_principal_ref provenance)
    && bool_decide (purpose l = pr_purpose provenance)
    && dt_eqb (as_of l) (pr_as_of provenance)
    && bool_decide (policy_snapshot_ref l = pr_policy_snapshot_ref provenance)
    && (policy_epoch l =? pr_policy_epoch provenance)
    && bool_decide (source_acl_decision_ref l = pr_source_acl_decision_ref provenance))
    (evidence content).

Definition decision_bound (inv : AuthenticatedInvocation) (policy : PolicyReceipt)
    (provenance : DecisionProvenanceReceipt) : bool :=
  let f := ua_facts (inv_user_actor inv) in
  bool_decide (pr_organization_id provenance = m_organization_id f)
  && bool_decide (pr_user_id provenance = m_user_id f)
  && bool_decide (pr_membership_id provenance = m_membership_id f)
  && (pr_membership_version provenance =? m_membership_version f)
  && bool_decide (pr_principal_ref provenance = inv_principal_ref inv)
  && bool_decide (pr_agent_version_ref provenance = inv_agent_version_ref inv)
  && bool_decide (pr_authenticated_application_ref provenance = inv_authenticated_application_ref inv)
  && bool_decide (pr_authentication_binding_ref provenance = inv_authentication_binding_ref inv)
  && ((po_policy_epoch policy =? pr_policy_epoch provenance)
      && (pr_policy_epoch provenance =? inv_policy_epoch inv)
      && (inv_policy_epoch inv =? m_policy_epoch f))
  && (bool_decide (po_request_id policy = pr_request_id provenance)
      && bool_decide (pr_request_id provenance = inv_request_id inv))
  && bool_decide (po_purpose policy = pr_purpose provenance)
  && bool_decide (pr_effective_scope_digest provenance = es_digest (po_effective_scope policy)).

(** [sum(len(block.body.encode("utf-8")) for block in content.blocks)] *)
Definition delivered_bytes (content : PackageContent) : result Z :=
  sizes ← map_result (λ b, encoded ← encode_utf8 (bl_body b); Ok (len encoded)) (blocks content);
  Ok (sum_Z sizes).

Definition with_scope (policy : PolicyReceipt) (scope : EffectiveScope) : PolicyReceipt :=
  mkPolicyReceipt (po_request_id policy) (po_purpose policy) (po_policy_epoch policy) scope.
Definition with_scope_digest (p : DecisionProvenanceReceipt) (digest : pystr) : DecisionProvenanceReceipt :=
  mkProvenance (pr_decision_ref p) (pr_package_id p) (pr_organization_id p) (pr_user_id p)
    (pr_membership_id p) (pr_membership_version p) (pr_principal_ref p) (pr_agent_version_ref p)
    (pr_authenticated_application_ref p) (pr_authentication_binding_ref p) digest (pr_request_id p)
    (pr_purpose p) (pr_as_of p) (pr_run_ref p) (pr_policy_snapshot_ref p) (pr_policy_epoch p)
    (pr_source_acl_decision_ref p).

(** [AuthorizationKernel.finalize_for_delivery]; [port] is the epoch authority at
    that moment. *)
Definition finalize_for_delivery (L : lifetimes) (K : kernel_scopes) (port : epoch_port)
    (inv : AuthenticatedInvocation) (selection : SealedPackageSelection) :
    result FinalizedAuthorizationResult :=
  let decision := sel_decision selection in
  limits ← _package_budget_limits (ad_effective_budget decision);
  material ← _selection_integrity_material decision (sel_content selection)
               (sel_effective_budget_limits selection);
  require (bool_decide (limits = ad_effective_budget_limits decision)
           && bool_decide (limits = sel_effective_budget_limits selection)
           && _verify_selection_authority_seal (sel_integrity_seal selection) material) ValueError ;;
  let content := sel_content selection in
  size ← delivered_bytes content;
  require (size <=? limits.1.1.1) ValueError ;;
  _require_active_user_actor L (inv_user_actor inv) ;;
  let policy := ad_policy_receipt decision in
  _require_effective_scope_integrity (po_effective_scope policy) ;;
  let provenance := ad_provenance_receipt decision in
  let bound := content_bound provenance content && decision_bound inv policy provenance in
  current ← (if bound
             then policy_epoch_gate_is_current L port
                    (m_policy_epoch_verification (ua_facts (inv_user_actor inv)))
             else Ok false);
  r ← (if bound && (current : bool) then Ok (policy, provenance, content)
       else
         let policy := with_scope policy no_scope in
         empty ← construct_package_content K [];
         Ok (policy,
             if bound && negb current
             then with_scope_digest provenance (es_digest (po_effective_scope policy)) else provenance,
             empty));
  let '(policy, provenance, content) := r in
  audit ← audit_record provenance (len (evidence content));
  require (bool_decide (au_decision_ref audit = pr_decision_ref provenance)) RuntimeConfigurationError ;;
  Ok (mkFinalized policy provenance content audit).
End Seal.

(** ** Authorization and projection *)

(** A loop that appends the results of the turns that do not [continue]. *)
Fixpoint collect {A B} (f : A → result (option B)) (l : list A) : result (list B) :=
  match l with
  | [] => Ok []
  | x :: l' =>
      o ← f x;
      ys ← collect f l';
      Ok (match o with Some y => y :: ys | None => ys end)
  end.

Definition _locator_matches_candidate (l : MaterializedFragmentLocator) (c : CandidateRef) : bool :=
  bool_decide (loc_organization_id l = cr_organization_id c)
  && bool_decide (loc_source_ref l = cr_source_ref c)
  && bool_decide (loc_resource_ref l = cr_resource_ref c)
  && bool_decide (loc_revision_ref l = cr_revision_ref c)
  && bool_decide (loc_fragment_ref l = cr_fragment_ref c).


Definition decision_lineage (inv : AuthenticatedInvocation) (provenance : DecisionProvenanceReceipt)
    (l : MaterializedFragmentLocator) : EvidenceLineage :=
  mkEvidenceLineage (pr_run_ref provenance) (inv_principal_ref inv) (pr_purpose provenance)
    (pr_as_of provenance) (pr_decision_ref provenance) (pr_policy_snapshot_ref provenance)
    (pr_policy_epoch provenance) (pr_source_acl_decision_ref provenance)
    (loc_source_acl_projection_ref l) (loc_source_acl_as_of l)
    (loc_source_acl_freshness_profile_ref l).

Section Kernel.
Context {Port : MaterializedProjectionPort}.
(** [L]: every request lifetime, the projection session's among them. *)
Context (isprintable : Z → bool) (secret : pybytes) (L : lifetimes).

(** One turn of the loop over the ordered candidates. *)
Definition authorize_candidate (K : kernel_scopes) (kernel_scope : nat) (inv : AuthenticatedInvocation)
    (policy : PolicyReceipt) (provenance : DecisionProvenanceReceipt)
    (session : MaterializedProjectionSession) (c : CandidateRef) :
    result (option AuthorizedProjection) :=
  locator ← _locate_materialized_fragment L session c;
  match locator with
  | None => Ok None
  | Some l =>
      if negb (_locator_matches_candidate l c) then Ok None
      else
        exact_target ← ScopeTarget_post_init
          (mkScopeTarget (loc_organization_id l) (loc_source_ref l) (Some (loc_resource_ref l)));
        if negb (bool_decide (exact_target ∈ es_targets (po_effective_scope policy))) then Ok None
        else
          field_projection ← _project_materialized_fragment L session l;
          match field_projection with
          | None => Ok None
          | Some fp =>
              lineage ← EvidenceLineage_post_init (decision_lineage inv provenance l);
              p ← _construct_authorized_projection K kernel_scope c (rendered_body fp)
                    (materialized_field_refs fp) lineage;
              Ok (Some p)
          end
  end.

(** [AuthorizationKernel._authorize_and_project] *)
Definition _authorize_and_project (inv : AuthenticatedInvocation) (policy : PolicyReceipt)
    (provenance : DecisionProvenanceReceipt) (candidates : list CandidateRef)
    (session : option MaterializedProjectionSession) (kernel_scope : option nat) :
    kernel_op (list AuthorizedProjection * option nat) := λ s,
  if bool_decide (candidates = []) || bool_decide (es_targets (po_effective_scope policy) = ∅)
  then (s, Ok ([], None))
  else
    match session with
    | None => (s, Err RuntimeConfigurationError)
    | Some session =>
        let '(K, scope) :=
          match kernel_scope with
          | Some k => (ks_scopes s, k)
          | None => _open_authorization_kernel_scope (ks_scopes s)
          end in
        let with_K K' := mkKernelState K' (ks_issuer s) (ks_unsupported s) in
        match collect (authorize_candidate K scope inv policy provenance session)
                (sorted_by _candidate_sort_key (remove_dups candidates)) with
        | Ok projections => (with_K K, Ok (projections, Some scope))
        | Err e =>
            (with_K match kernel_scope with
                    | None => _close_authorization_kernel_scope K scope
                    | Some _ => K
                    end, Err e)
        end
    end.

(** [AuthorizationKernel.prepare_acquire] *)
Definition prepare_acquire (port : epoch_port) (inv : AuthenticatedInvocation)
    (dc : TrustedDeliveryContext) (request : Acquire) (server_budget : PackageBudget)
    (as_of : datetime) : kernel_op PreparedAcquireAuthorization :=
  policy ← pure (validate_acquire L inv dc request);
  current ← pure (policy_epoch_gate_is_current L port
                    (m_policy_epoch_verification (ua_facts (inv_user_actor inv))));
  let policy := if current : bool then policy else with_scope policy no_scope in
  budget ← pure (budget_for_request server_budget (RAcquire request));
  provenance ← provenance_issue inv policy as_of;
  mret (mkPrepared budget policy provenance).

(** [AuthorizationKernel.authorize_acquire] *)
Definition authorize_acquire (fresh : Z) (inv : AuthenticatedInvocation)
    (preparation : PreparedAcquireAuthorization) (candidate_refs : list CandidateRef)
    (session : option MaterializedProjectionSession) : kernel_op AuthorizationDecision :=
  pure (_require_effective_scope_integrity (po_effective_scope (pa_policy_receipt preparation))) ;;
  r ← _authorize_and_project inv (pa_policy_receipt preparation) (pa_provenance_receipt preparation)
        candidate_refs session None;
  pure (d ← new_AuthorizationDecision fresh (pa_effective_budget preparation)
              (pa_policy_receipt preparation) (pa_provenance_receipt preparation) r.1 r.2 ∅;
        seal_decision isprintable secret d).

(** One turn of the one-hop loop: an inherited projection, a candidate to
    reauthorize, or nothing. *)
Inductive hop := Inherited (p : AuthorizedProjection) | Reauthorize (c : CandidateRef) | Dropped.

Definition one_hop_candidate (K : kernel_scopes) (decision : AuthorizationDecision)
    (session : MaterializedProjectionSession) (candidate : MaterializedOneHopCandidate) : result hop :=
  require (bool_decide (oh_anchor_ref candidate ∉ ad_expanded_candidate_refs decision)) ValueError ;;
  let anchors := foldl (λ d p, dict_set d (candidate_ref p) p) [] (ad_projections decision) in
  match dict_get anchors (oh_anchor_ref candidate) with
  | None => Err ValueError
  | Some anchor =>
      let c := oh_candidate_ref candidate in
      let a := oh_anchor_ref candidate in
      if negb (same_article c a) then Ok (Reauthorize c)
      else if negb (bool_decide (cr_revision_ref c = cr_revision_ref a)) then Ok Dropped
      else
        locator ← _locate_materialized_fragment L session c;
        match locator with
        | None => Ok Dropped
        | Some l =>
            if negb (_locator_matches_candidate l c) then Ok Dropped
            else
              projection ← _project_materialized_fragment L session l;
              match projection with
              | None => Ok Dropped
              | Some fp =>
                  p ← _construct_inherited_authorized_projection K anchor c (rendered_body fp)
                        (materialized_field_refs fp);
                  Ok (Inherited p)
              end
        end
  end.

Definition inherited_of (hs : list hop) : list AuthorizedProjection :=
  h ← hs; match h with Inherited p => [p] | _ => [] end.
Definition reauthorized_of (hs : list hop) : list CandidateRef :=
  h ← hs; match h with Reauthorize c => [c] | _ => [] end.

(** [AuthorizationKernel.authorize_one_hop] *)
Definition authorize_one_hop (fresh : Z) (inv : AuthenticatedInvocation)
    (preparation : PreparedAcquireAuthorization) (decision : AuthorizationDecision)
    (candidates : list MaterializedOneHopCandidate) (session : MaterializedProjectionSession) :
    kernel_op AuthorizationDecision :=
  hops ← with_scopes (λ K, map_result (one_hop_candidate K decision session) candidates);
  r ← _authorize_and_project inv (pa_policy_receipt preparation) (pa_provenance_receipt preparation)
        (reauthorized_of hops) (Some session) (ad_projection_scope decision);
  let added := inherited_of hops ++ r.1 in
  pure (d ← new_AuthorizationDecision fresh (ad_effective_budget decision) (ad_policy_receipt decision)
              (ad_provenance_receipt decision) (ad_projections decision ++ added)
              (ad_projection_scope decision)
              (ad_expanded_candidate_refs decision ∪ list_to_set (candidate_ref <$> added));
        seal_decision isprintable secret d).

(** [AuthorizationKernel.authorize_open_citation] *)
Definition authorize_open_citation (port : epoch_port) (fresh : Z) (inv : AuthenticatedInvocation)
    (dc : TrustedDeliveryContext) (citation_open_ref : CitationOpenRef)
    (candidate : option CandidateRef) (server_budget : PackageBudget) (as_of : datetime)
    (session : option MaterializedProjectionSession) : kernel_op AuthorizationDecision :=
  policy ← pure (validate_open_citation L inv dc);
  current ← pure (policy_epoch_gate_is_current L port
                    (m_policy_epoch_verification (ua_facts (inv_user_actor inv))));
  let policy := if current : bool then policy else with_scope policy no_scope in
  budget ← pure (budget_for_request server_budget (ROpenCitation citation_open_ref));
  provenance ← provenance_issue inv policy as_of;
  r ← _authorize_and_project inv policy provenance (option_list candidate) session None;
  pure (d ← new_AuthorizationDecision fresh budget policy provenance r.1 r.2 ∅;
        seal_decision isprintable secret d).

(** [AuthorizationKernel.preflight_unavailable_request] *)
Definition preflight_unavailable_request (port : epoch_port) (inv : AuthenticatedInvocation)
    (dc : TrustedDeliveryContext) (request : RuntimeRequest) (server_budget : PackageBudget)
    (as_of : datetime) : kernel_op unit :=
  policy ← pure (validate_unavailable L inv dc);
  pure (budget_for_request server_budget request) ;;
  provenance ← provenance_issue inv policy as_of;
  let s := inv_trusted_scope_snapshot inv in
  current ← pure (if negb (ts_policy_epoch s =? inv_policy_epoch inv) then Ok false
                  else policy_epoch_gate_is_current L port
                         (m_policy_epoch_verification (ua_facts (inv_user_actor inv))));
  pure (require (current : bool) PolicyEpochAuthorityUnavailable) ;;
  record_unsupported provenance.

(** ** The one-hop expansion loop of [Runtime.resolve]

    [pages] counts down the server-owned limit of scanned pages, so the loop is a
    structural recursion; [fresh] numbers the decisions it creates. *)
Fixpoint one_hop_loop (pages : nat) (fresh : Z) (inv : AuthenticatedInvocation)
    (preparation : PreparedAcquireAuthorization) (session : MaterializedProjectionSession)
    (main_projections : list AuthorizedProjection) (main_candidate_refs : list CandidateRef)
    (graph_limit graph_offset : Z) (decision : AuthorizationDecision) :
    kernel_op AuthorizationDecision :=
  match pages with
  | O => mret decision
  | S pages =>
      let expanded := Z.of_nat (size (ad_expanded_candidate_refs decision)) in
      if negb (expanded <? graph_limit) then mret decision
      else
        let page_limit := graph_limit - expanded in
        one_hop_page ← with_scopes (λ K,
          _discover_materialized_one_hop L K session main_projections page_limit graph_offset);
        if bool_decide (length one_hop_page = O) then mret decision
        else
          let one_hop := filter (λ i, oh_candidate_ref i ∉ main_candidate_refs) one_hop_page in
          decision ← (if bool_decide (length one_hop = O) then mret decision
                      else authorize_one_hop fresh inv preparation decision one_hop session);
          if len one_hop_page <? page_limit then mret decision
          else one_hop_loop pages (fresh + 1) inv preparation session main_projections
                 main_candidate_refs graph_limit (graph_offset + len one_hop_page) decision
  end.

(** Lines of [Runtime.resolve] between authorization and graph ranking. *)
Definition expand_one_hop (fresh : Z) (inv : AuthenticatedInvocation)
    (preparation : PreparedAcquireAuthorization) (candidate_refs : list CandidateRef)
    (candidate_submission_limit one_hop_scanned_page_limit : Z) (decision : AuthorizationDecision) :
    kernel_op AuthorizationDecision :=
  match m_materialized_projection_session (ua_facts (inv_user_actor inv)) with
  | Some session =>
      if bool_decide (length (ad_projections decision) = O) then mret decision
      else one_hop_loop (Z.to_nat one_hop_scanned_page_limit) fresh inv preparation session
             (ad_projections decision) candidate_refs (Z.min 64 candidate_submission_limit) 0 decision
  | None => mret decision
  end.

(** [_close_authorization_decision] *)
Definition _close_authorization_decision (K : kernel_scopes) (decision : AuthorizationDecision) :
    kernel_scopes :=
  match ad_projection_scope decision with
  | Some k => _close_authorization_kernel_scope K k
  | None => K
  end.
End Kernel.

(** ** [Runtime.resolve] of an Acquire request

    From preparation to the finalized content; assembling, metering and persisting
    the package come after it.  The candidate index is an interface. *)

Class CandidateIndex := {
  index_prepare : Acquire → pystr → result CandidateDiscoveryRequest;
  index_discover : Acquire → CandidateDiscoverySession → pystr → result CandidateQuery
}.

Definition is_discovery_unavailable (e : exn) : bool :=
  match e with MaterializedCandidateDiscoveryUnavailable => true | _ => false end.

Section Resolve.
Context {Port : MaterializedProjectionPort}.
Context (isprintable : Z → bool) (secret : pybytes) (relevance_tokens : pystr → gset pystr).

(** The candidates and rank evidence of the discovery branch; [None] is a runtime
    composed without an index. *)
Definition discover_candidates (L : lifetimes) (index : option CandidateIndex)
    (inv : AuthenticatedInvocation) (preparation : PreparedAcquireAuthorization) (request : Acquire)
    (candidate_submission_limit : Z) : result (list CandidateRef * list CandidateRankEvidence) :=
  let scope := po_effective_scope (pa_policy_receipt preparation) in
  match index with
  | None => Ok ([], [])
  | Some index =>
      if bool_decide (es_targets scope = ∅) then Ok ([], [])
      else
        match m_materialized_projection_session (ua_facts (inv_user_actor inv)) with
        | None => Err RuntimeConfigurationError
        | Some session =>
            discovery_scope ← candidate_discovery_scope scope;
            discovery_request ← index_prepare request discovery_scope;
            _require_candidate_discovery_scope_integrity discovery_scope ;;
            require_bounded_discovery_request discovery_request candidate_submission_limit ;;
            discovery_session ← try_except
              (_construct_candidate_discovery_session L session discovery_request scope)
              is_discovery_unavailable (Err CandidateIndexUnavailable);
            discovered ← index_discover request discovery_session discovery_scope;
            _require_candidate_discovery_scope_integrity discovery_scope ;;
            require_bounded_candidate_submission discovered (OInt candidate_submission_limit) ;;
            fused ← fuse_candidate_evidence discovered;
            Ok (sorted_by _candidate_sort_key (candidate_refs fused), rank_evidence fused)
        end
  end.

(** Rank evidence for the expanded projections. *)
Definition graph_evidence (K : kernel_scopes) (request : Acquire) (decision : AuthorizationDecision) :
    result (list CandidateRankEvidence) :=
  if bool_decide (ad_expanded_candidate_refs decision = ∅) then Ok []
  else rank_authorized_one_hop relevance_tokens K (acq_query request)
         (filter (λ p, candidate_ref p ∈ ad_expanded_candidate_refs decision) (ad_projections decision)).

(** [try: select and finalize; finally: close the decision]. *)
Definition deliver_decision (L : lifetimes) (port : epoch_port) (inv : AuthenticatedInvocation)
    (decision : AuthorizationDecision) (evidence : list CandidateRankEvidence)
    (ranker_weights : option weight_map) : kernel_op FinalizedAuthorizationResult := λ s,
  let K := ks_scopes s in
  let r := selection ← select_for_delivery isprintable secret K decision evidence ranker_weights;
           finalize_for_delivery isprintable secret L K port inv selection in
  (mkKernelState (_close_authorization_decision K decision) (ks_issuer s) (ks_unsupported s), r).

(** [L], [port] and [L'], [port'] are the request lifetimes and the epoch authority
    at preparation and at finalization. *)
Definition resolve_acquire (L L' : lifetimes) (port port' : epoch_port) (index : option CandidateIndex)
    (fresh : Z) (inv : AuthenticatedInvocation) (dc : TrustedDeliveryContext) (request : Acquire)
    (server_budget : PackageBudget) (as_of : datetime)
    (candidate_submission_limit one_hop_scanned_page_limit : Z) (ranker_weights : option weight_map) :
    kernel_op FinalizedAuthorizationResult :=
  preparation ← prepare_acquire L port inv dc request server_budget as_of;
  discovered ← pure (discover_candidates L index inv preparation request candidate_submission_limit);
  decision ← authorize_acquire isprintable secret L fresh inv preparation discovered.1
               (m_materialized_projection_session (ua_facts (inv_user_actor inv)));
  expanded ← expand_one_hop isprintable secret L (fresh + 1) inv preparation discovered.1
               candidate_submission_limit one_hop_scanned_page_limit decision;
  graph ← with_scopes (λ K, graph_evidence K request expanded);
  deliver_decision L' port' inv expanded (discovered.2 ++ graph) ranker_weights.
End Resolve.
