(* ===== verification/KernelFacts.v ===== *)
(** * What the authorization kernel guarantees

    Theorems on [Kernel]: exact projection of authorized candidates, the final
    veto, the one-hop expansion, and the delivery of one request from preparation
    to finalization. *)

From S2P Require Import Prelude Codec Sha256 Datetime Budget Scope Evidence Ranking AuthorizedRanking Materialized Trusted Pyrepr Kernel.

(** ** The projection loop *)

Lemma collect_Ok {A B} (f : A → result (option B)) l ys :
  collect f l = Ok ys → ∃ os, Forall2 (λ x o, f x = Ok o) l os ∧ ys = omap id os.
Proof.
  revert ys. induction l as [|x l IH]; intros ys H; simpl in H.
  - injection H as <-. by exists [].
  - apply bind_Ok in H as (o & Ho & H). apply bind_Ok in H as (ys' & Hys & [= <-]).
    destruct (IH _ Hys) as (os & Hos & ->). exists (o :: os). split; [by constructor|].
    by destruct o.
Qed.

Lemma elem_of_collect {A B} (f : A → result (option B)) l ys y :
  collect f l = Ok ys → y ∈ ys ↔ ∃ x, x ∈ l ∧ f x = Ok (Some y).
Proof.
  intros (os & Hos & ->)%collect_Ok. rewrite list_elem_of_omap. split.
  - intros (o & Ho & <-). apply list_elem_of_lookup in Ho as (i & Hi).
    destruct (Forall2_lookup_r _ _ _ _ _ Hos Hi) as (x & Hx & Hf). exists x.
    split; [by eapply list_elem_of_lookup_2|]. done.
  - intros (x & (i & Hi)%list_elem_of_lookup & Hf).
    destruct (Forall2_lookup_l _ _ _ _ _ Hos Hi) as (o & Ho & Hf'). exists o.
    split; [by eapply list_elem_of_lookup_2|]. rewrite Hf in Hf'. by injection Hf' as <-.
Qed.

(** The inputs of the turns that produced something, in order. *)
Lemma collect_keys {A B} (f : A → result (option B)) (g : B → A) l ys :
  (∀ x y, f x = Ok (Some y) → g y = x) → collect f l = Ok ys → g <$> ys `sublist_of` l.
Proof.
  intros Hg (os & Hos & ->)%collect_Ok. clear -Hg Hos.
  induction Hos as [|x o l os Hx Hos IH]; [done|]. destruct o as [y|]; simpl.
  - rewrite (Hg x y Hx). by apply sublist_skip.
  - by apply sublist_cons.
Qed.

Lemma StronglySorted_sublist {A} (R : A → A → Prop) l k :
  l `sublist_of` k → StronglySorted R k → StronglySorted R l.
Proof.
  induction 1 as [|x l k Hs IH|x l k Hs IH]; intros Hk; [done|..];
    apply StronglySorted_inv in Hk as [Hk Hx].
  - constructor; [by apply IH|]. rewrite Forall_forall in *. intros y Hy. apply Hx.
    by eapply elem_of_submseteq, sublist_submseteq.
  - by apply IH.
Qed.

(** The Article a candidate names, as a scope target. *)
Definition candidate_target (c : CandidateRef) : ScopeTarget :=
  mkScopeTarget (cr_organization_id c) (cr_source_ref c) (Some (cr_resource_ref c)).

Lemma locator_matches_spec l c :
  _locator_matches_candidate l c = true ↔
    loc_organization_id l = cr_organization_id c ∧ loc_source_ref l = cr_source_ref c
    ∧ loc_resource_ref l = cr_resource_ref c ∧ loc_revision_ref l = cr_revision_ref c
    ∧ loc_fragment_ref l = cr_fragment_ref c.
Proof.
  unfold _locator_matches_candidate. rewrite !andb_true_iff, !bool_decide_eq_true. tauto.
Qed.

Section KernelFacts.
Context {Port : MaterializedProjectionPort} (isprintable : Z → bool) (secret : pybytes) (L : lifetimes).

(** What one candidate of a decision may contribute: current, located, exactly
    matching, inside the effective scope, and projected. *)
Definition authorized (inv : AuthenticatedInvocation) (policy : PolicyReceipt)
    (provenance : DecisionProvenanceReceipt) (scope : nat) (c : CandidateRef)
    (p : AuthorizedProjection) : Prop :=
  ∃ l fp, port_locate c = Ok (Some l) ∧ _locator_matches_candidate l c = true
    ∧ candidate_target c ∈ es_targets (po_effective_scope policy)
    ∧ port_project l = Ok (Some fp)
    ∧ p = mkAuthorizedProjection c (rendered_body fp) (materialized_field_refs fp)
            (decision_lineage inv provenance l) scope
            (_projection_integrity_digest c (rendered_body fp) (materialized_field_refs fp)
               (decision_lineage inv provenance l)).

Lemma ScopeTarget_post_init_same t t' : ScopeTarget_post_init t = Ok t' → t' = t.
Proof. unfold ScopeTarget_post_init. intros H. by run_ok. Qed.

Lemma project_fragment_Ok session l o :
  _project_materialized_fragment L session l = Ok o → port_project l = Ok o.
Proof.
  unfold _project_materialized_fragment. intros H. apply bind_Ok in H as (? & _ & H).
  apply bind_Ok in H as (r & -> & H). destruct r; [|by injection H as <-].
  by apply bind_Ok in H as (? & _ & [= <-]).
Qed.

Lemma locate_fragment_Ok session c o :
  _locate_materialized_fragment L session c = Ok o → port_locate c = Ok o.
Proof. unfold _locate_materialized_fragment. intros H. by apply bind_Ok in H as (? & _ & H). Qed.

Lemma construct_projection_Ok K scope c body fields l p :
  _construct_authorized_projection K scope c body fields l = Ok p ↔
    p = mkAuthorizedProjection c body fields l scope (_projection_integrity_digest c body fields l)
    ∧ projection_active K p.
Proof.
  unfold _construct_authorized_projection, _require_active_authorization_kernel_scope,
    projection_active. split.
  - intros H. apply bind_Ok in H as (? & Hk & H).
    apply bind_Ok in H as (b & [-> Hb]%nonblank_body_Ok & H).
    apply bind_Ok in H as (fs & [-> Hf]%validate_projected_field_refs_Ok & [= <-]). simpl.
    by destruct (K !! scope) as [[]|].
  - intros (-> & Hk & Hb & Hf & _). cbn [_kernel_scope projected_body projected_field_refs] in Hk, Hb, Hf.
    rewrite Hk. cbn [mbind result_bind].
    rewrite (proj2 (nonblank_body_Ok _ _) (conj eq_refl Hb)). cbn [mbind result_bind].
    by rewrite (proj2 (validate_projected_field_refs_Ok _ _) (conj eq_refl Hf)).
Qed.

(** The turn skipped the candidate: one of the conditions fails. *)
Ltac skipped H :=
  injection H as <-; split; [|done]; intros p; split; [done|];
  intros (l' & fp' & ? & ? & ? & ? & ?); congruence.

Lemma authorize_candidate_spec K scope inv policy provenance session c o :
  authorize_candidate L K scope inv policy provenance session c = Ok o →
  (∀ p, o = Some p ↔ authorized inv policy provenance scope c p)
  ∧ (∀ p, o = Some p → projection_active K p).
Proof.
  unfold authorize_candidate, authorized. intros H.
  apply bind_Ok in H as (loc & Hloc%locate_fragment_Ok & H).
  destruct loc as [l|]; [|skipped H].
  destruct (_locator_matches_candidate l c) eqn:Hm; simpl in H; [|skipped H].
  apply bind_Ok in H as (t & ->%ScopeTarget_post_init_same & H).
  destruct (proj1 (locator_matches_spec l c) Hm) as (Ho & Hs & Hr & _).
  rewrite Ho, Hs, Hr in H. fold (candidate_target c) in H.
  destruct (decide (candidate_target c ∈ es_targets (po_effective_scope policy))) as [Hin|Hout].
  2:{ rewrite bool_decide_eq_false_2 in H by done. skipped H. }
  rewrite bool_decide_eq_true_2 in H by done. simpl in H.
  apply bind_Ok in H as (fpo & Hfp%project_fragment_Ok & H).
  destruct fpo as [fp|]; [|skipped H].
  apply bind_Ok in H as (lin & (-> & _)%lineage_post_init_Ok & H).
  apply bind_Ok in H as (p & (Hp & Ha)%construct_projection_Ok & [= <-]). split; [|naive_solver].
  intros q. rewrite Hloc. split; [intros [= <-]; by exists l, fp|].
  intros (l' & fp' & [= <-] & _ & _ & Hfp' & ->). rewrite Hfp in Hfp'. injection Hfp' as <-.
  by rewrite Hp.
Qed.

(** The candidate order of a decision. *)
Definition key_ordered (ps : list AuthorizedProjection) : Prop :=
  StronglySorted (key_le _candidate_sort_key) (candidate_ref <$> ps) ∧ NoDup (candidate_ref <$> ps).

Lemma collect_authorized K scope inv policy provenance session cands ps :
  collect (authorize_candidate L K scope inv policy provenance session)
    (sorted_by _candidate_sort_key (remove_dups cands)) = Ok ps →
  (∀ p, p ∈ ps ↔ ∃ c, c ∈ cands ∧ authorized inv policy provenance scope c p)
  ∧ Forall (projection_active K) ps ∧ key_ordered ps.
Proof.
  intros Hc.
  assert (Hkey : ∀ c p, authorize_candidate L K scope inv policy provenance session c = Ok (Some p) →
            candidate_ref p = c).
  { intros c p [Ha _]%authorize_candidate_spec. by destruct (proj1 (Ha p) eq_refl) as (? & ? & _ & _ & _ & _ & ->). }
  split_and!.
  - intros p. rewrite (elem_of_collect _ _ _ _ Hc). split.
    + intros (c & Hin & [Ha _]%authorize_candidate_spec). exists c.
      rewrite elem_of_sorted_by, elem_of_remove_dups in Hin. split; [done|]. by apply Ha.
    + intros (c & Hin & Ha). exists c. rewrite elem_of_sorted_by, elem_of_remove_dups. split; [done|].
      destruct (collect_Ok _ _ _ Hc) as (os & Hos & _).
      assert (Hin' : c ∈ sorted_by _candidate_sort_key (remove_dups cands))
        by (by rewrite elem_of_sorted_by, elem_of_remove_dups).
      apply list_elem_of_lookup in Hin' as (i & Hi).
      destruct (Forall2_lookup_l _ _ _ _ _ Hos Hi) as (o & _ & Ho). rewrite Ho.
      apply authorize_candidate_spec in Ho as [Ho _]. f_equal. by apply Ho.
  - apply Forall_forall. intros p (c & _ & [_ Ha]%authorize_candidate_spec)%(elem_of_collect _ _ _ _ Hc).
    by apply Ha.
  - pose proof (collect_keys _ candidate_ref _ _ Hkey Hc) as Hsub. split.
    + eapply StronglySorted_sublist; [exact Hsub|]. apply sorted_by_sorted. apply _.
    + eapply sublist_NoDup; [|exact Hsub]. apply NoDup_sorted_by, NoDup_remove_dups.
Qed.

Lemma authorize_and_project_Ok inv policy provenance cands session ks s s' ps sc :
  _authorize_and_project L inv policy provenance cands session ks s = (s', Ok (ps, sc)) →
  (∀ p, p ∈ ps ↔ ∃ c, c ∈ cands ∧ authorized inv policy provenance (default 0%nat sc) c p)
  ∧ Forall (projection_active (ks_scopes s')) ps ∧ key_ordered ps
  ∧ (sc = None → ps = []) ∧ (∀ k, ks = Some k → ks_scopes s' = ks_scopes s ∧ (sc = None ∨ sc = Some k))
  ∧ (ks = None → ks_scopes s' = ks_scopes s ∧ sc = None
                 ∨ ks_scopes s' = ks_scopes s ++ [true] ∧ sc = Some (length (ks_scopes s)))
  ∧ ks_issuer s' = ks_issuer s ∧ ks_unsupported s' = ks_unsupported s.
Proof.
  unfold _authorize_and_project.
  destruct (bool_decide (cands = []) || bool_decide (es_targets (po_effective_scope policy) = ∅)) eqn:E.
  - intros [= <- <- <-]. apply orb_true_iff in E. rewrite !bool_decide_eq_true in E.
    split_and!; try naive_solver; [|split; constructor].
    intros p. split; [intros []%not_elem_of_nil|]. intros (c & Hc & l & fp & _ & _ & Ht & _).
    destruct E as [->|E]; [by apply not_elem_of_nil in Hc|].
    rewrite E in Ht. by apply not_elem_of_empty in Ht.
  - destruct session as [session|]; [|done].
    destruct ks as [k|]; simpl; [|unfold _open_authorization_kernel_scope];
      match goal with |- context [collect ?f ?l] => destruct (collect f l) as [ps'|e] eqn:Hc end;
      try discriminate; intros [= <- <- <-]; apply collect_authorized in Hc as (? & ? & ?);
      split_and!; naive_solver.
Qed.

(** Closing the lifetime just opened restores the activity of every lifetime. *)
Lemma close_opened (K : kernel_scopes) k :
  lifetime_active (_close_authorization_kernel_scope (K ++ [true]) (length K)) k = lifetime_active K k.
Proof.
  change (_close_authorization_kernel_scope (K ++ [true]) (length K))
    with (close_lifetime (K ++ [true]) (length K)). rewrite lifetime_active_close.
  unfold lifetime_active. destruct (decide (k = length K)) as [->|Hne].
  - rewrite (bool_decide_eq_false_2 (_ ≠ _)), andb_false_r by naive_solver. by rewrite lookup_ge_None_2.
  - rewrite bool_decide_eq_true_2, andb_true_r by done. destruct (decide (k < length K)%nat).
    + by rewrite lookup_app_l.
    + rewrite !lookup_ge_None_2; [done|lia|rewrite length_app; simpl; lia].
Qed.

(** C11: The kernel projects exactly the authorized candidates.  When a decision
    succeeds, its projections are, for the distinct candidates and in candidate
    order, precisely those whose fragment the session located at exactly that
    candidate, whose Article is a target of the effective scope, and which the
    session projected; each carries the decision's own lineage and is live.  When
    it fails, the lifetime it opened is closed: no lifetime is active that was
    not active before. *)
Theorem authorization_exact inv policy provenance cands session s s' r :
  _authorize_and_project L inv policy provenance cands (Some session) None s = (s', r) →
  match r with
  | Ok (ps, sc) =>
      (∀ p, p ∈ ps ↔ ∃ c, c ∈ cands ∧ authorized inv policy provenance (default 0%nat sc) c p)
      ∧ Forall (λ p, candidate_target (candidate_ref p) ∈ es_targets (po_effective_scope policy)) ps
      ∧ Forall (projection_active (ks_scopes s')) ps
      ∧ StronglySorted (key_le _candidate_sort_key) (candidate_ref <$> ps)
      ∧ NoDup (candidate_ref <$> ps)
  | Err _ => ∀ k, lifetime_active (ks_scopes s') k = lifetime_active (ks_scopes s) k
  end.
Proof.
  destruct r as [[ps sc]|e]; intros H.
  - apply authorize_and_project_Ok in H as (Hin & Ha & [Hs Hn] & _). split_and!; try done.
    apply Forall_forall. intros p (c & _ & l & fp & _ & _ & Ht & _ & ->)%Hin. done.
  - unfold _authorize_and_project in H.
    destruct (_ || _); [done|]. simpl in H.
    match type of H with context [collect ?f ?l] => destruct (collect f l) end; [done|].
    injection H as <- _. apply close_opened.
Qed.

(** ** Runs of kernel operations *)

Lemma kbind_Ok {A B} (m : kernel_op A) (f : A → kernel_op B) s s'' b :
  (m ≫= f) s = (s'', Ok b) ↔ ∃ s' a, m s = (s', Ok a) ∧ f a s' = (s'', Ok b).
Proof.
  unfold mbind, kernel_bind. destruct (m s) as [s' [a|e]]; naive_solver.
Qed.

Lemma pure_Ok {A} (m : result A) s s' a : pure m s = (s', Ok a) ↔ s' = s ∧ m = Ok a.
Proof. unfold pure. naive_solver. Qed.

Lemma require_utc_Ok d d' : require_utc d = Ok d' ↔ d' = d ∧ is_utc d = true.
Proof. unfold require_utc. destruct (is_utc d); simpl; naive_solver. Qed.

(** Everything a provenance receipt says, given the references it was issued. *)
Definition provenance_of (inv : AuthenticatedInvocation) (policy : PolicyReceipt) (as_of : datetime)
    (r : IssuedReferences) : DecisionProvenanceReceipt :=
  let f := ua_facts (inv_user_actor inv) in
  mkProvenance (is_decision_ref r) (is_package_id r)
    (eov_organization_id (inv_organization_verification inv)) (m_user_id f) (m_membership_id f)
    (m_membership_version f) (inv_principal_ref inv) (inv_agent_version_ref inv)
    (inv_authenticated_application_ref inv) (inv_authentication_binding_ref inv)
    (es_digest (po_effective_scope policy)) (po_request_id policy) (po_purpose policy) as_of
    (is_run_ref r) (is_policy_snapshot_ref r) (po_policy_epoch policy) (is_source_acl_decision_ref r).

Lemma closed_opaque_ref_same v p r : _require_closed_opaque_ref v p = Ok r → r = v.
Proof. unfold _require_closed_opaque_ref. intros H. by run_ok. Qed.

Lemma provenance_issue_Ok inv policy at_ s s' p :
  provenance_issue inv policy at_ s = (s', Ok p) →
  ks_scopes s' = ks_scopes s ∧ is_utc at_ = true
  ∧ p = provenance_of inv policy at_
          (issued_references (iss_secret (ks_issuer s)) (iss_sequence (ks_issuer s) + 1)).
Proof.
  unfold provenance_issue. intros H.
  apply kbind_Ok in H as (s1 & ? & [-> [-> Hu]%require_utc_Ok]%pure_Ok & H).
  apply kbind_Ok in H as (s1 & refs & Hi & H). unfold issue in Hi.
  destruct (_ <? _); [|discriminate]. injection Hi as <- <-.
  apply kbind_Ok in H as (? & pk & [-> ->%closed_opaque_ref_same]%pure_Ok & H).
  apply kbind_Ok in H as (? & dr & [-> ->%closed_opaque_ref_same]%pure_Ok & H).
  apply kbind_Ok in H as (? & ? & [-> _]%pure_Ok & H). injection H as <- <-. done.
Qed.

Lemma prepare_acquire_Ok port inv dc request server_budget at_ s s' prep :
  prepare_acquire L port inv dc request server_budget at_ s = (s', Ok prep) →
  ∃ scope (current : bool) refs,
    _validate_trusted_invocation_and_delivery L inv dc = Ok tt
    ∧ current_effective_scope L inv (acq_narrowing request) = Ok scope
    ∧ policy_epoch_gate_is_current L port
        (m_policy_epoch_verification (ua_facts (inv_user_actor inv))) = Ok current
    ∧ effective_package_budget server_budget (acq_package_budget request) = Ok (pa_effective_budget prep)
    ∧ pa_policy_receipt prep
      = mkPolicyReceipt (inv_request_id inv) (dc_purpose dc) (inv_policy_epoch inv)
          (if current then scope else no_scope)
    ∧ pa_provenance_receipt prep = provenance_of inv (pa_policy_receipt prep) at_ refs
    ∧ is_utc at_ = true ∧ ks_scopes s' = ks_scopes s.
Proof.
  unfold prepare_acquire. intros H.
  apply kbind_Ok in H as (? & policy & [-> Hp]%pure_Ok & H). unfold validate_acquire in Hp.
  apply bind_Ok in Hp as ([] & Hv & Hp). apply bind_Ok in Hp as (scope & Hs & [= <-]).
  apply kbind_Ok in H as (? & current & [-> Hc]%pure_Ok & H).
  apply kbind_Ok in H as (? & b & [-> Hb]%pure_Ok & H).
  apply kbind_Ok in H as (? & p & (Hsc & Hu & ->)%provenance_issue_Ok & H). injection H as <- <-.
  exists scope, current. eexists. split_and!; try done. by destruct current.
Qed.

(** ** Selection *)

Lemma join_projections K P E w items :
  join_authorized_ranking K P E w = Ok items → it_projection <$> items ≡ₚ P.
Proof.
  unfold join_authorized_ranking. intros H.
  do 4 apply bind_Ok in H as (? & _ & H). apply bind_Ok in H as (joined & Hj%map_result_Ok & [= <-]).
  rewrite sorted_by_perm. clear -Hj. induction Hj as [|p it P joined Hit _ IH]; [done|].
  rewrite fmap_cons, IH. apply bind_Ok in Hit as (it' & Hit' & [= <-]). simpl. f_equiv.
  unfold new_AuthorizedRerankItem in Hit'. apply bind_Ok in Hit' as (? & _ & Hit').
  case_match; [by apply bind_Ok in Hit' as (? & _ & [= <-])|by injection Hit' as <-].
Qed.

Lemma select_loop_encodable m c l sel : select_loop m c l = Ok sel → Forall encodable l.
Proof.
  revert c sel. induction l as [|it l IH]; intros c sel H; [constructor|]. cbn [select_loop] in H.
  unfold encode_utf8 in H. destruct (existsb is_surrogate _) eqn:E; [done|]. cbn [mbind result_bind] in H.
  constructor; [done|]. destruct (_ <? _); [by eapply IH|].
  apply bind_Ok in H as (r & Hr & _). by eapply IH.
Qed.

Lemma delivered_bytes_Ok items :
  Forall encodable items →
  delivered_bytes (mkPackageContent (block_of <$> (it_projection <$> items))
                     ((λ p, evidence_of p None) <$> (it_projection <$> items)))
  = Ok (total_tokens items).
Proof.
  intros H. unfold delivered_bytes. cbn [blocks].
  rewrite (map_result_pure _ (λ b, len (utf8 (bl_body b)))).
  - cbn [mbind result_bind]. unfold total_tokens. by rewrite <- !list_fmap_compose.
  - intros b Hb. rewrite <- list_fmap_compose in Hb. apply list_elem_of_fmap in Hb as (it & -> & Hit).
    rewrite Forall_forall in H. unfold encode_utf8, block_of. cbn [bl_body compose].
    by rewrite (H it Hit).
Qed.

Lemma total_tokens_nonneg l : 0 ≤ total_tokens l.
Proof.
  induction l as [|it l IH]; [done|]. rewrite total_tokens_cons. unfold item_tokens.
  pose proof (len_nonneg (utf8 (projected_body (it_projection it)))). lia.
Qed.

(** What a successful selection is. *)
Lemma select_for_delivery_Ok K d E w sel :
  select_for_delivery isprintable secret K d E w = Ok sel →
  sel_decision sel = d ∧ sel_effective_budget_limits sel = ad_effective_budget_limits d
  ∧ (∃ m, _selection_integrity_material isprintable d (sel_content sel) (ad_effective_budget_limits d) = Ok m
       ∧ sel_integrity_seal sel = _issue_selection_authority_seal secret m)
  ∧ ∃ items, Forall (λ it, it_projection it ∈ ad_projections d) items
      ∧ Forall (projection_active K) (it_projection <$> items)
      ∧ Forall encodable items
      ∧ (0 ≤ max_tokens (ad_effective_budget d) → total_tokens items ≤ max_tokens (ad_effective_budget d))
      ∧ sel_content sel = mkPackageContent (block_of <$> (it_projection <$> items))
                            ((λ p, evidence_of p None) <$> (it_projection <$> items))
      ∧ construct_package_content K (it_projection <$> items) = Ok (sel_content sel).
Proof.
  unfold select_for_delivery. intros H. do 2 apply bind_Ok in H as (? & _ & H).
  apply bind_Ok in H as (joined & Hj%join_projections & H).
  apply bind_Ok in H as (items & Hi & H).
  apply bind_Ok in H as (content & Hcc & H).
  pose proof Hcc as (Ha & _ & _ & _ & _ & _ & Hform)%construct_package_content_Ok. subst content.
  apply bind_Ok in H as (m & Hm & [= <-]). cbn. split_and!; [done|done|by exists m|]. exists items.
  unfold select_authorized_ranking in Hi. pose proof (select_loop_encodable _ _ _ _ Hi) as He.
  assert (Hsub : items `sublist_of` joined).
  { revert Hi. generalize 0. clear. revert items.
    induction joined as [|it l IH]; intros items c H; cbn [select_loop] in H; [by injection H as <-|].
    apply bind_Ok in H as (x & _ & H). destruct (_ <? _); [apply sublist_cons; by eapply IH|].
    apply bind_Ok in H as (r & Hr & [= <-]). apply sublist_skip. by eapply IH. }
  assert (Hin : ∀ it, it ∈ items → it ∈ joined)
    by (intros it Hit; by eapply elem_of_submseteq, sublist_submseteq).
  split_and!; try done.
  - apply Forall_forall. intros it Hit%Hin. apply (list_elem_of_fmap_2 it_projection) in Hit.
    rewrite Hj in Hit. by apply list_elem_of_filter in Hit as [_ ?].
  - rewrite Forall_forall in *. intros it Hit. by apply He, Hin.
  - intros Hb. destruct (select_loop_total _ 0 joined He Hb) as (s' & Hs & _ & Ht).
    rewrite Hi in Hs. injection Hs as <-. lia.
Qed.

(** ** Sealed decisions *)

Lemma budget_limits_Ok b l : _package_budget_limits b = Ok l ↔ budget_ok b ∧ l = budget_limits b.
Proof.
  unfold _package_budget_limits, budget_ok. destruct (PackageBudget_post_init b) as [b'|e] eqn:Hb; simpl.
  - assert (b' = b) as -> by (unfold PackageBudget_post_init in Hb; by run_ok). naive_solver.
  - naive_solver.
Qed.

Lemma decision_material_Ok d :
  budget_ok (ad_effective_budget d) → ∃ m, _decision_integrity_material isprintable d = Ok m.
Proof.
  intros Hb. unfold _decision_integrity_material, _decision_integrity_snapshot.
  rewrite (proj2 (budget_limits_Ok _ _) (conj Hb eq_refl)). cbn [mbind result_bind]. eauto.
Qed.

Lemma selection_material_Ok d content limits :
  budget_ok (ad_effective_budget d) →
  ∃ m, _selection_integrity_material isprintable d content limits = Ok m.
Proof.
  intros Hb. unfold _selection_integrity_material, _decision_integrity_snapshot.
  rewrite (proj2 (budget_limits_Ok _ _) (conj Hb eq_refl)). cbn [mbind result_bind]. eauto.
Qed.

(** A decision that was just constructed and sealed. *)
Lemma sealed_decision_Ok fresh b policy provenance ps sc ex d :
  (d ← new_AuthorizationDecision fresh b policy provenance ps sc ex;
   seal_decision isprintable secret d) = Ok d →
  ad_effective_budget d = b ∧ ad_policy_receipt d = policy ∧ ad_provenance_receipt d = provenance
  ∧ ad_projections d = ps ∧ ad_projection_scope d = sc ∧ ad_expanded_candidate_refs d = ex
  ∧ budget_ok b ∧ ad_effective_budget_limits d = budget_limits b.
Proof.
  intros H. apply bind_Ok in H as (d' & Hd & H). unfold new_AuthorizationDecision in Hd.
  apply bind_Ok in Hd as (l & [Hb ->]%budget_limits_Ok & [= <-]).
  unfold seal_decision in H. apply bind_Ok in H as (m & _ & [= <-]). done.
Qed.

(** ** The final veto *)

Definition no_content : PackageContent := mkPackageContent [] [].

Definition epoch_gate_of (port : epoch_port) (inv : AuthenticatedInvocation) : result bool :=
  policy_epoch_gate_is_current L port (m_policy_epoch_verification (ua_facts (inv_user_actor inv))).

Definition finalize_bound (inv : AuthenticatedInvocation) (sel : SealedPackageSelection) : bool :=
  let d := sel_decision sel in
  content_bound (ad_provenance_receipt d) (sel_content sel)
  && decision_bound inv (ad_policy_receipt d) (ad_provenance_receipt d).

(** The checks before the veto decides. *)
Definition finalize_checks (inv : AuthenticatedInvocation) (sel : SealedPackageSelection) (size : Z) : Prop :=
  let d := sel_decision sel in
  (budget_ok (ad_effective_budget d)
   ∧ budget_limits (ad_effective_budget d) = ad_effective_budget_limits d)
  ∧ budget_limits (ad_effective_budget d) = sel_effective_budget_limits sel
  ∧ (∃ m, _selection_integrity_material isprintable d (sel_content sel) (sel_effective_budget_limits sel) = Ok m
       ∧ sel_integrity_seal sel = _issue_selection_authority_seal secret m)
  ∧ delivered_bytes (sel_content sel) = Ok size ∧ size ≤ max_tokens (ad_effective_budget d)
  ∧ _require_active_user_actor L (inv_user_actor inv) = Ok tt
  ∧ _require_effective_scope_integrity (po_effective_scope (ad_policy_receipt d)) = Ok tt.

Lemma audit_step {A} p (l : list A) (k : DecisionAuditReceipt → FinalizedAuthorizationResult) :
  (audit ← audit_record p (len l);
   require (bool_decide (au_decision_ref audit = pr_decision_ref p)) RuntimeConfigurationError ;;
   Ok (k audit))
  = Ok (k (mkAudit (pr_decision_ref p) (if len l =? 0 then Some NO_AUTHORIZED_EVIDENCE else None)
             (len l))).
Proof.
  unfold audit_record. rewrite (proj2 (Z.leb_le _ _) (len_nonneg l)). cbn [require mbind result_bind].
  by rewrite bool_decide_eq_true_2.
Qed.

Lemma finalize_for_delivery_Ok K port inv sel r :
  finalize_for_delivery isprintable secret L K port inv sel = Ok r ↔
    ∃ size, finalize_checks inv sel size
    ∧ let d := sel_decision sel in
      (finalize_bound inv sel = true ∧ epoch_gate_of port inv = Ok true
       ∧ r = mkFinalized (ad_policy_receipt d) (ad_provenance_receipt d) (sel_content sel)
               (mkAudit (pr_decision_ref (ad_provenance_receipt d))
                  (if len (evidence (sel_content sel)) =? 0 then Some NO_AUTHORIZED_EVIDENCE else None)
                  (len (evidence (sel_content sel))))
       ∨ (finalize_bound inv sel = false ∨ finalize_bound inv sel = true ∧ epoch_gate_of port inv = Ok false)
         ∧ r = mkFinalized (with_scope (ad_policy_receipt d) no_scope)
                 (if finalize_bound inv sel
                  then with_scope_digest (ad_provenance_receipt d) (es_digest no_scope)
                  else ad_provenance_receipt d) no_content
                 (mkAudit (pr_decision_ref (ad_provenance_receipt d)) (Some NO_AUTHORIZED_EVIDENCE) 0)).
Proof.
  unfold finalize_for_delivery, finalize_checks. fold (finalize_bound inv sel) (epoch_gate_of port inv).
  assert (Hempty : construct_package_content K [] = Ok no_content) by reflexivity. split.
  - intros H. apply bind_Ok in H as (limits & [Hbok ->]%budget_limits_Ok & H).
    apply bind_Ok in H as (m & Hm & H).
    apply bind_Ok in H as (? & Hg%require_Ok & H). apply bind_Ok in H as (size & Hsize & H).
    apply bind_Ok in H as (? & Hle%require_Ok & H). apply bind_Ok in H as ([] & Hactor & H).
    apply bind_Ok in H as ([] & Hscope & H). apply bind_Ok in H as (current & Hcur & H).
    exists size. unfold _verify_selection_authority_seal in Hg.
    rewrite !andb_true_iff, !bool_decide_eq_true in Hg. destruct Hg as [[Hg1 Hg2] Hg3].
    apply Z.leb_le in Hle.
    split; [split_and!; try done; by exists m|]. destruct (finalize_bound inv sel); cbn [andb negb] in *.
    + destruct current; cbn [mbind result_bind negb] in H.
      * left. rewrite (audit_step _ _ (λ a, mkFinalized _ _ _ a)) in H. by injection H as <-.
      * right. split; [by right|]. rewrite Hempty in H. cbn [mbind result_bind] in H.
        rewrite (audit_step _ _ (λ a, mkFinalized _ _ _ a)) in H. by injection H as <-.
    + injection Hcur as <-. right. split; [by left|]. rewrite Hempty in H.
      cbn [mbind result_bind] in H. rewrite (audit_step _ _ (λ a, mkFinalized _ _ _ a)) in H.
      by injection H as <-.
  - intros (size & ((Hbok & H1) & H2 & (m & Hm & H3) & H4 & H5 & H6 & H7) & Hr).
    rewrite (proj2 (budget_limits_Ok _ _) (conj Hbok eq_refl)). cbn [mbind result_bind].
    rewrite Hm. cbn [mbind result_bind]. unfold _verify_selection_authority_seal.
    rewrite !bool_decide_eq_true_2 by (try done; congruence). cbn [andb require mbind result_bind].
    rewrite H4. cbn [mbind result_bind]. cbn [budget_limits fst].
    rewrite (proj2 (Z.leb_le _ _) H5). cbn [require mbind result_bind].
    rewrite H6, H7. cbn [mbind result_bind].
    destruct Hr as [(Hb & Hc & ->)|[[Hb|[Hb Hc]] ->]]; rewrite Hb; cbn [andb negb]; rewrite ?Hc.
    all: rewrite ?Hempty; cbn [mbind result_bind]; by rewrite (audit_step _ _ (λ a, mkFinalized _ _ _ a)).
Qed.

(** C12: The final veto.  A finalized delivery has content only if the durable Policy
    Epoch is still current at that moment, the decision belongs to this
    invocation and every Evidence lineage to the decision, and then the content is
    the sealed selection unchanged; otherwise the content and the reported scope
    are empty.  In every case the delivered bytes fit the token budget, the actor
    is active, and the audit counts exactly the delivered Evidence and gives the
    no-evidence reason exactly when there is none. *)
Theorem final_veto K port inv sel r :
  finalize_for_delivery isprintable secret L K port inv sel = Ok r →
  (fin_content r = sel_content sel ∧ fin_policy_receipt r = ad_policy_receipt (sel_decision sel)
   ∧ finalize_bound inv sel = true ∧ epoch_gate_of port inv = Ok true
   ∨ fin_content r = no_content ∧ es_targets (po_effective_scope (fin_policy_receipt r)) = ∅
     ∧ (finalize_bound inv sel = false ∨ epoch_gate_of port inv = Ok false))
  ∧ (∃ size, delivered_bytes (fin_content r) = Ok size
       ∧ size ≤ Z.max 0 (max_tokens (ad_effective_budget (sel_decision sel))))
  ∧ _require_active_user_actor L (inv_user_actor inv) = Ok tt
  ∧ au_authorized_evidence_count (fin_audit_receipt r) = len (evidence (fin_content r))
  ∧ (au_reason (fin_audit_receipt r) = Some NO_AUTHORIZED_EVIDENCE ↔ evidence (fin_content r) = [])
  ∧ au_decision_ref (fin_audit_receipt r) = pr_decision_ref (fin_provenance_receipt r).
Proof.
  intros (size & (_ & _ & _ & Hsize & Hle & Hactor & _) & Hr)%finalize_for_delivery_Ok.
  destruct Hr as [(Hb & Hc & ->)|[Hb ->]]; cbn.
  - split_and!; try done; [by left|exists size; split; [done|lia]|].
    destruct (evidence (sel_content sel)); cbn; [done|].
    rewrite len_cons. pose proof (len_nonneg l). destruct (Z.eqb_spec (1 + len l) 0); [lia|naive_solver].
  - split_and!; try done; [right; split_and!; [done|done|naive_solver]|exists 0; split; [done|lia]|].
    by destruct (finalize_bound inv sel).
Qed.

Lemma authorize_acquire_Ok fresh inv prep cands session s s' d :
  authorize_acquire isprintable secret L fresh inv prep cands session s = (s', Ok d) →
  _require_effective_scope_integrity (po_effective_scope (pa_policy_receipt prep)) = Ok tt
  ∧ ∃ ps sc, _authorize_and_project L inv (pa_policy_receipt prep) (pa_provenance_receipt prep) cands
               session None s = (s', Ok (ps, sc))
      ∧ (ad_effective_budget d = pa_effective_budget prep ∧ ad_policy_receipt d = pa_policy_receipt prep
         ∧ ad_provenance_receipt d = pa_provenance_receipt prep ∧ ad_projections d = ps
         ∧ ad_projection_scope d = sc ∧ ad_expanded_candidate_refs d = ∅
         ∧ budget_ok (pa_effective_budget prep)
         ∧ ad_effective_budget_limits d = budget_limits (pa_effective_budget prep)).
Proof.
  unfold authorize_acquire. intros H. apply kbind_Ok in H as (? & [] & [-> Hi]%pure_Ok & H).
  apply kbind_Ok in H as (s1 & [ps sc] & Hp & H). apply pure_Ok in H as [-> H%sealed_decision_Ok]. eauto.
Qed.

(** ** One-hop expansion *)

(** What every projection of a decision satisfies, expanded ones included: the
    session located and projected exactly this candidate, its Article is in the
    effective scope, and the lineage is the decision's, with the access facts of
    a fragment of the same Article revision. *)
Definition projection_authorized (inv : AuthenticatedInvocation) (policy : PolicyReceipt)
    (provenance : DecisionProvenanceReceipt) (p : AuthorizedProjection) : Prop :=
  ∃ l la fp ca,
    port_locate (candidate_ref p) = Ok (Some l) ∧ _locator_matches_candidate l (candidate_ref p) = true
    ∧ candidate_target (candidate_ref p) ∈ es_targets (po_effective_scope policy)
    ∧ port_project l = Ok (Some fp)
    ∧ projected_body p = rendered_body fp ∧ projected_field_refs p = materialized_field_refs fp
    ∧ lineage p = decision_lineage inv provenance la
    ∧ _locator_matches_candidate la ca = true ∧ same_revision ca (candidate_ref p) = true.

Lemma same_revision_spec c a :
  same_revision c a = true ↔
    cr_organization_id c = cr_organization_id a ∧ cr_source_ref c = cr_source_ref a
    ∧ cr_resource_ref c = cr_resource_ref a ∧ cr_revision_ref c = cr_revision_ref a.
Proof. unfold same_revision. rewrite !andb_true_iff, !bool_decide_eq_true. tauto. Qed.

Lemma authorized_projection inv policy provenance k c p :
  authorized inv policy provenance k c p → projection_authorized inv policy provenance p.
Proof.
  intros (l & fp & Hl & Hm & Ht & Hfp & ->). exists l, l, fp, c. cbn. split_and!; try done.
  by apply same_revision_spec.
Qed.

(** The projections of a decision, with its own receipts. *)
Definition decision_ok (inv : AuthenticatedInvocation) (K : kernel_scopes) (d : AuthorizationDecision) : Prop :=
  Forall (projection_authorized inv (ad_policy_receipt d) (ad_provenance_receipt d)) (ad_projections d)
  ∧ Forall (projection_active K) (ad_projections d)
  ∧ budget_ok (ad_effective_budget d)
  ∧ ad_effective_budget_limits d = budget_limits (ad_effective_budget d).

(** Facts an expansion step never changes. *)
Definition same_receipts (d d' : AuthorizationDecision) : Prop :=
  ad_policy_receipt d' = ad_policy_receipt d ∧ ad_provenance_receipt d' = ad_provenance_receipt d
  ∧ ad_effective_budget d' = ad_effective_budget d.

Lemma dict_get_loop {A} (f : A → CandidateRef) l c x :
  dict_get (foldl (λ d p, dict_set d (f p) p) [] l) c = Some x → x ∈ l ∧ f x = c.
Proof.
  assert (H : ∀ d, dict_get (foldl (λ d p, dict_set d (f p) p) d l) c = Some x →
            (x ∈ l ∧ f x = c) ∨ dict_get d c = Some x).
  { induction l as [|y l IH]; intros d Hx; simpl in *; [by right|].
    apply IH in Hx as [[Hx Hf]|Hx]; [left; split; [by right|done]|].
    rewrite dict_get_set in Hx. destruct (decide (c = f y)) as [->|]; [|by right].
    injection Hx as <-. left. split; [by left|done]. }
  intros [?|?]%H; [done|]. done.
Qed.

Lemma one_hop_candidate_inherited inv K d session cand p :
  decision_ok inv K d → one_hop_candidate L K d session cand = Ok (Inherited p) →
  projection_authorized inv (ad_policy_receipt d) (ad_provenance_receipt d) p
  ∧ projection_active K p ∧ candidate_ref p = oh_candidate_ref cand.
Proof.
  intros (Hok & _ & _) H. unfold one_hop_candidate in H. apply bind_Ok in H as (? & _ & H).
  destruct (dict_get _ _) as [anchor|] eqn:Ha; [|done]. apply dict_get_loop in Ha as [Hin Ha].
  destruct (same_article _ _); [|done]. cbn [negb] in H.
  destruct (bool_decide (cr_revision_ref _ = _)); [|done]. cbn [negb] in H.
  apply bind_Ok in H as (loc & Hloc%locate_fragment_Ok & H). destruct loc as [l|]; [|done].
  destruct (_locator_matches_candidate l _) eqn:Hm; [|done]. cbn [negb] in H.
  apply bind_Ok in H as (fpo & Hfp%project_fragment_Ok & H). destruct fpo as [fp|]; [|done].
  apply bind_Ok in H as (q & Hq & [= ->]). unfold _construct_inherited_authorized_projection in Hq.
  apply bind_Ok in Hq as (? & _ & Hq). apply bind_Ok in Hq as (? & Hsame%require_Ok & Hq).
  apply construct_projection_Ok in Hq as [Hp Hact]. rewrite Forall_forall in Hok.
  destruct (Hok anchor Hin) as (l0 & la & fp0 & ca & _ & _ & Ht & _ & _ & _ & Hlin & Hca & Hrev).
  subst p. split; [|done]. exists l, la, fp, ca. cbn. split_and!; try done.
  - apply same_revision_spec in Hsame as (H1 & H2 & H3 & _). unfold candidate_target in *.
    by rewrite H1, H2, H3.
  - rewrite same_revision_spec in *. naive_solver congruence.
Qed.

Lemma hops_split inv K d session cands hops :
  decision_ok inv K d → map_result (one_hop_candidate L K d session) cands = Ok hops →
  Forall (λ p, projection_authorized inv (ad_policy_receipt d) (ad_provenance_receipt d) p
               ∧ projection_active K p) (inherited_of hops)
  ∧ (length (inherited_of hops) + length (reauthorized_of hops) ≤ length cands)%nat.
Proof.
  intros Hd H%map_result_Ok. induction H as [|cand h cands hops Hh _ [IH1 IH2]]; [done|].
  unfold inherited_of, reauthorized_of in *. rewrite !bind_cons, !length_app. cbn [length].
  destruct h as [p|c|]; cbn [length app].
  - apply one_hop_candidate_inherited with (inv := inv) in Hh as (? & ? & _); [|done].
    split; [by constructor|lia].
  - split; [done|lia].
  - split; [done|lia].
Qed.

Lemma projection_active_grow K K' p :
  (K' = K ∨ K' = K ++ [true]) → projection_active K p → projection_active K' p.
Proof.
  intros [->| ->]; [done|]. intros (Hk & H). split; [|done]. rewrite lookup_app_l; [done|].
  by eapply lookup_lt_Some.
Qed.

Lemma authorize_and_project_length inv policy provenance cands session ks s s' ps sc :
  _authorize_and_project L inv policy provenance cands session ks s = (s', Ok (ps, sc)) →
  (length ps ≤ length cands)%nat.
Proof.
  intros (Hin & _ & [_ Hnd] & _)%authorize_and_project_Ok.
  rewrite <- (length_fmap candidate_ref ps). apply submseteq_length, NoDup_submseteq; [done|].
  intros c (p & -> & (c' & Hc & l & fp & _ & _ & _ & _ & ->)%Hin)%list_elem_of_fmap. done.
Qed.

(** One expansion step. *)
Lemma authorize_one_hop_Ok fresh inv prep d cands session s s' d' :
  authorize_one_hop isprintable secret L fresh inv prep d cands session s = (s', Ok d') →
  ad_policy_receipt d = pa_policy_receipt prep → ad_provenance_receipt d = pa_provenance_receipt prep →
  decision_ok inv (ks_scopes s) d →
  decision_ok inv (ks_scopes s') d' ∧ same_receipts d d'
  ∧ ∃ added, ad_projections d' = ad_projections d ++ added ∧ (length added ≤ length cands)%nat
      ∧ ad_expanded_candidate_refs d'
        = ad_expanded_candidate_refs d ∪ list_to_set (candidate_ref <$> added).
Proof.
  unfold authorize_one_hop. intros H Hpol Hprov Hd.
  apply kbind_Ok in H as (? & hops & Hh & H). unfold with_scopes in Hh. injection Hh as <- Hh.
  destruct (hops_split _ _ _ _ _ _ Hd Hh) as [Hinh Hlen].
  apply kbind_Ok in H as (s1 & [ps sc] & Hp & H).
  apply pure_Ok in H as [-> (Hb & Hpo & Hpr & Hps' & _ & Hex & Hbok & Hl)%sealed_decision_Ok].
  pose proof (authorize_and_project_length _ _ _ _ _ _ _ _ _ _ Hp) as Hps.
  apply authorize_and_project_Ok in Hp as (Hin & Hact & _ & _ & Hsome & Hnone & _).
  assert (Hgrow : ks_scopes s1 = ks_scopes s ∨ ks_scopes s1 = ks_scopes s ++ [true])
    by (destruct (ad_projection_scope d); naive_solver).
  destruct Hd as (Hok & Hlive & _ & _). unfold decision_ok, same_receipts.
  rewrite Hb, Hpo, Hpr, Hps', Hex, Hl. split; [|split].
  - rewrite !Forall_app. split_and!; try done.
    + eapply Forall_impl; [exact Hinh|]. naive_solver congruence.
    + apply Forall_forall. intros p (c & _ & Ha)%Hin. rewrite Hpol, Hprov. by eapply authorized_projection.
    + eapply Forall_impl; [exact Hlive|]. intros p. by apply projection_active_grow.
    + eapply Forall_impl; [exact Hinh|]. intros p [_ ?]. by eapply projection_active_grow.
  - by split_and!.
  - exists (inherited_of hops ++ ps). cbn. split_and!; try done. rewrite length_app. lia.
Qed.

Lemma one_hop_page_length K session anchors limit offset page :
  _discover_materialized_one_hop L K session anchors limit offset = Ok page → len page ≤ limit.
Proof.
  unfold _discover_materialized_one_hop. intros H.
  apply bind_Ok in H as (? & _ & H). apply bind_Ok in H as (? & Hl%require_Ok & H).
  apply bind_Ok in H as (? & _ & H). apply bind_Ok in H as (? & _ & H).
  assert (Hz : len (A := MaterializedOneHopCandidate) [] ≤ limit) by (unfold len; simpl; lia).
  destruct anchors as [|a anchors]; [by injection H as <-|].
  destruct port_discover_one_hop; [|by injection H as <-].
  apply bind_Ok in H as (page' & _ & H). apply bind_Ok in H as (? & Hle%require_Ok & H).
  run_ok. lia.
Qed.

(** What any number of expansion steps keeps. *)
Definition expansion_of (limit : Z) (d d' : AuthorizationDecision) : Prop :=
  same_receipts d d'
  ∧ (∃ added, ad_projections d' = ad_projections d ++ added
       ∧ ad_expanded_candidate_refs d'
         = ad_expanded_candidate_refs d ∪ list_to_set (candidate_ref <$> added))
  ∧ Z.of_nat (size (ad_expanded_candidate_refs d'))
    ≤ Z.max limit (Z.of_nat (size (ad_expanded_candidate_refs d))).

Lemma expansion_refl limit d : expansion_of limit d d.
Proof.
  split; [done|]. split; [|lia]. exists []. rewrite app_nil_r. split; [done|]. cbn. set_solver.
Qed.

Lemma expansion_trans limit d d' d'' :
  expansion_of limit d d' → expansion_of limit d' d'' → expansion_of limit d d''.
Proof.
  intros ((H1 & H2 & H3) & (a & Ha & Hea) & Hs) ((H1' & H2' & H3') & (b & Hb & Heb) & Hs').
  split; [split_and!; congruence|]. split; [|lia]. exists (a ++ b). rewrite Hb, Ha, app_assoc.
  split; [done|]. rewrite Heb, Hea, fmap_app, list_to_set_app_L. set_solver.
Qed.

Lemma list_to_set_size (l : list CandidateRef) : (size (list_to_set l : gset CandidateRef) ≤ length l)%nat.
Proof.
  unfold size, set_size. cbn. apply submseteq_length, NoDup_submseteq; [apply NoDup_elements|].
  intros c. by rewrite elem_of_elements, elem_of_list_to_set.
Qed.

Lemma one_hop_loop_Ok pages fresh inv prep session main refs limit offset d s s' d' :
  one_hop_loop isprintable secret L pages fresh inv prep session main refs limit offset d s = (s', Ok d') →
  ad_policy_receipt d = pa_policy_receipt prep → ad_provenance_receipt d = pa_provenance_receipt prep →
  decision_ok inv (ks_scopes s) d →
  decision_ok inv (ks_scopes s') d' ∧ expansion_of limit d d'.
Proof.
  revert fresh offset d s. induction pages as [|pages IH]; intros fresh offset d s H Hpol Hprov Hd;
    cbn [one_hop_loop] in H.
  { injection H as <- <-. split; [done|apply expansion_refl]. }
  destruct (Z.ltb_spec (Z.of_nat (size (ad_expanded_candidate_refs d))) limit) as [Hlt|]; cbn [negb] in H;
    [|injection H as <- <-; split; [done|apply expansion_refl]].
  apply kbind_Ok in H as (? & page & Hpage & H). unfold with_scopes in Hpage. injection Hpage as <- Hpage.
  apply one_hop_page_length in Hpage.
  destruct (bool_decide (length page = 0%nat));
    [injection H as <- <-; split; [done|apply expansion_refl]|].
  apply kbind_Ok in H as (s1 & d1 & Hstep & H).
  assert (Hone : decision_ok inv (ks_scopes s1) d1 ∧ expansion_of limit d d1).
  { destruct (bool_decide _); [injection Hstep as <- <-; split; [done|apply expansion_refl]|].
    apply authorize_one_hop_Ok in Hstep as (Hok & Hrec & added & Hadd & Hlen & Hexp); [|done..].
    split; [done|]. split; [done|]. split; [by exists added|]. rewrite Hexp.
    pose proof (size_union_alt (ad_expanded_candidate_refs d)
                  (list_to_set (candidate_ref <$> added) : gset CandidateRef)) as Hu.
    assert (size (list_to_set (candidate_ref <$> added) ∖ ad_expanded_candidate_refs d : gset CandidateRef)
            ≤ length added)%nat.
    { transitivity (size (list_to_set (candidate_ref <$> added) : gset CandidateRef)).
      - apply subseteq_size. set_solver.
      - rewrite <- (length_fmap candidate_ref added). apply list_to_set_size. }
    pose proof (length_filter (λ i, oh_candidate_ref i ∉ refs) page).
    unfold len in Hpage. lia. }
  destruct Hone as [Hok Hexp]. destruct (len page <? _); [injection H as <- <-; done|].
  destruct Hexp as ((Hp1 & Hp2 & Hp3) & Hrest).
  destruct (IH _ _ _ _ H) as [Hok' Hexp']; [congruence..|done|]. split; [done|].
  eapply expansion_trans; [|exact Hexp']. by split.
Qed.

Lemma expand_one_hop_Ok fresh inv prep cands limit pages d s s' d' :
  expand_one_hop isprintable secret L fresh inv prep cands limit pages d s = (s', Ok d') →
  ad_policy_receipt d = pa_policy_receipt prep → ad_provenance_receipt d = pa_provenance_receipt prep →
  decision_ok inv (ks_scopes s) d →
  decision_ok inv (ks_scopes s') d' ∧ expansion_of (Z.min 64 limit) d d'.
Proof.
  unfold expand_one_hop. intros H Hpol Hprov Hd.
  destruct (m_materialized_projection_session _) as [session|];
    [|injection H as <- <-; split; [done|apply expansion_refl]].
  destruct (bool_decide _); [injection H as <- <-; split; [done|apply expansion_refl]|].
  by eapply one_hop_loop_Ok.
Qed.

(** C13: Graph expansion never widens authority.  Whatever pages of neighbours the
    session returns, expanding a decision keeps its receipts, budget and original
    projections, adds only live projections that the session located and projected
    at exactly their candidate, whose Article is in the effective scope (directly,
    or as the same revision of an Article already authorized) and whose lineage is
    the decision's, records exactly their candidates as expanded, and records at
    most 64 and at most the submission limit of them. *)
Theorem one_hop_stays_authorized fresh inv prep cands limit pages d s s' d' :
  expand_one_hop isprintable secret L fresh inv prep cands limit pages d s = (s', Ok d') →
  ad_policy_receipt d = pa_policy_receipt prep → ad_provenance_receipt d = pa_provenance_receipt prep →
  decision_ok inv (ks_scopes s) d → ad_expanded_candidate_refs d = ∅ → 0 ≤ limit →
  decision_ok inv (ks_scopes s') d'
  ∧ same_receipts d d'
  ∧ Z.of_nat (size (ad_expanded_candidate_refs d')) ≤ Z.min 64 limit
  ∧ ∃ added, ad_projections d' = ad_projections d ++ added
      ∧ ∀ c, c ∈ ad_expanded_candidate_refs d' ↔ c ∈ candidate_ref <$> added.
Proof.
  intros H Hpol Hprov Hd Hempty Hlim.
  destruct (expand_one_hop_Ok _ _ _ _ _ _ _ _ _ _ H Hpol Hprov Hd)
    as (Hok & Hrec & (added & Hadd & Hexp) & Hsize).
  rewrite Hempty, size_empty in Hsize. split_and!; try done; [lia..|]. exists added. split; [done|].
  intros c. rewrite Hexp, Hempty, elem_of_union, elem_of_list_to_set. set_solver.
Qed.

Lemma authorize_acquire_decision fresh inv prep cands session s s' d :
  authorize_acquire isprintable secret L fresh inv prep cands session s = (s', Ok d) →
  decision_ok inv (ks_scopes s') d ∧ ad_policy_receipt d = pa_policy_receipt prep
  ∧ ad_provenance_receipt d = pa_provenance_receipt prep
  ∧ ad_effective_budget d = pa_effective_budget prep ∧ ad_expanded_candidate_refs d = ∅
  ∧ _require_effective_scope_integrity (po_effective_scope (pa_policy_receipt prep)) = Ok tt.
Proof.
  intros (Hi & ps & sc & Hp & Hb & Hpo & Hpr & Hps & _ & Hex & Hbok & Hl)%authorize_acquire_Ok.
  apply authorize_and_project_Ok in Hp as (Hin & Hact & _). unfold decision_ok.
  rewrite Hb, Hpo, Hpr, Hps, Hex, Hl. split_and!; try done.
  apply Forall_forall. intros p (c & _ & Ha)%Hin.
  by eapply authorized_projection.
Qed.

(** ** Kernel lifetimes *)

(** Expanding a decision that owns a lifetime opens no other. *)
Lemma authorize_one_hop_scopes fresh inv prep d cands session s s' d' k :
  ad_projection_scope d = Some k →
  authorize_one_hop isprintable secret L fresh inv prep d cands session s = (s', Ok d') →
  ks_scopes s' = ks_scopes s ∧ ad_projection_scope d' = Some k.
Proof.
  unfold authorize_one_hop. intros Hk H. apply kbind_Ok in H as (? & hops & Hh & H).
  unfold with_scopes in Hh. injection Hh as <- Hh.
  apply kbind_Ok in H as (s1 & [ps sc] & Hp & H).
  apply pure_Ok in H as [-> (_ & _ & _ & _ & -> & _)%sealed_decision_Ok]. rewrite Hk in *.
  apply authorize_and_project_Ok in Hp as (_ & _ & _ & _ & Hsome & _).
  by destruct (Hsome k eq_refl) as [-> _].
Qed.

Lemma one_hop_loop_scopes pages fresh inv prep session main refs limit offset d s s' d' k :
  ad_projection_scope d = Some k →
  one_hop_loop isprintable secret L pages fresh inv prep session main refs limit offset d s = (s', Ok d') →
  ks_scopes s' = ks_scopes s ∧ ad_projection_scope d' = Some k.
Proof.
  revert fresh offset d s. induction pages as [|pages IH]; intros fresh offset d s Hk H;
    cbn [one_hop_loop] in H; [by injection H as <- <-|].
  destruct (negb _); [by injection H as <- <-|].
  apply kbind_Ok in H as (? & page & Hpage & H). unfold with_scopes in Hpage. injection Hpage as <- Hpage.
  destruct (bool_decide _); [by injection H as <- <-|].
  apply kbind_Ok in H as (s1 & d1 & Hstep & H).
  assert (Hone : ks_scopes s1 = ks_scopes s ∧ ad_projection_scope d1 = Some k).
  { destruct (bool_decide _); [by injection Hstep as <- <-|]. by eapply authorize_one_hop_scopes. }
  destruct Hone as [Hs Hd]. destruct (_ <? _); [by injection H as <- <-|].
  destruct (IH _ _ _ _ Hd H) as [-> ?]. done.
Qed.

(** The lifetime of a decision when it reaches the selector: none and no
    projections, or the one that authorization opened. *)
Lemma decision_lifetime fresh fresh' inv prep cands session limit pages s s' s'' d d' :
  authorize_acquire isprintable secret L fresh inv prep cands session s = (s', Ok d) →
  expand_one_hop isprintable secret L fresh' inv prep cands limit pages d s' = (s'', Ok d') →
  ks_scopes s'' = ks_scopes s ∧ ad_projection_scope d' = None
  ∨ ks_scopes s'' = ks_scopes s ++ [true] ∧ ad_projection_scope d' = Some (length (ks_scopes s)).
Proof.
  intros (_ & ps & sc & Hp & _ & _ & _ & Hps & Hsc & _)%authorize_acquire_Ok H. unfold expand_one_hop in H.
  rewrite Hps in H. apply authorize_and_project_Ok in Hp as (_ & _ & _ & Hnil & _ & Hnone & _).
  destruct (Hnone eq_refl) as [[Hs ->]|[Hs Hsc']]; [|rewrite Hsc' in Hsc].
  - left. rewrite (Hnil eq_refl) in H. cbn in H.
    destruct (m_materialized_projection_session _); injection H as <- <-; done.
  - right. rewrite <- Hs. destruct (m_materialized_projection_session _); [|by injection H as <- <-].
    destruct (bool_decide _); [by injection H as <- <-|]. by eapply one_hop_loop_scopes in H.
Qed.
End KernelFacts.

(** ** One request from preparation to delivery *)

Section Delivery.
Context {Port : MaterializedProjectionPort} (isprintable : Z → bool) (secret : pybytes).
Context (L L' : lifetimes) (port port' : epoch_port) (inv : AuthenticatedInvocation).
Context (dc : TrustedDeliveryContext) (request : Acquire) (server_budget : PackageBudget).
Context (at_ : datetime) (cands : list CandidateRef) (limit pages : Z).
Context (E : list CandidateRankEvidence) (w : option weight_map) (fresh fresh' : Z).
Context (s0 s1 s2 s3 : kernel_state) (prep : PreparedAcquireAuthorization).
Context (d0 d : AuthorizationDecision) (sel : SealedPackageSelection).

(** The steps up to the sealed selection, in the order of [Runtime.resolve]. *)
Definition selected_request : Prop :=
  prepare_acquire L port inv dc request server_budget at_ s0 = (s1, Ok prep)
  ∧ authorize_acquire isprintable secret L fresh inv prep cands
      (m_materialized_projection_session (ua_facts (inv_user_actor inv))) s1 = (s2, Ok d0)
  ∧ expand_one_hop isprintable secret L fresh' inv prep cands limit pages d0 s2 = (s3, Ok d)
  ∧ select_for_delivery isprintable secret (ks_scopes s3) d E w = Ok sel.

(** What a delivered Evidence stands for. *)
Definition delivered_from (e : Evidence) : Prop :=
  ∃ c l la fp ops,
    port_locate c = Ok (Some l) ∧ _locator_matches_candidate l c = true
    ∧ port_project l = Ok (Some fp)
    ∧ fragment_identity e
      = (cr_source_ref c, cr_resource_ref c, cr_revision_ref c, cr_fragment_ref c)
    ∧ ev_projected_field_refs e = materialized_field_refs fp
    ∧ ev_lineage e = decision_lineage inv (pa_provenance_receipt prep) la
    ∧ _trusted_operands_from_snapshot L (inv_trusted_scope_snapshot inv) = Ok ops
    ∧ candidate_target c ∈ es_targets (compute_effective_scope ops (acq_narrowing request))
    ∧ cr_organization_id c = m_organization_id (ua_facts (inv_user_actor inv)).

(** The decision that reaches the selector. *)
Lemma selected_decision :
  selected_request →
  decision_ok inv (ks_scopes s3) d ∧ ad_policy_receipt d = pa_policy_receipt prep
  ∧ ad_provenance_receipt d = pa_provenance_receipt prep
  ∧ ad_effective_budget d = pa_effective_budget prep
  ∧ _require_effective_scope_integrity (po_effective_scope (pa_policy_receipt prep)) = Ok tt.
Proof.
  intros (_ & Hauth & Hexp & _).
  apply authorize_acquire_decision in Hauth as (Hok & Hpol & Hprov & Hb & _ & Hi).
  destruct (expand_one_hop_Ok _ _ _ _ _ _ _ _ _ _ _ _ _ Hexp Hpol Hprov Hok)
    as (Hok' & (H1 & H2 & H3) & _). split_and!; try done; congruence.
Qed.

Lemma delivered_projection p :
  selected_request → p ∈ ad_projections d →
  epoch_gate_of L port inv = Ok true
  ∧ ts_policy_epoch (inv_trusted_scope_snapshot inv) = inv_policy_epoch inv
  ∧ delivered_from (evidence_of p None).
Proof.
  intros Hreq Hp. destruct (selected_decision Hreq) as ((Hok & _) & Hpol & Hprov & _).
  destruct Hreq as (Hprep & _).
  apply prepare_acquire_Ok in Hprep as (scope & current & refs & Hv & Hs & Hc & Hb & Hpo & Hpr & Hu & _).
  rewrite Forall_forall in Hok.
  destruct (Hok p Hp) as (l & la & fp & ca & Hl & Hm & Ht & Hfp & Hbody & Hrefs & Hlin & _).
  rewrite Hpol, Hpo in Ht. cbn [po_effective_scope] in Ht.
  destruct current; [|by apply not_elem_of_empty in Ht].
  unfold current_effective_scope in Hs.
  destruct (Z.eqb_spec (ts_policy_epoch (inv_trusted_scope_snapshot inv)) (inv_policy_epoch inv)) as [He|];
    [|injection Hs as <-; by apply not_elem_of_empty in Ht].
  apply bind_Ok in Hs as (ops & Hops & [= <-]).
  split; [done|]. split; [done|]. exists (candidate_ref p), l, la, fp, ops. split_and!; try done.
  - by rewrite <- Hprov.
  - pose proof (operands_in_organization _ _ _ _ _ Hops Ht) as Ho. cbn in Ho. rewrite Ho.
    by eapply validated_snapshot_organization.
Qed.

Lemma delivered_evidence K r e :
  selected_request → finalize_for_delivery isprintable secret L' K port' inv sel = Ok r →
  e ∈ evidence (fin_content r) →
  delivered_from e
  ∧ epoch_gate_of L port inv = Ok true ∧ epoch_gate_of L' port' inv = Ok true
  ∧ ts_policy_epoch (inv_trusted_scope_snapshot inv) = inv_policy_epoch inv.
Proof.
  intros Hreq (size & _ & Hr)%finalize_for_delivery_Ok He.
  destruct Hr as [(_ & Hgate & ->)|[_ ->]]; [|by apply not_elem_of_nil in He].
  pose proof Hreq as (_ & _ & _ & Hsel). cbn in He.
  apply select_for_delivery_Ok in Hsel as (_ & _ & _ & items & Hitems & _ & _ & _ & Hcontent & _).
  rewrite Hcontent in He. cbn in He. rewrite <- list_fmap_compose in He.
  apply list_elem_of_fmap in He as (it & -> & Hit). rewrite Forall_forall in Hitems.
  destruct (delivered_projection _ Hreq (Hitems it Hit)) as (? & ? & ?). done.
Qed.

Lemma selected_content_bound :
  selected_request → content_bound (pa_provenance_receipt prep) (sel_content sel) = true.
Proof.
  intros Hreq. destruct (selected_decision Hreq) as ((Hok & _) & Hpol & Hprov & _).
  destruct Hreq as (Hprep & _ & _ & Hsel).
  apply prepare_acquire_Ok in Hprep as (scope & current & refs & _ & _ & _ & _ & Hpo & Hpr & _).
  apply select_for_delivery_Ok in Hsel as (_ & _ & _ & items & Hitems & _ & _ & _ & -> & _).
  unfold content_bound. cbn [evidence]. rewrite <- list_fmap_compose. apply forallb_forall.
  intros e (it & -> & Hit)%list_elem_of_In%list_elem_of_fmap. rewrite Forall_forall in Hok. rewrite Forall_forall in Hitems.
  destruct (Hok _ (Hitems it Hit)) as (l & la & fp & ca & _ & _ & _ & _ & _ & _ & Hlin & _).
  rewrite Hprov in Hlin. cbn [compose evidence_of ev_lineage]. rewrite Hlin.
  cbn [run_ref decision_ref principal_ref purpose as_of policy_snapshot_ref policy_epoch
       source_acl_decision_ref decision_lineage].
  rewrite Hpr. cbn [pr_run_ref pr_decision_ref pr_principal_ref pr_purpose pr_as_of pr_policy_snapshot_ref
    pr_policy_epoch pr_source_acl_decision_ref provenance_of].
  by rewrite !bool_decide_eq_true_2, dt_eqb_refl, Z.eqb_refl.
Qed.

Lemma selected_decision_bound :
  uuid_ok (eov_organization_id (inv_organization_verification inv)) →
  uuid_ok (m_organization_id (ua_facts (inv_user_actor inv))) →
  selected_request →
  decision_bound inv (pa_policy_receipt prep) (pa_provenance_receipt prep) = true.
Proof.
  intros Hv Hf (Hprep & _).
  apply prepare_acquire_Ok in Hprep as (scope & current & refs & Hval & _ & _ & _ & Hpo & Hpr & _).
  pose proof (validated_proof_organization _ _ _ _ Hv Hf Hval) as Ho.
  apply validate_Ok in Hval as [(_ & _ & _ & _ & He & _) _].
  unfold decision_bound. rewrite Hpr.
  cbn [pr_organization_id pr_user_id pr_membership_id pr_membership_version pr_principal_ref
    pr_agent_version_ref pr_authenticated_application_ref pr_authentication_binding_ref pr_policy_epoch
    pr_request_id pr_purpose pr_effective_scope_digest provenance_of].
  rewrite Hpo. cbn [po_policy_epoch po_request_id po_purpose po_effective_scope].
  rewrite He, Ho, !bool_decide_eq_true_2, !Z.eqb_refl by done. done.
Qed.

(** C15: Honest requests are delivered.  The selection that this kernel's own steps
    produced passes every check of the finalization, for any candidates, graph
    pages, rank evidence and weights: if the actor is still active and the epoch
    still current, finalization returns, delivers the selected content unchanged
    and reports the prepared policy and provenance. *)
Theorem honest_selection_is_delivered K :
  selected_request →
  uuid_ok (eov_organization_id (inv_organization_verification inv)) →
  uuid_ok (m_organization_id (ua_facts (inv_user_actor inv))) →
  _require_active_user_actor L' (inv_user_actor inv) = Ok tt → epoch_gate_of L' port' inv = Ok true →
  ∃ r, finalize_for_delivery isprintable secret L' K port' inv sel = Ok r
    ∧ fin_content r = sel_content sel ∧ fin_policy_receipt r = pa_policy_receipt prep
    ∧ fin_provenance_receipt r = pa_provenance_receipt prep.
Proof.
  intros Hreq Hv Hf Hactor Hgate.
  pose proof (selected_content_bound Hreq) as Hcb. pose proof (selected_decision_bound Hv Hf Hreq) as Hdb.
  destruct (selected_decision Hreq) as ((_ & _ & Hbok & Hlim) & Hpol & Hprov & _ & Hscope).
  destruct Hreq as (_ & _ & _ & Hsel). pose proof (proj1 (proj1 (budget_ok_iff _) Hbok)) as Hpos.
  apply select_for_delivery_Ok in Hsel as (Hd & Hsl & Hseal & items & _ & _ & Henc & Htot & Hcontent & _).
  eexists. split.
  - apply finalize_for_delivery_Ok. exists (total_tokens items). split.
    + unfold finalize_checks. rewrite Hlim in Hsl, Hseal. rewrite Hd, Hsl, Hlim, Hpol.
      split_and!; try done; [by rewrite Hcontent, delivered_bytes_Ok|apply Htot; lia].
    + left. unfold finalize_bound. rewrite Hd, Hpol, Hprov, Hcb, Hdb. done.
  - done.
Qed.
End Delivery.

(** Only authorized content is delivered.  Resolve an Acquire request with any
    candidate index, any graph pages, weights and limits, while the durable epoch
    and the request lifetimes may change before finalization.  Every Evidence
    delivered names a fragment that the session located and projected in this
    transaction, whose Article is in the intersection of all trusted operands and
    the caller's narrowing, inside the actor's own Organization; its lineage is
    that of the reported decision; and the Policy Epoch was current both before
    discovery and at the final moment.  Afterwards every kernel lifetime that the
    request opened is closed. *)
Theorem delivery_is_authorized {Port : MaterializedProjectionPort} isprintable secret tokens L L' port port'
    index fresh inv dc request server_budget at_ limit pages w s s' r :
  resolve_acquire isprintable secret tokens L L' port port' index fresh inv dc request server_budget at_
    limit pages w s = (s', Ok r) →
  (∀ e, e ∈ evidence (fin_content r) →
     (∃ c l la fp ops,
        port_locate c = Ok (Some l) ∧ _locator_matches_candidate l c = true
        ∧ port_project l = Ok (Some fp)
        ∧ fragment_identity e
          = (cr_source_ref c, cr_resource_ref c, cr_revision_ref c, cr_fragment_ref c)
        ∧ ev_projected_field_refs e = materialized_field_refs fp
        ∧ ev_lineage e = decision_lineage inv (fin_provenance_receipt r) la
        ∧ _trusted_operands_from_snapshot L (inv_trusted_scope_snapshot inv) = Ok ops
        ∧ candidate_target c ∈ es_targets (compute_effective_scope ops (acq_narrowing request))
        ∧ cr_organization_id c = m_organization_id (ua_facts (inv_user_actor inv)))
     ∧ epoch_gate_of L port inv = Ok true ∧ epoch_gate_of L' port' inv = Ok true
     ∧ ts_policy_epoch (inv_trusted_scope_snapshot inv) = inv_policy_epoch inv)
  ∧ ∀ k, lifetime_active (ks_scopes s') k = lifetime_active (ks_scopes s) k.
Proof.
  unfold resolve_acquire. intros H.
  apply kbind_Ok in H as (s1 & prep & Hprep & H).
  apply kbind_Ok in H as (? & [cands E] & [-> _]%pure_Ok & H).
  apply kbind_Ok in H as (s2 & d0 & Hauth & H). apply kbind_Ok in H as (s3 & d & Hexp & H).
  apply kbind_Ok in H as (? & graph & Hgraph & H). unfold with_scopes in Hgraph.
  injection Hgraph as <- Hgraph. cbn [fst snd] in *.
  unfold deliver_decision in H. injection H as <- Hr. apply bind_Ok in Hr as (sel & Hsel & Hfin).
  assert (Hreq : selected_request isprintable secret L port inv dc request server_budget at_ cands limit
            pages (E ++ graph) w fresh (fresh + 1) s s1 s2 s3 prep d0 d sel) by done.
  split.
  - intros e He. pose proof (delivered_evidence _ _ _ _ _ _ _ _ _ _ _ _ _ _ _ _ _ _ _ _ _ _ _ _ _ _ _ _ _
      Hreq Hfin He) as ((c & l & la & fp & ops & Hdel) & Hrest). split; [|done].
    exists c, l, la, fp, ops.
    destruct (selected_decision _ _ _ _ _ _ _ _ _ _ _ _ _ _ _ _ _ _ _ _ _ _ _ _ Hreq)
      as (_ & _ & Hprov & _).
    apply select_for_delivery_Ok in Hsel as (Hd & _).
    apply finalize_for_delivery_Ok in Hfin as (size & _ & [(_ & _ & ->)|[_ ->]]);
      [|by apply not_elem_of_nil in He]. cbn [fin_provenance_receipt]. by rewrite Hd, Hprov.
  - cbn [ks_scopes]. unfold _close_authorization_decision.
    apply prepare_acquire_Ok in Hprep as (? & ? & ? & _ & _ & _ & _ & _ & _ & _ & Hs).
    destruct (decision_lifetime _ _ _ _ _ _ _ _ _ _ _ _ _ _ _ _ Hauth Hexp) as [[-> ->]|[-> ->]];
      rewrite Hs; [done|apply close_opened].
Qed.

(** ** What the selection seal does not cover *)

Definition with_lineage (g : EvidenceLineage → EvidenceLineage) (e : Evidence) : Evidence :=
  mkEvidence (ev_evidence_ref e) (ev_source_ref e) (ev_resource_ref e) (ev_revision_ref e)
    (ev_fragment_ref e) (ev_projected_field_refs e) (g (ev_lineage e)) (ev_citation_open_ref e)
    (ev_integrity_digest e).

(** The selection after its Evidence objects got other lineages. *)
Definition selection_with_lineage (g : EvidenceLineage → EvidenceLineage) (sel : SealedPackageSelection) :
    SealedPackageSelection :=
  mkSelection (sel_decision sel)
    (mkPackageContent (blocks (sel_content sel)) (with_lineage g <$> evidence (sel_content sel)))
    (sel_effective_budget_limits sel) (sel_integrity_seal sel).

(** [g] changes only the three access facts of a locator. *)
Definition keeps_decision_lineage (g : EvidenceLineage → EvidenceLineage) : Prop :=
  ∀ l, run_ref (g l) = run_ref l ∧ principal_ref (g l) = principal_ref l ∧ purpose (g l) = purpose l
    ∧ as_of (g l) = as_of l ∧ decision_ref (g l) = decision_ref l
    ∧ policy_snapshot_ref (g l) = policy_snapshot_ref l ∧ policy_epoch (g l) = policy_epoch l
    ∧ source_acl_decision_ref (g l) = source_acl_decision_ref l.

Lemma with_lineage_material isprintable g d bs es limits :
  _selection_integrity_material isprintable d (mkPackageContent bs (with_lineage g <$> es)) limits
  = _selection_integrity_material isprintable d (mkPackageContent bs es) limits.
Proof.
  unfold _selection_integrity_material. cbn [blocks evidence]. by rewrite <- list_fmap_compose.
Qed.

(** C34: The seal of a selection does not cover the lineage of its Evidence, because
    the lineage prints without its fields: replacing the source-access projection,
    its instant and its freshness profile in the sealed Evidence leaves the
    finalization as it was, and the replaced facts are delivered. *)
Theorem selection_seal_omits_source_access isprintable secret L K port inv sel r g :
  keeps_decision_lineage g →
  finalize_for_delivery isprintable secret L K port inv sel = Ok r → evidence (fin_content r) ≠ [] →
  ∃ r', finalize_for_delivery isprintable secret L K port inv (selection_with_lineage g sel) = Ok r'
    ∧ ev_lineage <$> evidence (fin_content r') = g ∘ ev_lineage <$> evidence (fin_content r).
Proof.
  intros Hg (size & Hchk & [(Hb & Hc & ->)|[_ ->]])%finalize_for_delivery_Ok Hne; [|by destruct Hne].
  assert (Hbound : finalize_bound inv (selection_with_lineage g sel) = true).
  { rewrite <- Hb. unfold finalize_bound, content_bound. cbn [sel_decision sel_content selection_with_lineage evidence].
    f_equal. clear -Hg. induction (evidence (sel_content sel)) as [|e es IH]; [done|].
    cbn [fmap list_fmap forallb]. f_equal; [|exact IH]. cbn [with_lineage ev_lineage].
    destruct (Hg (ev_lineage e)) as (-> & -> & -> & -> & -> & -> & -> & ->). done. }
  eexists. split.
  - apply finalize_for_delivery_Ok. exists size. split; [|left; split_and!; [exact Hbound|exact Hc|reflexivity]].
    unfold finalize_checks in *. cbn [sel_decision sel_content selection_with_lineage
      sel_effective_budget_limits sel_integrity_seal]. rewrite with_lineage_material.
    by destruct (sel_content sel).
  - cbn. by rewrite <- !list_fmap_compose.
Qed.

(** ** Issued references *)

(** Two different messages whose keyed digests agree on the 32 digits that are kept. *)
Definition truncated_collision (secret x y : pybytes) : Prop :=
  x ≠ y ∧ take 32 (hex (hmac_sha256 secret x)) = take 32 (hex (hmac_sha256 secret y)).

Definition reference_labels : list pystr :=
  [lit "package"; lit "decision"; lit "run"; lit "policy"; lit "source-acl"].

Lemma issue_material_inj a b i j :
  0 ≤ i < 2 ^ 128 → 0 ≤ j < 2 ^ 128 → issue_material a i = issue_material b j → a = b ∧ i = j.
Proof.
  unfold issue_material, be_bytes. intros Hi Hj H.
  apply app_inj_2 in H as [-> H]; [|rewrite !length_app, !length_digits; done].
  apply app_inv_head in H. split; [done|].
  apply (digits_inj 256 16); [lia|exact Hi|exact Hj|exact H].
Qed.

Lemma entropy_shape secret label i :
  length (issue_entropy secret label i) = 32%nat
  ∧ all_in hex_alphabet (issue_entropy secret label i) = true.
Proof.
  unfold issue_entropy. destruct (hmac_shape secret (issue_material label i)) as [Hl Hok]. split.
  - rewrite length_take, length_hex. lia.
  - apply hex_digits_ok in Hok. unfold all_in in *. rewrite forallb_forall in *.
    intros c Hc%list_elem_of_In. apply Hok, list_elem_of_In.
    rewrite <- (take_drop 32 (hex _)). apply elem_of_app. by left.
Qed.

Lemma closed_ref_ok prefix e :
  length e = 32%nat → all_in hex_alphabet e = true →
  _require_closed_opaque_ref (prefix ++ lit "_" ++ e) prefix = Ok (prefix ++ lit "_" ++ e).
Proof.
  intros Hl He. unfold _require_closed_opaque_ref.
  assert (Hlen : len (prefix ++ lit "_" ++ e) =? len prefix + 1 + 32 = true).
  { rewrite !len_app. unfold len. rewrite Hl. change (length (lit "_")) with 1%nat. apply Z.eqb_eq. lia. }
  assert (Hs : startswith (prefix ++ lit "_") (prefix ++ lit "_" ++ e) = true).
  { rewrite app_assoc. generalize (prefix ++ lit "_"). intros l.
    induction l as [|x l IH]; [done|]. cbn. by rewrite Z.eqb_refl. }
  rewrite Hlen, Hs. cbn [andb require mbind result_bind].
  rewrite app_assoc, drop_app_length' by (rewrite length_app; done). by rewrite He.
Qed.

(** The issuer's references are well formed and never reused.  Every issue
    advances the counter by one and returns package and decision references that
    pass the closed-format check; a later issue of the same issuer repeats one of
    the five references only if the keyed digests of that reference's two messages,
    which differ in their counter, agree on the 128 bits that are kept. *)
Theorem issued_references_fresh s s1 r1 t t1 r2 :
  issue s = (s1, Ok r1) → issue t = (t1, Ok r2) →
  iss_secret (ks_issuer t) = iss_secret (ks_issuer s) →
  0 ≤ iss_sequence (ks_issuer s) → iss_sequence (ks_issuer s1) ≤ iss_sequence (ks_issuer t) →
  iss_sequence (ks_issuer s1) = iss_sequence (ks_issuer s) + 1
  ∧ _require_closed_opaque_ref (is_package_id r1) PACKAGE_REF_PREFIX = Ok (is_package_id r1)
  ∧ _require_closed_opaque_ref (is_decision_ref r1) DECISION_REF_PREFIX = Ok (is_decision_ref r1)
  ∧ (is_package_id r1 = is_package_id r2 ∨ is_decision_ref r1 = is_decision_ref r2
     ∨ is_run_ref r1 = is_run_ref r2 ∨ is_policy_snapshot_ref r1 = is_policy_snapshot_ref r2
     ∨ is_source_acl_decision_ref r1 = is_source_acl_decision_ref r2 →
     ∃ label, label ∈ reference_labels
       ∧ truncated_collision (iss_secret (ks_issuer s))
           (issue_material label (iss_sequence (ks_issuer s) + 1)) (issue_material label (iss_sequence (ks_issuer t) + 1))).
Proof.
  unfold issue. intros H1 H2 Hsec Hseq Hord.
  destruct (Z.ltb_spec (iss_sequence (ks_issuer s) + 1) (2 ^ 128)); [|discriminate].
  destruct (Z.ltb_spec (iss_sequence (ks_issuer t) + 1) (2 ^ 128)); [|discriminate].
  injection H1 as <- <-. injection H2 as <- <-. cbn in Hord. rewrite Hsec.
  set (k := iss_secret (ks_issuer s)) in *. set (i := iss_sequence (ks_issuer s) + 1) in *.
  set (j := iss_sequence (ks_issuer t) + 1) in *.
  assert (Hne : ∀ label, label ∈ reference_labels → issue_entropy k label i = issue_entropy k label j →
            ∃ label, label ∈ reference_labels ∧ truncated_collision k (issue_material label i) (issue_material label j)).
  { intros label Hin He. exists label. split; [exact Hin|]. split; [|exact He]. intros [_ ?]%issue_material_inj; lia. }
  split_and!; [done|..].
  - apply closed_ref_ok; apply entropy_shape.
  - apply closed_ref_ok; apply entropy_shape.
  - cbn [is_package_id is_decision_ref is_run_ref is_policy_snapshot_ref is_source_acl_decision_ref
         issued_references].
    intros [H'|[H'|[H'|[H'|H']]]]; repeat apply app_inv_head in H';
      (eapply Hne; [|exact H']); apply (bool_decide_unpack _); by vm_compute.
Qed.
