(* ===== verification/KernelRun.v ===== *)
(** * A concrete request through the kernel

    One Acquire request over a port with one Article, evaluated from preparation to
    delivery; the instances of the kernel's theorems are taken from it. *)

From S2P Require Import Prelude Codec Sha256 Datetime Budget Scope Evidence Ranking AuthorizedRanking Materialized Trusted Pyrepr Kernel KernelFacts.

(** ** A concrete request *)

Definition run_port : MaterializedProjectionPort := {|
  port_locate c := Ok (if bool_decide (c = demo_candidate "f1") then Some (demo_locator "f1")
                       else if bool_decide (c = demo_candidate "f2") then Some (demo_locator "f2")
                       else None);
  port_project l := Ok (if bool_decide (l = demo_locator "f1") then Some (demo_body "first")
                        else if bool_decide (l = demo_locator "f2") then Some (demo_body "second")
                        else None);
  port_discover_exact_phrase := None;
  port_discover_fts := Some (λ _ _, Ok [demo_candidate "f1"]);
  port_discover_vector := None;
  port_discover_one_hop :=
    Some (λ _ _ offset, Ok (if offset =? 0
      then [mkMaterializedOneHopCandidate (demo_candidate "f1") (demo_candidate "f2")] else []));
  port_read_fragment_window := None
|}.

Definition run_index : CandidateIndex := {|
  index_prepare _ _ := Ok (FtsRequest (mkFts (lit "query") 3 None None));
  index_discover _ ds _ :=
    cs ← _candidate_discovery_ranker_candidates ds (lit "fts");
    Ok (mkCandidateQuery [mkRankedCandidateList (lit "fts") ((λ c, mkRankedCandidate c None) <$> cs)])
|}.

Definition run_epoch : PolicyEpochVerification :=
  mkPolicyEpochVerification 2 (mkUUID 5) 5 (mkPolicyEpochSession 1 (mkUUID 5) 0).
Definition run_time : datetime := mkDatetime (719162 * us_per_day) (Some 0).
Definition run_session : MaterializedProjectionSession := mkSession 0 3.
Definition run_facts : MembershipFacts :=
  mkMembershipFacts (mkUUID 5) (mkUUID 2) (mkUUID 3) 7 (lit "principal") (lit "request")
    (lit "binding") run_time 5 run_epoch (Some run_session) None None None None None.
Definition run_operands : TrustedScopeOperands :=
  let s := ScopeSet {[ candidate_target (demo_candidate "f1") ]} in mkTrustedScopeOperands s s s s s s s.
Definition run_invocation : AuthenticatedInvocation :=
  mkAuthenticatedInvocation (lit "request") (uuid_str (mkUUID 5)) (uuid_str (mkUUID 2))
    (lit "principal") (uuid_str (mkUUID 3)) 7 5 (lit "agent") (lit "app") (lit "binding") run_time
    (mkExistingOrganizationVerification (mkUUID 5) (lit "request") (lit "binding") run_time)
    (mkUserActor run_facts (mkCurrentMembershipVerification run_facts 1))
    (mkTrustedScopeSnapshot (mkUUID 5) (mkUUID 2) (mkUUID 3) 7 5 (lit "principal") (lit "agent")
       (lit "answer") (lit "request") (lit "binding") run_time run_operands 2).
Definition run_delivery : TrustedDeliveryContext :=
  mkTrustedDeliveryContext (lit "answer") (lit "app") (lit "binding") run_time
    AUTHENTICATED_DIRECT_INGRESS None None None None None.
Definition run_lifetimes : lifetimes := [true; true; true; true].
Definition run_authority : epoch_port := λ _, Ok (OInt 5).
Definition run_request : Acquire := mkAcquire (lit "query") None None.
Definition run_budget : PackageBudget := mkPackageBudget 100 8 9 7.
Definition run_state : kernel_state := mkKernelState [] (mkIssuer (lit "secret") 0) 0.
Definition run_tokens (s : pystr) : gset (list Z) := {[ s ]}.
Definition run : kernel_state * result FinalizedAuthorizationResult :=
  resolve_acquire (Port := run_port) (λ _, true) (lit "key") run_tokens run_lifetimes run_lifetimes
    run_authority run_authority (Some run_index) 1 run_invocation run_delivery run_request run_budget run_time
    10 4 None run_state.

Definition run_summary (o : kernel_state * result FinalizedAuthorizationResult) :
    option (list bool * list (list Z) * Z) :=
  match o with
  | (s, Ok r) => Some (ks_scopes s, bl_body <$> blocks (fin_content r), len (evidence (fin_content r)))
  | _ => None
  end.

(** The request delivers the one candidate the index submitted and closes its
    lifetime; the graph neighbour has no rank evidence and is left out. *)
Lemma run_result : run_summary run = Some ([false], [lit "first"], 1).
Proof. vm_compute. reflexivity. Qed.

Lemma run_resolved :
  ∃ s' r, run = (s', Ok r) ∧ ks_scopes s' = [false] ∧ evidence (fin_content r) ≠ [].
Proof.
  pose proof run_result as H. destruct run as [s' [r|e]]; [|done]. exists s', r. cbn in H.
  injection H as Hs _ Hl. split_and!; try done. intros Hn. by rewrite Hn in Hl.
Qed.

(** Its intermediate values. *)
Lemma run_steps :
  ∃ s1 s2 s3 prep d0 d cands E sel r,
    selected_request (Port := run_port) (λ _, true) (lit "key") run_lifetimes run_authority run_invocation
      run_delivery run_request run_budget run_time cands 10 4 E None 1 (1 + 1) run_state s1 s2 s3 prep d0 d sel
    ∧ finalize_for_delivery (λ _, true) (lit "key") run_lifetimes (ks_scopes s3) run_authority run_invocation sel
      = Ok r
    ∧ evidence (fin_content r) ≠ [].
Proof.
  destruct run_resolved as (s' & r & H & _ & Hne). unfold run, resolve_acquire in H.
  apply kbind_Ok in H as (s1 & prep & Hprep & H).
  apply kbind_Ok in H as (? & [cands E] & [-> _]%pure_Ok & H).
  apply kbind_Ok in H as (s2 & d0 & Hauth & H). apply kbind_Ok in H as (s3 & d & Hexp & H).
  apply kbind_Ok in H as (? & graph & Hgraph & H). unfold with_scopes in Hgraph.
  injection Hgraph as <- Hgraph. unfold deliver_decision in H. injection H as _ Hr.
  apply bind_Ok in Hr as (sel & Hsel & Hfin).
  exists s1, s2, s3, prep, d0, d, cands, (E ++ graph), sel, r.
  split; [split; [exact Hprep|split; [exact Hauth|split; [exact Hexp|exact Hsel]]]|].
  split; [exact Hfin|exact Hne].
Qed.

Lemma delivery_is_authorized_witness :
  ∃ s' r e, run = (s', Ok r) ∧ e ∈ evidence (fin_content r)
    ∧ epoch_gate_of run_lifetimes run_authority run_invocation = Ok true
    ∧ ∀ k, lifetime_active (ks_scopes s') k = lifetime_active [] k.
Proof.
  destruct run_resolved as (s' & r & H & _ & Hne).
  destruct (delivery_is_authorized (Port := run_port) _ _ _ _ _ _ _ _ _ _ _ _ _ _ _ _ _ _ _ _ H)
    as [Hev Hclosed].
  destruct (evidence (fin_content r)) as [|e es] eqn:Ee; [by destruct Hne|].
  exists s', r, e. split; [exact H|]. rewrite Ee. split; [by left|].
  destruct (Hev e) as (_ & Hgate & _); [by left|]. split; [exact Hgate|exact Hclosed].
Defined.

Lemma honest_selection_is_delivered_witness :
  ∃ sel r, finalize_for_delivery (λ _, true) (lit "key") run_lifetimes [true] run_authority run_invocation sel
      = Ok r ∧ fin_content r = sel_content sel.
Proof.
  destruct run_steps as (s1 & s2 & s3 & prep & d0 & d & cands & E & sel & r & Hreq & _).
  destruct (honest_selection_is_delivered (Port := run_port) _ _ _ run_lifetimes _ run_authority
              _ _ _ _ _ _ _ _ _ _ _ _ _ _ _ _ _ _ _ _ [true] Hreq) as (r' & Hr' & Hc & _).
  - unfold uuid_ok. cbn. lia.
  - unfold uuid_ok. cbn. lia.
  - vm_compute. reflexivity.
  - vm_compute. reflexivity.
  - exists sel, r'. split; [exact Hr'|exact Hc].
Defined.

Lemma final_veto_witness :
  ∃ K sel r, finalize_for_delivery (λ _, true) (lit "key") run_lifetimes K run_authority run_invocation sel
      = Ok r ∧ evidence (fin_content r) ≠ []
    ∧ au_authorized_evidence_count (fin_audit_receipt r) = len (evidence (fin_content r)).
Proof.
  destruct run_steps as (s1 & s2 & s3 & prep & d0 & d & cands & E & sel & r & _ & Hfin & Hne).
  destruct (final_veto _ _ _ _ _ _ _ _ Hfin) as (_ & _ & _ & Hcount & _).
  exists (ks_scopes s3), sel, r. split; [exact Hfin|]. split; [exact Hne|exact Hcount].
Defined.

Lemma one_hop_stays_authorized_witness :
  ∃ s2 s3 prep d0 d cands,
    expand_one_hop (Port := run_port) (λ _, true) (lit "key") run_lifetimes 2 run_invocation prep cands 10 4 d0 s2
      = (s3, Ok d)
    ∧ Z.of_nat (size (ad_expanded_candidate_refs d)) ≤ 10.
Proof.
  destruct run_steps as (s1 & s2 & s3 & prep & d0 & d & cands & E & sel & r & (_ & Hauth & Hexp & _) & _).
  exists s2, s3, prep, d0, d, cands. split; [exact Hexp|].
  destruct (authorize_acquire_decision _ _ _ _ _ _ _ _ _ _ _ Hauth) as (Hok & Hpol & Hprov & _ & Hempty & _).
  destruct (one_hop_stays_authorized (Port := run_port) _ _ _ _ _ _ _ _ _ _ _ _ _ Hexp Hpol Hprov Hok Hempty)
    as (_ & _ & Hsize & _); [lia|]. exact Hsize.
Defined.

(** The access facts of a locator, replaced. *)
Definition run_other_access (l : EvidenceLineage) : EvidenceLineage :=
  mkEvidenceLineage (run_ref l) (principal_ref l) (purpose l) (as_of l) (decision_ref l)
    (policy_snapshot_ref l) (policy_epoch l) (source_acl_decision_ref l) (lit "other") (as_of l)
    (lit "other-profile").

Lemma selection_seal_omits_source_access_witness :
  ∃ K sel r', finalize_for_delivery (λ _, true) (lit "key") run_lifetimes K run_authority run_invocation
                (selection_with_lineage run_other_access sel) = Ok r'
    ∧ ∃ e, e ∈ evidence (fin_content r') ∧ source_acl_projection_ref (ev_lineage e) = lit "other".
Proof.
  destruct run_steps as (s1 & s2 & s3 & prep & d0 & d & cands & E & sel & r & _ & Hfin & Hne).
  destruct (selection_seal_omits_source_access _ _ _ _ _ _ _ _ run_other_access (λ l, ltac:(split_and!; exact eq_refl))
              Hfin Hne) as (r' & Hr' & Hlin).
  exists (ks_scopes s3), sel, r'. split; [exact Hr'|].
  destruct (evidence (fin_content r)) as [|e es]; [by destruct Hne|].
  destruct (evidence (fin_content r')) as [|e' es']; [discriminate Hlin|].
  exists e'. split; [by left|]. injection Hlin as Hl _. rewrite Hl. reflexivity.
Defined.

Lemma authorization_exact_witness :
  ∃ s' ps sc, _authorize_and_project (Port := run_port) run_lifetimes run_invocation
      (mkPolicyReceipt (lit "request") (lit "answer") 5 (compute_effective_scope run_operands None))
      (provenance_of run_invocation
         (mkPolicyReceipt (lit "request") (lit "answer") 5 (compute_effective_scope run_operands None))
         run_time (mkIssued (lit "pkg") (lit "dec") (lit "run") (lit "policy") (lit "acl")))
      [demo_candidate "f2"; demo_candidate "f1"; demo_candidate "f3"] (Some run_session) None run_state
    = (s', Ok (ps, sc))
    ∧ candidate_ref <$> ps = [demo_candidate "f1"; demo_candidate "f2"] ∧ NoDup (candidate_ref <$> ps).
Proof.
  set (run_project := _authorize_and_project _ _ _ _ _ _ _ _).
  assert (Hsum : match run_project with
                 | (_, Ok (ps, _)) => bool_decide (candidate_ref <$> ps = [demo_candidate "f1"; demo_candidate "f2"])
                 | _ => false end = true) by (vm_compute; reflexivity).
  destruct run_project as [s' [[ps sc]|e]] eqn:H; [|discriminate]. exists s', ps, sc.
  apply bool_decide_eq_true in Hsum.
  destruct (authorization_exact (Port := run_port) _ _ _ _ _ _ _ _ _ H) as (_ & _ & _ & _ & Hnd).
  split; [reflexivity|]. split; [exact Hsum|exact Hnd].
Defined.

Lemma issued_references_fresh_witness :
  let s i := mkKernelState [] (mkIssuer (lit "secret") i) 0 in
  ∃ r1 r2, issue (s 0) = (s 1, Ok r1) ∧ issue (s 1) = (s 2, Ok r2)
    ∧ _require_closed_opaque_ref (is_package_id r1) PACKAGE_REF_PREFIX = Ok (is_package_id r1).
Proof.
  intros s. exists (issued_references (lit "secret") 1), (issued_references (lit "secret") 2).
  assert (H1 : issue (s 0) = (s 1, Ok (issued_references (lit "secret") 1))) by reflexivity.
  assert (H2 : issue (s 1) = (s 2, Ok (issued_references (lit "secret") 2))) by reflexivity.
  destruct (issued_references_fresh _ _ _ _ _ _ H1 H2) as (_ & Hp & _); [reflexivity|cbn; lia|cbn; lia|].
  split; [exact H1|]. split; [exact H2|exact Hp].
Defined.
