(* ===== verification/Windows.v ===== *)
(** * Fragment windows: [src/engine/runtime/fragment_window.py]

    The bounded window around an already authorized Fragment and its expansion by the
    kernel ([AuthorizationKernel.expand_fragment_window]).  The retained transaction
    makes the authoritative read; a composed reader, which may answer anything, returns
    a read that must agree with it value for value. *)

From S2P Require Import Prelude Codec Datetime Scope Evidence Materialized Trusted Kernel KernelFacts.

(** ** Requests *)

Record FragmentWindowRequest := mkWindowRequest {
  fw_anchor : AuthorizedProjection;
  fw_before : Z;
  fw_after : Z;
  fw_expansion_candidates : list CandidateRef
}.
(** [__post_init__] *)
Definition new_FragmentWindowRequest (r : FragmentWindowRequest) : result FragmentWindowRequest :=
  require ((0 <=? fw_before r) && (fw_before r <=? 32) && (0 <=? fw_after r) && (fw_after r <=? 32)) ValueError ;;
  require (len (fw_expansion_candidates r) <=? 64) ValueError ;;
  Ok r.

Record FragmentWindowResult := mkWindowResult {
  wr_projections : list AuthorizedProjection;
  wr_reauthorization_refs : list CandidateRef
}.

(** ** The session a reader receives *)

Record FragmentWindowSession := mkWindowSession { ws_active : bool; ws_read : MaterializedFragmentWindowRead }.
Definition _construct_fragment_window_session (read : MaterializedFragmentWindowRead) : FragmentWindowSession :=
  mkWindowSession true read.
Definition _read_fragment_window_session (session : FragmentWindowSession) : result MaterializedFragmentWindowRead :=
  require (ws_active session) ValueError ;; Ok (ws_read session).
Definition _close_fragment_window_session (session : FragmentWindowSession) : FragmentWindowSession :=
  mkWindowSession false (mkWindowRead [] []).

(** ** The snapshot of a read *)

Definition projection_kind_value (k : MaterializedProjectionKind) : pystr :=
  match k with LEGACY_BODY => lit "body" | STRUCTURED_FIELDS => lit "fields" end.

(** The primitive values of one item, of one candidate and of a read. *)
Record item_values := mkItemValues {
  iv_organization : list Z;
  iv_refs : list (list Z);
  iv_acl_as_of : list Z;
  iv_freshness : list Z;
  iv_kind : list Z;
  iv_fields : list (list Z * list Z * Z);
  iv_ceiling : list (list Z)
}.
#[export] Instance item_values_eq_dec : EqDecision item_values.
Proof. solve_decision. Defined.
Definition item_snapshot (i : MaterializedFragmentWindowItem) : item_values :=
  let l := wi_locator i in
  let p := wi_projection i in
  mkItemValues (uuid_bytes (loc_organization_id l))
    [loc_source_ref l; loc_resource_ref l; loc_revision_ref l; loc_fragment_ref l; loc_source_acl_projection_ref l]
    (isoformat_us (loc_source_acl_as_of l)) (loc_source_acl_freshness_profile_ref l) (projection_kind_value (kind p))
    ((λ f, (field_ref f, field_value f, ordinal f)) <$> fields p) (sorted (elements (projection_ceiling p))).
Definition candidate_snapshot (c : CandidateRef) : list (list Z) :=
  uuid_bytes (cr_organization_id c) :: candidate_texts c.
Definition _fragment_window_read_snapshot (read : MaterializedFragmentWindowRead) :
    list item_values * list (list (list Z)) :=
  (item_snapshot <$> mw_items read, candidate_snapshot <$> mw_reauthorization_refs read).

(** ** The expansion *)

Section Expand.
Context {Port : MaterializedProjectionPort}.

Definition anchor_locator (anchor : AuthorizedProjection) : MaterializedFragmentLocator :=
  let c := candidate_ref anchor in
  let l := lineage anchor in
  mkMaterializedFragmentLocator (cr_organization_id c) (cr_source_ref c) (cr_resource_ref c) (cr_revision_ref c)
    (cr_fragment_ref c) (source_acl_projection_ref l) (source_acl_as_of l) (source_acl_freshness_profile_ref l).

Definition inherited_item (K : kernel_scopes) (anchor : AuthorizedProjection) (item : MaterializedFragmentWindowItem) :
    result AuthorizedProjection :=
  c ← CandidateRef_post_init (locator_candidate (wi_locator item));
  _construct_inherited_authorized_projection K anchor c (rendered_body (wi_projection item))
    (materialized_field_refs (wi_projection item)).

(** [AuthorizationKernel.expand_fragment_window]; [Ok None] is an answer of the reader
    that is not a read. *)
Definition expand_fragment_window (T : lifetimes) (K : kernel_scopes)
    (reader : option (FragmentWindowRequest → FragmentWindowSession → result (option MaterializedFragmentWindowRead)))
    (request : FragmentWindowRequest) (projection_session : MaterializedProjectionSession) :
    result FragmentWindowResult :=
  match reader with
  | None => Err RuntimeConfigurationError
  | Some read_window =>
      let anchor := fw_anchor request in
      MaterializedFragmentLocator_post_init (anchor_locator anchor) ;;
      authoritative_read ← _read_materialized_fragment_window T projection_session (anchor_locator anchor)
                             (fw_before request) (fw_after request) (fw_expansion_candidates request);
      let authoritative_snapshot := _fragment_window_read_snapshot authoritative_read in
      answer ← read_window request (_construct_fragment_window_session authoritative_read);
      match answer with
      | None => Err TypeError
      | Some read =>
          require (bool_decide (_fragment_window_read_snapshot read = authoritative_snapshot)) ValueError ;;
          projections ← map_result (inherited_item K anchor) (mw_items read);
          require (negb (existsb (λ c, same_article c (candidate_ref anchor)) (mw_reauthorization_refs read)))
            ValueError ;;
          Ok (mkWindowResult projections (mw_reauthorization_refs read))
      end
  end.
End Expand.

(** ** What an expansion guarantees *)

Lemma projection_kind_value_inj k k' : projection_kind_value k = projection_kind_value k' → k = k'.
Proof. destruct k, k'; done. Qed.

Lemma sorted_set_inj (X Y : gset pystr) : sorted (elements X) = sorted (elements Y) → X = Y.
Proof.
  intros H. apply leibniz_equiv. intros x. rewrite <- !elem_of_elements.
  rewrite <- (sorted_by_perm (λ x, x) (elements X)), <- (sorted_by_perm (λ x, x) (elements Y)).
  unfold sorted in H. by rewrite H.
Qed.

(** A snapshot determines the projection and, within one Organization, the candidate. *)
Lemma item_snapshot_inj i j :
  item_snapshot i = item_snapshot j → loc_organization_id (wi_locator i) = loc_organization_id (wi_locator j) →
  wi_projection i = wi_projection j ∧ locator_candidate (wi_locator i) = locator_candidate (wi_locator j).
Proof.
  destruct i as [l [k fs ce]], j as [l' [k' fs' ce']]. unfold item_snapshot.
  cbn [wi_locator wi_projection kind fields projection_ceiling]. intros H Ho.
  pose proof (f_equal iv_refs H) as Hr. pose proof (f_equal iv_kind H) as Hk.
  pose proof (f_equal iv_fields H) as Hf. pose proof (f_equal iv_ceiling H) as Hc.
  cbn [iv_refs iv_kind iv_fields iv_ceiling] in *. apply projection_kind_value_inj in Hk as <-. apply sorted_set_inj in Hc as <-.
  assert (fs = fs') as <-.
  { revert Hf. apply inj. apply list_fmap_eq_inj. intros [a b c] [a' b' c']. cbn. by intros [= -> -> ->]. }
  split; [done|]. unfold locator_candidate. injection Hr as -> -> -> -> _. by rewrite Ho.
Qed.

Lemma candidate_snapshot_inj c d :
  uuid_ok (cr_organization_id c) → uuid_ok (cr_organization_id d) → candidate_snapshot c = candidate_snapshot d → c = d.
Proof.
  destruct c as [o1 s1 r1 v1 f1], d as [o2 s2 r2 v2 f2]. unfold candidate_snapshot, candidate_texts.
  cbn [cr_organization_id cr_source_ref cr_resource_ref cr_revision_ref cr_fragment_ref]. intros Hc Hd H.
  pose proof (f_equal (hd []) H) as Ho. apply (f_equal tail) in H. cbn [hd tail] in *. injection H as -> -> -> ->.
  by apply uuid_bytes_inj in Ho as ->.
Qed.

Lemma cons_inv {A} (x y : A) l k : x :: l = y :: k → x = y ∧ l = k.
Proof. by intros [= -> ->]. Qed.

Section WindowFacts.
Context {Port : MaterializedProjectionPort} (T : lifetimes) (K : kernel_scopes).

Lemma inherited_item_Ok anchor item p :
  inherited_item K anchor item = Ok p →
  let c := locator_candidate (wi_locator item) in
  same_revision c (candidate_ref anchor) = true ∧ projection_active K p ∧ candidate_ref p = c
  ∧ projected_body p = rendered_body (wi_projection item)
  ∧ projected_field_refs p = materialized_field_refs (wi_projection item)
  ∧ lineage p = lineage anchor ∧ _kernel_scope p = _kernel_scope anchor.
Proof.
  unfold inherited_item, _construct_inherited_authorized_projection. intros H.
  apply bind_Ok in H as (c & [-> _]%candidate_post_init_Ok & H). apply bind_Ok in H as (? & _ & H).
  apply bind_Ok in H as (? & Hs%require_Ok & H). by apply construct_projection_Ok in H as [-> Hp].
Qed.

Lemma same_revision_organization c a : same_revision c a = true → cr_organization_id c = cr_organization_id a.
Proof. unfold same_revision. rewrite !andb_true_iff, !bool_decide_eq_true. tauto. Qed.

(** Items with equal snapshots in the anchor's Revision are inherited alike. *)
Lemma inherited_same anchor items items' ps :
  item_snapshot <$> items = item_snapshot <$> items' →
  Forall (λ i, same_revision (locator_candidate (wi_locator i)) (candidate_ref anchor) = true) items' →
  map_result (inherited_item K anchor) items = Ok ps → map_result (inherited_item K anchor) items' = Ok ps.
Proof.
  revert items' ps. induction items as [|i items IH]; intros [|j items'] ps Hs Hall H; try done.
  apply cons_inv in Hs as [Hij Hs]. apply Forall_cons in Hall as [Hj Hall]. cbn [map_result] in H |- *.
  apply bind_Ok in H as (p & Hp & H). apply bind_Ok in H as (ps' & Hps & H).
  pose proof (inherited_item_Ok _ _ _ Hp) as (Hi & _).
  destruct (item_snapshot_inj i j Hij) as [E1 E2].
  { apply same_revision_organization in Hi, Hj. cbn in Hi, Hj. congruence. }
  replace (inherited_item K anchor j) with (inherited_item K anchor i) by (unfold inherited_item; by rewrite E1, E2).
  rewrite Hp. cbn [mbind result_bind]. by rewrite (IH _ _ Hs Hall Hps).
Qed.

Definition refs_in_range (read : MaterializedFragmentWindowRead) : Prop :=
  Forall (λ c, uuid_ok (cr_organization_id c)) (mw_reauthorization_refs read).

(** The authoritative read of the retained transaction. *)
Lemma authoritative_read_Ok session anchor before after candidates read :
  _read_materialized_fragment_window T session (anchor_locator anchor) before after candidates = Ok read →
  (0 ≤ before ≤ 32 ∧ 0 ≤ after ≤ 32 ∧ len candidates ≤ 64)
  ∧ T !! session_scope session = Some true
  ∧ (∃ f, port_read_fragment_window = Some f ∧ f (anchor_locator anchor) before after candidates = Ok read)
  ∧ Forall (λ i, same_revision (locator_candidate (wi_locator i)) (candidate_ref anchor) = true) (mw_items read)
  ∧ NoDup (mw_reauthorization_refs read)
  ∧ Forall (λ c, same_article c (candidate_ref anchor) = false) (mw_reauthorization_refs read).
Proof.
  unfold _read_materialized_fragment_window, _require_active_materialized_projection_session. intros H.
  apply bind_Ok in H as (? & Ht & H). destruct (T !! session_scope session) as [[]|] eqn:Hs; [|discriminate Ht..].
  apply bind_Ok in H as (? & Hb%require_Ok & H). apply bind_Ok in H as (? & Hl%require_Ok & H).
  destruct port_read_fragment_window as [f|]; [|discriminate H]. apply bind_Ok in H as (read' & Hf & H).
  apply bind_Ok in H as (? & Hi & H). apply bind_Ok in H as (? & Hn%require_Ok & H).
  apply bind_Ok in H as (? & Ha%require_Ok & <-%Ok_inj).
  destruct x. rewrite each_Ok in Hi. apply negb_true_iff in Ha. unfold nodupb in Hn. apply bool_decide_eq_true in Hn.
  rewrite !andb_true_iff, !Z.leb_le in Hb. apply Z.leb_le in Hl.
  assert (E : locator_candidate (anchor_locator anchor) = candidate_ref anchor) by (unfold locator_candidate, anchor_locator; by destruct (candidate_ref anchor)).
  rewrite E in *. split_and!; try done; try tauto; [by exists f| |].
  - eapply Forall_impl; [exact Hi|]. by intros i ?%require_Ok.
  - apply Forall_forall. intros c Hc. apply not_true_iff_false. intros Hsame. apply not_true_iff_false in Ha. apply Ha.
    apply existsb_exists. exists c. split; [by apply list_elem_of_In|done].
Qed.

(** C27: A window inherits exactly what the transaction reads, whatever the reader does.
    The projections of an expansion are those of the authoritative read of the retained
    transaction for the anchor, in order: each is a Fragment of the anchor's own Article
    and Revision, with the body and fields of the read, the anchor's lineage and the
    anchor's kernel lifetime, which is live.  The references it hands on for
    reauthorization are those of the same read, distinct and of other Articles.  The
    window has at most 32 Fragments on either side and 64 candidates.  A composed reader
    can refuse but not change the result. *)
Theorem fragment_window_is_inherited reader request session r :
  (∀ s read, refs_in_range (ws_read s) → reader request s = Ok (Some read) → refs_in_range read) →
  (∀ f l b a cs read, port_read_fragment_window = Some f → f l b a cs = Ok read → refs_in_range read) →
  expand_fragment_window T K (Some reader) request session = Ok r →
  let anchor := fw_anchor request in
  (0 ≤ fw_before request ≤ 32 ∧ 0 ≤ fw_after request ≤ 32 ∧ len (fw_expansion_candidates request) ≤ 64)
  ∧ ∃ f read,
      port_read_fragment_window = Some f
      ∧ f (anchor_locator anchor) (fw_before request) (fw_after request) (fw_expansion_candidates request) = Ok read
      ∧ wr_reauthorization_refs r = mw_reauthorization_refs read
      ∧ NoDup (wr_reauthorization_refs r)
      ∧ Forall (λ c, same_article c (candidate_ref anchor) = false) (wr_reauthorization_refs r)
      ∧ Forall2 (λ i p, candidate_ref p = locator_candidate (wi_locator i)
                        ∧ same_revision (candidate_ref p) (candidate_ref anchor) = true
                        ∧ projected_body p = rendered_body (wi_projection i)
                        ∧ projected_field_refs p = materialized_field_refs (wi_projection i)
                        ∧ lineage p = lineage anchor ∧ _kernel_scope p = _kernel_scope anchor ∧ projection_active K p)
          (mw_items read) (wr_projections r).
Proof.
  intros Hreader Hport H anchor. unfold expand_fragment_window in H. apply bind_Ok in H as (? & _ & H).
  apply bind_Ok in H as (read & (Hb & _ & (f & Hf & Hread) & Hitems & Hnd & Hart)%authoritative_read_Ok & H).
  apply bind_Ok in H as ([answer|] & Ha & H); [|discriminate H].
  apply bind_Ok in H as (? & Hsnap%require_Ok & H). apply bool_decide_eq_true in Hsnap.
  apply bind_Ok in H as (ps & Hps & H). apply bind_Ok in H as (? & _ & <-%Ok_inj).
  unfold _fragment_window_read_snapshot in Hsnap. pose proof (f_equal fst Hsnap) as Hsi. pose proof (f_equal snd Hsnap) as Hsc. cbn [fst snd] in Hsi, Hsc.
  assert (Hrefs : mw_reauthorization_refs answer = mw_reauthorization_refs read).
  { pose proof (Hport _ _ _ _ _ _ Hf Hread) as H2. pose proof (Hreader (mkWindowSession true read) answer H2 Ha) as H1. unfold refs_in_range in *.
    revert Hsc H1 H2. generalize (mw_reauthorization_refs answer), (mw_reauthorization_refs read).
    intros l. induction l as [|c l IH]; intros [|d l'] Hs H1 H2; try done.
    apply cons_inv in Hs as [Hcd Hs].
    apply Forall_cons in H1 as [Hc H1]. apply Forall_cons in H2 as [Hd H2]. f_equal; [by apply candidate_snapshot_inj|by apply IH]. }
  split; [done|]. exists f, read. cbn [wr_reauthorization_refs wr_projections]. rewrite Hrefs. split_and!; try done.
  pose proof (inherited_same _ _ _ _ Hsi Hitems Hps) as Hauth. apply map_result_Ok in Hauth.
  eapply Forall2_impl; [exact Hauth|]. intros i p (Hs & Hp & -> & ?)%inherited_item_Ok. split_and!; tauto.
Qed.
End WindowFacts.

(** ** A window of one neighbour *)

Definition window_read : MaterializedFragmentWindowRead :=
  mkWindowRead [mkWindowItem (demo_locator "f1") (demo_body "first"); mkWindowItem (demo_locator "f2") (demo_body "second")]
    [mkCandidateRef (mkUUID 5) (lit "source") (lit "other") (lit "revision") (lit "f1")].
Definition window_port : MaterializedProjectionPort := {|
  port_locate := @port_locate demo_port;
  port_project := @port_project demo_port;
  port_discover_exact_phrase := None;
  port_discover_fts := None;
  port_discover_vector := None;
  port_discover_one_hop := None;
  port_read_fragment_window := Some (λ _ _ _ _, Ok window_read)
|}.
(** A reader that hands back what its session shows it. *)
Definition window_reader (_ : FragmentWindowRequest) (s : FragmentWindowSession) :
    result (option MaterializedFragmentWindowRead) :=
  read ← _read_fragment_window_session s; Ok (Some read).
Definition window_request : FragmentWindowRequest := mkWindowRequest (demo_projection "f1" "first") 1 1 [].
Lemma window_refs_in_range : refs_in_range window_read.
Proof. repeat constructor; unfold uuid_ok; cbn; lia. Qed.

Lemma fragment_window_is_inherited_witness :
  ∃ r, expand_fragment_window (Port := window_port) [true] [true] (Some window_reader) window_request (mkSession 0 0) = Ok r
    ∧ projected_body <$> wr_projections r = [lit "first"; lit "second"]
    ∧ Forall (λ c, same_article c (demo_candidate "f1") = false) (wr_reauthorization_refs r).
Proof.
  assert (Hs : match expand_fragment_window (Port := window_port) [true] [true] (Some window_reader) window_request
                       (mkSession 0 0) with
               | Ok r => bool_decide (projected_body <$> wr_projections r = [lit "first"; lit "second"])
               | Err _ => false end = true) by (vm_compute; reflexivity).
  destruct (expand_fragment_window _ _ _ _ _) as [r|e] eqn:H; [|discriminate Hs]. apply bool_decide_eq_true in Hs.
  assert (Hr : ∀ s read, refs_in_range (ws_read s) → window_reader window_request s = Ok (Some read) →
                 refs_in_range read).
  { intros [[] q] read Hq Hread; [|discriminate Hread]. cbn in Hread. injection Hread as <-. exact Hq. }
  assert (Hp : ∀ f l b a cs read, @port_read_fragment_window window_port = Some f → f l b a cs = Ok read →
                 refs_in_range read).
  { intros f l b a cs read Hf Hread. injection Hf as <-. injection Hread as <-. exact window_refs_in_range. }
  destruct (fragment_window_is_inherited (Port := window_port) [true] [true] window_reader window_request (mkSession 0 0) r
              Hr Hp H) as (_ & f & read & _ & _ & _ & _ & Hart & _).
  exists r. split; [reflexivity|]. split; [exact Hs|exact Hart].
Defined.
