(* ===== verification/DeliveryEvidence.v ===== *)
(** * Private delivery evidence: [src/engine/runtime/delivery_evidence.py]

    Opaque single-use evidence that a private destination belongs to one Membership.
    The identity adapter issues it and stores only its digest with the exact bindings;
    a request redeems it against its own authenticated facts.  Redemption scopes are
    lifetimes; the ports' answers and the generated references are arguments, and an
    operation returns the calls it made. *)

From S2P Require Import Prelude Codec Sha256 Datetime Json Trusted.

Definition DELIVERY_EVIDENCE_DIGEST_PROFILE : pystr := lit "delivery-evidence-ref-sha256-v1".
Definition PRIVATE_AUDIENCE_DIGEST_PROFILE : pystr := lit "private-delivery-audience-rfc8785-sha256-v1".
Definition PRIVATE_DELIVERY_EVIDENCE_PROFILE : pystr := lit "private-delivery-evidence-v1".
Definition DELIVERY_EVIDENCE_RETENTION_CLASS : pystr := lit "short_lived_digest_only".
Definition PRIVATE_DELIVERY_KIND : pystr := lit "private".

(** ** Issuance *)

Record DeliveryEvidenceProfile := mkEvidenceProfile {
  dp_profile_ref : pystr;
  dp_maximum_ttl : Z;
  dp_retention_class : pystr
}.
Definition new_DeliveryEvidenceProfile (p : DeliveryEvidenceProfile) : result DeliveryEvidenceProfile :=
  require (nonempty_ref (dp_profile_ref p)) ValueError ;;
  require (0 <? dp_maximum_ttl p) ValueError ;;
  require (bool_decide (dp_retention_class p = DELIVERY_EVIDENCE_RETENTION_CLASS)) ValueError ;;
  Ok p.

Record PrivateDeliveryEvidenceIssue := mkEvidenceIssue {
  di_organization_id : UUID;
  di_user_id : UUID;
  di_membership_id : UUID;
  di_membership_version : Z;
  di_authenticated_service_ref : pystr;
  di_authentication_binding_ref : pystr;
  di_request_id : pystr;
  di_destination_ref : pystr;
  di_consumer_ref : pystr;
  di_purpose : pystr;
  di_policy_epoch : Z;
  di_issued_at : datetime;
  di_expires_at : datetime;
  di_profile_ref : pystr
}.
Definition new_PrivateDeliveryEvidenceIssue (i : PrivateDeliveryEvidenceIssue) : result PrivateDeliveryEvidenceIssue :=
  each (λ s, require (nonempty_ref s) ValueError)
    [di_authenticated_service_ref i; di_authentication_binding_ref i; di_request_id i; di_destination_ref i;
     di_consumer_ref i; di_purpose i; di_profile_ref i] ;;
  require (1 <=? di_membership_version i) ValueError ;;
  require (1 <=? di_policy_epoch i) ValueError ;;
  require (is_utc (di_issued_at i)) ValueError ;;
  require (is_utc (di_expires_at i)) ValueError ;;
  require (0 <? dt_sub (di_expires_at i) (di_issued_at i)) ValueError ;;
  require (bool_decide (di_profile_ref i = PRIVATE_DELIVERY_EVIDENCE_PROFILE)) ValueError ;;
  Ok i.

Record IssuedDeliveryEvidence := mkIssuedEvidence {
  ie_evidence_ref : pystr;
  ie_logical_resolution_ref : pystr;
  ie_expires_at : datetime;
  ie_profile_ref : pystr
}.
Definition new_IssuedDeliveryEvidence (e : IssuedDeliveryEvidence) : result IssuedDeliveryEvidence :=
  require (nonempty_ref (ie_evidence_ref e)) ValueError ;;
  require (nonempty_ref (ie_logical_resolution_ref e)) ValueError ;;
  require (is_utc (ie_expires_at e)) ValueError ;;
  require (bool_decide (ie_profile_ref e = PRIVATE_DELIVERY_EVIDENCE_PROFILE)) ValueError ;;
  Ok e.

(** What [issue_private] of the port receives. *)
Record evidence_call := mkEvidenceCall {
  ec_request : PrivateDeliveryEvidenceIssue;
  ec_evidence_digest : pybytes;
  ec_audience_digest : pystr;
  ec_logical_resolution_ref : pystr
}.

(** [PrivateDeliveryEvidenceRetention.delete_expired]; [deleted] is the port's answer. *)
Definition delete_expired_evidence (deleted : result obj) : result Z :=
  match deleted with
  | Ok (OInt n) => require (0 <=? n) DeliveryEvidenceAuthorityUnavailable ;; Ok n
  | _ => Err DeliveryEvidenceAuthorityUnavailable
  end.

Section Canon.
Context (canon : json → result pybytes).

Definition audience_document (organization_id membership_id : UUID) (membership_version : Z)
    (destination_ref consumer_ref : pystr) : json :=
  JObj [(lit "consumerRef", JStr consumer_ref); (lit "destinationRef", JStr destination_ref);
        (lit "membershipId", JStr (uuid_str membership_id)); (lit "membershipVersion", JInt membership_version);
        (lit "organizationId", JStr (uuid_str organization_id));
        (lit "profile", JStr PRIVATE_AUDIENCE_DIGEST_PROFILE)].
Definition private_delivery_audience_digest_for_binding (organization_id membership_id : UUID) (membership_version : Z)
    (destination_ref consumer_ref : pystr) : result pystr :=
  require (1 <=? membership_version) ValueError ;;
  require (nonempty_ref destination_ref) ValueError ;;
  require (nonempty_ref consumer_ref) ValueError ;;
  b ← canon (audience_document organization_id membership_id membership_version destination_ref consumer_ref);
  Ok (hexdigest (lit "context-engine.private-delivery-audience.v1" ++ [0] ++ b)).
Definition private_delivery_audience_digest (i : PrivateDeliveryEvidenceIssue) : result pystr :=
  private_delivery_audience_digest_for_binding (di_organization_id i) (di_membership_id i) (di_membership_version i)
    (di_destination_ref i) (di_consumer_ref i).

(** [PrivateDeliveryEvidenceIssuer.issue_private]: [reference] and [resolution] are what
    the two factories return, [answer] what the port does with a call. *)
Definition issue_private (profile : DeliveryEvidenceProfile) (request : PrivateDeliveryEvidenceIssue)
    (reference resolution : result pystr) (answer : evidence_call → result bool) :
    list evidence_call * result IssuedDeliveryEvidence :=
  match
    require (bool_decide (di_profile_ref request = dp_profile_ref profile)
             && (dt_sub (di_expires_at request) (di_issued_at request) <=? dp_maximum_ttl profile))
      DeliveryEvidenceNotAvailable ;;
    evidence_ref ← reference;
    require (nonempty_ref evidence_ref) ValueError ;;
    logical_resolution_ref ← resolution;
    require (nonempty_ref logical_resolution_ref) ValueError ;;
    audience_digest ← private_delivery_audience_digest request;
    encoded ← try_except (encode_utf8 evidence_ref) (λ _, true) (Err DeliveryEvidenceAuthorityUnavailable);
    Ok (evidence_ref, mkEvidenceCall request (sha256 encoded) audience_digest logical_resolution_ref)
  with
  | Err e => ([], Err e)
  | Ok (evidence_ref, call) =>
      ([call],
       match answer call with
       | Err _ => Err DeliveryEvidenceAuthorityUnavailable
       | Ok false => Err DeliveryEvidenceNotAvailable
       | Ok true => new_IssuedDeliveryEvidence
                      (mkIssuedEvidence evidence_ref (ec_logical_resolution_ref call) (di_expires_at request)
                         (di_profile_ref request))
       end)
  end.
End Canon.

(** ** Redemption *)

Record PrivateDeliveryEvidenceRedemption := mkEvidenceRedemption {
  dr_evidence_ref : pystr;
  dr_evidence_digest : pybytes;
  dr_authenticated_service_ref : pystr;
  dr_authentication_binding_ref : pystr;
  dr_request_id : pystr;
  dr_organization_id : UUID;
  dr_user_id : UUID;
  dr_membership_id : UUID;
  dr_membership_version : Z;
  dr_destination_ref : pystr;
  dr_consumer_ref : pystr;
  dr_delivery_kind : pystr;
  dr_audience_digest : pystr;
  dr_purpose : pystr;
  dr_policy_epoch : Z;
  dr_redeemed_at : datetime
}.
Definition new_PrivateDeliveryEvidenceRedemption (r : PrivateDeliveryEvidenceRedemption) :
    result PrivateDeliveryEvidenceRedemption :=
  require (nonempty_ref (dr_evidence_ref r)) ValueError ;;
  require (len (dr_evidence_digest r) =? 32) ValueError ;;
  encoded ← encode_utf8 (dr_evidence_ref r);
  require (bool_decide (dr_evidence_digest r = sha256 encoded)) ValueError ;;
  each (λ s, require (nonempty_ref s) ValueError)
    [dr_authenticated_service_ref r; dr_authentication_binding_ref r; dr_request_id r; dr_destination_ref r;
     dr_consumer_ref r; dr_delivery_kind r; dr_purpose r] ;;
  require (1 <=? dr_membership_version r) ValueError ;;
  require (1 <=? dr_policy_epoch r) ValueError ;;
  require (is_sha256_hex (dr_audience_digest r)) ValueError ;;
  require (is_utc (dr_redeemed_at r)) ValueError ;;
  Ok r.

Record RedeemedPrivateDeliveryEvidence := mkRedeemedEvidence {
  re_organization_id : UUID;
  re_user_id : UUID;
  re_membership_id : UUID;
  re_membership_version : Z;
  re_authenticated_service_ref : pystr;
  re_authentication_binding_ref : pystr;
  re_request_id : pystr;
  re_destination_ref : pystr;
  re_consumer_ref : pystr;
  re_delivery_kind : pystr;
  re_purpose : pystr;
  re_audience_digest : pystr;
  re_policy_epoch : Z;
  re_issued_at : datetime;
  re_expires_at : datetime;
  re_logical_resolution_ref : pystr;
  re_profile_ref : pystr
}.
Definition new_RedeemedPrivateDeliveryEvidence (e : RedeemedPrivateDeliveryEvidence) :
    result RedeemedPrivateDeliveryEvidence :=
  each (λ s, require (nonempty_ref s) ValueError)
    [re_authenticated_service_ref e; re_authentication_binding_ref e; re_request_id e; re_destination_ref e;
     re_consumer_ref e; re_delivery_kind e; re_purpose e; re_logical_resolution_ref e; re_profile_ref e] ;;
  require (bool_decide (re_delivery_kind e = PRIVATE_DELIVERY_KIND)) ValueError ;;
  require (is_sha256_hex (re_audience_digest e)) ValueError ;;
  require (1 <=? re_membership_version e) ValueError ;;
  require (1 <=? re_policy_epoch e) ValueError ;;
  require (is_utc (re_issued_at e)) ValueError ;;
  require (is_utc (re_expires_at e)) ValueError ;;
  require (dt_ltb (re_issued_at e) (re_expires_at e)) ValueError ;;
  Ok e.

Definition _open_delivery_evidence_redemption_scope (L : lifetimes) : lifetimes * nat := open_lifetime L.
Definition _close_delivery_evidence_redemption_scope (L : lifetimes) (scope : nat) : lifetimes := close_lifetime L scope.
Definition _require_active_delivery_evidence_redemption_session (L : lifetimes) (session : AuthoritySession) :
    result unit :=
  require (lifetime_active L (as_scope session)) ValueError.
Definition _construct_delivery_evidence_redemption_session (L : lifetimes) (fresh scope : nat) :
    result AuthoritySession :=
  let session := mkAuthoritySession fresh scope in
  _require_active_delivery_evidence_redemption_session L session ;; Ok session.

(** The stored facts against the request's. *)
Definition redemption_matches (e : RedeemedPrivateDeliveryEvidence) (r : PrivateDeliveryEvidenceRedemption) : bool :=
  bool_decide (re_organization_id e = dr_organization_id r)
  && bool_decide (re_user_id e = dr_user_id r)
  && bool_decide (re_membership_id e = dr_membership_id r)
  && (re_membership_version e =? dr_membership_version r)
  && bool_decide (re_authenticated_service_ref e = dr_authenticated_service_ref r)
  && bool_decide (re_authentication_binding_ref e = dr_authentication_binding_ref r)
  && bool_decide (re_request_id e = dr_request_id r)
  && bool_decide (re_destination_ref e = dr_destination_ref r)
  && bool_decide (re_consumer_ref e = dr_consumer_ref r)
  && bool_decide (re_delivery_kind e = dr_delivery_kind r)
  && bool_decide (re_audience_digest e = dr_audience_digest r)
  && bool_decide (re_purpose e = dr_purpose r)
  && (re_policy_epoch e =? dr_policy_epoch r)
  && (dt_leb (re_issued_at e) (dr_redeemed_at r) && dt_ltb (dr_redeemed_at r) (re_expires_at e)).

(** [redeem_private_delivery_evidence]; [Ok None] is an answer that is not evidence. *)
Definition redeem_private_delivery_evidence (L : lifetimes) (session : AuthoritySession)
    (request : PrivateDeliveryEvidenceRedemption)
    (answer : PrivateDeliveryEvidenceRedemption → result (option RedeemedPrivateDeliveryEvidence)) :
    list PrivateDeliveryEvidenceRedemption * result RedeemedPrivateDeliveryEvidence :=
  match _require_active_delivery_evidence_redemption_session L session with
  | Err e => ([], Err e)
  | Ok _ =>
      ([request],
       match answer request with
       | Err _ => Err DeliveryEvidenceAuthorityUnavailable
       | Ok None => Err DeliveryEvidenceNotAvailable
       | Ok (Some evidence) =>
           require (redemption_matches evidence request) DeliveryEvidenceNotAvailable ;; Ok evidence
       end)
  end.
