(* ===== verification/Package.v ===== *)
(** * The delivered package and its digests

    [ContextPackage] with its closed shape, the public document its digest covers and
    the outcomes of [Runtime.resolve] ([runtime/contracts.py]); the canonical digest of
    a package document ([context_engine_contracts/__init__.py]); the keyed digest of a
    query ([runtime/package_digest.py]) and the payload digests of an egress hop
    ([runtime/egress_payload.py]).  RFC 8785 is the argument [canon]. *)

From S2P Require Import Prelude Codec Sha256 Datetime Float64 Json ReleaseLineage Budget Evidence Egress Kernel.

(** ** The digest of a package document *)

Definition _require_unicode_scalars (s : pystr) : result pystr :=
  require (negb (existsb is_surrogate s)) ValueError ;; Ok s.

(** [int(float(z))]; an integer too large for a float is [None]. *)
Definition int_of_float_of (z : Z) : option Z :=
  match float_of_int z with
  | S754_zero _ => Some 0
  | S754_finite neg m e =>
      let i := if 0 <=? e then Z.pos m * 2 ^ e else Z.pos m / 2 ^ (- e) in Some (if neg then - i else i)
  | S754_infinity _ | S754_nan => None
  end.

(** [_json_value]: integers beyond [2 ^ 53] become exact floats. *)
Fixpoint _json_value (v : json) : result json :=
  match v with
  | JNull | JBool _ | JFloat _ => Ok v
  | JInt z =>
      if (- 2 ^ 53 <? z) && (z <? 2 ^ 53) then Ok v
      else require (bool_decide (int_of_float_of z = Some z)) ValueError ;; Ok (JFloat (str_of_int z ++ lit ".0"))
  | JStr s => s ← _require_unicode_scalars s; Ok (JStr s)
  | JArr l =>
      l' ← (fix go l := match l with
                        | [] => Ok []
                        | v :: l => v' ← _json_value v; l' ← go l; Ok (v' :: l')
                        end) l;
      Ok (JArr l')
  | JObj kvs =>
      kvs' ← (fix go l := match l with
                          | [] => Ok []
                          | (k, v) :: l =>
                              _require_unicode_scalars k ;;
                              require (negb (bool_decide (k = lit "packageDigest"))) ValueError ;;
                              v' ← _json_value v; l' ← go l; Ok ((k, v') :: l')
                          end) kvs;
      Ok (JObj kvs')
  end.

(** [complete_context_package_nullable_fields] *)
Definition complete_context_package_nullable_fields (document : list (list Z * json)) : result (list (list Z * json)) :=
  match dict_get document (lit "evidence") with
  | Some (JArr items) =>
      items' ← map_result (λ item,
        match item with
        | JObj d => Ok (JObj match dict_get d (lit "citationOpenRef") with
                             | Some _ => d
                             | None => dict_set d (lit "citationOpenRef") JNull
                             end)
        | _ => Err TypeError
        end) items;
      Ok (dict_set (dict_set document (lit "evidence") (JArr items')) (lit "continuation") JNull)
  | _ => Err TypeError
  end.

Section Canon.
Context (canon : json → result pybytes).

Definition canonicalize_context_package (document : list (list Z * json)) : result pybytes :=
  v ← _json_value (JObj document); canon v.
Definition context_package_digest (document : list (list Z * json)) : result pystr :=
  b ← canonicalize_context_package document; Ok (hexdigest b).
Definition verify_context_package_digest (document : list (list Z * json)) (expected_digest : obj) : result bool :=
  match expected_digest with
  | OStr s =>
      if is_sha256_hex s then d ← context_package_digest document; Ok (bool_decide (d = s)) else Ok false
  | _ => Ok false
  end.

Definition json_obj (v : option json) : obj := match v with Some (JStr s) => OStr s | _ => ONone end.
(** [verify_context_package_public_document] *)
Definition verify_context_package_public_document (document : json) : result bool :=
  match document with
  | JObj package =>
      try_except (verify_context_package_digest (filter (λ kv, kv.1 ≠ lit "packageDigest") package)
                    (json_obj (dict_get package (lit "packageDigest"))))
        (λ e, is_TypeError e || is_ValueError e) (Ok false)
  | _ => Ok false
  end.
End Canon.

(** ** The package *)

Inductive CoverageStatus := EMPTY | SUFFICIENT.
#[export] Instance CoverageStatus_eq_dec : EqDecision CoverageStatus.
Proof. solve_decision. Defined.
Record Coverage := mkCoverage { co_status : CoverageStatus; co_reason : option CoverageReason }.
(** [Coverage.__post_init__] *)
Definition new_Coverage (status : CoverageStatus) (reason : option CoverageReason) : result Coverage :=
  match status, reason with
  | EMPTY, None | SUFFICIENT, Some _ => Err ValueError
  | _, _ => Ok (mkCoverage status reason)
  end.

Record ContextPackage := mkPackage {
  pk_package_id : pystr;
  pk_purpose : pystr;
  pk_audience_digest : pystr;
  pk_policy_epoch : Z;
  pk_policy_snapshot_ref : pystr;
  pk_run_ref : pystr;
  pk_release_manifest_ref : pystr;
  pk_retention_policy_ref : pystr;
  pk_tokenizer_ref : pystr;
  pk_package_schema_ref : pystr;
  pk_ttl_seconds : Z;
  pk_as_of : datetime;
  pk_expires_at : datetime;
  pk_decision_ref : pystr;
  pk_package_digest : pystr;
  pk_blocks : list PackageBlock;
  pk_evidence : list Evidence;
  pk_budget_usage : BudgetUsage;
  pk_coverage : Coverage;
  pk_tokenizer_profile_digest : pystr
}.

Definition _wire_datetime (d : datetime) : pystr := replace (lit "+00:00") (lit "Z") (isoformat d).

Definition coverage_document (c : Coverage) : json :=
  JObj ([(lit "status", JStr (lit (match co_status c with EMPTY => "empty" | SUFFICIENT => "sufficient" end)))]
        ++ match co_reason c with
           | Some NO_AUTHORIZED_EVIDENCE => [(lit "reason", JStr (lit "no_authorized_evidence"))]
           | None => []
           end).
Definition block_document (b : PackageBlock) : json :=
  JObj [(lit "blockId", JStr (lit "block_" ++ removeprefix (lit "ev_") (bl_evidence_ref b)));
        (lit "text", JStr (bl_body b)); (lit "evidenceRefs", JArr [JStr (bl_evidence_ref b)])].
Definition evidence_document (e : Evidence) : json :=
  let l := ev_lineage e in
  JObj [(lit "evidenceRef", JStr (ev_evidence_ref e)); (lit "sourceRef", JStr (ev_source_ref e));
        (lit "resourceRef", JStr (ev_resource_ref e)); (lit "revisionRef", JStr (ev_revision_ref e));
        (lit "fragmentRef", JStr (ev_fragment_ref e)); (lit "projectedFields", JArr (JStr <$> ev_projected_field_refs e));
        (lit "citationOpenRef", match ev_citation_open_ref e with Some c => JStr (citation_value c) | None => JNull end);
        (lit "runRef", JStr (run_ref l)); (lit "purpose", JStr (purpose l));
        (lit "authorizationAsOf", JStr (_wire_datetime (as_of l))); (lit "decisionRef", JStr (decision_ref l));
        (lit "policySnapshotRef", JStr (policy_snapshot_ref l)); (lit "policyEpoch", JInt (policy_epoch l));
        (lit "sourceAclEvidence",
         JObj [(lit "kind", JStr (lit "mirrored")); (lit "projectionRef", JStr (source_acl_projection_ref l));
               (lit "aclAsOf", JStr (_wire_datetime (source_acl_as_of l)));
               (lit "freshnessProfileRef", JStr (source_acl_freshness_profile_ref l))])].
Definition usage_document (u : BudgetUsage) : json :=
  JObj [(lit "tokens", JInt (tokens u)); (lit "providerCalls", JInt (provider_calls u));
        (lit "costMicrounits", JInt (cost_microunits u)); (lit "elapsedMs", JInt (elapsed_ms u))].

Definition package_fields (p : ContextPackage) : list (list Z * json) :=
  [(lit "packageId", JStr (pk_package_id p)); (lit "purpose", JStr (pk_purpose p));
   (lit "audienceDigest", JStr (pk_audience_digest p)); (lit "policyEpoch", JInt (pk_policy_epoch p));
   (lit "policySnapshotRef", JStr (pk_policy_snapshot_ref p)); (lit "runRef", JStr (pk_run_ref p));
   (lit "releaseManifestRef", JStr (pk_release_manifest_ref p));
   (lit "retentionPolicyRef", JStr (pk_retention_policy_ref p)); (lit "ttlSeconds", JInt (pk_ttl_seconds p));
   (lit "asOf", JStr (_wire_datetime (pk_as_of p))); (lit "expiresAt", JStr (_wire_datetime (pk_expires_at p)));
   (lit "decisionRef", JStr (pk_decision_ref p)); (lit "tokenizerRef", JStr (pk_tokenizer_ref p));
   (lit "packageSchemaRef", JStr (pk_package_schema_ref p)); (lit "blocks", JArr (block_document <$> pk_blocks p));
   (lit "evidence", JArr (evidence_document <$> pk_evidence p)); (lit "gaps", JArr []);
   (lit "budgetUsage", usage_document (pk_budget_usage p)); (lit "coverage", coverage_document (pk_coverage p))]
  ++ if bool_decide (pk_package_schema_ref p = PACKAGE_SCHEMA_REF_V1)
     then [(lit "tokenizerProfileDigest", JStr (pk_tokenizer_profile_digest p))] else [].

Definition context_package_digest_document (p : ContextPackage) : result (list (list Z * json)) :=
  complete_context_package_nullable_fields (package_fields p).
Definition context_package_public_document (p : ContextPackage) : result (list (list Z * json)) :=
  document ← context_package_digest_document p;
  Ok (dict_set document (lit "packageDigest") (JStr (pk_package_digest p))).

Section Package.
Context (canon : json → result pybytes).

(** [len(block.body.encode("utf-8"))] summed over the blocks. *)
Definition utf8_tokens (bs : list PackageBlock) : result Z :=
  delivered_bytes (mkPackageContent bs []).

(** The interval of the package and its declared TTL. *)
Definition check_ttl (p : ContextPackage) : result unit :=
  require (0 <? pk_ttl_seconds p) ValueError ;;
  require_utc (pk_as_of p) ;; require_utc (pk_expires_at p) ;;
  let lifetime := dt_sub (pk_expires_at p) (pk_as_of p) in
  require (0 <? lifetime) ValueError ;;
  require (lifetime mod us_per_second =? 0) ValueError ;;
  require (pk_ttl_seconds p <? 10 ^ 9 * 86400) OverflowError ;;
  require (lifetime =? seconds (pk_ttl_seconds p)) ValueError.

(** The tokenizer lineage of the two package schemas. *)
Definition check_tokenizer (p : ContextPackage) : result unit :=
  require (is_sha256_hex (pk_tokenizer_profile_digest p)) ValueError ;;
  if bool_decide (pk_package_schema_ref p = PACKAGE_SCHEMA_REF_V1) then
    profile ← try_except
      (registered_tokenizer_profile_by_identity canon (pk_tokenizer_ref p) (pk_tokenizer_profile_digest p))
      (λ e, bool_decide (e = TokenizerUnavailable)) (Err ValueError);
    require (bool_decide (td_profile_ref profile = pk_tokenizer_ref p)) ValueError
  else require (bool_decide (pk_tokenizer_profile_digest p = HISTORICAL_UTF8_BYTE_TOKENIZER_PROFILE_DIGEST)) ValueError.

(** Coverage and usage against the content. *)
Definition check_usage (p : ContextPackage) : result unit :=
  let is_v1 := bool_decide (pk_package_schema_ref p = PACKAGE_SCHEMA_REF_V1) in
  let u := pk_budget_usage p in
  if bool_decide (pk_blocks p = []) && bool_decide (pk_evidence p = []) then
    require (bool_decide (co_status (pk_coverage p) = EMPTY)) ValueError ;;
    require (is_v1 || forallb (Z.eqb 0) (usage_fields u)) ValueError
  else
    require (negb (bool_decide (pk_blocks p = []) || bool_decide (pk_evidence p = []))) ValueError ;;
    require (bool_decide (co_status (pk_coverage p) = SUFFICIENT)) ValueError ;;
    expected_tokens ← utf8_tokens (pk_blocks p);
    require (is_v1 || (tokens u =? expected_tokens)) ValueError ;;
    require (negb is_v1 || negb (tokens u =? 0)) ValueError ;;
    require (is_v1 || ((provider_calls u =? 0) && (cost_microunits u =? 0) && (elapsed_ms u =? 0))) ValueError.

Definition with_package_digest (p : ContextPackage) (digest : pystr) : ContextPackage :=
  mkPackage (pk_package_id p) (pk_purpose p) (pk_audience_digest p) (pk_policy_epoch p) (pk_policy_snapshot_ref p)
    (pk_run_ref p) (pk_release_manifest_ref p) (pk_retention_policy_ref p) (pk_tokenizer_ref p)
    (pk_package_schema_ref p) (pk_ttl_seconds p) (pk_as_of p) (pk_expires_at p) (pk_decision_ref p) digest
    (pk_blocks p) (pk_evidence p) (pk_budget_usage p) (pk_coverage p) (pk_tokenizer_profile_digest p).

(** [ContextPackage.__post_init__]; the digest of the argument is not read. *)
Definition new_ContextPackage (p : ContextPackage) : result ContextPackage :=
  _require_closed_opaque_ref (pk_package_id p) PACKAGE_REF_PREFIX ;;
  require (negb (blank (pk_purpose p))) ValueError ;;
  require (is_sha256_hex (pk_audience_digest p)) ValueError ;;
  require (1 <=? pk_policy_epoch p) ValueError ;;
  each (λ s, require (opaque_ref s) ValueError)
    [pk_policy_snapshot_ref p; pk_run_ref p; pk_release_manifest_ref p; pk_retention_policy_ref p;
     pk_tokenizer_ref p; pk_package_schema_ref p] ;;
  _require_closed_opaque_ref (pk_decision_ref p) DECISION_REF_PREFIX ;;
  check_ttl p ;;
  validate_package_content (pk_blocks p) (pk_evidence p) ;;
  check_tokenizer p ;;
  check_usage p ;;
  document ← context_package_digest_document p;
  digest ← context_package_digest canon document;
  Ok (with_package_digest p digest).

(** ** Egress payloads *)

Definition canonical_package_payload (p : ContextPackage) : result pybytes :=
  document ← context_package_public_document p; canon (JObj document).
Definition model_input_digest (p : ContextPackage) : result pystr :=
  b ← canonical_package_payload p; Ok (model_payload_bytes_digest b).
Definition channel_payload_digest (p : ContextPackage) : result pystr :=
  b ← canonical_package_payload p; Ok (channel_payload_bytes_digest b).
End Package.

(** ** Outcomes *)

Record ScopeDecisionReceipt := mkScopeDecision { sd_digest : pystr; sd_target_count : Z; sd_is_empty : bool }.
Definition new_ScopeDecisionReceipt (digest : pystr) (target_count : Z) (is_empty : bool) : result ScopeDecisionReceipt :=
  require (is_sha256_hex digest) ValueError ;;
  require (0 <=? target_count) ValueError ;;
  require (Bool.eqb is_empty (target_count =? 0)) ValueError ;;
  Ok (mkScopeDecision digest target_count is_empty).

Record Resolved := mkResolved {
  rs_package : ContextPackage;
  rs_effective_budget : PackageBudget;
  rs_scope_decision : ScopeDecisionReceipt;
  rs_egress_grant : option EgressGrant
}.
Inductive ResolutionOutcome := OResolved (r : Resolved) | ORequestNotAvailable | OCitationNotAvailable.

(** ** Query digests: [package_digest.py] *)

Definition QUERY_DIGEST_PROFILE : pystr := lit "context-query-json-hmac-sha256-v1".
Definition PACKAGE_DIGEST_PROFILE : pystr := lit "context-package-canonical-json-v3".
Definition _QUERY_DIGEST_DOMAIN : pybytes := lit "context-engine.query-digest.v1" ++ [0].
Definition _MINIMUM_QUERY_KEY_BYTES : Z := 32.
Definition _require_key_version (z : Z) : result Z := require (is_generation z) ValueError ;; Ok z.

Record QueryDigestKeyring := mkQueryKeyring { qk_active_version : Z; qk_keys : list (Z * list Z) }.
Definition new_QueryDigestKeyring (active_version : Z) (keys : list (Z * list Z)) : result QueryDigestKeyring :=
  version ← _require_key_version active_version;
  require (negb (bool_decide (keys = []))) ValueError ;;
  each (λ kv, _require_key_version kv.1 ;; require (_MINIMUM_QUERY_KEY_BYTES <=? len kv.2) ValueError) keys ;;
  require (bool_decide (version ∈ keys.*1)) ValueError ;;
  Ok (mkQueryKeyring version keys).

Record QueryDigest := mkQueryDigest { qd_value : pystr; qd_profile : pystr; qd_key_version : Z }.
Definition new_QueryDigest (value profile : pystr) (key_version : Z) : result QueryDigest :=
  require (is_sha256_hex value) ValueError ;;
  require (bool_decide (profile = QUERY_DIGEST_PROFILE)) ValueError ;;
  _require_key_version key_version ;;
  Ok (mkQueryDigest value profile key_version).

Definition query_message (organization_id : UUID) (query : pystr) : pybytes :=
  _QUERY_DIGEST_DOMAIN ++ uuid_bytes organization_id ++ dump_str query.
Definition query_digest (keyring : QueryDigestKeyring) (organization_id : UUID) (query : pystr) : result QueryDigest :=
  match dict_get (qk_keys keyring) (qk_active_version keyring) with
  | None => Err KeyError
  | Some key =>
      new_QueryDigest (hex (hmac_sha256 key (query_message organization_id query))) QUERY_DIGEST_PROFILE
        (qk_active_version keyring)
  end.
