(* ===== verification/Citation.v ===== *)
(** * Citation locators: [src/engine/runtime/citation.py]

    Opaque locators that carry no authority: a locator is issued for one Evidence of a
    delivered package and stored by its digest; opening it returns a candidate that the
    kernel must authorize again.  Authority scopes are lifetimes; the port's answers and
    the text of the reference factory are arguments, and an operation returns the calls
    it made. *)

From S2P Require Import Prelude Codec Sha256 Datetime Evidence Trusted Egress.

Definition CITATION_OPEN_REF_PREFIX : pystr := lit "cor".
Definition CITATION_OPEN_DIGEST_PROFILE : pystr := lit "citation-open-ref-sha256-v1".
Definition CITATION_OPEN_RETENTION_CLASS : pystr := lit "restricted_citation_locator_lineage".

(** [fullmatch(prefix + "[0-9a-f]{n}", s)] *)
Definition closed_hex_ref (prefix : pystr) (n : Z) (s : pystr) : bool :=
  startswith prefix s && (len s =? len prefix + n) && all_in hex_alphabet (drop (length prefix) s).
Definition is_package_ref : pystr → bool := closed_hex_ref (lit "pkg_") 32.
Definition is_evidence_ref : pystr → bool := closed_hex_ref (lit "ev_") 64.
Definition _is_citation_open_ref (s : pystr) : bool := closed_hex_ref (lit "cor_") 64 s.

(** ** Profiles, issues and redemptions *)

Record CitationOpenProfile := mkCitationProfile {
  cf_profile_ref : pystr;
  cf_retention_policy_ref : pystr;
  cf_maximum_ttl : Z;
  cf_retention_period : Z;
  cf_retention_class : pystr
}.
(** [__post_init__] *)
Definition check_citation_profile (p : CitationOpenProfile) : result unit :=
  require (nonempty_ref (cf_profile_ref p)) ValueError ;;
  require (nonempty_ref (cf_retention_policy_ref p)) ValueError ;;
  require (0 <? cf_maximum_ttl p) ValueError ;;
  require (cf_maximum_ttl p <=? cf_retention_period p) ValueError ;;
  require (bool_decide (cf_retention_class p = CITATION_OPEN_RETENTION_CLASS)) ValueError.

Definition PRIVATE_FILE_CITATION_OPEN_PROFILE : CitationOpenProfile :=
  mkCitationProfile (lit "private-citation-open-v1") (lit "citation-locator-retention-v1") (seconds 600)
    (30 * us_per_day) CITATION_OPEN_RETENTION_CLASS.

Record CitationOpenIssue := mkCitationIssue {
  ci_organization_id : UUID;
  ci_package_ref : pystr;
  ci_evidence_ref : pystr;
  ci_resource_ref : pystr;
  ci_revision_id : UUID;
  ci_fragment_ref : pystr;
  ci_issued_at : datetime;
  ci_expires_at : datetime
}.
Definition new_CitationOpenIssue (i : CitationOpenIssue) : result CitationOpenIssue :=
  require (is_package_ref (ci_package_ref i)) ValueError ;;
  require (is_evidence_ref (ci_evidence_ref i)) ValueError ;;
  require (nonempty_ref (ci_resource_ref i)) ValueError ;;
  require (nonempty_ref (ci_fragment_ref i)) ValueError ;;
  require_utc (ci_issued_at i) ;; require_utc (ci_expires_at i) ;;
  require (dt_ltb (ci_issued_at i) (ci_expires_at i)) ValueError ;;
  Ok i.

Record CitationOpenRedemption := mkCitationRedemption {
  cx_citation_open_ref : CitationOpenRef;
  cx_organization_id : UUID;
  cx_opened_at : datetime
}.
Definition new_CitationOpenRedemption (r : CitationOpenRedemption) : result CitationOpenRedemption :=
  require_utc (cx_opened_at r) ;; Ok r.

Record CitationOpenTargetLineage := mkTargetLineage { tl_package_ref : pystr; tl_evidence_ref : pystr }.
Definition new_CitationOpenTargetLineage (l : CitationOpenTargetLineage) : result CitationOpenTargetLineage :=
  require (is_package_ref (tl_package_ref l)) ValueError ;;
  require (is_evidence_ref (tl_evidence_ref l)) ValueError ;; Ok l.
Record CitationOpenTarget := mkCitationTarget { ct_candidate_ref : CandidateRef; ct_lineage : CitationOpenTargetLineage }.

(** ** Retention *)

(** [CitationOpenRetention.delete_expired]; [deleted] is the port's answer. *)
Definition delete_expired (deleted : result obj) : result Z :=
  match deleted with
  | Ok (OInt n) => require (0 <=? n) CitationAuthorityUnavailable ;; Ok n
  | _ => Err CitationAuthorityUnavailable
  end.

(** ** Sessions *)

Definition _open_citation_authority_scope (L : lifetimes) : lifetimes * nat := open_lifetime L.
Definition _close_citation_authority_scope (L : lifetimes) (scope : nat) : lifetimes := close_lifetime L scope.
Definition _require_active_citation_open_session (L : lifetimes) (session : AuthoritySession) : result unit :=
  require (lifetime_active L (as_scope session)) ValueError.
Definition _construct_citation_open_session (L : lifetimes) (fresh scope : nat) : result AuthoritySession :=
  let session := mkAuthoritySession fresh scope in
  _require_active_citation_open_session L session ;; Ok session.

(** ** Issuance and redemption *)

(** What [issue] of the port receives. *)
Record citation_call := mkCitationCall {
  cc_request : CitationOpenIssue;
  cc_locator_digest : pybytes;
  cc_digest_profile : pystr;
  cc_profile : CitationOpenProfile;
  cc_retain_until : datetime
}.

(** [issue_citation_open_ref]: [factory] is what the reference factory does, [answer]
    what the port does with a call. *)
Definition issue_citation_open_ref (L : lifetimes) (session : AuthoritySession) (request : CitationOpenIssue)
    (profile : CitationOpenProfile) (factory : result obj) (answer : citation_call → result bool) :
    list citation_call * result CitationOpenRef :=
  match
    _require_active_citation_open_session L session ;;
    require (dt_sub (ci_expires_at request) (ci_issued_at request) <=? cf_maximum_ttl profile)
      CitationLocatorNotAvailable ;;
    match factory with
    | Ok (OStr reference) =>
        require (_is_citation_open_ref reference) CitationAuthorityUnavailable ;;
        locator ← CitationOpenRef_post_init (mkCitationOpenRef reference);
        call ← try_except
          (digested ← encode_utf8 reference;
           retain_until ← dt_add (ci_issued_at request) (cf_retention_period profile);
           Ok (mkCitationCall request (sha256 digested) CITATION_OPEN_DIGEST_PROFILE profile retain_until))
          (λ _, true) (Err CitationAuthorityUnavailable);
        Ok (locator, call)
    | _ => Err CitationAuthorityUnavailable
    end
  with
  | Err e => ([], Err e)
  | Ok (locator, call) =>
      ([call], match answer call with Ok true => Ok locator | _ => Err CitationAuthorityUnavailable end)
  end.

(** [redeem_citation_open_ref]; [Ok None] is an answer that is not a target. *)
Definition redeem_citation_open_ref (L : lifetimes) (session : AuthoritySession) (request : CitationOpenRedemption)
    (answer : CitationOpenRedemption → result (option CitationOpenTarget)) :
    list CitationOpenRedemption * result CitationOpenTarget :=
  match
    _require_active_citation_open_session L session ;;
    require (_is_citation_open_ref (citation_value (cx_citation_open_ref request))) CitationLocatorNotAvailable
  with
  | Err e => ([], Err e)
  | Ok _ =>
      ([request],
       match answer request with
       | Err CitationLocatorNotAvailable => Err CitationLocatorNotAvailable
       | Err _ => Err CitationAuthorityUnavailable
       | Ok None => Err CitationLocatorNotAvailable
       | Ok (Some target) =>
           require (bool_decide (cr_organization_id (ct_candidate_ref target) = cx_organization_id request))
             CitationLocatorNotAvailable ;;
           Ok target
       end)
  end.

(** ** What the two operations guarantee *)

Lemma citation_ref_text s :
  _is_citation_open_ref s = true →
  Forall (λ c, 0 ≤ c < 128) s ∧ len s = 68 ∧ CitationOpenRef_post_init (mkCitationOpenRef s) = Ok (mkCitationOpenRef s).
Proof.
  unfold _is_citation_open_ref, closed_hex_ref. intros [[Hp Hl]%andb_true_iff Hs]%andb_true_iff.
  assert (Hsplit : s = lit "cor_" ++ drop 4 s).
  { destruct s as [|a [|b [|c [|d s]]]]; try done. cbn in Hp. rewrite !andb_true_iff, !Z.eqb_eq in Hp.
    destruct Hp as (<- & <- & <- & <- & _). reflexivity. }
  assert (Hhex : Forall (λ c, (0 ≤ c < 128) ∧ is_space c = false) (drop 4 s)).
  { apply Forall_forall. intros c Hc. unfold all_in in Hs. rewrite forallb_forall in Hs.
    change (length (lit "cor_")) with 4%nat in Hs. apply list_elem_of_In, Hs, mem_spec in Hc. revert c Hc.
    apply Forall_forall. apply (bool_decide_unpack _). by vm_compute. }
  assert (Hall : Forall (λ c, (0 ≤ c < 128) ∧ is_space c = false) s).
  { rewrite Hsplit, Forall_app. split; [|done]. apply (bool_decide_unpack _). by vm_compute. }
  assert (Hlen : len s = 68) by (apply Z.eqb_eq in Hl; exact Hl). clear Hsplit Hhex Hs Hp Hl. split_and!; [|done|].
  - eapply Forall_impl; [exact Hall|]. by intros c [].
  - unfold CitationOpenRef_post_init, _require_opaque_capability_value. cbn [citation_value].
    rewrite (bool_decide_false (s = [])) by (intros ->; done). rewrite Hlen.
    replace (existsb is_space s) with false; [done|]. symmetry. apply not_true_iff_false. rewrite existsb_exists.
    intros (c & Hc%list_elem_of_In & Hsp). rewrite Forall_forall in Hall. destruct (Hall c Hc). congruence.
Qed.

Lemma issue_citation_Ok L session request profile factory answer calls locator :
  issue_citation_open_ref L session request profile factory answer = (calls, Ok locator) →
  ∃ call, calls = [call] ∧ answer call = Ok true ∧ cc_request call = request
    ∧ cc_locator_digest call = sha256 (citation_value locator) ∧ cc_profile call = profile
    ∧ _is_citation_open_ref (citation_value locator) = true
    ∧ lifetime_active L (as_scope session) = true
    ∧ dt_sub (ci_expires_at request) (ci_issued_at request) ≤ cf_maximum_ttl profile.
Proof.
  unfold issue_citation_open_ref.
  destruct (_require_active_citation_open_session L session ;; _) as [[l call]|e] eqn:E; [|by intros [= _]].
  destruct (answer call) as [[]|] eqn:Ea; intros [= <- <-]. apply bind_Ok in E as ([] & Hs & E).
  apply bind_Ok in E as ([] & Ht & E). destruct factory as [[| | |reference| |]|]; try discriminate.
  apply bind_Ok in E as ([] & Hr & E). apply require_Ok in Hr. apply bind_Ok in E as (l' & Hl & E).
  destruct (citation_ref_text _ Hr) as (Ha & _ & Hok). rewrite Hok in Hl. apply Ok_inj in Hl as <-.
  apply bind_Ok in E as (c & Hc & E). injection E as <- <-.
  unfold try_except in Hc. destruct (encode_utf8 reference ≫= _) as [c'|] eqn:Ec; [|discriminate].
  apply Ok_inj in Hc as <-. apply bind_Ok in Ec as (b & Hb & Ec). apply bind_Ok in Ec as (u & Hu & <-%Ok_inj).
  rewrite encode_ascii in Hb by done. apply Ok_inj in Hb as <-.
  eexists. split; [done|]. apply require_Ok in Hs, Ht. split_and!; try done. by apply Z.leb_le.
Qed.
