(* ===== verification/ContextRun.v ===== *)
(** * Durable runs: [src/engine/runtime/context_run.py]

    The record of one finished delivery and the restricted audit of an empty one, the
    projection of a package into them, and their persistence through a session of the
    retained transaction. *)

From S2P Require Import Prelude Codec Sha256 Datetime Json ReleaseLineage Budget Scope Evidence Trusted Egress Kernel Package Citation.

#[export] Instance EffectiveScope_eq_dec : EqDecision EffectiveScope.
Proof. solve_decision. Defined.

Definition MAX_SIGNED_BIGINT : Z := 2 ^ 63 - 1.
Definition PACKAGE_RETENTION_MODE : pystr := lit "digest_only".
Definition PACKAGE_RETENTION_POLICY_REF : pystr := lit "package-digest-only-retention-v1".

Inductive ContextRunOutcome := DELIVERED_AUTHORIZED | DELIVERED_EMPTY.
#[export] Instance ContextRunOutcome_eq_dec : EqDecision ContextRunOutcome.
Proof. solve_decision. Defined.

(** A dict of the citation lineage. *)
Record citation_lineage := mkCitationLineage {
  cl_evidence_ref : pystr;
  cl_fragment_ref : pystr;
  cl_resource_ref : pystr;
  cl_revision_ref : pystr;
  cl_source_ref : pystr
}.
#[export] Instance citation_lineage_eq_dec : EqDecision citation_lineage.
Proof. solve_decision. Defined.
Definition lineage_items (c : citation_lineage) : list pystr :=
  [cl_evidence_ref c; cl_fragment_ref c; cl_resource_ref c; cl_revision_ref c; cl_source_ref c].

Record ContextRunRecord := mkRun {
  cr_run_organization_id : UUID;
  cr_run_ref : pystr;
  cr_run_decision_ref : pystr;
  cr_user_id : UUID;
  cr_membership_id : UUID;
  cr_membership_version : Z;
  cr_principal_ref : pystr;
  cr_agent_version_ref : pystr;
  cr_authenticated_application_ref : pystr;
  cr_authentication_binding_ref : pystr;
  cr_request_id : pystr;
  cr_purpose : pystr;
  cr_policy_snapshot_ref : pystr;
  cr_policy_epoch : Z;
  cr_effective_scope_digest : pystr;
  cr_query_digest_profile : pystr;
  cr_query_digest_key_version : Z;
  cr_query_digest : pystr;
  cr_outcome : ContextRunOutcome;
  cr_package_ref : pystr;
  cr_package_digest_profile : pystr;
  cr_package_digest : pystr;
  cr_release_ref : pystr;
  cr_release_generation : Z;
  cr_package_retention_mode : pystr;
  cr_authorized_evidence_refs : list pystr;
  cr_authorized_citation_lineage : list citation_lineage;
  cr_effective_max : PackageBudget;
  cr_usage : BudgetUsage;
  cr_accepted_at : datetime;
  cr_finalized_at : datetime;
  cr_package_as_of : datetime;
  cr_package_expires_at : datetime
}.

Definition positive_bigint (z : Z) : bool := (1 <=? z) && (z <=? MAX_SIGNED_BIGINT).

(** Evidence references and the citation lineage. *)
Definition check_run_evidence (r : ContextRunRecord) : result unit :=
  let refs := cr_authorized_evidence_refs r in
  let lineage := cr_authorized_citation_lineage r in
  require (forallb is_evidence_ref refs) ValueError ;;
  require (nodupb refs) ValueError ;;
  require (forallb (λ c, bool_decide (cl_evidence_ref c ∈ refs)
                         && forallb (λ s, negb (bool_decide (s = []))) (lineage_items c)) lineage) ValueError ;;
  require (bool_decide (cl_evidence_ref <$> lineage = refs) && nodupb lineage) ValueError ;;
  match cr_outcome r with
  | DELIVERED_EMPTY => require (bool_decide (refs = [])) ValueError
  | DELIVERED_AUTHORIZED => require (negb (bool_decide (refs = []))) ValueError
  end.

(** Ceilings, usage and times. *)
Definition check_run_usage (r : ContextRunRecord) : result unit :=
  let b := cr_effective_max r in
  let u := cr_usage r in
  require (forallb (Z.ltb 0) [max_tokens b; max_provider_calls b; max_cost_microunits b; max_elapsed_ms b]) ValueError ;;
  require (forallb (Z.leb 0) (usage_fields u)) ValueError ;;
  require ((tokens u <=? max_tokens b) && (provider_calls u <=? max_provider_calls b)
           && (cost_microunits u <=? max_cost_microunits b) && (elapsed_ms u <=? max_elapsed_ms b)) ValueError.
Definition check_run_times (r : ContextRunRecord) : result unit :=
  each (λ d, require (is_utc d) ValueError)
    [cr_accepted_at r; cr_finalized_at r; cr_package_as_of r; cr_package_expires_at r] ;;
  require (dt_leb (cr_accepted_at r) (cr_finalized_at r)) ValueError ;;
  require (dt_eqb (cr_package_as_of r) (cr_finalized_at r)) ValueError ;;
  require (dt_ltb (cr_package_as_of r) (cr_package_expires_at r)) ValueError.

(** [ContextRunRecord.__post_init__] *)
Definition new_ContextRunRecord (r : ContextRunRecord) : result ContextRunRecord :=
  each (λ s, require (nonempty_ref s) ValueError)
    [cr_run_ref r; cr_run_decision_ref r; cr_principal_ref r; cr_agent_version_ref r;
     cr_authenticated_application_ref r; cr_authentication_binding_ref r; cr_request_id r; cr_purpose r;
     cr_policy_snapshot_ref r] ;;
  require (positive_bigint (cr_membership_version r)) ValueError ;;
  require (positive_bigint (cr_policy_epoch r)) ValueError ;;
  require (is_sha256_hex (cr_effective_scope_digest r)) ValueError ;;
  require (is_sha256_hex (cr_query_digest r)) ValueError ;;
  require (is_sha256_hex (cr_package_digest r)) ValueError ;;
  require (bool_decide (cr_query_digest_profile r = QUERY_DIGEST_PROFILE)) ValueError ;;
  require (positive_bigint (cr_query_digest_key_version r)) ValueError ;;
  require (bool_decide (cr_package_digest_profile r = PACKAGE_DIGEST_PROFILE)) ValueError ;;
  require (is_package_ref (cr_package_ref r)) ValueError ;;
  require (closed_hex_ref (lit "rel_") 64 (cr_release_ref r)) ValueError ;;
  require (positive_bigint (cr_release_generation r)) ValueError ;;
  require (bool_decide (cr_package_retention_mode r = PACKAGE_RETENTION_MODE)) ValueError ;;
  check_run_evidence r ;;
  check_run_usage r ;;
  check_run_times r ;;
  Ok r.

Record DecisionAuditRecord := mkDecisionAudit {
  da_organization_id : UUID;
  da_run_ref : pystr;
  da_decision_ref : pystr;
  da_policy_snapshot_ref : pystr;
  da_policy_epoch : Z;
  da_recorded_at : datetime
}.
(** [DecisionAuditRecord.__post_init__]; the category has one value. *)
Definition new_DecisionAuditRecord (a : DecisionAuditRecord) : result DecisionAuditRecord :=
  each (λ s, require (nonempty_ref s) ValueError) [da_run_ref a; da_decision_ref a; da_policy_snapshot_ref a] ;;
  require (positive_bigint (da_policy_epoch a)) ValueError ;;
  require_utc (da_recorded_at a) ;;
  Ok a.

(** ** Persistence *)

Definition _open_context_run_persistence_scope (L : lifetimes) : lifetimes * nat := open_lifetime L.
Definition _close_context_run_persistence_scope (L : lifetimes) (scope : nat) : lifetimes := close_lifetime L scope.
Definition _require_active_context_run_persistence_session (L : lifetimes) (session : AuthoritySession) : result unit :=
  require (lifetime_active L (as_scope session)) ValueError.
Definition _construct_context_run_persistence_session (L : lifetimes) (fresh scope : nat) : result AuthoritySession :=
  let session := mkAuthoritySession fresh scope in
  _require_active_context_run_persistence_session L session ;; Ok session.

(** The audit belongs to an empty run, and an empty run has one. *)
Definition check_audit (run : ContextRunRecord) (audit : option DecisionAuditRecord) : result unit :=
  match audit with
  | Some a =>
      require (bool_decide (da_organization_id a = cr_run_organization_id run)
               && bool_decide (da_run_ref a = cr_run_ref run)
               && bool_decide (da_decision_ref a = cr_run_decision_ref run)
               && bool_decide (da_policy_snapshot_ref a = cr_policy_snapshot_ref run)
               && (da_policy_epoch a =? cr_policy_epoch run)
               && bool_decide (cr_outcome run = DELIVERED_EMPTY)) ValueError
  | None => require (negb (bool_decide (cr_outcome run = DELIVERED_EMPTY))) ValueError
  end.

(** [persist_context_run]; [answer] is what the port does with the two records. *)
Definition persist_context_run (L : lifetimes) (session : AuthoritySession) (run : ContextRunRecord)
    (audit : option DecisionAuditRecord)
    (answer : ContextRunRecord → option DecisionAuditRecord → result unit) :
    list (ContextRunRecord * option DecisionAuditRecord) * result unit :=
  match _require_active_context_run_persistence_session L session ;; check_audit run audit with
  | Err e => ([], Err e)
  | Ok _ =>
      ([(run, audit)], match answer run audit with Ok _ => Ok tt | Err _ => Err ContextRunPersistenceUnavailable end)
  end.

(** ** Projecting a package *)

Definition request_query (request : RuntimeRequest) : pystr :=
  match request with RAcquire r => acq_query r | _ => lit "citation.open" end.
Definition request_narrowing (request : RuntimeRequest) : option RequestNarrowing :=
  match request with RAcquire r => acq_narrowing r | _ => None end.

(** The scope the invocation authorizes now. *)
Definition invocation_scope (L : lifetimes) (inv : AuthenticatedInvocation) (request : RuntimeRequest) :
    result EffectiveScope :=
  operands ← _trusted_operands_from_snapshot L (inv_trusted_scope_snapshot inv);
  let scope := compute_effective_scope operands (request_narrowing request) in
  Ok (if ts_policy_epoch (inv_trusted_scope_snapshot inv) =? inv_policy_epoch inv then scope else no_scope).

(** Package, provenance, invocation and release agree. *)
Definition package_matches (inv : AuthenticatedInvocation) (pr : DecisionProvenanceReceipt) (p : ContextPackage)
    (scope : EffectiveScope) (release : ActiveRuntimeRelease) : bool :=
  let f := ua_facts (inv_user_actor inv) in
  let snapshot := inv_trusted_scope_snapshot inv in
  bool_decide (pr_organization_id pr = m_organization_id f)
  && bool_decide (pr_user_id pr = m_user_id f)
  && bool_decide (pr_membership_id pr = m_membership_id f)
  && (pr_membership_version pr =? m_membership_version f)
  && bool_decide (pr_principal_ref pr = inv_principal_ref inv)
  && bool_decide (pr_agent_version_ref pr = inv_agent_version_ref inv)
  && bool_decide (pr_authenticated_application_ref pr = inv_authenticated_application_ref inv)
  && bool_decide (pr_authentication_binding_ref pr = inv_authentication_binding_ref inv)
  && bool_decide (pr_request_id pr = inv_request_id inv)
  && bool_decide (pr_purpose pr = ts_purpose snapshot)
  && dt_eqb (pr_as_of pr) (pk_as_of p)
  && bool_decide (pr_package_id pr = pk_package_id p)
  && bool_decide (pr_decision_ref pr = pk_decision_ref p)
  && (pr_policy_epoch pr =? inv_policy_epoch inv)
  && bool_decide (pr_effective_scope_digest pr = es_digest scope)
  && bool_decide (pk_purpose p = ts_purpose snapshot)
  && (pk_policy_epoch p =? pr_policy_epoch pr)
  && bool_decide (pk_policy_snapshot_ref p = pr_policy_snapshot_ref pr)
  && bool_decide (pk_run_ref p = pr_run_ref pr)
  && bool_decide (pk_release_manifest_ref p = ar_manifest_ref release)
  && bool_decide (pk_tokenizer_ref p = ar_tokenizer_ref release)
  && bool_decide (pk_tokenizer_profile_digest p = ar_tokenizer_profile_digest release)
  && bool_decide (pk_package_schema_ref p = ar_package_schema_ref release)
  && bool_decide (pk_retention_policy_ref p = PACKAGE_RETENTION_POLICY_REF)
  && negb (dt_ltb (pk_as_of p) (inv_received_at inv)).
Definition lineage_matches (pr : DecisionProvenanceReceipt) (e : Evidence) : bool :=
  let l := ev_lineage e in
  bool_decide (run_ref l = pr_run_ref pr) && bool_decide (principal_ref l = pr_principal_ref pr)
  && bool_decide (purpose l = pr_purpose pr) && dt_eqb (as_of l) (pr_as_of pr)
  && bool_decide (decision_ref l = pr_decision_ref pr) && bool_decide (policy_snapshot_ref l = pr_policy_snapshot_ref pr)
  && (policy_epoch l =? pr_policy_epoch pr) && bool_decide (source_acl_decision_ref l = pr_source_acl_decision_ref pr).

Definition citation_lineage_of (e : Evidence) : citation_lineage :=
  mkCitationLineage (ev_evidence_ref e) (ev_fragment_ref e) (ev_resource_ref e) (ev_revision_ref e) (ev_source_ref e).
Definition run_outcome (p : ContextPackage) : ContextRunOutcome :=
  match co_status (pk_coverage p) with SUFFICIENT => DELIVERED_AUTHORIZED | EMPTY => DELIVERED_EMPTY end.

Definition run_record (inv : AuthenticatedInvocation) (pr : DecisionProvenanceReceipt) (p : ContextPackage)
    (budget : PackageBudget) (query : QueryDigest) (release : ActiveRuntimeRelease) : ContextRunRecord :=
  let f := ua_facts (inv_user_actor inv) in
  mkRun (m_organization_id f) (pr_run_ref pr) (pr_decision_ref pr) (m_user_id f) (m_membership_id f)
    (m_membership_version f) (inv_principal_ref inv) (inv_agent_version_ref inv)
    (inv_authenticated_application_ref inv) (inv_authentication_binding_ref inv) (inv_request_id inv) (pk_purpose p)
    (pr_policy_snapshot_ref pr) (pr_policy_epoch pr) (pr_effective_scope_digest pr) (qd_profile query)
    (qd_key_version query) (qd_value query) (run_outcome p) (pk_package_id p) PACKAGE_DIGEST_PROFILE
    (pk_package_digest p) (ar_manifest_ref release) (ar_active_generation release) PACKAGE_RETENTION_MODE
    (ev_evidence_ref <$> pk_evidence p) (citation_lineage_of <$> pk_evidence p) budget (pk_budget_usage p)
    (inv_received_at inv) (pk_as_of p) (pk_as_of p) (pk_expires_at p).
Definition audit_of (run : ContextRunRecord) : DecisionAuditRecord :=
  mkDecisionAudit (cr_run_organization_id run) (cr_run_ref run) (cr_run_decision_ref run) (cr_policy_snapshot_ref run)
    (cr_policy_epoch run) (cr_finalized_at run).

(** [build_context_run_records] *)
Definition build_context_run_records (canon : json → result pybytes) (L : lifetimes) (inv : AuthenticatedInvocation)
    (request : RuntimeRequest) (pr : DecisionProvenanceReceipt) (p : ContextPackage) (final_effective_scope : EffectiveScope)
    (effective_budget : PackageBudget) (keyring : QueryDigestKeyring) (active_release : ActiveRuntimeRelease) :
    result (ContextRunRecord * option DecisionAuditRecord) :=
  match request with RContinue _ _ => Err TypeError | _ => Ok tt end ;;
  match m_active_runtime_release (ua_facts (inv_user_actor inv)) with
  | None => Err ValueError
  | Some r => require (bool_decide (active_release = rel_value r)) ValueError
  end ;;
  document ← context_package_digest_document p;
  verified ← verify_context_package_digest canon document (OStr (pk_package_digest p));
  require (verified : bool) ValueError ;;
  authorized_scope ← invocation_scope L inv request;
  require (bool_decide (final_effective_scope ∈ [authorized_scope; no_scope])) ValueError ;;
  require (negb (bool_decide (es_targets final_effective_scope = ∅)) || bool_decide (pk_evidence p = [])) ValueError ;;
  require (package_matches inv pr p final_effective_scope active_release) ValueError ;;
  require (forallb (lineage_matches pr) (pk_evidence p)) ValueError ;;
  query ← query_digest keyring (m_organization_id (ua_facts (inv_user_actor inv))) (request_query request);
  run ← new_ContextRunRecord (run_record inv pr p effective_budget query active_release);
  audit ← match cr_outcome run with
          | DELIVERED_EMPTY => a ← new_DecisionAuditRecord (audit_of run); Ok (Some a)
          | DELIVERED_AUTHORIZED => Ok None
          end;
  Ok (run, audit).
