(* ===== verification/Runtime.v ===== *)
(** * [Runtime]: [src/engine/runtime/construction.py], [capabilities.py]

    The capability preflight, the final egress gate and the whole of [Runtime.resolve]:
    a request is refused before any content work, or an Acquire or an opened citation is
    authorized by the kernel, assembled into one sealed package within its meter, bound
    to an egress grant, recorded durably and returned.

    A computation threads the kernel's state, the store of budget meters and the log of
    calls to the durable ports ([event], with the redemption that precedes a private
    delivery); what a port answers may depend on the whole
    log.  The candidate index is an interface that works on the meter. *)

From S2P Require Import Prelude Codec Sha256 Datetime Json ReleaseLineage Budget Scope Evidence Ranking AuthorizedRanking Materialized Trusted UuidText Egress Pyrepr Kernel DeliveryEvidence Package Citation ContextRun.

(** ** Capabilities *)

Inductive RuntimeCapability :=
  MATERIALIZED_ACQUIRE | CONTINUE | OPEN_CITATION | FEDERATED_DISCOVERY | SOURCE_NATIVE_AUTHORIZATION.
#[export] Instance RuntimeCapability_eq_dec : EqDecision RuntimeCapability.
Proof. solve_decision. Defined.

Definition M0_RUNTIME_CAPABILITY_DECLARATION : list RuntimeCapability := [MATERIALIZED_ACQUIRE].
(** [RuntimeCapabilityGate.require_available] *)
Definition require_available (capability : RuntimeCapability) (citation_open_active : bool) : result unit :=
  require (bool_decide (capability ∈ M0_RUNTIME_CAPABILITY_DECLARATION
                                     ++ if citation_open_active then [OPEN_CITATION] else [])) UnsupportedCapability.
Definition _required_capability_for_request (request : RuntimeRequest) (acquire_capability : RuntimeCapability) :
    RuntimeCapability :=
  match request with
  | RAcquire _ => acquire_capability
  | RContinue _ _ => CONTINUE
  | ROpenCitation _ => OPEN_CITATION
  end.

(** ** The final egress gate *)

Inductive EgressProfile :=
  | InternalOnlyProfile
  | ModelProfile (p : ModelEgressProfile)
  | ChannelProfile (p : ChannelEgressProfile).

Section Gate.
Context (canon : json → result pybytes).

Definition direct_audience (inv : AuthenticatedInvocation) (dc : TrustedDeliveryContext) : result pystr :=
  let f := ua_facts (inv_user_actor inv) in
  direct_egress_audience_digest canon (m_organization_id f) (m_membership_id f) (m_membership_version f)
    (dc_authenticated_application_ref dc) (dc_delivery_binding_ref dc).

(** The comparisons before the audience is needed, and those after it. *)
Definition package_bound (inv : AuthenticatedInvocation) (dc : TrustedDeliveryContext)
    (pr : DecisionProvenanceReceipt) (p : ContextPackage) (digest : pystr) : bool :=
  let f := ua_facts (inv_user_actor inv) in
  bool_decide (pk_package_digest p = digest)
  && bool_decide (pr_organization_id pr = m_organization_id f)
  && bool_decide (pr_package_id pr = pk_package_id p)
  && bool_decide (pr_decision_ref pr = pk_decision_ref p)
  && bool_decide (pr_purpose pr = pk_purpose p)
  && bool_decide (pr_purpose pr = dc_purpose dc)
  && ((pr_policy_epoch pr =? inv_policy_epoch inv) && (inv_policy_epoch inv =? m_policy_epoch f))
  && dt_eqb (pr_as_of pr) (pk_as_of p).
Definition package_current (pr : DecisionProvenanceReceipt) (p : ContextPackage) (issued_at : datetime) : bool :=
  (pk_policy_epoch p =? pr_policy_epoch pr)
  && bool_decide (pk_policy_snapshot_ref p = pr_policy_snapshot_ref pr)
  && bool_decide (pk_run_ref p = pr_run_ref pr)
  && dt_eqb issued_at (pk_as_of p)
  && dt_ltb issued_at (pk_expires_at p).

Definition require_bound_package (L : lifetimes) (inv : AuthenticatedInvocation) (dc : TrustedDeliveryContext)
    (pr : DecisionProvenanceReceipt) (p : ContextPackage) (issued_at : datetime) : result unit :=
  _require_active_user_actor L (inv_user_actor inv) ;;
  document ← context_package_digest_document p;
  digest ← context_package_digest canon document;
  require (package_bound inv dc pr p digest) EgressGrantIssuanceUnavailable ;;
  audience ← match dc_audience_digest dc with
             | Some (c :: d) => Ok (c :: d)
             | _ => direct_audience inv dc
             end;
  require (bool_decide (pk_audience_digest p = audience) && package_current pr p issued_at)
    EgressGrantIssuanceUnavailable.

(** The channel profile is bound to the redeemed private delivery. *)
Definition require_channel (dc : TrustedDeliveryContext) (profile : EgressProfile) : result unit :=
  match profile with
  | ChannelProfile c =>
      require (bool_decide (dc_construction_provenance dc = REDEEMED_PRIVATE_DELIVERY_EVIDENCE)
               && bool_decide (dc_destination_ref dc = Some (ch_destination_ref c))
               && bool_decide (dc_consumer_ref dc = Some (ch_consumer_ref c))) EgressGrantIssuanceUnavailable
  | _ => Ok tt
  end.

(** The issue of an external profile. *)
Definition egress_issue (inv : AuthenticatedInvocation) (p : ContextPackage) (profile : EgressProfile)
    (issued_at : datetime) : result EgressGrantIssue :=
  let org := m_organization_id (ua_facts (inv_user_actor inv)) in
  match profile with
  | InternalOnlyProfile => Err RuntimeConfigurationError
  | ModelProfile m =>
      bound ← dt_add issued_at (me_maximum_ttl m);
      payload ← model_input_digest canon p;
      issue_for_model org (pk_package_digest p) payload (pk_purpose p) (pk_audience_digest p) (inv_policy_epoch inv)
        issued_at (dt_min (pk_expires_at p) bound) m
  | ChannelProfile c =>
      bound ← dt_add issued_at (ch_maximum_ttl c);
      payload ← channel_payload_digest canon p;
      issue_for_channel org (pk_package_digest p) payload (pk_purpose p) (pk_audience_digest p) (inv_policy_epoch inv)
        issued_at (dt_min (pk_expires_at p) bound) c
  end.

(** [EgressGate.finalize] *)
Definition egress_finalize (L : lifetimes) (inv : AuthenticatedInvocation) (dc : TrustedDeliveryContext)
    (pr : DecisionProvenanceReceipt) (p : ContextPackage) (profile : EgressProfile) (issued_at : datetime)
    (factory : pystr → result pystr) (answer : EgressGrantIssue → pybytes → result bool) :
    list (EgressGrantIssue * list Z) * result (option EgressGrant) :=
  match require_bound_package L inv dc pr p issued_at with
  | Err e => ([], Err e)
  | Ok _ =>
      match profile with
      | InternalOnlyProfile => ([], Ok None)
      | _ =>
          match require_channel dc profile ;;
                match m_egress_grant_issuance_session (ua_facts (inv_user_actor inv)) with
                | None => Err EgressGrantIssuanceUnavailable
                | Some session => issue ← egress_issue inv p profile issued_at; Ok (session, issue)
                end with
          | Err e => ([], Err e)
          | Ok (session, issue) =>
              let '(calls, r) := issue_egress_grant L (as_scope session) issue factory answer in
              (calls, g ← r; Ok (Some g))
          end
      end
  end.
End Gate.

(** ** State, log and environment *)

Inductive event :=
  | EEvidenceRedeemed (r : PrivateDeliveryEvidenceRedemption)
  | ECitationRedeemed (r : CitationOpenRedemption)
  | ECitationIssued (c : citation_call)
  | EGrantIssued (i : EgressGrantIssue) (digest : list Z)
  | ERunPersisted (run : ContextRunRecord) (audit : option DecisionAuditRecord).

Record runtime_state := mkRuntimeState {
  rt_kernel : kernel_state;
  rt_meters : store;
  rt_events : list event
}.
Definition runtime_op (A : Type) : Type := runtime_state → runtime_state * result A.
#[export] Instance runtime_ret : MRet runtime_op := λ A a s, (s, Ok a).
#[export] Instance runtime_bind : MBind runtime_op := λ A B f m s,
  match m s with
  | (s', Ok a) => f a s'
  | (s', Err e) => (s', Err e)
  end.

(** Steps that touch no state, the kernel, the meters, or only a port. *)
Definition rpure {A} (m : result A) : runtime_op A := λ s, (s, m).
Definition in_kernel {A} (m : kernel_op A) : runtime_op A := λ s,
  let '(k, r) := m (rt_kernel s) in (mkRuntimeState k (rt_meters s) (rt_events s), r).
Definition in_meters {A} (m : store → store * result A) : runtime_op A := λ s,
  let '(b, r) := m (rt_meters s) in (mkRuntimeState (rt_kernel s) b (rt_events s), r).
Definition with_port {A B} (ev : B → event) (m : list event → list B * result A) : runtime_op A := λ s,
  let '(calls, r) := m (rt_events s) in
  (mkRuntimeState (rt_kernel s) (rt_meters s) (rt_events s ++ (ev <$> calls)), r).

(** The services around one Runtime, each of which may answer anything. *)
Record runtime_env := mkEnv {
  env_canon : json → result pybytes;
  env_isprintable : Z → bool;
  env_secret : pybytes;
  env_relevance_tokens : pystr → gset (list Z);
  env_artifact : option pybytes;
  env_redeem : list event → CitationOpenRedemption → result (option CitationOpenTarget);
  env_citation_ref : list event → result obj;
  env_issue_citation : list event → citation_call → result bool;
  env_grant_ref : list event → pystr → result pystr;
  env_issue_grant : list event → EgressGrantIssue → pybytes → result bool;
  env_persist : list event → ContextRunRecord → option DecisionAuditRecord → result unit
}.

(** The candidate index: [prepare] receives the meter of the resolve, the embedding
    profile digest and, when generation bound, the release generation. *)
Class MeteredIndex := {
  mi_generation_bound : bool;
  mi_prepare : Acquire → pystr → nat → pystr → option Z → store → store * result CandidateDiscoveryRequest;
  mi_discover : Acquire → CandidateDiscoverySession → pystr → store → store * result CandidateQuery
}.
(** What the Runtime relies on: the index uses the meter through its operations. *)
Class MeterDiscipline (index : MeteredIndex) := {
  prepare_runs_ops : ∀ request scope meter digest generation s, ∃ load ops,
    Forall op_ok ops ∧ (mi_prepare request scope meter digest generation s).1 = run load s ops;
  discover_runs_ops : ∀ request session scope s, ∃ load ops,
    Forall op_ok ops ∧ (mi_discover request session scope s).1 = run load s ops
}.

(** [Runtime.__init__] *)
Record runtime_config := mkConfig {
  rc_package_ttl_seconds : Z;
  rc_server_budget : PackageBudget;
  rc_index : option MeteredIndex;
  rc_candidate_submission_limit : Z;
  rc_one_hop_scanned_page_limit : Z;
  rc_ranker_weights : option weight_map;
  rc_acquire_capability : RuntimeCapability;
  rc_query_digest_keyring : option QueryDigestKeyring;
  rc_egress_profile : EgressProfile;
  rc_citation_profile : option CitationOpenProfile
}.
Definition MAX_ONE_HOP_SCANNED_PAGE_CEILING : Z := 64.
Definition _require_one_hop_scanned_page_limit (limit : Z) : result unit :=
  require ((1 <=? limit) && (limit <=? MAX_ONE_HOP_SCANNED_PAGE_CEILING)) ValueError.
Definition new_Runtime (c : runtime_config) : result runtime_config :=
  require (0 <? rc_package_ttl_seconds c) ValueError ;;
  try_except (require_candidate_submission_limit (OInt (rc_candidate_submission_limit c)) ;; Ok tt)
    is_ValueError (Err RuntimeConfigurationError) ;;
  try_except (_require_one_hop_scanned_page_limit (rc_one_hop_scanned_page_limit c))
    is_ValueError (Err RuntimeConfigurationError) ;;
  require (bool_decide (rc_acquire_capability c
             ∈ [MATERIALIZED_ACQUIRE; FEDERATED_DISCOVERY; SOURCE_NATIVE_AUTHORIZATION])) RuntimeConfigurationError ;;
  match rc_citation_profile c with
  | None => Ok tt
  | Some p =>
      require (rc_package_ttl_seconds c <? 10 ^ 9 * 86400) OverflowError ;;
      require (seconds (rc_package_ttl_seconds c) <=? cf_maximum_ttl p) RuntimeConfigurationError
  end ;;
  Ok c.

(** ** [Runtime.resolve] *)

Section Resolve.
Context {nesting : NestingLimit}.
Context {Port : MaterializedProjectionPort}.
Context (E : runtime_env) (config : runtime_config).
(** The request, and the request lifetimes and epoch authority when it is prepared,
    when it is finalized, and the lifetimes when the package is assembled. *)
Context (inv : AuthenticatedInvocation) (dc : TrustedDeliveryContext).
Context (L L' LA : lifetimes) (port port' : epoch_port).

Abbreviation facts := (ua_facts (inv_user_actor inv)).
Abbreviation canon := (env_canon E).

(** [_resolve_budget_meter] *)
Definition _resolve_budget_meter (budget : PackageBudget) (release : ActiveRuntimeRelease) :
    store → store * result nat := λ s,
  if bool_decide (ar_package_schema_ref release = PACKAGE_SCHEMA_REF_V1) then
    match d ← registered_tokenizer_profile canon (ar_tokenizer_profile_document release)
                (ar_tokenizer_profile_digest release);
          digest ← descriptor_digest canon d; Ok (d, digest) with
    | Err e => (s, Err e)
    | Ok (d, digest) =>
        meter_init (λ _, load_tokenizer (env_artifact E) d) s budget _EMPTY_USAGE
          (Some (mkTokenizerProfile (td_profile_ref d) digest)) (Some (ar_active_generation release))
    end
  else meter_init (λ _, Ok tt) s budget _EMPTY_USAGE None None.

(** The call that prepares a discovery request under the release's schema. *)
Definition prepare_discovery (index : MeteredIndex) (request : Acquire) (discovery_scope : pystr)
    (release : ActiveRuntimeRelease) (meter : nat) : store → store * result CandidateDiscoveryRequest := λ s,
  if bool_decide (ar_package_schema_ref release = PACKAGE_SCHEMA_REF_V1) then
    if mi_generation_bound
    then mi_prepare request discovery_scope meter (ar_embedding_profile_digest release)
           (Some (ar_active_generation release)) s
    else (s, Err CandidateIndexUnavailable)
  else mi_prepare request discovery_scope meter (ar_embedding_profile_digest release) None s.

(** The candidate discovery branch. *)
Definition discover_metered (preparation : PreparedAcquireAuthorization) (request : Acquire)
    (release : ActiveRuntimeRelease) (meter : nat) : runtime_op (list CandidateRef * list CandidateRankEvidence) :=
  let scope := po_effective_scope (pa_policy_receipt preparation) in
  match rc_index config with
  | None => mret ([], [])
  | Some index =>
      if bool_decide (es_targets scope = ∅) then mret ([], [])
      else
        match m_materialized_projection_session facts with
        | None => rpure (Err RuntimeConfigurationError)
        | Some session =>
            discovery_scope ← rpure (candidate_discovery_scope scope);
            discovery_request ← in_meters (prepare_discovery index request discovery_scope release meter);
            discovery_session ← rpure (
              _require_candidate_discovery_scope_integrity discovery_scope ;;
              require_bounded_discovery_request discovery_request (rc_candidate_submission_limit config) ;;
              try_except (_construct_candidate_discovery_session L session discovery_request scope)
                is_discovery_unavailable (Err CandidateIndexUnavailable));
            discovered ← in_meters (mi_discover request discovery_session discovery_scope);
            rpure (
              _require_candidate_discovery_scope_integrity discovery_scope ;;
              require_bounded_candidate_submission discovered (OInt (rc_candidate_submission_limit config)) ;;
              fused ← fuse_candidate_evidence discovered;
              Ok (sorted_by _candidate_sort_key (candidate_refs fused), rank_evidence fused))
        end
  end.

(** The finalized content of a request, its effective budget and its meter. *)
Definition acquire_content (fresh : Z) (request : Acquire) (release : ActiveRuntimeRelease) (as_of : datetime) :
    runtime_op (FinalizedAuthorizationResult * PackageBudget * nat) :=
  preparation ← in_kernel (prepare_acquire L port inv dc request (rc_server_budget config) as_of);
  meter ← in_meters (_resolve_budget_meter (pa_effective_budget preparation) release);
  discovered ← discover_metered preparation request release meter;
  decision ← in_kernel (authorize_acquire (env_isprintable E) (env_secret E) L fresh inv preparation discovered.1
                          (m_materialized_projection_session facts));
  expanded ← in_kernel (expand_one_hop (env_isprintable E) (env_secret E) L (fresh + 1) inv preparation discovered.1
                          (rc_candidate_submission_limit config) (rc_one_hop_scanned_page_limit config) decision);
  graph ← in_kernel (with_scopes (λ K, graph_evidence (env_relevance_tokens E) K request expanded));
  finalized ← in_kernel (deliver_decision (env_isprintable E) (env_secret E) L' port' inv expanded
                           (discovered.2 ++ graph) (rc_ranker_weights config));
  mret (finalized, ad_effective_budget expanded, meter).

(** [except CitationLocatorNotAvailable: target = None] *)
Definition redeemed_candidate (r : result CitationOpenTarget) : result (option CandidateRef) :=
  match r with
  | Ok target => Ok (Some (ct_candidate_ref target))
  | Err CitationLocatorNotAvailable => Ok None
  | Err e => Err e
  end.
Definition citation_content (fresh : Z) (citation_open_ref : CitationOpenRef) (release : ActiveRuntimeRelease)
    (as_of : datetime) : runtime_op (FinalizedAuthorizationResult * PackageBudget * nat) :=
  match m_citation_open_session facts with
  | None => rpure (Err CitationAuthorityUnavailable)
  | Some session =>
      redemption ← rpure (new_CitationOpenRedemption
                            (mkCitationRedemption citation_open_ref (m_organization_id facts) as_of));
      candidate ← with_port ECitationRedeemed (λ events,
        let '(calls, r) := redeem_citation_open_ref L session redemption (env_redeem E events) in
        (calls, redeemed_candidate r));
      decision ← in_kernel (authorize_open_citation (env_isprintable E) (env_secret E) L port fresh inv dc
                              citation_open_ref candidate (rc_server_budget config) as_of
                              (m_materialized_projection_session facts));
      meter ← in_meters (_resolve_budget_meter (ad_effective_budget decision) release);
      finalized ← in_kernel (deliver_decision (env_isprintable E) (env_secret E) L' port' inv decision []
                               (rc_ranker_weights config));
      mret (finalized, ad_effective_budget decision, meter)
  end.

(** *** Assembling the package *)

(** The locator of one Evidence, valid as long as the package. *)
Definition citation_issue (pr : DecisionProvenanceReceipt) (e : Evidence) : result CitationOpenIssue :=
  revision_id ← try_except (uuid_of_text (ev_revision_ref e)) is_ValueError (Err CitationAuthorityUnavailable);
  expires_at ← dt_add (pr_as_of pr) (seconds (rc_package_ttl_seconds config));
  new_CitationOpenIssue (mkCitationIssue (m_organization_id facts) (pr_package_id pr) (ev_evidence_ref e)
                           (ev_resource_ref e) revision_id (ev_fragment_ref e) (pr_as_of pr) expires_at).
Fixpoint issue_citations (session : AuthoritySession) (profile : CitationOpenProfile) (pr : DecisionProvenanceReceipt)
    (es : list Evidence) : runtime_op (list (list Z * CitationOpenRef)) :=
  match es with
  | [] => mret []
  | e :: es' =>
      issue ← rpure (citation_issue pr e);
      locator ← with_port ECitationIssued (λ events,
        issue_citation_open_ref LA session issue profile (env_citation_ref E events) (env_issue_citation E events));
      rest ← issue_citations session profile pr es';
      mret ((ev_evidence_ref e, locator) :: rest)
  end.
Definition attach_citations (pr : DecisionProvenanceReceipt) (content : PackageContent) : runtime_op PackageContent :=
  match rc_citation_profile config with
  | None => mret content
  | Some profile =>
      if bool_decide (evidence content = []) then mret content
      else
        match m_citation_open_session facts with
        | None => rpure (Err CitationAuthorityUnavailable)
        | Some session =>
            references ← issue_citations session profile pr (evidence content);
            rpure (_attach_citation_open_refs content (list_to_map (reverse references)))
        end
  end.

(** The tokens of the blocks are reserved and committed on the meter. *)
Definition assembly_tokens (s : store) (meter : nat) (content : PackageContent) : result Z :=
  match meters s !! meter with
  | None => Err TypeError
  | Some m => counts ← map_result (λ b, count_tokens m (TokStr (bl_body b))) (blocks content); Ok (sum_Z counts)
  end.
Definition charge_assembly (meter : nat) (content : PackageContent) : store → store * result BudgetUsage := λ s,
  match assembly_tokens s meter content with
  | Err e => (s, Err e)
  | Ok tokens =>
      let charged :=
        if tokens =? 0 then (s, Ok tt)
        else match BudgetUsage_post_init (mkBudgetUsage tokens 0 0 0) with
             | Err e => (s, Err e)
             | Ok maximum =>
                 match _reserve s meter maximum with
                 | (s', Err PackageBudgetExceeded) => (s', Err CandidateIndexUnavailable)
                 | (s', Err e) => (s', Err e)
                 | (s', Ok reservation) => _commit s' meter reservation maximum
                 end
             end in
      match charged with
      | (s', Err e) => (s', Err e)
      | (s', Ok _) => (s', match usage s' meter with Some u => Ok u | None => Err TypeError end)
      end
  end.

Definition delivered_usage (release : ActiveRuntimeRelease) (cumulative : BudgetUsage) (content : PackageContent) :
    result BudgetUsage :=
  if bool_decide (ar_package_schema_ref release = PACKAGE_SCHEMA_REF_V1) then Ok cumulative
  else size ← utf8_tokens (blocks content); BudgetUsage_post_init (mkBudgetUsage size 0 0 0).

Definition build_package (fin : FinalizedAuthorizationResult) (content : PackageContent) (audience : pystr)
    (cumulative : BudgetUsage) (release : ActiveRuntimeRelease) : result ContextPackage :=
  let pr := fin_provenance_receipt fin in
  expires_at ← dt_add (pr_as_of pr) (seconds (rc_package_ttl_seconds config));
  delivered ← delivered_usage release cumulative content;
  coverage ← new_Coverage (if bool_decide (evidence content = []) then EMPTY else SUFFICIENT)
               (au_reason (fin_audit_receipt fin));
  new_ContextPackage canon
    (mkPackage (pr_package_id pr) (po_purpose (fin_policy_receipt fin)) audience (pr_policy_epoch pr)
       (pr_policy_snapshot_ref pr) (pr_run_ref pr) (ar_manifest_ref release) PACKAGE_RETENTION_POLICY_REF
       (ar_tokenizer_ref release) (ar_package_schema_ref release) (rc_package_ttl_seconds config) (pr_as_of pr)
       expires_at (pr_decision_ref pr) [] (blocks content) (evidence content) delivered coverage
       (ar_tokenizer_profile_digest release)).

Definition is_acquire (request : RuntimeRequest) : bool := match request with RAcquire _ => true | _ => false end.

(** From the finalized content to the recorded outcome. *)
Definition deliver_package (request : RuntimeRequest) (release : ActiveRuntimeRelease) (as_of : datetime)
    (fin : FinalizedAuthorizationResult) (effective_budget : PackageBudget) (meter : nat) :
    runtime_op ResolutionOutcome :=
  let pr := fin_provenance_receipt fin in
  let scope := po_effective_scope (fin_policy_receipt fin) in
  content ← attach_citations pr (fin_content fin);
  audience ← rpure (match dc_audience_digest dc with Some d => Ok d | None => direct_audience canon inv dc end);
  cumulative ← in_meters (charge_assembly meter content);
  package ← rpure (build_package fin content audience cumulative release);
  grant ← (if is_acquire request || negb (bool_decide (pk_evidence package = []))
           then with_port (λ c, EGrantIssued c.1 c.2) (λ events,
                  egress_finalize canon LA inv dc pr package (rc_egress_profile config) as_of
                    (env_grant_ref E events) (env_issue_grant E events))
           else mret None);
  match m_context_run_persistence_session facts, rc_query_digest_keyring config with
  | Some session, Some keyring =>
      records ← rpure (build_context_run_records canon LA inv request pr package scope effective_budget keyring release);
      with_port (λ c, ERunPersisted c.1 c.2) (λ events,
        persist_context_run LA session records.1 records.2 (env_persist E events)) ;;
      if negb (is_acquire request) && bool_decide (pk_evidence package = []) then mret OCitationNotAvailable
      else
        receipt ← rpure (new_ScopeDecisionReceipt (es_digest scope) (Z.of_nat (size (es_targets scope)))
                           (bool_decide (es_targets scope = ∅)));
        mret (OResolved (mkResolved package effective_budget receipt grant))
  | _, _ => rpure (Err ContextRunPersistenceUnavailable)
  end.

(** [Runtime.resolve]; [now] is the clock's answer. *)
Definition resolve (fresh : Z) (now : datetime) (request : RuntimeRequest) : runtime_op ResolutionOutcome :=
  let capability := _required_capability_for_request request (rc_acquire_capability config) in
  match require_available capability (bool_decide (is_Some (rc_citation_profile config))) with
  | Err _ =>
      as_of ← rpure (require_utc now);
      in_kernel (preflight_unavailable_request L port inv dc request (rc_server_budget config) as_of) ;;
      mret (match request with ROpenCitation _ => OCitationNotAvailable | _ => ORequestNotAvailable end)
  | Ok _ =>
      match m_active_runtime_release facts with
      | None => rpure (Err ActiveReleaseUnavailable)
      | Some r =>
          let release := rel_value r in
          rpure (require (bool_decide (ar_organization_id release = m_organization_id facts)) ActiveReleaseUnavailable) ;;
          as_of ← rpure (require_utc now);
          finalized ← match request with
                      | RAcquire a => acquire_content fresh a release as_of
                      | ROpenCitation c => citation_content fresh c release as_of
                      | RContinue _ _ => rpure (Err RuntimeConfigurationError)
                      end;
          deliver_package request release as_of finalized.1.1 finalized.1.2 finalized.2
      end
  end.
End Resolve.
