(* ===== verification/RuntimeFacts.v ===== *)
(** * What [Runtime.resolve] guarantees

    The steps of a resolve taken apart, and the theorems about the whole operation:
    what a delivered package contains, what is recorded and handed out with it, and
    what a refusal leaves behind. *)

From S2P Require Import Prelude Codec Sha256 Datetime Json ReleaseLineage Budget Scope Evidence Ranking AuthorizedRanking Materialized Trusted Egress Pyrepr Kernel KernelFacts Package Citation ContextRun Runtime.

(** ** Steps *)

Lemma rbind_Ok {A B} (m : runtime_op A) (f : A → runtime_op B) s s'' b :
  (m ≫= f) s = (s'', Ok b) ↔ ∃ s' a, m s = (s', Ok a) ∧ f a s' = (s'', Ok b).
Proof. unfold mbind, runtime_bind. destruct (m s) as [s' [a|e]]; naive_solver. Qed.

Lemma rpure_Ok {A} (m : result A) s s' a : rpure m s = (s', Ok a) ↔ s' = s ∧ m = Ok a.
Proof. unfold rpure. naive_solver. Qed.

Lemma rret_Ok {A} (x a : A) (s s' : runtime_state) : (mret x : runtime_op A) s = (s', Ok a) ↔ s' = s ∧ a = x.
Proof. unfold mret, runtime_ret. naive_solver. Qed.

Lemma in_kernel_Ok {A} (m : kernel_op A) s s' a :
  in_kernel m s = (s', Ok a) ↔
    m (rt_kernel s) = (rt_kernel s', Ok a) ∧ rt_meters s' = rt_meters s ∧ rt_events s' = rt_events s.
Proof. unfold in_kernel. destruct s, s'. destruct (m _) as [k r]. cbn. naive_solver. Qed.

Lemma in_meters_Ok {A} (m : store → store * result A) s s' a :
  in_meters m s = (s', Ok a) ↔
    m (rt_meters s) = (rt_meters s', Ok a) ∧ rt_kernel s' = rt_kernel s ∧ rt_events s' = rt_events s.
Proof. unfold in_meters. destruct s, s'. destruct (m _) as [k r]. cbn. naive_solver. Qed.

Lemma with_port_Ok {A B} (ev : B → event) (m : list event → list B * result A) s s' a :
  with_port ev m s = (s', Ok a) ↔
    ∃ calls, m (rt_events s) = (calls, Ok a) ∧ rt_kernel s' = rt_kernel s ∧ rt_meters s' = rt_meters s
      ∧ rt_events s' = rt_events s ++ (ev <$> calls).
Proof. unfold with_port. destruct s, s'. destruct (m _) as [k r]. cbn. naive_solver. Qed.

Section RuntimeFacts.
Context {nesting : NestingLimit}.
Context {Port : MaterializedProjectionPort}.
Context (E : runtime_env) (config : runtime_config).
Context (inv : AuthenticatedInvocation) (dc : TrustedDeliveryContext).
Context (L L' LA : lifetimes) (port port' : epoch_port).

Abbreviation facts := (ua_facts (inv_user_actor inv)).
Abbreviation canon := (env_canon E).
Abbreviation isprintable := (env_isprintable E).
Abbreviation secret := (env_secret E).

(** ** Decisions made in this request *)

Record made_decision (narrowing : option RequestNarrowing) (at_ : datetime) (K : kernel_scopes)
    (d : AuthorizationDecision) : Prop := {
  md_ok : decision_ok inv K d;
  md_valid : _validate_trusted_invocation_and_delivery L inv dc = Ok tt;
  md_policy : ∃ scope (current : bool),
    current_effective_scope L inv narrowing = Ok scope ∧ epoch_gate_of L port inv = Ok current
    ∧ ad_policy_receipt d = mkPolicyReceipt (inv_request_id inv) (dc_purpose dc) (inv_policy_epoch inv)
                              (if current then scope else no_scope);
  md_provenance : ∃ refs, ad_provenance_receipt d = provenance_of inv (ad_policy_receipt d) at_ refs;
  md_utc : is_utc at_ = true
}.

(** What an authorized projection stands for, with the reported provenance. *)
Definition projection_current (narrowing : option RequestNarrowing) (pr : DecisionProvenanceReceipt)
    (p : AuthorizedProjection) : Prop :=
  ∃ l la fp ops,
    port_locate (candidate_ref p) = Ok (Some l) ∧ _locator_matches_candidate l (candidate_ref p) = true
    ∧ port_project l = Ok (Some fp)
    ∧ projected_body p = rendered_body fp ∧ projected_field_refs p = materialized_field_refs fp
    ∧ lineage p = decision_lineage inv pr la
    ∧ _trusted_operands_from_snapshot L (inv_trusted_scope_snapshot inv) = Ok ops
    ∧ candidate_target (candidate_ref p) ∈ es_targets (compute_effective_scope ops narrowing)
    ∧ cr_organization_id (candidate_ref p) = m_organization_id facts.

Lemma made_projection narrowing at_ K d p :
  made_decision narrowing at_ K d → p ∈ ad_projections d →
  epoch_gate_of L port inv = Ok true ∧ ts_policy_epoch (inv_trusted_scope_snapshot inv) = inv_policy_epoch inv
  ∧ projection_current narrowing (ad_provenance_receipt d) p.
Proof.
  intros [(Hok & _) Hv (scope & current & Hs & Hc & Hpo) _ _] Hp. rewrite Forall_forall in Hok.
  destruct (Hok p Hp) as (l & la & fp & ca & Hl & Hm & Ht & Hfp & Hbody & Hrefs & Hlin & _).
  rewrite Hpo in Ht. cbn [po_effective_scope] in Ht.
  destruct current; [|by apply not_elem_of_empty in Ht].
  unfold current_effective_scope in Hs.
  destruct (Z.eqb_spec (ts_policy_epoch (inv_trusted_scope_snapshot inv)) (inv_policy_epoch inv)) as [He|];
    [|injection Hs as <-; by apply not_elem_of_empty in Ht].
  apply bind_Ok in Hs as (ops & Hops & [= <-]).
  split; [done|]. split; [done|]. exists l, la, fp, ops. split_and!; try done.
  pose proof (operands_in_organization _ _ _ _ _ Hops Ht) as Ho. cbn in Ho. rewrite Ho.
  by eapply validated_snapshot_organization.
Qed.

(** What a finalization reports: the projections behind its content, all current. *)
Record finalized_ok (narrowing : option RequestNarrowing) (at_ : datetime) (K : kernel_scopes)
    (budget : PackageBudget) (fin : FinalizedAuthorizationResult) (ps : list AuthorizedProjection) : Prop := {
  fo_content : construct_package_content K ps = Ok (fin_content fin);
  fo_current : Forall (projection_current narrowing (fin_provenance_receipt fin)) ps;
  fo_gates : ps ≠ [] →
    epoch_gate_of L port inv = Ok true ∧ epoch_gate_of L' port' inv = Ok true
    ∧ ts_policy_epoch (inv_trusted_scope_snapshot inv) = inv_policy_epoch inv;
  fo_size : ∃ size, delivered_bytes (fin_content fin) = Ok size ∧ size ≤ max_tokens budget;
  fo_budget : budget_ok budget;
  fo_reason : au_reason (fin_audit_receipt fin) = Some NO_AUTHORIZED_EVIDENCE ↔ evidence (fin_content fin) = [];
  fo_actor : _require_active_user_actor L' (inv_user_actor inv) = Ok tt;
  fo_scope : _require_effective_scope_integrity (po_effective_scope (fin_policy_receipt fin)) = Ok tt
}.

Lemma selection_constructs K d Ev w sel :
  select_for_delivery isprintable secret K d Ev w = Ok sel →
  sel_decision sel = d ∧ ∃ ps, construct_package_content K ps = Ok (sel_content sel)
    ∧ Forall (λ p, p ∈ ad_projections d) ps.
Proof.
  intros (Hd & _ & _ & items & Hin & _ & _ & _ & _ & Hc)%select_for_delivery_Ok.
  split; [done|]. exists (it_projection <$> items). split; [done|by apply Forall_fmap].
Qed.

(** The delivered bytes of a finalization fit the decision's budget. *)
Lemma finalized_decision narrowing at_ d Ev w k k' fin :
  made_decision narrowing at_ (ks_scopes k) d →
  deliver_decision isprintable secret L' port' inv d Ev w k = (k', Ok fin) →
  ∃ ps, finalized_ok narrowing at_ (ks_scopes k) (ad_effective_budget d) fin ps
    ∧ Forall (λ p, p ∈ ad_projections d) ps.
Proof.
  intros Hmade H. unfold deliver_decision in H. injection H as _ H.
  apply bind_Ok in H as (sel & Hsel & Hfin). apply selection_constructs in Hsel as (Hd & ps & Hc & Hin).
  apply finalize_for_delivery_Ok in Hfin as (size & Hchecks & Hr).
  destruct Hchecks as ((Hb & _) & _ & _ & Hsize & Hle & Hactor & Hscope). rewrite Hd in *.
  destruct Hr as [(_ & Hgate & ->)|[_ ->]]; cbn [fin_content fin_provenance_receipt fin_audit_receipt au_reason].
  - exists ps. split; [|done]. rewrite Forall_forall in Hin. split; try done.
    + apply Forall_forall. intros p Hp. by eapply made_projection; [|apply Hin].
    + intros Hne. destruct ps as [|p ps]; [done|]. destruct (made_projection _ _ _ _ p Hmade) as (? & ? & _); [|done].
      apply Hin. by left.
    + by exists size.
    + cbn [fin_content fin_audit_receipt au_reason].
      destruct (evidence (sel_content sel)) as [|e es]; cbn; [done|]. rewrite len_cons. pose proof (len_nonneg es).
      destruct (Z.eqb_spec (1 + len es) 0); [lia|naive_solver].
  - exists []. split; [|done]. split; try done.
    exists 0. split; [done|]. apply budget_ok_iff in Hb as [Hb _]. cbn [fin_content]. lia.
Qed.

(** ** The content of an Acquire *)

Lemma discover_metered_Ok prep request release meter s s' r :
  discover_metered config inv L prep request release meter s = (s', Ok r) →
  rt_kernel s' = rt_kernel s ∧ rt_events s' = rt_events s.
Proof.
  unfold discover_metered. destruct (rc_index config) as [index|]; [|by intros [-> _]%rret_Ok].
  destruct (bool_decide _); [by intros [-> _]%rret_Ok|].
  destruct (m_materialized_projection_session facts) as [session|]; [|by intros [_ ?]%rpure_Ok].
  intros H. apply rbind_Ok in H as (s1 & sc & [-> _]%rpure_Ok & H).
  apply rbind_Ok in H as (s2 & req & (_ & H2 & H2')%in_meters_Ok & H).
  apply rbind_Ok in H as (s3 & ds & [-> _]%rpure_Ok & H).
  apply rbind_Ok in H as (s4 & q & (_ & H4 & H4')%in_meters_Ok & H).
  apply rpure_Ok in H as [-> _]. split; congruence.
Qed.

Lemma acquire_content_Ok fresh a release at_ s s' fin b meter :
  acquire_content E config inv dc L L' port port' fresh a release at_ s = (s', Ok (fin, b, meter)) →
  (∃ K ps, finalized_ok (acq_narrowing a) at_ K b fin ps)
  ∧ effective_package_budget (rc_server_budget config) (acq_package_budget a) = Ok b
  ∧ rt_events s' = rt_events s
  ∧ ∀ k, lifetime_active (ks_scopes (rt_kernel s')) k = lifetime_active (ks_scopes (rt_kernel s)) k.
Proof.
  unfold acquire_content. intros H.
  apply rbind_Ok in H as (s1 & prep & (Hprep & Hm1 & He1)%in_kernel_Ok & H).
  apply rbind_Ok in H as (s2 & mt & (_ & Hk2 & He2)%in_meters_Ok & H).
  apply rbind_Ok in H as (s3 & disc & [Hk3 He3]%discover_metered_Ok & H).
  apply rbind_Ok in H as (s4 & d0 & (Hauth & _ & He4)%in_kernel_Ok & H).
  apply rbind_Ok in H as (s5 & d & (Hexp & _ & He5)%in_kernel_Ok & H).
  apply rbind_Ok in H as (s6 & graph & (Hgraph & _ & He6)%in_kernel_Ok & H).
  unfold with_scopes in Hgraph. injection Hgraph as Hk6 _.
  apply rbind_Ok in H as (s7 & f & (Hdel & _ & He7)%in_kernel_Ok & H).
  apply rret_Ok in H as [-> [= -> -> ->]].
  pose proof (authorize_acquire_decision _ _ _ _ _ _ _ _ _ _ _ Hauth) as (Hok & Hpol & Hprov & Hb & _ & _).
  destruct (expand_one_hop_Ok _ _ _ _ _ _ _ _ _ _ _ _ _ Hexp Hpol Hprov Hok) as (Hok' & (H1 & H2 & H3) & _).
  pose proof Hprep as (scope & current & refs & Hv & Hs & Hc & Hbud & Hpo & Hpr & Hu & Hsc)%prepare_acquire_Ok.
  split_and!.
  - eapply finalized_decision in Hdel as (ps & Hf & _); [eauto|]. rewrite <- Hk6. split; try done.
    + exists scope, current. split_and!; [done|done|congruence].
    + exists refs. congruence.
  - rewrite H3, Hb. done.
  - congruence.
  - unfold deliver_decision in Hdel. injection Hdel as Hks _. intros k. rewrite <- Hks. cbn [ks_scopes].
    unfold _close_authorization_decision. rewrite <- Hk6.
    destruct (decision_lifetime _ _ _ _ _ _ _ _ _ _ _ _ _ _ _ _ Hauth Hexp) as [[-> ->]|[-> ->]];
      rewrite Hk3, Hk2, Hsc; [done|apply close_opened].
Qed.

(** ** The content of an opened citation *)

Lemma authorize_open_citation_Ok fresh ref candidate budget at_ session k k' d :
  authorize_open_citation isprintable secret L port fresh inv dc ref candidate budget at_ session k = (k', Ok d) →
  made_decision None at_ (ks_scopes k') d ∧ ad_effective_budget d = budget
  ∧ Forall (λ p, Some (candidate_ref p) = candidate) (ad_projections d)
  ∧ (ks_scopes k' = ks_scopes k ∧ ad_projection_scope d = None
     ∨ ks_scopes k' = ks_scopes k ++ [true] ∧ ad_projection_scope d = Some (length (ks_scopes k))).
Proof.
  unfold authorize_open_citation. intros H.
  apply kbind_Ok in H as (? & policy & [-> Hp]%pure_Ok & H). unfold validate_open_citation in Hp.
  apply bind_Ok in Hp as ([] & Hv & Hp). apply bind_Ok in Hp as (scope & Hs & [= <-]).
  apply kbind_Ok in H as (? & current & [-> Hc]%pure_Ok & H).
  apply kbind_Ok in H as (? & b & [-> Hb]%pure_Ok & H).
  apply kbind_Ok in H as (k1 & pr & (Hsc & Hu & Hpr)%provenance_issue_Ok & H).
  apply kbind_Ok in H as (k2 & [ps sc] & Hproj & H).
  apply pure_Ok in H as [-> (H1 & H2 & H3 & H4 & H5 & H6 & Hbok & Hlim)%sealed_decision_Ok].
  apply authorize_and_project_Ok in Hproj as (Hin & Hact & _ & _ & _ & Hnone & _). cbn [fst snd] in *.
  split_and!.
  - split; [|done| | |done].
    + unfold decision_ok. rewrite H1, H2, H3, H4, Hlim. split_and!; try done.
      apply Forall_forall. intros p (c & _ & Ha)%Hin. by eapply authorized_projection.
    + exists scope, current. split_and!; [done|done|]. rewrite H2. by destruct current.
    + rewrite H2, H3, Hpr. eauto.
  - unfold budget_for_request, effective_package_budget in Hb. injection Hb as <-. done.
  - rewrite H4. apply Forall_forall. intros p (c & Hc' & l & fp & _ & _ & _ & _ & ->)%Hin. cbn.
    destruct candidate; cbn in Hc'; [|by apply not_elem_of_nil in Hc']. by apply list_elem_of_singleton in Hc' as ->.
  - rewrite H5. destruct (Hnone eq_refl) as [[-> ->]|[-> ->]]; rewrite Hsc; [by left|by right].
Qed.

(** The redemption behind an opened citation, and what it answered. *)
Definition citation_target (ref : CitationOpenRef) (at_ : datetime) (events : list event) : option CandidateRef :=
  match env_redeem E events (mkCitationRedemption ref (m_organization_id facts) at_) with
  | Ok (Some t) =>
      if _is_citation_open_ref (citation_value ref)
         && bool_decide (cr_organization_id (ct_candidate_ref t) = m_organization_id facts)
      then Some (ct_candidate_ref t) else None
  | _ => None
  end.
Definition redemption_events (ref : CitationOpenRef) (at_ : datetime) : list event :=
  if _is_citation_open_ref (citation_value ref)
  then [ECitationRedeemed (mkCitationRedemption ref (m_organization_id facts) at_)] else [].

Lemma redeem_step session ref at_ events calls r :
  redeem_citation_open_ref L session (mkCitationRedemption ref (m_organization_id facts) at_) (env_redeem E events)
    = (calls, r) → ∀ c, redeemed_candidate r = Ok c →
  ECitationRedeemed <$> calls = redemption_events ref at_ ∧ c = citation_target ref at_ events.
Proof.
  unfold redeem_citation_open_ref, _require_active_citation_open_session, redemption_events, citation_target.
  cbn [cx_citation_open_ref cx_organization_id].
  destruct (lifetime_active L (as_scope session)); cbn [require mbind result_bind]; [|by intros [= <- <-] c [=]].
  destruct (_is_citation_open_ref (citation_value ref)) eqn:Er; cbn [require mbind result_bind andb].
  - destruct (env_redeem E events _) as [[t|]|e] eqn:Ea; intros [= <- <-] c Hc.
    + destruct (bool_decide _); cbn in Hc; injection Hc as <-; done.
    + injection Hc as <-. done.
    + destruct e; cbn in Hc; try discriminate. injection Hc as <-. done.
  - intros [= <- <-] c [= <-]. destruct (env_redeem E events _) as [[t|]|e]; done.
Qed.

Lemma citation_content_Ok fresh ref release at_ s s' fin b meter :
  citation_content E config inv dc L L' port port' fresh ref release at_ s = (s', Ok (fin, b, meter)) →
  (∃ K ps, finalized_ok None at_ K b fin ps
     ∧ Forall (λ p, Some (candidate_ref p) = citation_target ref at_ (rt_events s)) ps)
  ∧ b = rc_server_budget config
  ∧ rt_events s' = rt_events s ++ redemption_events ref at_
  ∧ ∀ k, lifetime_active (ks_scopes (rt_kernel s')) k = lifetime_active (ks_scopes (rt_kernel s)) k.
Proof.
  unfold citation_content. destruct (m_citation_open_session facts) as [session|]; [|by intros [_ ?]%rpure_Ok].
  intros H. apply rbind_Ok in H as (s1 & red & [-> Hred]%rpure_Ok & H).
  unfold new_CitationOpenRedemption in Hred. apply bind_Ok in Hred as (? & _ & <-%Ok_inj).
  apply rbind_Ok in H as (s2 & c & (calls & Hc & Hk2 & Hm2 & He2)%with_port_Ok & H).
  destruct (redeem_citation_open_ref _ _ _ _) as [calls' r] eqn:Er. injection Hc as -> Hc.
  destruct (redeem_step _ _ _ _ _ _ Er _ Hc) as [Hev ->].
  apply rbind_Ok in H as (s3 & d & (Hauth & Hm3 & He3)%in_kernel_Ok & H).
  apply authorize_open_citation_Ok in Hauth as (Hmade & Hb & Hps & Hlife).
  apply rbind_Ok in H as (s4 & mt & (_ & Hk4 & He4)%in_meters_Ok & H).
  apply rbind_Ok in H as (s5 & f & (Hdel & _ & He5)%in_kernel_Ok & H).
  apply rret_Ok in H as [-> [= -> -> ->]]. rewrite Hk4 in Hdel.
  split_and!; [|done|congruence|].
  - destruct (finalized_decision _ _ _ _ _ _ _ _ Hmade Hdel) as (ps & Hf & Hin). eexists _, ps. split; [exact Hf|].
    rewrite Forall_forall in *. auto.
  - unfold deliver_decision in Hdel. injection Hdel as Hks _. intros k. rewrite <- Hks. cbn [ks_scopes].
    unfold _close_authorization_decision. destruct Hlife as [[-> ->]|[-> ->]]; rewrite Hk2; [done|apply close_opened].
Qed.

(** ** Locators *)

(** The locator [loc] of Evidence [e] was accepted by the port as [call]. *)
Definition issued_for (profile : CitationOpenProfile) (pr : DecisionProvenanceReceipt) (e : Evidence)
    (loc : CitationOpenRef) (call : citation_call) : Prop :=
  citation_issue config inv pr e = Ok (cc_request call)
  ∧ cc_locator_digest call = sha256 (citation_value loc) ∧ cc_profile call = profile
  ∧ _is_citation_open_ref (citation_value loc) = true.

Lemma issue_citations_Ok session profile pr es s s' refs :
  issue_citations E config inv LA session profile pr es s = (s', Ok refs) →
  rt_kernel s' = rt_kernel s ∧ rt_meters s' = rt_meters s
  ∧ ∃ calls, rt_events s' = rt_events s ++ (ECitationIssued <$> calls)
      ∧ refs.*1 = ev_evidence_ref <$> es
      ∧ Forall2 (λ er call, issued_for profile pr er.1 er.2 call) (zip es refs.*2) calls.
Proof.
  revert s refs. induction es as [|e es IH]; intros s refs H; cbn [issue_citations] in H.
  - apply rret_Ok in H as [-> ->]. split_and!; try done. exists []. by rewrite fmap_nil, app_nil_r.
  - apply rbind_Ok in H as (s1 & issue & [-> Hissue]%rpure_Ok & H).
    apply rbind_Ok in H as (s2 & loc & (calls & Hloc & Hk & Hm & He)%with_port_Ok & H).
    apply issue_citation_Ok in Hloc as (call & -> & _ & Hreq & Hdig & Hprof & Href & _).
    apply rbind_Ok in H as (s3 & rest & Hrest & H). apply rret_Ok in H as [-> ->].
    apply IH in Hrest as (Hk' & Hm' & calls & He' & Hfst & Hall). split_and!; [congruence|congruence|].
    exists (call :: calls). split_and!.
    + rewrite He', He. cbn. by rewrite <- app_assoc.
    + cbn. by rewrite Hfst.
    + cbn. constructor; [|done]. split_and!; try done. cbn. by rewrite Hreq.
Qed.

(** The locators of a package, in the order of its projections. *)
Definition cited (pr : DecisionProvenanceReceipt) (ps : list AuthorizedProjection)
    (cite : AuthorizedProjection → option CitationOpenRef) (calls : list citation_call) : Prop :=
  match rc_citation_profile config with
  | None => calls = [] ∧ cite = λ _, None
  | Some profile =>
      Forall2 (λ p call, ∃ loc, cite p = Some loc ∧ issued_for profile pr (evidence_of p None) loc call) ps calls
  end.

Lemma list_to_map_reverse_lookup (refs : list (list Z * CitationOpenRef)) i k v :
  NoDup refs.*1 → refs !! i = Some (k, v) → (list_to_map (reverse refs) : gmap (list Z) CitationOpenRef) !! k = Some v.
Proof.
  intros Hnd Hi. apply elem_of_list_to_map_1; [by rewrite reverse_Permutation|].
  apply elem_of_reverse. by eapply list_elem_of_lookup_2.
Qed.

Lemma attach_citations_Ok K ps pr content s s' c' :
  construct_package_content K ps = Ok content →
  attach_citations E config inv LA pr content s = (s', Ok c') →
  rt_kernel s' = rt_kernel s ∧ rt_meters s' = rt_meters s
  ∧ ∃ cite calls, rt_events s' = rt_events s ++ (ECitationIssued <$> calls)
      ∧ c' = mkPackageContent (block_of <$> ps) ((λ p, evidence_of p (cite p)) <$> ps) ∧ cited pr ps cite calls.
Proof.
  intros Hc H. pose proof Hc as (_ & _ & _ & _ & Hnd & _ & Hform)%construct_package_content_Ok.
  unfold attach_citations in H. unfold cited. destruct (rc_citation_profile config) as [profile|].
  2: { apply rret_Ok in H as [-> ->]. split_and!; try done. exists (λ _, None), []. by rewrite fmap_nil, app_nil_r. }
  case_bool_decide as Hev.
  { apply rret_Ok in H as [-> ->]. split_and!; try done. exists (λ _, None), []. rewrite fmap_nil, app_nil_r.
    split_and!; [done|done|]. rewrite Hform in Hev. cbn in Hev. by destruct ps. }
  destruct (m_citation_open_session facts) as [session|]; [|by apply rpure_Ok in H as [_ ?]].
  apply rbind_Ok in H as (s1 & refs & (Hk & Hm & calls & He & Hfst & Hall)%issue_citations_Ok & H).
  apply rpure_Ok in H as [-> H]. split_and!; try done.
  rewrite (attach_citations_exact K ps content _ Hc) in H.
  destruct (bool_decide (dom _ = _)) in H; [|done]. apply Ok_inj in H as <-.
  exists (λ p, (list_to_map (reverse refs) : gmap (list Z) CitationOpenRef) !! _evidence_ref_for_projection p), calls.
  split; [exact He|]. split; [by rewrite Hform at 1|].
  rewrite Hform in Hfst, Hall. cbn [evidence] in Hfst, Hall. rewrite <- list_fmap_compose in Hfst.
  apply Forall2_same_length_lookup. split.
  { apply Forall2_length in Hall. rewrite length_zip_with, !length_fmap in Hall.
    apply (f_equal length) in Hfst. rewrite !length_fmap in Hfst. lia. }
  intros i p call Hp Hcall. rewrite Forall2_lookup in Hall. specialize (Hall i). rewrite Hcall in Hall.
  inversion Hall as [[e loc] call' Hissued Hz Heq|]. subst call'.
  symmetry in Hz. apply lookup_zip_Some in Hz as [He' Hl]. rewrite list_lookup_fmap, Hp in He'. injection He' as <-.
  cbn [fst snd] in Hissued. exists loc. split; [|done].
  rewrite list_lookup_fmap in Hl. destruct (refs !! i) as [[k v]|] eqn:Hr; [|done]. injection Hl as ->.
  assert (Hk' : k = _evidence_ref_for_projection p).
  { apply (f_equal (.!! i)) in Hfst. rewrite !list_lookup_fmap, Hr, Hp in Hfst. by injection Hfst. }
  subst k. eapply list_to_map_reverse_lookup; [|exact Hr]. by rewrite Hfst.
Qed.

(** ** The package and its records *)

Lemma new_package_Ok p p' :
  new_ContextPackage canon p = Ok p' →
  ∃ document digest, context_package_digest_document p = Ok document
    ∧ context_package_digest canon document = Ok digest ∧ p' = with_package_digest p digest.
Proof.
  unfold new_ContextPackage. intros H. do 10 apply bind_Ok in H as (? & _ & H).
  apply bind_Ok in H as (document & Hdoc & H). apply bind_Ok in H as (digest & Hdig & <-%Ok_inj). eauto.
Qed.

(** The digest is not part of the document it covers. *)
Lemma document_without_digest p digest :
  context_package_digest_document (with_package_digest p digest) = context_package_digest_document p.
Proof. reflexivity. Qed.

Lemma build_package_Ok fin content audience cumulative release p :
  build_package E config fin content audience cumulative release = Ok p →
  let pr := fin_provenance_receipt fin in
  pk_package_id p = pr_package_id pr ∧ pk_run_ref p = pr_run_ref pr ∧ pk_decision_ref p = pr_decision_ref pr
  ∧ pk_blocks p = blocks content ∧ pk_evidence p = evidence content ∧ pk_as_of p = pr_as_of pr
  ∧ dt_add (pr_as_of pr) (seconds (rc_package_ttl_seconds config)) = Ok (pk_expires_at p)
  ∧ pk_audience_digest p = audience ∧ pk_release_manifest_ref p = ar_manifest_ref release
  ∧ (∃ document, context_package_digest_document p = Ok document
       ∧ context_package_digest canon document = Ok (pk_package_digest p))
  ∧ co_status (pk_coverage p) = (if bool_decide (evidence content = []) then EMPTY else SUFFICIENT).
Proof.
  unfold build_package. intros H. apply bind_Ok in H as (ex & Hex & H). apply bind_Ok in H as (u & Hu & H).
  apply bind_Ok in H as (cov & Hcov & H). apply new_package_Ok in H as (doc & dig & Hdoc & Hdig & ->).
  cbn -[lit]. split_and!; try done; [exists doc; by rewrite document_without_digest|].
  unfold new_Coverage in Hcov. destruct (bool_decide _), (au_reason _); try discriminate; by injection Hcov as <-.
Qed.

Lemma build_records_Ok request pr p scope budget keyring release run audit :
  build_context_run_records canon LA inv request pr p scope budget keyring release = Ok (run, audit) →
  (∃ query, query_digest keyring (m_organization_id facts) (request_query request) = Ok query
     ∧ run = run_record inv pr p budget query release)
  ∧ audit = (if bool_decide (cr_outcome run = DELIVERED_EMPTY) then Some (audit_of run) else None)
  ∧ within budget (pk_budget_usage p).
Proof.
  unfold build_context_run_records. intros H. do 10 apply bind_Ok in H as (? & _ & H).
  apply bind_Ok in H as (query & Hq & H). apply bind_Ok in H as (run' & Hrun & H).
  apply bind_Ok in H as (audit' & Ha & H). injection H as -> ->.
  assert (E' : run = run_record inv pr p budget query release ∧ check_run_usage (run_record inv pr p budget query release) = Ok tt).
  { unfold new_ContextRunRecord in Hrun. do 14 apply bind_Ok in Hrun as (? & _ & Hrun).
    apply bind_Ok in Hrun as ([] & Hu & Hrun). apply bind_Ok in Hrun as (? & _ & <-%Ok_inj). done. }
  destruct E' as [-> Hu]. split; [eauto|]. split.
  - destruct (cr_outcome _) eqn:Eo.
    + rewrite bool_decide_eq_false_2 by done. by injection Ha.
    + rewrite bool_decide_eq_true_2 by done. apply bind_Ok in Ha as (a & Ha' & <-%Ok_inj).
      unfold new_DecisionAuditRecord in Ha'. do 3 apply bind_Ok in Ha' as (? & _ & Ha'). by injection Ha' as ->.
  - unfold check_run_usage in Hu. apply bind_Ok in Hu as (? & _ & Hu). apply bind_Ok in Hu as (? & _ & Hu).
    apply require_Ok in Hu. rewrite !andb_true_iff, !Z.leb_le in Hu. unfold within. cbn [cr_usage cr_effective_max run_record] in Hu.
    tauto.
Qed.

Lemma egress_finalize_Ok pr p profile at_ factory answer calls g :
  egress_finalize canon LA inv dc pr p profile at_ factory answer = (calls, Ok g) →
  match profile with
  | InternalOnlyProfile => calls = [] ∧ g = None
  | _ => ∃ issue digest grant, calls = [(issue, digest)] ∧ g = Some grant
           ∧ egress_issue canon inv p profile at_ = Ok issue ∧ grant_digest_of (grant_value grant) = Ok digest
           ∧ answer issue digest = Ok true ∧ require_channel dc profile = Ok tt
  end.
Proof.
  unfold egress_finalize. destruct (require_bound_package _ _ _ _ _ _ _) as [[]|]; [|by intros [= _]].
  destruct profile as [|m|c]; [by intros [= <- <-]| |].
  all: destruct (require_channel dc _ ;; _) as [[session issue]|] eqn:Ei; [|by intros [= _]].
  all: destruct (issue_egress_grant _ _ _ _ _) as [calls' r] eqn:Eg; intros [= -> Hr].
  all: apply bind_Ok in Hr as (grant & -> & <-%Ok_inj).
  all: apply grant_issue_Ok in Eg as (d & -> & Ha & _ & _ & Hd & _).
  all: apply bind_Ok in Ei as ([] & Hch & Ei); destruct (m_egress_grant_issuance_session facts); [|discriminate].
  all: apply bind_Ok in Ei as (i & Hi & Ei); injection Ei as -> ->; by exists issue, d, grant.
Qed.

(** ** From the finalized content to the outcome *)

(** The grant handed out with a package and the issuance behind it. *)
Definition handed_out (request : RuntimeRequest) (at_ : datetime) (p : ContextPackage) (g : option EgressGrant)
    (issued : list event) : Prop :=
  if is_acquire request || negb (bool_decide (pk_evidence p = [])) then
    match rc_egress_profile config with
    | InternalOnlyProfile => issued = [] ∧ g = None
    | profile => ∃ issue digest grant, issued = [EGrantIssued issue digest] ∧ g = Some grant
        ∧ egress_issue canon inv p profile at_ = Ok issue ∧ grant_digest_of (grant_value grant) = Ok digest
        ∧ require_channel dc profile = Ok tt
    end
  else issued = [] ∧ g = None.

(** The durable records of a delivered package. *)
Definition recorded_as (request : RuntimeRequest) (pr : DecisionProvenanceReceipt) (release : ActiveRuntimeRelease)
    (p : ContextPackage) (budget : PackageBudget) (run : ContextRunRecord) (audit : option DecisionAuditRecord) : Prop :=
  (∃ keyring query, rc_query_digest_keyring config = Some keyring
     ∧ query_digest keyring (m_organization_id facts) (request_query request) = Ok query
     ∧ run = run_record inv pr p budget query release)
  ∧ audit = (if bool_decide (pk_evidence p = []) then Some (audit_of run) else None)
  ∧ within budget (pk_budget_usage p).

(** Everything an assembled package stands for: its content, seal, locators, grant and
    records, and the events in between. *)
Record assembled (request : RuntimeRequest) (release : ActiveRuntimeRelease) (at_ : datetime)
    (pr : DecisionProvenanceReceipt) (budget : PackageBudget) (ps : list AuthorizedProjection)
    (before after : list event) (p : ContextPackage) (g : option EgressGrant) : Prop := {
  as_blocks : pk_blocks p = block_of <$> ps;
  as_evidence : ∃ cite citations issued run audit,
    pk_evidence p = (λ q, evidence_of q (cite q)) <$> ps
    ∧ cited pr ps cite citations ∧ handed_out request at_ p g issued
    ∧ recorded_as request pr release p budget run audit
    ∧ after = before ++ (ECitationIssued <$> citations) ++ issued ++ [ERunPersisted run audit]
    ∧ env_persist E (before ++ (ECitationIssued <$> citations) ++ issued) run audit = Ok tt;
  as_identity : pk_package_id p = pr_package_id pr ∧ pk_run_ref p = pr_run_ref pr ∧ pk_decision_ref p = pr_decision_ref pr
    ∧ pk_as_of p = pr_as_of pr
    ∧ dt_add (pr_as_of pr) (seconds (rc_package_ttl_seconds config)) = Ok (pk_expires_at p);
  as_digest : ∃ document, context_package_digest_document p = Ok document
    ∧ context_package_digest canon document = Ok (pk_package_digest p)
}.

Lemma grant_step_Ok request at_ pr p s s' g :
  (if is_acquire request || negb (bool_decide (pk_evidence p = []))
   then with_port (λ c, EGrantIssued c.1 c.2) (λ events,
          egress_finalize canon LA inv dc pr p (rc_egress_profile config) at_
            (env_grant_ref E events) (env_issue_grant E events))
   else mret None) s = (s', Ok g) →
  rt_kernel s' = rt_kernel s ∧ rt_meters s' = rt_meters s
  ∧ ∃ issued, rt_events s' = rt_events s ++ issued ∧ handed_out request at_ p g issued.
Proof.
  unfold handed_out. destruct (is_acquire request || _).
  - intros (calls & Hc & Hk & Hm & He)%with_port_Ok. split_and!; try done. eexists. split; [exact He|].
    apply egress_finalize_Ok in Hc. destruct (rc_egress_profile config).
    + destruct Hc as [-> ->]. done.
    + destruct Hc as (i & d & grant & -> & -> & Hi & Hd & _ & Hch). by exists i, d, grant.
    + destruct Hc as (i & d & grant & -> & -> & Hi & Hd & _ & Hch). by exists i, d, grant.
  - intros [-> ->]%rret_Ok. split_and!; try done. exists []. by rewrite app_nil_r.
Qed.

Lemma persist_step_Ok session run audit s s' u :
  with_port (λ c, ERunPersisted c.1 c.2) (λ events, persist_context_run LA session run audit (env_persist E events)) s
    = (s', Ok u) →
  rt_kernel s' = rt_kernel s ∧ rt_events s' = rt_events s ++ [ERunPersisted run audit]
  ∧ env_persist E (rt_events s) run audit = Ok tt.
Proof.
  intros (calls & Hc & Hk & Hm & He)%with_port_Ok. unfold persist_context_run in Hc.
  destruct (_ ;; check_audit _ _); [|discriminate]. destruct (env_persist E (rt_events s) run audit) as [[]|] eqn:Ep; [|discriminate].
  injection Hc as <- _. done.
Qed.

Lemma deliver_package_Ok K ps request release at_ fin budget meter s s' o :
  construct_package_content K ps = Ok (fin_content fin) →
  deliver_package E config inv dc LA request release at_ fin budget meter s = (s', Ok o) →
  rt_kernel s' = rt_kernel s
  ∧ ∃ p g, assembled request release at_ (fin_provenance_receipt fin) budget ps (rt_events s) (rt_events s') p g
      ∧ (o = OCitationNotAvailable ∧ is_acquire request = false ∧ ps = []
         ∨ (is_acquire request = true ∨ ps ≠ []) ∧ ∃ receipt, o = OResolved (mkResolved p budget receipt g)).
Proof.
  intros Hcon H. unfold deliver_package in H.
  apply rbind_Ok in H as (s1 & content & Hatt & H).
  destruct (attach_citations_Ok _ _ _ _ _ _ _ Hcon Hatt) as (Hk1 & _ & cite & citations & He1 & -> & Hcited).
  apply rbind_Ok in H as (s2 & aud & [-> _]%rpure_Ok & H).
  apply rbind_Ok in H as (s3 & cum & (_ & Hk3 & He3)%in_meters_Ok & H).
  apply rbind_Ok in H as (s4 & p & [-> Hp]%rpure_Ok & H).
  apply build_package_Ok in Hp as (Hid & Hrun & Hdec & Hbl & Hev & Hat & Hex & _ & _ & Hdig & Hcov).
  cbn [blocks evidence] in Hbl, Hev, Hcov.
  apply rbind_Ok in H as (s5 & g & (Hk5 & _ & issued & He5 & Hg)%grant_step_Ok & H).
  destruct (m_context_run_persistence_session facts) as [session|]; [|by apply rpure_Ok in H as [_ ?]].
  destruct (rc_query_digest_keyring config) as [keyring|] eqn:Ekey; [|by apply rpure_Ok in H as [_ ?]].
  apply rbind_Ok in H as (s6 & [run audit] & [-> Hrec]%rpure_Ok & H). cbn [fst snd] in H.
  apply build_records_Ok in Hrec as ((query & Hq & Hrun') & Haudit & Hw).
  apply rbind_Ok in H as (s7 & u & (Hk7 & He7 & Hper)%persist_step_Ok & H).
  assert (Hempty : bool_decide (cr_outcome run = DELIVERED_EMPTY) = bool_decide (pk_evidence p = [])).
  { rewrite Hrun'. cbn [cr_outcome run_record]. unfold run_outcome. rewrite Hcov, Hev. by destruct ps. }
  assert (Hpre : rt_events s5 = rt_events s ++ (ECitationIssued <$> citations) ++ issued)
    by (rewrite He5, He3, He1; by rewrite <- app_assoc).
  assert (Hass : assembled request release at_ (fin_provenance_receipt fin) budget ps (rt_events s) (rt_events s7) p g).
  { split; [done| |done|done]. exists cite, citations, issued, run, audit. split_and!; try done.
    - unfold recorded_as. rewrite <- Hempty. split_and!; try done. by exists keyring, query.
    - rewrite He7, Hpre. by rewrite <- !app_assoc.
    - by rewrite <- Hpre. }
  assert (Hnil : bool_decide (pk_evidence p = []) = bool_decide (ps = [])) by (rewrite Hev; by destruct ps).
  rewrite Hnil in H. destruct (is_acquire request) eqn:Ea; cbn [negb andb] in H;
    [|destruct (decide (ps = [])) as [Eps|Eps];
      [rewrite (bool_decide_eq_true_2 (ps = [])) in H by done|rewrite (bool_decide_eq_false_2 (ps = [])) in H by done]].
  - apply rbind_Ok in H as (s8 & rc & [-> _]%rpure_Ok & H). apply rret_Ok in H as [-> ->].
    split; [congruence|]. exists p, g. split; [done|]. right. split; [by left|]. by exists rc.
  - apply rret_Ok in H as [-> ->]. split; [congruence|]. exists p, g. split; [done|]. by left.
  - apply rbind_Ok in H as (s8 & rc & [-> _]%rpure_Ok & H). apply rret_Ok in H as [-> ->].
    split; [congruence|]. exists p, g. split; [done|]. right. split; [by right|]. by exists rc.
Qed.

(** ** The whole operation *)

Definition request_events (request : RuntimeRequest) (at_ : datetime) : list event :=
  match request with ROpenCitation ref => redemption_events ref at_ | _ => [] end.
(** An opened citation projects only the redeemed target. *)
Definition opens_target (request : RuntimeRequest) (at_ : datetime) (events : list event)
    (ps : list AuthorizedProjection) : Prop :=
  match request with
  | ROpenCitation ref => Forall (λ p, Some (candidate_ref p) = citation_target ref at_ events) ps
  | _ => True
  end.
Definition capability_available (request : RuntimeRequest) : Prop :=
  require_available (_required_capability_for_request request (rc_acquire_capability config))
    (bool_decide (is_Some (rc_citation_profile config))) = Ok tt.

(** The result of the content phase, whichever kind of request. *)
Record content_ready (request : RuntimeRequest) (at_ : datetime) (s s1 : runtime_state) (K : kernel_scopes)
    (ps : list AuthorizedProjection) (fin : FinalizedAuthorizationResult) (budget : PackageBudget) : Prop := {
  cr_finalized : finalized_ok (request_narrowing request) at_ K budget fin ps;
  cr_events : rt_events s1 = rt_events s ++ request_events request at_;
  cr_target : opens_target request at_ (rt_events s) ps;
  cr_closed : ∀ k, lifetime_active (ks_scopes (rt_kernel s1)) k = lifetime_active (ks_scopes (rt_kernel s)) k
}.

Lemma resolve_Ok fresh now request s s' o :
  resolve E config inv dc L L' LA port port' fresh now request s = (s', Ok o) →
  (∃ e, require_available (_required_capability_for_request request (rc_acquire_capability config))
          (bool_decide (is_Some (rc_citation_profile config))) = Err e
     ∧ o = (if is_acquire request then ORequestNotAvailable
            else match request with ROpenCitation _ => OCitationNotAvailable | _ => ORequestNotAvailable end)
     ∧ is_utc now = true
     ∧ in_kernel (preflight_unavailable_request L port inv dc request (rc_server_budget config) now) s = (s', Ok tt))
  ∨ capability_available request ∧ is_utc now = true ∧
    ∃ r K ps fin budget meter s1, m_active_runtime_release facts = Some r
      ∧ ar_organization_id (rel_value r) = m_organization_id facts
      ∧ content_ready request now s s1 K ps fin budget
      ∧ deliver_package E config inv dc LA request (rel_value r) now fin budget meter s1 = (s', Ok o).
Proof.
  unfold resolve, capability_available. destruct (require_available _ _) as [[]|e]; intros H.
  - right. split; [done|]. destruct (m_active_runtime_release facts) as [r|]; [|by apply rpure_Ok in H as [_ ?]].
    apply rbind_Ok in H as (s0 & ? & [-> Ho%require_Ok]%rpure_Ok & H). apply bool_decide_eq_true in Ho.
    apply rbind_Ok in H as (s0 & at_ & [-> [-> Hu]%require_utc_Ok]%rpure_Ok & H). split; [done|].
    apply rbind_Ok in H as (s1 & [[fin b] meter] & Hcon & H). cbn [fst snd] in H. exists r.
    destruct request as [a|t bud|ref].
    + apply acquire_content_Ok in Hcon as ((K & ps & Hf) & _ & He & Hl).
      exists K, ps, fin, b, meter, s1. split_and!; try done. split; try done. by rewrite app_nil_r.
    + by apply rpure_Ok in Hcon as [_ ?].
    + apply citation_content_Ok in Hcon as ((K & ps & Hf & Ht) & _ & He & Hl).
      exists K, ps, fin, b, meter, s1. split_and!; try done.
  - left. exists e. apply rbind_Ok in H as (s0 & at_ & [-> [-> Hu]%require_utc_Ok]%rpure_Ok & H).
    apply rbind_Ok in H as (s1 & [] & Hpre & H). apply rret_Ok in H as [-> ->]. split_and!; try done. by destruct request.
Qed.

(** An opened citation that delivers content delivers exactly the redeemed target. *)
Lemma opened_target_unique request at_ s s1 K ps fin budget ref :
  content_ready request at_ s s1 K ps fin budget → request = ROpenCitation ref → ps ≠ [] →
  ∃ t, citation_target ref at_ (rt_events s) = Some t ∧ candidate_ref <$> ps = [t].
Proof.
  intros [Hf _ Ht _] -> Hne. destruct Hf as [(_ & _ & _ & _ & _ & Hnd & _)%construct_package_content_Ok _ _ _ _ _ _ _].
  unfold opens_target in Ht. destruct ps as [|p ps]; [done|]. apply Forall_cons in Ht as [Hp Hps].
  exists (candidate_ref p). split; [done|]. destruct ps as [|q ps]; [done|]. exfalso.
  apply Forall_cons in Hps as [Hq _]. assert (E' : candidate_ref p = candidate_ref q) by congruence.
  apply NoDup_cons in Hnd as [Hnd _]. apply Hnd. unfold candidate_fragment at 1. rewrite E'. by left.
Qed.

(** What a delivered package stands for. *)
Record delivered_from (request : RuntimeRequest) (now : datetime) (s : runtime_state) (r : Resolved)
    (pr : DecisionProvenanceReceipt) (ps : list AuthorizedProjection) (cite : AuthorizedProjection → option CitationOpenRef) :
    Prop := {
  df_blocks : pk_blocks (rs_package r) = block_of <$> ps;
  df_evidence : pk_evidence (rs_package r) = (λ p, evidence_of p (cite p)) <$> ps;
  df_identity : pk_package_id (rs_package r) = pr_package_id pr ∧ pk_decision_ref (rs_package r) = pr_decision_ref pr;
  df_current : Forall (projection_current (request_narrowing request) pr) ps;
  df_gates : ps ≠ [] →
    epoch_gate_of L port inv = Ok true ∧ epoch_gate_of L' port' inv = Ok true
    ∧ ts_policy_epoch (inv_trusted_scope_snapshot inv) = inv_policy_epoch inv;
  df_target : ∀ ref, request = ROpenCitation ref →
    ∃ t, citation_target ref now (rt_events s) = Some t ∧ candidate_ref <$> ps = [t];
  df_channel : is_Some (rs_egress_grant r) → require_channel dc (rc_egress_profile config) = Ok tt
}.

Lemma granted_channel request at_ p g issued :
  handed_out request at_ p g issued → is_Some g → require_channel dc (rc_egress_profile config) = Ok tt.
Proof.
  unfold handed_out. destruct (_ || _); [|by intros [_ ->] [? [=]]].
  destruct (rc_egress_profile config); [by intros [_ ->] [? [=]]|..]; by intros (? & ? & ? & _ & _ & _ & _ & ?).
Qed.

Lemma resolved_delivers fresh now request s s' r :
  resolve E config inv dc L L' LA port port' fresh now request s = (s', Ok (OResolved r)) →
  (∃ pr ps cite, delivered_from request now s r pr ps cite)
  ∧ ∀ k, lifetime_active (ks_scopes (rt_kernel s')) k = lifetime_active (ks_scopes (rt_kernel s)) k.
Proof.
  intros [(e & _ & Ho & _)|(_ & _ & rel & K & ps & fin & b & meter & s1 & _ & _ & Hready & Hdel)]%resolve_Ok.
  { by destruct request. }
  pose proof Hready as [Hf _ _ Hlife]. destruct Hf as [Hcon Hcur Hgates _ _ _ _ _].
  destruct (deliver_package_Ok _ _ _ _ _ _ _ _ _ _ _ Hcon Hdel) as (Hk & p & g & Hass & Ho).
  destruct Ho as [(Ho & _)|(Hne & receipt & [= ->])]; [discriminate|].
  destruct Hass as [Hbl (cite & citations & issued & run & audit & Hev & _ & Hg & _) (Hid & _ & Hdec & _) _].
  split; [|intros k; by rewrite Hk]. exists (fin_provenance_receipt fin), ps, cite. split; try done.
  - intros ref ->. eapply opened_target_unique; [done|done|]. by destruct Hne.
  - by eapply granted_channel.
Qed.

(** C2: Whatever a resolve delivers was authorized in that request.  For any index, any
    answers of the durable ports, and lifetimes and epoch authority that may change in
    between: the blocks and the Evidence of a delivered package are, in order, exactly
    those of a list of projections, each of which the session located and projected in
    this transaction, names an Article in the intersection of every trusted operand and
    the caller's narrowing, lies in the actor's Organization and carries the lineage of
    the reported decision; there is content only if the Policy Epoch was current before
    the work and at the veto.  An opened citation delivers exactly the one target that
    its locator was redeemed for.  Every kernel lifetime the request opened is closed. *)
Theorem resolved_package_is_authorized fresh now request s s' r :
  resolve E config inv dc L L' LA port port' fresh now request s = (s', Ok (OResolved r)) →
  ∃ pr ps cite,
    pk_blocks (rs_package r) = block_of <$> ps
    ∧ pk_evidence (rs_package r) = (λ p, evidence_of p (cite p)) <$> ps
    ∧ (pk_package_id (rs_package r) = pr_package_id pr ∧ pk_decision_ref (rs_package r) = pr_decision_ref pr)
    ∧ Forall (projection_current (request_narrowing request) pr) ps
    ∧ (ps ≠ [] → epoch_gate_of L port inv = Ok true ∧ epoch_gate_of L' port' inv = Ok true
                 ∧ ts_policy_epoch (inv_trusted_scope_snapshot inv) = inv_policy_epoch inv)
    ∧ (∀ ref, request = ROpenCitation ref →
         ∃ t, citation_target ref now (rt_events s) = Some t ∧ candidate_ref <$> ps = [t])
    ∧ ∀ k, lifetime_active (ks_scopes (rt_kernel s')) k = lifetime_active (ks_scopes (rt_kernel s)) k.
Proof.
  intros [(pr & ps & cite & [? ? ? ? ? ? _]) Hl]%resolved_delivers. by exists pr, ps, cite.
Qed.

(** C3: A delivery is recorded exactly as it is handed out.  When a resolve delivers a
    package, the calls it made are, in order: the redemption of an opened citation; one
    accepted locator per Evidence, if locators are configured, each with the package's
    own reference and expiry and stored by the digest of the locator put into that
    Evidence; at most one egress grant, issued for this package's digest and payload
    under the configured profile, which is the grant returned; and last the run record,
    which the store accepted: it carries the package's reference, digest, Evidence
    references and usage, the restricted audit exactly when the package is empty, and a
    usage within the effective budget.  The package digest is the digest of the public
    document. *)
Theorem delivery_is_recorded fresh now request s s' r :
  resolve E config inv dc L L' LA port port' fresh now request s = (s', Ok (OResolved r)) →
  ∃ rel pr ps, m_active_runtime_release facts = Some rel
    ∧ assembled request (rel_value rel) now pr (rs_effective_budget r) ps
        (rt_events s ++ request_events request now) (rt_events s') (rs_package r) (rs_egress_grant r).
Proof.
  intros [(e & _ & Ho & _)|(_ & _ & rel & K & ps & fin & b & meter & s1 & Hrel & _ & Hready & Hdel)]%resolve_Ok.
  { by destruct request. }
  destruct Hready as [Hf He _ _]. destruct Hf as [Hcon _ _ _ _ _ _ _].
  destruct (deliver_package_Ok _ _ _ _ _ _ _ _ _ _ _ Hcon Hdel) as (_ & p & g & Hass & Ho).
  destruct Ho as [(Ho & _)|(_ & receipt & [= ->])]; [discriminate|].
  exists rel, (fin_provenance_receipt fin), ps. split; [done|]. rewrite <- He. exact Hass.
Qed.
End RuntimeFacts.
