(* ===== verification/RuntimeRefusals.v ===== *)
(** * What a resolve leaves behind when it does not deliver

    The log of a resolve that failed or refused, the refusals of an opened citation
    compared with each other, and the budget ledgers on every path. *)

From S2P Require Import Prelude Codec Sha256 Datetime Json ReleaseLineage Budget Scope Evidence Ranking AuthorizedRanking Materialized Trusted Egress Pyrepr Kernel KernelFacts Package Citation ContextRun Runtime RuntimeFacts.

#[export] Instance capability_available_dec config request : Decision (capability_available config request).
Proof. unfold capability_available. destruct (require_available _ _) as [[]|e]; [by left|by right]. Defined.

(** ** Operations that record no run *)

Definition records_run (e : event) : bool := match e with ERunPersisted _ _ => true | _ => false end.
Definition unrecorded (events : list event) : Prop := Forall (λ e, records_run e = false) events.

(** An operation only appends to the log, and no run. *)
Definition quiet {A} (m : runtime_op A) : Prop := ∀ s,
  ∃ new, rt_events (m s).1 = rt_events s ++ new ∧ unrecorded new.

Create HintDb quiet.
Lemma unrecorded_nil : unrecorded [].
Proof. constructor. Qed.
Lemma quiet_same {A} (m : runtime_op A) : (∀ s, rt_events (m s).1 = rt_events s) → quiet m.
Proof. intros H s. exists []. rewrite app_nil_r. split; [apply H|apply unrecorded_nil]. Qed.
Lemma quiet_pure {A} (m : result A) : quiet (rpure m).
Proof. apply quiet_same. done. Qed.
Lemma quiet_ret {A} (a : A) : quiet (mret a).
Proof. apply quiet_same. done. Qed.
Lemma quiet_kernel {A} (m : kernel_op A) : quiet (in_kernel m).
Proof. apply quiet_same. intros s. unfold in_kernel. by destruct (m _). Qed.
Lemma quiet_meters {A} (m : store → store * result A) : quiet (in_meters m).
Proof. apply quiet_same. intros s. unfold in_meters. by destruct (m _). Qed.
Lemma quiet_port {A B} (ev : B → event) (m : list event → list B * result A) :
  (∀ b, records_run (ev b) = false) → quiet (with_port ev m).
Proof.
  intros Hev s. unfold with_port. destruct (m _) as [calls r]. exists (ev <$> calls). split; [done|].
  apply Forall_fmap, Forall_true. intros b. apply Hev.
Qed.
Lemma quiet_bind {A B} (m : runtime_op A) (f : A → runtime_op B) :
  quiet m → (∀ a, quiet (f a)) → quiet (m ≫= f).
Proof.
  intros Hm Hf s. destruct (Hm s) as (n1 & H1 & Q1). unfold mbind, runtime_bind.
  destruct (m s) as [s1 [a|e]]; cbn [fst] in H1; [|by exists n1].
  destruct (Hf a s1) as (n2 & H2 & Q2). exists (n1 ++ n2). split; [by rewrite H2, H1, app_assoc|].
  by apply Forall_app.
Qed.
#[export] Hint Resolve quiet_pure quiet_ret quiet_kernel quiet_meters : quiet.

Ltac quiet_step :=
  first [ apply quiet_bind; [|intros ?] | apply quiet_port; by intros [] | apply quiet_port; done
        | case_match | solve [eauto with quiet nocore] ].

Section Refusals.
Context {nesting : NestingLimit}.
Context {Port : MaterializedProjectionPort}.
Context (E : runtime_env) (config : runtime_config).
Context (inv : AuthenticatedInvocation) (dc : TrustedDeliveryContext).
Context (L L' LA : lifetimes) (port port' : epoch_port).

Abbreviation facts := (ua_facts (inv_user_actor inv)).

Lemma quiet_acquire fresh a release at_ :
  quiet (acquire_content E config inv dc L L' port port' fresh a release at_).
Proof. unfold acquire_content, discover_metered. repeat quiet_step. Qed.

Lemma quiet_citation fresh ref release at_ :
  quiet (citation_content E config inv dc L L' port port' fresh ref release at_).
Proof. unfold citation_content. repeat quiet_step. Qed.

Lemma quiet_issue_citations session profile pr es : quiet (issue_citations E config inv LA session profile pr es).
Proof. induction es as [|e es IH]; cbn [issue_citations]; repeat quiet_step. Qed.

Lemma quiet_attach pr content : quiet (attach_citations E config inv LA pr content).
Proof. unfold attach_citations. repeat first [apply quiet_issue_citations | quiet_step]. Qed.

(** ** Failures *)

Lemma rbind_Err {A B} (m : runtime_op A) (f : A → runtime_op B) s s'' e :
  (m ≫= f) s = (s'', Err e) →
  m s = (s'', Err e) ∨ ∃ s' a, m s = (s', Ok a) ∧ f a s' = (s'', Err e).
Proof. unfold mbind, runtime_bind. destruct (m s) as [s' [a|e']]; naive_solver. Qed.

Lemma quiet_runs {A} (m : runtime_op A) s s' r :
  quiet m → m s = (s', r) → ∃ new, rt_events s' = rt_events s ++ new ∧ unrecorded new.
Proof. intros Hq H. specialize (Hq s). by rewrite H in Hq. Qed.

(** How the log can end when the operation fails: no run was offered to the store, or
    the store itself refused the one that was. *)
Definition failed_log (before after : list event) (e : exn) : Prop :=
  ∃ new, unrecorded new
    ∧ (after = before ++ new
       ∨ ∃ run audit err, after = before ++ new ++ [ERunPersisted run audit]
           ∧ env_persist E (before ++ new) run audit = Err err ∧ e = ContextRunPersistenceUnavailable).

Lemma failed_quiet {A} (m : runtime_op A) s s' e : quiet m → m s = (s', Err e) → failed_log (rt_events s) (rt_events s') e.
Proof. intros Hq (new & Hn & Hu)%quiet_runs; [|done]. exists new. eauto. Qed.

Lemma failed_after {A} (m : runtime_op A) s s1 a after e :
  quiet m → m s = (s1, Ok a) → failed_log (rt_events s1) after e → failed_log (rt_events s) after e.
Proof.
  intros Hq (n1 & Hn & Hu)%quiet_runs (n2 & Hu2 & H); [|done]. exists (n1 ++ n2). split; [by apply Forall_app|].
  rewrite Hn in H. destruct H as [->|(run & audit & err & -> & Hp & ->)]; [left; by rewrite app_assoc|].
  right. exists run, audit, err. rewrite <- !app_assoc in *. done.
Qed.

(** A quiet first step is passed, or is where the operation failed. *)
Lemma failed_bind {A B} (m : runtime_op A) (f : A → runtime_op B) s s' e :
  quiet m → (m ≫= f) s = (s', Err e) →
  (∀ s1 a, m s = (s1, Ok a) → f a s1 = (s', Err e) → failed_log (rt_events s1) (rt_events s') e) →
  failed_log (rt_events s) (rt_events s') e.
Proof.
  intros Hq [H|(s1 & a & Ha & H)]%rbind_Err Hf; [by eapply failed_quiet|].
  eapply failed_after; [done..|]. by eapply Hf.
Qed.

Ltac pass_step H tac := refine (failed_bind _ _ _ _ _ _ H _); [tac|]; clear H; intros ? ? _ H; cbv beta in H.

(** Nothing fails once the run is accepted. *)
Lemma scope_receipt_total scope :
  _require_effective_scope_integrity scope = Ok tt →
  ∃ r, new_ScopeDecisionReceipt (es_digest scope) (Z.of_nat (size (es_targets scope)))
         (bool_decide (es_targets scope = ∅)) = Ok r.
Proof.
  intros H%require_Ok. apply bool_decide_eq_true in H. unfold new_ScopeDecisionReceipt. rewrite H.
  unfold _effective_scope_digest. rewrite hexdigest_shape. cbn [require mbind result_bind].
  rewrite (proj2 (Z.leb_le _ _)) by lia. cbn [require mbind result_bind].
  replace (bool_decide (es_targets scope = ∅)) with (Z.of_nat (size (es_targets scope)) =? 0).
  { rewrite eqb_reflx. cbn [require mbind result_bind]. eauto. }
  destruct (decide (es_targets scope = ∅)) as [Hs|Hs].
  - rewrite (bool_decide_eq_true_2 _ Hs), Hs. done.
  - rewrite (bool_decide_eq_false_2 _ Hs). apply Z.eqb_neq. intros Hz. apply Hs, leibniz_equiv, size_empty_iff. lia.
Qed.

Lemma persist_step_Err session run audit s s' e :
  with_port (λ c, ERunPersisted c.1 c.2) (λ events, persist_context_run LA session run audit (env_persist E events)) s
    = (s', Err e) → failed_log (rt_events s) (rt_events s') e.
Proof.
  unfold with_port, persist_context_run. destruct (_ ;; check_audit _ _) as [[]|e'].
  - destruct (env_persist E (rt_events s) run audit) as [[]|err] eqn:Ep; [done|]. intros [= <- <-].
    exists []. split; [apply unrecorded_nil|]. right. exists run, audit, err. cbn. by rewrite app_nil_r.
  - intros [= <- <-]. exists []. split; [apply unrecorded_nil|]. by left.
Qed.

Lemma deliver_package_Err request release at_ fin budget meter s s' e :
  _require_effective_scope_integrity (po_effective_scope (fin_policy_receipt fin)) = Ok tt →
  deliver_package E config inv dc LA request release at_ fin budget meter s = (s', Err e) →
  failed_log (rt_events s) (rt_events s') e.
Proof.
  intros Hscope. unfold deliver_package. intros H.
  pass_step H ltac:(apply quiet_attach). do 3 pass_step H ltac:(auto with quiet).
  pass_step H ltac:(destruct (_ || _); [by apply quiet_port; intros []|auto with quiet]).
  destruct (m_context_run_persistence_session facts) as [session|]; [|by eapply failed_quiet; [apply quiet_pure|]].
  destruct (rc_query_digest_keyring config) as [keyring|]; [|by eapply failed_quiet; [apply quiet_pure|]].
  pass_step H ltac:(auto with quiet).
  apply rbind_Err in H as [H|(sp & u & _ & H)]; [by apply persist_step_Err in H|]. exfalso.
  destruct (negb _ && _); [done|]. destruct (scope_receipt_total _ Hscope) as (rc & Hrc).
  apply rbind_Err in H as [H|(sq & x & _ & H)]; [|done]. unfold rpure in H. by rewrite Hrc in H.
Qed.

Lemma resolve_Err fresh now request s s' e :
  resolve E config inv dc L L' LA port port' fresh now request s = (s', Err e) →
  failed_log (rt_events s) (rt_events s') e.
Proof.
  unfold resolve. destruct (require_available _ _) as [[]|e']; intros H.
  - destruct (m_active_runtime_release facts) as [r|]; [|by eapply failed_quiet; [apply quiet_pure|]].
    do 2 pass_step H ltac:(auto with quiet).
    apply rbind_Err in H as [H|(s3 & [[fin b] meter] & Hcon & H)].
    + eapply failed_quiet, H. destruct request; auto using quiet_acquire, quiet_citation, @quiet_pure.
    + cbn [fst snd] in H. eapply failed_after; [|exact Hcon|].
      { destruct request; auto using quiet_acquire, quiet_citation, @quiet_pure. }
      eapply deliver_package_Err; [|exact H].
      destruct request as [q|t bud|ref]; [|by apply rpure_Ok in Hcon as [_ ?]|].
      * by apply acquire_content_Ok in Hcon as ((K & ps & [? ? ? ? ? ? ? ?]) & _).
      * by apply citation_content_Ok in Hcon as ((K & ps & [? ? ? ? ? ? ? ?] & _) & _).
  - pass_step H ltac:(auto with quiet). pass_step H ltac:(auto with quiet). done.
Qed.

Lemma redemption_unrecorded request at_ : unrecorded (request_events inv request at_).
Proof.
  destruct request; try apply unrecorded_nil. cbn. unfold redemption_events.
  destruct (_is_citation_open_ref _); by repeat constructor.
Qed.
Lemma citations_unrecorded calls : unrecorded (ECitationIssued <$> calls).
Proof. by apply Forall_fmap, Forall_true. Qed.
Lemma handed_out_unrecorded request at_ p g issued : handed_out E config inv dc request at_ p g issued → unrecorded issued.
Proof.
  unfold handed_out. destruct (_ || _); [|by intros [-> _]; apply unrecorded_nil].
  destruct (rc_egress_profile config); [by intros [-> _]; apply unrecorded_nil|..];
    intros (i & d & g' & -> & _); by repeat constructor.
Qed.

(** C5: A resolve records its run exactly when it reports an outcome.  For any answers
    of the durable ports, the operation only appends to the log.  If it returns an
    outcome for a supported request, the log ends with the one run record of the
    request, which the store accepted; an unsupported request leaves the log as it was.
    If it raises, no run was accepted: either none was offered to the store, or the
    store refused the only one and the error says so. *)
Theorem run_recorded_iff_outcome fresh now request s :
  let '(s', out) := resolve E config inv dc L L' LA port port' fresh now request s in
  match out with
  | Ok o =>
      if decide (capability_available config request) then
        ∃ new run audit, unrecorded new ∧ rt_events s' = rt_events s ++ new ++ [ERunPersisted run audit]
          ∧ env_persist E (rt_events s ++ new) run audit = Ok tt
      else rt_events s' = rt_events s ∧ ∀ r, o ≠ OResolved r
  | Err e => failed_log (rt_events s) (rt_events s') e
  end.
Proof.
  destruct (resolve _ _ _ _ _ _ _ _ _ _ _ _ _) as [s' [o|e]] eqn:H; [|by apply resolve_Err in H].
  apply resolve_Ok in H as [(e & Hc & Ho & _ & (_ & _ & Hev)%in_kernel_Ok)
                           |(Hc & _ & rel & K & ps & fin & b & meter & s1 & _ & _ & [Hf He _ _] & Hdel)].
  - destruct (decide _) as [Hc'|_]; [unfold capability_available in Hc'; congruence|].
    split; [done|]. rewrite Ho. by destruct request.
  - destruct (decide _) as [_|]; [|done]. destruct Hf as [Hcon _ _ _ _ _ _ _].
    destruct (deliver_package_Ok _ _ _ _ _ _ _ _ _ _ _ _ _ _ _ _ Hcon Hdel) as (_ & p & g & [_ Hass _ _] & _).
    destruct Hass as (cite & citations & issued & run & audit & _ & _ & Hg & _ & Haft & Hper).
    exists (request_events inv request now ++ (ECitationIssued <$> citations) ++ issued), run, audit.
    rewrite Haft, He in *. rewrite <- !app_assoc in *. split; [|done].
    unfold unrecorded. rewrite !Forall_app. split_and!;
      [apply redemption_unrecorded|apply citations_unrecorded|by eapply handed_out_unrecorded].
Qed.

(** The issuer has a reference left, and it does not spell the Organization. *)
Definition references_issuable (k : kernel_state) : bool :=
  let sequence := iss_sequence (ks_issuer k) + 1 in
  let r := issued_references (iss_secret (ks_issuer k)) sequence in
  let organization := hex (uuid_bytes (eov_organization_id (inv_organization_verification inv))) in
  (sequence <? 2 ^ 128) && negb (contains organization (is_package_id r) || contains organization (is_decision_ref r)).

Lemma issued_refs_closed secret i :
  _require_closed_opaque_ref (is_package_id (issued_references secret i)) PACKAGE_REF_PREFIX
    = Ok (is_package_id (issued_references secret i))
  ∧ _require_closed_opaque_ref (is_decision_ref (issued_references secret i)) DECISION_REF_PREFIX
    = Ok (is_decision_ref (issued_references secret i)).
Proof. split; apply closed_ref_ok; apply entropy_shape. Qed.

(** A provenance step opens no lifetime and counts nothing, and it fails only for its clock
    or its references. *)
Lemma provenance_issue_effect policy at_ k k' r :
  provenance_issue inv policy at_ k = (k', r) →
  ks_scopes k' = ks_scopes k ∧ ks_unsupported k' = ks_unsupported k
  ∧ match r with
    | Ok p => is_utc at_ && references_issuable k = true
              ∧ _require_closed_opaque_ref (pr_decision_ref p) DECISION_REF_PREFIX = Ok (pr_decision_ref p)
    | Err _ => is_utc at_ && references_issuable k = false
    end.
Proof.
  unfold provenance_issue, mbind, kernel_bind, pure, issue, mret, kernel_ret, references_issuable, require_utc.
  destruct (is_utc at_); [|by intros [= <- <-]]. cbn [require mbind result_bind andb].
  destruct (_ <? _); [|by intros [= <- <-]].
  destruct (issued_refs_closed (iss_secret (ks_issuer k)) (iss_sequence (ks_issuer k) + 1)) as [Hp Hd].
  rewrite Hp, Hd. cbn [andb]. destruct (_ || _); cbn [negb require]; intros [= <- <-]; done.
Qed.

(** The gates that an unsupported request still has to pass, all of them free of content:
    the clock is UTC, the invocation and its delivery agree, the server's budget covers
    the request, references can be issued, and the Policy Epoch of the snapshot is the
    invocation's and current. *)
Definition preflight_passes (request : RuntimeRequest) (budget : PackageBudget) (at_ : datetime) (k : kernel_state) : Prop :=
  is_utc at_ && references_issuable k = true
  ∧ _validate_trusted_invocation_and_delivery L inv dc = Ok tt
  ∧ (∃ b, budget_for_request budget request = Ok b)
  ∧ ts_policy_epoch (inv_trusted_scope_snapshot inv) = inv_policy_epoch inv
  ∧ epoch_gate_of L port inv = Ok true.

Lemma preflight_effect request budget at_ k k' r :
  preflight_unavailable_request L port inv dc request budget at_ k = (k', r) →
  ks_scopes k' = ks_scopes k
  ∧ match r with
    | Ok _ => ks_unsupported k' = ks_unsupported k + 1 ∧ preflight_passes request budget at_ k
    | Err _ => ks_unsupported k' = ks_unsupported k ∧ ¬ preflight_passes request budget at_ k
    end.
Proof.
  unfold preflight_unavailable_request, validate_unavailable, preflight_passes. unfold mbind at 1, kernel_bind at 1, pure at 1.
  destruct (_validate_trusted_invocation_and_delivery L inv dc) as [[]|e]; cbn [mbind result_bind];
    [|intros [= <- <-]; split_and!; [done..|by intros (? & ? & [? ?] & ? & ?)]].
  unfold mbind at 1, kernel_bind at 1, pure at 1.
  destruct (budget_for_request budget request) as [b|e]; [|intros [= <- <-]; split_and!; [done..|by intros (? & ? & [? ?] & ? & ?)]].
  unfold mbind at 1, kernel_bind at 1. destruct (provenance_issue _ _ _ k) as [k1 [pr|e]] eqn:Hi;
    apply provenance_issue_effect in Hi as (Hs & Hu & Hi); [|intros [= <- <-]; split_and!; [done..|intros (? & ? & [? ?] & ? & ?); congruence]].
  unfold mbind, kernel_bind, pure, record_unsupported, count_unsupported. fold (epoch_gate_of L port inv).
  destruct (Z.eqb_spec (ts_policy_epoch (inv_trusted_scope_snapshot inv)) (inv_policy_epoch inv)) as [He|He]; cbn [negb];
    [|intros [= <- <-]; split_and!; [done..|intros (? & ? & [? ?] & ? & ?); congruence]].
  destruct (epoch_gate_of L port inv) as [[]|e]; cbn [require];
    [|intros [= <- <-]; split_and!; [done..|by intros (? & ? & [? ?] & ? & ?)]
    |intros [= <- <-]; split_and!; [done..|by intros (? & ? & [? ?] & ? & ?)]].
  unfold mbind, kernel_bind, pure. destruct Hi as [Hi ->]. intros [= <- <-].
  cbn [ks_scopes ks_unsupported]. rewrite Hs, Hu. split_and!; eauto.
Qed.

(** C8: An unsupported request does no work.  Whatever the request carries, refusing it
    calls no durable port, touches no budget meter and opens no kernel lifetime; it
    reads neither the index nor the active release.  It is answered, with the closed
    outcome of its kind, and counted once, exactly when the content-free gates pass: the
    clock is UTC, references can be issued, the caller's identity and delivery agree, the
    server's budget covers the request, and the Policy Epoch is the invocation's and
    current.  Otherwise it raises and is not counted. *)
Theorem unsupported_request_does_no_work fresh now request s :
  ¬ capability_available config request →
  let '(s', out) := resolve E config inv dc L L' LA port port' fresh now request s in
  rt_events s' = rt_events s ∧ rt_meters s' = rt_meters s ∧ ks_scopes (rt_kernel s') = ks_scopes (rt_kernel s)
  ∧ (out = Ok (match request with ROpenCitation _ => OCitationNotAvailable | _ => ORequestNotAvailable end)
     ↔ preflight_passes request (rc_server_budget config) now (rt_kernel s))
  ∧ match out with
    | Ok _ => preflight_passes request (rc_server_budget config) now (rt_kernel s)
              ∧ ks_unsupported (rt_kernel s') = ks_unsupported (rt_kernel s) + 1
    | Err _ => ks_unsupported (rt_kernel s') = ks_unsupported (rt_kernel s)
    end.
Proof.
  unfold capability_available, resolve. destruct (require_available _ _) as [[]|e]; [done|]. intros _.
  unfold mbind, runtime_bind, rpure, require_utc. destruct (is_utc now) eqn:Hutc; cbn [require mbind result_bind].
  - unfold in_kernel. destruct (preflight_unavailable_request _ _ _ _ _ _ _ _) as [k r] eqn:Hp.
    apply preflight_effect in Hp as [Hs Hr]. destruct r as [[]|e']; cbn; destruct Hr as [Hu Hg];
      by split_and!.
  - cbn. unfold preflight_passes. rewrite Hutc. split_and!; try done. by split; [|intros [? _]].
Qed.
End Refusals.

(** ** The ledgers *)

Definition keeps_ledgers {A} (m : runtime_op A) : Prop := ∀ s,
  store_ok (rt_meters s) → store_ok (rt_meters (m s).1).

Create HintDb ledgers.
Lemma keeps_same {A} (m : runtime_op A) : (∀ s, rt_meters (m s).1 = rt_meters s) → keeps_ledgers m.
Proof. intros H s. by rewrite H. Qed.
Lemma keeps_pure {A} (m : result A) : keeps_ledgers (rpure m).
Proof. by apply keeps_same. Qed.
Lemma keeps_ret {A} (a : A) : keeps_ledgers (mret a).
Proof. by apply keeps_same. Qed.
Lemma keeps_kernel {A} (m : kernel_op A) : keeps_ledgers (in_kernel m).
Proof. apply keeps_same. intros s. unfold in_kernel. by destruct (m _). Qed.
Lemma keeps_port {A B} (ev : B → event) (m : list event → list B * result A) : keeps_ledgers (with_port ev m).
Proof. apply keeps_same. intros s. unfold with_port. by destruct (m _). Qed.
Lemma keeps_meters {A} (m : store → store * result A) :
  (∀ b, store_ok b → store_ok (m b).1) → keeps_ledgers (in_meters m).
Proof. intros H s Hs. unfold in_meters. apply H in Hs. by destruct (m _). Qed.
(** The second step may rely on what the first returned. *)
Lemma ledgers_bind {A B} (m : runtime_op A) (f : A → runtime_op B) :
  keeps_ledgers m → (∀ s s1 a, m s = (s1, Ok a) → keeps_ledgers (f a)) → keeps_ledgers (m ≫= f).
Proof.
  intros Hm Hf s Hs. specialize (Hm s Hs). unfold mbind, runtime_bind. specialize (Hf s).
  destruct (m s) as [s1 [a|e]]; [|done]. by eapply Hf.
Qed.
#[export] Hint Resolve keeps_pure keeps_ret keeps_kernel keeps_port : ledgers.
Ltac keeps_step :=
  first [ apply ledgers_bind; [|intros ? ? ? ?] | case_match | solve [eauto with ledgers nocore] ].

Section Ledgers.
Context {nesting : NestingLimit}.
Context {Port : MaterializedProjectionPort}.
Context (E : runtime_env) (config : runtime_config).
Context (inv : AuthenticatedInvocation) (dc : TrustedDeliveryContext).
Context (L L' LA : lifetimes) (port port' : epoch_port).
Context (disciplined : ∀ index, rc_index config = Some index → MeterDiscipline index).
Context (server_budget_ok : budget_ok (rc_server_budget config)).

Lemma empty_usage_ok : usage_ok _EMPTY_USAGE.
Proof. by apply usage_ok_iff. Qed.

Lemma keeps_meter budget release :
  budget_ok budget → ∀ b, store_ok b → store_ok (_resolve_budget_meter E budget release b).1.
Proof.
  intros Hb b Hs. unfold _resolve_budget_meter.
  repeat case_match; try done; by apply meter_init_ok, empty_usage_ok.
Qed.

Lemma keeps_prepare index request scope release meter b :
  MeterDiscipline index → store_ok b → store_ok (prepare_discovery index request scope release meter b).1.
Proof.
  intros Hd Hs. unfold prepare_discovery. repeat case_match; try done.
  all: match goal with |- context [mi_prepare ?r ?s ?m ?d ?g ?b] =>
         destruct (prepare_runs_ops r s m d g b) as (load & ops & Hops & ->) end; by apply run_ok_from.
Qed.

Lemma keeps_discover prep request release meter :
  keeps_ledgers (discover_metered config inv L prep request release meter).
Proof.
  unfold discover_metered. destruct (rc_index config) as [index|] eqn:Ei; [|eauto with ledgers].
  pose proof (disciplined _ eq_refl) as Hd. repeat keeps_step.
  - apply keeps_meters. intros b. by apply keeps_prepare.
  - apply keeps_meters. intros b Hs. 
    match goal with |- context [mi_discover ?r ?s ?sc ?b] =>
      destruct (discover_runs_ops r s sc b) as (load & ops & Hops & ->) end. by apply run_ok_from.
Qed.

Lemma effective_budget_ok requested b : effective_package_budget (rc_server_budget config) requested = Ok b → budget_ok b.
Proof.
  unfold effective_package_budget. destruct requested; [|by intros <-%Ok_inj].
  intros H. pose proof H as H'. unfold PackageBudget_post_init in H'. apply bind_Ok in H' as (? & _ & <-%Ok_inj). done.
Qed.

Lemma keeps_acquire fresh a release at_ : keeps_ledgers (acquire_content E config inv dc L L' port port' fresh a release at_).
Proof.
  unfold acquire_content. apply ledgers_bind; [auto with ledgers|]. intros s s1 prep (Hp & _)%in_kernel_Ok.
  apply prepare_acquire_Ok in Hp as (_ & _ & _ & _ & _ & _ & Hb & _).
  apply effective_budget_ok in Hb. apply ledgers_bind; [apply keeps_meters; by apply keeps_meter|intros _ _ meter _].
  apply ledgers_bind; [apply keeps_discover|intros _ _ disc _]. repeat keeps_step.
Qed.

Lemma keeps_citation fresh ref release at_ :
  keeps_ledgers (citation_content E config inv dc L L' port port' fresh ref release at_).
Proof.
  unfold citation_content. destruct (m_citation_open_session _); [|auto with ledgers].
  do 2 (apply ledgers_bind; [auto with ledgers|intros _ _ ? _]).
  apply ledgers_bind; [auto with ledgers|]. intros s s1 d (Hd & _)%in_kernel_Ok.
  apply authorize_open_citation_Ok in Hd as (_ & Hb & _). rewrite Hb.
  apply ledgers_bind; [apply keeps_meters; by apply keeps_meter|intros _ _ meter _]. repeat keeps_step.
Qed.

Lemma keeps_charge meter content b : store_ok b → store_ok (charge_assembly meter content b).1.
Proof.
  intros Hs. unfold charge_assembly. destruct (assembly_tokens b meter content) as [t|]; [|done].
  destruct (t =? 0); [done|]. destruct (BudgetUsage_post_init _) as [maximum|] eqn:Hu; [|done].
  assert (Hok : usage_ok maximum).
  { pose proof Hu as H. unfold BudgetUsage_post_init in H. by apply bind_Ok in H as (? & _ & <-%Ok_inj). }
  pose proof (reserve_ok b meter maximum Hs Hok) as Hr. destruct (_reserve b meter maximum) as [b1 [i|e]].
  - pose proof (commit_ok b1 meter i maximum Hr Hok) as Hc. by destruct (_commit b1 meter i maximum) as [b2 [|]].
  - by destruct e.
Qed.

Lemma keeps_issue_citations session profile pr es :
  keeps_ledgers (issue_citations E config inv LA session profile pr es).
Proof. induction es as [|e es IH]; cbn [issue_citations]; repeat keeps_step. Qed.

Lemma keeps_deliver request release at_ fin budget meter :
  keeps_ledgers (deliver_package E config inv dc LA request release at_ fin budget meter).
Proof.
  unfold deliver_package, attach_citations.
  repeat first [ apply keeps_issue_citations | apply keeps_meters; intros b; apply keeps_charge | keeps_step ].
Qed.

Lemma keeps_resolve fresh now request : keeps_ledgers (resolve E config inv dc L L' LA port port' fresh now request).
Proof.
  unfold resolve. destruct (require_available _ _); [|repeat keeps_step].
  repeat first [ apply keeps_deliver | apply keeps_acquire | apply keeps_citation | keeps_step ].
Qed.

(** Under the v1 schema a package reports what its meter has committed. *)
Lemma deliver_usage request release at_ fin budget meter s s' r :
  deliver_package E config inv dc LA request release at_ fin budget meter s = (s', Ok (OResolved r)) →
  ar_package_schema_ref release = PACKAGE_SCHEMA_REF_V1 →
  usage (rt_meters s') meter = Some (pk_budget_usage (rs_package r)).
Proof.
  intros H Hv. unfold deliver_package in H.
  apply rbind_Ok in H as (s1 & content & _ & H). apply rbind_Ok in H as (s2 & aud & [-> _]%rpure_Ok & H).
  apply rbind_Ok in H as (s3 & cum & (Hcum & _)%in_meters_Ok & H).
  apply rbind_Ok in H as (s4 & p & [-> Hp]%rpure_Ok & H).
  apply rbind_Ok in H as (s5 & g & (_ & Hm5 & _)%grant_step_Ok & H).
  assert (Hu : usage (rt_meters s3) meter = Some cum).
  { unfold charge_assembly in Hcum. destruct (assembly_tokens _ _ _); [|done].
    match type of Hcum with match ?c with _ => _ end = _ => destruct c as [b [x|e]] end; [|done].
    injection Hcum as <- Hcum. by destruct (usage b meter); [apply Ok_inj in Hcum as <-|]. }
  assert (Hpu : pk_budget_usage p = cum).
  { unfold build_package in Hp. apply bind_Ok in Hp as (ex & _ & Hp). apply bind_Ok in Hp as (u & Hd & Hp).
    apply bind_Ok in Hp as (cov & _ & Hp). apply new_package_Ok in Hp as (doc & dig & _ & _ & ->).
    unfold delivered_usage in Hd. rewrite bool_decide_eq_true_2 in Hd by done. by apply Ok_inj in Hd as <-. }
  assert (Hr : rt_meters s' = rt_meters s5 ∧ rs_package r = p).
  { destruct (m_context_run_persistence_session _); [|by apply rpure_Ok in H as [_ ?]].
    destruct (rc_query_digest_keyring config); [|by apply rpure_Ok in H as [_ ?]].
    apply rbind_Ok in H as (s6 & rec & [-> _]%rpure_Ok & H).
    apply rbind_Ok in H as (s7 & [] & (calls & _ & _ & Hm7 & _)%with_port_Ok & H).
    destruct (negb _ && _); [by apply rret_Ok in H as [_ ?]|].
    apply rbind_Ok in H as (s8 & rc & [-> _]%rpure_Ok & H). apply rret_Ok in H as [-> [= ->]]. done. }
  destruct Hr as [-> ->]. by rewrite Hm5, Hu, Hpu.
Qed.

(** The meter of a request is the one that it adds to the store. *)
Lemma budget_meter_is_new budget release s s' meter :
  _resolve_budget_meter E budget release s = (s', Ok meter) → meter = length (meters s).
Proof.
  unfold _resolve_budget_meter, meter_init. intros H.
  repeat match type of H with
  | (if ?b then _ else _) = _ => destruct b
  | match ?m with _ => _ end = _ => destruct m as [?|?]; try discriminate H
  | (let '(_, _) := ?p in _) = _ => destruct p
  end; by injection H as _ <-.
Qed.
Lemma acquire_meter fresh a release at_ s s' fin b meter :
  acquire_content E config inv dc L L' port port' fresh a release at_ s = (s', Ok (fin, b, meter)) →
  meter = length (meters (rt_meters s)).
Proof.
  unfold acquire_content. intros H. apply rbind_Ok in H as (s1 & prep & (_ & <- & _)%in_kernel_Ok & H).
  apply rbind_Ok in H as (s2 & mt & (Hm & _)%in_meters_Ok & H). apply budget_meter_is_new in Hm as <-.
  do 5 apply rbind_Ok in H as (? & ? & _ & H). by apply rret_Ok in H as [_ [= _ _ ->]].
Qed.
Lemma citation_meter fresh ref release at_ s s' fin b meter :
  citation_content E config inv dc L L' port port' fresh ref release at_ s = (s', Ok (fin, b, meter)) →
  meter = length (meters (rt_meters s)).
Proof.
  unfold citation_content. destruct (m_citation_open_session _) as [session|]; [|by intros [_ ?]%rpure_Ok].
  intros H. apply rbind_Ok in H as (s1 & red & [-> _]%rpure_Ok & H).
  apply rbind_Ok in H as (s2 & c & (calls & _ & _ & <- & _)%with_port_Ok & H).
  apply rbind_Ok in H as (s3 & d & (_ & <- & _)%in_kernel_Ok & H).
  apply rbind_Ok in H as (s4 & mt & (Hm & _)%in_meters_Ok & H). apply budget_meter_is_new in Hm as <-.
  apply rbind_Ok in H as (? & ? & _ & H). by apply rret_Ok in H as [_ [= _ _ ->]].
Qed.

Lemma resolved_usage fresh now request s s' r rel :
  resolve E config inv dc L L' LA port port' fresh now request s = (s', Ok (OResolved r)) →
  m_active_runtime_release (ua_facts (inv_user_actor inv)) = Some rel →
  ar_package_schema_ref (rel_value rel) = PACKAGE_SCHEMA_REF_V1 →
  usage (rt_meters s') (length (meters (rt_meters s))) = Some (pk_budget_usage (rs_package r)).
Proof.
  intros H Hrel Hv. unfold resolve in H. destruct (require_available _ _) as [[]|e].
  - rewrite Hrel in H. apply rbind_Ok in H as (? & ? & [-> _]%rpure_Ok & H).
    apply rbind_Ok in H as (? & at_ & [-> _]%rpure_Ok & H).
    apply rbind_Ok in H as (s1 & [[fin b] meter] & Hcon & H). cbn [fst snd] in H.
    assert (meter = length (meters (rt_meters s))) as <-.
    { destruct request; [by eapply acquire_meter|by apply rpure_Ok in Hcon as [_ ?]|by eapply citation_meter]. }
    by eapply deliver_usage.
  - apply rbind_Ok in H as (? & ? & _ & H). apply rbind_Ok in H as (? & ? & _ & H).
    apply rret_Ok in H as [_ ?]. by destruct request.
Qed.

(** C6: No path of a resolve corrupts a budget ledger.  With any index that works on the
    meter through its operations, any ports and any outcome (delivery, refusal or an
    exception anywhere in between), every meter and every reservation stay consistent:
    committed usage and outstanding reservations together never exceed the meter's
    ceiling, and what a meter holds reserved is exactly the sum of its unsettled
    reservations.  A package delivered under the v1 schema reports exactly the usage
    that its meter, the one that the request added to the store, has committed at the
    end. *)
Theorem resolve_keeps_ledgers fresh now request s :
  store_ok (rt_meters s) →
  let '(s', out) := resolve E config inv dc L L' LA port port' fresh now request s in
  store_ok (rt_meters s')
  ∧ ∀ r rel, out = Ok (OResolved r) → m_active_runtime_release (ua_facts (inv_user_actor inv)) = Some rel →
      ar_package_schema_ref (rel_value rel) = PACKAGE_SCHEMA_REF_V1 →
      usage (rt_meters s') (length (meters (rt_meters s))) = Some (pk_budget_usage (rs_package r)).
Proof.
  intros Hs. pose proof (keeps_resolve fresh now request s Hs) as Hk.
  destruct (resolve _ _ _ _ _ _ _ _ _ _ _ _ _) as [s' out] eqn:H. split; [exact Hk|].
  intros r rel ->. by eapply resolved_usage.
Qed.
End Ledgers.
