(* ===== verification/CitationRefusals.v ===== *)
(** * Opened citations that are not available

    Every reason for which a citation cannot be opened ends in one outcome.  This file
    shows that the reasons cannot be told apart afterwards: neither by the outcome, nor
    by the calls to the durable ports, nor by the ledgers or the reference issuer. *)

From S2P Require Import Prelude Codec Sha256 Datetime Json ReleaseLineage Budget Scope Evidence Ranking AuthorizedRanking Materialized Trusted Egress Pyrepr Kernel KernelFacts Package Citation ContextRun Runtime RuntimeFacts.

(** ** Operations that do not look at the kernel *)

Definition with_kernel (k : kernel_state) (s : runtime_state) : runtime_state :=
  mkRuntimeState k (rt_meters s) (rt_events s).
Definition kernel_free {A} (m : runtime_op A) : Prop := ∀ k s,
  m (with_kernel k s) = (with_kernel k (m s).1, (m s).2).

Create HintDb kernel_free.
Lemma free_pure {A} (m : result A) : kernel_free (rpure m).
Proof. done. Qed.
Lemma free_ret {A} (a : A) : kernel_free (mret a).
Proof. done. Qed.
Lemma free_meters {A} (m : store → store * result A) : kernel_free (in_meters m).
Proof. intros k s. unfold in_meters. cbn. by destruct (m _). Qed.
Lemma free_port {A B} (ev : B → event) (m : list event → list B * result A) : kernel_free (with_port ev m).
Proof. intros k s. unfold with_port. cbn. by destruct (m _). Qed.
Lemma free_bind {A B} (m : runtime_op A) (f : A → runtime_op B) :
  kernel_free m → (∀ a, kernel_free (f a)) → kernel_free (m ≫= f).
Proof.
  intros Hm Hf k s. unfold mbind, runtime_bind. rewrite Hm. destruct (m s) as [s1 [a|e]]; cbn [fst snd]; [apply Hf|done].
Qed.
#[export] Hint Resolve free_pure free_ret free_meters free_port : kernel_free.
Ltac free_step := first [ apply free_bind; [|intros ?] | case_match | solve [eauto with kernel_free nocore] ].

Lemma free_issue_citations E config inv LA session profile pr es :
  kernel_free (issue_citations E config inv LA session profile pr es).
Proof. induction es as [|e es IH]; cbn [issue_citations]; repeat free_step. Qed.

Lemma free_deliver E config inv dc LA request release at_ fin budget meter :
  kernel_free (deliver_package E config inv dc LA request release at_ fin budget meter).
Proof. unfold deliver_package, attach_citations. repeat first [apply free_issue_citations | free_step]. Qed.

(** Delivery is determined by the ledgers and the log. *)
Lemma deliver_same E config inv dc LA request release at_ fin budget meter s t s' t' r q :
  deliver_package E config inv dc LA request release at_ fin budget meter s = (s', r) →
  deliver_package E config inv dc LA request release at_ fin budget meter t = (t', q) →
  rt_meters s = rt_meters t → rt_events s = rt_events t →
  r = q ∧ rt_meters s' = rt_meters t' ∧ rt_events s' = rt_events t'.
Proof.
  intros H K Hm He. assert (Ht : t = with_kernel (rt_kernel t) s) by (destruct s, t; cbn in *; by subst).
  rewrite Ht, free_deliver, H in K. cbn [fst snd] in K. injection K as <- <-. done.
Qed.

(** ** The decision of an opened citation *)

(** The kernel after one more set of references. *)
Definition issued_once (i : OpaqueReferenceIssuer) : OpaqueReferenceIssuer := mkIssuer (iss_secret i) (iss_sequence i + 1).
Lemma provenance_issue_state inv policy at_ k k' p :
  provenance_issue inv policy at_ k = (k', Ok p) →
  k' = mkKernelState (ks_scopes k) (issued_once (ks_issuer k)) (ks_unsupported k)
  ∧ p = provenance_of inv policy at_ (issued_references (iss_secret (ks_issuer k)) (iss_sequence (ks_issuer k) + 1)).
Proof.
  intros H. split; [|by apply provenance_issue_Ok in H as (_ & _ & ->)]. unfold provenance_issue in H.
  apply kbind_Ok in H as (s1 & ? & [-> _]%pure_Ok & H). apply kbind_Ok in H as (s1 & refs & Hi & H).
  unfold issue in Hi. destruct (_ <? _); [|discriminate]. injection Hi as <- <-.
  do 3 apply kbind_Ok in H as (? & ? & [-> _]%pure_Ok & H). by injection H as <- _.
Qed.

Section Opened.
Context {nesting : NestingLimit}.
Context {Port : MaterializedProjectionPort}.
Context (E : runtime_env) (config : runtime_config).
Context (inv : AuthenticatedInvocation) (dc : TrustedDeliveryContext).
Context (L L' LA : lifetimes) (port port' : epoch_port).

Abbreviation facts := (ua_facts (inv_user_actor inv)).

(** The policy and the provenance of an opened citation do not depend on the target. *)
Definition opened_policy : result PolicyReceipt :=
  policy ← validate_open_citation L inv dc;
  current ← epoch_gate_of L port inv;
  Ok (if current : bool then policy else with_scope policy no_scope).
Definition opened_provenance (policy : PolicyReceipt) (at_ : datetime) (k : kernel_state) : DecisionProvenanceReceipt :=
  provenance_of inv policy at_ (issued_references (iss_secret (ks_issuer k)) (iss_sequence (ks_issuer k) + 1)).

Lemma opened_decision fresh ref candidate budget at_ session k k' d :
  authorize_open_citation (env_isprintable E) (env_secret E) L port fresh inv dc ref candidate budget at_ session k
    = (k', Ok d) →
  opened_policy = Ok (ad_policy_receipt d)
  ∧ ad_provenance_receipt d = opened_provenance (ad_policy_receipt d) at_ k
  ∧ ks_issuer k' = issued_once (ks_issuer k) ∧ ks_unsupported k' = ks_unsupported k.
Proof.
  unfold authorize_open_citation. intros H.
  apply kbind_Ok in H as (? & policy & [-> Hp]%pure_Ok & H).
  apply kbind_Ok in H as (? & current & [-> Hc]%pure_Ok & H).
  apply kbind_Ok in H as (? & b & [-> Hb]%pure_Ok & H).
  apply kbind_Ok in H as (k1 & pr & [-> ->]%provenance_issue_state & H).
  apply kbind_Ok in H as (k2 & [ps sc] & Hproj & H).
  apply pure_Ok in H as [-> (_ & H2 & H3 & _)%sealed_decision_Ok].
  apply authorize_and_project_Ok in Hproj as (_ & _ & _ & _ & _ & _ & Hi & Hu). cbn [ks_issuer ks_unsupported] in Hi, Hu.
  unfold opened_policy, opened_provenance, epoch_gate_of. rewrite Hp, H3, H2. cbn [mbind result_bind].
  by rewrite Hc.
Qed.

(** The lineage of authorized projections is that of the decision. *)
Lemma made_content_bound narrowing at_ K d content ps :
  made_decision inv dc L port narrowing at_ K d → Forall (λ p, p ∈ ad_projections d) ps →
  construct_package_content K ps = Ok content → content_bound (ad_provenance_receipt d) content = true.
Proof.
  intros [(Hok & _) _ _ (refs & Hpr) _] Hin (_ & _ & _ & _ & _ & _ & ->)%construct_package_content_Ok.
  unfold content_bound. cbn [evidence]. apply forallb_forall.
  intros e (p & -> & Hp)%list_elem_of_In%list_elem_of_fmap. rewrite Forall_forall in Hok. rewrite Forall_forall in Hin.
  destruct (Hok _ (Hin p Hp)) as (l & la & fp & ca & _ & _ & _ & _ & _ & _ & Hlin & _).
  cbn [evidence_of ev_lineage]. rewrite Hlin.
  cbn [run_ref decision_ref principal_ref purpose as_of policy_snapshot_ref policy_epoch source_acl_decision_ref
       decision_lineage].
  rewrite Hpr. cbn [pr_run_ref pr_decision_ref pr_principal_ref pr_purpose pr_as_of pr_policy_snapshot_ref
    pr_policy_epoch pr_source_acl_decision_ref provenance_of].
  by rewrite !bool_decide_eq_true_2, dt_eqb_refl, Z.eqb_refl.
Qed.

(** What finalization reports when nothing is delivered. *)
Definition refused (policy : PolicyReceipt) (pr : DecisionProvenanceReceipt) (current : result bool) :
    FinalizedAuthorizationResult :=
  let audit := mkAudit (pr_decision_ref pr) (Some NO_AUTHORIZED_EVIDENCE) 0 in
  if negb (decision_bound inv policy pr) then mkFinalized (with_scope policy no_scope) pr no_content audit
  else match current with
       | Ok true => mkFinalized policy pr no_content audit
       | _ => mkFinalized (with_scope policy no_scope) (with_scope_digest pr (es_digest no_scope)) no_content audit
       end.

Lemma refused_decision narrowing at_ d Ev w k k' fin :
  made_decision inv dc L port narrowing at_ (ks_scopes k) d →
  deliver_decision (env_isprintable E) (env_secret E) L' port' inv d Ev w k = (k', Ok fin) →
  evidence (fin_content fin) = [] →
  fin = refused (ad_policy_receipt d) (ad_provenance_receipt d) (epoch_gate_of L' port' inv).
Proof.
  intros Hmade H Hev. unfold deliver_decision in H. injection H as _ H. apply bind_Ok in H as (sel & Hsel & Hfin).
  apply selection_constructs in Hsel as (Hd & ps & Hc & Hin).
  pose proof (made_content_bound _ _ _ _ _ _ Hmade Hin Hc) as Hcb.
  apply finalize_for_delivery_Ok in Hfin as (size & _ & Hr).
  unfold finalize_bound in Hr. rewrite Hd, Hcb in Hr. cbn [andb] in Hr. unfold refused.
  destruct Hr as [(-> & -> & Hf)|[Hb Hf]].
  - rewrite Hf in Hev |- *. cbn [fin_content negb] in *. rewrite Hev.
    apply construct_package_content_Ok in Hc as (_ & _ & _ & _ & _ & _ & Hform). rewrite Hform in Hev |- *. cbn in Hev.
    by destruct ps.
  - rewrite Hf. destruct Hb as [->|[-> ->]]; done.
Qed.

(** ** The content phase of a refused citation *)

Lemma refused_content fresh ref release at_ s s' fin b meter :
  citation_content E config inv dc L L' port port' fresh ref release at_ s = (s', Ok (fin, b, meter)) →
  evidence (fin_content fin) = [] →
  ∃ policy, opened_policy = Ok policy
    ∧ fin = refused policy (opened_provenance policy at_ (rt_kernel s)) (epoch_gate_of L' port' inv)
    ∧ _resolve_budget_meter E (rc_server_budget config) release (rt_meters s) = (rt_meters s', Ok meter)
    ∧ ks_issuer (rt_kernel s') = issued_once (ks_issuer (rt_kernel s))
    ∧ ks_unsupported (rt_kernel s') = ks_unsupported (rt_kernel s).
Proof.
  unfold citation_content. destruct (m_citation_open_session facts) as [session|]; [|by intros [_ ?]%rpure_Ok].
  intros H Hev. apply rbind_Ok in H as (s1 & red & [-> _]%rpure_Ok & H).
  apply rbind_Ok in H as (s2 & c & (calls & _ & Hk2 & Hm2 & _)%with_port_Ok & H).
  apply rbind_Ok in H as (s3 & d & (Hauth & Hm3 & _)%in_kernel_Ok & H).
  pose proof (authorize_open_citation_Ok _ _ _ _ _ _ _ _ _ _ _ _ _ _ Hauth) as (Hmade & Hb & _).
  apply opened_decision in Hauth as (Hpol & Hpr & Hi & Hu).
  apply rbind_Ok in H as (s4 & mt & (Hmt & Hk4 & _)%in_meters_Ok & H).
  apply rbind_Ok in H as (s5 & f & (Hdel & Hm5 & _)%in_kernel_Ok & H).
  apply rret_Ok in H as [-> [= -> -> ->]]. rewrite Hk4 in Hdel. exists (ad_policy_receipt d).
  pose proof (refused_decision _ _ _ _ _ _ _ _ Hmade Hdel Hev) as Hf.
  unfold deliver_decision in Hdel. injection Hdel as Hks _. rewrite Hk2 in *.
  split_and!; [done|by rewrite Hf, Hpr|by rewrite <- Hm2, <- Hm3, <- Hb, Hm5|by rewrite <- Hks|by rewrite <- Hks].
Qed.
End Opened.

(** ** Two refusals compared *)

(** The same services with another answer of the locator store. *)
Definition with_redeem (E : runtime_env)
    (answer : list event → CitationOpenRedemption → result (option CitationOpenTarget)) : runtime_env :=
  mkEnv (env_canon E) (env_isprintable E) (env_secret E) (env_relevance_tokens E) (env_artifact E) answer
    (env_citation_ref E) (env_issue_citation E) (env_grant_ref E) (env_issue_grant E) (env_persist E).

Section Compared.
Context {nesting : NestingLimit}.
Context (E : runtime_env) (config : runtime_config).
Context (inv : AuthenticatedInvocation) (dc : TrustedDeliveryContext).
Context (L L' LA : lifetimes) (port port' : epoch_port).

(** A refusal of a supported request, taken apart. *)
Lemma refused_resolve {P : MaterializedProjectionPort} F fresh now ref s s' :
  resolve F config inv dc L L' LA port port' fresh now (ROpenCitation ref) s = (s', Ok OCitationNotAvailable) →
  capability_available config (ROpenCitation ref) →
  ∃ rel policy meter s1, m_active_runtime_release (ua_facts (inv_user_actor inv)) = Some rel
    ∧ opened_policy inv dc L port = Ok policy
    ∧ _resolve_budget_meter F (rc_server_budget config) (rel_value rel) (rt_meters s) = (rt_meters s1, Ok meter)
    ∧ rt_events s1 = rt_events s ++ redemption_events inv ref now
    ∧ deliver_package F config inv dc LA (ROpenCitation ref) (rel_value rel) now
        (refused inv policy (opened_provenance inv policy now (rt_kernel s)) (epoch_gate_of L' port' inv))
        (rc_server_budget config) meter s1 = (s', Ok OCitationNotAvailable)
    ∧ ks_issuer (rt_kernel s') = issued_once (ks_issuer (rt_kernel s))
    ∧ ks_unsupported (rt_kernel s') = ks_unsupported (rt_kernel s)
    ∧ ∀ k, lifetime_active (ks_scopes (rt_kernel s')) k = lifetime_active (ks_scopes (rt_kernel s)) k.
Proof.
  intros H Hcap. unfold resolve in H. unfold capability_available in Hcap. rewrite Hcap in H.
  destruct (m_active_runtime_release _) as [rel|]; [|by apply rpure_Ok in H as [_ ?]].
  apply rbind_Ok in H as (? & ? & [-> _]%rpure_Ok & H).
  apply rbind_Ok in H as (? & at_ & [-> [-> _]%require_utc_Ok]%rpure_Ok & H).
  apply rbind_Ok in H as (s1 & [[fin b] meter] & Hcon & H). cbn [fst snd] in H.
  pose proof Hcon as ((K & ps & [Hps _ _ _ _ _ _ _] & _) & -> & He & Hl)%citation_content_Ok.
  pose proof (deliver_package_Ok _ _ _ _ _ _ _ _ _ _ _ _ _ _ _ _ Hps H) as (Hk & p & g & _ & Ho).
  assert (Hnil : evidence (fin_content fin) = []).
  { destruct Ho as [(_ & _ & ->)|(_ & rc & [=])].
    by apply construct_package_content_Ok in Hps as (_ & _ & _ & _ & _ & _ & ->). }
  apply refused_content in Hcon as (policy & Hpol & -> & Hm & Hi & Hu); [|exact Hnil].
  exists rel, policy, meter, s1. rewrite Hk. done.
Qed.

(** C4: The reasons for not opening a citation cannot be told apart.  Two requests for
    the same locator, from the same state, may meet different worlds: a locator store
    that knows it or not, that answers with a target of another Organization or with
    something else; Articles that exist or not, may be read or not, or whose content
    differs; an authorization withdrawn before delivery or never held.  If both are
    answered as not available, they made the same calls to the durable ports with the
    same contents (the run record and its audit included), left the same ledgers, used
    the same references and hold the same kernel lifetimes. *)
Theorem citation_refusals_indistinguishable (P1 P2 : MaterializedProjectionPort) answer fresh1 fresh2 now ref s s1 s2 :
  resolve (Port := P1) E config inv dc L L' LA port port' fresh1 now (ROpenCitation ref) s
    = (s1, Ok OCitationNotAvailable) →
  resolve (Port := P2) (with_redeem E answer) config inv dc L L' LA port port' fresh2 now (ROpenCitation ref) s
    = (s2, Ok OCitationNotAvailable) →
  rt_events s1 = rt_events s2 ∧ rt_meters s1 = rt_meters s2
  ∧ ks_issuer (rt_kernel s1) = ks_issuer (rt_kernel s2) ∧ ks_unsupported (rt_kernel s1) = ks_unsupported (rt_kernel s2)
  ∧ ∀ k, lifetime_active (ks_scopes (rt_kernel s1)) k = lifetime_active (ks_scopes (rt_kernel s2)) k.
Proof.
  intros H1 H2. destruct (require_available (_required_capability_for_request (ROpenCitation ref)
    (rc_acquire_capability config)) (bool_decide (is_Some (rc_citation_profile config)))) as [[]|e] eqn:Hcap.
  - destruct (refused_resolve _ _ _ _ _ _ H1 Hcap) as (rel & policy & m & t1 & Hr & Hp & Hm & He & Hd & Hi & Hu & Hl).
    destruct (refused_resolve _ _ _ _ _ _ H2 Hcap) as (rel' & policy' & m' & t2 & Hr' & Hp' & Hm' & He' & Hd' & Hi' & Hu' & Hl').
    rewrite Hr in Hr'. injection Hr' as <-. rewrite Hp in Hp'. apply Ok_inj in Hp' as <-.
    change (_resolve_budget_meter (with_redeem E answer)) with (_resolve_budget_meter E) in Hm'.
    rewrite Hm in Hm'. injection Hm' as Hmm <-.
    change (deliver_package (with_redeem E answer)) with (deliver_package E) in Hd'.
    destruct (deliver_same _ _ _ _ _ _ _ _ _ _ _ _ _ _ _ _ _ Hd Hd' Hmm) as (_ & Hm2 & He2); [by rewrite He, He'|].
    split_and!; try done; [congruence|congruence|]. intros k. by rewrite Hl, Hl'.
  - unfold resolve in H1, H2. rewrite Hcap in H1, H2. rewrite H1 in H2. by injection H2 as <-.
Qed.
End Compared.
