(* ===== verification/RuntimeRun.v ===== *)
(** * Concrete requests through [Runtime.resolve]

    One Acquire and one opened citation over a port with one Article, under a v1 release
    whose tokenizer artifact is [src/engine/tokenizers/unicode-scalar-v1.json], with
    citation locators and a model egress profile; the instances of the theorems about
    the whole operation are taken from them. *)

From S2P Require Import Prelude Codec Sha256 Datetime Json ReleaseLineage Budget Scope Evidence Ranking AuthorizedRanking Materialized Trusted Egress Canonical Pyrepr Kernel KernelFacts KernelRun Package Citation ContextRun Runtime RuntimeFacts RuntimeRefusals CitationRefusals.

#[local] Existing Instance cpython_nesting.

(** ** The Article *)

Definition res_revision : pystr := lit "00000000-0000-0000-0000-00000000000a".
Definition res_candidate : CandidateRef :=
  mkCandidateRef (mkUUID 5) (lit "source") (lit "article") res_revision (lit "f1").
Definition res_locator : MaterializedFragmentLocator :=
  mkMaterializedFragmentLocator (mkUUID 5) (lit "source") (lit "article") res_revision (lit "f1")
    (lit "acl-projection") run_time (lit "profile").
Definition res_port : MaterializedProjectionPort := {|
  port_locate c := Ok (if bool_decide (c = res_candidate) then Some res_locator else None);
  port_project l := Ok (if bool_decide (l = res_locator) then Some (demo_body "first") else None);
  port_discover_exact_phrase := None;
  port_discover_fts := Some (λ _ _, Ok [res_candidate]);
  port_discover_vector := None;
  port_discover_one_hop := Some (λ _ _ _, Ok []);
  port_read_fragment_window := None
|}.

(** ** The index: preparing a request costs one reserved and committed call *)

Definition res_cost : BudgetUsage := mkBudgetUsage 2 1 3 1.
#[export] Instance res_index : MeteredIndex := {|
  mi_generation_bound := true;
  mi_prepare _ _ meter _ _ s :=
    match _reserve s meter res_cost with
    | (s', Err e) => (s', Err e)
    | (s', Ok reservation) =>
        let '(s'', r) := _commit s' meter reservation res_cost in
        (s'', r ;; Ok (FtsRequest (mkFts (lit "query") 3 None None)))
    end;
  mi_discover _ ds _ s :=
    (s, cs ← _candidate_discovery_ranker_candidates ds (lit "fts");
        Ok (mkCandidateQuery [mkRankedCandidateList (lit "fts") ((λ c, mkRankedCandidate c None) <$> cs)]))
|}.
#[export] Instance res_index_discipline : MeterDiscipline res_index.
Proof.
  split.
  - intros request scope meter digest generation s. exists (λ _, Ok tt). cbn [mi_prepare res_index].
    destruct (_reserve s meter res_cost) as [s' [i|e]] eqn:Hr.
    + exists [OpReserve meter res_cost; OpCommit meter i res_cost]. split; [by repeat constructor|].
      cbn [Budget.run foldl run_op]. rewrite Hr. cbn [fst].
      by destruct (_commit s' meter i res_cost) as [s'' r].
    + exists [OpReserve meter res_cost]. split; [by repeat constructor|]. cbn [Budget.run foldl run_op]. by rewrite Hr.
  - intros request session scope s. by exists (λ _, Ok tt), [].
Qed.

(** ** The release, the actor and the services *)

Definition res_artifact : pybytes :=
  lit "{" ++ dump_str (lit "accountingVersion") ++ lit ":" ++ dump_str (lit "unicode-scalar-accounting-v1") ++ lit ","
  ++ dump_str (lit "normalization") ++ lit ":" ++ dump_str (lit "none") ++ lit ","
  ++ dump_str (lit "vocabulary") ++ lit ":" ++ dump_str (lit "unicode-scalars-v15.1") ++ lit "}" ++ [10].

Definition text_or_nil (r : result pystr) : pystr := match r with Ok s => s | Err _ => [] end.
(** The release of the v1 line with the twin embedding profile; its public reference is
    computed by the constructor. *)
Definition res_release_fields : ActiveRuntimeRelease :=
  mkRuntimeRelease (mkUUID 5) (hexdigest (lit "manifest")) 4 CONTENT_PROFILE_REF_V0 CONTENT_SCHEMA_REF_V0
    DOGFOOD_VECTOR_INDEX_PROFILE_REF_V1 INDEX_SCHEMA_REF_V0 RUNTIME_PROFILE_REF_V1
    (text_or_nil (RUNTIME_PROFILE_DIGEST_V1 safe_canon)) CONTENT_PROFILE_DIGEST_V0
    DOGFOOD_VECTOR_INDEX_PROFILE_DIGEST_V1
    (text_or_nil (embedding_json safe_canon DETERMINISTIC_TWIN_EMBEDDING_PROFILE))
    (text_or_nil (embedding_digest safe_canon DETERMINISTIC_TWIN_EMBEDDING_PROFILE))
    RUNTIME_TOKENIZER_REF_V1 PACKAGE_SCHEMA_REF_V1 CURATION_PROFILE_REF_V0 CURATION_PROFILE_DIGEST_V0
    (lit "curation_off") None None [] [res_revision]
    (text_or_nil (descriptor_json safe_canon UNICODE_SCALAR_DESCRIPTOR))
    (text_or_nil (descriptor_digest safe_canon UNICODE_SCALAR_DESCRIPTOR)) [].
Definition res_release : ActiveRuntimeRelease :=
  match new_ActiveRuntimeRelease safe_canon res_release_fields with Ok r => r | Err _ => res_release_fields end.
Lemma res_release_constructed : new_ActiveRuntimeRelease safe_canon res_release_fields = Ok res_release.
Proof. vm_compute. reflexivity. Qed.

Definition res_facts : MembershipFacts :=
  mkMembershipFacts (mkUUID 5) (mkUUID 2) (mkUUID 3) 7 (lit "principal") (lit "request") (lit "binding") run_time 5
    run_epoch (Some run_session) (Some (mkAuthoritySession 4 3)) None (Some (mkAuthoritySession 5 3))
    (Some (mkAuthoritySession 6 3)) (Some (mkActiveRelease 0 res_release)).
Definition res_invocation : AuthenticatedInvocation :=
  mkAuthenticatedInvocation (lit "request") (uuid_str (mkUUID 5)) (uuid_str (mkUUID 2))
    (lit "principal") (uuid_str (mkUUID 3)) 7 5 (lit "agent") (lit "app") (lit "binding") run_time
    (mkExistingOrganizationVerification (mkUUID 5) (lit "request") (lit "binding") run_time)
    (mkUserActor res_facts (mkCurrentMembershipVerification res_facts 1))
    (mkTrustedScopeSnapshot (mkUUID 5) (mkUUID 2) (mkUUID 3) 7 5 (lit "principal") (lit "agent")
       (lit "answer") (lit "request") (lit "binding") run_time run_operands 2).

Definition res_reference (prefix : pystr) : pystr := prefix ++ repeat 97 64.
(** Ports that accept everything and know one locator. *)
Definition res_env : runtime_env := {|
  env_canon := safe_canon;
  env_isprintable _ := true;
  env_secret := lit "key";
  env_relevance_tokens s := {[ s ]};
  env_artifact := Some res_artifact;
  env_redeem _ _ := Ok (Some (mkCitationTarget res_candidate (mkTargetLineage [] [])));
  env_citation_ref _ := Ok (OStr (res_reference (lit "cor_")));
  env_issue_citation _ _ := Ok true;
  env_grant_ref _ prefix := Ok (res_reference (prefix ++ [95]));
  env_issue_grant _ _ _ := Ok true;
  env_persist _ _ _ := Ok tt
|}.
Definition res_model : ModelEgressProfile :=
  mkModelEgressProfile (lit "model-egress") (lit "retention") (lit "sensitivity") (lit "issuer") (lit "consumer")
    (lit "provider") (lit "model") (lit "region") (seconds 300).
Definition res_config : runtime_config :=
  mkConfig 600 run_budget (Some res_index) 10 4 None MATERIALIZED_ACQUIRE
    (Some (mkQueryKeyring 1 [(1, repeat 7 32)])) (ModelProfile res_model) (Some PRIVATE_FILE_CITATION_OPEN_PROFILE).
Lemma res_config_accepted : new_Runtime res_config = Ok res_config.
Proof. vm_compute. reflexivity. Qed.

Definition res_state : runtime_state := mkRuntimeState run_state empty_store [].
Definition res_run (request : RuntimeRequest) : runtime_state * result ResolutionOutcome :=
  resolve (Port := res_port) res_env res_config res_invocation run_delivery run_lifetimes run_lifetimes run_lifetimes
    run_authority run_authority 1 run_time request res_state.
Definition res_acquire : RuntimeRequest := RAcquire run_request.
Definition res_open : RuntimeRequest := ROpenCitation (mkCitationOpenRef (res_reference (lit "cor_"))).

Definition event_kind (e : event) : Z :=
  match e with EEvidenceRedeemed _ => 4 | ECitationRedeemed _ => 0 | ECitationIssued _ => 1 | EGrantIssued _ _ => 2 | ERunPersisted _ _ => 3 end.
Definition res_summary (o : runtime_state * result ResolutionOutcome) :
    option (list (list Z) * BudgetUsage * list Z * list bool) :=
  match o with
  | (s, Ok (OResolved r)) =>
      Some (bl_body <$> pk_blocks (rs_package r), pk_budget_usage (rs_package r), event_kind <$> rt_events s,
            ks_scopes (rt_kernel s))
  | _ => None
  end.

(** The Acquire is charged the index's call and the five scalars of the body, issues one
    locator and one grant and records the run; the opened locator is redeemed first. *)
Lemma res_acquire_result :
  res_summary (res_run res_acquire) = Some ([lit "first"], mkBudgetUsage 7 1 3 1, [1; 2; 3], [false]).
Proof. vm_compute. reflexivity. Qed.
Lemma res_open_result :
  res_summary (res_run res_open) = Some ([lit "first"], mkBudgetUsage 5 0 0 0, [0; 1; 2; 3], [false]).
Proof. vm_compute. reflexivity. Qed.

Lemma summary_resolved o bodies usage kinds scopes :
  res_summary o = Some (bodies, usage, kinds, scopes) →
  ∃ s r, o = (s, Ok (OResolved r)) ∧ bl_body <$> pk_blocks (rs_package r) = bodies
    ∧ pk_budget_usage (rs_package r) = usage ∧ event_kind <$> rt_events s = kinds ∧ ks_scopes (rt_kernel s) = scopes.
Proof. destruct o as [s [[r| |]|e]]; try done. cbn. intros [= <- <- <- <-]. by exists s, r. Qed.

(** ** Instances *)

Lemma resolved_package_is_authorized_witness :
  ∃ s r ps cite, res_run res_open = (s, Ok (OResolved r)) ∧ bl_body <$> pk_blocks (rs_package r) = [lit "first"]
    ∧ pk_evidence (rs_package r) = (λ p, evidence_of p (cite p)) <$> ps
    ∧ candidate_ref <$> ps = [res_candidate]
    ∧ epoch_gate_of run_lifetimes run_authority res_invocation = Ok true.
Proof.
  destruct (summary_resolved _ _ _ _ _ res_open_result) as (s & r & H & Hb & _).
  destruct (resolved_package_is_authorized (nesting := cpython_nesting) (Port := res_port) res_env res_config res_invocation run_delivery
              run_lifetimes run_lifetimes run_lifetimes run_authority run_authority 1 run_time res_open res_state s r H)
    as (pr & ps & cite & _ & Hev & _ & _ & Hgate & Hopen & _).
  destruct (Hopen _ eq_refl) as (t & Ht & Hps).
  assert (Hc : citation_target res_env res_invocation (mkCitationOpenRef (res_reference (lit "cor_"))) run_time
                 (rt_events res_state) = Some res_candidate) by (vm_compute; reflexivity).
  rewrite Hc in Ht. injection Ht as <-.
  exists s, r, ps, cite. split; [exact H|]. split; [exact Hb|]. split; [exact Hev|]. split; [exact Hps|].
  destruct Hgate as [Hg _]; [by intros ->|exact Hg].
Defined.

Lemma delivery_is_recorded_witness :
  ∃ s r run audit before, res_run res_acquire = (s, Ok (OResolved r))
    ∧ rt_events s = before ++ [ERunPersisted run audit] ∧ length before = 2%nat
    ∧ audit = None ∧ within (rs_effective_budget r) (pk_budget_usage (rs_package r)).
Proof.
  destruct (summary_resolved _ _ _ _ _ res_acquire_result) as (s & r & H & Hb & _ & Hk & _).
  destruct (delivery_is_recorded (nesting := cpython_nesting) (Port := res_port) res_env res_config res_invocation run_delivery
              run_lifetimes run_lifetimes run_lifetimes run_authority run_authority 1 run_time res_acquire res_state s r H)
    as (rel & pr & ps & _ & [Hbl (cite & citations & issued & run & audit & Hev & _ & _ & (_ & Ha & Hw) & He & _) _ _]).
  exists s, r, run, audit, ((ECitationIssued <$> citations) ++ issued). split; [exact H|].
  assert (Hev' : rt_events s = ((ECitationIssued <$> citations) ++ issued) ++ [ERunPersisted run audit])
    by (rewrite <- app_assoc; exact He).
  split; [exact Hev'|]. split; [|split; [|exact Hw]].
  - rewrite Hev' in Hk. apply (f_equal length) in Hk. rewrite length_fmap, length_app in Hk. cbn in Hk. lia.
  - rewrite Ha. rewrite bool_decide_eq_false_2; [done|]. rewrite Hev. rewrite Hbl in Hb. by destruct ps.
Defined.

Lemma unsupported_request_does_no_work_witness :
  ∃ s, resolve (Port := res_port) res_env res_config res_invocation run_delivery run_lifetimes run_lifetimes
         run_lifetimes run_authority run_authority 1 run_time (RContinue (lit "token") None) res_state
       = (s, Ok ORequestNotAvailable) ∧ rt_events s = [] ∧ ks_unsupported (rt_kernel s) = 1.
Proof.
  assert (Hn : ¬ capability_available res_config (RContinue (lit "token") None)) by done.
  pose proof (unsupported_request_does_no_work (nesting := cpython_nesting) (Port := res_port) res_env res_config res_invocation run_delivery
                run_lifetimes run_lifetimes run_lifetimes run_authority run_authority 1 run_time _ res_state Hn) as H.
  assert (Hs : match resolve (Port := res_port) res_env res_config res_invocation run_delivery run_lifetimes run_lifetimes
                       run_lifetimes run_authority run_authority 1 run_time
                       (RContinue (lit "token") None) res_state with
               | (_, Ok _) => true | _ => false end = true) by (vm_compute; reflexivity).
  destruct (resolve _ _ _ _ _ _ _ _ _ _ _ _ _) as [s [o|e]]; [|discriminate].
  destruct H as (He & _ & _ & Ho & Hp & Hu). exists s. split; [|split; [exact He|exact Hu]].
  f_equal. exact (proj2 Ho Hp).
Defined.

(** A locator nobody issued, and one whose Article the session does not find. *)
Definition res_unknown (_ : list event) (_ : CitationOpenRedemption) : result (option CitationOpenTarget) :=
  Err CitationLocatorNotAvailable.
Definition res_known (_ : list event) (_ : CitationOpenRedemption) : result (option CitationOpenTarget) :=
  Ok (Some (mkCitationTarget res_candidate (mkTargetLineage [] []))).
Definition res_refusal (port : MaterializedProjectionPort) (env : runtime_env) : runtime_state * result ResolutionOutcome :=
  resolve (Port := port) env res_config res_invocation run_delivery run_lifetimes run_lifetimes run_lifetimes
    run_authority run_authority 1 run_time res_open res_state.
Definition is_refusal (o : runtime_state * result ResolutionOutcome) : bool :=
  match o with (_, Ok OCitationNotAvailable) => true | _ => false end.
Lemma res_unknown_refused : is_refusal (res_refusal res_port (with_redeem res_env res_unknown)) = true.
Proof. vm_compute. reflexivity. Qed.
Lemma res_missing_refused :
  is_refusal (res_refusal demo_port (with_redeem (with_redeem res_env res_unknown) res_known)) = true.
Proof. vm_compute. reflexivity. Qed.
Lemma refusal_state o : is_refusal o = true → ∃ s, o = (s, Ok OCitationNotAvailable).
Proof. destruct o as [s [[]|]]; try done. eauto. Qed.

Lemma citation_refusals_indistinguishable_witness :
  ∃ s1 s2, res_refusal res_port (with_redeem res_env res_unknown) = (s1, Ok OCitationNotAvailable)
    ∧ res_refusal demo_port (with_redeem (with_redeem res_env res_unknown) res_known) = (s2, Ok OCitationNotAvailable)
    ∧ rt_events s1 = rt_events s2.
Proof.
  destruct (refusal_state _ res_unknown_refused) as (s1 & H1). destruct (refusal_state _ res_missing_refused) as (s2 & H2).
  pose proof H1 as H1'. pose proof H2 as H2'. unfold res_refusal, res_open in H1', H2'.
  destruct (citation_refusals_indistinguishable (with_redeem res_env res_unknown) res_config res_invocation run_delivery
              run_lifetimes run_lifetimes run_lifetimes run_authority run_authority res_port demo_port res_known 1 1
              run_time (mkCitationOpenRef (res_reference (lit "cor_"))) res_state s1 s2 H1' H2') as (He & _).
  exists s1, s2. split; [exact H1|]. split; [exact H2|exact He].
Defined.

Lemma resolve_keeps_ledgers_witness :
  ∃ s r, res_run res_acquire = (s, Ok (OResolved r)) ∧ store_ok (rt_meters s)
    ∧ usage (rt_meters s) 0 = Some (mkBudgetUsage 7 1 3 1).
Proof.
  destruct (summary_resolved _ _ _ _ _ res_acquire_result) as (s & r & H & _ & Hu & _).
  assert (Hd : ∀ index, rc_index res_config = Some index → MeterDiscipline index)
    by (intros index Hi; injection Hi as <-; exact res_index_discipline).
  assert (Hb : budget_ok (rc_server_budget res_config)) by (vm_compute; reflexivity).
  pose proof (resolve_keeps_ledgers (nesting := cpython_nesting) (Port := res_port) res_env res_config res_invocation run_delivery run_lifetimes
                run_lifetimes run_lifetimes run_authority run_authority Hd Hb 1 run_time res_acquire
                res_state empty_store_ok) as Hk.
  unfold res_run in H. rewrite H in Hk. destruct Hk as [Hs Hm].
  assert (Hv : ar_package_schema_ref res_release = PACKAGE_SCHEMA_REF_V1) by (vm_compute; reflexivity).
  pose proof (Hm r (mkActiveRelease 0 res_release) eq_refl eq_refl Hv) as Hmeter.
  exists s, r. split; [exact H|]. split; [exact Hs|]. rewrite <- Hu. exact Hmeter.
Defined.
