(* ===== verification/Ingress.v ===== *)
(** * The HTTP resolve route: [src/adapters/http/app.py]

    The handler [resolve_context]: from authenticated transport facts to the trusted
    inputs of the Runtime, the delivery they are bound to, the call of [Runtime.resolve]
    and the closed set of failures.  Authorities are arguments that may answer or raise
    anything; entering and leaving their request-lived contexts are separate answers.
    The transport models that validate the response are an argument; observers are not
    composed. *)

From S2P Require Import Prelude Codec Sha256 Datetime Json ReleaseLineage Budget Scope Evidence Materialized Trusted UuidText Kernel DeliveryEvidence Package Citation ContextRun Runtime.

(** ** Authenticated facts: [authentication.py] *)

Record VerifiedPrivateDeliveryBinding := mkBinding {
  vb_destination_ref : pystr;
  vb_consumer_ref : pystr;
  vb_delivery_kind : pystr
}.
Definition new_VerifiedPrivateDeliveryBinding (b : VerifiedPrivateDeliveryBinding) : result VerifiedPrivateDeliveryBinding :=
  require (forallb nonempty_ref [vb_destination_ref b; vb_consumer_ref b]) InvalidAuthenticationContext ;;
  require (bool_decide (vb_delivery_kind b = lit "private")) InvalidAuthenticationContext ;;
  Ok b.

Record VerifiedAuthenticationContext := mkAuthentication {
  va_organization_ref : pystr;
  va_user_ref : pystr;
  va_principal_ref : pystr;
  va_membership_ref : pystr;
  va_membership_version : Z;
  va_agent_version_ref : pystr;
  va_authenticated_application_ref : pystr;
  va_authentication_binding_ref : pystr;
  va_private_delivery_binding : option VerifiedPrivateDeliveryBinding
}.
(** [__post_init__] rewrites the three identifiers in canonical form. *)
Definition canonical_uuid_text (s : pystr) : result pystr :=
  u ← try_except (uuid_of_text s) is_ValueError (Err InvalidAuthenticationContext); Ok (uuid_str u).
Definition new_VerifiedAuthenticationContext (a : VerifiedAuthenticationContext) : result VerifiedAuthenticationContext :=
  require (forallb nonempty_ref
             [va_organization_ref a; va_user_ref a; va_principal_ref a; va_membership_ref a; va_agent_version_ref a;
              va_authenticated_application_ref a; va_authentication_binding_ref a]) InvalidAuthenticationContext ;;
  organization_ref ← canonical_uuid_text (va_organization_ref a);
  user_ref ← canonical_uuid_text (va_user_ref a);
  membership_ref ← canonical_uuid_text (va_membership_ref a);
  require ((1 <=? va_membership_version a) && (va_membership_version a <=? MAX_MEMBERSHIP_VERSION))
    InvalidAuthenticationContext ;;
  Ok (mkAuthentication organization_ref user_ref (va_principal_ref a) membership_ref (va_membership_version a)
        (va_agent_version_ref a) (va_authenticated_application_ref a) (va_authentication_binding_ref a)
        (va_private_delivery_binding a)).

(** [route_policy.ResolveRouteDecision] *)
Inductive ResolveRouteDecision := ROUTE_ALLOW | ROUTE_FORBID | ROUTE_RATE_LIMIT.

(** [membership_context.MembershipIdentity] *)
Record MembershipIdentity := mkMembershipIdentity {
  mb_organization_id : UUID;
  mb_user_id : UUID;
  mb_membership_id : UUID;
  mb_membership_version : Z;
  mb_principal_ref : pystr;
  mb_request_id : pystr;
  mb_authentication_binding_ref : pystr;
  mb_checked_at : datetime
}.
Definition new_MembershipIdentity (i : MembershipIdentity) : result MembershipIdentity :=
  require ((1 <=? mb_membership_version i) && (mb_membership_version i <=? MAX_MEMBERSHIP_VERSION)) ValueError ;;
  require (forallb nonempty_ref [mb_principal_ref i; mb_request_id i; mb_authentication_binding_ref i]) ValueError ;;
  require (is_utc (mb_checked_at i)) ValueError ;;
  Ok i.

(** [scope_authority.ScopeAuthorityIdentity] *)
Record ScopeAuthorityIdentity := mkScopeIdentity {
  si_organization_id : UUID;
  si_user_id : UUID;
  si_membership_id : UUID;
  si_membership_version : Z;
  si_policy_epoch : Z;
  si_principal_ref : pystr;
  si_agent_version_ref : pystr;
  si_purpose : pystr;
  si_request_id : pystr;
  si_authentication_binding_ref : pystr;
  si_checked_at : datetime;
  si_materialized_projection_session : option MaterializedProjectionSession;
  si_active_runtime_release : option ActiveRelease
}.
Definition new_ScopeAuthorityIdentity (L : lifetimes) (i : ScopeAuthorityIdentity) : result ScopeAuthorityIdentity :=
  require ((1 <=? si_membership_version i) && (si_membership_version i <=? MAX_MEMBERSHIP_VERSION)) ValueError ;;
  match si_materialized_projection_session i with
  | None => Ok tt
  | Some session => _require_active_materialized_projection_session L session
  end ;;
  require ((1 <=? si_policy_epoch i) && (si_policy_epoch i <=? MAX_POLICY_EPOCH)) ValueError ;;
  require (forallb nonempty_ref
             [si_principal_ref i; si_agent_version_ref i; si_purpose i; si_request_id i;
              si_authentication_binding_ref i]) ValueError ;;
  require (is_utc (si_checked_at i)) ValueError ;;
  Ok i.

Definition missing_operands : TrustedScopeOperands :=
  mkTrustedScopeOperands MISSING_TRUSTED_SCOPE MISSING_TRUSTED_SCOPE MISSING_TRUSTED_SCOPE MISSING_TRUSTED_SCOPE
    MISSING_TRUSTED_SCOPE MISSING_TRUSTED_SCOPE MISSING_TRUSTED_SCOPE.
(** [_missing_trusted_scope]; [scope] is the lifetime it opens. *)
Definition _missing_trusted_scope (L : lifetimes) (scope : nat) (i : ScopeAuthorityIdentity) :
    result TrustedScopeSnapshot :=
  _construct_trusted_scope_snapshot L
    (mkTrustedScopeSnapshot (si_organization_id i) (si_user_id i) (si_membership_id i) (si_membership_version i)
       (si_policy_epoch i) (si_principal_ref i) (si_agent_version_ref i) (si_purpose i) (si_request_id i)
       (si_authentication_binding_ref i) (si_checked_at i) missing_operands scope).

(** ** Bodies *)

Inductive ResolveWire :=
  | AcquireWire (query : pystr) (budget : option PackageBudgetRequest) (narrowing : option RequestNarrowing)
  | ContinueWire (token : pystr) (budget : option PackageBudgetRequest)
  | OpenCitationWire (citation_open_ref : pystr).

Definition DIRECT_ACQUIRE_PURPOSE : pystr := lit "context.answer".
Definition DIRECT_CITATION_PURPOSE : pystr := lit "citation.open".
Definition _purpose_for_wire (body : ResolveWire) : pystr :=
  match body with OpenCitationWire _ => DIRECT_CITATION_PURPOSE | _ => DIRECT_ACQUIRE_PURPOSE end.

(** A field that may be absent is constructed when present. *)
Definition option_result {A B} (f : A → result B) (o : option A) : result (option B) :=
  match o with None => Ok None | Some x => y ← f x; Ok (Some y) end.
Definition _package_budget_from_wire : option PackageBudgetRequest → result (option PackageBudgetRequest) :=
  option_result PackageBudgetRequest_post_init.
Definition _acquire_from_wire (query : pystr) (budget : option PackageBudgetRequest)
    (narrowing : option RequestNarrowing) : result Acquire :=
  narrowing ← option_result RequestNarrowing_post_init narrowing;
  require (nonempty_ref query) ValueError ;;
  package_budget ← _package_budget_from_wire budget;
  Ok (mkAcquire query package_budget narrowing).
Definition _runtime_request_from_wire (body : ResolveWire) : result RuntimeRequest :=
  match body with
  | AcquireWire query budget narrowing => a ← _acquire_from_wire query budget narrowing; Ok (RAcquire a)
  | ContinueWire token budget =>
      _require_opaque_capability_value token ;;
      package_budget ← _package_budget_from_wire budget; Ok (RContinue token package_budget)
  | OpenCitationWire ref => c ← CitationOpenRef_post_init (mkCitationOpenRef ref); Ok (ROpenCitation c)
  end.

(** ** The handler *)

Inductive http_response :=
  | OutcomeResponse (outcome : ResolutionOutcome) (document : json) (request_id : pystr)
  | CitationNotAvailableResponse (request_id : pystr).

(** The authorities around the route.  An exit receives the exception that leaves the
    block, if any, and returns the one that leaves the context. *)
Record ingress_env := mkIngress {
  in_route : VerifiedAuthenticationContext → result (option ResolveRouteDecision);
  in_organization : VerifiedAuthenticationContext → pystr → datetime → result ExistingOrganizationVerification;
  in_membership : MembershipIdentity → result CurrentMembershipVerification;
  in_membership_exit : option exn → option exn;
  in_scope : ScopeAuthorityIdentity → result TrustedScopeSnapshot;
  in_missing_scope : nat;
  in_scope_exit : option exn → option exn;
  in_redeem : list event → PrivateDeliveryEvidenceRedemption → result (option RedeemedPrivateDeliveryEvidence);
  in_wire : ResolutionOutcome → bool → result json
}.

(** [with manager: m]: leaving the block. *)
Definition with_exit {A} (exit : option exn → option exn) (m : runtime_op A) : runtime_op A := λ s,
  match m s with
  | (s', Ok a) => (s', match exit None with None => Ok a | Some e => Err e end)
  | (s', Err e) => (s', Err (default e (exit (Some e))))
  end.
(** [try: m except]: [h] is what the matching clause does. *)
Definition rexcept {A} (m : runtime_op A) (h : exn → result A) : runtime_op A := λ s,
  match m s with
  | (s', Ok a) => (s', Ok a)
  | (s', Err e) => (s', h e)
  end.
Definition type_or_value (e : exn) : bool := is_TypeError e || is_ValueError e.

Section Handler.
Context {nesting : NestingLimit}.
Context {Port : MaterializedProjectionPort}.
Context (I : ingress_env) (E : runtime_env) (config : runtime_config).
(** Lifetimes while the trusted inputs are built, and those of the resolve. *)
Context (L0 L L' LA : lifetimes) (port port' : epoch_port).

(** [selected_route_policy.decide] and its three answers. *)
Definition require_route (auth : VerifiedAuthenticationContext) : result unit :=
  match in_route I auth with
  | Ok (Some ROUTE_FORBID) => Err ResolveApplicationForbidden
  | Ok (Some ROUTE_RATE_LIMIT) => Err ResolveRateLimited
  | Ok (Some ROUTE_ALLOW) => Ok tt
  | _ => Err TrustedAuthorityUnavailable
  end.

(** A private binding comes with evidence, and evidence with a private binding. *)
Definition delivery_allowed (auth : VerifiedAuthenticationContext) (request : RuntimeRequest)
    (evidence_ref : option pystr) : bool :=
  match evidence_ref, va_private_delivery_binding auth with
  | None, None => true
  | None, Some _ => false
  | Some _, b => match request with RContinue _ _ => false | _ => bool_decide (is_Some b) end
  end.

(** The one non-enumerating answer of an opened citation; others fail. *)
Definition citation_or (request : RuntimeRequest) (request_id : pystr) (e : exn) : result http_response :=
  match request with ROpenCitation _ => Ok (CitationNotAvailableResponse request_id) | _ => Err e end.

Definition identify (auth : VerifiedAuthenticationContext) (request_id : pystr) (received_at : datetime) :
    result (ExistingOrganizationVerification * MembershipIdentity) :=
  verification ← in_organization I auth request_id received_at;
  organization_id ← uuid_of_text (va_organization_ref auth);
  user_id ← uuid_of_text (va_user_ref auth);
  membership_id ← uuid_of_text (va_membership_ref auth);
  identity ← new_MembershipIdentity
    (mkMembershipIdentity organization_id user_id membership_id (va_membership_version auth) (va_principal_ref auth)
       request_id (va_authentication_binding_ref auth) received_at);
  Ok (verification, identity).

(** *** The delivery the request is bound to *)

Definition redemption_request (auth : VerifiedAuthenticationContext) (binding : VerifiedPrivateDeliveryBinding)
    (inv : AuthenticatedInvocation) (purpose evidence_ref : pystr) : result PrivateDeliveryEvidenceRedemption :=
  let f := ua_facts (inv_user_actor inv) in
  encoded ← encode_utf8 evidence_ref;
  audience_digest ← private_delivery_audience_digest_for_binding (env_canon E) (m_organization_id f) (m_membership_id f)
                      (m_membership_version f) (vb_destination_ref binding) (vb_consumer_ref binding);
  new_PrivateDeliveryEvidenceRedemption
    (mkEvidenceRedemption evidence_ref (sha256 encoded) (va_authenticated_application_ref auth)
       (va_authentication_binding_ref auth) (inv_request_id inv) (m_organization_id f) (m_user_id f) (m_membership_id f)
       (m_membership_version f) (vb_destination_ref binding) (vb_consumer_ref binding) (vb_delivery_kind binding)
       audience_digest purpose (inv_policy_epoch inv) (inv_received_at inv)).

(** The clauses around the redemption; [None] answers an opened citation. *)
Definition redeemed_evidence (request : RuntimeRequest) (r : result RedeemedPrivateDeliveryEvidence) :
    result (option RedeemedPrivateDeliveryEvidence) :=
  match r with
  | Ok evidence => Ok (Some evidence)
  | Err DeliveryEvidenceNotAvailable =>
      match request with ROpenCitation _ => Ok None | _ => Err TransportAuthenticationFailed end
  | Err DeliveryEvidenceAuthorityUnavailable => Err TrustedAuthorityUnavailable
  | Err e => if type_or_value e then Err TrustedAuthorityUnavailable else Err e
  end.

Definition establish_delivery (auth : VerifiedAuthenticationContext) (request : RuntimeRequest)
    (verification : CurrentMembershipVerification) (inv : AuthenticatedInvocation) (purpose : pystr)
    (evidence_ref : option pystr) : runtime_op (option TrustedDeliveryContext) :=
  match evidence_ref with
  | None =>
      dc ← rpure (_construct_direct_delivery_context purpose (va_authenticated_application_ref auth)
                    (va_authentication_binding_ref auth) (inv_received_at inv));
      mret (Some dc)
  | Some ref =>
      match va_private_delivery_binding auth, m_delivery_evidence_redemption_session (cmv_facts verification) with
      | None, _ => rpure (Err TransportAuthenticationFailed)
      | _, None => rpure (Err TrustedAuthorityUnavailable)
      | Some binding, Some session =>
          redemption ← rpure (try_except (redemption_request auth binding inv purpose ref) type_or_value
                                (Err TransportAuthenticationFailed));
          redeemed ← with_port EEvidenceRedeemed (λ events,
            let '(calls, r) := redeem_private_delivery_evidence L0 session redemption (in_redeem I events) in
            (calls, redeemed_evidence request r));
          match redeemed with
          | None => mret None
          | Some e =>
              dc ← rpure (_construct_private_delivery_context (re_purpose e) (re_authenticated_service_ref e)
                            (re_authentication_binding_ref e) (inv_received_at inv) (re_destination_ref e)
                            (re_consumer_ref e) (re_audience_digest e) (re_logical_resolution_ref e) (re_profile_ref e));
              mret (Some dc)
          end
      end
  end.

(** *** Inside the two request-lived contexts *)

Definition build_invocation (auth : VerifiedAuthenticationContext) (request_id : pystr) (received_at : datetime)
    (organization : ExistingOrganizationVerification) (verification : CurrentMembershipVerification) (purpose : pystr)
    (snapshot : TrustedScopeSnapshot) : result AuthenticatedInvocation :=
  try_except
    (try_except
       (_construct_authenticated_http_invocation L0 request_id (va_organization_ref auth) organization
          (va_user_ref auth) (va_principal_ref auth) (va_membership_ref auth) (va_membership_version auth) verification
          (va_agent_version_ref auth) (va_authenticated_application_ref auth) (va_authentication_binding_ref auth)
          purpose received_at snapshot)
       (λ e, bool_decide (e = InvalidTrustedScopeSnapshot)) (Err TrustedAuthorityUnavailable))
    type_or_value (Err TransportAuthenticationFailed).

Definition scope_identity (auth : VerifiedAuthenticationContext) (verification : CurrentMembershipVerification)
    (purpose : pystr) : result ScopeAuthorityIdentity :=
  let f := cmv_facts verification in
  new_ScopeAuthorityIdentity L0
    (mkScopeIdentity (m_organization_id f) (m_user_id f) (m_membership_id f) (m_membership_version f) (m_policy_epoch f)
       (m_principal_ref f) (va_agent_version_ref auth) purpose (m_request_id f) (m_authentication_binding_ref f)
       (m_checked_at f) (m_materialized_projection_session f) (m_active_runtime_release f)).

(** [Runtime._requires_active_scope_authority] *)
Definition _requires_active_scope_authority (request : RuntimeRequest) : bool :=
  match require_available (_required_capability_for_request request (rc_acquire_capability config))
          (bool_decide (is_Some (rc_citation_profile config))) with Ok _ => true | Err _ => false end.
Definition current_scope (request : RuntimeRequest) (identity : ScopeAuthorityIdentity) : result TrustedScopeSnapshot :=
  if _requires_active_scope_authority request then in_scope I identity
  else _missing_trusted_scope L0 (in_missing_scope I) identity.

Definition requested_package_schema (v1 : bool) : pystr :=
  if v1 then PACKAGE_SCHEMA_REF_V1 else PACKAGE_SCHEMA_REF_V0.
Definition require_release (v1 : bool) (verification : CurrentMembershipVerification) : result unit :=
  match m_active_runtime_release (cmv_facts verification) with
  | None => Err ActiveReleaseUnavailable
  | Some r => require (bool_decide (ar_package_schema_ref (rel_value r) = requested_package_schema v1))
                ActiveReleaseUnavailable
  end.

Definition in_scope_context (v1 : bool) (auth : VerifiedAuthenticationContext) (request : RuntimeRequest)
    (request_id : pystr) (received_at now : datetime) (fresh : Z) (organization : ExistingOrganizationVerification)
    (verification : CurrentMembershipVerification) (purpose : pystr) (evidence_ref : option pystr)
    (snapshot : TrustedScopeSnapshot) : runtime_op http_response :=
  inv ← rpure (build_invocation auth request_id received_at organization verification purpose snapshot);
  delivery ← establish_delivery auth request verification inv purpose evidence_ref;
  match delivery with
  | None => mret (CitationNotAvailableResponse (inv_request_id inv))
  | Some dc =>
      outcome ← resolve E config inv dc L L' LA port port' fresh now request;
      document ← rpure (in_wire I outcome v1);
      mret (OutcomeResponse outcome document (inv_request_id inv))
  end.

Definition in_membership_context (v1 : bool) (auth : VerifiedAuthenticationContext) (request : RuntimeRequest)
    (request_id : pystr) (received_at now : datetime) (fresh : Z) (organization : ExistingOrganizationVerification)
    (purpose : pystr) (evidence_ref : option pystr) (verification : CurrentMembershipVerification) :
    runtime_op http_response :=
  rpure (require_release v1 verification) ;;
  identity ← rpure (try_except (scope_identity auth verification purpose) type_or_value
                      (Err TransportAuthenticationFailed));
  snapshot ← rpure (try_except (current_scope request identity) type_or_value (Err TrustedAuthorityUnavailable));
  with_exit (in_scope_exit I)
    (in_scope_context v1 auth request request_id received_at now fresh organization verification purpose evidence_ref
       snapshot).

(** The [except] clauses around the membership context. *)
Definition membership_clauses (request : RuntimeRequest) (request_id : pystr) (e : exn) : result http_response :=
  match e with
  | MembershipNotCurrent => citation_or request request_id TransportAuthenticationFailed
  | MembershipAuthorityUnavailable | PolicyEpochAuthorityUnavailable | ContextRunPersistenceUnavailable
  | EgressGrantIssuanceUnavailable | CitationAuthorityUnavailable | ScopeAuthorityUnavailable
  | ActiveReleaseUnavailable | TokenizerUnavailable | CandidateIndexUnavailable | InvalidTrustedScopeSnapshot =>
      Err TrustedAuthorityUnavailable
  | _ => Err e
  end.

(** [resolve_context]: [generated] is what the request-id factory returns, [received_at]
    and [now] what the clocks of the route and of the Runtime return. *)
Definition resolve_context (v1 : bool) (body : ResolveWire) (auth : VerifiedAuthenticationContext)
    (context_request_id evidence_ref : option pystr) (generated : pystr) (received_at now : datetime) (fresh : Z) :
    runtime_op http_response :=
  request ← rpure (_runtime_request_from_wire body);
  let request_id := match context_request_id with Some (c :: s) => c :: s | _ => generated end in
  rpure (require_route auth) ;;
  if negb (delivery_allowed auth request evidence_ref)
  then rpure (citation_or request request_id TransportAuthenticationFailed)
  else
    match identify auth request_id received_at with
    | Err e =>
        rpure (if bool_decide (e = OrganizationVerificationRejected) || type_or_value e
               then citation_or request request_id TransportAuthenticationFailed else Err e)
    | Ok (organization, identity) =>
        rexcept
          (verification ← rpure (in_membership I identity);
           with_exit (in_membership_exit I)
             (in_membership_context v1 auth request request_id received_at now fresh organization
                (_purpose_for_wire body) evidence_ref verification))
          (membership_clauses request request_id)
    end.
End Handler.
