(* ===== verification/IngressFacts.v ===== *)
(** * What the resolve route guarantees

    The handler taken apart, what a response of the Runtime says about the authenticated
    caller, and the answers that reveal nothing. *)

From S2P Require Import Prelude Codec Sha256 Datetime Json ReleaseLineage Budget Scope Evidence Materialized Trusted Egress Kernel KernelFacts DeliveryEvidence Package Citation ContextRun Runtime RuntimeFacts Ingress.

(** ** Steps *)

Lemma with_exit_Ok {A} exit (m : runtime_op A) s s' a :
  with_exit exit m s = (s', Ok a) ↔ m s = (s', Ok a) ∧ exit None = None.
Proof. unfold with_exit. destruct (m s) as [s1 [x|e]]; destruct (exit None); naive_solver. Qed.

Lemma rexcept_Ok {A} (m : runtime_op A) h s s' a :
  rexcept m h s = (s', Ok a) ↔ m s = (s', Ok a) ∨ ∃ e, m s = (s', Err e) ∧ h e = Ok a.
Proof.
  unfold rexcept. destruct (m s) as [s1 [x|e]].
  - split; [by left|]. intros [H|(e & [=] & _)]. done.
  - split; [intros [= -> H]; right; by exists e|]. intros [[=]|(e' & [= -> ->] & ->)]. done.
Qed.

Lemma try_except_raise {A} (m : result A) catch e a : try_except m catch (Err e) = Ok a → m = Ok a.
Proof. destruct m as [x|e']; cbn; [done|]. by destruct (catch e'). Qed.

(** ** Deliveries *)

Lemma direct_delivery_Ok purpose application binding at_ dc :
  _construct_direct_delivery_context purpose application binding at_ = Ok dc →
  dc = mkTrustedDeliveryContext purpose application binding at_ AUTHENTICATED_DIRECT_INGRESS None None None None None.
Proof.
  unfold _construct_direct_delivery_context. intros H.
  apply bind_Ok in H as (? & _ & H). by apply bind_Ok in H as (? & _ & <-%Ok_inj).
Qed.

Lemma private_delivery_Ok purpose application binding at_ destination consumer audience resolution profile dc :
  _construct_private_delivery_context purpose application binding at_ destination consumer audience resolution profile
    = Ok dc →
  dc = mkTrustedDeliveryContext purpose application binding at_ REDEEMED_PRIVATE_DELIVERY_EVIDENCE (Some destination)
         (Some consumer) (Some audience) (Some resolution) (Some profile).
Proof.
  unfold _construct_private_delivery_context. intros H. apply bind_Ok in H as (? & _ & H).
  apply bind_Ok in H as (? & _ & H). by apply bind_Ok in H as (? & _ & <-%Ok_inj).
Qed.

Lemma redemption_matches_spec e r :
  redemption_matches e r = true →
  re_destination_ref e = dr_destination_ref r ∧ re_consumer_ref e = dr_consumer_ref r
  ∧ re_audience_digest e = dr_audience_digest r ∧ re_purpose e = dr_purpose r
  ∧ re_authenticated_service_ref e = dr_authenticated_service_ref r
  ∧ re_authentication_binding_ref e = dr_authentication_binding_ref r
  ∧ dt_us (re_issued_at e) ≤ dt_us (dr_redeemed_at r) < dt_us (re_expires_at e).
Proof.
  unfold redemption_matches, dt_leb, dt_ltb. rewrite !andb_true_iff, !bool_decide_eq_true, Z.leb_le, Z.ltb_lt.
  intros; destruct_and?; done.
Qed.

Lemma redeem_evidence_Ok L session request answer calls e :
  redeem_private_delivery_evidence L session request answer = (calls, Ok e) →
  calls = [request] ∧ answer request = Ok (Some e) ∧ redemption_matches e request = true.
Proof.
  unfold redeem_private_delivery_evidence. destruct (_require_active_delivery_evidence_redemption_session _ _); [|done].
  destruct (answer request) as [[x|]|]; [|done..]. intros H. apply pair_equal_spec in H as [<- H].
  by apply bind_Ok in H as ([] & ?%require_Ok & <-%Ok_inj).
Qed.

Section IngressFacts.
Context {nesting : NestingLimit}.
Context {Port : MaterializedProjectionPort}.
Context (I : ingress_env) (E : runtime_env) (config : runtime_config).
Context (L0 L L' LA : lifetimes) (port port' : epoch_port).

(** The delivery a context is bound to: the route's own direct delivery, or the private
    destination of the authenticated binding, redeemed once with the presented evidence
    and valid at the time of the request. *)
Definition delivery_bound (auth : VerifiedAuthenticationContext) (inv : AuthenticatedInvocation) (purpose : pystr)
    (evidence_ref : option pystr) (dc : TrustedDeliveryContext) (before after : list event) : Prop :=
  dc_purpose dc = purpose
  ∧ dc_authenticated_application_ref dc = va_authenticated_application_ref auth
  ∧ dc_delivery_binding_ref dc = va_authentication_binding_ref auth
  ∧ match evidence_ref with
    | None =>
        va_private_delivery_binding auth = None ∧ dc_construction_provenance dc = AUTHENTICATED_DIRECT_INGRESS
        ∧ after = before
    | Some ref =>
        ∃ b encoded digest redemption e,
          va_private_delivery_binding auth = Some b ∧ dc_construction_provenance dc = REDEEMED_PRIVATE_DELIVERY_EVIDENCE
          ∧ encode_utf8 ref = Ok encoded ∧ dr_evidence_digest redemption = sha256 encoded
          ∧ private_delivery_audience_digest_for_binding (env_canon E) (m_organization_id (ua_facts (inv_user_actor inv)))
              (m_membership_id (ua_facts (inv_user_actor inv))) (m_membership_version (ua_facts (inv_user_actor inv)))
              (vb_destination_ref b) (vb_consumer_ref b) = Ok digest
          ∧ dc_destination_ref dc = Some (vb_destination_ref b) ∧ dc_consumer_ref dc = Some (vb_consumer_ref b)
          ∧ dc_audience_digest dc = Some digest
          ∧ in_redeem I before redemption = Ok (Some e)
          ∧ dt_us (re_issued_at e) ≤ dt_us (inv_received_at inv) < dt_us (re_expires_at e)
          ∧ after = before ++ [EEvidenceRedeemed redemption]
    end.

Lemma redemption_request_Ok auth binding inv purpose ref r :
  redemption_request E auth binding inv purpose ref = Ok r →
  ∃ encoded digest, encode_utf8 ref = Ok encoded
    ∧ private_delivery_audience_digest_for_binding (env_canon E) (m_organization_id (ua_facts (inv_user_actor inv)))
        (m_membership_id (ua_facts (inv_user_actor inv))) (m_membership_version (ua_facts (inv_user_actor inv)))
        (vb_destination_ref binding) (vb_consumer_ref binding) = Ok digest
    ∧ dr_evidence_digest r = sha256 encoded ∧ dr_authenticated_service_ref r = va_authenticated_application_ref auth
    ∧ dr_authentication_binding_ref r = va_authentication_binding_ref auth
    ∧ dr_destination_ref r = vb_destination_ref binding ∧ dr_consumer_ref r = vb_consumer_ref binding
    ∧ dr_audience_digest r = digest ∧ dr_purpose r = purpose ∧ dr_redeemed_at r = inv_received_at inv.
Proof.
  unfold redemption_request. intros H. apply bind_Ok in H as (encoded & He & H).
  apply bind_Ok in H as (digest & Hd & H). exists encoded, digest. split; [done|]. split; [done|].
  unfold new_PrivateDeliveryEvidenceRedemption in H.
  do 9 (apply bind_Ok in H as (? & _ & H)). by apply Ok_inj in H as <-.
Qed.

Lemma establish_delivery_Ok auth request verification inv purpose ref s s' dc :
  delivery_allowed auth request ref = true →
  establish_delivery I E L0 auth request verification inv purpose ref s = (s', Ok (Some dc)) →
  delivery_bound auth inv purpose ref dc (rt_events s) (rt_events s').
Proof.
  unfold establish_delivery, delivery_bound, delivery_allowed. intros Hallowed H. destruct ref as [ref|].
  - destruct (va_private_delivery_binding auth) as [binding|]; [|by apply rpure_Ok in H as [_ ?]].
    destruct (m_delivery_evidence_redemption_session _) as [session|]; [|by apply rpure_Ok in H as [_ ?]].
    apply rbind_Ok in H as (? & r & [-> Hr%try_except_raise]%rpure_Ok & H).
    apply redemption_request_Ok in Hr as (encoded & digest & He & Hd & Hx & Hsv & Hbd & Hds & Hcs & Ha & Hp & Ht).
    apply rbind_Ok in H as (s1 & redeemed & (calls & Hc & _ & _ & Hev)%with_port_Ok & H).
    destruct redeemed as [e|]; [|by apply rret_Ok in H as [_ ?]].
    destruct (redeem_private_delivery_evidence _ _ _ _) as [calls' rr] eqn:Er.
    apply pair_equal_spec in Hc as [-> Hc].
    assert (rr = Ok e) as ->.
    { destruct rr as [x|x]; cbn in Hc; [by apply Ok_inj in Hc as [= ->]|].
      destruct x; try (by destruct request); try done; cbn in Hc; by destruct (type_or_value _). }
    apply redeem_evidence_Ok in Er as (-> & Hans & (H1 & H2 & H3 & H4 & H5 & H6 & H7 & H8)%redemption_matches_spec).
    apply rbind_Ok in H as (? & dc' & [-> ->%private_delivery_Ok]%rpure_Ok & H). apply rret_Ok in H as [-> [= ->]]. cbn.
    split_and!; [congruence|congruence|congruence|].
    exists binding, encoded, digest, r, e. rewrite <- Ht. split_and!; try done; congruence.
  - destruct (va_private_delivery_binding auth); [done|].
    apply rbind_Ok in H as (? & dc' & [-> ->%direct_delivery_Ok]%rpure_Ok & H). by apply rret_Ok in H as [-> [= ->]].
Qed.

(** ** The caller *)

(** The trusted inputs name the authenticated caller and nobody else. *)
Record caller_bound (auth : VerifiedAuthenticationContext) (purpose request_id : pystr) (received_at : datetime)
    (verification : CurrentMembershipVerification) (inv : AuthenticatedInvocation) : Prop := {
  cb_facts : ua_facts (inv_user_actor inv) = cmv_facts verification;
  cb_organization : uuid_str (m_organization_id (cmv_facts verification)) = va_organization_ref auth;
  cb_proof : uuid_str (eov_organization_id (inv_organization_verification inv)) = va_organization_ref auth;
  cb_user : uuid_str (m_user_id (cmv_facts verification)) = va_user_ref auth;
  cb_membership : uuid_str (m_membership_id (cmv_facts verification)) = va_membership_ref auth;
  cb_version : m_membership_version (cmv_facts verification) = va_membership_version auth;
  cb_principal : m_principal_ref (cmv_facts verification) = va_principal_ref auth
    ∧ inv_principal_ref inv = va_principal_ref auth;
  cb_request : inv_request_id inv = request_id ∧ m_request_id (cmv_facts verification) = request_id;
  cb_snapshot : ts_purpose (inv_trusted_scope_snapshot inv) = purpose
    ∧ ts_agent_version_ref (inv_trusted_scope_snapshot inv) = va_agent_version_ref auth
    ∧ ts_principal_ref (inv_trusted_scope_snapshot inv) = va_principal_ref auth;
  cb_received : inv_received_at inv = received_at
}.

Lemma build_invocation_Ok auth request_id received_at organization verification purpose snapshot inv :
  build_invocation L0 auth request_id received_at organization verification purpose snapshot = Ok inv →
  caller_bound auth purpose request_id received_at verification inv.
Proof.
  unfold build_invocation, _construct_authenticated_http_invocation. intros H%try_except_raise%try_except_raise.
  do 4 (apply bind_Ok in H as (? & _ & H)). apply bind_Ok in H as (? & Ho%require_Ok & H).
  apply bind_Ok in H as (actor & (? & _ & [= <-])%bind_Ok & H). cbn [ua_facts] in H.
  apply bind_Ok in H as (? & (Ha & _)%require_Ok%andb_true_iff & H).
  apply bind_Ok in H as (? & _ & H). apply bind_Ok in H as (? & Hsm%require_Ok & <-%Ok_inj).
  unfold organization_matches, actor_matches, snapshot_matches in *. run_ok. rewrite ?Z.eqb_eq in *. split; done.
Qed.

(** ** The handler *)

Definition chosen_request_id (context_request_id : option pystr) (generated : pystr) : pystr :=
  match context_request_id with Some (c :: s) => c :: s | _ => generated end.

(** The run behind a response of the Runtime. *)
Record served (v1 : bool) (body : ResolveWire) (auth : VerifiedAuthenticationContext) (request_id : pystr)
    (received_at now : datetime) (fresh : Z) (evidence_ref : option pystr) (s s' : runtime_state)
    (outcome : ResolutionOutcome) (request : RuntimeRequest) (identity : MembershipIdentity)
    (verification : CurrentMembershipVerification) (inv : AuthenticatedInvocation) (dc : TrustedDeliveryContext)
    (s1 : runtime_state) : Prop := {
  sv_request : _runtime_request_from_wire body = Ok request;
  sv_route : in_route I auth = Ok (Some ROUTE_ALLOW);
  sv_identity : ∃ o, identify I auth request_id received_at = Ok (o, identity);
  sv_membership : in_membership I identity = Ok verification;
  sv_release : require_release v1 verification = Ok tt;
  sv_caller : caller_bound auth (_purpose_for_wire body) request_id received_at verification inv;
  sv_delivery : delivery_bound auth inv (_purpose_for_wire body) evidence_ref dc (rt_events s) (rt_events s1);
  sv_resolve : resolve E config inv dc L L' LA port port' fresh now request s1 = (s', Ok outcome)
}.

Lemma in_scope_context_Ok v1 auth request request_id received_at now fresh organization verification purpose ref
    snapshot s s' outcome doc rid :
  delivery_allowed auth request ref = true →
  in_scope_context I E config L0 L L' LA port port' v1 auth request request_id received_at now fresh organization
    verification purpose ref snapshot s = (s', Ok (OutcomeResponse outcome doc rid)) →
  ∃ inv dc s1, caller_bound auth purpose request_id received_at verification inv
    ∧ delivery_bound auth inv purpose ref dc (rt_events s) (rt_events s1)
    ∧ resolve E config inv dc L L' LA port port' fresh now request s1 = (s', Ok outcome)
    ∧ in_wire I outcome v1 = Ok doc ∧ rid = request_id.
Proof.
  unfold in_scope_context. intros Hallowed H.
  apply rbind_Ok in H as (? & inv & [-> Hinv%build_invocation_Ok]%rpure_Ok & H).
  apply rbind_Ok in H as (s1 & [dc|] & Hdc & H); [|by apply rret_Ok in H as [_ ?]].
  apply establish_delivery_Ok in Hdc; [|done].
  apply rbind_Ok in H as (s2 & o & Hres & H). apply rbind_Ok in H as (? & d & [-> Hd]%rpure_Ok & H).
  apply rret_Ok in H as [-> [= -> -> ->]]. exists inv, dc, s1. split_and!; try done. apply (cb_request _ _ _ _ _ _ Hinv).
Qed.

Lemma resolve_context_Ok v1 body auth context_request_id ref generated received_at now fresh s s' outcome doc rid :
  resolve_context I E config L0 L L' LA port port' v1 body auth context_request_id ref generated received_at now fresh s
    = (s', Ok (OutcomeResponse outcome doc rid)) →
  rid = chosen_request_id context_request_id generated ∧ in_wire I outcome v1 = Ok doc
  ∧ ∃ request identity verification inv dc s1,
      served v1 body auth rid received_at now fresh ref s s' outcome request identity verification inv dc s1.
Proof.
  unfold resolve_context. intros H. apply rbind_Ok in H as (? & request & [-> Hreq]%rpure_Ok & H). cbv zeta in H.
  fold (chosen_request_id context_request_id generated) in H.
  apply rbind_Ok in H as (? & [] & [-> Hroute]%rpure_Ok & H).
  destruct (delivery_allowed auth request ref) eqn:Hallowed; cbn [negb] in H;
    [|by apply rpure_Ok in H as [_ H]; destruct request].
  destruct (identify I auth _ received_at) as [[organization identity]|e] eqn:Hid;
    [|by apply rpure_Ok in H as [_ H]; destruct (_ || _); destruct request].
  apply rexcept_Ok in H as [H|(e & _ & H)]; [|by destruct e, request].
  apply rbind_Ok in H as (? & verification & [-> Hm]%rpure_Ok & H). apply with_exit_Ok in H as [H _].
  unfold in_membership_context in H. apply rbind_Ok in H as (? & [] & [-> Hrel]%rpure_Ok & H).
  apply rbind_Ok in H as (? & si & [-> _]%rpure_Ok & H). apply rbind_Ok in H as (? & snapshot & [-> _]%rpure_Ok & H).
  apply with_exit_Ok in H as [H _].
  apply in_scope_context_Ok in H as (inv & dc & s1 & Hc & Hd & Hres & Hw & ->); [|done].
  split; [done|]. split; [done|]. exists request, identity, verification, inv, dc, s1. split; try done; [|by eexists].
  unfold require_route in Hroute. by destruct (in_route I auth) as [[[| |]|]|].
Qed.

Lemma require_release_Ok v1 verification u :
  require_release v1 verification = Ok u →
  ∃ release, m_active_runtime_release (cmv_facts verification) = Some release
    ∧ ar_package_schema_ref (rel_value release) = requested_package_schema v1.
Proof.
  unfold require_release. destruct (m_active_runtime_release _) as [release|]; [|done].
  intros H%require_Ok%bool_decide_eq_true. by exists release.
Qed.

Lemma channel_of_delivery auth inv purpose ref dc before after c :
  require_channel dc (ChannelProfile c) = Ok tt → delivery_bound auth inv purpose ref dc before after →
  ∃ b, va_private_delivery_binding auth = Some b ∧ ch_destination_ref c = vb_destination_ref b
    ∧ ch_consumer_ref c = vb_consumer_ref b.
Proof.
  unfold require_channel, delivery_bound. intros Hch%require_Ok (_ & _ & _ & Hd).
  rewrite !andb_true_iff, !bool_decide_eq_true in Hch. destruct Hch as [[Hp Hdest] Hcons]. destruct ref as [ref|].
  - destruct Hd as (b & ? & ? & ? & ? & Hb & _ & _ & _ & _ & Hd & Hc & _). exists b. split; [done|]. split; congruence.
  - destruct Hd as (_ & Hd & _). congruence.
Qed.

(** C1: Content served by the route belongs to its authenticated caller.  For any answers
    of the authorities: when the handler responds with a resolved package, the route
    policy allowed the application, the invocation carries exactly the authenticated
    Organization, user, Membership with its version, principal, agent version and
    request, the scope snapshot was made for the purpose of this kind of request, and the
    release in force has the package schema of the path.  The delivery is the route's own
    direct one only if the caller has no private binding; a private binding is delivered
    to only with evidence redeemed in this request, for the binding's destination and
    consumer and within the evidence's lifetime.  The package is exactly a list of
    projections current in this request, every one in the caller's Organization and with
    the caller as principal; and a grant under a channel profile goes to the destination
    and consumer of the caller's binding. *)
Theorem response_belongs_to_caller v1 body auth context_request_id ref generated received_at now fresh s s' r doc rid :
  resolve_context I E config L0 L L' LA port port' v1 body auth context_request_id ref generated received_at now fresh s
    = (s', Ok (OutcomeResponse (OResolved r) doc rid)) →
  ∃ request identity verification inv dc s1 pr ps cite,
    served v1 body auth rid received_at now fresh ref s s' (OResolved r) request identity verification inv dc s1
    ∧ delivered_from E config inv dc L L' port port' request now s1 r pr ps cite
    ∧ Forall (λ p, uuid_str (cr_organization_id (candidate_ref p)) = va_organization_ref auth
                   ∧ principal_ref (lineage p) = va_principal_ref auth) ps
    ∧ (∃ release, m_active_runtime_release (cmv_facts verification) = Some release
         ∧ ar_package_schema_ref (rel_value release) = requested_package_schema v1)
    ∧ ∀ c, rc_egress_profile config = ChannelProfile c → is_Some (rs_egress_grant r) →
        ∃ b, va_private_delivery_binding auth = Some b ∧ ch_destination_ref c = vb_destination_ref b
          ∧ ch_consumer_ref c = vb_consumer_ref b.
Proof.
  intros (_ & _ & request & identity & verification & inv & dc & s1 & Hserved)%resolve_context_Ok.
  pose proof Hserved as [_ _ _ _ Hrel [Hf Ho _ _ _ _ [_ Hp] _ _ _] Hbound Hres].
  apply resolved_delivers in Hres as [(pr & ps & cite & Hdel) _].
  exists request, identity, verification, inv, dc, s1, pr, ps, cite. split; [done|]. split; [done|].
  destruct Hdel as [_ _ _ Hcur _ _ Hchannel]. split_and!.
  - eapply Forall_impl; [exact Hcur|].
    intros p (l & la & fp & ops & _ & _ & _ & _ & _ & Hlin & _ & _ & Horg). rewrite Horg, Hf, Hlin. done.
  - by eapply require_release_Ok.
  - intros c Hc Hg. eapply channel_of_delivery; [|exact Hbound]. rewrite <- Hc. by apply Hchannel.
Qed.

(** ** Refusals *)

(** The caller is not proven: the delivery does not fit the binding, the Organization or
    the identity is rejected, or the Membership is not current. *)
Definition caller_unproven (auth : VerifiedAuthenticationContext) (request : RuntimeRequest) (ref : option pystr)
    (request_id : pystr) (received_at : datetime) : Prop :=
  delivery_allowed auth request ref = false
  ∨ (∃ e, identify I auth request_id received_at = Err e
       ∧ bool_decide (e = OrganizationVerificationRejected) || type_or_value e = true)
  ∨ (∃ o i, identify I auth request_id received_at = Ok (o, i) ∧ in_membership I i = Err MembershipNotCurrent).

(** C7: A caller who is not proven learns nothing.  Whatever the reason, a delivery that
    does not fit the binding, a rejected Organization, a malformed identity or a
    Membership that is not current, the handler changes no state and calls no durable
    port, and its answer depends on the kind of the request alone: an opened citation is
    answered as not available, under the request's own id, and any other request fails
    authentication. *)
Theorem unproven_caller_learns_nothing v1 body auth context_request_id ref generated received_at now fresh s request :
  _runtime_request_from_wire body = Ok request → in_route I auth = Ok (Some ROUTE_ALLOW) →
  caller_unproven auth request ref (chosen_request_id context_request_id generated) received_at →
  resolve_context I E config L0 L L' LA port port' v1 body auth context_request_id ref generated received_at now fresh s
    = (s, match request with
          | ROpenCitation _ => Ok (CitationNotAvailableResponse (chosen_request_id context_request_id generated))
          | _ => Err TransportAuthenticationFailed
          end).
Proof.
  intros Hreq Hroute Hun. unfold resolve_context, require_route, caller_unproven in *. rewrite Hreq, Hroute.
  unfold mbind at 1, runtime_bind at 1, rpure at 1. cbv zeta iota beta.
  fold (chosen_request_id context_request_id generated).
  unfold mbind at 1, runtime_bind at 1, rpure at 1. cbv iota beta.
  destruct (delivery_allowed auth request ref) eqn:Hallowed; cbn [negb]; [|by destruct request].
  destruct Hun as [Hun|[(e & -> & Hun)|(o & i & -> & Hun)]]; [done|rewrite Hun; by destruct request|].
  cbv iota beta. unfold rexcept, mbind, runtime_bind, rpure. rewrite Hun. by destruct request.
Qed.

End IngressFacts.
