(* ===== verification/IngressRun.v ===== *)
(** * Concrete requests through the resolve route

    A caller with a private binding who presents evidence, over the Article, release and
    ports of [RuntimeRun], under a channel egress profile; the instances of the theorems
    about the route are taken from it. *)

From S2P Require Import Prelude Codec Sha256 Datetime Json ReleaseLineage Budget Scope Evidence Materialized Trusted Egress Canonical Kernel KernelFacts KernelRun DeliveryEvidence Package Citation ContextRun Runtime RuntimeFacts RuntimeRun Ingress IngressFacts.

#[local] Existing Instance cpython_nesting.

Definition web_binding : VerifiedPrivateDeliveryBinding := mkBinding (lit "room") (lit "bot") (lit "private").
Definition web_authentication (b : option VerifiedPrivateDeliveryBinding) : VerifiedAuthenticationContext :=
  mkAuthentication (uuid_str (mkUUID 5)) (uuid_str (mkUUID 2)) (lit "principal") (uuid_str (mkUUID 3)) 7 (lit "agent")
    (lit "app") (lit "binding") b.
Lemma web_authentication_accepted :
  new_VerifiedPrivateDeliveryBinding web_binding = Ok web_binding
  ∧ new_VerifiedAuthenticationContext (web_authentication (Some web_binding)) = Ok (web_authentication (Some web_binding)).
Proof. split; vm_compute; reflexivity. Qed.

(** The Membership authority hands out the sessions of the request, redemption among them. *)
Definition web_facts : MembershipFacts :=
  mkMembershipFacts (mkUUID 5) (mkUUID 2) (mkUUID 3) 7 (lit "principal") (lit "request") (lit "binding") run_time 5
    run_epoch (Some run_session) (Some (mkAuthoritySession 4 3)) (Some (mkAuthoritySession 7 3))
    (Some (mkAuthoritySession 5 3)) (Some (mkAuthoritySession 6 3)) (Some (mkActiveRelease 0 res_release)).
Definition web_scope (i : ScopeAuthorityIdentity) : TrustedScopeSnapshot :=
  mkTrustedScopeSnapshot (si_organization_id i) (si_user_id i) (si_membership_id i) (si_membership_version i)
    (si_policy_epoch i) (si_principal_ref i) (si_agent_version_ref i) (si_purpose i) (si_request_id i)
    (si_authentication_binding_ref i) (si_checked_at i) run_operands 2.
Definition web_redeem (_ : list event) (r : PrivateDeliveryEvidenceRedemption) :
    result (option RedeemedPrivateDeliveryEvidence) :=
  Ok (Some (mkRedeemedEvidence (dr_organization_id r) (dr_user_id r) (dr_membership_id r) (dr_membership_version r)
    (dr_authenticated_service_ref r) (dr_authentication_binding_ref r) (dr_request_id r) (dr_destination_ref r)
    (dr_consumer_ref r) (dr_delivery_kind r) (dr_purpose r) (dr_audience_digest r) (dr_policy_epoch r) run_time
    (mkDatetime (719163 * us_per_day) (Some 0)) (lit "resolution") PRIVATE_DELIVERY_EVIDENCE_PROFILE)).
Definition web_ingress (membership : result CurrentMembershipVerification) : ingress_env := {|
  in_route _ := Ok (Some ROUTE_ALLOW);
  in_organization _ request_id at_ :=
    Ok (mkExistingOrganizationVerification (mkUUID 5) request_id (lit "binding") at_);
  in_membership _ := membership;
  in_membership_exit e := e;
  in_scope i := Ok (web_scope i);
  in_missing_scope := 2%nat;
  in_scope_exit e := e;
  in_redeem := web_redeem;
  in_wire _ _ := Ok (JObj [])
|}.
Definition web_current : ingress_env := web_ingress (Ok (mkCurrentMembershipVerification web_facts 1)).

Definition web_channel : ChannelEgressProfile :=
  mkChannelEgressProfile (lit "channel-egress") (lit "retention") (lit "sensitivity") (lit "issuer") (lit "bot")
    (lit "channel") (lit "room") (lit "region") (seconds 300).
Definition web_config : runtime_config :=
  mkConfig 600 run_budget (Some res_index) 10 4 None MATERIALIZED_ACQUIRE
    (Some (mkQueryKeyring 1 [(1, repeat 7 32)])) (ChannelProfile web_channel) (Some PRIVATE_FILE_CITATION_OPEN_PROFILE).

Definition web_run (I : ingress_env) (body : ResolveWire) (auth : VerifiedAuthenticationContext) (ref : option pystr) :
    runtime_state * result http_response :=
  resolve_context (Port := res_port) I res_env web_config run_lifetimes run_lifetimes run_lifetimes run_lifetimes
    run_authority run_authority true body auth None ref (lit "request") run_time run_time 1 res_state.
Definition web_acquire : ResolveWire := AcquireWire (lit "query") None None.
Definition web_open : ResolveWire := OpenCitationWire (res_reference (lit "cor_")).
Definition web_private : runtime_state * result http_response :=
  web_run web_current web_acquire (web_authentication (Some web_binding)) (Some (lit "evidence")).

Definition web_summary (o : runtime_state * result http_response) : option (list (list Z) * list Z * bool) :=
  match o with
  | (s, Ok (OutcomeResponse (OResolved r) _ _)) =>
      Some (bl_body <$> pk_blocks (rs_package r), event_kind <$> rt_events s, bool_decide (is_Some (rs_egress_grant r)))
  | _ => None
  end.
(** The evidence is redeemed, then the locator and the channel grant are issued and the
    run recorded. *)
Lemma web_private_result : web_summary web_private = Some ([lit "first"], [4; 1; 2; 3], true).
Proof. vm_compute. reflexivity. Qed.

Lemma web_resolved o bodies kinds granted :
  web_summary o = Some (bodies, kinds, granted) →
  ∃ s r doc rid, o = (s, Ok (OutcomeResponse (OResolved r) doc rid)) ∧ bl_body <$> pk_blocks (rs_package r) = bodies
    ∧ event_kind <$> rt_events s = kinds ∧ bool_decide (is_Some (rs_egress_grant r)) = granted.
Proof. destruct o as [s [[[r| |] doc rid|]|]]; try done. cbn. intros [= <- <- <-]. by exists s, r, doc, rid. Qed.

(** ** Instances *)

Lemma response_belongs_to_caller_witness :
  ∃ s r doc rid ps, web_private = (s, Ok (OutcomeResponse (OResolved r) doc rid))
    ∧ pk_blocks (rs_package r) = block_of <$> ps ∧ length ps = 1%nat
    ∧ Forall (λ p, uuid_str (cr_organization_id (candidate_ref p)) = uuid_str (mkUUID 5)
                   ∧ principal_ref (lineage p) = lit "principal") ps
    ∧ ch_destination_ref web_channel = vb_destination_ref web_binding.
Proof.
  destruct (web_resolved _ _ _ _ web_private_result) as (s & r & doc & rid & H & Hb & _ & Hg).
  destruct (response_belongs_to_caller (nesting := cpython_nesting) (Port := res_port) web_current res_env web_config run_lifetimes run_lifetimes
              run_lifetimes run_lifetimes run_authority run_authority true web_acquire
              (web_authentication (Some web_binding)) None (Some (lit "evidence")) (lit "request") run_time run_time 1
              res_state s r doc rid H)
    as (request & identity & verification & inv & dc & s1 & pr & ps & cite & _ & Hdel & Hall & _ & Hch).
  pose proof (df_blocks _ _ _ _ _ _ _ _ _ _ _ _ _ _ _ Hdel) as Hbl.
  exists s, r, doc, rid, ps. split; [exact H|]. split; [exact Hbl|]. split; [|split; [exact Hall|]].
  - rewrite Hbl in Hb. apply (f_equal length) in Hb. rewrite !length_fmap in Hb. exact Hb.
  - destruct (Hch web_channel eq_refl (bool_decide_eq_true_1 _ Hg)) as (b & Hbind & Hd & _).
    unfold web_authentication in Hbind. cbn [va_private_delivery_binding] in Hbind. injection Hbind as <-. exact Hd.
Defined.

(** A Membership that is no longer current, for either kind of request. *)
Lemma unproven_caller_learns_nothing_witness :
  web_run (web_ingress (Err MembershipNotCurrent)) web_open (web_authentication None) None
    = (res_state, Ok (CitationNotAvailableResponse (lit "request")))
  ∧ web_run (web_ingress (Err MembershipNotCurrent)) web_acquire (web_authentication None) None
    = (res_state, Err TransportAuthenticationFailed).
Proof.
  split.
  - refine (unproven_caller_learns_nothing (nesting := cpython_nesting) (Port := res_port) (web_ingress (Err MembershipNotCurrent)) res_env web_config
              run_lifetimes run_lifetimes run_lifetimes run_lifetimes run_authority run_authority true web_open
              (web_authentication None) None None (lit "request") run_time run_time 1 res_state res_open _ _ _);
      [vm_compute; reflexivity|reflexivity|]. right; right. eexists _, _. split; [vm_compute; reflexivity|reflexivity].
  - refine (unproven_caller_learns_nothing (nesting := cpython_nesting) (Port := res_port) (web_ingress (Err MembershipNotCurrent)) res_env web_config
              run_lifetimes run_lifetimes run_lifetimes run_lifetimes run_authority run_authority true web_acquire
              (web_authentication None) None None (lit "request") run_time run_time 1 res_state res_acquire _ _ _);
      [vm_compute; reflexivity|reflexivity|]. right; right. eexists _, _. split; [vm_compute; reflexivity|reflexivity].
Defined.
